(* ===== verification/_CoqProject ===== *)
-Q . S2P
Prelude.v
PyText.v
PyValue.v
Regex.v
Contracts.v
ContractsFacts.v
ContractsResults.v
ContractsTheorems.v
Utf8.v
Spop.v
SpopRoundTrip.v
SpopHost.v
SpopTheorems.v
SpopWitnesses.v
Observation.v
ObservationRuntime.v
ObservationFramework.v
ObservationEvidence.v
ObservationDocument.v
PyEquality.v
ObservationFacts.v
ObservationPass.v
ObservationTheorems.v
ObservationPaths.v
ObservationWitnesses.v
Url.v
Protocol.v
ProtocolOutcome.v
ProtocolCommand.v
ProtocolTheorems.v
ProtocolTotal.v
ProtocolWitnesses.v
Shell.v
Evidence.v
EvidenceObservation.v
EvidenceTheorems.v
EvidenceUrl.v
EvidenceCommand.v
EvidenceFeatures.v
EvidenceAccepted.v
JsonSchema.v
JsonSchemaSpec.v
JsonSchemaTheorems.v
Baseline.v
BaselineTheorems.v
Semantics.v
SemanticsTheorems.v
CanonicalEvent.v
FirstByte.v
PassProtocol.v
PassPhase4.v
PassTheorems.v
PassOutcomes.v
ResultIdentity.v
IdentityTheorems.v
CaseArtifacts.v
CaseRecord.v
CaseBinding.v
CaseTheorems.v
CasePass.v
CaseConfig.v
CaseClient.v
CaseWitnesses.v
NginxProtocol.v
ProtocolRecord.v
NginxProtocolTheorems.v
ProtocolRecordTheorems.v
NativeRecord.v
Derivation.v
Http11.v
NativeContract.v
NativeTheorems.v
DerivationTheorems.v
Catalog.v
NativeFiles.v
NativeBundle.v
NativeBundleTheorems.v
DerivationWitnesses.v
Selection.v
SelectionTheorems.v
