(* ===== verification/Prelude.v ===== *)
(** * Verification of the ModSecurity test framework

    The framework tests ModSecurity connectors (HAProxy, Envoy, nginx and others):
    it drives a host, collects what the host and the clients observed, and decides
    whether that evidence proves what a test claims.  The development models the
    code that decides.  It is translated from these files:

    - [src/modsecurity_test_framework/contracts.py], the public contract:
      expectations, catalog, capability manifests, results;
    - [i12_spop_wire.py], [i12_spop_cases.py] and [i12_spop_host.py] of
      [src/connector_suite/adapters/haproxy/harness/], the observer of the SPOP
      protocol between HAProxy and its agent;
    - [src/connector_suite/modsecurity_connector_ci/runtime/contracts/runtime_observation.py],
      the verdict on an observation of a real host;
    - [src/ci/checks/protocol/protocol_client.py], the client that forces an HTTP
      version through curl, and [check_protocol_evidence.py] beside it, which judges
      the artifacts the client leaves;
    - [src/ci/checks/catalog/no_crs_baseline.py], which judges the cases of a run: the
      JSON schema validator, the catalog and the capability manifest, the selection of a
      plan, the runtime evidence of a record, the normalisation of a case record and its
      binding to the run, the checks of a PASS and the finalisation of the run;
    - [src/modsecurity_test_framework/result_identity.py], the identity of a result and the
      sealed receipt of a client observation;
    - [src/ci/lib/nginx_migration_config_contracts.py], closed contracts of configuration
      cases;
    - [src/tests/runners/nginx_protocol.py], which reopens a retained HTTP/2 or HTTP/3
      bundle of nginx and recomputes what it proves;
    - [nginx_native_operation_bundle.py], [nginx_native_operation_projection.py] and
      [nginx_native_operation_contract.py] beside it, which reopen the bundle of a native
      operation and derive facts from its proof, with the authority of a run
      ([nginx_native_operation_authority.py]), the check of native writes of
      [nginx_lifecycle_sequence.py] and the parser of captured responses of
      [nginx_http11_framing.py];
    - [src/modsecurity_test_framework/connector_context.py], where the test sources of a connector are found.

    How the parts interact.  A catalog test ([contracts.py]) has an expectation; a
    connector's result is normalised and matched against it.  A runtime observation
    carries such results with identities, evidence files and digests, and passes only
    when all of them agree.  The SPOP observer and the protocol client produce the
    evidence for HAProxy and for HTTP/2 and HTTP/3.  The checker accepts what the
    client wrote.  The no-CRS baseline selects from its catalog the cases a host can run,
    projects what hosts and clients reported onto
    canonical fields, checks a PASS against the canonical event of its case, against the
    retained bundle of a configuration test or against the receipt of a client observation,
    binds the record to its run, derives the records that other records and events prove,
    and the finalisation turns the case records of a run into its status.

    ** Conventions

    A Python value is a [pyval] (PyValue.v): [None], [bool], [int], a finite [float]
    with its printed form, [str], [list] and [dict]; a dictionary is the list of its
    items in insertion order.  A [str] is a [string] of code points below 256, the
    codec of Utf8.v works on all code points.  Of NaN and the infinities
    only the texts matter, which the encoder of canonical JSON refuses.  A function that may raise returns [res], whose errors are the
    exception classes of the code ([exn] below); [let*] is the sequence of two calls.
    Definitions keep the names of the code; a helper without a counterpart stands for
    an expression of the function the manifest names.  Sets of strings are lists, in
    the order of their display; where the code sorts, the model sorts.

    Code and services outside the repository are parameters: SHA-256 (a function from
    bytes to hexadecimal text), the answers of the operating system (the record [os] of
    ObservationEvidence.v and those of the files that read), the decoder of a JSON text, what curl says of itself and of each request, the
    recognition of IP literals, the content of a file (the event schema and the validated
    catalog among them).  Their hypotheses are named in
    the theorems and have concrete instances in the witness files.

    ** The parts

    Shared: Prelude.v (exceptions, the error monad, its lemmas and tactics), PyText.v
    and PyValue.v (operations of [str], [bytes], [dict], [==], [repr], [json.dumps]),
    PyEquality.v (what [==] says of the items of two values),
    Regex.v (patterns: derivatives decide the language of a pattern), Utf8.v, Url.v
    and Shell.v ([urlsplit], [shlex], [splitlines]).

    The contract: Contracts.v has one definition per validator, query and matcher of
    [contracts.py]; a normalised expectation stays a dictionary, a normalised catalog
    record, profile or manifest is a record.  ContractsFacts.v has the closed union of
    normalised expectations, ContractsResults.v the abstract expectations and the
    refinement, ContractsTheorems.v the theorems:
    - matching refines satisfaction: [validate_test_result] accepts exactly the results
      that satisfy the meaning of the expectation, and raises only [ContractError];
    - [normalize_expectation] is the identity on what it returns; sensitive fields are
      refused; the catalog queries return exactly the records they promise; selection
      partitions the inventory by capability states.

    SPOP: Spop.v (the reader, integers, typed data, frames, the encoder, the
    inspection of a request sample), SpopHost.v (the relay and the trace checks);
    the state of a reader is the bytes still to be read, that of the relay the pending
    bytes and the frames it passed on.  SpopRoundTrip.v and SpopTheorems.v
    show round trips of integers, header blocks and NOTIFY frames, that a decoder fails
    closed, that a damaged NOTIFY keeps its envelope and is refused, that the relay cuts
    the stream into the frames of its concatenation however it is split into reads, and
    that a trace without integrity findings correlates each ACK with one NOTIFY.

    Runtime observations: Observation.v (issues, vocabularies, the bounded metadata
    filter), ObservationRuntime.v (identity, assertions, isolation, cleanup),
    ObservationFramework.v (Framework cases), ObservationEvidence.v (paths and the
    descriptor-relative reader), ObservationDocument.v (provenance and verdict).  A
    validator is a run that returns the findings it reported; the lists of the code's
    [_Issues] object are read off the run.  ObservationPass.v states what a PASS means
    ([verified]) and proves it, ObservationTheorems.v that validation returns for
    every observation whose numbers can be written, unless its evidence cannot be read, and that the metadata filter with its explicit stack
    is a recursive search, ObservationPaths.v that paths and reader stay below the root.

    The protocol client: Protocol.v (configuration, preflight, command, redaction),
    ProtocolOutcome.v (outcome, sidecar, provenance, evidence gaps, status, and the run with
    its follow-up).  ProtocolCommand.v shows that the command forces the requested protocol
    and that the redacted text hides the caller's values, ProtocolTheorems.v that exit code
    0 needs complete evidence of the requested protocol, what the sidecar vocabulary and the
    follow-up guarantee, ProtocolTotal.v which configurations let no exception leave the
    client.

    The evidence checker: Evidence.v (the client's texts) and EvidenceObservation.v
    (observations and verdict).  EvidenceTheorems.v shows what ordinary and strict
    evidence guarantee; EvidenceUrl.v, EvidenceCommand.v, EvidenceFeatures.v and
    EvidenceAccepted.v compose client and checker: the artifacts
    of every successful run with a status are accepted.

    The no-CRS baseline: JsonSchema.v translates the schema validator and its patterns;
    JsonSchemaSpec.v has an abstract syntax of schemas with its meaning, and
    JsonSchemaTheorems.v the refinement.  Baseline.v has the finalisation of a run; its
    state is the list of records with the index by identifier.  BaselineTheorems.v shows
    that a deprecated alias passes only with its replacement, and that every
    planned case is recorded and what the status PASS of a run asserts.

    Catalog.v validates the catalog and the capability manifest, Selection.v classifies the
    cases, checks the reuse graph of the derived invocations and makes the plan of a run.
    SelectionTheorems.v shows what a catalog and a manifest without errors are, that the walk
    over the reuse graph returns and reports nothing exactly when no case reuses itself, that
    a stored plan which passes its check selects exactly the cases a host can run, and that
    the plan a selection makes passes that check.

    Semantics.v has the vocabularies of the semantic fields, their normalisers and the
    projection of a raw record and its events; CanonicalEvent.v the identifiers of an
    event and the checks of a canonical event (the schema validator among them),
    FirstByte.v the choice of the event of a case and the pair of events of a first-byte
    case, PassProtocol.v and PassPhase4.v the checks of a PASS.  The errors a validator
    appends to are the concatenation of what its statements report.  SemanticsTheorems.v
    shows that the projection is canonical and keeps no raw QUIC identifier, PassTheorems.v
    that a claim of HTTP/2 or HTTP/3 needs the whole path, PassOutcomes.v what the outcome
    of a phase-4 PASS means.

    ResultIdentity.v translates the identity of results.  IdentityTheorems.v shows that the
    text of [json.dumps] determines the fields it was printed from, and that the digest of a
    receipt therefore binds every field of a client observation, up to a collision of
    SHA-256.

    CaseArtifacts.v has the receipts of configuration tests and their retained bundles (what
    the operating system answers is the record [bundle_system]), CaseRecord.v
    [normalize_case_record], CaseBinding.v the binding of records to the run and the checks
    of a stored PASS.  A record the code changes in place is returned changed.
    CaseTheorems.v holds the lemmas they share: the fields of a record through the
    normalisation, where its event comes from, and that looking the event up again with the
    transactions of the record finds the same event.  CasePass.v follows a phase-4 PASS from
    the raw record to the bound one, CaseConfig.v a passing configuration case down to the
    bytes of its files, and CaseClient.v shows that client observations stay client
    observations.

    NginxProtocol.v reopens a retained protocol bundle: client trace, access records, native
    events and QUIC datagrams; NginxProtocolTheorems.v has the facts of what the bundle
    proves, and that the report of a datagram depends on its headers alone.
    ProtocolRecord.v normalises the record of such a bundle, NativeRecord.v that of a
    native operation.  ProtocolRecordTheorems.v shows that the record of a protocol bundle
    passes only when the reopened bundle proves it and the receipt is that of its bytes, and
    that normalising twice gives the same record; NativeTheorems.v what a PASS of a
    native operation asserts, whatever derives its facts.

    Http11.v parses the captured bytes of a response and shows that it is accepted exactly
    under the one framing its header block declares; offsets into the bytes are the rest of
    the bytes.  NativeContract.v has the projection of a proof and the closed contract that
    maps every field a case expects to values and to the places they come from; a proof is
    its entries and its retained bytes.  NativeTheorems.v shows that the events of a proof
    respect the life of their transactions, that every origin is proved by retained bytes,
    and, with the facts of this contract in place of the argument of NativeRecord.v, that a
    passing native record is grounded in the bytes of its bundle.

    NativeFiles.v has the connector context, the reader of owned files, the closed set of
    the sources of an operation, the bundle reader and the authority of a run; NativeBundle.v
    what makes a proof from a record and the directory it names.  The mutable fields of a
    reader (its digests and its observations) are the state of the monad [sealing]; what the
    operating system answers is the record [os], a directory descriptor being the node it was
    opened on, and the sources are verified again with the answers of a later [os].
    NativeBundleTheorems.v has the postconditions of the monad and shows that every retained
    leaf of a proof was read below the root of the bundle and sealed, that the helper ran
    between two verifications of the same sources, that the snapshots of the host are those
    of the authority; and it composes reader, contract and normaliser: a passing record of a
    native operation rests on bytes read from its bundle.

    Derivation.v has the records derived from source payloads, events, phase-4 outcomes,
    declared reuses and deprecated aliases, and the composition of all normalisations of a
    finalisation.  DerivationTheorems.v proves, against the interface [JudgesClaims] of the
    normaliser, that every passing record of a finished run is grounded in an observed case, and
    discharges the interface for the normaliser the code passes.

    The files with Witnesses in their names apply each theorem at concrete inputs and
    exhibit the behaviours the manifest lists as findings.

    ** Bounds and fuel

    The loops of the code over a list are [mapM], [forM] and [foldM].  Other
    recursions are bounded by what they consume: the SPOP reader by the bytes left, the
    metadata walk by the budget the code itself keeps, [re_parse] by four times the
    length of the pattern (each call consumes a character or enters one of three levels
    of the grammar).  [schema_errors_at] is the one recursion without a bound: references
    may form a cycle, on which Python raises [RecursionError].  Its theorem takes the fuel
    for which the references of a schema can be expanded and shows that the validator
    returns with the same fuel, whatever the value.  The walk over the reuse graph has the
    number of invocations and one as fuel: a path without a repeated case is no longer.  The
    chunk decoder has the 32 rounds of its loop.  Integers are [Z]: Python's do not
    overflow; the widths of the SPOP format are part of its encoder and decoder.

    ** What is not modelled

    Input and output: sockets, processes, argument parsing, the writing of files, the
    closing of descriptors, hash-pinned fixture files, JSON and YAML parsing (the model
    starts from the decoded value).  Of the client: the inspection of curl and the parsing
    of its output.  Patterns of schemas outside the fragment of JsonSchema.v (lookahead)
    raise an error no theorem speaks of.  Of [no_crs_baseline.py]: the directories and
    files of a run, the collection of raw records from files and the retention of artifacts.
    The reader of native-operation bundles executes the helper sources it reopened: what a
    helper answers for the texts of its sources is the parameter [execute].  The nesting at
    which the interpreter raises [RecursionError] is not represented.  Runners, reporting,
    provisioning scripts, the root broker and the launchers are operating-system effects
    and formatting. *)

From Stdlib Require Export ZArith Lia Ascii String Bool.
From stdpp Require Export base tactics list strings gmap.

#[global] Open Scope string_scope.
#[global] Open Scope list_scope.
#[global] Open Scope Z_scope.

(** ** Exceptions and the error monad

    A Python call either returns a value or raises.  The constructors of [exn]
    are the exception classes the modelled code raises; [OutOfFuel] is raised
    by no Python code: it marks a bounded recursion that ran out of its bound,
    and every bounded definition comes with a lemma that it does not occur. *)

Inductive exn :=
  | ContractError (code : string)
  | ValueError (msg : string)
  | ProtocolClientError (msg : string)
  | ObservationInputError (msg : string)
  | InvalidFrame (msg : string)
  | UnicodeDecodeError
  | UnicodeEncodeError
  | KeyError (key : string)
  | TypeError (msg : string)
  | AttributeError (msg : string)
  | FileNotFoundError (msg : string)
  | OSError (msg : string)
  | RuntimeError (msg : string)
  | StructError (msg : string)
  | OutOfFuel.

(** The classes caught by [except ValueError]: the project's own error classes
    and the Unicode errors derive from [ValueError]. *)
Definition is_ValueError (e : exn) : bool :=
  match e with
  | ContractError _ | ValueError _ | ProtocolClientError _ | InvalidFrame _
  | ObservationInputError _ | UnicodeDecodeError | UnicodeEncodeError => true
  | _ => false
  end.

Inductive res (A : Type) :=
  | Ok (a : A)
  | Err (e : exn).
Arguments Ok {A} a.
Arguments Err {A} e.

Declare Scope py_scope.
Delimit Scope py_scope with py.

Notation "'let*' x ':=' c 'in' k" :=
  (match c with Ok x => k | Err e => Err e end)
  (at level 10, x pattern, c at level 100, k at level 200) : py_scope.
Notation "c ';;;' k" :=
  (match c with Ok _ => k | Err e => Err e end)
  (at level 199, k at level 200, right associativity) : py_scope.
#[global] Open Scope py_scope.

Definition is_Ok {A} (r : res A) : bool := match r with Ok _ => true | Err _ => false end.

(** [guard b e]: [if not b: raise e]. *)
Definition guard (b : bool) (e : exn) : res unit := if b then Ok tt else Err e.

(** A list comprehension whose body may raise: left to right, the first
    exception wins. *)
Fixpoint mapM {A B} (f : A -> res B) (l : list A) : res (list B) :=
  match l with
  | [] => Ok []
  | x :: r => let* y := f x in let* ys := mapM f r in Ok (y :: ys)
  end.

(** A [for] loop over [l] updating the state [s]. *)
Fixpoint foldM {A S} (f : S -> A -> res S) (l : list A) (s : S) : res S :=
  match l with
  | [] => Ok s
  | x :: r => let* s' := f s x in foldM f r s'
  end.

(** A [for] loop that only checks its elements. *)
Fixpoint forM {A} (f : A -> res unit) (l : list A) : res unit :=
  match l with
  | [] => Ok tt
  | x :: r => f x ;;; forM f r
  end.

(** ** Tactics *)

(** Splits every [match]/[if] of a hypothesis or of the goal. *)
Ltac split_match_in H :=
  match type of H with
  | context [match ?x with _ => _ end] => let E := fresh "E" in destruct x eqn:E
  end.

Ltac res_step :=
  match goal with
  | H : Ok _ = Ok _ |- _ => injection H as H; subst
  | H : Err _ = Err _ |- _ => injection H as H; subst
  | H : Ok _ = Err _ |- _ => discriminate H
  | H : Err _ = Ok _ |- _ => discriminate H
  | H : Some _ = Some _ |- _ => injection H as H; subst
  | H : None = Some _ |- _ => discriminate H
  | H : Some _ = None |- _ => discriminate H
  | H : true = false |- _ => discriminate H
  | H : false = true |- _ => discriminate H
  | H : andb _ _ = true |- _ => apply andb_true_iff in H; destruct H
  | H : orb _ _ = false |- _ => apply orb_false_iff in H; destruct H
  | H : negb _ = true |- _ => apply negb_true_iff in H
  | H : negb _ = false |- _ => apply negb_false_iff in H
  end.

(** Inverts a successful (or failing) run of the error monad: the tests of the
    run become hypotheses. *)
Ltac res_inv H :=
  repeat (first [ progress (repeat res_step)
                | split_match_in H; try discriminate H ]).

(** ** Lemmas on the error monad *)

Lemma Ok_inj {A} (a b : A) : Ok a = Ok b -> a = b.
Proof. congruence. Qed.

Lemma mapM_Ok_Forall2 {A B} (f : A -> res B) l l' :
  mapM f l = Ok l' <-> Forall2 (fun x y => f x = Ok y) l l'.
Proof.
  revert l'; induction l as [|x l IH]; intros l'; simpl; split; intros H.
  - injection H as <-. constructor.
  - inversion H; reflexivity.
  - destruct (f x) eqn:Ex; [|discriminate].
    destruct (mapM f l) eqn:El; [|discriminate].
    injection H as <-. constructor; [exact Ex|]. by apply IH.
  - inversion H as [|? y ? ys Hxy Hr]; subst.
    rewrite Hxy. apply IH in Hr. rewrite Hr. reflexivity.
Qed.

Lemma mapM_length {A B} (f : A -> res B) l l' : mapM f l = Ok l' -> length l' = length l.
Proof. rewrite mapM_Ok_Forall2. intros H. symmetry. by eapply Forall2_length. Qed.

Lemma mapM_Err {A B} (f : A -> res B) l e :
  mapM f l = Err e -> exists x, In x l /\ f x = Err e.
Proof.
  induction l as [|x l IH]; simpl; [discriminate|].
  destruct (f x) eqn:Ex.
  - destruct (mapM f l); [discriminate|]. injection 1 as <-.
    destruct (IH eq_refl) as (y & Hy & Hf). eauto.
  - injection 1 as <-. eauto.
Qed.

Lemma forM_Err {A} (f : A -> res unit) l e : forM f l = Err e -> exists x, In x l /\ f x = Err e.
Proof.
  induction l as [|x l IH]; [done|]. cbn [forM]. destruct (f x) as [[]|e'] eqn:Ef.
  - intros H. apply IH in H as (y & Hy & H). exists y. by split; [right|].
  - intros [= <-]. exists x. by split; [left|].
Qed.

Lemma mapM_Ok_all {A B} (f : A -> res B) l :
  (forall x, In x l -> exists y, f x = Ok y) -> exists l', mapM f l = Ok l'.
Proof.
  induction l as [|x l IH]; simpl; intros H; [eauto|].
  destruct (H x) as [y ->]; [auto|].
  destruct IH as [ys ->]; eauto.
Qed.

Lemma mapM_id {A} (f : A -> res A) l :
  (forall x, In x l -> f x = Ok x) -> mapM f l = Ok l.
Proof.
  induction l as [|x l IH]; simpl; intros H; [reflexivity|].
  rewrite H by auto. rewrite IH; auto.
Qed.

Lemma mapM_app {A B} (f : A -> res B) l1 l2 r1 r2 :
  mapM f l1 = Ok r1 -> mapM f l2 = Ok r2 -> mapM f (l1 ++ l2) = Ok (r1 ++ r2).
Proof. rewrite !mapM_Ok_Forall2. apply Forall2_app. Qed.

Lemma mapM_concat_In {A B} (f : A -> res (list B)) l l' x : mapM f l = Ok l' ->
  In x (concat l') <-> exists a b, In a l /\ f a = Ok b /\ In x b.
Proof.
  revert l'. induction l as [|a l IH]; cbn [mapM]; intros l' H.
  - apply Ok_inj in H as <-. cbn. split; [done|]. by intros (a & b & [] & _).
  - destruct (f a) as [b|] eqn:E; [|done]. destruct (mapM f l) as [bs|] eqn:E'; [|done].
    apply Ok_inj in H as <-. cbn [concat]. rewrite in_app_iff, (IH _ eq_refl). split.
    + intros [H|(a' & b' & Ha & Hf & Hx)]; [by exists a, b; split; [left|]|]. by exists a', b'; split; [right|].
    + intros (a' & b' & [<-|Ha] & Hf & Hx); [left; congruence|]. right. by exists a', b'.
Qed.

Lemma forM_Ok {A} (f : A -> res unit) l :
  forM f l = Ok tt <-> Forall (fun x => f x = Ok tt) l.
Proof.
  induction l as [|x l IH]; simpl; split; intros H; auto.
  - destruct (f x) as [[]|] eqn:E; [|discriminate]. constructor; [done|]. by apply IH.
  - inversion H as [|? ? Hx Hr]; subst. rewrite Hx. by apply IH.
Qed.

(** An invariant of a [for] loop: it holds of the final state when it holds
    of the first and every step keeps it. *)
Lemma foldM_inv {A S} (f : S -> A -> res S) (P : S -> Prop) l s s' :
  (forall s x s', P s -> In x l -> f s x = Ok s' -> P s') ->
  P s -> foldM f l s = Ok s' -> P s'.
Proof.
  revert s; induction l as [|x l IH]; simpl; intros s Hstep Hs H.
  - injection H as <-. exact Hs.
  - destruct (f s x) eqn:E; [|discriminate].
    eapply IH; [|eapply Hstep; eauto|exact H]. eauto.
Qed.

(** The same with the processed prefix at hand. *)
Lemma foldM_prefix_inv {A S} (f : S -> A -> res S) (P : list A -> S -> Prop) l s s' :
  P [] s ->
  (forall pre x suf s1 s2, l = pre ++ x :: suf -> P pre s1 -> f s1 x = Ok s2 -> P (pre ++ [x]) s2) ->
  foldM f l s = Ok s' -> P l s'.
Proof.
  intros H0 Hstep H.
  enough (G : forall suf pre s1, l = pre ++ suf -> P pre s1 -> foldM f suf s1 = Ok s' -> P l s').
  { apply (G l [] s); auto. }
  induction suf as [|x suf IH]; intros pre s1 Hl Hp Hf; simpl in Hf.
  - injection Hf as <-. rewrite app_nil_r in Hl. by subst.
  - destruct (f s1 x) as [s2|] eqn:E; [|discriminate].
    apply (IH (pre ++ [x]) s2); [by rewrite <- app_assoc| |exact Hf].
    eapply Hstep; eauto.
Qed.
