(* ===== verification/PyText.v ===== *)
(** * Text and bytes of the Python standard library

    The operations of [str] and [bytes] the modelled modules use.  A [bytes]
    object is a [chars] (a list of 8-bit characters); a [str] is a
    [string] whose characters are code points below 256 (code points from 256
    on are not represented, see the header of Prelude.v).  Every [str]
    operation is the lifting of the operation on [chars], so both share their
    lemmas. *)

From S2P Require Export Prelude.
From Stdlib Require DecimalString DecimalZ.
From Stdlib Require Export Sorting.Sorted Sorting.Permutation.

Definition chars := list ascii.

Definition S2L (s : string) : chars := list_ascii_of_string s.
Definition L2S (l : chars) : string := string_of_list_ascii l.

Lemma S2L_L2S l : S2L (L2S l) = l.
Proof. apply list_ascii_of_string_of_list_ascii. Qed.

Lemma L2S_S2L s : L2S (S2L s) = s.
Proof. apply string_of_list_ascii_of_string. Qed.

Lemma S2L_inj s t : S2L s = S2L t -> s = t.
Proof. intros H. rewrite <- (L2S_S2L s), H. apply L2S_S2L. Qed.

Lemma S2L_app s t : S2L (s +:+ t) = S2L s ++ S2L t.
Proof. induction s; simpl; [done|]. unfold S2L in *. simpl. by f_equal. Qed.

Lemma S2L_length s : List.length (S2L s) = String.length s.
Proof. induction s; simpl; [done|]. unfold S2L in *. simpl. by f_equal. Qed.

(** Code point of a character. *)
Definition ord (c : ascii) : Z := Z.of_N (N_of_ascii c).

Lemma ord_range c : 0 <= ord c < 256.
Proof. unfold ord. pose proof (N_ascii_bounded c). lia. Qed.

Lemma ord_inj c d : ord c = ord d -> c = d.
Proof.
  unfold ord. intros H. apply N2Z.inj in H.
  rewrite <- (ascii_N_embedding c), <- (ascii_N_embedding d). by rewrite H.
Qed.

(** ** Character classes *)

Definition between (lo hi : Z) (c : ascii) : bool := (lo <=? ord c) && (ord c <=? hi).
Definition is_lower (c : ascii) : bool := between 97 122 c.
Definition is_upper (c : ascii) : bool := between 65 90 c.
Definition is_digit (c : ascii) : bool := between 48 57 c.
Definition is_hex_lower (c : ascii) : bool := is_digit c || between 97 102 c.
Definition is_hex (c : ascii) : bool := is_hex_lower c || between 65 70 c.
Definition is_alnum (c : ascii) : bool := is_lower c || is_upper c || is_digit c.
Definition char_in (l : string) (c : ascii) : bool := existsb (Ascii.eqb c) (S2L l).

(** [str.isspace] on one character (code points below 256); [bytes.strip]
    without argument removes the ASCII subset [is_byte_space]. *)
Definition is_space (c : ascii) : bool :=
  between 9 13 c || between 28 32 c || (ord c =? 133) || (ord c =? 160).
Definition is_byte_space (c : ascii) : bool := between 9 13 c || (ord c =? 32).

Definition chr (z : Z) : ascii := ascii_of_N (Z.to_N z).

(** [str.lower] and [bytes.lower] on one character. *)
Definition lower_byte (c : ascii) : ascii := if is_upper c then chr (ord c + 32) else c.
Definition lower_char (c : ascii) : ascii :=
  if is_upper c || (between 192 222 c && negb (ord c =? 215)) then chr (ord c + 32) else c.

(** [str.upper] on one character.  Three code points below 256 leave that range
    or grow (181, 223, 255); [upper_char] keeps them, and the only use of
    [upper] in the model compares with ASCII words. *)
Definition upper_char (c : ascii) : ascii :=
  if is_lower c || (between 224 254 c && negb (ord c =? 247)) then chr (ord c - 32) else c.

(** ** Operations on [chars] *)

Fixpoint drop_while (p : ascii -> bool) (l : chars) : chars :=
  match l with
  | [] => []
  | c :: r => if p c then drop_while p r else l
  end.

Definition strip_with (p : ascii -> bool) (l : chars) : chars :=
  rev (drop_while p (rev (drop_while p l))).
Definition rstrip_with (p : ascii -> bool) (l : chars) : chars := rev (drop_while p (rev l)).

Fixpoint is_prefix (p l : chars) : bool :=
  match p, l with
  | [], _ => true
  | c :: p', d :: l' => Ascii.eqb c d && is_prefix p' l'
  | _ :: _, [] => false
  end.

(** Index of the first occurrence of [sep] (as [bytes.find], but [None] for -1). *)
Fixpoint find_sub (sep l : chars) : option nat :=
  if is_prefix sep l then Some 0%nat
  else match l with
       | [] => None
       | _ :: r => option_map S (find_sub sep r)
       end.

(** [l.partition(sep)]: the part before, whether [sep] was found, the part
    after. *)
Definition partition_sub (sep l : chars) : chars * bool * chars :=
  match find_sub sep l with
  | Some n => (take n l, true, drop (n + List.length sep) l)
  | None => (l, false, [])
  end.

(** [l.split(sep)]; [fuel] bounds the number of pieces, [length l] + 1 is
    enough for a non-empty [sep]. *)
Fixpoint split_fuel (fuel : nat) (sep l : chars) : list chars :=
  match fuel with
  | O => [l]
  | S f =>
      match partition_sub sep l with
      | (a, true, b) => a :: split_fuel f sep b
      | (a, false, _) => [a]
      end
  end.
Definition split_sub (sep l : chars) : list chars := split_fuel (S (List.length l)) sep l.

(** [l.split(sep, 1)] as a pair, when [sep] occurs. *)
Definition split1 (sep l : chars) : option (chars * chars) :=
  match partition_sub sep l with
  | (a, true, b) => Some (a, b)
  | _ => None
  end.

(** [l.split()]: the maximal runs of characters that are not spaces. *)
Fixpoint split_ws_acc (l : chars) (acc : chars) : list chars :=
  match l with
  | [] => match acc with [] => [] | _ => [rev acc] end
  | c :: r =>
      if is_space c
      then match acc with [] => split_ws_acc r [] | _ => rev acc :: split_ws_acc r [] end
      else split_ws_acc r (c :: acc)
  end.

Definition contains_sub (sub l : chars) : bool :=
  match find_sub sub l with Some _ => true | None => false end.

(** [l.replace(old, new)] for a non-empty [old]. *)
Fixpoint replace_fuel (fuel : nat) (old new l : chars) : chars :=
  match fuel with
  | O => l
  | S f =>
      match partition_sub old l with
      | (a, true, b) => a ++ new ++ replace_fuel f old new b
      | (a, false, _) => a
      end
  end.
Definition replace_sub (old new l : chars) : chars :=
  replace_fuel (S (List.length l)) old new l.

Fixpoint join_chars (sep : chars) (l : list chars) : chars :=
  match l with
  | [] => []
  | [a] => a
  | a :: r => a ++ sep ++ join_chars sep r
  end.

(** ** Operations on [str] *)

Definition str_in (s : string) (l : list string) : bool := existsb (String.eqb s) l.
Definition py_strip (s : string) : string := L2S (strip_with is_space (S2L s)).
Definition py_lstrip (s : string) : string := L2S (drop_while is_space (S2L s)).
Definition py_rstrip (s : string) : string := L2S (rstrip_with is_space (S2L s)).
Definition py_lstrip_spaces (s : string) : string :=
  L2S (drop_while (fun c => ord c =? 32) (S2L s)).
Definition py_lower (s : string) : string := L2S (map lower_char (S2L s)).
Definition py_upper (s : string) : string := L2S (map upper_char (S2L s)).
Definition starts_with (p s : string) : bool := is_prefix (S2L p) (S2L s).
Definition ends_with (p s : string) : bool := is_prefix (rev (S2L p)) (rev (S2L s)).
Definition contains (sub s : string) : bool := contains_sub (S2L sub) (S2L s).
Definition py_split (sep s : string) : list string := map L2S (split_sub (S2L sep) (S2L s)).
Definition py_split1 (sep s : string) : option (string * string) :=
  match split1 (S2L sep) (S2L s) with Some (a, b) => Some (L2S a, L2S b) | None => None end.
Definition py_split_ws (s : string) : list string := map L2S (split_ws_acc (S2L s) []).
Definition py_replace (old new s : string) : string :=
  L2S (replace_sub (S2L old) (S2L new) (S2L s)).
Definition str_len (s : string) : Z := Z.of_nat (String.length s).
Definition py_join (sep : string) (l : list string) : string := String.concat sep l.

(** [s.isdigit()]: a non-empty string of digits; 178, 179 and 185 (superscript
    two, three and one) are digits for Python. *)
Definition is_unicode_digit (c : ascii) : bool :=
  is_digit c || (ord c =? 178) || (ord c =? 179) || (ord c =? 185).
Definition py_isdigit (s : string) : bool :=
  negb (String.eqb s "") && forallb is_unicode_digit (S2L s).

(** Decimal rendering of an integer, [str(z)], and [int(s)] for a string of
    ASCII digits. *)
Definition dec (z : Z) : string := DecimalString.NilZero.string_of_int (Z.to_int z).
Definition digits_value (base : Z) (l : list Z) : Z := fold_left (fun a d => a * base + d) l 0.
Definition digit_val (c : ascii) : Z :=
  if is_digit c then ord c - 48
  else if between 97 102 c then ord c - 87
  else ord c - 55.
Definition int_of_digits (base : Z) (l : chars) : Z := digits_value base (map digit_val l).

(** [int(text)] refuses a decimal text of more than 4300 digits. *)
Definition digits_allowed (l : chars) : bool := Z.of_nat (List.length (List.filter is_digit l)) <=? 4300.

(** ** Ordering and sorting: [sorted] is a stable sort *)

Section Isort.
Context {A : Type} (leb : A -> A -> bool).

Fixpoint insert_sorted (x : A) (l : list A) : list A :=
  match l with
  | [] => [x]
  | y :: r => if leb x y then x :: l else y :: insert_sorted x r
  end.

Definition isort (l : list A) : list A := fold_right insert_sorted [] l.

Hypothesis leb_total : forall x y, leb x y = true \/ leb y x = true.
Hypothesis leb_trans : forall x y z, leb x y = true -> leb y z = true -> leb x z = true.

Lemma insert_sorted_perm x l : Permutation (insert_sorted x l) (x :: l).
Proof.
  induction l as [|y r IH]; simpl; [done|].
  destruct (leb x y); [done|].
  rewrite IH. constructor.
Qed.

Lemma isort_perm l : Permutation (isort l) l.
Proof.
  induction l as [|x l IH]; simpl; [constructor|].
  rewrite insert_sorted_perm. by constructor.
Qed.

Lemma insert_sorted_sorted x l :
  StronglySorted (fun a b => leb a b = true) l ->
  StronglySorted (fun a b => leb a b = true) (insert_sorted x l).
Proof.
  induction 1 as [|y r Hs IH Hf]; simpl; [by repeat constructor|].
  destruct (leb x y) eqn:E.
  - constructor; [by constructor|]. constructor; [done|].
    eapply Forall_impl; [exact Hf|]. intros; eauto.
  - constructor; [done|].
    rewrite insert_sorted_perm. constructor; [|done].
    destruct (leb_total x y); congruence.
Qed.

Lemma isort_sorted l : StronglySorted (fun a b => leb a b = true) (isort l).
Proof. induction l; simpl; [constructor|]. by apply insert_sorted_sorted. Qed.

(** Sorting a sorted list changes nothing. *)
Lemma isort_id l : StronglySorted (fun a b => leb a b = true) l -> isort l = l.
Proof.
  induction 1 as [|x r Hs IH Hf]; simpl; [done|].
  rewrite IH. destruct r as [|y r]; simpl; [done|].
  inversion Hf as [|? ? Hxy _]; subst. by rewrite Hxy.
Qed.

Lemma isort_idem l : isort (isort l) = isort l.
Proof. apply isort_id, isort_sorted. Qed.

Lemma isort_length l : List.length (isort l) = List.length l.
Proof. apply Permutation_length, isort_perm. Qed.

Lemma isort_In x l : In x (isort l) <-> In x l.
Proof. split; apply Permutation_in; [|symmetry]; apply isort_perm. Qed.
End Isort.

Definition str_leb (s t : string) : bool := String.leb s t.
Definition sort_strs (l : list string) : list string := isort str_leb l.
Definition sort_Z (l : list Z) : list Z := isort Z.leb l.

Lemma ascii_compare_N a b : Ascii.compare a b = N.compare (N_of_ascii a) (N_of_ascii b).
Proof. reflexivity. Qed.

Lemma str_leb_trans s t u : str_leb s t = true -> str_leb t u = true -> str_leb s u = true.
Proof.
  unfold str_leb, String.leb.
  revert t u; induction s as [|a s IH]; intros [|b t] [|c u]; simpl; try done.
  rewrite !ascii_compare_N.
  destruct (N.compare_spec (N_of_ascii a) (N_of_ascii b)) as [Hab|Hab|Hab];
    destruct (N.compare_spec (N_of_ascii b) (N_of_ascii c)) as [Hbc|Hbc|Hbc];
    destruct (N.compare_spec (N_of_ascii a) (N_of_ascii c)) as [Hac|Hac|Hac];
    try done; try lia.
  apply IH.
Qed.

Lemma str_leb_total s t : str_leb s t = true \/ str_leb t s = true.
Proof. apply String.leb_total. Qed.

Lemma str_leb_antisym s t : str_leb s t = true -> str_leb t s = true -> s = t.
Proof. apply String.leb_antisym. Qed.

Lemma Zleb_total x y : Z.leb x y = true \/ Z.leb y x = true.
Proof. rewrite !Z.leb_le. lia. Qed.

Lemma Zleb_trans x y z : Z.leb x y = true -> Z.leb y z = true -> Z.leb x z = true.
Proof. rewrite !Z.leb_le. lia. Qed.

Lemma sort_strs_idem l : sort_strs (sort_strs l) = sort_strs l.
Proof. apply isort_idem; [apply str_leb_total|apply str_leb_trans]. Qed.

Lemma sort_Z_idem l : sort_Z (sort_Z l) = sort_Z l.
Proof. apply isort_idem; [apply Zleb_total|apply Zleb_trans]. Qed.

Lemma sort_strs_perm l : Permutation (sort_strs l) l.
Proof. apply isort_perm. Qed.

Lemma sort_Z_perm l : Permutation (sort_Z l) l.
Proof. apply isort_perm. Qed.

(** ** Sets of strings and integers, as duplicate-free lists *)

Lemma str_in_In s l : str_in s l = true <-> In s l.
Proof.
  unfold str_in. rewrite existsb_exists. split.
  - intros (x & Hx & E). apply String.eqb_eq in E. by subst.
  - intros H. exists s. split; [done|apply String.eqb_refl].
Qed.

Lemma str_in_false s l : str_in s l = false <-> ~ In s l.
Proof. rewrite <- str_in_In. by destruct (str_in s l). Qed.

Lemma str_in_perm s l l' : Permutation l l' -> str_in s l = str_in s l'.
Proof.
  intros H. apply eq_true_iff_eq. rewrite !str_in_In.
  split; apply Permutation_in; [|symmetry]; done.
Qed.

Section Nodupb.
Context {A : Type} (eqb : A -> A -> bool) (eqb_ok : forall x y, eqb x y = true <-> x = y).

(** [len(set(l)) == len(l)] *)
Fixpoint nodupb (l : list A) : bool :=
  match l with
  | [] => true
  | x :: r => negb (existsb (eqb x) r) && nodupb r
  end.

Lemma existsb_eqb_In x l : existsb (eqb x) l = true <-> In x l.
Proof.
  rewrite existsb_exists. split.
  - intros (y & Hy & E). apply eqb_ok in E. by subst.
  - intros H. exists x. split; [done|by apply eqb_ok].
Qed.

Lemma nodupb_NoDup l : nodupb l = true <-> List.NoDup l.
Proof.
  induction l as [|x r IH]; simpl.
  - split; [constructor|done].
  - rewrite andb_true_iff, negb_true_iff, IH, <- not_true_iff_false, existsb_eqb_In.
    split; [intros []; by constructor|inversion 1; done].
Qed.

Lemma nodupb_perm l l' : Permutation l l' -> nodupb l = nodupb l'.
Proof.
  intros H. apply eq_true_iff_eq. rewrite !nodupb_NoDup.
  split; apply Permutation_NoDup; [|symmetry]; done.
Qed.

(** Order-preserving removal of duplicates, [list(dict.fromkeys(l))]. *)
Fixpoint dedup (l : list A) : list A :=
  match l with
  | [] => []
  | x :: r => x :: List.filter (fun y => negb (eqb x y)) (dedup r)
  end.

Lemma dedup_In x l : In x (dedup l) <-> In x l.
Proof.
  induction l as [|y r IH]; simpl; [done|].
  rewrite filter_In, IH. split.
  - intros [->|[H _]]; auto.
  - intros [->|H]; [auto|].
    destruct (eqb y x) eqn:E; [left; by apply eqb_ok|right; auto].
Qed.

Lemma NoDup_filter_bool (f : A -> bool) l : List.NoDup l -> List.NoDup (List.filter f l).
Proof.
  induction 1 as [|x r Hx Hr IH]; simpl; [constructor|].
  destruct (f x); [|done]. constructor; [|done]. rewrite filter_In. tauto.
Qed.

Lemma dedup_NoDup l : List.NoDup (dedup l).
Proof.
  induction l as [|y r IH]; simpl; constructor.
  - rewrite filter_In. intros [_ H]. apply negb_true_iff in H.
    assert (eqb y y = true) by by apply eqb_ok. congruence.
  - by apply NoDup_filter_bool.
Qed.
End Nodupb.

Definition str_nodup (l : list string) : bool := nodupb String.eqb l.
Definition Z_nodup (l : list Z) : bool := nodupb Z.eqb l.

Lemma str_nodup_NoDup l : str_nodup l = true <-> List.NoDup l.
Proof. apply nodupb_NoDup, String.eqb_eq. Qed.

Lemma Z_nodup_NoDup l : Z_nodup l = true <-> List.NoDup l.
Proof. apply nodupb_NoDup, Z.eqb_eq. Qed.

Lemma str_nodup_perm l l' : Permutation l l' -> str_nodup l = str_nodup l'.
Proof. apply nodupb_perm, String.eqb_eq. Qed.

Lemma Z_nodup_perm l l' : Permutation l l' -> Z_nodup l = Z_nodup l'.
Proof. apply nodupb_perm, Z.eqb_eq. Qed.

(** [a.issubset(b)] *)
Definition str_subset (a b : list string) : bool := forallb (fun x => str_in x b) a.
Definition Z_in (z : Z) (l : list Z) : bool := existsb (Z.eqb z) l.
Definition Z_subset (a b : list Z) : bool := forallb (fun x => Z_in x b) a.

Lemma Z_in_In z l : Z_in z l = true <-> In z l.
Proof. apply existsb_eqb_In, Z.eqb_eq. Qed.

Lemma str_subset_incl a b : str_subset a b = true <-> incl a b.
Proof. unfold str_subset. rewrite forallb_forall. by setoid_rewrite str_in_In. Qed.

Lemma Z_subset_incl a b : Z_subset a b = true <-> incl a b.
Proof. unfold Z_subset. rewrite forallb_forall. by setoid_rewrite Z_in_In. Qed.

(** ** Searching and splitting *)

Lemma is_prefix_app p l : is_prefix p (p ++ l) = true.
Proof. induction p; simpl; [done|]. by rewrite Ascii.eqb_refl. Qed.

Lemma is_prefix_spec p l : is_prefix p l = true <-> exists r, l = p ++ r.
Proof.
  split.
  - revert l; induction p as [|c p IH]; intros [|d l]; simpl; try done; eauto.
    rewrite andb_true_iff. intros [E H]. apply Ascii.eqb_eq in E as ->.
    destruct (IH _ H) as [r ->]. eauto.
  - intros [r ->]. apply is_prefix_app.
Qed.

Lemma find_sub_cons sep d l :
  find_sub sep (d :: l) =
  if is_prefix sep (d :: l) then Some 0%nat else option_map S (find_sub sep l).
Proof. done. Qed.

Lemma find_sub_bound sep l n : find_sub sep l = Some n -> (n + List.length sep <= List.length l)%nat.
Proof.
  revert n; induction l as [|c l IH]; intros n; simpl.
  - destruct sep; simpl; [injection 1 as <-; simpl; lia|done].
  - destruct (is_prefix sep (c :: l)) eqn:E.
    + injection 1 as <-. apply is_prefix_spec in E as [r Hr].
      apply (f_equal List.length) in Hr. rewrite length_app in Hr. simpl in *. lia.
    + destruct (find_sub sep l); [|done]. injection 1 as <-. specialize (IH _ eq_refl). lia.
Qed.

(** The text of a successful search: [take n l ++ sep ++ drop (n + |sep|) l]. *)
Lemma find_sub_split sep l n :
  find_sub sep l = Some n -> l = take n l ++ sep ++ drop (n + List.length sep) l.
Proof.
  revert n; induction l as [|c l IH]; intros n; simpl.
  - destruct sep; [injection 1 as <-; done|done].
  - destruct (is_prefix sep (c :: l)) eqn:E.
    + injection 1 as <-. apply is_prefix_spec in E as [r Hr].
      simpl. rewrite Hr. by rewrite drop_app_length.
    + destruct (find_sub sep l) eqn:F; [|done]. injection 1 as <-.
      simpl. f_equal. by apply IH.
Qed.

(** A text without the first character of [sep] before a [sep] is found whole. *)
Lemma find_sub_app c sep a b :
  ~ In c a -> find_sub (c :: sep) (a ++ (c :: sep) ++ b) = Some (List.length a).
Proof.
  induction a as [|d a IH]; intros H.
  - simpl. by rewrite Ascii.eqb_refl, is_prefix_app.
  - rewrite <- app_comm_cons, find_sub_cons. cbn [is_prefix].
    destruct (Ascii.eqb_spec c d) as [->|Hcd].
    { exfalso. apply H. by left. }
    cbn [andb]. rewrite IH; [done|]. intros Hin. apply H. by right.
Qed.

Lemma take_length_app {A} (a b : list A) : take (List.length a) (a ++ b) = a.
Proof. apply take_app_length. Qed.

Lemma drop_while_true p l : forallb (fun c => negb (p c)) l = true -> drop_while p l = l.
Proof. destruct l; simpl; [done|]. rewrite andb_true_iff, negb_true_iff. by intros [-> _]. Qed.

(** ** Texts over a class of characters *)

Definition texts_over (p : ascii -> bool) (s : string) : Prop := forallb p (S2L s) = true.

Lemma texts_app p s t : texts_over p s -> texts_over p t -> texts_over p (s +:+ t).
Proof. unfold texts_over. intros H1 H2. by rewrite S2L_app, forallb_app, H1, H2. Qed.

Lemma texts_L2S p l : forallb p l = true -> texts_over p (L2S l).
Proof. unfold texts_over. by rewrite S2L_L2S. Qed.

(** The characters of [format(x, ".6g")]. *)
Definition numeral (c : ascii) : bool := is_digit c || char_in ".e+-" c.

Lemma uint_numeral d : texts_over numeral (DecimalString.NilEmpty.string_of_uint d).
Proof. induction d; [done|..]; cbn; exact IHd. Qed.

Lemma dec_numeral z : texts_over numeral (dec z).
Proof.
  unfold dec. assert (U : forall d, texts_over numeral (DecimalString.NilZero.string_of_uint d)).
  { intros d. destruct d; [done|..]; apply uint_numeral. }
  destruct (Z.to_int z); cbn [DecimalString.NilZero.string_of_int]; [apply U|].
  exact (texts_app numeral "-" _ eq_refl (U d)).
Qed.

Create Rewrite HintDb pybool.
#[export] Hint Rewrite str_in_In str_nodup_NoDup Z_nodup_NoDup str_subset_incl Z_subset_incl
  Z_in_In andb_true_iff orb_true_iff negb_true_iff String.eqb_eq Z.eqb_eq Z.leb_le Z.ltb_lt
  : pybool.

(** Turns boolean hypotheses into the propositions they decide. *)
Ltac to_prop := autorewrite with pybool in *.
