(* ===== verification/PyValue.v ===== *)
(** * Python values

    The dynamically typed values that JSON and YAML documents decode to, and
    the operations of the language on them: truth value, [==], [isinstance],
    [dict] access, [str], [repr] and [json.dumps].  A dictionary is the list of
    its items in insertion order; keys are values too, since a YAML mapping
    may have a key that is not a string. *)

From S2P Require Export PyText.
From Stdlib Require Import QArith.
#[global] Open Scope Z_scope.

(** [PFloat q r] is a finite float with exact value [q] and [repr] [r].  NaN and the
    infinities are not represented as numbers; the encoder of canonical JSON
    (ObservationFramework.v), to which the text alone matters, refuses their texts. *)
#[warnings="-register-all"]
Inductive pyval :=
  | PNone
  | PBool (b : bool)
  | PInt (z : Z)
  | PFloat (q : Q) (r : string)
  | PStr (s : string)
  | PList (l : list pyval)
  | PDict (d : list (pyval * pyval)).

Definition pydict := list (pyval * pyval).

(** ** Classification *)

Definition is_none (v : pyval) : bool := match v with PNone => true | _ => false end.
Definition is_str (v : pyval) : bool := match v with PStr _ => true | _ => false end.
Definition is_bool (v : pyval) : bool := match v with PBool _ => true | _ => false end.
Definition is_list (v : pyval) : bool := match v with PList _ => true | _ => false end.
Definition is_mapping (v : pyval) : bool := match v with PDict _ => true | _ => false end.

(** [isinstance(v, int)]: [bool] is a subclass of [int]. *)
Definition is_int (v : pyval) : bool := match v with PInt _ | PBool _ => true | _ => false end.

(** The integer a value of class [int] denotes. *)
Definition int_value (v : pyval) : option Z :=
  match v with PInt z => Some z | PBool b => Some (if b then 1 else 0) | _ => None end.

Definition num_value (v : pyval) : option Q :=
  match v with
  | PInt z => Some (inject_Z z)
  | PBool b => Some (inject_Z (if b then 1 else 0))
  | PFloat q _ => Some q
  | _ => None
  end.

(** [v is True], [v is False] *)
Definition is_true (v : pyval) : bool := match v with PBool true => true | _ => false end.
Definition is_false (v : pyval) : bool := match v with PBool false => true | _ => false end.

Definition truthy (v : pyval) : bool :=
  match v with
  | PNone => false
  | PBool b => b
  | PInt z => negb (z =? 0)
  | PFloat q _ => negb (Qeq_bool q 0)
  | PStr s => negb (String.eqb s "")
  | PList l => match l with [] => false | _ => true end
  | PDict d => match d with [] => false | _ => true end
  end.

(** ** Equality *)

Fixpoint py_eq (x y : pyval) {struct x} : bool :=
  match x, y with
  | PNone, PNone => true
  | PStr s, PStr t => String.eqb s t
  | PList l, PList m =>
      (fix go (l m : list pyval) : bool :=
         match l, m with
         | [], [] => true
         | a :: l', b :: m' => py_eq a b && go l' m'
         | _, _ => false
         end) l m
  | PDict d, PDict e =>
      Nat.eqb (List.length d) (List.length e) &&
      (fix all (d : list (pyval * pyval)) : bool :=
         match d with
         | [] => true
         | (k, v) :: d' =>
             (fix look (e : list (pyval * pyval)) : bool :=
                match e with
                | [] => false
                | (k', v') :: e' => if py_eq k k' then py_eq v v' else look e'
                end) e && all d'
         end) d
  | _, _ =>
      match num_value x, num_value y with
      | Some a, Some b => Qeq_bool a b
      | _, _ => false
      end
  end.

(** [v == "literal"] and [v in {"a", "b"}] for a set of strings: a value that
    is not a string equals none of them.  The second raises [TypeError] on an
    unhashable value. *)
Definition eq_str (v : pyval) (s : string) : bool :=
  match v with PStr t => String.eqb t s | _ => false end.

Definition eq_int (v : pyval) (z : Z) : bool :=
  match num_value v with Some q => Qeq_bool q (inject_Z z) | None => false end.

Definition hashable (v : pyval) : bool :=
  match v with PList _ | PDict _ => false | _ => true end.

Definition in_strs (v : pyval) (l : list string) : bool :=
  match v with PStr s => str_in s l | _ => false end.

Definition in_str_set (v : pyval) (l : list string) : res bool :=
  if hashable v then Ok (in_strs v l) else Err (TypeError "unhashable type").

(** [v in (None, "")] *)
Definition none_or_empty (v : pyval) : bool := is_none v || eq_str v "".

(** ** Dictionaries *)

Fixpoint dict_find (k : string) (d : pydict) : option pyval :=
  match d with
  | [] => None
  | (k', v) :: d' => if eq_str k' k then Some v else dict_find k d'
  end.

(** [d.get(k)], [d.get(k, default)], [k in d], [d[k]], [d[k] = v] for a string
    key. *)
Definition dict_get_or (dflt : pyval) (k : string) (d : pydict) : pyval :=
  match dict_find k d with Some v => v | None => dflt end.
Definition dict_get (k : string) (d : pydict) : pyval := dict_get_or PNone k d.
Definition dict_has (k : string) (d : pydict) : bool :=
  match dict_find k d with Some _ => true | None => false end.
Definition dict_item (k : string) (d : pydict) : res pyval :=
  match dict_find k d with Some v => Ok v | None => Err (KeyError k) end.

(** [d.get(k)] for a key of any class. *)
Fixpoint dict_get_key (k : pyval) (d : pydict) : pyval :=
  match d with
  | [] => PNone
  | (k', v) :: d' => if py_eq k' k then v else dict_get_key k d'
  end.

Fixpoint dict_set (k : string) (v : pyval) (d : pydict) : pydict :=
  match d with
  | [] => [(PStr k, v)]
  | (k', w) :: d' => if eq_str k' k then (k', v) :: d' else (k', w) :: dict_set k v d'
  end.

(** [d.update(e)] for a dictionary [e] whose keys are strings. *)
Definition dict_update (d : pydict) (e : list (string * pyval)) : pydict :=
  fold_left (fun d '(k, v) => dict_set k v d) e d.

(** A dictionary display with string keys, [{"k": v, ...}]. *)
Definition mkdict (l : list (string * pyval)) : pydict :=
  map (fun '(k, v) => (PStr k, v)) l.

Definition keys (d : pydict) : list pyval := map fst d.

(** The string keys of a dictionary all of whose keys are strings. *)
Fixpoint str_keys (d : pydict) : option (list string) :=
  match d with
  | [] => Some []
  | (PStr k, _) :: d' => option_map (cons k) (str_keys d')
  | _ :: _ => None
  end.

(** [set(d) <= allowed] and [set(d) == fields] for a set of strings. *)
Definition keys_within (d : pydict) (allowed : list string) : bool :=
  forallb (fun kv => in_strs (fst kv) allowed) d.
Definition keys_exactly (d : pydict) (fields : list string) : bool :=
  keys_within d fields && forallb (fun k => dict_has k d) fields.

(** ** Iteration and membership *)

(** [for item in v] *)
Definition iterate (v : pyval) : res (list pyval) :=
  match v with
  | PList l => Ok l
  | PDict d => Ok (keys d)
  | PStr s => Ok (map (fun c => PStr (L2S [c])) (S2L s))
  | _ => Err (TypeError "object is not iterable")
  end.

(** [key in d] for a key of any class. *)
Definition in_dict (key : pyval) (d : pydict) : res bool :=
  if hashable key then Ok (existsb (fun kv => py_eq (fst kv) key) d) else Err (TypeError "unhashable type").

(** ** Text of a value *)

Definition hex_digit (z : Z) : ascii := chr (if z <? 10 then z + 48 else z + 87).
Definition hex2 (c : ascii) : chars := [hex_digit (ord c / 16); hex_digit (ord c mod 16)].

Definition repr_char (q : ascii) (c : ascii) : chars :=
  if Ascii.eqb c q then [chr 92; c]
  else if ord c =? 92 then [chr 92; chr 92]
  else if ord c =? 9 then S2L "\t"
  else if ord c =? 10 then S2L "\n"
  else if ord c =? 13 then S2L "\r"
  else if (ord c <? 32) || between 127 160 c || (ord c =? 173)
  then [chr 92; chr 120] ++ hex2 c
  else [c].

(** [repr] of a string: double quotes only when it has single quotes and no
    double quotes. *)
Definition repr_str (s : string) : string :=
  let l := S2L s in
  let q := if existsb (Ascii.eqb (chr 39)) l && negb (existsb (Ascii.eqb (chr 34)) l)
           then chr 34 else chr 39 in
  L2S ([q] ++ flat_map (repr_char q) l ++ [q]).

Fixpoint py_repr (v : pyval) : string :=
  match v with
  | PNone => "None"
  | PBool true => "True"
  | PBool false => "False"
  | PInt z => dec z
  | PFloat _ r => r
  | PStr s => repr_str s
  | PList l => "[" +:+ String.concat ", " (map py_repr l) +:+ "]"
  | PDict d =>
      "{" +:+ String.concat ", " (map (fun kv => py_repr (fst kv) +:+ ": " +:+ py_repr (snd kv)) d)
          +:+ "}"
  end.

Definition py_str (v : pyval) : string :=
  match v with PStr s => s | _ => py_repr v end.

(** [json.dumps(v, sort_keys=True, separators=(isep, ksep))] on values whose
    dictionaries have string keys (the only ones the code serialises). *)
Definition json_char (c : ascii) : chars :=
  if ord c =? 34 then [chr 92; c]
  else if ord c =? 92 then [chr 92; c]
  else if ord c =? 10 then S2L "\n"
  else if ord c =? 13 then S2L "\r"
  else if ord c =? 9 then S2L "\t"
  else if ord c =? 12 then S2L "\f"
  else if ord c =? 8 then S2L "\b"
  else if between 32 126 c then [c]
  else S2L "\u00" ++ hex2 c.

Definition json_str (s : string) : string :=
  L2S ([chr 34] ++ flat_map json_char (S2L s) ++ [chr 34]).

Definition item_leb (a b : string * string) : bool := str_leb (fst a) (fst b).

Fixpoint json_dumps (isep ksep : string) (v : pyval) : string :=
  match v with
  | PNone => "null"
  | PBool true => "true"
  | PBool false => "false"
  | PInt z => dec z
  | PFloat _ r => r
  | PStr s => json_str s
  | PList l => "[" +:+ String.concat isep (map (json_dumps isep ksep) l) +:+ "]"
  | PDict d =>
      "{" +:+ String.concat isep
          (map (fun kv => json_str (fst kv) +:+ ksep +:+ snd kv)
             (isort item_leb (map (fun kv => (py_str (fst kv), json_dumps isep ksep (snd kv))) d)))
          +:+ "}"
  end.

(** ** Lemmas *)

Lemma eq_str_true v s : eq_str v s = true <-> v = PStr s.
Proof.
  destruct v; simpl; split; try done; intros H.
  - apply String.eqb_eq in H. by subst.
  - injection H as ->. apply String.eqb_refl.
Qed.

Lemma eq_str_refl s : eq_str (PStr s) s = true.
Proof. apply String.eqb_refl. Qed.

Lemma in_strs_true v l : in_strs v l = true <-> exists s, v = PStr s /\ In s l.
Proof.
  destruct v; simpl; split; try done; try (intros (? & ? & ?); congruence).
  - rewrite str_in_In. eauto.
  - intros (t & [= <-] & H). by apply str_in_In.
Qed.

Lemma is_true_eq v : is_true v = true <-> v = PBool true.
Proof. destruct v as [|[]| | | | |]; simpl; split; congruence. Qed.

Lemma is_false_eq v : is_false v = true <-> v = PBool false.
Proof. destruct v as [|[]| | | | |]; simpl; split; congruence. Qed.

Lemma dict_find_set k k' v d :
  dict_find k' (dict_set k v d) = if String.eqb k k' then Some v else dict_find k' d.
Proof.
  induction d as [|[c w] d IH]; simpl.
  - destruct (String.eqb k k'); done.
  - destruct (eq_str c k) eqn:E; simpl.
    + apply eq_str_true in E as ->. simpl.
      destruct (String.eqb_spec k k'); done.
    + rewrite IH. destruct (eq_str c k') eqn:E'; [|done].
      apply eq_str_true in E' as ->. simpl in E.
      destruct (String.eqb_spec k k') as [->|]; [|done].
      by rewrite String.eqb_refl in E.
Qed.

Lemma dict_find_mkdict_cons k k' v l :
  dict_find k (mkdict ((k', v) :: l)) = if String.eqb k' k then Some v else dict_find k (mkdict l).
Proof. done. Qed.

Lemma dict_has_find k d : dict_has k d = true <-> exists v, dict_find k d = Some v.
Proof. unfold dict_has. destruct (dict_find k d); split; eauto; try done. by intros []. Qed.

Lemma dict_find_In k d v : dict_find k d = Some v -> In (PStr k, v) d.
Proof.
  induction d as [|[c w] d IH]; simpl; [done|].
  destruct (eq_str c k) eqn:E; [|auto].
  apply eq_str_true in E as ->. injection 1 as ->. auto.
Qed.

Lemma dict_item_Ok k d v : dict_item k d = Ok v <-> dict_find k d = Some v.
Proof. unfold dict_item. destruct (dict_find k d); split; congruence. Qed.

Lemma keys_exactly_has d fields k :
  keys_exactly d fields = true -> In k fields -> exists v, dict_find k d = Some v.
Proof.
  unfold keys_exactly. rewrite andb_true_iff, !forallb_forall. intros [_ H] Hk.
  by apply dict_has_find, H.
Qed.

Create Rewrite HintDb pydict.
#[export] Hint Rewrite dict_find_set : pydict.
#[export] Hint Rewrite eq_str_true in_strs_true is_true_eq is_false_eq : pybool.
