(* ===== verification/Regex.v ===== *)
(** * Regular expressions

    The fragment of Python's [re] the code uses: character classes, sequences,
    alternatives and bounded repetition.  [fullmatch] runs on derivatives;
    [re_lang] is the language a pattern denotes, and [fullmatch_correct] shows
    that they agree.  The patterns of the code are values of [re]; the
    predicates derived from them read off what a match guarantees. *)

From S2P Require Export PyText.

Inductive re :=
  | RNone                                        (* no text *)
  | REps                                         (* the empty text *)
  | RCls (p : ascii -> bool)                     (* one character of a class *)
  | RCat (a b : re)
  | RAlt (a b : re)
  | RRep (a : re) (lo : nat) (hi : option nat).  (* a{lo,hi}, a{lo,} *)

(** Derived forms: a literal text, [a?], [a*], [a+], [a{n}]. *)
Fixpoint RLits (l : chars) : re :=
  match l with [] => REps | c :: r => RCat (RCls (Ascii.eqb c)) (RLits r) end.
Definition RLit (s : string) : re := RLits (S2L s).
Definition ROpt (a : re) : re := RRep a 0 (Some 1%nat).
Definition RStar (a : re) : re := RRep a 0 None.
Definition RPlus (a : re) : re := RRep a 1 None.
Definition RTimes (a : re) (n : nat) : re := RRep a n (Some n).

Definition hi_pred (hi : option nat) : option nat := option_map Nat.pred hi.
Definition hi_pos (hi : option nat) : bool :=
  match hi with Some O => false | _ => true end.

Inductive re_lang : re -> chars -> Prop :=
  | L_eps : re_lang REps []
  | L_cls p c : p c = true -> re_lang (RCls p) [c]
  | L_cat a b l m : re_lang a l -> re_lang b m -> re_lang (RCat a b) (l ++ m)
  | L_altl a b l : re_lang a l -> re_lang (RAlt a b) l
  | L_altr a b l : re_lang b l -> re_lang (RAlt a b) l
  | L_rep0 a hi : re_lang (RRep a 0 hi) []
  | L_repS a lo hi l m :
      hi_pos hi = true -> re_lang a l -> re_lang (RRep a (Nat.pred lo) (hi_pred hi)) m ->
      re_lang (RRep a lo hi) (l ++ m).

(** Does the language contain the empty text? [a{lo,hi}] with [hi < lo] is
    empty unless it needs no iteration. *)
Fixpoint nullable (r : re) : bool :=
  match r with
  | RNone => false
  | REps => true
  | RCls _ => false
  | RCat a b => nullable a && nullable b
  | RAlt a b => nullable a || nullable b
  | RRep a lo hi =>
      match lo with
      | O => true
      | S _ => nullable a && match hi with Some h => Nat.leb lo h | None => true end
      end
  end.

Definition cat (a b : re) : re :=
  match a, b with
  | RNone, _ => RNone
  | _, RNone => RNone
  | REps, b => b
  | a, b => RCat a b
  end.
Definition alt (a b : re) : re :=
  match a, b with
  | RNone, b => b
  | a, RNone => a
  | a, b => RAlt a b
  end.

Fixpoint deriv (c : ascii) (r : re) : re :=
  match r with
  | RNone | REps => RNone
  | RCls p => if p c then REps else RNone
  | RCat a b => if nullable a then alt (cat (deriv c a) b) (deriv c b) else cat (deriv c a) b
  | RAlt a b => alt (deriv c a) (deriv c b)
  | RRep a lo hi => if hi_pos hi then cat (deriv c a) (RRep a (Nat.pred lo) (hi_pred hi)) else RNone
  end.

(** [re.fullmatch(r, l) is not None] *)
Fixpoint fullmatch (r : re) (l : chars) : bool :=
  match l with
  | [] => nullable r
  | c :: m => fullmatch (deriv c r) m
  end.
Definition fullmatch_str (r : re) (s : string) : bool := fullmatch r (S2L s).

(** ** The matcher decides the language *)

(** A repetition is well formed when its bounds are ordered; Python rejects the
    other patterns when it compiles them. *)
Fixpoint re_ok (r : re) : bool :=
  match r with
  | RNone | REps | RCls _ => true
  | RCat a b | RAlt a b => re_ok a && re_ok b
  | RRep a lo hi => re_ok a && match hi with Some h => Nat.leb lo h | None => true end
  end.

Lemma lang_none l : ~ re_lang RNone l.
Proof. by inversion 1. Qed.

Lemma lang_cat_inv a b t :
  re_lang (RCat a b) t -> exists l m, t = l ++ m /\ re_lang a l /\ re_lang b m.
Proof. inversion 1; subst; eauto. Qed.

Lemma lang_rep_inv a lo hi t :
  re_lang (RRep a lo hi) t ->
  (lo = 0%nat /\ t = []) \/
  (exists l m, t = l ++ m /\ hi_pos hi = true /\ re_lang a l /\
               re_lang (RRep a (Nat.pred lo) (hi_pred hi)) m).
Proof. inversion 1; subst; eauto 10. Qed.

Lemma cat_lang a b l : re_lang (cat a b) l <-> re_lang (RCat a b) l.
Proof.
  assert (Hn : forall x, ~ re_lang (RCat RNone x) l)
    by (intros x H; inversion H; subst; by eapply lang_none).
  assert (Hm : forall x, ~ re_lang (RCat x RNone) l)
    by (intros x H; inversion H; subst; by eapply lang_none).
  assert (He : forall x, re_lang x l <-> re_lang (RCat REps x) l).
  { intros x. split; intros H.
    - change l with ([] ++ l). by repeat constructor.
    - apply lang_cat_inv in H as (l1 & m & -> & Ha & Hb). inversion Ha; subst. done. }
  destruct a, b; cbn [cat]; try reflexivity; rewrite <- ?He; try reflexivity;
    split; intros H; try (by apply lang_none in H); exfalso; (eapply Hn; exact H) || (eapply Hm; exact H).
Qed.

Lemma alt_lang a b l : re_lang (alt a b) l <-> re_lang (RAlt a b) l.
Proof.
  assert (H1 : forall x, re_lang x l <-> re_lang (RAlt RNone x) l).
  { intros x. split; intros H; [by apply L_altr|].
    inversion H; subst; [by exfalso; eapply lang_none|done]. }
  assert (H2 : forall x, re_lang x l <-> re_lang (RAlt x RNone) l).
  { intros x. split; intros H; [by apply L_altl|].
    inversion H; subst; [done|by exfalso; eapply lang_none]. }
  destruct a, b; cbn [alt]; rewrite <- ?H1, <- ?H2; reflexivity.
Qed.

Lemma nullable_lang r : re_ok r = true -> (nullable r = true <-> re_lang r []).
Proof.
  induction r as [| |p|a IHa b IHb|a IHa b IHb|a IHa lo hi]; simpl; intros Hok.
  - split; [done|intros H; by apply lang_none in H].
  - split; [constructor|done].
  - split; [done|inversion 1].
  - apply andb_true_iff in Hok as [Ha Hb]. rewrite andb_true_iff, IHa, IHb by done. split.
    + intros [H1 H2]. by apply (L_cat a b [] []).
    + intros H. apply lang_cat_inv in H as (l & m & E & Hl & Hm).
      symmetry in E. apply app_eq_nil in E as [-> ->]. done.
  - apply andb_true_iff in Hok as [Ha Hb]. rewrite orb_true_iff, IHa, IHb by done. split.
    + intros [H|H]; [by apply L_altl|by apply L_altr].
    + inversion 1; subst; auto.
  - apply andb_true_iff in Hok as [Ha Hb]. specialize (IHa Ha).
    destruct lo as [|lo]; [split; [constructor|done]|].
    split.
    + rewrite andb_true_iff, IHa. intros [Hn _].
      assert (G : forall n h, match h with Some k => (n <= k)%nat | None => True end ->
                              re_lang (RRep a n h) []).
      { clear - Hn. induction n as [|n IHn]; intros h Hh; [constructor|].
        apply (L_repS a (S n) h [] []); [destruct h as [[|k]|]; done || lia|done|].
        simpl. apply IHn. destruct h as [k|]; simpl in *; lia. }
      apply G. destruct hi as [h|]; [|done]. by apply Nat.leb_le.
    + intros H. rewrite Hb, andb_true_r. apply IHa.
      apply lang_rep_inv in H as [[? _]|(l & m & E & _ & Hl & _)]; [done|].
      symmetry in E. apply app_eq_nil in E as [-> ->]. done.
Qed.

Lemma re_ok_cat a b : re_ok a = true -> re_ok b = true -> re_ok (cat a b) = true.
Proof. destruct a, b; simpl; intros; rewrite ?andb_true_iff in *; tauto. Qed.

Lemma re_ok_alt a b : re_ok a = true -> re_ok b = true -> re_ok (alt a b) = true.
Proof. destruct a, b; simpl; intros; rewrite ?andb_true_iff in *; tauto. Qed.

Lemma re_ok_deriv c r : re_ok r = true -> re_ok (deriv c r) = true.
Proof.
  induction r as [| |p|a IHa b IHb|a IHa b IHb|a IHa lo hi]; simpl; intros Hok; try done.
  - by destruct (p c).
  - apply andb_true_iff in Hok as [Ha Hb].
    destruct (nullable a); [apply re_ok_alt|]; auto using re_ok_cat.
  - apply andb_true_iff in Hok as [Ha Hb]. apply re_ok_alt; auto.
  - apply andb_true_iff in Hok as [Ha Hb]. destruct (hi_pos hi) eqn:E; [|done].
    apply re_ok_cat; [auto|]. simpl. rewrite Ha. destruct hi as [h|]; [|done]. simpl.
    apply Nat.leb_le in Hb. apply Nat.leb_le. lia.
Qed.

Lemma rep_cons_lang a lo hi c l :
  re_ok (RRep a lo hi) = true -> re_lang (RRep a lo hi) (c :: l) ->
  exists l1 l2, l = l1 ++ l2 /\ hi_pos hi = true /\ re_lang a (c :: l1) /\
                re_lang (RRep a (Nat.pred lo) (hi_pred hi)) l2.
Proof.
  intros Hok H. remember (RRep a lo hi) as r eqn:Hr. remember (c :: l) as t eqn:Ht.
  revert lo hi Hok Hr c l Ht.
  induction H as [| | | | |a' hi'|a' lo' hi' l1 m Hpos Ha _ Hm IHm]; intros lo hi Hok Hr ch l0 Ht;
    try discriminate Hr; try discriminate Ht.
  injection Hr as -> -> ->.
  destruct l1 as [|d l1]; simpl in Ht.
  - (* an empty first iteration: the text comes from a later one *)
    assert (Hok' : re_ok (RRep a (Nat.pred lo) (hi_pred hi)) = true).
    { simpl in *. apply andb_true_iff in Hok as [-> Hb]. destruct hi as [h|]; [|done]. simpl in *.
      apply Nat.leb_le in Hb. apply Nat.leb_le. lia. }
    destruct (IHm _ _ Hok' eq_refl ch l0 Ht) as (l2 & l3 & -> & Hp & Hc & Hr3).
    exists l2, l3. repeat split; try done.
    change l3 with ([] ++ l3). apply L_repS; done.
  - injection Ht as -> <-. eauto 10.
Qed.

Lemma deriv_lang c r l : re_ok r = true -> (re_lang (deriv c r) l <-> re_lang r (c :: l)).
Proof.
  revert l; induction r as [| |p|a IHa b IHb|a IHa b IHb|a IHa lo hi]; intros l Hok; simpl.
  - split; intros H; by apply lang_none in H.
  - split; [intros H; by apply lang_none in H|inversion 1].
  - destruct (p c) eqn:E; split.
    + inversion 1; subst. by constructor.
    + inversion 1; subst. constructor.
    + intros H; by apply lang_none in H.
    + inversion 1; subst. congruence.
  - simpl in Hok. apply andb_true_iff in Hok as [Ha Hb].
    assert (Hcat : re_lang (cat (deriv c a) b) l -> re_lang (RCat a b) (c :: l)).
    { rewrite cat_lang. intros H. apply lang_cat_inv in H as (l1 & m & -> & H1 & H2).
      apply IHa in H1; [|done]. by apply (L_cat a b (c :: l1) m). }
    assert (Hinv : re_lang (RCat a b) (c :: l) ->
                   re_lang (cat (deriv c a) b) l \/ (nullable a = true /\ re_lang (deriv c b) l)).
    { intros H. apply lang_cat_inv in H as (l1 & m & E & H1 & H2).
      destruct l1 as [|d l1]; simpl in *.
      - right. split; [by apply nullable_lang|]. apply IHb; [done|]. by subst.
      - left. injection E as <- ->. apply cat_lang. constructor; [by apply IHa|done]. }
    destruct (nullable a) eqn:En; [rewrite alt_lang|]; split.
    + inversion 1; subst; [auto|].
      apply (L_cat a b [] (c :: l)); [by apply nullable_lang|by apply IHb].
    + intros H. destruct (Hinv H) as [H1|[_ H2]]; [by apply L_altl|by apply L_altr].
    + auto.
    + intros H. destruct (Hinv H) as [H1|[H2 _]]; [done|congruence].
  - simpl in Hok. apply andb_true_iff in Hok as [Ha Hb]. rewrite alt_lang. split.
    + inversion 1; subst; [apply L_altl, IHa|apply L_altr, IHb]; done.
    + inversion 1; subst; [apply L_altl, IHa|apply L_altr, IHb]; done.
  - assert (Ha : re_ok a = true) by (simpl in Hok; by apply andb_true_iff in Hok as [? _]).
    split.
    + destruct (hi_pos hi) eqn:E; [|intros H; by apply lang_none in H].
      rewrite cat_lang. intros H. apply lang_cat_inv in H as (l1 & m & -> & H1 & H2).
      apply IHa in H1; [|done]. by apply (L_repS a lo hi (c :: l1) m).
    + intros H. apply rep_cons_lang in H as (l1 & l2 & -> & -> & H1 & H2); [|done].
      apply cat_lang. constructor; [by apply IHa|done].
Qed.

Theorem fullmatch_correct r l : re_ok r = true -> (fullmatch r l = true <-> re_lang r l).
Proof.
  revert r; induction l as [|c l IH]; intros r Hok; simpl.
  - by apply nullable_lang.
  - rewrite IH by by apply re_ok_deriv. by apply deriv_lang.
Qed.

(** ** What a match guarantees *)

(** Every character of a match belongs to a class of the pattern. *)
Fixpoint re_chars (r : re) (c : ascii) : bool :=
  match r with
  | RNone | REps => false
  | RCls p => p c
  | RCat a b | RAlt a b => re_chars a c || re_chars b c
  | RRep a _ _ => re_chars a c
  end.

Lemma lang_chars r l : re_lang r l -> Forall (fun c => re_chars r c = true) l.
Proof.
  induction 1 as [|p c H|a b l m _ IHl _ IHm|a b l _ IH|a b l _ IH|a hi|a lo hi l m _ _ IHl _ IHm];
    simpl; try constructor; auto.
  - apply Forall_app; split; eapply Forall_impl; [exact IHl| |exact IHm|];
      intros c Hc; rewrite Hc, ?orb_true_r; done.
  - eapply Forall_impl; [exact IH|]. intros c Hc; rewrite Hc; done.
  - eapply Forall_impl; [exact IH|]. intros c Hc; rewrite Hc, orb_true_r; done.
  - apply Forall_app; split; [exact IHl|exact IHm].
Qed.

Lemma fullmatch_chars r l c :
  re_ok r = true -> fullmatch r l = true -> In c l -> re_chars r c = true.
Proof.
  intros Hok H Hin. apply fullmatch_correct, lang_chars in H; [|done].
  rewrite List.Forall_forall in H. auto.
Qed.

(** A repeated class matches exactly the texts over the class whose length is
    between the bounds. *)
Lemma rep_cls_lang p lo hi l :
  (match hi with Some h => (lo <= h)%nat | None => True end) ->
  re_lang (RRep (RCls p) lo hi) l <->
  Forall (fun c => p c = true) l /\ (lo <= List.length l)%nat /\
  match hi with Some h => (List.length l <= h)%nat | None => True end.
Proof.
  revert lo hi; induction l as [|c l IH]; intros lo hi Hb.
  - split.
    + intros H. apply lang_rep_inv in H as [[-> _]|(l1 & m & E & _ & Hc & _)].
      * repeat split; [constructor|simpl; lia|destruct hi; simpl; lia || done].
      * symmetry in E. apply app_eq_nil in E as [-> ->]. inversion Hc.
    + intros (_ & H & _). simpl in H. replace lo with 0%nat by lia. constructor.
  - assert (Hb' : match hi_pred hi with Some h => (Nat.pred lo <= h)%nat | None => True end)
      by (destruct hi; simpl; lia || done).
    split.
    + intros H. apply lang_rep_inv in H as [[_ E]|(l1 & m & E & Hp & Hc & Hm)]; [done|].
      inversion Hc; subst. simpl in E. injection E as <- <-.
      apply IH in Hm as (Hf & Hlo & Hhi); [|done].
      repeat split; [by constructor|simpl; lia|].
      destruct hi as [[|h]|]; simpl in *; try done; lia.
    + intros (Hf & Hlo & Hhi). inversion Hf; subst.
      apply (L_repS _ _ _ [c] l); [destruct hi as [[|h]|]; simpl in *; done || lia|by constructor|].
      apply IH; [done|]. simpl in *. repeat split; [done|lia|].
      destruct hi as [[|h]|]; simpl in *; try done; lia.
Qed.
