(* ===== verification/Contracts.v ===== *)
(** * The public Framework contract (modsecurity_test_framework/contracts.py)

    Normalisation of expectations, catalog records, capability manifests and
    results; catalog queries; matching of a result against an expectation.
    Every validator fails closed with a [ContractError] of a fixed code.  A
    normalised expectation stays a dictionary, as in the code; a normalised
    catalog record, profile or manifest, whose fields are fixed, is a record
    with a function giving back the dictionary. *)

From S2P Require Export PyValue Regex.

(** ** Constants *)

Definition SCHEMA_VERSION : Z := 1.
Definition MAX_CATALOG_TESTS : Z := 512.
Definition MAX_LIST_ITEMS : Z := 128.
Definition MAX_STRING_LENGTH : Z := 256.
Definition MAX_EXPECTATION_DEPTH : nat := 4.

Definition ident_char (c : ascii) : bool :=
  is_lower c || is_digit c || char_in "_.:/-" c.
Definition IDENTIFIER_RE : re :=
  RCat (RCls is_lower) (RRep (RCls ident_char) 0 (Some 127%nat)).
Definition COMMIT_RE : re := RTimes (RCls is_hex_lower) 40.

Definition EXPECTATION_KINDS : list string :=
  ["http_status"; "intervention"; "action"; "rule_match"; "event"; "configuration";
   "request_headers"; "response_headers"; "request_body"; "response_body"; "transport";
   "lifecycle"; "cleanup"; "compound"; "not_applicable"].
Definition ACTION_VALUES : list string :=
  ["deny"; "pass"; "none"; "redirect"; "block"; "drop"; "abort_connection"; "log_only"].
Definition BODY_STATES : list string :=
  ["observed"; "matched"; "buffered"; "streaming"; "incremental"; "absent"; "redacted"].
Definition TRANSPORT_STATES : list string :=
  ["connection_aborted"; "stream_reset"; "http1"; "http2"; "http3"; "keep_alive";
   "first_byte_before_response_end"; "no_full_response_buffering"].
Definition CLEANUP_STATES : list string := ["balanced"; "completed"; "reused"; "isolated"].
Definition NOT_APPLICABLE_REASONS : list string :=
  ["unsupported_by_host_model"; "not_implemented"; "connector_gap"; "future_target";
   "runtime_difference"].
Definition LIFECYCLE_PREDICATES : list string :=
  ["host_started"; "request_completed"; "response_committed"; "connection_reused";
   "transaction_isolated"; "client_aborted"; "upstream_aborted"; "cleanup_balanced"].
Definition CAPABILITY_STATES : list string :=
  ["verified"; "implemented_not_asserted"; "configured_not_exercised";
   "unsupported_by_host_model"; "not_implemented"; "not_applicable"].
Definition SELECTABLE_CAPABILITY_STATES : list string :=
  ["verified"; "implemented_not_asserted"; "configured_not_exercised"].
Definition SENSITIVE_RESULT_FIELDS : list string :=
  ["authorization"; "cookie"; "password"; "secret"; "payload"; "request_body";
   "response_body"; "request_headers"; "response_headers"].

(** ** Scalar validators *)

Definition _fail {A} (code : string) : res A := Err (ContractError code).

Definition _is_integer (v : pyval) : bool := is_int v && negb (is_bool v).

Definition _identifier (v : pyval) : res string :=
  match v with
  | PStr s =>
      if negb (fullmatch_str IDENTIFIER_RE s) || contains ".." s || contains "//" s
      then _fail "invalid_identifier" else Ok s
  | _ => _fail "invalid_identifier"
  end.

Definition _text (v : pyval) (limit : Z) : res string :=
  match v with
  | PStr s => if String.eqb s "" || (limit <? str_len s) then _fail "invalid_text" else Ok s
  | _ => _fail "invalid_text"
  end.

Definition _optional_identifier (v : pyval) : res (option string) :=
  if is_none v then Ok None else let* s := _identifier v in Ok (Some s).

Definition _http_status (v : pyval) : res Z :=
  match v with
  | PInt z => if (100 <=? z) && (z <=? 599) then Ok z else _fail "invalid_http_status"
  | _ => _fail "invalid_http_status"
  end.

Definition rule_id (v : pyval) : res Z :=
  match v with
  | PInt z => if (1 <=? z) && (z <=? 9999999) then Ok z else _fail "invalid_rule_ids"
  | _ => _fail "invalid_rule_ids"
  end.

Definition llen {A} (l : list A) : Z := Z.of_nat (List.length l).

Definition _rule_ids (v : pyval) : res (list Z) :=
  match v with
  | PList l =>
      if (llen l =? 0) || (MAX_LIST_ITEMS <? llen l) then _fail "invalid_rule_ids"
      else let* result := mapM rule_id l in
           if Z_nodup result then Ok (sort_Z result) else _fail "invalid_rule_ids"
  | _ => _fail "invalid_rule_ids"
  end.

Definition _identifier_list (v : pyval) (code : string) (minimum : Z) : res (list string) :=
  match v with
  | PList l =>
      if negb ((minimum <=? llen l) && (llen l <=? MAX_LIST_ITEMS)) then _fail code
      else let* result := mapM _identifier l in
           if str_nodup result then Ok (sort_strs result) else _fail code
  | _ => _fail code
  end.

Definition _exact_fields (value : pydict) (required allowed : list string) : res unit :=
  if existsb (fun k => negb (is_str k)) (keys value)
     || negb (forallb (fun k => dict_has k value) required)
     || negb (keys_within value allowed)
  then _fail "invalid_expectation_fields" else Ok tt.

Definition PStrs (l : list string) : pyval := PList (map PStr l).
Definition PInts (l : list Z) : pyval := PList (map PInt l).

(** An optional field of a dictionary under construction:
    [if name in value: result[name] = f(value[name])]. *)
Definition opt_field (value : pydict) (name key : string) (f : pyval -> res pyval)
    : res (list (string * pyval)) :=
  match dict_find name value with
  | Some v => let* w := f v in Ok [(key, w)]
  | None => Ok []
  end.

Definition rule_ids_val (v : pyval) : res pyval := let* r := _rule_ids v in Ok (PInts r).
Definition http_status_val (v : pyval) : res pyval := let* r := _http_status v in Ok (PInt r).
Definition identifier_val (v : pyval) : res pyval := let* r := _identifier v in Ok (PStr r).
Definition identifier_list_val (code : string) (v : pyval) : res pyval :=
  let* r := _identifier_list v code 1 in Ok (PStrs r).

(** [isinstance(v, str) and v in allowed], otherwise the given failure. *)
Definition member_of (allowed : list string) (code : string) (v : pyval) : res string :=
  match v with
  | PStr s => if str_in s allowed then Ok s else _fail code
  | _ => _fail code
  end.

(** ** Expectation handlers *)

Definition _expectation_http_status (value : pydict) (kind : string) : res pydict :=
  _exact_fields value ["kind"; "http_status"] ["kind"; "http_status"] ;;;
  let* v := dict_item "http_status" value in
  let* st := _http_status v in
  Ok (mkdict [("kind", PStr kind); ("http_status", PInt st)]).

Definition _expectation_action (value : pydict) (kind : string) : res pydict :=
  let allowed := if String.eqb kind "intervention"
                 then ["kind"; "action"; "http_status"; "rule_ids"]
                 else ["kind"; "action"; "rule_ids"] in
  _exact_fields value ["kind"; "action"] allowed ;;;
  let* v := dict_item "action" value in
  let* action := member_of ACTION_VALUES "invalid_action" v in
  let* status := opt_field value "http_status" "http_status" http_status_val in
  let* rules := opt_field value "rule_ids" "rule_ids" rule_ids_val in
  Ok (mkdict ([("kind", PStr kind); ("action", PStr action)] ++ status ++ rules)).

Definition _expectation_rule_match (value : pydict) (kind : string) : res pydict :=
  _exact_fields value ["kind"; "rule_ids"] ["kind"; "rule_ids"] ;;;
  let* v := dict_item "rule_ids" value in
  let* rules := _rule_ids v in
  Ok (mkdict [("kind", PStr kind); ("rule_ids", PInts rules)]).

Definition _expectation_event (value : pydict) (kind : string) : res pydict :=
  _exact_fields value ["kind"] ["kind"; "fields"; "event_type"] ;;;
  if negb (dict_has "fields" value) && negb (dict_has "event_type" value)
  then _fail "invalid_event"
  else
    let* fields := opt_field value "fields" "fields" (identifier_list_val "invalid_event") in
    let* event_type := opt_field value "event_type" "event_type" identifier_val in
    Ok (mkdict ([("kind", PStr kind)] ++ fields ++ event_type)).

Definition _CONFIGURATION_FIELDS : list string :=
  ["connector"; "operation"; "directive"; "exit_code"; "outcome"; "error_class"].

Record configuration := {
  cfg_connector : string; cfg_operation : string; cfg_directive : string;
  cfg_exit_code : Z; cfg_outcome : string; cfg_error_class : string }.

Definition configuration_items (c : configuration) : list (string * pyval) :=
  [("connector", PStr (cfg_connector c)); ("operation", PStr (cfg_operation c));
   ("directive", PStr (cfg_directive c)); ("exit_code", PInt (cfg_exit_code c));
   ("outcome", PStr (cfg_outcome c)); ("error_class", PStr (cfg_error_class c))].

Definition _configuration_values (value : pydict) : res configuration :=
  let* code := dict_item "exit_code" value in
  let* exit_code := match code with
                    | PInt z => if (0 <=? z) && (z <=? 255) then Ok z
                                else _fail "invalid_configuration"
                    | _ => _fail "invalid_configuration"
                    end in
  let* connector := (let* v := dict_item "connector" value in _identifier v) in
  let* operation := (let* v := dict_item "operation" value in _identifier v) in
  let* directive := (let* v := dict_item "directive" value in _identifier v) in
  let* outcome := (let* v := dict_item "outcome" value in _identifier v) in
  let* error_class := (let* v := dict_item "error_class" value in _identifier v) in
  Ok {| cfg_connector := connector; cfg_operation := operation; cfg_directive := directive;
        cfg_exit_code := exit_code; cfg_outcome := outcome; cfg_error_class := error_class |}.

Definition _expectation_configuration (value : pydict) (kind : string) : res pydict :=
  let fields := _CONFIGURATION_FIELDS ++ ["kind"] in
  _exact_fields value fields fields ;;;
  let* r := _configuration_values value in
  if negb (str_in (cfg_operation r) ["configtest"; "startup"])
     || negb (str_in (cfg_outcome r) ["config_accepted"; "config_rejected"])
  then _fail "invalid_configuration"
  else
    let accepted := String.eqb (cfg_outcome r) "config_accepted" in
    if negb (Bool.eqb accepted (cfg_exit_code r =? 0)) then _fail "invalid_configuration"
    else if negb (Bool.eqb accepted (String.eqb (cfg_error_class r) "none"))
    then _fail "invalid_configuration"
    else if String.eqb (cfg_operation r) "startup"
            && (negb (String.eqb (cfg_connector r) "nginx")
                || negb (String.eqb (cfg_directive r) "modsecurity_rules_file")
                || negb accepted)
    then _fail "invalid_configuration"
    else Ok (mkdict (("kind", PStr kind) :: configuration_items r)).

Definition _expectation_headers (value : pydict) (kind : string) : res pydict :=
  _exact_fields value ["kind"; "names"] ["kind"; "names"] ;;;
  let* v := dict_item "names" value in
  let* names := _identifier_list v "invalid_header_names" 1 in
  Ok (mkdict [("kind", PStr kind); ("names", PStrs names)]).

Definition state_vocabulary (kind : string) : list string * string :=
  if str_in kind ["request_body"; "response_body"] then (BODY_STATES, "invalid_body_state")
  else if String.eqb kind "transport" then (TRANSPORT_STATES, "invalid_transport")
  else (CLEANUP_STATES, "invalid_cleanup").

Definition _expectation_state (value : pydict) (kind : string) : res pydict :=
  _exact_fields value ["kind"; "state"] ["kind"; "state"] ;;;
  let* v := dict_item "state" value in
  let '(allowed, code) := state_vocabulary kind in
  let* state := member_of allowed code v in
  Ok (mkdict [("kind", PStr kind); ("state", PStr state)]).

(** The loop shared by the two lifecycle validators: each key a known predicate,
    each value a Boolean. *)
Definition lifecycle_item (code : string) (kv : pyval * pyval) : res (string * pyval) :=
  match kv with
  | (PStr k, PBool b) => if str_in k LIFECYCLE_PREDICATES then Ok (k, PBool b) else _fail code
  | _ => _fail code
  end.

Definition key_leb (a b : string * pyval) : bool := str_leb (fst a) (fst b).

(** [dict(sorted(result.items()))] after the loop: the keys of a mapping are
    distinct, so the order of the items is the order of the keys. *)
Definition lifecycle_items (code : string) (predicates : pydict) : res (list (string * pyval)) :=
  let* items := mapM (lifecycle_item code) predicates in
  Ok (isort key_leb items).

Definition _expectation_lifecycle (value : pydict) (kind : string) : res pydict :=
  _exact_fields value ["kind"; "predicates"] ["kind"; "predicates"] ;;;
  let* v := dict_item "predicates" value in
  match v with
  | PDict p =>
      if (llen p =? 0) || (llen LIFECYCLE_PREDICATES <? llen p) then _fail "invalid_lifecycle"
      else let* items := lifecycle_items "invalid_lifecycle" p in
           Ok (mkdict [("kind", PStr kind); ("predicates", PDict (mkdict items))])
  | _ => _fail "invalid_lifecycle"
  end.

Definition _expectation_not_applicable (value : pydict) (kind : string) : res pydict :=
  _exact_fields value ["kind"; "reason"] ["kind"; "reason"] ;;;
  let* v := dict_item "reason" value in
  let* reason := member_of NOT_APPLICABLE_REASONS "invalid_not_applicable" v in
  Ok (mkdict [("kind", PStr kind); ("reason", PStr reason)]).

Inductive handler :=
  | HLeaf (f : pydict -> string -> res pydict)
  | HCompound.

Definition _EXPECTATION_HANDLERS : list (string * handler) :=
  [("http_status", HLeaf _expectation_http_status);
   ("intervention", HLeaf _expectation_action);
   ("action", HLeaf _expectation_action);
   ("rule_match", HLeaf _expectation_rule_match);
   ("event", HLeaf _expectation_event);
   ("configuration", HLeaf _expectation_configuration);
   ("request_headers", HLeaf _expectation_headers);
   ("response_headers", HLeaf _expectation_headers);
   ("request_body", HLeaf _expectation_state);
   ("response_body", HLeaf _expectation_state);
   ("transport", HLeaf _expectation_state);
   ("lifecycle", HLeaf _expectation_lifecycle);
   ("cleanup", HLeaf _expectation_state);
   ("compound", HCompound);
   ("not_applicable", HLeaf _expectation_not_applicable)].

Fixpoint assoc {A} (k : string) (l : list (string * A)) : option A :=
  match l with
  | [] => None
  | (k', v) :: r => if String.eqb k' k then Some v else assoc k r
  end.

(** [_expectation_compound], with the recursive call passed in. *)
Definition _expectation_compound (normalise : pyval -> res pydict) (value : pydict) (kind : string)
    : res pydict :=
  _exact_fields value ["kind"; "conditions"] ["kind"; "conditions"] ;;;
  let* v := dict_item "conditions" value in
  match v with
  | PList conditions =>
      if negb ((2 <=? llen conditions) && (llen conditions <=? 16)) then _fail "invalid_compound"
      else
        let* normalised := mapM normalise conditions in
        let fingerprints := map (fun d : pydict => json_dumps "," ":" (PDict d)) normalised in
        if negb (str_nodup fingerprints) then _fail "invalid_compound"
        else Ok (mkdict [("kind", PStr kind); ("conditions", PList (map PDict normalised))])
  | _ => _fail "invalid_compound"
  end.

(** [_normalise_expectation value depth]; the recursion stops at
    [MAX_EXPECTATION_DEPTH], so a fuel of [MAX_EXPECTATION_DEPTH + 2 - depth] is
    enough. *)
Fixpoint normalise_expectation_at (fuel depth : nat) (value : pyval) : res pydict :=
  match fuel with
  | O => Err OutOfFuel
  | S fuel' =>
      if Nat.ltb MAX_EXPECTATION_DEPTH depth then _fail "invalid_expectation"
      else
        match value with
        | PDict d =>
            match dict_get "kind" d with
            | PStr kind =>
                if negb (str_in kind EXPECTATION_KINDS) then _fail "unknown_expectation_kind"
                else match assoc kind _EXPECTATION_HANDLERS with
                     | Some (HLeaf f) => f d kind
                     | Some HCompound =>
                         _expectation_compound (normalise_expectation_at fuel' (S depth)) d kind
                     | None => Err (KeyError kind)
                     end
            | _ => _fail "unknown_expectation_kind"
            end
        | _ => _fail "invalid_expectation"
        end
  end.

Definition _normalise_expectation (value : pyval) (depth : nat) : res pydict :=
  normalise_expectation_at (MAX_EXPECTATION_DEPTH + 2 - depth) depth value.

Definition normalize_expectation (expectation : pyval) : res pydict :=
  _normalise_expectation expectation 0.

(** ** Catalog records *)

Definition path_part_ok (p : string) : bool := negb (str_in p [""; "."; ".."]).

Definition _relative_resource_path (value : pyval) : res string :=
  let* path := _text value 512 in
  if starts_with "/" path || contains (L2S [chr 92]) path
     || negb (forallb path_part_ok (py_split "/" path))
  then _fail "invalid_catalog" else Ok path.

Definition _RECORD_FIELDS : list string :=
  ["framework_test_id"; "display_name"; "scenario_category"; "phase"; "area"; "profile";
   "required_capabilities"; "expectation"; "applicability"; "catalogs"; "sources"].

(** A Boolean or [None]. *)
Definition optional_bool (code : string) (v : pyval) : res (option bool) :=
  match v with
  | PNone => Ok None
  | PBool b => Ok (Some b)
  | _ => _fail code
  end.

Record applicability := {
  app_portable : option bool; app_requires_crs : option bool;
  app_connector : option string; app_declared_status : option string }.

Record test_record := {
  framework_test_id : string; display_name : string; scenario_category : option string;
  phase : option Z; area : option string; profile : string;
  required_capabilities : list string; expectation : pydict;
  record_applicability : applicability; catalogs : list string;
  sources : list (string * string) }.

Definition opt_val {A} (f : A -> pyval) (o : option A) : pyval :=
  match o with Some a => f a | None => PNone end.

Definition applicability_items (a : applicability) : list (string * pyval) :=
  [("portable", opt_val PBool (app_portable a));
   ("requires_crs", opt_val PBool (app_requires_crs a));
   ("connector", opt_val PStr (app_connector a));
   ("declared_status", opt_val PStr (app_declared_status a))].

Definition source_val (s : string * string) : pyval :=
  PDict (mkdict [("kind", PStr (fst s)); ("path", PStr (snd s))]).

(** The dictionary [_normalise_record] returns. *)
Definition record_items (r : test_record) : list (string * pyval) :=
  [("framework_test_id", PStr (framework_test_id r));
   ("display_name", PStr (display_name r));
   ("scenario_category", opt_val PStr (scenario_category r));
   ("phase", opt_val PInt (phase r));
   ("area", opt_val PStr (area r));
   ("profile", PStr (profile r));
   ("required_capabilities", PStrs (required_capabilities r));
   ("expectation", PDict (expectation r));
   ("applicability", PDict (mkdict (applicability_items (record_applicability r))));
   ("catalogs", PStrs (catalogs r));
   ("sources", PList (map source_val (sources r)))].

Definition _normalise_record_applicability (value : pyval) : res applicability :=
  match value with
  | PDict d =>
      if negb (keys_exactly d ["portable"; "requires_crs"; "connector"; "declared_status"])
      then _fail "invalid_catalog"
      else
        let* portable := (let* v := dict_item "portable" d in optional_bool "invalid_catalog" v) in
        let* requires_crs :=
          (let* v := dict_item "requires_crs" d in optional_bool "invalid_catalog" v) in
        let* connector := (let* v := dict_item "connector" d in _optional_identifier v) in
        let* status := (let* v := dict_item "declared_status" d in _optional_identifier v) in
        Ok {| app_portable := portable; app_requires_crs := requires_crs;
              app_connector := connector; app_declared_status := status |}
  | _ => _fail "invalid_catalog"
  end.

Definition normalise_source (source : pyval) : res (string * string) :=
  match source with
  | PDict d =>
      if negb (keys_exactly d ["kind"; "path"]) then _fail "invalid_catalog"
      else
        let* kind := (let* v := dict_item "kind" d in _identifier v) in
        let* path := (let* v := dict_item "path" d in _relative_resource_path v) in
        Ok (kind, path)
  | _ => _fail "invalid_catalog"
  end.

Definition _normalise_record_sources (value : pyval) : res (list (string * string)) :=
  match value with
  | PList l =>
      if (llen l =? 0) || (16 <? llen l) then _fail "invalid_catalog"
      else mapM normalise_source l
  | _ => _fail "invalid_catalog"
  end.

Definition record_phase (v : pyval) : res (option Z) :=
  match v with
  | PNone => Ok None
  | PInt z => if (0 <=? z) && (z <=? 9) then Ok (Some z) else _fail "invalid_catalog"
  | _ => _fail "invalid_catalog"
  end.

Definition _normalise_record (value : pyval) : res test_record :=
  match value with
  | PDict d =>
      if negb (keys_exactly d _RECORD_FIELDS) then _fail "invalid_catalog"
      else
        let* phase := (let* v := dict_item "phase" d in record_phase v) in
        let* id := (let* v := dict_item "framework_test_id" d in _identifier v) in
        let* name := (let* v := dict_item "display_name" d in _text v MAX_STRING_LENGTH) in
        let* category := (let* v := dict_item "scenario_category" d in _optional_identifier v) in
        let* area := (let* v := dict_item "area" d in _optional_identifier v) in
        let* profile := (let* v := dict_item "profile" d in _identifier v) in
        let* caps := (let* v := dict_item "required_capabilities" d in
                      _identifier_list v "invalid_catalog" 0) in
        let* exp := (let* v := dict_item "expectation" d in normalize_expectation v) in
        let* app := (let* v := dict_item "applicability" d in
                     _normalise_record_applicability v) in
        let* cats := (let* v := dict_item "catalogs" d in
                      _identifier_list v "invalid_catalog" 1) in
        let* srcs := (let* v := dict_item "sources" d in _normalise_record_sources v) in
        Ok {| framework_test_id := id; display_name := name; scenario_category := category;
              phase := phase; area := area; profile := profile;
              required_capabilities := caps; expectation := exp;
              record_applicability := app; catalogs := cats; sources := srcs |}
  | _ => _fail "invalid_catalog"
  end.

(** ** Profiles and the catalog *)

Record profile_contract := {
  pr_profile : string; pr_fixture_id : string; pr_connectors : list string;
  pr_required_capabilities : list string; pr_expectation : pydict;
  pr_release_tag : string; pr_commit : string; pr_expected_rule_id : Z }.

Definition profile_items (p : profile_contract) : list (string * pyval) :=
  [("profile", PStr (pr_profile p)); ("fixture_id", PStr (pr_fixture_id p));
   ("connectors", PStrs (pr_connectors p));
   ("required_capabilities", PStrs (pr_required_capabilities p));
   ("expectation", PDict (pr_expectation p));
   ("provenance", PDict (mkdict
      [("release_tag", PStr (pr_release_tag p)); ("commit", PStr (pr_commit p));
       ("expected_rule_id", PInt (pr_expected_rule_id p))]))].

Definition commit_value (v : pyval) : res string :=
  match v with
  | PStr s => if fullmatch_str COMMIT_RE s then Ok s else _fail "invalid_catalog"
  | _ => _fail "invalid_catalog"
  end.

Definition expected_rule_id (v : pyval) : res Z :=
  match v with
  | PInt z => if (1 <=? z) && (z <=? 9999999) then Ok z else _fail "invalid_catalog"
  | _ => _fail "invalid_catalog"
  end.

Definition _normalise_profile (value : pyval) (expected_name : string) : res profile_contract :=
  match value with
  | PDict d =>
      if negb (keys_exactly d ["profile"; "fixture_id"; "connectors"; "required_capabilities";
                               "expectation"; "provenance"])
      then _fail "invalid_catalog"
      else
        let* name := (let* v := dict_item "profile" d in _identifier v) in
        if negb (String.eqb name expected_name) then _fail "invalid_catalog"
        else
          let* pv := dict_item "provenance" d in
          match pv with
          | PDict p =>
              if negb (keys_exactly p ["release_tag"; "commit"; "expected_rule_id"])
              then _fail "invalid_catalog"
              else
                let* commit := (let* v := dict_item "commit" p in commit_value v) in
                let* rule := (let* v := dict_item "expected_rule_id" p in expected_rule_id v) in
                let* fixture := (let* v := dict_item "fixture_id" d in _identifier v) in
                let* conns := (let* v := dict_item "connectors" d in
                               _identifier_list v "invalid_catalog" 1) in
                let* caps := (let* v := dict_item "required_capabilities" d in
                              _identifier_list v "invalid_catalog" 0) in
                let* exp := (let* v := dict_item "expectation" d in normalize_expectation v) in
                let* tag := (let* v := dict_item "release_tag" p in _identifier v) in
                Ok {| pr_profile := expected_name; pr_fixture_id := fixture;
                      pr_connectors := conns; pr_required_capabilities := caps;
                      pr_expectation := exp; pr_release_tag := tag; pr_commit := commit;
                      pr_expected_rule_id := rule |}
          | _ => _fail "invalid_catalog"
          end
  | _ => _fail "invalid_catalog"
  end.

Record catalog_data := {
  source_commit : string; profiles : list (string * profile_contract);
  tests : list test_record }.

Definition source_commit_value (v : pyval) : res string :=
  if eq_str v "unavailable" then Ok "unavailable" else commit_value v.

Definition normalise_profile_item (kv : pyval * pyval) : res (string * profile_contract) :=
  let* name := _identifier (fst kv) in
  let* p := _normalise_profile (snd kv) name in
  Ok (name, p).

(** The dictionary display of profiles keeps one entry per name; the names of a
    mapping are distinct, so [len(normalised_profiles) != len(profiles)] is a
    duplicate among the normalised names. *)
Definition _normalise_catalog (value : pydict) : res catalog_data :=
  if negb (keys_exactly value ["schema_version"; "source_commit"; "profiles"; "tests"])
  then _fail "invalid_catalog"
  else
    let* version := dict_item "schema_version" value in
    if negb (eq_int version SCHEMA_VERSION) then _fail "unsupported_schema_version"
    else
      let* commit := (let* v := dict_item "source_commit" value in source_commit_value v) in
      let* raw := dict_item "tests" value in
      match raw with
      | PList raw_tests =>
          if (llen raw_tests =? 0) || (MAX_CATALOG_TESTS <? llen raw_tests)
          then _fail "invalid_catalog"
          else
            let* tests := mapM _normalise_record raw_tests in
            if negb (str_nodup (map framework_test_id tests)) then _fail "duplicate_test_id"
            else
              let* rawp := dict_item "profiles" value in
              match rawp with
              | PDict p =>
                  if (llen p =? 0) || (16 <? llen p) then _fail "invalid_catalog"
                  else
                    let* normalised := mapM normalise_profile_item p in
                    if negb (str_nodup (map fst normalised)) then _fail "duplicate_profile"
                    else Ok {| source_commit := commit; profiles := normalised; tests := tests |}
              | _ => _fail "invalid_catalog"
              end
      | _ => _fail "invalid_catalog"
      end.

(** ** Queries

    [env] holds what the queries read outside their arguments: the package
    catalog, already decoded, and the outcome of [git rev-parse HEAD] when the
    package lies in a Git work tree and the command ran (exit status and
    standard output). *)

Record environment := {
  package_catalog : res pyval;
  git_head : option (Z * string) }.

Definition _framework_commit (env : environment) (catalog : catalog_data) : string :=
  let fallback := source_commit catalog in
  match git_head env with
  | Some (returncode, stdout) =>
      let candidate := py_strip stdout in
      if (returncode =? 0) && fullmatch_str COMMIT_RE candidate then candidate else fallback
  | None => fallback
  end.

Definition _load_raw_catalog (env : environment) : res pyval :=
  let* data := package_catalog env in
  if is_mapping data then Ok data else _fail "invalid_catalog".

Definition _catalog_for (env : environment) (catalog : option pyval) : res catalog_data :=
  let* raw := match catalog with None => _load_raw_catalog env | Some v => Ok v end in
  match raw with
  | PDict d => _normalise_catalog d
  | _ => _fail "invalid_catalog"
  end.

Definition _public_record (r : test_record) : res (list (string * pyval)) :=
  let* kind := dict_item "kind" (expectation r) in
  Ok (record_items r ++ [("expectation_type", kind)]).

Definition record_selected (catalog : string) (prof : option string) (r : test_record) : bool :=
  (String.eqb catalog "all" || str_in catalog (catalogs r))
  && match prof with None => true | Some p => String.eqb (profile r) p end.

Definition record_id_leb (a b : test_record) : bool :=
  str_leb (framework_test_id a) (framework_test_id b).

Record inventory := {
  inv_framework_commit : string; inv_catalog : string; inv_profile : string;
  inv_test_ids : list string; inv_tests : list test_record }.

(** [inv_tests] are the records whose public form the code lists. *)
Definition load_test_catalog (env : environment) (catalog : pyval) (prof : pyval)
    (catalog_data : option pyval) : res inventory :=
  match catalog with
  | PStr c =>
      if negb (str_in c ["all"; "no-crs-baseline"; "framework-yaml"]) then _fail "unknown_catalog"
      else
        let* p := _optional_identifier prof in
        let* data := _catalog_for env catalog_data in
        let records := isort record_id_leb (List.filter (record_selected c p) (tests data)) in
        mapM _public_record records ;;;
        Ok {| inv_framework_commit := _framework_commit env data;
              inv_catalog := c;
              inv_profile := match p with Some q => q | None => "all" end;
              inv_test_ids := map framework_test_id records;
              inv_tests := records |}
  | _ => _fail "unknown_catalog"
  end.

Record description := {
  desc_framework_commit : string; desc_framework_test_id : string; desc_profile : string;
  desc_expectation_type : pyval; desc_test : test_record }.

Definition describe_test (env : environment) (test_id : pyval) (catalog_data : option pyval)
    : res description :=
  let* id := _identifier test_id in
  let* data := _catalog_for env catalog_data in
  match List.find (fun r => String.eqb (framework_test_id r) id) (tests data) with
  | Some r =>
      let* kind := dict_item "kind" (expectation r) in
      Ok {| desc_framework_commit := _framework_commit env data;
            desc_framework_test_id := id; desc_profile := profile r;
            desc_expectation_type := kind; desc_test := r |}
  | None => _fail "unknown_test_id"
  end.

Definition load_profile_contract (env : environment) (prof : pyval) (catalog_data : option pyval)
    : res (list (string * pyval)) :=
  let* name := _identifier prof in
  let* data := _catalog_for env catalog_data in
  match assoc name (profiles data) with
  | None => _fail "unknown_profile"
  | Some c =>
      let* kind := dict_item "kind" (pr_expectation c) in
      Ok (profile_items c ++
          [("schema_version", PInt SCHEMA_VERSION);
           ("framework_commit", PStr (_framework_commit env data));
           ("expectation_type", kind)])
  end.

(** ** Capability manifests and selection *)

Record manifest := { mf_connector : string; mf_capabilities : list (string * string) }.

Definition capability_item (kv : pyval * pyval) : res (string * string) :=
  let* name := _identifier (fst kv) in
  match snd kv with
  | PDict declaration =>
      match dict_find "state" declaration with
      | Some state =>
          let* s := member_of CAPABILITY_STATES "invalid_capability_manifest" state in
          Ok (name, s)
      | None => _fail "invalid_capability_manifest"
      end
  | _ => _fail "invalid_capability_manifest"
  end.

(** [mf_capabilities] lists the items sorted by name; the names of a mapping are
    distinct. *)
Definition _normalise_capability_manifest (value : pyval) : res manifest :=
  match value with
  | PDict d =>
      if negb (forallb (fun k => dict_has k d) ["schema_version"; "connector"; "capabilities"])
      then _fail "invalid_capability_manifest"
      else
        let* version := dict_item "schema_version" d in
        if negb (eq_int version SCHEMA_VERSION) then _fail "unsupported_schema_version"
        else
          let* caps := dict_item "capabilities" d in
          match caps with
          | PDict c =>
              if (llen c =? 0) || (MAX_LIST_ITEMS <? llen c)
              then _fail "invalid_capability_manifest"
              else
                let* items := mapM capability_item c in
                let* connector := (let* v := dict_item "connector" d in _identifier v) in
                Ok {| mf_connector := connector;
                      mf_capabilities := isort (fun a b => str_leb (fst a) (fst b)) items |}
          | _ => _fail "invalid_capability_manifest"
          end
  | _ => _fail "invalid_capability_manifest"
  end.

Inductive selection_status := Selected | Unsupported | NotApplicable | NotExecuted.

Definition selection_name (s : selection_status) : string :=
  match s with
  | Selected => "selected" | Unsupported => "unsupported"
  | NotApplicable => "not_applicable" | NotExecuted => "not_executed"
  end.

Definition capability_state (m : manifest) (capability : string) : string :=
  match assoc capability (mf_capabilities m) with Some s => s | None => "not_applicable" end.

(** The selection status of one record, from the states of its capabilities. *)
Definition selection_of_states (states : list string) : selection_status :=
  if str_in "unsupported_by_host_model" states then Unsupported
  else if str_in "not_applicable" states then NotApplicable
  else if str_in "not_implemented" states then NotExecuted
  else if forallb (fun s => str_in s SELECTABLE_CAPABILITY_STATES) states then Selected
  else NotExecuted.

Definition record_states (m : manifest) (r : test_record) : list (string * string) :=
  map (fun c => (c, capability_state m c)) (required_capabilities r).

Definition record_selection (m : manifest) (r : test_record) : selection_status :=
  selection_of_states (map snd (record_states m r)).

Record counts := { c_selected : Z; c_unsupported : Z; c_not_applicable : Z; c_not_executed : Z }.

Definition count_one (c : counts) (s : selection_status) : counts :=
  match s with
  | Selected => {| c_selected := c_selected c + 1; c_unsupported := c_unsupported c;
                   c_not_applicable := c_not_applicable c; c_not_executed := c_not_executed c |}
  | Unsupported => {| c_selected := c_selected c; c_unsupported := c_unsupported c + 1;
                   c_not_applicable := c_not_applicable c; c_not_executed := c_not_executed c |}
  | NotApplicable => {| c_selected := c_selected c; c_unsupported := c_unsupported c;
                   c_not_applicable := c_not_applicable c + 1; c_not_executed := c_not_executed c |}
  | NotExecuted => {| c_selected := c_selected c; c_unsupported := c_unsupported c;
                   c_not_applicable := c_not_applicable c; c_not_executed := c_not_executed c + 1 |}
  end.

Record selected_record := {
  sel_record : test_record; sel_status : selection_status;
  sel_states : list (string * string) }.

Definition select_record (m : manifest) (r : test_record) : selected_record :=
  {| sel_record := r; sel_status := record_selection m r;
     sel_states := isort (fun a b => str_leb (fst a) (fst b)) (record_states m r) |}.

Definition is_selected (s : selected_record) : bool :=
  match sel_status s with Selected => true | _ => false end.

Record selection := {
  s_framework_commit : string; s_catalog : string; s_profile : string; s_connector : string;
  s_selected_test_ids : list string; s_counts : counts; s_tests : list selected_record }.

Definition select_tests (env : environment) (capability_manifest : pyval) (catalog prof : pyval)
    (catalog_data : option pyval) : res selection :=
  let* m := _normalise_capability_manifest capability_manifest in
  let* inv := load_test_catalog env catalog prof catalog_data in
  let selected := map (select_record m) (inv_tests inv) in
  Ok {| s_framework_commit := inv_framework_commit inv;
        s_catalog := inv_catalog inv; s_profile := inv_profile inv;
        s_connector := mf_connector m;
        s_selected_test_ids :=
          map (fun s => framework_test_id (sel_record s)) (List.filter is_selected selected);
        s_counts := fold_left count_one (map sel_status selected)
                      {| c_selected := 0; c_unsupported := 0; c_not_applicable := 0;
                         c_not_executed := 0 |};
        s_tests := selected |}.

(** ** Results *)

Definition _RESULT_FIELDS : list string :=
  ["http_status"; "action"; "rule_ids"; "event_fields"; "event_type"; "request_header_names";
   "response_header_names"; "request_body_state"; "response_body_state"; "transport";
   "lifecycle"; "cleanup"; "applicability"; "configuration"].

Definition member_val (allowed : list string) (code : string) (v : pyval) : res pyval :=
  let* s := member_of allowed code v in Ok (PStr s).

Definition _normalise_result_scalar_fields (value : pydict) : res (list (string * pyval)) :=
  let* a := opt_field value "http_status" "http_status" http_status_val in
  let* b := opt_field value "action" "action" (member_val ACTION_VALUES "invalid_result") in
  let* c := opt_field value "rule_ids" "rule_ids" rule_ids_val in
  let* d := opt_field value "event_fields" "event_fields"
              (identifier_list_val "invalid_result") in
  let* e := opt_field value "event_type" "event_type" identifier_val in
  Ok (a ++ b ++ c ++ d ++ e).

Definition _normalise_result_headers (value : pydict) : res (list (string * pyval)) :=
  let* a := opt_field value "request_header_names" "request_header_names"
              (identifier_list_val "invalid_result") in
  let* b := opt_field value "response_header_names" "response_header_names"
              (identifier_list_val "invalid_result") in
  Ok (a ++ b).

Definition _normalise_result_state_field (value : pydict) (field : string) (allowed : list string)
    : res (list (string * pyval)) :=
  opt_field value field field (member_val allowed "invalid_result").

Definition _normalise_result_states (value : pydict) : res (list (string * pyval)) :=
  let* parts := mapM (fun '(field, allowed) => _normalise_result_state_field value field allowed)
    [("request_body_state", BODY_STATES); ("response_body_state", BODY_STATES);
     ("transport", TRANSPORT_STATES); ("cleanup", CLEANUP_STATES);
     ("applicability", NOT_APPLICABLE_REASONS)] in
  Ok (concat parts).

Definition lifecycle_val (v : pyval) : res pyval :=
  match v with
  | PDict p =>
      if llen p =? 0 then _fail "invalid_result"
      else let* items := lifecycle_items "invalid_result" p in Ok (PDict (mkdict items))
  | _ => _fail "invalid_result"
  end.

Definition _normalise_result_lifecycle (value : pydict) : res (list (string * pyval)) :=
  opt_field value "lifecycle" "lifecycle" lifecycle_val.

Definition bool_field (d : pydict) (field : string) : res (string * pyval) :=
  let* v := dict_item field d in
  match v with PBool b => Ok (field, PBool b) | _ => _fail "invalid_result" end.

Definition configuration_val (v : pyval) : res pyval :=
  match v with
  | PDict o =>
      if negb (keys_exactly o (_CONFIGURATION_FIELDS ++ ["process_started"; "listener_created"]))
      then _fail "invalid_result"
      else
        let* c := _configuration_values o in
        let* flags := mapM (bool_field o) ["process_started"; "listener_created"] in
        Ok (PDict (mkdict (configuration_items c ++ flags)))
  | _ => _fail "invalid_result"
  end.

Definition _normalise_result_configuration (value : pydict) : res (list (string * pyval)) :=
  opt_field value "configuration" "configuration" configuration_val.

(** The five partial results have distinct keys, so the successive [update]s
    append. *)
Definition _normalise_result (v : pyval) : res pydict :=
  match v with
  | PDict value =>
      if llen value =? 0 then _fail "invalid_result"
      else if existsb (fun k => in_strs k SENSITIVE_RESULT_FIELDS) (keys value)
      then _fail "sensitive_result_field"
      else if existsb (fun k => negb (is_str k)) (keys value)
              || negb (keys_within value _RESULT_FIELDS)
      then _fail "invalid_result"
      else
        let* scalars := _normalise_result_scalar_fields value in
        let* headers := _normalise_result_headers value in
        let* states := _normalise_result_states value in
        let* lifecycle := _normalise_result_lifecycle value in
        let* conf := _normalise_result_configuration value in
        Ok (mkdict (scalars ++ headers ++ states ++ lifecycle ++ conf))
  | _ => _fail "invalid_result"
  end.

(** ** Matching *)

Definition PEmptyList : pyval := PList [].

(** [set(a).issubset(b)] for lists [a] and [b]. *)
Definition py_subset (a b : pyval) : res bool :=
  match a, b with
  | PList l, PList m =>
      if forallb hashable l && forallb hashable m
      then Ok (forallb (fun x => existsb (py_eq x) m) l)
      else Err (TypeError "unhashable type")
  | _, _ => Err (TypeError "not a list")
  end.

Definition mismatch (ok : bool) (code : string) : list string := if ok then [] else [code].

Definition _match_http_status (expectation result : pydict) : res (list string) :=
  let* want := dict_item "http_status" expectation in
  Ok (mismatch (py_eq (dict_get "http_status" result) want) "http_status_mismatch").

Definition subset_mismatch (expectation result : pydict) (field observed code : string)
    : res (list string) :=
  let* want := dict_item field expectation in
  let* ok := py_subset want (dict_get_or PEmptyList observed result) in
  Ok (mismatch ok code).

Definition _match_action (expectation result : pydict) : res (list string) :=
  let* want := dict_item "action" expectation in
  let a := mismatch (py_eq (dict_get "action" result) want) "action_mismatch" in
  let* b := (if dict_has "http_status" expectation
             then _match_http_status expectation result else Ok []) in
  let* c := (if dict_has "rule_ids" expectation
             then subset_mismatch expectation result "rule_ids" "rule_ids" "rule_id_mismatch"
             else Ok []) in
  Ok (a ++ b ++ c).

Definition _match_rule_ids (expectation result : pydict) : res (list string) :=
  subset_mismatch expectation result "rule_ids" "rule_ids" "rule_id_mismatch".

Definition _match_event (expectation result : pydict) : res (list string) :=
  let* a := (if dict_has "fields" expectation
             then subset_mismatch expectation result "fields" "event_fields"
                    "event_fields_mismatch"
             else Ok []) in
  let* b := match dict_find "event_type" expectation with
            | Some want => Ok (mismatch (py_eq (dict_get "event_type" result) want)
                                 "event_type_mismatch")
            | None => Ok []
            end in
  Ok (a ++ b).

(** [a is b] for a Boolean [b]. *)
Definition is_bool_val (v : pyval) (b : bool) : bool :=
  match v with PBool c => Bool.eqb c b | _ => false end.

Definition _match_configuration (expectation result : pydict) : res (list string) :=
  match dict_get_or (PDict []) "configuration" result with
  | PDict observation =>
      let* failures := mapM (fun field =>
        let* want := dict_item field expectation in
        Ok (mismatch (py_eq (dict_get field observation) want)
              ("configuration_" +:+ field +:+ "_mismatch")))
        (sort_strs _CONFIGURATION_FIELDS) in
      let* operation := dict_item "operation" expectation in
      let flags := map (fun field =>
        mismatch (is_bool_val (dict_get field observation) (eq_str operation "startup"))
          ("configuration_" +:+ field +:+ "_mismatch"))
        ["process_started"; "listener_created"] in
      Ok (concat failures ++ concat flags)
  | _ => Err (AttributeError "get")
  end.

Definition _match_membership (expectation result : pydict) (field code : string)
    : res (list string) :=
  subset_mismatch expectation result "names" field code.

Definition _match_value (expectation result : pydict) (field code : string) : res (list string) :=
  let* want := dict_item "state" expectation in
  Ok (mismatch (py_eq (dict_get field result) want) code).

Definition _match_lifecycle (expectation result : pydict) : res (list string) :=
  match dict_get_or (PDict []) "lifecycle" result with
  | PDict observed =>
      let* p := dict_item "predicates" expectation in
      match p with
      | PDict predicates =>
          let ok := forallb (fun kv => py_eq (dict_get_key (fst kv) observed) (snd kv))
                      predicates in
          Ok (mismatch ok "lifecycle_mismatch")
      | _ => Err (AttributeError "items")
      end
  | _ => Err (AttributeError "get")
  end.

Definition _match_applicability (expectation result : pydict) : res (list string) :=
  let* want := dict_item "reason" expectation in
  Ok (mismatch (py_eq (dict_get "applicability" result) want) "applicability_mismatch").

Inductive matcher :=
  | MLeaf (f : pydict -> pydict -> res (list string))
  | MCompound.

Definition _MATCH_HANDLERS : list (string * matcher) :=
  [("compound", MCompound);
   ("http_status", MLeaf _match_http_status);
   ("intervention", MLeaf _match_action);
   ("action", MLeaf _match_action);
   ("rule_match", MLeaf _match_rule_ids);
   ("event", MLeaf _match_event);
   ("configuration", MLeaf _match_configuration);
   ("request_headers", MLeaf (fun e r =>
      _match_membership e r "request_header_names" "request_headers_mismatch"));
   ("response_headers", MLeaf (fun e r =>
      _match_membership e r "response_header_names" "response_headers_mismatch"));
   ("request_body", MLeaf (fun e r => _match_value e r "request_body_state" "request_body_mismatch"));
   ("response_body", MLeaf (fun e r =>
      _match_value e r "response_body_state" "response_body_mismatch"));
   ("transport", MLeaf (fun e r => _match_value e r "transport" "transport_mismatch"));
   ("lifecycle", MLeaf _match_lifecycle);
   ("cleanup", MLeaf (fun e r => _match_value e r "cleanup" "cleanup_mismatch"));
   ("not_applicable", MLeaf _match_applicability)].

(** [_match_compound], with the recursive call passed in; a condition that is
    not a mapping has no item ["kind"]. *)
Definition _match_compound (matches : pydict -> res (list string)) (expectation : pydict)
    : res (list string) :=
  let* conditions := dict_item "conditions" expectation in
  match conditions with
  | PList l =>
      let* parts := mapM (fun c => match c with
                                   | PDict d => matches d
                                   | _ => Err (TypeError "not subscriptable")
                                   end) l in
      Ok (concat parts)
  | _ => Err (TypeError "not a list")
  end.

(** [_match_expectation]; the fuel bounds the nesting of compound expectations,
    which is at most [MAX_EXPECTATION_DEPTH] for a normalised one. *)
Fixpoint match_expectation_at (fuel : nat) (result expectation : pydict) : res (list string) :=
  match fuel with
  | O => Err OutOfFuel
  | S fuel' =>
      let* k := dict_item "kind" expectation in
      match k with
      | PStr kind =>
          match assoc kind _MATCH_HANDLERS with
          | Some (MLeaf f) => f expectation result
          | Some MCompound => _match_compound (match_expectation_at fuel' result) expectation
          | None => Err (KeyError kind)
          end
      | _ => Err (KeyError "")
      end
  end.

Definition _match_expectation (expectation result : pydict) : res (list string) :=
  match_expectation_at (MAX_EXPECTATION_DEPTH + 2) result expectation.

Record validation := {
  v_framework_commit : string; v_framework_test_id : string; v_profile : string;
  v_expectation_type : pyval; v_valid : bool; v_failure_codes : list string }.

Definition validate_test_result (env : environment) (test_id result : pyval)
    (catalog_data : option pyval) : res validation :=
  let* desc := describe_test env test_id catalog_data in
  let* observed := _normalise_result result in
  let* raw := _match_expectation (expectation (desc_test desc)) observed in
  let failures := sort_strs (dedup String.eqb raw) in
  Ok {| v_framework_commit := desc_framework_commit desc;
        v_framework_test_id := desc_framework_test_id desc;
        v_profile := desc_profile desc;
        v_expectation_type := desc_expectation_type desc;
        v_valid := match failures with [] => true | _ => false end;
        v_failure_codes := failures |}.
