(* ===== verification/ContractsFacts.v ===== *)
(** * Properties of the public Framework contract

    The closed union of normalised expectations as a predicate, [nexp]; the
    normaliser produces it and is the identity on it, matching is total on it,
    and the queries keep the catalog's order and counts. *)

From S2P Require Export Contracts.

(** ** Scalars *)

Definition ident (s : string) : Prop := _identifier (PStr s) = Ok s.

Definition is_contract_error (e : exn) : bool :=
  match e with ContractError _ => true | _ => false end.

(** A run that either succeeds or raises a [ContractError]. *)
Definition closed {A} (r : res A) : Prop :=
  match r with Ok _ => True | Err e => is_contract_error e = true end.

Lemma closed_bind {A B} (r : res A) (f : A -> res B) :
  closed r -> (forall a, r = Ok a -> closed (f a)) -> closed (let* a := r in f a).
Proof. destruct r; simpl; auto. Qed.

Lemma closed_mapM {A B} (f : A -> res B) l :
  (forall x, In x l -> closed (f x)) -> closed (mapM f l).
Proof.
  induction l as [|x l IH]; simpl; intros H; [done|].
  apply closed_bind; [auto|]. intros y _. apply closed_bind; [auto|]. done.
Qed.

Create HintDb closed.

(** Splits the tests of a validator and closes the branches that return or
    fail with a fixed code. *)
Ltac closed_tac :=
  repeat first
    [ done
    | match goal with u : unit |- _ => destruct u end
    | progress auto with closed
    | apply closed_mapM; intros
    | apply closed_bind; [|intros]
    | match goal with |- closed (match ?x with _ => _ end) => destruct x eqn:? end ].

Lemma identifier_inv v s : _identifier v = Ok s -> v = PStr s /\ ident s.
Proof.
  destruct v; simpl; try done. intros H. pose proof H as H'. unfold ident. simpl.
  destruct (_ || _ || _) eqn:E in H; [done|]. injection H as <-. by rewrite E.
Qed.

Lemma identifier_closed v : closed (_identifier v).
Proof. destruct v; simpl; closed_tac. Qed.

Lemma http_status_inv v z : _http_status v = Ok z -> v = PInt z /\ 100 <= z <= 599.
Proof. destruct v; simpl; try done. intros H. res_inv H. split; [done|lia]. Qed.

Lemma http_status_fix z : 100 <= z <= 599 -> _http_status (PInt z) = Ok z.
Proof. intros H. simpl. destruct (_ && _) eqn:E; [done|]. lia. Qed.

Lemma http_status_closed v : closed (_http_status v).
Proof. destruct v; simpl; closed_tac. Qed.

Lemma rule_id_inv v z : rule_id v = Ok z -> v = PInt z /\ 1 <= z <= 9999999.
Proof. destruct v; simpl; try done. intros H. res_inv H. split; [done|lia]. Qed.

Lemma rule_id_fix z : 1 <= z <= 9999999 -> rule_id (PInt z) = Ok z.
Proof. intros H. simpl. destruct (_ && _) eqn:E; [done|]. lia. Qed.

Lemma rule_id_closed v : closed (rule_id v).
Proof. destruct v; simpl; closed_tac. Qed.

(** A list of values is read back as the list it was written from. *)
Lemma mapM_map {A B} (f : A -> res B) (g : B -> A) l :
  (forall x, In x l -> f (g x) = Ok x) -> mapM f (map g l) = Ok l.
Proof.
  intros H. apply mapM_Ok_Forall2. induction l as [|x l IH]; simpl; constructor.
  - apply H. by left.
  - apply IH. intros y Hy. apply H. by right.
Qed.

Lemma mapM_all {A B} (f : A -> res B) (P : B -> Prop) l l' :
  (forall x y, f x = Ok y -> P y) -> mapM f l = Ok l' -> Forall P l'.
Proof.
  intros HP H. apply mapM_Ok_Forall2 in H. induction H; constructor; eauto.
Qed.

(** ** Normalised lists of rule identifiers and of names *)

Definition rule_ids_wf (l : list Z) : Prop :=
  1 <= llen l <= MAX_LIST_ITEMS /\ Forall (fun z => 1 <= z <= 9999999) l /\
  List.NoDup l /\ sort_Z l = l.

Definition names_wf (minimum : Z) (l : list string) : Prop :=
  minimum <= llen l <= MAX_LIST_ITEMS /\ Forall ident l /\ List.NoDup l /\ sort_strs l = l.

Lemma llen_perm {A} (l l' : list A) : Permutation l l' -> llen l = llen l'.
Proof. intros H. unfold llen. by rewrite (Permutation_length H). Qed.

Lemma rule_ids_inv v l : _rule_ids v = Ok l -> rule_ids_wf l.
Proof.
  destruct v as [| | | | |vs|]; try done. unfold _rule_ids.
  destruct (_ || _) eqn:Hlen; [done|].
  destruct (mapM rule_id vs) as [zs|] eqn:Em; [|done].
  destruct (Z_nodup zs) eqn:En; [|done]. injection 1 as <-.
  pose proof (sort_Z_perm zs) as Hp. pose proof (mapM_length _ _ _ Em) as Hl.
  split; [|split; [|split]].
  - rewrite (llen_perm _ _ Hp). unfold llen in *. rewrite Hl. lia.
  - rewrite Hp. eapply mapM_all; [|exact Em]. intros x y Hx. by apply rule_id_inv in Hx as [_ ?].
  - rewrite Hp. by apply Z_nodup_NoDup.
  - apply sort_Z_idem.
Qed.

Lemma rule_ids_fix l : rule_ids_wf l -> _rule_ids (PInts l) = Ok l.
Proof.
  intros (Hlen & Hf & Hn & Hs). unfold _rule_ids, PInts.
  assert (Hl : llen (map PInt l) = llen l) by (unfold llen; by rewrite length_map).
  rewrite Hl. destruct (_ || _) eqn:E; [lia|].
  rewrite mapM_map; [|rewrite List.Forall_forall in Hf; intros; apply rule_id_fix; auto].
  apply Z_nodup_NoDup in Hn. by rewrite Hn, Hs.
Qed.

Lemma rule_ids_closed v : closed (_rule_ids v).
Proof. destruct v; simpl; closed_tac. apply rule_id_closed. Qed.

Lemma names_inv v code m l : _identifier_list v code m = Ok l -> names_wf m l.
Proof.
  destruct v as [| | | | |vs|]; try done. unfold _identifier_list.
  destruct (negb _) eqn:Hlen; [done|].
  destruct (mapM _identifier vs) as [zs|] eqn:Em; [|done].
  destruct (str_nodup zs) eqn:En; [|done]. injection 1 as <-.
  pose proof (sort_strs_perm zs) as Hp. pose proof (mapM_length _ _ _ Em) as Hl.
  split; [|split; [|split]].
  - rewrite (llen_perm _ _ Hp). unfold llen in *. rewrite Hl. lia.
  - rewrite Hp. eapply mapM_all; [|exact Em]. intros x y Hx. by apply identifier_inv in Hx as [_ ?].
  - rewrite Hp. by apply str_nodup_NoDup.
  - apply sort_strs_idem.
Qed.

Lemma names_fix code m l : names_wf m l -> _identifier_list (PStrs l) code m = Ok l.
Proof.
  intros (Hlen & Hf & Hn & Hs). unfold _identifier_list, PStrs.
  assert (Hl : llen (map PStr l) = llen l) by (unfold llen; by rewrite length_map).
  rewrite Hl. destruct (negb _) eqn:E; [lia|].
  rewrite mapM_map; [|rewrite List.Forall_forall in Hf; auto].
  apply str_nodup_NoDup in Hn. by rewrite Hn, Hs.
Qed.

Lemma names_closed v code m : closed (_identifier_list v code m).
Proof. destruct v; simpl; closed_tac. apply identifier_closed. Qed.

Lemma member_inv allowed code v s : member_of allowed code v = Ok s -> v = PStr s /\ str_in s allowed = true.
Proof. destruct v; simpl; try done. intros H. by res_inv H. Qed.

Lemma member_fix allowed code s : str_in s allowed = true -> member_of allowed code (PStr s) = Ok s.
Proof. simpl. by intros ->. Qed.

Lemma member_closed allowed code v : closed (member_of allowed code v).
Proof. destruct v; simpl; closed_tac. Qed.

#[export] Hint Resolve identifier_closed http_status_closed rule_ids_closed names_closed
  member_closed : closed.

Lemma exact_fields_has value req allowed k :
  _exact_fields value req allowed = Ok tt -> In k req -> exists v, dict_find k value = Some v.
Proof.
  unfold _exact_fields. destruct (_ || _ || _) eqn:E; [done|]. intros _ Hk.
  apply orb_false_iff in E as [E _]. apply orb_false_iff in E as [_ E].
  apply negb_false_iff in E. rewrite forallb_forall in E. by apply dict_has_find, E.
Qed.

Lemma exact_fields_closed value req allowed : closed (_exact_fields value req allowed).
Proof. unfold _exact_fields. closed_tac. Qed.
#[export] Hint Resolve exact_fields_closed : closed.

Lemma item_closed value req allowed k :
  _exact_fields value req allowed = Ok tt -> In k req -> closed (dict_item k value).
Proof. intros H Hk. destruct (exact_fields_has _ _ _ _ H Hk) as [v Hv]. unfold dict_item. by rewrite Hv. Qed.

Lemma opt_field_closed value name key f :
  (forall v, closed (f v)) -> closed (opt_field value name key f).
Proof. intros H. unfold opt_field. destruct (dict_find name value); [|done]. by closed_tac. Qed.
#[export] Hint Resolve opt_field_closed : closed.

(** ** The closed union of normalised expectations *)

Definition opt_item {A} (key : string) (f : A -> pyval) (o : option A) : list (string * pyval) :=
  match o with Some a => [(key, f a)] | None => [] end.

Definition opt_wf {A} (P : A -> Prop) (o : option A) : Prop :=
  match o with Some a => P a | None => True end.

Definition configuration_wf (c : configuration) : Prop :=
  ident (cfg_connector c) /\ ident (cfg_operation c) /\ ident (cfg_directive c) /\
  0 <= cfg_exit_code c <= 255 /\ ident (cfg_outcome c) /\ ident (cfg_error_class c).

(** The cross-field rules of a configuration expectation. *)
Definition configuration_consistent (c : configuration) : Prop :=
  In (cfg_operation c) ["configtest"; "startup"] /\
  In (cfg_outcome c) ["config_accepted"; "config_rejected"] /\
  (cfg_outcome c = "config_accepted" <-> cfg_exit_code c = 0) /\
  (cfg_outcome c = "config_accepted" <-> cfg_error_class c = "none") /\
  (cfg_operation c = "startup" ->
   cfg_connector c = "nginx" /\ cfg_directive c = "modsecurity_rules_file" /\
   cfg_outcome c = "config_accepted").

Definition predicate_wf (kv : string * pyval) : Prop :=
  In (fst kv) LIFECYCLE_PREDICATES /\ exists b, snd kv = PBool b.

Definition predicates_wf (items : list (string * pyval)) : Prop :=
  Forall predicate_wf items /\ isort key_leb items = items.

Definition STATE_KINDS : list string := ["request_body"; "response_body"; "transport"; "cleanup"].

Inductive nleaf : pydict -> Prop :=
  | NL_http_status st : 100 <= st <= 599 ->
      nleaf (mkdict [("kind", PStr "http_status"); ("http_status", PInt st)])
  | NL_intervention a st rs :
      In a ACTION_VALUES -> opt_wf (fun z => 100 <= z <= 599) st -> opt_wf rule_ids_wf rs ->
      nleaf (mkdict ([("kind", PStr "intervention"); ("action", PStr a)]
                     ++ opt_item "http_status" PInt st ++ opt_item "rule_ids" PInts rs))
  | NL_action a rs : In a ACTION_VALUES -> opt_wf rule_ids_wf rs ->
      nleaf (mkdict ([("kind", PStr "action"); ("action", PStr a)]
                     ++ opt_item "rule_ids" PInts rs))
  | NL_rule_match rs : rule_ids_wf rs ->
      nleaf (mkdict [("kind", PStr "rule_match"); ("rule_ids", PInts rs)])
  | NL_event fs et : opt_wf (names_wf 1) fs -> opt_wf ident et -> fs <> None \/ et <> None ->
      nleaf (mkdict ([("kind", PStr "event")]
                     ++ opt_item "fields" PStrs fs ++ opt_item "event_type" PStr et))
  | NL_configuration c : configuration_wf c -> configuration_consistent c ->
      nleaf (mkdict (("kind", PStr "configuration") :: configuration_items c))
  | NL_headers k names : In k ["request_headers"; "response_headers"] -> names_wf 1 names ->
      nleaf (mkdict [("kind", PStr k); ("names", PStrs names)])
  | NL_state k s : In k STATE_KINDS -> In s (fst (state_vocabulary k)) ->
      nleaf (mkdict [("kind", PStr k); ("state", PStr s)])
  | NL_lifecycle items : 1 <= llen items <= llen LIFECYCLE_PREDICATES -> predicates_wf items ->
      nleaf (mkdict [("kind", PStr "lifecycle"); ("predicates", PDict (mkdict items))])
  | NL_not_applicable r : In r NOT_APPLICABLE_REASONS ->
      nleaf (mkdict [("kind", PStr "not_applicable"); ("reason", PStr r)]).

Definition fingerprint (d : pydict) : string := json_dumps "," ":" (PDict d).

(** Normalised expectations nested at most [n] compounds deep. *)
Fixpoint nexp (n : nat) (d : pydict) : Prop :=
  nleaf d \/
  match n with
  | O => False
  | S m => exists cs, 2 <= llen cs <= 16 /\ Forall (nexp m) cs /\
                      List.NoDup (map fingerprint cs) /\
                      d = mkdict [("kind", PStr "compound"); ("conditions", PList (map PDict cs))]
  end.

Lemma nexp_mono n d : nexp n d -> nexp (S n) d.
Proof.
  revert d; induction n as [|n IH]; intros d [H|H]; try (by left).
  destruct H as (cs & Hl & Hf & Hn & ->). right. exists cs. repeat split; try done; try lia.
  eapply Forall_impl; [exact Hf|]. intros; by apply IH.
Qed.

(** *** The normaliser produces the union *)

Lemma opt_field_inv {A} value name key (f : pyval -> res pyval) (g : A -> pyval)
    (P : A -> Prop) items :
  (forall v w, f v = Ok w -> exists a, w = g a /\ P a) ->
  opt_field value name key f = Ok items ->
  exists o, items = opt_item key g o /\ opt_wf P o /\ (o = None <-> dict_find name value = None).
Proof.
  intros Hf. unfold opt_field. destruct (dict_find name value) as [v|].
  - destruct (f v) as [w|] eqn:E; [|done]. injection 1 as <-.
    destruct (Hf _ _ E) as (a & -> & Ha). exists (Some a). done.
  - injection 1 as <-. exists None. done.
Qed.

Lemma http_status_val_inv v w : http_status_val v = Ok w -> exists z, w = PInt z /\ 100 <= z <= 599.
Proof. unfold http_status_val. intros H. res_inv H. apply http_status_inv in E as [_ ?]. eauto. Qed.

Lemma rule_ids_val_inv v w : rule_ids_val v = Ok w -> exists l, w = PInts l /\ rule_ids_wf l.
Proof. unfold rule_ids_val. intros H. res_inv H. apply rule_ids_inv in E. eauto. Qed.

Lemma identifier_val_inv v w : identifier_val v = Ok w -> exists s, w = PStr s /\ ident s.
Proof. unfold identifier_val. intros H. res_inv H. apply identifier_inv in E as [_ ?]. eauto. Qed.

Lemma identifier_list_val_inv c v w :
  identifier_list_val c v = Ok w -> exists l, w = PStrs l /\ names_wf 1 l.
Proof. unfold identifier_list_val. intros H. res_inv H. apply names_inv in E. eauto. Qed.

Lemma configuration_values_inv value c : _configuration_values value = Ok c -> configuration_wf c.
Proof.
  unfold _configuration_values. intros H.
  destruct (dict_item "exit_code" value) as [[| |z| | | |]|]; try done.
  destruct ((0 <=? z) && (z <=? 255)) eqn:Ez; [|done].
  repeat match type of H with
         | context [match dict_item ?k value with _ => _ end] =>
             destruct (dict_item k value); [|done]
         | context [match _identifier ?a with _ => _ end] =>
             let E := fresh "E" in
             destruct (_identifier a) eqn:E; [apply identifier_inv in E as [_ E]|done]
         end.
  injection H as <-. repeat split; simpl; try done; lia.
Qed.

Lemma Bool_eqb_iff a b : Bool.eqb a b = true <-> (a = true <-> b = true).
Proof. destruct a, b; simpl; split; try done; intros [H1 H2]; auto. Qed.

Lemma configuration_nleaf value kind d :
  kind = "configuration" -> _expectation_configuration value kind = Ok d -> nleaf d.
Proof.
  intros ->. unfold _expectation_configuration. intros H.
  destruct (_exact_fields _ _ _); [|done].
  destruct (_configuration_values value) as [c|] eqn:Ec; [|done].
  apply configuration_values_inv in Ec.
  destruct (negb (str_in _ _) || _) eqn:E1; [done|].
  destruct (negb (Bool.eqb _ (cfg_exit_code c =? 0))) eqn:E2; [done|].
  destruct (negb (Bool.eqb _ (String.eqb (cfg_error_class c) "none"))) eqn:E3; [done|].
  destruct (String.eqb (cfg_operation c) "startup" && _) eqn:E4; [done|].
  injection H as <-. apply orb_false_iff in E1 as [E1a E1b].
  apply negb_false_iff in E1a, E1b, E2, E3. rewrite Bool_eqb_iff in E2, E3.
  apply str_in_In in E1a, E1b. rewrite Z.eqb_eq, String.eqb_eq in E2. rewrite !String.eqb_eq in E3.
  apply NL_configuration; [done|]. repeat split; try tauto;
    intros; apply andb_false_iff in E4; rewrite String.eqb_neq in E4;
    destruct E4 as [E4|E4]; try done;
    rewrite !orb_false_iff, !negb_false_iff, !String.eqb_eq in E4; tauto.
Qed.

Lemma lifecycle_items_inv code p items :
  lifecycle_items code p = Ok items -> predicates_wf items /\ llen items = llen p.
Proof.
  unfold lifecycle_items. destruct (mapM (lifecycle_item code) p) as [l|] eqn:E; [|done].
  injection 1 as <-. split; [split|].
  - rewrite (isort_perm key_leb). eapply mapM_all; [|exact E].
    intros [k v] [k' v'] H. destruct k; try done. destruct v; try done. simpl in H.
    res_inv H. split; [by apply str_in_In|by eexists].
  - apply isort_idem; [intros; apply str_leb_total|intros ???; apply str_leb_trans].
  - rewrite (llen_perm _ _ (isort_perm key_leb l)). unfold llen. by rewrite (mapM_length _ _ _ E).
Qed.

Lemma action_nleaf value kind d :
  In kind ["intervention"; "action"] -> _expectation_action value kind = Ok d -> nleaf d.
Proof.
  intros Hk. unfold _expectation_action. intros H.
  destruct (_exact_fields _ _ _) as [[]|] eqn:Ex; [|done].
  destruct (dict_item "action" value); [|done].
  destruct (member_of _ _ _) as [a'|] eqn:Ea; [|done].
  apply member_inv in Ea as [_ Ea]. apply str_in_In in Ea.
  destruct (opt_field value "http_status" _ _) as [st|] eqn:Es; [|done].
  destruct (opt_field value "rule_ids" _ _) as [rs|] eqn:Er; [|done].
  injection H as <-.
  apply (opt_field_inv _ _ _ _ _ _ _ http_status_val_inv) in Es as (os & -> & Hs & Hsn).
  apply (opt_field_inv _ _ _ _ _ _ _ rule_ids_val_inv) in Er as (or & -> & Hr & _).
  destruct Hk as [<-|[<-|[]]].
  - by apply NL_intervention.
  - assert (os = None) as ->; [|by apply NL_action].
    apply Hsn. destruct (dict_find "http_status" value) as [w|] eqn:Ef; [|done].
    exfalso. unfold _exact_fields in Ex.
    destruct (keys_within value _) eqn:Ew; [|by rewrite orb_true_r in Ex].
    apply dict_find_In in Ef. unfold keys_within in Ew. rewrite forallb_forall in Ew.
    by specialize (Ew _ Ef).
Qed.

Lemma event_nleaf value kind d :
  kind = "event" -> _expectation_event value kind = Ok d -> nleaf d.
Proof.
  intros -> H. unfold _expectation_event in H.
  destruct (_exact_fields _ _ _); [|done].
  destruct (negb _ && negb _) eqn:En; [done|].
  destruct (opt_field value "fields" _ _) as [fs|] eqn:Es; [|done].
  destruct (opt_field value "event_type" _ _) as [et|] eqn:Er; [|done].
  injection H as <-.
  apply (opt_field_inv _ _ _ _ _ _ _ (identifier_list_val_inv _)) in Es as (os & -> & Hs & Hsn).
  apply (opt_field_inv _ _ _ _ _ _ _ identifier_val_inv) in Er as (or & -> & Hr & Hrn).
  apply NL_event; [done|done|].
  apply andb_false_iff in En. rewrite !negb_false_iff, !dict_has_find in En.
  destruct En as [[v Hv]|[v Hv]]; [left; rewrite Hsn|right; rewrite Hrn]; congruence.
Qed.

Lemma headers_nleaf value kind d :
  In kind ["request_headers"; "response_headers"] ->
  _expectation_headers value kind = Ok d -> nleaf d.
Proof.
  intros Hk H. unfold _expectation_headers in H. res_inv H.
  apply names_inv in E1. by apply NL_headers.
Qed.

Lemma state_nleaf value kind d :
  In kind STATE_KINDS -> _expectation_state value kind = Ok d -> nleaf d.
Proof.
  intros Hk H. unfold _expectation_state in H.
  destruct (_exact_fields _ _ _); [|done]. destruct (dict_item _ _); [|done].
  destruct (state_vocabulary kind) as [allowed code] eqn:Ev.
  destruct (member_of _ _ _) as [s|] eqn:Em; [|done]. injection H as <-.
  apply member_inv in Em as [_ Em]. apply NL_state; [done|]. rewrite Ev. by apply str_in_In.
Qed.

Lemma lifecycle_nleaf value kind d :
  kind = "lifecycle" -> _expectation_lifecycle value kind = Ok d -> nleaf d.
Proof.
  intros -> H. unfold _expectation_lifecycle in H.
  destruct (_exact_fields _ _ _); [|done].
  destruct (dict_item _ _) as [[| | | | | |p]|]; try done.
  destruct (_ || _) eqn:El; [done|].
  destruct (lifecycle_items _ p) as [items|] eqn:Ei; [|done]. injection H as <-.
  apply lifecycle_items_inv in Ei as [Hw Hl]. apply NL_lifecycle; [|done].
  rewrite Hl. unfold llen in *. lia.
Qed.

Lemma http_status_nleaf value kind d :
  kind = "http_status" -> _expectation_http_status value kind = Ok d -> nleaf d.
Proof.
  intros -> H. unfold _expectation_http_status in H. res_inv H.
  apply http_status_inv in E1 as [_ ?]. by apply NL_http_status.
Qed.

Lemma rule_match_nleaf value kind d :
  kind = "rule_match" -> _expectation_rule_match value kind = Ok d -> nleaf d.
Proof.
  intros -> H. unfold _expectation_rule_match in H. res_inv H.
  apply rule_ids_inv in E1. by apply NL_rule_match.
Qed.

Lemma not_applicable_nleaf value kind d :
  kind = "not_applicable" -> _expectation_not_applicable value kind = Ok d -> nleaf d.
Proof.
  intros -> H. unfold _expectation_not_applicable in H. res_inv H.
  apply member_inv in E1 as [_ Hr]. by apply NL_not_applicable, str_in_In.
Qed.

(** Case analysis over a handler table. *)
Ltac assoc_cases H :=
  cbn [assoc] in H;
  repeat match type of H with
         | context [String.eqb ?a ?k] =>
             let E := fresh "E" in
             destruct (String.eqb_spec a k) as [E|_]; [is_var k; subst k|]
         end; try discriminate H.

Lemma handler_nleaf kind f value d :
  assoc kind _EXPECTATION_HANDLERS = Some (HLeaf f) -> f value kind = Ok d -> nleaf d.
Proof.
  intros H Hf. unfold _EXPECTATION_HANDLERS in H. assoc_cases H; injection H as <-.
  all: first [ eapply http_status_nleaf; [|exact Hf]; reflexivity
             | eapply action_nleaf; [|exact Hf]; simpl; tauto
             | eapply rule_match_nleaf; [|exact Hf]; reflexivity
             | eapply event_nleaf; [|exact Hf]; reflexivity
             | eapply configuration_nleaf; [|exact Hf]; reflexivity
             | eapply headers_nleaf; [|exact Hf]; simpl; tauto
             | eapply state_nleaf; [|exact Hf]; simpl; tauto
             | eapply lifecycle_nleaf; [|exact Hf]; reflexivity
             | eapply not_applicable_nleaf; [|exact Hf]; reflexivity ].
Qed.

Lemma handler_compound kind :
  assoc kind _EXPECTATION_HANDLERS = Some HCompound -> kind = "compound".
Proof. intros H. unfold _EXPECTATION_HANDLERS in H. by assoc_cases H. Qed.

Lemma compound_inv norm value kind d :
  _expectation_compound norm value kind = Ok d ->
  exists l cs, mapM norm l = Ok cs /\ 2 <= llen cs <= 16 /\ List.NoDup (map fingerprint cs) /\
               d = mkdict [("kind", PStr kind); ("conditions", PList (map PDict cs))].
Proof.
  unfold _expectation_compound. intros H.
  destruct (_exact_fields _ _ _); [|done].
  destruct (dict_item _ _) as [[| | | | |l|]|]; try done.
  destruct (negb (_ && _)) eqn:El; [done|].
  destruct (mapM norm l) as [cs|] eqn:Em; [|done].
  destruct (negb (str_nodup _)) eqn:En; [done|]. injection H as <-.
  exists l, cs. apply negb_false_iff, str_nodup_NoDup in En. repeat split; try done;
    unfold llen in *; rewrite (mapM_length _ _ _ Em); lia.
Qed.

Lemma normalise_nexp fuel depth value d :
  normalise_expectation_at fuel depth value = Ok d ->
  nexp (MAX_EXPECTATION_DEPTH - depth) d /\ (depth <= MAX_EXPECTATION_DEPTH)%nat.
Proof.
  revert depth value d; induction fuel as [|fuel IH]; intros depth value d H; [done|].
  cbn [normalise_expectation_at] in H.
  destruct (Nat.ltb MAX_EXPECTATION_DEPTH depth) eqn:Ed; [done|]. apply Nat.ltb_ge in Ed.
  split; [|done].
  destruct value as [| | | | | |v]; try done.
  destruct (dict_get "kind" v) as [| | | |kind| |]; try done.
  destruct (negb _); [done|].
  destruct (assoc kind _EXPECTATION_HANDLERS) as [[f|]|] eqn:Eh; [| |done].
  - destruct (MAX_EXPECTATION_DEPTH - depth)%nat; left; by eapply handler_nleaf.
  - apply handler_compound in Eh as ->.
    apply compound_inv in H as (l & cs & Hm & Hl & Hn & ->).
    assert (Hc : forall x, In x cs ->
              nexp (MAX_EXPECTATION_DEPTH - S depth) x /\ (S depth <= MAX_EXPECTATION_DEPTH)%nat).
    { apply List.Forall_forall. eapply mapM_all; [|exact Hm]. intros x y; apply IH. }
    assert (exists c, In c cs) as [c Hin]
      by (destruct cs as [|c cs]; [unfold llen in Hl; simpl in Hl; lia|exists c; by left]).
    destruct (Hc c Hin) as [_ Hd].
    replace (MAX_EXPECTATION_DEPTH - depth)%nat with (S (MAX_EXPECTATION_DEPTH - S depth)) by lia.
    right. exists cs. repeat split; try done; try lia.
    apply List.Forall_forall. intros x Hx. by apply Hc.
Qed.

(** *** The normaliser is the identity on the union *)

Lemma dict_item_eq k d v : dict_find k d = Some v -> dict_item k d = Ok v.
Proof. unfold dict_item. by intros ->. Qed.

Lemma rule_ids_val_fix l : rule_ids_wf l -> rule_ids_val (PInts l) = Ok (PInts l).
Proof. intros H. unfold rule_ids_val. by rewrite rule_ids_fix. Qed.

Lemma http_status_val_fix z : 100 <= z <= 599 -> http_status_val (PInt z) = Ok (PInt z).
Proof. intros H. unfold http_status_val. by rewrite http_status_fix. Qed.

Lemma identifier_val_fix s : ident s -> identifier_val (PStr s) = Ok (PStr s).
Proof. intros H. unfold identifier_val. by rewrite H. Qed.

Lemma identifier_list_val_fix c l :
  names_wf 1 l -> identifier_list_val c (PStrs l) = Ok (PStrs l).
Proof. intros H. unfold identifier_list_val. by rewrite names_fix. Qed.

Lemma configuration_values_fix pre c post :
  configuration_wf c ->
  forallb (fun k => negb (dict_has k (mkdict pre))) _CONFIGURATION_FIELDS = true ->
  _configuration_values (mkdict (pre ++ configuration_items c ++ post)) = Ok c.
Proof.
  intros (H1 & H2 & H3 & H4 & H5 & H6) Hpre.
  assert (Hf : forall k, In k _CONFIGURATION_FIELDS ->
      dict_item k (mkdict (pre ++ configuration_items c ++ post))
      = dict_item k (mkdict (configuration_items c))).
  { intros k Hk. rewrite forallb_forall in Hpre. specialize (Hpre _ Hk).
    apply negb_true_iff in Hpre. revert Hpre. unfold dict_item, dict_has.
    induction pre as [|[k' v'] pre IH].
    - intros _. simpl in Hk. destruct_or! Hk; subst; done.
    - cbn [app]. rewrite !dict_find_mkdict_cons. destruct (String.eqb k' k); [done|]. apply IH. }
  unfold _configuration_values. rewrite !Hf by (simpl; tauto).
  cbn -[_identifier Z.leb]. destruct (_ && _) eqn:E; [|lia].
  rewrite H1, H2, H3, H5, H6. by destruct c.
Qed.

Lemma lifecycle_items_fix code items :
  predicates_wf items -> lifecycle_items code (mkdict items) = Ok items.
Proof.
  intros [Hf Hs]. unfold lifecycle_items, mkdict.
  rewrite mapM_map; [by rewrite Hs|].
  intros [k v] Hin. rewrite List.Forall_forall in Hf. destruct (Hf _ Hin) as [Hk [b Hv]].
  apply str_in_In in Hk. cbn [fst snd] in *. subst v. cbn -[str_in LIFECYCLE_PREDICATES].
  by rewrite Hk.
Qed.

Lemma llen_mkdict l : llen (mkdict l) = llen l.
Proof. unfold llen, mkdict. by rewrite length_map. Qed.

(** What it takes for the dispatcher to return a dictionary unchanged. *)
Definition leaf_fixed (d : pydict) : Prop :=
  exists kind f, dict_get "kind" d = PStr kind /\ In kind EXPECTATION_KINDS /\
                 assoc kind _EXPECTATION_HANDLERS = Some (HLeaf f) /\ f d kind = Ok d.

Ltac leaf_fixed_tac k :=
  eexists k, _; split; [reflexivity|split; [simpl; tauto|split; [reflexivity|]]].

Lemma configuration_fixed c :
  configuration_wf c -> configuration_consistent c ->
  leaf_fixed (mkdict (("kind", PStr "configuration") :: configuration_items c)).
Proof.
  intros Hw (Ho & Hout & Hexit & Herr & Hst). leaf_fixed_tac "configuration".
  unfold _expectation_configuration.
  replace (_exact_fields _ _ _) with (Ok tt) by reflexivity.
  pose proof (configuration_values_fix [("kind", PStr "configuration")] c [] Hw eq_refl) as Hv.
  rewrite app_nil_r in Hv. cbn [app] in Hv. rewrite Hv.
  apply str_in_In in Ho, Hout. rewrite Ho, Hout. cbn [negb orb].
  assert (E1 : Bool.eqb (String.eqb (cfg_outcome c) "config_accepted") (cfg_exit_code c =? 0) = true)
    by (apply Bool_eqb_iff; by rewrite String.eqb_eq, Z.eqb_eq).
  assert (E2 : Bool.eqb (String.eqb (cfg_outcome c) "config_accepted")
                        (String.eqb (cfg_error_class c) "none") = true)
    by (apply Bool_eqb_iff; by rewrite !String.eqb_eq).
  rewrite E1, E2. cbn [negb].
  destruct (String.eqb_spec (cfg_operation c) "startup") as [Es|]; [|done].
  destruct (Hst Es) as (-> & -> & ->). done.
Qed.

Lemma nleaf_fixed d : nleaf d -> leaf_fixed d.
Proof.
  destruct 1 as [st H|a st rs Ha Hst Hrs|a rs Ha Hrs|rs H|fs et Hfs Het Hne|c Hw Hc
                |k names Hk Hn|k s Hk Hs|items Hl Hw|r Hr].
  - leaf_fixed_tac "http_status". unfold _expectation_http_status.
    cbn -[_http_status]. by rewrite http_status_fix.
  - leaf_fixed_tac "intervention". unfold _expectation_action. apply str_in_In in Ha.
    destruct st as [st|], rs as [rs|]; cbn -[str_in http_status_val rule_ids_val ACTION_VALUES];
      rewrite Ha; rewrite ?http_status_val_fix by done; rewrite ?rule_ids_val_fix by done; done.
  - leaf_fixed_tac "action". unfold _expectation_action. apply str_in_In in Ha.
    destruct rs as [rs|]; cbn -[str_in http_status_val rule_ids_val ACTION_VALUES];
      rewrite Ha; rewrite ?rule_ids_val_fix by done; done.
  - leaf_fixed_tac "rule_match". unfold _expectation_rule_match.
    cbn -[_rule_ids]. by rewrite rule_ids_fix.
  - leaf_fixed_tac "event". unfold _expectation_event.
    destruct fs as [fs|], et as [et|]; try (destruct Hne; done);
      cbn -[identifier_list_val identifier_val];
      rewrite ?identifier_list_val_fix by done; rewrite ?identifier_val_fix by done; done.
  - by apply configuration_fixed.
  - destruct Hk as [<-|[<-|[]]];
      [leaf_fixed_tac "request_headers"|leaf_fixed_tac "response_headers"];
      unfold _expectation_headers; cbn -[_identifier_list]; by rewrite names_fix.
  - apply str_in_In in Hs. destruct Hk as [<-|[<-|[<-|[<-|[]]]]];
      [leaf_fixed_tac "request_body"|leaf_fixed_tac "response_body"
      |leaf_fixed_tac "transport"|leaf_fixed_tac "cleanup"];
      [change (str_in s BODY_STATES = true) in Hs|change (str_in s BODY_STATES = true) in Hs
      |change (str_in s TRANSPORT_STATES = true) in Hs|change (str_in s CLEANUP_STATES = true) in Hs];
      unfold _expectation_state;
      replace (_exact_fields _ _ _) with (Ok tt) by reflexivity;
      replace (dict_item "state" _) with (Ok (PStr s)) by reflexivity;
      [change (state_vocabulary "request_body") with (BODY_STATES, "invalid_body_state")
      |change (state_vocabulary "response_body") with (BODY_STATES, "invalid_body_state")
      |change (state_vocabulary "transport") with (TRANSPORT_STATES, "invalid_transport")
      |change (state_vocabulary "cleanup") with (CLEANUP_STATES, "invalid_cleanup")];
      cbv beta iota; by rewrite member_fix.
  - leaf_fixed_tac "lifecycle". unfold _expectation_lifecycle.
    cbn -[lifecycle_items mkdict llen LIFECYCLE_PREDICATES orb].
    replace (_exact_fields _ _ _) with (Ok tt) by reflexivity.
    replace (dict_item "predicates" _) with (Ok (PDict (mkdict items))) by reflexivity.
    rewrite llen_mkdict, lifecycle_items_fix by done. destruct (_ || _) eqn:E; [lia|done].
  - leaf_fixed_tac "not_applicable". unfold _expectation_not_applicable. apply str_in_In in Hr.
    cbn -[str_in NOT_APPLICABLE_REASONS]. by rewrite Hr.
Qed.

Lemma nexp_fixed n d fuel depth :
  nexp n d -> (depth + n <= MAX_EXPECTATION_DEPTH)%nat -> (n < fuel)%nat ->
  normalise_expectation_at fuel depth (PDict d) = Ok d.
Proof.
  revert d fuel depth; induction n as [|n IH]; intros d [|fuel] depth Hd Hdep Hf; try lia.
  all: cbn [normalise_expectation_at].
  all: destruct (Nat.ltb MAX_EXPECTATION_DEPTH depth) eqn:E; [apply Nat.ltb_lt in E; lia|].
  all: destruct Hd as [Hd|Hd]; [|try done].
  1, 2: apply nleaf_fixed in Hd as (kind & f & -> & Hk & Ha & Hfx);
        apply str_in_In in Hk; by rewrite Hk, Ha.
  destruct Hd as (cs & Hl & Hcs & Hn & ->).
  replace (dict_get "kind" _) with (PStr "compound") by reflexivity.
  replace (negb (str_in "compound" EXPECTATION_KINDS)) with false by reflexivity.
  replace (assoc "compound" _EXPECTATION_HANDLERS) with (Some HCompound) by reflexivity.
  unfold _expectation_compound.
  replace (_exact_fields _ _ _) with (Ok tt) by reflexivity.
  replace (dict_item "conditions" _) with (Ok (PList (map PDict cs))) by reflexivity.
  assert (Hlen : llen (map PDict cs) = llen cs) by (unfold llen; by rewrite length_map).
  rewrite Hlen. destruct (negb (_ && _)) eqn:El; [lia|].
  assert (Hm : mapM (normalise_expectation_at fuel (S depth)) (map PDict cs) = Ok cs).
  { apply mapM_map. intros c Hc. rewrite List.Forall_forall in Hcs. apply IH; auto; lia. }
  apply str_nodup_NoDup in Hn. unfold fingerprint in Hn. rewrite Hm. cbv beta zeta. by rewrite Hn.
Qed.

(** *** The normaliser fails closed *)

Lemma configuration_values_closed value :
  (forall k, In k _CONFIGURATION_FIELDS -> exists v, dict_find k value = Some v) ->
  closed (_configuration_values value).
Proof.
  intros H. unfold _configuration_values.
  assert (Hi : forall k, In k _CONFIGURATION_FIELDS -> closed (dict_item k value)).
  { intros k Hk. destruct (H k Hk) as [v Hv]. by rewrite (dict_item_eq _ _ _ Hv). }
  closed_tac; apply Hi; simpl; tauto.
Qed.

Lemma lifecycle_items_closed code p : closed (lifecycle_items code p).
Proof. unfold lifecycle_items, lifecycle_item. closed_tac. Qed.
#[export] Hint Resolve lifecycle_items_closed : closed.

Lemma val_closed :
  (forall v, closed (http_status_val v)) /\ (forall v, closed (rule_ids_val v)) /\
  (forall v, closed (identifier_val v)) /\ (forall c v, closed (identifier_list_val c v)) /\
  (forall a c v, closed (member_val a c v)).
Proof.
  unfold http_status_val, rule_ids_val, identifier_val, identifier_list_val, member_val.
  repeat split; intros; closed_tac.
Qed.

Lemma closed_exact {A} value req allowed (k : res A) :
  (_exact_fields value req allowed = Ok tt -> closed k) ->
  closed (_exact_fields value req allowed ;;; k).
Proof.
  intros H. pose proof (exact_fields_closed value req allowed) as Hc.
  destruct (_exact_fields value req allowed) as [[]|]; auto.
Qed.

Ltac item_closed_tac :=
  match goal with
  | E : _exact_fields _ _ _ = Ok tt |- closed (dict_item _ _) =>
      eapply item_closed; [exact E|simpl; tauto]
  end.

Lemma handler_closed kind f value :
  assoc kind _EXPECTATION_HANDLERS = Some (HLeaf f) -> closed (f value kind).
Proof.
  intros H. unfold _EXPECTATION_HANDLERS in H. assoc_cases H; injection H as <-.
  all: unfold _expectation_http_status, _expectation_action, _expectation_rule_match,
         _expectation_event, _expectation_configuration, _expectation_headers,
         _expectation_state, _expectation_lifecycle, _expectation_not_applicable; cbv zeta.
  all: apply closed_exact; intros Ex; destruct val_closed as (Hv1 & Hv2 & Hv3 & Hv4 & Hv5).
  all: closed_tac; item_closed_tac.
Qed.

Lemma kinds_have_handlers kind :
  str_in kind EXPECTATION_KINDS = true -> assoc kind _EXPECTATION_HANDLERS <> None.
Proof.
  intros H. apply str_in_In in H. simpl in H. destruct_or! H; subst; done.
Qed.

Lemma normalise_closed fuel depth value :
  (MAX_EXPECTATION_DEPTH + 2 <= fuel + depth)%nat -> (depth <= MAX_EXPECTATION_DEPTH + 1)%nat ->
  closed (normalise_expectation_at fuel depth value).
Proof.
  revert depth value; induction fuel as [|fuel IH]; intros depth value Hf Hd; [lia|].
  cbn [normalise_expectation_at].
  destruct (Nat.ltb MAX_EXPECTATION_DEPTH depth) eqn:Ed; [done|]. apply Nat.ltb_ge in Ed.
  destruct value as [| | | | | |v]; try done.
  destruct (dict_get "kind" v) as [| | | |kind| |]; try done.
  destruct (str_in kind EXPECTATION_KINDS) eqn:Ek; [|done]. cbn [negb].
  apply kinds_have_handlers in Ek.
  destruct (assoc kind _EXPECTATION_HANDLERS) as [[f|]|] eqn:Eh; [| |done].
  - by apply handler_closed.
  - unfold _expectation_compound.
    apply closed_exact. intros Ex. apply closed_bind; [item_closed_tac|]. intros w _.
    destruct w; try done. destruct (negb _); [done|].
    apply closed_bind; [|intros; by destruct (negb _)].
    apply closed_mapM. intros x _. apply IH; lia.
Qed.

Lemma normalize_closed value : closed (normalize_expectation value).
Proof. apply normalise_closed; unfold MAX_EXPECTATION_DEPTH; lia. Qed.
#[export] Hint Resolve normalize_closed : closed.
