(* ===== verification/ContractsResults.v ===== *)
(** * Results against expectations

    An abstract expectation [expect] with its meaning [satisfies], and the
    refinement: matching a normalised result against a normalised expectation
    never raises, reports codes of a closed vocabulary, and reports none exactly
    when the abstract expectation is satisfied. *)

From S2P Require Export ContractsFacts.
From Stdlib Require Import QArith.
#[local] Open Scope Z_scope.

(** ** The abstract specification *)

#[warnings="-register-all"]
Inductive expect :=
  | EHttpStatus (st : Z)
  | EIntervention (action : string) (st : option Z) (rules : option (list Z))
  | EAction (action : string) (rules : option (list Z))
  | ERuleMatch (rules : list Z)
  | EEvent (fields : option (list string)) (event_type : option string)
  | EConfiguration (c : configuration)
  | EHeaders (kind : string) (names : list string)
  | EState (kind state : string)
  | ELifecycle (predicates : list (string * pyval))
  | ENotApplicable (reason : string)
  | ECompound (conditions : list expect).

Fixpoint expect_dict (e : expect) : pydict :=
  match e with
  | EHttpStatus st => mkdict [("kind", PStr "http_status"); ("http_status", PInt st)]
  | EIntervention a st rs =>
      mkdict ([("kind", PStr "intervention"); ("action", PStr a)]
              ++ opt_item "http_status" PInt st ++ opt_item "rule_ids" PInts rs)
  | EAction a rs =>
      mkdict ([("kind", PStr "action"); ("action", PStr a)] ++ opt_item "rule_ids" PInts rs)
  | ERuleMatch rs => mkdict [("kind", PStr "rule_match"); ("rule_ids", PInts rs)]
  | EEvent fs et =>
      mkdict ([("kind", PStr "event")]
              ++ opt_item "fields" PStrs fs ++ opt_item "event_type" PStr et)
  | EConfiguration c => mkdict (("kind", PStr "configuration") :: configuration_items c)
  | EHeaders k names => mkdict [("kind", PStr k); ("names", PStrs names)]
  | EState k s => mkdict [("kind", PStr k); ("state", PStr s)]
  | ELifecycle items =>
      mkdict [("kind", PStr "lifecycle"); ("predicates", PDict (mkdict items))]
  | ENotApplicable r => mkdict [("kind", PStr "not_applicable"); ("reason", PStr r)]
  | ECompound l =>
      mkdict [("kind", PStr "compound"); ("conditions", PList (map (fun e => PDict (expect_dict e)) l))]
  end.

(** What a result observed: a field, the members of a list field. *)
Definition observes (r : pydict) (field : string) (v : pyval) : Prop := dict_find field r = Some v.
Definition observes_all (r : pydict) (field : string) (vs : list pyval) : Prop :=
  vs = [] \/ exists l, observes r field (PList l) /\ incl vs l.

(** The result field an expectation kind is compared with. *)
Definition header_field (kind : string) : string :=
  if String.eqb kind "request_headers" then "request_header_names" else "response_header_names".
Definition state_field (kind : string) : string :=
  if String.eqb kind "request_body" then "request_body_state"
  else if String.eqb kind "response_body" then "response_body_state"
  else kind.

Definition configuration_observation (c : configuration) (live : bool) : pyval :=
  PDict (mkdict (configuration_items c ++
                 [("process_started", PBool live); ("listener_created", PBool live)])).

Fixpoint satisfies (r : pydict) (e : expect) : Prop :=
  match e with
  | EHttpStatus st => observes r "http_status" (PInt st)
  | EIntervention a st rs =>
      observes r "action" (PStr a) /\ opt_wf (fun z => observes r "http_status" (PInt z)) st /\
      opt_wf (fun l => observes_all r "rule_ids" (map PInt l)) rs
  | EAction a rs =>
      observes r "action" (PStr a) /\ opt_wf (fun l => observes_all r "rule_ids" (map PInt l)) rs
  | ERuleMatch rs => observes_all r "rule_ids" (map PInt rs)
  | EEvent fs et =>
      opt_wf (fun l => observes_all r "event_fields" (map PStr l)) fs /\
      opt_wf (fun t => observes r "event_type" (PStr t)) et
  | EConfiguration c =>
      observes r "configuration"
        (configuration_observation c (String.eqb (cfg_operation c) "startup"))
  | EHeaders k names => observes_all r (header_field k) (map PStr names)
  | EState k s => observes r (state_field k) (PStr s)
  | ELifecycle items =>
      exists o, observes r "lifecycle" (PDict o) /\
                Forall (fun kv => dict_find (fst kv) o = Some (snd kv)) items
  | ENotApplicable reason => observes r "applicability" (PStr reason)
  | ECompound l =>
      (fix all (l : list expect) : Prop :=
         match l with [] => True | e :: l' => satisfies r e /\ all l' end) l
  end.

Lemma satisfies_compound r l : satisfies r (ECompound l) <-> Forall (satisfies r) l.
Proof.
  induction l as [|e l IH]; simpl in *; [by split|].
  rewrite IH. split; [intros []; by constructor|inversion 1; done].
Qed.

Definition FAILURE_CODES : list string :=
  ["http_status_mismatch"; "action_mismatch"; "rule_id_mismatch"; "event_fields_mismatch";
   "event_type_mismatch"; "configuration_connector_mismatch"; "configuration_operation_mismatch";
   "configuration_directive_mismatch"; "configuration_exit_code_mismatch";
   "configuration_outcome_mismatch"; "configuration_error_class_mismatch";
   "configuration_process_started_mismatch"; "configuration_listener_created_mismatch";
   "request_headers_mismatch"; "response_headers_mismatch"; "request_body_mismatch";
   "response_body_mismatch"; "transport_mismatch"; "lifecycle_mismatch"; "cleanup_mismatch";
   "applicability_mismatch"].

(** ** Normalised results *)

Definition bool_item (kv : string * pyval) : Prop := exists b, snd kv = PBool b.

Definition field_wf (k : string) (v : pyval) : Prop :=
  if String.eqb k "http_status" then exists z, v = PInt z
  else if String.eqb k "rule_ids" then exists l, v = PInts l
  else if str_in k ["event_fields"; "request_header_names"; "response_header_names"]
  then exists l, v = PStrs l
  else if String.eqb k "lifecycle"
  then exists items, v = PDict (mkdict items) /\ Forall bool_item items
  else if String.eqb k "configuration"
  then exists c b1 b2,
      v = PDict (mkdict (configuration_items c ++
                         [("process_started", PBool b1); ("listener_created", PBool b2)]))
  else exists s, v = PStr s.

Definition result_wf (r : pydict) : Prop :=
  forall k v, dict_find k r = Some v -> field_wf k v.

Lemma member_val_inv allowed code v w : member_val allowed code v = Ok w -> exists s, w = PStr s.
Proof. unfold member_val. intros H. res_inv H. eauto. Qed.

Lemma lifecycle_val_inv v w :
  lifecycle_val v = Ok w -> exists items, w = PDict (mkdict items) /\ Forall bool_item items.
Proof.
  destruct v; try done. unfold lifecycle_val. intros H.
  destruct (llen d =? 0); [done|].
  destruct (lifecycle_items _ d) as [items|] eqn:E; [|done]. injection H as <-.
  apply lifecycle_items_inv in E as [[Hf _] _]. exists items. split; [done|].
  eapply Forall_impl; [exact Hf|]. by intros ? [_ ?].
Qed.

Lemma configuration_val_inv v w :
  configuration_val v = Ok w ->
  exists c b1 b2, w = PDict (mkdict (configuration_items c ++
                    [("process_started", PBool b1); ("listener_created", PBool b2)])).
Proof.
  destruct v as [| | | | | |o]; try done. unfold configuration_val. intros H.
  destruct (negb _); [done|]. destruct (_configuration_values o) as [c|]; [|done].
  destruct (mapM (bool_field o) _) as [flags|] eqn:E; [|done]. injection H as <-.
  apply mapM_Ok_Forall2 in E. inversion E as [|? f1 ? fs H1 Hr]; subst.
  inversion Hr as [|? f2 ? ? H2 Hr2]; subst. inversion Hr2; subst.
  unfold bool_field in H1, H2. res_inv H1. res_inv H2. eauto.
Qed.

Lemma opt_field_wf value name f items :
  (forall v w, f v = Ok w -> field_wf name w) ->
  opt_field value name name f = Ok items ->
  Forall (fun kv => field_wf (fst kv) (snd kv)) items.
Proof.
  intros Hf. unfold opt_field. destruct (dict_find name value); [|by injection 1 as <-].
  destruct (f p) eqn:E; [|done]. injection 1 as <-. constructor; [simpl; eauto|constructor].
Qed.

Lemma forall_find (P : string -> pyval -> Prop) items k v :
  Forall (fun kv => P (fst kv) (snd kv)) items -> dict_find k (mkdict items) = Some v -> P k v.
Proof.
  induction 1 as [|[k' v'] l Hh Ht IH]; [done|].
  rewrite dict_find_mkdict_cons. destruct (String.eqb_spec k' k) as [<-|]; [|done].
  by injection 1 as <-.
Qed.

Lemma Forall_concat {A} (P : A -> Prop) ls : Forall (Forall P) ls -> Forall P (concat ls).
Proof. induction 1; simpl; [constructor|]. by apply Forall_app. Qed.

Lemma normalise_result_wf v r : _normalise_result v = Ok r -> result_wf r.
Proof.
  destruct v as [| | | | | |value]; try done. unfold _normalise_result. intros H.
  destruct (llen value =? 0); [done|]. destruct (existsb _ _); [done|].
  destruct (existsb _ _ || _); [done|].
  destruct (_normalise_result_scalar_fields value) as [a|] eqn:Ea; [|done].
  destruct (_normalise_result_headers value) as [b|] eqn:Eb; [|done].
  destruct (_normalise_result_states value) as [c|] eqn:Ec; [|done].
  destruct (_normalise_result_lifecycle value) as [d|] eqn:Ed; [|done].
  destruct (_normalise_result_configuration value) as [e|] eqn:Ee; [|done].
  injection H as <-. intros k w. apply (forall_find field_wf).
  assert (Hs : forall n al v w, str_in n ["request_body_state"; "response_body_state"; "transport";
             "cleanup"; "applicability"; "action"] = true ->
             member_val al "invalid_result" v = Ok w -> field_wf n w).
  { intros n al v1 w1 Hn H1. apply str_in_In in Hn. apply member_val_inv in H1 as [s ->].
    simpl in Hn. destruct_or! Hn; subst; by eexists. }
  rewrite !Forall_app. repeat split.
  - unfold _normalise_result_scalar_fields in Ea. res_inv Ea.
    rewrite !Forall_app. repeat split; eapply opt_field_wf; try eassumption; simpl.
    + intros ?? Hx. apply http_status_val_inv in Hx as (z & -> & _). by exists z.
    + intros ??. by apply Hs.
    + intros ?? Hx. apply rule_ids_val_inv in Hx as (z & -> & _). by exists z.
    + intros ?? Hx. apply identifier_list_val_inv in Hx as (z & -> & _). by exists z.
    + intros ?? Hx. apply identifier_val_inv in Hx as (z & -> & _). by exists z.
  - unfold _normalise_result_headers in Eb. res_inv Eb.
    rewrite !Forall_app. split; eapply opt_field_wf; try eassumption; simpl;
      intros ?? Hx; apply identifier_list_val_inv in Hx as (z & -> & _); by exists z.
  - unfold _normalise_result_states in Ec.
    destruct (mapM _ _) as [parts|] eqn:Em; [|done]. injection Ec as <-.
    apply Forall_concat. apply List.Forall_forall. intros part Hin.
    apply mapM_Ok_Forall2 in Em. revert Hin.
    repeat (match goal with H : Forall2 _ (_ :: _) _ |- _ => inversion H; clear H; subst
                          | H : Forall2 _ [] _ |- _ => inversion H; clear H; subst end).
    simpl. intros Hin. destruct_or! Hin; subst; try done;
      eapply opt_field_wf; try eassumption; intros ??; by apply Hs.
  - eapply opt_field_wf; [|exact Ed]. intros ?? Hx. by apply lifecycle_val_inv in Hx.
  - eapply opt_field_wf; [|exact Ee]. intros ?? Hx. by apply configuration_val_inv in Hx.
Qed.

(** ** Equality of normalised values *)

Lemma Qeq_bool_inject a b : Qeq_bool (inject_Z a) (inject_Z b) = true <-> a = b.
Proof. rewrite Qeq_bool_iff. unfold Qeq, inject_Z. simpl. lia. Qed.

Lemma py_eq_int a b : py_eq (PInt a) (PInt b) = true <-> PInt a = PInt b.
Proof. simpl. rewrite Qeq_bool_inject. split; congruence. Qed.

Lemma py_eq_str v s : py_eq v (PStr s) = true <-> v = PStr s.
Proof.
  destruct v; simpl; split; try done.
  - by rewrite String.eqb_eq; intros ->.
  - intros [= ->]. apply String.eqb_refl.
Qed.

Lemma py_eq_bool a b : py_eq (PBool a) (PBool b) = true <-> a = b.
Proof. destruct a, b; simpl; split; done. Qed.

Lemma py_eq_str_key k s : py_eq k (PStr s) = eq_str k s.
Proof. apply eq_true_iff_eq. by rewrite py_eq_str, eq_str_true. Qed.

Lemma dict_get_key_str k d : dict_get_key (PStr k) d = dict_get k d.
Proof.
  unfold dict_get, dict_get_or. induction d as [|[c v] d IH]; [done|].
  cbn [dict_get_key dict_find]. rewrite py_eq_str_key. by destruct (eq_str c k).
Qed.

(** A value compared with a field that may be missing. *)
Lemma get_observes r k v : v <> PNone -> (dict_get k r = v <-> observes r k v).
Proof.
  intros Hv. unfold dict_get, dict_get_or, observes.
  destruct (dict_find k r); split; congruence.
Qed.

Lemma status_observes r z :
  result_wf r ->
  (py_eq (dict_get "http_status" r) (PInt z) = true <-> observes r "http_status" (PInt z)).
Proof.
  intros Hw. rewrite <- get_observes by done. unfold dict_get, dict_get_or.
  destruct (dict_find "http_status" r) as [v|] eqn:E; [|done].
  destruct (Hw _ _ E) as [z' ->]. apply py_eq_int.
Qed.

Lemma str_observes r k s :
  py_eq (dict_get k r) (PStr s) = true <-> observes r k (PStr s).
Proof. by rewrite py_eq_str, get_observes. Qed.

(** Scalars of one class: hashable, and equal exactly when the same. *)
Definition scalar {A} (g : A -> pyval) : Prop :=
  (forall a, hashable (g a) = true) /\ (forall a b, py_eq (g a) (g b) = true <-> g a = g b).

Lemma scalar_int : scalar PInt.
Proof. split; [done|apply py_eq_int]. Qed.

Lemma scalar_str : scalar PStr.
Proof. split; [done|]. intros a b. apply py_eq_str. Qed.

Lemma subset_scalar {A} (g : A -> pyval) vs l :
  scalar g ->
  exists b, py_subset (PList (map g vs)) (PList (map g l)) = Ok b /\
            (b = true <-> incl (map g vs) (map g l)).
Proof.
  intros [Hh He]. unfold py_subset.
  assert (Hall : forall xs, forallb hashable (map g xs) = true).
  { intros xs. apply forallb_forall. intros x Hx. apply in_map_iff in Hx as (a & <- & _). auto. }
  rewrite !Hall. eexists. split; [reflexivity|].
  rewrite forallb_forall. unfold incl.
  split; intros H x Hx; specialize (H x Hx).
  - apply existsb_exists in H as (y & Hy & E).
    apply in_map_iff in Hx as (a & <- & _). apply in_map_iff in Hy as (b & <- & Hb).
    apply He in E as ->. by apply in_map.
  - apply existsb_exists. exists x. split; [done|].
    apply in_map_iff in Hx as (a & <- & _). by apply He.
Qed.

Lemma subset_field {A} (g : A -> pyval) r e field observed code vs :
  scalar g -> dict_find field e = Some (PList (map g vs)) ->
  (forall v, dict_find observed r = Some v -> exists l, v = PList (map g l)) ->
  exists l, subset_mismatch e r field observed code = Ok l /\ incl l [code] /\
            (l = [] <-> observes_all r observed (map g vs)).
Proof.
  intros Hg He Hr. unfold subset_mismatch. rewrite (dict_item_eq _ _ _ He).
  assert (Hobs : exists l, dict_get_or PEmptyList observed r = PList (map g l) /\
            (observes_all r observed (map g vs) <-> incl (map g vs) (map g l))).
  { unfold dict_get_or, observes_all, observes.
    destruct (dict_find observed r) as [v|].
    - destruct (Hr v eq_refl) as [l ->]. exists l. split; [done|]. split.
      + intros [H|(l' & [= <-] & H)]; [rewrite H; apply incl_nil_l|done].
      + intros H. right. eauto.
    - exists []. split; [done|]. split.
      + intros [H|(l' & H & _)]; [rewrite H; apply incl_nil_l|done].
      + intros H. left. by apply incl_l_nil. }
  destruct Hobs as (l & -> & Hobs).
  destruct (subset_scalar g vs l Hg) as (b & -> & Hb).
  eexists. split; [reflexivity|]. rewrite Hobs, <- Hb.
  destruct b; simpl; (split; [intros ? ?; simpl in *; tauto|]); split; done.
Qed.

(** The verdict of a matcher: it returns, its codes are known, and it reports
    none exactly when the specification holds. *)
Definition verdict (m : res (list string)) (spec : Prop) : Prop :=
  exists l, m = Ok l /\ incl l FAILURE_CODES /\ (l = [] <-> spec).

Lemma verdict_mismatch b code spec :
  (b = true <-> spec) -> In code FAILURE_CODES -> verdict (Ok (mismatch b code)) spec.
Proof.
  intros Hb Hc. eexists. split; [reflexivity|]. rewrite <- Hb. destruct b; cbn [mismatch].
  - split; [apply incl_nil_l|done].
  - split; [|done]. intros x [<-|[]]. done.
Qed.

Lemma verdict_subset {A} (g : A -> pyval) r e field observed code vs :
  scalar g -> In code FAILURE_CODES -> dict_find field e = Some (PList (map g vs)) ->
  (forall v, dict_find observed r = Some v -> exists l, v = PList (map g l)) ->
  verdict (subset_mismatch e r field observed code) (observes_all r observed (map g vs)).
Proof.
  intros Hg Hc He Hr.
  destruct (subset_field g r e field observed code vs Hg He Hr) as (l & -> & Hi & Hl).
  exists l. repeat split; try apply Hl. intros x Hx. apply Hi in Hx. by destruct Hx as [<-|[]].
Qed.

Lemma verdict_app m1 m2 s1 s2 :
  verdict m1 s1 -> verdict m2 s2 ->
  verdict (let* a := m1 in let* b := m2 in Ok (a ++ b)) (s1 /\ s2).
Proof.
  intros (l1 & -> & I1 & H1) (l2 & -> & I2 & H2). eexists. split; [reflexivity|].
  split; [by apply incl_app|]. rewrite <- H1, <- H2. split.
  - apply app_eq_nil.
  - by intros [-> ->].
Qed.

Lemma verdict_app3 a m2 m3 s1 s2 s3 :
  verdict (Ok a) s1 -> verdict m2 s2 -> verdict m3 s3 ->
  verdict (let* b := m2 in let* c := m3 in Ok (a ++ b ++ c)) (s1 /\ s2 /\ s3).
Proof.
  intros V1 (l2 & -> & I2 & H2) (l3 & -> & I3 & H3). apply (verdict_app _ (Ok (l2 ++ l3)) _ _ V1).
  apply (verdict_app (Ok l2) (Ok l3)); [by exists l2|by exists l3].
Qed.

Lemma verdict_true : verdict (Ok []) True.
Proof. exists []. repeat split; try done. apply incl_nil_l. Qed.

Lemma verdict_iff m s s' : (s <-> s') -> verdict m s -> verdict m s'.
Proof. intros H (l & E & I & Hl). exists l. rewrite <- H. done. Qed.

(** ** Matching one leaf *)

Definition leaf_ok (e : expect) : Prop :=
  match e with
  | EHeaders k _ => In k ["request_headers"; "response_headers"]
  | EState k _ => In k STATE_KINDS
  | ELifecycle items => items <> [] /\ Forall bool_item items
  | ECompound _ => False
  | _ => True
  end.

Lemma ints_field r v : result_wf r -> dict_find "rule_ids" r = Some v -> exists l, v = PList (map PInt l).
Proof. intros Hw H. exact (Hw _ _ H). Qed.

Lemma names_field r f v :
  result_wf r -> In f ["event_fields"; "request_header_names"; "response_header_names"] ->
  dict_find f r = Some v -> exists l, v = PList (map PStr l).
Proof. intros Hw Hf H. specialize (Hw _ _ H). simpl in Hf. destruct_or! Hf; subst; done. Qed.

Lemma verdict_status r e z :
  result_wf r -> dict_find "http_status" e = Some (PInt z) ->
  verdict (_match_http_status e r) (observes r "http_status" (PInt z)).
Proof.
  intros Hw He. unfold _match_http_status. rewrite (dict_item_eq _ _ _ He).
  apply verdict_mismatch; [by apply status_observes|simpl; tauto].
Qed.

Lemma verdict_rules r e l :
  result_wf r -> dict_find "rule_ids" e = Some (PInts l) ->
  verdict (subset_mismatch e r "rule_ids" "rule_ids" "rule_id_mismatch")
          (observes_all r "rule_ids" (map PInt l)).
Proof.
  intros Hw He. apply verdict_subset; [apply scalar_int|simpl; tauto|exact He|].
  intros v. by apply ints_field.
Qed.

Lemma verdict_action r e a st rs :
  result_wf r -> dict_find "action" e = Some (PStr a) ->
  dict_find "http_status" e = option_map PInt st -> dict_find "rule_ids" e = option_map PInts rs ->
  verdict (_match_action e r)
    (observes r "action" (PStr a) /\ opt_wf (fun z => observes r "http_status" (PInt z)) st /\
     opt_wf (fun l => observes_all r "rule_ids" (map PInt l)) rs).
Proof.
  intros Hw Ha Hs Hr. unfold _match_action. rewrite (dict_item_eq _ _ _ Ha). unfold dict_has.
  rewrite Hs, Hr. cbv zeta.
  assert (V1 : verdict (Ok (mismatch (py_eq (dict_get "action" r) (PStr a)) "action_mismatch"))
                       (observes r "action" (PStr a)))
    by (apply verdict_mismatch; [apply str_observes|simpl; tauto]).
  assert (V2 : verdict (if match option_map PInt st with Some _ => true | None => false end
                        then _match_http_status e r else Ok [])
                       (opt_wf (fun z => observes r "http_status" (PInt z)) st))
    by (destruct st; [by apply verdict_status|apply verdict_true]).
  assert (V3 : verdict (if match option_map PInts rs with Some _ => true | None => false end
                        then subset_mismatch e r "rule_ids" "rule_ids" "rule_id_mismatch" else Ok [])
                       (opt_wf (fun l => observes_all r "rule_ids" (map PInt l)) rs))
    by (destruct rs; [by apply verdict_rules|apply verdict_true]).
  exact (verdict_app3 _ _ _ _ _ _ V1 V2 V3).
Qed.

Lemma verdict_event r e fs et :
  result_wf r -> dict_find "fields" e = option_map PStrs fs ->
  dict_find "event_type" e = option_map PStr et ->
  verdict (_match_event e r)
    (opt_wf (fun l => observes_all r "event_fields" (map PStr l)) fs /\
     opt_wf (fun t => observes r "event_type" (PStr t)) et).
Proof.
  intros Hw Hf Ht. unfold _match_event, dict_has. rewrite Hf, Ht.
  apply verdict_app.
  - destruct fs as [l|]; [|apply verdict_true].
    apply verdict_subset; [apply scalar_str|simpl; tauto|exact Hf|].
    intros v. apply names_field; [done|simpl; tauto].
  - destruct et as [t|]; [|apply verdict_true].
    apply verdict_mismatch; [apply str_observes|simpl; tauto].
Qed.

Lemma concat_nil {A} (ls : list (list A)) : concat ls = [] <-> Forall (fun l => l = []) ls.
Proof.
  induction ls as [|l ls IH]; simpl; [by split|]. split.
  - intros H. apply app_eq_nil in H as [-> H]. constructor; [done|by apply IH].
  - inversion 1; subst. simpl. by apply IH.
Qed.

Lemma mismatch_nil b c : mismatch b c = [] <-> b = true.
Proof. destruct b; simpl; split; done. Qed.

Lemma configuration_eq c c' :
  cfg_connector c = cfg_connector c' -> cfg_operation c = cfg_operation c' ->
  cfg_directive c = cfg_directive c' -> cfg_exit_code c = cfg_exit_code c' ->
  cfg_outcome c = cfg_outcome c' -> cfg_error_class c = cfg_error_class c' -> c = c'.
Proof. destruct c, c'; simpl. by intros -> -> -> -> -> ->. Qed.

(** The configuration matcher against an observed configuration. *)
Lemma match_configuration_observed r c c' b1 b2 live :
  live = String.eqb (cfg_operation c) "startup" ->
  dict_find "configuration" r = Some (PDict (mkdict (configuration_items c' ++
     [("process_started", PBool b1); ("listener_created", PBool b2)]))) ->
  exists l, _match_configuration (expect_dict (EConfiguration c)) r = Ok l /\ incl l FAILURE_CODES /\
            (l = [] <-> c' = c /\ b1 = live /\ b2 = live).
Proof.
  intros -> Hr. unfold _match_configuration, dict_get_or. rewrite Hr.
  replace (sort_strs _CONFIGURATION_FIELDS) with
    ["connector"; "directive"; "error_class"; "exit_code"; "operation"; "outcome"] by reflexivity.
  cbn -[mismatch incl FAILURE_CODES py_eq is_bool_val].
  eexists. split; [reflexivity|]. split.
  - repeat (apply incl_app); try apply incl_nil_l;
      match goal with |- incl (mismatch ?b ?k) _ => destruct b end; cbn [mismatch];
      try apply incl_nil_l; intros x [<-|[]]; simpl; tauto.
  - rewrite !app_nil_r. split.
    + intros H.
      repeat match goal with H : _ ++ _ = [] |- _ => apply app_eq_nil in H as [? H] end.
      rewrite ?mismatch_nil in *. rewrite py_eq_int in *. rewrite ?py_eq_str in *.
      cbn [is_bool_val] in *. rewrite ?eqb_true_iff in *.
      split; [apply configuration_eq; congruence|]. split; congruence.
    + intros (-> & -> & ->). cbn [is_bool_val]. rewrite !eqb_reflx.
      rewrite (proj2 (py_eq_int _ _) eq_refl), !(proj2 (py_eq_str _ _) eq_refl). done.
Qed.

Lemma configuration_observation_inj c c' b1 b2 live :
  configuration_observation c live =
  PDict (mkdict (configuration_items c' ++
                 [("process_started", PBool b1); ("listener_created", PBool b2)])) ->
  c = c' /\ b1 = live /\ b2 = live.
Proof.
  intros H. injection H as H1 H2 H3 H4 H5 H6 H7 H8. split; [by apply configuration_eq|done].
Qed.

Lemma verdict_configuration r c :
  result_wf r ->
  verdict (_match_configuration (expect_dict (EConfiguration c)) r) (satisfies r (EConfiguration c)).
Proof.
  intros Hw. cbn [satisfies]. unfold observes.
  destruct (dict_find "configuration" r) as [v|] eqn:E.
  - destruct (Hw _ _ E) as (c' & b1 & b2 & ->).
    destruct (match_configuration_observed r c c' b1 b2 _ eq_refl E) as (l & -> & Hi & Hl).
    exists l. repeat split; try done.
    + intros H. apply Hl in H as (-> & -> & ->). done.
    + intros H. apply Hl.
      assert (H' : configuration_observation c (String.eqb (cfg_operation c) "startup") =
        PDict (mkdict (configuration_items c' ++
                 [("process_started", PBool b1); ("listener_created", PBool b2)])))
        by (injection H; congruence).
      apply configuration_observation_inj in H' as (<- & -> & ->). done.
  - unfold _match_configuration, dict_get_or. rewrite E.
    replace (sort_strs _CONFIGURATION_FIELDS) with
      ["connector"; "directive"; "error_class"; "exit_code"; "operation"; "outcome"] by reflexivity.
    cbn -[incl FAILURE_CODES String.eqb]. eexists. split; [reflexivity|]. split; [|done].
    intros x Hx. simpl in Hx. destruct_or! Hx; subst; simpl; tauto.
Qed.

Lemma predicate_eq observed k b :
  (forall v, dict_find k observed = Some v -> exists b', v = PBool b') ->
  (py_eq (dict_get k observed) (PBool b) = true <-> dict_find k observed = Some (PBool b)).
Proof.
  intros H. unfold dict_get, dict_get_or. destruct (dict_find k observed) as [v|]; [|done].
  destruct (H v eq_refl) as [b' ->]. rewrite py_eq_bool. split; congruence.
Qed.

Lemma predicates_match observed items :
  Forall bool_item items ->
  (forall k v, dict_find k observed = Some v -> exists b, v = PBool b) ->
  (forallb (fun kv => py_eq (dict_get_key (fst kv) observed) (snd kv)) (mkdict items) = true <->
   Forall (fun kv => dict_find (fst kv) observed = Some (snd kv)) items).
Proof.
  intros Hi Ho. induction Hi as [|[k v] items [b Hb] Hi IH]; [by split|].
  cbn [mkdict map fst snd forallb] in *. fold (mkdict items). subst v.
  rewrite andb_true_iff, IH, dict_get_key_str, predicate_eq by (intros; eauto).
  split; [intros []; by constructor|inversion 1; done].
Qed.

Lemma verdict_lifecycle r items :
  result_wf r -> items <> [] -> Forall bool_item items ->
  verdict (_match_lifecycle (expect_dict (ELifecycle items)) r) (satisfies r (ELifecycle items)).
Proof.
  intros Hw Hne Hi. cbn [satisfies]. unfold observes, _match_lifecycle, dict_get_or.
  assert (He : dict_item "predicates" (expect_dict (ELifecycle items)) = Ok (PDict (mkdict items)))
    by reflexivity.
  destruct (dict_find "lifecycle" r) as [v|] eqn:E.
  - destruct (Hw _ _ E) as (o & -> & Ho). rewrite He. cbv zeta.
    apply verdict_mismatch; [|simpl; tauto].
    rewrite predicates_match; [|done|].
    + split; [eauto|]. by intros (o' & [= <-] & H).
    + intros k v Hv. by apply (forall_find (fun _ v => exists b, v = PBool b)) in Hv.
  - rewrite He. cbv zeta. apply verdict_mismatch; [|simpl; tauto].
    rewrite predicates_match by done. split; [|by intros (? & ? & _)].
    destruct items; [done|]. by inversion 1.
Qed.

Lemma verdict_state r e k s code :
  dict_find "state" e = Some (PStr s) -> In code FAILURE_CODES ->
  verdict (_match_value e r k code) (observes r k (PStr s)).
Proof.
  intros He Hc. unfold _match_value. rewrite (dict_item_eq _ _ _ He).
  apply verdict_mismatch; [apply str_observes|done].
Qed.

Lemma verdict_headers r e k l code :
  result_wf r -> In k ["event_fields"; "request_header_names"; "response_header_names"] ->
  dict_find "names" e = Some (PStrs l) -> In code FAILURE_CODES ->
  verdict (_match_membership e r k code) (observes_all r k (map PStr l)).
Proof.
  intros Hw Hk He Hc. unfold _match_membership. apply verdict_subset; [apply scalar_str|done|done|].
  intros v. by apply names_field.
Qed.

Lemma verdict_leaf r e :
  result_wf r -> leaf_ok e ->
  exists kind f, dict_find "kind" (expect_dict e) = Some (PStr kind) /\
                 assoc kind _MATCH_HANDLERS = Some (MLeaf f) /\
                 verdict (f (expect_dict e) r) (satisfies r e).
Proof.
  intros Hw Hok.
  destruct e as [st|a st rs|a rs|rs|fs et|c|k names|k s|items|reason|l]; cbn [leaf_ok] in Hok.
  - do 2 eexists. split; [reflexivity|]. split; [reflexivity|]. by apply verdict_status.
  - do 2 eexists. split; [reflexivity|]. split; [reflexivity|].
    apply verdict_action; [done|reflexivity| |]; by destruct st, rs.
  - do 2 eexists. split; [reflexivity|]. split; [reflexivity|]. cbn [satisfies].
    eapply verdict_iff; [|apply (verdict_action r _ a None rs); [done|reflexivity| |]].
    + simpl. tauto.
    + by destruct rs.
    + by destruct rs.
  - do 2 eexists. split; [reflexivity|]. split; [reflexivity|]. by apply verdict_rules.
  - do 2 eexists. split; [reflexivity|]. split; [reflexivity|].
    apply verdict_event; [done|by destruct fs, et|by destruct fs, et].
  - do 2 eexists. split; [reflexivity|]. split; [reflexivity|]. by apply verdict_configuration.
  - destruct Hok as [<-|[<-|[]]]; do 2 eexists; (split; [reflexivity|]); (split; [reflexivity|]);
      apply verdict_headers; try done; simpl; tauto.
  - destruct Hok as [<-|[<-|[<-|[<-|[]]]]]; do 2 eexists; (split; [reflexivity|]);
      (split; [reflexivity|]); apply verdict_state; try done; simpl; tauto.
  - destruct Hok. do 2 eexists. split; [reflexivity|]. split; [reflexivity|].
    by apply verdict_lifecycle.
  - do 2 eexists. split; [reflexivity|]. split; [reflexivity|]. cbn [satisfies].
    unfold _match_applicability.
    replace (dict_item "reason" _) with (Ok (PStr reason)) by reflexivity.
    apply verdict_mismatch; [apply str_observes|simpl; tauto].
  - done.
Qed.

(** ** Matching nested expectations *)

(** The abstract expectations behind normalised dictionaries. *)
Fixpoint expect_ok (n : nat) (e : expect) : Prop :=
  leaf_ok e \/
  match n, e with
  | S m, ECompound l => l <> [] /\ Forall (expect_ok m) l
  | _, _ => False
  end.

Lemma nleaf_expect d : nleaf d -> exists e, d = expect_dict e /\ leaf_ok e.
Proof.
  destruct 1 as [st H|a st rs Ha Hst Hrs|a rs Ha Hrs|rs H|fs et Hfs Het Hne|c Hw Hc
                |k names Hk Hn|k s Hk Hs|items Hl [Hw _]|r Hr].
  - by exists (EHttpStatus st).
  - by exists (EIntervention a st rs).
  - by exists (EAction a rs).
  - by exists (ERuleMatch rs).
  - by exists (EEvent fs et).
  - by exists (EConfiguration c).
  - by exists (EHeaders k names).
  - by exists (EState k s).
  - exists (ELifecycle items). split; [done|]. split.
    + intros ->. unfold llen in Hl. simpl in Hl. lia.
    + eapply Forall_impl; [exact Hw|]. by intros ? [_ ?].
  - by exists (ENotApplicable r).
Qed.

Lemma nexp_expect n d : nexp n d -> exists e, d = expect_dict e /\ expect_ok n e.
Proof.
  revert d; induction n as [|n IH]; intros d [H|H]; try done.
  1, 2: apply nleaf_expect in H as (e & -> & He); exists e; split; [done|by left].
  destruct H as (cs & Hl & Hcs & _ & ->).
  assert (Hes : exists es, cs = map expect_dict es /\ Forall (expect_ok n) es).
  { clear Hl. induction Hcs as [|c cs Hc Hcs IHc]; [by exists []|].
    destruct (IH _ Hc) as (e & -> & He). destruct IHc as (es & -> & Hes).
    exists (e :: es). split; [done|by constructor]. }
  destruct Hes as (es & -> & Hes). exists (ECompound es). split.
  - cbn [expect_dict]. by rewrite map_map.
  - right. split; [|done]. intros ->. unfold llen in Hl. simpl in Hl. lia.
Qed.

Lemma verdict_concat {A} (f : A -> res (list string)) (spec : A -> Prop) l :
  (forall x, In x l -> verdict (f x) (spec x)) ->
  verdict (let* parts := mapM f l in Ok (concat parts)) (Forall spec l).
Proof.
  induction l as [|x l IH]; intros H; [eapply verdict_iff; [|apply verdict_true]; by split|].
  destruct (H x) as (l1 & E1 & I1 & H1); [by left|].
  destruct IH as (l2 & E2 & I2 & H2); [intros; apply H; by right|].
  cbn [mapM]. rewrite E1. destruct (mapM f l) as [parts|]; [|done]. injection E2 as E2.
  exists (l1 ++ l2). cbn [concat]. rewrite E2. split; [done|]. split; [by apply incl_app|].
  rewrite List.Forall_cons_iff, <- H1, <- H2. split; [apply app_eq_nil|by intros [-> ->]].
Qed.

Lemma verdict_expect n fuel r e :
  result_wf r -> expect_ok n e -> (n < fuel)%nat ->
  verdict (match_expectation_at fuel r (expect_dict e)) (satisfies r e).
Proof.
  intros Hw. revert fuel e; induction n as [|n IH]; intros [|fuel] e He Hf; try lia;
    destruct He as [He|He]; try done.
  1, 2: destruct (verdict_leaf r e Hw He) as (kind & f & Hk & Ha & Hv);
        cbn [match_expectation_at]; rewrite (dict_item_eq _ _ _ Hk), Ha; exact Hv.
  destruct e as [| | | | | | | | | |es]; try done. destruct He as [_ Hes].
  eapply verdict_iff; [symmetry; apply satisfies_compound|].
  cbn [match_expectation_at].
  replace (dict_item "kind" _) with (Ok (PStr "compound")) by reflexivity.
  replace (assoc "compound" _MATCH_HANDLERS) with (Some MCompound) by reflexivity.
  unfold _match_compound.
  replace (dict_item "conditions" _) with
    (Ok (PList (map (fun e => PDict (expect_dict e)) es))) by reflexivity.
  rewrite List.Forall_forall in Hes.
  pose proof (verdict_concat (fun e => match_expectation_at fuel r (expect_dict e)) (satisfies r) es)
    as V.
  assert (Em : mapM (fun c => match c with
             | PDict d => match_expectation_at fuel r d
             | _ => Err (TypeError "not subscriptable") end)
             (map (fun e => PDict (expect_dict e)) es)
           = mapM (fun e => match_expectation_at fuel r (expect_dict e)) es).
  { clear. induction es as [|e es IHe]; [done|]. cbn [map mapM]. by rewrite IHe. }
  rewrite Em. apply V. intros x Hx. apply IH; [by apply Hes|lia].
Qed.

Lemma match_normalised n r d :
  result_wf r -> nexp n d -> (n <= MAX_EXPECTATION_DEPTH)%nat ->
  exists e, d = expect_dict e /\ verdict (_match_expectation d r) (satisfies r e).
Proof.
  intros Hw Hd Hn. destruct (nexp_expect _ _ Hd) as (e & -> & He).
  exists e. split; [done|]. apply (verdict_expect n); [done|done|lia].
Qed.
