(* ===== verification/ContractsTheorems.v ===== *)
(** * Theorems of the public Framework contract

    Normalisation is idempotent and stays inside the closed union; validation of
    a result refines the abstract satisfaction relation and fails closed; the
    catalog queries return the records they promise. *)

From S2P Require Export ContractsResults.

(** ** Catalog facts *)

Lemma find_unique {A} (key : A -> string) (l : list A) r :
  List.NoDup (map key l) -> In r l ->
  List.find (fun x => String.eqb (key x) (key r)) l = Some r.
Proof.
  induction l as [|x l IH]; intros Hn Hin; [done|]. simpl in *.
  inversion Hn as [|? ? Hx Hr]; subst.
  destruct (String.eqb_spec (key x) (key r)) as [E|E].
  - destruct Hin as [->|Hin]; [done|]. exfalso. apply Hx. rewrite E. by apply in_map.
  - destruct Hin as [->|Hin]; [done|]. by apply IH.
Qed.

Lemma item_bind_inv {A} k d (f : pyval -> res A) x :
  (let* v := dict_item k d in f v) = Ok x -> exists v, dict_find k d = Some v /\ f v = Ok x.
Proof. unfold dict_item. intros H. destruct (dict_find k d) as [v|]; [by exists v|done]. Qed.

(** What every record of a normalised catalog satisfies. *)
Definition record_wf (r : test_record) : Prop :=
  ident (framework_test_id r) /\ nexp MAX_EXPECTATION_DEPTH (expectation r).

Lemma normalise_record_wf v r : _normalise_record v = Ok r -> record_wf r.
Proof.
  unfold _normalise_record. intros H. destruct v; try done.
  destruct (negb _); [done|].
  repeat match type of H with (let* _ := ?c in _) = _ => destruct c eqn:?; [|done] end.
  injection H as <-. split; cbn [framework_test_id expectation].
  - match goal with H : _ = Ok ?x |- ident ?x => apply item_bind_inv in H as (w & _ & H);
      by apply identifier_inv in H as [_ ?] end.
  - match goal with H : _ = Ok ?x |- nexp _ ?x => apply item_bind_inv in H as (w & _ & H);
      by apply normalise_nexp in H as [H _] end.
Qed.

Lemma normalise_catalog_wf v c :
  _normalise_catalog v = Ok c ->
  Forall record_wf (tests c) /\ List.NoDup (map framework_test_id (tests c)) /\
  List.NoDup (map fst (profiles c)).
Proof.
  unfold _normalise_catalog. intros H.
  destruct (negb (keys_exactly _ _)); [done|]. destruct (dict_item "schema_version" v); [|done].
  destruct (negb (eq_int _ _)); [done|]. 
  destruct (let* v0 := dict_item "source_commit" v in source_commit_value v0); [|done].
  destruct (dict_item "tests" v) as [[| | | | |l|]|]; try done.
  destruct (_ || _); [done|]. destruct (mapM _normalise_record l) as [ts|] eqn:Em; [|done].
  destruct (negb (str_nodup (map framework_test_id ts))) eqn:En; [done|].
  destruct (dict_item "profiles" v) as [[| | | | | |p]|]; try done.
  destruct (_ || _); [done|]. destruct (mapM normalise_profile_item p) as [ps|] eqn:Ep; [|done].
  destruct (negb (str_nodup (map fst ps))) eqn:Eq; [done|]. injection H as <-. simpl.
  apply negb_false_iff, str_nodup_NoDup in En, Eq.
  split; [|done]. eapply mapM_all; [|exact Em]. intros x y. apply normalise_record_wf.
Qed.

Lemma catalog_for_wf env cat c :
  _catalog_for env cat = Ok c ->
  Forall record_wf (tests c) /\ List.NoDup (map framework_test_id (tests c)) /\
  List.NoDup (map fst (profiles c)).
Proof.
  unfold _catalog_for. intros H. destruct cat as [v|].
  - destruct v; try done. by eapply normalise_catalog_wf.
  - destruct (_load_raw_catalog env) as [v|]; [|done]. destruct v; try done.
    by eapply normalise_catalog_wf.
Qed.

Lemma describe_inv env id cat d :
  describe_test env id cat = Ok d ->
  exists data s, id = PStr s /\ _catalog_for env cat = Ok data /\
    In (desc_test d) (tests data) /\ framework_test_id (desc_test d) = s /\
    desc_framework_test_id d = s /\ desc_profile d = profile (desc_test d) /\
    dict_item "kind" (expectation (desc_test d)) = Ok (desc_expectation_type d) /\
    desc_framework_commit d = _framework_commit env data.
Proof.
  unfold describe_test. intros H.
  destruct (_identifier id) as [s|] eqn:Ei; [|done]. apply identifier_inv in Ei as [-> _].
  destruct (_catalog_for env cat) as [data|] eqn:Ec; [|done].
  destruct (List.find _ _) as [r|] eqn:Ef; [|done].
  destruct (dict_item "kind" (expectation r)) as [k|] eqn:Ek; [|done].
  injection H as <-. apply List.find_some in Ef as [Hin Heq].
  apply String.eqb_eq in Heq. exists data, s. simpl. by repeat split.
Qed.

(** ** Closedness of the catalog queries *)

Lemma exact_item {A} d names k (f : pyval -> res A) :
  keys_exactly d names = true -> In k names -> (forall v, closed (f v)) ->
  closed (let* v := dict_item k d in f v).
Proof.
  intros H Hk Hf. destruct (keys_exactly_has d names k H Hk) as [v Hv].
  rewrite (dict_item_eq _ _ _ Hv). apply Hf.
Qed.

(** Opens a validator of a mapping with exact keys, then closes its fields. *)
Ltac exact_tac :=
  repeat first
    [ done
    | progress auto with closed
    | match goal with
      | |- closed (if negb (keys_exactly ?d ?l) then _ else _) =>
          destruct (keys_exactly d l) eqn:?; cbn [negb]
      | E : keys_exactly ?d ?l = true |- closed (let* v := dict_item ?k ?d in _) =>
          eapply exact_item; [exact E|simpl; tauto|intros]
      end
    | apply closed_mapM; intros
    | apply closed_bind; [|intros]
    | match goal with |- closed (match ?x with _ => _ end) => destruct x eqn:? end ].

Lemma text_closed v n : closed (_text v n).
Proof. destruct v; simpl; closed_tac. Qed.
Lemma optional_identifier_closed v : closed (_optional_identifier v).
Proof. unfold _optional_identifier. closed_tac. Qed.
Lemma commit_value_closed v : closed (commit_value v).
Proof. destruct v; simpl; closed_tac. Qed.
Lemma expected_rule_id_closed v : closed (expected_rule_id v).
Proof. destruct v; simpl; closed_tac. Qed.
Lemma optional_bool_closed c v : closed (optional_bool c v).
Proof. destruct v; simpl; closed_tac. Qed.
Lemma record_phase_closed v : closed (record_phase v).
Proof. destruct v; simpl; closed_tac. Qed.
#[export] Hint Resolve text_closed optional_identifier_closed commit_value_closed
  expected_rule_id_closed optional_bool_closed record_phase_closed : closed.

Lemma resource_path_closed v : closed (_relative_resource_path v).
Proof. unfold _relative_resource_path. closed_tac. Qed.
Lemma source_commit_closed v : closed (source_commit_value v).
Proof. unfold source_commit_value. closed_tac. Qed.
#[export] Hint Resolve resource_path_closed source_commit_closed : closed.

Lemma record_applicability_closed v : closed (_normalise_record_applicability v).
Proof. unfold _normalise_record_applicability. exact_tac. Qed.
Lemma source_closed v : closed (normalise_source v).
Proof. unfold normalise_source. exact_tac. Qed.
#[export] Hint Resolve record_applicability_closed source_closed : closed.
Lemma record_sources_closed v : closed (_normalise_record_sources v).
Proof. unfold _normalise_record_sources. exact_tac. Qed.
#[export] Hint Resolve record_sources_closed : closed.

Lemma record_closed v : closed (_normalise_record v).
Proof. unfold _normalise_record. exact_tac. Qed.
Lemma profile_closed v name : closed (_normalise_profile v name).
Proof. unfold _normalise_profile. exact_tac. Qed.
#[export] Hint Resolve record_closed profile_closed : closed.

Lemma profile_item_closed kv : closed (normalise_profile_item kv).
Proof. unfold normalise_profile_item. exact_tac. Qed.
#[export] Hint Resolve profile_item_closed : closed.

Lemma catalog_closed v : closed (_normalise_catalog v).
Proof. unfold _normalise_catalog. exact_tac. Qed.
#[export] Hint Resolve catalog_closed : closed.

Lemma catalog_for_closed env cat : closed (package_catalog env) -> closed (_catalog_for env cat).
Proof.
  intros H. unfold _catalog_for, _load_raw_catalog. destruct cat; [exact_tac|].
  destruct (package_catalog env) as [v|]; [|done]. cbv beta iota. exact_tac.
Qed.

Lemma nleaf_kind d : nleaf d -> exists k, dict_item "kind" d = Ok (PStr k).
Proof. intros H. apply nleaf_expect in H as (e & -> & _). destruct e; simpl; eauto. Qed.

Lemma nexp_kind n d : nexp n d -> exists k, dict_item "kind" d = Ok (PStr k).
Proof.
  destruct n; intros [H|H]; try done; try by apply nleaf_kind.
  destruct H as (cs & _ & _ & _ & ->). by exists "compound".
Qed.

Lemma describe_closed env id cat : closed (package_catalog env) -> closed (describe_test env id cat).
Proof.
  intros H. unfold describe_test. apply closed_bind; [auto with closed|]. intros s _.
  apply closed_bind; [by apply catalog_for_closed|]. intros data Hd.
  destruct (List.find _ _) as [r|] eqn:Ef; [|done].
  apply List.find_some in Ef as [Hin _].
  apply catalog_for_wf in Hd as (Hw & _). rewrite List.Forall_forall in Hw.
  destruct (Hw r Hin) as [_ Hn]. destruct (nexp_kind _ _ Hn) as [k ->]. done.
Qed.

Lemma lifecycle_val_closed v : closed (lifecycle_val v).
Proof. unfold lifecycle_val. closed_tac. Qed.

Lemma configuration_val_closed v : closed (configuration_val v).
Proof.
  unfold configuration_val. destruct v; try done.
  destruct (keys_exactly _ _) eqn:E; [|done]. cbn [negb].
  apply closed_bind.
  - apply configuration_values_closed. intros k Hk. eapply keys_exactly_has; [exact E|].
    apply in_or_app. by left.
  - intros c _. apply closed_bind; [|done]. apply closed_mapM. intros k Hk. unfold bool_field.
    eapply exact_item; [exact E|apply in_or_app; by right|]. intros v. closed_tac.
Qed.
#[export] Hint Resolve lifecycle_val_closed configuration_val_closed : closed.

Lemma normalise_result_closed v : closed (_normalise_result v).
Proof.
  destruct val_closed as (Hv1 & Hv2 & Hv3 & Hv4 & Hv5).
  unfold _normalise_result, _normalise_result_scalar_fields, _normalise_result_headers,
    _normalise_result_states, _normalise_result_lifecycle, _normalise_result_configuration,
    _normalise_result_state_field.
  closed_tac.
Qed.

(** ** Counting *)

Lemma count_fold l c :
  let c' := fold_left count_one l c in
  let n s := Z.of_nat (count_occ (fun a b : selection_status => ltac:(decide equality)) l s) in
  c_selected c' = c_selected c + n Selected /\ c_unsupported c' = c_unsupported c + n Unsupported /\
  c_not_applicable c' = c_not_applicable c + n NotApplicable /\
  c_not_executed c' = c_not_executed c + n NotExecuted.
Proof.
  cbv zeta. revert c; induction l as [|s l IH]; intros c; [simpl; lia|].
  cbn [fold_left]. destruct (IH (count_one c s)) as (H1 & H2 & H3 & H4).
  rewrite H1, H2, H3, H4. destruct s; simpl; lia.
Qed.

Lemma is_selected_count l :
  llen (List.filter is_selected l) =
  Z.of_nat (count_occ (fun a b : selection_status => ltac:(decide equality)) (map sel_status l) Selected).
Proof.
  induction l as [|s l IH]; [done|]. unfold llen in *. simpl.
  unfold is_selected at 1. destruct (sel_status s); simpl; lia.
Qed.

Lemma selected_iff states :
  selection_of_states states = Selected <->
  forall s, In s states -> In s SELECTABLE_CAPABILITY_STATES.
Proof.
  unfold selection_of_states. split.
  - repeat match goal with |- context [if ?x then _ else _] => destruct x eqn:? end; try done.
    intros _ s Hs. match goal with H : forallb _ _ = true |- _ => rewrite forallb_forall in H end.
    apply str_in_In. auto.
  - intros H.
    assert (N : forall s, ~ In s SELECTABLE_CAPABILITY_STATES -> str_in s states = false).
    { intros s Hs. apply not_true_iff_false. rewrite str_in_In. auto. }
    rewrite !N by (simpl; intuition discriminate).
    replace (forallb _ states) with true; [done|]. symmetry. apply forallb_forall.
    intros s Hs. by apply str_in_In, H.
Qed.

Lemma load_inv env cat prof data inv :
  load_test_catalog env cat prof data = Ok inv ->
  exists c p d, cat = PStr c /\ _optional_identifier prof = Ok p /\ _catalog_for env data = Ok d /\
    inv_tests inv = isort record_id_leb (List.filter (record_selected c p) (tests d)) /\
    inv_test_ids inv = map framework_test_id (inv_tests inv) /\ inv_catalog inv = c /\
    inv_framework_commit inv = _framework_commit env d.
Proof.
  unfold load_test_catalog. intros H. destruct cat as [| | | |c| |]; try done.
  destruct (negb _); [done|]. destruct (_optional_identifier prof) as [p|]; [|done].
  destruct (_catalog_for env data) as [d|]; [|done].
  destruct (mapM _public_record _); [|done]. injection H as <-. by exists c, p, d.
Qed.

Lemma record_ids_sorted l :
  StronglySorted (fun a b => str_leb a b = true) (map framework_test_id (isort record_id_leb l)).
Proof.
  pose proof (isort_sorted record_id_leb (fun x y => str_leb_total _ _)
                (fun x y z => str_leb_trans _ _ _) l) as H.
  induction H as [|x r Hs IH Hf]; simpl; constructor; [done|].
  rewrite List.Forall_map. eapply Forall_impl; [exact Hf|]. done.
Qed.

Lemma selected_ids_eq m l :
  map (fun s => framework_test_id (sel_record s)) (List.filter is_selected (map (select_record m) l))
  = map framework_test_id (List.filter (fun r => match record_selection m r with Selected => true | _ => false end) l).
Proof.
  induction l as [|r l IH]; [done|]. simpl.
  unfold is_selected at 1. cbn [select_record sel_status].
  destruct (record_selection m r); simpl; by rewrite ?IH.
Qed.

Lemma NoDup_map_filter {A B} (f : A -> B) (p : A -> bool) l :
  List.NoDup (map f l) -> List.NoDup (map f (List.filter p l)).
Proof.
  induction l as [|x l IH]; simpl; intros H; [done|]. inversion H as [|? ? Hx Hr]; subst.
  destruct (p x); simpl; [|auto]. constructor; [|auto].
  intros Hin. apply Hx. apply in_map_iff in Hin as (y & <- & Hy).
  apply filter_In in Hy as [Hy _]. by apply in_map.
Qed.

(** ** The contract's theorems *)

(** C1: validation of a result implements the abstract satisfaction relation.
    Whenever [validate_test_result] returns, it speaks of the unique record with
    that identifier; that record's normalised expectation denotes an abstract
    expectation; [valid] holds exactly when the normalised result satisfies it,
    and exactly when no failure code is reported; the reported codes are sorted,
    without repetition and taken from a closed vocabulary. *)
Theorem validate_refines_satisfies env id result cat v :
  validate_test_result env id result cat = Ok v ->
  exists data desc r e,
    _catalog_for env cat = Ok data /\ describe_test env id cat = Ok desc /\
    In (desc_test desc) (tests data) /\ id = PStr (v_framework_test_id v) /\
    framework_test_id (desc_test desc) = v_framework_test_id v /\
    _normalise_result result = Ok r /\ expectation (desc_test desc) = expect_dict e /\
    (v_valid v = true <-> satisfies r e) /\ (v_valid v = true <-> v_failure_codes v = []) /\
    incl (v_failure_codes v) FAILURE_CODES /\ List.NoDup (v_failure_codes v) /\
    sort_strs (v_failure_codes v) = v_failure_codes v.
Proof.
  unfold validate_test_result. intros H.
  destruct (describe_test env id cat) as [desc|] eqn:Ed; [|done].
  destruct (_normalise_result result) as [r|] eqn:Er; [|done].
  destruct (describe_inv _ _ _ _ Ed) as (data & s & -> & Hc & Hin & Hs & Hs' & _).
  destruct (catalog_for_wf _ _ _ Hc) as (Hw & _). rewrite List.Forall_forall in Hw.
  destruct (Hw _ Hin) as [_ Hn].
  destruct (match_normalised _ r _ (normalise_result_wf _ _ Er) Hn) as (e & He & l & Hm & Hi & Hl);
    [done|].
  rewrite Hm in H. injection H as <-. exists data, desc, r, e. simpl.
  assert (P : forall c, In c (sort_strs (dedup String.eqb l)) <-> In c l).
  { intros c. unfold sort_strs. rewrite isort_In. apply dedup_In, String.eqb_eq. }
  assert (N : sort_strs (dedup String.eqb l) = [] <-> l = []).
  { split; [|by intros ->]. intros E. destruct l as [|c l]; [done|].
    specialize (P c). rewrite E in P. destruct P as [_ []]. by left. }
  assert (B : (match sort_strs (dedup String.eqb l) with [] => true | _ => false end) = true <->
              sort_strs (dedup String.eqb l) = []) by (by destruct (sort_strs _)).
  rewrite Hs'. do 7 (split; [done|]). split; [by rewrite B, N, Hl|]. split; [done|].
  split; [intros c Hcc; apply Hi, P, Hcc|]. split.
  - eapply Permutation_NoDup; [symmetry; apply sort_strs_perm|]. apply dedup_NoDup, String.eqb_eq.
  - apply sort_strs_idem.
Qed.

(** Normalisation lands in the closed union of expectations, with at most
    four levels of nesting, and is the identity on it: what it returns is
    accepted again and returned unchanged. *)
Theorem normalize_expectation_idempotent value d :
  normalize_expectation value = Ok d ->
  nexp MAX_EXPECTATION_DEPTH d /\ normalize_expectation (PDict d) = Ok d.
Proof.
  intros H. apply normalise_nexp in H as [H _]. rewrite Nat.sub_0_r in H.
  split; [done|]. apply nexp_fixed with (n := MAX_EXPECTATION_DEPTH); [done|lia|].
  unfold MAX_EXPECTATION_DEPTH. simpl. lia.
Qed.

(** Validation fails closed: when reading the package catalog raises nothing
    but a [ContractError], neither does [validate_test_result], whatever the
    identifier, the result and the catalog given to it; in particular no handler
    or matcher raises [KeyError], [TypeError] or [AttributeError], and the
    bounded recursions never run out of their bound. *)
Theorem validate_fails_closed env id result cat :
  closed (package_catalog env) -> closed (validate_test_result env id result cat).
Proof.
  intros H. unfold validate_test_result.
  apply closed_bind; [by apply describe_closed|]. intros desc Hd.
  apply closed_bind; [apply normalise_result_closed|]. intros r Hr.
  destruct (describe_inv _ _ _ _ Hd) as (data & s & -> & Hc & Hin & _).
  destruct (catalog_for_wf _ _ _ Hc) as (Hw & _). rewrite List.Forall_forall in Hw.
  destruct (Hw _ Hin) as [_ Hn].
  destruct (match_normalised _ r _ (normalise_result_wf _ _ Hr) Hn) as (e & He & l & Hm & _);
    [done|]. by rewrite Hm.
Qed.

(** A result that carries a sensitive field is refused with the fixed code,
    whatever its other fields are: no normalised result exists for it. *)
Theorem sensitive_result_refused env id data desc fields k :
  describe_test env id data = Ok desc -> In k SENSITIVE_RESULT_FIELDS ->
  In (PStr k) (keys fields) ->
  validate_test_result env id (PDict fields) data = Err (ContractError "sensitive_result_field").
Proof.
  intros Hd Hk Hin. unfold validate_test_result. rewrite Hd. unfold _normalise_result.
  destruct (llen fields =? 0) eqn:E.
  - destruct fields; [done|]. unfold llen in E. simpl in E. lia.
  - replace (existsb _ (keys fields)) with true; [done|]. symmetry. apply existsb_exists.
    exists (PStr k). split; [done|]. apply in_strs_true. by exists k.
Qed.

(** A catalog query returns the catalog's own records, no others and none
    twice: exactly those of the requested catalog and profile, in strictly
    increasing order of their identifiers. *)
Theorem load_test_catalog_exact env cat prof data inv :
  load_test_catalog env cat prof data = Ok inv ->
  exists c p d,
    cat = PStr c /\ _optional_identifier prof = Ok p /\ _catalog_for env data = Ok d /\
    (forall r, In r (inv_tests inv) <->
       In r (tests d) /\ (c = "all" \/ In c (catalogs r)) /\
       (p = None \/ p = Some (profile r))) /\
    inv_test_ids inv = map framework_test_id (inv_tests inv) /\
    List.NoDup (inv_test_ids inv) /\
    StronglySorted (fun a b => str_leb a b = true) (inv_test_ids inv).
Proof.
  intros H. destruct (load_inv _ _ _ _ _ H) as (c & p & d & -> & Hp & Hd & Ht & Hi & _).
  destruct (catalog_for_wf _ _ _ Hd) as (_ & Hn & _).
  exists c, p, d. do 3 (split; [done|]). rewrite Hi, Ht. split; [|split; [done|split]].
  - intros r. rewrite isort_In, filter_In. unfold record_selected.
    rewrite andb_true_iff, orb_true_iff, String.eqb_eq, str_in_In.
    destruct p as [q|]; [rewrite String.eqb_eq|]; intuition (subst; auto; congruence).
  - eapply Permutation_NoDup; [|apply (NoDup_map_filter framework_test_id (record_selected c p) _ Hn)].
    apply Permutation_map. symmetry. apply isort_perm.
  - apply record_ids_sorted.
Qed.

(** C2: selection partitions the inventory: the four counts add up to the number
    of tests, the selected identifiers are those of the records all of whose
    required capabilities are in a selectable state of the manifest, and their
    number is the selected count. *)
Theorem select_tests_partition env m cat prof data s :
  select_tests env m cat prof data = Ok s ->
  exists mf inv,
    _normalise_capability_manifest m = Ok mf /\ load_test_catalog env cat prof data = Ok inv /\
    c_selected (s_counts s) + c_unsupported (s_counts s) + c_not_applicable (s_counts s)
      + c_not_executed (s_counts s) = llen (inv_tests inv) /\
    c_selected (s_counts s) = llen (s_selected_test_ids s) /\
    map sel_record (s_tests s) = inv_tests inv /\
    List.NoDup (s_selected_test_ids s) /\
    (forall i, In i (s_selected_test_ids s) <->
       exists r, In r (inv_tests inv) /\ framework_test_id r = i /\
         forall c, In c (required_capabilities r) ->
           In (capability_state mf c) SELECTABLE_CAPABILITY_STATES).
Proof.
  unfold select_tests. intros H.
  destruct (_normalise_capability_manifest m) as [mf|] eqn:Em; [|done].
  destruct (load_test_catalog env cat prof data) as [inv|] eqn:El; [|done].
  injection H as <-. exists mf, inv. do 2 (split; [done|]).
  cbn [s_counts s_selected_test_ids s_tests].
  pose proof (count_fold (map sel_status (map (select_record mf) (inv_tests inv)))
    {| c_selected := 0; c_unsupported := 0; c_not_applicable := 0; c_not_executed := 0 |}) as C.
  cbv zeta in C. cbn [c_selected c_unsupported c_not_applicable c_not_executed] in C.
  destruct C as (C1 & C2 & C3 & C4). rewrite C1, C2, C3, C4. clear C1 C2 C3 C4.
  destruct (load_inv _ _ _ _ _ El) as (c & p & d & -> & _ & Hd & Ht & _).
  destruct (catalog_for_wf _ _ _ Hd) as (_ & Hn & _).
  split; [|split; [|split; [|split]]].
  - unfold llen. generalize (inv_tests inv) as l. induction l as [|r l IH]; [done|].
    cbn [map count_occ]. destruct (sel_status (select_record mf r)); simpl in *; lia.
  - unfold llen. rewrite length_map. symmetry. apply is_selected_count.
  - rewrite map_map. apply map_id.
  - rewrite selected_ids_eq. apply NoDup_map_filter. rewrite Ht.
    eapply Permutation_NoDup; [|apply (NoDup_map_filter framework_test_id (record_selected c p) _ Hn)].
    apply Permutation_map. symmetry. apply isort_perm.
  - intros i. rewrite selected_ids_eq, in_map_iff.
    assert (S : forall r, (match record_selection mf r with Selected => true | _ => false end) = true
      <-> forall c, In c (required_capabilities r) ->
           In (capability_state mf c) SELECTABLE_CAPABILITY_STATES).
    { intros r. transitivity (record_selection mf r = Selected);
        [by destruct (record_selection mf r)|].
      unfold record_selection. rewrite selected_iff. unfold record_states. rewrite map_map. simpl.
      split; intros G x Hx; [by apply G, in_map|]. apply in_map_iff in Hx as (y & <- & Hy). auto. }
    split.
    + intros (r & <- & Hr). apply filter_In in Hr as [Hr Hs]. exists r. by rewrite <- S.
    + intros (r & Hr & <- & Hs). exists r. split; [done|]. apply filter_In. by rewrite S.
Qed.

(** [describe_test] finds every record of a catalog under its identifier and
    nothing else: it returns the record when the identifier names one, and fails
    with the fixed code when none does. *)
Theorem describe_test_lookup env cat data s :
  _catalog_for env cat = Ok data -> _identifier (PStr s) = Ok s ->
  match describe_test env (PStr s) cat with
  | Ok d => In (desc_test d) (tests data) /\ framework_test_id (desc_test d) = s /\
            desc_profile d = profile (desc_test d) /\
            forall r, In r (tests data) -> framework_test_id r = s -> r = desc_test d
  | Err e => e = ContractError "unknown_test_id" /\
             ~ exists r, In r (tests data) /\ framework_test_id r = s
  end.
Proof.
  intros Hc Hs. destruct (catalog_for_wf _ _ _ Hc) as (Hw & Hn & _).
  unfold describe_test. rewrite Hs, Hc.
  destruct (List.find _ _) as [r|] eqn:Ef.
  - apply List.find_some in Ef as [Hin Heq]. apply String.eqb_eq in Heq.
    rewrite List.Forall_forall in Hw. destruct (Hw r Hin) as [_ Hx].
    destruct (nexp_kind _ _ Hx) as [k ->]. cbn [desc_test desc_profile].
    repeat split; [done|done|]. intros r' Hr' <-.
    pose proof (find_unique _ _ _ Hn Hr') as F1. pose proof (find_unique _ _ _ Hn Hin) as F2.
    rewrite Heq in F2. congruence.
  - split; [done|]. intros (r & Hin & <-). by rewrite (find_unique _ _ _ Hn Hin) in Ef.
Qed.

(** ** A concrete catalog *)

Definition sample_record : pyval :=
  PDict (mkdict
    [("framework_test_id", PStr "phase1.query-args"); ("display_name", PStr "Query arguments");
     ("scenario_category", PNone); ("phase", PInt 1); ("area", PStr "request");
     ("profile", PStr "default"); ("required_capabilities", PStrs ["request-line"]);
     ("expectation", PDict (mkdict
        [("kind", PStr "compound");
         ("conditions", PList
            [PDict (mkdict [("kind", PStr "intervention"); ("action", PStr "deny");
                            ("http_status", PInt 403); ("rule_ids", PInts [1200; 1100])]);
             PDict (mkdict [("kind", PStr "request_headers"); ("names", PStrs ["host"])])])]));
     ("applicability", PDict (mkdict
        [("portable", PBool true); ("requires_crs", PNone); ("connector", PNone);
         ("declared_status", PNone)]));
     ("catalogs", PStrs ["framework-yaml"]);
     ("sources", PList [PDict (mkdict [("kind", PStr "yaml"); ("path", PStr "tests/q.yaml")])])]).

Definition sample_profile : pyval :=
  PDict (mkdict
    [("profile", PStr "default"); ("fixture_id", PStr "fixture"); ("connectors", PStrs ["nginx"]);
     ("required_capabilities", PStrs []);
     ("expectation", PDict (mkdict [("kind", PStr "http_status"); ("http_status", PInt 200)]));
     ("provenance", PDict (mkdict
        [("release_tag", PStr "v4.0.0");
         ("commit", PStr "0123456789abcdef0123456789abcdef01234567");
         ("expected_rule_id", PInt 942100)]))]).

Definition sample_catalog : pyval :=
  PDict (mkdict
    [("schema_version", PInt 1); ("source_commit", PStr "unavailable");
     ("profiles", PDict (mkdict [("default", sample_profile)]));
     ("tests", PList [sample_record])]).

Definition sample_env : environment :=
  {| package_catalog := Ok sample_catalog; git_head := Some (128, "") |}.

Definition sample_manifest : pyval :=
  PDict (mkdict
    [("schema_version", PInt 1); ("connector", PStr "nginx");
     ("capabilities", PDict (mkdict [("request-line", PDict (mkdict [("state", PStr "verified")]))]))]).

Definition sample_result : pyval :=
  PDict (mkdict
    [("http_status", PInt 403); ("action", PStr "deny"); ("rule_ids", PInts [1200; 1100; 1300]);
     ("request_header_names", PStrs ["user-agent"; "host"])]).

Definition sample_id : pyval := PStr "phase1.query-args".

Definition get_ok {A} (r : res A) (default : A) : A := match r with Ok a => a | Err _ => default end.

Lemma validate_refines_satisfies_witness :
  exists v, validate_test_result sample_env sample_id sample_result None = Ok v /\
            v_valid v = true /\ incl (v_failure_codes v) FAILURE_CODES.
Proof.
  destruct (validate_test_result sample_env sample_id sample_result None) as [v|] eqn:E;
    [|vm_compute in E; discriminate].
  destruct (validate_refines_satisfies _ _ _ _ _ E)
    as (d & desc & r & e & _ & _ & _ & _ & _ & _ & _ & _ & _ & Hi & _).
  exists v. split; [reflexivity|]. split; [|exact Hi].
  vm_compute in E. injection E as <-. reflexivity.
Defined.

Lemma normalize_expectation_idempotent_witness :
  exists d, normalize_expectation
              (PDict (mkdict [("kind", PStr "rule_match"); ("rule_ids", PInts [20; 10])])) = Ok d /\
            normalize_expectation (PDict d) = Ok d.
Proof.
  eexists. split; [vm_compute; reflexivity|].
  eapply (normalize_expectation_idempotent
    (PDict (mkdict [("kind", PStr "rule_match"); ("rule_ids", PInts [20; 10])]))).
  vm_compute; reflexivity.
Defined.

Lemma validate_fails_closed_witness :
  closed (validate_test_result sample_env (PInt 3) sample_result (Some sample_id)).
Proof. apply validate_fails_closed. exact I. Defined.

Lemma sensitive_result_refused_witness :
  validate_test_result sample_env sample_id
    (PDict (mkdict [("http_status", PInt 403); ("cookie", PStr "x")])) None
  = Err (ContractError "sensitive_result_field").
Proof.
  destruct (describe_test sample_env sample_id None) as [desc|] eqn:E;
    [|vm_compute in E; discriminate].
  apply (sensitive_result_refused sample_env sample_id None desc _ "cookie" E);
    simpl; tauto.
Defined.

Lemma load_test_catalog_exact_witness :
  exists inv, load_test_catalog sample_env (PStr "framework-yaml") PNone None = Ok inv /\
              List.NoDup (inv_test_ids inv) /\ inv_test_ids inv = ["phase1.query-args"].
Proof.
  destruct (load_test_catalog sample_env (PStr "framework-yaml") PNone None) as [inv|] eqn:E;
    [|vm_compute in E; discriminate].
  destruct (load_test_catalog_exact _ _ _ _ _ E) as (c & p & d & _ & _ & _ & _ & _ & Hn & _).
  exists inv. split; [reflexivity|]. split; [exact Hn|].
  vm_compute in E. injection E as <-. reflexivity.
Defined.

Lemma select_tests_partition_witness :
  exists s, select_tests sample_env sample_manifest (PStr "all") PNone None = Ok s /\
            List.NoDup (s_selected_test_ids s) /\ s_selected_test_ids s = ["phase1.query-args"].
Proof.
  destruct (select_tests sample_env sample_manifest (PStr "all") PNone None) as [s|] eqn:E;
    [|vm_compute in E; discriminate].
  destruct (select_tests_partition _ _ _ _ _ _ E) as (mf & inv & _ & _ & _ & _ & _ & Hn & _).
  exists s. split; [reflexivity|]. split; [exact Hn|].
  vm_compute in E. injection E as <-. reflexivity.
Defined.

Lemma describe_test_lookup_witness :
  describe_test sample_env (PStr "absent") None = Err (ContractError "unknown_test_id").
Proof.
  destruct (_catalog_for sample_env None) as [data|] eqn:E; [|vm_compute in E; discriminate].
  pose proof (describe_test_lookup sample_env None data "absent" E ltac:(reflexivity)) as H.
  destruct (describe_test sample_env (PStr "absent") None) as [d|e] eqn:F;
    [vm_compute in F; discriminate|]. destruct H as [-> _]. reflexivity.
Defined.
