(* ===== verification/Utf8.v ===== *)
(** * UTF-8 (the codec of [bytes.decode] and [str.encode])

    Text read from a wire may hold any code point, so where a component decodes
    text its strings are lists of code points, [ustr].  Decoding is strict:
    overlong forms, surrogates and values above U+10FFFF are refused. *)

From S2P Require Export PyText.

Definition bytes := chars.
Definition ustr := list Z.

(** The code points of an ASCII literal. *)
Definition u (s : string) : ustr := map ord (S2L s).

Lemma ord_chr z : 0 <= z < 256 -> ord (chr z) = z.
Proof.
  intros H. unfold ord, chr. rewrite N_ascii_embedding by lia. lia.
Qed.

Lemma chr_ord c : chr (ord c) = c.
Proof. unfold ord, chr. rewrite N2Z.id. apply ascii_N_embedding. Qed.

(** Unicode scalar values: what UTF-8 can encode. *)
Definition scalar_cp (c : Z) : bool :=
  (0 <=? c) && (c <=? 1114111) && negb ((55296 <=? c) && (c <=? 57343)).

Definition encode_cp (c : Z) : bytes :=
  if c <? 128 then [chr c]
  else if c <? 2048 then [chr (192 + c / 64); chr (128 + c mod 64)]
  else if c <? 65536 then
    [chr (224 + c / 4096); chr (128 + (c / 64) mod 64); chr (128 + c mod 64)]
  else [chr (240 + c / 262144); chr (128 + (c / 4096) mod 64);
        chr (128 + (c / 64) mod 64); chr (128 + c mod 64)].

(** [s.encode()]. *)
Fixpoint encode_utf8 (s : ustr) : res bytes :=
  match s with
  | [] => Ok []
  | c :: r => if scalar_cp c then let* b := encode_utf8 r in Ok (encode_cp c ++ b)
              else Err UnicodeEncodeError
  end.

Definition cont (b : ascii) : bool := between 128 191 b.

(** A decoded code point of a multi-byte form: at least [low], and a scalar. *)
Definition decoded_cp (low c : Z) (rest : res ustr) : res ustr :=
  if (low <=? c) && scalar_cp c then let* r := rest in Ok (c :: r) else Err UnicodeDecodeError.

(** [b.decode("utf-8")]. *)
Fixpoint decode_utf8 (l : bytes) : res ustr :=
  match l with
  | [] => Ok []
  | b0 :: r0 =>
      let o := ord b0 in
      if o <? 128 then let* r := decode_utf8 r0 in Ok (o :: r)
      else if o <? 192 then Err UnicodeDecodeError
      else if o <? 224 then
        match r0 with
        | b1 :: r1 =>
            if cont b1
            then decoded_cp 128 ((o - 192) * 64 + (ord b1 - 128)) (decode_utf8 r1)
            else Err UnicodeDecodeError
        | _ => Err UnicodeDecodeError
        end
      else if o <? 240 then
        match r0 with
        | b1 :: b2 :: r2 =>
            if cont b1 && cont b2
            then decoded_cp 2048 ((o - 224) * 4096 + (ord b1 - 128) * 64 + (ord b2 - 128))
                   (decode_utf8 r2)
            else Err UnicodeDecodeError
        | _ => Err UnicodeDecodeError
        end
      else if o <? 248 then
        match r0 with
        | b1 :: b2 :: b3 :: r3 =>
            if cont b1 && cont b2 && cont b3
            then decoded_cp 65536 ((o - 240) * 262144 + (ord b1 - 128) * 4096
                                   + (ord b2 - 128) * 64 + (ord b3 - 128)) (decode_utf8 r3)
            else Err UnicodeDecodeError
        | _ => Err UnicodeDecodeError
        end
      else Err UnicodeDecodeError
  end.

Lemma cont_chr z : 0 <= z < 64 -> cont (chr (128 + z)) = true.
Proof. intros H. unfold cont, between. rewrite ord_chr by lia. lia. Qed.

Ltac Zdivs :=
  repeat match goal with
  | |- context [?a / ?b] => lazymatch goal with
      | _ : _ = b * (a / b) + _ |- _ => fail
      | _ => pose proof (Z.div_mod a b ltac:(lia)); pose proof (Z.mod_pos_bound a b ltac:(lia)) end
  | |- context [?a mod ?b] => lazymatch goal with
      | _ : _ = b * (a / b) + a mod b |- _ => fail
      | _ => pose proof (Z.div_mod a b ltac:(lia)); pose proof (Z.mod_pos_bound a b ltac:(lia)) end
  end.

Lemma decode_encode_cp c r :
  scalar_cp c = true -> decode_utf8 (encode_cp c ++ r) = let* s := decode_utf8 r in Ok (c :: s).
Proof.
  intros Hc. pose proof Hc as Hs. unfold scalar_cp in Hc. unfold encode_cp.
  destruct (c <? 128) eqn:E1.
  { cbn [app decode_utf8]. rewrite ord_chr by lia. by rewrite E1. }
  destruct (c <? 2048) eqn:E2.
  { cbn [app decode_utf8]. rewrite cont_chr by (Zdivs; lia).
    rewrite !ord_chr by (Zdivs; lia).
    replace (192 + c / 64 <? 128) with false by (Zdivs; lia).
    replace (192 + c / 64 <? 192) with false by (Zdivs; lia).
    replace (192 + c / 64 <? 224) with true by (Zdivs; lia).
    unfold decoded_cp.
    replace ((192 + c / 64 - 192) * 64 + (128 + c mod 64 - 128)) with c by (Zdivs; lia).
    rewrite Hs. by replace (128 <=? c) with true by lia. }
  assert (D : c / 64 / 64 = c / 4096) by (rewrite Z.div_div by lia; done).
  assert (D' : c / 4096 / 64 = c / 262144) by (rewrite Z.div_div by lia; done).
  pose proof (Z.div_mod c 64 ltac:(lia)); pose proof (Z.mod_pos_bound c 64 ltac:(lia)).
  pose proof (Z.div_mod (c / 64) 64 ltac:(lia)); pose proof (Z.mod_pos_bound (c / 64) 64 ltac:(lia)).
  pose proof (Z.div_mod (c / 4096) 64 ltac:(lia)).
  pose proof (Z.mod_pos_bound (c / 4096) 64 ltac:(lia)).
  rewrite D in *. rewrite D' in *.
  destruct (c <? 65536) eqn:E3.
  - cbn [app decode_utf8]. rewrite !cont_chr by lia. rewrite !ord_chr by lia.
    replace (224 + c / 4096 <? 128) with false by lia.
    replace (224 + c / 4096 <? 192) with false by lia.
    replace (224 + c / 4096 <? 224) with false by lia.
    replace (224 + c / 4096 <? 240) with true by lia. cbn [andb].
    unfold decoded_cp.
    replace ((224 + c / 4096 - 224) * 4096 + (128 + (c / 64) mod 64 - 128) * 64
             + (128 + c mod 64 - 128)) with c by lia.
    rewrite Hs. by replace (2048 <=? c) with true by lia.
  - cbn [app decode_utf8]. rewrite !cont_chr by lia. rewrite !ord_chr by lia.
    replace (240 + c / 262144 <? 128) with false by lia.
    replace (240 + c / 262144 <? 192) with false by lia.
    replace (240 + c / 262144 <? 224) with false by lia.
    replace (240 + c / 262144 <? 240) with false by lia.
    replace (240 + c / 262144 <? 248) with true by lia. cbn [andb].
    unfold decoded_cp.
    replace ((240 + c / 262144 - 240) * 262144 + (128 + (c / 4096) mod 64 - 128) * 4096
             + (128 + (c / 64) mod 64 - 128) * 64 + (128 + c mod 64 - 128)) with c by lia.
    rewrite Hs. by replace (65536 <=? c) with true by lia.
Qed.

(** Decoding inverts encoding. *)
Lemma decode_encode_utf8 s b : encode_utf8 s = Ok b -> decode_utf8 b = Ok s.
Proof.
  revert b; induction s as [|c s IH]; simpl; intros b H; [by injection H as <-|].
  destruct (scalar_cp c) eqn:Ec; [|done]. destruct (encode_utf8 s) as [b'|]; [|done].
  injection H as <-. rewrite decode_encode_cp by done. by rewrite IH.
Qed.

(** Decoding raises nothing but [UnicodeDecodeError]. *)
Lemma decode_utf8_err l e : decode_utf8 l = Err e -> e = UnicodeDecodeError.
Proof.
  enough (G : forall n l, (List.length l <= n)%nat -> forall e, decode_utf8 l = Err e -> e = UnicodeDecodeError)
    by (intros; by eapply G).
  clear. induction n as [|n IH]; intros l Hl e H; [by destruct l; simpl in *; [|lia]|].
  destruct l as [|b0 r0]; [done|]. cbn [decode_utf8] in H. simpl in Hl. unfold decoded_cp in H.
  repeat match type of H with
  | context [match ?x with _ => _ end] =>
      lazymatch x with
      | decode_utf8 ?r => destruct (decode_utf8 r) eqn:?; [done|];
          injection H as <-; eapply (IH r); [simpl in *; lia|eassumption]
      | _ => destruct x; try done; try congruence
      end
  end.
Qed.

Lemma encode_cp_nonempty c : encode_cp c <> [].
Proof. unfold encode_cp. by repeat case_match. Qed.

(** ** Hexadecimal text of bytes, [bytes.hex()] and [bytes.fromhex] *)

Definition hex_digit_cp (z : Z) : Z := if z <? 10 then z + 48 else z + 87.
Definition hex_cps (b : ascii) : ustr := [hex_digit_cp (ord b / 16); hex_digit_cp (ord b mod 16)].
Definition hex_text (l : bytes) : ustr := concat (map hex_cps l).

Definition hex_value (c : Z) : option Z :=
  if (48 <=? c) && (c <=? 57) then Some (c - 48)
  else if (97 <=? c) && (c <=? 102) then Some (c - 87)
  else if (65 <=? c) && (c <=? 70) then Some (c - 55)
  else None.

Definition is_ascii_space (c : Z) : bool := ((9 <=? c) && (c <=? 13)) || (c =? 32).

(** [bytes.fromhex]: pairs of digits, ASCII white space allowed between pairs. *)
Fixpoint fromhex (s : ustr) : res bytes :=
  match s with
  | [] => Ok []
  | c :: r =>
      if is_ascii_space c then fromhex r
      else match r with
           | d :: r' =>
               match hex_value c, hex_value d with
               | Some h, Some l => let* b := fromhex r' in Ok (chr (16 * h + l) :: b)
               | _, _ => Err (ValueError "non-hexadecimal number found in fromhex() arg")
               end
           | [] => Err (ValueError "non-hexadecimal number found in fromhex() arg")
           end
  end.

Lemma hex_value_digit z : 0 <= z < 16 -> hex_value (hex_digit_cp z) = Some z.
Proof.
  intros H. unfold hex_digit_cp, hex_value.
  destruct (z <? 10) eqn:E; repeat case_match; try lia; f_equal; lia.
Qed.

Lemma hex_digit_space z : 0 <= z < 16 -> is_ascii_space (hex_digit_cp z) = false.
Proof. intros H. unfold is_ascii_space, hex_digit_cp. destruct (z <? 10) eqn:E; lia. Qed.

Lemma fromhex_hex l : fromhex (hex_text l) = Ok l.
Proof.
  induction l as [|b l IH]; [done|]. pose proof (ord_range b).
  assert (0 <= ord b / 16 < 16) by (split; [apply Z.div_pos|apply Z.div_lt_upper_bound]; lia).
  pose proof (Z.mod_pos_bound (ord b) 16 ltac:(lia)).
  unfold hex_text. cbn [map concat hex_cps app fromhex].
  rewrite hex_digit_space, !hex_value_digit by done.
  unfold hex_text in IH. rewrite IH. f_equal. f_equal.
  rewrite <- Z.div_mod by lia. apply chr_ord.
Qed.
