(* ===== verification/Spop.v ===== *)
(** * The SPOP wire observer (i12_spop_wire.py) and its fixture encoder
      (i12_spop_cases.py, encode_uint to decode_headers)

    A [Reader] holds the data and a position; it is modelled by the bytes still
    to be read, [data[pos:]], which every operation returns. *)

From S2P Require Export Utf8.
(** ** Values

    What a decoder puts under ["value"], and what a fixture passes to the
    encoder (only a fixture holds [VBytes]). *)

Inductive value :=
  | VNone
  | VBool (b : bool)
  | VInt (z : Z)
  | VStr (s : ustr)
  | VBytes (b : bytes).

#[export] Instance value_eq_dec : EqDecision value.
Proof. solve_decision. Defined.

(** [ipaddress]: the text of a packed address of 4 or 16 bytes, and
    [ip_address], which takes a text, an integer or packed bytes and returns the
    version and the packed address or raises [ValueError].  Parsing the text of
    an address gives the address back. *)
Class IpAddress := {
  ip_text : bytes -> ustr;
  ip_address : value -> res (Z * bytes);
  ip_address_text : forall b v,
    (v = 4 /\ List.length b = 4%nat) \/ (v = 6 /\ List.length b = 16%nat) ->
    ip_address (VStr (ip_text b)) = Ok (v, b);
  ip_address_packed : forall s v b, ip_address s = Ok (v, b) ->
    (v = 4 /\ List.length b = 4%nat) \/ (v = 6 /\ List.length b = 16%nat);
  ip_address_err : forall s e, ip_address s = Err e -> is_ValueError e = true }.

(** ** Reader *)

Definition reader (A : Type) := bytes -> res (A * bytes).

Definition MAX_FRAME : Z := 65536.
Definition blen (l : bytes) : Z := Z.of_nat (List.length l).

Definition take (size : Z) : reader bytes := fun l =>
  if (size <? 0) || (blen l <? size) then Err (InvalidFrame "truncated value")
  else Ok (List.firstn (Z.to_nat size) l, List.skipn (Z.to_nat size) l).

(** [take(1)[0]]. *)
Definition byte1 : reader Z := fun l =>
  match l with
  | [] => Err (InvalidFrame "truncated value")
  | b :: r => Ok (ord b, r)
  end.

Definition U64_MAX : Z := Z.shiftl 1 64 - 1.

Fixpoint uint_loop (count : nat) (v shift : Z) : reader Z := fun l =>
  match count with
  | O => Err (InvalidFrame "unterminated integer")
  | S count' =>
      let* (byte, r) := byte1 l in
      let v' := v + Z.shiftl byte shift in
      if U64_MAX <? v' then Err (InvalidFrame "integer overflow")
      else if byte <? 128 then Ok (v', r)
      else uint_loop count' v' (shift + 7) r
  end.

Definition uint : reader Z := fun l =>
  let* (v, r) := byte1 l in
  if v <? 240 then Ok (v, r) else uint_loop 9 v 4 r.

Definition blob : reader bytes := fun l => let* (n, r) := uint l in take n r.

(** [blob().decode("utf-8")]. *)
Definition text : reader ustr := fun l =>
  let* (raw, r) := blob l in let* s := decode_utf8 raw in Ok (s, r).

Definition typed `{IpAddress} : reader (Z * value) := fun l =>
  let* (tag, r) := byte1 l in
  let kind := Z.land tag 15 in
  if kind =? 0 then Ok ((tag, VNone), r)
  else if kind =? 1 then Ok ((tag, VBool (negb (Z.land tag 16 =? 0))), r)
  else if (2 <=? kind) && (kind <=? 5) then let* (z, r) := uint r in Ok ((tag, VInt z), r)
  else if (6 <=? kind) && (kind <=? 7) then
    let* (raw, r) := take (if kind =? 6 then 4 else 16) r in
    Ok ((tag, VStr (ip_text raw)), r)
  else if kind =? 8 then let* (s, r) := text r in Ok ((tag, VStr s), r)
  else if kind =? 9 then let* (raw, r) := blob r in Ok ((tag, VStr (hex_text raw)), r)
  else Err (InvalidFrame "unknown data type").

(** ** Frames *)

Record argument := { arg_name : ustr; arg_tag : Z; arg_value : value }.
Record message := { msg_name : ustr; msg_arguments : list argument }.
Record action := { act_scope : Z; act_name : ustr; act_tag : Z; act_value : value }.

Definition named_value `{IpAddress} : reader argument := fun l =>
  let* (name, r) := text l in
  let* (tv, r) := typed r in
  Ok ({| arg_name := name; arg_tag := fst tv; arg_value := snd tv |}, r).

(** [for _ in range(count)]. *)
Fixpoint times {A} (p : reader A) (count : nat) : reader (list A) := fun l =>
  match count with
  | O => Ok ([], l)
  | S count' => let* (x, r) := p l in let* (xs, r) := times p count' r in Ok (x :: xs, r)
  end.

(** [while reader.pos < len(reader.data)]; every round reads at least a byte, so
    the length of the data bounds the rounds. *)
Fixpoint until_end {A} (p : reader A) (fuel : nat) (l : bytes) : res (list A) :=
  match l with
  | [] => Ok []
  | _ => match fuel with
         | O => Err OutOfFuel
         | S fuel' => let* (x, r) := p l in let* xs := until_end p fuel' r in Ok (x :: xs)
         end
  end.

Definition decode_message `{IpAddress} : reader message := fun l =>
  let* (name, r) := text l in
  let* (count, r) := byte1 r in
  let* (arguments, r) := times named_value (Z.to_nat count) r in
  Ok ({| msg_name := name; msg_arguments := arguments |}, r).

Definition decode_messages `{IpAddress} (l : bytes) : res (list message) :=
  until_end decode_message (List.length l) l.

Definition decode_key_values `{IpAddress} (l : bytes) : res (list argument) :=
  until_end named_value (List.length l) l.

Definition decode_action `{IpAddress} : reader action := fun l =>
  let* (head, r) := take 2 l in
  if negb (bool_decide (head = [chr 1; chr 3])) then Err (InvalidFrame "unsupported ACK action")
  else
    let* (scope, r) := byte1 r in
    let* (a, r) := named_value r in
    Ok ({| act_scope := scope; act_name := arg_name a; act_tag := arg_tag a;
           act_value := arg_value a |}, r).

Inductive frame_body :=
  | KeyValues (pairs : list argument) (payload_hex : ustr)
  | Messages (messages : list message)
  | Actions (actions : list action)
  | Payload (payload_hex : ustr).

Record frame := { kind : Z; flags : Z; stream : Z; frame_id : Z; body : frame_body }.

(** [struct.unpack("!I", b)] of four bytes: big endian. *)
Definition unpack_I (b : bytes) : Z := digits_value 256 (map ord b).

Definition decode_frame `{IpAddress} (raw : bytes) : res frame :=
  if blen raw <? 4 then Err (InvalidFrame "missing length")
  else
    let size := unpack_I (List.firstn 4 raw) in
    if (MAX_FRAME <? size) || negb (size =? blen raw - 4)
    then Err (InvalidFrame "invalid frame length")
    else
      let* (k, r) := byte1 (List.skipn 4 raw) in
      let* (fl, r) := take 4 r in
      let* (st, r) := uint r in
      let* (fr, r) := uint r in
      let mk b := {| kind := k; flags := unpack_I fl; stream := st; frame_id := fr; body := b |} in
      if (k =? 1) || (k =? 2) || (k =? 101) || (k =? 102) then
        let* kvs := decode_key_values r in Ok (mk (KeyValues kvs (hex_text r)))
      else if k =? 3 then let* ms := decode_messages r in Ok (mk (Messages ms))
      else if k =? 103 then
        let* acts := until_end decode_action (List.length r) r in Ok (mk (Actions acts))
      else let* (rest, _) := take (blen r) r in Ok (mk (Payload (hex_text rest))).

(** ** Encoder *)

(** The rounds of [while value >= 128]; a 64-bit value needs at most nine. *)
Fixpoint encode_uint_loop (fuel : nat) (v : Z) : res bytes :=
  match fuel with
  | O => Err OutOfFuel
  | S fuel' =>
      if 128 <=? v
      then let* r := encode_uint_loop fuel' (Z.shiftr (v - 128) 7) in
           Ok (chr (Z.lor (Z.land v 255) 128) :: r)
      else Ok [chr v]
  end.

Definition encode_uint (v : value) : res bytes :=
  match v with
  | VInt z =>
      if (0 <=? z) && (z <=? Z.shiftl 1 64 - 1)
      then if z <? 240 then Ok [chr z]
           else let* r := encode_uint_loop 9 (Z.shiftr (z - 240) 4) in
                Ok (chr (Z.lor (Z.land z 255) 240) :: r)
      else Err (ValueError "SPOP unsigned representation requires uint64")
  | _ => Err (ValueError "SPOP unsigned representation requires uint64")
  end.

Definition encode_blob (b : bytes) : res bytes :=
  let* n := encode_uint (VInt (blen b)) in Ok (n ++ b).

Definition tag_in (tag : Z) (l : list Z) : bool := Z_in tag l.

Definition encode_typed `{IpAddress} (tag : Z) (v : value) : res bytes :=
  let* payload :=
    if tag_in tag [2; 3; 4; 5] then encode_uint v
    else if tag_in tag [8; 9] then
      match tag =? 8, v with
      | true, VStr s => let* b := encode_utf8 s in encode_blob b
      | false, VBytes b => encode_blob b
      | true, _ => Err (AttributeError "encode")
      | false, _ => Err (TypeError "object has no len() or is not bytes")
      end
    else if tag_in tag [6; 7] then
      let* (version, packed) := ip_address v in
      if negb (version =? (if tag =? 6 then 4 else 6))
      then Err (ValueError "SPOP IP tag and address family disagree")
      else Ok packed
    else if tag_in tag [0; 1; 17] then Ok []
    else Err (ValueError "unsupported fixture type") in
  Ok (chr tag :: payload).

(** [struct.pack("!I", n)] for [0 <= n < 2 ** 32]. *)
Definition pack_I (n : Z) : bytes :=
  [chr (n / 16777216); chr (n / 65536 mod 256); chr (n / 256 mod 256); chr (n mod 256)].

Definition fixture := (ustr * Z * value)%type.

Definition encode_argument `{IpAddress} (a : fixture) : res bytes :=
  let '(name, tag, v) := a in
  let* n := encode_utf8 name in
  let* nb := encode_blob n in
  let* tb := encode_typed tag v in
  Ok (nb ++ tb).

(** [name] and [value] pairs are joined by [message += ...]. *)
Definition encode_notify `{IpAddress} (arguments : list fixture) (stream frame : Z) : res bytes :=
  if (255 <? Z.of_nat (List.length arguments)) || (stream <? 1) || (frame <? 1)
  then Err (ValueError "bounded nonzero SPOP request identifiers required")
  else
    let* name := encode_blob (S2L "check-request") in
    let* args := mapM encode_argument arguments in
    let* st := encode_uint (VInt stream) in
    let* fr := encode_uint (VInt frame) in
    let message := name ++ [chr (Z.of_nat (List.length arguments))] ++ concat args in
    let payload := [chr 3] ++ pack_I 1 ++ st ++ fr ++ message in
    if 4294967295 <? blen payload then Err (StructError "argument out of range")
    else Ok (pack_I (blen payload) ++ payload).

(** ** Header blocks *)

Definition is_ascii (c : ascii) : bool := ord c <? 128.

(** Text decoded from ASCII or Latin-1 has a code point per byte and stays a
    [chars]. *)
Definition decode_ascii (b : bytes) : res chars :=
  if forallb is_ascii b then Ok b else Err UnicodeDecodeError.
Definition decode_latin1 (b : bytes) : chars := b.

Definition encode_header (h : ustr * ustr) : res bytes :=
  let* n := encode_utf8 (fst h) in
  let* nb := encode_blob n in
  let* v := encode_utf8 (snd h) in
  let* vb := encode_blob v in
  Ok (nb ++ vb).

Definition encode_headers (headers : list (ustr * ustr)) : res bytes :=
  let* bs := mapM encode_header headers in Ok (concat bs ++ [chr 0; chr 0]).

Fixpoint decode_headers_loop (fuel : nat) (l : bytes) : res (list (chars * chars)) :=
  match l with
  | [] => Err (InvalidFrame "missing binary header terminator")
  | _ =>
      match fuel with
      | O => Err OutOfFuel
      | S fuel' =>
          let* (name, r) := blob l in
          let* (v, r) := blob r in
          match name, v with
          | [], [] => match r with
                      | [] => Ok []
                      | _ => Err (InvalidFrame "trailing binary header bytes")
                      end
          | [], _ => Err (InvalidFrame "empty header name")
          | _, _ => let* n := decode_ascii name in
                    let* rest := decode_headers_loop fuel' r in
                    Ok ((n, decode_latin1 v) :: rest)
          end
      end
  end.

Definition decode_headers (data : bytes) : res (list (chars * chars)) :=
  decode_headers_loop (List.length data) data.

(** ** Damage of a NOTIFY frame (corrupt_notify_frame) *)

Definition last_argument (f : frame) : option argument :=
  match body f with
  | Messages ms => match List.last (map Some ms) None with
                   | Some m => List.last (map Some (msg_arguments m)) None
                   | None => None
                   end
  | _ => None
  end.

Definition corrupt_notify_frame `{IpAddress} (raw : bytes) : res bytes :=
  let* decoded := decode_frame raw in
  if negb (kind decoded =? 3) then Ok raw
  else match last_argument decoded with
       | None => Err (InvalidFrame "concrete NOTIFY arguments required for damage fixture")
       | Some last =>
           if negb (bool_decide (arg_name last = u "http_version")) || negb (arg_tag last =? 8)
           then Err (InvalidFrame "source damage targets final typed HTTP version")
           else Ok (pack_I (blen raw - 5) ++ List.removelast (List.skipn 4 raw))
       end.

(** * Finite request samples (i12_spop_cases.py, argument_bytes to inspect_sample)

    The inspection of the arguments of a NOTIFY message: the metadata it must
    carry, the header block in its binary and text forms, and the predicate that
    tells whether the body sample is the complete finite body. *)

(** ** Arguments *)

Definition argument_bytes (a : argument) : res bytes :=
  if arg_tag a =? 9 then
    match arg_value a with VStr s => fromhex s | _ => Err (TypeError "fromhex() argument must be str") end
  else if arg_tag a =? 8 then
    match arg_value a with VStr s => encode_utf8 s | _ => Err (AttributeError "encode") end
  else Err (InvalidFrame "concrete string or binary value required").

Definition ustr_eqb (a b : ustr) : bool := bool_decide (a = b).

Definition REQUIRED_ARGUMENTS : list ustr :=
  map u ["request_id"; "client_ip"; "client_port"; "server_ip"; "server_port"; "method"; "path";
         "uri"; "host"; "body"; "body_len"; "http_version"].

Definition arg_names (l : list argument) : list ustr := map arg_name l.

(** Arguments grouped by name; as every group must hold one argument, the
    dictionary that is returned is the list itself. *)
Definition sample_arguments (arguments : list argument) : res (list argument) :=
  let missing := List.filter (fun n => negb (existsb (ustr_eqb n) (arg_names arguments)))
                   REQUIRED_ARGUMENTS in
  let unique := nodupb ustr_eqb (arg_names arguments) in
  match missing with
  | [] => if unique then Ok arguments
          else Err (InvalidFrame "missing or duplicate metadata")
  | _ => Err (InvalidFrame "missing or duplicate metadata")
  end.

Definition find_argument (name : ustr) (l : list argument) : option argument :=
  List.find (fun a => ustr_eqb (arg_name a) name) l.

(** [arguments[name]]. *)
Definition get_argument (name : string) (l : list argument) : res argument :=
  match find_argument (u name) l with Some a => Ok a | None => Err (KeyError name) end.

(** ** Headers *)

Definition header := (chars * chars)%type.
Definition CRLF : bytes := [chr 13; chr 10].

Definition text_header_line (line : bytes) : res header :=
  match split1 (S2L ":") line with
  | Some (name, v) =>
      let* n := decode_ascii name in
      Ok (n, decode_latin1 (strip_with is_byte_space v))
  | None => Err (ValueError "not enough values to unpack")
  end.

(** [sample_headers] when only the text block is there. *)
Definition text_headers (a : argument) : res (list header) :=
  let* text := argument_bytes a in
  if negb (is_prefix (rev (CRLF ++ CRLF)) (rev text))
  then Err (InvalidFrame "text header terminator missing")
  else mapM text_header_line
         (split_sub CRLF (List.firstn (List.length text - 4) text)).

Definition normalized (rows : list header) : list header :=
  map (fun '(name, v) => (map lower_char name, strip_with is_space v)) rows.

Definition sample_headers (arguments : list argument) : res (list header) :=
  match find_argument (u "headers_bin") arguments with
  | Some bin =>
      let* data := argument_bytes bin in
      let* binary := decode_headers data in
      match find_argument (u "headers") arguments with
      | Some h =>
          let* text := text_headers h in
          if bool_decide (normalized binary = normalized text) then Ok binary
          else Err (InvalidFrame "binary and text headers disagree")
      | None => Ok binary
      end
  | None =>
      match find_argument (u "headers") arguments with
      | Some h => text_headers h
      | None => Err (InvalidFrame "header block missing")
      end
  end.

(** The values of the headers of a (lower-case) name. *)
Definition header_values (name : string) (headers : list header) : list chars :=
  map snd (List.filter (fun h => bool_decide (map lower_char (fst h) = S2L name)) headers).

(** [value.isascii() and value.isdigit()]. *)
Definition ascii_digits (v : chars) : bool :=
  match v with [] => false | _ => forallb is_ascii v && forallb is_digit v end.

Definition framing_predicate (headers : list header) (body : bytes) (advertised : Z) (version : ustr)
    : bool * option string :=
  let lengths := header_values "content-length" headers in
  match header_values "transfer-encoding" headers with
  | _ :: _ => (false, Some "transfer-encoding has no trusted SPOP EOM")
  | [] =>
      if 1 <? Z.of_nat (List.length lengths) then (false, Some "ambiguous content-length")
      else
        match lengths with
        | v :: _ =>
            if negb (ascii_digits v) || (10 <? Z.of_nat (List.length v))
            then (false, Some "invalid content-length")
            else
              let complete := (int_of_digits 10 v =? blen body) && (blen body =? advertised) in
              (complete, if complete then None else Some "unknown or incomplete finite body sample")
        | [] =>
            let known_end := (blen body =? 0) && (ustr_eqb version (u "1.0") || ustr_eqb version (u "1.1")) in
            let complete := known_end && ((0 =? blen body) && (blen body =? advertised)) in
            (complete, if complete then None else Some "unknown or incomplete finite body sample")
        end
  end.

(** ** Metadata *)

Section Inspect.
Context `{IpAddress}.

Definition endpoint_text (name : string) (a : argument) : res unit :=
  if negb (arg_tag a =? 8) then Err (InvalidFrame ("missing concrete metadata: " +:+ name))
  else match arg_value a with
       | VStr s => if ustr_eqb s [] || existsb (Z.eqb 0) s
                   then Err (InvalidFrame ("missing concrete metadata: " +:+ name)) else Ok tt
       | VNone | VBool false | VInt 0 | VBytes [] =>
           Err (InvalidFrame ("missing concrete metadata: " +:+ name))
       | _ => Err (TypeError "argument is not iterable")
       end.

Definition validate_endpoint_ip (name : string) (a : argument) : res unit :=
  match tag_in (arg_tag a) [6; 7], arg_value a with
  | true, VStr s =>
      let* (version, _) := ip_address (VStr s) in
      if version =? (if arg_tag a =? 6 then 4 else 6) then Ok tt
      else Err (InvalidFrame ("endpoint address family and tag disagree: " +:+ name))
  | _, _ => Err (InvalidFrame ("endpoint requires actual typed IPv4 or IPv6: " +:+ name))
  end.

Definition validate_endpoint_port (name : string) (a : argument) : res unit :=
  match tag_in (arg_tag a) [2; 3; 4; 5], arg_value a with
  | true, VInt z => if (0 <=? z) && (z <=? 65535) then Ok tt
                    else Err (InvalidFrame ("invalid endpoint port: " +:+ name))
  | _, _ => Err (InvalidFrame ("invalid endpoint port: " +:+ name))
  end.

Definition each (f : string -> argument -> res unit) (arguments : list argument) (names : list string)
    : res unit :=
  forM (fun name => let* a := get_argument name arguments in f name a) names.

Definition validate_endpoint_metadata (arguments : list argument) : res unit :=
  each endpoint_text arguments ["request_id"; "method"; "path"; "uri"; "host"] ;;;
  each validate_endpoint_ip arguments ["client_ip"; "server_ip"] ;;;
  each validate_endpoint_port arguments ["client_port"; "server_port"].

(** ** Inspection *)

Inductive sample_reason :=
  | Complete
  | Incomplete (why : string)
  | Raised (e : exn).

(** The concrete part of a sample; the byte count and the digest the code
    records are those of [sd_body]. *)
Record sample_detail := {
  sd_advertised : Z; sd_advertised_tag : Z; sd_body : bytes; sd_version : ustr;
  sd_version_tag : Z; sd_headers : list header }.

Record sample := {
  metadata_complete : bool; finite_sample_complete : bool; fully_inspected_http2 : bool;
  native_lifecycle_proven : bool; reason : sample_reason; detail : option sample_detail }.

Definition failed_sample (e : exn) : sample :=
  {| metadata_complete := false; finite_sample_complete := false; fully_inspected_http2 := false;
     native_lifecycle_proven := false; reason := Raised e; detail := None |}.

Definition HTTP_VERSIONS : list ustr := map u ["1.0"; "1.1"; "2.0"].

Definition body_length (a : argument) : res Z :=
  match tag_in (arg_tag a) [2; 3; 4; 5], arg_value a with
  | true, VInt z =>
      if (0 <=? z) && (z <=? Z.shiftl 1 32 - 1) then
        if (arg_tag a =? 2) && (Z.shiftl 1 31 - 1 <? z)
        then Err (InvalidFrame "signed INT32 length exceeds its representation") else Ok z
      else Err (InvalidFrame "req.body_size must be a representable integer sample")
  | _, _ => Err (InvalidFrame "req.body_size must be a representable integer sample")
  end.

Definition version_text (a : argument) : res ustr :=
  match arg_tag a =? 8, arg_value a with
  | true, VStr s => if existsb (ustr_eqb s) HTTP_VERSIONS then Ok s
                    else Err (InvalidFrame "unrecognized HTTP version metadata")
  | _, _ => Err (InvalidFrame "unrecognized HTTP version metadata")
  end.

Definition inspect_concrete_sample (arguments : list argument) : res sample :=
  let* b := get_argument "body" arguments in
  let* body := argument_bytes b in
  let* l := get_argument "body_len" arguments in
  let* v := get_argument "http_version" arguments in
  let* advertised := body_length l in
  let* version := version_text v in
  validate_endpoint_metadata arguments ;;;
  let* headers := sample_headers arguments in
  let '(complete, why) := framing_predicate headers body advertised version in
  Ok {| metadata_complete := true; finite_sample_complete := complete;
        fully_inspected_http2 := false; native_lifecycle_proven := false;
        reason := match why with None => Complete | Some w => Incomplete w end;
        detail := Some {| sd_advertised := advertised; sd_advertised_tag := arg_tag l;
                          sd_body := body; sd_version := version; sd_version_tag := arg_tag v;
                          sd_headers := headers |} |}.

(** [except (ValueError, KeyError, TypeError)]. *)
Definition caught (e : exn) : bool :=
  is_ValueError e || match e with KeyError _ | TypeError _ => true | _ => false end.

Definition inspect_sample (arguments : list argument) : res sample :=
  match (let* args := sample_arguments arguments in inspect_concrete_sample args) with
  | Ok s => Ok s
  | Err e => if caught e then Ok (failed_sample e) else Err e
  end.

Definition envelope_sample (why : string) : sample :=
  {| metadata_complete := false; finite_sample_complete := false; fully_inspected_http2 := false;
     native_lifecycle_proven := false; reason := Incomplete why; detail := None |}.

Definition inspect_notify_frame (raw : bytes) : res sample :=
  let* f := decode_frame raw in
  if negb (kind f =? 3) || negb (flags f =? 1) || (stream f =? 0) || (frame_id f =? 0)
  then Ok (envelope_sample "unsupported NOTIFY envelope")
  else match body f with
       | Messages [m] =>
           if ustr_eqb (msg_name m) (u "check-request") then inspect_sample (msg_arguments m)
           else Ok (envelope_sample "unknown or mismatched request message")
       | _ => Ok (envelope_sample "unknown or mismatched request message")
       end.
End Inspect.
