(* ===== verification/SpopRoundTrip.v ===== *)
(** * Properties of the SPOP reader and encoder *)

From S2P Require Export Spop.
(** ** Readers as parsers

    [reads p v b]: on [b] followed by anything, [p] returns [v] and what
    follows. [exact p]: whatever [p] returns, it read a prefix that determines
    the value, and fails on every shorter prefix. *)

Definition reads {A} (p : reader A) (v : A) (b : bytes) : Prop :=
  forall rest, p (b ++ rest) = Ok (v, rest).

Definition exact {A} (p : reader A) : Prop :=
  forall d v r, p d = Ok (v, r) ->
    exists c, d = c ++ r /\ reads p v c /\
      forall c' c'', c = c' ++ c'' -> c'' <> [] -> exists e, p c' = Err e.

(** Every failure is a [ValueError]. *)
Definition value_errors {A} (p : reader A) : Prop :=
  forall d e, p d = Err e -> is_ValueError e = true.

Lemma reads_bind {A B} (p : reader A) (q : A -> reader B) v w b c :
  reads p v b -> reads (q v) w c -> reads (fun l => let* (x, r) := p l in q x r) w (b ++ c).
Proof. intros Hp Hq rest. rewrite <- app_assoc. by rewrite Hp, Hq. Qed.

Lemma reads_ret {A} (v : A) : reads (fun l => Ok (v, l)) v [].
Proof. by intros rest. Qed.

Lemma exact_ret {A} (v : A) : exact (fun l => Ok (v, l)).
Proof.
  intros d w r H. injection H as <- <-. exists []. split; [done|]. split; [apply reads_ret|].
  intros c' c'' H Hc. symmetry in H. apply app_eq_nil in H as [_ ->]. done.
Qed.

Lemma exact_fail {A} e : exact (fun _ => Err (A := A * bytes) e).
Proof. intros d w r H. done. Qed.

Lemma app_split {A} (a b c d : list A) :
  a ++ b = c ++ d ->
  (exists x, c = a ++ x /\ b = x ++ d) \/ (exists x, x <> [] /\ a = c ++ x /\ d = x ++ b).
Proof.
  revert c; induction a as [|x a IH]; intros c H.
  - left. by exists c.
  - destruct c as [|y c].
    + right. exists (x :: a). by rewrite H.
    + injection H as -> H. destruct (IH _ H) as [(z & -> & ->)|(z & Hz & -> & ->)];
        [left|right]; by exists z.
Qed.

Lemma exact_bind {A B} (p : reader A) (q : A -> reader B) :
  exact p -> (forall a, exact (q a)) -> exact (fun l => let* (x, r) := p l in q x r).
Proof.
  intros Hp Hq d w r H. destruct (p d) as [[v r1]|] eqn:E; [|done].
  destruct (Hp _ _ _ E) as (c1 & -> & R1 & F1).
  destruct (Hq v _ _ _ H) as (c2 & -> & R2 & F2).
  exists (c1 ++ c2). split; [by rewrite app_assoc|]. split; [by eapply reads_bind|].
  intros c' c'' Hc Hne.
  destruct (app_split _ _ _ _ Hc) as [(x & -> & ->)|(x & Hx & -> & ->)].
  - destruct (F2 x c'' eq_refl Hne) as [e He]. exists e. by rewrite R1.
  - destruct (F1 c' x eq_refl Hx) as [e He]. exists e. by rewrite He.
Qed.

Lemma exact_if {A} (b : bool) (p q : reader A) :
  exact p -> exact q -> exact (fun l => if b then p l else q l).
Proof. by destruct b. Qed.

Lemma exact_res {A B} (m : res A) (q : A -> reader B) :
  (forall a, exact (q a)) -> exact (fun l => let* a := m in q a l).
Proof. intros H. destruct m; [apply H|apply exact_fail]. Qed.

Lemma exact_ext {A} (p q : reader A) : (forall l, p l = q l) -> exact p -> exact q.
Proof.
  intros E H d v r Hq. rewrite <- E in Hq. destruct (H _ _ _ Hq) as (c & -> & R & F).
  exists c. split; [done|]. split; [intros x; rewrite <- E; apply R|].
  intros c' c'' Hc Hn. rewrite <- E. eauto.
Qed.

Lemma exact_byte1 : exact byte1.
Proof.
  intros [|b d] v r H; [done|]. injection H as <- <-. exists [b]. split; [done|].
  split; [by intros rest|]. intros [|x c'] c'' Hc Hn; [by eexists|].
  injection Hc as -> Hc. symmetry in Hc. apply app_eq_nil in Hc as [_ ->]. done.
Qed.

Lemma take_app b rest : take (blen b) (b ++ rest) = Ok (b, rest).
Proof.
  unfold take, blen. rewrite length_app.
  replace (_ || _) with false; cycle 1.
  { symmetry. apply orb_false_iff. split; apply Z.ltb_ge; lia. }
  rewrite Nat2Z.id. rewrite List.firstn_app, List.skipn_app, Nat.sub_diag.
  rewrite List.firstn_all, List.skipn_all. simpl. by rewrite app_nil_r.
Qed.

Lemma take_inv n d v r : take n d = Ok (v, r) -> d = v ++ r /\ n = blen v.
Proof.
  unfold take. destruct (_ || _) eqn:E; [done|]. intros H. injection H as <- <-.
  apply orb_false_iff in E as [E1 E2]. split; [by rewrite List.firstn_skipn|].
  unfold blen in *. rewrite List.length_firstn. lia.
Qed.

Lemma exact_take n : exact (take n).
Proof.
  intros d v r H. apply take_inv in H as [-> ->]. exists v. split; [done|].
  split; [intros rest; apply take_app|]. intros c' c'' Hc Hn.
  unfold take. exists (InvalidFrame "truncated value").
  replace (_ || _) with true; [done|]. symmetry. apply orb_true_iff. right.
  apply Z.ltb_lt. unfold blen. rewrite Hc, length_app. destruct c''; [done|]. simpl. lia.
Qed.

Lemma exact_uint_loop n v s : exact (uint_loop n v s).
Proof.
  revert v s; induction n as [|n IH]; intros v s; cbn [uint_loop]; [apply exact_fail|].
  apply (exact_bind byte1 (fun byte r => if U64_MAX <? v + Z.shiftl byte s
           then Err (InvalidFrame "integer overflow")
           else if byte <? 128 then Ok (v + Z.shiftl byte s, r)
           else uint_loop n (v + Z.shiftl byte s) (s + 7) r)); [apply exact_byte1|].
  intros a. apply exact_if; [apply exact_fail|]. apply exact_if; [apply exact_ret|apply IH].
Qed.

Lemma exact_uint : exact uint.
Proof.
  apply (exact_bind byte1 (fun v r => if v <? 240 then Ok (v, r) else uint_loop 9 v 4 r));
    [apply exact_byte1|]. intros a. apply exact_if; [apply exact_ret|apply exact_uint_loop].
Qed.

Lemma exact_blob : exact blob.
Proof. apply (exact_bind uint take); [apply exact_uint|apply exact_take]. Qed.

Lemma exact_text : exact text.
Proof.
  apply (exact_bind blob (fun raw r => let* s := decode_utf8 raw in Ok (s, r)));
    [apply exact_blob|]. intros a. apply (exact_res _ (fun s r => Ok (s, r))). intros; apply exact_ret.
Qed.

Section Typed.
Context `{IpAddress}.

Lemma exact_typed : exact typed.
Proof.
  unfold typed. apply (exact_bind byte1 (fun tag r => _)); [apply exact_byte1|]. intros tag. cbv zeta.
  repeat apply exact_if; try apply exact_ret; try apply exact_fail.
  - apply (exact_bind uint (fun z r => Ok (tag, VInt z, r))); [apply exact_uint|].
    intros; apply exact_ret.
  - apply (exact_bind (take _) (fun raw r => Ok (tag, VStr (ip_text raw), r)));
      [apply exact_take|intros; apply exact_ret].
  - apply (exact_bind text (fun s r => Ok (tag, VStr s, r))); [apply exact_text|].
    intros; apply exact_ret.
  - apply (exact_bind blob (fun raw r => Ok (tag, VStr (hex_text raw), r)));
      [apply exact_blob|intros; apply exact_ret].
Qed.

Lemma exact_named_value : exact named_value.
Proof.
  unfold named_value. apply (exact_bind text (fun name r => _)); [apply exact_text|]. intros name.
  apply (exact_bind typed (fun tv r => Ok ({| arg_name := name; arg_tag := fst tv; arg_value := snd tv |}, r)));
    [apply exact_typed|intros; apply exact_ret].
Qed.

Lemma exact_times {A} (p : reader A) n : exact p -> exact (times p n).
Proof.
  intros Hp. induction n as [|n IH]; cbn [times]; [apply exact_ret|].
  apply (exact_bind p (fun x r => _)); [done|]. intros x.
  apply (exact_bind (times p n) (fun xs r => Ok (x :: xs, r))); [done|intros; apply exact_ret].
Qed.

Lemma exact_message : exact decode_message.
Proof.
  unfold decode_message. apply (exact_bind text (fun name r => _)); [apply exact_text|]. intros name.
  apply (exact_bind byte1 (fun count r => _)); [apply exact_byte1|]. intros count.
  apply (exact_bind (times named_value _) (fun a r => Ok ({| msg_name := name; msg_arguments := a |}, r)));
    [apply exact_times, exact_named_value|intros; apply exact_ret].
Qed.
End Typed.

(** ** Failures *)

Lemma verr_bind {A B} (p : reader A) (q : A -> reader B) :
  value_errors p -> (forall a, value_errors (q a)) ->
  value_errors (fun l => let* (x, r) := p l in q x r).
Proof.
  intros Hp Hq d e H. destruct (p d) as [[v r]|e'] eqn:E; [by eapply Hq|].
  injection H as <-. by eapply Hp.
Qed.

Lemma verr_byte1 : value_errors byte1.
Proof. intros [|b d] e H; [by injection H as <-|done]. Qed.

Lemma verr_take n : value_errors (take n).
Proof. intros d e H. unfold take in H. destruct (_ || _); [by injection H as <-|done]. Qed.

Lemma verr_uint : value_errors uint.
Proof.
  assert (L : forall n v s, value_errors (uint_loop n v s)).
  { induction n as [|n IH]; intros v s d e H; cbn [uint_loop] in H; [by injection H as <-|].
    destruct (byte1 d) as [[b r]|] eqn:E; [|injection H as <-; by eapply verr_byte1].
    destruct (_ <? _); [by injection H as <-|]. destruct (_ <? _); [done|]. by eapply IH. }
  intros d e H. unfold uint in H.
  destruct (byte1 d) as [[b r]|] eqn:E; [|injection H as <-; by eapply verr_byte1].
  destruct (_ <? _); [done|]. by eapply L.
Qed.

Lemma verr_blob : value_errors blob.
Proof. apply (verr_bind uint take); [apply verr_uint|apply verr_take]. Qed.

Lemma verr_text : value_errors text.
Proof.
  intros d e H. unfold text in H. destruct (blob d) as [[raw r]|] eqn:E;
    [|injection H as <-; by eapply verr_blob].
  destruct (decode_utf8 raw) eqn:Ed; [done|]. injection H as <-.
  by rewrite (decode_utf8_err _ _ Ed).
Qed.

(** Inverts a run of readers that failed: some reader failed. *)
Ltac verr_inv H :=
  repeat match type of H with
  | (match ?p with Ok _ => _ | Err _ => _ end) = Err _ =>
      let E := fresh "E" in destruct p as [[? ?]|?] eqn:E; [|injection H as <-]
  | (if ?b then _ else _) = Err _ => destruct b
  | Ok _ = Err _ => discriminate H
  | Err _ = Err _ => injection H as <-
  end.

Section Failures.
Context `{IpAddress}.

Lemma verr_typed : value_errors typed.
Proof.
  intros d e H'. unfold typed in H'. cbv zeta in H'. verr_inv H'; try done;
    solve [by eapply verr_byte1|by eapply verr_uint|by eapply verr_take|by eapply verr_text
          |by eapply verr_blob].
Qed.

Lemma verr_named_value : value_errors named_value.
Proof.
  intros d e H'. unfold named_value in H'. verr_inv H'; try done;
    solve [by eapply verr_text|by eapply verr_typed].
Qed.

Lemma verr_times {A} (p : reader A) n : value_errors p -> value_errors (times p n).
Proof.
  intros Hp. induction n as [|n IH]; intros d e H'; cbn [times] in H'; [done|].
  verr_inv H'; [by eapply IH|by eapply Hp].
Qed.

Lemma verr_message : value_errors decode_message.
Proof.
  intros d e H'. unfold decode_message in H'. verr_inv H'; try done;
    solve [by eapply verr_text|by eapply verr_byte1|by eapply verr_times; [apply verr_named_value|]].
Qed.

Lemma verr_action : value_errors decode_action.
Proof.
  intros d e H'. unfold decode_action in H'. verr_inv H'; try done;
    solve [by eapply verr_take|by eapply verr_byte1|by eapply verr_named_value].
Qed.
End Failures.

(** ** Progress: the loops end *)

Definition progress {A} (p : reader A) : Prop :=
  forall d v r, p d = Ok (v, r) -> (List.length r < List.length d)%nat.

(** A reader that reads exactly and refuses the empty input makes progress. *)
Lemma exact_progress {A} (p : reader A) e : exact p -> p [] = Err e -> progress p.
Proof.
  intros Hp He d v r H. destruct (Hp _ _ _ H) as (c & -> & R & _).
  destruct c as [|x c]; [specialize (R []); simpl in R; congruence|].
  simpl. rewrite length_app. lia.
Qed.

Lemma until_end_no_fuel {A} (p : reader A) fuel l :
  progress p -> value_errors p -> (List.length l <= fuel)%nat ->
  forall e, until_end p fuel l = Err e -> is_ValueError e = true.
Proof.
  intros Hp Hv. revert l; induction fuel as [|fuel IH]; intros [|b l] Hl e H; try done;
    [simpl in Hl; lia|].
  cbn [until_end] in H. destruct (p (b :: l)) as [[x r]|] eqn:E;
    [|injection H as <-; by eapply Hv].
  destruct (until_end p fuel r) eqn:Er; [done|]. injection H as <-.
  eapply IH; [|exact Er]. apply Hp in E. simpl in *. lia.
Qed.

(** Reading back what was written: a list of items. *)
Lemma until_end_reads {A} (p : reader A) xs bs fuel :
  progress p -> Forall2 (fun x b => reads p x b) xs bs -> (List.length (concat bs) <= fuel)%nat ->
  until_end p fuel (concat bs) = Ok xs.
Proof.
  intros Hp H. revert fuel; induction H as [|x b xs bs Hx H IH]; intros fuel Hf;
    [by destruct fuel|].
  cbn [concat] in *. pose proof (Hx (concat bs)) as E. pose proof (Hp _ _ _ E) as L.
  destruct (b ++ concat bs) as [|c l]; [simpl in L; lia|].
  destruct fuel as [|fuel]; [simpl in Hf; lia|]. cbn [until_end]. rewrite E.
  rewrite IH; [done|]. simpl in *. lia.
Qed.

Lemma times_reads {A} (p : reader A) xs bs :
  Forall2 (fun x b => reads p x b) xs bs -> reads (times p (List.length xs)) xs (concat bs).
Proof.
  induction 1 as [|x b xs bs Hx H IH]; cbn [times concat List.length]; [apply reads_ret|].
  apply (reads_bind p (fun x r => let* (xs, r) := times p (List.length xs) r in Ok (x :: xs, r)) x);
    [done|].
  rewrite <- (app_nil_r (concat bs)).
  apply (reads_bind _ (fun xs r => Ok (x :: xs, r)) xs); [done|apply reads_ret].
Qed.

(** Cutting the last byte of the last item makes the loop fail, when that item is
    longer than one byte. *)
Lemma until_end_cut {A} (p : reader A) fuel l xs x :
  exact p -> progress p -> until_end p fuel l = Ok (xs ++ [x]) ->
  (forall d v, p d = Ok (v, []) -> (1 < List.length d)%nat) ->
  exists e, forall fuel', exists e', until_end p fuel' (List.removelast l) = Err e' /\ (e' = e \/ e' = OutOfFuel).
Proof.
  intros He Hp. revert l xs; induction fuel as [|fuel IH]; intros [|b l] xs H Hlen;
    try (by destruct xs).
  cbn [until_end] in H. destruct (p (b :: l)) as [[y r]|] eqn:E; [|done].
  destruct (until_end p fuel r) as [ys|] eqn:Er; [|done]. injection H as H.
  destruct (He _ _ _ E) as (c & Hc & R & F).
  destruct r as [|b' r].
  - rewrite app_nil_r in Hc.
    pose proof (Hlen _ _ E) as Hl. rewrite <- Hc in F.
    pose proof (app_removelast_last b (l := b :: l) ltac:(done)) as Hcut.
    destruct (F _ _ Hcut) as [e Hf]; [done|]. exists e.
    apply (f_equal (@List.length _)) in Hcut. rewrite length_app in Hcut.
    destruct (List.removelast (b :: l)) as [|z zs]; [simpl in *; lia|].
    intros [|fuel']; [exists OutOfFuel; split; [done|by right]|].
    cbn [until_end]. rewrite Hf. exists e. split; [done|by left].
  - assert (Hne : ys <> []) by (intros ->; destruct fuel; [done|]; cbn [until_end] in Er;
      destruct (p (b' :: r)) as [[? ?]|]; [|done]; by destruct (until_end p fuel b0)).
    destruct xs as [|x0 xs]; [injection H as _ H; done|]. injection H as -> ->.
    destruct (IH _ _ Er Hlen) as [e Hcut]. exists e.
    rewrite Hc. rewrite List.removelast_app by done.
    intros [|fuel'].
    + destruct (c ++ List.removelast (b' :: r)) eqn:El; [|exists OutOfFuel; split; [done|by right]].
      apply app_eq_nil in El as [-> El]. pose proof (Hp _ _ _ E) as L. rewrite Hc in L. simpl in L. lia.
    + pose proof (R (List.removelast (b' :: r))) as E2.
      destruct (c ++ List.removelast (b' :: r)) as [|z zs] eqn:El.
      * apply app_eq_nil in El as [-> El]. pose proof (Hp _ _ _ E) as L. rewrite Hc in L. simpl in L. lia.
      * cbn [until_end]. rewrite E2. destruct (Hcut fuel') as (e' & He' & Hor).
        rewrite He'. exists e'. by split.
Qed.

(** * Round trips and damage of SPOP frames

    What the fixture encoder writes, the observer's decoder reads back; a damaged
    NOTIFY frame keeps a complete envelope and is refused. *)

(** ** Integers *)

Lemma byte_facts :
  List.forallb (fun x => (Z.lor x 128 =? 128 + x mod 128) && (Z.lor x 240 =? 240 + x mod 16))
    (map Z.of_nat (List.seq 0 256)) = true.
Proof. vm_compute. reflexivity. Qed.

Lemma byte_fact x : 0 <= x < 256 -> Z.lor x 128 = 128 + x mod 128 /\ Z.lor x 240 = 240 + x mod 16.
Proof.
  intros H. pose proof byte_facts as F. rewrite forallb_forall in F.
  assert (Hin : In x (map Z.of_nat (List.seq 0 256))).
  { apply in_map_iff. exists (Z.to_nat x). split; [lia|]. apply in_seq. lia. }
  specialize (F x Hin). apply andb_true_iff in F as [F1 F2]. lia.
Qed.

Lemma land255 v : Z.land v 255 = v mod 256.
Proof. change 255 with (Z.ones 8). rewrite Z.land_ones by lia. done. Qed.

Lemma mod_mod_div v a b : 0 < a -> 0 < b -> (v mod (a * b)) mod a = v mod a.
Proof.
  intros Ha Hb. rewrite Z.rem_mul_r by lia. rewrite Z.mul_comm, Z_mod_plus_full.
  apply Z.mod_mod. lia.
Qed.

(** The bytes the encoder sets. *)
Lemma continuation_byte v : Z.lor (Z.land v 255) 128 = 128 + v mod 128.
Proof.
  rewrite land255. pose proof (Z.mod_pos_bound v 256 ltac:(lia)).
  destruct (byte_fact (v mod 256)) as [-> _]; [done|].
  f_equal. apply (mod_mod_div v 128 2); lia.
Qed.

Lemma first_byte v : Z.lor (Z.land v 255) 240 = 240 + v mod 16.
Proof.
  rewrite land255. pose proof (Z.mod_pos_bound v 256 ltac:(lia)).
  destruct (byte_fact (v mod 256)) as [_ ->]; [done|].
  f_equal. apply (mod_mod_div v 16 16); lia.
Qed.

Lemma shiftr_shiftl_step v s :
  128 <= v -> 0 <= s ->
  Z.shiftl (128 + v mod 128) s + Z.shiftl (Z.shiftr (v - 128) 7) (s + 7) = Z.shiftl v s.
Proof.
  intros Hv Hs. rewrite !Z.shiftl_mul_pow2, Z.shiftr_div_pow2, Z.pow_add_r by lia.
  change (2 ^ 7) with 128.
  replace ((v - 128) / 128) with (v / 128 - 1);
    [|replace (v - 128) with (v + (-1) * 128) by lia; rewrite Z.div_add by lia; lia].
  pose proof (Z.div_mod v 128 ltac:(lia)). nia.
Qed.

Lemma shiftr7_bound v : 128 <= v -> 0 <= Z.shiftr (v - 128) 7 < v / 128.
Proof.
  intros H. rewrite Z.shiftr_div_pow2 by lia. change (2 ^ 7) with 128.
  replace ((v - 128) / 128) with (v / 128 - 1);
    [|replace (v - 128) with (v + (-1) * 128) by lia; rewrite Z.div_add by lia; lia].
  pose proof (Z.div_le_lower_bound v 128 1). lia.
Qed.

Lemma uint_loop_reads fuel : forall v bs count acc s,
  encode_uint_loop fuel v = Ok bs -> 0 <= v -> 0 <= s -> (fuel <= count)%nat ->
  0 <= acc -> acc + Z.shiftl v s <= U64_MAX -> reads (uint_loop count acc s) (acc + Z.shiftl v s) bs.
Proof.
  induction fuel as [|fuel IH]; intros v bs count acc s H Hv Hs Hc Ha Hm rest; [done|].
  destruct count as [|count]; [lia|]. cbn [encode_uint_loop] in H. cbn [uint_loop].
  destruct (128 <=? v) eqn:E.
  - destruct (encode_uint_loop fuel _) as [r|] eqn:Er; [|done]. injection H as <-.
    pose proof (shiftr_shiftl_step v s ltac:(lia) Hs) as Hstep.
    destruct (shiftr7_bound v ltac:(lia)) as [Hlo _].
    pose proof (Z.mod_pos_bound v 128 ltac:(lia)).
    assert (0 <= Z.shiftl (Z.shiftr (v - 128) 7) (s + 7)) by (apply Z.shiftl_nonneg; lia).
    assert (0 <= Z.shiftl (128 + v mod 128) s) by (apply Z.shiftl_nonneg; lia).
    cbn [app byte1]. rewrite continuation_byte, ord_chr by lia.
    replace (U64_MAX <? _) with false by (symmetry; apply Z.ltb_ge; lia).
    replace (128 + v mod 128 <? 128) with false by lia.
    rewrite <- Hstep. rewrite Z.add_assoc. apply (IH _ r); [done|lia|lia|lia|lia|lia].
  - injection H as <-. cbn [app byte1]. rewrite ord_chr by lia.
    replace (U64_MAX <? _) with false by (symmetry; apply Z.ltb_ge; lia).
    by replace (v <? 128) with true by lia.
Qed.

Lemma encode_uint_loop_total fuel v :
  (0 < fuel)%nat -> 0 <= v -> v < 128 ^ Z.of_nat fuel -> exists bs, encode_uint_loop fuel v = Ok bs.
Proof.
  revert v; induction fuel as [|fuel IH]; intros v Hf H0 H; [lia|].
  cbn [encode_uint_loop]. destruct (128 <=? v) eqn:E; [|by eexists].
  destruct (shiftr7_bound v ltac:(lia)) as [Hlo Hhi].
  destruct (IH (Z.shiftr (v - 128) 7)) as [bs ->]; [|lia| |by eexists].
  { destruct fuel; [simpl in H; lia|lia]. }
  rewrite Nat2Z.inj_succ, Z.pow_succ_r in H by lia.
  assert (v / 128 < 128 ^ Z.of_nat fuel + 1); [|lia].
  pose proof (Z.div_lt_upper_bound v 128 (128 ^ Z.of_nat fuel)). lia.
Qed.

Lemma encode_uint_total z : 0 <= z <= U64_MAX -> exists bs, encode_uint (VInt z) = Ok bs.
Proof.
  intros H. unfold encode_uint. fold U64_MAX.
  replace ((0 <=? z) && (z <=? U64_MAX)) with true by lia.
  destruct (z <? 240) eqn:E; [by eexists|].
  destruct (encode_uint_loop_total 9 (Z.shiftr (z - 240) 4)) as [bs ->]; [lia| | |by eexists].
  - rewrite Z.shiftr_div_pow2 by lia. apply Z.div_pos; lia.
  - rewrite Z.shiftr_div_pow2 by lia. apply Z.div_lt_upper_bound; [lia|].
    change (2 ^ 4 * 128 ^ Z.of_nat 9) with 147573952589676412928.
    unfold U64_MAX in H. change (Z.shiftl 1 64 - 1) with 18446744073709551615 in H. lia.
Qed.

Lemma encode_uint_inv v bs : encode_uint v = Ok bs -> exists z, v = VInt z /\ 0 <= z <= U64_MAX.
Proof.
  intros H. destruct v; try done. unfold encode_uint in H. fold U64_MAX in H.
  destruct (_ && _) eqn:E; [|done]. exists z. split; [done|]. lia.
Qed.

Lemma uint_reads z bs : encode_uint (VInt z) = Ok bs -> reads uint z bs.
Proof.
  intros H. destruct (encode_uint_inv _ _ H) as (z' & E & Hz). injection E as <-.
  unfold encode_uint in H. fold U64_MAX in H.
  replace ((0 <=? z) && (z <=? U64_MAX)) with true in H by lia. intros rest.
  destruct (z <? 240) eqn:E.
  - injection H as <-. unfold uint. cbn [app byte1]. rewrite ord_chr by lia. by rewrite E.
  - destruct (encode_uint_loop 9 _) as [r|] eqn:Er; [|done]. injection H as <-.
    pose proof (Z.mod_pos_bound z 16 ltac:(lia)).
    unfold uint. cbn [app byte1]. rewrite first_byte, ord_chr by lia.
    replace (240 + z mod 16 <? 240) with false by lia.
    assert (Hs : 240 + z mod 16 + Z.shiftl (Z.shiftr (z - 240) 4) 4 = z).
    { rewrite Z.shiftl_mul_pow2, Z.shiftr_div_pow2 by lia. change (2 ^ 4) with 16.
      replace (z - 240) with (z + (-15) * 16) by lia. rewrite Z.div_add by lia.
      pose proof (Z.div_mod z 16 ltac:(lia)). lia. }
    rewrite <- Hs at 2. apply (uint_loop_reads 9 _ r); try lia; try done.
    rewrite Z.shiftr_div_pow2 by lia. apply Z.div_pos; lia.
Qed.

Lemma encode_uint_length z bs : encode_uint (VInt z) = Ok bs -> (1 <= List.length bs)%nat.
Proof.
  intros H. pose proof (uint_reads _ _ H []) as R. destruct bs; [done|]. simpl. lia.
Qed.

(** ** Blobs, texts and typed values *)

Lemma blob_reads b bs : encode_blob b = Ok bs -> reads blob b bs.
Proof.
  unfold encode_blob. intros H. destruct (encode_uint _) as [n|] eqn:E; [|done]. injection H as <-.
  apply (reads_bind uint take (blen b)); [by apply uint_reads|]. intros rest. apply take_app.
Qed.

Lemma text_reads s b bs : encode_utf8 s = Ok b -> encode_blob b = Ok bs -> reads text s bs.
Proof.
  intros Hs Hb rest. unfold text. rewrite (blob_reads _ _ Hb). by rewrite (decode_encode_utf8 _ _ Hs).
Qed.

Lemma byte1_reads z : 0 <= z < 256 -> reads byte1 z [chr z].
Proof. intros H rest. cbn [app byte1]. by rewrite ord_chr. Qed.

Section Encode.
Context `{IpAddress}.

(** What the decoder reports for a fixture value. *)
Definition view (tag : Z) (v : value) : value :=
  if tag_in tag [0] then VNone
  else if tag_in tag [1] then VBool false
  else if tag_in tag [17] then VBool true
  else if tag_in tag [6; 7] then
    match ip_address v with Ok (_, packed) => VStr (ip_text packed) | Err _ => VNone end
  else match v with
       | VBytes b => VStr (hex_text b)
       | _ => v
       end.

Definition view_argument (a : fixture) : argument :=
  let '(name, tag, v) := a in {| arg_name := name; arg_tag := tag; arg_value := view tag v |}.

Lemma typed_reads tag v bs : encode_typed tag v = Ok bs -> reads typed (tag, view tag v) bs.
Proof.
  unfold encode_typed. intros H'.
  destruct (tag_in tag [2; 3; 4; 5]) eqn:E1.
  { destruct (encode_uint v) as [p|] eqn:Ep; [|done]. injection H' as <-.
    destruct (encode_uint_inv _ _ Ep) as (z & -> & _). pose proof (uint_reads _ _ Ep) as R.
    intros rest. apply Z_in_In in E1. simpl in E1.
    destruct E1 as [<-|[<-|[<-|[<-|[]]]]]; unfold typed; cbn [app byte1]; rewrite ord_chr by lia;
      cbv zeta; simpl Z.land; simpl Z.eqb; cbv iota; simpl andb; cbv iota; by rewrite R. }
  destruct (tag_in tag [8; 9]) eqn:E2.
  { apply Z_in_In in E2. simpl in E2. destruct E2 as [<-|[<-|[]]].
    - destruct v as [| | |s|]; try done. simpl Z.eqb in H'. cbv iota in H'.
      destruct (encode_utf8 s) as [b|] eqn:Es; [|done].
      destruct (encode_blob b) as [p|] eqn:Ep; [|done]. injection H' as <-.
      intros rest. unfold typed. cbn [app byte1]. rewrite ord_chr by lia.
      cbv zeta. simpl Z.land. simpl Z.eqb. cbv iota. simpl andb. cbv iota.
      by rewrite (text_reads _ _ _ Es Ep).
    - destruct v as [| | | |b]; try done. simpl Z.eqb in H'. cbv iota in H'.
      destruct (encode_blob b) as [p|] eqn:Ep; [|done]. injection H' as <-.
      intros rest. unfold typed. cbn [app byte1]. rewrite ord_chr by lia.
      cbv zeta. simpl Z.land. simpl Z.eqb. cbv iota. simpl andb. cbv iota.
      by rewrite (blob_reads _ _ Ep). }
  destruct (tag_in tag [6; 7]) eqn:E3.
  { destruct (ip_address v) as [[version packed]|] eqn:Ei; [|done].
    destruct (negb _) eqn:Ev; [done|]. injection H' as <-.
    apply negb_false_iff, Z.eqb_eq in Ev.
    assert (Hl : blen packed = if tag =? 6 then 4 else 16).
    { destruct (ip_address_packed _ _ _ Ei) as [[-> Hp]|[-> Hp]];
        unfold blen; rewrite Hp; destruct (tag =? 6); done. }
    intros rest. apply Z_in_In in E3. simpl in E3.
    unfold typed, view. destruct E3 as [<-|[<-|[]]]; cbn [app byte1]; rewrite ord_chr by lia;
      cbv zeta; simpl Z.land; simpl Z.eqb; cbv iota; simpl andb; cbv iota; simpl tag_in; cbv iota;
      rewrite Ei; simpl in Hl; rewrite <- Hl; by rewrite take_app. }
  destruct (tag_in tag [0; 1; 17]) eqn:E4; [|done]. injection H' as <-.
  intros rest. apply Z_in_In in E4. simpl in E4.
  destruct E4 as [<-|[<-|[<-|[]]]]; unfold typed; cbn [app byte1]; by rewrite ord_chr by lia.
Qed.

Lemma argument_reads a bs : encode_argument a = Ok bs -> reads named_value (view_argument a) bs.
Proof.
  destruct a as [[name tag] v]. unfold encode_argument. intros H'.
  destruct (encode_utf8 name) as [n|] eqn:En; [|done].
  destruct (encode_blob n) as [nb|] eqn:Eb; [|done].
  destruct (encode_typed tag v) as [tb|] eqn:Et; [|done]. injection H' as <-.
  intros rest. unfold named_value. rewrite <- app_assoc.
  rewrite (text_reads _ _ _ En Eb). by rewrite (typed_reads _ _ _ Et).
Qed.
End Encode.

(** ** Frames *)

Lemma unpack_pack n : 0 <= n < 4294967296 -> unpack_I (pack_I n) = n.
Proof.
  intros H. unfold unpack_I, pack_I, digits_value.
  assert (B : forall k, 0 <= n / k mod 256 < 256) by (intros; apply Z.mod_pos_bound; lia).
  pose proof (B 65536). pose proof (B 256). pose proof (Z.mod_pos_bound n 256 ltac:(lia)).
  assert (0 <= n / 16777216 < 256) by (split; [apply Z.div_pos|apply Z.div_lt_upper_bound]; lia).
  cbn [map fold_left]. rewrite !ord_chr by lia.
  pose proof (Z.div_mod n 256 ltac:(lia)). pose proof (Z.div_mod (n / 256) 256 ltac:(lia)).
  pose proof (Z.div_mod (n / 65536) 256 ltac:(lia)).
  assert (n / 256 / 256 = n / 65536) by (by rewrite Z.div_div by lia).
  assert (n / 65536 / 256 = n / 16777216) by (by rewrite Z.div_div by lia).
  lia.
Qed.

Lemma pack_length n : List.length (pack_I n) = 4%nat.
Proof. done. Qed.

Lemma take4 n rest : take 4 (pack_I n ++ rest) = Ok (pack_I n, rest).
Proof. apply (take_app (pack_I n)). Qed.

Section Frames.
Context `{IpAddress}.

Definition decode_header : reader (Z * bytes * Z * Z) := fun l =>
  let* (k, r) := byte1 l in
  let* (fl, r) := take 4 r in
  let* (st, r) := uint r in
  let* (fr, r) := uint r in
  Ok ((k, fl, st, fr), r).

Lemma exact_header : exact decode_header.
Proof.
  apply (exact_bind byte1 (fun k r => _)); [apply exact_byte1|]. intros k.
  apply (exact_bind (take 4) (fun fl r => _)); [apply exact_take|]. intros fl.
  apply (exact_bind uint (fun st r => _)); [apply exact_uint|]. intros st.
  apply (exact_bind uint (fun fr r => Ok ((k, fl, st, fr), r))); [apply exact_uint|].
  intros; apply exact_ret.
Qed.

(** What follows the header, by kind. *)
Definition decode_body (k : Z) (r : bytes) : res frame_body :=
  if (k =? 1) || (k =? 2) || (k =? 101) || (k =? 102) then
    let* kvs := decode_key_values r in Ok (KeyValues kvs (hex_text r))
  else if k =? 3 then let* ms := decode_messages r in Ok (Messages ms)
  else if k =? 103 then
    let* acts := until_end decode_action (List.length r) r in Ok (Actions acts)
  else let* (rest, _) := take (blen r) r in Ok (Payload (hex_text rest)).

Lemma decode_frame_eq raw :
  4 <= blen raw -> unpack_I (List.firstn 4 raw) <= MAX_FRAME ->
  unpack_I (List.firstn 4 raw) = blen raw - 4 ->
  decode_frame raw =
    let* (h, r) := decode_header (List.skipn 4 raw) in
    let '(k, fl, st, fr) := h in
    let* b := decode_body k r in
    Ok {| kind := k; flags := unpack_I fl; stream := st; frame_id := fr; body := b |}.
Proof.
  intros H1 H2 H3. unfold decode_frame, decode_header, decode_body.
  replace (blen raw <? 4) with false by lia. rewrite H3 in *. rewrite Z.eqb_refl.
  replace (MAX_FRAME <? blen raw - 4) with false by lia. cbn [orb negb].
  destruct (byte1 _) as [[k r]|]; [|done]. destruct (take 4 r) as [[fl r1]|]; [|done].
  destruct (uint r1) as [[st r2]|]; [|done]. destruct (uint r2) as [[fr r3]|]; [|done].
  destruct (_ || _ || _ || _); [by destruct (decode_key_values r3)|].
  destruct (k =? 3); [by destruct (decode_messages r3)|].
  destruct (k =? 103); [by destruct (until_end _ _ _)|].
  by destruct (take (blen r3) r3) as [[? ?]|].
Qed.

(** What a frame that decodes must look like. *)
Lemma decode_frame_inv raw f :
  decode_frame raw = Ok f ->
  4 <= blen raw /\ unpack_I (List.firstn 4 raw) <= MAX_FRAME /\
  unpack_I (List.firstn 4 raw) = blen raw - 4 /\
  exists fl r, decode_header (List.skipn 4 raw) = Ok ((kind f, fl, stream f, frame_id f), r) /\
    decode_body (kind f) r = Ok (body f) /\ flags f = unpack_I fl.
Proof.
  intros H'. destruct (blen raw <? 4) eqn:E1; [unfold decode_frame in H'; by rewrite E1 in H'|].
  destruct ((MAX_FRAME <? unpack_I (List.firstn 4 raw))
            || negb (unpack_I (List.firstn 4 raw) =? blen raw - 4)) eqn:E2.
  { unfold decode_frame in H'. rewrite E1 in H'. cbv zeta in H'. by rewrite E2 in H'. }
  apply orb_false_iff in E2 as [E2 E3]. apply negb_false_iff in E3.
  rewrite decode_frame_eq in H' by lia.
  destruct (decode_header _) as [[[[[k fl] st] fr] r]|] eqn:Eh; [|done].
  destruct (decode_body k r) as [b|] eqn:Eb; [|done]. injection H' as <-.
  split; [lia|]. split; [lia|]. split; [lia|]. by exists fl, r.
Qed.

Lemma message_progress : progress decode_message.
Proof. by eapply exact_progress; [apply exact_message|reflexivity]. Qed.

Lemma named_progress : progress named_value.
Proof. by eapply exact_progress; [apply exact_named_value|reflexivity]. Qed.

Lemma action_progress : progress decode_action.
Proof.
  intros d v r H'. unfold decode_action in H'.
  destruct (take 2 d) as [[h r0]|] eqn:E0; [|done]. apply take_inv in E0 as [-> _].
  destruct (negb _); [done|]. destruct (byte1 r0) as [[sc r1]|] eqn:E1; [|done].
  assert (L1 : (List.length r1 < List.length r0)%nat)
    by (destruct r0; [done|]; injection E1 as _ <-; simpl; lia).
  destruct (named_value r1) as [[a r2]|] eqn:E2; [|done]. injection H' as _ <-.
  apply named_progress in E2. rewrite length_app. lia.
Qed.

Lemma message_length d m : decode_message d = Ok (m, []) -> (1 < List.length d)%nat.
Proof.
  intros H'. unfold decode_message in H'. destruct (text d) as [[n r]|] eqn:E; [|done].
  pose proof (exact_progress text _ exact_text eq_refl _ _ _ E).
  destruct r as [|c r]; [done|]. simpl in *. lia.
Qed.

Lemma last_snoc {A} (l : list A) x d : List.last (l ++ [x]) d = x.
Proof. apply List.last_last. Qed.

Lemma last_argument_inv f a :
  last_argument f = Some a -> exists ms m, body f = Messages (ms ++ [m]).
Proof.
  unfold last_argument. destruct (body f) as [|ms| |]; try done.
  destruct ms as [|m ms _] using rev_ind; [done|]. intros _. by exists ms, m.
Qed.

Lemma corrupt_inv raw raw' :
  corrupt_notify_frame raw = Ok raw' ->
  exists f, decode_frame raw = Ok f /\
    ((kind f <> 3 /\ raw' = raw) \/
     (kind f = 3 /\ (exists ms m, body f = Messages (ms ++ [m])) /\
      raw' = pack_I (blen raw - 5) ++ List.removelast (List.skipn 4 raw))).
Proof.
  unfold corrupt_notify_frame. intros H'. destruct (decode_frame raw) as [f|]; [|done]. exists f.
  split; [done|]. destruct (kind f =? 3) eqn:Ek; cbn [negb] in H'.
  - right. apply Z.eqb_eq in Ek. split; [done|]. destruct (last_argument f) as [a|] eqn:El; [|done].
    destruct (_ || _); [done|]. injection H' as <-. split; [|done]. by eapply last_argument_inv.
  - left. apply Z.eqb_neq in Ek. by injection H' as <-.
Qed.
End Frames.

(** ** Theorems *)

Section Theorems.
Context `{IpAddress}.

(** The decoder of the wire observer inverts the fixture encoder on every
    64-bit integer: [encode_uint] succeeds on it and [Reader.uint] reads it back,
    whatever bytes follow. *)
Theorem uint_round_trip z rest :
  0 <= z < 2 ^ 64 ->
  exists bs, encode_uint (VInt z) = Ok bs /\ uint (bs ++ rest) = Ok (z, rest).
Proof.
  intros Hz. destruct (encode_uint_total z) as [bs E].
  - unfold U64_MAX. change (Z.shiftl 1 64) with (2 ^ 64). lia.
  - exists bs. split; [done|]. by apply uint_reads.
Qed.

(** C3: a NOTIFY frame the fixture encoder writes, within the frame bound, is
    decoded to exactly its arguments: kind 3, flags 1, the given stream and frame
    identifiers, one message named [check-request], and every argument with its
    name, its tag and the view of its value. *)
Theorem notify_round_trip arguments st fr raw :
  encode_notify arguments st fr = Ok raw -> blen raw - 4 <= MAX_FRAME ->
  decode_frame raw =
    Ok {| kind := 3; flags := 1; stream := st; frame_id := fr;
          body := Messages [{| msg_name := u "check-request";
                               msg_arguments := map view_argument arguments |}] |}.
Proof.
  unfold encode_notify. intros H' Hm.
  destruct (_ || _ || _) eqn:Eb; [done|].
  destruct (encode_blob _) as [nb|] eqn:En; [|done].
  destruct (mapM encode_argument arguments) as [args|] eqn:Ea; [|done].
  destruct (encode_uint (VInt st)) as [sb|] eqn:Es; [|done].
  destruct (encode_uint (VInt fr)) as [fb|] eqn:Ef; [|done]. cbv zeta in H'.
  set (payload := [chr 3] ++ _) in H'. destruct (4294967295 <? blen payload) eqn:Ep; [done|].
  assert (raw = pack_I (blen payload) ++ payload) as -> by congruence. clear H'.
  assert (Hb : blen (pack_I (blen payload) ++ payload) - 4 = blen payload)
    by (unfold blen; rewrite length_app, pack_length; lia).
  rewrite Hb in Hm. assert (0 <= blen payload) by (unfold blen; lia).
  assert (Hf : List.firstn 4 (pack_I (blen payload) ++ payload) = pack_I (blen payload))
    by reflexivity.
  rewrite decode_frame_eq; rewrite ?Hf, ?unpack_pack by lia; [|lia|done|lia].
  change (List.skipn 4 (pack_I (blen payload) ++ payload)) with payload.
  unfold payload. unfold decode_header. cbn [app byte1]. rewrite ord_chr by lia.
  rewrite (take4 1). rewrite (uint_reads _ _ Es), (uint_reads _ _ Ef).
  unfold decode_body. simpl Z.eqb. cbn [orb]. cbv iota.
  assert (R : reads decode_message {| msg_name := u "check-request";
                msg_arguments := map view_argument arguments |}
                (nb ++ [chr (Z.of_nat (List.length arguments))] ++ concat args)).
  { intros rest. unfold decode_message. rewrite <- app_assoc.
    rewrite (text_reads (u "check-request") _ _ eq_refl En).
    rewrite <- app_assoc. cbn [app byte1].
    apply orb_false_iff in Eb as [Eb _]. apply orb_false_iff in Eb as [Eb _].
    rewrite ord_chr by lia. rewrite Nat2Z.id.
    rewrite <- (length_map view_argument). erewrite times_reads; [done|].
    apply mapM_Ok_Forall2 in Ea. apply Forall2_fmap_l.
    eapply Forall2_impl; [exact Ea|]. intros a b. apply argument_reads. }
  unfold decode_messages.
  pose proof (until_end_reads decode_message [_] [_] _ message_progress
    ltac:(constructor; [exact R|constructor]) (le_n _)) as U.
  cbn [concat] in U. rewrite app_nil_r in U. cbn [app] in U. by rewrite U, unpack_pack by lia.
Qed.

(** C4: decoding fails closed: on any bytes whatsoever the decoder either returns
    a frame or raises a [ValueError] ([InvalidFrame] or a Unicode error), which is
    what the relay catches; its loops end within the length of the data. *)
Theorem decode_frame_fails_closed raw e : decode_frame raw = Err e -> is_ValueError e = true.
Proof.
  intros H'. destruct (blen raw <? 4) eqn:E1.
  { unfold decode_frame in H'. rewrite E1 in H'. by injection H' as <-. }
  destruct ((MAX_FRAME <? unpack_I (List.firstn 4 raw))
            || negb (unpack_I (List.firstn 4 raw) =? blen raw - 4)) eqn:E2.
  { unfold decode_frame in H'. rewrite E1 in H'. cbv zeta in H'. rewrite E2 in H'.
    by injection H' as <-. }
  apply orb_false_iff in E2 as [E2 E3]. apply negb_false_iff in E3.
  rewrite decode_frame_eq in H' by lia.
  destruct (decode_header _) as [[[[[k fl] st] fr] r]|e'] eqn:Eh.
  - destruct (decode_body k r) as [b|e'] eqn:Eb; [done|]. injection H' as <-.
    unfold decode_body, decode_key_values, decode_messages in Eb.
    destruct (_ || _ || _ || _); [|destruct (k =? 3); [|destruct (k =? 103)]].
    + destruct (until_end _ _ _) eqn:Eu; [done|]. injection Eb as <-.
      eapply until_end_no_fuel; [apply named_progress|apply verr_named_value|reflexivity|exact Eu].
    + destruct (until_end _ _ _) eqn:Eu; [done|]. injection Eb as <-.
      eapply until_end_no_fuel; [apply message_progress|apply verr_message|reflexivity|exact Eu].
    + destruct (until_end _ _ _) eqn:Eu; [done|]. injection Eb as <-.
      eapply until_end_no_fuel; [apply action_progress|apply verr_action|reflexivity|exact Eu].
    + destruct (take _ _) as [[? ?]|] eqn:Et; [done|]. injection Eb as <-. by eapply verr_take.
  - injection H' as <-. unfold decode_header in Eh. verr_inv Eh; try done;
      solve [by eapply verr_byte1|by eapply verr_take|by eapply verr_uint].
Qed.

(** The damage fixture does what it is for: from a NOTIFY frame it makes a
    frame one byte shorter whose length prefix is right, a complete envelope, and
    the decoder refuses it. *)
Theorem corrupt_notify_refused raw raw' f :
  decode_frame raw = Ok f -> kind f = 3 -> corrupt_notify_frame raw = Ok raw' ->
  blen raw' = blen raw - 1 /\ unpack_I (List.firstn 4 raw') = blen raw' - 4 /\
  exists e, decode_frame raw' = Err e.
Proof.
  intros Hd Hk H'. destruct (corrupt_inv _ _ H') as (f' & Hd' & [[Hn _]|(_ & (ms & m & Hb) & ->)]);
    rewrite Hd in Hd'; injection Hd' as <-; [done|].
  destruct (decode_frame_inv _ _ Hd) as (H4 & Hmax & Hsz & fl & r & Hh & Hbody & _).
  rewrite Hk, Hb in Hbody. unfold decode_body in Hbody. simpl Z.eqb in Hbody.
  cbn [orb] in Hbody. cbv iota in Hbody.
  destruct (decode_messages r) as [ms'|] eqn:Em; [|done]. injection Hbody as ->.
  destruct (exact_header _ _ _ Hh) as (c & Hc & R & _).
  assert (Hr : r <> []) by (intros ->; unfold decode_messages in Em; simpl in Em;
    injection Em as Em; by destruct ms).
  rewrite Hc, List.removelast_app by done.
  destruct (until_end_cut _ _ _ _ _ exact_message message_progress Em message_length) as [e Hcut].
  assert (Hlen : blen raw = 4 + (blen c + blen r)).
  { unfold blen in *. rewrite <- (List.firstn_skipn 4 raw), Hc, !length_app, List.length_firstn. lia. }
  assert (Hrl : blen (List.removelast r) = blen r - 1).
  { unfold blen. pose proof (app_removelast_last (chr 0) Hr) as E.
    apply (f_equal (@List.length _)) in E. rewrite length_app in E. simpl in E. lia. }
  assert (0 <= blen r - 1) by (rewrite <- Hrl; unfold blen; lia).
  assert (0 <= blen c) by (unfold blen; lia).
  set (raw' := pack_I _ ++ _).
  assert (Hl : blen raw' = blen raw - 1).
  { unfold raw'. unfold blen at 1. rewrite !length_app, pack_length.
    fold (blen c). unfold blen in *. lia. }
  assert (Hu : unpack_I (List.firstn 4 raw') = blen raw - 5).
  { change (List.firstn 4 raw') with (pack_I (blen raw - 5)). apply unpack_pack.
    unfold MAX_FRAME in Hmax. lia. }
  split; [done|]. split; [lia|].
  rewrite decode_frame_eq by lia.
  change (List.skipn 4 raw') with (c ++ List.removelast r). rewrite R. rewrite Hk.
  unfold decode_body. simpl Z.eqb. cbn [orb]. cbv iota. unfold decode_messages.
  destruct (Hcut (List.length (List.removelast r))) as (e' & -> & _). by eexists.
Qed.
End Theorems.
