(* ===== verification/SpopHost.v ===== *)
(** * The SPOP relay and its trace checks (i12_spop_host.py)

    The relay reassembles the byte stream of one direction of a connection into
    frames, records each of them and passes the bytes on, damaging NOTIFY frames
    when asked to.  The checks then correlate the recorded frames.  Time stamps
    and digests of the records are not modelled. *)

From S2P Require Export Spop.

Inductive direction := HostAgent | AgentHost.

#[export] Instance direction_eq_dec : EqDecision direction.
Proof. solve_decision. Defined.

Inductive decoded := Decoded (f : frame) | DecodeError (e : exn).

Record frame_row := {
  row_connection : Z; row_direction : direction; row_raw : bytes; row_decoded : decoded }.

(** What the relay writes to its files and to the peer, in order. *)
Inductive entry :=
  | LChunk (data : bytes)
  | LFrame (row : frame_row)
  | LSample (stream frame : Z) (raw : bytes) (measurement : sample)
  | LForwarded (data : bytes) (deliberately_corrupted : bool)
  | LSent (data : bytes)
  | LError (e : exn)
  | LPartial (pending : bytes)
  | LShutdown.

Section Relay.
Context `{IpAddress}.
Variables (corrupt_notify : bool) (connection : Z) (dir : direction).

Definition decode_row (raw : bytes) : decoded :=
  match decode_frame raw with
  | Ok f => Decoded f
  | Err e => DecodeError e
  end.

Definition damaging : bool :=
  corrupt_notify && match dir with HostAgent => true | AgentHost => false end.

(** The body of the loop of [forward_frames] on one complete frame. *)
Definition forward_one (raw : bytes) : list entry * option exn :=
  let d := decode_row raw in
  let head := [LFrame {| row_connection := connection; row_direction := dir;
                         row_raw := raw; row_decoded := d |}] in
  let is_notify := match d with Decoded f => kind f =? 3 | DecodeError _ => false end in
  let after (log : list entry) : list entry * option exn :=
    if damaging then
      match (if is_notify then corrupt_notify_frame raw else Ok raw) with
      | Ok forwarded =>
          (log ++ [LForwarded forwarded (negb (bool_decide (forwarded = raw))); LSent forwarded], None)
      | Err e => (log, Some e)
      end
    else (log, None) in
  match d with
  | Decoded f =>
      if kind f =? 3 then
        match inspect_notify_frame raw with
        | Ok m => after (head ++ [LSample (stream f) (frame_id f) raw m])
        | Err e => (head, Some e)
        end
      else after head
  | DecodeError _ => after head
  end.

(** [while len(pending) >= 4]; each round removes at least four bytes. *)
Fixpoint forward_frames_loop (fuel : nat) (pending : bytes) : list entry * bytes * option exn :=
  match fuel with
  | O => ([], pending, Some OutOfFuel)
  | S fuel' =>
      if blen pending <? 4 then ([], pending, None)
      else
        let size := unpack_I (List.firstn 4 pending) in
        if MAX_FRAME <? size
        then ([], pending, Some (ValueError "observer frame budget exceeded"))
        else if blen pending <? 4 + size then ([], pending, None)
        else
          let n := Z.to_nat (4 + size) in
          let rest := List.skipn n pending in
          match forward_one (List.firstn n pending) with
          | (log, Some e) => (log, rest, Some e)
          | (log, None) =>
              let '(log', rest', e) := forward_frames_loop fuel' rest in (log ++ log', rest', e)
          end
  end.

Definition forward_frames (pending : bytes) : list entry * bytes * option exn :=
  forward_frames_loop (S (List.length pending)) pending.

(** The outcome of [source.recv]: bytes (none at the end of the stream), a time
    out, or an [OSError]. *)
Inductive recv := RData (data : bytes) | RTimeout | ROSError.

Definition finish (log : list entry) (pending : bytes) : list entry :=
  log ++ match pending with [] => [] | _ => [LPartial pending] end ++ [LShutdown].

(** [copy], for the outcomes [recv] has until [stop] is set. *)
Fixpoint copy_loop (inputs : list recv) (pending : bytes) (log : list entry) : list entry :=
  match inputs with
  | [] => finish log pending
  | RTimeout :: r => copy_loop r pending log
  | ROSError :: r => finish (log ++ [LError (RuntimeError "OSError")]) pending
  | RData data :: r =>
      match data with
      | [] => finish log pending
      | _ =>
          let '(frames, pending', e) := forward_frames (pending ++ data) in
          let log' := log ++ [LChunk data] ++ frames in
          match e with
          | Some x => finish (log' ++ [LError x]) pending'
          | None => copy_loop r pending'
                      (log' ++ if damaging then [] else [LSent data])
          end
      end
  end.

Definition copy (inputs : list recv) : list entry := copy_loop inputs [] [].
End Relay.

(** ** Correlation of recorded frames *)

Definition key := (Z * option Z * option Z)%type.

Definition row_frame (r : frame_row) : option frame :=
  match row_decoded r with Decoded f => Some f | DecodeError _ => None end.

(** [(row["connection"], frame.get("stream"), frame.get("frame"))]. *)
Definition row_key (r : frame_row) : key :=
  match row_frame r with
  | Some f => (row_connection r, Some (stream f), Some (frame_id f))
  | None => (row_connection r, None, None)
  end.

Definition row_kind (r : frame_row) : option Z := option_map kind (row_frame r).
Definition is_notify (r : frame_row) : bool := bool_decide (row_kind r = Some 3).
Definition is_ack (r : frame_row) : bool := bool_decide (row_kind r = Some 103).

Definition frame_messages (f : frame) : list message :=
  match body f with Messages ms => ms | _ => [] end.
Definition frame_actions (f : frame) : list action :=
  match body f with Actions l => l | _ => [] end.

Definition row_arguments (r : frame_row) : list argument :=
  match row_frame r with
  | Some f => concat (map msg_arguments (frame_messages f))
  | None => []
  end.
Definition row_actions (r : frame_row) : list action :=
  match row_frame r with Some f => frame_actions f | None => [] end.

(** Whether a NOTIFY is that of the neighbor request. *)
Definition neighbor_notify (r : frame_row) : bool :=
  match find_argument (u "path") (row_arguments r) with
  | Some a => bool_decide (arg_value a = VStr (u "/i12-neighbor"))
  | None => false
  end.

(** The correlated actions of one ACK: the last value of each name, and the key
    with whether a NOTIFY of that key came before. *)
Record correlated := {
  co_values : list (ustr * value); co_key : key; co_notify_observed : bool }.

(** [values[name]] when later actions of a name replace earlier ones. *)
Definition last_value (name : ustr) (l : list action) : option action :=
  List.find (fun a => ustr_eqb (act_name a) name) (rev l).

Record roles := { notified_roles : list (key * bool); main : list correlated; neighbors : list correlated }.

Definition role_of (k : key) (l : list (key * bool)) : option bool :=
  option_map snd (List.find (fun p => bool_decide (fst p = k)) l).

Definition correlate_row (s : roles) (r : frame_row) : roles :=
  let k := row_key r in
  if is_notify r then
    {| notified_roles := (k, neighbor_notify r) :: notified_roles s;
       main := main s; neighbors := neighbors s |}
  else if is_ack r then
    let a := {| co_values := map (fun a => (act_name a, act_value a)) (row_actions r);
                co_key := k;
                co_notify_observed := match role_of k (notified_roles s) with
                                      | Some _ => true | None => false end |} in
    match role_of k (notified_roles s) with
    | Some true => {| notified_roles := notified_roles s; main := main s;
                      neighbors := neighbors s ++ [a] |}
    | _ => {| notified_roles := notified_roles s; main := main s ++ [a];
              neighbors := neighbors s |}
    end
  else s.

Definition correlated_actions (frames : list frame_row) : list correlated * list correlated :=
  let s := fold_left correlate_row frames {| notified_roles := []; main := []; neighbors := [] |} in
  (main s, neighbors s).

(** ** Integrity *)

Definition ack_action_violations (actions : list action) : list string :=
  let dup := if nodupb ustr_eqb (map act_name actions) then [] else ["duplicate-ack-action"] in
  let status := match last_value (u "status") actions with
                | Some a => match tag_in (act_tag a) [2; 3; 4; 5], act_value a with
                            | true, VInt _ => [] | _, _ => ["ack-status-type"] end
                | None => ["ack-status-type"]
                end in
  let blocked := match last_value (u "blocked") actions with
                 | Some a => match tag_in (act_tag a) [1; 17], act_value a with
                             | true, VBool _ => [] | _, _ => ["ack-blocked-type"] end
                 | None => ["ack-blocked-type"]
                 end in
  let scope := if existsb (fun a => negb (act_scope a =? 2)) actions
               then ["ack-action-scope"] else [] in
  dup ++ status ++ blocked ++ scope.

Definition envelope_ok (f : frame) : bool :=
  (flags f =? 1) && negb (stream f =? 0) && negb (frame_id f =? 0).

Definition valid_notify_envelope (f : frame) : bool :=
  envelope_ok f &&
  match frame_messages f with
  | [m] => ustr_eqb (msg_name m) (u "check-request")
  | _ => false
  end.

Definition in_keys (k : key) (l : list key) : bool := existsb (fun k' => bool_decide (k' = k)) l.

Definition ack_frame_violations (r : frame_row) (notified acknowledged : list key) : list string :=
  ack_action_violations (row_actions r)
  ++ (if in_keys (row_key r) notified then [] else ["orphan-ack"])
  ++ (if in_keys (row_key r) acknowledged then ["duplicate-ack-identity"] else [])
  ++ match row_frame r with
     | Some f => if envelope_ok f then [] else ["ack-envelope"]
     | None => ["ack-envelope"]
     end
  ++ (if bool_decide (row_direction r = AgentHost) then [] else ["ack-direction"]).

Record integrity := { notified : list key; acknowledged : list key; errors : list string }.

Definition integrity_row (s : integrity) (r : frame_row) : integrity :=
  let k := row_key r in
  match row_frame r with
  | Some f =>
      if kind f =? 3 then
        {| notified := k :: notified s; acknowledged := acknowledged s;
           errors := errors s
             ++ (if negb (valid_notify_envelope f) || negb (bool_decide (row_direction r = HostAgent))
                 then ["notify-envelope-or-direction"] else [])
             ++ (if in_keys k (notified s) then ["duplicate-notify-identity"] else []) |}
      else if kind f =? 103 then
        {| notified := notified s; acknowledged := k :: acknowledged s;
           errors := errors s ++ ack_frame_violations r (notified s) (acknowledged s) |}
      else s
  | None => s
  end.

(** What the checks read of an expected row. *)
Record expected_row := {
  ex_ack_status : option Z; ex_sample_claim : option bool; ex_unresolved : list string }.

Definition ack_integrity_violations (frames : list frame_row) (expected_rows : list expected_row)
    : list string :=
  let s := fold_left integrity_row frames {| notified := []; acknowledged := []; errors := [] |} in
  errors s ++
  if existsb (fun row => str_in "ack_status" (ex_unresolved row)) expected_rows then []
  else
    let count := List.length (List.filter
                   (fun row => match ex_ack_status row with Some _ => true | None => false end)
                   expected_rows) in
    if (List.length (fst (correlated_actions frames)) =? count)%nat then [] else ["main-ack-count"].

(** The samples of the NOTIFY frames that are not the neighbor's. *)
Definition main_samples `{IpAddress} (frames : list frame_row) : res (list sample) :=
  mapM (fun r => inspect_sample (row_arguments r))
    (List.filter (fun r => is_notify r &&
       negb (existsb (fun a => ustr_eqb (arg_name a) (u "path") &&
                               bool_decide (arg_value a = VStr (u "/i12-neighbor")))
               (row_arguments r))) frames).

Definition claims (row : expected_row) : bool :=
  match ex_sample_claim row with Some true => true | _ => false end.

(** The indexed names [finite-sample-claim-<i>]. *)
Fixpoint sample_mismatches (i : Z) (samples : list sample) (rows : list expected_row) : list string :=
  match samples, rows with
  | s :: samples', row :: rows' =>
      (if claims row && negb (finite_sample_complete s)
       then ["finite-sample-claim-" +:+ dec i] else [])
      ++ sample_mismatches (i + 1) samples' rows'
  | _, _ => []
  end.

Definition sample_claim_violations `{IpAddress} (frames : list frame_row)
    (expected_rows : list expected_row) : res (list string) :=
  let* samples := main_samples frames in
  if negb (existsb claims expected_rows) then Ok []
  else if negb (List.length samples =? List.length expected_rows)%nat
  then Ok ["main-sample-count"]
  else Ok (sample_mismatches 0 samples expected_rows).

(** ** HTTP/2 end of stream and HTTP/1 response measurement *)

(** [int.from_bytes(b, "big")]. *)
Definition from_bytes_big (b : bytes) : Z := digits_value 256 (map ord b).

Fixpoint h2_loop (fuel : nat) (response : bytes) (ended : bool) : bool :=
  match fuel with
  | O => ended
  | S fuel' =>
      if blen response <? 9 then ended
      else
        let size := from_bytes_big (List.firstn 3 response) in
        if blen response <? 9 + size then ended
        else
          let kind := ord (nth 3 response zero) in
          let flags := ord (nth 4 response zero) in
          let stream := Z.land (from_bytes_big (List.firstn 4 (List.skipn 5 response))) 2147483647 in
          h2_loop fuel' (List.skipn (Z.to_nat (9 + size)) response)
            (ended || ((stream =? 1) && ((kind =? 0) || (kind =? 1)) && negb (Z.land flags 1 =? 0)))
  end.

(** The position [pos] is modelled by the bytes from it on. *)
Definition h2_stream_ended (response : bytes) : bool :=
  h2_loop (S (List.length response)) response false.

(** One HTTP/2 frame as the client may receive it. *)
Record h2_frame := { h2_kind : Z; h2_flags : Z; h2_stream : Z; h2_payload : bytes }.

Record measurement := {
  headers_complete : bool; status : option Z; body_bytes : Z; body_content : bytes;
  content_length : option Z; complete_length_framing : bool; parse_error : bool }.

(** [int(b)] of a bytes object: white space around, one sign, digits with single
    underscores between them, at most 4300 digits. *)
Fixpoint int_digits (l : bytes) (acc : Z) (after_digit : bool) : option Z :=
  match l with
  | [] => if after_digit then Some acc else None
  | c :: r =>
      if is_digit c then int_digits r (acc * 10 + (ord c - 48)) true
      else if (ord c =? 95) && after_digit then int_digits r acc false
      else None
  end.
Definition MAX_STR_DIGITS : Z := 4300.
Definition int_of_bytes (b : bytes) : option Z :=
  if MAX_STR_DIGITS <? blen (List.filter is_digit b) then None
  else
  match strip_with is_byte_space b with
  | c :: r => if ord c =? 45 then option_map Z.opp (int_digits r 0 false)
              else if ord c =? 43 then int_digits r 0 false
              else int_digits (c :: r) 0 false
  | [] => None
  end.

Fixpoint split_byte_ws (l acc : bytes) : list bytes :=
  match l with
  | [] => match acc with [] => [] | _ => [rev acc] end
  | c :: r =>
      if is_byte_space c
      then match acc with [] => split_byte_ws r [] | _ => rev acc :: split_byte_ws r [] end
      else split_byte_ws r (c :: acc)
  end.

Definition length_values (lines : list bytes) : list bytes :=
  map (fun line => match split1 (S2L ":") line with
                   | Some (_, v) => strip_with is_byte_space v
                   | None => []
                   end)
    (List.filter (fun line => is_prefix (S2L "content-length:") (map lower_byte line)) lines).

Definition response_measurement (raw : bytes) : measurement :=
  let '(head, separator, body) := partition_sub (CRLF ++ CRLF) raw in
  let result st cl complete err :=
    {| headers_complete := separator; status := st; body_bytes := blen body; body_content := body;
       content_length := cl; complete_length_framing := complete; parse_error := err |} in
  if negb separator then result None None false false
  else
    match split_sub CRLF head with
    | [] => result None None false true
    | first :: lines =>
        match nth_error (split_byte_ws first []) 1 with
        | None => result None None false true
        | Some word =>
            match int_of_bytes word with
            | None => result None None false true
            | Some st =>
                match length_values lines with
                | [v] =>
                    match v with
                    | [] => result (Some st) None false false
                    | _ => if forallb is_digit v
                           then if MAX_STR_DIGITS <? blen v then result (Some st) None false true
                                else let n := int_of_digits 10 v in
                                     result (Some st) (Some n) (blen body =? n) false
                           else result (Some st) None false false
                    end
                | _ => result (Some st) None false false
                end
            end
        end
    end.

(** ** Verdict of a run *)

Definition observation_result (mismatches : list string) (unresolved : list string) : string :=
  match mismatches, unresolved with
  | _ :: _, _ => "failed"
  | [], _ :: _ => "unproved"
  | [], [] => "passed"
  end.
