(* ===== verification/SpopTheorems.v ===== *)
(** * Theorems of the SPOP samples, relay and trace checks *)

From S2P Require Export SpopRoundTrip SpopHost.

(** ** Header blocks *)

Lemma encode_utf8_ascii l : forallb is_ascii l = true -> encode_utf8 (map ord l) = Ok l.
Proof.
  induction l as [|c l IH]; [done|]. cbn [forallb map encode_utf8]. intros H.
  apply andb_true_iff in H as [Hc Hl]. pose proof (ord_range c). unfold is_ascii in Hc.
  replace (scalar_cp (ord c)) with true by (unfold scalar_cp; lia). rewrite (IH Hl).
  unfold encode_cp. rewrite Hc. by rewrite chr_ord.
Qed.

Definition header_text (h : header) : ustr * ustr := (map ord (fst h), map ord (snd h)).
Definition ascii_header (h : header) : Prop :=
  fst h <> [] /\ forallb is_ascii (fst h) = true /\ forallb is_ascii (snd h) = true.

Lemma encode_header_ascii h bs :
  ascii_header h -> encode_header (header_text h) = Ok bs ->
  exists nb vb, encode_blob (fst h) = Ok nb /\ encode_blob (snd h) = Ok vb /\ bs = nb ++ vb.
Proof.
  intros (_ & Hn & Hv) H. unfold encode_header, header_text in H. cbn [fst snd] in H.
  rewrite !encode_utf8_ascii in H by done.
  destruct (encode_blob (fst h)) as [nb|]; [|done]. destruct (encode_blob (snd h)) as [vb|]; [|done].
  exists nb, vb. split; [done|]. split; [done|]. congruence.
Qed.

Lemma blob_length b bs : encode_blob b = Ok bs -> (1 <= List.length bs)%nat.
Proof.
  unfold encode_blob. intros H. destruct (encode_uint _) as [n|] eqn:E; [|done].
  apply encode_uint_length in E. injection H as <-. rewrite length_app. lia.
Qed.

Lemma decode_headers_loop_reads hs bs fuel :
  Forall ascii_header hs -> mapM encode_header (map header_text hs) = Ok bs ->
  (List.length (concat bs ++ [chr 0; chr 0]) <= fuel)%nat ->
  decode_headers_loop fuel (concat bs ++ [chr 0; chr 0]) = Ok hs.
Proof.
  intros Hh. revert bs fuel; induction Hh as [|h hs Hh Hhs IH]; intros bs fuel H Hf.
  - injection H as <-. destruct fuel as [|[|fuel]]; [simpl in Hf; lia|simpl in Hf; lia|].
    reflexivity.
  - cbn [map mapM] in H. destruct (encode_header (header_text h)) as [hb|] eqn:Eh; [|done].
    destruct (mapM encode_header _) as [rb|] eqn:Er; [|done].
    assert (bs = hb :: rb) as -> by congruence. clear H.
    destruct (encode_header_ascii _ _ Hh Eh) as (nb & vb & En & Ev & ->).
    cbn [concat] in *. rewrite <- !app_assoc in *.
    pose proof (blob_length _ _ En) as Ln.
    destruct fuel as [|fuel]; [rewrite length_app in Hf; lia|].
    destruct (nb ++ vb ++ concat rb ++ [chr 0; chr 0]) as [|c l] eqn:El.
    { apply app_eq_nil in El as [-> _]. simpl in Ln. lia. }
    cbn [decode_headers_loop]. rewrite <- El.
    rewrite (blob_reads _ _ En), (blob_reads _ _ Ev).
    assert (Hlen : (List.length (concat rb ++ [chr 0; chr 0]) <= fuel)%nat).
    { rewrite <- El in Hf. rewrite !length_app in *. simpl in *. lia. }
    rewrite (IH rb fuel eq_refl Hlen). destruct Hh as (Hne & Hn & Hv).
    destruct h as [[|n0 n] v]; [done|]. unfold decode_ascii. cbn [fst snd] in *. by rewrite Hn.
Qed.

(** ** Complete finite bodies *)

(** What it means that a body sample is the whole body of the request. *)
Definition finite_body (headers : list header) (body : bytes) (advertised : Z) (version : ustr) : Prop :=
  header_values "transfer-encoding" headers = [] /\ advertised = blen body /\
  ((exists v, header_values "content-length" headers = [v] /\ ascii_digits v = true /\
              Z.of_nat (List.length v) <= 10 /\ int_of_digits 10 v = blen body) \/
   (header_values "content-length" headers = [] /\ body = [] /\
    (version = u "1.0" \/ version = u "1.1"))).

Lemma ustr_eqb_eq a b : ustr_eqb a b = true <-> a = b.
Proof. unfold ustr_eqb. apply bool_decide_eq_true. Qed.

Lemma framing_spec headers body advertised version :
  fst (framing_predicate headers body advertised version) = true <->
  finite_body headers body advertised version.
Proof.
  unfold framing_predicate, finite_body.
  destruct (header_values "transfer-encoding" headers) as [|te tes]; [|split; [done|by intros [H _]]].
  destruct (header_values "content-length" headers) as [|v [|v' vs]].
  - cbn [List.length]. replace (1 <? Z.of_nat 0) with false by done. cbn [fst].
    rewrite !andb_true_iff, orb_true_iff, !ustr_eqb_eq, !Z.eqb_eq.
    assert (N : blen body = 0 <-> body = []).
    { unfold blen. destruct body; simpl; split; try done; lia. }
    split.
    + intros ((H1 & Hv) & H2 & H3). split; [done|]. split; [done|]. right. by rewrite <- N.
    + intros (_ & -> & [(v & Hv & _)|(_ & Hb & Hv)]); [done|]. subst body. done.
  - cbn [List.length]. replace (1 <? Z.of_nat 1) with false by done.
    destruct (negb (ascii_digits v) || _) eqn:E.
    + split; [done|]. intros (_ & _ & [(w & Hw & Hd & Hl & _)|(Hw & _)]); [|done].
      injection Hw as <-. rewrite Hd in E. cbn [negb orb] in E. lia.
    + apply orb_false_iff in E as [E1 E2]. apply negb_false_iff in E1. cbn [fst].
      rewrite andb_true_iff, !Z.eqb_eq. split.
      * intros [H1 H2]. split; [done|]. split; [done|]. left. exists v. repeat split; try done. lia.
      * intros (_ & -> & [(w & Hw & _ & _ & Hi)|(Hw & _)]); [|done]. injection Hw as <-. done.
  - replace (1 <? _) with true by (symmetry; apply Z.ltb_lt; cbn [List.length]; lia).
    split; [done|]. by intros (_ & _ & [(w & Hw & _)|(Hw & _)]).
Qed.

(** Values of decoded arguments: texts and hexadecimal texts are strings. *)
Definition well_tagged (a : argument) : Prop :=
  arg_tag a = 8 \/ arg_tag a = 9 -> exists s, arg_value a = VStr s.

Section Samples.
Context `{IpAddress}.

Lemma typed_well_tagged d tag v r name :
  typed d = Ok ((tag, v), r) -> well_tagged {| arg_name := name; arg_tag := tag; arg_value := v |}.
Proof.
  intros H' Ht. cbn [arg_tag arg_value] in *. unfold typed in H'.
  destruct (byte1 d) as [[t r0]|]; [|done]. cbv zeta in H'.
  repeat match type of H' with
  | (if ?b then _ else _) = _ => destruct b eqn:?
  | (let* _ := ?p in _) = _ => destruct p as [[? ?]|]; [|done]
  end; try done; injection H' as -> <- <-; destruct Ht as [-> | ->]; simpl in *; try done; eauto.
Qed.

Lemma named_well_tagged d a r : named_value d = Ok (a, r) -> well_tagged a.
Proof.
  intros H'. unfold named_value in H'. destruct (text d) as [[n r0]|]; [|done].
  destruct (typed r0) as [[[t v] r1]|] eqn:E; [|done]. injection H' as <- _.
  by eapply typed_well_tagged.
Qed.

Lemma times_all {A} (p : reader A) (P : A -> Prop) n d l r :
  (forall d x r, p d = Ok (x, r) -> P x) -> times p n d = Ok (l, r) -> Forall P l.
Proof.
  intros Hp. revert d l r; induction n as [|n IH]; intros d l r H'; cbn [times] in H';
    [by injection H' as <- _|].
  destruct (p d) as [[x r0]|] eqn:E; [|done]. destruct (times p n r0) as [[xs r1]|] eqn:E1; [|done].
  injection H' as <- _. constructor; [by eapply Hp|by eapply IH].
Qed.

Lemma until_end_all {A} (p : reader A) (P : A -> Prop) fuel d l :
  (forall d x r, p d = Ok (x, r) -> P x) -> until_end p fuel d = Ok l -> Forall P l.
Proof.
  intros Hp. revert d l; induction fuel as [|fuel IH]; intros [|b d] l H'; try done;
    try (by injection H' as <-).
  cbn [until_end] in H'. destruct (p (b :: d)) as [[x r]|] eqn:E; [|done].
  destruct (until_end p fuel r) as [xs|] eqn:E1; [|done].
  injection H' as <-. constructor; [by eapply Hp|by eapply IH].
Qed.

Lemma decode_frame_well_tagged raw f :
  decode_frame raw = Ok f ->
  Forall (fun m => Forall well_tagged (msg_arguments m)) (frame_messages f).
Proof.
  intros H'. destruct (decode_frame_inv _ _ H') as (_ & _ & _ & fl & r & _ & Hb & _).
  unfold frame_messages. destruct (body f) as [| ms| |] eqn:Eb; try done.
  unfold decode_body in Hb.
  destruct (_ || _ || _ || _); [by destruct (decode_key_values r)|].
  destruct (kind f =? 3).
  - destruct (decode_messages r) as [ms'|] eqn:Em; [|done]. injection Hb as <-.
    unfold decode_messages in Em. eapply until_end_all; [|exact Em].
    intros d m r' Hm. unfold decode_message in Hm. destruct (text d) as [[n r0]|]; [|done].
    destruct (byte1 r0) as [[c r1]|]; [|done].
    destruct (times named_value _ r1) as [[args r2]|] eqn:Et; [|done]. injection Hm as <- _.
    eapply times_all; [|exact Et]. apply named_well_tagged.
  - destruct (kind f =? 103); [by destruct (until_end _ _ _)|by destruct (take _ _) as [[? ?]|]].
Qed.

(** Runs of the inspection raise only what it catches. *)
Definition tame {A} (r : res A) : Prop := match r with Ok _ => True | Err e => caught e = true end.

Lemma tame_bind {A B} (r : res A) (f : A -> res B) :
  tame r -> (forall a, r = Ok a -> tame (f a)) -> tame (let* a := r in f a).
Proof. destruct r; simpl; auto. Qed.

Lemma tame_mapM {A B} (f : A -> res B) l : (forall x, tame (f x)) -> tame (mapM f l).
Proof.
  intros Hf. induction l as [|x l IH]; [done|]. cbn [mapM].
  apply tame_bind; [apply Hf|]. intros y _. by apply tame_bind.
Qed.

Lemma tame_get name l : tame (get_argument name l).
Proof. unfold get_argument. by destruct (find_argument _ _). Qed.

Lemma get_argument_In name l a :
  get_argument name l = Ok a -> In a l /\ arg_name a = u name.
Proof.
  unfold get_argument, find_argument. intros H'. destruct (List.find _ l) as [b|] eqn:E; [|done].
  injection H' as <-. apply List.find_some in E as [Hin Hb]. by apply ustr_eqb_eq in Hb.
Qed.

Lemma tame_fromhex s : tame (fromhex s).
Proof.
  enough (G : forall n s, (List.length s <= n)%nat -> tame (fromhex s)) by (by eapply G).
  clear. induction n as [|n IH]; intros [|c s] Hl; try done; [simpl in Hl; lia|].
  simpl in Hl. cbn [fromhex]. destruct (is_ascii_space c); [apply IH; lia|].
  destruct s as [|d s]; [done|]. destruct (hex_value c), (hex_value d); try done.
  apply tame_bind; [apply IH; simpl in Hl; lia|done].
Qed.

Lemma tame_utf8 s : tame (encode_utf8 s).
Proof.
  induction s as [|c s IH]; [done|]. cbn [encode_utf8]. destruct (scalar_cp c); [|done].
  by apply tame_bind.
Qed.

Lemma tame_argument_bytes a : well_tagged a -> tame (argument_bytes a).
Proof.
  intros Hw. unfold argument_bytes. destruct (arg_tag a =? 9) eqn:E9.
  - destruct Hw as [s ->]; [lia|]. apply tame_fromhex.
  - destruct (arg_tag a =? 8) eqn:E8; [|done]. destruct Hw as [s ->]; [lia|]. apply tame_utf8.
Qed.

Lemma tame_blob d : tame (blob d).
Proof.
  destruct (blob d) as [|e] eqn:E; [done|]. simpl. unfold caught. by rewrite (verr_blob _ _ E).
Qed.

Lemma tame_decode_headers d : tame (decode_headers d).
Proof.
  unfold decode_headers. generalize (le_n (List.length d)). generalize (List.length d) at 2 3 as n.
  intros n. revert d. induction n as [|n IH]; intros [|b d] Hl; try done; [simpl in Hl; lia|].
  cbn [decode_headers_loop]. destruct (blob (b :: d)) as [[name r]|e] eqn:E1;
    [|by pose proof (tame_blob (b :: d)) as T; rewrite E1 in T].
  destruct (blob r) as [[v r']|e] eqn:E2; [|by pose proof (tame_blob r) as T; rewrite E2 in T].
  assert (P : progress blob) by (by eapply exact_progress; [apply exact_blob|reflexivity]).
  apply P in E1, E2. simpl in Hl.
  destruct name as [|n0 name], v as [|v0 v]; try done; [by destruct r'| |].
  all: apply tame_bind; [unfold decode_ascii; by destruct (forallb _ _)|]; intros s _;
    apply tame_bind; [apply IH; simpl in *; lia|done].
Qed.

Lemma tame_text_headers a : well_tagged a -> tame (text_headers a).
Proof.
  intros Hw. unfold text_headers. apply tame_bind; [by apply tame_argument_bytes|]. intros t _.
  destruct (negb _); [done|]. apply tame_mapM. intros line. unfold text_header_line.
  destruct (split1 _ line) as [[n v]|]; [|done].
  apply tame_bind; [unfold decode_ascii; by destruct (forallb _ _)|done].
Qed.

Lemma find_argument_well_tagged name l a :
  Forall well_tagged l -> find_argument name l = Some a -> well_tagged a.
Proof.
  intros Hw H'. unfold find_argument in H'. apply List.find_some in H' as [Hin _].
  rewrite List.Forall_forall in Hw. auto.
Qed.

Lemma tame_sample_headers l : Forall well_tagged l -> tame (sample_headers l).
Proof.
  intros Hw. unfold sample_headers.
  destruct (find_argument (u "headers_bin") l) as [b|] eqn:Eb.
  - apply tame_bind; [apply tame_argument_bytes; by eapply find_argument_well_tagged|]. intros d _.
    apply tame_bind; [apply tame_decode_headers|]. intros hs _.
    destruct (find_argument (u "headers") l) as [h|] eqn:Eh; [|done].
    apply tame_bind; [apply tame_text_headers; by eapply find_argument_well_tagged|].
    intros t _. by destruct (bool_decide _).
  - destruct (find_argument (u "headers") l) as [h|] eqn:Eh; [|done].
    apply tame_text_headers. by eapply find_argument_well_tagged.
Qed.

Lemma tame_each f l names :
  Forall well_tagged l -> (forall n a, well_tagged a -> tame (f n a)) -> tame (each f l names).
Proof.
  intros Hw Hf. unfold each. induction names as [|n names IH]; [done|]. cbn [forM].
  apply (tame_bind _ (fun _ => forM _ names)); [|done].
  apply tame_bind; [apply tame_get|]. intros a Ha. apply Hf.
  apply get_argument_In in Ha as [Hin _]. rewrite List.Forall_forall in Hw. auto.
Qed.

Lemma tame_metadata l : Forall well_tagged l -> tame (validate_endpoint_metadata l).
Proof.
  intros Hw. unfold validate_endpoint_metadata.
  apply (tame_bind _ (fun _ => _)); [apply tame_each; [done|]|].
  { intros n a Ha. unfold endpoint_text. destruct (arg_tag a =? 8) eqn:E; [|done].
    destruct Ha as [s ->]; [lia|]. by destruct (_ || _). }
  intros _ _. apply (tame_bind _ (fun _ => _)); [apply tame_each; [done|]|].
  { intros n a Ha. unfold validate_endpoint_ip. destruct (tag_in _ _), (arg_value a); try done.
    apply tame_bind; [|intros [v p] _; by destruct (_ =? _)].
    destruct (ip_address (VStr s)) eqn:E; [done|]. simpl. unfold caught.
    by rewrite (ip_address_err _ _ E). }
  intros _ _. apply tame_each; [done|]. intros n a Ha. unfold validate_endpoint_port.
  destruct (tag_in _ _), (arg_value a); try done. by destruct (_ && _).
Qed.

Lemma inspect_total l : Forall well_tagged l -> exists s, inspect_sample l = Ok s.
Proof.
  intros Hw.
  enough (T : tame (let* args := sample_arguments l in inspect_concrete_sample args)).
  { unfold inspect_sample. destruct (let* args := _ in _); [by eexists|]. simpl in T. rewrite T.
    by eexists. }
  unfold sample_arguments.
  destruct (List.filter _ _); [|done]. destruct (nodupb _ _); [|done].
  unfold inspect_concrete_sample.
  apply tame_bind; [apply tame_get|]. intros b Hb.
  apply tame_bind.
  { apply tame_argument_bytes. apply get_argument_In in Hb as [Hin _].
    rewrite List.Forall_forall in Hw. auto. }
  intros body _. apply tame_bind; [apply tame_get|]. intros lb _.
  apply tame_bind; [apply tame_get|]. intros v _.
  apply tame_bind.
  { unfold body_length. destruct (tag_in _ _), (arg_value lb); try done.
    destruct (_ && _); [|done]. by destruct (_ && _). }
  intros adv _. apply tame_bind.
  { unfold version_text. destruct (arg_tag v =? 8), (arg_value v); try done. by destruct (existsb _ _). }
  intros version _. apply (tame_bind _ (fun _ => _)); [by apply tame_metadata|]. intros _ _.
  apply tame_bind; [by apply tame_sample_headers|]. intros hs _.
  by destruct (framing_predicate _ _ _ _).
Qed.
End Samples.

(** ** The relay *)

Definition frames_in (log : list entry) : list bytes :=
  concat (map (fun x => match x with LFrame row => [row_raw row] | _ => [] end) log).
Definition sent_in (log : list entry) : list bytes :=
  concat (map (fun x => match x with LSent d => [d] | _ => [] end) log).

Lemma frames_in_app a b : frames_in (a ++ b) = frames_in a ++ frames_in b.
Proof. unfold frames_in. by rewrite map_app, concat_app. Qed.
Lemma sent_in_app a b : sent_in (a ++ b) = sent_in a ++ sent_in b.
Proof. unfold sent_in. by rewrite map_app, concat_app. Qed.

Definition size_prefix (l : bytes) : Z := unpack_I (List.firstn 4 l).

(** A complete frame, and bytes that do not yet hold one. *)
Definition complete_frame (raw : bytes) : Prop :=
  4 <= blen raw /\ size_prefix raw <= MAX_FRAME /\ blen raw = 4 + size_prefix raw.
Definition incomplete (l : bytes) : Prop := blen l < 4 \/ blen l < 4 + size_prefix l.

Lemma size_prefix_app raw l : 4 <= blen raw -> size_prefix (raw ++ l) = size_prefix raw.
Proof.
  intros H. unfold size_prefix. f_equal. rewrite List.firstn_app.
  replace (4 - List.length raw)%nat with 0%nat by (unfold blen in H; lia).
  by rewrite app_nil_r.
Qed.

Lemma blen_app a b : blen (a ++ b) = blen a + blen b.
Proof. unfold blen. rewrite length_app. lia. Qed.

Lemma blen_nonneg a : 0 <= blen a.
Proof. unfold blen. lia. Qed.

(** A byte stream has at most one segmentation into complete frames. *)
Lemma segmentation_unique fs fs' r r' :
  concat fs ++ r = concat fs' ++ r' -> Forall complete_frame fs -> Forall complete_frame fs' ->
  incomplete r -> incomplete r' -> fs = fs' /\ r = r'.
Proof.
  intros H Hfs. revert fs' H; induction Hfs as [|f fs Hf Hfs IH]; intros fs' H Hfs' Hr Hr'.
  - destruct Hfs' as [|g gs Hg]; [done|]. exfalso. cbn [concat app] in H.
    rewrite <- app_assoc in H. subst r. destruct Hg as (G1 & _ & G3).
    pose proof (blen_nonneg (concat gs ++ r')). unfold incomplete in Hr.
    rewrite blen_app, size_prefix_app in Hr by done. lia.
  - destruct Hfs' as [|g gs Hg Hgs].
    + exfalso. cbn [concat app] in H. rewrite <- app_assoc in H. subst r'.
      destruct Hf as (G1 & _ & G3). pose proof (blen_nonneg (concat fs ++ r)).
      unfold incomplete in Hr'. rewrite blen_app, size_prefix_app in Hr' by done. lia.
    + cbn [concat] in H. rewrite <- !app_assoc in H.
      destruct Hf as (F1 & _ & F3), Hg as (G1 & _ & G3).
      assert (S : size_prefix f = size_prefix g)
        by (rewrite <- (size_prefix_app f (concat fs ++ r)), H, size_prefix_app; done).
      assert (L : List.length f = List.length g) by (unfold blen in *; lia).
      apply app_inj_1 in H as [-> H]; [|done].
      destruct (IH _ H Hgs Hr Hr') as [-> ->]. done.
Qed.

Section RelayFacts.
Context `{IpAddress}.
Variables (corrupt_notify : bool) (connection : Z) (dir : direction).

Lemma forward_one_frames raw log e :
  forward_one corrupt_notify connection dir raw = (log, e) ->
  frames_in log = [raw] /\ (damaging corrupt_notify dir = false -> sent_in log = []) /\
  (forall x, ~ In (LError x) log) /\ e <> Some OutOfFuel.
Proof.
  unfold forward_one. cbv zeta. intros H'.
  assert (C : forall x, corrupt_notify_frame raw = Err x -> x <> OutOfFuel).
  { intros x Hx. unfold corrupt_notify_frame in Hx. destruct (decode_frame raw) eqn:E.
    - destruct (negb _); [done|]. destruct (last_argument a) as [la|].
      + destruct (_ || _); [|done]. by injection Hx as <-.
      + by injection Hx as <-.
    - injection Hx as <-. apply decode_frame_fails_closed in E. by intros ->. }
  assert (I : forall x, inspect_notify_frame raw = Err x -> x <> OutOfFuel).
  { intros x Hx. unfold inspect_notify_frame in Hx. destruct (decode_frame raw) eqn:E.
    - destruct (_ || _ || _ || _); [done|]. destruct (body a) as [| [|m [|]]| |] eqn:Eb; try done.
      destruct (ustr_eqb _ _); [|done].
      pose proof (decode_frame_well_tagged _ _ E) as W. unfold frame_messages in W. rewrite Eb in W.
      inversion W as [|? ? W1 _]; subst. destruct (inspect_total _ W1) as [s Hs]. congruence.
    - injection Hx as <-. apply decode_frame_fails_closed in E. by intros ->. }
  destruct (damaging corrupt_notify dir);
    repeat match type of H' with
    | context [match ?x with _ => _ end] => destruct x eqn:?
    end; injection H' as <- <-; (repeat split); try done; simpl;
    try (intros ? G; repeat destruct G as [G|G]; done);
    try (intros [= ->]; by eapply C); try (intros [= ->]; by eapply I).
Qed.

Lemma forward_loop_spec fuel pending log rest e :
  (List.length pending < fuel)%nat ->
  forward_frames_loop corrupt_notify connection dir fuel pending = (log, rest, e) ->
  concat (frames_in log) ++ rest = pending /\ Forall complete_frame (frames_in log) /\
  (e = None -> incomplete rest) /\ e <> Some OutOfFuel /\
  (damaging corrupt_notify dir = false -> sent_in log = []) /\ (forall x, ~ In (LError x) log).
Proof.
  revert pending log rest e; induction fuel as [|fuel IH]; intros pending log rest e Hf H'; [lia|].
  cbn [forward_frames_loop] in H'. destruct (blen pending <? 4) eqn:E4.
  { injection H' as <- <- <-. repeat split; try done; [|by intros ? []]. intros _. left. lia. }
  cbv zeta in H'. fold (size_prefix pending) in H'.
  destruct (MAX_FRAME <? size_prefix pending) eqn:Em.
  { injection H' as <- <- <-. repeat split; try done. by intros ? []. }
  destruct (blen pending <? 4 + size_prefix pending) eqn:El.
  { injection H' as <- <- <-. repeat split; try done; [|by intros ? []]. intros _. right. lia. }
  set (n := Z.to_nat (4 + size_prefix pending)) in *.
  assert (Hn : 0 <= size_prefix pending).
  { unfold size_prefix, unpack_I, digits_value. clear.
    assert (G : forall l a, 0 <= a -> 0 <= fold_left (fun a d => a * 256 + d) (map ord l) a).
    { induction l as [|b l IH]; intros a Ha; [done|]. cbn [map fold_left]. apply IH.
      pose proof (ord_range b). lia. }
    by apply G. }
  assert (Hlen : (n <= List.length pending)%nat) by (unfold blen, n in *; lia).
  assert (Hn4 : (4 <= n)%nat) by (unfold n; lia).
  assert (Hfirst : blen (List.firstn n pending) = 4 + size_prefix pending)
    by (unfold blen; rewrite List.length_firstn; lia).
  assert (Hc : complete_frame (List.firstn n pending)).
  { assert (Hs : size_prefix (List.firstn n pending) = size_prefix pending).
    { rewrite <- (List.firstn_skipn n pending) at 2. rewrite size_prefix_app; [done|lia]. }
    unfold complete_frame. rewrite Hs. lia. }
  destruct (forward_one _ _ _ (List.firstn n pending)) as [l1 e1] eqn:E1.
  destruct (forward_one_frames _ _ _ E1) as (F1 & S1 & N1 & O1).
  destruct e1 as [x|].
  { injection H' as <- <- <-. rewrite F1. cbn [concat]. rewrite app_nil_r.
    split; [apply List.firstn_skipn|]. by repeat split; try constructor. }
  destruct (forward_frames_loop _ _ _ fuel (List.skipn n pending)) as [[l2 r2] e2] eqn:E2.
  injection H' as <- <- <-.
  assert (Hskip : (List.length (List.skipn n pending) < fuel)%nat)
    by (rewrite List.length_skipn; lia).
  destruct (IH _ _ _ _ Hskip E2) as (F2 & C2 & I2 & O2 & S2 & N2).
  rewrite frames_in_app, F1. cbn [app concat]. rewrite <- app_assoc, F2, List.firstn_skipn.
  split; [done|]. split; [by constructor|]. split; [done|]. split; [done|].
  split; [intros D; by rewrite sent_in_app, S1, S2|].
  intros y Hy. apply in_app_iff in Hy as [Hy|Hy]; [by eapply N1|by eapply N2].
Qed.

(** The bytes received until the end of the stream, an error of the socket or
    the stop of the relay. *)
Fixpoint received (inputs : list recv) : bytes :=
  match inputs with
  | [] => []
  | RTimeout :: r => received r
  | ROSError :: _ => []
  | RData data :: r => match data with [] => [] | _ => data ++ received r end
  end.

Lemma finish_frames log pending :
  frames_in (finish log pending) = frames_in log /\ sent_in (finish log pending) = sent_in log /\
  (forall x, In (LError x) (finish log pending) <-> In (LError x) log).
Proof.
  unfold finish. rewrite !frames_in_app, !sent_in_app.
  destruct pending; (split; [simpl; by rewrite !app_nil_r|]; split; [simpl; by rewrite !app_nil_r|]);
    intros x; rewrite !in_app_iff; simpl; intuition discriminate.
Qed.

Lemma copy_loop_spec inputs pending log :
  incomplete pending ->
  (forall x, ~ In (LError x) (copy_loop corrupt_notify connection dir inputs pending log)) ->
  exists fs sent rest,
    frames_in (copy_loop corrupt_notify connection dir inputs pending log) = frames_in log ++ fs /\
    sent_in (copy_loop corrupt_notify connection dir inputs pending log) = sent_in log ++ sent /\
    concat fs ++ rest = pending ++ received inputs /\ Forall complete_frame fs /\
    incomplete rest /\ (damaging corrupt_notify dir = false -> concat sent = received inputs).
Proof.
  revert pending log; induction inputs as [|i inputs IH]; intros pending log Hp Hn;
    cbn [copy_loop] in *.
  - destruct (finish_frames log pending) as (Ff & Fs & _). exists [], [], pending.
    rewrite Ff, Fs, !app_nil_r. by repeat split.
  - destruct i as [data| |].
    + destruct data as [|b data].
      { destruct (finish_frames log pending) as (Ff & Fs & _). exists [], [], pending.
        rewrite Ff, Fs, !app_nil_r. by repeat split. }
      set (data' := b :: data) in *. unfold forward_frames in *.
      destruct (forward_frames_loop _ _ _ _ (pending ++ data')) as [[l r] e] eqn:E.
      destruct (forward_loop_spec _ _ _ _ _ (le_n _) E) as (F & C & I & _ & S & N).
      destruct e as [x|].
      { exfalso. apply (Hn x). apply finish_frames, in_app_iff. right. by left. }
      destruct (IH _ _ (I eq_refl) Hn) as (fs & sent & rest & Hf & Hs & Hc & Hall & Hrest & Hd).
      exists (frames_in l ++ fs).
      exists ((sent_in l ++ (if damaging corrupt_notify dir then [] else [data'])) ++ sent), rest.
      rewrite Hf, Hs. rewrite !frames_in_app, !sent_in_app. cbn [received]. fold data'.
      change (frames_in [LChunk data']) with (@nil bytes).
      change (sent_in [LChunk data']) with (@nil bytes). cbn [app].
      assert (T : concat (frames_in l ++ fs) ++ rest = pending ++ data' ++ received inputs).
      { rewrite concat_app, <- app_assoc, Hc, app_assoc, F. by rewrite <- app_assoc. }
      destruct (damaging corrupt_notify dir) eqn:D.
      * change (frames_in []) with (@nil bytes). change (sent_in []) with (@nil bytes).
        rewrite !app_nil_r, <- !app_assoc.
        repeat (split; try done). by apply List.Forall_app.
      * change (frames_in [LSent data']) with (@nil bytes).
        change (sent_in [LSent data']) with [data'].
        rewrite !app_nil_r, <- !app_assoc.
        split; [done|]. split; [done|]. split; [done|]. split; [by apply List.Forall_app|].
        split; [done|]. intros _. rewrite S by done. cbn [app concat]. by rewrite Hd.
    + apply IH; [done|exact Hn].
    + exfalso. eapply Hn. apply finish_frames, in_app_iff. right. by left.
Qed.
End RelayFacts.

(** ** HTTP/2 frames *)

Definition pack3 (n : Z) : bytes := [chr (n / 65536); chr (n / 256 mod 256); chr (n mod 256)].

(** A frame on the wire; the reserved bit of the stream identifier is clear. *)
Definition h2_encode (f : h2_frame) : bytes :=
  pack3 (blen (h2_payload f)) ++ [chr (h2_kind f); chr (h2_flags f)] ++ pack_I (h2_stream f)
  ++ h2_payload f.

Definition h2_wf (f : h2_frame) : Prop :=
  blen (h2_payload f) < 16777216 /\ 0 <= h2_kind f < 256 /\ 0 <= h2_flags f < 256 /\
  0 <= h2_stream f < 2147483648.

(** DATA or HEADERS of stream 1 with END_STREAM. *)
Definition ends_stream (f : h2_frame) : bool :=
  (h2_stream f =? 1) && ((h2_kind f =? 0) || (h2_kind f =? 1)) && Z.testbit (h2_flags f) 0.

Definition h2_incomplete (l : bytes) : Prop :=
  blen l < 9 \/ blen l < 9 + from_bytes_big (List.firstn 3 l).

Lemma from_bytes_pack3 n : 0 <= n < 16777216 -> from_bytes_big (pack3 n) = n.
Proof.
  intros H. unfold from_bytes_big, pack3, digits_value. cbn [map fold_left].
  pose proof (Z.mod_pos_bound n 256 ltac:(lia)). pose proof (Z.mod_pos_bound (n / 256) 256 ltac:(lia)).
  assert (0 <= n / 65536 < 256) by (split; [apply Z.div_pos|apply Z.div_lt_upper_bound]; lia).
  rewrite !ord_chr by lia.
  assert (n / 256 / 256 = n / 65536) by (by rewrite Z.div_div by lia).
  pose proof (Z.div_mod n 256 ltac:(lia)). pose proof (Z.div_mod (n / 256) 256 ltac:(lia)). lia.
Qed.

Lemma land1_testbit z : negb (Z.land z 1 =? 0) = Z.testbit z 0.
Proof.
  change 1 with (Z.ones 1). rewrite Z.land_ones by lia. change (2 ^ 1) with 2.
  rewrite Z.bit0_odd, Zmod_odd. by destruct (Z.odd z).
Qed.

Lemma h2_loop_frames fs rest fuel ended :
  Forall h2_wf fs -> h2_incomplete rest ->
  (List.length (concat (map h2_encode fs) ++ rest) < fuel)%nat ->
  h2_loop fuel (concat (map h2_encode fs) ++ rest) ended = ended || existsb ends_stream fs.
Proof.
  intros Hfs Hr. revert fuel ended; induction Hfs as [|f fs Hf Hfs IH]; intros fuel ended Hl.
  - cbn [map concat app existsb] in *. rewrite orb_false_r. destruct fuel as [|fuel]; [lia|].
    cbn [h2_loop]. destruct (blen rest <? 9) eqn:E; [done|].
    destruct (blen rest <? 9 + _) eqn:E2; [done|]. destruct Hr; lia.
  - destruct Hf as (Hp & Hk & Hg & Hs). pose proof (blen_nonneg (h2_payload f)) as H0.
    cbn [map concat existsb] in *.
    set (tail := concat (map h2_encode fs) ++ rest) in *.
    assert (Heq : (h2_encode f ++ concat (map h2_encode fs)) ++ rest =
                  pack3 (blen (h2_payload f)) ++ [chr (h2_kind f); chr (h2_flags f)] ++
                  pack_I (h2_stream f) ++ h2_payload f ++ tail).
    { unfold h2_encode, tail. by rewrite <- !app_assoc. }
    rewrite Heq in *. set (l := pack3 _ ++ _) in *.
    assert (Hb : blen l = 9 + blen (h2_payload f) + blen tail)
      by (unfold l; rewrite !blen_app; unfold blen; simpl; lia).
    pose proof (blen_nonneg tail). destruct fuel as [|fuel]; [lia|]. cbn [h2_loop].
    change (List.firstn 3 l) with (pack3 (blen (h2_payload f))).
    rewrite from_bytes_pack3 by lia.
    replace (blen l <? 9) with false by lia.
    replace (blen l <? 9 + blen (h2_payload f)) with false by lia.
    change (nth 3 l zero) with (chr (h2_kind f)). change (nth 4 l zero) with (chr (h2_flags f)).
    change (List.firstn 4 (List.skipn 5 l)) with (pack_I (h2_stream f)).
    assert (Hskip : List.skipn (Z.to_nat (9 + blen (h2_payload f))) l = tail).
    { replace (Z.to_nat (9 + blen (h2_payload f))) with (9 + List.length (h2_payload f))%nat
        by (unfold blen; lia).
      change (List.skipn (9 + List.length (h2_payload f)) l)
        with (List.skipn (List.length (h2_payload f)) (h2_payload f ++ tail)).
      rewrite List.skipn_app, List.skipn_all, Nat.sub_diag. done. }
    rewrite Hskip, !ord_chr by lia. rewrite IH; [|unfold blen in *; lia].
    rewrite <- orb_assoc. f_equal. f_equal. unfold ends_stream.
    change (from_bytes_big (pack_I (h2_stream f))) with (unpack_I (pack_I (h2_stream f))).
    rewrite unpack_pack by lia. change 2147483647 with (Z.ones 31). rewrite Z.land_ones by lia.
    rewrite Z.mod_small by (change (2 ^ 31) with 2147483648; lia). by rewrite land1_testbit.
Qed.

(** ** Trace integrity *)

(** The part of [errors] each row adds, given what the rows before it recorded. *)
Definition local_errors (pre : list frame_row) (r : frame_row) : list string :=
  match row_frame r with
  | Some f =>
      if kind f =? 3 then
        (if negb (valid_notify_envelope f) || negb (bool_decide (row_direction r = HostAgent))
         then ["notify-envelope-or-direction"] else [])
        ++ (if in_keys (row_key r) (rev (map row_key (List.filter is_notify pre)))
            then ["duplicate-notify-identity"] else [])
      else if kind f =? 103 then
        ack_frame_violations r (rev (map row_key (List.filter is_notify pre)))
          (rev (map row_key (List.filter is_ack pre)))
      else []
  | None => []
  end.

Lemma is_notify_kind r f : row_frame r = Some f -> is_notify r = (kind f =? 3).
Proof.
  intros H. unfold is_notify, row_kind. rewrite H. cbn [option_map].
  destruct (Z.eqb_spec (kind f) 3) as [->|N]; [by rewrite bool_decide_true|].
  rewrite bool_decide_false; [done|]. congruence.
Qed.

Lemma is_ack_kind r f : row_frame r = Some f -> is_ack r = (kind f =? 103).
Proof.
  intros H. unfold is_ack, row_kind. rewrite H. cbn [option_map].
  destruct (Z.eqb_spec (kind f) 103) as [->|N]; [by rewrite bool_decide_true|].
  rewrite bool_decide_false; [done|]. congruence.
Qed.

Lemma no_frame_kinds r : row_frame r = None -> is_notify r = false /\ is_ack r = false.
Proof.
  intros H. unfold is_notify, is_ack, row_kind. rewrite H. by rewrite !bool_decide_false.
Qed.

(** The state after a prefix: the keys seen, and the errors so far. *)
Definition state_of (pre : list frame_row) (errs : list string) : integrity :=
  {| notified := rev (map row_key (List.filter is_notify pre));
     acknowledged := rev (map row_key (List.filter is_ack pre)); errors := errs |}.

Lemma integrity_step pre r errs :
  integrity_row (state_of pre errs) r = state_of (pre ++ [r]) (errs ++ local_errors pre r).
Proof.
  unfold integrity_row, local_errors, state_of. rewrite !List.filter_app, !map_app, !rev_app_distr.
  cbn [List.filter]. destruct (row_frame r) as [f|] eqn:Ef.
  - rewrite (is_notify_kind _ _ Ef), (is_ack_kind _ _ Ef).
    destruct (kind f =? 3) eqn:E3; [replace (kind f =? 103) with false by lia; simpl|].
    + done.
    + destruct (kind f =? 103) eqn:E103; simpl; [done|]. by rewrite app_nil_r.
  - destruct (no_frame_kinds _ Ef) as [-> ->]. simpl. by rewrite app_nil_r.
Qed.

Lemma integrity_errors frames pre errs :
  errors (fold_left integrity_row frames (state_of pre errs)) = [] ->
  errs = [] /\
  forall p r q, frames = p ++ r :: q -> local_errors (pre ++ p) r = [].
Proof.
  revert pre errs; induction frames as [|r frames IH]; intros pre errs H.
  - split; [done|]. intros p r q E. by destruct p.
  - cbn [fold_left] in H. rewrite integrity_step in H.
    destruct (IH _ _ H) as [E Hr]. apply app_eq_nil in E as [-> E]. split; [done|].
    intros [|r' p] r0 q Hq; injection Hq as <- Hq.
    + by rewrite app_nil_r.
    + rewrite <- (app_assoc pre [r] p) in Hr || idtac. specialize (Hr p r0 q Hq).
      by rewrite <- app_assoc in Hr.
Qed.

Lemma in_keys_In k l : in_keys k l = true <-> In k l.
Proof.
  unfold in_keys. rewrite existsb_exists. split.
  - intros (x & Hx & E). apply bool_decide_eq_true in E. by subst.
  - intros H. exists k. split; [done|]. by apply bool_decide_eq_true.
Qed.

(** What an accepted acknowledgement looks like. *)
Definition well_typed_ack (r : frame_row) : Prop :=
  row_direction r = AgentHost /\
  (exists f, row_frame r = Some f /\ flags f = 1 /\ stream f <> 0 /\ frame_id f <> 0) /\
  (exists a z, last_value (u "status") (row_actions r) = Some a /\ act_value a = VInt z) /\
  (exists a b, last_value (u "blocked") (row_actions r) = Some a /\ act_value a = VBool b) /\
  (forall a, In a (row_actions r) -> act_scope a = 2).

Lemma if_nil (b : bool) (x : string) : (if b then [] else [x]) = [] -> b = true.
Proof. by destruct b. Qed.
Lemma if_nil' (b : bool) (x : string) : (if b then [x] else []) = [] -> b = false.
Proof. by destruct b. Qed.

Lemma ack_actions_ok l :
  ack_action_violations l = [] ->
  (exists a z, last_value (u "status") l = Some a /\ act_value a = VInt z) /\
  (exists a b, last_value (u "blocked") l = Some a /\ act_value a = VBool b) /\
  (forall a, In a l -> act_scope a = 2).
Proof.
  unfold ack_action_violations. cbv zeta. intros H.
  apply app_eq_nil in H as [_ H]. apply app_eq_nil in H as [Hs H].
  apply app_eq_nil in H as [Hb Hc]. apply if_nil' in Hc. split; [|split].
  - destruct (last_value _ _) as [a|]; [|done]. destruct (tag_in _ _); [|done].
    destruct (act_value a) eqn:E; try done. by exists a, z.
  - destruct (last_value (u "blocked") l) as [a|]; [|done]. destruct (tag_in _ _); [|done].
    destruct (act_value a) eqn:E; try done. by exists a, b.
  - intros a Ha. destruct (Z.eqb_spec (act_scope a) 2) as [E|E]; [done|]. exfalso.
    assert (T : existsb (fun a => negb (act_scope a =? 2)) l = true); [|congruence].
    apply existsb_exists. exists a. split; [done|]. by apply negb_true_iff, Z.eqb_neq.
Qed.

Lemma envelope_ok_inv f :
  envelope_ok f = true -> flags f = 1 /\ stream f <> 0 /\ frame_id f <> 0.
Proof. unfold envelope_ok. intros H. repeat res_step. lia. Qed.

Lemma local_ack pre r :
  local_errors pre r = [] -> is_ack r = true ->
  well_typed_ack r /\ In (row_key r) (map row_key (List.filter is_notify pre)) /\
  ~ In (row_key r) (map row_key (List.filter is_ack pre)).
Proof.
  intros H Ha. unfold local_errors in H.
  destruct (row_frame r) as [f|] eqn:Ef; [|by destruct (no_frame_kinds _ Ef) as [_ E]; rewrite E in Ha].
  rewrite (is_ack_kind _ _ Ef) in Ha. replace (kind f =? 3) with false in H by lia. rewrite Ha in H.
  unfold ack_frame_violations in H. rewrite Ef in H.
  apply app_eq_nil in H as [H1 H]. apply app_eq_nil in H as [H2 H].
  apply app_eq_nil in H as [H3 H]. apply app_eq_nil in H as [H4 H5].
  apply if_nil in H2, H4, H5. apply if_nil' in H3. apply bool_decide_eq_true in H5.
  apply in_keys_In, in_rev in H2. apply ack_actions_ok in H1 as (S & B & C).
  split; [|split; [done|]].
  - split; [done|]. split; [|done]. exists f. split; [done|]. by apply envelope_ok_inv.
  - intros Hin. apply in_rev, in_keys_In in Hin. congruence.
Qed.

Lemma local_notify pre r :
  local_errors pre r = [] -> is_notify r = true ->
  row_direction r = HostAgent /\ ~ In (row_key r) (map row_key (List.filter is_notify pre)) /\
  exists f, row_frame r = Some f /\ valid_notify_envelope f = true.
Proof.
  intros H Hn. unfold local_errors in H.
  destruct (row_frame r) as [f|] eqn:Ef; [|by destruct (no_frame_kinds _ Ef) as [E _]; rewrite E in Hn].
  rewrite (is_notify_kind _ _ Ef) in Hn. rewrite Hn in H.
  apply app_eq_nil in H as [H1 H2]. apply if_nil' in H1, H2.
  apply orb_false_iff in H1 as [H1 H3]. apply negb_false_iff in H1, H3.
  apply bool_decide_eq_true in H3. split; [done|]. split; [|by exists f].
  intros Hin. apply in_rev, in_keys_In in Hin. congruence.
Qed.

(** ** Theorems *)

Section Claims.
Context `{IpAddress}.

(** The header blocks fixtures are written with round trip: [decode_headers]
    inverts [encode_headers] on every list of headers with non-empty ASCII names
    and ASCII values. *)
Theorem headers_round_trip hs raw :
  Forall ascii_header hs -> encode_headers (map header_text hs) = Ok raw ->
  decode_headers raw = Ok hs.
Proof.
  unfold encode_headers, decode_headers. intros Hh H'.
  destruct (mapM encode_header _) as [bs|] eqn:E; [|done].
  assert (raw = concat bs ++ [chr 0; chr 0]) as -> by congruence.
  by apply decode_headers_loop_reads.
Qed.

(** A sample is called finite and complete exactly when its body is the whole
    body of the request: no transfer coding, the advertised size is the number of
    body bytes, and either a single decimal Content-Length of at most ten digits
    says the same or there is neither a Content-Length nor a body in an HTTP/1
    request.  The inspection of any decoded NOTIFY arguments returns a sample. *)
Theorem sample_complete_iff raw f m :
  decode_frame raw = Ok f -> In m (frame_messages f) ->
  exists s, inspect_sample (msg_arguments m) = Ok s /\
    (finite_sample_complete s = true <->
     exists d b, detail s = Some d /\ metadata_complete s = true /\
       In b (msg_arguments m) /\ arg_name b = u "body" /\ argument_bytes b = Ok (sd_body d) /\
       finite_body (sd_headers d) (sd_body d) (sd_advertised d) (sd_version d)).
Proof.
  intros Hd Hm. pose proof (decode_frame_well_tagged _ _ Hd) as W.
  rewrite List.Forall_forall in W. destruct (inspect_total _ (W _ Hm)) as [s Hs].
  exists s. split; [done|]. unfold inspect_sample in Hs.
  destruct (let* args := sample_arguments (msg_arguments m) in inspect_concrete_sample args)
    as [s'|e] eqn:E.
  - injection Hs as <-. destruct (sample_arguments (msg_arguments m)) as [args|] eqn:Ea; [|done].
    assert (args = msg_arguments m) as ->.
    { unfold sample_arguments in Ea. destruct (List.filter _ _); [|done].
      destruct (nodupb _ _); [|done]. congruence. }
    unfold inspect_concrete_sample in E.
    destruct (get_argument "body" _) as [b|] eqn:Eb; [|done].
    destruct (argument_bytes b) as [body|] eqn:Ebb; [|done].
    destruct (get_argument "body_len" _) as [l|]; [|done].
    destruct (get_argument "http_version" _) as [v|]; [|done].
    destruct (body_length l) as [adv|]; [|done]. destruct (version_text v) as [ver|]; [|done].
    destruct (validate_endpoint_metadata _); [|done].
    destruct (sample_headers _) as [hs|]; [|done].
    pose proof (framing_spec hs body adv ver) as F.
    destruct (framing_predicate hs body adv ver) as [c why]. injection E as <-.
    cbn [finite_sample_complete detail metadata_complete fst] in *. rewrite F.
    apply get_argument_In in Eb as [Hin Hname]. split.
    + intros G. eexists _, b. split; [reflexivity|]. by repeat (split; [done|]).
    + intros (d & b' & Hd' & _ & _ & _ & _ & G). injection Hd' as <-. done.
  - destruct (caught e); [|done]. injection Hs as <-. split; [done|]. by intros (d & b & G & _).
Qed.

(** C5: the relay reassembles the stream: as long as no error is recorded, the
    recorded frames are the one and only segmentation of the received bytes into
    complete frames, however the bytes were split into chunks, and unless it
    damages frames it has sent exactly the received bytes. *)
Theorem relay_segments corrupt_notify connection dir inputs :
  (forall e, ~ In (LError e) (copy corrupt_notify connection dir inputs)) ->
  exists rest,
    concat (frames_in (copy corrupt_notify connection dir inputs)) ++ rest = received inputs /\
    Forall complete_frame (frames_in (copy corrupt_notify connection dir inputs)) /\
    incomplete rest /\
    (damaging corrupt_notify dir = false ->
     concat (sent_in (copy corrupt_notify connection dir inputs)) = received inputs) /\
    forall fs r, concat fs ++ r = received inputs -> Forall complete_frame fs -> incomplete r ->
      fs = frames_in (copy corrupt_notify connection dir inputs) /\ r = rest.
Proof.
  intros Hn. assert (I0 : incomplete []) by (left; done).
  destruct (copy_loop_spec corrupt_notify connection dir inputs [] [] I0 Hn)
    as (fs & sent & rest & Hf & Hs & Hc & Hall & Hr & Hd).
  unfold copy. rewrite Hf, Hs. cbn [app frames_in sent_in map concat]. exists rest.
  split; [done|]. split; [done|]. split; [done|]. split; [done|].
  intros fs' r' Hc' Hall' Hr'. eapply segmentation_unique; try done. by rewrite Hc', Hc.
Qed.

(** C6: traces without integrity violation are request/response traces: every
    ACK answers one NOTIFY recorded before it with the same connection, stream
    and frame identifiers, sent in the other direction; no NOTIFY and no ACK
    identity repeats; every ACK sets a transaction-scoped integer status and a
    Boolean blocked flag. *)
Theorem integrity_correlates frames expected_rows pre r post :
  ack_integrity_violations frames expected_rows = [] -> frames = pre ++ r :: post ->
  (is_notify r = true ->
     row_direction r = HostAgent /\ ~ In (row_key r) (map row_key (List.filter is_notify pre))) /\
  (is_ack r = true ->
     well_typed_ack r /\ ~ In (row_key r) (map row_key (List.filter is_ack pre)) /\
     exists n, In n pre /\ is_notify n = true /\ row_key n = row_key r /\
               row_direction n = HostAgent).
Proof.
  intros H' Hf. unfold ack_integrity_violations in H'. cbv zeta in H'.
  apply app_eq_nil in H' as [H' _].
  destruct (integrity_errors frames [] [] H') as [_ L]. split.
  - intros Hn. destruct (local_notify _ _ (L _ _ _ Hf) Hn) as (D & N & _). by split.
  - intros Ha. destruct (local_ack _ _ (L _ _ _ Hf) Ha) as (W & Hin & N).
    split; [done|]. split; [done|]. apply in_map_iff in Hin as (n & Hk & Hn).
    apply filter_In in Hn as [Hn Hnk]. exists n. repeat split; try done.
    apply List.in_split in Hn as (p1 & p2 & Hp). cbn [app] in *.
    assert (Hf' : frames = p1 ++ n :: p2 ++ r :: post) by (by rewrite Hf, Hp, <- app_assoc).
    by destruct (local_notify _ _ (L _ _ _ Hf') Hnk).
Qed.

(** The end of the HTTP/2 response stream is recognised exactly: on a
    received prefix made of whole frames and an incomplete rest,
    [h2_stream_ended] holds when one of those frames is a DATA or HEADERS frame
    of stream 1 with the END_STREAM flag, and only then. *)
Theorem h2_stream_ended_spec fs rest :
  Forall h2_wf fs -> h2_incomplete rest ->
  h2_stream_ended (concat (map h2_encode fs) ++ rest) = existsb ends_stream fs.
Proof.
  intros Hf Hr. unfold h2_stream_ended. rewrite h2_loop_frames; [done|done|done|lia].
Qed.
End Claims.
