(* ===== verification/SpopWitnesses.v ===== *)
(** * Concrete runs of the SPOP components *)

From S2P Require Export SpopTheorems.

(** Addresses written as hexadecimal text. *)
Definition hex_ip_address (v : value) : res (Z * bytes) :=
  match v with
  | VStr s =>
      match fromhex s with
      | Ok b => if (List.length b =? 4)%nat then Ok (4, b)
                else if (List.length b =? 16)%nat then Ok (6, b)
                else Err (ValueError "not an address")
      | Err _ => Err (ValueError "not an address")
      end
  | _ => Err (ValueError "not an address")
  end.

#[export] Instance hex_addresses : IpAddress.
Proof.
  refine {| ip_text := hex_text; ip_address := hex_ip_address |}.
  - intros b v H. unfold hex_ip_address. rewrite fromhex_hex. by destruct H as [[-> ->]|[-> ->]].
  - intros s v b H. unfold hex_ip_address in H. destruct s; try done.
    destruct (fromhex s) as [c|]; [|done].
    destruct (List.length c =? 4)%nat eqn:E4; [apply Nat.eqb_eq in E4; injection H as <- <-; by left|].
    destruct (List.length c =? 16)%nat eqn:E6; [apply Nat.eqb_eq in E6; injection H as <- <-; by right|].
    done.
  - intros s e H. unfold hex_ip_address in H. destruct s; try by injection H as <-.
    destruct (fromhex s); [|by injection H as <-]. repeat case_match; try done; by injection H as <-.
Defined.

Definition str (s : string) : value := VStr (u s).

Definition sample_fixture : list fixture :=
  [(u "request_id", 8, str "source-fixture-0001"); (u "client_ip", 6, str "7f000001");
   (u "client_port", 4, VInt 45000); (u "server_ip", 6, str "7f000001");
   (u "server_port", 4, VInt 18540); (u "method", 8, str "POST"); (u "path", 8, str "/a");
   (u "uri", 8, str "/a"); (u "host", 8, str "localhost");
   (u "headers", 8, VStr (u "content-length: 3" ++ [13; 10; 13; 10]));
   (u "body", 9, VBytes (S2L "abc")); (u "body_len", 4, VInt 3); (u "http_version", 8, str "1.1")].

Definition sample_raw : bytes :=
  match encode_notify sample_fixture 7 300 with Ok raw => raw | Err _ => [] end.

Definition sample_frame : frame :=
  {| kind := 3; flags := 1; stream := 7; frame_id := 300;
     body := Messages [{| msg_name := u "check-request";
                          msg_arguments := map view_argument sample_fixture |}] |}.

Definition sample_ack (st fr : Z) : frame :=
  {| kind := 103; flags := 1; stream := st; frame_id := fr;
     body := Actions [{| act_scope := 2; act_name := u "status"; act_tag := 4; act_value := VInt 403 |};
                      {| act_scope := 2; act_name := u "blocked"; act_tag := 17;
                         act_value := VBool true |}] |}.

Definition sample_notify_row : frame_row :=
  {| row_connection := 0; row_direction := HostAgent; row_raw := sample_raw;
     row_decoded := Decoded sample_frame |}.
Definition sample_ack_row : frame_row :=
  {| row_connection := 0; row_direction := AgentHost; row_raw := [];
     row_decoded := Decoded (sample_ack 7 300) |}.

Definition sample_inputs : list recv :=
  [RData (List.firstn 50 sample_raw); RTimeout; RData (List.skipn 50 sample_raw); RData [chr 0; chr 0]].

Lemma uint_round_trip_witness :
  0 <= 18446744073709551615 < 2 ^ 64 /\
  exists bs, encode_uint (VInt 18446744073709551615) = Ok bs /\
             uint (bs ++ [chr 7]) = Ok (18446744073709551615, [chr 7]).
Proof. split; [lia|]. apply (uint_round_trip 18446744073709551615 [chr 7]). lia. Defined.

Lemma notify_round_trip_witness : decode_frame sample_raw = Ok sample_frame.
Proof.
  apply (notify_round_trip sample_fixture 7 300 sample_raw);
    [vm_compute; reflexivity|vm_compute; discriminate].
Defined.

Lemma decode_frame_fails_closed_witness :
  exists e, decode_frame (pack_I 3 ++ [chr 3; chr 0; chr 0]) = Err e /\ is_ValueError e = true.
Proof.
  eexists. split; [vm_compute; reflexivity|].
  apply (decode_frame_fails_closed (pack_I 3 ++ [chr 3; chr 0; chr 0])). vm_compute. reflexivity.
Defined.

Lemma corrupt_notify_refused_witness :
  exists raw' e, corrupt_notify_frame sample_raw = Ok raw' /\ blen raw' = blen sample_raw - 1 /\
                 decode_frame raw' = Err e.
Proof.
  destruct (corrupt_notify_frame sample_raw) as [raw'|] eqn:E; [|vm_compute in E; discriminate].
  destruct (corrupt_notify_refused sample_raw raw' sample_frame) as (H & _ & e & He);
    [vm_compute; reflexivity|reflexivity|exact E|].
  exists raw', e. split; [reflexivity|]. split; [exact H|exact He].
Defined.

Definition sample_headers_list : list header := [(S2L "host", S2L "localhost"); (S2L "x", [])].

Lemma headers_round_trip_witness :
  exists raw, encode_headers (map header_text sample_headers_list) = Ok raw /\
              decode_headers raw = Ok sample_headers_list.
Proof.
  eexists. split; [vm_compute; reflexivity|]. apply headers_round_trip.
  - constructor; [|constructor; [|constructor]]; (split; [discriminate|split; reflexivity]).
  - vm_compute. reflexivity.
Defined.

Lemma sample_complete_iff_witness :
  exists s, inspect_sample (map view_argument sample_fixture) = Ok s /\
            finite_sample_complete s = true.
Proof.
  destruct (sample_complete_iff sample_raw sample_frame
    {| msg_name := u "check-request"; msg_arguments := map view_argument sample_fixture |})
    as (s & Hs & _); [vm_compute; reflexivity|left; reflexivity|].
  exists s. split; [exact Hs|]. vm_compute in Hs. injection Hs as <-. reflexivity.
Defined.

Lemma relay_segments_witness :
  frames_in (copy false 0 HostAgent sample_inputs) = [sample_raw] /\
  concat (sent_in (copy false 0 HostAgent sample_inputs)) = received sample_inputs.
Proof.
  assert (H : forall e, ~ In (LError e) (copy false 0 HostAgent sample_inputs)).
  { intros e. vm_compute. intros H. repeat destruct H as [H|H]; discriminate || contradiction. }
  destruct (relay_segments false 0 HostAgent sample_inputs H) as (rest & _ & _ & _ & Hs & _).
  split; [vm_compute; reflexivity|]. apply Hs. reflexivity.
Defined.

Definition sample_expected : list expected_row :=
  [{| ex_ack_status := Some 403; ex_sample_claim := Some true; ex_unresolved := [] |}].

Lemma integrity_correlates_witness :
  well_typed_ack sample_ack_row /\ exists n, In n [sample_notify_row] /\ row_direction n = HostAgent.
Proof.
  destruct (integrity_correlates [sample_notify_row; sample_ack_row] sample_expected
              [sample_notify_row] sample_ack_row []) as [_ H];
    [vm_compute; reflexivity|reflexivity|].
  destruct H as (W & _ & n & Hn & _ & _ & Hd); [vm_compute; reflexivity|].
  split; [exact W|]. exists n. split; [exact Hn|exact Hd].
Defined.

Definition sample_h2 : list h2_frame :=
  [{| h2_kind := 1; h2_flags := 4; h2_stream := 1; h2_payload := [chr 136] |};
   {| h2_kind := 0; h2_flags := 1; h2_stream := 1; h2_payload := S2L "ok" |}].

Lemma h2_stream_ended_spec_witness :
  h2_stream_ended (concat (map h2_encode sample_h2) ++ [chr 0; chr 0]) = true.
Proof.
  rewrite (h2_stream_ended_spec sample_h2 [chr 0; chr 0]); [reflexivity| |].
  - repeat constructor; vm_compute; reflexivity || discriminate.
  - left. vm_compute. reflexivity.
Defined.
