(* ===== verification/Observation.v ===== *)
(** * Runtime observations: issues and values (runtime_observation.py)

    The validator accumulates its findings in an [_Issues] object that no
    validator reads while it runs.  A validator is modelled as a run that returns
    the [error] and [partial] calls it made, in order, and its outcome; the lists
    of the object are recovered from the calls by [hard] and [incomplete].

    An observation is the value of a JSON document: no container occurs twice in
    it.  Sets of field names have no order; where the code iterates over one the
    model takes the order of its display. *)

From S2P Require Export PyValue Regex.

(** ** Issues *)

Inductive note :=
  | Error (message : string)
  | Partial (message : string).

Definition run (A : Type) := (list note * res A)%type.

Definition ret {A} (a : A) : run A := ([], Ok a).
Definition raise {A} (e : exn) : run A := ([], Err e).
Definition error (message : string) : run unit := ([Error message], Ok tt).
Definition partial (message : string) : run unit := ([Partial message], Ok tt).

Definition bind {A B} (m : run A) (f : A -> run B) : run B :=
  match m with
  | (l, Ok a) => let (l', r) := f a in (l ++ l', r)
  | (l, Err e) => (l, Err e)
  end.

(** A computation without findings. *)
Definition lift {A} (m : res A) : run A := ([], m).

Declare Scope run_scope.
Notation "'do' x <- m ; k" := (bind m (fun x => k))
  (at level 10, x name, m at level 100, k at level 200) : run_scope.
Notation "m ;, k" := (bind m (fun _ => k))
  (at level 199, k at level 200, right associativity) : run_scope.
#[global] Open Scope run_scope.

(** [if b: m] *)
Definition when (b : bool) (m : run unit) : run unit := if b then m else ret tt.

Fixpoint each {A} (f : A -> run unit) (l : list A) : run unit :=
  match l with
  | [] => ret tt
  | x :: r => f x ;, each f r
  end.

Fixpoint collect {A B} (f : A -> run B) (l : list A) : run (list B) :=
  match l with
  | [] => ret []
  | x :: r => do y <- f x; do ys <- collect f r; ret (y :: ys)
  end.

Definition MAX_TEXT_LENGTH : Z := 1024.
Definition MAX_COUNTER : Z := 1000000.
Definition MAX_COMPOUND_CONDITIONS : Z := 16.
Definition MAX_EXPECTATION_ITEMS : Z := 128.
Definition MAX_METADATA_DEPTH : nat := 32.
Definition MAX_METADATA_NODES : nat := 4096.

(** [_Issues._message] *)
Definition _message (message : string) : string :=
  let clean := py_join " " (py_split_ws message) in
  let cut := L2S (List.firstn (Z.to_nat MAX_TEXT_LENGTH) (S2L clean)) in
  if String.eqb cut "" then "validation error" else cut.

Definition record_message (l : list string) (m : string) : list string :=
  if str_in m l then l else l ++ [m].

Definition hard (notes : list note) : list string :=
  fold_left (fun l n => match n with Error m => record_message l (_message m) | Partial _ => l end)
    notes [].
Definition incomplete (notes : list note) : list string :=
  fold_left (fun l n => match n with Partial m => record_message l (_message m) | Error _ => l end)
    notes [].

(** ** Closed vocabularies *)

Definition CONNECTORS : list string := ["apache"; "envoy"; "haproxy"; "lighttpd"; "traefik"; "nginx"].
Definition PROFILES : list string :=
  ["no-crs-no-mrts"; "no-crs-with-mrts"; "with-crs-no-mrts"; "with-crs-with-mrts"].
Definition ASSERTION_RESULTS : list string := ["PASS"; "FAIL"; "NOT_APPLICABLE"; "NOT_EXECUTED"].
Definition RUNTIME_STATUSES : list string := ["PASS"; "PARTIAL"; "VALIDATION_FAILED"; "FAIL"].
Definition LIVE_EVIDENCE_KINDS : list string :=
  ["structured_connector_evidence"; "live_runtime_evidence"; "protected_runtime_evidence"].
Definition CANONICAL_EVIDENCE_KINDS : list string := LIVE_EVIDENCE_KINDS ++ ["canonical_fixture"].
Definition RAW_EVIDENCE_KINDS : list string := ["raw_log"; "raw_payload"; "synthetic"; "step_exit"].
Definition CANONICAL_EVIDENCE_RECORD_KINDS : list string :=
  LIVE_EVIDENCE_KINDS ++ ["canonical_fixture"; "manifest"].
Definition RUNTIME_REQUIRED_ASSERTIONS : list string :=
  ["config_test"; "host_start"; "reachability"; "allow_case"; "block_case"].
Definition RUNTIME_OPTIONAL_ASSERTIONS : list string := ["bypass_case"].
Definition ISOLATION_FIELDS : list string :=
  ["mrts_runner_invoked"; "mrts_inventory_loaded"; "mrts_process_started";
   "mrts_listener_created"; "mrts_artifact_used"].
Definition CLEANUP_COUNTERS : list string :=
  ["host_processes_remaining"; "helper_processes_remaining"; "listeners_remaining";
   "sockets_remaining"; "pid_files_remaining"; "temporary_paths_remaining"].
Definition SEMANTIC_VALUE_FIELDS : list string :=
  ["kind"; "value"; "http_status"; "action"; "intervention"; "event"; "transport"; "rule_ids";
   "intervention_rule_ids"; "predicates"; "status"; "started"; "reachable"].

Definition token_char (c : ascii) : bool := is_alnum c || char_in "._:-" c.
Definition TOKEN : re := RCat (RCls is_alnum) (RRep (RCls token_char) 0 (Some 127%nat)).
Definition framework_char (c : ascii) : bool := is_lower c || is_digit c || char_in "_.:/-" c.
Definition FRAMEWORK_IDENTIFIER : re :=
  RCat (RCls is_lower) (RRep (RCls framework_char) 0 (Some 127%nat)).
Definition SHA256 : re := RTimes (RCls is_hex_lower) 64.
Definition COMMIT : re := RTimes (RCls is_hex_lower) 40.
Definition digits (n : nat) : re := RTimes (RCls is_digit) n.
Definition TIMESTAMP : re :=
  fold_right RCat REps
    [digits 4; RLit "-"; digits 2; RLit "-"; digits 2; RLit "T"; digits 2; RLit ":"; digits 2;
     RLit ":"; digits 2; ROpt (RCat (RLit ".") (RRep (RCls is_digit) 1 (Some 9%nat))); RLit "Z"].

(** ** Profiles *)

Record requirement := { rq_crs : bool; rq_mrts : bool; rq_isolation : list (string * bool) }.

Definition _profile_requirement (crs mrts : bool) : requirement :=
  {| rq_crs := crs; rq_mrts := mrts; rq_isolation := map (fun f => (f, mrts)) ISOLATION_FIELDS |}.

Definition PROFILE_REQUIREMENTS : list (string * requirement) :=
  [("no-crs-no-mrts", _profile_requirement false false);
   ("no-crs-with-mrts", _profile_requirement false true);
   ("with-crs-no-mrts", _profile_requirement true false);
   ("with-crs-with-mrts", _profile_requirement true true)].

Fixpoint lookup {A} (k : string) (l : list (string * A)) : option A :=
  match l with
  | [] => None
  | (k', v) :: r => if String.eqb k' k then Some v else lookup k r
  end.

(** ** Adapters *)

Record AdapterInterface := {
  connector : string; adapter_id : string; integration_mode : string;
  live_producer_supported : bool; producer : option string; fixture_producer : option string;
  protected_separate : bool }.

Definition ADAPTER_INTERFACES : list AdapterInterface :=
  [{| connector := "apache"; adapter_id := "apache-native-httpd-module";
      integration_mode := "native-httpd-module"; live_producer_supported := false;
      producer := None;
      fixture_producer := Some "canonical-runtime-fixture-apache-native-httpd-module";
      protected_separate := false |};
   {| connector := "envoy"; adapter_id := "envoy-ext-proc-service";
      integration_mode := "ext_proc"; live_producer_supported := true;
      producer := Some "parent-runtime-observation-adapter-envoy";
      fixture_producer := None; protected_separate := false |};
   {| connector := "haproxy"; adapter_id := "haproxy-spoe-spop-agent";
      integration_mode := "spoe-spop-agent"; live_producer_supported := false;
      producer := None;
      fixture_producer := Some "canonical-runtime-fixture-haproxy-spoe-spop-agent";
      protected_separate := false |};
   {| connector := "haproxy"; adapter_id := "haproxy-native-htx-filter";
      integration_mode := "native-htx-filter"; live_producer_supported := false;
      producer := None;
      fixture_producer := Some "canonical-runtime-fixture-haproxy-native-htx-filter";
      protected_separate := false |};
   {| connector := "lighttpd"; adapter_id := "lighttpd-patched-native-module";
      integration_mode := "patched-native-lighttpd"; live_producer_supported := true;
      producer := Some "parent-runtime-observation-adapter-lighttpd";
      fixture_producer := None; protected_separate := false |};
   {| connector := "traefik"; adapter_id := "traefik-native-middleware";
      integration_mode := "native-traefik-middleware"; live_producer_supported := true;
      producer := Some "parent-runtime-observation-adapter-traefik";
      fixture_producer := None; protected_separate := false |};
   {| connector := "nginx"; adapter_id := "native-nginx-http-module";
      integration_mode := "native-nginx-http-module"; live_producer_supported := false;
      producer := Some "protected-nginx-root-broker";
      fixture_producer := None; protected_separate := true |}].

(** [x is None or candidate == x] *)
Definition agrees (x : option string) (candidate : string) : bool :=
  match x with None => true | Some s => String.eqb candidate s end.

Definition adapter_for (conn : string) (id mode : option string) : res AdapterInterface :=
  let candidates := List.filter (fun a => String.eqb (connector a) conn &&
                                          agrees id (adapter_id a) &&
                                          agrees mode (integration_mode a)) ADAPTER_INTERFACES in
  match candidates with
  | [a] => Ok a
  | _ =>
      if negb (str_in conn CONNECTORS) then Err (ObservationInputError "connector is unsupported")
      else match id, mode with
           | Some _, Some _ =>
               Err (ObservationInputError
                 "connector, adapter_id, and integration_mode are not an approved tuple")
           | _, _ =>
               Err (ObservationInputError
                 "adapter identity must include adapter_id and integration_mode")
           end
  end.

Definition require_live_adapter (conn : string) (id mode : option string) : res AdapterInterface :=
  let* a := adapter_for conn id mode in
  if live_producer_supported a then Ok a
  else Err (ObservationInputError (adapter_id a +:+ " has no live runtime producer")).

(** ** Values *)

Definition _is_boolean (v : pyval) : bool := is_bool v.
Definition _is_approved_literal (v : pyval) (approved : list string) : bool := in_strs v approved.
Definition _is_bounded_integer (v : pyval) (lower upper : Z) : bool :=
  match v with PInt z => (lower <=? z) && (z <=? upper) | _ => false end.
Definition is_counter (v : pyval) : bool := _is_bounded_integer v 0 MAX_COUNTER.
Definition matches (pattern : re) (v : pyval) : bool :=
  match v with PStr s => fullmatch_str pattern s | _ => false end.
Definition _safe_token (v : pyval) : bool := matches TOKEN v.
Definition _safe_framework_identifier (v : pyval) : bool :=
  match v with
  | PStr s => fullmatch_str FRAMEWORK_IDENTIFIER s && negb (contains ".." s) && negb (contains "//" s)
  | _ => false
  end.

Definition has_code (z : Z) (s : string) : bool := existsb (fun c => ord c =? z) (S2L s).

Definition _safe_reason (v : pyval) : bool :=
  match v with
  | PStr s => negb (String.eqb s "") && (str_len s <=? MAX_TEXT_LENGTH)
              && negb (has_code 0 s) && negb (has_code 13 s) && negb (has_code 10 s)
  | _ => false
  end.

Definition windows_absolute (l : chars) : bool :=
  match l with
  | a :: b :: c :: _ => (is_lower a || is_upper a) && (ord b =? 58) && ((ord c =? 92) || (ord c =? 47))
  | _ => false
  end.
Definition _is_absolute_path_text (s : string) : bool :=
  starts_with "/" s || windows_absolute (S2L s).

Definition FORBIDDEN_KEYS : list string :=
  ["payload"; "payloads"; "raw_log"; "raw_logs"; "log_content"; "log_contents"; "request";
   "response"; "request_body"; "response_body"; "headers"; "authorization"; "cookie"; "secret";
   "secrets"; "credential"; "credentials"; "password"; "private_key"; "api_key"; "runner_path";
   "absolute_path"].

Definition forbidden_key (k : pyval) : bool :=
  match k with PStr s => str_in (py_lower s) FORBIDDEN_KEYS | _ => true end.

(** The stack of [_has_forbidden_metadata], top first; children are pushed in
    order, so the last one is on top. *)
Definition push (children : list pyval) (depth : nat) (pending : list (pyval * nat))
    : list (pyval * nat) :=
  rev (map (fun c => (c, S depth)) children) ++ pending.

(** The number of visited nodes is the fuel already spent: the walk gives up
    with [true] after [MAX_METADATA_NODES] nodes. *)
Fixpoint metadata_walk (budget : nat) (pending : list (pyval * nat)) : bool :=
  match pending with
  | [] => false
  | (current, depth) :: rest =>
      match budget with
      | O => true
      | S budget' =>
          if Nat.ltb MAX_METADATA_DEPTH depth then true
          else match current with
               | PDict d => if existsb (fun kv => forbidden_key (fst kv)) d then true
                            else metadata_walk budget' (push (map snd d) depth rest)
               | PList l => metadata_walk budget' (push l depth rest)
               | PStr s => if _is_absolute_path_text s then true else metadata_walk budget' rest
               | _ => metadata_walk budget' rest
               end
      end
  end.

Definition _has_forbidden_metadata (v : pyval) : bool := metadata_walk MAX_METADATA_NODES [(v, O)].

Definition _as_mapping (v : pyval) (label : string) : run (option pydict) :=
  match v with
  | PDict d => ret (Some d)
  | _ => error (label +:+ " must be an object") ;, ret None
  end.

(** [sorted(l)] of dictionary keys: all strings, all numbers, or a single key;
    anything else compares values of different classes. *)
Definition sortable (l : list pyval) : bool :=
  match l with
  | [] | [_] => true
  | _ => forallb is_str l
         || forallb (fun v => match num_value v with Some _ => true | None => false end) l
  end.

Definition key_texts (l : list pyval) : list string :=
  concat (map (fun v => match v with PStr s => [s] | _ => [] end) l).

Definition missing_fields (value : pydict) (required : list string) : list string :=
  sort_strs (List.filter (fun k => negb (dict_has k value)) required).
Definition unexpected_keys (value : pydict) (known : list string) : list pyval :=
  List.filter (fun k => negb (in_strs k known)) (keys value).

(** The report of unexpected keys: [', '.join] takes strings only. *)
Definition report_unexpected (l : list pyval) (label : string) : run unit :=
  match l with
  | [] => ret tt
  | _ => if forallb is_str l
         then error (label +:+ " contains unsupported fields: "
                     +:+ py_join ", " (sort_strs (key_texts l)))
         else raise (TypeError "sequence item: expected str instance")
  end.

Definition _require_exact_keys (value : pydict) (required optional : list string) (label : string)
    : run unit :=
  let missing := missing_fields value required in
  let unexpected := unexpected_keys value (required ++ optional) in
  if negb (sortable unexpected) then raise (TypeError "'<' not supported")
  else
    when (negb (match missing with [] => true | _ => false end))
      (error (label +:+ " is missing required fields: " +:+ py_join ", " missing)) ;,
    report_unexpected unexpected label.

Definition _check_string_field (value : pydict) (name label : string) : run unit :=
  if matches TOKEN (dict_get name value) then ret tt
  else error (label +:+ "." +:+ name +:+ " must be a bounded token").

(** ** Value maps *)

Definition is_signed_counter (v : pyval) : bool := _is_bounded_integer v (- MAX_COUNTER) MAX_COUNTER.

(** The text of a key in a message. *)
Definition field_label (label : string) (k : pyval) : string := label +:+ "." +:+ py_str k.

Definition scalar_value_field (label : string) (item : pyval * pyval) : run unit :=
  let '(name, v) := item in
  if negb (in_strs name SEMANTIC_VALUE_FIELDS)
  then error (field_label label name +:+ " is not a supported typed semantic field")
  else
    when (negb (in_strs name ["rule_ids"; "intervention_rule_ids"; "predicates"])
          && negb ((is_none v && eq_str name "value") || _is_boolean v || is_signed_counter v
                   || _safe_token v))
      (error (field_label label name +:+ " must be a bounded scalar semantic value")).

Definition _validate_scalar_value_fields (label : string) (mapping : pydict) : run unit :=
  each (scalar_value_field label) mapping.

Definition int_values (l : list pyval) : list Z :=
  concat (map (fun v => match v with PInt z => [z] | _ => [] end) l).

Definition unique_bounded_ints (v : pyval) (limit upper : Z) : bool :=
  match v with
  | PList l => negb (match l with [] => true | _ => false end)
               && (Z.of_nat (List.length l) <=? limit)
               && forallb (fun x => _is_bounded_integer x 1 upper) l
               && Z_nodup (int_values l)
  | _ => false
  end.

Definition _validate_value_map_rules (label : string) (mapping : pydict) : run unit :=
  let st := dict_get "http_status" mapping in
  when (negb (is_none st) && negb (_is_bounded_integer st 100 599))
    (error (label +:+ ".http_status must be a bounded integer")) ;,
  each (fun name => when (dict_has name mapping && negb (_safe_token (dict_get name mapping)))
                      (error (label +:+ "." +:+ name +:+ " must be a bounded token")))
    ["action"; "intervention"; "event"; "transport"] ;,
  each (fun field => when (dict_has field mapping &&
                           negb (unique_bounded_ints (dict_get field mapping) 64 2147483647))
                      (error (label +:+ "." +:+ field +:+ " must be a unique bounded integer list")))
    ["rule_ids"; "intervention_rule_ids"].

Definition safe_predicate (item : pyval * pyval) : bool :=
  _safe_token (fst item) &&
  (_is_boolean (snd item) || is_signed_counter (snd item) || _safe_token (snd item)).

Definition _validate_predicates (label : string) (predicates : pyval) : run unit :=
  match predicates with
  | PDict ((_ :: _) as d) =>
      when (negb (forallb safe_predicate d))
        (error (label +:+ ".predicates contains an unsafe value"))
  | _ => error (label +:+ ".predicates must be a non-empty object")
  end.

Definition _validate_value_map (label : string) (v : pyval) : run (option pydict) :=
  do m <- _as_mapping v label;
  match m with
  | None => ret None
  | Some [] => error (label +:+ " must not be empty") ;, ret (Some [])
  | Some mapping =>
      if _has_forbidden_metadata (PDict mapping)
      then error (label +:+ " contains raw-log, payload, or absolute-path metadata") ;,
           ret (Some mapping)
      else
        _validate_scalar_value_fields label mapping ;,
        _validate_value_map_rules label mapping ;,
        match dict_find "predicates" mapping with
        | Some p => _validate_predicates label p
        | None => ret tt
        end ;,
        ret (Some mapping)
  end.

(** The keys of the two maps are strings here or the run reported them. *)
Definition _expected_matches_observed (expected observed : pydict) (label : string) : run unit :=
  each (fun '(name, v) =>
          match List.find (fun kv => py_eq (fst kv) name) observed with
          | None => error (label +:+ ".observed is missing expected field " +:+ py_str name)
          | Some (_, w) => when (negb (py_eq w v))
              (error (label +:+ ".expected and observed disagree for " +:+ py_str name))
          end) expected.
