(* ===== verification/ObservationRuntime.v ===== *)
(** * Runtime observations: identity, assertions, isolation, cleanup
      (runtime_observation.py) *)

From S2P Require Export Observation.

(** [v is b] for a Boolean [b]. *)
Definition is_bool_is (v : pyval) (b : bool) : bool :=
  match v with PBool c => Bool.eqb c b | _ => false end.

Definition opt_str (v : pyval) : option string := match v with PStr s => Some s | _ => None end.

(** ** Identity *)

Definition IDENTITY_FIELDS : list string :=
  ["connector"; "adapter_id"; "integration_mode"; "profile"; "crs"; "mrts"; "run_id";
   "parent_commit"; "framework_commit"; "mrts_commit"; "producer"; "producer_version"].

(** The adapter an identity names. *)
Definition identity_adapter (identity : pydict) : res AdapterInterface :=
  adapter_for (py_str (dict_get "connector" identity)) (opt_str (dict_get "adapter_id" identity))
    (opt_str (dict_get "integration_mode" identity)).

Definition _validate_identity_contract (identity : pydict) : run unit :=
  _require_exact_keys identity IDENTITY_FIELDS [] "identity" ;,
  if negb (_is_approved_literal (dict_get "connector" identity) CONNECTORS)
  then error "identity.connector is not a supported connector"
  else
    each (fun field => _check_string_field identity field "identity")
      ["adapter_id"; "integration_mode"; "run_id"; "producer"; "producer_version"] ;,
    match identity_adapter identity with
    | Ok _ => ret tt
    | Err _ => error "identity connector, adapter_id, and integration_mode are not an approved tuple"
    end.

Definition _profile_requirements_for_identity (profile : pyval) : run (option requirement) :=
  match profile with
  | PStr p =>
      if str_in p PROFILES then ret (lookup p PROFILE_REQUIREMENTS)
      else error "identity.profile is not a supported profile" ;, ret None
  | _ => error "identity.profile is not a supported profile" ;, ret None
  end.

Definition _validate_identity_profile (identity : pydict) : run unit :=
  do requirements <- _profile_requirements_for_identity (dict_get "profile" identity);
  each (fun field => when (negb (_is_boolean (dict_get field identity)))
                       (error ("identity." +:+ field +:+ " must be a boolean")))
    ["crs"; "mrts"] ;,
  match requirements with
  | None => ret tt
  | Some r =>
      each (fun '(field, b) => when (negb (is_bool_is (dict_get field identity) b))
                                 (error ("identity." +:+ field +:+ " contradicts identity.profile")))
        [("crs", rq_crs r); ("mrts", rq_mrts r)]
  end.

Definition _validate_identity_commits (identity : pydict) : run unit :=
  each (fun field => when (negb (matches COMMIT (dict_get field identity)))
                       (error ("identity." +:+ field +:+ " must be a lowercase full commit")))
    ["parent_commit"; "framework_commit"; "mrts_commit"].

Definition IDENTITY_ALIASES : list (string * string) :=
  [("parent_sha", "parent_commit"); ("framework_sha", "framework_commit"); ("mrts_sha", "mrts_commit")].

Definition alias (k : pyval) : pyval :=
  match k with
  | PStr s => match lookup s IDENTITY_ALIASES with Some n => PStr n | None => k end
  | _ => k
  end.

(** [name in d] and [d.get(name)] for a key of any class. *)
Definition has_key (k : pyval) (d : pydict) : bool := existsb (fun kv => py_eq (fst kv) k) d.

Definition _validate_expected_identity (identity : pydict) (expected_identity : option pydict)
    : run unit :=
  match expected_identity with
  | None => ret tt
  | Some e =>
      each (fun '(supplied_name, supplied_value) =>
        let name := alias supplied_name in
        if negb (has_key name identity)
        then error ("expected identity contains unsupported field " +:+ py_str supplied_name)
        else when (negb (is_none supplied_value)
                   && negb (py_eq (dict_get_key name identity) supplied_value))
               (error ("identity." +:+ py_str name +:+ " does not match expected identity"))) e
  end.

Definition _validate_identity (identity_value : pyval) (expected_identity : option pydict)
    : run (option pydict) :=
  do m <- _as_mapping identity_value "identity";
  match m with
  | None => ret None
  | Some identity =>
      _validate_identity_contract identity ;,
      _validate_identity_profile identity ;,
      _validate_identity_commits identity ;,
      _validate_expected_identity identity expected_identity ;,
      ret (Some identity)
  end.

(** ** Assertions *)

Definition ASSERTION_FIELDS : list string :=
  ["required"; "applicable"; "executed"; "live_executed"; "expected"; "observed"; "result";
   "reason"; "evidence_kind"].

Definition _validate_not_applicable_assertion (assertion : pydict) (label : string) (result : pyval)
    (matrix_optional : bool) : run bool :=
  if negb (is_false (dict_get "applicable" assertion)) then ret false
  else
    when (negb matrix_optional) (error (label +:+ " is not centrally optional")) ;,
    when (negb (is_false (dict_get "required" assertion)))
      (error (label +:+ " marked not applicable must not be required")) ;,
    when (negb (eq_str result "NOT_APPLICABLE"))
      (error (label +:+ " marked not applicable must report NOT_APPLICABLE")) ;,
    when (negb (is_false (dict_get "executed" assertion))
          || negb (is_false (dict_get "live_executed" assertion)))
      (error (label +:+ " marked not applicable cannot claim execution")) ;,
    ret true.

Definition _validate_applicable_assertion (assertion : pydict) (label : string)
    (result evidence_kind : pyval) (matrix_required allow_fixture_evidence : bool) : run unit :=
  when (matrix_required && negb (is_true (dict_get "required" assertion)))
    (error (label +:+ " is mandatory in the central profile matrix")) ;,
  if negb (is_true (dict_get "applicable" assertion)) then ret tt
  else
    when (negb (is_true (dict_get "executed" assertion))
          || negb (is_true (dict_get "live_executed" assertion)))
      (partial (label +:+ " lacks required live execution")) ;,
    when (negb (eq_str result "PASS")) (partial (label +:+ " is not a PASS assertion")) ;,
    when (negb (_is_approved_literal evidence_kind LIVE_EVIDENCE_KINDS)
          && negb (allow_fixture_evidence && eq_str evidence_kind "canonical_fixture"))
      (error (label +:+ " must bind live execution to live evidence")).

Definition _validate_assertion (v : pyval) (label : string) (matrix_required matrix_optional : bool)
    (provenance_evidence_kind : pyval) (allow_fixture_evidence : bool) : run unit :=
  do m <- _as_mapping v label;
  match m with
  | None => ret tt
  | Some assertion =>
      let result := dict_get "result" assertion in
      let evidence_kind := dict_get "evidence_kind" assertion in
      _require_exact_keys assertion ASSERTION_FIELDS ["case_id"] label ;,
      when (dict_has "case_id" assertion && negb (_safe_token (dict_get "case_id" assertion)))
        (error (label +:+ ".case_id must be a bounded token")) ;,
      each (fun field => when (negb (_is_boolean (dict_get field assertion)))
                           (error (label +:+ "." +:+ field +:+ " must be a boolean")))
        ["required"; "applicable"; "executed"; "live_executed"] ;,
      when (negb (_is_approved_literal result ASSERTION_RESULTS))
        (error (label +:+ ".result uses an unsupported status")) ;,
      when (negb (_safe_reason (dict_get "reason" assertion)))
        (error (label +:+ ".reason must be bounded sanitized text")) ;,
      when (negb (_is_approved_literal evidence_kind CANONICAL_EVIDENCE_KINDS))
        (error (label +:+ ".evidence_kind is not canonical")) ;,
      when (_is_approved_literal evidence_kind RAW_EVIDENCE_KINDS)
        (error (label +:+ ".evidence_kind cannot use raw or synthetic evidence")) ;,
      when (_is_approved_literal provenance_evidence_kind CANONICAL_EVIDENCE_KINDS
            && negb (py_eq evidence_kind provenance_evidence_kind))
        (error (label +:+ ".evidence_kind does not match provenance.evidence_kind")) ;,
      do expected <- _validate_value_map (label +:+ ".expected") (dict_get "expected" assertion);
      do observed <- _validate_value_map (label +:+ ".observed") (dict_get "observed" assertion);
      do not_applicable <- _validate_not_applicable_assertion assertion label result matrix_optional;
      if not_applicable then ret tt
      else
        _validate_applicable_assertion assertion label result evidence_kind matrix_required
          allow_fixture_evidence ;,
        match expected, observed with
        | Some e, Some o => _expected_matches_observed e o label
        | _, _ => ret tt
        end
  end.

(** ** Runtime *)

(** [case_ids] is the set of the identifiers seen so far. *)
Definition _record_case_id (candidate : pyval) (case_ids : list string) : run (list string) :=
  match candidate with
  | PDict d =>
      match dict_get "case_id" d with
      | PStr case_id =>
          when (str_in case_id case_ids) (error "runtime assertion case IDs are contradictory") ;,
          ret (case_id :: case_ids)
      | _ => ret case_ids
      end
  | _ => ret case_ids
  end.

Fixpoint required_assertions (names : list string) (runtime : pydict)
    (provenance_evidence_kind : pyval) (allow_fixture_evidence : bool) (case_ids : list string)
    : run (list string) :=
  match names with
  | [] => ret case_ids
  | name :: rest =>
      match dict_find name runtime with
      | Some v =>
          _validate_assertion v ("runtime." +:+ name) true false provenance_evidence_kind
            allow_fixture_evidence ;,
          do ids <- _record_case_id v case_ids;
          required_assertions rest runtime provenance_evidence_kind allow_fixture_evidence ids
      | None => required_assertions rest runtime provenance_evidence_kind allow_fixture_evidence case_ids
      end
  end.

Definition _validate_runtime_assertions (runtime : pydict) (provenance_evidence_kind : pyval)
    (allow_fixture_evidence : bool) : run unit :=
  do case_ids <- required_assertions RUNTIME_REQUIRED_ASSERTIONS runtime provenance_evidence_kind
                   allow_fixture_evidence [];
  match dict_find "bypass_case" runtime with
  | Some v =>
      _validate_assertion v "runtime.bypass_case" false true provenance_evidence_kind
        allow_fixture_evidence ;,
      do ids <- _record_case_id v case_ids; ret tt
  | None => ret tt
  end.

Definition _validate_runtime_aggregate (runtime_status : pyval) : run unit :=
  if eq_str runtime_status "PARTIAL" || eq_str runtime_status "VALIDATION_FAILED"
  then partial "runtime aggregate is not PASS"
  else when (eq_str runtime_status "FAIL") (error "runtime aggregate reports FAIL").

(** What the aggregate PASS needs of one required assertion. *)
Definition passing_assertion (v : pyval) : bool :=
  match v with
  | PDict a => is_true (dict_get "applicable" a) && is_true (dict_get "executed" a)
               && is_true (dict_get "live_executed" a) && eq_str (dict_get "result" a) "PASS"
  | _ => false
  end.

Definition _validate_runtime_status_alignment (runtime : pydict) (runtime_status : pyval) : run unit :=
  if negb (eq_str runtime_status "PASS") then ret tt
  else each (fun name =>
         let v := dict_get name runtime in
         if negb (is_mapping v) then error "runtime PASS is missing a required assertion"
         else when (negb (passing_assertion v))
                (error "runtime PASS contradicts an individual required assertion"))
         RUNTIME_REQUIRED_ASSERTIONS.

Definition _validate_runtime (v : pyval) (allow_partial : bool) (provenance_evidence_kind : pyval)
    (allow_fixture_evidence : bool) : run (option pydict) :=
  do m <- _as_mapping v "runtime";
  match m with
  | None => ret None
  | Some runtime =>
      let required := RUNTIME_REQUIRED_ASSERTIONS ++ ["runtime_status"] in
      let missing := missing_fields runtime required in
      let unexpected := unexpected_keys runtime (required ++ RUNTIME_OPTIONAL_ASSERTIONS) in
      (if negb (sortable unexpected) then raise (TypeError "'<' not supported") else ret tt) ;,
      when (negb (match missing with [] => true | _ => false end))
        (let text := "runtime is missing required fields: " +:+ py_join ", " missing in
         if allow_partial then partial text else error text) ;,
      report_unexpected unexpected "runtime" ;,
      let runtime_status := dict_get "runtime_status" runtime in
      when (negb (_is_approved_literal runtime_status RUNTIME_STATUSES))
        (error "runtime.runtime_status uses an unsupported status") ;,
      _validate_runtime_assertions runtime provenance_evidence_kind allow_fixture_evidence ;,
      _validate_runtime_status_alignment runtime runtime_status ;,
      when (negb (eq_str runtime_status "PASS")) (_validate_runtime_aggregate runtime_status) ;,
      ret (Some runtime)
  end.

(** ** Isolation and cleanup *)

Definition _validate_isolation_field (field : string) (actual : pyval)
    (expected_values : list (string * bool)) : run unit :=
  if negb (_is_boolean actual) then error ("isolation." +:+ field +:+ " must be a boolean")
  else match lookup field expected_values with
       | Some b => when (negb (is_bool_is actual b))
                     (error ("isolation." +:+ field +:+ " contradicts the central profile matrix"))
       | None => ret tt
       end.

Definition _validate_isolation (v : pyval) (requirements : option requirement) : run unit :=
  do m <- _as_mapping v "isolation";
  match m with
  | None => ret tt
  | Some isolation =>
      _require_exact_keys isolation ISOLATION_FIELDS [] "isolation" ;,
      let expected_values := match requirements with Some r => rq_isolation r | None => [] end in
      each (fun field => _validate_isolation_field field (dict_get field isolation) expected_values)
        ISOLATION_FIELDS
  end.

Definition residual (cleanup : pydict) : bool :=
  existsb (fun field => is_counter (dict_get field cleanup) && negb (eq_int (dict_get field cleanup) 0))
    CLEANUP_COUNTERS.

Definition _validate_cleanup (v : pyval) : run unit :=
  do m <- _as_mapping v "cleanup";
  match m with
  | None => ret tt
  | Some cleanup =>
      _require_exact_keys cleanup (CLEANUP_COUNTERS ++ ["cleanup_status"]) [] "cleanup" ;,
      each (fun field => when (negb (is_counter (dict_get field cleanup)))
                           (error ("cleanup." +:+ field +:+ " must be a bounded integer")))
        CLEANUP_COUNTERS ;,
      let st := dict_get "cleanup_status" cleanup in
      when (negb (_is_approved_literal st ["PASS"; "PARTIAL"; "FAIL"]))
        (error "cleanup.cleanup_status uses an unsupported status") ;,
      when (residual cleanup) (partial "cleanup residue prevents a runtime PASS") ;,
      when (negb (eq_str st "PASS")) (partial "cleanup status is not PASS")
  end.
