(* ===== verification/ObservationFramework.v ===== *)
(** * Runtime observations: framework cases (runtime_observation.py)

    Expectations and observations of the selected Framework cases, their
    comparison, and the aggregate counts. *)

From S2P Require Export ObservationRuntime.

(** ** Scalars *)

Definition EXPECTATION_KINDS : list string :=
  ["http_status"; "intervention"; "action"; "rule_match"; "event"; "request_headers";
   "response_headers"; "request_body"; "response_body"; "transport"; "lifecycle"; "cleanup";
   "compound"; "not_applicable"].
Definition MAX_EXPECTATION_DEPTH : nat := 4.
Definition FRAMEWORK_ACTIONS : list string :=
  ["deny"; "pass"; "none"; "redirect"; "block"; "drop"; "abort_connection"; "log_only"].
Definition FRAMEWORK_BODY_STATES : list string :=
  ["observed"; "matched"; "buffered"; "streaming"; "incremental"; "absent"; "redacted"].
Definition FRAMEWORK_TRANSPORT_STATES : list string :=
  ["connection_aborted"; "stream_reset"; "http1"; "http2"; "http3"; "keep_alive";
   "first_byte_before_response_end"; "no_full_response_buffering"].
Definition FRAMEWORK_CLEANUP_STATES : list string := ["balanced"; "completed"; "reused"; "isolated"].
Definition FRAMEWORK_NOT_APPLICABLE_REASONS : list string :=
  ["unsupported_by_host_model"; "not_implemented"; "connector_gap"; "future_target";
   "runtime_difference"].
Definition FRAMEWORK_LIFECYCLE_PREDICATES : list string :=
  ["host_started"; "request_completed"; "response_committed"; "connection_reused";
   "transaction_isolated"; "client_aborted"; "upstream_aborted"; "cleanup_balanced"].
Definition FRAMEWORK_CASE_RESULTS : list string :=
  ["PASS"; "FAIL"; "CANCELLED"; "UNSUPPORTED"; "NOT_APPLICABLE"; "NOT_EXECUTED"].

Definition str_values (l : list pyval) : list string :=
  concat (map (fun v => match v with PStr s => [s] | _ => [] end) l).

Definition _framework_http_status (v : pyval) (label : string) : run (option Z) :=
  match v with
  | PInt z => if (100 <=? z) && (z <=? 599) then ret (Some z)
              else error (label +:+ ".http_status must be a bounded integer") ;, ret None
  | _ => error (label +:+ ".http_status must be a bounded integer") ;, ret None
  end.

Definition _framework_rule_ids (v : pyval) (label : string) : run (option (list Z)) :=
  if unique_bounded_ints v MAX_EXPECTATION_ITEMS 9999999
  then match v with
       | PList l => ret (Some (sort_Z (int_values l)))
       | _ => ret None
       end
  else error (label +:+ ".rule_ids must be a unique bounded integer list") ;, ret None.

Definition unique_identifiers (v : pyval) : bool :=
  match v with
  | PList l => negb (match l with [] => true | _ => false end)
               && (Z.of_nat (List.length l) <=? MAX_EXPECTATION_ITEMS)
               && forallb _safe_framework_identifier l
               && str_nodup (str_values l)
  | _ => false
  end.

Definition _framework_identifier_list (v : pyval) (label : string) : run (option (list string)) :=
  if unique_identifiers v
  then match v with
       | PList l => ret (Some (sort_strs (str_values l)))
       | _ => ret None
       end
  else error (label +:+ " must be a unique non-empty Framework identifier list") ;, ret None.

Definition lifecycle_entry (kv : pyval * pyval) : option (string * pyval) :=
  match kv with
  | (PStr k, PBool b) => if str_in k FRAMEWORK_LIFECYCLE_PREDICATES then Some (k, PBool b) else None
  | _ => None
  end.

Fixpoint lifecycle_entries (d : pydict) : option (list (string * pyval)) :=
  match d with
  | [] => Some []
  | kv :: r => match lifecycle_entry kv, lifecycle_entries r with
               | Some x, Some xs => Some (x :: xs)
               | _, _ => None
               end
  end.

Definition entry_leb (a b : string * pyval) : bool := str_leb (fst a) (fst b).

Definition _framework_lifecycle_predicates (v : pyval) (label : string) : run (option pydict) :=
  match v with
  | PDict ((_ :: _) as d) =>
      if Z.of_nat (List.length d) <=? Z.of_nat (List.length FRAMEWORK_LIFECYCLE_PREDICATES)
      then match lifecycle_entries d with
           | Some items => ret (Some (mkdict (isort entry_leb items)))
           | None => error (label +:+ ".predicates contains an unsupported predicate") ;, ret None
           end
      else error (label +:+ ".predicates must be a non-empty Framework predicate object") ;, ret None
  | _ => error (label +:+ ".predicates must be a non-empty Framework predicate object") ;, ret None
  end.

Definition PStrs (l : list string) : pyval := PList (map PStr l).
Definition PInts (l : list Z) : pyval := PList (map PInt l).

(** An optional field of a dictionary under construction, when its validator
    returned a value. *)
Definition item {A} (key : string) (f : A -> pyval) (o : option A) : list (string * pyval) :=
  match o with Some a => [(key, f a)] | None => [] end.

(** [if name in value: ...] *)
Definition if_present {A} (name : string) (value : pydict) (f : pyval -> run (option A))
    : run (option A) :=
  match dict_find name value with Some v => f v | None => ret None end.

(** ** Expectations *)

Definition _normalise_framework_direct_expectation (expectation : pydict) (kind label : string)
    : run (option pydict) :=
  if String.eqb kind "http_status" then
    _require_exact_keys expectation ["kind"; "http_status"] [] label ;,
    do st <- _framework_http_status (dict_get "http_status" expectation) label;
    ret (option_map (fun z => mkdict [("kind", PStr kind); ("http_status", PInt z)]) st)
  else if String.eqb kind "rule_match" then
    _require_exact_keys expectation ["kind"; "rule_ids"] [] label ;,
    do rules <- _framework_rule_ids (dict_get "rule_ids" expectation) label;
    ret (option_map (fun l => mkdict [("kind", PStr kind); ("rule_ids", PInts l)]) rules)
  else if str_in kind ["request_headers"; "response_headers"] then
    _require_exact_keys expectation ["kind"; "names"] [] label ;,
    do names <- _framework_identifier_list (dict_get "names" expectation) label;
    ret (option_map (fun l => mkdict [("kind", PStr kind); ("names", PStrs l)]) names)
  else
    _require_exact_keys expectation ["kind"; "predicates"] [] label ;,
    do predicates <- _framework_lifecycle_predicates (dict_get "predicates" expectation) label;
    ret (option_map (fun p => mkdict [("kind", PStr kind); ("predicates", PDict p)]) predicates).

Definition _normalise_framework_action (expectation : pydict) (kind label : string)
    : run (option pydict) :=
  let optional := if String.eqb kind "intervention" then ["rule_ids"; "http_status"]
                  else ["rule_ids"] in
  _require_exact_keys expectation ["kind"; "action"] optional label ;,
  let action := dict_get "action" expectation in
  when (negb (_is_approved_literal action FRAMEWORK_ACTIONS))
    (error (label +:+ ".action is not a public Framework action")) ;,
  do st <- if_present "http_status" expectation (fun v => _framework_http_status v label);
  do rules <- if_present "rule_ids" expectation (fun v => _framework_rule_ids v label);
  ret (Some (mkdict ([("kind", PStr kind); ("action", action)]
                     ++ item "http_status" PInt st ++ item "rule_ids" PInts rules))).

(** The shared check of an [event_type]. *)
Definition event_type_value (v : pyval) (label : string) : run (option pyval) :=
  if _safe_framework_identifier v then ret (Some v)
  else error (label +:+ ".event_type is not a Framework identifier") ;, ret None.

Definition _normalise_framework_event (expectation : pydict) (label : string) : run (option pydict) :=
  _require_exact_keys expectation ["kind"] ["fields"; "event_type"] label ;,
  when (negb (dict_has "fields" expectation) && negb (dict_has "event_type" expectation))
    (error (label +:+ " needs fields or event_type")) ;,
  do fields <- if_present "fields" expectation (fun v => _framework_identifier_list v label);
  do event_type <- if_present "event_type" expectation (fun v => event_type_value v label);
  ret (Some (mkdict ([("kind", PStr "event")] ++ item "fields" PStrs fields
                     ++ item "event_type" (fun v => v) event_type))).

Definition _framework_expectation_states (kind : string) : list string :=
  if str_in kind ["request_body"; "response_body"] then FRAMEWORK_BODY_STATES
  else if String.eqb kind "transport" then FRAMEWORK_TRANSPORT_STATES
  else FRAMEWORK_CLEANUP_STATES.

Definition _normalise_framework_state (expectation : pydict) (kind label : string)
    : run (option pydict) :=
  _require_exact_keys expectation ["kind"; "state"] [] label ;,
  let state := dict_get "state" expectation in
  when (negb (_is_approved_literal state (_framework_expectation_states kind)))
    (error (label +:+ ".state is not valid for " +:+ kind)) ;,
  ret (Some (mkdict [("kind", PStr kind); ("state", state)])).

Definition _normalise_framework_not_applicable (expectation : pydict) (label : string)
    : run (option pydict) :=
  _require_exact_keys expectation ["kind"; "reason"] [] label ;,
  let reason := dict_get "reason" expectation in
  when (negb (_is_approved_literal reason FRAMEWORK_NOT_APPLICABLE_REASONS))
    (error (label +:+ ".reason is not a public not_applicable reason")) ;,
  ret (Some (mkdict [("kind", PStr "not_applicable"); ("reason", reason)])).

(** ** Canonical JSON

    [json.dumps] with sorted keys and [allow_nan=False].  A float literal that overflows is
    decoded to an infinity: a [PFloat] whose text is one of [NONFINITE]. *)

Definition NONFINITE : list string := ["inf"; "-inf"; "nan"].
Definition INT_MAX_STR_DIGITS : Z := 4300.
Definition short_int (z : Z) : bool := Z.abs z <? 10 ^ INT_MAX_STR_DIGITS.

Definition digit_limit : exn := ValueError "Exceeds the limit (4300 digits) for integer string conversion".
Definition int_text (z : Z) : res string := guard (short_int z) digit_limit ;;; Ok (dec z).
Definition float_text (r : string) : res string :=
  guard (negb (str_in r NONFINITE)) (ValueError "Out of range float values are not JSON compliant") ;;; Ok r.

(** The keys are sorted by the order of the language. *)
Definition json_key_leb {A} (a b : pyval * A) : bool :=
  match fst a, fst b with
  | PStr s, PStr t => str_leb s t
  | x, y => match num_value x, num_value y with Some p, Some q => QArith_base.Qle_bool p q | _, _ => true end
  end.
Definition key_text (k : pyval) : res string :=
  match k with
  | PStr s => Ok s
  | PNone => Ok "null"
  | PBool b => Ok (if b then "true" else "false")
  | PInt z => int_text z
  | PFloat _ r => float_text r
  | _ => Err (TypeError "keys must be str, int, float, bool or None")
  end.

Fixpoint json_encode (v : pyval) : res string :=
  match v with
  | PNone => Ok "null"
  | PBool b => Ok (if b then "true" else "false")
  | PInt z => int_text z
  | PFloat _ r => float_text r
  | PStr s => Ok (json_str s)
  | PList l =>
      let* parts := mapM (fun part => part) (map json_encode l) in
      Ok ("[" +:+ String.concat "," parts +:+ "]")
  | PDict d =>
      guard (sortable (map fst d)) (TypeError "'<' not supported between instances of the keys") ;;;
      let* parts := mapM (fun kv : pyval * res string => let* k := key_text (fst kv) in let* text := snd kv in
                                    Ok (json_str k +:+ ":" +:+ text))
                      (isort json_key_leb (map (fun kv => (fst kv, json_encode (snd kv))) d)) in
      Ok ("{" +:+ String.concat "," parts +:+ "}")
  end.

Definition canonical_json (v : pyval) : res string := json_encode v.

Example canonical_json_ex :
  canonical_json (PDict [(PStr "b", PList [PInt 1; PNone]); (PStr "a", PFloat (QArith_base.Qmake 1 2) "0.5")])
    = Ok (L2S [chr 123] +:+ json_str "a" +:+ ":0.5," +:+ json_str "b" +:+ ":[1,null]}") /\
  canonical_json (PList [PFloat (QArith_base.Qmake 1 1) "inf"]) = Err (ValueError "Out of range float values are not JSON compliant") /\
  canonical_json (PDict [(PStr "a", PNone); (PInt 1, PNone)])
    = Err (TypeError "'<' not supported between instances of the keys").
Proof. vm_compute. repeat split. Qed.

Fixpoint all_some {A} (l : list (option A)) : option (list A) :=
  match l with
  | [] => Some []
  | Some x :: r => option_map (cons x) (all_some r)
  | None :: _ => None
  end.

(** The conditions with their labels, in order; the recursive call is passed in. *)
Fixpoint conditions_run (normalise : pyval -> string -> run (option pydict)) (label : string)
    (index : Z) (conditions : list pyval) : run (list (option pydict)) :=
  match conditions with
  | [] => ret []
  | c :: r =>
      do x <- normalise c (label +:+ ".conditions[" +:+ dec index +:+ "]");
      do xs <- conditions_run normalise label (index + 1) r;
      ret (x :: xs)
  end.

Definition _normalise_framework_compound (normalise : pyval -> string -> run (option pydict))
    (expectation : pydict) (label : string) : run (option pydict) :=
  _require_exact_keys expectation ["kind"; "conditions"] [] label ;,
  match dict_get "conditions" expectation with
  | PList l =>
      let n := Z.of_nat (List.length l) in
      if (2 <=? n) && (n <=? MAX_COMPOUND_CONDITIONS) then
        do conditions <- conditions_run normalise label 0 l;
        match all_some conditions with
        | None => ret None
        | Some ds =>
            do fingerprints <- lift (mapM (fun d : pydict => canonical_json (PDict d)) ds);
            when (negb (str_nodup fingerprints))
              (error (label +:+ ".conditions contains duplicate conditions")) ;,
            ret (Some (mkdict [("kind", PStr "compound"); ("conditions", PList (map PDict ds))]))
        end
      else error (label +:+ ".conditions must contain 2 to 16 conditions") ;, ret None
  | _ => error (label +:+ ".conditions must contain 2 to 16 conditions") ;, ret None
  end.

Definition _normalise_framework_special_expectation
    (normalise : pyval -> string -> run (option pydict)) (expectation : pydict) (kind label : string)
    : run (option pydict) :=
  if str_in kind ["intervention"; "action"] then _normalise_framework_action expectation kind label
  else if String.eqb kind "event" then _normalise_framework_event expectation label
  else if str_in kind ["request_body"; "response_body"; "transport"; "cleanup"]
  then _normalise_framework_state expectation kind label
  else _normalise_framework_compound normalise expectation label.

Definition _normalise_framework_expectation_kind
    (normalise : pyval -> string -> run (option pydict)) (expectation : pydict) (kind label : string)
    : run (option pydict) :=
  if str_in kind ["http_status"; "rule_match"; "request_headers"; "response_headers"; "lifecycle"]
  then _normalise_framework_direct_expectation expectation kind label
  else if str_in kind ["intervention"; "action"; "event"; "request_body"; "response_body";
                       "transport"; "cleanup"; "compound"]
  then _normalise_framework_special_expectation normalise expectation kind label
  else _normalise_framework_not_applicable expectation label.

Definition legacy_rule_id (expectation : pydict) (label : string) (allow_legacy : bool)
    : run (option pydict) :=
  if negb allow_legacy
  then error (label +:+ " must normalize legacy rule_id before canonical validation") ;, ret None
  else
    _require_exact_keys expectation ["kind"; "value"] [] label ;,
    match dict_get "value" expectation with
    | PInt z =>
        if (1 <=? z) && (z <=? 9999999)
        then ret (Some (mkdict [("kind", PStr "rule_match"); ("rule_ids", PInts [z])]))
        else error (label +:+ ".value is not a bounded legacy rule_id") ;, ret None
    | _ => error (label +:+ ".value is not a bounded legacy rule_id") ;, ret None
    end.

(** The recursion stops below [MAX_EXPECTATION_DEPTH]: a fuel of
    [MAX_EXPECTATION_DEPTH + 2 - depth] is enough. *)
Fixpoint framework_expectation_at (fuel depth : nat) (allow_legacy : bool) (v : pyval) (label : string)
    : run (option pydict) :=
  match fuel with
  | O => raise OutOfFuel
  | S fuel' =>
      if Nat.ltb MAX_EXPECTATION_DEPTH depth
      then error (label +:+ " exceeds the maximum compound depth") ;, ret None
      else
        do m <- _as_mapping v label;
        match m with
        | None => ret None
        | Some expectation =>
            if _has_forbidden_metadata (PDict expectation)
            then error (label +:+ " contains raw-log, payload, or absolute-path metadata") ;, ret None
            else
              match dict_get "kind" expectation with
              | PStr kind =>
                  if String.eqb kind "rule_id" then legacy_rule_id expectation label allow_legacy
                  else if str_in kind EXPECTATION_KINDS
                  then _normalise_framework_expectation_kind
                         (framework_expectation_at fuel' (S depth) allow_legacy) expectation kind label
                  else error (label +:+ ".kind is unsupported") ;, ret None
              | _ => error (label +:+ ".kind is unsupported") ;, ret None
              end
        end
  end.

Definition _normalise_framework_expectation (v : pyval) (label : string) (depth : nat)
    (allow_legacy : bool) : run (option pydict) :=
  framework_expectation_at (MAX_EXPECTATION_DEPTH + 2 - depth) depth allow_legacy v label.

(** [normalize_framework_expectation], the public entry point. *)
Definition normalize_framework_expectation (expectation : pyval) : res pydict :=
  match _normalise_framework_expectation expectation "framework.expectation" 0 true with
  | (notes, Ok (Some d)) =>
      match hard notes with
      | [] => Ok d
      | _ => Err (ObservationInputError "invalid framework expectation")
      end
  | (_, Ok None) => Err (ObservationInputError "invalid framework expectation")
  | (_, Err e) => Err e
  end.

(** ** Observations *)

Definition OBSERVATION_FIELDS : list string :=
  ["http_status"; "action"; "rule_ids"; "event_fields"; "event_type"; "request_header_names";
   "response_header_names"; "request_body_state"; "response_body_state"; "transport"; "lifecycle";
   "cleanup"; "applicability"].

(** A value kept when it is one of the approved literals. *)
Definition approved_value (approved : list string) (message : string) (v : pyval)
    : run (option pyval) :=
  if _is_approved_literal v approved then ret (Some v) else error message ;, ret None.

Definition _normalise_framework_observation_scalars (o : pydict) (label : string)
    : run (list (string * pyval)) :=
  do st <- if_present "http_status" o (fun v => _framework_http_status v label);
  do action <- if_present "action" o
                 (approved_value FRAMEWORK_ACTIONS (label +:+ ".action is not a public Framework action"));
  do rules <- if_present "rule_ids" o (fun v => _framework_rule_ids v label);
  do event_type <- if_present "event_type" o (fun v => event_type_value v label);
  ret (item "http_status" PInt st ++ item "action" (fun v => v) action
       ++ item "rule_ids" PInts rules ++ item "event_type" (fun v => v) event_type).

Definition _normalise_framework_observation_lists (o : pydict) (label : string)
    : run (list (string * pyval)) :=
  do parts <- collect (fun field =>
    do names <- if_present field o (fun v => _framework_identifier_list v label);
    ret (item field PStrs names)) ["event_fields"; "request_header_names"; "response_header_names"];
  ret (concat parts).

Definition _normalise_framework_observation_states (o : pydict) (label : string)
    : run (list (string * pyval)) :=
  do parts <- collect (fun '(field, allowed) =>
    do state <- if_present field o
                  (approved_value allowed (label +:+ "." +:+ field +:+ " is not a public Framework value"));
    ret (item field (fun v => v) state))
    [("request_body_state", FRAMEWORK_BODY_STATES); ("response_body_state", FRAMEWORK_BODY_STATES);
     ("transport", FRAMEWORK_TRANSPORT_STATES); ("cleanup", FRAMEWORK_CLEANUP_STATES);
     ("applicability", FRAMEWORK_NOT_APPLICABLE_REASONS)];
  do lifecycle <- if_present "lifecycle" o (fun v => _framework_lifecycle_predicates v label);
  ret (concat parts ++ item "lifecycle" PDict lifecycle).

Definition _normalise_framework_observation (v : pyval) (label : string) : run (option pydict) :=
  do m <- _as_mapping v label;
  match m with
  | None => ret None
  | Some o =>
      if (match o with [] => true | _ => false end) || _has_forbidden_metadata (PDict o)
      then error (label +:+ " is empty or contains raw-log, payload, or absolute-path metadata") ;,
           ret None
      else
        _require_exact_keys o [] OBSERVATION_FIELDS label ;,
        do scalars <- _normalise_framework_observation_scalars o label;
        do lists <- _normalise_framework_observation_lists o label;
        do states <- _normalise_framework_observation_states o label;
        ret (Some (mkdict (scalars ++ lists ++ states)))
  end.

(** ** Mismatches *)

Definition report (ok : bool) (mismatch : string) : list string := if ok then [] else [mismatch].

Definition _framework_value_mismatch (observation : pydict) (field : string) (expected : pyval)
    (mismatch : string) : list string :=
  report (py_eq (dict_get field observation) expected) mismatch.

Definition list_items (v : pyval) : list pyval := match v with PList l => l | _ => [] end.

(** [set(a).issubset(b)] of two normalised lists. *)
Definition issubset (a b : pyval) : bool :=
  forallb (fun x => existsb (py_eq x) (list_items b)) (list_items a).

Definition _framework_subset_mismatch (expectation observation : pydict) (field mismatch : string)
    : list string :=
  report (issubset (dict_get_or (dict_get_or (PList []) "rule_ids" expectation) "names" expectation)
                   (dict_get_or (PList []) field observation)) mismatch.

Definition _framework_action_mismatches (expectation observation : pydict) : list string :=
  _framework_value_mismatch observation "action" (dict_get "action" expectation) "action"
  ++ (match dict_find "http_status" expectation with
      | Some v => _framework_value_mismatch observation "http_status" v "http_status"
      | None => []
      end)
  ++ (if dict_has "rule_ids" expectation
      then _framework_subset_mismatch expectation observation "rule_ids" "rule_ids" else []).

Definition _framework_event_mismatches (expectation observation : pydict) : list string :=
  (match dict_find "fields" expectation with
   | Some v => report (issubset v (dict_get_or (PList []) "event_fields" observation)) "event_fields"
   | None => []
   end)
  ++ match dict_find "event_type" expectation with
     | Some v => _framework_value_mismatch observation "event_type" v "event_type"
     | None => []
     end.

Definition SCALAR_FIELDS : list (string * (string * string)) :=
  [("request_body", ("request_body_state", "request_body"));
   ("response_body", ("response_body_state", "response_body"));
   ("transport", ("transport", "transport")); ("cleanup", ("cleanup", "cleanup"));
   ("not_applicable", ("applicability", "not_applicable"))].

Definition _framework_scalar_mismatch (expectation observation : pydict) (kind : string)
    : list string :=
  match lookup kind SCALAR_FIELDS with
  | Some (field, mismatch) =>
      _framework_value_mismatch observation field
        (dict_get_or (dict_get "reason" expectation) "state" expectation) mismatch
  | None => []
  end.

Definition lifecycle_mismatch (expectation observation : pydict) : list string :=
  let actual := match dict_get_or (PDict []) "lifecycle" observation with PDict d => d | _ => [] end in
  match dict_get "predicates" expectation with
  | PDict p => report (forallb (fun kv => py_eq (dict_get_key (fst kv) actual) (snd kv)) p) "lifecycle"
  | _ => []
  end.

(** Mismatches of a normalised expectation; the fuel bounds the nesting. *)
Fixpoint _framework_expectation_mismatches (fuel : nat) (expectation observation : pydict)
    : list string :=
  match fuel with
  | O => []
  | S fuel' =>
      match dict_get "kind" expectation with
      | PStr kind =>
          if String.eqb kind "compound" then
            concat (map (fun c => match c with
                                  | PDict d => _framework_expectation_mismatches fuel' d observation
                                  | _ => []
                                  end) (list_items (dict_get "conditions" expectation)))
          else if String.eqb kind "http_status" then
            _framework_value_mismatch observation "http_status" (dict_get "http_status" expectation)
              "http_status"
          else if str_in kind ["intervention"; "action"]
          then _framework_action_mismatches expectation observation
          else if String.eqb kind "rule_match"
          then _framework_subset_mismatch expectation observation "rule_ids" "rule_ids"
          else if String.eqb kind "event" then _framework_event_mismatches expectation observation
          else if String.eqb kind "request_headers"
          then _framework_subset_mismatch expectation observation "request_header_names" kind
          else if String.eqb kind "response_headers"
          then _framework_subset_mismatch expectation observation "response_header_names" kind
          else if String.eqb kind "lifecycle" then lifecycle_mismatch expectation observation
          else _framework_scalar_mismatch expectation observation kind
      | _ => []
      end
  end.

(** ** Cases *)

Definition CASE_FIELDS : list string :=
  ["framework_test_id"; "scenario_category"; "selected"; "executed"; "live_executed";
   "expectation"; "observation"; "result"; "failure_count"; "mismatch_count"].

Definition _validate_framework_case_identity (case : pydict) (label : string) : run unit :=
  when (negb (_safe_framework_identifier (dict_get "framework_test_id" case)))
    (error (label +:+ ".framework_test_id is not a Framework identifier")) ;,
  let category := dict_get "scenario_category" case in
  when (negb (is_none category) && negb (_safe_framework_identifier category))
    (error (label +:+ ".scenario_category must be Framework metadata or null")) ;,
  each (fun field => when (negb (_is_boolean (dict_get field case)))
                       (error (label +:+ "." +:+ field +:+ " must be a boolean")))
    ["selected"; "executed"; "live_executed"] ;,
  when (negb (is_true (dict_get "selected" case)))
    (error (label +:+ ".selected must be true in the selected case list")).

Definition _validate_framework_case_status (case : pydict) (label : string) : run pyval :=
  let result := dict_get "result" case in
  when (negb (_is_approved_literal result FRAMEWORK_CASE_RESULTS))
    (error (label +:+ ".result uses an unsupported status")) ;,
  ret result.

Definition _validate_framework_case_counts (case : pydict) (label : string) : run unit :=
  each (fun field => when (negb (is_counter (dict_get field case)))
                       (error (label +:+ "." +:+ field +:+ " must be a bounded integer")))
    ["failure_count"; "mismatch_count"].

Definition expectation_fuel : nat := MAX_EXPECTATION_DEPTH + 2.

Definition _validate_framework_case_consistency (result : pyval) (expectation observation : option pydict)
    (label : string) : run unit :=
  match expectation, observation with
  | Some e, Some o =>
      let mismatches := _framework_expectation_mismatches expectation_fuel e o in
      let not_applicable := eq_str (dict_get "kind" e) "not_applicable" in
      when (negb (match mismatches with [] => true | _ => false end))
        (error (label +:+ ".expectation and observation disagree: "
                +:+ py_join ", " (sort_strs (dedup String.eqb mismatches)))) ;,
      when (not_applicable && negb (eq_str result "NOT_APPLICABLE"))
        (error (label +:+ ".not_applicable expectation must report NOT_APPLICABLE")) ;,
      when (negb not_applicable && eq_str result "NOT_APPLICABLE")
        (error (label +:+ ".NOT_APPLICABLE result needs a not_applicable expectation"))
  | _, _ => ret tt
  end.

(** [result in {"PASS", ...}] raises [TypeError] when [result] is a list or a
    mapping. *)
Definition _validate_framework_case_execution (case : pydict) (result : pyval) (label : string)
    : run unit :=
  if negb (hashable result) then raise (TypeError "unhashable type")
  else
    (if in_strs result ["PASS"; "FAIL"; "CANCELLED"]
     then when (negb (is_true (dict_get "executed" case)))
            (error (label +:+ ".result requires executed=true"))
     else when (_is_approved_literal result FRAMEWORK_CASE_RESULTS &&
                (negb (is_false (dict_get "executed" case))
                 || negb (is_false (dict_get "live_executed" case))))
            (error (label +:+ ".non-executed result cannot claim live execution"))) ;,
    when (eq_str result "PASS" && (negb (eq_int (dict_get "failure_count" case) 0)
                                   || negb (eq_int (dict_get "mismatch_count" case) 0)))
      (error (label +:+ ".PASS result cannot retain failures or mismatches")) ;,
    when (eq_str result "PASS" && negb (is_true (dict_get "live_executed" case)))
      (error (label +:+ ".PASS result requires live_executed=true")) ;,
    when (eq_str result "FAIL" && eq_int (dict_get "failure_count" case) 0
          && eq_int (dict_get "mismatch_count" case) 0)
      (error (label +:+ ".FAIL result needs a failure or mismatch count")).

Record case_counts := {
  selected_count : Z; executed_count : Z; passed_count : Z; failed_count : Z; cancelled_count : Z;
  unsupported_count : Z; not_applicable_count : Z; not_executed_count : Z; failure_count : Z;
  mismatch_count : Z }.

Definition no_counts : case_counts :=
  {| selected_count := 0; executed_count := 0; passed_count := 0; failed_count := 0;
     cancelled_count := 0; unsupported_count := 0; not_applicable_count := 0;
     not_executed_count := 0; failure_count := 0; mismatch_count := 0 |}.

Definition add_counts (a b : case_counts) : case_counts :=
  {| selected_count := selected_count a + selected_count b;
     executed_count := executed_count a + executed_count b;
     passed_count := passed_count a + passed_count b;
     failed_count := failed_count a + failed_count b;
     cancelled_count := cancelled_count a + cancelled_count b;
     unsupported_count := unsupported_count a + unsupported_count b;
     not_applicable_count := not_applicable_count a + not_applicable_count b;
     not_executed_count := not_executed_count a + not_executed_count b;
     failure_count := failure_count a + failure_count b;
     mismatch_count := mismatch_count a + mismatch_count b |}.

(** The counts by field name, in the order of [_framework_count_fields]. *)
Definition count_items (c : case_counts) : list (string * Z) :=
  [("selected_count", selected_count c); ("executed_count", executed_count c);
   ("passed_count", passed_count c); ("failed_count", failed_count c);
   ("cancelled_count", cancelled_count c); ("unsupported_count", unsupported_count c);
   ("not_applicable_count", not_applicable_count c); ("not_executed_count", not_executed_count c);
   ("failure_count", failure_count c); ("mismatch_count", mismatch_count c)].

Definition _framework_count_fields : list string := map fst (count_items no_counts).

Definition tally (b : bool) : Z := if b then 1 else 0.
Definition counter_value (v : pyval) : Z :=
  match v with PInt z => if is_counter v then z else 0 | _ => 0 end.

Definition counts_of_case (case : pydict) (result : pyval) : case_counts :=
  {| selected_count := tally (is_true (dict_get "selected" case));
     executed_count := tally (is_true (dict_get "executed" case));
     passed_count := tally (eq_str result "PASS"); failed_count := tally (eq_str result "FAIL");
     cancelled_count := tally (eq_str result "CANCELLED");
     unsupported_count := tally (eq_str result "UNSUPPORTED");
     not_applicable_count := tally (eq_str result "NOT_APPLICABLE");
     not_executed_count := tally (eq_str result "NOT_EXECUTED");
     failure_count := counter_value (dict_get "failure_count" case);
     mismatch_count := counter_value (dict_get "mismatch_count" case) |}.

Definition _validate_framework_case (v : pyval) (label : string) : run case_counts :=
  do m <- _as_mapping v label;
  match m with
  | None => ret no_counts
  | Some case =>
      _require_exact_keys case CASE_FIELDS [] label ;,
      _validate_framework_case_identity case label ;,
      do result <- _validate_framework_case_status case label;
      _validate_framework_case_counts case label ;,
      do expectation <- _normalise_framework_expectation (dict_get "expectation" case)
                          (label +:+ ".expectation") 0 false;
      do observation <- _normalise_framework_observation (dict_get "observation" case)
                          (label +:+ ".observation");
      _validate_framework_case_consistency result expectation observation label ;,
      _validate_framework_case_execution case result label ;,
      ret (counts_of_case case result)
  end.

(** ** Aggregates *)

Definition case_identifier (v : pyval) : option string :=
  match v with PDict d => opt_str (dict_get "framework_test_id" d) | _ => None end.

Fixpoint _validate_framework_cases (index : Z) (cases : list pyval) (framework_ids : list string)
    (actual : case_counts) : run case_counts :=
  match cases with
  | [] => ret actual
  | case :: rest =>
      let id := case_identifier case in
      match id with
      | Some i => when (str_in i framework_ids)
                    (error "framework.cases contains duplicate framework_test_id values")
      | None => ret tt
      end ;,
      do counts <- _validate_framework_case case ("framework.cases[" +:+ dec index +:+ "]");
      _validate_framework_cases (index + 1) rest
        (match id with Some i => i :: framework_ids | None => framework_ids end)
        (add_counts actual counts)
  end.

Definition _validate_framework_header (framework : pydict) : run unit :=
  _require_exact_keys framework
    (["selection_status"; "execution_status"; "validation_status"; "cases"] ++ _framework_count_fields)
    [] "framework" ;,
  when (negb (_is_approved_literal (dict_get "selection_status" framework) ["SELECTED"; "NONE_SELECTED"]))
    (error "framework.selection_status uses an unsupported status") ;,
  when (negb (_is_approved_literal (dict_get "execution_status" framework) ["RUN"; "NOT_RUN"]))
    (error "framework.execution_status uses an unsupported status") ;,
  when (negb (_is_approved_literal (dict_get "validation_status" framework)
                ["CONTRACT_VALIDATED"; "VALIDATION_FAILED"; "PARTIAL"]))
    (error "framework.validation_status uses an unsupported status") ;,
  each (fun field => when (negb (is_counter (dict_get field framework)))
                       (error ("framework." +:+ field +:+ " must be a bounded integer")))
    _framework_count_fields.

Definition _validate_framework_aggregate (framework : pydict) (actual : case_counts) : run unit :=
  each (fun '(field, count) => when (negb (eq_int (dict_get field framework) count))
                                 (error ("framework." +:+ field +:+ " does not match framework.cases")))
    (count_items actual) ;,
  when (negb (selected_count actual =? executed_count actual + unsupported_count actual
                                       + not_applicable_count actual + not_executed_count actual))
    (error "framework selected-count equation is violated") ;,
  when (negb (executed_count actual =? passed_count actual + failed_count actual
                                       + cancelled_count actual))
    (error "framework executed-count equation is violated") ;,
  when (negb (eq_str (dict_get "selection_status" framework)
                (if selected_count actual =? 0 then "NONE_SELECTED" else "SELECTED")))
    (error "framework.selection_status contradicts framework.cases") ;,
  when (negb (eq_str (dict_get "execution_status" framework)
                (if executed_count actual =? 0 then "NOT_RUN" else "RUN")))
    (error "framework.execution_status contradicts framework.cases").

Definition _validate_framework_disposition (framework : pydict) (actual : case_counts) : run unit :=
  when (selected_count actual =? 0) (partial "framework has no selected case for a runtime PASS") ;,
  when (negb (selected_count actual =? executed_count actual))
    (partial "framework selected case was not executed") ;,
  when (negb (executed_count actual =? passed_count actual))
    (partial "framework executed case is not a PASS") ;,
  when (negb (eq_str (dict_get "validation_status" framework) "CONTRACT_VALIDATED"))
    (partial "framework validation_status is not CONTRACT_VALIDATED") ;,
  when (negb (failure_count actual =? 0) || negb (mismatch_count actual =? 0))
    (partial "framework failure_count or mismatch_count is non-zero").

Definition _validate_framework (v : pyval) : run (option pydict) :=
  do m <- _as_mapping v "framework";
  match m with
  | None => ret None
  | Some framework =>
      _validate_framework_header framework ;,
      match dict_get "cases" framework with
      | PList cases =>
          let n := Z.of_nat (List.length cases) in
          if (1 <=? n) && (n <=? MAX_EXPECTATION_ITEMS) then
            do actual <- _validate_framework_cases 0 cases [] no_counts;
            _validate_framework_aggregate framework actual ;,
            _validate_framework_disposition framework actual ;,
            ret (Some framework)
          else error "framework.cases must be a bounded non-empty list" ;, ret (Some framework)
      | _ => error "framework.cases must be a bounded non-empty list" ;, ret (Some framework)
      end
  end.
