(* ===== verification/ObservationEvidence.v ===== *)
(** * Runtime observations: evidence files (runtime_observation.py)

    The descriptor-relative reader of evidence files over an operating system
    whose answers are the fields of a record.  A directory descriptor is the node
    it was opened on, so a path component is looked up in the node that was
    opened, never by path again; what [stat] says before an [open] and what
    [fstat] says after it are separate answers, as a concurrent change may come
    between the calls.  Closing descriptors is not modelled. *)

From S2P Require Export Observation.

(** ** Paths *)

Definition path := list string.

(** An absolute path: its components, and whether it starts with exactly two
    slashes, which POSIX and [pathlib] keep apart from one. *)
Record abs_path := { double : bool; parts : path }.

(** [os.path.normpath] on the components: [""], ["."] and [".."] are resolved. *)
Definition normalise_step (acc : path) (c : string) : path :=
  if str_in c [""; "."] then acc
  else if String.eqb c ".." then match acc with [] => [] | _ :: r => r end
  else c :: acc.

Definition double_slash (s : string) : bool := starts_with "//" s && negb (starts_with "///" s).

(** [os.path.abspath]; the working directory is an absolute path with one slash. *)
Definition abspath (cwd : path) (s : string) : abs_path :=
  {| double := double_slash s;
     parts := rev (fold_left normalise_step (py_split "/" s)
                     (if starts_with "/" s then [] else rev cwd)) |}.

Definition slashes (a : abs_path) : string := if double a then "//" else "/".

(** [str(a)] *)
Definition path_text (a : abs_path) : string := slashes a +:+ py_join "/" (parts a).

(** [str(a / p)]: an absolute [p] replaces [a]. *)
Definition join_path (a : abs_path) (p : string) : string :=
  if starts_with "/" p then p else slashes a +:+ py_join "/" (parts a ++ [p]).

(** The components of [target] below [root]. *)
Fixpoint relative_to (root target : path) : option path :=
  match root, target with
  | [], t => Some t
  | r :: root', c :: target' => if String.eqb r c then relative_to root' target' else None
  | _ :: _, [] => None
  end.

(** [PurePosixPath(value).parts] of a relative path: empty and ["."] components
    are dropped, [".."] stays. *)
Definition pure_parts (value : string) : path :=
  List.filter (fun c => negb (str_in c [""; "."])) (py_split "/" value).

Definition backslash : string := L2S [chr 92].

Definition _safe_relative_evidence_path (v : pyval) : bool :=
  match v with
  | PStr s =>
      negb (String.eqb s "") && (str_len s <=? 512)
      && negb (_is_absolute_path_text s) && negb (contains backslash s)
      && forallb (fun part => negb (str_in part [""; "."; ".."])) (pure_parts s)
  | _ => false
  end.

(** ** Files *)

Record stat := {
  st_dev : Z; st_ino : Z; st_fmt : Z; st_mode : Z; st_size : Z; st_nlink : Z; st_uid : Z;
  st_mtime_ns : Z; st_ctime_ns : Z }.

Definition S_IFDIR : Z := 16384.
Definition S_IFREG : Z := 32768.
Definition S_ISVTX : Z := 512.

(** An opened file: what [fstat] says after the open, what [os.read] delivers,
    what [fstat] says after reading. *)
Record opened_file := { opened : stat; content : string; final : stat }.

Record os := {
  geteuid : Z;
  cwd : path;
  node : Type;
  root_node : node;
  root_stat : stat;
  stat_at : node -> string -> res stat;
  open_directory : node -> string -> res (node * stat);
  open_file : node -> string -> res opened_file }.

Definition input_error {A} (m : string) : res A := Err (ObservationInputError m).

Definition MAX_OBSERVATION_BYTES : Z := 1024 * 1024.

Section Reader.
Variable sys : os.

Definition _validate_directory_details (details : stat) (is_root private : bool) : res unit :=
  if negb (st_fmt details =? S_IFDIR)
  then input_error "evidence path contains a non-directory component"
  else if private then
    if negb (st_uid details =? geteuid sys) || negb (st_mode details =? 448)
    then input_error "evidence root and descendants must be current-user 0700 directories"
    else Ok tt
  else
    let public_sticky := (st_uid details =? 0) && negb (Z.land (st_mode details) S_ISVTX =? 0)
                         && negb (Z.land (st_mode details) 18 =? 0) in
    if negb (Z.land (st_mode details) 18 =? 0) && negb public_sticky
    then input_error "evidence path has a group- or world-writable directory"
    else if negb ((st_uid details =? 0) || (st_uid details =? geteuid sys))
    then input_error "evidence path has an untrusted directory owner"
    else if is_root && negb public_sticky && negb (st_uid details =? 0)
    then input_error "filesystem root has an untrusted owner"
    else Ok tt.

Definition same_object (a b : stat) : bool :=
  (st_dev a =? st_dev b) && (st_ino a =? st_ino b) && (st_fmt a =? st_fmt b).

(** One component of a walk: [stat], check, [open], [fstat], compare, check. *)
Definition enter_directory (n : node sys) (component : string) (private : bool)
    (changed : string) : res (node sys) :=
  let* before := stat_at sys n component in
  _validate_directory_details before false private ;;;
  let* (child, after) := open_directory sys n component in
  if negb (same_object before after) then input_error changed
  else _validate_directory_details after false private ;;; Ok child.

(** The walk of [_open_secure_directory] below the root.  A component is private
    when its path, built from ["/"], equals the path of the evidence root: the last
    component, unless the root was given with two slashes. *)
Fixpoint walk_root (n : node sys) (components : path) (single : bool) : res (node sys) :=
  match components with
  | [] => Ok n
  | c :: rest =>
      match stat_at sys n c with
      | Err (FileNotFoundError _) => input_error "evidence root is unavailable"
      | _ =>
          let* child := enter_directory n c (single && match rest with [] => true | _ => false end)
                          "evidence directory changed during validation" in
          walk_root child rest single
      end
  end.

(** The descriptor and the components of the path the walk has built. *)
Definition _open_secure_directory (root : string) : res (node sys * path) :=
  let p := abspath (cwd sys) root in
  if negb (double p) && match parts p with [] => true | _ => false end
  then input_error "evidence root must be narrower than filesystem root"
  else
    _validate_directory_details (root_stat sys) true false ;;;
    let* n := walk_root (root_node sys) (parts p) (negb (double p)) in Ok (n, parts p).

Definition _validate_file_details (details : stat) (label : string) (maximum : Z) : res unit :=
  if negb (st_fmt details =? S_IFREG) then input_error (label +:+ " must be a regular file")
  else if negb (st_nlink details =? 1) then input_error (label +:+ " must not be hard-linked")
  else if negb (st_uid details =? geteuid sys)
  then input_error (label +:+ " must be owned by the current user")
  else if negb (st_mode details =? 384) then input_error (label +:+ " must have exact mode 0600")
  else if maximum <? st_size details
  then input_error (label +:+ " exceeds the bounded evidence size")
  else Ok tt.

Definition _file_snapshot (d : stat) : list Z :=
  [st_dev d; st_ino d; st_fmt d; st_size d; st_nlink d; st_uid d; st_mtime_ns d; st_ctime_ns d].

Definition same_snapshot (a b : stat) : bool :=
  forallb (fun p => fst p =? snd p) (combine (_file_snapshot a) (_file_snapshot b)).

Fixpoint walk_private (n : node sys) (components : path) : res (node sys) :=
  match components with
  | [] => Ok n
  | c :: rest =>
      let* child := enter_directory n c true "evidence directory changed during validation" in
      walk_private child rest
  end.

(** [target.relative_to(root)] for a [root] with one slash. *)
Definition below (root : path) (target : abs_path) : option path :=
  if double target then None else relative_to root (parts target).

Definition read_bounded_evidence_file (file evidence_root label : string) (maximum : Z) : res string :=
  let* (root_descriptor, root) := _open_secure_directory evidence_root in
  match below root (abspath (cwd sys) file) with
  | None => input_error "evidence file escapes its declared root"
  | Some [] => input_error "evidence root cannot itself be an evidence file"
  | Some relative =>
      let* n := walk_private root_descriptor (List.removelast relative) in
      let filename := List.last relative "" in
      let* before := stat_at sys n filename in
      _validate_file_details before label maximum ;;;
      let* f := open_file sys n filename in
      _validate_file_details (opened f) label maximum ;;;
      if negb (same_snapshot before (opened f))
      then input_error "evidence file changed between validation and open"
      else
        let data := L2S (List.firstn (Z.to_nat (maximum + 1)) (S2L (content f))) in
        _validate_file_details (final f) label maximum ;;;
        if negb (same_snapshot (opened f) (final f))
        then input_error "evidence file changed while reading"
        else if maximum <? str_len data then input_error "evidence file grew beyond the bounded size"
        else Ok data
  end.
End Reader.
