(* ===== verification/ObservationDocument.v ===== *)
(** * Runtime observations: provenance and the document (runtime_observation.py) *)

From S2P Require Export ObservationFramework ObservationEvidence.

(** ** Policy *)

Record policy := {
  policy_name : string; allow_partial : bool; allow_fixture_evidence : bool;
  evidence_root : pyval }.

Definition named_policy (name : string) (root : pyval) : res policy :=
  if str_in name ["strict"; "partial"; "fixture"]
  then Ok {| policy_name := name; allow_partial := String.eqb name "partial";
             allow_fixture_evidence := String.eqb name "fixture"; evidence_root := root |}
  else Err (ValueError "policy name must be strict, partial, or fixture").

Definition _normalise_policy (p : pyval) : res policy :=
  match p with
  | PNone => named_policy "strict" PNone
  | PStr name => named_policy name PNone
  | PDict d => named_policy (py_str (dict_get_or (PStr "strict") "name" d)) (dict_get "evidence_root" d)
  | _ => Err (TypeError "policy must be a string, mapping, or None")
  end.

(** ** Producers *)

Definition eq_opt_str (v : pyval) (o : option string) : bool :=
  match o with Some s => eq_str v s | None => is_none v end.

Definition _validate_nginx_producer (adapter : AdapterInterface) (p evidence_kind : pyval) : run unit :=
  when (negb (eq_opt_str p (producer adapter)))
    (error "identity.producer is not approved for the protected NGINX boundary") ;,
  when (negb (eq_str evidence_kind "protected_runtime_evidence"))
    (error "provenance.evidence_kind is not approved for the protected NGINX boundary").

Definition _validate_fixture_producer (adapter : AdapterInterface) (p : pyval) (pol : policy) : run unit :=
  when (negb (eq_opt_str p (fixture_producer adapter)))
    (error "fixture evidence is not bound to its adapter fixture producer") ;,
  when (negb (allow_fixture_evidence pol))
    (error "fixture evidence is forbidden by the strict runtime policy").

Definition _validate_unsupported_live_producer (adapter : AdapterInterface) : run unit :=
  error (adapter_id adapter +:+ " has no approved live runtime producer").

Definition _validate_live_producer (adapter : AdapterInterface) (p evidence_kind : pyval) : run unit :=
  when (negb (eq_opt_str p (producer adapter)))
    (error "identity.producer is not approved for the connector") ;,
  when (negb (eq_str evidence_kind "structured_connector_evidence"))
    (error "provenance.evidence_kind is not approved for the connector producer").

Definition PRODUCER_VERSION : string := "1.0.0".

Definition _validate_producer_binding (identity : option pydict) (provenance : pydict) (pol : policy)
    : run unit :=
  match identity with
  | None => ret tt
  | Some i =>
      let p := dict_get "producer" i in
      let evidence_kind := dict_get "evidence_kind" provenance in
      when (negb (eq_str (dict_get "producer_version" i) PRODUCER_VERSION))
        (error "identity.producer_version is not an approved contract producer version") ;,
      match identity_adapter i with
      | Err _ => ret tt
      | Ok adapter =>
          if protected_separate adapter then _validate_nginx_producer adapter p evidence_kind
          else if eq_str evidence_kind "canonical_fixture"
          then _validate_fixture_producer adapter p pol
          else if negb (live_producer_supported adapter)
          then _validate_unsupported_live_producer adapter
          else _validate_live_producer adapter p evidence_kind
      end
  end.

(** ** Evidence records *)

Definition MAX_EVIDENCE_FILES : Z := 32.

Definition _validate_evidence_record_kind (record_kind evidence_kind : pyval) (label : string)
    : run unit :=
  when (negb (_is_approved_literal record_kind CANONICAL_EVIDENCE_RECORD_KINDS))
    (error (label +:+ ".kind is not a canonical evidence kind")) ;,
  when (eq_str record_kind "canonical_fixture" && negb (eq_str evidence_kind "canonical_fixture"))
    (error "fixture evidence record cannot support a live runtime claim") ;,
  when (_is_approved_literal record_kind LIVE_EVIDENCE_KINDS && eq_str evidence_kind "canonical_fixture")
    (error "live evidence record cannot be relabelled as a fixture") ;,
  when (negb (eq_str record_kind "manifest") && negb (py_eq record_kind evidence_kind))
    (error "provenance evidence record kind does not match the producer evidence kind").

(** A set of texts with one more text, when the value is one. *)
Definition add_text (v : pyval) (l : list string) : list string :=
  match v with PStr s => s :: l | _ => l end.

Definition _validate_evidence_record_uniqueness (r : pydict) (names paths : list string)
    : run (list string * list string) :=
  when (in_strs (dict_get "name" r) names) (error "provenance.evidence contains duplicate names") ;,
  when (in_strs (dict_get "path" r) paths) (error "provenance.evidence contains duplicate paths") ;,
  ret (add_text (dict_get "name" r) names, add_text (dict_get "path" r) paths).

(** The records found so far, whether one is bound to the evidence kind, and the
    names and paths seen. *)
Record evidence_state := {
  records : list pydict; bound : bool; names : list string; paths : list string }.

Definition _validate_evidence_record (index : Z) (v evidence_kind : pyval) (s : evidence_state)
    : run evidence_state :=
  let label := "provenance.evidence[" +:+ dec index +:+ "]" in
  do m <- _as_mapping v label;
  match m with
  | None => ret s
  | Some r =>
      _require_exact_keys r ["name"; "path"; "sha256"; "kind"] [] label ;,
      when (negb (_safe_token (dict_get "name" r))) (error (label +:+ ".name must be a bounded token")) ;,
      when (negb (_safe_relative_evidence_path (dict_get "path" r)))
        (error (label +:+ ".path must be a safe relative path")) ;,
      when (negb (matches SHA256 (dict_get "sha256" r)))
        (error (label +:+ ".sha256 must be a SHA-256 digest")) ;,
      _validate_evidence_record_kind (dict_get "kind" r) evidence_kind label ;,
      do np <- _validate_evidence_record_uniqueness r (names s) (paths s);
      ret {| records := records s ++ [r]; bound := bound s || py_eq (dict_get "kind" r) evidence_kind;
             names := fst np; paths := snd np |}
  end.

Fixpoint evidence_records (index : Z) (evidence : list pyval) (evidence_kind : pyval)
    (s : evidence_state) : run evidence_state :=
  match evidence with
  | [] => ret s
  | v :: rest => do s' <- _validate_evidence_record index v evidence_kind s;
                 evidence_records (index + 1) rest evidence_kind s'
  end.

Definition _validate_evidence_records (evidence evidence_kind : pyval) : run (list pydict) :=
  match evidence with
  | PList ((_ :: _) as l) =>
      if Z.of_nat (List.length l) <=? MAX_EVIDENCE_FILES then
        do s <- evidence_records 0 l evidence_kind
                  {| records := []; bound := false; names := []; paths := [] |};
        when (negb (bound s))
          (error "provenance.evidence needs connector-bound evidence, not only a manifest") ;,
        ret (records s)
      else error "provenance.evidence must be a bounded non-empty list" ;, ret []
  | _ => error "provenance.evidence must be a bounded non-empty list" ;, ret []
  end.

(** ** Provenance *)

Section Document.
(** [hashlib.sha256(data).hexdigest()] and the system evidence files are read
    from. *)
Variable sha256 : string -> string.
Variable sys : os.

Definition manifest_item (r : pydict) : list (string * pyval) :=
  [("kind", dict_get "kind" r); ("name", dict_get "name" r); ("path", dict_get "path" r);
   ("sha256", dict_get "sha256" r)].

(** The order of [(str(name), str(path))]. *)
Definition manifest_leb (a b : pydict) : bool :=
  let n x := py_str (dict_get "name" x) in
  if String.eqb (n a) (n b)
  then str_leb (py_str (dict_get "path" a)) (py_str (dict_get "path" b))
  else str_leb (n a) (n b).

(** [str(v)], which refuses an integer beyond the limit of digits wherever it occurs; a key
    is no container. *)
Definition short_key (k : pyval) : bool := match k with PInt z => short_int z | _ => true end.
Fixpoint short_ints (v : pyval) : bool :=
  match v with
  | PInt z => short_int z
  | PList l => forallb short_ints l
  | PDict d => forallb (fun kv => short_key (fst kv) && short_ints (snd kv)) d
  | _ => true
  end.
Definition str_checked (v : pyval) : res unit := guard (short_ints v) digit_limit.

(** The keys of the sort are computed first. *)
Definition evidence_manifest_digest (evidence : list pydict) : res string :=
  let normalized := map (fun r => mkdict (manifest_item r)) evidence in
  forM (fun item => str_checked (dict_get "name" item) ;;; str_checked (dict_get "path" item)) normalized ;;;
  let* text := canonical_json (PList (map PDict (isort manifest_leb normalized))) in
  Ok (sha256 text).

(** The loop over the records stops at the first unreadable one.  A record without a path is one already reported: [record["path"]]
    raises [KeyError], which is not caught. *)
Fixpoint referenced_evidence (root : abs_path) (rs : list pydict) : run unit :=
  match rs with
  | [] => ret tt
  | r :: rest =>
      match dict_find "path" r with
      | None => raise (KeyError "path")
      | Some p =>
          match read_bounded_evidence_file sys (join_path root (py_str p)) (path_text root) "referenced evidence"
                  MAX_OBSERVATION_BYTES with
          | Err (ObservationInputError _ | OSError _ | FileNotFoundError _) =>
              error "referenced evidence is unavailable or unsafe"
          | Err e => raise e
          | Ok data =>
              match dict_find "sha256" r with
              | None => raise (KeyError "sha256")
              | Some d =>
                  when (negb (eq_str d (sha256 data)))
                    (error "referenced evidence digest does not match") ;,
                  referenced_evidence root rest
              end
          end
      end
  end.

Definition _validate_referenced_evidence (root : pyval) (rs : list pydict) : run unit :=
  match root, rs with
  | PNone, _ | _, [] => ret tt
  | PStr s, _ => referenced_evidence (abspath (cwd sys) s) rs
  | _, _ => raise (TypeError "expected str, bytes or os.PathLike object")
  end.

Definition _validate_provenance_header (provenance : pydict) : run unit :=
  _require_exact_keys provenance
    ["evidence_kind"; "fixture_id"; "source_contract"; "manifest_digest"; "evidence_digest";
     "contract_schema_version"; "producer_version"; "evidence"]
    ["validation_timestamp"; "validation_basis"] "provenance" ;,
  when (negb (dict_has "validation_timestamp" provenance) && negb (dict_has "validation_basis" provenance))
    (error "provenance needs a timestamp or deterministic validation basis") ;,
  when (dict_has "validation_timestamp" provenance
        && negb (matches TIMESTAMP (dict_get "validation_timestamp" provenance)))
    (error "provenance.validation_timestamp is not an ISO-8601 UTC timestamp") ;,
  when (dict_has "validation_basis" provenance
        && negb (eq_str (dict_get "validation_basis" provenance) "evidence-digest-v1"))
    (error "provenance.validation_basis is unsupported").

Definition _validate_provenance_kind (provenance : pydict) : run unit :=
  let evidence_kind := dict_get "evidence_kind" provenance in
  when (negb (_is_approved_literal evidence_kind CANONICAL_EVIDENCE_KINDS))
    (error "provenance.evidence_kind is not canonical") ;,
  when (_is_approved_literal evidence_kind RAW_EVIDENCE_KINDS)
    (error "provenance.evidence_kind cannot name raw or synthetic evidence").

Definition SCHEMA_VERSION : Z := 1.

Definition _validate_provenance_fields (provenance : pydict) (identity : option pydict) : run unit :=
  each (fun field => _check_string_field provenance field "provenance")
    ["fixture_id"; "source_contract"; "producer_version"] ;,
  each (fun field => when (negb (matches SHA256 (dict_get field provenance)))
                       (error ("provenance." +:+ field +:+ " must be a SHA-256 digest")))
    ["manifest_digest"; "evidence_digest"] ;,
  when (negb (eq_int (dict_get "contract_schema_version" provenance) SCHEMA_VERSION))
    (error "provenance.contract_schema_version does not match schema_version") ;,
  match identity with
  | Some i => when (negb (py_eq (dict_get "producer_version" provenance) (dict_get "producer_version" i)))
                (error "provenance.producer_version does not match identity.producer_version")
  | None => ret tt
  end.

Definition _validate_provenance_evidence_root (evidence_kind : pyval) (valid_records : list pydict)
    (pol : policy) : run unit :=
  let root := evidence_root pol in
  if is_none root && negb (eq_str evidence_kind "canonical_fixture")
  then if allow_partial pol
       then partial "live runtime evidence requires a private evidence root"
       else error "live runtime evidence requires a private evidence root"
  else if negb (is_none root) && negb (match valid_records with [] => true | _ => false end)
  then _validate_referenced_evidence root valid_records
  else ret tt.

Definition _validate_provenance (v : pyval) (identity : option pydict) (pol : policy)
    : run (option pydict) :=
  do m <- _as_mapping v "provenance";
  match m with
  | None => ret None
  | Some provenance =>
      _validate_provenance_header provenance ;,
      _validate_provenance_kind provenance ;,
      _validate_provenance_fields provenance identity ;,
      let evidence_kind := dict_get "evidence_kind" provenance in
      _validate_producer_binding identity provenance pol ;,
      do valid_records <- _validate_evidence_records (dict_get "evidence" provenance) evidence_kind;
      (match valid_records with
       | [] => ret tt
       | _ :: _ => do digest <- lift (evidence_manifest_digest valid_records);
                   when (negb (eq_str (dict_get "evidence_digest" provenance) digest))
                     (error "provenance.evidence_digest does not bind the evidence inventory")
       end) ;,
      when (_has_forbidden_metadata (PDict provenance))
        (error "provenance contains raw-log, payload, or absolute-path metadata") ;,
      _validate_provenance_evidence_root evidence_kind valid_records pol ;,
      ret (Some provenance)
  end.

(** ** The document *)

Definition DOCUMENT_FIELDS : list string :=
  ["schema_version"; "identity"; "runtime"; "framework"; "isolation"; "cleanup"; "provenance"].

Definition document_requirements (identity : option pydict) : option requirement :=
  match identity with
  | Some i => match dict_get "profile" i with PStr p => lookup p PROFILE_REQUIREMENTS | _ => None end
  | None => None
  end.

Definition _validate_document (observation : pyval) (expected_identity : option pydict) (pol : policy)
    : run (option pydict * option pydict * option pydict) :=
  do m <- _as_mapping observation "runtime observation";
  match m with
  | None => ret (None, None, None)
  | Some document =>
      _require_exact_keys document DOCUMENT_FIELDS [] "runtime observation" ;,
      when (negb (eq_int (dict_get "schema_version" document) SCHEMA_VERSION))
        (error "schema_version is unsupported") ;,
      do identity <- _validate_identity (dict_get "identity" document) expected_identity;
      let provenance_evidence_kind := match dict_get "provenance" document with
                                      | PDict p => dict_get "evidence_kind" p
                                      | _ => PNone
                                      end in
      do runtime <- _validate_runtime (dict_get "runtime" document) (allow_partial pol)
                      provenance_evidence_kind (allow_fixture_evidence pol);
      do framework <- _validate_framework (dict_get "framework" document);
      _validate_isolation (dict_get "isolation" document) (document_requirements identity) ;,
      _validate_cleanup (dict_get "cleanup" document) ;,
      do provenance <- _validate_provenance (dict_get "provenance" document) identity pol;
      ret (identity, runtime, provenance)
  end.

Definition _validation_status (notes : list note) (pol : policy) : string * string :=
  match hard notes, incomplete notes with
  | _ :: _, _ => ("VALIDATION_FAILED", "VALIDATION_FAILED")
  | [], _ :: _ => if allow_partial pol then ("PARTIAL", "PARTIAL")
                  else ("VALIDATION_FAILED", "VALIDATION_FAILED")
  | [], [] => ("PASS", "CONTRACT_VALIDATED")
  end.

(** A digest that cannot be computed is [None]: [canonical_json] raises nothing but the
    [TypeError] and the [ValueError] that are caught. *)
Definition _observation_digest (v : pyval) : option string :=
  match canonical_json v with Ok text => Some (sha256 text) | Err _ => None end.

Record validation_result := {
  status : string; validation_status : string; result_policy : string; result_failure_count : Z;
  incomplete_count : Z; errors : list string; observation_digest : option string;
  result_identity : list (string * pyval); evidence_disposition : string;
  declared_runtime_status : option pyval }.

Definition RESULT_IDENTITY_FIELDS : list string :=
  ["connector"; "adapter_id"; "integration_mode"; "profile"; "run_id"; "parent_commit";
   "framework_commit"; "mrts_commit"].

Definition _add_result_disposition (provenance : option pydict) (st : string) : string :=
  let fixture := match provenance with
                 | Some p => eq_str (dict_get "evidence_kind" p) "canonical_fixture"
                 | None => false
                 end in
  if fixture then "fixture_only"
  else if String.eqb st "PASS" then "runtime_evidence" else "not_validated".

Definition validate_runtime_observation (observation : pyval) (expected_identity : option pydict)
    (policy_value : pyval) : res validation_result :=
  let* pol := _normalise_policy policy_value in
  let '(log, outcome) := _validate_document observation expected_identity pol in
  let* (identity, runtime, provenance, notes) :=
    match outcome with
    | Ok (i, r, p) => Ok (i, r, p, log)
    | Err (TypeError _) =>
        Ok (None, None, None,
            log ++ [Error "runtime observation contains an unsafe or excessively nested value"])
    | Err e => Err e
    end in
  let '(st, validation) := _validation_status notes pol in
  Ok {| status := st; validation_status := validation; result_policy := policy_name pol;
        result_failure_count := Z.of_nat (List.length (hard notes));
        incomplete_count := Z.of_nat (List.length (incomplete notes));
        errors := hard notes ++ incomplete notes;
        observation_digest := _observation_digest observation;
        result_identity := match identity with
                           | Some i => map (fun n => (n, dict_get n i)) RESULT_IDENTITY_FIELDS
                           | None => []
                           end;
        evidence_disposition := _add_result_disposition provenance st;
        declared_runtime_status := option_map (dict_get "runtime_status") runtime |}.
End Document.
