(* ===== verification/PyEquality.v ===== *)
(** * Equality of values

    [==] on lists and dictionaries: induction over nested values, what equality says of the
    entries of two dictionaries, and the values on which it is reflexive. *)

From S2P Require Export PyValue.
From Stdlib Require Import QArith.
#[global] Open Scope Z_scope.

(** Induction over the items of lists and dictionaries. *)
Section Nested.
Variable P : pyval -> Prop.
Hypotheses (H_none : P PNone) (H_bool : forall b, P (PBool b)) (H_int : forall z, P (PInt z))
  (H_float : forall q r, P (PFloat q r)) (H_str : forall s, P (PStr s)) (H_list : forall l, Forall P l -> P (PList l))
  (H_dict : forall d, Forall (fun kv => P (snd kv)) d -> P (PDict d)).

Fixpoint pyval_nested (v : pyval) : P v :=
  match v with
  | PNone => H_none
  | PBool b => H_bool b
  | PInt z => H_int z
  | PFloat q r => H_float q r
  | PStr s => H_str s
  | PList l => H_list l ((fix each (l : list pyval) : Forall P l :=
      match l with [] => @List.Forall_nil _ P | x :: r => @List.Forall_cons _ P x r (pyval_nested x) (each r) end) l)
  | PDict d => H_dict d ((fix each (d : pydict) : Forall (fun kv => P (snd kv)) d :=
      match d with [] => @List.Forall_nil _ (fun kv => P (snd kv)) | kv :: r => @List.Forall_cons _ (fun kv => P (snd kv)) kv r (pyval_nested (snd kv)) (each r) end) d)
  end.
End Nested.

Lemma text_key s key : py_eq (PStr s) key = true -> key = PStr s.
Proof. destruct key; try done. intros H. apply String.eqb_eq in H. by subst. Qed.

Lemma Forall2_member {A B} (R : A -> B -> Prop) l m x : Forall2 R l m -> In x l -> exists y, In y m /\ R x y.
Proof.
  induction 1 as [|a b l m H _ IH]; [done|]. intros [<-|Hx]; [exists b; split; [by left|done]|].
  destruct (IH Hx) as (y & Hy & HR). exists y. split; [by right|done].
Qed.

Lemma py_eq_list l m : py_eq (PList l) (PList m) = true <-> Forall2 (fun a b => py_eq a b = true) l m.
Proof.
  revert m. induction l as [|a l IH]; intros [|b m]; (split; [intros H; try done|intros H; inversion H; subst]); try done.
  - cbn in H. apply andb_true_iff in H as [Ha H]. constructor; [done|]. by apply IH.
  - cbn. apply andb_true_iff. split; [done|]. by apply IH.
Qed.

(** The keys of a JSON object: distinct texts. *)
Definition object_keys (d : pydict) : Prop := exists names, str_keys d = Some names /\ List.NoDup names.

Lemma str_keys_find names d k : str_keys d = Some names -> In k names <-> exists v, dict_find k d = Some v.
Proof.
  revert names. induction d as [|[[| | | |s| |] v] d IH]; intros names; cbn; try done.
  - intros [= <-]. split; [done|by intros []].
  - destruct (str_keys d) as [ns|] eqn:E; [|done]. intros [= <-]. cbn. destruct (String.eqb_spec s k) as [->|Hn].
    + split; [by eexists|by left].
    + rewrite <- (IH ns eq_refl). split; [by intros [|]|by right].
Qed.

Lemma str_keys_length d names : str_keys d = Some names -> List.length names = List.length d.
Proof.
  revert names. induction d as [|[[| | | |s| |] v] d IH]; intros names; cbn; try done; [by intros [= <-]|].
  destruct (str_keys d) as [ns|]; [|done]. intros [= <-]. cbn. by rewrite (IH ns eq_refl).
Qed.

(** The inner loops of [==] on dictionaries. *)
Definition looks_up (k v : pyval) (e : pydict) : bool :=
  (fix look (e : list (pyval * pyval)) : bool :=
     match e with [] => false | (k', v') :: e' => if py_eq k k' then py_eq v v' else look e' end) e.
Lemma py_eq_dict d e : py_eq (PDict d) (PDict e) = true <->
  List.length d = List.length e /\ forall k v, In (k, v) d -> looks_up k v e = true.
Proof.
  cbn [py_eq]. rewrite andb_true_iff, Nat.eqb_eq. f_equiv. induction d as [|[k v] d IH]; [split; [by intros _ ? ? []|done]|].
  rewrite andb_true_iff, IH. split.
  - intros [H1 H2] k' v' [[= <- <-]|H]; [exact H1|by apply H2].
  - intros H. split; [apply (H k v); by left|]. intros k' v' H'. apply H. by right.
Qed.

Lemma looks_up_str s v e : looks_up (PStr s) v e = true -> exists w, dict_find s e = Some w /\ py_eq v w = true.
Proof.
  induction e as [|[k' v'] e IH]; [done|]. cbn -[py_eq]. destruct (py_eq (PStr s) k') eqn:E.
  - apply text_key in E as ->. cbn. rewrite String.eqb_refl. by exists v'.
  - intros H. destruct (eq_str k' s) eqn:Es; [|by apply IH]. apply eq_str_true in Es as ->. cbn in E. by rewrite String.eqb_refl in E.
Qed.

Lemma py_eq_dict_find d e k : object_keys d -> object_keys e -> py_eq (PDict d) (PDict e) = true ->
  match dict_find k d, dict_find k e with
  | Some v, Some w => py_eq v w = true
  | None, None => True
  | _, _ => False
  end.
Proof.
  intros (nd & Hd & Nd) (ne & He & Ne) H. apply py_eq_dict in H as [Hl H].
  assert (Hf : forall s v, dict_find s d = Some v -> exists w, dict_find s e = Some w /\ py_eq v w = true)
    by (intros s v Hs; apply looks_up_str, H; by apply dict_find_In).
  destruct (dict_find k d) as [v|] eqn:Ed; [by destruct (Hf k v Ed) as (w & -> & ?)|].
  destruct (dict_find k e) as [w|] eqn:Ee; [|done].
  assert (Hk : In k nd); [|apply (str_keys_find _ _ _ Hd) in Hk as [v Hv]; congruence].
  assert (Hi : incl nd ne).
  { intros s Hs. apply (str_keys_find _ _ _ Hd) in Hs as [v Hv]. destruct (Hf s v Hv) as (w' & Hw & _).
    apply (str_keys_find _ _ _ He). by exists w'. }
  assert (Hle : (List.length ne <= List.length nd)%nat) by (rewrite (str_keys_length _ _ Hd), (str_keys_length _ _ He); lia).
  apply (NoDup_length_incl Nd Hle Hi), (str_keys_find _ _ _ He). by exists w.
Qed.

(** ** Values of JSON texts *)

(** The value of a JSON text: the keys of its objects are distinct texts. *)
Fixpoint json_value (v : pyval) : bool :=
  match v with
  | PList l => forallb json_value l
  | PDict d => match str_keys d with Some names => str_nodup names | None => false end && forallb (fun kv => json_value (snd kv)) d
  | _ => true
  end.

Lemma looks_up_own d k v names : str_keys d = Some names -> List.NoDup names -> In (k, v) d -> py_eq v v = true ->
  looks_up k v d = true.
Proof.
  intros Hs Hn Hin Hv. revert names Hs Hn. induction d as [|[[| | | |s| |] w] d IH]; intros names; cbn -[py_eq]; try done.
  destruct (str_keys d) as [ns|] eqn:E; [|done]. intros [= <-] Hn. inversion Hn as [|? ? Hx Hns]; subst.
  destruct Hin as [[= <- <-]|Hin].
  { cbn -[py_eq]. assert (py_eq (PStr s) (PStr s) = true) as -> by apply String.eqb_refl. done. }
  assert (Hk : exists t, k = PStr t /\ In t ns).
  { clear -E Hin. revert ns E. induction d as [|[[| | | |t| |] u] d IH]; intros ns; cbn; try done. destruct (str_keys d) as [m|]; [|done].
    intros [= <-]. destruct Hin as [[= <- <-]|Hin]; [exists t; split; [done|by left]|].
    destruct (IH Hin m eq_refl) as (r & -> & Hr). exists r. split; [done|by right]. }
  destruct Hk as (t & -> & Ht). cbn -[py_eq]. destruct (py_eq (PStr t) (PStr s)) eqn:Et; [|by eapply IH].
  cbn in Et. apply String.eqb_eq in Et as ->. done.
Qed.

Lemma py_eq_refl v : json_value v = true -> py_eq v v = true.
Proof.
  induction v as [|b|z|q r|s|l IH|d IH] using pyval_nested; intros H; try done; try (cbn; apply Qeq_bool_iff; reflexivity).
  - apply String.eqb_refl.
  - apply py_eq_list. cbn in H. rewrite forallb_forall in H. clear -IH H. induction IH as [|x l Hx _ IH]; [constructor|].
    constructor; [apply Hx, H; by left|]. apply IH. intros y Hy. apply H. by right.
  - apply py_eq_dict. split; [done|]. cbn in H. apply andb_true_iff in H as [Hk H].
    destruct (str_keys d) as [names|] eqn:E; [|done]. apply str_nodup_NoDup in Hk. rewrite forallb_forall in H.
    intros k v Hin. eapply looks_up_own; [done|done|done|]. rewrite List.Forall_forall in IH. by apply (IH (k, v) Hin), (H (k, v) Hin).
Qed.
