(* ===== verification/ObservationFacts.v ===== *)
(** * Properties of runs and of the metadata walk *)

From S2P Require Export ObservationDocument.
From S2P Require Import PyEquality.

(** ** Runs without findings *)

(** [m] made no call to [error] or [partial] and returned [a]. *)
Definition clean {A} (m : run A) (a : A) : Prop := m = ([], Ok a).

Lemma clean_bind {A B} (m : run A) (f : A -> run B) b :
  clean (bind m f) b <-> exists a, clean m a /\ clean (f a) b.
Proof.
  unfold clean, bind. destruct m as [l [a|e]].
  - destruct (f a) as [l' r] eqn:E. split.
    + intros H. injection H as H ->. apply app_eq_nil in H as [-> ->]. exists a. by rewrite E.
    + intros (a' & H & Hf). injection H as -> <-. rewrite E in Hf. by injection Hf as -> ->.
  - split; [done|]. by intros (a & H & _).
Qed.

Lemma clean_ret {A} (a b : A) : clean (ret a) b <-> a = b.
Proof. unfold clean, ret. split; [congruence|by intros ->]. Qed.

Lemma clean_error m : ~ clean (error m) tt.
Proof. done. Qed.

Lemma clean_partial m : ~ clean (partial m) tt.
Proof. done. Qed.

Lemma clean_raise {A} e (a : A) : ~ clean (raise e) a.
Proof. done. Qed.

Lemma clean_when b m : clean (when b m) tt <-> (b = true -> clean m tt).
Proof. unfold when. destruct b; split; auto; try done. Qed.

Lemma clean_when_error b m : clean (when b (error m)) tt <-> b = false.
Proof. rewrite clean_when. destruct b; split; try done. intros H. by apply clean_error in H. Qed.

Lemma clean_when_partial b m : clean (when b (partial m)) tt <-> b = false.
Proof. rewrite clean_when. destruct b; split; try done. intros H. by apply clean_partial in H. Qed.

Lemma clean_unit m u : clean m u <-> clean m tt.
Proof. by destruct u. Qed.

Lemma clean_each {A} (f : A -> run unit) l u :
  clean (each f l) u <-> forall x, In x l -> clean (f x) tt.
Proof.
  destruct u. induction l as [|x l IH]; cbn [each].
  - by rewrite clean_ret.
  - rewrite clean_bind. split.
    + intros ([] & Hx & Hl) y [->|Hy]; [done|]. by apply IH.
    + intros H. exists tt. split; [apply H; by left|]. apply IH. intros y Hy. apply H. by right.
Qed.

Lemma clean_then {B} (m : run unit) (k : run B) b :
  clean (bind m (fun _ => k)) b <-> clean m tt /\ clean k b.
Proof. rewrite clean_bind. split; [by intros ([] & ? & ?)|by exists tt]. Qed.

(** Inverts a clean run: every guard of it held. *)
Ltac clean_inv :=
  repeat match goal with
  | H : clean (bind ?m (fun _ => ?k)) _ |- _ =>
      apply clean_then in H; destruct H as [? H]
  | H : clean (bind _ _) _ |- _ => apply clean_bind in H; destruct H as (? & ? & H)
  | H : clean (when _ (error _)) _ |- _ => apply clean_when_error in H
  | H : clean (when _ (partial _)) _ |- _ => apply clean_when_partial in H
  | H : clean (ret _) _ |- _ => apply clean_ret in H
  | H : clean (error _) ?u |- _ => destruct u; apply clean_error in H; contradiction
  | H : clean (partial _) ?u |- _ => destruct u; apply clean_partial in H; contradiction
  | H : clean (raise _) _ |- _ => apply clean_raise in H; contradiction
  end.

Lemma record_message_nonempty l m : record_message l m <> [].
Proof. unfold record_message. destruct (str_in m l) eqn:E; [by destruct l|by destruct l]. Qed.

(** A verdict without findings comes from a run without findings. *)
Lemma no_findings notes : hard notes = [] -> incomplete notes = [] -> notes = [].
Proof.
  assert (G : forall (f : list string -> note -> list string) notes l,
            (forall l n, l <> [] -> f l n <> []) -> l <> [] -> fold_left f notes l <> []).
  { clear. intros f notes. induction notes as [|n notes IH]; intros l Hf Hl; [done|].
    cbn [fold_left]. by apply IH; [|apply Hf]. }
  intros Hh Hi. destruct notes as [|n notes]; [done|]. exfalso.
  unfold hard, incomplete in *. cbn [fold_left] in *. destruct n as [m|m].
  - revert Hh. apply G; [|apply record_message_nonempty].
    intros l [m'|m'] Hl; [apply record_message_nonempty|done].
  - revert Hi. apply G; [|apply record_message_nonempty].
    intros l [m'|m'] Hl; [done|apply record_message_nonempty].
Qed.

(** ** Runs that raise only [TypeError] *)

Definition is_TypeError (e : exn) : bool := match e with TypeError _ => true | _ => false end.
Definition mild {A} (m : run A) : Prop :=
  match snd m with Ok _ => True | Err e => is_TypeError e = true end.

Lemma mild_bind {A B} (m : run A) (f : A -> run B) :
  mild m -> (forall a, mild (f a)) -> mild (bind m f).
Proof.
  unfold mild, bind. destruct m as [l [a|e]]; simpl; [|done]. intros _ Hf.
  specialize (Hf a). by destruct (f a).
Qed.

Lemma mild_each {A} (f : A -> run unit) l : (forall x, mild (f x)) -> mild (each f l).
Proof.
  intros Hf. induction l as [|x l IH]; [done|]. cbn [each]. by apply mild_bind.
Qed.

Lemma mild_collect {A B} (f : A -> run B) l : (forall x, mild (f x)) -> mild (collect f l).
Proof.
  intros Hf. induction l as [|x l IH]; [done|]. cbn [collect].
  apply mild_bind; [apply Hf|]. intros y. by apply mild_bind.
Qed.

Create HintDb mild.

(** Splits a run and its tests. *)
Ltac mild_tac :=
  repeat first
    [ done
    | progress auto with mild
    | apply mild_bind; [|intros]
    | apply mild_each; intros
    | apply mild_collect; intros
    | match goal with |- mild (match ?x with _ => _ end) => destruct x eqn:? end ].

Lemma mild_when b m : mild m -> mild (when b m).
Proof. by destruct b. Qed.
#[export] Hint Resolve mild_when : mild.

Lemma mild_exact value required optional label :
  mild (_require_exact_keys value required optional label).
Proof.
  unfold _require_exact_keys, report_unexpected. cbv zeta. mild_tac. apply mild_when. done.
Qed.
Lemma mild_mapping v label : mild (_as_mapping v label).
Proof. by destruct v. Qed.
Lemma mild_string_field v n label : mild (_check_string_field v n label).
Proof. unfold _check_string_field. mild_tac. Qed.
#[export] Hint Resolve mild_exact mild_mapping mild_string_field : mild.

Ltac mild_whens := mild_tac; repeat (apply mild_when; mild_tac).

Lemma mild_value_map label v : mild (_validate_value_map label v).
Proof.
  unfold _validate_value_map, _validate_scalar_value_fields, scalar_value_field,
    _validate_value_map_rules, _validate_predicates. cbv zeta. mild_whens.
Qed.
#[export] Hint Resolve mild_value_map : mild.

Lemma mild_assertion v label mr mo k f : mild (_validate_assertion v label mr mo k f).
Proof.
  unfold _validate_assertion, _validate_not_applicable_assertion, _validate_applicable_assertion,
    _expected_matches_observed. cbv zeta. mild_whens.
Qed.
#[export] Hint Resolve mild_assertion : mild.

Lemma mild_identity v e : mild (_validate_identity v e).
Proof.
  unfold _validate_identity, _validate_identity_contract, _validate_identity_profile,
    _profile_requirements_for_identity, _validate_identity_commits, _validate_expected_identity.
  cbv zeta. mild_whens.
Qed.

Lemma mild_runtime v p k f : mild (_validate_runtime v p k f).
Proof.
  unfold _validate_runtime, _validate_runtime_assertions, _validate_runtime_status_alignment,
    _validate_runtime_aggregate, report_unexpected, _record_case_id. cbv zeta.
  assert (R : forall ns r k f ids, mild (required_assertions ns r k f ids)).
  { induction ns as [|n ns IH]; intros; [done|]. cbn [required_assertions].
    unfold _record_case_id. mild_whens. }
  mild_whens.
Qed.

Lemma mild_isolation v r : mild (_validate_isolation v r).
Proof. unfold _validate_isolation, _validate_isolation_field. cbv zeta. mild_whens. Qed.

Lemma mild_cleanup v : mild (_validate_cleanup v).
Proof. unfold _validate_cleanup. cbv zeta. mild_whens. Qed.
#[export] Hint Resolve mild_identity mild_runtime mild_isolation mild_cleanup : mild.

Lemma mild_observation v label : mild (_normalise_framework_observation v label).
Proof.
  unfold _normalise_framework_observation, _normalise_framework_observation_scalars,
    _normalise_framework_observation_lists, _normalise_framework_observation_states,
    approved_value, _framework_http_status, _framework_rule_ids,
    _framework_identifier_list, _framework_lifecycle_predicates, if_present, event_type_value.
  mild_whens.
Qed.
#[export] Hint Resolve mild_observation : mild.

(** ** Runs over an observation whose numbers can be written

    The framework conditions and the evidence inventory are printed as JSON, which raises
    [ValueError] on an integer of more than 4300 digits and on an infinity. *)

Definition writable_key (k : pyval) : bool :=
  match k with PInt z => short_int z | PFloat _ r => negb (str_in r NONFINITE) | _ => true end.

(** Every number in the value can be written. *)
Fixpoint writable (v : pyval) : bool :=
  match v with
  | PInt z => short_int z
  | PFloat _ r => negb (str_in r NONFINITE)
  | PList l => forallb writable l
  | PDict d => forallb (fun kv => writable_key (fst kv) && writable (snd kv)) d
  | _ => true
  end.

Lemma short_small z : Z.abs z <= 1000000000 -> short_int z = true.
Proof.
  intros H. unfold short_int. apply Z.ltb_lt. eapply Z.le_lt_trans; [exact H|]. apply Z.ltb_lt. vm_compute. reflexivity.
Qed.

Lemma writable_short v : writable v = true -> short_ints v = true.
Proof.
  induction v as [|b|z|q r|s|l IH|d IH] using pyval_nested; intros H; try done; cbn in *;
    rewrite forallb_forall in *; rewrite List.Forall_forall in IH.
  - intros x Hx. by apply IH, H.
  - intros [k v] Hx. specialize (H _ Hx). cbn in *. apply andb_true_iff in H as [Hk Hv].
    specialize (IH _ Hx Hv). cbn [snd] in IH. rewrite IH, andb_true_r. by destruct k.
Qed.

Lemma writable_get k d : writable (PDict d) = true -> writable (dict_get k d) = true.
Proof.
  unfold dict_get, dict_get_or. intros H. destruct (dict_find k d) as [v|] eqn:E; [|done]. apply dict_find_In in E.
  cbn in H. rewrite forallb_forall in H. by specialize (H _ E).
Qed.

Lemma writable_mkdict items : writable (PDict (mkdict items)) = true <-> Forall (fun kv => writable (snd kv) = true) items.
Proof.
  cbn. rewrite forallb_forall, List.Forall_forall. unfold mkdict. split.
  - intros H [k v] Hin. specialize (H (PStr k, v)). cbn in H. apply H. apply in_map_iff. by exists (k, v).
  - intros H kv Hin. apply in_map_iff in Hin as ([k v] & <- & Hin). by apply (H (k, v)).
Qed.

(** The two exceptions of the encoder; only a number that cannot be written makes it raise
    [ValueError]. *)
Definition encoder_error (b : bool) (e : exn) : Prop :=
  is_TypeError e = true \/ b = false /\ exists message, e = ValueError message.

Lemma encoder_weaken (b b' : bool) e : (b' = true -> b = true) -> encoder_error b e -> encoder_error b' e.
Proof. intros H [He|[-> He]]; [by left|]. right. split; [|done]. destruct b'; [|done]. by discriminate H. Qed.

Lemma int_text_error z e : int_text z = Err e -> encoder_error (short_int z) e.
Proof. unfold int_text. destruct (short_int z); [done|]. intros [= <-]. right. split; [done|]. by eexists. Qed.

Lemma float_text_error r e : float_text r = Err e -> encoder_error (negb (str_in r NONFINITE)) e.
Proof. unfold float_text. destruct (str_in r NONFINITE); [|done]. intros [= <-]. right. split; [done|]. by eexists. Qed.

Lemma key_text_error k e : key_text k = Err e -> encoder_error (writable_key k) e.
Proof. destruct k; try done; [apply int_text_error|apply float_text_error| |]; intros [= <-]; by left. Qed.

Lemma encode_error v e : json_encode v = Err e -> encoder_error (writable v) e.
Proof.
  revert e. induction v as [|b|z|q r|s|l IH|d IH] using pyval_nested; intros e H; try done.
  - by apply int_text_error.
  - by apply float_text_error.
  - cbn [json_encode] in H. destruct (mapM _ _) as [parts|e'] eqn:E; [done|]. injection H as ->.
    apply mapM_Err in E as (x & Hx & Hp). subst x. apply in_map_iff in Hx as (v & Hv & Hin). rewrite List.Forall_forall in IH.
    apply (IH v Hin) in Hv. eapply encoder_weaken; [|exact Hv]. cbn. rewrite forallb_forall. intros Hl. by apply Hl.
  - cbn [json_encode] in H. destruct (sortable (map fst d)); [|injection H as <-; by left]. cbn [guard] in H.
    destruct (mapM _ _) as [parts|e'] eqn:E; [done|]. injection H as ->. apply mapM_Err in E as ([k t] & Hx & Hp). cbn [fst snd] in Hp.
    apply isort_In, in_map_iff in Hx as ([k' v] & [= -> <-] & Hin).
    assert (Hd : writable (PDict d) = true -> writable_key k = true /\ writable v = true).
    { cbn. rewrite forallb_forall. intros Hl. specialize (Hl _ Hin). by apply andb_true_iff in Hl. }
    destruct (key_text k) as [name|e'] eqn:Ek.
    + destruct (json_encode v) as [text|e'] eqn:Ev; [done|]. injection Hp as ->. rewrite List.Forall_forall in IH.
      apply (IH _ Hin) in Ev. eapply encoder_weaken; [|exact Ev]. intros Hl. by apply Hd.
    + injection Hp as ->. apply key_text_error in Ek. eapply encoder_weaken; [|exact Ek]. intros Hl. by apply Hd.
Qed.

Section Tame.
(** Whether every number of the observation can be written. *)
Variable b : bool.

Definition ok (v : pyval) : Prop := b = true -> writable v = true.

(** [m] returns a value with the postcondition or raises as the encoder does. *)
Definition tame {A} (P : A -> Prop) (m : run A) : Prop :=
  match snd m with Ok a => P a | Err e => encoder_error b e end.

Lemma tame_seq {A B} (P : A -> Prop) (Q : B -> Prop) (m : run A) (f : A -> run B) :
  tame P m -> (forall a, P a -> tame Q (f a)) -> tame Q (bind m f).
Proof.
  unfold tame, bind. destruct m as [l [a|e]]; cbn [snd]; [|done]. intros Ha Hf. specialize (Hf a Ha). by destruct (f a).
Qed.

Lemma tame_mild {A} (m : run A) : mild m -> tame (fun _ => True) m.
Proof. unfold mild, tame. destruct (snd m); [done|]. intros H. by left. Qed.

Lemma tame_then {A} (P : A -> Prop) (m : run unit) (k : run A) : mild m -> tame P k -> tame P (bind m (fun _ => k)).
Proof. intros Hm Hk. eapply tame_seq; [by apply tame_mild|done]. Qed.

Lemma tame_weaken {A} (P Q : A -> Prop) (m : run A) : (forall a, P a -> Q a) -> tame P m -> tame Q m.
Proof. unfold tame. destruct (snd m); auto. Qed.

Lemma tame_lift {A} (P : A -> Prop) (m : res A) : (forall a, m = Ok a -> P a) -> (forall e, m = Err e -> encoder_error b e) ->
  tame P (lift m).
Proof. unfold tame, lift. cbn. destruct m; auto. Qed.

Lemma ok_get k d : ok (PDict d) -> ok (dict_get k d).
Proof. intros H Hb. by apply writable_get, H. Qed.

Lemma ok_mkdict items : Forall (fun kv => ok (snd kv)) items -> ok (PDict (mkdict items)).
Proof. intros H Hb. apply writable_mkdict. revert H. apply List.Forall_impl. auto. Qed.

Lemma ok_list l : Forall ok l -> ok (PList l).
Proof. intros H Hb. cbn. apply forallb_forall. rewrite List.Forall_forall in H. intros x Hx. by apply H. Qed.

Lemma ok_items l : ok (PList l) -> Forall ok l.
Proof. intros H. apply List.Forall_forall. intros x Hx Hb. specialize (H Hb). cbn in H. rewrite forallb_forall in H. by apply H. Qed.

Lemma ok_mapping v label : ok v -> tame (fun m => forall d, m = Some d -> ok (PDict d)) (_as_mapping v label).
Proof. intros H. destruct v; try done. intros d' [= <-]. exact H. Qed.

Lemma ok_ints l : Forall (fun z => short_int z = true) l -> ok (PInts l).
Proof. intros H. apply ok_list, List.Forall_map. revert H. apply List.Forall_impl. by intros z Hz _. Qed.
Lemma ok_strs l : ok (PStrs l).
Proof. apply ok_list, List.Forall_map, List.Forall_forall. by intros s _ _. Qed.

(** A part of a normalised expectation. *)
Definition parts_ok (m : run (option pydict)) : Prop := tame (fun o => forall d, o = Some d -> ok (PDict d)) m.

Lemma parts_some items : Forall (fun kv => ok (snd kv)) items -> parts_ok (ret (Some (mkdict items))).
Proof. intros H. intros d [= <-]. by apply ok_mkdict. Qed.
Lemma parts_error m : parts_ok (error m ;, ret None).
Proof. done. Qed.
Lemma parts_bind {A} (P : A -> Prop) (m : run A) f : tame P m -> (forall a, P a -> parts_ok (f a)) -> parts_ok (bind m f).
Proof. apply tame_seq. Qed.
Lemma parts_then (m : run unit) k : mild m -> parts_ok k -> parts_ok (bind m (fun _ => k)).
Proof. apply tame_then. Qed.

Definition short_status (o : option Z) : Prop := forall z, o = Some z -> short_int z = true.
Definition short_rules (o : option (list Z)) : Prop := forall l, o = Some l -> Forall (fun z => short_int z = true) l.

Lemma tame_status v label : tame short_status (_framework_http_status v label).
Proof.
  unfold _framework_http_status. destruct v; try done. destruct (_ && _) eqn:E; [|done]. intros z' [= <-].
  apply short_small. lia.
Qed.

Lemma tame_rules v label : tame short_rules (_framework_rule_ids v label).
Proof.
  unfold _framework_rule_ids. destruct (unique_bounded_ints _ _ _) eqn:E; [|done]. destruct v as [| | | | |l|]; try done.
  intros l' [= <-]. cbn in E. apply List.Forall_forall. intros z Hz. apply (Permutation_in _ (sort_Z_perm _)) in Hz.
  apply andb_true_iff in E as [E _]. apply andb_true_iff in E as [_ E]. rewrite forallb_forall in E.
  unfold int_values in Hz. apply in_concat in Hz as (zs & Hzs & Hz). apply in_map_iff in Hzs as (v & <- & Hv). specialize (E _ Hv).
  destruct v; try done. destruct Hz as [<-|[]]. cbn in E. apply short_small. lia.
Qed.

Lemma tame_present {A} (P : option A -> Prop) name d (f : pyval -> run (option A)) : P None -> (forall v, tame P (f v)) ->
  tame P (if_present name d f).
Proof. intros HN Hf. unfold if_present. destruct (dict_find name d); [apply Hf|done]. Qed.

Lemma ok_item {A} key (f : A -> pyval) (o : option A) : (forall a, o = Some a -> ok (f a)) -> Forall (fun kv => ok (snd kv)) (item key f o).
Proof. intros H. destruct o as [a|]; [|constructor]. constructor; [by apply H|constructor]. Qed.

Lemma parts_option {A} (f : A -> list (string * pyval)) o : (forall a, o = Some a -> Forall (fun kv => ok (snd kv)) (f a)) ->
  parts_ok (ret (option_map (fun a => mkdict (f a)) o)).
Proof. intros H. destruct o as [a|]; [|done]. by apply parts_some, H. Qed.

(** Two parts: the kind and another one. *)
Lemma ok_pair k s key v : ok v -> Forall (fun kv : string * pyval => ok (snd kv)) [(k, PStr s); (key, v)].
Proof. intros H. constructor; [by intros _|]. constructor; [done|constructor]. Qed.

Lemma lifecycle_ok d items : lifecycle_entries d = Some items -> Forall (fun kv => ok (snd kv)) items.
Proof.
  revert items. induction d as [|kv d IH]; intros items; cbn [lifecycle_entries]; [intros [= <-]; constructor|].
  unfold lifecycle_entry. destruct kv as [[| | | |k| |] [|v| | | | |]]; try done. destruct (str_in k _); [|done].
  destruct (lifecycle_entries d) as [xs|]; [|done]. intros [= <-]. constructor; [by intros _|by apply IH].
Qed.

Lemma tame_predicates v label : tame (fun o => forall d, o = Some d -> ok (PDict d)) (_framework_lifecycle_predicates v label).
Proof.
  unfold _framework_lifecycle_predicates. destruct v as [| | | | | |[|kv d]]; try done. destruct (_ <=? _); [|done].
  destruct (lifecycle_entries _) as [items|] eqn:E; [|done]. intros d' [= <-]. apply lifecycle_ok in E. apply ok_mkdict.
  rewrite List.Forall_forall in *. intros x Hx. apply E. by apply isort_In in Hx.
Qed.

Lemma parts_direct e kind label : parts_ok (_normalise_framework_direct_expectation e kind label).
Proof.
  unfold _normalise_framework_direct_expectation. destruct (String.eqb _ _); [|destruct (String.eqb _ _); [|destruct (str_in _ _)]];
    (apply parts_then; [solve [mild_whens]|]).
  - eapply parts_bind; [apply tame_status|]. intros o Ho. apply (parts_option (fun z => _)). intros z Hz.
    apply ok_pair. intros _. by apply Ho.
  - eapply parts_bind; [apply tame_rules|]. intros o Ho. apply (parts_option (fun l => _)). intros l Hl.
    by apply ok_pair, ok_ints, Ho.
  - eapply parts_bind; [apply tame_mild; unfold _framework_identifier_list; mild_whens|]. intros o _.
    apply (parts_option (fun l => _)). intros l _. by apply ok_pair, ok_strs.
  - eapply parts_bind; [apply tame_predicates|]. intros o Ho. apply (parts_option (fun l => _)). intros d Hd. by apply ok_pair, Ho.
Qed.

Lemma parts_action e kind label : ok (PDict e) -> parts_ok (_normalise_framework_action e kind label).
Proof.
  intros H. unfold _normalise_framework_action. cbv zeta. do 2 (apply parts_then; [solve [mild_whens]|]).
  eapply parts_bind; [apply (tame_present short_status); [done|]; intros; apply tame_status|]. intros st Hst.
  eapply parts_bind; [apply (tame_present short_rules); [done|]; intros; apply tame_rules|]. intros rules Hr.
  apply parts_some. apply Forall_app. split; [by apply ok_pair, ok_get|]. apply Forall_app. split; apply ok_item.
  - intros z Hz _. by apply Hst.
  - intros l Hl. by apply ok_ints, Hr.
Qed.

Lemma parts_event e label : ok (PDict e) -> parts_ok (_normalise_framework_event e label).
Proof.
  intros H. unfold _normalise_framework_event. do 2 (apply parts_then; [solve [mild_whens]|]).
  eapply parts_bind; [apply tame_mild; unfold if_present, _framework_identifier_list; mild_whens|]. intros fields _.
  eapply parts_bind; [apply (tame_present (fun o => forall v, o = Some v -> ok v)); [done|]; intros v; unfold event_type_value;
    destruct v; cbn [_safe_framework_identifier]; try done; destruct (_ && _); [intros v [= <-]; by intros _|done]|].
  intros event_type He. apply parts_some. constructor; [by intros _|]. apply Forall_app. split; apply ok_item; [|done].
  intros l _. apply ok_strs.
Qed.

Lemma parts_state e kind label : ok (PDict e) -> parts_ok (_normalise_framework_state e kind label).
Proof.
  intros H. unfold _normalise_framework_state. cbv zeta. do 2 (apply parts_then; [solve [mild_whens]|]).
  by apply parts_some, ok_pair, ok_get.
Qed.

Lemma parts_not_applicable e label : ok (PDict e) -> parts_ok (_normalise_framework_not_applicable e label).
Proof.
  intros H. unfold _normalise_framework_not_applicable. cbv zeta. do 2 (apply parts_then; [solve [mild_whens]|]).
  by apply parts_some, ok_pair, ok_get.
Qed.

Definition conditions_ok (l : list (option pydict)) : Prop := Forall (fun o => forall d, o = Some d -> ok (PDict d)) l.

Lemma tame_conditions normalise label i l : (forall v s, ok v -> parts_ok (normalise v s)) -> Forall ok l ->
  tame conditions_ok (conditions_run normalise label i l).
Proof.
  intros Hn H. revert i. induction H as [|c l Hc _ IH]; intros i; [constructor|]. cbn [conditions_run].
  eapply tame_seq; [by apply Hn|]. intros x Hx. eapply tame_seq; [apply IH|]. intros xs Hxs. by constructor.
Qed.

Lemma all_some_ok l ds : all_some l = Some ds -> conditions_ok l -> Forall (fun d => ok (PDict d)) ds.
Proof.
  revert ds. induction l as [|[d|] l IH]; intros ds H Hl; cbn in H; try done; [injection H as <-; constructor|].
  destruct (all_some l) as [rest|]; [|done]. injection H as <-. inversion Hl as [|? ? Hd Hl']; subst. constructor; [by apply Hd|by apply IH].
Qed.

Lemma fingerprints_error ds e : Forall (fun d => ok (PDict d)) ds -> mapM (fun d : pydict => canonical_json (PDict d)) ds = Err e ->
  encoder_error b e.
Proof.
  intros H He. apply mapM_Err in He as (d & Hin & He). apply encode_error in He. eapply encoder_weaken; [|exact He].
  rewrite List.Forall_forall in H. by apply H.
Qed.

Lemma parts_compound normalise e label : (forall v s, ok v -> parts_ok (normalise v s)) -> ok (PDict e) ->
  parts_ok (_normalise_framework_compound normalise e label).
Proof.
  intros Hn H. unfold _normalise_framework_compound. apply parts_then; [solve [mild_whens]|].
  pose proof (ok_get "conditions" e H) as Hc. destruct (dict_get "conditions" e) as [| | | | |l|]; try done.
  destruct (_ && _); [|done]. eapply parts_bind; [apply tame_conditions; [exact Hn|by apply ok_items]|]. intros conditions Hcs.
  destruct (all_some conditions) as [ds|] eqn:E; [|done]. apply all_some_ok in E; [|done].
  eapply parts_bind; [apply (tame_lift (fun _ => True)); [done|]; intros e'; by apply fingerprints_error|]. intros fingerprints _.
  apply parts_then; [solve [mild_whens]|]. apply parts_some, ok_pair, ok_list, List.Forall_map. done.
Qed.

Lemma parts_kind normalise e kind label : (forall v s, ok v -> parts_ok (normalise v s)) -> ok (PDict e) ->
  parts_ok (_normalise_framework_expectation_kind normalise e kind label).
Proof.
  intros Hn H. unfold _normalise_framework_expectation_kind, _normalise_framework_special_expectation.
  destruct (str_in kind _); [apply parts_direct|]. destruct (str_in kind _); [|by apply parts_not_applicable].
  destruct (str_in kind _); [by apply parts_action|]. destruct (String.eqb _ _); [by apply parts_event|].
  destruct (str_in kind _); [by apply parts_state|by apply parts_compound].
Qed.

Lemma parts_expectation fuel depth legacy v label :
  (MAX_EXPECTATION_DEPTH + 2 <= fuel + depth)%nat -> (depth <= MAX_EXPECTATION_DEPTH + 1)%nat -> ok v ->
  parts_ok (framework_expectation_at fuel depth legacy v label).
Proof.
  revert depth v label; induction fuel as [|fuel IH]; intros depth v label Hf Hd Hv; [lia|].
  cbn [framework_expectation_at]. destruct (Nat.ltb MAX_EXPECTATION_DEPTH depth) eqn:E; [done|].
  apply Nat.ltb_ge in E. eapply parts_bind; [by apply ok_mapping|]. intros [e|] He; [|done]. specialize (He e eq_refl).
  destruct (_has_forbidden_metadata _); [done|]. destruct (dict_get "kind" e); try done.
  destruct (String.eqb _ _).
  - unfold legacy_rule_id. destruct (negb legacy); [done|]. apply parts_then; [solve [mild_whens]|].
    destruct (dict_get "value" e) as [| |z| | | |]; try done. destruct (_ && _) eqn:Ez; [|done].
    apply parts_some, ok_pair, ok_ints. constructor; [apply short_small; lia|constructor].
  - destruct (str_in _ EXPECTATION_KINDS); [|done]. apply parts_kind; [|done]. intros w label2 Hw. apply IH; [lia|lia|done].
Qed.

Lemma tame_case v label : ok v -> tame (fun _ => True) (_validate_framework_case v label).
Proof.
  intros Hv. unfold _validate_framework_case. eapply tame_seq; [by apply ok_mapping|]. intros [case|] Hc; [|done].
  specialize (Hc case eq_refl).
  do 2 (apply tame_then; [unfold _validate_framework_case_identity; cbv zeta; solve [mild_whens]|]).
  eapply tame_seq; [apply tame_mild; unfold _validate_framework_case_status; cbv zeta; mild_whens|]. intros result _.
  apply tame_then; [unfold _validate_framework_case_counts; mild_whens|].
  eapply tame_seq; [apply parts_expectation; [unfold MAX_EXPECTATION_DEPTH; lia|unfold MAX_EXPECTATION_DEPTH; lia|by apply ok_get]|].
  intros expectation _. apply tame_mild.
  unfold _validate_framework_case_consistency, _validate_framework_case_execution. cbv zeta. mild_whens.
Qed.

Lemma tame_framework v : ok v -> tame (fun _ => True) (_validate_framework v).
Proof.
  intros Hv. unfold _validate_framework. eapply tame_seq; [by apply ok_mapping|]. intros [f|] Hf; [|done].
  pose proof (ok_get "cases" f (Hf f eq_refl)) as Hc. apply tame_then; [unfold _validate_framework_header; mild_whens|].
  destruct (dict_get "cases" f) as [| | | | |cases|]; try done. cbv zeta. destruct (_ && _); [|done]. apply ok_items in Hc.
  eapply (tame_seq (fun _ => True)).
  - generalize 0, (@nil string), no_counts. induction Hc as [|c cases Hc _ IH]; intros i ids a; [done|].
    cbn [_validate_framework_cases]. cbv zeta. apply tame_then; [mild_whens|]. eapply tame_seq; [by apply tame_case|]. intros counts _.
    apply IH.
  - intros a _. apply tame_mild. unfold _validate_framework_aggregate, _validate_framework_disposition. cbv zeta. mild_whens.
Qed.

(** ** The evidence inventory *)

Definition records_ok (rs : list pydict) : Prop := Forall (fun d => ok (PDict d)) rs.

Lemma tame_records evidence kind : ok evidence -> tame records_ok (_validate_evidence_records evidence kind).
Proof.
  intros H. unfold _validate_evidence_records. destruct evidence as [| | | | |[|v l]|]; try (by constructor).
  destruct (_ <=? _); [|by constructor]. apply ok_items in H.
  eapply (tame_seq (fun s => records_ok (records s))); [|intros s Hs; apply tame_then; [solve [mild_whens]|exact Hs]].
  assert (S0 : records_ok (records {| records := []; bound := false; names := []; paths := [] |})) by constructor. revert S0.
  generalize 0, {| records := []; bound := false; names := []; paths := [] |}.
  induction H as [|w l' Hw _ IH]; intros i s Hs; [exact Hs|]. cbn [evidence_records].
  eapply tame_seq; [|intros s' Hs'; apply IH; exact Hs']. unfold _validate_evidence_record. cbv zeta.
  eapply tame_seq; [by apply ok_mapping|]. intros [r|] Hr; [|exact Hs]. specialize (Hr r eq_refl).
  do 4 (apply tame_then; [solve [mild_whens]|]).
  apply tame_then; [unfold _validate_evidence_record_kind; solve [mild_whens]|].
  eapply tame_seq; [apply tame_mild; unfold _validate_evidence_record_uniqueness; mild_whens|]. intros np _.
  apply Forall_app. split; [exact Hs|]. by constructor.
Qed.

Lemma manifest_item_ok r : ok (PDict r) -> ok (PDict (mkdict (manifest_item r))).
Proof. intros H. apply ok_mkdict. repeat (constructor; [by apply ok_get|]). constructor. Qed.

Lemma digest_error sha256 rs e : records_ok rs -> evidence_manifest_digest sha256 rs = Err e -> encoder_error b e.
Proof.
  intros H. unfold evidence_manifest_digest. cbv zeta. set (items := map _ rs).
  assert (Hi : Forall (fun d => ok (PDict d)) items).
  { apply List.Forall_map. revert H. apply List.Forall_impl. apply manifest_item_ok. }
  destruct (forM _ items) as [|e'] eqn:Ef.
  - destruct (canonical_json _) as [text|e'] eqn:Ec; [done|]. intros [= <-]. apply encode_error in Ec. eapply encoder_weaken; [|exact Ec].
    apply ok_list, List.Forall_map. rewrite List.Forall_forall in *. intros d Hd. apply Hi. by apply isort_In in Hd.
  - intros [= <-]. apply forM_Err in Ef as (d & Hd & Ef). rewrite List.Forall_forall in Hi. specialize (Hi d Hd).
    assert (S : forall v, ok v -> str_checked v = Err e' -> encoder_error b e').
    { intros v Hv. unfold str_checked, guard. destruct (short_ints v) eqn:E; [done|]. intros [= <-]. right. split; [|by eexists].
      destruct b eqn:Eb; [|done]. specialize (Hv Eb). apply writable_short in Hv. congruence. }
    destruct (str_checked (dict_get "name" d)) as [|e''] eqn:E; [by eapply S; [apply ok_get|]|]. injection Ef as ->.
    by eapply S; [apply ok_get|].
Qed.
End Tame.
