(* ===== verification/ObservationPass.v ===== *)
(** * What a PASS of the runtime observation contract means

    The abstract contract: [verified] states, without runs and findings, what a
    document must hold to be runtime evidence.  The theorem of the file is that
    [validate_runtime_observation] says PASS only of such documents. *)

From S2P Require Export ObservationFacts.

(** ** The abstract contract *)

Definition fields_of (d : pydict) (l : list (string * pyval)) : Prop :=
  Forall (fun p => dict_get (fst p) d = snd p) l.

(** Identity: an approved adapter, a profile with its two Booleans, commits, and
    the producer of the adapter. *)
Record identity_ok (i : pydict) (a : AdapterInterface) (r : requirement) : Prop := {
  id_adapter : In a ADAPTER_INTERFACES;
  id_tuple : fields_of i [("connector", PStr (connector a)); ("adapter_id", PStr (adapter_id a));
                          ("integration_mode", PStr (integration_mode a))];
  id_profile : exists p, dict_get "profile" i = PStr p /\ lookup p PROFILE_REQUIREMENTS = Some r;
  id_booleans : fields_of i [("crs", PBool (rq_crs r)); ("mrts", PBool (rq_mrts r))];
  id_commits : Forall (fun f => matches COMMIT (dict_get f i) = true)
                 ["parent_commit"; "framework_commit"; "mrts_commit"];
  id_version : dict_get "producer_version" i = PStr PRODUCER_VERSION }.

(** Every expected field is in the identity, with the expected value unless that
    is [None]. *)
Definition identity_expected (expected : option pydict) (i : pydict) : Prop :=
  match expected with
  | None => True
  | Some e => forall k x, In (k, x) e ->
      has_key (alias k) i = true /\ (is_none x = true \/ py_eq (dict_get_key (alias k) i) x = true)
  end.

(** The evidence kind an adapter may claim with its live producer. *)
Definition live_kind (a : AdapterInterface) : string :=
  if protected_separate a then "protected_runtime_evidence" else "structured_connector_evidence".

(** A required assertion that passed on a live host, with what it expected among
    what it observed. *)
Definition live_assertion (kind : string) (v : pyval) : Prop :=
  exists a e o, v = PDict a /\
    fields_of a [("required", PBool true); ("applicable", PBool true); ("executed", PBool true);
                 ("live_executed", PBool true); ("result", PStr "PASS"); ("evidence_kind", PStr kind);
                 ("expected", PDict e); ("observed", PDict o)] /\
    e <> [] /\
    forall k x, In (k, x) e -> exists k' w, In (k', w) o /\ py_eq k' k = true /\ py_eq w x = true.

Definition runtime_ok (kind : string) (r : pydict) : Prop :=
  dict_get "runtime_status" r = PStr "PASS" /\
  Forall (fun name => live_assertion kind (dict_get name r)) RUNTIME_REQUIRED_ASSERTIONS.

(** A selected case that was run live and passed. *)
Definition passing_case (v : pyval) : Prop :=
  exists c, v = PDict c /\
    fields_of c [("selected", PBool true); ("executed", PBool true); ("live_executed", PBool true);
                 ("result", PStr "PASS")] /\
    eq_int (dict_get "failure_count" c) 0 = true /\ eq_int (dict_get "mismatch_count" c) 0 = true.

Definition framework_ok (f : pydict) : Prop :=
  exists cases, dict_get "cases" f = PList cases /\ cases <> [] /\
    Z.of_nat (List.length cases) <= MAX_EXPECTATION_ITEMS /\
    Forall passing_case cases /\ List.NoDup (map case_identifier cases) /\
    fields_of f [("validation_status", PStr "CONTRACT_VALIDATED");
                 ("selection_status", PStr "SELECTED"); ("execution_status", PStr "RUN")].

Definition isolation_ok (r : requirement) (i : pydict) : Prop :=
  Forall (fun f => dict_get f i = PBool (rq_mrts r)) ISOLATION_FIELDS.

Definition cleanup_ok (c : pydict) : Prop :=
  Forall (fun f => eq_int (dict_get f c) 0 = true) CLEANUP_COUNTERS /\
  dict_get "cleanup_status" c = PStr "PASS".

(** The file of a record is read within the evidence root and has the digest of
    the record. *)
Definition evidence_file (sha256 : string -> string) (sys : os) (root : abs_path) (r : pydict) : Prop :=
  exists p data, dict_get "path" r = PStr p /\ _safe_relative_evidence_path (PStr p) = true /\
    read_bounded_evidence_file sys (join_path root p) (path_text root) "referenced evidence"
      MAX_OBSERVATION_BYTES = Ok data /\
    dict_get "sha256" r = PStr (sha256 data).

Definition provenance_ok (sha256 : string -> string) (sys : os) (pol : policy) (kind : string)
    (p : pydict) : Prop :=
  exists root rs, dict_get "evidence_kind" p = PStr kind /\ evidence_root pol = PStr root /\
    dict_get "evidence" p = PList (map PDict rs) /\ rs <> [] /\
    Z.of_nat (List.length rs) <= MAX_EVIDENCE_FILES /\
    Exists (fun r => dict_get "kind" r = PStr kind) rs /\
    List.NoDup (map (dict_get "name") rs) /\ List.NoDup (map (dict_get "path") rs) /\
    (exists digest, evidence_manifest_digest sha256 rs = Ok digest /\ dict_get "evidence_digest" p = PStr digest) /\
    Forall (evidence_file sha256 sys (abspath (cwd sys) root)) rs.

(** The whole contract. *)
Definition verified (sha256 : string -> string) (sys : os) (pol : policy) (expected : option pydict)
    (v : pyval) : Prop :=
  exists d i a r rt f iso c p,
    v = PDict d /\
    eq_int (dict_get "schema_version" d) SCHEMA_VERSION = true /\
    fields_of d [("identity", PDict i); ("runtime", PDict rt); ("framework", PDict f);
                 ("isolation", PDict iso); ("cleanup", PDict c); ("provenance", PDict p)] /\
    identity_ok i a r /\ identity_expected expected i /\
    eq_opt_str (dict_get "producer" i) (producer a) = true /\
    (live_producer_supported a || protected_separate a = true) /\
    runtime_ok (live_kind a) rt /\ framework_ok f /\ isolation_ok r iso /\ cleanup_ok c /\
    provenance_ok sha256 sys pol (live_kind a) p.

(** ** Values *)

Lemma py_eq_is_str v s : py_eq v (PStr s) = true -> v = PStr s.
Proof.
  destruct v; simpl; try discriminate. intros H. apply String.eqb_eq in H. by subst.
Qed.

Lemma negb_eq_str v s : negb (eq_str v s) = false -> v = PStr s.
Proof. intros H%negb_false_iff. by apply eq_str_true. Qed.

Lemma bool_is v b : negb (is_bool_is v b) = false -> v = PBool b.
Proof. destruct v as [|[]| | | | |], b; simpl; congruence. Qed.

Lemma negb_is_true v : negb (is_true v) = false -> v = PBool true.
Proof. intros H%negb_false_iff. by apply is_true_eq. Qed.

Lemma as_mapping_clean v label m :
  clean (_as_mapping v label) m -> exists d, v = PDict d /\ m = Some d.
Proof. destruct v; unfold clean; simpl; try discriminate. injection 1 as <-. by exists d. Qed.

Ltac as_mapping :=
  match goal with
  | H : clean (_as_mapping ?v _) _ |- _ =>
      let d := fresh "d" in apply as_mapping_clean in H as (d & -> & ->)
  end.

(** Splits [Forall] over a literal list. *)
Ltac fields :=
  unfold fields_of; repeat first [apply List.Forall_nil | apply List.Forall_cons]; cbn beta iota delta [fst snd].

(** A clean loop over a literal list holds at each element. *)
Ltac each_inv H := rewrite clean_each in H; rewrite <- List.Forall_forall in H; list_inv H
with list_inv H :=
  repeat match type of H with
  | Forall _ (_ :: _) => let H1 := fresh "Hx" in apply Forall_cons_1 in H as [H1 H]; cbn beta iota in H1
  | Forall _ [] => clear H
  end.

(** ** Identity *)

Lemma adapter_for_Ok c id mode a : adapter_for c (Some id) (Some mode) = Ok a ->
  In a ADAPTER_INTERFACES /\ connector a = c /\ adapter_id a = id /\ integration_mode a = mode.
Proof.
  unfold adapter_for. destruct (List.filter _ _) as [|a' [|b l]] eqn:E.
  1, 3: by destruct (negb (str_in c CONNECTORS)).
  intros H. injection H as ->.
  assert (Ha : In a [a]) by by left. rewrite <- E in Ha. apply filter_In in Ha as [Ha Hb].
  unfold agrees in Hb. rewrite !andb_true_iff, !String.eqb_eq in Hb. tauto.
Qed.

Lemma token_str v : matches TOKEN v = true -> exists s, v = PStr s.
Proof. destruct v; simpl; try discriminate. by exists s. Qed.

Lemma string_field_clean v n label : clean (_check_string_field v n label) tt ->
  exists s, dict_get n v = PStr s.
Proof.
  unfold _check_string_field. destruct (matches TOKEN _) eqn:E; intros H; [by apply token_str|].
  by apply clean_error in H.
Qed.

Lemma expected_clean i e : clean (_validate_expected_identity i e) tt -> identity_expected e i.
Proof.
  destruct e as [e|]; [|done]. cbn [_validate_expected_identity identity_expected].
  rewrite clean_each. intros H k x Hin. specialize (H _ Hin). cbn beta iota zeta in H.
  destruct (has_key (alias k) i); cbn [negb] in H; [|by apply clean_error in H]. split; [done|].
  apply clean_when_error, andb_false_iff in H as [H|H]; apply negb_false_iff in H; auto.
Qed.

Lemma identity_clean v e m : clean (_validate_identity v e) m ->
  exists i a r, v = PDict i /\ m = Some i /\ identity_adapter i = Ok a /\ identity_expected e i /\
    (dict_get "producer_version" i = PStr PRODUCER_VERSION -> identity_ok i a r).
Proof.
  unfold _validate_identity. intros H. apply clean_bind in H as (m' & Hm & H). as_mapping.
  apply clean_then in H as [Hc H]. apply clean_then in H as [Hp H].
  apply clean_then in H as [Hs H]. apply clean_then in H as [He H]. apply clean_ret in H as <-.
  unfold _validate_identity_contract in Hc. apply clean_then in Hc as [_ Hc].
  destruct (_is_approved_literal _ _) eqn:Ec; cbn [negb] in Hc; [|by apply clean_error in Hc].
  apply in_strs_true in Ec as (c & Ec & _).
  apply clean_then in Hc as [Ht Hc]. each_inv Ht.
  apply string_field_clean in Hx as (id & Eid). apply string_field_clean in Hx0 as (mode & Em).
  destruct (identity_adapter d) as [a|] eqn:Ea; [|by apply clean_error in Hc].
  unfold _validate_identity_profile in Hp. apply clean_bind in Hp as (r & Hr & Hp).
  apply clean_then in Hp as [_ Hp].
  unfold _profile_requirements_for_identity in Hr.
  destruct (dict_get "profile" d) as [| | | |p| |] eqn:Ep;
    try (apply clean_then in Hr as [Hr _]; by apply clean_error in Hr).
  destruct (str_in p PROFILES) eqn:Epp; [|apply clean_then in Hr as [Hr _]; by apply clean_error in Hr].
  apply clean_ret in Hr as <-.
  assert (Hlk : exists rq, lookup p PROFILE_REQUIREMENTS = Some rq).
  { apply str_in_In in Epp. simpl in Epp.
    destruct Epp as [<-|[<-|[<-|[<-|[]]]]]; eexists; reflexivity. }
  destruct Hlk as [r Hlk]. rewrite Hlk in Hp. each_inv Hp.
  apply clean_when_error, bool_is in Hx. apply clean_when_error, bool_is in Hx0.
  exists d, a, r. do 3 (split; [done|]). split; [by apply expected_clean|]. intros Hv.
  unfold identity_adapter in Ea. rewrite Ec, Eid, Em in Ea. apply adapter_for_Ok in Ea as (Hin & Ea1 & Ea2 & Ea3).
  constructor; try done.
  - fields; [by rewrite Ec, Ea1|by rewrite Eid, Ea2|by rewrite Em, Ea3].
  - by exists p.
  - by fields.
  - unfold _validate_identity_commits in Hs. each_inv Hs.
    fields; eapply negb_false_iff, clean_when_error; eassumption.
Qed.

(** ** Assertions and runtime *)

Lemma value_map_clean label v m : clean (_validate_value_map label v) m ->
  exists d, v = PDict d /\ m = Some d /\ d <> [].
Proof.
  unfold _validate_value_map. intros H. apply clean_bind in H as (m' & Hm & H). as_mapping.
  destruct d as [|kv d]; [apply clean_then in H as [H _]; by apply clean_error in H|].
  exists (kv :: d). split; [done|]. split; [|done].
  destruct (_has_forbidden_metadata _); [apply clean_then in H as [H _]; by apply clean_error in H|].
  repeat (apply clean_then in H as [_ H]). by apply clean_ret in H as <-.
Qed.

Lemma expected_observed_clean e o label : clean (_expected_matches_observed e o label) tt ->
  forall k x, In (k, x) e -> exists k' w, In (k', w) o /\ py_eq k' k = true /\ py_eq w x = true.
Proof.
  unfold _expected_matches_observed. rewrite clean_each. intros H k x Hin.
  specialize (H _ Hin). cbn beta iota in H.
  destruct (List.find _ o) as [[k' w]|] eqn:E; [|by apply clean_error in H].
  apply List.find_some in E as [Ho Ek]. apply clean_when_error, negb_false_iff in H. eauto.
Qed.

Lemma live_canonical k : In k LIVE_EVIDENCE_KINDS -> in_strs (PStr k) CANONICAL_EVIDENCE_KINDS = true.
Proof. intros H. apply str_in_In, in_or_app. by left. Qed.

Lemma assertion_clean v label k fixture :
  clean (_validate_assertion v label true false (PStr k) fixture) tt ->
  In k LIVE_EVIDENCE_KINDS -> passing_assertion v = true -> live_assertion k v.
Proof.
  unfold _validate_assertion. intros H Hk Hp. apply clean_bind in H as (m & Hm & H). as_mapping.
  cbn [passing_assertion] in Hp. rewrite !andb_true_iff, !is_true_eq, eq_str_true in Hp.
  destruct Hp as [[[Ha Hx] Hl] Hr]. cbv zeta in H.
  do 7 apply clean_then in H as [_ H]. apply clean_then in H as [Hkind H].
  apply clean_when_error in Hkind. unfold _is_approved_literal in Hkind.
  rewrite live_canonical in Hkind by done. cbn [andb] in Hkind.
  apply negb_false_iff, py_eq_is_str in Hkind.
  apply clean_bind in H as (me & He & H). apply value_map_clean in He as (e & He & -> & Hne).
  apply clean_bind in H as (mo & Ho & H). apply value_map_clean in Ho as (o & Ho & -> & _).
  unfold _validate_not_applicable_assertion in H. rewrite Ha in H. cbn [is_false negb] in H.
  apply clean_bind in H as (b & Hb & H). apply clean_ret in Hb as <-.
  apply clean_then in H as [Hreq H]. unfold _validate_applicable_assertion in Hreq.
  apply clean_then in Hreq as [Hreq _]. apply clean_when_error in Hreq. apply negb_is_true in Hreq.
  exists d, e, o. split; [done|]. split; [by fields|]. split; [done|].
  by apply (expected_observed_clean _ _ label).
Qed.

Lemma find_get k d v : dict_find k d = Some v -> dict_get k d = v.
Proof. unfold dict_get, dict_get_or. by intros ->. Qed.

Lemma required_clean names runtime k fixture ids ids' :
  clean (required_assertions names runtime (PStr k) fixture ids) ids' ->
  forall name v, In name names -> dict_find name runtime = Some v ->
  clean (_validate_assertion v ("runtime." +:+ name) true false (PStr k) fixture) tt.
Proof.
  revert ids; induction names as [|n names IH]; intros ids H name v Hin Hv; [done|].
  cbn [required_assertions] in H. destruct (dict_find n runtime) as [w|] eqn:En.
  - apply clean_then in H as [Ha H]. apply clean_bind in H as (ids1 & _ & H).
    destruct Hin as [->|Hin]; [|eauto]. rewrite Hv in En. by injection En as ->.
  - destruct Hin as [->|Hin]; [congruence|eauto].
Qed.

Lemma runtime_clean v partial k fixture m :
  clean (_validate_runtime v partial (PStr k) fixture) m -> In k LIVE_EVIDENCE_KINDS ->
  exists r, v = PDict r /\ m = Some r /\ runtime_ok k r.
Proof.
  unfold _validate_runtime. intros H Hk. apply clean_bind in H as (m' & Hm & H). as_mapping.
  cbv zeta in H. repeat (let G := fresh "G" in apply clean_then in H as [G H]).
  apply clean_ret in H as <-. exists d. split; [done|]. split; [done|].
  assert (Hs : dict_get "runtime_status" d = PStr "PASS").
  { apply clean_when_error, negb_false_iff, in_strs_true in G2 as (s & Es & Hin). rewrite Es in *.
    simpl in Hin. destruct Hin as [<-|[<-|[<-|[<-|[]]]]]; [done| | |]; exfalso; revert G5; by vm_compute. }
  split; [done|]. unfold _validate_runtime_status_alignment in G4. rewrite Hs in G4.
  cbn [eq_str String.eqb Ascii.eqb Bool.eqb negb] in G4.
  unfold _validate_runtime_assertions in G3. apply clean_bind in G3 as (ids & G3 & _).
  apply List.Forall_forall. intros name Hin. rewrite clean_each in G4. specialize (G4 _ Hin). cbv zeta in G4.
  destruct (is_mapping (dict_get name d)) eqn:Em; [|by apply clean_error in G4]. cbn [negb] in G4.
  apply clean_when_error, negb_false_iff in G4.
  destruct (dict_find name d) as [w|] eqn:Ew.
  - pose proof (required_clean _ _ _ _ _ _ G3 _ _ Hin Ew) as Hc. apply find_get in Ew. rewrite Ew in *.
    by apply (assertion_clean _ _ _ _ Hc).
  - unfold dict_get, dict_get_or in Em. by rewrite Ew in Em.
Qed.

(** ** Framework cases *)

Lemma framework_identifier_str v : _safe_framework_identifier v = true -> exists s, v = PStr s.
Proof. destruct v; simpl; try discriminate. by exists s. Qed.

(** What a clean case holds; it counts as passed only when it was run live and
    passed. *)
Lemma case_clean v label k : clean (_validate_framework_case v label) k ->
  exists c id, v = PDict c /\ case_identifier v = Some id /\
    k = counts_of_case c (dict_get "result" c) /\ dict_get "selected" c = PBool true /\
    (dict_get "result" c = PStr "PASS" -> passing_case v).
Proof.
  unfold _validate_framework_case. intros H. apply clean_bind in H as (m & Hm & H). as_mapping.
  apply clean_then in H as [_ H]. apply clean_then in H as [Hid H].
  apply clean_bind in H as (result & Hr & H). apply clean_then in H as [_ H].
  apply clean_bind in H as (e & _ & H). apply clean_bind in H as (o & _ & H).
  apply clean_then in H as [_ H]. apply clean_then in H as [Hx H]. apply clean_ret in H as <-.
  unfold _validate_framework_case_status in Hr. apply clean_then in Hr as [_ Hr].
  apply clean_ret in Hr as <-. unfold _validate_framework_case_identity in Hid.
  apply clean_then in Hid as [Hf Hid]. apply clean_when_error, negb_false_iff in Hf.
  apply framework_identifier_str in Hf as [id Hf]. cbv zeta in Hid.
  apply clean_then in Hid as [_ Hid]. apply clean_then in Hid as [_ Hid].
  apply clean_when_error, negb_is_true in Hid.
  exists d, id. split; [done|]. split; [by cbn [case_identifier]; rewrite Hf|].
  split; [done|]. split; [done|]. intros Hp.
  unfold _validate_framework_case_execution in Hx. rewrite Hp in Hx.
  cbn [hashable negb eq_str] in Hx. change (in_strs _ _) with true in Hx.
  change (String.eqb "PASS" "PASS") with true in Hx. cbn [andb] in Hx.
  apply clean_then in Hx as [Hex Hx]. apply clean_then in Hx as [Hcount Hx].
  apply clean_then in Hx as [Hlive _].
  apply clean_when_error, negb_is_true in Hex. apply clean_when_error, negb_is_true in Hlive.
  apply clean_when_error, orb_false_iff in Hcount as [Hfc Hmc]. apply negb_false_iff in Hfc, Hmc.
  exists d. split; [done|]. split; [by fields|]. done.
Qed.

Definition case_counted (v : pyval) (k : case_counts) : Prop :=
  exists label, clean (_validate_framework_case v label) k.

Lemma cases_clean i cases ids a r : clean (_validate_framework_cases i cases ids a) r ->
  (exists ks, Forall2 case_counted cases ks /\ r = fold_left add_counts ks a) /\
  List.NoDup (map case_identifier cases) /\
  forall id, In id ids -> ~ In (Some id) (map case_identifier cases).
Proof.
  revert i ids a; induction cases as [|v cases IH]; intros i ids a H; cbn [_validate_framework_cases] in H.
  - apply clean_ret in H as <-. split; [by exists []|]. split; [apply List.NoDup_nil|intros id _ []].
  - cbv zeta in H. apply clean_then in H as [Hd H]. apply clean_bind in H as (k & Hk & H).
    pose proof (case_clean _ _ _ Hk) as (c & id & -> & Hid & _). rewrite Hid in *.
    apply clean_when_error in Hd. apply IH in H as ((ks & Hks & ->) & Hnd & Hout). cbn [map]. rewrite Hid.
    split; [exists (k :: ks); split; [|done]; constructor; [by eexists|done]|].
    split; [constructor; [apply Hout; by left|done]|].
    intros id' Hin [E|E]; [|by apply (Hout id'); [right|]].
    injection E as <-. apply str_in_In in Hin. congruence.
Qed.

(** A count that adds up case by case. *)
Lemma counts_sum (f : case_counts -> Z) ks a :
  (forall x y, f (add_counts x y) = f x + f y) ->
  f (fold_left add_counts ks a) = f a + fold_right (fun k z => f k + z) 0 ks.
Proof.
  intros Hf. revert a; induction ks as [|k ks IH]; intros a; simpl; [lia|]. rewrite IH, Hf. lia.
Qed.

Lemma tally_range b : 0 <= tally b <= 1.
Proof. destruct b; simpl; lia. Qed.

(** As many passed as selected means all passed. *)
Lemma all_passed cases ks : Forall2 case_counted cases ks ->
  fold_right (fun k z => passed_count k + z) 0 ks <= Z.of_nat (List.length cases) /\
  fold_right (fun k z => selected_count k + z) 0 ks = Z.of_nat (List.length cases) /\
  (fold_right (fun k z => passed_count k + z) 0 ks = Z.of_nat (List.length cases) ->
   Forall passing_case cases).
Proof.
  induction 1 as [|v k cases ks [label Hk] Hks (IH1 & IH2 & IH3)]; [by split; [|split; [|constructor]]|].
  cbn [fold_right List.length]. rewrite Nat2Z.inj_succ.
  pose proof (case_clean _ _ _ Hk) as (c & id & -> & _ & -> & Hs & Hp).
  cbn [passed_count selected_count counts_of_case]. rewrite Hs. cbn [is_true tally].
  pose proof (tally_range (eq_str (dict_get "result" c) "PASS")) as R.
  split; [lia|]. split; [lia|]. intros Hsum.
  destruct (eq_str (dict_get "result" c) "PASS") eqn:E; cbn [tally] in *; [|lia].
  constructor; [apply Hp; by apply eq_str_true|apply IH3; lia].
Qed.

Lemma framework_clean v m : clean (_validate_framework v) m ->
  exists f, v = PDict f /\ framework_ok f.
Proof.
  unfold _validate_framework. intros H. apply clean_bind in H as (m' & Hm & H). as_mapping.
  apply clean_then in H as [_ H]. exists d. split; [done|].
  destruct (dict_get "cases" d) as [| | | | |cases|] eqn:Ec;
    try (apply clean_then in H as [H _]; by apply clean_error in H).
  cbv zeta in H. destruct (_ && _) eqn:En; [|apply clean_then in H as [H _]; by apply clean_error in H].
  apply andb_true_iff in En as [En1 En2]. apply Z.leb_le in En1, En2.
  apply clean_bind in H as (r & Hr & H). apply clean_then in H as [Ha H]. apply clean_then in H as [Hd _].
  apply cases_clean in Hr as ((ks & Hks & ->) & Hnd & _).
  pose proof (all_passed _ _ Hks) as (_ & Hsel & Hall).
  unfold _validate_framework_disposition in Hd.
  do 3 (let G := fresh "G" in apply clean_then in Hd as [G Hd]; apply clean_when_partial in G).
  apply clean_then in Hd as [Hv _]. apply clean_when_partial, negb_eq_str in Hv.
  apply negb_false_iff, Z.eqb_eq in G0, G1.
  unfold _validate_framework_aggregate in Ha. do 3 apply clean_then in Ha as [_ Ha].
  apply clean_then in Ha as [Hs Hx]. apply clean_when_error, negb_eq_str in Hs.
  apply clean_when_error, negb_eq_str in Hx. rewrite <- G0, G in Hx. rewrite G in Hs.
  rewrite <- G0 in G1. rewrite !counts_sum in G1 by done. cbn [selected_count passed_count no_counts] in G1.
  exists cases. split; [done|]. split; [by intros ->|]. split; [done|].
  split; [apply Hall; lia|]. split; [done|]. by fields.
Qed.

(** ** Isolation and cleanup *)

Lemma isolation_clean v r : rq_isolation r = map (fun f => (f, rq_mrts r)) ISOLATION_FIELDS ->
  clean (_validate_isolation v (Some r)) tt -> exists i, v = PDict i /\ isolation_ok r i.
Proof.
  unfold _validate_isolation. intros Hr H. apply clean_bind in H as (m & Hm & H). as_mapping.
  apply clean_then in H as [_ H]. cbv zeta in H. rewrite clean_each in H. exists d. split; [done|].
  apply List.Forall_forall. intros f Hf. specialize (H f Hf). rewrite Hr in H.
  unfold _validate_isolation_field in H. destruct (_is_boolean _); cbn [negb] in H; [|by apply clean_error in H].
  replace (lookup f _) with (Some (rq_mrts r)) in H.
  - by apply clean_when_error, bool_is in H.
  - simpl in Hf. destruct Hf as [<-|[<-|[<-|[<-|[<-|[]]]]]]; reflexivity.
Qed.

Lemma profile_isolation p r : lookup p PROFILE_REQUIREMENTS = Some r ->
  rq_isolation r = map (fun f => (f, rq_mrts r)) ISOLATION_FIELDS.
Proof.
  unfold PROFILE_REQUIREMENTS. cbn [lookup].
  repeat match goal with |- (if ?b then _ else _) = _ -> _ => destruct b end;
    intros H; [by injection H as <-..|done].
Qed.

Lemma cleanup_clean v : clean (_validate_cleanup v) tt -> exists c, v = PDict c /\ cleanup_ok c.
Proof.
  unfold _validate_cleanup. intros H. apply clean_bind in H as (m & Hm & H). as_mapping.
  apply clean_then in H as [_ H]. apply clean_then in H as [Hc H]. cbv zeta in H.
  apply clean_then in H as [_ H]. apply clean_then in H as [Hr H].
  apply clean_when_partial in Hr, H. apply negb_eq_str in H. exists d. split; [done|]. split; [|done].
  apply List.Forall_forall. intros f Hf. rewrite clean_each in Hc. specialize (Hc f Hf).
  apply clean_when_error, negb_false_iff in Hc. unfold residual in Hr.
  destruct (eq_int (dict_get f d) 0) eqn:E; [done|]. exfalso.
  assert (T : existsb (fun field => is_counter (dict_get field d) && negb (eq_int (dict_get field d) 0))
                CLEANUP_COUNTERS = true); [|congruence].
  apply existsb_exists. exists f. by rewrite Hc, E.
Qed.

(** ** Evidence records *)

Definition record_ok (r : pydict) : Prop :=
  exists n p, dict_get "name" r = PStr n /\ dict_get "path" r = PStr p /\
    _safe_relative_evidence_path (PStr p) = true.

Lemma record_clean i v kind s s' : clean (_validate_evidence_record i v kind s) s' ->
  exists r, v = PDict r /\ record_ok r /\ records s' = records s ++ [r] /\
    bound s' = bound s || py_eq (dict_get "kind" r) kind /\
    (in_strs (dict_get "name" r) (names s) = false /\ in_strs (dict_get "path" r) (paths s) = false) /\
    names s' = add_text (dict_get "name" r) (names s) /\ paths s' = add_text (dict_get "path" r) (paths s).
Proof.
  unfold _validate_evidence_record. intros H. cbv zeta in H. apply clean_bind in H as (m & Hm & H).
  as_mapping. apply clean_then in H as [_ H]. apply clean_then in H as [Hn H].
  apply clean_then in H as [Hp H]. apply clean_then in H as [_ H]. apply clean_then in H as [_ H].
  apply clean_bind in H as (np & Hu & H). apply clean_ret in H as <-.
  unfold _validate_evidence_record_uniqueness in Hu.
  apply clean_then in Hu as [Hun Hu]. apply clean_then in Hu as [Hup Hu]. apply clean_ret in Hu as <-.
  apply clean_when_error in Hn, Hp, Hun, Hup. apply negb_false_iff in Hn, Hp.
  apply token_str in Hn as [n Hn]. exists d. split; [done|].
  split; [|by repeat split].
  destruct (dict_get "path" d) as [| | | |p| |] eqn:Ep; try discriminate. by exists n, p.
Qed.

Lemma records_clean i l kind s s' : clean (evidence_records i l kind s) s' ->
  exists rs, l = map PDict rs /\ Forall record_ok rs /\ records s' = records s ++ rs /\
    bound s' = bound s || existsb (fun r => py_eq (dict_get "kind" r) kind) rs /\
    List.NoDup (map (dict_get "name") rs) /\ List.NoDup (map (dict_get "path") rs) /\
    (forall n, In n (names s) -> ~ In (PStr n) (map (dict_get "name") rs)) /\
    (forall p, In p (paths s) -> ~ In (PStr p) (map (dict_get "path") rs)).
Proof.
  revert i s; induction l as [|v l IH]; intros i s H; cbn [evidence_records] in H.
  - apply clean_ret in H as <-. exists []. rewrite app_nil_r, orb_false_r.
    do 4 (split; [done || apply List.Forall_nil|]).
    split; [apply List.NoDup_nil|]. split; [apply List.NoDup_nil|]. by split; intros x _ [].
  - apply clean_bind in H as (s1 & H1 & H).
    apply record_clean in H1 as (r & -> & Hr & Er & Eb & (Hn & Hp) & En & Ep).
    apply IH in H as (rs & -> & Hrs & Ers & Ebs & Nn & Np & Dn & Dp).
    destruct Hr as (n & p & Hrn & Hrp & Hsafe). rewrite Hrn, Hrp in *. cbn [add_text] in En, Ep.
    cbn [in_strs] in Hn, Hp. exists (r :: rs). split; [done|].
    split; [constructor; [by exists n, p|done]|]. split; [by rewrite Ers, Er, <- app_assoc|].
    split; [by rewrite Ebs, Eb; cbn [existsb]; rewrite orb_assoc|]. cbn [map]. rewrite Hrn, Hrp.
    rewrite En in Dn. rewrite Ep in Dp.
    assert (Nin : forall x l, str_in x l = false -> ~ In x l)
      by (intros x l0 E Hin; apply str_in_In in Hin; congruence).
    split; [constructor; [apply Dn; by left|done]|]. split; [constructor; [apply Dp; by left|done]|].
    split; intros x Hx [E|Hin].
    + injection E as <-. by apply (Nin _ _ Hn).
    + by apply (Dn x); [right|].
    + injection E as <-. by apply (Nin _ _ Hp).
    + by apply (Dp x); [right|].
Qed.

(** ** Provenance *)

Section Provenance.
Variable sha256 : string -> string.
Variable sys : os.

(** Fixture evidence is forbidden or not what the document claims. *)
Definition no_fixture (pol : policy) (p : pydict) : Prop :=
  allow_fixture_evidence pol = false \/ eq_str (dict_get "evidence_kind" p) "canonical_fixture" = false.

(** Without fixture evidence a producer is the live producer of its adapter. *)
Lemma producer_clean i a p pol : identity_adapter i = Ok a -> no_fixture pol p ->
  clean (_validate_producer_binding (Some i) p pol) tt ->
  dict_get "producer_version" i = PStr PRODUCER_VERSION /\
  eq_opt_str (dict_get "producer" i) (producer a) = true /\
  live_producer_supported a || protected_separate a = true /\
  dict_get "evidence_kind" p = PStr (live_kind a).
Proof.
  intros Ha Hf H. unfold _validate_producer_binding in H. cbv zeta in H.
  apply clean_then in H as [Hv H]. apply clean_when_error, negb_eq_str in Hv. rewrite Ha in H.
  split; [done|]. unfold live_kind.
  destruct (protected_separate a).
  - apply clean_then in H as [Hp Hk]. apply clean_when_error in Hp, Hk.
    rewrite orb_true_r. apply negb_false_iff in Hp. by apply negb_eq_str in Hk.
  - destruct (eq_str (dict_get "evidence_kind" p) "canonical_fixture") eqn:Efix.
    { apply clean_then in H as [_ H]. destruct Hf as [Hf|Hf]; [|congruence]. rewrite Hf in H.
      by apply clean_error in H. }
    destruct (live_producer_supported a); cbn [negb] in H; [|by apply clean_error in H].
    apply clean_then in H as [Hp Hk]. apply clean_when_error in Hp, Hk.
    apply negb_false_iff in Hp. by apply negb_eq_str in Hk.
Qed.

Lemma referenced_clean root rs : Forall record_ok rs -> clean (referenced_evidence sha256 sys root rs) tt ->
  Forall (evidence_file sha256 sys root) rs.
Proof.
  induction 1 as [|r rs (n & p & Hn & Hp & Hsafe) _ IH]; intros H; [constructor|].
  cbn [referenced_evidence] in H. destruct (dict_find "path" r) as [p'|] eqn:Ep; [|by apply clean_raise in H].
  apply find_get in Ep. rewrite Hp in Ep. subst p'. cbn [py_str] in H.
  destruct (read_bounded_evidence_file _ _ _ _ _) as [data|e] eqn:Er; [|by destruct e; inversion H].
  destruct (dict_find "sha256" r) as [d|] eqn:Ed; [|by apply clean_raise in H].
  apply find_get in Ed. apply clean_then in H as [Hd H]. apply clean_when_error, negb_eq_str in Hd.
  constructor; [|by apply IH]. exists p, data. subst d. done.
Qed.

Lemma evidence_clean evidence kind rs : clean (_validate_evidence_records evidence kind) rs ->
  evidence = PList (map PDict rs) /\ rs <> [] /\ Z.of_nat (List.length rs) <= MAX_EVIDENCE_FILES /\
  Forall record_ok rs /\ existsb (fun r => py_eq (dict_get "kind" r) kind) rs = true /\
  List.NoDup (map (dict_get "name") rs) /\ List.NoDup (map (dict_get "path") rs).
Proof.
  unfold _validate_evidence_records.
  destruct evidence as [| | | | |[|v l]|]; intros H;
    try (apply clean_then in H as [H _]; by apply clean_error in H).
  destruct (_ <=? _) eqn:E; [|apply clean_then in H as [H _]; by apply clean_error in H].
  apply Z.leb_le in E. apply clean_bind in H as (s & Hs & H). apply clean_then in H as [Hb H].
  apply clean_when_error, negb_false_iff in Hb. apply clean_ret in H as <-.
  apply records_clean in Hs as (rs & El & Hok & Ers & Ebs & Nn & Np & _). rewrite Ers. rewrite Ebs in Hb.
  cbn [records bound app orb] in *. rewrite El in *. rewrite length_map in E.
  split; [done|]. split; [by intros ->|]. done.
Qed.

Lemma provenance_clean v i a pol m : identity_adapter i = Ok a ->
  clean (_validate_provenance sha256 sys v (Some i) pol) m ->
  (forall p, m = Some p -> no_fixture pol p) ->
  exists p, v = PDict p /\ m = Some p /\ dict_get "producer_version" i = PStr PRODUCER_VERSION /\
    eq_opt_str (dict_get "producer" i) (producer a) = true /\
    live_producer_supported a || protected_separate a = true /\
    provenance_ok sha256 sys pol (live_kind a) p.
Proof.
  intros Ha H Hf. unfold _validate_provenance in H. apply clean_bind in H as (m' & Hm & H). as_mapping.
  do 3 apply clean_then in H as [_ H]. cbv zeta in H. apply clean_then in H as [Hb H].
  apply clean_bind in H as (rs & Hrs & H). apply clean_then in H as [Hd H].
  apply clean_then in H as [_ H]. apply clean_then in H as [Hr H]. apply clean_ret in H as <-.
  specialize (Hf d eq_refl). apply (producer_clean _ _ _ _ Ha Hf) in Hb as (Hv & Hp & Hl & Hk).
  apply evidence_clean in Hrs as (Ev & Hne & Hlen & Hok & Hbound & Nn & Np).
  exists d. do 5 (split; [done|]). unfold _validate_provenance_evidence_root in Hr. cbv zeta in Hr.
  assert (Hfix : eq_str (dict_get "evidence_kind" d) "canonical_fixture" = false)
    by (rewrite Hk; unfold live_kind; by destruct (protected_separate a)).
  rewrite Hfix in Hr. destruct rs as [|r rs]; [done|]. cbn [negb] in *. rewrite andb_true_r in Hr.
  destruct (evidence_root pol) as [| | | |root| |] eqn:Eroot; cbn [is_none negb andb] in Hr;
    try (by apply clean_raise in Hr).
  { destruct (allow_partial pol); [by apply clean_partial in Hr|by apply clean_error in Hr]. }
  apply clean_bind in Hd as (digest & Hm & Hd). apply clean_when_error, negb_eq_str in Hd. injection Hm as Hm.
  exists root, (r :: rs). do 5 (split; [done|]). split.
  { apply existsb_exists in Hbound as (r' & Hin & Hr'). apply List.Exists_exists. exists r'.
    split; [done|]. rewrite Hk in Hr'. by apply py_eq_is_str. }
  do 2 (split; [done|]). split; [by exists digest|]. by apply referenced_clean.
Qed.
End Provenance.

(** ** The document *)

Lemma document_clean sha256 sys v e pol i rt p :
  clean (_validate_document sha256 sys v e pol) (i, rt, p) ->
  (forall p', p = Some p' -> no_fixture pol p') ->
  verified sha256 sys pol e v /\
  exists p', p = Some p' /\ eq_str (dict_get "evidence_kind" p') "canonical_fixture" = false.
Proof.
  intros H Hf. unfold _validate_document in H. apply clean_bind in H as (m' & Hm & H). as_mapping.
  apply clean_then in H as [_ H]. apply clean_then in H as [Hs H]. apply clean_when_error, negb_false_iff in Hs.
  apply clean_bind in H as (mi & Hi & H). apply identity_clean in Hi as (i' & a & r & Ei & -> & Ha & He & Hid).
  cbv zeta in H. apply clean_bind in H as (rt0 & Hrt & H). apply clean_bind in H as (f & Hfr & H).
  apply framework_clean in Hfr as (f' & Ef & Hfr). apply clean_then in H as [Hiso H].
  apply clean_then in H as [Hc H]. apply cleanup_clean in Hc as (c & Ec & Hc).
  apply clean_bind in H as (p0 & Hp & H). apply clean_ret in H. injection H as <- <- ->.
  apply (provenance_clean _ _ _ _ _ _ _ Ha) in Hp as (p' & Ep & -> & Hv & Hpr & Hl & Hp); [|done].
  specialize (Hid Hv). pose proof Hp as (_ & _ & Hk & _). rewrite Ep, Hk in Hrt.
  apply runtime_clean in Hrt as (rt' & Ert & _ & Hrt);
    [|unfold live_kind; destruct (protected_separate a); apply str_in_In; reflexivity].
  destruct (id_profile _ _ _ Hid) as (pr & Epr & Hlk).
  unfold document_requirements in Hiso. rewrite Epr, Hlk in Hiso.
  apply (isolation_clean _ _ (profile_isolation _ _ Hlk)) in Hiso as (iso & Eiso & Hiso).
  split; [|exists p'; split; [done|]; rewrite Hk; unfold live_kind; by destruct (protected_separate a)].
  exists d, i', a, r, rt', f', iso, c, p'. split; [done|]. split; [done|].
  split; [by fields|]. done.
Qed.

Lemma status_pass notes pol : fst (_validation_status notes pol) = "PASS" -> notes = [].
Proof.
  unfold _validation_status. destruct (hard notes) eqn:Eh; [|done].
  destruct (incomplete notes) eqn:Ei; [|by destruct (allow_partial pol)]. intros _. by apply no_findings.
Qed.

(** The verdict, from the run of the document. *)
Lemma verdict_inv sha256 sys v expected pv pol result :
  _normalise_policy pv = Ok pol ->
  validate_runtime_observation sha256 sys v expected pv = Ok result -> status result = "PASS" ->
  exists i rt p, clean (_validate_document sha256 sys v expected pol) (i, rt, p) /\
    evidence_disposition result = _add_result_disposition p "PASS".
Proof.
  intros Hp H Hs. unfold validate_runtime_observation in H. rewrite Hp in H.
  destruct (_validate_document sha256 sys v expected pol) as [log outcome] eqn:E.
  destruct outcome as [[[i rt] p]|e].
  - destruct (_validation_status log pol) as [st val] eqn:Es. injection H as <-. cbn [status] in Hs. subst st.
    exists i, rt, p. split; [|done]. unfold clean. f_equal.
    apply (status_pass log pol). by rewrite Es.
  - exfalso. destruct e; try discriminate. destruct (_validation_status _ pol) as [st val] eqn:Es.
    injection H as <-. cbn [status] in Hs. subst st. apply (f_equal fst), status_pass in Es.
    by destruct log.
Qed.

(** C7: an observation is called runtime evidence only when it fulfils the whole
    contract, whatever the policy: an approved adapter with its live producer,
    profile and commits, every required assertion and every selected case passed
    on a live host, isolation as the profile says, nothing left behind, and
    evidence files that were read safely and have the recorded digests.  Without
    the fixture policy that is what PASS means. *)
Theorem runtime_evidence_sound sha256 sys v expected pv pol result :
  _normalise_policy pv = Ok pol ->
  validate_runtime_observation sha256 sys v expected pv = Ok result ->
  (evidence_disposition result = "runtime_evidence" -> verified sha256 sys pol expected v) /\
  (allow_fixture_evidence pol = false -> status result = "PASS" ->
   evidence_disposition result = "runtime_evidence").
Proof.
  intros Hp H. split.
  - intros Hd. assert (Hs : status result = "PASS").
    { unfold validate_runtime_observation in H. rewrite Hp in H.
      destruct (_validate_document sha256 sys v expected pol) as [log outcome].
      assert (D : forall p st, _add_result_disposition p st = "runtime_evidence" -> st = "PASS").
      { intros p st. unfold _add_result_disposition. 
        destruct (String.eqb_spec st "PASS") as [->|]; [done|].
        destruct p as [p|]; [destruct (eq_str _ "canonical_fixture")|]; discriminate 1. }
      destruct outcome as [[[i rt] p]|e]; [|destruct e; try discriminate];
        destruct (_validation_status _ pol) as [st val]; injection H as <-; exact (D _ _ Hd). }
    destruct (verdict_inv _ _ _ _ _ _ _ Hp H Hs) as (i & rt & p & Hc & Ed). rewrite Hd in Ed.
    apply document_clean in Hc as [Hv _]; [done|]. intros p' ->. right.
    unfold _add_result_disposition in Ed.
    destruct (eq_str (dict_get "evidence_kind" p') "canonical_fixture"); [discriminate Ed|done].
  - intros Hf Hs. destruct (verdict_inv _ _ _ _ _ _ _ Hp H Hs) as (i & rt & p & Hc & ->).
    apply document_clean in Hc as [_ (p' & -> & Hk)]; [|by intros; left].
    unfold _add_result_disposition. by rewrite Hk.
Qed.
