(* ===== verification/ObservationTheorems.v ===== *)
(** * Theorems of the runtime observation contract *)

From S2P Require Export ObservationFacts.

(** ** The metadata walk against its recursive reading *)

(** Nothing forbidden anywhere in the value: the recursive reading of the
    contract, without stack and bounds. *)
Fixpoint metadata_ok (v : pyval) : bool :=
  match v with
  | PDict d => negb (existsb (fun kv => forbidden_key (fst kv)) d)
               && forallb (fun kv => metadata_ok (snd kv)) d
  | PList l => forallb metadata_ok l
  | PStr s => negb (_is_absolute_path_text s)
  | _ => true
  end.

Fixpoint size (v : pyval) : nat :=
  match v with
  | PDict d => S (list_sum (map (fun kv => size (snd kv)) d))
  | PList l => S (list_sum (map size l))
  | _ => 1
  end.

Fixpoint height (v : pyval) : nat :=
  match v with
  | PDict d => fold_right Nat.max 0%nat (map (fun kv => S (height (snd kv))) d)
  | PList l => fold_right Nat.max 0%nat (map (fun x => S (height x)) l)
  | _ => 0
  end.

Definition stack_size (pending : list (pyval * nat)) : nat := list_sum (map (fun p => size (fst p)) pending).
Definition stack_ok (pending : list (pyval * nat)) : bool := forallb (fun p => metadata_ok (fst p)) pending.
Definition stack_fits (pending : list (pyval * nat)) : Prop :=
  Forall (fun p => (snd p + height (fst p) <= MAX_METADATA_DEPTH)%nat) pending.

Lemma list_sum_rev l : list_sum (rev l) = list_sum l.
Proof. induction l as [|x l IH]; [done|]. simpl. rewrite list_sum_app, IH. simpl. lia. Qed.

Lemma forallb_rev {A} (f : A -> bool) l : forallb f (rev l) = forallb f l.
Proof. induction l as [|x l IH]; [done|]. simpl. rewrite forallb_app, IH. simpl. by rewrite andb_true_r, andb_comm. Qed.

Lemma push_size l d rest : stack_size (push l d rest) = (list_sum (map size l) + stack_size rest)%nat.
Proof.
  unfold stack_size, push. rewrite map_app, list_sum_app, map_rev, list_sum_rev, map_map. done.
Qed.

Lemma push_ok l d rest : stack_ok (push l d rest) = forallb metadata_ok l && stack_ok rest.
Proof.
  unfold stack_ok, push. rewrite forallb_app, forallb_rev. f_equal.
  induction l as [|x l IH]; [done|]. simpl. by rewrite IH.
Qed.

Lemma height_child l n : (fold_right Nat.max 0%nat (map (fun x => S (height x)) l) <= n)%nat ->
  Forall (fun x => (S (height x) <= n)%nat) l.
Proof.
  induction l as [|x l IH]; simpl; intros H; constructor; [lia|]. apply IH. lia.
Qed.

Lemma push_fits l d rest :
  (d + fold_right Nat.max 0%nat (map (fun x => S (height x)) l) <= MAX_METADATA_DEPTH)%nat ->
  stack_fits rest -> stack_fits (push l d rest).
Proof.
  intros H Hr. unfold stack_fits, push. apply List.Forall_app. split; [|done].
  apply List.Forall_rev. apply List.Forall_map. cbn [fst snd].
  assert (G : (fold_right Nat.max 0%nat (map (fun x => S (height x)) l) <= MAX_METADATA_DEPTH - d)%nat) by lia.
  apply height_child in G. eapply Forall_impl; [exact G|]. simpl. lia.
Qed.

Lemma dict_values (d : pydict) :
  map (fun kv : pyval * pyval => size (snd kv)) d = map size (map snd d) /\
  map (fun kv : pyval * pyval => S (height (snd kv))) d = map (fun x => S (height x)) (map snd d) /\
  forallb (fun kv : pyval * pyval => metadata_ok (snd kv)) d = forallb metadata_ok (map snd d).
Proof.
  rewrite !map_map. split; [done|]. split; [done|].
  induction d as [|[k v] d IH]; [done|]. simpl. by rewrite IH.
Qed.

(** A walk that accepts has seen everything; one within the bounds accepts all
    that is clean. *)
Lemma metadata_walk_sound budget pending :
  metadata_walk budget pending = false -> stack_ok pending = true.
Proof.
  revert pending; induction budget as [|budget IH]; intros [|[v d] rest] H; try done.
  cbn [metadata_walk] in H. destruct (Nat.ltb MAX_METADATA_DEPTH d); [done|].
  unfold stack_ok. cbn [forallb fst]. fold (stack_ok rest).
  destruct v as [| | | |s|l|m]; cbn [metadata_ok]; try by apply IH in H.
  - destruct (_is_absolute_path_text s); [done|]. by apply IH in H.
  - apply IH in H. by rewrite push_ok in H.
  - destruct (existsb _ m); [done|]. apply IH in H. rewrite push_ok in H.
    destruct (dict_values m) as (_ & _ & ->). done.
Qed.

Lemma metadata_walk_complete budget pending :
  stack_ok pending = true -> (stack_size pending <= budget)%nat -> stack_fits pending ->
  metadata_walk budget pending = false.
Proof.
  revert pending; induction budget as [|budget IH]; intros [|[v d] rest] Hok Hs Hf; try done.
  - exfalso. unfold stack_size in Hs. simpl in Hs. destruct v; simpl in Hs; lia.
  - cbn [metadata_walk]. inversion Hf as [|? ? Hd Hr]; subst. cbn [fst snd] in Hd.
    destruct (Nat.ltb MAX_METADATA_DEPTH d) eqn:Ed; [apply Nat.ltb_lt in Ed; lia|].
    unfold stack_ok in Hok. cbn [forallb fst] in Hok. fold (stack_ok rest) in Hok.
    apply andb_true_iff in Hok as [Hv Hrest].
    unfold stack_size in Hs. cbn [map fst] in Hs. fold (stack_size rest) in Hs.
    change (list_sum (size v :: map (fun p => size (fst p)) rest))
      with (size v + stack_size rest)%nat in Hs.
    destruct v as [| | | |s|l|m]; cbn [size height metadata_ok] in *;
      try (apply IH; [done|lia|done]).
    + apply negb_true_iff in Hv. rewrite Hv. apply IH; [done|lia|done].
    + apply IH; [rewrite push_ok; by rewrite Hv|rewrite push_size; lia|by apply push_fits].
    + destruct (dict_values m) as (E1 & E2 & E3). rewrite E1 in Hs. rewrite E2 in Hd. rewrite E3 in Hv.
      apply andb_true_iff in Hv as [Hk Hv]. apply negb_true_iff in Hk. rewrite Hk.
      apply IH; [rewrite push_ok; by rewrite Hv|rewrite push_size; lia|by apply push_fits].
Qed.

Lemma walk_exact budget v :
  (metadata_walk budget [(v, 0%nat)] = false -> metadata_ok v = true) /\
  ((size v <= budget)%nat -> (height v <= MAX_METADATA_DEPTH)%nat ->
   metadata_walk budget [(v, 0%nat)] = negb (metadata_ok v)).
Proof.
  assert (G : metadata_walk budget [(v, 0%nat)] = false -> metadata_ok v = true).
  { intros H. apply metadata_walk_sound in H. unfold stack_ok in H. cbn [forallb fst] in H.
    by rewrite andb_true_r in H. }
  split; [done|]. intros Hs Hh. destruct (metadata_ok v) eqn:E; cbn [negb].
  - apply metadata_walk_complete.
    + unfold stack_ok. cbn [forallb fst]. by rewrite E.
    + unfold stack_size. cbn [map fst list_sum fold_right]. lia.
    + constructor; [done|apply List.Forall_nil].
  - destruct (metadata_walk budget _); [done|]. by discriminate (G eq_refl).
Qed.

(** C8: the metadata filter terminates within its 4,096 nodes on every value, never
    lets a forbidden key, a key that is not a string or an absolute path through,
    however deep, and on every value of at most 4,096 nodes and 32 levels rejects
    nothing else. *)
Theorem metadata_filter_exact v :
  (_has_forbidden_metadata v = false -> metadata_ok v = true) /\
  ((size v <= MAX_METADATA_NODES)%nat -> (height v <= MAX_METADATA_DEPTH)%nat ->
   _has_forbidden_metadata v = negb (metadata_ok v)).
Proof. exact (walk_exact MAX_METADATA_NODES v). Qed.

(** ** Totality *)

Section Totality.
Variable sha256 : string -> string.
Variable sys : os.

Definition raises {A} (m : run A) (e : exn) : Prop := snd m = Err e.

Lemma raises_bind {A B} (m : run A) (f : A -> run B) e : raises (bind m f) e ->
  raises m e \/ exists a, snd m = Ok a /\ raises (f a) e.
Proof.
  unfold raises, bind. destruct m as [l [a|e']]; cbn [snd].
  - intros H. right. exists a. by destruct (f a).
  - intros H. left. congruence.
Qed.

Lemma mild_raises {A} (m : run A) e : mild m -> raises m e -> is_TypeError e = true.
Proof. unfold mild, raises. intros H E. by rewrite E in H. Qed.

(** What may come out of the evidence of a document: a record without the field
    that is read from it, or a failure of the reader that is no [OSError]. *)
Definition evidence_failure (pol : policy) (e : exn) : Prop :=
  exists root, evidence_root pol = PStr root /\
    (e = KeyError "path" \/ e = KeyError "sha256" \/
     exists p, read_bounded_evidence_file sys (join_path (abspath (cwd sys) root) p)
                 (path_text (abspath (cwd sys) root)) "referenced evidence" MAX_OBSERVATION_BYTES = Err e /\
       match e with ObservationInputError _ | OSError _ | FileNotFoundError _ => False | _ => True end).

Lemma referenced_raises pol root rs e : evidence_root pol = PStr root ->
  raises (referenced_evidence sha256 sys (abspath (cwd sys) root) rs) e -> evidence_failure pol e.
Proof.
  intros Hroot. induction rs as [|r rs IH]; cbn [referenced_evidence]; [done|].
  destruct (dict_find "path" r) as [p|]; [|intros [= <-]; exists root; auto].
  destruct (read_bounded_evidence_file _ _ _ _ _) as [data|e'] eqn:Er.
  - destruct (dict_find "sha256" r) as [d|]; [|intros [= <-]; exists root; auto].
    intros H. apply raises_bind in H as [H|(a & _ & H)]; [|by apply IH].
    by destruct (negb _).
  - intros H. exists root. split; [done|]. right. right. exists (py_str p).
    destruct e'; try discriminate H; injection H as <-; by rewrite Er.
Qed.

Lemma tame_raises {A} (b : bool) (P : A -> Prop) (m : run A) e : tame b P m -> raises m e -> encoder_error b e.
Proof. unfold tame, raises. intros H E. by rewrite E in H. Qed.

Lemma tame_returns {A} (b : bool) (P : A -> Prop) (m : run A) a : tame b P m -> snd m = Ok a -> P a.
Proof. unfold tame. intros H E. by rewrite E in H. Qed.

(** What may come out of a value: what the encoder raises on a number that cannot be
    written, or a failure to read the evidence. *)
Definition document_failure (pol : policy) (b : bool) (e : exn) : Prop := encoder_error b e \/ evidence_failure pol e.

Lemma mild_failure {A} (m : run A) pol b e : mild m -> raises m e -> document_failure pol b e.
Proof. intros Hm H. left. left. by eapply mild_raises. Qed.

(** The next run of [H] is mild and its exception is no other. *)
Ltac mild_step H tac :=
  apply raises_bind in H as [H|(? & _ & H)]; [eapply mild_failure; [|exact H]; solve [tac]|].

Lemma mild_producer i p pol : mild (_validate_producer_binding i p pol).
Proof.
  unfold _validate_producer_binding, _validate_nginx_producer, _validate_fixture_producer,
    _validate_unsupported_live_producer, _validate_live_producer. cbv zeta. mild_whens.
Qed.

Lemma provenance_raises v i pol b e : ok b v -> raises (_validate_provenance sha256 sys v i pol) e -> document_failure pol b e.
Proof.
  intros Hv. unfold _validate_provenance. intros H. apply raises_bind in H as [H|(m & Hm & H)];
    [eapply mild_failure; [apply mild_mapping|done]|].
  destruct m as [p|]; [|done]. cbv zeta in H.
  assert (Hp : ok b (PDict p)) by exact (tame_returns b _ _ _ (ok_mapping b v "provenance" Hv) Hm p eq_refl).
  mild_step H ltac:(unfold _validate_provenance_header; mild_whens).
  mild_step H ltac:(unfold _validate_provenance_kind; mild_whens).
  mild_step H ltac:(unfold _validate_provenance_fields; mild_whens).
  mild_step H ltac:(apply mild_producer).
  pose proof (tame_records b (dict_get "evidence" p) (dict_get "evidence_kind" p) (ok_get b "evidence" p Hp)) as T.
  apply raises_bind in H as [H|(rs & Hrs & H)]; [left; by eapply tame_raises|].
  pose proof (tame_returns _ _ _ _ T Hrs) as Hok. apply raises_bind in H as [H|(? & _ & H)].
  { destruct rs as [|r rs]; [done|]. apply raises_bind in H as [H|(digest & _ & H)]; [|by destruct (negb _)].
    left. eapply digest_error; [exact Hok|exact H]. }
  mild_step H ltac:(by apply mild_when).
  apply raises_bind in H as [H|(? & _ & H)]; [|done].
  unfold _validate_provenance_evidence_root in H. cbv zeta in H.
  destruct (_ && _) in H; [destruct (allow_partial pol); done|].
  destruct (_ && _) in H; [|done]. unfold _validate_referenced_evidence in H.
  destruct (evidence_root pol) as [| | | |root| |] eqn:Er, rs; try done;
    try (injection H as <-; by left; left). right. by eapply referenced_raises.
Qed.

Lemma document_raises v expected pol b e : ok b v -> raises (_validate_document sha256 sys v expected pol) e ->
  document_failure pol b e.
Proof.
  intros Hv. unfold _validate_document. intros H. apply raises_bind in H as [H|(m & Hm & H)];
    [eapply mild_failure; [apply mild_mapping|done]|]. destruct m as [d|]; [|done].
  assert (Hd : ok b (PDict d)) by exact (tame_returns b _ _ _ (ok_mapping b v "runtime observation" Hv) Hm d eq_refl).
  mild_step H ltac:(mild_whens). mild_step H ltac:(mild_whens). mild_step H ltac:(mild_whens).
  cbv zeta in H. mild_step H ltac:(mild_whens).
  apply raises_bind in H as [H|(? & _ & H)]; [left; eapply tame_raises; [apply tame_framework, (ok_get b "framework" d Hd)|exact H]|].
  mild_step H ltac:(mild_whens). mild_step H ltac:(mild_whens).
  apply raises_bind in H as [H|(? & _ & H)]; [|done]. eapply provenance_raises; [|exact H]. by apply ok_get.
Qed.

(** C9: validation is total on every observation, however malformed, whose numbers can be
    written: with an accepted policy it gets a verdict, and the only exceptions that leave
    [validate_runtime_observation] come from reading the referenced evidence under an
    evidence root.  On an observation with an integer of more than 4300 digits or with an
    infinity (an overflowing literal), [ValueError] may leave it as well, and nothing else. *)
Theorem validate_total v expected pv pol : _normalise_policy pv = Ok pol ->
  match validate_runtime_observation sha256 sys v expected pv with
  | Ok result => In (status result) ["PASS"; "PARTIAL"; "VALIDATION_FAILED"]
  | Err e => evidence_failure pol e \/ writable v = false /\ exists message, e = ValueError message
  end.
Proof.
  intros Hp. unfold validate_runtime_observation. rewrite Hp.
  pose proof (document_raises v expected pol (writable v)) as Hd. unfold raises in Hd.
  assert (Hs : forall notes, In (fst (_validation_status notes pol)) ["PASS"; "PARTIAL"; "VALIDATION_FAILED"]).
  { intros notes. unfold _validation_status. destruct (hard notes); [|by do 2 right; left].
    destruct (incomplete notes); [by left|]. destruct (allow_partial pol); [by right; left|by do 2 right; left]. }
  destruct (_validate_document sha256 sys v expected pol) as [log [[[i rt] p]|e]]; cbn [snd] in Hd.
  - pose proof (Hs log) as G. by destruct (_validation_status log pol).
  - specialize (Hd e (fun H => H) eq_refl).
    pose proof (Hs (log ++ [Error "runtime observation contains an unsafe or excessively nested value"])) as G.
    destruct Hd as [[He|(Hw & message & ->)]|He].
    + destruct e; try done. by destruct (_validation_status _ pol).
    + right. split; [done|]. by exists message.
    + destruct e; try (by left). by destruct (_validation_status _ pol).
Qed.
End Totality.
