(* ===== verification/ObservationPaths.v ===== *)
(** * Paths and the reader of evidence files

    A relative evidence path stays below its root, and what the reader returns is
    the content of one private regular file that did not change. *)

From S2P Require Export ObservationFacts.

(** ** Splitting at a character *)

Section Split.
Variable c : ascii.

Fixpoint split_char (l : chars) : list chars :=
  match l with
  | [] => [[]]
  | d :: r => if Ascii.eqb c d then [] :: split_char r
              else match split_char r with x :: xs => (d :: x) :: xs | [] => [[d]] end
  end.

Lemma split_char_app a l : ~ In c a -> split_char (a ++ c :: l) = a :: split_char l.
Proof.
  induction a as [|d a IH]; intros H; simpl; [by rewrite Ascii.eqb_refl|].
  destruct (Ascii.eqb_spec c d) as [->|_]; [by destruct H; left|].
  by rewrite IH by (intros Hin; apply H; by right).
Qed.

Lemma split_char_none l : ~ In c l -> split_char l = [l].
Proof.
  induction l as [|d l IH]; intros H; simpl; [done|].
  destruct (Ascii.eqb_spec c d) as [->|_]; [by destruct H; left|].
  by rewrite IH by (intros Hin; apply H; by right).
Qed.

Lemma split_char_parts l : Forall (fun x => ~ In c x) (split_char l).
Proof.
  induction l as [|d l IH]; simpl; [by constructor; [intros []|]|].
  destruct (Ascii.eqb_spec c d) as [_|Hd]; [by constructor; [intros []|]|].
  destruct (split_char l) as [|x xs]; inversion IH; subst; constructor; try done;
    by intros [E|Hin]; [congruence|].
Qed.

Lemma find_sub_char l :
  match find_sub [c] l with
  | Some n => exists a b, l = a ++ c :: b /\ ~ In c a /\ n = List.length a
  | None => ~ In c l
  end.
Proof.
  induction l as [|d l IH]; simpl; [auto|]. rewrite andb_true_r.
  destruct (Ascii.eqb_spec c d) as [->|Hd]; [by exists [], l; split; [|split; [intros []|]]|].
  destruct (find_sub [c] l) as [n|]; simpl.
  - destruct IH as (a & b & -> & Ha & ->). exists (d :: a), b. split; [done|]. split; [|done].
    by intros [E|Hin]; [congruence|].
  - by intros [E|Hin]; [congruence|].
Qed.

Lemma split_sub_char l : split_sub [c] l = split_char l.
Proof.
  unfold split_sub. assert (G : forall f l, (List.length l < f)%nat -> split_fuel f [c] l = split_char l).
  { clear l. induction f as [|f IH]; intros l Hf; [lia|]. cbn [split_fuel]. unfold partition_sub.
    pose proof (find_sub_char l) as Hl. destruct (find_sub [c] l) as [n|]; [|by rewrite split_char_none].
    destruct Hl as (a & b & -> & Ha & ->). rewrite take_length_app, split_char_app by done.
    f_equal. change (c :: b) with ([c] ++ b). rewrite app_assoc.
    replace (List.length a + List.length [c])%nat with (List.length (a ++ [c])) by (by rewrite length_app).
    rewrite drop_app_length. apply IH. rewrite length_app in Hf. simpl in Hf. lia. }
  apply G. lia.
Qed.
End Split.

(** ** Components *)

Definition slash : ascii := chr 47.

(** A component of a normalised path. *)
Definition plain (s : string) : Prop := str_in s [""; "."; ".."] = false /\ ~ In slash (S2L s).

Lemma py_split_slash s : py_split "/" s = map L2S (split_char slash (S2L s)).
Proof. unfold py_split. change (S2L "/") with [slash]. by rewrite split_sub_char. Qed.

Lemma split_parts s : Forall (fun x => ~ In slash (S2L x)) (py_split "/" s).
Proof.
  rewrite py_split_slash. apply List.Forall_map. eapply Forall_impl; [apply split_char_parts|].
  simpl. intros x. by rewrite S2L_L2S.
Qed.

Lemma split_app a s : ~ In slash (S2L a) -> py_split "/" (a +:+ "/" +:+ s) = a :: py_split "/" s.
Proof.
  intros Ha. rewrite !py_split_slash, !S2L_app. change (S2L "/" ++ S2L s) with (slash :: S2L s).
  rewrite split_char_app by done. simpl. by rewrite L2S_S2L.
Qed.

Lemma split_join r s : Forall plain r ->
  py_split "/" (py_join "/" (r ++ [s])) = r ++ py_split "/" s.
Proof.
  intros Hr. induction Hr as [|c r [_ Hc] Hr IH]; [done|]. cbn [app].
  replace (py_join "/" (c :: r ++ [s])) with (c +:+ "/" +:+ py_join "/" (r ++ [s]))
    by (unfold py_join; destruct r; reflexivity).
  by rewrite split_app, IH.
Qed.

Lemma relative_to_app root rel : relative_to root (root ++ rel) = Some rel.
Proof. induction root as [|r root IH]; [done|]. simpl. by rewrite String.eqb_refl. Qed.

(** Resolving components without [".."] only drops the empty ones and ["."]. *)
Lemma normalise_plain acc l :
  forallb (fun c => negb (String.eqb c "..")) l = true ->
  fold_left normalise_step l acc = rev (List.filter (fun c => negb (str_in c [""; "."])) l) ++ acc.
Proof.
  revert acc; induction l as [|c l IH]; intros acc H; [done|]. cbn [forallb] in H.
  apply andb_true_iff in H as [Hc Hl]. apply negb_true_iff in Hc.
  cbn [fold_left List.filter]. unfold normalise_step at 2.
  destruct (str_in c [""; "."]) eqn:E; cbn [negb].
  - by rewrite IH.
  - rewrite Hc, IH by done. cbn [rev]. by rewrite <- app_assoc.
Qed.

Lemma normalise_keeps_plain l acc : Forall (fun x => ~ In slash (S2L x)) l -> Forall plain acc ->
  Forall plain (fold_left normalise_step l acc).
Proof.
  intros Hl. revert acc; induction Hl as [|c l Hc Hl IH]; intros acc Ha; [done|]. cbn [fold_left].
  apply IH. unfold normalise_step. destruct (str_in c [""; "."]) eqn:E; [done|].
  destruct (String.eqb c "..") eqn:E2; [by destruct Ha|]. constructor; [|done]. split; [|done].
  simpl in *. apply orb_false_iff in E as [-> E]. apply orb_false_iff in E as [-> _]. by rewrite E2.
Qed.

Lemma abspath_plain cwd s : Forall plain cwd -> Forall plain (parts (abspath cwd s)).
Proof.
  intros Hc. cbn [abspath parts]. apply List.Forall_rev, normalise_keeps_plain; [apply split_parts|].
  destruct (starts_with "/" s); [constructor|by apply List.Forall_rev].
Qed.

(** ** Texts of paths *)

Lemma starts_join r s : Forall plain r -> starts_with "/" s = false ->
  starts_with "/" (py_join "/" (r ++ [s])) = false.
Proof.
  intros [|c r' [Hc Hs] _] Hp; [done|]. cbn [app].
  replace (py_join "/" (c :: r' ++ [s])) with (c +:+ "/" +:+ py_join "/" (r' ++ [s]))
    by (unfold py_join; destruct r'; reflexivity).
  destruct c as [|d c]; [done|]. unfold starts_with. change (S2L "/") with [slash].
  rewrite S2L_app. change (S2L (String d c)) with (d :: S2L c). cbn [app is_prefix].
  destruct (Ascii.eqb_spec slash d) as [E|]; [|done]. destruct Hs. left. by rewrite E.
Qed.

Lemma double_text (b : bool) body : starts_with "/" body = false ->
  double_slash ((if b then "//" else "/") +:+ body) = b.
Proof.
  unfold double_slash, starts_with. rewrite S2L_app. change (S2L "/") with [slash].
  change (S2L "//") with [slash; slash]. change (S2L "///") with [slash; slash; slash].
  intros H. destruct (S2L body) as [|d l].
  - by destruct b.
  - cbn [is_prefix] in H. rewrite andb_true_r in H.
    destruct b; [change (S2L "//") with [slash; slash]|change (S2L "/") with [slash]];
      cbn [app is_prefix]; by rewrite !Ascii.eqb_refl, H.
Qed.

Lemma split_slashes (b : bool) body :
  py_split "/" ((if b then "//" else "/") +:+ body) =
  (if b then [""; ""] else [""]) ++ py_split "/" body.
Proof.
  assert (G : forall x, py_split "/" ("/" +:+ x) = "" :: py_split "/" x)
    by (intros x; apply (split_app ""); intros []).
  destruct b; [|apply G]. change ("//" +:+ body) with ("/" +:+ ("/" +:+ body)). by rewrite !G.
Qed.

Lemma filter_plain l : Forall plain l -> List.filter (fun c => negb (str_in c [""; "."])) l = l.
Proof.
  induction 1 as [|c l [Hc _] _ IH]; [done|]. simpl in *. rewrite orb_false_r in *.
  apply orb_false_iff in Hc as [-> Hc]. apply orb_false_iff in Hc as [-> _]. by rewrite IH.
Qed.

Lemma plain_dots l : Forall plain l -> forallb (fun c => negb (String.eqb c "..")) l = true.
Proof.
  induction 1 as [|c l [Hc _] _ IH]; [done|]. cbn [forallb]. rewrite IH, andb_true_r. simpl in Hc.
  rewrite !orb_false_iff in Hc. by destruct Hc as (_ & _ & -> & _).
Qed.

Lemma starts_slashes (b : bool) x : starts_with "/" ((if b then "//" else "/") +:+ x) = true.
Proof. by destruct b. Qed.

Lemma normalise_slashes (b : bool) cwd l body r : Forall plain l ->
  forallb (fun c => negb (String.eqb c "..")) r = true ->
  rev (fold_left normalise_step ((if b then [""; ""] else [""]) ++ l ++ r)
         (if starts_with "/" ((if b then "//" else "/") +:+ body) then [] else rev cwd)) =
  l ++ List.filter (fun c => negb (str_in c [""; "."])) r.
Proof.
  intros Hl Hr. rewrite starts_slashes, normalise_plain.
  - rewrite !List.filter_app, (filter_plain l) by done. rewrite app_nil_r, rev_involutive. by destruct b.
  - rewrite !forallb_app, Hr, (plain_dots l) by done. by destruct b.
Qed.

Lemma plain_piece c : plain c -> starts_with "/" c = false /\ py_split "/" c = [c].
Proof.
  intros [Hc Hs]. split.
  - unfold starts_with. change (S2L "/") with [slash]. destruct (S2L c) as [|d l]; [done|].
    cbn [is_prefix]. destruct (Ascii.eqb_spec slash d) as [E|]; [|done]. destruct Hs. left. by rewrite E.
  - rewrite py_split_slash, split_char_none by done. simpl. by rewrite L2S_S2L.
Qed.

(** The components of a safe path. *)
Lemma safe_dots s : forallb (fun part => negb (str_in part [""; "."; ".."])) (pure_parts s) = true ->
  forallb (fun c => negb (String.eqb c "..")) (py_split "/" s) = true.
Proof.
  unfold pure_parts. intros H. apply forallb_forall. intros c Hc.
  destruct (str_in c [""; "."]) eqn:E.
  - simpl in E. rewrite !orb_true_iff, !String.eqb_eq in E. by destruct E as [->|[->|]].
  - rewrite forallb_forall in H. specialize (H c).
    rewrite filter_In, E in H. specialize (H (conj Hc eq_refl)).
    apply negb_true_iff in H. simpl in H. rewrite !orb_false_iff in H.
    by destruct H as (_ & _ & -> & _).
Qed.

Lemma pure_parts_plain s :
  forallb (fun part => negb (str_in part [""; "."; ".."])) (pure_parts s) = true ->
  Forall plain (pure_parts s).
Proof.
  intros H. apply List.Forall_forall. intros c Hc. rewrite forallb_forall in H.
  split; [by apply negb_true_iff, H|]. apply filter_In in Hc as [Hc _].
  pose proof (split_parts s) as Hp. rewrite List.Forall_forall in Hp. by apply Hp.
Qed.

(** Joining a relative text without [".."] appends its components. *)
Lemma abspath_join cwd a p : Forall plain (parts a) -> starts_with "/" p = false ->
  forallb (fun c => negb (String.eqb c "..")) (py_split "/" p) = true ->
  abspath cwd (join_path a p) = {| double := double a; parts := parts a ++ pure_parts p |}.
Proof.
  intros Ha Hp Hd. unfold join_path. rewrite Hp.
  pose proof (starts_join _ _ Ha Hp) as Hs. unfold slashes, abspath.
  rewrite double_text, split_slashes, split_join by done. f_equal.
  by apply normalise_slashes.
Qed.

(** The text of a path names it. *)
Lemma abspath_text cwd a : Forall plain (parts a) -> abspath cwd (path_text a) = a.
Proof.
  intros Ha. destruct a as [b l]. unfold path_text, slashes, abspath. cbn [double parts] in *.
  destruct l as [|c l] using rev_ind; [by destruct b|]. clear IHl.
  apply List.Forall_app in Ha as [Hl Hc]. inversion Hc as [|? ? Hc' _]; subst.
  destruct (plain_piece _ Hc') as [Hs Hp].
  pose proof (starts_join _ _ Hl Hs) as Hj.
  rewrite double_text, split_slashes, split_join by done. f_equal.
  rewrite Hp, normalise_slashes; [|done|by apply plain_dots].
  by rewrite filter_plain.
Qed.

(** An evidence path that [_safe_relative_evidence_path] accepts stays below
    the evidence root, whatever the root and the working directory: joined with
    the root and made absolute it is the root followed by the components of the
    path, and none of these is empty, ["."] or [".."]. *)
Theorem evidence_path_confined cwd root s :
  Forall plain cwd -> _safe_relative_evidence_path (PStr s) = true ->
  let a := abspath cwd root in
  abspath cwd (path_text a) = a /\
  abspath cwd (join_path a s) = {| double := double a; parts := parts a ++ pure_parts s |} /\
  relative_to (parts a) (parts (abspath cwd (join_path a s))) = Some (pure_parts s) /\
  Forall plain (pure_parts s).
Proof.
  intros Hc Hs a. pose proof (abspath_plain cwd root Hc) as Ha. fold a in Ha.
  unfold _safe_relative_evidence_path in Hs. rewrite !andb_true_iff, !negb_true_iff in Hs.
  destruct Hs as [[[_ Habs] _] Hd]. apply orb_false_iff in Habs as [Habs _].
  pose proof (safe_dots _ Hd) as Hdots.
  rewrite (abspath_join cwd a s Ha Habs Hdots). cbn [parts].
  split; [by apply abspath_text|]. split; [done|]. split; [apply relative_to_app|].
  by apply pure_parts_plain.
Qed.

(** ** The reader *)

Section Reader.
Variable sys : os.

(** A directory of the current user that nobody else can enter. *)
Definition private_directory (d : stat) : Prop :=
  st_fmt d = S_IFDIR /\ st_uid d = geteuid sys /\ st_mode d = 448.

(** A directory owned by root or the user in which others cannot replace an entry:
    writable by others only with the sticky bit, and then owned by root. *)
Definition trusted_directory (d : stat) : Prop :=
  st_fmt d = S_IFDIR /\ (st_uid d = 0 \/ st_uid d = geteuid sys) /\
  (Z.land (st_mode d) 18 = 0 \/ st_uid d = 0 /\ Z.land (st_mode d) S_ISVTX <> 0).

(** A regular file of the user with one name, mode 0600 and a bounded size. *)
Definition private_file (maximum : Z) (d : stat) : Prop :=
  st_fmt d = S_IFREG /\ st_nlink d = 1 /\ st_uid d = geteuid sys /\ st_mode d = 384 /\
  st_size d <= maximum.

(** Entering a directory: the directory that was examined is the one that was
    opened, and both answers satisfy the check. *)
Definition entered (check : stat -> Prop) (n : node sys) (c : string) (n' : node sys) : Prop :=
  exists before after, stat_at sys n c = Ok before /\ open_directory sys n c = Ok (n', after) /\
    check before /\ check after /\ same_object before after = true.

(** A walk along components, each entered with the check given for it. *)
Inductive walked : node sys -> list (string * (stat -> Prop)) -> node sys -> Prop :=
  | walked_nil n : walked n [] n
  | walked_cons n c check n' l n'' :
      entered check n c n' -> walked n' l n'' -> walked n ((c, check) :: l) n''.

Lemma directory_Ok d r p : _validate_directory_details sys d r p = Ok tt ->
  if p then private_directory d else trusted_directory d.
Proof.
  unfold _validate_directory_details. cbv zeta.
  destruct (st_fmt d =? S_IFDIR) eqn:Ef; cbn [negb]; [|done]. apply Z.eqb_eq in Ef.
  destruct p.
  - destruct (st_uid d =? geteuid sys) eqn:Eu; cbn [negb orb]; [|done].
    destruct (st_mode d =? 448) eqn:Em; cbn [negb]; [|done]. intros _.
    apply Z.eqb_eq in Eu, Em. done.
  - destruct (negb (Z.land (st_mode d) 18 =? 0) && _) eqn:Ew; [done|].
    destruct ((st_uid d =? 0) || _) eqn:Eu; cbn [negb]; [|done]. intros _.
    apply orb_true_iff in Eu. rewrite !Z.eqb_eq in Eu. split; [done|]. split; [done|].
    apply andb_false_iff in Ew as [Ew|Ew]; apply negb_false_iff in Ew.
    + left. by apply Z.eqb_eq.
    + right. rewrite !andb_true_iff, negb_true_iff, Z.eqb_eq, Z.eqb_neq in Ew. tauto.
Qed.

Lemma enter_Ok n c p m n' : enter_directory sys n c p m = Ok n' ->
  entered (if p then private_directory else trusted_directory) n c n'.
Proof.
  unfold enter_directory, entered. intros H.
  destruct (stat_at sys n c) as [b|]; [|done]. cbn in H.
  destruct (_validate_directory_details sys b false p) as [[]|] eqn:Eb; [|done]. cbn in H.
  destruct (open_directory sys n c) as [[child a]|]; [|done]. cbn in H.
  destruct (same_object b a) eqn:Es; cbn in H; [|done].
  destruct (_validate_directory_details sys a false p) as [[]|] eqn:Ea; [|done]. cbn in H.
  injection H as <-. apply directory_Ok in Eb, Ea. exists b, a. destruct p; done.
Qed.

(** The checks of the walk to the root: the last component must be private, when
    the root was given with one slash. *)
Fixpoint root_checks (l : path) (single : bool) : list (string * (stat -> Prop)) :=
  match l with
  | [] => []
  | [c] => [(c, if single then private_directory else trusted_directory)]
  | c :: r => (c, trusted_directory) :: root_checks r single
  end.

Lemma walk_root_Ok n l single n' : walk_root sys n l single = Ok n' -> walked n (root_checks l single) n'.
Proof.
  revert n; induction l as [|c l IH]; intros n H; cbn [walk_root] in H.
  - injection H as <-. constructor.
  - destruct (stat_at sys n c) as [b|e] eqn:Es; [|by destruct e; try done; unfold enter_directory in H; rewrite Es in H].
    destruct (enter_directory _ _ _ _ _) as [child|] eqn:Ee; [|done]. cbn in H.
    apply enter_Ok in Ee. apply IH in H. destruct l as [|c' l].
    + rewrite andb_true_r in Ee. by econstructor.
    + rewrite andb_false_r in Ee. by econstructor.
Qed.

Lemma walk_private_Ok n l n' : walk_private sys n l = Ok n' ->
  walked n (map (fun c => (c, private_directory)) l) n'.
Proof.
  revert n; induction l as [|c l IH]; intros n H; cbn [walk_private] in H.
  - injection H as <-. constructor.
  - destruct (enter_directory _ _ _ _ _) as [child|] eqn:Ee; [|done]. cbn in H.
    apply enter_Ok in Ee. apply IH in H. by econstructor.
Qed.

Lemma file_Ok d label maximum : _validate_file_details sys d label maximum = Ok tt -> private_file maximum d.
Proof.
  unfold _validate_file_details, private_file.
  destruct (st_fmt d =? S_IFREG) eqn:E1; cbn [negb]; [|done].
  destruct (st_nlink d =? 1) eqn:E2; cbn [negb]; [|done].
  destruct (st_uid d =? geteuid sys) eqn:E3; cbn [negb]; [|done].
  destruct (st_mode d =? 384) eqn:E4; cbn [negb]; [|done].
  destruct (maximum <? st_size d) eqn:E5; [done|]. intros _.
  apply Z.eqb_eq in E1, E2, E3, E4. apply Z.ltb_ge in E5. done.
Qed.

(** Reading at most [maximum + 1] bytes tells a file within the bound apart. *)
Lemma bounded_content maximum s : 0 <= maximum ->
  str_len (L2S (List.firstn (Z.to_nat (maximum + 1)) (S2L s))) <= maximum ->
  L2S (List.firstn (Z.to_nat (maximum + 1)) (S2L s)) = s /\ str_len s <= maximum.
Proof.
  unfold str_len. rewrite <- !S2L_length, S2L_L2S, length_firstn. intros H0 H.
  rewrite List.firstn_all2 by lia. rewrite L2S_S2L. split; [done|lia].
Qed.

Lemma snapshot_same a b : same_snapshot a b = true -> _file_snapshot a = _file_snapshot b.
Proof.
  unfold same_snapshot. assert (G : forall l l' : list Z, List.length l = List.length l' ->
    forallb (fun p => fst p =? snd p) (combine l l') = true -> l = l').
  { induction l as [|x l IH]; intros [|y l'] Hl H; try done. cbn [combine forallb fst snd] in H.
    apply andb_true_iff in H as [H1 H2]. apply Z.eqb_eq in H1 as ->. f_equal. apply IH; [|done].
    by injection Hl. }
  by apply G.
Qed.

Lemma relative_to_inv r t l : relative_to r t = Some l -> t = r ++ l.
Proof.
  revert t; induction r as [|c r IH]; intros t H; simpl in H; [by injection H as ->|].
  destruct t as [|c' t]; [done|]. destruct (String.eqb_spec c c') as [->|]; [|done].
  by rewrite (IH _ H).
Qed.

Lemma open_root_Ok root n p : _open_secure_directory sys root = Ok (n, p) ->
  let r := abspath (cwd sys) root in
  p = parts r /\ trusted_directory (root_stat sys) /\
  walked (root_node sys) (root_checks (parts r) (negb (double r))) n.
Proof.
  unfold _open_secure_directory. cbv zeta. intros H. destruct (_ && _); [done|].
  destruct (_validate_directory_details sys (root_stat sys) true false) as [[]|] eqn:Ed; [|done]. cbn in H.
  destruct (walk_root _ _ _ _) as [n'|] eqn:Ew; [|done]. cbn in H. injection H as <- <-.
  split; [done|]. split; [exact (directory_Ok _ _ _ Ed)|]. by apply walk_root_Ok.
Qed.

(** C10: what the reader returns is the whole content of one file below the
    evidence root: reached through directories each of which was checked before
    and after it was opened, trusted down to the root, private (mode 0700, the
    user's own) from the root on; the file is private, and what [stat] said
    before the open, after it and after the read is the same.  Only a root given
    with two leading slashes is itself not required to be private. *)
Theorem reader_confined file root label maximum data :
  0 <= maximum -> read_bounded_evidence_file sys file root label maximum = Ok data ->
  let r := abspath (cwd sys) root in
  exists directories name n n' before f,
    double (abspath (cwd sys) file) = false /\
    parts (abspath (cwd sys) file) = parts r ++ directories ++ [name] /\
    trusted_directory (root_stat sys) /\
    walked (root_node sys) (root_checks (parts r) (negb (double r))) n /\
    walked n (map (fun c => (c, private_directory)) directories) n' /\
    stat_at sys n' name = Ok before /\ open_file sys n' name = Ok f /\
    private_file maximum before /\ private_file maximum (final f) /\
    _file_snapshot before = _file_snapshot (opened f) /\
    _file_snapshot (opened f) = _file_snapshot (final f) /\
    data = content f /\ str_len data <= maximum.
Proof.
  intros H0 H r. unfold read_bounded_evidence_file in H.
  destruct (_open_secure_directory sys root) as [[n p]|] eqn:Eo; [|done]. cbn -[same_snapshot str_len L2S] in H.
  apply open_root_Ok in Eo as (-> & Ht & Hw). fold r in H, Hw.
  destruct (below _ _) as [rel|] eqn:Eb; [|done]. unfold below in Eb.
  destruct (double (abspath (cwd sys) file)) eqn:Ed; [done|]. apply relative_to_inv in Eb.
  destruct rel as [|c rel]; [done|]. cbn beta iota in H. remember (c :: rel) as l eqn:El.
  assert (Hl : l = List.removelast l ++ [List.last l ""]) by (apply app_removelast_last; by rewrite El).
  destruct (walk_private sys n (List.removelast l)) as [n'|] eqn:Ew; [|done]. cbn -[same_snapshot str_len L2S] in H.
  apply walk_private_Ok in Ew.
  destruct (stat_at sys n' (List.last l "")) as [before|] eqn:Es; [|done]. cbn -[same_snapshot str_len L2S] in H.
  destruct (_validate_file_details sys before label maximum) as [[]|] eqn:E1; [|done]. cbn -[same_snapshot str_len L2S] in H.
  destruct (open_file sys n' (List.last l "")) as [f|] eqn:Ef; [|done]. cbn -[same_snapshot str_len L2S] in H.
  destruct (_validate_file_details sys (opened f) label maximum) as [[]|] eqn:E2; [|done]. cbn -[same_snapshot str_len L2S] in H.
  destruct (same_snapshot before (opened f)) eqn:S1; [|done]. cbn -[same_snapshot str_len L2S] in H.
  destruct (_validate_file_details sys (final f) label maximum) as [[]|] eqn:E3; [|done].
  cbn -[same_snapshot str_len L2S] in H. destruct (same_snapshot (opened f) (final f)) eqn:S2; [|done].
  cbn -[same_snapshot str_len L2S] in H. destruct (maximum <? _) eqn:Eg; [done|]. injection H as <-.
  apply Z.ltb_ge, bounded_content in Eg as [-> Eg]; [|done].
  apply file_Ok in E1, E3. apply snapshot_same in S1, S2.
  exists (List.removelast l), (List.last l ""), n, n', before, f.
  rewrite Eb. by rewrite <- Hl.
Qed.
End Reader.
