(* ===== verification/ObservationWitnesses.v ===== *)
(** * A concrete observation: witnesses of the runtime observation theorems

    A complete passing document of the Envoy adapter, a digest function that
    tells contents of different lengths apart, and a file system with one private
    evidence directory. *)

From S2P Require Export ObservationPass ObservationTheorems ObservationPaths.

(** ** A digest function and a file system *)

Definition demo_sha256 (s : string) : string :=
  String.concat "" (repeat "0" 63) +:+ L2S [hex_digit (str_len s mod 16)].

Definition directory_stat (uid mode ino : Z) : stat :=
  {| st_dev := 1; st_ino := ino; st_fmt := S_IFDIR; st_mode := mode; st_size := 0; st_nlink := 2;
     st_uid := uid; st_mtime_ns := 0; st_ctime_ns := 0 |}.
Definition file_stat (content : string) : stat :=
  {| st_dev := 1; st_ino := 9; st_fmt := S_IFREG; st_mode := 384; st_size := str_len content;
     st_nlink := 1; st_uid := 1000; st_mtime_ns := 5; st_ctime_ns := 6 |}.

(** [/] is node 0, [/evidence] node 1, with the file [result.json]. *)
Definition demo_content : string := "{}".
Definition demo_os : os := {|
  geteuid := 1000; cwd := ["work"]; node := Z; root_node := 0; root_stat := directory_stat 0 493 1;
  stat_at n c := if (n =? 0) && String.eqb c "evidence" then Ok (directory_stat 1000 448 2)
                 else if (n =? 1) && String.eqb c "result.json" then Ok (file_stat demo_content)
                 else Err (FileNotFoundError c);
  open_directory n c := if (n =? 0) && String.eqb c "evidence" then Ok (1, directory_stat 1000 448 2)
                        else Err (FileNotFoundError c);
  open_file n c := if (n =? 1) && String.eqb c "result.json"
                   then Ok {| opened := file_stat demo_content; content := demo_content;
                              final := file_stat demo_content |}
                   else Err (FileNotFoundError c) |}.

(** ** A document *)

Definition demo_commit : pyval := PStr (String.concat "" (repeat "a" 40)).

Definition demo_identity : pyval := PDict (mkdict
  [("connector", PStr "envoy"); ("adapter_id", PStr "envoy-ext-proc-service");
   ("integration_mode", PStr "ext_proc"); ("profile", PStr "no-crs-no-mrts"); ("crs", PBool false);
   ("mrts", PBool false); ("run_id", PStr "run-1"); ("parent_commit", demo_commit);
   ("framework_commit", demo_commit); ("mrts_commit", demo_commit);
   ("producer", PStr "parent-runtime-observation-adapter-envoy"); ("producer_version", PStr "1.0.0")]).

Definition demo_assertion (field : string) (v : pyval) : pyval := PDict (mkdict
  [("required", PBool true); ("applicable", PBool true); ("executed", PBool true);
   ("live_executed", PBool true); ("expected", PDict (mkdict [(field, v)]));
   ("observed", PDict (mkdict [(field, v)])); ("result", PStr "PASS"); ("reason", PStr "as expected");
   ("evidence_kind", PStr "structured_connector_evidence")]).

Definition demo_runtime : pyval := PDict (mkdict
  [("config_test", demo_assertion "status" (PStr "ok")); ("host_start", demo_assertion "started" (PBool true));
   ("reachability", demo_assertion "reachable" (PBool true));
   ("allow_case", demo_assertion "http_status" (PInt 200));
   ("block_case", demo_assertion "http_status" (PInt 403)); ("runtime_status", PStr "PASS")]).

Definition demo_case (id : string) (expectation observation : pyval) : pyval := PDict (mkdict
  [("framework_test_id", PStr id); ("scenario_category", PNone); ("selected", PBool true);
   ("executed", PBool true); ("live_executed", PBool true); ("expectation", expectation);
   ("observation", observation); ("result", PStr "PASS"); ("failure_count", PInt 0);
   ("mismatch_count", PInt 0)]).

Definition demo_framework : pyval := PDict (mkdict
  [("selection_status", PStr "SELECTED"); ("execution_status", PStr "RUN");
   ("validation_status", PStr "CONTRACT_VALIDATED");
   ("cases", PList
     [demo_case "crs/block" (PDict (mkdict [("kind", PStr "http_status"); ("http_status", PInt 403)]))
        (PDict (mkdict [("http_status", PInt 403)]));
      demo_case "crs/rules"
        (PDict (mkdict [("kind", PStr "compound"); ("conditions", PList
           [PDict (mkdict [("kind", PStr "action"); ("action", PStr "deny")]);
            PDict (mkdict [("kind", PStr "rule_match"); ("rule_ids", PInts [942100])])])]))
        (PDict (mkdict [("action", PStr "deny"); ("rule_ids", PInts [942100; 949110])]))]);
   ("selected_count", PInt 2); ("executed_count", PInt 2); ("passed_count", PInt 2);
   ("failed_count", PInt 0); ("cancelled_count", PInt 0); ("unsupported_count", PInt 0);
   ("not_applicable_count", PInt 0); ("not_executed_count", PInt 0); ("failure_count", PInt 0);
   ("mismatch_count", PInt 0)]).

Definition demo_record : pydict := mkdict
  [("name", PStr "envoy-result"); ("path", PStr "result.json");
   ("sha256", PStr (demo_sha256 demo_content)); ("kind", PStr "structured_connector_evidence")].

Definition res_text (r : res string) : option string := match r with Ok s => Some s | Err _ => None end.
Definition opt_text (o : option string) : pyval := match o with Some s => PStr s | None => PNone end.
Definition demo_provenance (records : list pydict) : pyval := PDict (mkdict
  [("evidence_kind", PStr "structured_connector_evidence"); ("fixture_id", PStr "none");
   ("source_contract", PStr "contract-1"); ("manifest_digest", PStr (demo_sha256 ""));
   ("evidence_digest", opt_text (res_text (evidence_manifest_digest demo_sha256 records)));
   ("contract_schema_version", PInt 1); ("producer_version", PStr "1.0.0");
   ("evidence", PList (map PDict records)); ("validation_basis", PStr "evidence-digest-v1")]).

Definition demo_document (records : list pydict) : pyval := PDict (mkdict
  [("schema_version", PInt 1); ("identity", demo_identity); ("runtime", demo_runtime);
   ("framework", demo_framework);
   ("isolation", PDict (mkdict (map (fun f => (f, PBool false)) ISOLATION_FIELDS)));
   ("cleanup", PDict (mkdict (map (fun f => (f, PInt 0)) CLEANUP_COUNTERS
                              ++ [("cleanup_status", PStr "PASS")])));
   ("provenance", demo_provenance records)]).

Definition demo_policy : pyval :=
  PDict (mkdict [("name", PStr "strict"); ("evidence_root", PStr "/evidence")]).
Definition demo_expected : pydict := mkdict [("connector", PStr "envoy"); ("parent_sha", demo_commit)].

Definition demo_verdict (records : list pydict) (root : pyval) : res validation_result :=
  validate_runtime_observation demo_sha256 demo_os (demo_document records) (Some demo_expected) root.

(** ** Witnesses *)

Definition strict_policy (root : pyval) : policy :=
  {| policy_name := "strict"; allow_partial := false; allow_fixture_evidence := false;
     evidence_root := root |}.

(** The document is runtime evidence under the strict policy. *)
Lemma runtime_evidence_sound_witness :
  match demo_verdict [demo_record] demo_policy with
  | Ok result => status result = "PASS" /\ evidence_disposition result = "runtime_evidence" /\
      verified demo_sha256 demo_os (strict_policy (PStr "/evidence")) (Some demo_expected)
        (demo_document [demo_record])
  | Err _ => False
  end.
Proof.
  destruct (demo_verdict [demo_record] demo_policy) as [result|e] eqn:E; [|by vm_compute in E].
  pose proof (runtime_evidence_sound demo_sha256 demo_os (demo_document [demo_record])
                (Some demo_expected) demo_policy (strict_policy (PStr "/evidence")) result
                eq_refl E) as [Hv Hd].
  assert (Hs : status result = "PASS") by (vm_compute in E; injection E as <-; reflexivity).
  split; [exact Hs|]. split; [exact (Hd eq_refl Hs)|]. exact (Hv (Hd eq_refl Hs)).
Defined.

Lemma metadata_filter_exact_witness :
  _has_forbidden_metadata demo_runtime = negb (metadata_ok demo_runtime) /\
  metadata_ok demo_runtime = true.
Proof.
  split; [|reflexivity]. apply (proj2 (metadata_filter_exact demo_runtime)).
  - apply Nat.leb_le. reflexivity.
  - apply Nat.leb_le. reflexivity.
Defined.

(** Validation of a value that is no document at all. *)
Lemma validate_total_witness :
  match validate_runtime_observation demo_sha256 demo_os (PStr "no document") None (PStr "strict") with
  | Ok result => In (status result) ["PASS"; "PARTIAL"; "VALIDATION_FAILED"]
  | Err e => evidence_failure demo_os (strict_policy PNone) e \/
             writable (PStr "no document") = false /\ exists message, e = ValueError message
  end.
Proof. exact (validate_total demo_sha256 demo_os (PStr "no document") None (PStr "strict") (strict_policy PNone) eq_refl). Defined.

Lemma evidence_path_confined_witness :
  relative_to ["evidence"] (parts (abspath ["work"] (join_path (abspath ["work"] "/evidence") "a/./b.json")))
  = Some ["a"; "b.json"].
Proof.
  assert (Hc : Forall plain ["work"]).
  { apply List.Forall_cons; [|apply List.Forall_nil]. split; [reflexivity|].
    intros H. apply (existsb_eqb_In Ascii.eqb Ascii.eqb_eq) in H. discriminate H. }
  exact (proj1 (proj2 (proj2 (evidence_path_confined ["work"] "/evidence" "a/./b.json" Hc eq_refl)))).
Defined.

Lemma reader_confined_witness :
  0 <= 100 /\
  exists directories name n n' before f,
    double (abspath (cwd demo_os) "/evidence/result.json") = false /\
    parts (abspath (cwd demo_os) "/evidence/result.json") = ["evidence"] ++ directories ++ [name] /\
    trusted_directory demo_os (root_stat demo_os) /\
    walked demo_os (root_node demo_os) (root_checks demo_os ["evidence"] true) n /\
    walked demo_os n (map (fun c => (c, private_directory demo_os)) directories) n' /\
    stat_at demo_os n' name = Ok before /\ open_file demo_os n' name = Ok f /\
    private_file demo_os 100 before /\ private_file demo_os 100 (final f) /\
    _file_snapshot before = _file_snapshot (opened f) /\
    _file_snapshot (opened f) = _file_snapshot (final f) /\
    demo_content = content f /\ str_len demo_content <= 100.
Proof.
  assert (H0 : 0 <= 100) by lia. split; [exact H0|].
  exact (reader_confined demo_os "/evidence/result.json" "/evidence" "evidence" 100 demo_content H0 eq_refl).
Defined.

(** ** Two divergences *)

(** An evidence record without its path is reported, but when the policy has an
    evidence root the report is lost: [record["path"]] raises [KeyError] and
    [validate_runtime_observation] raises instead of returning a verdict. *)
Example missing_path_raises :
  demo_verdict [mkdict [("name", PStr "envoy-result"); ("sha256", PStr (demo_sha256 demo_content));
                        ("kind", PStr "structured_connector_evidence")]] demo_policy
  = Err (KeyError "path").
Proof. reflexivity. Qed.

(** A condition with an integer that has too many digits to be written, and an evidence
    record with an infinite name: [ValueError] leaves [validate_runtime_observation], which
    is documented to report failures as data. *)
Definition condition (state : pyval) : pyval := PDict (mkdict [("kind", PStr "transport"); ("state", state)]).
Example unwritable_number_raises :
  normalize_framework_expectation
    (PDict (mkdict [("kind", PStr "compound"); ("conditions", PList [condition (PStr "http1"); condition (PInt (10 ^ 4300))])]))
  = Err digit_limit /\
  demo_verdict [mkdict [("name", PFloat (QArith_base.Qmake 1 1) "inf"); ("path", PStr "result.json");
                        ("sha256", PStr (demo_sha256 demo_content)); ("kind", PStr "structured_connector_evidence")]] demo_policy
  = Err (ValueError "Out of range float values are not JSON compliant").
Proof. vm_compute. split; reflexivity. Qed.

(** The file system with an evidence directory that everybody may enter. *)
Definition open_os : os := {|
  geteuid := 1000; cwd := ["work"]; node := Z; root_node := 0; root_stat := directory_stat 0 493 1;
  stat_at n c := if (n =? 0) && String.eqb c "evidence" then Ok (directory_stat 1000 493 2)
                 else stat_at demo_os n c;
  open_directory n c := if (n =? 0) && String.eqb c "evidence" then Ok (1, directory_stat 1000 493 2)
                        else open_directory demo_os n c;
  open_file := open_file demo_os |}.

(** An evidence root of mode 0755 is refused, and accepted when it is written with
    two leading slashes: the comparison that makes the root private compares
    [/evidence] with [//evidence]. *)
Example double_slash_root_not_private :
  read_bounded_evidence_file open_os "/evidence/result.json" "/evidence" "evidence" 100
  = Err (ObservationInputError "evidence root and descendants must be current-user 0700 directories") /\
  read_bounded_evidence_file open_os "/evidence/result.json" "//evidence" "evidence" 100
  = Ok demo_content.
Proof. split; reflexivity. Qed.
