(* ===== verification/Url.v ===== *)
(** * Standard library texts: urllib.parse and shlex

    [urlsplit], [urlunsplit] and [shlex.join] as CPython defines them, on
    texts of code points below 256.  [urlsplit] rejects some host names whose NFKC
    form has a delimiter; no code point below 256 has such a form. *)

From S2P Require Export PyValue Regex.
From Stdlib Require Import QArith.
#[global] Open Scope Z_scope.

(** ** Partitions *)

(** [s.partition(sep)] for a one character [sep]: before, found, after. *)
Definition partition (sep s : string) : string * bool * string :=
  let '(a, found, b) := partition_sub (S2L sep) (S2L s) in (L2S a, found, L2S b).

(** [s.rpartition(sep)[2]] *)
Definition rpartition_last (sep s : string) : string := List.last (py_split sep s) "".

(** ** [urlsplit] *)

Record url_parts := {
  scheme : string; netloc : string; url_path : string; query : string; fragment : string }.

Definition is_ascii (c : ascii) : bool := ord c <? 128.
Definition is_alpha (c : ascii) : bool := is_lower c || is_upper c.
Definition scheme_char (c : ascii) : bool := is_alnum c || char_in "+-." c.
Definition c0_or_space (c : ascii) : bool := ord c <=? 32.
Definition unsafe_byte (c : ascii) : bool := (ord c =? 9) || (ord c =? 10) || (ord c =? 13).

(** The scheme, when the text before the first colon is one. *)
Definition split_scheme (url : chars) : string * chars :=
  match partition_sub (S2L ":") url with
  | ((c :: r) as a, true, b) =>
      if is_alpha c && forallb scheme_char a then (py_lower (L2S a), b) else ("", url)
  | _ => ("", url)
  end.

Fixpoint take_until (p : ascii -> bool) (l : chars) : chars * chars :=
  match l with
  | [] => ([], [])
  | c :: r => if p c then ([], l) else let (a, b) := take_until p r in (c :: a, b)
  end.

(** [ipaddress.ip_address(host)] is an [IPv6Address]. *)
Class Ip6Literal := ip6_literal : string -> bool.

Definition IPVFUTURE : re :=
  RCat (RLit "v") (RCat (RPlus (RCls is_hex)) (RCat (RLit ".") (RPlus (RCls (fun c => negb (ord c =? 10)))))).

(** [_check_bracketed_host]. *)
Definition bracketed_host_ok `{Ip6Literal} (host : string) : bool :=
  if starts_with "v" host then fullmatch_str IPVFUTURE host else ip6_literal host.

(** [_check_bracketed_netloc], for a text with both brackets. *)
Definition bracketed_netloc_ok `{Ip6Literal} (netloc : string) : bool :=
  let hostinfo := rpartition_last "@" netloc in
  match partition "[" hostinfo with
  | (before, true, bracketed) =>
      let '(host, _, port) := partition "]" bracketed in
      String.eqb before "" && (String.eqb port "" || starts_with ":" port) && bracketed_host_ok host
  | _ => let '(host, _, _) := partition ":" hostinfo in bracketed_host_ok host
  end.

Definition netloc_ok `{Ip6Literal} (netloc : string) : bool :=
  match contains "[" netloc, contains "]" netloc with
  | true, true => bracketed_netloc_ok netloc
  | false, false => true
  | _, _ => false
  end.

(** [url.split(sep, 1)] when [sep] occurs: the url before it and the part after. *)
Definition cut (sep : string) (url : string) : string * string :=
  match partition sep url with (a, true, b) => (a, b) | _ => (url, "") end.

Definition urlsplit `{Ip6Literal} (url : string) : res url_parts :=
  let clean := List.filter (fun c => negb (unsafe_byte c)) (drop_while c0_or_space (S2L url)) in
  let (sch, rest) := split_scheme clean in
  let (loc, rest) := match rest with
                     | a :: b :: r => if (ord a =? 47) && (ord b =? 47)
                                      then take_until (char_in "/?#") r else ([], rest)
                     | _ => ([], rest)
                     end in
  if negb (netloc_ok (L2S loc)) then Err (ValueError "Invalid IPv6 URL")
  else
    let (rest, frag) := cut "#" (L2S rest) in
    let (p, q) := cut "?" rest in
    Ok {| scheme := sch; netloc := L2S loc; url_path := p; query := q; fragment := frag |}.

(** [SplitResult._hostinfo]: host and port texts. *)
Definition hostinfo (u : url_parts) : string * string :=
  let info := rpartition_last "@" (netloc u) in
  match partition "[" info with
  | (_, true, bracketed) =>
      let '(host, _, rest) := partition "]" bracketed in
      let '(_, _, port) := partition ":" rest in (host, port)
  | _ => let '(host, _, port) := partition ":" info in (host, port)
  end.

(** [parsed.hostname or ""]: lower case up to a zone. *)
Definition hostname (u : url_parts) : string :=
  let '(host, found, zone) := partition "%" (fst (hostinfo u)) in
  py_lower host +:+ (if found : bool then "%" else "") +:+ zone.

(** [parsed.port]; [None] is the absent port. *)
Definition port (u : url_parts) : res (option Z) :=
  let text := S2L (snd (hostinfo u)) in
  match text with
  | [] => Ok None
  | _ => if forallb is_digit text && (int_of_digits 10 text <=? 65535)
         then Ok (Some (int_of_digits 10 text))
         else Err (ValueError "Port out of range 0-65535")
  end.

(** ** [urlunsplit] *)

Definition uses_netloc : list string :=
  [""; "ftp"; "http"; "gopher"; "nntp"; "telnet"; "imap"; "wais"; "file"; "mms"; "https"; "shttp";
   "snews"; "prospero"; "rtsp"; "rtsps"; "rtspu"; "rsync"; "svn"; "svn+ssh"; "sftp"; "nfs"; "git";
   "git+ssh"; "ws"; "wss"; "itms-services"].

Definition urlunsplit (scheme netloc path query : string) : string :=
  let url :=
    if negb (String.eqb netloc "")
    then "//" +:+ netloc +:+ (if negb (String.eqb path "") && negb (starts_with "/" path)
                              then "/" +:+ path else path)
    else if starts_with "//" path then "//" +:+ path
    else if negb (String.eqb scheme "") && str_in scheme uses_netloc
            && (String.eqb path "" || starts_with "/" path)
    then "//" +:+ path
    else path in
  let url := if String.eqb scheme "" then url else scheme +:+ ":" +:+ url in
  if String.eqb query "" then url else url +:+ "?" +:+ query.

(** ** [shlex] *)

Definition shell_safe (c : ascii) : bool := is_alnum c || char_in "_@%+=:,./-" c.

Definition shlex_quote (s : string) : string :=
  if String.eqb s "" then "''"
  else if forallb shell_safe (S2L s) then s
  else "'" +:+ py_replace "'" (L2S [chr 39; chr 34; chr 39; chr 34; chr 39]) s +:+ "'".

Definition shlex_join (l : list string) : string := py_join " " (map shlex_quote l).

(** ** [format(x, ".6g")] of a positive finite float

    [x] is the exact value.  The exponent is searched from the size of the
    quotient; the digits are rounded half to even, as the value is exact. *)
Definition round_half_even (n d : Z) : Z :=
  let q := n / d in
  let r := n mod d in
  if 2 * r <? d then q else if d <? 2 * r then q + 1 else if Z.even q then q else q + 1.

(** [x * 10^e] rounded, for [x = n / d]. *)
Definition scaled (n d e : Z) : Z :=
  if 0 <=? e then round_half_even (n * 10 ^ e) d else round_half_even n (d * 10 ^ (- e)).

(** The decimal exponent of [n / d]: the [e] with [10^e <= n/d < 10^(e+1)]. *)
Definition at_least (n d e : Z) : bool :=
  if 0 <=? e then d * 10 ^ e <=? n else d <=? n * 10 ^ (- e).

Definition decimal_exponent (n d : Z) : Z :=
  let guess := (Z.log2 n - Z.log2 d) * 3 / 10 in
  let candidates := map (fun k => guess + 3 - Z.of_nat k) (seq 0 8) in
  match List.find (at_least n d) candidates with Some e => e | None => guess end.

Definition strip_zeros (l : chars) : chars := rstrip_with (fun c => ord c =? 48) l.
Definition pad (width : nat) (s : string) : string :=
  L2S (repeat (chr 48) (width - String.length s)) +:+ s.
Definition with_point (whole fraction : chars) : string :=
  match strip_zeros fraction with [] => L2S whole | f => L2S whole +:+ "." +:+ L2S f end.

Definition format_6g (x : Q) : string :=
  let n := Qnum x in
  let d := Zpos (Qden x) in
  let e0 := decimal_exponent n d in
  let m0 := scaled n d (5 - e0) in
  let (m, e) := if m0 =? 1000000 then (100000, e0 + 1) else (m0, e0) in
  let ds := S2L (dec m) in
  if (-4 <=? e) && (e <? 6) then
    if 0 <=? e then with_point (take (Z.to_nat (e + 1)) ds) (drop (Z.to_nat (e + 1)) ds)
    else with_point [chr 48] (repeat (chr 48) (Z.to_nat (- e - 1)) ++ ds)
  else
    with_point (take 1 ds) (drop 1 ds)
    +:+ "e" +:+ (if e <? 0 then "-" else "+") +:+ pad 2 (dec (Z.abs e)).

Example format_6g_30 : map format_6g [30%Q; (5 # 2)%Q; (1 # 8)%Q; 1234567%Q; (1 # 100000)%Q; (9999999 # 10)%Q]
  = ["30"; "2.5"; "0.125"; "1.23457e+06"; "1e-05"; "1e+06"].
Proof. reflexivity. Qed.

Example urlsplit_ex : let H : Ip6Literal := String.eqb "::1" in
  (let* u := urlsplit "HTTPS://user@[::1]:8443/p?q#f" in
   let* p := port u in Ok (u, hostname u, p))
  = Ok ({| scheme := "https"; netloc := "user@[::1]:8443"; url_path := "/p"; query := "q"; fragment := "f" |},
        "::1", Some 8443).
Proof. reflexivity. Qed.
