(* ===== verification/Protocol.v ===== *)
(** * The protocol client (protocol_client.py)

    The forced-protocol probe: configuration checks, preflight, the curl command
    and its redacted text, and the observation with its final status.  A process
    is its result: the inspection of curl, and for each request what
    [_parse_writeout] extracted from the output, the exit code and the error
    text.  Writing the artifacts is not modelled.

    Durations are exact values of floats; NaN and the infinities are not
    represented. *)

From S2P Require Export Url.
From Stdlib Require Import QArith.
#[global] Open Scope Z_scope.

(** ** Vocabularies *)

Definition CANONICAL_PROTOCOLS : list string := ["http1"; "h2"; "h2c"; "h3"].
Definition CANONICAL_TRANSPORTS : list string := ["tcp"; "tls_tcp"; "quic_udp"].
Definition OBSERVATION_STATUSES : list string :=
  ["PASS"; "FAIL"; "BLOCKED"; "NOT_EXECUTED"; "UNSUPPORTED_BY_HOST"].

Definition bounded_token_char (c : ascii) : bool := is_alnum c || char_in "._:-" c.
Definition _BOUNDED_TOKEN : re := RCat (RCls is_alnum) (RRep (RCls bounded_token_char) 0 (Some 63%nat)).
Definition printable (c : ascii) : bool := negb (ord c <=? 31) && negb (ord c =? 127).
Definition _BOUNDED_TEXT : re := RRep (RCls printable) 1 (Some 256%nat).
Definition _SHA256_TOKEN : re := RCat (RLit "sha256:") (RTimes (RCls is_hex_lower) 64).
Definition field_name_char (c : ascii) : bool := is_alnum c || char_in "!#$%&'*+-.^_`|~" c.
Definition _HTTP_FIELD_NAME : re := RPlus (RCls field_name_char).

(** ** Records *)

Record CurlInspection := {
  executable : string; version_text : string; version : option (Z * Z * Z);
  features : list string; options : list string; inspection_error : option string }.

Record Preflight := {
  status : string; reason : option string; required_features : list string;
  required_options : list string; missing_features : list string; missing_options : list string;
  writeout_mode : string }.

Record ClientConfig := {
  url : string; protocol : string; curl : string; timeout : Q; connect_timeout : option Q;
  insecure : bool; request : string; headers : list string; data_file : option string;
  cacert : option string; resolve : list string; connector : option string;
  integration_mode : option string; run_id : option string; transaction_id : option string;
  transport_case_id : option string; rule_id : option string; phase : option string;
  stream_id : option Z; upstream_protocol : option string; quic_udp_observed : bool;
  observation_sidecar : option string; followup_url : option string;
  followup_protocol : option string }.

Definition is_some {A} (o : option A) : bool := match o with Some _ => true | None => false end.

Definition client_error {A} (m : string) : res A := Err (ProtocolClientError m).

(** ** Configuration *)

Definition normalize_protocol (value : string) : res string :=
  let protocol := py_lower (py_strip value) in
  if str_in protocol CANONICAL_PROTOCOLS then Ok protocol
  else client_error "protocol must be one of http1, h2, h2c, h3".

Definition normalize_transport (value : string) : res string :=
  let transport := py_lower (py_strip value) in
  if str_in transport CANONICAL_TRANSPORTS then Ok transport
  else client_error "transport must be one of tcp, tls_tcp, quic_udp".

Definition _validate_text_argument (value : option string) (name : string) : res (option string) :=
  match value with
  | None => Ok None
  | Some v =>
      let text := py_strip v in
      if fullmatch_str _BOUNDED_TEXT text then Ok (Some text)
      else client_error (name +:+ " must be bounded printable text")
  end.

Definition _validate_timeouts (c : ClientConfig) : res unit :=
  guard (negb (Qle_bool (timeout c) 0)) (ProtocolClientError "timeout must be greater than zero") ;;;
  match connect_timeout c with
  | Some t => guard (negb (Qle_bool t 0)) (ProtocolClientError "connect_timeout must be greater than zero")
  | None => Ok tt
  end.

(** Carriage return, line feed, NUL. *)
Definition line_break (c : ascii) : bool := (ord c =? 13) || (ord c =? 10) || (ord c =? 0).
Definition single_line (s : string) : bool := negb (existsb line_break (S2L s)).

Definition _validate_request (request : string) : res unit :=
  guard (negb (String.eqb request "") && single_line request)
    (ProtocolClientError "request must be a non-empty HTTP method").

Definition _validate_protocol_url_scheme (protocol scheme : string) : res unit :=
  guard (negb (String.eqb protocol "h2" && negb (String.eqb scheme "https")))
    (ProtocolClientError "h2 requires an https URL for TLS/ALPN evidence") ;;;
  guard (negb (String.eqb protocol "h2c" && negb (String.eqb scheme "http")))
    (ProtocolClientError "h2c requires an http URL") ;;;
  guard (negb (String.eqb protocol "h3" && negb (String.eqb scheme "https")))
    (ProtocolClientError "h3 requires an https URL").

Definition _validate_url `{Ip6Literal} (url protocol : string) : res string :=
  let* parsed := urlsplit url in
  guard (str_in (scheme parsed) ["http"; "https"] && negb (String.eqb (netloc parsed) ""))
    (ProtocolClientError "url must be an absolute http or https URL") ;;;
  guard (single_line url) (ProtocolClientError "url contains a control character") ;;;
  guard (String.eqb (fragment parsed) "") (ProtocolClientError "url must not include a fragment") ;;;
  match port parsed with
  | Ok _ => _validate_protocol_url_scheme protocol (scheme parsed) ;;; Ok (scheme parsed)
  | Err _ => client_error "url contains an invalid port"
  end.

Definition _has_invalid_stream_id (v : pyval) : bool :=
  match v with PInt z => z <? 0 | _ => true end.

(** A value of an optional field. *)
Definition opt_val {A} (f : A -> pyval) (o : option A) : pyval :=
  match o with Some a => f a | None => PNone end.

Definition _validate_stream_id (s : option Z) : res unit :=
  match s with
  | Some z => guard (negb (_has_invalid_stream_id (PInt z)))
                (ProtocolClientError "stream_id must be an integer greater than or equal to zero")
  | None => Ok tt
  end.

(** [_PROVENANCE_TEXT_FIELDS] with [getattr(config, name)]. *)
Definition _PROVENANCE_TEXT_FIELDS (c : ClientConfig) : list (string * option string) :=
  [("connector", connector c); ("integration_mode", integration_mode c); ("run_id", run_id c);
   ("transaction_id", transaction_id c); ("rule_id", rule_id c); ("phase", phase c)].

Definition _validate_provenance_text (c : ClientConfig) : res unit :=
  forM (fun '(name, v) => _validate_text_argument v name ;;; Ok tt) (_PROVENANCE_TEXT_FIELDS c).

Definition bounded_token (s : string) : bool := fullmatch_str _BOUNDED_TOKEN s.
Definition _has_invalid_bounded_token (v : pyval) : bool :=
  match v with PStr s => negb (bounded_token s) | _ => true end.

Definition _TRANSPORT_CASE_ID_ERROR : string := "transport_case_id must be a bounded token".
Definition MODERN : list string := ["h2"; "h2c"; "h3"].

Definition _validate_transport_case_id (c : ClientConfig) (protocol : string) : res unit :=
  match transport_case_id c with
  | Some t => guard (bounded_token t) (ProtocolClientError _TRANSPORT_CASE_ID_ERROR)
  | None => Ok tt
  end ;;;
  guard (negb (str_in protocol MODERN) ||
         match transport_case_id c with Some t => negb (String.eqb t "") | None => false end)
    (ProtocolClientError "modern protocol probes require a transport_case_id").

(** The name of a header line, when it has the [name:value] form. *)
Definition header_name (header : string) : option string :=
  match partition ":" header with
  | (name, true, _) => let n := py_strip name in
                       if fullmatch_str _HTTP_FIELD_NAME n then Some n else None
  | _ => None
  end.

Definition CORRELATION_HEADER : string := "x-msconnector-transport-case".

Definition _validate_header (header : string) : res unit :=
  guard (negb (String.eqb header "") && single_line header)
    (ProtocolClientError "headers must be single-line strings") ;;;
  match header_name header with
  | None => client_error "headers must use a valid name:value form"
  | Some name => guard (negb (String.eqb (py_lower name) CORRELATION_HEADER))
                   (ProtocolClientError "transport correlation header is helper-owned")
  end.

Definition _validate_headers (headers : list string) : res unit := forM _validate_header headers.

Definition _validate_config `{Ip6Literal} (c : ClientConfig) : res (string * string) :=
  let* protocol := normalize_protocol (protocol c) in
  _validate_timeouts c ;;;
  _validate_request (request c) ;;;
  let* scheme := _validate_url (url c) protocol in
  _validate_stream_id (stream_id c) ;;;
  match upstream_protocol c with
  | Some u => normalize_protocol u ;;; Ok tt
  | None => Ok tt
  end ;;;
  _validate_provenance_text c ;;;
  _validate_transport_case_id c protocol ;;;
  _validate_headers (headers c) ;;;
  Ok (protocol, scheme).

(** ** Preflight *)

(** The features and options of a protocol, and its forcing flag. *)
Definition _PROTOCOL_REQUIREMENTS (protocol : string) : list string * list string :=
  if String.eqb protocol "http1" then ([], ["--http1.1"])
  else if String.eqb protocol "h2" then (["HTTP2"], ["--http2"])
  else if String.eqb protocol "h2c" then (["HTTP2"], ["--http2-prior-knowledge"])
  else (["HTTP3"], ["--http3-only"]).

Definition _COMMON_CURL_OPTIONS : list string :=
  ["--fail-with-body"; "--max-time"; "--output"; "--request"; "--show-error"; "--silent"; "--write-out"].

Definition _optional_curl_options (c : ClientConfig) : list string :=
  (if is_some (connect_timeout c) then ["--connect-timeout"] else [])
  ++ (if insecure c then ["--insecure"] else [])
  ++ (if is_some (data_file c) then ["--data-binary"] else [])
  ++ (if is_some (cacert c) then ["--cacert"] else [])
  ++ (match resolve c with [] => [] | _ => ["--resolve"] end)
  ++ (if negb (match headers c with [] => true | _ => false end) || is_some (transport_case_id c)
      then ["--header"] else []).

(** [inspection.version >= (7, 70, 0)] *)
Definition version_geb (a b : Z * Z * Z) : bool :=
  let '(a1, a2, a3) := a in
  let '(b1, b2, b3) := b in
  (b1 <? a1) || (b1 =? a1) && ((b2 <? a2) || (b2 =? a2) && (b3 <=? a3)).

Definition _CURL_JSON_MIN_VERSION : Z * Z * Z := (7, 70, 0).

Definition preflight_curl (protocol : string) (i : CurlInspection) (config : option ClientConfig)
    : res Preflight :=
  let* normalized := normalize_protocol protocol in
  let (feature_requirements, profile_options) := _PROTOCOL_REQUIREMENTS normalized in
  let required_options := sort_strs (dedup String.eqb (_COMMON_CURL_OPTIONS ++ profile_options ++
                            match config with Some c => _optional_curl_options c | None => [] end)) in
  let required_features := sort_strs feature_requirements in
  match inspection_error i with
  | Some e =>
      Ok {| status := "BLOCKED"; reason := Some e; required_features := required_features;
            required_options := required_options; missing_features := required_features;
            missing_options := required_options; writeout_mode := "none" |}
  | None =>
      let missing_features := List.filter (fun f => negb (str_in (py_upper f) (features i))) required_features in
      let missing_options := List.filter (fun o => negb (str_in (py_lower o) (options i))) required_options in
      let '(status, reason) :=
        match missing_features, missing_options with
        | _ :: _, _ =>
            ("BLOCKED", Some (if String.eqb normalized "h3" && str_in "HTTP3" missing_features
                              then "client_http3_unsupported" else "client_required_feature_unavailable"))
        | [], _ :: _ => ("BLOCKED", Some "client_required_option_unavailable")
        | [], [] => ("READY", None)
        end in
      Ok {| status := status; reason := reason; required_features := required_features;
            required_options := required_options; missing_features := missing_features;
            missing_options := missing_options;
            writeout_mode := match version i with
                             | Some v => if version_geb v _CURL_JSON_MIN_VERSION then "json" else "fields"
                             | None => "fields"
                             end |}
  end.

(** ** The command *)

Definition NUL_DEVICE : string := "/dev/null".
Definition tab : string := L2S [chr 9].
Definition newline : string := L2S [chr 10].

Definition writeout_format (mode : string) : string :=
  if String.eqb mode "json" then "%{json}" +:+ newline
  else "PROTOCOL_CLIENT" +:+ tab +:+ "%{http_code}" +:+ tab +:+ "%{http_version}" +:+ tab
       +:+ "%{size_download}" +:+ tab +:+ "%{exitcode}" +:+ newline.

Definition protocol_flag (protocol : string) : string := List.hd "" (snd (_PROTOCOL_REQUIREMENTS protocol)).

(** [command.extend((option, value))] for each value. *)
Definition option_pairs (option : string) (values : list string) : list string :=
  flat_map (fun v => [option; v]) values.

Definition opt_list {A} (o : option A) : list A := match o with Some a => [a] | None => [] end.

Definition correlation_header (t : string) : string := "X-MSConnector-Transport-Case: " +:+ t.

Definition curl_command (c : ClientConfig) (protocol writeout : string) : list string :=
  [curl c; "--silent"; "--show-error"; "--fail-with-body"; "--output"; NUL_DEVICE; "--request";
   request c; "--max-time"; format_6g (timeout c)]
  ++ option_pairs "--connect-timeout" (map format_6g (opt_list (connect_timeout c)))
  ++ (if insecure c then ["--insecure"] else [])
  ++ option_pairs "--cacert" (opt_list (cacert c))
  ++ option_pairs "--resolve" (resolve c)
  ++ option_pairs "--header" (headers c)
  ++ option_pairs "--header" (map correlation_header (opt_list (transport_case_id c)))
  ++ option_pairs "--data-binary" (map (fun f => "@" +:+ f) (opt_list (data_file c)))
  ++ [protocol_flag protocol; "--write-out"; writeout; url c].

Definition build_curl_command `{Ip6Literal} (c : ClientConfig) (p : Preflight) : res (list string) :=
  let* (protocol, scheme) := _validate_config c in
  guard (String.eqb (status p) "READY")
    (ProtocolClientError "cannot build a command before a ready preflight") ;;;
  let command := curl_command c protocol (writeout_format (writeout_mode p)) in
  guard (negb (String.eqb protocol "h3" && negb (str_in "--http3-only" command)))
    (ProtocolClientError "h3 command lost its required --http3-only flag") ;;;
  guard (negb (str_in "--http3" command)) (ProtocolClientError "fallback-capable --http3 is forbidden") ;;;
  Ok command.

(** ** The redacted text of a command *)

Definition SAFE_PATHS : list string := ["/"; "/health"; "/healthz"; "/ready"; "/readyz"].

Definition _safe_url_for_command `{Ip6Literal} (url : string) : res string :=
  let* parsed := urlsplit url in
  let host := hostname parsed in
  let host := if contains ":" host && negb (starts_with "[" host) then "[" +:+ host +:+ "]" else host in
  let* p := port parsed in
  let netloc := match p with Some z => host +:+ ":" +:+ dec z | None => host end in
  let safe_path := if String.eqb (url_path parsed) "" then "/" else url_path parsed in
  let safe_path := if str_in safe_path SAFE_PATHS then safe_path else "/[redacted-path]" in
  let query := if String.eqb (query parsed) "" then "" else "[redacted]" in
  Ok (urlunsplit (scheme parsed) netloc safe_path query).

Definition REDACTED_OPTIONS : list string := ["--header"; "--data-binary"; "--cacert"; "--resolve"].

(** The rendered value that is not an option of its own and not the url. *)
Definition redact_assignment (value : string) : string :=
  match List.find (fun o => starts_with (o +:+ "=") value) REDACTED_OPTIONS with
  | Some o => o +:+ "=[redacted]"
  | None => value
  end.

Fixpoint redact `{Ip6Literal} (url : string) (redact_next : bool) (values : list string)
    : res (list string) :=
  match values with
  | [] => Ok []
  | value :: rest =>
      if redact_next then let* r := redact url false rest in Ok ("[redacted]" :: r)
      else if str_in value REDACTED_OPTIONS then let* r := redact url true rest in Ok (value :: r)
      else if String.eqb value url then
        let* safe := _safe_url_for_command url in
        let* r := redact url false rest in Ok (safe :: r)
      else let* r := redact url false rest in Ok (redact_assignment value :: r)
  end.

Definition _redacted_command `{Ip6Literal} (command : list string) (url : string) : res string :=
  let* rendered := redact url false command in Ok (shlex_join rendered +:+ newline).
