(* ===== verification/ProtocolOutcome.v ===== *)
(** * The protocol client: observations and their status (protocol_client.py) *)

From S2P Require Export Protocol.
From Stdlib Require Import QArith.
#[global] Open Scope Z_scope.

(** ** Classification of an outcome *)

(** A result of [_parse_number], which is not negative. *)
Inductive number := NInt (z : Z) | NFloat (q : Q) (r : string).
Definition number_val (n : number) : pyval := match n with NInt z => PInt z | NFloat q r => PFloat q r end.

(** What [_parse_writeout] extracts; an output without a field leaves [None]. *)
Record outcome := {
  http_status : option Z; http_version : option string; downloaded_bytes : option number;
  content_length_download : option number }.

Definition no_outcome : outcome :=
  {| http_status := None; http_version := None; downloaded_bytes := None;
     content_length_download := None |}.

Definition is_number (v : pyval) : bool := match num_value v with Some _ => true | None => false end.

(** [a >= b] and [a > 0] of two numbers. *)
Definition num_geb (a b : pyval) : bool :=
  match num_value a, num_value b with Some x, Some y => Qle_bool y x | _, _ => false end.
Definition num_positive (a : pyval) : bool :=
  match num_value a with Some x => negb (Qle_bool x 0) | None => false end.

Definition _negotiated_protocol (http_version : option string) (requested scheme : string)
    : option string :=
  match http_version with
  | None => None
  | Some v =>
      let normalized := py_lower (py_strip v) in
      if str_in normalized ["1"; "1.0"; "1.1"; "http/1.0"; "http/1.1"] then Some "http1"
      else if str_in normalized ["2"; "2.0"; "http/2"; "http/2.0"]
      then Some (if String.eqb requested "h2c" && String.eqb scheme "http" then "h2c" else "h2")
      else if str_in normalized ["3"; "3.0"; "http/3"; "http/3.0"] then Some "h3"
      else None
  end.

Definition _CURL_RETURN_CODE_TRANSPORT_ERRORS (code : Z) : option string :=
  if code =? 6 then Some "dns_failure"
  else if code =? 7 then Some "connection_failure"
  else if code =? 18 then Some "transfer_incomplete"
  else if code =? 28 then Some "timeout"
  else if Z_in code [16; 92] then Some "h2_failure"
  else if Z_in code [95; 96] then Some "h3_failure"
  else if Z_in code [35; 51; 58; 59; 60; 64; 66; 77; 80; 82; 83; 90; 91] then Some "tls_failure"
  else None.

Definition _returncode_transport_error (returncode : Z) (http_status : option Z) : option string :=
  if returncode =? 0 then Some "none"
  else if (returncode =? 22) && is_some http_status then Some "http_response_error"
  else _CURL_RETURN_CODE_TRANSPORT_ERRORS returncode.

Definition mentions (words : list string) (text : string) : bool :=
  existsb (fun w => contains w text) words.

Definition _stderr_transport_error (stderr requested_protocol : string) : string :=
  let lower := py_lower stderr in
  if mentions ["timed out"; "timeout"] lower then "timeout"
  else if mentions ["certificate"; "ssl"; "tls"] lower then "tls_failure"
  else if mentions ["quic"; "http/3"; "http3"] lower
  then if String.eqb requested_protocol "h3" then "h3_failure" else "protocol_failure"
  else if mentions ["http/2"; "http2"] lower
  then if str_in requested_protocol ["h2"; "h2c"] then "h2_failure" else "protocol_failure"
  else "client_or_network_failure".

Definition _classify_transport_error (returncode : Z) (stderr requested_protocol : string)
    (http_status : option Z) : string :=
  match _returncode_transport_error returncode http_status with
  | Some e => e
  | None => _stderr_transport_error stderr requested_protocol
  end.

Definition _expected_transport (protocol scheme : string) : string :=
  if String.eqb protocol "h3" then "quic_udp"
  else if String.eqb protocol "h2" then "tls_tcp"
  else if String.eqb protocol "h2c" then "tcp"
  else if String.eqb scheme "https" then "tls_tcp" else "tcp".

Definition _derive_transport (negotiated : option string) (requested scheme : string)
    (sidecar : pydict) (quic_udp_observed : bool) : option string :=
  match negotiated with
  | Some n =>
      if negb (String.eqb n requested) then None
      else if String.eqb n "h3"
      then if quic_udp_observed || is_true (dict_get "quic_udp_observed" sidecar)
           then Some "quic_udp" else None
      else Some (_expected_transport n scheme)
  | None => None
  end.

(** ** The sidecar *)

Definition _SIDECAR_KEYS : list string :=
  ["stream_id"; "connection_reused"; "quic_udp_observed"; "quic_connection_id_present"; "quic_version";
   "alpn"; "stream_reset"; "stream_reset_code"].
Definition _RAW_CONNECTION_ID_KEYS : list string :=
  ["cid"; "connection_id"; "quic_cid"; "quic_connection_id"].
Definition _SIDECAR_BOOLEAN_KEYS : list string :=
  ["connection_reused"; "quic_udp_observed"; "quic_connection_id_present"; "stream_reset"].

(** The keys of a JSON object are strings. *)
Definition _validate_observation_sidecar_keys (loaded : pydict) : res unit :=
  guard (negb (existsb (fun k => dict_has k loaded) _RAW_CONNECTION_ID_KEYS))
    (ProtocolClientError "raw connection identifiers are not accepted") ;;;
  guard (keys_within loaded _SIDECAR_KEYS)
    (ProtocolClientError "observation sidecar contains unsupported fields").

(** Copies one optional field that passes its check. *)
Definition copy_field (key : string) (check : pyval -> res unit) (loaded result : pydict)
    : res pydict :=
  match dict_find key loaded with
  | Some v => check v ;;; Ok (dict_set key v result)
  | None => Ok result
  end.

Definition _copy_sidecar_stream_id (loaded result : pydict) : res pydict :=
  copy_field "stream_id" (fun v => guard (negb (_has_invalid_stream_id v))
    (ProtocolClientError "sidecar stream_id must be an integer >= 0")) loaded result.

Definition _copy_sidecar_booleans (loaded result : pydict) : res pydict :=
  foldM (fun r key => copy_field key (fun v => guard (is_bool v)
           (ProtocolClientError ("sidecar " +:+ key +:+ " must be boolean"))) loaded r)
    _SIDECAR_BOOLEAN_KEYS result.

Definition _copy_sidecar_quic_version (loaded result : pydict) : res pydict :=
  copy_field "quic_version" (fun v => guard (negb (_has_invalid_bounded_token v))
    (ProtocolClientError "sidecar quic_version must be a bounded token")) loaded result.

(** [value not in {"h2", "h3"}] raises [TypeError] on a list or an object. *)
Definition _copy_sidecar_alpn (loaded result : pydict) : res pydict :=
  copy_field "alpn" (fun v => let* b := in_str_set v ["h2"; "h3"] in
    guard b (ProtocolClientError "sidecar alpn must be h2 or h3")) loaded result.

Definition _copy_sidecar_stream_reset_code (loaded result : pydict) : res pydict :=
  copy_field "stream_reset_code" (fun v =>
    match v with
    | PInt z => guard (0 <=? z) (ProtocolClientError "sidecar stream_reset_code must be non-negative")
    | PStr s => guard (bounded_token s)
                  (ProtocolClientError "sidecar stream_reset_code must be numeric or bounded token")
    | _ => client_error "sidecar stream_reset_code must be numeric or bounded token"
    end) loaded result.

(** [_load_observation_sidecar] of a decoded JSON object. *)
Definition _load_observation_sidecar (loaded : pydict) : res pydict :=
  _validate_observation_sidecar_keys loaded ;;;
  let* r := _copy_sidecar_stream_id loaded [] in
  let* r := _copy_sidecar_booleans loaded r in
  let* r := _copy_sidecar_quic_version loaded r in
  let* r := _copy_sidecar_alpn loaded r in
  _copy_sidecar_stream_reset_code loaded r.

(** ** Provenance *)

Section Client.
Context `{Ip6Literal}.
(** [hashlib.sha256(text.encode()).hexdigest()] *)
Variable sha256 : string -> string.

Definition target_authority_sha256 (url : string) : option string :=
  match urlsplit url with
  | Err _ => None
  | Ok parsed =>
      match port parsed with
      | Err _ => None
      | Ok p =>
          let scheme := py_lower (scheme parsed) in
          let host := py_lower (hostname parsed) in
          if negb (str_in scheme ["http"; "https"]) || String.eqb host "" then None
          else
            let p := match p with Some z => z | None => if String.eqb scheme "https" then 443 else 80 end in
            Some ("sha256:" +:+ sha256 (scheme +:+ "://" +:+ host +:+ ":" +:+ dec p))
      end
  end.

Definition prefix_of (n : nat) (s : string) : string := L2S (take n (S2L s)).

Definition derive_followup_transport_case_id (primary : option string) : res (option string) :=
  match primary with
  | None => Ok None
  | Some t =>
      if negb (bounded_token t) then client_error _TRANSPORT_CASE_ID_ERROR
      else
        let candidate := "followup-" +:+ prefix_of 32 (sha256 ("msconnector-followup:" +:+ t)) in
        Ok (Some (if String.eqb candidate t
                  then "followup2-" +:+ prefix_of 31 (sha256 ("msconnector-followup2:" +:+ t))
                  else candidate))
  end.

Definition COPIED_SIDECAR_FIELDS : list string :=
  ["connection_reused"; "quic_connection_id_present"; "quic_version"; "alpn"; "stream_reset";
   "stream_reset_code"].

(** A field of the dictionary under construction, when its value is not [None]. *)
Definition field {A} (name : string) (f : A -> pyval) (o : option A) : list (string * pyval) :=
  match o with Some a => [(name, f a)] | None => [] end.

Definition text_fields (c : ClientConfig) : res (list (string * pyval)) :=
  let* l := mapM (fun '(name, v) => let* t := _validate_text_argument v name in Ok (field name PStr t))
              (_PROVENANCE_TEXT_FIELDS c) in
  Ok (concat l).

(** The stream of the configuration and of the sidecar, which must agree. *)
Definition provenance_stream (c : ClientConfig) (sidecar : pydict) : res pyval :=
  let own := opt_val PInt (stream_id c) in
  let observed := dict_get "stream_id" sidecar in
  if negb (is_none own) && negb (is_none observed) && negb (py_eq own observed)
  then client_error "stream_id conflicts with observation sidecar"
  else Ok (if is_none own then observed else own).

Definition _provenance (c : ClientConfig) (sidecar : pydict) : res (list (string * pyval)) :=
  let* texts := text_fields c in
  match transport_case_id c with
  | Some t => guard (bounded_token t) (ProtocolClientError _TRANSPORT_CASE_ID_ERROR)
  | None => Ok tt
  end ;;;
  let* upstream := match upstream_protocol c with
                   | Some u => let* p := normalize_protocol u in Ok (Some p)
                   | None => Ok None
                   end in
  let* stream := provenance_stream c sidecar in
  Ok (texts ++ field "transport_case_id" PStr (transport_case_id c)
      ++ field "target_authority_sha256" PStr (target_authority_sha256 (url c))
      ++ field "upstream_protocol" PStr upstream
      ++ (if is_none stream then [] else [("stream_id", stream)])
      ++ concat (map (fun name => match dict_find name sidecar with Some v => [(name, v)] | None => [] end)
                   COPIED_SIDECAR_FIELDS)).

(** ** Evidence *)

Definition _observation_expected_transport (o : pydict) (requested : pyval) : res pyval :=
  let expected := dict_get "expected_transport" o in
  if negb (is_none expected) then Ok expected
  else if negb (hashable requested) then Err (TypeError "unhashable type")
  else Ok (if eq_str requested "h2" then PStr "tls_tcp" else if eq_str requested "h2c" then PStr "tcp"
           else if eq_str requested "h3" then PStr "quic_udp" else PNone).

(** The missing and the contradictory fields found so far. *)
Definition gaps := (list string * list string)%type.

Definition _append_transport_evidence_gaps (o : pydict) (expected : pyval) : gaps :=
  let transport := dict_get "transport" o in
  if is_none transport then (["transport"], [])
  else if negb (is_none expected) && negb (py_eq transport expected) then ([], ["transport"])
  else ([], []).

Definition _append_stream_evidence_gaps (o : pydict) (requested : pyval) : res gaps :=
  let* modern := in_str_set requested MODERN in
  Ok (if modern then
        let s := dict_get "stream_id" o in
        if is_none s then (["stream_id"], [])
        else if _has_invalid_stream_id s then ([], ["stream_id"]) else ([], [])
      else ([], [])).

Definition _append_alpn_evidence_gap (o : pydict) (expected : string) : gaps :=
  let alpn := dict_get "alpn" o in
  if is_none alpn then (["alpn"], [])
  else if negb (eq_str alpn expected) then ([], ["alpn"]) else ([], []).

Definition _append_h3_evidence_gaps (o : pydict) : list string :=
  (if is_true (dict_get "quic_udp_observed" o) then [] else ["quic_udp_observed"])
  ++ (if is_true (dict_get "quic_connection_id_present" o) then [] else ["quic_connection_id_present"]).

Definition join_gaps (a b : gaps) : gaps := (fst a ++ fst b, snd a ++ snd b).

Definition _evidence_gaps (o : pydict) : res gaps :=
  let requested := dict_get "requested_protocol" o in
  if negb (py_eq (dict_get "negotiated_protocol" o) requested) then Ok ([], ["negotiated_protocol"])
  else
    let* expected := _observation_expected_transport o requested in
    let* stream := _append_stream_evidence_gaps o requested in
    Ok (join_gaps (_append_transport_evidence_gaps o expected) (join_gaps stream
          (if eq_str requested "h2" then _append_alpn_evidence_gap o "h2"
           else if eq_str requested "h3"
           then join_gaps (_append_alpn_evidence_gap o "h3") (_append_h3_evidence_gaps o, [])
           else ([], [])))).

(** ** Validation of an observation *)

Definition _has_invalid_sha256_token (v : pyval) : bool :=
  match v with PStr s => negb (fullmatch_str _SHA256_TOKEN s) | _ => true end.

Definition _has_invalid_stream_reset_code (v : pyval) : bool :=
  match v with PBool _ => true | PInt _ => false | _ => _has_invalid_bounded_token v end.

(** [if b: errors.append(message)] *)
Definition report (b : bool) (message : string) : list string := if b then [message] else [].

(** A member of the canonical protocols or transports; [None] where allowed. *)
Definition canonical (v : pyval) (allowed : list string) (message : string) (optional : bool)
    : res (list string) :=
  if optional && is_none v then Ok []
  else let* b := in_str_set v allowed in Ok (report (negb b) message).

Definition _validate_observation_protocol_fields (o : pydict) : res (list string) :=
  let* e1 := canonical (dict_get "requested_protocol" o) CANONICAL_PROTOCOLS
               "requested_protocol is not canonical" false in
  let* e2 := canonical (dict_get "downstream_protocol" o) CANONICAL_PROTOCOLS
               "downstream_protocol is not canonical" false in
  let* e3 := canonical (dict_get "upstream_protocol" o) CANONICAL_PROTOCOLS
               "upstream_protocol is not canonical" true in
  let* e4 := canonical (dict_get "negotiated_protocol" o) CANONICAL_PROTOCOLS
               "negotiated_protocol is not canonical" true in
  let* e5 := canonical (dict_get "transport" o) CANONICAL_TRANSPORTS "transport is not canonical" true in
  Ok (e1 ++ e2 ++ e3 ++ e4 ++ e5).

(** [if key in observation and bad(observation[key])] *)
Definition present_bad (o : pydict) (key : string) (bad : pyval -> bool) (message : string) : list string :=
  match dict_find key o with Some v => report (bad v) message | None => [] end.

Definition not_bool (v : pyval) : bool := negb (is_bool v).

Definition _validate_observation_request_fields (o : pydict) : list string :=
  report (not_bool (dict_get "fallback_used" o)) "fallback_used must be boolean"
  ++ present_bad o "stream_id" _has_invalid_stream_id "stream_id must be an integer >= 0"
  ++ present_bad o "transport_case_id" _has_invalid_bounded_token _TRANSPORT_CASE_ID_ERROR
  ++ present_bad o "target_authority_sha256" _has_invalid_sha256_token
       "target_authority_sha256 must be a SHA-256 token".

Definition _validate_observation_connection_fields (o : pydict) : res (list string) :=
  let e := present_bad o "connection_reused" not_bool "connection_reused must be boolean"
    ++ present_bad o "quic_connection_id_present" not_bool "quic_connection_id_present must be boolean"
    ++ present_bad o "quic_udp_observed" not_bool "quic_udp_observed must be boolean"
    ++ present_bad o "quic_version" _has_invalid_bounded_token "quic_version must be a bounded token" in
  match dict_find "alpn" o with
  | Some v => let* b := in_str_set v ["h2"; "h3"] in Ok (e ++ report (negb b) "alpn must be h2 or h3")
  | None => Ok e
  end.

Definition _validate_observation_stream_fields (o : pydict) : list string :=
  present_bad o "stream_reset" not_bool "stream_reset must be boolean"
  ++ present_bad o "stream_reset_code" _has_invalid_stream_reset_code
       "stream_reset_code must be numeric or bounded token"
  ++ report (existsb (fun k => dict_has k o) _RAW_CONNECTION_ID_KEYS)
       "raw connection identifiers must not be persisted".

Definition _validate_pass_evidence (o : pydict) : res (list string) :=
  let* (missing, contradictory) := _evidence_gaps o in
  Ok (report (negb (is_false (dict_get "fallback_used" o))) "PASS cannot use fallback"
      ++ map (fun f => "missing " +:+ f) missing ++ map (fun f => "contradictory " +:+ f) contradictory).

Definition validate_protocol_observation (o : pydict) (require_pass_evidence : bool) : res (list string) :=
  let* e1 := _validate_observation_protocol_fields o in
  let* e2 := _validate_observation_connection_fields o in
  let* e3 := if require_pass_evidence then _validate_pass_evidence o else Ok [] in
  Ok (e1 ++ _validate_observation_request_fields o ++ e2 ++ _validate_observation_stream_fields o ++ e3).

(** ** The observation of one request *)

Definition opt_str_val (o : option string) : pyval := opt_val PStr o.

Definition _initial_observation (protocol : string) (scheme : option string) (c : ClientConfig)
    (sidecar : pydict) : res pydict :=
  let* provenance := _provenance c sidecar in
  let base := mkdict
    ([("schema_version", PInt 1); ("status", PStr "NOT_EXECUTED"); ("requested_protocol", PStr protocol);
      ("downstream_protocol", PStr protocol); ("negotiated_protocol", PNone); ("transport", PNone);
      ("fallback_used", PBool false); ("http_status", PNone); ("downloaded_bytes", PNone);
      ("content_length_download", PNone); ("response_committed", PBool false);
      ("client_first_body_byte_visible", PBool false); ("response_complete", PBool false);
      ("curl_exit_code", PNone); ("transport_error", PStr "not_executed")]
     ++ field "expected_transport" (fun s => PStr (_expected_transport protocol s)) scheme) in
  let o := dict_update base provenance in
  Ok (if String.eqb protocol "h3"
      then dict_set "quic_udp_observed"
             (PBool (quic_udp_observed c || is_true (dict_get "quic_udp_observed" sidecar))) o
      else o).

Definition _apply_outcome (o : pydict) (out : outcome) (returncode : Z) (stderr requested scheme : string)
    (c : ClientConfig) (sidecar : pydict) : pydict :=
  let negotiated := _negotiated_protocol (http_version out) requested scheme in
  let downloaded := opt_val number_val (downloaded_bytes out) in
  let content_length := opt_val number_val (content_length_download out) in
  dict_update o
    [("http_status", opt_val PInt (http_status out)); ("downloaded_bytes", downloaded);
     ("content_length_download", content_length);
     ("response_committed", PBool (is_some (http_status out)));
     ("client_first_body_byte_visible", PBool (num_positive downloaded));
     ("curl_exit_code", PInt returncode);
     ("transport_error", PStr (_classify_transport_error returncode stderr requested (http_status out)));
     ("negotiated_protocol", opt_str_val negotiated);
     ("fallback_used", PBool (match negotiated with Some n => negb (String.eqb n requested) | None => false end));
     ("transport", opt_str_val (_derive_transport negotiated requested scheme sidecar (quic_udp_observed c)));
     ("response_complete",
      PBool (is_some (http_status out) && Z_in returncode [0; 22] && is_number downloaded
             && is_number content_length && num_geb downloaded content_length))].

(** [value in {0, 22}] *)
Definition in_int_set (v : pyval) (l : list Z) : res bool :=
  if hashable v then Ok (existsb (eq_int v) l) else Err (TypeError "unhashable type").

Definition set_status (o : pydict) (st : string) (items : list (string * pyval)) : pydict :=
  dict_update o (("status", PStr st) :: items).

Definition PStrs (l : list string) : pyval := PList (map PStr l).

Definition _finalize_status (o : pydict) (requested : string) : res pydict :=
  if is_true (dict_get "fallback_used" o)
  then Ok (set_status o "FAIL" [("reason", PStr "protocol_fallback_observed")])
  else if negb (eq_str (dict_get "negotiated_protocol" o) requested) then
    let* unsupported := in_str_set (dict_get "transport_error" o) ["h2_failure"; "h3_failure"] in
    Ok (set_status o (if unsupported : bool then "UNSUPPORTED_BY_HOST" else "FAIL")
          [("reason", PStr "requested_protocol_not_observed")])
  else
  let* transferred := in_int_set (dict_get "curl_exit_code" o) [0; 22] in
  if negb transferred
  then Ok (set_status o "FAIL" [("reason", PStr "curl_transfer_failed_after_protocol_observation")])
  else
    let* (missing, contradictory) := _evidence_gaps o in
    match contradictory, missing with
    | _ :: _, _ =>
        Ok (set_status o "FAIL" [("reason", PStr "contradictory_protocol_observation");
                                 ("missing_evidence", PStrs (sort_strs contradictory))])
    | [], _ :: _ =>
        Ok (set_status o "NOT_EXECUTED" [("reason", PStr "incomplete_protocol_provenance");
                                         ("missing_evidence", PStrs (sort_strs missing))])
    | [], [] =>
        let* errors := validate_protocol_observation o true in
        match errors with
        | _ :: _ => Ok (set_status o "FAIL" [("reason", PStr "invalid_protocol_observation");
                                             ("validation_errors", PStrs (sort_strs errors))])
        | [] => Ok (set_status o "PASS" [])
        end
    end.
End Client.

(** * The protocol client: runs (protocol_client.py)

    [run_protocol_client] as a function of what the processes and the sidecar
    file say.  The result is the observation, the command that was executed and
    the observation of the follow-up request. *)

(** [_run_process] of a command, with its output already parsed. *)
Inductive execution :=
  | Completed (returncode : Z) (stderr : string) (out : outcome)
  | TimeoutExpired
  | Unavailable.

(** ** The report of the features *)

Definition version_digits (v : Z * Z * Z) : string :=
  let '(a, b, c) := v in py_join "." [dec a; dec b; dec c].

Definition _features_report (i : CurlInspection) (p : Preflight) (protocol : string) : string :=
  py_join newline
    ["curl_executable=" +:+ executable i;
     "curl_version=" +:+ match version i with Some v => version_digits v | None => "unknown" end;
     "protocol=" +:+ protocol; "features=" +:+ py_join "," (sort_strs (features i));
     "required_features=" +:+ py_join "," (required_features p);
     "missing_features=" +:+ py_join "," (missing_features p);
     "required_options=" +:+ py_join "," (required_options p);
     "missing_options=" +:+ py_join "," (missing_options p); "preflight_status=" +:+ status p;
     "preflight_reason=" +:+ match reason p with Some r => r | None => "" end;
     "writeout_mode=" +:+ writeout_mode p] +:+ newline.

Section Run.
Context `{Ip6Literal}.
Variable sha256 : string -> string.

(** ** The primary request *)

Definition _blocked_observation (c : ClientConfig) (protocol : string) (scheme : option string)
    (sidecar : pydict) (st why : string) : res pydict :=
  let* o := _initial_observation sha256 protocol scheme c sidecar in
  Ok (dict_update o ([("status", PStr st); ("reason", PStr why)]
        ++ (if String.eqb st "BLOCKED" then [("transport_error", PStr "client_unavailable")] else []))).

Definition _execute_primary_observation (c : ClientConfig) (execution : execution) (protocol : string)
    (scheme : option string) (sidecar : pydict) : res pydict :=
  let* o := _initial_observation sha256 protocol scheme c sidecar in
  match execution with
  | TimeoutExpired =>
      Ok (dict_update o [("status", PStr "FAIL"); ("reason", PStr "curl_execution_timeout");
                         ("curl_exit_code", PNone); ("transport_error", PStr "timeout")])
  | Unavailable =>
      Ok (dict_update o [("status", PStr "BLOCKED"); ("reason", PStr "curl_execution_unavailable");
                         ("transport_error", PStr "client_unavailable")])
  | Completed returncode stderr out =>
      let scheme := match scheme with Some s => if String.eqb s "" then "http" else s | None => "http" end in
      _finalize_status (_apply_outcome o out returncode stderr protocol scheme c sidecar) protocol
  end.

(** [observation.pop(key, None)] *)
Definition dict_pop (k : string) (d : pydict) : pydict := List.filter (fun kv => negb (eq_str (fst kv) k)) d.

(** ** The follow-up request *)

(** [replace(config, ...)] *)
Definition _followup_configuration (c : ClientConfig) (followup protocol : string) : res ClientConfig :=
  let* case_id := derive_followup_transport_case_id sha256 (transport_case_id c) in
  Ok {| url := followup; protocol := protocol; curl := curl c; timeout := timeout c;
        connect_timeout := connect_timeout c; insecure := insecure c; request := "GET"; headers := [];
        data_file := None; cacert := cacert c; resolve := resolve c; connector := connector c;
        integration_mode := integration_mode c; run_id := run_id c; transaction_id := None;
        transport_case_id := case_id; rule_id := None; phase := None; stream_id := None;
        upstream_protocol := upstream_protocol c; quic_udp_observed := quic_udp_observed c;
        observation_sidecar := None; followup_url := followup_url c;
        followup_protocol := followup_protocol c |}.

Definition _followup_observation (st why : string) (requested_protocol : option string) : pydict :=
  mkdict ([("schema_version", PInt 1); ("status", PStr st); ("reason", PStr why)]
          ++ field "requested_protocol" PStr requested_protocol).

(** [isinstance(v, int) and 200 <= int(v) < 400] *)
Definition healthy_status (v : pyval) : bool :=
  match int_value v with Some z => (200 <=? z) && (z <? 400) | None => false end.

Definition _finalize_followup_status (o : pydict) (returncode : Z) (requested : string) : pydict :=
  let verdict :=
    if is_true (dict_get "fallback_used" o) then ("FAIL", "followup_protocol_fallback")
    else if negb (eq_str (dict_get "negotiated_protocol" o) requested)
    then ("FAIL", "followup_protocol_not_observed")
    else if healthy_status (dict_get "http_status" o) && (returncode =? 0)
    then ("PASS", "healthy_independent_request")
    else ("FAIL", "followup_unhealthy_response") in
  dict_update o [("status", PStr (fst verdict)); ("reason", PStr (snd verdict))].

Definition _execute_followup_observation (followup : ClientConfig) (execution : execution)
    (requested scheme : string) : res pydict :=
  let* o := _initial_observation sha256 requested (Some scheme) followup [] in
  Ok match execution with
     | TimeoutExpired =>
         dict_update o [("status", PStr "FAIL"); ("reason", PStr "followup_timeout");
                        ("transport_error", PStr "timeout")]
     | Unavailable =>
         dict_update o [("status", PStr "BLOCKED"); ("reason", PStr "followup_client_unavailable");
                        ("transport_error", PStr "client_unavailable")]
     | Completed returncode stderr out =>
         _finalize_followup_status
           (_apply_outcome o out returncode stderr requested scheme followup []) returncode requested
     end.

Definition FOLLOWUP_FIELDS : list string :=
  ["schema_version"; "status"; "reason"; "requested_protocol"; "downstream_protocol";
   "negotiated_protocol"; "transport"; "fallback_used"; "http_status"; "response_complete";
   "curl_exit_code"; "transport_error"; "connector"; "integration_mode"; "run_id";
   "transport_case_id"; "target_authority_sha256"].

Definition _followup_artifact_observation (o : pydict) : pydict :=
  List.filter (fun kv => in_strs (fst kv) FOLLOWUP_FIELDS) (dict_pop "expected_transport" o).

(** The two places that turn a [ProtocolClientError] into an observation; every
    other exception leaves the client. *)
Definition caught {A} (r : res A) (handler : A) : res A :=
  match r with Err (ProtocolClientError _) => Ok handler | r => r end.

Definition _run_followup_observation (c : ClientConfig) (i : CurlInspection)
    (run : list string -> execution) : res (option pydict) :=
  match followup_url c with
  | None => Ok None
  | Some target =>
      let protocol := match followup_protocol c with
                      | Some p => if String.eqb p "" then protocol c else p
                      | None => protocol c
                      end in
      let* followup := _followup_configuration c target protocol in
      match _validate_config followup with
      | Err (ProtocolClientError _) =>
          Ok (Some (_followup_observation "NOT_EXECUTED" "invalid_followup_configuration" None))
      | Err e => Err e
      | Ok (normalized, scheme) =>
          let* p := preflight_curl normalized i (Some followup) in
          if negb (String.eqb (status p) "READY")
          then Ok (Some (_followup_observation "BLOCKED"
                 (match reason p with Some r => r | None => "followup_client_preflight_blocked" end)
                 (Some normalized)))
          else
            match build_curl_command followup p with
            | Err (ProtocolClientError _) =>
                Ok (Some (_followup_observation "NOT_EXECUTED" "invalid_followup_configuration"
                            (Some normalized)))
            | Err e => Err e
            | Ok command =>
                let* o := _execute_followup_observation followup (run command) normalized scheme in
                Ok (Some (_followup_artifact_observation o))
            end
      end
  end.

(** ** The client *)

Definition _validated_config_or_default (c : ClientConfig) : res (string * option string * option string) :=
  match _validate_config c with
  | Ok (protocol, scheme) => Ok (protocol, Some scheme, None)
  | Err (ProtocolClientError _) =>
      let* protocol := caught (normalize_protocol (protocol c)) "http1" in
      Ok (protocol, None, Some "invalid_client_configuration")
  | Err e => Err e
  end.

(** [read path] is the JSON object of a sidecar file, or how reading it failed. *)
Definition _load_config_sidecar (c : ClientConfig) (read : string -> res pydict)
    : res (pydict * option string) :=
  match observation_sidecar c with
  | None => Ok ([], None)
  | Some path =>
      caught (let* loaded := read path in let* s := _load_observation_sidecar loaded in Ok (s, None))
        ([], Some "invalid_observation_sidecar")
  end.

(** [ClientRunResult], without the inspection, and the follow-up artifact. *)
Record run_result := {
  observation : pydict; ran_preflight : Preflight; command : list string; followup : option pydict }.

Definition blocked_result (p : Preflight) (o : res pydict) : res run_result :=
  let* o := o in Ok {| observation := o; ran_preflight := p; command := []; followup := None |}.

Definition run_protocol_client (c : ClientConfig) (i : CurlInspection) (read : string -> res pydict)
    (run : list string -> execution) : res run_result :=
  let* (protocol, scheme, config_error) := _validated_config_or_default c in
  let* (sidecar, sidecar_error) := _load_config_sidecar c read in
  let* p := preflight_curl protocol i (Some c) in
  let blocked := fun st why => blocked_result p (_blocked_observation c protocol scheme sidecar st why) in
  match config_error with
  | Some e => blocked "NOT_EXECUTED" e
  | None =>
      if negb (String.eqb (status p) "READY")
      then blocked "BLOCKED" (match reason p with Some r => r | None => "client_preflight_blocked" end)
      else match sidecar_error with
           | Some e => blocked "NOT_EXECUTED" e
           | None =>
               match build_curl_command c p with
               | Err (ProtocolClientError _) => blocked "NOT_EXECUTED" "invalid_client_configuration"
               | Err e => Err e
               | Ok command =>
                   let* o := _execute_primary_observation c (run command) protocol scheme sidecar in
                   let* f := _run_followup_observation c i run in
                   Ok {| observation := dict_pop "expected_transport" o; ran_preflight := p;
                         command := command; followup := f |}
               end
           end
  end.

(** ** The artifacts *)

(** The longest prefix whose UTF-8 encoding has at most [limit] bytes: a character
    cut in half is ignored when the clipped bytes are decoded. *)
Fixpoint clip (limit : Z) (l : chars) : chars :=
  match l with
  | [] => []
  | c :: r => let size := if ord c <? 128 then 1 else 2 in
              if size <=? limit then c :: clip (limit - size) r else []
  end.

Definition _MAX_ARTIFACT_TEXT_BYTES : Z := 64 * 1024.
Definition utf8_length (l : chars) : Z := fold_right (fun c n => (if ord c <? 128 then 1 else 2) + n) 0 l.

Definition _truncate_text (value : string) : string :=
  if utf8_length (S2L value) <=? _MAX_ARTIFACT_TEXT_BYTES then value
  else L2S (clip _MAX_ARTIFACT_TEXT_BYTES (S2L value)) +:+ newline +:+ "[truncated]" +:+ newline.

(** The three texts [_write_artifacts] writes; the observation is written as JSON. *)
Definition _write_artifacts (c : ClientConfig) (i : CurlInspection) (r : run_result)
    : res (list (string * string)) :=
  let* command_text := match command r with
                       | [] => Ok ("not executed" +:+ newline)
                       | _ => _redacted_command (command r) (url c)
                       end in
  Ok [("client-version.txt", _truncate_text (version_text i));
      ("client-features.txt", _features_report i (ran_preflight r)
         (py_str (dict_get_or (PStr "") "requested_protocol" (observation r))));
      ("client-command.txt", command_text)].

(** The exit code of [main]. *)
Definition exit_code (r : run_result) : Z :=
  if eq_str (dict_get "status" (observation r)) "PASS" then 0 else 1.
End Run.
