(* ===== verification/ProtocolCommand.v ===== *)
(** * Theorems of the curl command and its redacted text *)

From S2P Require Export ProtocolOutcome.
From Stdlib Require Import QArith.
#[global] Open Scope Z_scope.

(** ** Texts *)

Lemma forallb_sub {A} (p : A -> bool) (l m : list A) : forallb p l = true -> incl m l -> forallb p m = true.
Proof. rewrite !forallb_forall. auto. Qed.

Lemma incl_drop_while (p : ascii -> bool) l : incl (drop_while p l) l.
Proof.
  induction l as [|c l IH]; simpl; [apply incl_refl|]. destruct (p c); [|apply incl_refl].
  intros x Hx. right. by apply IH.
Qed.

Lemma incl_strip_zeros l : incl (strip_zeros l) l.
Proof.
  intros c Hc. unfold strip_zeros, rstrip_with in Hc.
  apply in_rev, (incl_drop_while _ (rev l)) in Hc. by apply in_rev.
Qed.

Lemma with_point_numeral w f : forallb numeral w = true -> forallb numeral f = true ->
  texts_over numeral (with_point w f).
Proof.
  intros Hw Hf. unfold with_point. destruct (strip_zeros f) as [|c l] eqn:E; [by apply texts_L2S|].
  apply texts_app; [by apply texts_L2S|]. apply (texts_app numeral "." _ eq_refl). apply texts_L2S.
  eapply forallb_sub; [exact Hf|]. rewrite <- E. apply incl_strip_zeros.
Qed.

Lemma format_numeral q : texts_over numeral (format_6g q).
Proof.
  unfold format_6g. cbv zeta. destruct (if _ =? 1000000 then _ else _) as [m e].
  pose proof (dec_numeral m) as Hm. unfold texts_over in Hm.
  assert (T : forall n, forallb numeral (take n (S2L (dec m))) = true).
  { intros n. eapply forallb_sub; [exact Hm|]. intros c Hc. rewrite <- (take_drop n (S2L (dec m))).
    apply in_or_app. by left. }
  assert (D : forall n, forallb numeral (drop n (S2L (dec m))) = true).
  { intros n. eapply forallb_sub; [exact Hm|]. intros c Hc. rewrite <- (take_drop n (S2L (dec m))).
    apply in_or_app. by right. }
  assert (Z0 : forall n, forallb numeral (repeat (chr 48) n) = true) by (induction n; done).
  destruct ((-4 <=? e) && (e <? 6)).
  - destruct (0 <=? e); apply with_point_numeral; try done. by rewrite forallb_app, Z0, Hm.
  - apply texts_app; [by apply with_point_numeral|]. apply (texts_app numeral "e" _ eq_refl).
    apply texts_app; [by destruct (e <? 0)|]. apply texts_app; [by apply texts_L2S|apply dec_numeral].
Qed.

Lemma format_no_option q : str_in (format_6g q) REDACTED_OPTIONS = false.
Proof.
  pose proof (format_numeral q) as H. destruct (str_in _ _) eqn:E; [|done].
  apply str_in_In in E. by destruct E as [E|[E|[E|[E|[]]]]]; rewrite <- E in H.
Qed.

(** ** The command *)

Lemma build_inv `{Ip6Literal} c p command : build_curl_command c p = Ok command ->
  exists protocol scheme, _validate_config c = Ok (protocol, scheme) /\ status p = "READY" /\
    command = curl_command c protocol (writeout_format (writeout_mode p)) /\
    str_in "--http3" command = false.
Proof.
  unfold build_curl_command. destruct (_validate_config c) as [[protocol scheme]|]; [|done].
  unfold guard. destruct (String.eqb_spec (status p) "READY") as [E|]; [|done].
  destruct (negb (_ && _)); [|done].
  destruct (str_in "--http3" _) eqn:E3; [done|]. cbn [negb]. intros G. injection G as <-. by exists protocol, scheme.
Qed.

Lemma config_inv `{Ip6Literal} c protocol scheme : _validate_config c = Ok (protocol, scheme) ->
  normalize_protocol (Protocol.protocol c) = Ok protocol /\
  (forall h, In h (headers c) -> _validate_header h = Ok tt) /\
  (forall t, transport_case_id c = Some t -> bounded_token t = true) /\
  (In protocol MODERN -> exists t, transport_case_id c = Some t).
Proof.
  unfold _validate_config. intros G.
  destruct (normalize_protocol (Protocol.protocol c)) as [p|] eqn:Ep; [|done].
  destruct (_validate_timeouts c); [|done]. destruct (_validate_request _); [|done].
  destruct (_validate_url _ _) as [s|]; [|done]. destruct (_validate_stream_id _); [|done].
  destruct (match upstream_protocol c with Some _ => _ | None => _ end); [|done].
  destruct (_validate_provenance_text c); [|done].
  destruct (_validate_transport_case_id c p) as [[]|] eqn:Et; [|done].
  destruct (_validate_headers (headers c)) as [[]|] eqn:Eh; [|done]. injection G as -> ->.
  split; [done|]. split.
  { unfold _validate_headers in Eh. rewrite forM_Ok, List.Forall_forall in Eh. exact Eh. }
  unfold _validate_transport_case_id, guard in Et.
  destruct (transport_case_id c) as [t|].
  - destruct (bounded_token t) eqn:Eb; [|done]. split; [by intros t' [= <-]|]. by exists t.
  - split; [done|]. intros Hm. apply str_in_In in Hm. by rewrite Hm in Et.
Qed.

Lemma normalize_canonical v p : normalize_protocol v = Ok p -> In p CANONICAL_PROTOCOLS.
Proof.
  unfold normalize_protocol. destruct (str_in _ _) eqn:E; [|done]. intros G. injection G as <-.
  by apply str_in_In.
Qed.

(** A header that names the correlation header the client owns. *)
Definition owned (header : string) : Prop :=
  exists n, header_name header = Some n /\ py_lower n = CORRELATION_HEADER.

Lemma correlation_owned t : owned (correlation_header t).
Proof.
  exists "X-MSConnector-Transport-Case". split; [|reflexivity].
  unfold header_name, partition, partition_sub, correlation_header. rewrite S2L_app.
  change (S2L "X-MSConnector-Transport-Case: ")
    with (S2L "X-MSConnector-Transport-Case" ++ S2L ":" ++ [chr 32]).
  rewrite <- !app_assoc.
  change (S2L ":" ++ [chr 32] ++ S2L t) with ((chr 58 :: []) ++ [chr 32] ++ S2L t).
  change (S2L ":") with (chr 58 :: []).
  rewrite find_sub_app; [|intros Hc58; apply (existsb_eqb_In Ascii.eqb Ascii.eqb_eq) in Hc58; discriminate Hc58].
  by rewrite take_length_app.
Qed.

(** *** How curl reads its command line

    An option that takes a value takes the next word; any other word stands alone, as an
    option without a value or as the url. *)
Definition VALUE_OPTIONS : list string :=
  ["--output"; "--request"; "--max-time"; "--connect-timeout"; "--cacert"; "--resolve"; "--header"; "--data-binary";
   "--write-out"].

Fixpoint read_words (words : list string) : list (string * option string) :=
  match words with
  | [] => []
  | o :: rest =>
      match rest with
      | [] => [(o, None)]
      | v :: rest' => if str_in o VALUE_OPTIONS then (o, Some v) :: read_words rest' else (o, None) :: read_words rest
      end
  end.

(** The values an option was given, in order, and the words without a value. *)
Definition values_given (name : string) (given : list (string * option string)) : list string :=
  concat (map (fun g => if String.eqb (fst g) name then opt_list (snd g) else []) given).
Definition lone_words (given : list (string * option string)) : list string :=
  concat (map (fun g => match snd g with Some _ => [] | None => [fst g] end) given).

Lemma values_given_app o a b : values_given o (a ++ b) = values_given o a ++ values_given o b.
Proof. unfold values_given. by rewrite map_app, concat_app. Qed.
Lemma lone_words_app a b : lone_words (a ++ b) = lone_words a ++ lone_words b.
Proof. unfold lone_words. by rewrite map_app, concat_app. Qed.

Lemma read_pairs o vs rest : str_in o VALUE_OPTIONS = true ->
  read_words (option_pairs o vs ++ rest) = map (fun v => (o, Some v)) vs ++ read_words rest.
Proof.
  intros Ho. induction vs as [|v vs IH]; [done|].
  change (read_words (option_pairs o (v :: vs) ++ rest)) with (read_words (o :: v :: option_pairs o vs ++ rest)).
  cbn [read_words map app]. by rewrite Ho, IH.
Qed.

Lemma read_lone o rest : str_in o VALUE_OPTIONS = false -> read_words (o :: rest) = (o, None) :: read_words rest.
Proof. intros Ho. cbn [read_words]. destruct rest; [done|]. by rewrite Ho. Qed.

Lemma values_pairs name o vs : values_given name (map (fun v => (o, Some v)) vs) = if String.eqb o name then vs else [].
Proof.
  unfold values_given. rewrite map_map. cbn [fst snd opt_list]. induction vs as [|v vs IH]; [by destruct (String.eqb o name)|].
  cbn [map concat]. rewrite IH. by destruct (String.eqb o name).
Qed.
Lemma lone_pairs o vs : lone_words (map (fun v => (o, Some v)) vs) = [].
Proof. unfold lone_words. rewrite map_map. by induction vs. Qed.

(** What curl reads off the command of the client. *)
Lemma command_read c protocol writeout : In protocol CANONICAL_PROTOCOLS ->
  read_words (List.tl (curl_command c protocol writeout)) =
  [("--silent", None); ("--show-error", None); ("--fail-with-body", None); ("--output", Some NUL_DEVICE);
   ("--request", Some (request c)); ("--max-time", Some (format_6g (timeout c)))]
  ++ map (fun v => ("--connect-timeout", Some v)) (map format_6g (opt_list (connect_timeout c)))
  ++ map (fun o => (o, None)) (if insecure c then ["--insecure"] else [])
  ++ map (fun v => ("--cacert", Some v)) (opt_list (cacert c)) ++ map (fun v => ("--resolve", Some v)) (resolve c)
  ++ map (fun v => ("--header", Some v)) (headers c)
  ++ map (fun v => ("--header", Some v)) (map correlation_header (opt_list (transport_case_id c)))
  ++ map (fun v => ("--data-binary", Some v)) (map (fun f => "@" +:+ f) (opt_list (data_file c)))
  ++ [(protocol_flag protocol, None); ("--write-out", Some writeout); (url c, None)].
Proof.
  intros Hp. assert (Hf : str_in (protocol_flag protocol) VALUE_OPTIONS = false).
  { by repeat (destruct Hp as [<-|Hp]; [vm_compute; reflexivity|]). }
  unfold curl_command. cbn [app List.tl]. rewrite !read_lone by reflexivity.
  change (?x :: ?l) with ([x] ++ l).
  match goal with |- context [read_words ("--output" :: ?a :: "--request" :: ?b :: "--max-time" :: ?t :: ?rest)] =>
    change (read_words ("--output" :: a :: "--request" :: b :: "--max-time" :: t :: rest))
      with (("--output", Some a) :: ("--request", Some b) :: ("--max-time", Some t) :: read_words rest) end.
  rewrite read_pairs by reflexivity. cbn [app]. do 7 f_equal.
  assert (Hi : forall rest, read_words ((if insecure c then ["--insecure"] else []) ++ rest) =
    map (fun o => (o, None)) (if insecure c then ["--insecure"] else []) ++ read_words rest).
  { intros rest. destruct (insecure c); [|done]. cbn [app map]. by apply read_lone. }
  rewrite Hi, !read_pairs, read_lone by done. done.
Qed.

(** C11: the command forces its protocol and owns the correlation header: it is
    built only from a validated configuration and a ready preflight and never holds the
    fallback-capable [--http3].  As curl reads it, the words without a value are the fixed
    switches, the one flag of the protocol and, last, the url; the headers sent are the
    caller's followed by the one that correlates the request with the connector's event,
    exactly once for a configuration with a case identifier, which the protocols beyond
    HTTP/1 must have; no caller header is named like it. *)
Theorem command_forced `{Ip6Literal} c p command : build_curl_command c p = Ok command ->
  exists protocol scheme,
    _validate_config c = Ok (protocol, scheme) /\ In protocol CANONICAL_PROTOCOLS /\
    status p = "READY" /\ ~ In "--http3" command /\ List.hd_error command = Some (curl c) /\
    lone_words (read_words (List.tl command)) =
      ["--silent"; "--show-error"; "--fail-with-body"] ++ (if insecure c then ["--insecure"] else [])
      ++ [protocol_flag protocol; url c] /\
    values_given "--header" (read_words (List.tl command)) =
      headers c ++ map correlation_header (opt_list (transport_case_id c)) /\
    (In protocol MODERN -> exists t, transport_case_id c = Some t /\ bounded_token t = true) /\
    (forall t, owned (correlation_header t)) /\ forall h, In h (headers c) -> ~ owned h.
Proof.
  intros G. apply build_inv in G as (protocol & scheme & Hc & Hs & -> & Hn).
  pose proof (config_inv _ _ _ Hc) as (Hp & Hh & Ht & Hm). apply normalize_canonical in Hp.
  exists protocol, scheme. split; [done|]. split; [done|].
  split; [done|]. split; [intros Hin; apply str_in_In in Hin; congruence|]. split; [done|].
  rewrite command_read by done. split; [|split; [|split; [|split]]].
  - rewrite !lone_words_app, !lone_pairs. cbn [app]. by destruct (insecure c).
  - rewrite !values_given_app, !values_pairs. cbn [String.eqb Ascii.eqb Bool.eqb app].
    replace (values_given "--header" (map _ (if insecure c then _ else _))) with (@nil string) by (by destruct (insecure c)).
    replace (values_given "--header" [_; _; _]) with (@nil string); [by rewrite app_nil_r|].
    unfold values_given. cbn [map fst snd opt_list concat]. by destruct (String.eqb (protocol_flag _) _), (String.eqb (url c) _).
  - intros Hin. destruct (Hm Hin) as [t Et]. exists t. split; [done|]. by apply Ht.
  - exact correlation_owned.
  - intros h Hin (n & En & El). apply Hh in Hin. unfold _validate_header, guard in Hin.
    destruct (negb _ && _); [|done]. rewrite En, El in Hin. done.
Qed.

(** ** Redaction *)

(** Whether the value after [l] is redacted. *)
Fixpoint pending (redact_next : bool) (l : list string) : bool :=
  match l with
  | [] => redact_next
  | v :: r => pending (if redact_next then false else str_in v REDACTED_OPTIONS) r
  end.

Lemma redact_app `{Ip6Literal} url b l m :
  redact url b (l ++ m) =
  let* r := redact url b l in let* s := redact url (pending b l) m in Ok (r ++ s).
Proof.
  revert b; induction l as [|v l IH]; intros b; cbn [app redact pending].
  - by destruct (redact url b m).
  - destruct b; [|destruct (str_in v REDACTED_OPTIONS); [|destruct (String.eqb v url)]].
    4: rewrite IH; destruct (redact url false l); [|done]; by destruct (redact url _ m).
    3: destruct (_safe_url_for_command url); [|done].
    all: rewrite IH; destruct (redact url _ l); [|done]; by destruct (redact url _ m).
Qed.

Lemma pending_app b l m : pending b (l ++ m) = pending (pending b l) m.
Proof. revert b; induction l as [|v l IH]; intros b; [done|]. cbn [app pending]. by rewrite IH. Qed.

Lemma pending_snoc b l x : str_in x REDACTED_OPTIONS = false -> pending b (l ++ [x]) = false.
Proof. intros Hx. rewrite pending_app. cbn [pending]. by destruct (pending b l). Qed.

(** The secrets of redacted options do not reach the text. *)
Definition masked (option : string) (n : nat) : list string := option_pairs option (repeat "[redacted]" n).

Lemma redact_pairs `{Ip6Literal} url option values : str_in option REDACTED_OPTIONS = true ->
  redact url false (option_pairs option values) = Ok (masked option (List.length values)) /\
  pending false (option_pairs option values) = false.
Proof.
  intros Ho. unfold masked, option_pairs. induction values as [|v l [IH IHp]]; [done|].
  cbn [flat_map app List.length repeat redact pending]. by rewrite Ho, IH.
Qed.

Lemma redact_pairs_app `{Ip6Literal} url option values rest : str_in option REDACTED_OPTIONS = true ->
  redact url false (option_pairs option values ++ rest) =
  let* r := redact url false rest in Ok (masked option (List.length values) ++ r).
Proof.
  intros Ho. rewrite redact_app. destruct (redact_pairs url option values Ho) as [-> ->]. done.
Qed.

(** The public part of a command before its secrets. *)
Definition public_head (c : ClientConfig) : list string :=
  [curl c; "--silent"; "--show-error"; "--fail-with-body"; "--output"; NUL_DEVICE; "--request";
   request c; "--max-time"; format_6g (timeout c)]
  ++ option_pairs "--connect-timeout" (map format_6g (opt_list (connect_timeout c)))
  ++ (if insecure c then ["--insecure"] else []).

Lemma head_not_pending c : pending false (public_head c) = false.
Proof.
  unfold public_head.
  assert (Hs : forall b, pending b (if insecure c then ["--insecure"] else []) = b \/
                         pending b (if insecure c then ["--insecure"] else []) = false)
    by (intros []; destruct (insecure c); auto).
  rewrite !pending_app.
  assert (E : pending false [curl c; "--silent"; "--show-error"; "--fail-with-body"; "--output"; NUL_DEVICE;
                             "--request"; request c; "--max-time"; format_6g (timeout c)] = false).
  { apply (pending_snoc false [curl c; "--silent"; "--show-error"; "--fail-with-body"; "--output"; NUL_DEVICE;
                             "--request"; request c; "--max-time"]), format_no_option. }
  rewrite E. assert (F : pending false (option_pairs "--connect-timeout"
                      (map format_6g (opt_list (connect_timeout c)))) = false).
  { destruct (connect_timeout c) as [q|]; [|done]. cbn [opt_list map option_pairs flat_map app].
    apply (pending_snoc false ["--connect-timeout"]), format_no_option. }
  rewrite F. destruct (Hs false); done.
Qed.

Lemma command_parts c protocol writeout :
  curl_command c protocol writeout = public_head c
    ++ option_pairs "--cacert" (opt_list (cacert c)) ++ option_pairs "--resolve" (resolve c)
    ++ option_pairs "--header" (headers c)
    ++ option_pairs "--header" (map correlation_header (opt_list (transport_case_id c)))
    ++ option_pairs "--data-binary" (map (fun f => "@" +:+ f) (opt_list (data_file c)))
    ++ [protocol_flag protocol; "--write-out"; writeout; url c].
Proof. unfold curl_command, public_head. by rewrite <- !app_assoc. Qed.

(** Configurations that differ in their secrets only: header values, case
    identifier, the paths of body and certificates, resolver entries, and all
    that is not in the command. *)
Definition same_public (a b : ClientConfig) : Prop :=
  public_head a = public_head b /\ protocol a = protocol b /\ url a = url b /\
  List.length (opt_list (cacert a)) = List.length (opt_list (cacert b)) /\
  List.length (resolve a) = List.length (resolve b) /\
  List.length (headers a) = List.length (headers b) /\
  List.length (opt_list (transport_case_id a)) = List.length (opt_list (transport_case_id b)) /\
  List.length (opt_list (data_file a)) = List.length (opt_list (data_file b)).

Lemma redacted_form `{Ip6Literal} c protocol writeout :
  redact (url c) false (curl_command c protocol writeout) =
  let* h := redact (url c) false (public_head c) in
  let* t := redact (url c) false [protocol_flag protocol; "--write-out"; writeout; url c] in
  Ok (h ++ masked "--cacert" (List.length (opt_list (cacert c)))
        ++ masked "--resolve" (List.length (resolve c)) ++ masked "--header" (List.length (headers c))
        ++ masked "--header" (List.length (opt_list (transport_case_id c)))
        ++ masked "--data-binary" (List.length (opt_list (data_file c))) ++ t).
Proof.
  rewrite command_parts, redact_app, head_not_pending.
  rewrite !redact_pairs_app by reflexivity. rewrite !length_map.
  destruct (redact (url c) false (public_head c)); [|done].
  by destruct (redact (url c) false [protocol_flag protocol; "--write-out"; writeout; url c]).
Qed.

(** C12: the command text kept as evidence tells nothing about the secrets of the
    request: two commands whose configurations differ only in header values, case
    identifier, body and certificate paths and resolver entries have the same
    redacted text. *)
Theorem redaction_hides `{Ip6Literal} a b p command_a command_b :
  build_curl_command a p = Ok command_a -> build_curl_command b p = Ok command_b -> same_public a b ->
  _redacted_command command_a (url a) = _redacted_command command_b (url b).
Proof.
  intros Ha Hb (Ehead & Ep & Eu & E1 & E2 & E3 & E4 & E5).
  apply build_inv in Ha as (pa & sa & Hca & _ & -> & _). apply build_inv in Hb as (pb & sb & Hcb & _ & -> & _).
  apply config_inv in Hca as [Hpa _]. apply config_inv in Hcb as [Hpb _].
  assert (pa = pb) as -> by congruence.
  unfold _redacted_command. rewrite !redacted_form, Ehead, Eu, E1, E2, E3, E4, E5. done.
Qed.

(** ** Preflight *)

Lemma sort_In x l : In x (sort_strs l) <-> In x l.
Proof. apply isort_In. Qed.

(** Every option of the client is in lower case, every feature in upper case. *)
Lemma option_lower normalized config o :
  In o (_COMMON_CURL_OPTIONS ++ snd (_PROTOCOL_REQUIREMENTS normalized) ++
        match config with Some c => _optional_curl_options c | None => [] end) -> py_lower o = o.
Proof.
  assert (L : forall l, forallb (fun o => String.eqb (py_lower o) o) l = true -> In o l -> py_lower o = o).
  { intros l Hl Hin. rewrite forallb_forall in Hl. by apply String.eqb_eq, Hl. }
  intros Hin. apply in_app_or in Hin as [Hin|Hin]; [by eapply L; [|exact Hin]|].
  apply in_app_or in Hin as [Hin|Hin].
  - eapply L; [|exact Hin]. unfold _PROTOCOL_REQUIREMENTS. by repeat case_match.
  - destruct config as [c|]; [|done]. eapply L; [|exact Hin]. unfold _optional_curl_options.
    rewrite !forallb_app. by repeat case_match.
Qed.

Lemma feature_upper normalized f : In f (fst (_PROTOCOL_REQUIREMENTS normalized)) -> py_upper f = f.
Proof.
  unfold _PROTOCOL_REQUIREMENTS. repeat case_match; cbn [fst In]; intros Hin; [done|..];
    destruct Hin as [<-|[]]; done.
Qed.

(** What a list of requirements misses. *)
Lemma missing_iff (norm : string -> string) (have l : list string) x :
  (forall y, In y l -> norm y = y) ->
  In x (List.filter (fun y => negb (str_in (norm y) have)) l) <-> In x l /\ ~ In x have.
Proof.
  intros Hn. rewrite filter_In. split; intros [Hl Hx]; split; try done.
  - rewrite Hn in Hx by done. intros Hin. apply str_in_In in Hin. by rewrite Hin in Hx.
  - rewrite Hn by done. apply negb_true_iff. destruct (str_in x have) eqn:E; [|done].
    by apply str_in_In in E.
Qed.

Lemma missing_nil (norm : string -> string) (have l : list string) :
  (forall y, In y l -> norm y = y) ->
  List.filter (fun y => negb (str_in (norm y) have)) l = [] <-> forall y, In y l -> In y have.
Proof.
  intros Hn. split.
  - intros E y Hy. destruct (str_in y have) eqn:Ey; [by apply str_in_In|].
    assert (Hin : In y []); [|done]. rewrite <- E. apply missing_iff; [done|]. split; [done|].
    intros Hh. apply str_in_In in Hh. congruence.
  - intros Hall. destruct (List.filter _ l) as [|y r] eqn:E; [done|]. exfalso.
    assert (Hin : In y (y :: r)) by by left. rewrite <- E in Hin.
    apply missing_iff in Hin as [Hl Hh]; [|done]. by apply Hh, Hall.
Qed.

(** The preflight is ready exactly when curl was inspected and has every
    feature of the protocol, the flag that forces it, and every option the command
    of the configuration uses; what is missing is listed. *)
Theorem preflight_ready_iff protocol i config p : preflight_curl protocol i config = Ok p ->
  exists normalized, normalize_protocol protocol = Ok normalized /\
  (status p = "READY" <->
     inspection_error i = None /\
     (forall f, In f (fst (_PROTOCOL_REQUIREMENTS normalized)) -> In f (features i)) /\
     forall o, In o (_COMMON_CURL_OPTIONS ++ snd (_PROTOCOL_REQUIREMENTS normalized) ++
                     match config with Some c => _optional_curl_options c | None => [] end) ->
       In o (options i)) /\
  (inspection_error i = None ->
   (forall f, In f (missing_features p) <->
      In f (fst (_PROTOCOL_REQUIREMENTS normalized)) /\ ~ In f (features i)) /\
   forall o, In o (missing_options p) <->
      In o (required_options p) /\ ~ In o (options i)).
Proof.
  unfold preflight_curl. intros G. destruct (normalize_protocol protocol) as [n|] eqn:En; [|done].
  exists n. split; [done|].
  pose proof (option_lower n config) as Hlow. pose proof (feature_upper n) as Hup.
  destruct (_PROTOCOL_REQUIREMENTS n) as [fs os]. cbn [fst snd] in *. cbv zeta in G.
  set (opts := _COMMON_CURL_OPTIONS ++ os ++ match config with Some c => _optional_curl_options c | None => [] end) in *.
  assert (Hf : forall f, In f (sort_strs fs) -> py_upper f = f) by (intros f Hf; by apply Hup, sort_In).
  assert (Ho : forall o, In o (sort_strs (dedup String.eqb opts)) -> py_lower o = o).
  { intros o Ho. apply Hlow. rewrite sort_In, (dedup_In _ String.eqb_eq) in Ho. exact Ho. }
  pose proof (missing_nil py_upper (features i) _ Hf) as Nf.
  pose proof (missing_nil py_lower (options i) _ Ho) as No.
  pose proof (fun f => missing_iff py_upper (features i) _ f Hf) as Mf.
  pose proof (fun o => missing_iff py_lower (options i) _ o Ho) as Mo.
  destruct (inspection_error i) as [e|].
  { injection G as <-. cbn. split; [split; [done|by intros [? _]]|done]. }
  set (mf := List.filter (fun y => negb (str_in (py_upper y) (features i))) (sort_strs fs)) in *.
  set (mo := List.filter (fun y => negb (str_in (py_lower y) (options i)))
               (sort_strs (dedup String.eqb opts))) in *.
  assert (Sf : forall f, In f (sort_strs fs) <-> In f fs) by (intros; apply sort_In).
  assert (So : forall o, In o (sort_strs (dedup String.eqb opts)) <-> In o opts)
    by (intros; rewrite sort_In; apply (dedup_In _ String.eqb_eq)).
  assert (Hs : p = {| status := status p; reason := reason p; required_features := sort_strs fs;
                      required_options := sort_strs (dedup String.eqb opts); missing_features := mf;
                      missing_options := mo; writeout_mode := writeout_mode p |} /\
               (status p = "READY" <-> mf = [] /\ mo = [])).
  { clear -G. clearbody mf mo. destruct mf, mo; cbn beta iota in G; injection G as <-; split; try done; split; try done; by intros [? ?]. }
  destruct Hs as [Hp Hs]. rewrite Hp. cbn [required_options missing_features missing_options status].
  split; [|intros _; split; [intros f; by rewrite (Mf f), Sf|done]].
  rewrite Hs, Nf, No. split.
  - intros [H1 H2]. split; [done|]. split; intros x Hx; [by apply H1, Sf|by apply H2, So].
  - intros (_ & H1 & H2). split; intros x Hx; [by apply H1, Sf|by apply H2, So].
Qed.
