(* ===== verification/ProtocolTheorems.v ===== *)
(** * Theorems of the protocol client's verdict *)

From S2P Require Export ProtocolCommand.
From Stdlib Require Import QArith.
#[global] Open Scope Z_scope.

(** ** Dictionaries under update *)

(** The last value a list of items gives to a key. *)
Definition assigned (k : string) (items : list (string * pyval)) : option pyval :=
  fold_left (fun acc p => if String.eqb (fst p) k then Some (snd p) else acc) items None.

Lemma find_update k items d :
  dict_find k (dict_update d items) =
  match assigned k items with Some v => Some v | None => dict_find k d end.
Proof.
  assert (G : forall items d acc, (acc = None \/ exists v, acc = Some v /\ dict_find k d = Some v) ->
    dict_find k (dict_update d items) =
    match fold_left (fun acc p => if String.eqb (fst p) k then Some (snd p) else acc) items acc with
    | Some v => Some v | None => dict_find k d end).
  { clear items d. induction items as [|[k' v] items IH]; intros d acc Ha; cbn [fold_left].
    - by destruct Ha as [->|(v & -> & E)].
    - change (dict_update d ((k', v) :: items)) with (dict_update (dict_set k' v d) items). cbn [fst snd].
      destruct (String.eqb k' k) eqn:E.
      + rewrite (IH _ (Some v)); [|right; exists v; by rewrite dict_find_set, E].
        assert (N : forall l, fold_left (fun acc p => if String.eqb (fst p) k then Some (snd p) else acc)
                      l (Some v) <> @None pyval).
        { clear. intros l. generalize v. induction l as [|[k2 w] l IH]; intros v0; [done|]. cbn [fold_left fst snd].
          destruct (String.eqb k2 k); apply IH. }
        specialize (N items). by destruct (fold_left _ items (Some v)).
      + rewrite (IH _ acc); [|by rewrite dict_find_set, E]. by rewrite dict_find_set, E. }
  apply G. by left.
Qed.

Lemma get_update k items d :
  dict_get k (dict_update d items) =
  match assigned k items with Some v => v | None => dict_get k d end.
Proof. unfold dict_get, dict_get_or. rewrite find_update. by destruct (assigned k items). Qed.

Lemma get_set k k' v d : dict_get k (dict_set k' v d) = if String.eqb k' k then v else dict_get k d.
Proof. unfold dict_get, dict_get_or. rewrite dict_find_set. by destruct (String.eqb k' k). Qed.

Lemma assigned_absent k items : Forall (fun p => fst p <> k) items -> assigned k items = None.
Proof.
  unfold assigned. intros H. generalize (@None pyval). induction H as [|[k' v] l Hk _ IH]; intros acc; [done|].
  cbn [fold_left fst snd] in *. destruct (String.eqb_spec k' k); [done|apply IH].
Qed.

Lemma get_pop k k' d : String.eqb k' k = false -> dict_get k (dict_pop k' d) = dict_get k d.
Proof.
  intros H. unfold dict_get, dict_get_or. f_equal.
  assert (E : dict_find k (dict_pop k' d) = dict_find k d); [|by rewrite E].
  induction d as [|[c w] d IH]; [done|]. unfold dict_pop in *. cbn [List.filter fst].
  destruct (eq_str c k') eqn:Ec; cbn [negb dict_find].
  - rewrite IH. apply eq_str_true in Ec as ->. cbn [eq_str]. by rewrite H.
  - by rewrite IH.
Qed.

Lemma eq_int_int z w : eq_int (PInt z) w = (z =? w).
Proof. unfold eq_int, Qeq_bool. cbn. by rewrite !Z.mul_1_r. Qed.

(** ** The verdict *)

(** What strict protocol evidence is, for a protocol requested over a scheme. *)
Record evidence (protocol scheme : string) (o : pydict) : Prop := {
  ev_requested : dict_get "requested_protocol" o = PStr protocol;
  ev_negotiated : dict_get "negotiated_protocol" o = PStr protocol;
  ev_fallback : dict_get "fallback_used" o = PBool false;
  ev_transport : dict_get "transport" o = PStr (_expected_transport protocol scheme);
  ev_stream : In protocol MODERN -> exists n, 0 <= n /\ dict_get "stream_id" o = PInt n;
  ev_h2 : protocol = "h2" -> dict_get "alpn" o = PStr "h2";
  ev_h3 : protocol = "h3" -> dict_get "alpn" o = PStr "h3" /\
            dict_get "quic_udp_observed" o = PBool true /\
            dict_get "quic_connection_id_present" o = PBool true }.

Lemma no_alpn_gap o expected : _append_alpn_evidence_gap o expected = ([], []) ->
  dict_get "alpn" o = PStr expected.
Proof.
  unfold _append_alpn_evidence_gap. destruct (is_none _); [done|].
  destruct (eq_str _ _) eqn:E; [|done]. intros _. by apply eq_str_true.
Qed.

Lemma no_stream_gap o s : hashable (PStr s) = true ->
  _append_stream_evidence_gaps o (PStr s) = Ok ([], []) -> In s MODERN ->
  exists n, 0 <= n /\ dict_get "stream_id" o = PInt n.
Proof.
  unfold _append_stream_evidence_gaps. intros _ H Hm. apply str_in_In in Hm. cbn [in_str_set hashable in_strs] in H.
  rewrite Hm in H. cbv zeta in H. destruct (is_none _) eqn:En; [done|].
  destruct (_has_invalid_stream_id (dict_get "stream_id" o)) eqn:E; [done|].
  destruct (dict_get "stream_id" o) as [| |n| | | |]; try done. exists n. split; [|done].
  apply Z.ltb_ge in E. done.
Qed.

Lemma no_transport_gap o expected : _append_transport_evidence_gaps o (PStr expected) = ([], []) ->
  (exists t, dict_get "transport" o = opt_str_val t) -> dict_get "transport" o = PStr expected.
Proof.
  unfold _append_transport_evidence_gaps. intros H [[t|] E]; rewrite E in H |- *; [|done].
  cbn in H |- *. destruct (String.eqb t expected) eqn:Et; [|done]. apply String.eqb_eq in Et. congruence.
Qed.

Lemma join_nil a b : join_gaps a b = ([], []) -> a = ([], []) /\ b = ([], []).
Proof.
  destruct a as [a1 a2], b as [b1 b2]. unfold join_gaps. cbn [fst snd]. intros H.
  injection H as H1 H2. apply app_eq_nil in H1 as [-> ->]. by apply app_eq_nil in H2 as [-> ->].
Qed.

(** An observation without gaps is evidence. *)
Lemma no_gaps_evidence o protocol scheme : _evidence_gaps o = Ok ([], []) ->
  dict_get "requested_protocol" o = PStr protocol -> dict_get "negotiated_protocol" o = PStr protocol ->
  dict_get "fallback_used" o = PBool false ->
  dict_get "expected_transport" o = PStr (_expected_transport protocol scheme) ->
  (exists t, dict_get "transport" o = opt_str_val t) -> evidence protocol scheme o.
Proof.
  intros H Hr Hn Hf He Ht. unfold _evidence_gaps in H. rewrite Hr, Hn in H. cbv zeta in H.
  cbn [py_eq] in H. rewrite String.eqb_refl in H. cbn [negb] in H.
  unfold _observation_expected_transport in H. rewrite He in H. cbn [is_none negb] in H.
  destruct (_append_stream_evidence_gaps o (PStr protocol)) as [g|] eqn:Es; [|done].
  apply Ok_inj in H.
  apply join_nil in H as [H1 H]. apply join_nil in H as [-> H2].
  constructor; try done.
  - by apply no_transport_gap.
  - by apply no_stream_gap.
  - intros ->. by apply no_alpn_gap.
  - intros ->. change (join_gaps (_append_alpn_evidence_gap o "h3") (_append_h3_evidence_gaps o, []) = ([], [])) in H2.
    apply join_nil in H2 as [H2 H3]. injection H3 as H3. split; [by apply no_alpn_gap|].
    unfold _append_h3_evidence_gaps in H3. apply app_eq_nil in H3 as [H3 H4].
    split; apply is_true_eq; apply not_false_is_true; intros E; [rewrite E in H3|rewrite E in H4]; discriminate.
Qed.

(** ** The final status *)

Lemma finalize_pass o requested o' : _finalize_status o requested = Ok o' ->
  dict_get "status" o' = PStr "PASS" ->
  o' = set_status o "PASS" [] /\ dict_get "negotiated_protocol" o = PStr requested /\
  existsb (eq_int (dict_get "curl_exit_code" o)) [0; 22] = true /\
  dict_get "fallback_used" o = PBool false /\ _evidence_gaps o = Ok ([], []) /\
  validate_protocol_observation o true = Ok [].
Proof.
  unfold _finalize_status. intros H Hs.
  destruct (is_true (dict_get "fallback_used" o)).
  { injection H as <-. unfold set_status in Hs. by rewrite get_update in Hs. }
  destruct (eq_str (dict_get "negotiated_protocol" o) requested) eqn:En; cbn [negb] in H.
  2:{ destruct (in_str_set _ _) as [b|]; [|done]. injection H as <-. unfold set_status in Hs.
      rewrite get_update in Hs. by destruct b. }
  apply eq_str_true in En. unfold in_int_set in H. destruct (hashable _); [|done].
  destruct (existsb _ _) eqn:Ec; cbn [negb] in H.
  2:{ injection H as <-. unfold set_status in Hs. by rewrite get_update in Hs. }
  destruct (_evidence_gaps o) as [[missing contradictory]|] eqn:Eg; [|done].
  destruct contradictory as [|x l].
  2:{ injection H as <-. unfold set_status in Hs. by rewrite get_update in Hs. }
  destruct missing as [|x l].
  2:{ injection H as <-. unfold set_status in Hs. by rewrite get_update in Hs. }
  destruct (validate_protocol_observation o true) as [[|x l]|] eqn:Ev; [| |done].
  2:{ injection H as <-. unfold set_status in Hs. by rewrite get_update in Hs. }
  injection H as <-. split; [done|]. split; [done|]. split; [done|]. split; [|done].
  unfold validate_protocol_observation in Ev.
  destruct (_validate_observation_protocol_fields o) as [e1|]; [|done].
  destruct (_validate_observation_connection_fields o) as [e2|]; [|done].
  unfold _validate_pass_evidence in Ev. rewrite Eg in Ev. apply Ok_inj in Ev.
  apply app_eq_nil in Ev as [_ Ev]. apply app_eq_nil in Ev as [_ Ev]. apply app_eq_nil in Ev as [_ Ev].
  apply app_eq_nil in Ev as [_ Ev]. apply app_eq_nil in Ev as [Ev _].
  apply is_false_eq. apply not_false_is_true. intros E. by rewrite E in Ev.
Qed.

(** The keys provenance may add. *)
Definition PROVENANCE_KEYS : list string :=
  ["connector"; "integration_mode"; "run_id"; "transaction_id"; "rule_id"; "phase"; "transport_case_id";
   "target_authority_sha256"; "upstream_protocol"; "stream_id"] ++ COPIED_SIDECAR_FIELDS.

Definition keyed (keys : list string) (l : list (string * pyval)) : Prop :=
  Forall (fun p => In (fst p) keys) l.

Lemma keyed_app keys l m : keyed keys (l ++ m) <-> keyed keys l /\ keyed keys m.
Proof. apply List.Forall_app. Qed.

Lemma keyed_concat keys ls : Forall (keyed keys) ls -> keyed keys (concat ls).
Proof. induction 1; [constructor|]. cbn [concat]. by apply keyed_app. Qed.

Lemma keyed_field {A} keys name (f : A -> pyval) o : In name keys -> keyed keys (field name f o).
Proof. intros H. destruct o; [|constructor]. by constructor; [|constructor]. Qed.

Lemma text_fields_keyed c l : text_fields c = Ok l -> keyed PROVENANCE_KEYS l.
Proof.
  unfold text_fields. intros H. destruct (mapM _ _) as [ls|] eqn:E; [|done]. injection H as <-.
  apply mapM_Ok_Forall2 in E.
  assert (G : Forall (keyed PROVENANCE_KEYS) ls).
  { assert (N : Forall (fun p => In (fst p) PROVENANCE_KEYS) (_PROVENANCE_TEXT_FIELDS c)).
    { unfold _PROVENANCE_TEXT_FIELDS. repeat (apply List.Forall_cons; [apply str_in_In; reflexivity|]).
      apply List.Forall_nil. }
    revert N. induction E as [|[name v] y lx ly Hxy _ IH]; intros N; [constructor|].
    inversion N as [|? ? N1 N2]; subst. constructor; [|by apply IH]. cbn beta iota in Hxy.
    destruct (_validate_text_argument v name) as [t|]; [|done]. injection Hxy as <-. by apply keyed_field. }
  by apply keyed_concat.
Qed.

Section Client.
Context `{Ip6Literal}.
Variable sha256 : string -> string.

Lemma provenance_keyed c sidecar l : _provenance sha256 c sidecar = Ok l -> keyed PROVENANCE_KEYS l.
Proof.
  unfold _provenance. intros G. destruct (text_fields c) as [ts|] eqn:Et; [|done].
  apply text_fields_keyed in Et.
  destruct (match transport_case_id c with Some t => _ | None => _ end); [|done].
  destruct (match upstream_protocol c with Some u => _ | None => _ end) as [up|]; [|done].
  destruct (provenance_stream c sidecar) as [s|]; [|done].
  apply Ok_inj in G as <-.
  assert (K : forall name, str_in name PROVENANCE_KEYS = true -> In name PROVENANCE_KEYS)
    by (intros name; apply str_in_In).
  apply keyed_app. split; [done|].
  do 3 (apply keyed_app; split; [apply keyed_field, K; reflexivity|]). apply keyed_app. split.
  - destruct (is_none s); [constructor|]. constructor; [apply K; reflexivity|constructor].
  - apply keyed_concat. apply List.Forall_forall. intros x Hx.
    apply in_map_iff in Hx as (name & <- & Hn). destruct (dict_find name sidecar); [|constructor].
    constructor; [|constructor]. apply in_or_app. by right.
Qed.

Lemma initial_get k protocol scheme c sidecar o :
  _initial_observation sha256 protocol scheme c sidecar = Ok o ->
  str_in k PROVENANCE_KEYS = false -> String.eqb "quic_udp_observed" k = false ->
  dict_get k o = dict_get k (mkdict
    ([("schema_version", PInt 1); ("status", PStr "NOT_EXECUTED"); ("requested_protocol", PStr protocol);
      ("downstream_protocol", PStr protocol); ("negotiated_protocol", PNone); ("transport", PNone);
      ("fallback_used", PBool false); ("http_status", PNone); ("downloaded_bytes", PNone);
      ("content_length_download", PNone); ("response_committed", PBool false);
      ("client_first_body_byte_visible", PBool false); ("response_complete", PBool false);
      ("curl_exit_code", PNone); ("transport_error", PStr "not_executed")]
     ++ field "expected_transport" (fun s => PStr (_expected_transport protocol s)) scheme)).
Proof.
  unfold _initial_observation. intros G Hk Hq. destruct (_provenance _ _ _) as [l|] eqn:Ep; [|done].
  apply provenance_keyed in Ep. injection G as <-.
  assert (N : assigned k l = None).
  { apply assigned_absent. eapply Forall_impl; [exact Ep|]. intros p Hp <-. apply str_in_In in Hp. congruence. }
  destruct (String.eqb protocol "h3"); rewrite ?get_set, ?Hq, get_update, N; reflexivity.
Qed.

Lemma initial_facts protocol scheme c sidecar o :
  _initial_observation sha256 protocol (Some scheme) c sidecar = Ok o ->
  dict_get "requested_protocol" o = PStr protocol /\ dict_get "fallback_used" o = PBool false /\
  dict_get "status" o = PStr "NOT_EXECUTED" /\
  dict_get "expected_transport" o = PStr (_expected_transport protocol scheme).
Proof.
  intros G. repeat split; by rewrite (initial_get _ _ _ _ _ _ G).
Qed.

Lemma apply_facts o out rc err requested scheme c sidecar :
  let o' := _apply_outcome o out rc err requested scheme c sidecar in
  let n := _negotiated_protocol (http_version out) requested scheme in
  dict_get "requested_protocol" o' = dict_get "requested_protocol" o /\
  dict_get "expected_transport" o' = dict_get "expected_transport" o /\
  dict_get "negotiated_protocol" o' = opt_str_val n /\ dict_get "curl_exit_code" o' = PInt rc /\
  dict_get "fallback_used" o' = PBool (match n with Some p => negb (String.eqb p requested) | None => false end) /\
  dict_get "transport" o' =
    opt_str_val (_derive_transport n requested scheme sidecar (quic_udp_observed c)) /\
  dict_get "http_status" o' = opt_val PInt (http_status out).
Proof. unfold _apply_outcome. cbv zeta. repeat split; by rewrite get_update. Qed.

Lemma negotiated_str n p : opt_str_val n = PStr p -> n = Some p.
Proof. destruct n; [|done]. by intros [= ->]. Qed.

Lemma config_scheme c protocol scheme : _validate_config c = Ok (protocol, scheme) ->
  In scheme ["http"; "https"].
Proof.
  unfold _validate_config. intros G.
  destruct (normalize_protocol (Protocol.protocol c)) as [p|]; [|done].
  destruct (_validate_timeouts c); [|done]. destruct (_validate_request _); [|done].
  destruct (_validate_url _ _) as [s|] eqn:Eu; [|done].
  assert (s = scheme) as ->.
  { repeat match type of G with (match ?x with _ => _ end) = _ => destruct x; [|done] end. by injection G. }
  unfold _validate_url in Eu. destruct (urlsplit (url c)) as [u|]; [|done]. unfold guard in Eu.
  destruct (str_in (Url.scheme u) _ && _) eqn:Es; [|done]. apply andb_true_iff in Es as [Es _].
  destruct (single_line _); [|done]. destruct (String.eqb (fragment u) ""); [|done].
  destruct (port u); [|done]. destruct (_validate_protocol_url_scheme _ _); [|done]. injection Eu as <-.
  by apply str_in_In.
Qed.

(** ** Runs *)

Lemma blocked_status c protocol scheme sidecar st why p r :
  blocked_result p (_blocked_observation sha256 c protocol scheme sidecar st why) = Ok r ->
  dict_get "status" (observation r) = PStr st.
Proof.
  unfold blocked_result, _blocked_observation. intros G.
  destruct (_initial_observation _ _ _ _ _) as [o|]; [|done]. apply Ok_inj in G as <-. cbn [observation].
  rewrite get_update. by destruct (String.eqb st "BLOCKED").
Qed.

(** A run that is not blocked executes the command of a validated configuration. *)
Lemma run_inv c i read run r : run_protocol_client sha256 c i read run = Ok r ->
  (In (dict_get "status" (observation r)) [PStr "NOT_EXECUTED"; PStr "BLOCKED"] /\ command r = []) \/
  exists protocol scheme sidecar p o,
    _validate_config c = Ok (protocol, scheme) /\ _load_config_sidecar c read = Ok (sidecar, None) /\
    (p = ran_preflight r /\ preflight_curl protocol i (Some c) = Ok p /\ status p = "READY") /\
    build_curl_command c p = Ok (command r) /\
    _execute_primary_observation sha256 c (run (command r)) protocol (Some scheme) sidecar = Ok o /\
    observation r = dict_pop "expected_transport" o /\
    _run_followup_observation sha256 c i run = Ok (followup r).
Proof.
  unfold run_protocol_client, _validated_config_or_default. intros G.
  assert (B : forall protocol scheme sidecar st why p,
    blocked_result p (_blocked_observation sha256 c protocol scheme sidecar st why) = Ok r ->
    In st ["NOT_EXECUTED"; "BLOCKED"] ->
    In (dict_get "status" (observation r)) [PStr "NOT_EXECUTED"; PStr "BLOCKED"] /\ command r = []).
  { intros protocol scheme sidecar st why p Hb Hst. rewrite (blocked_status _ _ _ _ _ _ _ _ Hb).
    split; [destruct Hst as [<-|[<-|[]]]; [by left|right; by left]|].
    unfold blocked_result in Hb. destruct (_blocked_observation _ _ _ _ _ _ _); [|done].
    injection Hb as <-. reflexivity. }
  destruct (_validate_config c) as [[protocol scheme]|e].
  2:{ left. destruct e; try done.
      destruct (caught (normalize_protocol _) _) as [pr|]; [|done].
      destruct (_load_config_sidecar c read) as [[sidecar se]|]; [|done].
      destruct (preflight_curl _ _ _) as [p|]; [|done]. eapply B; [exact G|by left]. }
  destruct (_load_config_sidecar c read) as [[sidecar se]|]; [|done].
  destruct (preflight_curl _ _ _) as [p|] eqn:Ep; [|done]. cbv zeta in G.
  destruct (String.eqb_spec (status p) "READY") as [Es|_]; cbn [negb] in G; [|left; eapply B; [exact G|right; by left]].
  destruct se; [left; eapply B; [exact G|by left]|].
  destruct (build_curl_command c p) as [cmd|e] eqn:Eb.
  2:{ destruct e; try done. left. eapply B; [exact G|by left]. }
  destruct (_execute_primary_observation _ _ _ _ _ _) as [o|] eqn:Eo; [|done].
  destruct (_run_followup_observation sha256 c i run) as [f|] eqn:Ef; [|done].
  apply Ok_inj in G as <-. right. by exists protocol, scheme, sidecar, p, o.
Qed.

(** The scheme the execution falls back on is the validated one. *)
Lemma execution_scheme scheme : In scheme ["http"; "https"] ->
  (if String.eqb scheme "" then "http" else scheme) = scheme.
Proof. by intros [<-|[<-|[]]]. Qed.

(** A run that exits with success. *)
Lemma passing_run c i read run r :
  run_protocol_client sha256 c i read run = Ok r -> exit_code r = 0 ->
  exists protocol scheme sidecar returncode stderr out o0,
    _validate_config c = Ok (protocol, scheme) /\ _load_config_sidecar c read = Ok (sidecar, None) /\
    preflight_curl protocol i (Some c) = Ok (ran_preflight r) /\ status (ran_preflight r) = "READY" /\
    build_curl_command c (ran_preflight r) = Ok (command r) /\
    run (command r) = Completed returncode stderr out /\ In returncode [0; 22] /\
    _negotiated_protocol (http_version out) protocol scheme = Some protocol /\
    _initial_observation sha256 protocol (Some scheme) c sidecar = Ok o0 /\
    (let o1 := _apply_outcome o0 out returncode stderr protocol scheme c sidecar in
     observation r = dict_pop "expected_transport" (set_status o1 "PASS" []) /\
     validate_protocol_observation o1 true = Ok []) /\
    evidence protocol scheme (observation r) /\
    _run_followup_observation sha256 c i run = Ok (followup r).
Proof.
  intros G Hx. unfold exit_code in Hx.
  destruct (eq_str (dict_get "status" (observation r)) "PASS") eqn:Es; [|done]. apply eq_str_true in Es.
  apply run_inv in G as [[Hst _]|(protocol & scheme & sidecar & p & o & Hc & Hsc & (-> & Hpf & Hrd) & Hb & Ho & Er & Hfu)].
  { rewrite Es in Hst. by destruct Hst as [Hst|[Hst|[]]]. }
  pose proof (config_scheme _ _ _ Hc) as Hscheme.
  unfold _execute_primary_observation in Ho.
  destruct (_initial_observation _ _ _ _ _) as [o0|] eqn:E0; [|done].
  rewrite Er, get_pop in Es by reflexivity.
  destruct (run (command r)) as [rc err out| |] eqn:Erun.
  2, 3: apply Ok_inj in Ho as <-; by rewrite get_update in Es.
  rewrite (execution_scheme _ Hscheme) in Ho.
  destruct (initial_facts _ _ _ _ _ E0) as (F1 & _ & _ & F4).
  pose proof (apply_facts o0 out rc err protocol scheme c sidecar) as A. cbv zeta in A.
  set (o1 := _apply_outcome o0 out rc err protocol scheme c sidecar) in *.
  destruct A as (A1 & A2 & A3 & A4 & A5 & A6 & _).
  apply finalize_pass in Ho as (-> & Hn & Hcode & Hf & Hg & Hv); [|done].
  rewrite A3 in Hn. apply negotiated_str in Hn.
  assert (Hrc : In rc [0; 22]).
  { rewrite A4 in Hcode. cbn [existsb] in Hcode. rewrite !eq_int_int, orb_false_r, orb_true_iff, !Z.eqb_eq in Hcode.
    destruct Hcode as [->| ->]; [by left|right; by left]. }
  exists protocol, scheme, sidecar, rc, err, out, o0. do 9 (split; [done|]).
  split; [by split|]. split; [|done].
  assert (E : evidence protocol scheme o1).
  { apply no_gaps_evidence; [done|congruence|by rewrite A3, Hn|done|congruence|by eexists]. }
  assert (K : forall k, String.eqb "expected_transport" k = false -> String.eqb "status" k = false ->
    dict_get k (observation r) = dict_get k o1).
  { intros k H1 H2. rewrite Er, get_pop by done. unfold set_status. rewrite get_update. unfold assigned.
    cbn [fold_left fst snd]. by rewrite H2. }
  destruct E. constructor; rewrite ?K by reflexivity; try done.
Qed.

(** C13: the client exits with success only on strict evidence: the configuration
    was valid, the forced command was executed and completed, the protocol that
    was negotiated is the one requested, curl ended with 0 or 22, and the
    observation holds the expected transport, a stream of HTTP/2 and HTTP/3, the
    application protocol, and for HTTP/3 a separate observation of QUIC traffic;
    nothing that is missing, contradictory or fallen back passes. *)
Theorem exit_zero_evidence c i read run r :
  run_protocol_client sha256 c i read run = Ok r -> exit_code r = 0 ->
  exists protocol scheme p returncode stderr out,
    _validate_config c = Ok (protocol, scheme) /\ build_curl_command c p = Ok (command r) /\
    run (command r) = Completed returncode stderr out /\ In returncode [0; 22] /\
    _negotiated_protocol (http_version out) protocol scheme = Some protocol /\
    evidence protocol scheme (observation r).
Proof.
  intros G Hx. destruct (passing_run c i read run r G Hx)
    as (protocol & scheme & sidecar & rc & err & out & o0 & H1 & _ & _ & _ & H2 & H3 & H4 & H5 & _ & _ & H6 & _).
  by exists protocol, scheme, (ran_preflight r), rc, err, out.
Qed.

(** A request that was answered in another protocol than the forced one fails,
    whatever else was observed. *)
Theorem fallback_fails c i read run r protocol scheme returncode stderr out n :
  run_protocol_client sha256 c i read run = Ok r -> command r <> [] ->
  _validate_config c = Ok (protocol, scheme) -> run (command r) = Completed returncode stderr out ->
  _negotiated_protocol (http_version out) protocol scheme = Some n -> n <> protocol ->
  dict_get "status" (observation r) = PStr "FAIL" /\
  dict_get "reason" (observation r) = PStr "protocol_fallback_observed" /\
  dict_get "fallback_used" (observation r) = PBool true /\ exit_code r = 1.
Proof.
  intros G Hne Hc Hrun Hn Hnp.
  apply run_inv in G as [[_ G]|(protocol' & scheme' & sidecar & p & o & Hc' & _ & _ & Hb & Ho & Er & _)]; [done|].
  rewrite Hc in Hc'. injection Hc' as <- <-.
  pose proof (config_scheme _ _ _ Hc) as Hscheme.
  unfold _execute_primary_observation in Ho.
  destruct (_initial_observation _ _ _ _ _) as [o0|] eqn:E0; [|done]. rewrite Hrun in Ho.
  rewrite (execution_scheme _ Hscheme) in Ho.
  pose proof (apply_facts o0 out returncode stderr protocol scheme c sidecar) as A. cbv zeta in A.
  set (o1 := _apply_outcome o0 out returncode stderr protocol scheme c sidecar) in *.
  destruct A as (_ & _ & _ & _ & A5 & _). rewrite Hn in A5.
  destruct (String.eqb_spec n protocol) as [|Hneq]; [done|]. cbn [negb] in A5.
  unfold _finalize_status in Ho. rewrite A5 in Ho. cbn [is_true] in Ho. apply Ok_inj in Ho as <-.
  unfold exit_code. rewrite Er, !get_pop by reflexivity. unfold set_status. rewrite !get_update.
  cbn. done.
Qed.
End Client.

(** * Theorems of the sidecar and of the follow-up request *)

(** ** The sidecar *)

(** The values a sidecar field may have. *)
Definition sidecar_value (key : string) (v : pyval) : bool :=
  if String.eqb key "stream_id" then negb (_has_invalid_stream_id v)
  else if str_in key _SIDECAR_BOOLEAN_KEYS then is_bool v
  else if String.eqb key "quic_version" then negb (_has_invalid_bounded_token v)
  else if String.eqb key "alpn" then in_strs v ["h2"; "h3"]
  else match v with PInt z => 0 <=? z | PStr s => bounded_token s | _ => false end.

(** The fields in [keys] were copied and are well typed, no other was. *)
Definition copied (loaded : pydict) (keys : list string) (r : pydict) : Prop :=
  forall k, dict_find k r = (if str_in k keys then dict_find k loaded else None) /\
            forall v, dict_find k r = Some v -> sidecar_value k v = true.

Lemma guard_Ok b e : guard b e = Ok tt -> b = true.
Proof. by destruct b. Qed.

Lemma copy_field_copied key check loaded keys r r' :
  copy_field key check loaded r = Ok r' -> copied loaded keys r ->
  (forall v, check v = Ok tt -> sidecar_value key v = true) -> str_in key keys = false ->
  copied loaded (key :: keys) r'.
Proof.
  unfold copy_field. intros H Hr Hc Hk k. destruct (Hr k) as [H1 H2].
  destruct (dict_find key loaded) as [v|] eqn:El.
  - destruct (check v) as [[]|] eqn:Ec; [|done]. injection H as <-. rewrite dict_find_set.
    cbn [str_in existsb]. destruct (String.eqb_spec k key) as [->|Hne].
    + rewrite String.eqb_refl. cbn [orb]. split; [done|]. intros w E. injection E as <-. by apply Hc.
    + destruct (String.eqb_spec key k) as [->|]; [done|]. exact (conj H1 H2).
  - injection H as <-. split; [|done]. cbn [str_in existsb].
    destruct (String.eqb_spec k key) as [->|Hne]; [|exact H1].
    rewrite H1, Hk, El. done.
Qed.

Lemma copied_nil loaded : copied loaded [] [].
Proof. by intros k. Qed.

Lemma sidecar_load loaded s : _load_observation_sidecar loaded = Ok s ->
  (forall k, dict_find k s = dict_find k loaded) /\
  (forall k v, dict_find k s = Some v -> In k _SIDECAR_KEYS /\ sidecar_value k v = true) /\
  (forall k, In k _RAW_CONNECTION_ID_KEYS -> dict_has k loaded = false).
Proof.
  unfold _load_observation_sidecar, _validate_observation_sidecar_keys. intros H.
  destruct (guard (negb (existsb _ _)) _) as [[]|] eqn:Eraw; [|done]. apply guard_Ok in Eraw.
  destruct (guard (keys_within _ _) _) as [[]|] eqn:Ekeys; [|done]. apply guard_Ok in Ekeys.
  destruct (_copy_sidecar_stream_id loaded []) as [r1|] eqn:E1; [|done].
  destruct (_copy_sidecar_booleans loaded r1) as [r2|] eqn:E2; [|done].
  destruct (_copy_sidecar_quic_version loaded r2) as [r3|] eqn:E3; [|done].
  destruct (_copy_sidecar_alpn loaded r3) as [r4|] eqn:E4; [|done].
  assert (C1 : copied loaded ["stream_id"] r1).
  { eapply copy_field_copied; [exact E1|apply copied_nil| |done]. intros v Hv. by apply guard_Ok in Hv. }
  assert (C2 : copied loaded (rev _SIDECAR_BOOLEAN_KEYS ++ ["stream_id"]) r2).
  { unfold _copy_sidecar_booleans, _SIDECAR_BOOLEAN_KEYS in E2. cbn [foldM] in E2.
    repeat match type of E2 with (match ?x with _ => _ end) = _ => destruct x eqn:?; [|done] end.
    injection E2 as <-. cbn [rev app _SIDECAR_BOOLEAN_KEYS].
    do 4 (eapply copy_field_copied; [eassumption| |intros v Hv; by apply guard_Ok in Hv|done]). done. }
  assert (C3 : copied loaded ("quic_version" :: rev _SIDECAR_BOOLEAN_KEYS ++ ["stream_id"]) r3).
  { eapply copy_field_copied; [exact E3|done| |done]. intros v Hv. by apply guard_Ok in Hv. }
  assert (C4 : copied loaded ("alpn" :: "quic_version" :: rev _SIDECAR_BOOLEAN_KEYS ++ ["stream_id"]) r4).
  { eapply copy_field_copied; [exact E4|done| |done]. intros v Hv. unfold in_str_set in Hv.
    destruct (hashable v); [|done]. by apply guard_Ok in Hv. }
  assert (C5 : copied loaded ("stream_reset_code" :: "alpn" :: "quic_version" ::
                              rev _SIDECAR_BOOLEAN_KEYS ++ ["stream_id"]) s).
  { eapply copy_field_copied; [exact H|done| |done].
    intros v Hv. destruct v; try done; by apply guard_Ok in Hv. }
  assert (K : forall k v, dict_find k loaded = Some v -> In k _SIDECAR_KEYS).
  { intros k v Hk. unfold keys_within in Ekeys. rewrite forallb_forall in Ekeys.
    apply dict_find_In, Ekeys, in_strs_true in Hk as (k' & E & Hin). cbn [fst] in E. by injection E as ->. }
  assert (F : forall k, dict_find k s = dict_find k loaded).
  { intros k. destruct (C5 k) as [-> _]. destruct (str_in k _) eqn:Ek; [done|].
    destruct (dict_find k loaded) as [v|] eqn:El; [|done]. exfalso. apply K, str_in_In in El.
    revert Ek El. cbn [rev app _SIDECAR_BOOLEAN_KEYS str_in existsb _SIDECAR_KEYS].
    repeat match goal with |- context [String.eqb k ?x] => destruct (String.eqb k x) end; done. }
  split; [exact F|]. split.
  - intros k v Hk. split; [rewrite F in Hk; by eapply K|]. by apply (proj2 (C5 k)).
  - intros k Hk. apply negb_true_iff in Eraw. destruct (dict_has k loaded) eqn:E; [|done].
    assert (T : existsb (fun k => dict_has k loaded) _RAW_CONNECTION_ID_KEYS = true); [|congruence].
    apply existsb_exists. by exists k.
Qed.

(** What is kept of a sidecar is exactly what it says in the closed
    vocabulary: every field of a loaded sidecar is copied unchanged, each has the
    type of its field, a raw connection identifier is never kept, and a sidecar
    with any other field is refused. *)
Theorem sidecar_exact loaded s : _load_observation_sidecar loaded = Ok s ->
  (forall k, dict_find k s = dict_find k loaded) /\
  (forall k v, dict_find k s = Some v -> In k _SIDECAR_KEYS /\ sidecar_value k v = true) /\
  (forall k, In k _RAW_CONNECTION_ID_KEYS -> dict_has k loaded = false).
Proof. apply sidecar_load. Qed.

(** ** The follow-up request *)

Lemma bounded_token_spec s : bounded_token s = true <->
  exists c l, S2L s = c :: l /\ is_alnum c = true /\ forallb bounded_token_char l = true /\
              (List.length l <= 63)%nat.
Proof.
  unfold bounded_token, fullmatch_str. rewrite fullmatch_correct by reflexivity. split.
  - intros H. apply lang_cat_inv in H as (l1 & m & E & H1 & H2). inversion H1 as [|p c Hc| | | | |]; subst.
    apply rep_cls_lang in H2 as (Hf & _ & Hl); [|lia]. exists c, m. split; [done|]. split; [done|].
    split; [|done]. apply forallb_forall. by apply List.Forall_forall.
  - intros (c & l & -> & Hc & Hl & Hn). apply (L_cat _ _ [c] l); [by constructor|].
    apply rep_cls_lang; [lia|]. split; [|split; [lia|done]].
    apply List.Forall_forall. by apply forallb_forall.
Qed.

Section Followup.
Context `{Ip6Literal}.
Variable sha256 : string -> string.

(** [hexdigest] of SHA-256: 64 lower case hexadecimal digits. *)
Hypothesis sha256_hex : forall s, String.length (sha256 s) = 64%nat /\
  forallb is_hex_lower (S2L (sha256 s)) = true.

Lemma hex_token_char c : is_hex_lower c = true -> bounded_token_char c = true.
Proof.
  unfold is_hex_lower, bounded_token_char, is_alnum, is_lower, is_digit, between. intros E.
  apply orb_true_iff. left. lia.
Qed.

Lemma prefixed_token c p n s : is_alnum c = true -> forallb bounded_token_char (S2L p) = true ->
  (String.length p + n <= 63)%nat -> (n <= 64)%nat ->
  bounded_token (String c p +:+ prefix_of n (sha256 s)) = true.
Proof.
  intros Hc Hp Hn Hn64. apply bounded_token_spec. destruct (sha256_hex s) as [Hl Hh].
  exists c, (S2L p ++ take n (S2L (sha256 s))). split.
  { change (String c p) with (L2S (c :: S2L p)) || idtac. unfold prefix_of.
    rewrite S2L_app, S2L_L2S. reflexivity. }
  split; [done|]. split.
  - rewrite forallb_app, Hp. cbn [andb]. apply forallb_forall. intros x Hx. apply hex_token_char.
    rewrite forallb_forall in Hh. apply Hh. rewrite <- (take_drop n (S2L (sha256 s))).
    apply in_or_app. by left.
  - rewrite length_app, length_take, !S2L_length, Hl. lia.
Qed.

(** The follow-up request has a case identifier of its own: for every accepted
    identifier of the primary request the derived one is a bounded token and
    different from it, and an unacceptable identifier derives nothing. *)
Theorem followup_identifier primary :
  match derive_followup_transport_case_id sha256 (Some primary) with
  | Ok (Some derived) => bounded_token primary = true /\ bounded_token derived = true /\ derived <> primary
  | Ok None => False
  | Err e => bounded_token primary = false /\ e = ProtocolClientError _TRANSPORT_CASE_ID_ERROR
  end.
Proof.
  unfold derive_followup_transport_case_id. destruct (bounded_token primary) eqn:Eb; cbn [negb]; [|done].
  cbv zeta. split; [done|]. destruct (String.eqb_spec ("followup-" +:+ prefix_of 32
      (sha256 ("msconnector-followup:" +:+ primary))) primary) as [E|E].
  - split; [apply prefixed_token; [done|done|simpl; lia|lia]|].
    rewrite <- E at 2. intros Heq. apply (f_equal S2L) in Heq. rewrite !S2L_app in Heq. discriminate Heq.
  - split; [apply prefixed_token; [done|done|simpl; lia|lia]|done].
Qed.

Lemma get_filter k d keys : str_in k keys = true ->
  dict_get k (List.filter (fun kv => in_strs (fst kv) keys) d) = dict_get k d.
Proof.
  intros Hk. unfold dict_get, dict_get_or. assert (E : dict_find k (List.filter (fun kv => in_strs (fst kv) keys) d)
    = dict_find k d); [|by rewrite E].
  induction d as [|[c w] d IH]; [done|]. cbn [List.filter fst]. destruct (in_strs c keys) eqn:Ec; cbn [dict_find].
  - by rewrite IH.
  - rewrite IH. destruct (eq_str c k) eqn:E; [|done]. apply eq_str_true in E as ->. cbn [in_strs] in Ec. congruence.
Qed.

(** C14: a healthy follow-up is an independent request that was answered: a plain
    GET of the follow-up url, without headers, body, rule or stream of the primary
    request, over a validated configuration, executed with its own command, which
    ended with exit code 0, a status from 200 to 399, in the forced protocol. *)
Theorem followup_pass_sound c i run o :
  _run_followup_observation sha256 c i run = Ok (Some o) -> dict_get "status" o = PStr "PASS" ->
  exists f protocol scheme p command stderr out status,
    _validate_config f = Ok (protocol, scheme) /\ followup_url c = Some (url f) /\ request f = "GET" /\
    headers f = [] /\ data_file f = None /\ rule_id f = None /\ stream_id f = None /\
    build_curl_command f p = Ok command /\ run command = Completed 0 stderr out /\
    _negotiated_protocol (http_version out) protocol scheme = Some protocol /\
    http_status out = Some status /\ 200 <= status < 400.
Proof.
  unfold _run_followup_observation. intros G Hs. destruct (followup_url c) as [target|]; [|done].
  destruct (_followup_configuration _ c target _) as [f|] eqn:Ef; [|done].
  assert (B : forall st why rp, dict_get "status" (_followup_observation st why rp) = PStr st) by done.
  destruct (_validate_config f) as [[protocol scheme]|e] eqn:Ec.
  2:{ destruct e; try done. apply Ok_inj in G. injection G as <-. by rewrite B in Hs. }
  destruct (preflight_curl protocol i (Some f)) as [p|]; [|done].
  destruct (negb _). { apply Ok_inj in G. injection G as <-. by rewrite B in Hs. }
  destruct (build_curl_command f p) as [cmd|e] eqn:Eb.
  2:{ destruct e; try done. apply Ok_inj in G. injection G as <-. by rewrite B in Hs. }
  destruct (_execute_followup_observation _ f (run cmd) protocol scheme) as [o1|] eqn:Eo; [|done].
  assert (o = _followup_artifact_observation o1) as -> by congruence. clear G B.
  unfold _followup_artifact_observation in Hs. rewrite get_filter, get_pop in Hs by reflexivity.
  unfold _execute_followup_observation in Eo.
  destruct (_initial_observation _ _ _ _ _) as [o0|] eqn:E0; [|done]. apply Ok_inj in Eo as <-.
  destruct (run cmd) as [rc err out| |] eqn:Erun.
  2, 3: by rewrite get_update in Hs.
  unfold _finalize_followup_status in Hs. cbv zeta in Hs.
  pose proof (apply_facts o0 out rc err protocol scheme f []) as A. cbv zeta in A.
  set (o1 := _apply_outcome o0 out rc err protocol scheme f []) in *.
  destruct A as (_ & _ & A3 & _ & _ & _ & A7). rewrite get_update in Hs. unfold assigned in Hs.
  cbn [fold_left fst snd String.eqb Ascii.eqb Bool.eqb] in Hs.
  destruct (is_true (dict_get "fallback_used" o1)); [done|].
  destruct (eq_str (dict_get "negotiated_protocol" o1) protocol) eqn:En; cbn [negb] in Hs; [|done].
  destruct (healthy_status (dict_get "http_status" o1) && (rc =? 0)) eqn:Eh; [|done].
  apply andb_true_iff in Eh as [Eh Erc]. apply Z.eqb_eq in Erc as ->.
  apply eq_str_true in En. rewrite A3 in En. apply negotiated_str in En.
  rewrite A7 in Eh. destruct (http_status out) as [st|] eqn:Est; [|done].
  cbn [opt_val healthy_status int_value] in Eh.
  unfold _followup_configuration in Ef.
  destruct (derive_followup_transport_case_id sha256 _) as [t|]; [|done]. apply Ok_inj in Ef as <-.
  eexists _, protocol, scheme, p, cmd, err, out, st. split; [exact Ec|]. repeat (split; [done|]). lia.
Qed.
End Followup.
