(* ===== verification/ProtocolTotal.v ===== *)
(** * Theorems of the protocol client: totality

    Which configurations and sidecars let no exception leave the client. *)

From S2P Require Export ProtocolTheorems.
From Stdlib Require Import QArith.
#[global] Open Scope Z_scope.

(** ** Exceptions *)

Definition is_client_error (e : exn) : bool := match e with ProtocolClientError _ => true | _ => false end.

(** A run that raises nothing but [ProtocolClientError]. *)
Definition client_safe {A} (r : res A) : Prop := match r with Err e => is_client_error e = true | Ok _ => True end.

Lemma safe_bind {A B} (r : res A) (f : A -> res B) :
  client_safe r -> (forall a, r = Ok a -> client_safe (f a)) -> client_safe (match r with Ok a => f a | Err e => Err e end).
Proof. destruct r; [|done]. intros _ Hf. by apply Hf. Qed.

Lemma safe_guard b m : client_safe (guard b (ProtocolClientError m)).
Proof. by destruct b. Qed.

Lemma safe_normalize v : client_safe (normalize_protocol v).
Proof. unfold normalize_protocol. by destruct (str_in _ _). Qed.

Lemma safe_text v n : client_safe (_validate_text_argument v n).
Proof. unfold _validate_text_argument. destruct v; [|done]. by destruct (fullmatch_str _ _). Qed.

Create HintDb client.
#[export] Hint Resolve safe_guard safe_normalize safe_text : client.

Ltac safe :=
  repeat first
    [ exact I
    | reflexivity
    | solve [auto with client]
    | apply safe_bind; [|intros ? _]
    | match goal with |- client_safe (match ?x with _ => _ end) => destruct x eqn:? end ].

Lemma safe_forM {A} (f : A -> res unit) l : (forall x, client_safe (f x)) -> client_safe (forM f l).
Proof. intros Hf. induction l as [|x l IH]; [done|]. cbn [forM]. apply safe_bind; [apply Hf|done]. Qed.

(** Only [urlsplit] itself can raise anything else. *)
Lemma safe_config `{Ip6Literal} c u : urlsplit (url c) = Ok u -> client_safe (_validate_config c).
Proof.
  intros Hu. unfold _validate_config, _validate_timeouts, _validate_request, _validate_url, _validate_stream_id,
    _validate_provenance_text, _validate_transport_case_id, _validate_headers, _validate_protocol_url_scheme.
  rewrite Hu. safe; try apply safe_forM; intros; try (destruct x; safe); unfold _validate_header; safe.
Qed.

(** ** Observations whose values are hashable *)

(** The two sizes may be anything: no set is asked about them. *)
Definition SIZE_KEYS : list string := ["downloaded_bytes"; "content_length_download"].
Definition plain (k : string) (v : pyval) : bool := hashable v || str_in k SIZE_KEYS.
Definition flat (d : pydict) : Prop := forall k v, dict_find k d = Some v -> plain k v = true.

Lemma flat_get d k : flat d -> str_in k SIZE_KEYS = false -> hashable (dict_get k d) = true.
Proof.
  intros Hd Hk. unfold dict_get, dict_get_or. destruct (dict_find k d) as [v|] eqn:E; [|done].
  apply Hd in E. unfold plain in E. by rewrite Hk, orb_false_r in E.
Qed.

Lemma flat_set k v d : flat d -> plain k v = true -> flat (dict_set k v d).
Proof.
  intros Hd Hv k' w. rewrite dict_find_set. destruct (String.eqb_spec k k') as [->|]; [|apply Hd].
  by intros [= <-].
Qed.

Lemma flat_update items d : flat d -> Forall (fun p => plain (fst p) (snd p) = true) items ->
  flat (dict_update d items).
Proof.
  intros Hd Hi. revert d Hd; induction Hi as [|[k v] l Hv _ IH]; intros d Hd; [done|].
  apply (IH (dict_set k v d)). by apply flat_set.
Qed.

Definition all_plain (items : list (string * pyval)) : bool := forallb (fun p => plain (fst p) (snd p)) items.

Lemma flat_update_b items d : flat d -> all_plain items = true -> flat (dict_update d items).
Proof. intros Hd Hi. apply flat_update; [done|]. apply List.Forall_forall. by apply forallb_forall. Qed.

Lemma all_plain_app a b : all_plain (a ++ b) = all_plain a && all_plain b.
Proof. apply forallb_app. Qed.

Lemma plain_opt {A} k (f : A -> pyval) o : (forall a, hashable (f a) = true) -> plain k (opt_val f o) = true.
Proof. intros Hf. unfold plain. destruct o; cbn [opt_val]; [by rewrite Hf|done]. Qed.

Lemma plain_field {A} k (f : A -> pyval) o : (forall a, hashable (f a) = true) -> all_plain (field k f o) = true.
Proof. intros Hf. unfold all_plain, plain. destruct o; cbn; [by rewrite Hf|done]. Qed.

Lemma flat_mkdict items : all_plain items = true -> flat (mkdict items).
Proof.
  unfold all_plain. intros H k v. induction items as [|[k' w] l IH]; [done|].
  cbn [forallb fst snd] in H. apply andb_true_iff in H as [Hw Hl].
  rewrite dict_find_mkdict_cons. destruct (String.eqb_spec k' k) as [->|]; [by intros [= <-]|by apply IH].
Qed.

(** ** The verdict is total *)

Lemma gaps_total o s : dict_get "requested_protocol" o = PStr s -> exists g, _evidence_gaps o = Ok g.
Proof.
  intros Hr. unfold _evidence_gaps. rewrite Hr. cbv zeta. destruct (negb _); [by eexists|].
  unfold _observation_expected_transport, _append_stream_evidence_gaps. cbn [hashable negb in_str_set].
  destruct (negb (is_none _)); by eexists.
Qed.

Lemma canonical_total v allowed m opt : hashable v = true -> exists l, canonical v allowed m opt = Ok l.
Proof. intros Hv. unfold canonical, in_str_set. rewrite Hv. destruct (opt && is_none v); by eexists. Qed.

Lemma validate_observation_total o s b : flat o -> dict_get "requested_protocol" o = PStr s ->
  exists l, validate_protocol_observation o b = Ok l.
Proof.
  intros Hf Hr. unfold validate_protocol_observation.
  assert (P : exists l, _validate_observation_protocol_fields o = Ok l).
  { unfold _validate_observation_protocol_fields.
    repeat match goal with |- context [canonical (dict_get ?k o) ?a ?m ?b] =>
      destruct (canonical_total (dict_get k o) a m b (flat_get o k Hf eq_refl)) as [? ->] end. by eexists. }
  destruct P as [e1 ->].
  assert (Q : exists l, _validate_observation_connection_fields o = Ok l).
  { unfold _validate_observation_connection_fields. cbv zeta.
    pose proof (flat_get o "alpn" Hf eq_refl) as Ha. unfold dict_get, dict_get_or in Ha.
    destruct (dict_find "alpn" o) as [v|] eqn:E; [|by eexists]. unfold in_str_set.
    rewrite Ha. by eexists. }
  destruct Q as [e2 ->]. destruct b; [|by eexists]. unfold _validate_pass_evidence.
  destruct (gaps_total o s Hr) as [[x y] ->]. by eexists.
Qed.

Definition final_status (o : pydict) : Prop := in_strs (dict_get "status" o) OBSERVATION_STATUSES = true.

Lemma set_status_final o st items : str_in st OBSERVATION_STATUSES = true ->
  forallb (fun p => negb (String.eqb (fst p) "status")) items = true -> final_status (dict_update o (("status", PStr st) :: items)).
Proof.
  intros Hst Hi. unfold final_status.
  assert (A : dict_get "status" (dict_update o (("status", PStr st) :: items)) = PStr st); [|by rewrite A].
  change (dict_get "status" (dict_update (dict_set "status" (PStr st) o) items) = PStr st).
  rewrite get_update, assigned_absent; [by rewrite get_set|].
  apply List.Forall_forall. intros p Hp. rewrite forallb_forall in Hi. apply Hi in Hp.
  apply negb_true_iff, String.eqb_neq in Hp. done.
Qed.

Lemma finalize_total o s : flat o -> dict_get "requested_protocol" o = PStr s ->
  exists o', _finalize_status o s = Ok o' /\ final_status o'.
Proof.
  intros Hf Hr. unfold _finalize_status.
  destruct (is_true _); [eexists; split; [done|by apply set_status_final]|].
  destruct (negb _).
  { unfold in_str_set. rewrite (flat_get o "transport_error" Hf eq_refl). eexists; split; [done|].
    destruct (in_strs _ _); by apply set_status_final. }
  unfold in_int_set. rewrite (flat_get o "curl_exit_code" Hf eq_refl).
  destruct (negb _); [eexists; split; [done|by apply set_status_final]|].
  destruct (gaps_total o s Hr) as [[x y] ->].
  destruct y; [|eexists; split; [done|by apply set_status_final]].
  destruct x; [|eexists; split; [done|by apply set_status_final]].
  destruct (validate_observation_total o s true Hf Hr) as [l ->].
  destruct l; eexists; (split; [done|by apply set_status_final]).
Qed.

(** ** Validated configurations *)

Lemma normalize_idem p : In p CANONICAL_PROTOCOLS -> normalize_protocol p = Ok p.
Proof. by intros [<-|[<-|[<-|[<-|[]]]]]. Qed.

Lemma preflight_total p i cfg : In p CANONICAL_PROTOCOLS -> exists f, preflight_curl p i cfg = Ok f.
Proof.
  intros Hp. unfold preflight_curl. rewrite (normalize_idem p Hp).
  destruct (_PROTOCOL_REQUIREMENTS p). destruct (inspection_error i); [by eexists|].
  cbv zeta. destruct (match List.filter _ _ with [] => _ | _ => _ end). by eexists.
Qed.

Lemma forM_Ok_all {A} (f : A -> res unit) l : forM f l = Ok tt -> Forall (fun x => exists u, f x = Ok u) l.
Proof.
  induction l as [|x l IH]; cbn [forM]; [constructor|]. intros G. destruct (f x) eqn:E; [|done].
  constructor; [by eexists|by apply IH].
Qed.

Section Total.
Context `{Ip6Literal}.
Variable sha256 : string -> string.

(** What the observation needs of a validated configuration. *)
Record described (c : ClientConfig) : Prop := {
  dc_texts : exists l, text_fields c = Ok l /\ all_plain l = true;
  dc_case : match transport_case_id c with Some t => bounded_token t = true | None => True end;
  dc_upstream : match upstream_protocol c with Some u => exists p, normalize_protocol u = Ok p | None => True end }.

Lemma texts_plain c : _validate_provenance_text c = Ok tt -> exists l, text_fields c = Ok l /\ all_plain l = true.
Proof.
  unfold _validate_provenance_text, text_fields. intros G. apply forM_Ok_all in G.
  assert (M : exists ls, mapM (fun '(name, v) => let* t := _validate_text_argument v name in Ok (field name PStr t))
                (_PROVENANCE_TEXT_FIELDS c) = Ok ls /\ Forall (fun l => all_plain l = true) ls).
  { induction G as [|[name v] l [u Hu] _ (ls & E & Hl)]; [by exists []|]. cbn [mapM].
    destruct (_validate_text_argument v name) as [t|]; [|done]. rewrite E. eexists. split; [done|].
    constructor; [by apply plain_field|done]. }
  destruct M as (ls & -> & Hl). eexists. split; [done|].
  induction Hl as [|x ls Hx _ IH]; [done|]. cbn [concat]. by rewrite all_plain_app, Hx, IH.
Qed.

Lemma config_described c protocol scheme : _validate_config c = Ok (protocol, scheme) ->
  In protocol CANONICAL_PROTOCOLS /\ described c.
Proof.
  unfold _validate_config. intros G.
  destruct (normalize_protocol (Protocol.protocol c)) as [p|] eqn:Ep; [|done].
  destruct (_validate_timeouts c); [|done]. destruct (_validate_request _); [|done].
  destruct (_validate_url _ _) as [s|]; [|done]. destruct (_validate_stream_id _); [|done].
  destruct (match upstream_protocol c with Some u => _ | None => _ end) eqn:Eu; [|done].
  destruct (_validate_provenance_text c) as [[]|] eqn:Et; [|done].
  destruct (_validate_transport_case_id c p) eqn:Ec; [|done].
  destruct (_validate_headers _); [|done]. injection G as <- _.
  split; [by eapply normalize_canonical|]. constructor; [by apply texts_plain| |].
  - unfold _validate_transport_case_id in Ec. destruct (transport_case_id c) as [t|]; [|done].
    by destruct (bounded_token t).
  - destruct (upstream_protocol c) as [u|]; [|done].
    destruct (normalize_protocol u) as [q|]; [by eexists|done].
Qed.

(** The stream of the configuration is the one of the sidecar, when both say one. *)
Definition stream_agrees (c : ClientConfig) (sidecar : pydict) : Prop :=
  forall n v, stream_id c = Some n -> dict_find "stream_id" sidecar = Some v -> py_eq (PInt n) v = true.

Lemma stream_hashable c sidecar v : flat sidecar -> provenance_stream c sidecar = Ok v -> hashable v = true.
Proof.
  intros Hf. unfold provenance_stream. cbv zeta. destruct (_ && _); [done|]. intros [= <-].
  destruct (stream_id c) as [n|]; [done|]. cbn [opt_val is_none]. by apply flat_get.
Qed.

Lemma stream_total c sidecar : stream_agrees c sidecar -> exists v, provenance_stream c sidecar = Ok v.
Proof.
  intros Ha. unfold provenance_stream. cbv zeta.
  destruct (stream_id c) as [n|] eqn:En; cbn [opt_val is_none negb andb]; [|by eexists].
  unfold dict_get, dict_get_or. destruct (dict_find "stream_id" sidecar) as [v|] eqn:Ev; [|by eexists].
  rewrite (Ha n v En Ev). cbn [negb]. rewrite andb_false_r. by eexists.
Qed.

Lemma provenance_plain c sidecar l : described c -> flat sidecar -> _provenance sha256 c sidecar = Ok l ->
  all_plain l = true.
Proof.
  intros [(ts & Et & Hts) _ _] Hf. unfold _provenance. rewrite Et.
  destruct (match transport_case_id c with Some t => _ | None => _ end); [|done].
  destruct (match upstream_protocol c with Some u => _ | None => _ end) as [u|]; [|done].
  destruct (provenance_stream c sidecar) as [v|] eqn:Ev; [|done]. apply stream_hashable in Ev as Hv; [|done].
  intros G. apply Ok_inj in G as <-. rewrite !all_plain_app, Hts, !plain_field by done. cbn [andb].
  apply andb_true_iff. split.
  - destruct (is_none v); [done|]. unfold all_plain, plain. cbn. by rewrite Hv.
  - generalize COPIED_SIDECAR_FIELDS as l. induction l as [|k l IH]; [done|]. cbn [map concat].
    rewrite all_plain_app, IH, andb_true_r. destruct (dict_find k sidecar) as [w|] eqn:E; [|done].
    apply Hf in E. unfold all_plain. cbn. by rewrite E.
Qed.

Lemma provenance_total c sidecar : described c -> flat sidecar -> stream_agrees c sidecar ->
  exists l, _provenance sha256 c sidecar = Ok l /\ all_plain l = true.
Proof.
  intros Hd Hf Ha. assert (P : exists l, _provenance sha256 c sidecar = Ok l).
  { destruct Hd as [(ts & Et & _) Hcase Hup]. unfold _provenance. rewrite Et.
    assert (C : match transport_case_id c with
                | Some t => guard (bounded_token t) (ProtocolClientError _TRANSPORT_CASE_ID_ERROR)
                | None => Ok tt end = Ok tt) by (destruct (transport_case_id c); [by rewrite Hcase|done]).
    rewrite C.
    assert (U : exists u, match upstream_protocol c with
                          | Some u => let* p := normalize_protocol u in Ok (Some p)
                          | None => Ok None end = Ok u).
    { destruct (upstream_protocol c); [|by eexists]. destruct Hup as [p ->]. by eexists. }
    destruct U as [u ->]. destruct (stream_total c sidecar Ha) as [v ->]. by eexists. }
  destruct P as [l E]. exists l. split; [done|]. by eapply provenance_plain.
Qed.

Lemma initial_total c sidecar protocol scheme : described c -> flat sidecar -> stream_agrees c sidecar ->
  exists o, _initial_observation sha256 protocol scheme c sidecar = Ok o /\ flat o.
Proof.
  intros Hd Hf Ha. unfold _initial_observation.
  destruct (provenance_total c sidecar Hd Hf Ha) as (l & -> & Hl). eexists. split; [done|].
  assert (F : forall base, flat base -> flat (dict_update base l)) by (intros base Hb; by apply flat_update_b).
  destruct (String.eqb protocol "h3"); [apply flat_set; [|done]|]; apply F, flat_mkdict;
    rewrite all_plain_app, plain_field; done.
Qed.

Lemma apply_flat o out rc err requested scheme c sidecar : flat o ->
  flat (_apply_outcome o out rc err requested scheme c sidecar).
Proof.
  intros Hf. unfold _apply_outcome. cbv zeta. apply flat_update_b; [done|].
  unfold all_plain. cbn [forallb fst snd].
  rewrite !andb_true_iff. unfold plain. rewrite !orb_true_iff. repeat split; try (by right); left; try reflexivity.
  - by destruct (http_status out).
  - by destruct (_negotiated_protocol _ _ _).
  - by destruct (_derive_transport _ _ _ _ _).
Qed.

Lemma blocked_total c protocol scheme sidecar st why p : described c -> flat sidecar -> stream_agrees c sidecar ->
  str_in st OBSERVATION_STATUSES = true ->
  exists r, blocked_result p (_blocked_observation sha256 c protocol scheme sidecar st why) = Ok r /\
            final_status (observation r).
Proof.
  intros Hd Hf Ha Hst. unfold blocked_result, _blocked_observation.
  destruct (initial_total c sidecar protocol scheme Hd Hf Ha) as (o & -> & _). eexists. split; [done|].
  apply set_status_final; [done|]. by destruct (String.eqb st "BLOCKED").
Qed.

Lemma primary_total c e protocol scheme sidecar : described c -> flat sidecar -> stream_agrees c sidecar ->
  exists o, _execute_primary_observation sha256 c e protocol (Some scheme) sidecar = Ok o /\ final_status o.
Proof.
  intros Hd Hf Ha. unfold _execute_primary_observation.
  destruct (initial_total c sidecar protocol (Some scheme) Hd Hf Ha) as (o & E & Ho). rewrite E.
  destruct e as [rc err out| |]; [|by eexists; split; [done|apply set_status_final]..].
  apply finalize_total; [by apply apply_flat|].
  destruct (initial_facts sha256 _ _ _ _ _ E) as [Hr _].
  pose proof (apply_facts o out rc err protocol (if String.eqb scheme "" then "http" else scheme) c sidecar) as A.
  cbv zeta in A. destruct A as [A _]. by rewrite A.
Qed.

Lemma build_safe c p protocol scheme : _validate_config c = Ok (protocol, scheme) ->
  client_safe (build_curl_command c p).
Proof. intros G. unfold build_curl_command. rewrite G. safe. Qed.

Lemma followup_config_total c target protocol : described c ->
  exists f, _followup_configuration sha256 c target protocol = Ok f /\ url f = target /\ stream_id f = None.
Proof.
  intros [_ Hc _]. unfold _followup_configuration, derive_followup_transport_case_id.
  destruct (transport_case_id c) as [t|]; [rewrite Hc|]; by eexists.
Qed.

Lemma followup_total c i run : described c ->
  (forall target, followup_url c = Some target -> exists u, urlsplit target = Ok u) ->
  exists f, _run_followup_observation sha256 c i run = Ok f.
Proof.
  intros Hd Hu. unfold _run_followup_observation. destruct (followup_url c) as [target|]; [|by eexists].
  destruct (Hu target eq_refl) as [u Eu].
  destruct (followup_config_total c target
    (match followup_protocol c with Some p => if String.eqb p "" then protocol c else p | None => protocol c end) Hd)
    as (f & -> & Hurl & Hst).
  pose proof (safe_config f u ltac:(by rewrite Hurl)) as S.
  destruct (_validate_config f) as [[protocol scheme]|e] eqn:Ec.
  2:{ unfold client_safe in S. destruct e; try done; by eexists. }
  apply config_described in Ec as Hf. destruct Hf as [Hp Hf].
  destruct (preflight_total protocol i (Some f) Hp) as [p ->].
  destruct (negb _); [by eexists|].
  pose proof (build_safe f p _ _ Ec) as B.
  destruct (build_curl_command f p) as [cmd|e]; [|unfold client_safe in B; destruct e; try done; by eexists].
  unfold _execute_followup_observation.
  destruct (initial_total f [] protocol (Some scheme)) as (o & -> & _); [done|done|by intros n v|].
  by destruct (run cmd); eexists.
Qed.

(** What a sidecar file may hold for the client not to raise: a failure to read it
    is the client's own error, and its [alpn], if any, is not a list or an object. *)
Definition sidecar_readable (c : ClientConfig) (read : string -> res pydict) : Prop :=
  forall path, observation_sidecar c = Some path ->
  match read path with
  | Ok loaded => hashable (dict_get "alpn" loaded) = true /\ stream_agrees c loaded
  | Err e => is_client_error e = true
  end.

Lemma safe_copy key check loaded r : (forall v, dict_find key loaded = Some v -> client_safe (check v)) ->
  client_safe (copy_field key check loaded r).
Proof.
  intros Hc. unfold copy_field. destruct (dict_find key loaded) as [v|]; [|done]. by apply safe_bind; [apply Hc|].
Qed.

Lemma sidecar_safe loaded : hashable (dict_get "alpn" loaded) = true -> client_safe (_load_observation_sidecar loaded).
Proof.
  intros Ha. unfold _load_observation_sidecar, _validate_observation_sidecar_keys.
  apply safe_bind; [apply safe_bind; auto with client|intros _ _].
  apply safe_bind; [apply safe_copy; auto with client|intros r1 _].
  apply safe_bind.
  { unfold _copy_sidecar_booleans. generalize _SIDECAR_BOOLEAN_KEYS as l. intros l. revert r1.
    induction l as [|k l IH]; intros r; [done|]. cbn [foldM]. apply safe_bind; [|intros s _; apply IH].
    apply safe_copy; auto with client. }
  intros r2 _. apply safe_bind; [apply safe_copy; auto with client|intros r3 _].
  apply safe_bind; [apply safe_copy; intros v Hv|intros r4 _].
  - unfold dict_get, dict_get_or in Ha. rewrite Hv in Ha. unfold in_str_set. rewrite Ha. auto with client.
  - apply safe_copy. intros v _. destruct v; auto with client; done.
Qed.

Lemma sidecar_flat loaded s : _load_observation_sidecar loaded = Ok s -> flat s.
Proof.
  intros G k v Hk. apply sidecar_load in G as (_ & G & _). apply G in Hk as [_ Hv]. unfold plain.
  apply orb_true_iff. left. unfold sidecar_value in Hv.
  repeat match type of Hv with (if ?b then _ else _) = _ => destruct b end; by destruct v.
Qed.

Lemma sidecar_total c read : sidecar_readable c read ->
  exists s err, _load_config_sidecar c read = Ok (s, err) /\ flat s /\ stream_agrees c s.
Proof.
  intros Hr. unfold _load_config_sidecar. destruct (observation_sidecar c) as [path|] eqn:Ep;
    [|by exists [], None; split; [done|split; [done|intros n v]]].
  specialize (Hr path Ep).
  assert (E : forall e, exists s err, @Ok (pydict * option string) ([], e) = Ok (s, err) /\ flat s /\ stream_agrees c s)
    by (intros e; exists [], e; split; [done|split; [done|by intros n v]]).
  destruct (read path) as [loaded|e]; cbn [caught]; [|destruct e; try done; apply E].
  destruct Hr as [Ha Hs]. pose proof (sidecar_safe loaded Ha) as S.
  destruct (_load_observation_sidecar loaded) as [s|e] eqn:El; cbn [caught];
    [|unfold client_safe in S; destruct e; try done; apply E].
  exists s, None. split; [done|]. split; [by eapply sidecar_flat|].
  intros n v Hn Hv. apply (Hs n v Hn). apply sidecar_load in El as (El & _). by rewrite <- El.
Qed.

(** C15: the client answers: with a valid configuration whose urls can be split, a
    sidecar that is readable and says the same stream, and whatever curl reports
    or does, no exception leaves the client, and the observation ends with one of
    the five documented statuses. *)
Theorem client_total c i read run protocol scheme :
  _validate_config c = Ok (protocol, scheme) ->
  (forall target, followup_url c = Some target -> exists u, urlsplit target = Ok u) ->
  sidecar_readable c read ->
  exists r, run_protocol_client sha256 c i read run = Ok r /\
    in_strs (dict_get "status" (observation r)) OBSERVATION_STATUSES = true.
Proof.
  intros Hc Hu Hr. pose proof (config_described _ _ _ Hc) as [Hp Hd].
  destruct (sidecar_total c read Hr) as (s & serr & Es & Hf & Ha).
  unfold run_protocol_client, _validated_config_or_default. rewrite Hc, Es.
  destruct (preflight_total protocol i (Some c) Hp) as [p ->]. cbv zeta.
  destruct (negb _); [by apply blocked_total|]. destruct serr; [by apply blocked_total|].
  pose proof (build_safe c p _ _ Hc) as B.
  destruct (build_curl_command c p) as [cmd|e];
    [|unfold client_safe in B; destruct e; try done; by apply blocked_total].
  destruct (primary_total c (run cmd) protocol scheme s Hd Hf Ha) as (o & -> & Ho).
  destruct (followup_total c i run Hd Hu) as [f ->].
  eexists. split; [done|]. cbn [observation]. unfold final_status in Ho. by rewrite get_pop.
Qed.
End Total.
