(* ===== verification/ProtocolWitnesses.v ===== *)
(** * Concrete runs: witnesses of the protocol client's theorems

    An HTTP/2 probe with a sidecar and a follow-up, against a curl that supports
    everything, and four inputs on which an exception leaves the client. *)

From S2P Require Export ProtocolTotal.
From Stdlib Require Import QArith.
#[global] Open Scope Z_scope.

#[local] Instance demo_ip6 : Ip6Literal := String.eqb "::1".

Definition demo_digest (s : string) : string := String.concat "" (repeat "a" 64).

Definition demo_config_of (run : string) (protocol url : string) (headers : list string) (sidecar followup : option string)
    : ClientConfig :=
  {| url := url; protocol := protocol; curl := "curl"; timeout := 30%Q; connect_timeout := Some (5 # 2)%Q;
     insecure := true; request := "GET"; headers := headers; data_file := None; cacert := Some "/ca.pem";
     resolve := []; connector := Some "envoy"; integration_mode := Some "ext_proc"; run_id := Some run;
     transaction_id := Some "tx-1"; transport_case_id := Some "case-1"; rule_id := Some "1001";
     phase := Some "1"; stream_id := Some 1; upstream_protocol := Some "http1"; quic_udp_observed := false;
     observation_sidecar := sidecar; followup_url := followup; followup_protocol := None |}.
Definition demo_config : string -> string -> list string -> option string -> option string -> ClientConfig :=
  demo_config_of "run-1".

Definition demo_url : string := "https://127.0.0.1:8443/blocked?secret=1".
Definition demo_h2 : ClientConfig :=
  demo_config "h2" demo_url ["X-Test: secret"] (Some "side.json") (Some "https://127.0.0.1:8443/health").

Definition demo_inspection : CurlInspection :=
  {| executable := "curl"; version_text := "curl 8.5.0"; version := Some (8, 5, 0);
     features := ["HTTP2"; "HTTP3"];
     options := ["--connect-timeout"; "--insecure"; "--cacert"; "--data-binary"; "--resolve"; "--header"; "--http1.1";
                 "--http2"; "--http2-prior-knowledge"; "--http3-only"] ++ _COMMON_CURL_OPTIONS;
     inspection_error := None |}.

Definition demo_ready : Preflight :=
  {| status := "READY"; reason := None; required_features := ["HTTP2"]; required_options := [];
     missing_features := []; missing_options := []; writeout_mode := "json" |}.

Definition demo_sidecar : pydict :=
  mkdict [("alpn", PStr "h2"); ("stream_id", PInt 1); ("connection_reused", PBool false)].
Definition demo_read (path : string) : res pydict := Ok demo_sidecar.

Definition demo_outcome (st : Z) (version : string) : outcome :=
  {| http_status := Some st; http_version := Some version; downloaded_bytes := Some (NInt 0);
     content_length_download := None |}.

(** A blocked primary request and a healthy follow-up. *)
Definition demo_run (command : list string) : execution :=
  if str_in "X-Test: secret" command then Completed 22 "" (demo_outcome 403 "2")
  else Completed 0 "" (demo_outcome 200 "2").

(** The run that falls back on HTTP/1. *)
Definition fallback_run (command : list string) : execution := Completed 0 "" (demo_outcome 200 "1.1").

Definition or_else {A} (d : A) (r : res A) : A := match r with Ok a => a | Err _ => d end.

Definition demo_command : list string := or_else [] (build_curl_command demo_h2 demo_ready).
Definition empty_result : run_result := {| observation := []; ran_preflight := demo_ready; command := []; followup := None |}.
Definition demo_result : run_result :=
  or_else empty_result (run_protocol_client demo_digest demo_h2 demo_inspection demo_read demo_run).
Definition fallback_result : run_result :=
  or_else empty_result (run_protocol_client demo_digest demo_h2 demo_inspection demo_read fallback_run).

Lemma command_forced_witness :
  build_curl_command demo_h2 demo_ready = Ok demo_command /\ ~ In "--http3" demo_command /\
  values_given "--header" (read_words (List.tl demo_command)) =
    headers demo_h2 ++ map correlation_header (opt_list (transport_case_id demo_h2)).
Proof.
  split; [vm_compute; reflexivity|].
  destruct (command_forced demo_h2 demo_ready demo_command) as (p & s & _ & _ & _ & N & _ & _ & V & _);
    [vm_compute; reflexivity|exact (conj N V)].
Defined.

(** The same probe with other secrets. *)
Definition demo_other : ClientConfig :=
  demo_config "h2" demo_url ["Authorization: Bearer other"] None None.

Lemma redaction_hides_witness :
  _redacted_command demo_command demo_url
  = _redacted_command (or_else [] (build_curl_command demo_other demo_ready)) demo_url.
Proof.
  apply (redaction_hides demo_h2 demo_other demo_ready);
    [vm_compute; reflexivity|vm_compute; reflexivity|repeat split; reflexivity].
Defined.

Lemma preflight_ready_iff_witness : exists n, normalize_protocol " H2" = Ok n /\
  forall p, preflight_curl " H2" demo_inspection (Some demo_h2) = Ok p -> In "HTTP2" (features demo_inspection).
Proof.
  destruct (preflight_ready_iff " H2" demo_inspection (Some demo_h2)
    {| status := "READY"; reason := None; required_features := ["HTTP2"];
       required_options := ["--cacert"; "--connect-timeout"; "--fail-with-body"; "--header"; "--http2"; "--insecure";
                            "--max-time"; "--output"; "--request"; "--show-error"; "--silent"; "--write-out"];
       missing_features := []; missing_options := []; writeout_mode := "json" |}) as (n & Hn & [H1 _] & _);
    [vm_compute; reflexivity|].
  exists n. split; [exact Hn|]. intros p _. destruct (H1 eq_refl) as (_ & Hf & _). apply Hf.
  vm_compute in Hn. injection Hn as <-. left. reflexivity.
Defined.

Lemma exit_zero_evidence_witness : exit_code demo_result = 0 /\ exists p s, evidence p s (observation demo_result).
Proof.
  split; [vm_compute; reflexivity|].
  destruct (exit_zero_evidence demo_digest demo_h2 demo_inspection demo_read demo_run demo_result)
    as (p & s & _ & _ & _ & _ & _ & _ & _ & _ & _ & E); [vm_compute; reflexivity|vm_compute; reflexivity|].
  exists p, s. exact E.
Defined.

Lemma fallback_fails_witness : dict_get "status" (observation fallback_result) = PStr "FAIL".
Proof.
  refine (proj1 (fallback_fails demo_digest demo_h2 demo_inspection demo_read fallback_run fallback_result
    "h2" "https" 0 "" (demo_outcome 200 "1.1") "http1" _ _ _ _ _ _));
    [vm_compute; reflexivity|vm_compute; discriminate|vm_compute; reflexivity|reflexivity|reflexivity|discriminate].
Defined.

Lemma sidecar_exact_witness : exists s, _load_observation_sidecar demo_sidecar = Ok s /\
  forall k, dict_find k s = dict_find k demo_sidecar.
Proof.
  eexists. split; [vm_compute; reflexivity|].
  refine (proj1 (sidecar_exact demo_sidecar _ _)). vm_compute. reflexivity.
Defined.

Lemma followup_identifier_witness :
  derive_followup_transport_case_id demo_digest (Some "case-1")
  = Ok (Some ("followup-" +:+ prefix_of 32 (demo_digest ""))) /\
  "followup-" +:+ prefix_of 32 (demo_digest "") <> "case-1".
Proof.
  split; [vm_compute; reflexivity|].
  pose proof (followup_identifier demo_digest (fun s => conj eq_refl eq_refl) "case-1") as F.
  vm_compute in F. destruct F as (_ & _ & F). exact F.
Defined.

Lemma followup_pass_sound_witness : exists o f,
  _run_followup_observation demo_digest demo_h2 demo_inspection demo_run = Ok (Some o) /\
  followup_url demo_h2 = Some (url f) /\ request f = "GET".
Proof.
  assert (E : exists o, _run_followup_observation demo_digest demo_h2 demo_inspection demo_run = Ok (Some o) /\
                        dict_get "status" o = PStr "PASS").
  { eexists. split; [vm_compute; reflexivity|]. reflexivity. }
  destruct E as (o & E & Hs).
  destruct (followup_pass_sound demo_digest demo_h2 demo_inspection demo_run o E Hs)
    as (f & _ & _ & _ & _ & _ & _ & _ & _ & Hu & Hr & _).
  exists o, f. split; [exact E|]. split; [exact Hu|exact Hr].
Defined.

Lemma client_total_witness : exists r,
  run_protocol_client demo_digest demo_h2 demo_inspection demo_read (fun _ => TimeoutExpired) = Ok r.
Proof.
  destruct (client_total demo_digest demo_h2 demo_inspection demo_read (fun _ => TimeoutExpired) "h2" "https")
    as (r & E & _).
  - vm_compute. reflexivity.
  - intros target [= <-]. eexists. vm_compute. reflexivity.
  - intros path _. split; [reflexivity|]. intros n v [= <-] [= <-]. reflexivity.
  - exists r. exact E.
Defined.

(** ** Exceptions that leave the client *)

(** Exceptions leave the client although every invocation is documented to
    write an observation: for a url that cannot be split, also in the follow-up
    alone; a sidecar whose [alpn] is a list; a run identifier that is not printable
    (rejected first, but then described again); and a sidecar that names another
    stream.  [validate_protocol_observation] raises on a list although it is
    documented to report errors instead. *)
Example client_exceptions :
  let run c read := run_protocol_client demo_digest c demo_inspection read demo_run in
  run (demo_config "h2" "https://[::1" [] None None) demo_read = Err (ValueError "Invalid IPv6 URL") /\
  run (demo_config "h2" demo_url [] None (Some "https://[::1")) demo_read = Err (ValueError "Invalid IPv6 URL") /\
  run demo_h2 (fun _ => Ok (mkdict [("alpn", PList [])])) = Err (TypeError "unhashable type") /\
  run (demo_config_of newline "h2" demo_url [] None None) demo_read
  = Err (ProtocolClientError "run_id must be bounded printable text") /\
  run (demo_config "h2" demo_url [] (Some "s") None) (fun _ => Ok (mkdict [("stream_id", PInt 3)]))
  = Err (ProtocolClientError "stream_id conflicts with observation sidecar") /\
  validate_protocol_observation (mkdict [("requested_protocol", PList [])]) false
  = Err (TypeError "unhashable type").
Proof. vm_compute. repeat split. Qed.
