(* ===== verification/Shell.v ===== *)
(** * Standard library texts: shlex.split, splitlines and searches of patterns

    [shlex.split] in its POSIX mode, [str.splitlines], and the matches of a pattern
    at a position with a condition on what follows, on texts of code points below
    256. *)

From S2P Require Export Url.
#[global] Open Scope Z_scope.

(** ** [str.splitlines] *)

Definition line_boundary (c : ascii) : bool :=
  between 10 13 c || between 28 30 c || (ord c =? 133).

Fixpoint splitlines_acc (acc l : chars) : list chars :=
  match l with
  | [] => match acc with [] => [] | _ => [rev acc] end
  | c :: r =>
      if line_boundary c then
        rev acc :: match r with
                   | d :: r' => if (ord c =? 13) && (ord d =? 10) then splitlines_acc [] r'
                                else splitlines_acc [] r
                   | [] => []
                   end
      else splitlines_acc (c :: acc) r
  end.
Definition py_splitlines (s : string) : list string := map L2S (splitlines_acc [] (S2L s)).

(** ** Matches with a condition on the rest *)

(** [r] matches a prefix of [l] whose rest fulfils [rest]. *)
Fixpoint match_then (r : re) (rest : chars -> bool) (l : chars) : bool :=
  match r with
  | RNone => false
  | _ => nullable r && rest l
         || match l with [] => false | c :: m => match_then (deriv c r) rest m end
  end.

(** A word character of a pattern on [str]. *)
Definition is_word (c : ascii) : bool :=
  is_alnum c || (ord c =? 95) || Z_in (ord c) [170; 178; 179; 181; 185; 186; 188; 189; 190]
  || between 192 214 c || between 216 246 c || between 248 255 c.

Definition word_end (l : chars) : bool := match l with [] => true | c :: _ => negb (is_word c) end.

(** The search of [\b r \b], for an [r] whose matches begin and end with a word
    character; [after_word] tells the character before. *)
Fixpoint search_word (r : re) (after_word : bool) (l : chars) : bool :=
  negb after_word && match_then r word_end l
  || match l with [] => false | c :: m => search_word r (is_word c) m end.

(** The search of [^] and a test of the text from there, in multi-line mode. *)
Fixpoint search_line (here : chars -> bool) (at_line_start : bool) (l : chars) : bool :=
  at_line_start && here l
  || match l with [] => false | c :: m => search_line here (ord c =? 10) m end.

Definition lower_chars (s : string) : chars := map lower_char (S2L s).

(** ** [shlex.split] *)

Definition shlex_space (c : ascii) : bool := char_in " " c || Z_in (ord c) [9; 10; 13].
Definition quote_char (c : ascii) : bool := (ord c =? 34) || (ord c =? 39).
Definition backslash : ascii := chr 92.

Inductive shlex_state :=
  | Blank
  | Word
  | Quoted (q : ascii)
  | Escaped (inside : option ascii).

(** [token] is reversed; [quoted] tells that it had a quoted part. *)
Definition emit (token : chars) (quoted : bool) (r : res (list string)) : res (list string) :=
  let* l := r in
  Ok (match token with [] => if quoted then "" :: l else l | _ => L2S (rev token) :: l end).

Fixpoint shlex_loop (st : shlex_state) (token : chars) (quoted : bool) (l : chars) : res (list string) :=
  match l with
  | [] =>
      match st with
      | Blank => Ok []
      | Word => emit token quoted (Ok [])
      | Quoted _ => Err (ValueError "No closing quotation")
      | Escaped _ => Err (ValueError "No escaped character")
      end
  | c :: r =>
      match st with
      | Blank =>
          if shlex_space c then shlex_loop Blank [] false r
          else if Ascii.eqb c backslash then shlex_loop (Escaped None) [] false r
          else if quote_char c then shlex_loop (Quoted c) [] false r
          else shlex_loop Word [c] false r
      | Word =>
          if shlex_space c then emit token quoted (shlex_loop Blank [] false r)
          else if quote_char c then shlex_loop (Quoted c) token quoted r
          else if Ascii.eqb c backslash then shlex_loop (Escaped None) token quoted r
          else shlex_loop Word (c :: token) quoted r
      | Quoted q =>
          if Ascii.eqb c q then shlex_loop Word token true r
          else if Ascii.eqb c backslash && (ord q =? 34) then shlex_loop (Escaped (Some q)) token true r
          else shlex_loop (Quoted q) (c :: token) true r
      | Escaped None => shlex_loop Word (c :: token) quoted r
      | Escaped (Some q) =>
          shlex_loop (Quoted q)
            (c :: (if Ascii.eqb c backslash || Ascii.eqb c q then token else backslash :: token)) quoted r
      end
  end.

Definition shlex_split (s : string) : res (list string) := shlex_loop Blank [] false (S2L s).

Example shlex_split_ex :
  (shlex_split "curl  --header 'it'\''s' ''", shlex_split "a'b", py_splitlines "a
b

c") = (Ok ["curl"; "--header"; "it's"; ""], Err (ValueError "No closing quotation"), ["a"; "b"; ""; "c"]).
Proof. reflexivity. Qed.

(** * Lemmas on shell words, lines and prefix matches *)

Lemma forallb_imp {A} (p q : A -> bool) l : (forall x, p x = true -> q x = true) -> forallb p l = true ->
  forallb q l = true.
Proof. rewrite !forallb_forall. auto. Qed.

(** ** Replacing one character *)

Lemma partition_cons c sep l : partition_sub [sep] (c :: l) =
  if Ascii.eqb sep c then ([], true, l)
  else let '(a, b, r) := partition_sub [sep] l in (c :: a, b, r).
Proof.
  unfold partition_sub. cbn [find_sub is_prefix List.length]. rewrite andb_true_r.
  destruct (Ascii.eqb sep c); [done|]. destruct (find_sub [sep] l) as [n|]; [|done]. reflexivity.
Qed.

Lemma partition_length sep l a r : partition_sub [sep] l = (a, true, r) -> (List.length r < List.length l)%nat.
Proof.
  revert a. induction l as [|c l IH]; intros a; [done|]. rewrite partition_cons.
  destruct (Ascii.eqb sep c); [intros [= _ <-]; cbn; lia|].
  destruct (partition_sub [sep] l) as [[a' b'] r'] eqn:E. intros [= _ -> ->]. cbn. specialize (IH a' eq_refl). lia.
Qed.

Lemma replace_char c new l :
  replace_sub [c] new l = flat_map (fun d => if Ascii.eqb c d then new else [d]) l.
Proof.
  assert (G : forall fuel l, (List.length l < fuel)%nat ->
    replace_fuel fuel [c] new l = flat_map (fun d => if Ascii.eqb c d then new else [d]) l).
  { clear l. intros fuel l. revert fuel. induction l as [|d l IH]; intros [|fuel] Hf; try (cbn in Hf; lia); [done|].
    cbn [replace_fuel flat_map]. cbn [List.length] in Hf. rewrite partition_cons. destruct (Ascii.eqb c d) eqn:E.
    - cbn [app]. rewrite IH by lia. done.
    - rewrite <- (IH (S fuel)) by lia. cbn [replace_fuel].
      destruct (partition_sub [c] l) as [[a b] r]. by destruct b. }
  apply G. lia.
Qed.

(** ** [shlex.split] inverts [shlex.join] *)

Lemma shell_safe_plain c : shell_safe c = true ->
  shlex_space c = false /\ Ascii.eqb c backslash = false /\ quote_char c = false.
Proof. destruct c as [[] [] [] [] [] [] [] []]; vm_compute; try discriminate; done. Qed.

(** A character that ends a word. *)
Definition ends_word (rest : chars) : Prop := match rest with [] => True | c :: _ => shlex_space c = true end.

Lemma word_end_emit token quoted rest : ends_word rest ->
  shlex_loop Word token quoted rest = emit token quoted (shlex_loop Blank [] false rest).
Proof. destruct rest as [|c r]; cbn; [done|]. by intros ->. Qed.

Lemma safe_word l token quoted rest : forallb shell_safe l = true -> ends_word rest ->
  shlex_loop Word token quoted (l ++ rest) = emit (rev l ++ token) quoted (shlex_loop Blank [] false rest).
Proof.
  revert token. induction l as [|c l IH]; intros token Hl Hr; [by apply word_end_emit|].
  cbn [forallb] in Hl. apply andb_true_iff in Hl as [Hc Hl]. destruct (shell_safe_plain c Hc) as (H1 & H2 & H3).
  cbn [app shlex_loop]. rewrite H1, H3, H2, IH by done. cbn [rev]. by rewrite <- app_assoc.
Qed.

Lemma quoted_word l token rest : ends_word rest ->
  shlex_loop (Quoted (chr 39)) token true
    (flat_map (fun d => if Ascii.eqb (chr 39) d then [chr 39; chr 34; chr 39; chr 34; chr 39] else [d]) l
     ++ chr 39 :: rest)
  = emit (rev l ++ token) true (shlex_loop Blank [] false rest).
Proof.
  intros Hr. revert token. induction l as [|c l IH]; intros token.
  - cbn [flat_map app shlex_loop]. change (Ascii.eqb (chr 39) (chr 39)) with true. cbv iota. by apply word_end_emit.
  - cbn [flat_map rev]. rewrite <- !app_assoc. cbn [app]. rewrite <- IH.
    destruct (Ascii.eqb (chr 39) c) eqn:E.
    + apply Ascii.eqb_eq in E as <-. reflexivity.
    + cbn [app shlex_loop]. rewrite Ascii.eqb_sym, E. change (ord (chr 39) =? 34) with false.
      by rewrite andb_false_r.
Qed.

Lemma quote_word s rest : ends_word rest ->
  shlex_loop Blank [] false (S2L (shlex_quote s) ++ rest)
  = (let* l := shlex_loop Blank [] false rest in Ok (s :: l)).
Proof.
  intros Hr. unfold shlex_quote. destruct (String.eqb_spec s "") as [->|Hs].
  { change (shlex_loop Word [] true rest = (let* l := shlex_loop Blank [] false rest in Ok ("" :: l))).
    by rewrite word_end_emit. }
  destruct (forallb shell_safe (S2L s)) eqn:E.
  - destruct s as [|c s]; [done|]. change (S2L (String c s)) with (c :: S2L s) in *. cbn [forallb] in E.
    apply andb_true_iff in E as [Hc E]. destruct (shell_safe_plain c Hc) as (H1 & H2 & H3).
    cbn [app shlex_loop]. rewrite H1, H2, H3, safe_word by done. unfold emit.
    assert (R : rev (rev (S2L s) ++ [c]) = c :: S2L s) by (by rewrite rev_app_distr, rev_involutive).
    destruct (rev (S2L s) ++ [c]) eqn:N; [by destruct (rev (S2L s))|]. rewrite R.
    change (L2S (c :: S2L s)) with (String c (L2S (S2L s))). by rewrite L2S_S2L.
  - rewrite !S2L_app. cbn [S2L list_ascii_of_string app].
    assert (Q0 : forall x, shlex_loop Blank [] false ("'"%char :: x) = shlex_loop (Quoted (chr 39)) [] false x)
      by reflexivity.
    rewrite Q0.
    rewrite <- !app_assoc. unfold py_replace. rewrite S2L_L2S.
    change (S2L "'") with [chr 39]. rewrite replace_char, S2L_L2S. cbn [app].
    assert (Q : forall x, shlex_loop (Quoted (chr 39)) [] false (x ++ chr 39 :: rest)
                        = shlex_loop (Quoted (chr 39)) [] true (x ++ chr 39 :: rest)).
    { intros [|d x]; reflexivity. }
    rewrite (Q (flat_map _ _)), quoted_word by done. rewrite app_nil_r. unfold emit.
    destruct (rev (S2L s)) eqn:N.
    + destruct s; [done|]. change (S2L (String a s)) with (a :: S2L s) in N. cbn [rev] in N. by destruct (rev (S2L s)).
    + rewrite <- N, rev_involutive, L2S_S2L. done.
Qed.

Lemma S2L_cons c s : S2L (String c s) = c :: S2L s.
Proof. reflexivity. Qed.

Lemma shlex_round_trip l tail : forallb shlex_space tail = true ->
  shlex_split (shlex_join l +:+ L2S tail) = Ok l.
Proof.
  intros Ht. unfold shlex_split. rewrite S2L_app, S2L_L2S.
  assert (B : shlex_loop Blank [] false tail = Ok []).
  { clear l. induction tail as [|c r IH]; [done|]. cbn [forallb] in Ht. apply andb_true_iff in Ht as [Hc Ht].
    cbn [shlex_loop]. rewrite Hc. by apply IH. }
  assert (E : ends_word tail).
  { destruct tail as [|c r]; [done|]. cbn [forallb] in Ht. by apply andb_true_iff in Ht as [Hc _]. }
  unfold shlex_join, py_join. induction l as [|s l IH]; [done|].
  destruct l as [|s' l].
  - cbn [map String.concat]. rewrite quote_word by done. by rewrite B.
  - cbn [map] in *. change (String.concat " " (shlex_quote s :: shlex_quote s' :: map shlex_quote l))
      with (shlex_quote s +:+ (" " +:+ String.concat " " (shlex_quote s' :: map shlex_quote l))).
    rewrite !S2L_app, <- !app_assoc, quote_word by done.
    assert (Q0 : forall x, shlex_loop Blank [] false (S2L " " ++ x) = shlex_loop Blank [] false x) by reflexivity.
    by rewrite Q0, IH.
Qed.
