(* ===== verification/Evidence.v ===== *)
(** * The protocol evidence checker: texts (check_protocol_evidence.py)

    The checks of the version banner, the feature report and the command that a
    managed client leaves in its artifact directory. *)

From S2P Require Export Shell ProtocolOutcome.
From Stdlib Require Import QArith.
#[global] Open Scope Z_scope.

(** ** Vocabularies *)

Definition CLIENT_VERSION_ARTIFACT : string := "client-version.txt".
Definition CLIENT_FEATURES_ARTIFACT : string := "client-features.txt".
Definition CLIENT_COMMAND_ARTIFACT : string := "client-command.txt".
Definition PRIMARY_OBSERVATION_ARTIFACT : string := "client-protocol-observation.json".
Definition REQUIRED_ARTIFACTS : list string :=
  [CLIENT_VERSION_ARTIFACT; CLIENT_FEATURES_ARTIFACT; CLIENT_COMMAND_ARTIFACT; PRIMARY_OBSERVATION_ARTIFACT].
Definition FOLLOWUP_ARTIFACT : string := "client-followup-observation.json".

Definition FORBIDDEN_PAYLOAD_KEYS : list string :=
  ["body"; "request_body"; "response_body"; "response_headers"; "headers"; "stdout"; "stderr"; "url"; "uri";
   "connection_id"; "quic_connection_id"; "quic_cid"; "cid"].
Definition FORBIDDEN_CAPTURE_OPTIONS : list string :=
  ["--dump-header"; "--include"; "--remote-header-name"; "--remote-name"; "--trace"; "--trace-ascii";
   "--trace-time"; "--verbose"; "-D"; "-O"; "-i"; "-J"; "-v"].
Definition PROTOCOL_SELECTOR_OPTIONS : list string :=
  ["--http1.0"; "--http1.1"; "--http2"; "--http2-prior-knowledge"; "--http3"; "--http3-only"].
Definition REDACTED_COMMAND_VALUE_OPTIONS : list string :=
  ["--header"; "--data-binary"; "--cacert"; "--resolve"].
Definition REDACTED_COMMAND_VALUE : string := "[redacted]".
Definition SAFE_COMMAND_URL_PATHS : list string :=
  ["/"; "/health"; "/healthz"; "/ready"; "/readyz"; "/[redacted-path]"].

(** ** Patterns *)

(** A match of [FORBIDDEN_TEXT_HEADERS] at the beginning of a line; letters are in
    lower case. *)
Definition SENSITIVE_HEADERS : list string :=
  ["authorization"; "proxy-authorization"; "cookie"; "set-cookie"].
Definition header_at (name : string) (l : chars) : bool :=
  is_prefix (S2L name) l
  && match drop_while is_space (drop (String.length name) l) with c :: _ => ord c =? 58 | [] => false end.
Definition FORBIDDEN_TEXT_HEADERS (s : string) : bool :=
  search_line (fun l => existsb (fun name => header_at name l) SENSITIVE_HEADERS) true (lower_chars s).

(** [(?:quic[_.-]?)?(?:connection[_.-]?id|cid)] *)
Definition id_separator : re := ROpt (RCls (char_in "_.-")).
Definition CONNECTION_ID : re :=
  RCat (ROpt (RCat (RLit "quic") id_separator))
       (RAlt (RCat (RLit "connection") (RCat id_separator (RLit "id"))) (RLit "cid")).
Definition RAW_CONNECTION_ID_TEXT (s : string) : bool := search_word CONNECTION_ID false (lower_chars s).

(** [(?=:|:|$)]: the dollar sign also matches before a final line feed. *)
Definition argument_end (l : chars) : bool :=
  match l with
  | [] => true
  | c :: r => (ord c =? 61) || (ord c =? 58) || (ord c =? 10) && match r with [] => true | _ => false end
  end.
Definition RAW_CONNECTION_ID_ARGUMENT (s : string) : bool :=
  match_then (RCat (ROpt (RLit "--")) CONNECTION_ID) argument_end (lower_chars s).

Definition SAFE_EXECUTABLE : re := RRep (RCls printable) 1 (Some 512%nat).
Definition digits : re := RPlus (RCls is_digit).
Definition SAFE_VERSION : re :=
  RAlt (RLit "unknown") (RCat digits (RCat (RLit ".") (RCat digits (RCat (RLit ".") digits)))).
(** A possibly empty list of items, separated by commas. *)
Definition re_list (item : re) : re := ROpt (RCat item (RStar (RCat (RLit ",") item))).
Definition feature_char (c : ascii) : bool := is_upper c || is_digit c || char_in "_+.-" c.
Definition SAFE_FEATURE_LIST : re := re_list (RPlus (RCls feature_char)).
Definition option_start (c : ascii) : bool := is_lower c || is_digit c.
Definition option_char (c : ascii) : bool := option_start c || char_in ".-" c.
Definition SAFE_OPTION_LIST : re :=
  re_list (RCat (RLit "--") (RCat (RCls option_start) (RStar (RCls option_char)))).
Definition reason_char (c : ascii) : bool := option_start c || char_in "_:-" c.
Definition SAFE_REASON : re :=
  RAlt REps (RCat (RCls option_start) (RRep (RCls reason_char) 0 (Some 127%nat))).

Definition FEATURE_REPORT_FIELDS : list string :=
  ["curl_executable"; "curl_version"; "protocol"; "features"; "required_features"; "missing_features";
   "required_options"; "missing_options"; "preflight_status"; "preflight_reason"; "writeout_mode"].

(** ** Texts *)

Definition control_character (c : ascii) : bool := (ord c <? 32) && negb (Z_in (ord c) [10; 13; 9]).

Definition _text_safety_errors (value artifact : string) : list string :=
  report (existsb control_character (S2L value)) (artifact +:+ ": control characters are forbidden")
  ++ report (FORBIDDEN_TEXT_HEADERS value) (artifact +:+ ": sensitive HTTP header text is forbidden")
  ++ report (RAW_CONNECTION_ID_TEXT value) (artifact +:+ ": raw connection-ID text is forbidden").

(** The entries of the two tables are those of the client. *)
Definition _required_protocol_flag (protocol : string) : string := protocol_flag protocol.
Definition _required_protocol_feature (protocol : string) : option string :=
  if String.eqb protocol "h2" then Some "HTTP2" else if String.eqb protocol "h2c" then Some "HTTP2"
  else if String.eqb protocol "h3" then Some "HTTP3" else None.

(** [curl\s+\d+\.\d+(?:\.\d+)?(?:\s|$)] at the beginning of a line. *)
Definition VERSION_BANNER : re :=
  RCat (RLit "curl") (RCat (RPlus (RCls is_space))
    (RCat digits (RCat (RLit ".") (RCat digits (ROpt (RCat (RLit ".") digits)))))).
Definition space_or_end (l : chars) : bool := match l with [] => true | c :: _ => is_space c end.

Definition _validate_version_text (version_text : string) : list string :=
  _text_safety_errors version_text CLIENT_VERSION_ARTIFACT
  ++ report (match py_splitlines version_text with
             | [] => true
             | line :: _ => negb (match_then VERSION_BANNER space_or_end (lower_chars line))
             end) (CLIENT_VERSION_ARTIFACT +:+ " does not contain a curl version banner").

(** ** The feature report *)

Definition report_values := list (string * string).

Fixpoint value_of (k : string) (values : report_values) : option string :=
  match values with
  | [] => None
  | (k', v) :: r => if String.eqb k' k then Some v else value_of k r
  end.

(** [line.split("=", 1)] *)
Definition report_line (st : report_values * list string) (line : string) : report_values * list string :=
  let (values, errors) := st in
  match py_split1 "=" line with
  | None => (values, errors ++ [CLIENT_FEATURES_ARTIFACT +:+ " contains a non key/value line"])
  | Some (key, value) =>
      match value_of key values with
      | Some _ => (values, errors ++ [CLIENT_FEATURES_ARTIFACT +:+ " repeats " +:+ key])
      | None => (values ++ [(key, value)], errors)
      end
  end.

Definition _parse_feature_report (features_text : string) : report_values * list string :=
  fold_left report_line (py_splitlines features_text) ([], []).

Definition _feature_schema_errors (values : report_values) : list string * bool :=
  let unknown := List.filter (fun k => negb (str_in k FEATURE_REPORT_FIELDS)) (map fst values) in
  let missing := List.filter (fun k => negb (str_in k (map fst values))) FEATURE_REPORT_FIELDS in
  (match unknown with
   | [] => []
   | _ => [CLIENT_FEATURES_ARTIFACT +:+ " has unsupported fields: " +:+ py_join ", " (sort_strs unknown)]
   end
   ++ match missing with
      | [] => []
      | _ => [CLIENT_FEATURES_ARTIFACT +:+ " is missing fields: " +:+ py_join ", " (sort_strs missing)]
      end,
   match missing with [] => false | _ => true end).

(** [values[field]], asked only when no field is missing. *)
Definition value (k : string) (values : report_values) : string :=
  match value_of k values with Some v => v | None => "" end.

Definition _feature_value_errors (values : report_values) : list string :=
  report (negb (fullmatch_str SAFE_EXECUTABLE (value "curl_executable" values)))
    (CLIENT_FEATURES_ARTIFACT +:+ " curl_executable is not a bounded executable path")
  ++ report (negb (fullmatch_str SAFE_VERSION (value "curl_version" values)))
    (CLIENT_FEATURES_ARTIFACT +:+ " curl_version is not bounded")
  ++ concat (map (fun field => report (negb (fullmatch_str SAFE_FEATURE_LIST (value field values)))
       (CLIENT_FEATURES_ARTIFACT +:+ " " +:+ field +:+ " is not a bounded feature list"))
       ["features"; "required_features"; "missing_features"])
  ++ concat (map (fun field => report (negb (fullmatch_str SAFE_OPTION_LIST (value field values)))
       (CLIENT_FEATURES_ARTIFACT +:+ " " +:+ field +:+ " is not a bounded option list"))
       ["required_options"; "missing_options"]).

(** [set(filter(None, text.split(",")))] *)
Definition items (text : string) : list string :=
  List.filter (fun s => negb (String.eqb s "")) (py_split "," text).

Definition _feature_protocol_errors (values : report_values) (protocol : string) (require_correlation : bool)
    : list string :=
  let features := items (value "features" values) in
  let required_features := items (value "required_features" values) in
  let missing_features := items (value "missing_features" values) in
  let required_flag := _required_protocol_flag protocol in
  let required_options := items (value "required_options" values) in
  let missing_options := items (value "missing_options" values) in
  report (negb (String.eqb (value "protocol" values) protocol))
    (CLIENT_FEATURES_ARTIFACT +:+ " protocol differs from the selected profile")
  ++ report (negb (String.eqb (value "preflight_status" values) "READY"))
    (CLIENT_FEATURES_ARTIFACT +:+ " does not record a ready client preflight")
  ++ report (negb (String.eqb (value "preflight_reason" values) ""))
    (CLIENT_FEATURES_ARTIFACT +:+ " READY preflight must not have a reason")
  ++ report (negb (str_in (value "writeout_mode" values) ["json"; "fields"]))
    (CLIENT_FEATURES_ARTIFACT +:+ " has an invalid ready writeout mode")
  ++ match _required_protocol_feature protocol with
     | None => []
     | Some f =>
         report (negb (str_in f features)) (CLIENT_FEATURES_ARTIFACT +:+ " lacks the selected protocol feature")
         ++ report (negb (str_in f required_features))
              (CLIENT_FEATURES_ARTIFACT +:+ " does not declare the selected protocol feature")
         ++ report (str_in f missing_features)
              (CLIENT_FEATURES_ARTIFACT +:+ " reports the selected protocol feature as missing")
     end
  ++ report (negb (str_in required_flag required_options))
       (CLIENT_FEATURES_ARTIFACT +:+ " does not declare the forced protocol option")
  ++ report (str_in required_flag missing_options)
       (CLIENT_FEATURES_ARTIFACT +:+ " reports the forced protocol option as missing")
  ++ report (require_correlation && negb (str_in "--header" required_options))
       (CLIENT_FEATURES_ARTIFACT +:+ " does not declare the transport-correlation header option").

Definition _validate_features_text (features_text protocol : string) (require_correlation : bool)
    : list string :=
  let (values, parse_errors) := _parse_feature_report features_text in
  let (schema_errors, has_missing_fields) := _feature_schema_errors values in
  _text_safety_errors features_text CLIENT_FEATURES_ARTIFACT ++ parse_errors ++ schema_errors
  ++ if has_missing_fields then []
     else _feature_value_errors values ++ _feature_protocol_errors values protocol require_correlation.

(** ** The command *)

Definition _parse_command_arguments (command : string) : list string * list string :=
  let '(arguments, errors) := match shlex_split command with
                              | Ok l => (l, [])
                              | Err _ => ([], ["client command is not shell-parseable"])
                              end in
  (arguments, errors ++ match arguments with [] => ["client command is empty"] | _ => [] end).

(** [_redacted_option_error] of an argument and the argument after it, if any. *)
Definition _redacted_option_error (argument : string) (next : option string) : option string :=
  if str_in argument REDACTED_COMMAND_VALUE_OPTIONS then
    match next with
    | Some v => if String.eqb v REDACTED_COMMAND_VALUE then None
                else Some ("client command leaks the value for " +:+ argument)
    | None => Some ("client command leaks the value for " +:+ argument)
    end
  else
    match List.find (fun o => starts_with (o +:+ "=") argument
                              && negb (String.eqb argument (o +:+ "=" +:+ REDACTED_COMMAND_VALUE)))
            REDACTED_COMMAND_VALUE_OPTIONS with
    | Some o => Some ("client command leaks the value for " +:+ o)
    | None => None
    end.

Fixpoint _command_argument_safety_errors (arguments : list string) : list string :=
  match arguments with
  | [] => []
  | argument :: rest =>
      report (RAW_CONNECTION_ID_ARGUMENT argument) "client command contains a raw connection-ID argument"
      ++ opt_list (_redacted_option_error argument (List.hd_error rest))
      ++ _command_argument_safety_errors rest
  end.

Definition url_argument_errors `{Ip6Literal} (argument : string) : list string :=
  match urlsplit argument with
  | Err _ => ["client command contains a malformed URL"]
  | Ok u =>
      if negb (str_in (scheme u) ["http"; "https"]) then []
      else
        report (contains "@" (netloc u)) "client command contains URL userinfo"
        ++ report (negb (str_in (url_path u) SAFE_COMMAND_URL_PATHS))
             "client command contains an unredacted URL path"
        ++ report (negb (str_in (query u) [""; REDACTED_COMMAND_VALUE]))
             "client command contains an unredacted URL query"
        ++ report (negb (String.eqb (fragment u) "")) "client command contains a URL fragment"
  end.

Definition _command_url_safety_errors `{Ip6Literal} (arguments : list string) : list string :=
  flat_map url_argument_errors arguments.

(** What [_output_option_destination] says of an argument: a destination in the
    argument itself, the next argument, or no destination. *)
Inductive output_option := Inline (destination : string) | NextArgument (option : string) | NoOutput.

Definition output_option_of (argument : string) : output_option :=
  let '(option, separator, inline_value) := partition "=" argument in
  if String.eqb option "--output" then if separator : bool then Inline inline_value else NextArgument option
  else if String.eqb argument "-o" then NextArgument argument
  else if starts_with "-o" argument && (2 <? str_len argument)
  then Inline (L2S (drop 2 (S2L argument)))
  else NoOutput.

(** The first part of [argument.split("=", 1)]. *)
Definition option_of (argument : string) : string := fst (fst (partition "=" argument)).

(** The destinations and the errors; a destination that is the next argument is
    not an option of its own. *)
Fixpoint _command_output_destinations (arguments : list string) : list string * list string :=
  match arguments with
  | [] => ([], [])
  | argument :: rest =>
      let option := option_of argument in
      let captured := report (str_in option FORBIDDEN_CAPTURE_OPTIONS)
                        ("client command contains payload-capture option " +:+ option) in
      let '(destinations, errors) :=
        match output_option_of argument with
        | Inline v => let '(d, e) := _command_output_destinations rest in (v :: d, e)
        | NextArgument o =>
            match rest with
            | [] => ([], ["client command has an " +:+ o +:+ " option without a destination"])
            | v :: rest' => let '(d, e) := _command_output_destinations rest' in (v :: d, e)
            end
        | NoOutput => _command_output_destinations rest
        end in
      (destinations, captured ++ errors)
  end.

Definition _command_output_safety_errors (arguments : list string) : list string :=
  let (destinations, errors) := _command_output_destinations arguments in
  errors ++ report (negb (bool_decide (destinations = ["/dev/null"])))
              "client command must use exactly one payload-free output destination".

Definition _command_policy_errors (arguments : list string) (protocol : string) : list string :=
  report (negb (str_in "--fail-with-body" arguments))
    "client command does not preserve a failed response observation"
  ++ report (negb (bool_decide (List.filter (fun a => str_in a PROTOCOL_SELECTOR_OPTIONS) arguments
                                = [_required_protocol_flag protocol])))
       "client command must use exactly one forced protocol selector"
  ++ _command_output_safety_errors arguments.

Definition _validate_command `{Ip6Literal} (command protocol : string) : list string :=
  if String.eqb command ("not executed" +:+ newline)
  then ["protocol evidence requires an executed managed-client command"]
  else
    let (arguments, parse_errors) := _parse_command_arguments command in
    report (FORBIDDEN_TEXT_HEADERS command) "client command contains sensitive HTTP header text"
    ++ parse_errors ++ _command_argument_safety_errors arguments
    ++ _command_url_safety_errors arguments ++ _command_policy_errors arguments protocol.
