(* ===== verification/EvidenceObservation.v ===== *)
(** * The protocol evidence checker: observations and verdict (check_protocol_evidence.py) *)

From S2P Require Export Evidence.
From Stdlib Require Import QArith.
#[global] Open Scope Z_scope.

(** ** Vocabularies *)

Definition ALLOWED_OBSERVATION_FIELDS : list string :=
  ["schema_version"; "status"; "reason"; "missing_evidence"; "validation_errors"; "connector";
   "integration_mode"; "run_id"; "transaction_id"; "transport_case_id"; "target_authority_sha256";
   "rule_id"; "phase"; "requested_protocol"; "downstream_protocol"; "upstream_protocol";
   "negotiated_protocol"; "transport"; "expected_transport"; "alpn"; "stream_id"; "connection_reused";
   "quic_udp_observed"; "quic_connection_id_present"; "quic_version"; "fallback_used"; "stream_reset";
   "stream_reset_code"; "http_status"; "downloaded_bytes"; "content_length_download";
   "response_committed"; "client_first_body_byte_visible"; "response_complete"; "curl_exit_code";
   "transport_error"].
Definition ALLOWED_FOLLOWUP_FIELDS : list string :=
  ["schema_version"; "status"; "reason"; "connector"; "integration_mode"; "run_id"; "transport_case_id";
   "target_authority_sha256"; "requested_protocol"; "downstream_protocol"; "negotiated_protocol";
   "transport"; "fallback_used"; "http_status"; "response_complete"; "curl_exit_code"; "transport_error"].

Definition MAX_TEXT_BYTES : Z := 64 * 1024.
Definition MAX_JSON_BYTES : Z := 128 * 1024.

(** ** Reading *)

(** What reading a file of the artifact directory within a bound gives: its UTF-8
    text and what [json.loads] makes of it ([None]: not JSON), or why there is no
    text. *)
Inductive artifact :=
  | Decoded (text : string) (json : option pyval)
  | NotUtf8
  | BoundedFileReadError (reason : string)
  | ReadOSError.

Definition _read_text (name : string) (a : artifact) : option string * list string :=
  match a with
  | Decoded text _ => (Some text, [])
  | NotUtf8 => (None, ["artifact is not UTF-8: " +:+ name])
  | BoundedFileReadError reason =>
      (None, [if String.eqb reason "oversized" then "artifact exceeds bounded size: " +:+ name
              else if String.eqb reason "unavailable" then "unreadable artifact: " +:+ name
              else "missing or unsafe artifact: " +:+ name])
  | ReadOSError => (None, ["unreadable artifact: " +:+ name])
  end.

Definition _read_json (name : string) (a : artifact) : option pydict * list string :=
  match _read_text name a, a with
  | (Some _, _), Decoded _ (Some (PDict d)) => (Some d, [])
  | (Some _, _), Decoded _ (Some _) => (None, ["artifact must be a JSON object: " +:+ name])
  | (Some _, _), _ => (None, ["artifact is not JSON: " +:+ name])
  | (None, errors), _ => (None, errors)
  end.

(** An artifact directory: whether it is a directory and not a link, its files,
    read within a bound, and whether the follow-up file exists. *)
Record artifact_dir := {
  safe_directory : bool; file : string -> Z -> artifact; followup_exists : bool }.

(** ** Payload *)

(** [str(key).strip().lower().replace("-", "_")] *)
Definition normalized_key (key : pyval) : string := py_replace "-" "_" (py_lower (py_strip (py_str key))).

Fixpoint _payload_errors (path : string) (v : pyval) : list string :=
  match v with
  | PDict d =>
      (fix each (d : pydict) : list string :=
         match d with
         | [] => []
         | (key, nested) :: r =>
             let nested_path := path +:+ "." +:+ py_str key in
             report (str_in (normalized_key key) FORBIDDEN_PAYLOAD_KEYS)
               (nested_path +:+ ": forbidden payload or connection-ID field")
             ++ _payload_errors nested_path nested ++ each r
         end) d
  | PList l =>
      (fix each (index : Z) (l : list pyval) : list string :=
         match l with
         | [] => []
         | nested :: r => _payload_errors (path +:+ "[" +:+ dec index +:+ "]") nested ++ each (index + 1) r
         end) 0 l
  | _ => []
  end.

(** [set(observation) - allowed], as the texts of the keys. *)
Definition unknown_fields (observation : pydict) (allowed : list string) : list string :=
  List.filter (fun k => negb (str_in k allowed)) (map py_str (keys observation)).

Definition unknown_error (message : string) (unknown : list string) : list string :=
  match unknown with [] => [] | _ => [message +:+ py_join ", " (sort_strs unknown)] end.

(** [isinstance(v, bool) or not isinstance(v, int)] negated. *)
Definition strict_int (v : pyval) : option Z := match v with PInt z => Some z | _ => None end.

Definition schema_ok (observation : pydict) : bool :=
  match strict_int (dict_get "schema_version" observation) with Some z => z =? 1 | None => false end.

Definition status_between (lo hi : Z) (v : pyval) : bool :=
  match strict_int v with Some z => (lo <=? z) && (z <=? hi) | None => false end.

(** ** Transfers *)

(** The transport error a successful transfer must have, for its exit code. *)
Definition successful_outcome (allow_http_error : bool) (exit_code : Z) : option string :=
  if exit_code =? 0 then Some "none"
  else if allow_http_error && (exit_code =? 22) then Some "http_response_error" else None.

Definition _successful_transfer_errors (o : pydict) (allow_http_error : bool) : list string :=
  let exit_code := dict_get "curl_exit_code" o in
  let status := dict_get "http_status" o in
  match strict_int exit_code with
  | None => ["successful transfer requires an integer curl_exit_code"]
  | Some z =>
      match successful_outcome allow_http_error z with
      | None => ["successful transfer has a failed curl_exit_code"]
      | Some e => report (negb (eq_str (dict_get "transport_error" o) e))
                    "successful transfer transport_error contradicts curl_exit_code"
      end
  end
  ++ (if negb (status_between 100 999 status)
      then ["successful transfer requires a client-observed HTTP status"]
      else report (eq_int exit_code 22 && status_between 100 399 status)
             "HTTP error transfer requires an error HTTP status").

(** The status is not asked: 22 is not a failed exit code. *)
Definition _failed_transfer_errors (o : pydict) : list string :=
  let observed_error := dict_get "transport_error" o in
  match strict_int (dict_get "curl_exit_code" o) with
  | None => ["strict evidence requires a failed integer curl_exit_code"]
  | Some z =>
      if Z_in z [0; 22] then ["strict evidence requires a failed integer curl_exit_code"]
      else match _returncode_transport_error z None with
           | Some expected =>
               report (negb (eq_str observed_error expected))
                 "strict evidence transport_error contradicts curl_exit_code"
           | None =>
               report (negb (in_strs observed_error ["timeout"; "tls_failure"; "h2_failure"; "h3_failure";
                               "protocol_failure"; "client_or_network_failure"]))
                 "strict evidence requires a categorized transport failure"
           end
  end.

(** ** The follow-up *)

Definition _followup_reason_errors (o : pydict) : list string :=
  concat (map (fun field =>
    let v := dict_get field o in
    report (negb (is_none v) && negb (match v with PStr s => fullmatch_str SAFE_REASON s | _ => false end))
      ("independent follow-up has an unsafe " +:+ field)) ["reason"; "transport_error"]).

Definition _followup_type_errors (o : pydict) : list string :=
  concat (map (fun field => present_bad o field not_bool ("independent follow-up has an invalid " +:+ field))
            ["response_complete"; "fallback_used"])
  ++ concat (map (fun field =>
       let v := dict_get field o in
       report (negb (is_none v) && match strict_int v with Some _ => false | None => true end)
         ("independent follow-up has an invalid " +:+ field)) ["http_status"; "curl_exit_code"]).

Definition _followup_safety_errors (o : pydict) : list string :=
  unknown_error "follow-up has unsupported fields: " (unknown_fields o ALLOWED_FOLLOWUP_FIELDS)
  ++ _payload_errors "followup" (PDict o)
  ++ report (negb (schema_ok o)) "independent follow-up has an invalid schema_version"
  ++ _followup_reason_errors o ++ _followup_type_errors o
  ++ (if eq_str (dict_get "status" o) "PASS" then _successful_transfer_errors o false else []).

Definition _followup_result_errors (o : pydict) (protocol : string) : list string :=
  report (negb (eq_str (dict_get "status" o) "PASS")) "independent follow-up did not pass"
  ++ report (negb (eq_str (dict_get "requested_protocol" o) protocol))
       "independent follow-up requested protocol differs"
  ++ report (negb (eq_str (dict_get "negotiated_protocol" o) protocol))
       "independent follow-up negotiated protocol differs"
  ++ report (negb (is_false (dict_get "fallback_used" o))) "independent follow-up used a fallback"
  ++ report (negb (status_between 200 399 (dict_get "http_status" o)))
       "independent follow-up has no healthy HTTP status".

Definition PROVENANCE_FIELDS : list string :=
  ["requested_protocol"; "downstream_protocol"; "negotiated_protocol"; "transport"; "fallback_used";
   "connector"; "integration_mode"; "run_id"].

Definition _followup_provenance_errors (o primary : pydict) : list string :=
  concat (map (fun field =>
    report (negb (is_none (dict_get field primary)) && negb (py_eq (dict_get field o) (dict_get field primary)))
      ("independent follow-up " +:+ field +:+ " does not match primary observation")) PROVENANCE_FIELDS).

Section Checker.
Context `{Ip6Literal}.
Variable sha256 : string -> string.

Definition _followup_correlation_errors (o primary : pydict) : res (list string) :=
  let own := dict_get "transport_case_id" o in
  let* case_errors :=
    match dict_get "transport_case_id" primary with
    | PStr t =>
        if bounded_token t then
          let* expected := derive_followup_transport_case_id sha256 (Some t) in
          Ok (report (negb (match expected with Some e => eq_str own e | None => is_none own end))
                "independent follow-up has no distinct bound transport_case_id"
              ++ report (eq_str own t) "independent follow-up reuses the primary transport_case_id")
        else Ok ["strict evidence requires a bounded primary transport_case_id"]
    | _ => Ok ["strict evidence requires a bounded primary transport_case_id"]
    end in
  let authority_hash := dict_get "target_authority_sha256" primary in
  Ok (case_errors ++
      if _has_invalid_sha256_token authority_hash
      then ["strict evidence requires a bounded primary target authority hash"]
      else report (negb (py_eq (dict_get "target_authority_sha256" o) authority_hash))
             "independent follow-up target authority does not match primary observation").

Definition _validate_followup (o : pydict) (protocol : string) (primary : pydict) : res (list string) :=
  let* observation_errors := validate_protocol_observation o false in
  let* correlation_errors := _followup_correlation_errors o primary in
  Ok (_followup_safety_errors o ++ observation_errors ++ _followup_result_errors o protocol
      ++ correlation_errors ++ _followup_provenance_errors o primary).

(** ** The primary observation *)

(** What the caller expects of the observation; [None] expects nothing. *)
Record expectations := {
  e_connector : option string; e_integration_mode : option string; e_run_id : option string;
  e_transaction_id : option string; e_rule_id : option string; e_phase : option string;
  expected_client_status : option Z; expected_stream_id : option Z;
  expected_upstream_protocol : option string; expected_transport_case_id : option string }.

Definition _match (expected : option string) (v : pyval) (field : string) : list string :=
  match expected with
  | Some e => report (negb (String.eqb (py_str v) e)) (field +:+ " does not match expected provenance")
  | None => []
  end.

Definition _primary_observation_errors (o : pydict) (protocol : string) (strict : bool) (e : expectations)
    : res (list string) :=
  let* observation_errors := validate_protocol_observation o (negb strict) in
  Ok (unknown_error "observation has unsupported fields: " (unknown_fields o ALLOWED_OBSERVATION_FIELDS)
      ++ report (negb (schema_ok o)) "observation has an invalid schema_version"
      ++ _payload_errors "observation" (PDict o) ++ observation_errors
      ++ report (negb (eq_str (dict_get "requested_protocol" o) protocol))
           "requested_protocol differs from the selected profile"
      ++ report (negb (eq_str (dict_get "downstream_protocol" o) protocol))
           "downstream_protocol differs from the selected profile"
      ++ _match (e_connector e) (dict_get "connector" o) "connector"
      ++ _match (e_integration_mode e) (dict_get "integration_mode" o) "integration_mode"
      ++ _match (e_run_id e) (dict_get "run_id" o) "run_id"
      ++ _match (e_transaction_id e) (dict_get "transaction_id" o) "transaction_id"
      ++ _match (e_rule_id e) (dict_get "rule_id" o) "rule_id"
      ++ _match (e_phase e) (dict_get "phase" o) "phase").

Definition _expected_stream_errors (o : pydict) (expected : option Z) : list string :=
  match expected with
  | None => []
  | Some z =>
      if z <? 0 then ["expected_stream_id must be a non-negative integer"]
      else report (negb (eq_int (dict_get "stream_id" o) z)) "stream_id does not match expected provenance"
  end.

Definition _expected_upstream_errors (o : pydict) (expected : option string) : list string :=
  match expected with
  | None => []
  | Some p =>
      if negb (str_in p CANONICAL_PROTOCOLS) then ["expected_upstream_protocol is not canonical"]
      else report (negb (eq_str (dict_get "upstream_protocol" o) p))
             "upstream_protocol does not match expected provenance"
  end.

Definition _expected_transport_case_errors (o : pydict) (expected : option string) : list string :=
  match expected with
  | None => []
  | Some t =>
      if negb (bounded_token t) then ["expected_transport_case_id is not a bounded token"]
      else report (negb (eq_str (dict_get "transport_case_id" o) t))
             "transport_case_id does not match expected provenance"
  end.

Definition _expected_client_status_errors (o : pydict) (expected : option Z) : list string :=
  match expected with
  | None => []
  | Some z =>
      if negb ((100 <=? z) && (z <=? 999)) then ["expected_client_status must be an HTTP status integer"]
      else match strict_int (dict_get "http_status" o) with
           | None => ["client observation has no response status matching the visible host status"]
           | Some s => report (negb (s =? z)) "client status does not match the visible host status"
           end
  end.

Definition _expected_provenance_errors (o : pydict) (e : expectations) : list string :=
  _expected_stream_errors o (expected_stream_id e)
  ++ _expected_upstream_errors o (expected_upstream_protocol e)
  ++ _expected_transport_case_errors o (expected_transport_case_id e)
  ++ _expected_client_status_errors o (expected_client_status e).

(** ** The two kinds of evidence *)

Definition _normal_evidence_errors (o : pydict) (dir : artifact_dir) : list string :=
  report (negb (eq_str (dict_get "status" o) "PASS")) "protocol client observation is not PASS"
  ++ _successful_transfer_errors o true
  ++ (if followup_exists dir then
        let (followup, errors) := _read_json FOLLOWUP_ARTIFACT (file dir FOLLOWUP_ARTIFACT MAX_JSON_BYTES) in
        errors ++ match followup with Some f => _followup_safety_errors f | None => [] end
      else []).

(** [transport] of the three protocols strict evidence exists for. *)
Definition strict_transport (protocol : string) : string :=
  if String.eqb protocol "h2" then "tls_tcp" else if String.eqb protocol "h2c" then "tcp" else "quic_udp".

Definition _strict_primary_errors (o : pydict) (protocol : string) : list string :=
  report (negb (eq_str (dict_get "status" o) "FAIL"))
    "strict evidence requires a client-observed failed transfer"
  ++ _failed_transfer_errors o
  ++ report (negb (is_true (dict_get "response_committed" o)))
       "strict evidence requires response_committed=true"
  ++ report (negb (is_true (dict_get "client_first_body_byte_visible" o)))
       "strict evidence requires a client-visible first body byte"
  ++ report (negb (is_false (dict_get "response_complete" o)))
       "strict evidence requires an incomplete response"
  ++ report (_has_invalid_stream_id (dict_get "stream_id" o))
       "strict evidence requires a non-negative stream_id"
  ++ report (negb (status_between 100 999 (dict_get "http_status" o)))
       "strict evidence requires a client-observed response status"
  ++ report (negb (is_true (dict_get "stream_reset" o))) "strict evidence requires stream_reset=true"
  ++ report (none_or_empty (dict_get "stream_reset_code" o)) "strict evidence requires a stream_reset_code"
  ++ report (negb (is_false (dict_get "fallback_used" o)))
       "strict evidence must not use a protocol fallback"
  ++ report (negb (eq_str (dict_get "negotiated_protocol" o) protocol))
       "strict evidence negotiated protocol differs"
  ++ report (negb (eq_str (dict_get "transport" o) (strict_transport protocol)))
       "strict evidence transport differs from the selected profile".

Definition _strict_transport_errors (o : pydict) (protocol : string) : list string :=
  if String.eqb protocol "h2" then
    report (negb (eq_str (dict_get "alpn" o) "h2")) "strict HTTP/2 evidence requires alpn=h2"
  else if String.eqb protocol "h3" then
    report (negb (eq_str (dict_get "alpn" o) "h3")) "strict HTTP/3 evidence requires alpn=h3"
    ++ report (negb (is_true (dict_get "quic_udp_observed" o)))
         "strict HTTP/3 evidence requires QUIC/UDP observation"
    ++ report (negb (is_true (dict_get "quic_connection_id_present" o)))
         "strict HTTP/3 evidence requires QUIC CID presence only"
    ++ report (negb (match dict_get "quic_version" o with PStr s => negb (String.eqb s "") | _ => false end))
         "strict HTTP/3 evidence requires quic_version"
  else [].

Definition _strict_followup_errors (dir : artifact_dir) (protocol : string) (primary : pydict)
    : res (list string) :=
  let (followup, errors) := _read_json FOLLOWUP_ARTIFACT (file dir FOLLOWUP_ARTIFACT MAX_JSON_BYTES) in
  match followup with
  | None => Ok errors
  | Some f => let* more := _validate_followup f protocol primary in Ok (errors ++ more)
  end.

(** ** The verdict *)

(** The texts and the observation of [_read_required_artifacts], in its order. *)
Definition read_artifact_text (dir : artifact_dir) (name : string) : option string * list string :=
  _read_text name (file dir name MAX_TEXT_BYTES).

Definition _read_required_artifacts (dir : artifact_dir)
    : list (string * string) * option pydict * list string :=
  let texts := map (fun name => (name, read_artifact_text dir name))
                 [CLIENT_VERSION_ARTIFACT; CLIENT_FEATURES_ARTIFACT; CLIENT_COMMAND_ARTIFACT] in
  let (observation, errors) :=
    _read_json PRIMARY_OBSERVATION_ARTIFACT (file dir PRIMARY_OBSERVATION_ARTIFACT MAX_JSON_BYTES) in
  (concat (map (fun '(name, (text, _)) => match text with Some t => [(name, t)] | None => [] end) texts),
   observation, concat (map (fun '(_, (_, e)) => e) texts) ++ errors).

Definition _text_artifact_errors (texts : list (string * string)) (protocol : string)
    (require_correlation : bool) : list string :=
  match value_of CLIENT_VERSION_ARTIFACT texts with Some t => _validate_version_text t | None => [] end
  ++ match value_of CLIENT_FEATURES_ARTIFACT texts with
     | Some t => _validate_features_text t protocol require_correlation
     | None => []
     end
  ++ match value_of CLIENT_COMMAND_ARTIFACT texts with Some t => _validate_command t protocol | None => [] end.

(** [sorted(dict.fromkeys(errors))] *)
Definition sorted_errors (errors : list string) : list string := sort_strs (dedup String.eqb errors).

Definition validate_protocol_artifacts (dir : artifact_dir) (protocol : string) (strict : bool)
    (e : expectations) : res (list string) :=
  if negb (str_in protocol CANONICAL_PROTOCOLS) then Ok ["protocol is not canonical"]
  else if strict && negb (str_in protocol MODERN)
  then Ok ["strict protocol evidence is only valid for H2/H3"]
  else if negb (safe_directory dir) then Ok ["artifact directory is missing or unsafe"]
  else
    let '(texts, observation, artifact_errors) := _read_required_artifacts dir in
    let text_errors := _text_artifact_errors texts protocol (is_some (expected_transport_case_id e)) in
    match observation with
    | None => Ok (sorted_errors (artifact_errors ++ text_errors))
    | Some o =>
        let* primary := _primary_observation_errors o protocol strict e in
        let errors := artifact_errors ++ text_errors ++ primary ++ _expected_provenance_errors o e in
        if negb strict then Ok (sorted_errors (errors ++ _normal_evidence_errors o dir))
        else
          let* followup := _strict_followup_errors dir protocol o in
          Ok (sorted_errors (errors ++ _strict_primary_errors o protocol
                             ++ _strict_transport_errors o protocol ++ followup))
    end.

(** The exit code of the checker, when it returns. *)
Definition checker_exit_code (errors : list string) : Z := match errors with [] => 0 | _ => 1 end.
End Checker.
