(* ===== verification/EvidenceTheorems.v ===== *)
(** * Theorems of the protocol evidence checker: what accepted evidence says *)

From S2P Require Export EvidenceObservation ProtocolTheorems.
From Stdlib Require Import QArith.
#[global] Open Scope Z_scope.

(** ** Absent errors *)

Lemma report_nil b m : report b m = [] <-> b = false.
Proof. by destruct b. Qed.

Lemma sorted_errors_nil l : sorted_errors l = [] -> l = [].
Proof.
  unfold sorted_errors. intros H. destruct l as [|x l]; [done|].
  assert (I : In x (sort_strs (dedup String.eqb (x :: l)))).
  { apply sort_In, (dedup_In String.eqb); [apply String.eqb_eq|by left]. }
  by rewrite H in I.
Qed.

Lemma concat_map_nil {A B} (f : A -> list B) l : concat (map f l) = [] <-> forall x, In x l -> f x = [].
Proof.
  induction l as [|x l IH]; cbn [map concat]; [split; [intros _ y []|done]|]. split.
  - intros H. apply app_eq_nil in H as [H1 H2]. intros y [<-|Hy]; [done|by apply IH].
  - intros H. rewrite (H x), (proj2 IH); [done|intros y Hy; apply H; by right|by left].
Qed.

Lemma eq_opt_false {A} (o : option A) : is_some o = false <-> o = None.
Proof. by destruct o. Qed.

Ltac no_errors :=
  repeat match goal with
  | H : _ ++ _ = [] |- _ => apply app_eq_nil in H as [? ?]
  | H : report _ _ = [] |- _ => apply report_nil in H
  | H : negb _ = false |- _ => apply negb_false_iff in H
  | H : eq_str _ _ = true |- _ => apply eq_str_true in H
  | H : is_true _ = true |- _ => apply is_true_eq in H
  | H : is_false _ = true |- _ => apply is_false_eq in H
  end.

Lemma status_between_spec lo hi v : status_between lo hi v = true <-> exists z, v = PInt z /\ lo <= z <= hi.
Proof.
  unfold status_between, strict_int. split.
  - destruct v; try done. intros H. exists z. split; [done|lia].
  - intros (z & -> & H). lia.
Qed.

Lemma stream_id_spec v : _has_invalid_stream_id v = false <-> exists n, v = PInt n /\ 0 <= n.
Proof.
  unfold _has_invalid_stream_id. split; [|intros (n & -> & H); lia].
  destruct v; try done. intros H. exists z. split; [done|lia].
Qed.

(** ** Payload *)

(** No key at any depth is a payload field. *)
Inductive payload_free : pyval -> Prop :=
  | PF_dict d : (forall k v, In (k, v) d -> str_in (normalized_key k) FORBIDDEN_PAYLOAD_KEYS = false) ->
                (forall k v, In (k, v) d -> payload_free v) ->
                payload_free (PDict d)
  | PF_list l : (forall v, In v l -> payload_free v) -> payload_free (PList l)
  | PF_leaf v : is_mapping v = false -> is_list v = false -> payload_free v.

(** The nesting of a value, for inductions over values. *)
Fixpoint pv_depth (v : pyval) : nat :=
  match v with
  | PList l => S (fold_right Nat.max 0%nat (map pv_depth l))
  | PDict d => S (fold_right Nat.max 0%nat (map (fun kv => pv_depth (snd kv)) d))
  | _ => 0
  end.

Lemma max_In x l : In x l -> (x <= fold_right Nat.max 0 l)%nat.
Proof. induction l as [|y l IH]; cbn; [done|]. intros [->|H]; [lia|]. apply IH in H. lia. Qed.

Lemma payload_free_iff v : forall path, _payload_errors path v = [] <-> payload_free v.
Proof.
  assert (G : forall n v, (pv_depth v < n)%nat -> forall path, _payload_errors path v = [] <-> payload_free v);
    [|intros path; apply (G (S (pv_depth v))); lia].
  clear v. induction n as [|n IH]; intros v Hn; [lia|].
  destruct v as [| | | | |l|d]; intros path; try (by split; [intros _; by apply PF_leaf|]).
  - cbn [_payload_errors pv_depth] in *.
    assert (S1 : forall i, (fix each (index : Z) (l : list pyval) : list string :=
         match l with
         | [] => []
         | nested :: r => _payload_errors (path +:+ "[" +:+ dec index +:+ "]") nested ++ each (index + 1) r
         end) i l = [] <-> forall v, In v l -> payload_free v).
    { induction l as [|x l IHl]; intros i; [split; [intros _ v []|done]|]. cbn [map fold_right] in Hn.
      rewrite app_nil, (IHl ltac:(lia)), IH by lia. split.
      - intros [H1 H2] v [<-|Hv]; [done|by apply H2].
      - intros H. split; [apply H; by left|intros v Hv; apply H; by right]. }
    rewrite S1. split; [by apply PF_list|]. by inversion 1.
  - cbn [_payload_errors pv_depth] in *.
    assert (S1 : (fix each (d : pydict) : list string :=
         match d with
         | [] => []
         | (key, nested) :: r =>
             let nested_path := path +:+ "." +:+ py_str key in
             report (str_in (normalized_key key) FORBIDDEN_PAYLOAD_KEYS)
               (nested_path +:+ ": forbidden payload or connection-ID field")
             ++ _payload_errors nested_path nested ++ each r
         end) d = [] <->
         (forall k v, In (k, v) d -> str_in (normalized_key k) FORBIDDEN_PAYLOAD_KEYS = false) /\
         (forall k v, In (k, v) d -> payload_free v)).
    { induction d as [|[k x] d IHd]; [split; [intros _; split; intros k v []|done]|].
      cbn [map fold_right snd] in Hn. cbv zeta.
      rewrite !app_nil, report_nil, (IHd ltac:(lia)), IH by lia. split.
      - intros (H1 & H2 & H3 & H4). split; intros k' v [[= <- <-]|Hv]; eauto.
      - intros [H H0]. split; [apply (H k x); by left|]. split; [apply (H0 k x); by left|].
        split; intros k' v Hv; [apply (H k' v)|apply (H0 k' v)]; by right. }
    rewrite S1. split; [intros []; by apply PF_dict|]. by inversion 1.
Qed.

(** ** Accepted directories *)

Lemma read_text_inv name a t e : _read_text name a = (t, e) -> e = [] -> exists s j, t = Some s /\ a = Decoded s j.
Proof. unfold _read_text. intros H ->. destruct a; try done. injection H as <-. by eexists _, _. Qed.

Lemma read_json_inv name a o : _read_json name a = (o, []) -> exists s d, o = Some d /\ a = Decoded s (Some (PDict d)).
Proof.
  unfold _read_json. intros H. destruct (_read_text name a) as [[t|] e] eqn:E.
  - destruct a as [s [j|]| | |]; try done. destruct j; try done. injection H as <-. by eexists _, _.
  - injection H as _ ->. by apply read_text_inv in E as (s & j & ? & _).
Qed.

Section Checker.
Context `{Ip6Literal}.
Variable sha256 : string -> string.

(** The three texts of a directory, checked. *)
Definition texts_accepted (dir : artifact_dir) (protocol : string) (correlated : bool) : Prop :=
  exists version features command jv jf jc,
    file dir CLIENT_VERSION_ARTIFACT MAX_TEXT_BYTES = Decoded version jv /\ _validate_version_text version = [] /\
    file dir CLIENT_FEATURES_ARTIFACT MAX_TEXT_BYTES = Decoded features jf /\
    _validate_features_text features protocol correlated = [] /\
    file dir CLIENT_COMMAND_ARTIFACT MAX_TEXT_BYTES = Decoded command jc /\ _validate_command command protocol = [].

Lemma texts_inv dir protocol correlated texts o errors : _read_required_artifacts dir = (texts, o, errors) ->
  errors = [] -> _text_artifact_errors texts protocol correlated = [] ->
  texts_accepted dir protocol correlated /\
  exists s d, o = Some d /\ file dir PRIMARY_OBSERVATION_ARTIFACT MAX_JSON_BYTES = Decoded s (Some (PDict d)).
Proof.
  unfold _read_required_artifacts, read_artifact_text. cbn [map].
  destruct (_read_text CLIENT_VERSION_ARTIFACT _) as [tv ev] eqn:Ev.
  destruct (_read_text CLIENT_FEATURES_ARTIFACT _) as [tf ef] eqn:Ef.
  destruct (_read_text CLIENT_COMMAND_ARTIFACT _) as [tc ec] eqn:Ec.
  destruct (_read_json _ _) as [o' eo] eqn:Eo. cbn [concat]. intros G He. injection G as <- <- <-.
  rewrite app_nil_r in He. no_errors.
  apply read_text_inv in Ev as (v & jv & -> & Fv); [|done].
  apply read_text_inv in Ef as (f & jf & -> & Ff); [|done].
  apply read_text_inv in Ec as (c & jc & -> & Fc); [|done]. subst eo. apply read_json_inv in Eo.
  cbn [app]. unfold _text_artifact_errors. intros T.
  change (value_of CLIENT_VERSION_ARTIFACT _) with (Some v) in T.
  change (value_of CLIENT_FEATURES_ARTIFACT _) with (Some f) in T.
  change (value_of CLIENT_COMMAND_ARTIFACT _) with (Some c) in T. no_errors.
  split; [|done]. by exists v, f, c, jv, jf, jc.
Qed.

(** What an accepted directory holds, in either mode. *)
Lemma accepted_inv dir protocol strict e : validate_protocol_artifacts sha256 dir protocol strict e = Ok [] ->
  In protocol CANONICAL_PROTOCOLS /\ (strict = true -> In protocol MODERN) /\ safe_directory dir = true /\
  texts_accepted dir protocol (is_some (expected_transport_case_id e)) /\
  exists s o, file dir PRIMARY_OBSERVATION_ARTIFACT MAX_JSON_BYTES = Decoded s (Some (PDict o)) /\
    _primary_observation_errors o protocol strict e = Ok [] /\ _expected_provenance_errors o e = [] /\
    (if strict then _strict_primary_errors o protocol = [] /\ _strict_transport_errors o protocol = [] /\
                    _strict_followup_errors sha256 dir protocol o = Ok []
     else _normal_evidence_errors o dir = []).
Proof.
  unfold validate_protocol_artifacts. destruct (str_in protocol _) eqn:Ep; cbn [negb]; [|done].
  destruct (strict && _) eqn:Em; [done|]. destruct (safe_directory dir) eqn:Es; cbn [negb]; [|done].
  destruct (_read_required_artifacts dir) as [[texts o] errors] eqn:Er. cbv zeta. intros G.
  split; [by apply str_in_In|].
  split. { intros ->. cbn [andb] in Em. apply negb_false_iff in Em. by apply str_in_In. }
  split; [done|].
  destruct o as [o|].
  2:{ apply Ok_inj, sorted_errors_nil in G. no_errors.
      by destruct (texts_inv _ _ _ _ _ _ Er ltac:(done) ltac:(eassumption)) as (_ & s & d & ? & _). }
  destruct (_primary_observation_errors o protocol strict e) as [pe|] eqn:Epe; [|done].
  destruct strict; cbn [negb] in G.
  - destruct (_strict_followup_errors sha256 dir protocol o) as [fe|] eqn:Efe; [|done].
    apply Ok_inj, sorted_errors_nil in G. no_errors. subst.
    destruct (texts_inv _ _ _ _ _ _ Er eq_refl ltac:(eassumption)) as (T & s & d & [= ->] & F).
    split; [done|]. by exists s, d.
  - apply Ok_inj, sorted_errors_nil in G. no_errors. subst.
    destruct (texts_inv _ _ _ _ _ _ Er eq_refl ltac:(eassumption)) as (T & s & d & [= ->] & F).
    split; [done|]. by exists s, d.
Qed.

(** ** The expectations *)

Definition text_expected (expected : option string) (v : pyval) : Prop :=
  forall t, expected = Some t -> py_str v = t.

(** The observation is the one the caller expects. *)
Record as_expected (protocol : string) (e : expectations) (o : pydict) : Prop := {
  ae_schema : dict_get "schema_version" o = PInt 1;
  ae_requested : dict_get "requested_protocol" o = PStr protocol;
  ae_downstream : dict_get "downstream_protocol" o = PStr protocol;
  ae_connector : text_expected (e_connector e) (dict_get "connector" o);
  ae_mode : text_expected (e_integration_mode e) (dict_get "integration_mode" o);
  ae_run : text_expected (e_run_id e) (dict_get "run_id" o);
  ae_transaction : text_expected (e_transaction_id e) (dict_get "transaction_id" o);
  ae_rule : text_expected (e_rule_id e) (dict_get "rule_id" o);
  ae_phase : text_expected (e_phase e) (dict_get "phase" o);
  ae_stream : forall z, expected_stream_id e = Some z -> eq_int (dict_get "stream_id" o) z = true;
  ae_upstream : forall p, expected_upstream_protocol e = Some p -> dict_get "upstream_protocol" o = PStr p;
  ae_case : forall t, expected_transport_case_id e = Some t ->
    bounded_token t = true /\ dict_get "transport_case_id" o = PStr t;
  ae_status : forall z, expected_client_status e = Some z ->
    100 <= z <= 999 /\ dict_get "http_status" o = PInt z;
  ae_payload : payload_free (PDict o);
  ae_fields : forall k, In k (keys o) -> In (py_str k) ALLOWED_OBSERVATION_FIELDS }.

Lemma match_nil expected v field : _match expected v field = [] -> text_expected expected v.
Proof.
  unfold _match. intros H0 t ->. no_errors. by apply String.eqb_eq.
Qed.

Lemma unknown_nil m o allowed : unknown_error m (unknown_fields o allowed) = [] ->
  forall k, In k (keys o) -> In (py_str k) allowed.
Proof.
  unfold unknown_error. intros H0 k Hk. destruct (unknown_fields o allowed) as [|x l] eqn:E; [|done].
  destruct (str_in (py_str k) allowed) eqn:Ek; [by apply str_in_In|].
  assert (I : In (py_str k) (unknown_fields o allowed)); [|by rewrite E in I].
  unfold unknown_fields. apply filter_In. split; [by apply in_map|]. by rewrite Ek.
Qed.

Lemma schema_ok_spec o : schema_ok o = true -> dict_get "schema_version" o = PInt 1.
Proof. unfold schema_ok, strict_int. destruct (dict_get _ o); try done. intros E. by apply Z.eqb_eq in E as ->. Qed.

Lemma expected_inv o protocol strict e : _primary_observation_errors o protocol strict e = Ok [] ->
  _expected_provenance_errors o e = [] ->
  as_expected protocol e o /\ validate_protocol_observation o (negb strict) = Ok [].
Proof.
  unfold _primary_observation_errors, _expected_provenance_errors, _expected_stream_errors,
    _expected_upstream_errors, _expected_transport_case_errors, _expected_client_status_errors. intros G E.
  destruct (validate_protocol_observation o (negb strict)) as [ve|] eqn:Ev; [|done].
  apply Ok_inj in G. no_errors. subst ve. split; [|done].
  constructor; try (by eapply match_nil); try done.
  - by apply schema_ok_spec.
  - intros z Ez. rewrite Ez in *. destruct (z <? 0); [done|]. by no_errors.
  - intros p Ez. rewrite Ez in *. destruct (str_in p _); cbn [negb] in *; [|done]. by no_errors.
  - intros t Ez. rewrite Ez in *. destruct (bounded_token t); cbn [negb] in *; [|done]. by no_errors.
  - intros z Ez. rewrite Ez in *. destruct ((100 <=? z) && (z <=? 999)) eqn:Eb; cbn [negb] in *; [|done].
    unfold strict_int in *. destruct (dict_get "http_status" o); try done. no_errors.
    split; [lia|]. f_equal. lia.
  - by eapply payload_free_iff.
  - by eapply unknown_nil.
Qed.

(** ** Strict evidence *)

(** A committed, partial response whose stream the client saw reset. *)
Record reset_evidence (protocol : string) (o : pydict) : Prop := {
  re_status : dict_get "status" o = PStr "FAIL";
  re_exit : exists z, dict_get "curl_exit_code" o = PInt z /\ z <> 0 /\ z <> 22;
  re_committed : dict_get "response_committed" o = PBool true;
  re_first_byte : dict_get "client_first_body_byte_visible" o = PBool true;
  re_partial : dict_get "response_complete" o = PBool false;
  re_stream : exists n, dict_get "stream_id" o = PInt n /\ 0 <= n;
  re_http : exists z, dict_get "http_status" o = PInt z /\ 100 <= z <= 999;
  re_reset : dict_get "stream_reset" o = PBool true;
  re_code : dict_get "stream_reset_code" o <> PNone /\ dict_get "stream_reset_code" o <> PStr "";
  re_fallback : dict_get "fallback_used" o = PBool false;
  re_negotiated : dict_get "negotiated_protocol" o = PStr protocol;
  re_transport : dict_get "transport" o = PStr (strict_transport protocol);
  re_h2 : protocol = "h2" -> dict_get "alpn" o = PStr "h2";
  re_h3 : protocol = "h3" -> dict_get "alpn" o = PStr "h3" /\
            dict_get "quic_udp_observed" o = PBool true /\
            dict_get "quic_connection_id_present" o = PBool true }.

(** A healthy request of its own, bound to the primary one. *)
Record followup_evidence (protocol : string) (o f : pydict) : Prop := {
  fe_status : dict_get "status" f = PStr "PASS";
  fe_exit : dict_get "curl_exit_code" f = PInt 0;
  fe_error : dict_get "transport_error" f = PStr "none";
  fe_http : exists z, dict_get "http_status" f = PInt z /\ 200 <= z < 400;
  fe_negotiated : dict_get "negotiated_protocol" f = PStr protocol;
  fe_fallback : dict_get "fallback_used" f = PBool false;
  fe_case : exists t derived, dict_get "transport_case_id" o = PStr t /\
    derive_followup_transport_case_id sha256 (Some t) = Ok (Some derived) /\
    dict_get "transport_case_id" f = PStr derived /\ derived <> t;
  fe_authority : exists h, dict_get "target_authority_sha256" o = PStr h /\
    fullmatch_str _SHA256_TOKEN h = true /\ dict_get "target_authority_sha256" f = PStr h;
  fe_run : dict_get "run_id" o <> PNone -> py_eq (dict_get "run_id" f) (dict_get "run_id" o) = true;
  fe_connector : dict_get "connector" o <> PNone -> py_eq (dict_get "connector" f) (dict_get "connector" o) = true;
  fe_payload : payload_free (PDict f) }.

Lemma failed_transfer_inv o : _failed_transfer_errors o = [] ->
  exists z, dict_get "curl_exit_code" o = PInt z /\ z <> 0 /\ z <> 22.
Proof.
  unfold _failed_transfer_errors, strict_int. destruct (dict_get "curl_exit_code" o) as [| |z| | | |]; try done.
  destruct (Z_in z [0; 22]) eqn:E; [done|]. intros _. exists z. split; [done|]. cbn in E. lia.
Qed.

Lemma none_or_empty_inv v : none_or_empty v = false -> v <> PNone /\ v <> PStr "".
Proof. unfold none_or_empty. intros E. by split; intros ->. Qed.

Lemma reset_inv o protocol : _strict_primary_errors o protocol = [] -> _strict_transport_errors o protocol = [] ->
  reset_evidence protocol o.
Proof.
  unfold _strict_primary_errors. intros P T. no_errors.
  constructor; try done; try (by apply failed_transfer_inv); try (by apply stream_id_spec);
    try (by apply status_between_spec); try (by apply none_or_empty_inv).
  - intros ->. unfold _strict_transport_errors in T. cbn [String.eqb Ascii.eqb Bool.eqb] in T. by no_errors.
  - intros ->. unfold _strict_transport_errors in T. cbn [String.eqb Ascii.eqb Bool.eqb] in T. no_errors. done.
Qed.

Lemma transfer_inv o allow : _successful_transfer_errors o allow = [] ->
  exists z e, dict_get "curl_exit_code" o = PInt z /\ successful_outcome allow z = Some e /\
    dict_get "transport_error" o = PStr e /\ exists s, dict_get "http_status" o = PInt s /\ 100 <= s <= 999 /\
    (z = 22 -> 400 <= s).
Proof.
  unfold _successful_transfer_errors. cbv zeta. intros T. apply app_eq_nil in T as [T1 T2].
  unfold strict_int in T1. destruct (dict_get "curl_exit_code" o) as [| |z| | | |] eqn:Ez; try done.
  destruct (successful_outcome allow z) as [e|] eqn:Eo; [|done]. no_errors.
  exists z, e. split; [done|]. split; [done|]. split; [done|].
  destruct (status_between 100 999 (dict_get "http_status" o)) eqn:Es; cbn [negb] in T2; [|done].
  apply status_between_spec in Es as (s & Es & Hs). exists s. split; [done|]. split; [done|].
  intros ->. no_errors. rewrite Es, eq_int_int in T2. cbn in T2. lia.
Qed.

Lemma provenance_eq field o f : In field PROVENANCE_FIELDS -> _followup_provenance_errors f o = [] ->
  dict_get field o <> PNone -> py_eq (dict_get field f) (dict_get field o) = true.
Proof.
  unfold _followup_provenance_errors. rewrite concat_map_nil. intros Hin Hp Hn. specialize (Hp field Hin).
  no_errors. apply andb_false_iff in Hp as [Hp|Hp]; no_errors; [|done].
  by destruct (dict_get field o).
Qed.

Lemma followup_inv protocol o f : _validate_followup sha256 f protocol o = Ok [] -> followup_evidence protocol o f.
Proof.
  unfold _validate_followup, _followup_safety_errors, _followup_result_errors. intros G.
  destruct (validate_protocol_observation f false) as [ve|]; [|done].
  destruct (_followup_correlation_errors sha256 f o) as [ce|] eqn:Ec; [|done]. apply Ok_inj in G. no_errors.
  match goal with E : dict_get "status" f = PStr "PASS" |- _ => rewrite E in * end.
  change (eq_str (PStr "PASS") "PASS") with true in *. cbv iota in *.
  match goal with T : _successful_transfer_errors f false = [] |- _ =>
    apply transfer_inv in T as (z & e & Ez & Eo & Ee & _) end.
  assert (z = 0 /\ e = "none") as [-> ->].
  { unfold successful_outcome in Eo. destruct (z =? 0) eqn:E0; [|done]. apply Z.eqb_eq in E0.
    by injection Eo as <-. }
  subst ce. unfold _followup_correlation_errors in Ec.
  destruct (dict_get "transport_case_id" o) as [| | | |t| |] eqn:Et; try (by destruct (_ ++ _) eqn:?).
  destruct (bounded_token t) eqn:Eb; [|by destruct (_ ++ _) eqn:?].
  destruct (derive_followup_transport_case_id sha256 (Some t)) as [expected|] eqn:Ed; [|done].
  apply Ok_inj in Ec. no_errors.
  assert (D : exists derived, expected = Some derived).
  { unfold derive_followup_transport_case_id in Ed. rewrite Eb in Ed. cbn [negb] in Ed. cbv zeta in Ed.
    apply Ok_inj in Ed as <-. by eexists. }
  destruct D as [derived ->]. no_errors.
  destruct (_has_invalid_sha256_token (dict_get "target_authority_sha256" o)) eqn:Eh; [done|]. no_errors.
  unfold _has_invalid_sha256_token in Eh.
  destruct (dict_get "target_authority_sha256" o) as [| | | |h| |] eqn:Eth; try done. no_errors.
  constructor; try done.
  - match goal with S : status_between 200 399 _ = true |- _ =>
      apply status_between_spec in S as (s & S & Hs) end. exists s. split; [done|lia].
  - exists t, derived. split; [done|]. split; [done|]. split; [done|]. intros ->.
    match goal with X : eq_str (dict_get "transport_case_id" f) t = false, Y : dict_get "transport_case_id" f = _ |- _ =>
      rewrite Y, eq_str_refl in X end. done.
  - exists h. split; [done|]. split; [done|].
    destruct (dict_get "target_authority_sha256" f); try done. cbn [py_eq] in *.
    f_equal. by apply String.eqb_eq.
  - apply provenance_eq; [apply str_in_In; reflexivity|done].
  - apply provenance_eq; [apply str_in_In; reflexivity|done].
  - by eapply payload_free_iff.
Qed.

(** C16: what an accepted strict directory proves: the three texts pass their checks,
    the observation is the expected one and shows a committed, partial response
    whose stream the client saw reset, and a healthy follow-up of its own, bound to
    it by the derived case identifier, the authority hash, the run and the
    connector; neither holds a payload field at any depth. *)
Theorem strict_evidence_sound dir protocol e :
  validate_protocol_artifacts sha256 dir protocol true e = Ok [] ->
  In protocol MODERN /\ safe_directory dir = true /\
  texts_accepted dir protocol (is_some (expected_transport_case_id e)) /\
  exists s o t f,
    file dir PRIMARY_OBSERVATION_ARTIFACT MAX_JSON_BYTES = Decoded s (Some (PDict o)) /\
    file dir FOLLOWUP_ARTIFACT MAX_JSON_BYTES = Decoded t (Some (PDict f)) /\
    as_expected protocol e o /\ reset_evidence protocol o /\ followup_evidence protocol o f.
Proof.
  intros G. apply accepted_inv in G as (_ & Hm & Hs & Ht & s & o & Hf & Hp & He & P & T & F).
  split; [by apply Hm|]. split; [done|]. split; [done|].
  unfold _strict_followup_errors in F. destruct (_read_json _ _) as [[f|] fe] eqn:Er.
  2:{ apply Ok_inj in F as ->. by apply read_json_inv in Er as (? & ? & ? & _). }
  destruct (_validate_followup sha256 f protocol o) as [more|] eqn:Ev; [|done]. apply Ok_inj in F. no_errors. subst.
  apply read_json_inv in Er as (t & d & [= ->] & Er). exists s, o, t, d.
  split; [done|]. split; [done|]. split; [by apply (expected_inv o protocol true)|].
  split; [by apply reset_inv|by apply followup_inv].
Qed.

(** ** Ordinary evidence *)

Record ordinary_evidence (protocol : string) (o : pydict) : Prop := {
  oe_status : dict_get "status" o = PStr "PASS";
  oe_transfer : exists z e s, dict_get "curl_exit_code" o = PInt z /\ dict_get "http_status" o = PInt s /\
    dict_get "transport_error" o = PStr e /\ 100 <= s <= 999 /\
    (z = 0 /\ e = "none" \/ z = 22 /\ e = "http_response_error" /\ 400 <= s);
  oe_negotiated : dict_get "negotiated_protocol" o = PStr protocol;
  oe_fallback : dict_get "fallback_used" o = PBool false;
  oe_transport : dict_get "transport" o <> PNone /\
    (dict_get "expected_transport" o = PNone -> In protocol MODERN ->
     dict_get "transport" o = PStr (strict_transport protocol));
  oe_stream : In protocol MODERN -> exists n, 0 <= n /\ dict_get "stream_id" o = PInt n;
  oe_h2 : protocol = "h2" -> dict_get "alpn" o = PStr "h2";
  oe_h3 : protocol = "h3" -> dict_get "alpn" o = PStr "h3" /\
            dict_get "quic_udp_observed" o = PBool true /\
            dict_get "quic_connection_id_present" o = PBool true }.

Lemma pass_valid_inv o : validate_protocol_observation o true = Ok [] ->
  dict_get "fallback_used" o = PBool false /\ _evidence_gaps o = Ok ([], []).
Proof.
  unfold validate_protocol_observation. intros V.
  destruct (_validate_observation_protocol_fields o) as [e1|]; [|done].
  destruct (_validate_observation_connection_fields o) as [e2|]; [|done].
  unfold _validate_pass_evidence in V. destruct (_evidence_gaps o) as [[m c]|]; [|done]. apply Ok_inj in V. no_errors.
  split; [done|]. by destruct m, c.
Qed.

Lemma ordinary_inv protocol o : In protocol CANONICAL_PROTOCOLS ->
  dict_get "requested_protocol" o = PStr protocol -> validate_protocol_observation o true = Ok [] ->
  dict_get "status" o = PStr "PASS" -> _successful_transfer_errors o true = [] -> ordinary_evidence protocol o.
Proof.
  intros Hp Hr V Hs T. apply pass_valid_inv in V as [Hf Hg]. unfold _evidence_gaps in Hg. rewrite Hr in Hg.
  cbv zeta in Hg. destruct (py_eq (dict_get "negotiated_protocol" o) (PStr protocol)) eqn:En; cbn [negb] in Hg; [|done].
  destruct (_observation_expected_transport o (PStr protocol)) as [x|] eqn:Ex; [|done].
  destruct (_append_stream_evidence_gaps o (PStr protocol)) as [g|] eqn:Es; [|done].
  apply Ok_inj in Hg. apply join_nil in Hg as [H1 Hg]. apply join_nil in Hg as [-> H2].
  constructor; try done.
  - apply transfer_inv in T as (z & e & Ez & Eo & Ee & s & Est & Hst & H22). exists z, e, s.
    split; [done|]. split; [done|]. split; [done|]. split; [done|].
    unfold successful_outcome in Eo. destruct (Z.eqb_spec z 0) as [->|]; [left; by injection Eo as <-|].
    destruct (Z.eqb_spec z 22) as [->|]; [|done]. right. injection Eo as <-. by split; [|split; [|apply H22]].
  - destruct (dict_get "negotiated_protocol" o); try done. cbn [py_eq] in En. f_equal. by apply String.eqb_eq.
  - unfold _append_transport_evidence_gaps in H1. cbv zeta in H1.
    destruct (is_none (dict_get "transport" o)) eqn:Et; [done|]. split; [by destruct (dict_get "transport" o)|].
    intros Hx Hm. unfold _observation_expected_transport in Ex. rewrite Hx in Ex. cbn in Ex.
    assert (x = PStr (strict_transport protocol)) as ->.
    { apply Ok_inj in Ex as <-. by destruct Hm as [<-|[<-|[<-|[]]]]. }
    cbn [is_none negb andb] in H1.
    destruct (py_eq (dict_get "transport" o) _) eqn:Eq; [|done]. destruct (dict_get "transport" o); try done.
    cbn [py_eq] in Eq. f_equal. by apply String.eqb_eq.
  - intros Hm. by eapply no_stream_gap.
  - intros ->. by apply no_alpn_gap.
  - intros ->. change (join_gaps (_append_alpn_evidence_gap o "h3") (_append_h3_evidence_gaps o, []) = ([], [])) in H2.
    apply join_nil in H2 as [H2 H3]. injection H3 as H3. split; [by apply no_alpn_gap|].
    unfold _append_h3_evidence_gaps in H3. apply app_eq_nil in H3 as [H3 H4].
    split; apply is_true_eq; apply not_false_is_true; intros E; [rewrite E in H3|rewrite E in H4]; discriminate.
Qed.

(** C17: what an accepted ordinary directory proves: a complete forced-profile pass
    whose exit code, transport error and status agree, in the protocol that was
    requested and negotiated, with the stream, the application protocol and the
    QUIC observations of the protocol, as expected and without payload fields; a
    follow-up that is there is free of payload too. *)
Theorem ordinary_evidence_sound dir protocol e :
  validate_protocol_artifacts sha256 dir protocol false e = Ok [] ->
  In protocol CANONICAL_PROTOCOLS /\ safe_directory dir = true /\
  texts_accepted dir protocol (is_some (expected_transport_case_id e)) /\
  exists s o,
    file dir PRIMARY_OBSERVATION_ARTIFACT MAX_JSON_BYTES = Decoded s (Some (PDict o)) /\
    as_expected protocol e o /\ ordinary_evidence protocol o /\
    (followup_exists dir = true -> exists t f,
       file dir FOLLOWUP_ARTIFACT MAX_JSON_BYTES = Decoded t (Some (PDict f)) /\ payload_free (PDict f)).
Proof.
  intros G. apply accepted_inv in G as (Hp & _ & Hs & Ht & s & o & Hf & Hpe & He & N).
  split; [done|]. split; [done|]. split; [done|].
  destruct (expected_inv o protocol false e Hpe He) as [A V].
  unfold _normal_evidence_errors in N. no_errors. exists s, o. split; [done|]. split; [done|].
  split; [apply ordinary_inv; [done|apply A|done|done|done]|].
  intros Hex. rewrite Hex in *.
  destruct (_read_json FOLLOWUP_ARTIFACT _) as [f fe] eqn:Er. no_errors. subst.
  apply read_json_inv in Er as (t & d & -> & Er). exists t, d. split; [done|].
  unfold _followup_safety_errors in *. no_errors. by eapply payload_free_iff.
Qed.
End Checker.
