(* ===== verification/EvidenceUrl.v ===== *)
(** * The url of the command text, read back by the checker

    For a host without brackets, [_safe_url_for_command] gives a url that
    [urlsplit] reads back with the same scheme, no user information, a path and a
    query of the two vocabularies, and no fragment. *)

From S2P Require Export EvidenceTheorems Shell.
From Stdlib Require Import QArith.
#[global] Open Scope Z_scope.

(** ** Partitions *)

Lemma partition_chars c l a b r : partition_sub [c] l = (a, b, r) -> ~ In c a /\ incl a l /\ incl r l.
Proof.
  revert a r. induction l as [|d l IH]; intros a r.
  - intros [= <- _ <-]. split; [intros []|]. by split; intros x [].
  - rewrite partition_cons. destruct (Ascii.eqb_spec c d) as [->|Hcd].
    + intros [= <- _ <-]. split; [intros []|]. split; [intros x []|]. intros x Hx. by right.
    + destruct (partition_sub [c] l) as [[a' b'] r'] eqn:E. intros [= <- -> <-].
      destruct (IH a' r' eq_refl) as (H1 & H2 & H3).
      split; [intros [->|Hin]; [done|by apply H1]|]. split.
      * intros x [->|Hx]; [by left|right; by apply H2].
      * intros x Hx. right. by apply H3.
Qed.

Lemma split_fuel_chars c fuel l x : (List.length l < fuel)%nat -> In x (split_fuel fuel [c] l) ->
  ~ In c x /\ incl x l.
Proof.
  revert l. induction fuel as [|fuel IH]; intros l Hl; [lia|]. cbn [split_fuel].
  destruct (partition_sub [c] l) as [[a b] r] eqn:E. apply partition_chars in E as P. destruct P as (H1 & H2 & H3).
  destruct b.
  - intros [<-|Hx]; [done|]. apply partition_length in E.
    destruct (IH r ltac:(lia) Hx) as [H4 H5]. split; [done|]. intros y Hy. by apply H3, H5.
  - by intros [<-|[]].
Qed.

Lemma last_In {A} (l : list A) d : l <> [] -> In (List.last l d) l.
Proof.
  induction l as [|x l IH]; [done|]. intros _. destruct l as [|y l]; [by left|]. right. by apply IH.
Qed.

Lemma rpartition_chars c s : ~ In c (S2L (rpartition_last (String c "") s)) /\
  incl (S2L (rpartition_last (String c "") s)) (S2L s).
Proof.
  unfold rpartition_last, py_split. change (S2L (String c "")) with [c]. unfold split_sub.
  assert (N : map L2S (split_fuel (S (List.length (S2L s))) [c] (S2L s)) <> []).
  { cbn [split_fuel]. destruct (partition_sub [c] (S2L s)) as [[a []] r]; done. }
  apply (last_In _ "") in N. apply in_map_iff in N as (x & Hx & Hin).
  rewrite <- Hx, S2L_L2S. apply split_fuel_chars in Hin; [done|lia].
Qed.

(** ** Characters of a network location *)

(** No delimiter, no bracket, no user information, no character that is removed. *)
Definition location_char (c : ascii) : bool := negb (char_in "/?#[]@" c) && negb (unsafe_byte c).

Lemma location_lower c : location_char c = true -> location_char (lower_char c) = true.
Proof. destruct c as [[] [] [] [] [] [] [] []]; vm_compute; try discriminate; done. Qed.

Lemma location_numeral c : numeral c = true -> location_char c = true.
Proof. destruct c as [[] [] [] [] [] [] [] []]; vm_compute; try discriminate; done. Qed.

Lemma forallb_incl {A} (p : A -> bool) l m : forallb p m = true -> incl l m -> forallb p l = true.
Proof. intros H I. by eapply forallb_sub. Qed.

Lemma partition_texts c s a b r : partition (String c "") s = (a, b, r) ->
  incl (S2L a) (S2L s) /\ incl (S2L r) (S2L s) /\ ~ In c (S2L a).
Proof.
  unfold partition. change (S2L (String c "")) with [c].
  destruct (partition_sub [c] (S2L s)) as [[a' b'] r'] eqn:E. intros [= <- <- <-]. rewrite !S2L_L2S.
  apply partition_chars in E as (H1 & H2 & H3). done.
Qed.

Lemma take_until_chars p l a b : take_until p l = (a, b) -> forallb (fun c => negb (p c)) a = true /\ incl a l.
Proof.
  revert a. induction l as [|c l IH]; intros a; cbn [take_until]; [intros [= <- <-]; split; [done|intros x []]|].
  destruct (p c) eqn:E; [intros [= <- <-]; split; [done|intros x []]|].
  destruct (take_until p l) as [a' b']. intros [= <- <-]. destruct (IH a' eq_refl) as [H1 H2]. cbn. rewrite E, H1.
  split; [done|]. intros x [->|Hx]; [by left|right; by apply H2].
Qed.

Lemma take_until_app p a c r : forallb (fun d => negb (p d)) a = true -> p c = true ->
  take_until p (a ++ c :: r) = (a, c :: r).
Proof.
  intros Ha Hc. induction a as [|d a IH]; cbn [app take_until]; [by rewrite Hc|].
  cbn [forallb] in Ha. apply andb_true_iff in Ha as [Hd Ha]. apply negb_true_iff in Hd. rewrite Hd.
  by rewrite IH.
Qed.

Lemma filter_id {A} (p : A -> bool) l : forallb p l = true -> List.filter p l = l.
Proof.
  induction l as [|x l IH]; [done|]. cbn [forallb List.filter]. intros H. apply andb_true_iff in H as [-> H].
  by rewrite IH.
Qed.

(** The location of a split url has no delimiter and none of the removed characters. *)
Lemma urlsplit_location `{Ip6Literal} url u : urlsplit url = Ok u ->
  forallb (fun c => negb (char_in "/?#" c) && negb (unsafe_byte c)) (S2L (netloc u)) = true.
Proof.
  unfold urlsplit. set (clean := List.filter _ _).
  assert (C : forallb (fun c => negb (unsafe_byte c)) clean = true).
  { apply forallb_forall. intros x Hx. by apply filter_In in Hx as [_ Hx]. }
  clearbody clean. destruct (split_scheme clean) as [sch rest] eqn:Es.
  assert (R : incl rest clean).
  { unfold split_scheme in Es. change (S2L ":") with [":"%char] in Es.
    destruct (partition_sub [":"%char] clean) as [[a b] r] eqn:Ep. apply partition_chars in Ep as (_ & _ & Hr).
    destruct a as [|x a], b; try (injection Es as _ <-; apply incl_refl).
    destruct (is_alpha x && _); injection Es as _ <-; [done|apply incl_refl]. }
  destruct (match rest with [] => _ | _ => _ end) as [loc rest'] eqn:El.
  destruct (negb (netloc_ok (L2S loc))); [done|]. destruct (cut "#" _) as [r1 f]. destruct (cut "?" r1) as [p q].
  intros G. apply Ok_inj in G as <-. cbn [netloc]. rewrite S2L_L2S.
  assert (T : forallb (fun c => negb (char_in "/?#" c)) loc = true /\ incl loc clean).
  { destruct rest as [|a [|b r]]; try (injection El as <- <-; split; [done|intros x []]).
    destruct ((ord a =? 47) && (ord b =? 47)); [|injection El as <- <-; split; [done|intros x []]].
    apply take_until_chars in El as [H1 H2]. split; [done|]. intros x Hx. apply R. right. right. by apply H2. }
  destruct T as [T1 T2]. apply forallb_forall. intros x Hx. rewrite forallb_forall in T1, C.
  rewrite T1 by done. cbn [andb]. apply C. by apply T2.
Qed.

(** A url whose host is a name or an address without brackets. *)
Definition plain_host `{Ip6Literal} (url : string) : Prop :=
  exists u, urlsplit url = Ok u /\ forallb (fun c => negb (char_in "[]" c)) (S2L (netloc u)) = true.

Lemma not_contains c s : forallb location_char (S2L s) = true -> location_char c = false ->
  contains (String c "") s = false.
Proof.
  intros Hs Hc. unfold contains, contains_sub. change (S2L (String c "")) with [c].
  destruct (find_sub [c] (S2L s)) as [n|] eqn:E; [|done]. apply find_sub_split in E.
  rewrite forallb_forall in Hs. assert (I : In c (S2L s)); [|apply Hs in I; congruence].
  rewrite E. apply in_or_app. right. by left.
Qed.

Lemma no_brackets_ok `{Ip6Literal} s : forallb location_char (S2L s) = true -> netloc_ok s = true.
Proof.
  intros Hs. unfold netloc_ok.
  by rewrite (not_contains "["%char s Hs eq_refl), (not_contains "]"%char s Hs eq_refl).
Qed.

(** ** The host *)

Definition host_char (c : ascii) : bool := location_char c && negb (ord c =? 58).

Lemma host_lower c : host_char c = true -> host_char (lower_char c) = true.
Proof. destruct c as [[] [] [] [] [] [] [] []]; vm_compute; try discriminate; done. Qed.

Lemma partition_absent c s : ~ In c (S2L s) -> partition (String c "") s = (s, false, "").
Proof.
  intros Hc. unfold partition. change (S2L (String c "")) with [c]. unfold partition_sub.
  destruct (find_sub [c] (S2L s)) as [n|] eqn:E.
  - exfalso. apply Hc. apply find_sub_split in E. rewrite E. apply in_or_app. right. by left.
  - by rewrite L2S_S2L.
Qed.

Lemma forallb_map_lower p l : (forall c, p c = true -> p (lower_char c) = true) -> forallb p l = true ->
  forallb p (map lower_char l) = true.
Proof.
  intros Hp Hl. apply forallb_forall. intros x Hx. apply in_map_iff in Hx as (y & <- & Hy).
  rewrite forallb_forall in Hl. by apply Hp, Hl.
Qed.

Lemma py_lower_chars s : S2L (py_lower s) = map lower_char (S2L s).
Proof. unfold py_lower. by rewrite S2L_L2S. Qed.

Lemma plain_hostname `{Ip6Literal} url u : urlsplit url = Ok u ->
  forallb (fun c => negb (char_in "[]" c)) (S2L (netloc u)) = true ->
  forallb host_char (S2L (hostname u)) = true.
Proof.
  intros Hu Hb. apply urlsplit_location in Hu. unfold hostname, hostinfo.
  destruct (rpartition_chars "@"%char (netloc u)) as [Ha Hi].
  remember (rpartition_last (String "@"%char "") (netloc u)) as info eqn:Einfo. clear Einfo.
  assert (L : forall c, In c (S2L info) -> location_char c = true).
  { intros c Hc. rewrite forallb_forall in Hu, Hb. specialize (Hu c (Hi c Hc)). specialize (Hb c (Hi c Hc)).
    assert (Hat : Ascii.eqb c "@" = false) by (apply Ascii.eqb_neq; by intros ->).
    revert Hu Hb Hat. clear. destruct c as [[] [] [] [] [] [] [] []]; vm_compute; try discriminate; done. }
  rewrite (partition_absent "["%char info) by (intros Hin; by apply L in Hin). cbv iota zeta beta.
  destruct (partition (String ":"%char "") info) as [[host b] p] eqn:Ep. apply partition_texts in Ep as (I1 & _ & N).
  cbn [fst].
  destruct (partition (String "%"%char "") host) as [[h f] zone] eqn:Eh. apply partition_texts in Eh as (I2 & I3 & _).
  assert (A : forall c, In c (S2L host) -> host_char c = true).
  { intros c Hc. unfold host_char. rewrite (L c (I1 c Hc)). cbn [andb]. apply negb_true_iff, Z.eqb_neq. intros E.
    apply N. by replace ":"%char with c by (by apply ord_inj). }
  rewrite !S2L_app, !forallb_app, py_lower_chars. apply andb_true_iff. split.
  - apply forallb_map_lower; [apply host_lower|]. apply forallb_forall. intros c Hc. by apply A, I2.
  - apply andb_true_iff. split; [by destruct f|]. apply forallb_forall. intros c Hc. by apply A, I3.
Qed.

Lemma host_location l : forallb host_char l = true -> forallb location_char l = true.
Proof.
  intros Hl. apply forallb_forall. rewrite forallb_forall in Hl. intros c Hc. apply Hl in Hc.
  by apply andb_true_iff in Hc as [Hc _].
Qed.

Lemma host_no_colon s : forallb host_char (S2L s) = true -> contains ":" s = false.
Proof.
  intros Hs. unfold contains, contains_sub. change (S2L ":") with [":"%char].
  destruct (find_sub _ _) as [n|] eqn:E; [|done]. apply find_sub_split in E. rewrite forallb_forall in Hs.
  assert (I : In ":"%char (S2L s)) by (rewrite E; apply in_or_app; right; by left). by apply Hs in I.
Qed.

(** ** Reading back *)

Definition no_unsafe (l : chars) : bool := forallb (fun c => negb (unsafe_byte c)) l.

Lemma location_no_unsafe l : forallb location_char l = true -> no_unsafe l = true.
Proof.
  intros Hl. apply forallb_forall. rewrite forallb_forall in Hl. intros c Hc. apply Hl in Hc.
  by apply andb_true_iff in Hc as [_ Hc].
Qed.

(** [urlsplit] of [scheme://location/path] with a safe path and query. *)
Lemma urlsplit_assembled `{Ip6Literal} sch loc path q : In sch ["http"; "https"] ->
  forallb location_char (S2L loc) = true -> In path SAFE_COMMAND_URL_PATHS -> In q [""; "?[redacted]"] ->
  urlsplit (sch +:+ "://" +:+ loc +:+ path +:+ q)
  = Ok {| scheme := sch; netloc := loc; url_path := path;
          query := if String.eqb q "" then "" else "[redacted]"; fragment := "" |}.
Proof.
  intros Hsch Hloc Hpath Hq. unfold urlsplit.
  assert (D : drop_while c0_or_space (S2L (sch +:+ "://" +:+ loc +:+ path +:+ q))
            = S2L (sch +:+ "://" +:+ loc +:+ path +:+ q)) by (by destruct Hsch as [<-|[<-|[]]]).
  rewrite D. clear D. rewrite filter_id.
  2:{ rewrite !S2L_app, !forallb_app. rewrite (location_no_unsafe _ Hloc : forallb _ (S2L loc) = true).
      destruct Hsch as [<-|[<-|[]]]; destruct Hpath as [<-|[<-|[<-|[<-|[<-|[<-|[]]]]]]];
        destruct Hq as [<-|[<-|[]]]; reflexivity. }
  assert (S : split_scheme (S2L (sch +:+ "://" +:+ loc +:+ path +:+ q)) = (sch, S2L ("//" +:+ loc +:+ path +:+ q))).
  { unfold split_scheme. change (S2L ":") with [":"%char].
    destruct Hsch as [<-|[<-|[]]]; rewrite S2L_app;
      [change (S2L "http") with ["h"%char; "t"%char; "t"%char; "p"%char]
      |change (S2L "https") with ["h"%char; "t"%char; "t"%char; "p"%char; "s"%char]];
      cbn [app]; rewrite !partition_cons; reflexivity. }
  rewrite S. clear S. rewrite S2L_app. change (S2L "//") with ["/"%char; "/"%char]. cbn [app].
  change ((ord "/" =? 47) && (ord "/" =? 47)) with true. cbv iota.
  assert (P : exists r, S2L (path +:+ q) = "/"%char :: r).
  { destruct Hpath as [<-|[<-|[<-|[<-|[<-|[<-|[]]]]]]]; destruct Hq as [<-|[<-|[]]]; by eexists. }
  destruct P as [r Er]. rewrite S2L_app, Er, take_until_app; [|apply forallb_forall|reflexivity].
  2:{ intros c Hc. rewrite forallb_forall in Hloc. apply Hloc in Hc. revert Hc. clear.
      destruct c as [[] [] [] [] [] [] [] []]; vm_compute; try discriminate; done. }
  rewrite L2S_S2L, no_brackets_ok by done. cbn [negb]. rewrite <- Er, L2S_S2L.
  destruct Hpath as [<-|[<-|[<-|[<-|[<-|[<-|[]]]]]]]; destruct Hq as [<-|[<-|[]]]; reflexivity.
Qed.

(** The checker accepts the url the client leaves in the command text, which is a
    single line that begins like a url. *)
Lemma safe_url_accepted `{Ip6Literal} url protocol sch : plain_host url -> _validate_url url protocol = Ok sch ->
  exists rest, _safe_url_for_command url = Ok (String "h" rest) /\
    url_argument_errors (String "h" rest) = [] /\ no_unsafe (S2L rest) = true.
Proof.
  intros (u & Hu & Hb) Hv. unfold _validate_url in Hv. rewrite Hu in Hv. unfold guard in Hv.
  destruct (str_in (scheme u) _ && _) eqn:Es; [|done]. apply andb_true_iff in Es as [Es _]. apply str_in_In in Es.
  destruct (single_line url); [|done]. destruct (String.eqb (fragment u) ""); [|done].
  destruct (port u) as [po|] eqn:Epo; [|done]. clear Hv.
  unfold _safe_url_for_command. rewrite Hu, Epo. cbv zeta.
  pose proof (plain_hostname url u Hu Hb) as Hh. rewrite (host_no_colon _ Hh). cbn [andb].
  assert (N : forallb location_char (S2L (match po with Some z => hostname u +:+ ":" +:+ dec z
                                          | None => hostname u end)) = true).
  { destruct po as [z|]; [|by apply host_location]. rewrite !S2L_app, !forallb_app, host_location by done.
    cbn [andb]. apply andb_true_iff. split; [done|]. apply forallb_forall. intros c Hc.
    pose proof (dec_numeral z) as D. unfold texts_over in D. rewrite forallb_forall in D.
    by apply location_numeral, D. }
  remember (match po with Some z => _ | None => _ end) as loc eqn:El. clear El Hh Epo.
  set (path := if str_in (if String.eqb (url_path u) "" then "/" else url_path u) SAFE_PATHS then _ else _).
  assert (P : In path SAFE_COMMAND_URL_PATHS /\ exists r, path = String "/" r).
  { subst path. destruct (str_in _ SAFE_PATHS) eqn:Ep.
    - apply str_in_In in Ep. destruct Ep as [<-|[<-|[<-|[<-|[<-|[]]]]]];
        (split; [apply str_in_In; reflexivity|by eexists]).
    - split; [apply str_in_In; reflexivity|by eexists]. }
  clearbody path. destruct P as [P [pr Epr]].
  assert (U : urlunsplit (scheme u) loc path (if String.eqb (query u) "" then "" else "[redacted]")
            = scheme u +:+ "://" +:+ loc +:+ path +:+ (if String.eqb (query u) "" then "" else "?[redacted]")).
  { unfold urlunsplit. assert (Ep : String.eqb path "" = false /\ starts_with "/" path = true) by (by rewrite Epr).
    destruct Ep as [Ep1 Ep2]. rewrite Ep1, Ep2. cbn [negb andb].
    assert (Esch : String.eqb (scheme u) "" = false /\ str_in (scheme u) uses_netloc = true)
      by (by destruct Es as [<-|[<-|[]]]).
    destruct Esch as [-> ->]. cbn [negb andb orb].
    assert (Hs2 : starts_with "//" path = false)
      by (by destruct P as [<-|[<-|[<-|[<-|[<-|[<-|[]]]]]]]).
    rewrite Hs2. destruct (String.eqb_spec loc "") as [->|]; cbn [negb]; destruct (String.eqb (query u) "");
      change (String.eqb "" "") with true; change (String.eqb "[redacted]" "") with false; cbv iota;
      apply S2L_inj; rewrite ?S2L_app, ?app_nil_r, <- ?app_assoc; reflexivity. }
  rewrite U. clear U.
  assert (Q : In (if String.eqb (query u) "" then "" else "?[redacted]") [""; "?[redacted]"])
    by (destruct (String.eqb (query u) ""); [by left|right; by left]).
  remember (if String.eqb (query u) "" then "" else "?[redacted]") as q eqn:Eq. clear Eq.
  pose proof (urlsplit_assembled (scheme u) loc path q Es N P Q) as R.
  assert (F : exists rest, scheme u +:+ "://" +:+ loc +:+ path +:+ q = String "h" rest /\ no_unsafe (S2L rest) = true).
  { assert (T : no_unsafe (S2L ("://" +:+ loc +:+ path +:+ q)) = true).
    { unfold no_unsafe. rewrite !S2L_app, !forallb_app. rewrite (location_no_unsafe _ N : forallb _ (S2L loc) = true).
      destruct P as [<-|[<-|[<-|[<-|[<-|[<-|[]]]]]]]; destruct Q as [<-|[<-|[]]]; reflexivity. }
    destruct Es as [<-|[<-|[]]]; (eexists; split; [reflexivity|]); exact T. }
  destruct F as (rest & Ef & Hrest). exists rest. rewrite Ef. split; [done|]. split; [|done].
  unfold url_argument_errors. rewrite <- Ef, R. cbn [Url.scheme netloc url_path query fragment].
  rewrite (proj2 (str_in_In _ _) Es), (not_contains "@"%char loc N eq_refl), (proj2 (str_in_In _ _) P).
  destruct Q as [<-|[<-|[]]]; reflexivity.
Qed.
