(* ===== verification/EvidenceCommand.v ===== *)
(** * The command text of the client, accepted by the checker *)

From S2P Require Export EvidenceUrl.
From Stdlib Require Import QArith.
#[global] Open Scope Z_scope.

(** ** Inert words *)

(** Words of letters, digits and a few marks: every option of the command, its
    numbers, and the usual program paths and methods. *)
Definition inert_char (c : ascii) : bool := is_alnum c || char_in "_./+-" c.
Definition inert (s : string) : bool := forallb inert_char (S2L s).

Definition first_char (s : string) : option ascii := List.hd_error (S2L s).

(** A program or a method: inert, not an option, not named like a connection id. *)
Definition plain_word (s : string) : bool :=
  inert s && match first_char s with Some c => negb (Ascii.eqb c "-") | None => false end
  && negb (RAW_CONNECTION_ID_ARGUMENT s).

Lemma absent (p : ascii -> bool) (c : ascii) (l : chars) : forallb p l = true -> p c = false -> ~ In c l.
Proof. rewrite forallb_forall. intros Hl Hc Hin. apply Hl in Hin. congruence. Qed.

Lemma no_occurrence p c s : forallb p (S2L s) = true -> p c = false -> contains (String c "") s = false.
Proof.
  intros Hs Hc. unfold contains, contains_sub. change (S2L (String c "")) with [c].
  destruct (find_sub [c] (S2L s)) as [n|] eqn:E; [|done]. apply find_sub_split in E.
  exfalso. apply (absent p c (S2L s) Hs Hc). rewrite E. apply in_or_app. right. by left.
Qed.

Lemma starts_with_spec p s : starts_with p s = true -> exists r, S2L s = S2L p ++ r.
Proof. unfold starts_with. by rewrite is_prefix_spec. Qed.

Lemma inert_option_of s : inert s = true -> option_of s = s /\ partition "=" s = (s, false, "").
Proof.
  intros Hs. assert (P : partition "=" s = (s, false, "")).
  { apply partition_absent. by apply (absent inert_char). }
  split; [|done]. unfold option_of. by rewrite P.
Qed.

(** What the checks ask of an argument that is none of their concern. *)
Definition quiet (a : string) : bool :=
  inert a && negb (RAW_CONNECTION_ID_ARGUMENT a) && negb (str_in a REDACTED_COMMAND_VALUE_OPTIONS)
  && negb (String.eqb a "--output") && negb (starts_with "-o" a)
  && negb (str_in a FORBIDDEN_CAPTURE_OPTIONS) && negb (str_in a PROTOCOL_SELECTOR_OPTIONS).

Lemma plain_quiet s : plain_word s = true -> quiet s = true.
Proof.
  unfold plain_word, quiet, first_char. rewrite !andb_true_iff, !negb_true_iff. intros [[Hi Hf] Hr].
  destruct s as [|c s]; [done|]. cbn [S2L list_ascii_of_string List.hd_error] in Hf. apply negb_true_iff in Hf.
  assert (N : forall l, Forall (fun o => exists r, o = String "-" r) l -> str_in (String c s) l = false).
  { intros l Hl. destruct (str_in (String c s) l) eqn:E; [|done]. apply str_in_In in E.
    rewrite List.Forall_forall in Hl. destruct (Hl _ E) as [r Er]. injection Er as -> _. by rewrite Ascii.eqb_refl in Hf. }
  repeat split; try done; try (apply N; repeat constructor; by eexists).
  - destruct (String.eqb_spec (String c s) "--output") as [E|]; [|done]. injection E as -> _.
    by rewrite Ascii.eqb_refl in Hf.
  - destruct (starts_with "-o" (String c s)) eqn:E; [|done]. apply starts_with_spec in E as [r E].
    rewrite S2L_cons in E. injection E as -> _. by rewrite Ascii.eqb_refl in Hf.
Qed.

(** ** Numbers *)

Lemma numeral_inert c : numeral c = true -> inert_char c = true.
Proof. destruct c as [[] [] [] [] [] [] [] []]; vm_compute; try discriminate; done. Qed.

Definition argument_re : re := RCat (ROpt (RLit "--")) CONNECTION_ID.
Definition dash_re : re := deriv "-" argument_re.
Definition dashes_re : re := deriv "-" dash_re.

Lemma numeral_steps c : numeral c = true ->
  (deriv (lower_char c) argument_re = RNone \/ deriv (lower_char c) argument_re = dash_re) /\
  (deriv (lower_char c) dash_re = RNone \/ deriv (lower_char c) dash_re = dashes_re) /\
  deriv (lower_char c) dashes_re = RNone.
Proof.
  destruct c as [[] [] [] [] [] [] [] []]; vm_compute numeral; try discriminate;
    intros _; vm_compute; repeat split; auto.
Qed.

Lemma numeral_no_id l rest : forallb numeral l = true -> match_then argument_re rest (map lower_char l) = false.
Proof.
  intros Hl. destruct l as [|c l]; [done|]. cbn [forallb] in Hl. apply andb_true_iff in Hl as [Hc Hl].
  change (match_then (deriv (lower_char c) argument_re) rest (map lower_char l) = false).
  destruct (numeral_steps c Hc) as [[->| ->] _]; [by destruct l|].
  destruct l as [|d l]; [done|]. cbn [forallb] in Hl. apply andb_true_iff in Hl as [Hd Hl].
  change (match_then (deriv (lower_char d) dash_re) rest (map lower_char l) = false).
  destruct (numeral_steps d Hd) as (_ & [->| ->] & _); [by destruct l|].
  destruct l as [|e l]; [done|]. cbn [forallb] in Hl. apply andb_true_iff in Hl as [He _].
  change (match_then (deriv (lower_char e) dashes_re) rest (map lower_char l) = false).
  destruct (numeral_steps e He) as (_ & _ & ->). by destruct l.
Qed.

Lemma format_quiet q : quiet (format_6g q) = true.
Proof.
  pose proof (format_numeral q) as H0. remember (format_6g q) as s eqn:E. clear E. unfold texts_over in H0.
  unfold quiet. rewrite !andb_true_iff, !negb_true_iff.
  assert (N : forall l, forallb (fun o => negb (forallb numeral (S2L o))) l = true -> str_in s l = false).
  { intros l Hl. destruct (str_in s l) eqn:E; [|done]. apply str_in_In in E.
    rewrite forallb_forall in Hl. apply Hl in E. by rewrite H0 in E. }
  repeat split; try (by apply N).
  - apply forallb_forall. rewrite forallb_forall in H0. intros c Hc. by apply numeral_inert, H0.
  - by apply numeral_no_id.
  - destruct (String.eqb_spec s "--output") as [->|]; done.
  - destruct (starts_with "-o" s) eqn:E; [|done]. apply starts_with_spec in E as [r E]. by rewrite E in H0.
Qed.

(** ** Checks of a list that begins with quiet arguments *)

Lemma quiet_spec a : quiet a = true ->
  inert a = true /\ RAW_CONNECTION_ID_ARGUMENT a = false /\ str_in a REDACTED_COMMAND_VALUE_OPTIONS = false /\
  String.eqb a "--output" = false /\ starts_with "-o" a = false /\
  str_in a FORBIDDEN_CAPTURE_OPTIONS = false /\ str_in a PROTOCOL_SELECTOR_OPTIONS = false.
Proof. unfold quiet. rewrite !andb_true_iff, !negb_true_iff. tauto. Qed.

Lemma inert_not_assignment a o : inert a = true -> starts_with (o +:+ "=") a = false.
Proof.
  intros Ha. destruct (starts_with _ a) eqn:E; [|done]. apply starts_with_spec in E as [r E].
  exfalso. apply (absent inert_char "="%char (S2L a) Ha eq_refl). rewrite E, S2L_app, <- app_assoc.
  apply in_or_app. right. by left.
Qed.

Lemma find_none {A} (p : A -> bool) l : (forall x, p x = false) -> List.find p l = None.
Proof. intros Hp. induction l as [|x l IH]; [done|]. cbn [List.find]. by rewrite Hp. Qed.

Lemma quiet_safety a rest : quiet a = true ->
  _command_argument_safety_errors (a :: rest) = _command_argument_safety_errors rest.
Proof.
  intros Ha. destruct (quiet_spec a Ha) as (Hi & Hr & Hn & _). cbn [_command_argument_safety_errors].
  unfold _redacted_option_error. rewrite Hr, Hn, find_none; [done|]. intros o. by rewrite inert_not_assignment.
Qed.

Lemma output_skip a rest : output_option_of a = NoOutput -> str_in (option_of a) FORBIDDEN_CAPTURE_OPTIONS = false ->
  _command_output_destinations (a :: rest) = _command_output_destinations rest.
Proof.
  intros Ho Hf. cbn [_command_output_destinations]. rewrite Ho, Hf. cbn [report app].
  by destruct (_command_output_destinations rest).
Qed.

Lemma quiet_output a rest : quiet a = true ->
  _command_output_destinations (a :: rest) = _command_output_destinations rest.
Proof.
  intros Ha. destruct (quiet_spec a Ha) as (Hi & _ & _ & Ho & Hs & Hf & _).
  destruct (inert_option_of a Hi) as [E1 E2]. apply output_skip; [|by rewrite E1].
  unfold output_option_of. rewrite E2, Ho.
  assert (N : String.eqb a "-o" = false).
  { destruct (String.eqb_spec a "-o") as [->|]; [by vm_compute in Hs|done]. }
  by rewrite N, Hs.
Qed.

Lemma quiet_app {B} (f : list string -> B) l rest :
  (forall a r, quiet a = true -> f (a :: r) = f r) -> forallb quiet l = true -> f (l ++ rest) = f rest.
Proof.
  intros Hf Hl. induction l as [|a l IH]; [done|]. cbn [forallb] in Hl. apply andb_true_iff in Hl as [Ha Hl].
  cbn [app]. by rewrite Hf, IH.
Qed.

Lemma quiet_url `{Ip6Literal} a : quiet a = true -> url_argument_errors a = [].
Proof.
  intros Ha. destruct (quiet_spec a Ha) as (Hi & _). unfold inert in Hi. unfold url_argument_errors, urlsplit.
  set (clean := List.filter _ _).
  assert (C : forallb inert_char clean = true).
  { eapply forallb_sub; [exact Hi|]. intros c Hc. apply filter_In in Hc as [Hc _]. by apply incl_drop_while in Hc. }
  clearbody clean.
  assert (S : split_scheme clean = ("", clean)).
  { unfold split_scheme. change (S2L ":") with [":"%char].
    unfold partition_sub. destruct (find_sub [":"%char] clean) as [n|] eqn:E; [|by destruct clean].
    exfalso. apply find_sub_split in E. apply (absent inert_char ":"%char clean C eq_refl). rewrite E.
    apply in_or_app. right. by left. }
  rewrite S. destruct (match clean with [] => _ | _ => _ end) as [loc rest] eqn:El.
  assert (L : incl loc clean).
  { destruct clean as [|x [|y r]]; try (injection El as <- <-; by intros z []).
    destruct ((ord x =? 47) && (ord y =? 47)); [|injection El as <- <-; by intros z []].
    apply take_until_chars in El as [_ El]. intros z Hz. right. right. by apply El. }
  assert (O : netloc_ok (L2S loc) = true).
  { assert (F : forallb inert_char (S2L (L2S loc)) = true) by (rewrite S2L_L2S; by eapply forallb_sub).
    unfold netloc_ok. by rewrite (no_occurrence inert_char "["%char _ F eq_refl), (no_occurrence inert_char "]"%char _ F eq_refl). }
  rewrite O. cbn [negb]. destruct (cut "#" _) as [r1 f]. destruct (cut "?" r1). done.
Qed.

(** ** The redacted arguments *)

Lemma masked_safety o n rest : In o REDACTED_OPTIONS ->
  _command_argument_safety_errors (masked o n ++ rest) = _command_argument_safety_errors rest.
Proof.
  intros Ho. unfold masked, option_pairs. induction n as [|n IH]; [done|].
  cbn [repeat flat_map app] in *. rewrite <- IH. by destruct Ho as [<-|[<-|[<-|[<-|[]]]]].
Qed.

Lemma masked_output o n rest : In o REDACTED_OPTIONS ->
  _command_output_destinations (masked o n ++ rest) = _command_output_destinations rest.
Proof.
  intros Ho. unfold masked, option_pairs. induction n as [|n IH]; [done|].
  cbn [repeat flat_map app] in *. rewrite <- IH. remember (flat_map _ _ ++ rest) as l eqn:E. clear E IH.
  destruct (_command_output_destinations l) as [d e] eqn:El.
  destruct Ho as [<-|[<-|[<-|[<-|[]]]]]; cbn; by rewrite El.
Qed.

Lemma masked_all {B} (f : string -> list B) o n : In o REDACTED_OPTIONS ->
  (forall x, In x (REDACTED_COMMAND_VALUE :: REDACTED_OPTIONS) -> f x = []) -> flat_map f (masked o n) = [].
Proof.
  intros Ho Hf. unfold masked, option_pairs. induction n as [|n IH]; [done|].
  cbn [repeat flat_map app]. rewrite IH, (Hf o), (Hf "[redacted]"); [done|by left|by right].
Qed.

(** The arguments of the redacted command. *)
Definition redacted_tail (c : ClientConfig) (rest : list string) : list string :=
  masked "--cacert" (List.length (opt_list (cacert c)))
  ++ masked "--resolve" (List.length (resolve c)) ++ masked "--header" (List.length (headers c))
  ++ masked "--header" (List.length (opt_list (transport_case_id c)))
  ++ masked "--data-binary" (List.length (opt_list (data_file c))) ++ rest.

Definition head_before : list string := ["--silent"; "--show-error"; "--fail-with-body"].
Definition head_after (c : ClientConfig) : list string :=
  ["--request"; request c; "--max-time"; format_6g (timeout c)]
  ++ option_pairs "--connect-timeout" (map format_6g (opt_list (connect_timeout c)))
  ++ (if insecure c then ["--insecure"] else []).

Lemma head_parts c : public_head c = (curl c :: head_before) ++ ["--output"; "/dev/null"] ++ head_after c.
Proof. reflexivity. Qed.

Definition plain_program (c : ClientConfig) : Prop := plain_word (curl c) = true /\ plain_word (request c) = true.

Lemma head_quiet c : plain_program c -> forallb quiet (curl c :: head_before) = true /\ forallb quiet (head_after c) = true.
Proof.
  intros [Hc Hr]. split.
  - cbn [forallb head_before]. rewrite plain_quiet by done. reflexivity.
  - unfold head_after. rewrite !forallb_app. cbn [forallb]. rewrite (plain_quiet (request c)), format_quiet by done.
    apply andb_true_iff. split; [reflexivity|]. apply andb_true_iff. split; [|by destruct (insecure c)].
    destruct (connect_timeout c) as [q|]; [|done]. cbn [opt_list map option_pairs flat_map app forallb].
    by rewrite format_quiet.
Qed.

Lemma tail_all {B} (f : string -> list B) c rest :
  (forall x, In x (REDACTED_COMMAND_VALUE :: REDACTED_OPTIONS) -> f x = []) ->
  flat_map f (redacted_tail c rest) = flat_map f rest.
Proof.
  intros Hf. unfold redacted_tail. rewrite !flat_map_app.
  rewrite !masked_all by first [exact Hf|apply str_in_In; reflexivity]. done.
Qed.

Lemma tail_safety c rest :
  _command_argument_safety_errors (redacted_tail c rest) = _command_argument_safety_errors rest.
Proof. unfold redacted_tail. rewrite !masked_safety by (apply str_in_In; reflexivity). done. Qed.

Lemma tail_output c rest : _command_output_destinations (redacted_tail c rest) = _command_output_destinations rest.
Proof. unfold redacted_tail. rewrite !masked_output by (apply str_in_In; reflexivity). done. Qed.

Lemma flat_map_quiet {B} (f : string -> list B) l : (forall a, quiet a = true -> f a = []) -> forallb quiet l = true ->
  flat_map f l = [].
Proof.
  intros Hf Hl. induction l as [|a l IH]; [done|]. cbn [forallb] in Hl. apply andb_true_iff in Hl as [Ha Hl].
  cbn [flat_map]. by rewrite Hf, IH.
Qed.

Lemma filter_flat_map {A} (p : A -> bool) l : List.filter p l = flat_map (fun a => if p a then [a] else []) l.
Proof. induction l as [|x l IH]; [done|]. cbn [List.filter flat_map]. rewrite IH. by destruct (p x). Qed.

(** The last arguments: the flag, the format of the report and the url. *)
Definition last_arguments (protocol mode safe : string) : list string :=
  [protocol_flag protocol; "--write-out"; writeout_format mode; safe].

Lemma writeout_cases mode : writeout_format mode = writeout_format "json" \/ writeout_format mode = writeout_format "fields".
Proof. unfold writeout_format. destruct (String.eqb mode "json"); [by left|by right]. Qed.

Lemma h_argument rest : RAW_CONNECTION_ID_ARGUMENT (String "h" rest) = false /\
  str_in (String "h" rest) PROTOCOL_SELECTOR_OPTIONS = false /\
  _redacted_option_error (String "h" rest) None = None /\
  output_option_of (String "h" rest) = NoOutput /\
  str_in (option_of (String "h" rest)) FORBIDDEN_CAPTURE_OPTIONS = false.
Proof.
  assert (O : exists r b v, partition "=" (String "h" rest) = (String "h" r, b, v)).
  { unfold partition. change (S2L "=") with ["="%char]. rewrite S2L_cons, partition_cons.
    change (Ascii.eqb "=" "h") with false. cbv iota. destruct (partition_sub ["="%char] (S2L rest)) as [[a b] v].
    by eexists _, _, _. }
  destruct O as (r & b & v & O). unfold output_option_of, option_of. rewrite O. cbn [fst].
  split; [|repeat split].
  change (match_then RNone argument_end (lower_chars rest) = false). by destruct (lower_chars rest).
Qed.

Lemma last_accepted `{Ip6Literal} protocol mode rest : In protocol CANONICAL_PROTOCOLS ->
  url_argument_errors (String "h" rest) = [] ->
  let l := last_arguments protocol mode (String "h" rest) in
  _command_argument_safety_errors l = [] /\ flat_map url_argument_errors l = [] /\
  List.filter (fun a => str_in a PROTOCOL_SELECTOR_OPTIONS) l = [protocol_flag protocol] /\
  _command_output_destinations l = ([], []).
Proof.
  intros Hp Hu. destruct (h_argument rest) as (H1 & H2 & H3 & H4 & H5). cbv zeta. unfold last_arguments.
  assert (W : exists w, writeout_format mode = w /\ In w [writeout_format "json"; writeout_format "fields"])
    by (destruct (writeout_cases mode) as [->| ->]; eexists; (split; [reflexivity|]); [by left|right; by left]).
  destruct W as (w & -> & Hw).
  assert (F : In (protocol_flag protocol) ["--http1.1"; "--http2"; "--http2-prior-knowledge"; "--http3-only"])
    by (apply str_in_In; by destruct Hp as [<-|[<-|[<-|[<-|[]]]]]).
  remember (protocol_flag protocol) as flag eqn:E. clear E Hp.
  assert (S1 : _command_argument_safety_errors [String "h" rest] = [])
    by (cbn [_command_argument_safety_errors List.hd_error]; by rewrite H1, H3).
  assert (S2 : _command_output_destinations [String "h" rest] = ([], []))
    by (cbn [_command_output_destinations]; by rewrite H4, H5).
  split; [|split; [|split]].
  - transitivity (_command_argument_safety_errors [String "h" rest]); [|exact S1]. destruct F as [<-|[<-|[<-|[<-|[]]]]], Hw as [<-|[<-|[]]]; reflexivity.
  - cbn [flat_map]. rewrite Hu. destruct F as [<-|[<-|[<-|[<-|[]]]]], Hw as [<-|[<-|[]]]; reflexivity.
  - cbn [List.filter]. rewrite H2. destruct F as [<-|[<-|[<-|[<-|[]]]]], Hw as [<-|[<-|[]]]; reflexivity.
  - rewrite 3!output_skip; [exact S2|..]; destruct F as [<-|[<-|[<-|[<-|[]]]]], Hw as [<-|[<-|[]]]; reflexivity.
Qed.

(** The arguments of the redacted command pass every check of the arguments. *)
Lemma arguments_accepted `{Ip6Literal} c protocol mode rest : plain_program c -> In protocol CANONICAL_PROTOCOLS ->
  url_argument_errors (String "h" rest) = [] ->
  let l := public_head c ++ redacted_tail c (last_arguments protocol mode (String "h" rest)) in
  _command_argument_safety_errors l = [] /\ _command_url_safety_errors l = [] /\ _command_policy_errors l protocol = [].
Proof.
  intros Hc Hp Hu. destruct (head_quiet c Hc) as [Q1 Q2].
  destruct (last_accepted protocol mode rest Hp Hu) as (L1 & L2 & L3 & L4). cbv zeta in *.
  remember (last_arguments protocol mode (String "h" rest)) as last eqn:E. clear E.
  rewrite head_parts, <- !app_assoc. split; [|split].
  - rewrite (quiet_app _ _ _ quiet_safety Q1). cbn [app].
    change (_command_argument_safety_errors (head_after c ++ redacted_tail c last) = []).
    by rewrite (quiet_app _ _ _ quiet_safety Q2), tail_safety.
  - unfold _command_url_safety_errors. rewrite !flat_map_app.
    rewrite (flat_map_quiet _ _ quiet_url Q1), (flat_map_quiet _ _ quiet_url Q2), tail_all, L2; [reflexivity|].
    intros x Hx. by destruct Hx as [<-|[<-|[<-|[<-|[<-|[]]]]]].
  - unfold _command_policy_errors, _command_output_safety_errors.
    assert (F : str_in "--fail-with-body" ((curl c :: head_before) ++ ["--output"; "/dev/null"] ++ head_after c
                  ++ redacted_tail c last) = true).
    { apply str_in_In, in_or_app. left. right. apply str_in_In. reflexivity. }
    rewrite F. rewrite filter_flat_map, !flat_map_app.
    assert (S : forall a, quiet a = true -> (if str_in a PROTOCOL_SELECTOR_OPTIONS then [a] else []) = [])
      by (intros a Ha; by destruct (quiet_spec a Ha) as (_ & _ & _ & _ & _ & _ & ->)).
    rewrite (flat_map_quiet _ _ S Q1), (flat_map_quiet _ _ S Q2).
    rewrite tail_all by (intros x Hx; by destruct Hx as [<-|[<-|[<-|[<-|[<-|[]]]]]]).
    rewrite <- (filter_flat_map _ last), L3.
    rewrite (quiet_app _ _ _ quiet_output Q1). cbn [app].
    assert (O : _command_output_destinations ("--output" :: "/dev/null" :: head_after c ++ redacted_tail c last)
              = (let '(d, e) := _command_output_destinations (head_after c ++ redacted_tail c last)
                 in ("/dev/null" :: d, e))).
    { remember (head_after c ++ redacted_tail c last) as l eqn:El. clear.
      change (_command_output_destinations ("--output" :: "/dev/null" :: l)) with
        (let '(destinations, errors) := (let '(d, e) := _command_output_destinations l in ("/dev/null" :: d, e)) in
         (destinations, [] ++ errors)).
      by destruct (_command_output_destinations l). }
    rewrite O, (quiet_app _ _ _ quiet_output Q2), tail_output, L4. cbn [negb report app].
    rewrite !bool_decide_true by done. reflexivity.
Qed.

(** ** The text *)

Lemma url_colon `{Ip6Literal} url u : urlsplit url = Ok u -> scheme u <> "" -> In ":"%char (S2L url).
Proof.
  unfold urlsplit. set (clean := List.filter _ _). intros G Hs.
  assert (C : incl clean (S2L url)).
  { intros x Hx. apply filter_In in Hx as [Hx _]. by apply incl_drop_while in Hx. }
  clearbody clean. destruct (split_scheme clean) as [sch rest] eqn:Es.
  destruct (match rest with [] => _ | _ => _ end) as [loc rest'].
  destruct (negb (netloc_ok (L2S loc))); [done|]. destruct (cut "#" _) as [r1 f]. destruct (cut "?" r1) as [p q].
  apply Ok_inj in G as <-. cbn [Url.scheme] in Hs. unfold split_scheme, partition_sub in Es.
  change (S2L ":") with [":"%char] in Es. destruct (find_sub [":"%char] clean) as [n|] eqn:E.
  - apply C. apply find_sub_split in E. rewrite E. apply in_or_app. right. by left.
  - by destruct clean; injection Es as <- _.
Qed.

Lemma validated_colon `{Ip6Literal} url protocol sch : _validate_url url protocol = Ok sch -> In ":"%char (S2L url).
Proof.
  unfold _validate_url. intros V. destruct (urlsplit url) as [u|] eqn:Hu; [|done]. unfold guard in V.
  destruct (str_in (scheme u) _ && _) eqn:Es; [|done]. apply andb_true_iff in Es as [Es _]. apply str_in_In in Es.
  apply (url_colon url u Hu). by destruct Es as [<-|[<-|[]]].
Qed.

(** A text that the redaction leaves alone. *)
Definition untouched (url a : string) : Prop :=
  str_in a REDACTED_OPTIONS = false /\ String.eqb a url = false /\ redact_assignment a = a.

Lemma redact_untouched `{Ip6Literal} url l rest : Forall (untouched url) l ->
  redact url false (l ++ rest) = (let* r := redact url false rest in Ok (l ++ r)).
Proof.
  induction 1 as [|a l (H1 & H2 & H3) _ IH]; cbn [app]; [by destruct (redact url false rest)|].
  cbn [redact]. rewrite H1, H2, H3, IH. by destruct (redact url false rest).
Qed.

Lemma inert_untouched url a : inert a = true -> str_in a REDACTED_OPTIONS = false -> In ":"%char (S2L url) ->
  untouched url a.
Proof.
  intros Hi Hn Hc. split; [done|]. split.
  - apply String.eqb_neq. intros ->. by apply (absent inert_char ":"%char (S2L url)).
  - unfold redact_assignment. rewrite find_none; [done|]. intros o. by apply inert_not_assignment.
Qed.

Lemma quiet_untouched url l : forallb quiet l = true -> In ":"%char (S2L url) -> Forall (untouched url) l.
Proof.
  intros Hl Hc. apply List.Forall_forall. intros a Ha. rewrite forallb_forall in Hl. apply Hl in Ha.
  destruct (quiet_spec a Ha) as (Hi & _ & Hn & _). by apply inert_untouched.
Qed.

Lemma redacted_arguments `{Ip6Literal} c protocol mode sch : plain_program c -> In protocol CANONICAL_PROTOCOLS ->
  plain_host (url c) -> _validate_url (url c) protocol = Ok sch ->
  exists rest, url_argument_errors (String "h" rest) = [] /\ no_unsafe (S2L rest) = true /\
    redact (url c) false (curl_command c protocol (writeout_format mode))
    = Ok (public_head c ++ redacted_tail c (last_arguments protocol mode (String "h" rest))).
Proof.
  intros Hc Hp Hh Hv. destruct (safe_url_accepted _ _ _ Hh Hv) as (rest & Hs & Hu & Hr).
  pose proof (validated_colon _ _ _ Hv) as Hcol. exists rest. split; [done|]. split; [done|].
  rewrite redacted_form. destruct (head_quiet c Hc) as [Q1 Q2].
  assert (U : Forall (untouched (url c)) (public_head c)).
  { rewrite head_parts. apply List.Forall_app. split; [by apply quiet_untouched|].
    apply List.Forall_app. split; [|by apply quiet_untouched].
    repeat (apply List.Forall_cons; [by apply inert_untouched|]). apply List.Forall_nil. }
  assert (HH : redact (url c) false (public_head c) = Ok (public_head c)).
  { rewrite <- (app_nil_r (public_head c)) at 1. rewrite redact_untouched by done. cbn [redact]. by rewrite app_nil_r. }
  assert (T : redact (url c) false [protocol_flag protocol; "--write-out"; writeout_format mode; url c]
            = Ok (last_arguments protocol mode (String "h" rest))).
  { change [protocol_flag protocol; "--write-out"; writeout_format mode; url c]
      with ([protocol_flag protocol; "--write-out"; writeout_format mode] ++ [url c]).
    rewrite redact_untouched.
    - cbn [redact]. rewrite String.eqb_refl, Hs.
      assert (N : str_in (url c) REDACTED_OPTIONS = false); [|by rewrite N].
      destruct (str_in (url c) REDACTED_OPTIONS) eqn:E; [|done]. apply str_in_In in E.
      destruct E as [E|[E|[E|[E|[]]]]]; rewrite <- E in Hcol; exfalso; revert Hcol; clear; vm_compute; intuition discriminate.
    - apply List.Forall_cons; [|apply List.Forall_cons; [|apply List.Forall_cons; [|apply List.Forall_nil]]].
      + apply inert_untouched; [|..|done]; by destruct Hp as [<-|[<-|[<-|[<-|[]]]]].
      + by apply inert_untouched.
      + assert (W : forall w, ~ In ":"%char (S2L w) -> w <> url c) by (by intros w Hw ->).
        destruct (writeout_cases mode) as [-> | ->];
          (split; [reflexivity|]; split; [|reflexivity]; apply String.eqb_neq, W; vm_compute; intuition discriminate). }
  by rewrite HH, T.
Qed.

(** ** Lines *)

Definition no_newline (c : ascii) : bool := negb (ord c =? 10).

Lemma search_skip here l rest : forallb no_newline l = true ->
  search_line here false (l ++ rest) = search_line here false rest.
Proof.
  induction l as [|c l IH]; intros Hl; [done|]. cbn [forallb] in Hl. apply andb_true_iff in Hl as [Hc Hl].
  cbn [app search_line andb orb]. apply negb_true_iff in Hc. by rewrite Hc, IH.
Qed.

Lemma search_start here c l : search_line here true (c :: l) = here (c :: l) || search_line here false (c :: l).
Proof. reflexivity. Qed.

Lemma no_newline_lower c : no_newline c = true -> no_newline (lower_char c) = true.
Proof. destruct c as [[] [] [] [] [] [] [] []]; vm_compute; try discriminate; done. Qed.

Lemma quote_no_newline s : forallb no_newline (S2L s) = true -> forallb no_newline (S2L (shlex_quote s)) = true.
Proof.
  intros Hs. unfold shlex_quote. destruct (String.eqb s ""); [done|]. destruct (forallb shell_safe _); [done|].
  unfold py_replace. rewrite !S2L_app, !forallb_app, S2L_L2S. change (S2L "'") with [chr 39].
  rewrite replace_char, S2L_L2S. apply andb_true_iff. split; [done|]. apply andb_true_iff. split; [|done].
  apply forallb_forall. intros x Hx. apply in_flat_map in Hx as (y & Hy & Hx).
  rewrite forallb_forall in Hs. destruct (Ascii.eqb (chr 39) y); [|destruct Hx as [<-|[]]; by apply Hs].
  by destruct Hx as [<-|[<-|[<-|[<-|[<-|[]]]]]].
Qed.

Lemma join_cons s l : l <> [] -> shlex_join (s :: l) = shlex_quote s +:+ " " +:+ shlex_join l.
Proof. unfold shlex_join, py_join. by destruct l. Qed.

Lemma join_app l m : l <> [] -> m <> [] -> shlex_join (l ++ m) = shlex_join l +:+ " " +:+ shlex_join m.
Proof.
  intros Hl Hm. induction l as [|s l IH]; [done|]. destruct l as [|s' l]; [cbn [app]; by rewrite join_cons|].
  cbn [app] in *. rewrite (join_cons s (s' :: l ++ m)), IH, (join_cons s (s' :: l)) by done.
  apply S2L_inj. by rewrite !S2L_app, <- !app_assoc.
Qed.

Lemma join_no_newline l : Forall (fun s => forallb no_newline (S2L s) = true) l ->
  forallb no_newline (S2L (shlex_join l)) = true.
Proof.
  induction 1 as [|s l Hs _ IH]; [done|]. destruct l as [|s' l]; [by apply quote_no_newline|].
  rewrite join_cons, !S2L_app, !forallb_app, quote_no_newline, IH by done. done.
Qed.

Lemma header_after_word name w rest : forallb (fun c => negb (is_space c)) (S2L name) = true -> w <> [] ->
  forallb inert_char w = true -> header_at name (w ++ " "%char :: "-"%char :: rest) = false.
Proof.
  intros Hn Hw Hi. unfold header_at. destruct (is_prefix _ _) eqn:E; [|done]. apply is_prefix_spec in E as [r E].
  rewrite E, <- S2L_length, drop_app_length. cbn [andb].
  assert (I : forall c l, inert_char c = true -> (match drop_while is_space (c :: l) with d :: _ => ord d =? 58 | [] => false end) = false).
  { clear. intros c l. destruct c as [[] [] [] [] [] [] [] []]; vm_compute inert_char; try discriminate; done. }
  apply app_eq_inv in E as [(k & Ew & Er)|(k & Ew & Er)].
  - subst r. destruct k as [|c k]; [done|]. apply I. rewrite forallb_forall in Hi. apply Hi. rewrite Ew.
    apply in_or_app. right. by left.
  - destruct k as [|c k]; [cbn [app] in Er; subst r; done|]. injection Er as <- _. exfalso.
    rewrite Ew, forallb_app, andb_true_iff in Hn. by destruct Hn as [_ Hn].
Qed.

Lemma writeout_quoted mode : exists body,
  S2L (shlex_quote (writeout_format mode)) = "'"%char :: body ++ [chr 10; "'"%char] /\ forallb no_newline body = true.
Proof.
  destruct (writeout_cases mode) as [-> | ->].
  - exists (S2L "%{json}"). split; reflexivity.
  - exists (S2L ("PROTOCOL_CLIENT" +:+ tab +:+ "%{http_code}" +:+ tab +:+ "%{http_version}" +:+ tab
       +:+ "%{size_download}" +:+ tab +:+ "%{exitcode}")). split; reflexivity.
Qed.

(** No line of the text begins like a sensitive header. *)
Lemma text_not_sensitive w front mode rest : forallb inert_char (S2L w) = true -> w <> "" ->
  Forall (fun s => forallb no_newline (S2L s) = true) front -> no_unsafe (S2L rest) = true ->
  FORBIDDEN_TEXT_HEADERS
    (shlex_join ((w :: "--silent" :: front) ++ [writeout_format mode; String "h" rest]) +:+ newline) = false.
Proof.
  intros Hw Hne Hf Hr. unfold FORBIDDEN_TEXT_HEADERS, lower_chars.
  set (here := fun l => existsb _ SENSITIVE_HEADERS).
  assert (Q : shlex_quote w = w).
  { unfold shlex_quote. destruct (String.eqb_spec w "") as [|_]; [done|].
    assert (S : forallb shell_safe (S2L w) = true); [|by rewrite S]. apply forallb_forall.
    rewrite forallb_forall in Hw. intros c Hc. apply Hw in Hc. revert Hc. clear.
    destruct c as [[] [] [] [] [] [] [] []]; vm_compute; try discriminate; done. }
  assert (NW : forallb no_newline (S2L w) = true).
  { apply forallb_forall. rewrite forallb_forall in Hw. intros c Hc. apply Hw in Hc. revert Hc. clear.
    destruct c as [[] [] [] [] [] [] [] []]; vm_compute; try discriminate; done. }
  assert (NU : forallb no_newline (S2L (shlex_quote (String "h" rest))) = true).
  { apply quote_no_newline. rewrite S2L_cons. apply andb_true_iff. split; [done|].
    apply forallb_forall. unfold no_unsafe in Hr. rewrite forallb_forall in Hr. intros c Hc. apply Hr in Hc.
    unfold unsafe_byte in Hc. unfold no_newline. destruct (ord c =? 10); [|done].
    by rewrite orb_true_r in Hc. }
  assert (NF : forallb no_newline (S2L (shlex_join (w :: "--silent" :: front))) = true).
  { apply join_no_newline. by constructor; [|constructor]. }
  destruct (writeout_quoted mode) as (body & Eb & Hb).
  rewrite join_app, (join_cons (writeout_format mode)) by done.
  change (shlex_join [String "h" rest]) with (shlex_quote (String "h" rest)).
  rewrite !S2L_app, Eb. change (S2L " ") with [" "%char]. change (S2L newline) with [chr 10].
  assert (START : exists x y, w = String x y) by (destruct w; [done|by eexists _, _]).
  assert (F1 : exists f, S2L (shlex_join (w :: "--silent" :: front)) = S2L w ++ " "%char :: "-"%char :: f).
  { rewrite join_cons, Q, S2L_app by done. destruct front as [|x front]; [by eexists|].
    rewrite join_cons by done. by eexists. }
  destruct F1 as [f F1].
  remember (S2L (shlex_join (w :: "--silent" :: front))) as A eqn:EA. clear EA.
  remember (S2L (shlex_quote (String "h" rest))) as B eqn:EB. clear EB.
  rewrite !map_app. cbn [map]. rewrite map_app. cbn [map].
  change (lower_char " ") with " "%char. change (lower_char "'") with "'"%char. change (lower_char (chr 10)) with (chr 10).
  rewrite <- !app_assoc. cbn [app]. rewrite <- !app_assoc. cbn [app].
  assert (H0 : here (map lower_char A ++ " "%char :: "'"%char :: map lower_char body ++ chr 10 :: "'"%char :: " "%char
                 :: map lower_char B ++ [chr 10]) = false).
  { rewrite F1, map_app. cbn [map]. rewrite <- app_assoc. cbn [app].
    change (lower_char " ") with " "%char. change (lower_char "-") with "-"%char. subst here. cbv beta.
    assert (LI : forallb inert_char (map lower_char (S2L w)) = true).
    { apply forallb_map_lower; [|done]. clear. intros c. destruct c as [[] [] [] [] [] [] [] []]; vm_compute; try discriminate; done. }
    assert (LN : map lower_char (S2L w) <> []) by (destruct START as (x & y & ->); done).
    apply not_true_is_false. intros E. apply existsb_exists in E as (name & Hin & E).
    rewrite header_after_word in E; [done| |done|done]. by destruct Hin as [<-|[<-|[<-|[<-|[]]]]]. }
  assert (E0 : exists x y, A = x :: y) by (rewrite F1; destruct START as (x & y & ->); by eexists _, _).
  destruct E0 as (x & y & EA). rewrite EA in *. cbn [map app] in *. rewrite search_start, H0. cbn [orb].
  change (lower_char x :: map lower_char y ++ ?l) with (map lower_char (x :: y) ++ l).
  rewrite search_skip by (apply forallb_map_lower; [apply no_newline_lower|done]).
  change (" "%char :: "'"%char :: map lower_char body ++ ?l) with ((" "%char :: "'"%char :: map lower_char body) ++ l).
  rewrite search_skip.
  2:{ cbn [forallb]. apply (forallb_map_lower no_newline body no_newline_lower Hb). }
  change (search_line here false (chr 10 :: "'"%char :: " "%char :: map lower_char B ++ [chr 10]))
    with (here ("'"%char :: " "%char :: map lower_char B ++ [chr 10])
          || search_line here false (["'"%char; " "%char] ++ map lower_char B ++ [chr 10])).
  rewrite search_skip by done. rewrite search_skip by (apply forallb_map_lower; [apply no_newline_lower|done]).
  reflexivity.
Qed.

Lemma tail_app c l : redacted_tail c l = redacted_tail c [] ++ l.
Proof. unfold redacted_tail. by rewrite app_nil_r, <- !app_assoc. Qed.

Lemma masked_no_newline o n : In o REDACTED_OPTIONS -> Forall (fun s => forallb no_newline (S2L s) = true) (masked o n).
Proof.
  intros Ho. unfold masked, option_pairs. induction n as [|n IH]; [constructor|].
  cbn [repeat flat_map app]. constructor; [by destruct Ho as [<-|[<-|[<-|[<-|[]]]]]|by constructor].
Qed.

Lemma tail_no_newline c : Forall (fun s => forallb no_newline (S2L s) = true) (redacted_tail c []).
Proof.
  unfold redacted_tail.
  repeat (apply List.Forall_app; split; [apply masked_no_newline, str_in_In; reflexivity|]). constructor.
Qed.

Lemma quiet_no_newline l : forallb quiet l = true -> Forall (fun s => forallb no_newline (S2L s) = true) l.
Proof.
  intros Hl. apply List.Forall_forall. intros a Ha. rewrite forallb_forall in Hl. apply Hl in Ha.
  destruct (quiet_spec a Ha) as (Hi & _). apply forallb_forall. unfold inert in Hi. rewrite forallb_forall in Hi.
  intros c Hc. apply Hi in Hc. revert Hc. clear. destruct c as [[] [] [] [] [] [] [] []]; vm_compute; try discriminate; done.
Qed.

(** The command text of the client is accepted by the checker. *)
Lemma command_text_accepted `{Ip6Literal} c p command protocol sch : build_curl_command c p = Ok command ->
  _validate_config c = Ok (protocol, sch) -> plain_program c -> plain_host (url c) ->
  exists text, _redacted_command command (url c) = Ok text /\ _validate_command text protocol = [].
Proof.
  intros G Hcfg Hc Hh. apply build_inv in G as (protocol' & sch' & Hcfg' & _ & -> & _).
  rewrite Hcfg in Hcfg'. injection Hcfg' as <- <-.
  assert (Hp : In protocol CANONICAL_PROTOCOLS).
  { apply config_inv in Hcfg as [Hp _]. by eapply normalize_canonical. }
  assert (Hv : exists s, _validate_url (url c) protocol = Ok s).
  { unfold _validate_config in Hcfg. destruct (normalize_protocol (Protocol.protocol c)) as [q|] eqn:Eq; [|done].
    destruct (_validate_timeouts c); [|done]. destruct (_validate_request _); [|done].
    destruct (_validate_url (url c) q) as [s|] eqn:Eu; [|done].
    assert (q = protocol) as <-; [|by exists s].
    repeat match type of Hcfg with (match ?x with _ => _ end) = _ => destruct x; [|done] end. by injection Hcfg. }
  destruct Hv as [s Hv].
  destruct (redacted_arguments c protocol (writeout_mode p) s Hc Hp Hh Hv) as (rest & Hu & Hr & Er).
  unfold _redacted_command. rewrite Er. eexists. split; [reflexivity|].
  destruct (arguments_accepted c protocol (writeout_mode p) rest Hc Hp Hu) as (A1 & A2 & A3).
  remember (public_head c ++ redacted_tail c (last_arguments protocol (writeout_mode p) (String "h" rest))) as l eqn:Edef.
  assert (P : shlex_split (shlex_join l +:+ newline) = Ok l) by (apply (shlex_round_trip l [chr 10]); reflexivity).
  assert (N : String.eqb (shlex_join l +:+ newline) ("not executed" +:+ newline) = false).
  { destruct (String.eqb_spec (shlex_join l +:+ newline) ("not executed" +:+ newline)) as [E|]; [|done].
    rewrite E in P. vm_compute in P. apply Ok_inj in P. rewrite Edef in P. discriminate P. }
  assert (F : FORBIDDEN_TEXT_HEADERS (shlex_join l +:+ newline) = false).
  { destruct (head_quiet c Hc) as [Q1 Q2].
    assert (El : exists front, l = (curl c :: "--silent" :: front) ++ [writeout_format (writeout_mode p); String "h" rest]
                 /\ Forall (fun s => forallb no_newline (S2L s) = true) front).
    { exists (["--show-error"; "--fail-with-body"; "--output"; "/dev/null"] ++ head_after c ++ redacted_tail c []
              ++ [protocol_flag protocol; "--write-out"]). split.
      - rewrite Edef, head_parts, tail_app. unfold last_arguments, head_before.
        rewrite <- !app_assoc. cbn [app]. rewrite <- !app_assoc. reflexivity.
      - apply List.Forall_app. split; [repeat (apply List.Forall_cons; [reflexivity|]); apply List.Forall_nil|].
        apply List.Forall_app. split; [by apply quiet_no_newline|].
        apply List.Forall_app. split; [apply tail_no_newline|].
        apply List.Forall_cons; [by destruct Hp as [<-|[<-|[<-|[<-|[]]]]]|].
        apply List.Forall_cons; [reflexivity|apply List.Forall_nil]. }
    destruct El as (front & El & Hf). rewrite El. destruct Hc as [Hc _]. unfold plain_word, inert in Hc.
    rewrite !andb_true_iff in Hc. destruct Hc as [[Hi Hf0] _].
    apply text_not_sensitive; [done| |done|done]. intros E0. by rewrite E0 in Hf0. }
  assert (M : match l with [] => ["client command is empty"] | _ => [] end = []) by (by rewrite Edef).
  unfold _validate_command, _parse_command_arguments. rewrite N, P. cbv iota beta zeta. by rewrite F, M, A1, A2, A3.
Qed.
