(* ===== verification/EvidenceFeatures.v ===== *)
(** * The feature report of the client, accepted by the checker *)

From S2P Require Export EvidenceCommand ProtocolTotal.
From Stdlib Require Import QArith.
#[global] Open Scope Z_scope.

(** ** Lines *)

Definition in_line (c : ascii) : bool := negb (line_boundary c).

Lemma splitlines_line acc a r : forallb in_line a = true ->
  splitlines_acc acc (a ++ chr 10 :: r) = (rev acc ++ a) :: splitlines_acc [] r.
Proof.
  revert acc. induction a as [|c a IH]; intros acc Ha.
  - cbn [app]. rewrite app_nil_r. cbn [splitlines_acc]. change (line_boundary (chr 10)) with true.
    cbv iota. by destruct r.
  - cbn [forallb] in Ha. apply andb_true_iff in Ha as [Hc Ha]. cbn [app splitlines_acc].
    apply negb_true_iff in Hc. rewrite Hc, IH by done. cbn [rev]. by rewrite <- app_assoc.
Qed.

(** A text of lines, each ended by a line feed. *)
Definition lines_text (l : list string) : chars := flat_map (fun s => S2L s ++ [chr 10]) l.

Lemma join_lines l : l <> [] -> S2L (py_join newline l +:+ newline) = lines_text l.
Proof.
  intros Hl. induction l as [|s l IH]; [done|]. destruct l as [|s' l].
  - unfold py_join, lines_text. cbn [String.concat flat_map]. by rewrite S2L_app, app_nil_r.
  - change (py_join newline (s :: s' :: l)) with (s +:+ newline +:+ py_join newline (s' :: l)).
    change (lines_text (s :: s' :: l)) with ((S2L s ++ [chr 10]) ++ lines_text (s' :: l)). rewrite <- IH by done.
    rewrite !S2L_app, <- !app_assoc. reflexivity.
Qed.

Lemma splitlines_lines l : Forall (fun s => forallb in_line (S2L s) = true) l ->
  map L2S (splitlines_acc [] (lines_text l)) = l.
Proof.
  induction 1 as [|s l Hs _ IH]; [done|]. change (lines_text (s :: l)) with ((S2L s ++ [chr 10]) ++ lines_text l).
  rewrite <- app_assoc. cbn [app]. rewrite splitlines_line by done. cbn [rev app map]. by rewrite L2S_S2L, IH.
Qed.

Lemma in_line_no_newline l : forallb in_line l = true -> forallb no_newline l = true.
Proof.
  apply forallb_imp. intros c.
  destruct c as [[] [] [] [] [] [] [] []]; vm_compute; try discriminate; done.
Qed.

(** ** Keys and values *)

Definition pair_line (kv : string * string) : string := fst kv +:+ "=" +:+ snd kv.

Lemma split_pair k v : ~ In "="%char (S2L k) -> py_split1 "=" (pair_line (k, v)) = Some (k, v).
Proof.
  intros Hk. unfold py_split1, split1, pair_line, partition_sub. cbn [fst snd].
  rewrite !S2L_app. change (S2L "=") with ["="%char].
  rewrite (find_sub_app "="%char [] (S2L k) (S2L v)) by done. cbn [List.length].
  rewrite take_length_app. rewrite Nat.add_comm. rewrite app_assoc.
  replace (1 + List.length (S2L k))%nat with (List.length (S2L k ++ ["="%char])) by (rewrite length_app; cbn; lia).
  by rewrite drop_app_length, !L2S_S2L.
Qed.

Lemma value_of_app k a b : value_of k (a ++ b) = match value_of k a with Some v => Some v | None => value_of k b end.
Proof. induction a as [|[k' v] a IH]; [done|]. cbn [app value_of]. by destruct (String.eqb k' k). Qed.

Lemma value_of_absent k l : ~ In k (map fst l) -> value_of k l = None.
Proof.
  induction l as [|[k' v] l IH]; [done|]. cbn [map fst value_of]. intros Hk.
  destruct (String.eqb_spec k' k) as [->|]; [by exfalso; apply Hk; left|]. apply IH. intros Hin. apply Hk. by right.
Qed.

Lemma parse_pairs pairs seen : Forall (fun kv => ~ In "="%char (S2L (fst kv))) pairs ->
  List.NoDup (map fst (seen ++ pairs)) ->
  fold_left report_line (map pair_line pairs) (seen, []) = (seen ++ pairs, []).
Proof.
  revert seen. induction pairs as [|[k v] pairs IH]; intros seen Hk Hd; [by rewrite app_nil_r|].
  inversion Hk as [|? ? Hk1 Hk2]; subst. cbn [map fold_left report_line]. rewrite split_pair by done.
  assert (N : value_of k seen = None).
  { apply value_of_absent. intros Hin. rewrite map_app in Hd. cbn [map fst] in Hd.
    apply NoDup_remove_2 in Hd. apply Hd. apply in_or_app. by left. }
  rewrite N. replace (seen ++ (k, v) :: pairs) with ((seen ++ [(k, v)]) ++ pairs) in * by (by rewrite <- app_assoc).
  by apply IH.
Qed.

(** ** Lists in a field *)

Lemma split_cons_app c a rest fuel : ~ In c a -> (List.length (a ++ c :: rest) < fuel)%nat ->
  split_fuel fuel [c] (a ++ c :: rest) = a :: split_fuel (pred fuel) [c] rest.
Proof.
  intros Ha Hf. destruct fuel as [|fuel]; [lia|]. cbn [split_fuel pred]. unfold partition_sub.
  change (a ++ c :: rest) with (a ++ [c] ++ rest).
  rewrite (find_sub_app c [] a rest) by done. rewrite take_length_app. cbn [List.length].
  replace (List.length a + 1)%nat with (List.length (a ++ [c])) by (rewrite length_app; cbn; lia).
  by rewrite app_assoc, drop_app_length.
Qed.

Lemma split_absent c a fuel : ~ In c a -> split_fuel fuel [c] a = [a].
Proof.
  intros Ha. destruct fuel as [|fuel]; [done|]. cbn [split_fuel]. unfold partition_sub.
  destruct (find_sub [c] a) as [n|] eqn:E; [|done]. exfalso. apply Ha. apply find_sub_split in E. rewrite E.
  apply in_or_app. right. by left.
Qed.

Lemma split_comma_join l : l <> [] -> Forall (fun s => ~ In ","%char (S2L s)) l -> py_split "," (py_join "," l) = l.
Proof.
  intros Hl Hf. unfold py_split, split_sub. change (S2L ",") with [","%char].
  assert (G : forall fuel, (List.length (S2L (py_join "," l)) < fuel)%nat ->
    map L2S (split_fuel fuel [","%char] (S2L (py_join "," l))) = l); [|apply G; lia].
  induction Hf as [|s l Hs Hf IH]; [done|]. intros fuel Hfuel. destruct l as [|s' l].
  - unfold py_join in *. cbn [String.concat] in *. rewrite split_absent by done. cbn [map]. by rewrite L2S_S2L.
  - change (py_join "," (s :: s' :: l)) with (s +:+ "," +:+ py_join "," (s' :: l)) in *.
    rewrite !S2L_app in *. change (S2L ",") with [","%char] in *. cbn [app] in *.
    rewrite split_cons_app by done. cbn [map]. rewrite L2S_S2L, IH; [done|done|].
    rewrite length_app in Hfuel. cbn [List.length] in Hfuel. lia.
Qed.

(** Words without commas are read back from a field. *)
Definition listable (s : string) : Prop := s <> "" /\ ~ In ","%char (S2L s).

Lemma items_join l : Forall listable l -> items (py_join "," l) = l.
Proof.
  intros Hl. unfold items. destruct l as [|s l]; [reflexivity|].
  rewrite split_comma_join; [|done|by eapply Forall_impl; [exact Hl|intros x [_ H]]].
  apply filter_id. apply forallb_forall. rewrite List.Forall_forall in Hl. intros x Hx. apply Hl in Hx as [Hx _].
  by apply negb_true_iff, String.eqb_neq.
Qed.

Lemma join_in_list item l : Forall (fun s => re_lang item (S2L s)) l ->
  re_lang (re_list item) (S2L (py_join "," l)).
Proof.
  intros Hl. unfold re_list, ROpt. destruct Hl as [|s l Hs Hl]; [apply L_rep0|].
  rewrite <- (app_nil_r (S2L (py_join "," (s :: l)))). apply L_repS; [done| |apply L_rep0].
  revert s Hs. induction Hl as [|s' l Hs' Hl IH]; intros s Hs.
  - unfold py_join. cbn [String.concat]. rewrite <- (app_nil_r (S2L s)). apply L_cat; [done|apply L_rep0].
  - change (py_join "," (s :: s' :: l)) with (s +:+ "," +:+ py_join "," (s' :: l)). rewrite !S2L_app.
    apply L_cat; [done|]. specialize (IH s' Hs'). apply lang_cat_inv in IH as (a & b & E & Ha & Hb).
    rewrite E, app_assoc. unfold RStar in *. apply L_repS; [done| |done].
    apply L_cat; [|done]. change (S2L ",") with ([","%char] ++ []). apply L_cat; [by constructor|constructor].
Qed.

(** ** The report *)

Definition report_pairs (i : CurlInspection) (p : Preflight) (protocol : string) : report_values :=
  [("curl_executable", executable i);
   ("curl_version", match version i with Some v => version_digits v | None => "unknown" end);
   ("protocol", protocol); ("features", py_join "," (sort_strs (features i)));
   ("required_features", py_join "," (required_features p));
   ("missing_features", py_join "," (missing_features p));
   ("required_options", py_join "," (required_options p));
   ("missing_options", py_join "," (missing_options p)); ("preflight_status", status p);
   ("preflight_reason", match reason p with Some r => r | None => "" end); ("writeout_mode", writeout_mode p)].

Lemma report_lines i p protocol :
  _features_report i p protocol = py_join newline (map pair_line (report_pairs i p protocol)) +:+ newline.
Proof. reflexivity. Qed.

(** What curl says of itself can be reported: a printable path of at most 512
    characters, a version of natural numbers, and features of the usual letters. *)
Record describable (i : CurlInspection) : Prop := {
  ds_executable : forallb (between 32 126) (S2L (executable i)) = true;
  ds_length : (1 <= String.length (executable i) <= 512)%nat;
  ds_version : match version i with Some (a, b, c) => 0 <= a /\ 0 <= b /\ 0 <= c | None => True end;
  ds_features : Forall (fun f => f <> "" /\ forallb feature_char (S2L f) = true) (features i) }.

(** A ready preflight. *)
Record ready (protocol : string) (i : CurlInspection) (c : ClientConfig) (p : Preflight) : Prop := {
  rd_status : status p = "READY";
  rd_reason : reason p = None;
  rd_features : required_features p = sort_strs (fst (_PROTOCOL_REQUIREMENTS protocol));
  rd_options : required_options p = sort_strs (dedup String.eqb
     (_COMMON_CURL_OPTIONS ++ snd (_PROTOCOL_REQUIREMENTS protocol) ++ _optional_curl_options c));
  rd_no_features : missing_features p = [];
  rd_no_options : missing_options p = [];
  rd_mode : In (writeout_mode p) ["json"; "fields"];
  rd_supported : forall f, In f (fst (_PROTOCOL_REQUIREMENTS protocol)) -> In f (features i) }.

Lemma ready_preflight protocol i c p : In protocol CANONICAL_PROTOCOLS ->
  preflight_curl protocol i (Some c) = Ok p -> status p = "READY" -> ready protocol i c p.
Proof.
  intros Hp G Hs. unfold preflight_curl in G. rewrite (normalize_idem protocol Hp) in G.
  pose proof (feature_upper protocol) as Hup.
  destruct (_PROTOCOL_REQUIREMENTS protocol) as [fs os] eqn:Er. cbv zeta in G. cbn [fst snd] in *.
  destruct (inspection_error i); [apply Ok_inj in G as <-; done|].
  remember (List.filter (fun o => negb (str_in (py_lower o) (options i))) _) as lo eqn:Elo in G. clear Elo.
  destruct (List.filter (fun f => negb (str_in (py_upper f) (features i))) (sort_strs fs)) as [|x lf] eqn:Ef.
  2:{ destruct lo; apply Ok_inj in G as <-; done. }
  destruct lo as [|x lo]; [|apply Ok_inj in G as <-; done].
  apply Ok_inj in G as <-. constructor; rewrite ?Er; try done.
  - cbn [writeout_mode]. destruct (version i) as [v|]; [|by right; left].
    destruct (version_geb v _CURL_JSON_MIN_VERSION); [by left|by right; left].
  - cbn [fst]. intros f Hf. destruct (str_in f (features i)) eqn:E; [by apply str_in_In|].
    assert (I : In f (List.filter (fun f => negb (str_in (py_upper f) (features i))) (sort_strs fs)));
      [|by rewrite Ef in I].
    apply filter_In. split; [by apply sort_In|]. by rewrite (Hup f Hf), E.
Qed.

(** ** The fields of the report *)

Lemma uint_digits d : forallb is_digit (S2L (DecimalString.NilEmpty.string_of_uint d)) = true.
Proof. induction d; [done|..]; cbn; exact IHd. Qed.

Lemma dec_digits z : 0 <= z -> re_lang digits (S2L (dec z)).
Proof.
  intros Hz. apply rep_cls_lang; [lia|]. unfold dec.
  assert (E : exists d, Z.to_int z = Decimal.Pos d) by (destruct z; [by eexists..|lia]).
  destruct E as [d ->]. cbn [DecimalString.NilZero.string_of_int].
  assert (D : forallb is_digit (S2L (DecimalString.NilZero.string_of_uint d)) = true /\
              (1 <= List.length (S2L (DecimalString.NilZero.string_of_uint d)))%nat).
  { destruct d; (split; [first [reflexivity|apply (uint_digits (Decimal.D0 d))|apply (uint_digits (Decimal.D1 d))
      |apply (uint_digits (Decimal.D2 d))|apply (uint_digits (Decimal.D3 d))|apply (uint_digits (Decimal.D4 d))
      |apply (uint_digits (Decimal.D5 d))|apply (uint_digits (Decimal.D6 d))|apply (uint_digits (Decimal.D7 d))
      |apply (uint_digits (Decimal.D8 d))|apply (uint_digits (Decimal.D9 d))]|cbn; lia]). }
  destruct D as [D1 D2]. split; [|split; [done|done]]. apply List.Forall_forall. by apply forallb_forall.
Qed.

Lemma version_safe v : match v with Some (a, b, c) => 0 <= a /\ 0 <= b /\ 0 <= c | None => True end ->
  fullmatch_str SAFE_VERSION (match v with Some v => version_digits v | None => "unknown" end) = true.
Proof.
  destruct v as [[[a b] c]|]; [|reflexivity]. intros (Ha & Hb & Hc). unfold fullmatch_str.
  apply fullmatch_correct; [reflexivity|]. unfold SAFE_VERSION, version_digits, py_join. cbn [String.concat].
  rewrite !S2L_app. apply L_altr. change (S2L ".") with (["."%char] ++ []).
  repeat first [apply L_cat; [first [by apply dec_digits|by (apply L_cat; [by constructor|constructor])]|]|by apply dec_digits].
Qed.

Lemma executable_safe s : forallb (between 32 126) (S2L s) = true -> (1 <= String.length s <= 512)%nat ->
  fullmatch_str SAFE_EXECUTABLE s = true.
Proof.
  intros Hs Hl. apply fullmatch_correct; [reflexivity|]. apply rep_cls_lang; [lia|].
  rewrite S2L_length. split; [|split; [lia|lia]].
  apply List.Forall_forall. rewrite forallb_forall in Hs. intros c Hc. apply Hs in Hc. revert Hc. clear.
  destruct c as [[] [] [] [] [] [] [] []]; vm_compute; try discriminate; done.
Qed.

Lemma features_safe l : Forall (fun f => f <> "" /\ forallb feature_char (S2L f) = true) l ->
  fullmatch_str SAFE_FEATURE_LIST (py_join "," l) = true.
Proof.
  intros Hl. apply fullmatch_correct; [reflexivity|]. apply join_in_list. eapply Forall_impl; [exact Hl|].
  intros s [Hne Hs]. apply rep_cls_lang; [lia|]. split; [|split; [|done]].
  - apply List.Forall_forall. by apply forallb_forall.
  - destruct s; [done|]. rewrite S2L_length. cbn. lia.
Qed.

Definition option_item : re := RCat (RLit "--") (RCat (RCls option_start) (RStar (RCls option_char))).

Lemma options_safe l : Forall (fun o => fullmatch_str option_item o = true) l ->
  fullmatch_str SAFE_OPTION_LIST (py_join "," l) = true.
Proof.
  intros Hl. apply fullmatch_correct; [reflexivity|]. apply join_in_list. eapply Forall_impl; [exact Hl|].
  intros s Hs. by apply fullmatch_correct in Hs.
Qed.

(** ** The text of the report *)

Definition plain_char (c : ascii) : bool := between 32 126 c.

Lemma texts_imp (p q : ascii -> bool) s : (forall c, p c = true -> q c = true) -> texts_over p s -> texts_over q s.
Proof. apply forallb_imp. Qed.

Lemma join_texts p sep l : texts_over p sep -> Forall (texts_over p) l -> texts_over p (py_join sep l).
Proof.
  intros Hsep. induction 1 as [|s l Hs _ IH]; [done|]. destruct l as [|s' l]; [done|].
  change (py_join sep (s :: s' :: l)) with (s +:+ sep +:+ py_join sep (s' :: l)). by repeat apply texts_app.
Qed.

Lemma plain_in_line c : plain_char c = true -> in_line c = true.
Proof. destruct c as [[] [] [] [] [] [] [] []]; vm_compute; try discriminate; done. Qed.

Lemma numeral_plain c : numeral c = true -> plain_char c = true.
Proof. destruct c as [[] [] [] [] [] [] [] []]; vm_compute; try discriminate; done. Qed.

Lemma feature_plain c : feature_char c = true -> plain_char c = true.
Proof. destruct c as [[] [] [] [] [] [] [] []]; vm_compute; try discriminate; done. Qed.

(** Every option a command may need. *)
Definition ALL_OPTIONS : list string :=
  _COMMON_CURL_OPTIONS ++ ["--http1.1"; "--http2"; "--http2-prior-knowledge"; "--http3-only"; "--connect-timeout";
                           "--insecure"; "--data-binary"; "--cacert"; "--resolve"; "--header"].

Lemma required_known protocol c o : In protocol CANONICAL_PROTOCOLS ->
  In o (_COMMON_CURL_OPTIONS ++ snd (_PROTOCOL_REQUIREMENTS protocol) ++ _optional_curl_options c) ->
  In o ALL_OPTIONS.
Proof.
  intros Hp Hin. unfold ALL_OPTIONS. apply in_app_or in Hin as [Hin|Hin]; [apply in_or_app; by left|].
  apply in_or_app. right. apply in_app_or in Hin as [Hin|Hin]; apply str_in_In.
  - by destruct Hp as [<-|[<-|[<-|[<-|[]]]]]; destruct Hin as [<-|[]].
  - unfold _optional_curl_options in Hin. rewrite !in_app_iff in Hin.
    repeat match type of Hin with _ \/ _ => destruct Hin as [Hin|Hin] end;
      repeat match type of Hin with In _ (if ?b then _ else _) => destruct b
                                  | In _ (match ?l with [] => _ | _ => _ end) => destruct l end;
      first [by destruct Hin as [<-|[]]|by destruct Hin].
Qed.

(** The required options of a ready preflight. *)
Lemma ready_options protocol i c p : In protocol CANONICAL_PROTOCOLS -> ready protocol i c p ->
  Forall (fun o => In o ALL_OPTIONS) (required_options p).
Proof.
  intros Hp R. rewrite (rd_options _ _ _ _ R). apply List.Forall_forall. intros o Ho.
  rewrite sort_In, (dedup_In String.eqb) in Ho by apply String.eqb_eq. exact (required_known protocol c o Hp Ho).
Qed.

Lemma options_all (q : string -> bool) l : Forall (fun o => In o ALL_OPTIONS) l -> forallb q ALL_OPTIONS = true ->
  Forall (fun o => q o = true) l.
Proof. rewrite forallb_forall. intros Hl Hq. eapply Forall_impl; [exact Hl|]. intros o Ho. by apply Hq. Qed.

Lemma features_sorted i : describable i ->
  Forall (fun f => f <> "" /\ forallb feature_char (S2L f) = true) (sort_strs (features i)).
Proof.
  intros D. apply List.Forall_forall. intros f Hf. rewrite sort_In in Hf.
  pose proof (ds_features i D) as F. rewrite List.Forall_forall in F. by apply F.
Qed.

Lemma report_plain i p c protocol : In protocol CANONICAL_PROTOCOLS -> describable i -> ready protocol i c p ->
  Forall (fun kv => texts_over plain_char (pair_line kv)) (report_pairs i p protocol).
Proof.
  intros Hp D R. unfold report_pairs, pair_line.
  assert (K : forall k v, texts_over plain_char k -> texts_over plain_char v -> texts_over plain_char (k +:+ "=" +:+ v)).
  { intros k v Hk Hv. apply texts_app; [done|]. by apply texts_app. }
  repeat apply List.Forall_cons; try apply List.Forall_nil; cbn [fst snd]; apply K; try reflexivity.
  - apply D.
  - destruct (version i) as [[[a b] c']|]; [|done]. unfold version_digits.
    apply join_texts; [done|]. repeat (apply List.Forall_cons; [eapply texts_imp; [apply numeral_plain|apply dec_numeral]|]).
    apply List.Forall_nil.
  - by destruct Hp as [<-|[<-|[<-|[<-|[]]]]].
  - apply join_texts; [done|]. eapply Forall_impl; [by apply features_sorted|]. intros f [_ Hf].
    by eapply texts_imp; [apply feature_plain|].
  - rewrite (rd_features _ _ _ _ R). by destruct Hp as [<-|[<-|[<-|[<-|[]]]]].
  - by rewrite (rd_no_features _ _ _ _ R).
  - apply join_texts; [done|]. apply (options_all (fun o => forallb plain_char (S2L o))); [|reflexivity].
    by apply (ready_options protocol i c).
  - by rewrite (rd_no_options _ _ _ _ R).
  - by rewrite (rd_status _ _ _ _ R).
  - by rewrite (rd_reason _ _ _ _ R).
  - by destruct (rd_mode _ _ _ _ R) as [<-|[<-|[]]].
Qed.

Lemma lines_not_sensitive l : Forall (fun s => forallb no_newline (S2L s) = true) l ->
  Forall (fun s => forall rest, existsb (fun n => header_at n (map lower_char (S2L s) ++ rest)) SENSITIVE_HEADERS = false) l ->
  Forall (fun s => s <> "") l ->
  search_line (fun x => existsb (fun n => header_at n x) SENSITIVE_HEADERS) true (map lower_char (lines_text l)) = false.
Proof.
  intros Hl Hh Hne. induction l as [|s l IH]; [reflexivity|].
  inversion Hl as [|? ? Hl1 Hl2]; subst. inversion Hh as [|? ? Hh1 Hh2]; subst. inversion Hne as [|? ? Hn1 Hn2]; subst.
  change (lines_text (s :: l)) with ((S2L s ++ [chr 10]) ++ lines_text l). rewrite <- app_assoc, map_app.
  destruct s as [|x s]; [done|]. rewrite S2L_cons in *. cbn [map app]. rewrite search_start.
  apply orb_false_intro; [exact (Hh1 _)|].
  change (lower_char x :: map lower_char (S2L s) ++ ?r) with (map lower_char (x :: S2L s) ++ r).
  rewrite search_skip by (apply forallb_map_lower; [apply no_newline_lower|done]).
  cbn [search_line andb orb]. change (ord (lower_char (chr 10)) =? 10) with true. by apply IH.
Qed.

Lemma keys_not_sensitive kv rest i p protocol : In kv (report_pairs i p protocol) ->
  existsb (fun n => header_at n (map lower_char (S2L (pair_line kv)) ++ rest)) SENSITIVE_HEADERS = false.
Proof.
  unfold report_pairs, pair_line. intros Hin.
  repeat (destruct Hin as [<-|Hin]; [reflexivity|]). done.
Qed.

Lemma report_text i p protocol : S2L (_features_report i p protocol) = lines_text (map pair_line (report_pairs i p protocol)).
Proof. rewrite report_lines. by apply join_lines. Qed.

(** A word for a connection identifier in the report of curl's path and features. *)
Definition identifier_finding (features_text : string) : list string :=
  report (RAW_CONNECTION_ID_TEXT features_text) (CLIENT_FEATURES_ARTIFACT +:+ ": raw connection-ID text is forbidden").

Lemma safety_accepted i p c protocol : In protocol CANONICAL_PROTOCOLS -> describable i -> ready protocol i c p ->
  _text_safety_errors (_features_report i p protocol) CLIENT_FEATURES_ARTIFACT = identifier_finding (_features_report i p protocol).
Proof.
  intros Hp D R. pose proof (report_plain i p c protocol Hp D R) as P. unfold _text_safety_errors.
  assert (C : forall b1 b2 m1 m2 (l : list string), b1 = false -> b2 = false -> report b1 m1 ++ report b2 m2 ++ l = l)
    by (by intros ? ? ? ? ? -> ->).
  apply C.
  - rewrite report_text. unfold lines_text. apply not_true_is_false. intros E.
    apply existsb_exists in E as (x & Hx & E). apply in_flat_map in Hx as (s & Hs & Hx).
    apply in_app_or in Hx as [Hx|[<-|[]]]; [|done].
    apply in_map_iff in Hs as (kv & <- & Hkv). rewrite List.Forall_forall in P. specialize (P kv Hkv).
    unfold texts_over in P. rewrite forallb_forall in P. apply P in Hx. revert Hx E. clear.
    destruct x as [[] [] [] [] [] [] [] []]; vm_compute; discriminate.
  - unfold FORBIDDEN_TEXT_HEADERS, lower_chars. rewrite report_text. apply lines_not_sensitive.
    + apply List.Forall_map. eapply Forall_impl; [exact P|]. intros kv Hkv. apply in_line_no_newline.
      eapply forallb_imp; [apply plain_in_line|exact Hkv].
    + apply List.Forall_map, List.Forall_forall. intros kv Hkv rest. by eapply keys_not_sensitive.
    + apply List.Forall_map, List.Forall_forall. intros kv Hkv. unfold report_pairs in Hkv. clear. by destruct kv as [[] ?].
Qed.

Lemma report_parsed i p c protocol : In protocol CANONICAL_PROTOCOLS -> describable i -> ready protocol i c p ->
  _parse_feature_report (_features_report i p protocol) = (report_pairs i p protocol, []).
Proof.
  intros Hp D R. unfold _parse_feature_report, py_splitlines. rewrite report_text, splitlines_lines.
  - apply (parse_pairs (report_pairs i p protocol) []).
    + unfold report_pairs. repeat (apply List.Forall_cons; [vm_compute; intuition discriminate|]). apply List.Forall_nil.
    + apply str_nodup_NoDup. reflexivity.
  - apply List.Forall_map. eapply Forall_impl; [apply (report_plain i p c protocol Hp D R)|].
    intros kv Hkv. eapply forallb_imp; [apply plain_in_line|exact Hkv].
Qed.

Lemma listable_all l (q : ascii -> bool) : q ","%char = false -> Forall (fun s => s <> "" /\ forallb q (S2L s) = true) l ->
  Forall listable l.
Proof.
  intros Hq Hl. eapply Forall_impl; [exact Hl|]. intros s [Hne Hs]. split; [done|]. by apply (absent q).
Qed.

Lemma option_listable l : Forall (fun o => In o ALL_OPTIONS) l -> Forall listable l.
Proof.
  intros Hl. apply (listable_all l inert_char eq_refl). eapply Forall_impl; [exact Hl|].
  assert (A : forallb (fun o => negb (String.eqb o "") && forallb inert_char (S2L o)) ALL_OPTIONS = true) by reflexivity.
  rewrite forallb_forall in A. intros o Ho. apply A, andb_true_iff in Ho as [H1 H2].
  split; [|done]. by apply String.eqb_neq, negb_true_iff.
Qed.

Lemma values_accepted i p c protocol : In protocol CANONICAL_PROTOCOLS -> describable i -> ready protocol i c p ->
  _feature_value_errors (report_pairs i p protocol) = [].
Proof.
  intros Hp D R. pose proof (ready_options protocol i c p Hp R) as O. unfold _feature_value_errors.
  assert (V : forall k v, value_of k (report_pairs i p protocol) = Some v -> value k (report_pairs i p protocol) = v)
    by (intros k v E; unfold value; by rewrite E).
  rewrite (V "curl_executable" _ eq_refl), (V "curl_version" _ eq_refl).
  rewrite executable_safe by apply D. rewrite version_safe by apply D. cbn [negb report app map concat].
  rewrite (V "features" _ eq_refl), (V "required_features" _ eq_refl), (V "missing_features" _ eq_refl),
    (V "required_options" _ eq_refl), (V "missing_options" _ eq_refl).
  rewrite features_safe by (by apply features_sorted). rewrite (rd_no_features _ _ _ _ R), (rd_no_options _ _ _ _ R).
  rewrite options_safe by (by apply options_all). rewrite (rd_features _ _ _ _ R).
  by destruct Hp as [<-|[<-|[<-|[<-|[]]]]].
Qed.

Lemma required_in protocol i c p o : ready protocol i c p ->
  In o (_COMMON_CURL_OPTIONS ++ snd (_PROTOCOL_REQUIREMENTS protocol) ++ _optional_curl_options c) ->
  str_in o (required_options p) = true.
Proof.
  intros R Ho. apply str_in_In. rewrite (rd_options _ _ _ _ R).
  by rewrite sort_In, (dedup_In String.eqb) by apply String.eqb_eq.
Qed.

Lemma protocol_accepted i p c protocol correlated : In protocol CANONICAL_PROTOCOLS -> describable i ->
  ready protocol i c p -> (correlated = true -> is_some (transport_case_id c) = true) ->
  _feature_protocol_errors (report_pairs i p protocol) protocol correlated = [].
Proof.
  intros Hp D R Hc. pose proof (ready_options protocol i c p Hp R) as O. unfold _feature_protocol_errors.
  assert (V : forall k v, value_of k (report_pairs i p protocol) = Some v -> value k (report_pairs i p protocol) = v)
    by (intros k v E; unfold value; by rewrite E).
  rewrite (V "protocol" _ eq_refl), (V "preflight_status" _ eq_refl), (V "preflight_reason" _ eq_refl),
    (V "writeout_mode" _ eq_refl), (V "features" _ eq_refl), (V "required_features" _ eq_refl),
    (V "missing_features" _ eq_refl), (V "required_options" _ eq_refl), (V "missing_options" _ eq_refl).
  rewrite (items_join (sort_strs (features i))) by (apply (listable_all _ feature_char eq_refl); by apply features_sorted).
  rewrite (items_join (required_options p)) by (by apply option_listable).
  rewrite (rd_no_features _ _ _ _ R), (rd_no_options _ _ _ _ R), (rd_reason _ _ _ _ R), (rd_status _ _ _ _ R),
    (rd_features _ _ _ _ R), String.eqb_refl, (proj2 (str_in_In _ _) (rd_mode _ _ _ _ R)).
  assert (F : str_in (_required_protocol_flag protocol) (required_options p) = true).
  { apply (required_in protocol i c p); [done|]. apply in_or_app. right. apply in_or_app. left.
    destruct Hp as [<-|[<-|[<-|[<-|[]]]]]; by left. }
  assert (C : correlated && negb (str_in "--header" (required_options p)) = false).
  { destruct correlated; [|done]. specialize (Hc eq_refl). cbn [andb]. apply negb_false_iff.
    apply (required_in protocol i c p); [done|]. apply in_or_app. right. apply in_or_app. right.
    unfold _optional_curl_options. rewrite Hc, orb_true_r. apply in_or_app. right. do 4 (apply in_or_app; right). by left. }
  rewrite F, C. pose proof (rd_supported _ _ _ _ R) as S.
  assert (I : forall f, In f (fst (_PROTOCOL_REQUIREMENTS protocol)) -> str_in f (sort_strs (features i)) = true)
    by (intros f Hf; apply str_in_In, sort_In; by apply S).
  destruct Hp as [<-|[<-|[<-|[<-|[]]]]]; cbn -[sort_strs]; rewrite ?(I "HTTP2") by (by left); rewrite ?(I "HTTP3") by (by left);
    reflexivity.
Qed.

(** The report of a ready preflight is accepted by the checker, but for words that look
    like a connection identifier. *)
Lemma report_accepted i p c protocol correlated : In protocol CANONICAL_PROTOCOLS -> describable i ->
  ready protocol i c p -> (correlated = true -> is_some (transport_case_id c) = true) ->
  _validate_features_text (_features_report i p protocol) protocol correlated = identifier_finding (_features_report i p protocol).
Proof.
  intros Hp D R Hc. unfold _validate_features_text.
  rewrite (report_parsed i p c protocol Hp D R), (safety_accepted i p c protocol Hp D R).
  change (_feature_schema_errors (report_pairs i p protocol)) with (@nil string, false). cbv iota beta.
  rewrite (values_accepted i p c protocol Hp D R), (protocol_accepted i p c protocol correlated Hp D R Hc).
  by rewrite app_nil_r.
Qed.
