(* ===== verification/EvidenceAccepted.v ===== *)
(** * The client's artifacts, accepted by the checker *)

From S2P Require Export EvidenceFeatures.
From Stdlib Require Import QArith.
#[global] Open Scope Z_scope.

(** ** Entries of a dictionary *)













Section Client.
Context `{Ip6Literal}.
Variable sha256 : string -> string.



(** ** Reading the same fields *)








(** ** The follow-up artifact *)












End Client.

(** * A passing run of the client is accepted by the checker

    The artifacts of a run that ended with exit code 0, read back by
    [validate_protocol_artifacts]. *)

Section Client.
Context `{Ip6Literal}.
Variable sha256 : string -> string.

(** ** A passing run *)


(** The checker is told only the correlation identifier of the request. *)
Definition correlated_only (c : ClientConfig) : expectations :=
  {| e_connector := None; e_integration_mode := None; e_run_id := None; e_transaction_id := None;
     e_rule_id := None; e_phase := None; expected_client_status := None; expected_stream_id := None;
     expected_upstream_protocol := None; expected_transport_case_id := transport_case_id c |}.












Section Passing.
Variables (c : ClientConfig) (i : CurlInspection) (read : string -> res pydict) (run : list string -> execution)
  (r : run_result).
Hypothesis ran : run_protocol_client sha256 c i read run = Ok r.
Hypothesis passed : exit_code r = 0.

End Passing.


End Client.

(** * Concrete artifact directories: witnesses of the checker's theorems

    The directory of the HTTP/2 probe of [ProtocolWitnesses], and that of a probe
    whose stream was reset after a part of the response, followed by a healthy
    request. *)

From S2P Require Export ProtocolWitnesses.

#[local] Existing Instance demo_ip6.

(** The directory a run of [c] leaves. *)
Definition demo_dir (c : ClientConfig) (r : run_result) : artifact_dir :=
  let texts := or_else [] (_write_artifacts c demo_inspection r) in
  {| safe_directory := true; followup_exists := is_some (followup r);
     file := fun name _ =>
       match value_of name texts with
       | Some text => Decoded text None
       | None => if String.eqb name PRIMARY_OBSERVATION_ARTIFACT then Decoded "{}" (Some (PDict (observation r)))
                 else match followup r with
                      | Some f => Decoded "{}" (Some (PDict f))
                      | None => BoundedFileReadError "missing"
                      end
       end |}.

(** The stream is reset (curl's exit code 92) after 10 of 20 bytes. *)
Definition reset_read (path : string) : res pydict :=
  Ok (mkdict [("alpn", PStr "h2"); ("stream_id", PInt 1); ("stream_reset", PBool true); ("stream_reset_code", PInt 8)]).
Definition reset_run (command : list string) : execution :=
  if str_in "X-Test: secret" command
  then Completed 92 "" {| http_status := Some 200; http_version := Some "2"; downloaded_bytes := Some (NInt 10);
                          content_length_download := Some (NInt 20) |}
  else Completed 0 "" (demo_outcome 200 "2").
Definition reset_result : run_result :=
  or_else empty_result (run_protocol_client demo_digest demo_h2 demo_inspection reset_read reset_run).

Lemma strict_evidence_sound_witness : exists s o t f,
  file (demo_dir demo_h2 reset_result) PRIMARY_OBSERVATION_ARTIFACT MAX_JSON_BYTES = Decoded s (Some (PDict o)) /\
  file (demo_dir demo_h2 reset_result) FOLLOWUP_ARTIFACT MAX_JSON_BYTES = Decoded t (Some (PDict f)) /\
  reset_evidence "h2" o /\ followup_evidence demo_digest "h2" o f.
Proof.
  destruct (strict_evidence_sound demo_digest (demo_dir demo_h2 reset_result) "h2" (correlated_only demo_h2))
    as (_ & _ & _ & s & o & t & f & Ho & Hf & _ & R & F); [vm_compute; reflexivity|].
  exists s, o, t, f. exact (conj Ho (conj Hf (conj R F))).
Defined.

Lemma ordinary_evidence_sound_witness : exists o, ordinary_evidence "h2" o.
Proof.
  destruct (ordinary_evidence_sound demo_digest (demo_dir demo_h2 demo_result) "h2" (correlated_only demo_h2))
    as (_ & _ & _ & s & o & _ & _ & E & _); [vm_compute; reflexivity|].
  exists o. exact E.
Defined.




(** ** Where client and checker disagree *)

(** A successful run of a curl that is installed below a directory [cid] is refused. *)
Definition cid_inspection : CurlInspection :=
  {| executable := "/opt/cid/curl"; version_text := version_text demo_inspection; version := version demo_inspection;
     features := features demo_inspection; options := options demo_inspection; inspection_error := None |}.
Definition cid_result : run_result :=
  or_else empty_result (run_protocol_client demo_digest demo_h2 cid_inspection demo_read demo_run).
Definition cid_dir : artifact_dir :=
  let texts := or_else [] (_write_artifacts demo_h2 cid_inspection cid_result) in
  {| safe_directory := true; followup_exists := is_some (followup cid_result);
     file := fun name max => match value_of name texts with
                             | Some text => Decoded text None
                             | None => file (demo_dir demo_h2 cid_result) name max
                             end |}.
Example identifier_word_refused :
  exit_code cid_result = 0 /\
  validate_protocol_artifacts demo_digest cid_dir "h2" false (correlated_only demo_h2)
  = Ok ["client-features.txt: raw connection-ID text is forbidden"].
Proof. vm_compute. split; reflexivity. Qed.

(** The directory of a run with another observation. *)
Definition with_observation (o : pydict) (r : run_result) : run_result :=
  {| observation := o; ran_preflight := ran_preflight r; command := command r; followup := followup r |}.

(** The request is answered, but curl prints no status. *)
Definition statusless_run (command : list string) : execution :=
  Completed 0 "" {| http_status := None; http_version := Some "2"; downloaded_bytes := Some (NInt 0);
                    content_length_download := None |}.
Definition statusless_result : run_result :=
  or_else empty_result (run_protocol_client demo_digest demo_h2 demo_inspection demo_read statusless_run).

(** The checker takes the expected transport from the artifact itself: HTTP/2
    that was seen over cleartext TCP passes when the observation says so, a field
    the client never publishes.  It raises on a field whose value is a list, and it
    refuses the artifacts of a run without a status, which the client ends with
    success. *)
Example checker_divergences :
  let verdict r := validate_protocol_artifacts demo_digest (demo_dir demo_h2 r) "h2" false (correlated_only demo_h2) in
  let o := observation demo_result in
  verdict (with_observation (dict_set "transport" (PStr "tcp") o) demo_result)
  = Ok ["contradictory transport"] /\
  verdict (with_observation (dict_set "expected_transport" (PStr "tcp") (dict_set "transport" (PStr "tcp") o)) demo_result)
  = Ok [] /\
  verdict (with_observation (dict_set "transport" (PList []) o) demo_result) = Err (TypeError "unhashable type") /\
  exit_code statusless_result = 0 /\
  verdict statusless_result = Ok ["successful transfer requires a client-observed HTTP status"].
Proof. vm_compute. repeat split. Qed.
