(* ===== verification/JsonSchema.v ===== *)
(** * Patterns of checked-in JSON schemas

    [re.compile] on the texts that occur as [pattern] and [patternProperties] in
    the no-CRS schemas: literals, escaped punctuation, classes, groups,
    alternatives and greedy repetition.  An anchor is accepted only where
    [fullmatch] makes it redundant: at the two ends of an alternative of the
    whole pattern.  A pattern outside this fragment (lookahead, references,
    lazy repetition) gives [None]. *)

From S2P Require Export Regex PyValue.
#[global] Open Scope Z_scope.

(** A parser consumes a prefix of the text. *)
Definition parser (A : Type) := chars -> option (A * chars).


(** ** Classes *)

(** Punctuation stands for itself after a backslash. *)
Definition escaped (c : ascii) : option ascii :=
  if between 33 126 c && negb (is_alnum c) then Some c else None.

Definition class_char : parser ascii := fun l =>
  match l with
  | c :: r => if Ascii.eqb c (chr 92)
              then match r with e :: r => option_map (fun e => (e, r)) (escaped e) | [] => None end
              else if char_in "[]" c then None else Some (c, r)
  | [] => None
  end.

(** The items of a class up to its closing bracket: [a], [a-b], and a minus sign
    before the bracket. *)
Fixpoint class_items (fuel : nat) (l : chars) : option ((ascii -> bool) * chars) :=
  match fuel with
  | O => None
  | S fuel =>
      match l with
      | c :: r =>
          if Ascii.eqb c "]" then Some ((fun _ => false), r)
          else
            match class_char l with
            | None => None
            | Some (lo, rest) =>
                match rest with
                | m :: n :: rest' =>
                    if Ascii.eqb m "-" && negb (Ascii.eqb n "]") then
                      match class_char (n :: rest') with
                      | Some (hi, rest'') =>
                          if ord lo <=? ord hi then
                            option_map (fun '(p, l) => ((fun c => between (ord lo) (ord hi) c || p c), l))
                              (class_items fuel rest'')
                          else None
                      | None => None
                      end
                    else option_map (fun '(p, l) => ((fun c => Ascii.eqb c lo || p c), l)) (class_items fuel rest)
                | _ => option_map (fun '(p, l) => ((fun c => Ascii.eqb c lo || p c), l)) (class_items fuel rest)
                end
            end
      | [] => None
      end
  end.

Definition char_class (l : chars) : option (re * chars) :=
  let (negated, l) := match l with c :: r => if Ascii.eqb c "^" then (true, r) else (false, l) | [] => (false, l) end in
  match l with
  | c :: _ => if Ascii.eqb c "]" then None
              else option_map (fun '(p, r) => (RCls (fun c => xorb negated (p c)), r))
                     (class_items (S (List.length l)) l)
  | [] => None
  end.

(** ** Repetition *)

Fixpoint digits_prefix (l : chars) : chars * chars :=
  match l with
  | c :: r => if is_digit c then let (d, r) := digits_prefix r in (c :: d, r) else ([], l)
  | [] => ([], [])
  end.

Definition natural (l : chars) : option (nat * chars) :=
  match digits_prefix l with
  | ([], _) => None
  | (d, r) => Some (Z.to_nat (int_of_digits 10 d), r)
  end.

(** [{n}], [{m,n}], [{m,}] after the brace; Python rejects [n < m]. *)
Definition bounds : parser (nat * option nat) := fun l =>
  match natural l with
  | Some (lo, c :: r) =>
      if Ascii.eqb c "}" then Some ((lo, Some lo), r)
      else if Ascii.eqb c "," then
        match natural r with
        | Some (hi, d :: r) => if Ascii.eqb d "}" && Nat.leb lo hi then Some ((lo, Some hi), r) else None
        | Some (_, []) => None
        | None => match r with
                  | d :: r => if Ascii.eqb d "}" then Some ((lo, None), r) else None
                  | [] => None
                  end
        end
      else None
  | _ => None
  end.

Definition quantifier (a : re) (l : chars) : option (re * chars) :=
  match l with
  | c :: r =>
      let done := fun a r => match r with d :: _ => if char_in "*+?{" d then None else Some (a, r) | [] => Some (a, r) end in
      if Ascii.eqb c "*" then done (RStar a) r
      else if Ascii.eqb c "+" then done (RPlus a) r
      else if Ascii.eqb c "?" then done (ROpt a) r
      else if Ascii.eqb c "{" then
        match bounds r with Some ((lo, hi), r) => done (RRep a lo hi) r | None => None end
      else Some (a, l)
  | [] => Some (a, [])
  end.

(** ** Patterns *)

Definition any_but_newline (c : ascii) : bool := negb (ord c =? 10).

(** Alternatives up to the end of the text ([top]) or a closing parenthesis. *)
Fixpoint alternatives (fuel : nat) (top : bool) (l : chars) : option (re * chars) :=
  match fuel with
  | O => None
  | S fuel =>
      let l := match l with c :: r => if top && Ascii.eqb c "^" then r else l | [] => l end in
      match branch fuel top l with
      | Some (a, c :: r) => if Ascii.eqb c "|"
                            then option_map (fun '(b, r) => (RAlt a b, r)) (alternatives fuel top r)
                            else Some (a, c :: r)
      | r => r
      end
  end
with branch (fuel : nat) (top : bool) (l : chars) : option (re * chars) :=
  match fuel with
  | O => None
  | S fuel =>
      match l with
      | [] => Some (REps, [])
      | c :: r =>
          if char_in "|)" c then Some (REps, l)
          else if Ascii.eqb c "$" then
            match r with
            | [] => if top then Some (REps, []) else None
            | d :: _ => if top && Ascii.eqb d "|" then Some (REps, r) else None
            end
          else
            match atom fuel c r with
            | Some (a, r) =>
                match quantifier a r with
                | Some (a, r) => option_map (fun '(b, r) => (RCat a b, r)) (branch fuel top r)
                | None => None
                end
            | None => None
            end
      end
  end
with atom (fuel : nat) (c : ascii) (r : chars) : option (re * chars) :=
  match fuel with
  | O => None
  | S fuel =>
      if Ascii.eqb c "[" then char_class r
      else if Ascii.eqb c "(" then
        let body := match r with
                    | q :: r' => if Ascii.eqb q "?"
                                 then match r' with m :: r'' => if Ascii.eqb m ":" then Some r'' else None | [] => None end
                                 else Some r
                    | [] => None
                    end in
        match body with
        | Some r => match alternatives fuel false r with
                    | Some (a, d :: r) => if Ascii.eqb d ")" then Some (a, r) else None
                    | _ => None
                    end
        | None => None
        end
      else if Ascii.eqb c (chr 92)
      then match r with e :: r => option_map (fun e => (RCls (Ascii.eqb e), r)) (escaped e) | [] => None end
      else if Ascii.eqb c "." then Some (RCls any_but_newline, r)
      else if char_in "^$*+?{}]" c then None
      else Some (RCls (Ascii.eqb c), r)
  end.

Definition re_parse (pattern : string) : option re :=
  match alternatives (4 * String.length pattern + 4) true (S2L pattern) with
  | Some (r, []) => Some r
  | _ => None
  end.

(** [re.fullmatch(pattern, text) is not None] *)
Definition fullmatch_pattern (pattern text : string) : res bool :=
  match re_parse pattern with
  | Some r => Ok (fullmatch_str r text)
  | None => Err (RuntimeError "pattern outside the fragment")
  end.

(** The patterns of the schemas, on texts. *)
Example patterns_ex :
  let m := fun p t => fullmatch_pattern p t in
  m "^[a-z0-9_-][a-z0-9_.-]*(?:/[a-z0-9_-][a-z0-9_.-]*)*$" "a/b.c/-d" = Ok true /\
  m "^[a-z0-9_-][a-z0-9_.-]*(?:/[a-z0-9_-][a-z0-9_.-]*)*$" "a/../b" = Ok false /\
  m "^[0-9a-f]{2}([0-9a-f]{3})?$" "0a1b2" = Ok true /\ m "^[0-9a-f]{2}([0-9a-f]{3})?$" "0a1b" = Ok false /\
  m "^(?:/[A-Za-z0-9_-][A-Za-z0-9_.-]*)+$|^inventory/[a-z][a-z0-9_]+$" "inventory/x1" = Ok true /\
  m "^[0-9]{4}-[0-9]{2}T(\.[0-9]+)?Z$" "2024-01T.5Z" = Ok true /\
  m "[A-Za-z0-9:._-]{0,2}" "" = Ok true /\ m "[A-Za-z0-9:._-]{0,2}" "a:b" = Ok false /\
  m "(?:\.\.|//)" ".." = Ok true /\ m "(?!a)b" "b" = Err (RuntimeError "pattern outside the fragment").
Proof. vm_compute. repeat split. Qed.

(** * The JSON Schema validator (no_crs_baseline.py)

    [json_schema_errors] on decoded JSON: the schema is a dictionary, references
    are resolved in the root schema while it runs.  The recursion is bounded by a
    fuel: references may form a cycle, on which Python exhausts its stack. *)

From Stdlib Require Import QArith.
#[global] Open Scope Z_scope.

(** ** Values *)

(** Equality of the representation: two values with the same text, order of items
    and classes. *)
Fixpoint same_val (a b : pyval) {struct a} : bool :=
  match a, b with
  | PNone, PNone => true
  | PBool x, PBool y => Bool.eqb x y
  | PInt x, PInt y => Z.eqb x y
  | PFloat p r, PFloat q s => Z.eqb (Qnum p) (Qnum q) && Pos.eqb (Qden p) (Qden q) && String.eqb r s
  | PStr s, PStr t => String.eqb s t
  | PList l, PList m =>
      (fix go (l m : list pyval) : bool :=
         match l, m with
         | [], [] => true
         | x :: l, y :: m => same_val x y && go l m
         | _, _ => false
         end) l m
  | PDict d, PDict e =>
      (fix go (d e : pydict) : bool :=
         match d, e with
         | [], [] => true
         | (k, x) :: d, (k', y) :: e => same_val k k' && same_val x y && go d e
         | _, _ => false
         end) d e
  | _, _ => false
  end.

(** [type(value).__name__] *)
Definition type_name (v : pyval) : string :=
  match v with
  | PNone => "NoneType" | PBool _ => "bool" | PInt _ => "int" | PFloat _ _ => "float" | PStr _ => "str"
  | PList _ => "list" | PDict _ => "dict"
  end.

(** [isinstance(v, (int, float)) and not isinstance(v, bool)] *)
Definition plain_number (v : pyval) : bool := match v with PInt _ | PFloat _ _ => true | _ => false end.

(** [a < b] of two numbers. *)
Definition num_lt (a b : pyval) : bool :=
  match num_value a, num_value b with Some x, Some y => negb (Qle_bool y x) | _, _ => false end.

(** ** References *)

Fixpoint walk_reference (target : pyval) (components : list string) : option pyval :=
  match components with
  | [] => Some target
  | c :: r => match target with
              | PDict d => match dict_find c d with Some v => walk_reference v r | None => None end
              | _ => None
              end
  end.

Definition resolved_json_schema_reference (schema root : pydict) (location : string) : pydict + string :=
  match dict_get "$ref" schema with
  | PStr reference =>
      if negb (starts_with "#/" reference)
      then inr (location +:+ ": unsupported external schema reference " +:+ reference)
      else match walk_reference (PDict root) (py_split "/" (L2S (drop 2 (S2L reference)))) with
           | None => inr (location +:+ ": unresolved schema reference " +:+ reference)
           | Some (PDict d) => inl d
           | Some _ => inr (location +:+ ": schema reference is not an object: " +:+ reference)
           end
  | _ => inl schema
  end.

(** ** Assertions that do not recurse *)

Definition _json_type_matches (v : pyval) (expected : string) : bool :=
  if String.eqb expected "object" then is_mapping v
  else if String.eqb expected "array" then is_list v
  else if String.eqb expected "string" then is_str v
  else if String.eqb expected "integer" then match v with PInt _ => true | _ => false end
  else if String.eqb expected "number" then plain_number v
  else if String.eqb expected "boolean" then is_bool v
  else if String.eqb expected "null" then is_none v
  else true.

Definition expected_types (schema : pydict) : option (list pyval) :=
  match dict_get "type" schema with
  | PStr s => Some [PStr s]
  | PList l => Some l
  | _ => None
  end.

Definition json_schema_type_errors (v : pyval) (schema : pydict) (location : string) : list string :=
  match expected_types schema with
  | Some types =>
      if existsb (fun item => _json_type_matches v (py_str item)) types then []
      else [location +:+ ": expected type " +:+ py_repr (PList types) +:+ ", got " +:+ type_name v]
  | None => []
  end.

(** [if b: errors.append(message)] *)
Definition when (b : bool) (message : string) : list string := if b then [message] else [].

Definition json_schema_common_value_errors (v : pyval) (schema : pydict) (location : string) : list string :=
  match dict_find "const" schema with
  | Some c => when (negb (py_eq v c))
                (location +:+ ": expected constant " +:+ py_repr c +:+ ", got " +:+ py_repr v)
  | None => []
  end
  ++ match dict_get "enum" schema with
     | PList l => when (negb (existsb (py_eq v) l))
                    (location +:+ ": value " +:+ py_repr v +:+ " is outside enum " +:+ py_repr (PList l))
     | _ => []
     end.

(** A bound of class [int], which [bool] is a subclass of. *)
Definition length_bound (key : string) (schema : pydict) (bad : Z -> bool) (message : string) : list string :=
  match int_value (dict_get key schema) with Some n => when (bad n) message | None => [] end.

Definition json_schema_string_errors (s : string) (schema : pydict) (location : string) : res (list string) :=
  let short := length_bound "minLength" schema (fun n => str_len s <? n) (location +:+ ": string is shorter than minLength") in
  let long := length_bound "maxLength" schema (fun n => n <? str_len s) (location +:+ ": string is longer than maxLength") in
  match dict_get "pattern" schema with
  | PStr pattern =>
      let* matched := fullmatch_pattern pattern s in
      Ok (short ++ long ++ when (negb matched) (location +:+ ": string does not match " +:+ repr_str pattern))
  | _ => Ok (short ++ long)
  end.

Definition json_schema_number_errors (v : pyval) (schema : pydict) (location : string) : list string :=
  when (num_lt v (dict_get "minimum" schema)) (location +:+ ": value is below minimum")
  ++ when (num_lt (dict_get "maximum" schema) v) (location +:+ ": value is above maximum").

(** ** Assertions that recurse *)

Section Recursion.
(** [json_schema_errors(value, schema, root_schema=root, location=location)] for any
    class of schema. *)
Variable errors_of : pyval -> pyval -> string -> res (list string).

(** The concatenation of the errors of every item, in order. *)
Definition gather {A} (f : A -> res (list string)) (l : list A) : res (list string) :=
  let* ls := mapM f l in Ok (concat ls).

Fixpoint enumerate (n : Z) (l : list pyval) : list (Z * pyval) :=
  match l with [] => [] | v :: r => (n, v) :: enumerate (n + 1) r end.

Definition json_schema_array_errors (l : list pyval) (schema : pydict) (location : string) : res (list string) :=
  let few := length_bound "minItems" schema (fun n => Z.of_nat (List.length l) <? n)
               (location +:+ ": array is shorter than minItems") in
  let repeated := when (is_true (dict_get "uniqueItems" schema)
                        && negb (str_nodup (map (json_dumps ", " ": ") l)))
                    (location +:+ ": array items are not unique") in
  let* items := match dict_get "items" schema with
                | PDict d => gather (fun '(n, v) => errors_of v (PDict d) (location +:+ "[" +:+ dec n +:+ "]"))
                               (enumerate 0 l)
                | _ => Ok []
                end in
  Ok (few ++ repeated ++ items).

(** One property: whether it is declared, and the errors of its schemas. *)
Definition declared_property (key : string) (v : pyval) (property_map pattern_map : pydict) (location : string)
    : res (bool * list string) :=
  let* (named, e1) := match dict_get key property_map with
                      | PDict d => let* e := errors_of v (PDict d) (location +:+ "." +:+ key) in Ok (true, e)
                      | _ => Ok (false, [])
                      end in
  let* es := mapM (fun '(pattern, nested) =>
      let* matches := fullmatch_pattern (py_str pattern) key in
      match matches, nested with
      | true, PDict d => let* e := errors_of v (PDict d) (location +:+ "." +:+ key) in Ok (true, e)
      | _, _ => Ok (false, [])
      end) pattern_map in
  Ok (named || existsb fst es, e1 ++ concat (map snd es)).

Definition json_schema_object_property_errors (d property_map pattern_map : pydict) (location : string)
    : res (list string * list string) :=
  let* es := mapM (fun '(key, v) =>
      let* (matched, e) := declared_property (py_str key) v property_map pattern_map location in
      Ok (py_str key, matched, e)) d in
  Ok (map (fun e => fst (fst e)) (List.filter (fun e => snd (fst e)) es), concat (map snd es)).

Definition json_schema_additional_property_errors (d : pydict) (matched : list string) (additional : pyval)
    (location : string) : res (list string) :=
  gather (fun '(key, v) =>
    let key := py_str key in
    if str_in key matched then Ok []
    else match additional with
         | PBool false => Ok [location +:+ ": unexpected property " +:+ key]
         | PDict a => errors_of v (PDict a) (location +:+ "." +:+ key)
         | _ => Ok []
         end) d.

Definition mapping_or_empty (v : pyval) : pydict := match v with PDict d => d | _ => [] end.

Definition json_schema_object_errors (d schema : pydict) (location : string) : res (list string) :=
  let* missing := match dict_get_or (PList []) "required" schema with
                  | PList l => gather (fun key => let* present := in_dict key d in
                                 Ok (when (negb present) (location +:+ ": missing required property " +:+ py_str key))) l
                  | _ => Ok []
                  end in
  let* (matched, declared) := json_schema_object_property_errors d
      (mapping_or_empty (dict_get_or (PDict []) "properties" schema))
      (mapping_or_empty (dict_get_or (PDict []) "patternProperties" schema)) location in
  let* additional := json_schema_additional_property_errors d matched
      (dict_get_or (PBool true) "additionalProperties" schema) location in
  Ok (missing ++ declared ++ additional).

(** [any(not errors(branch) for branch in branches)]: stops at the first. *)
Fixpoint any_branch (v : pyval) (branches : list pyval) (location : string) : res bool :=
  match branches with
  | [] => Ok false
  | b :: r => let* e := errors_of v b location in
              match e with [] => Ok true | _ => any_branch v r location end
  end.

Definition json_schema_composition_errors (v : pyval) (schema : pydict) (location : string) : res (list string) :=
  let* branches := iterate (dict_get_or (PList []) "allOf" schema) in
  let* all := gather (fun b => errors_of v b location) branches in
  let* any := match dict_get "anyOf" schema with
              | PList l => let* b := any_branch v l location in
                           Ok (when (negb b) (location +:+ ": no anyOf branch matches"))
              | _ => Ok []
              end in
  let* none := match dict_get "not" schema with
               | PDict d => let* e := errors_of v (PDict d) location in
                            Ok (when (match e with [] => true | _ => false end)
                                  (location +:+ ": forbidden schema branch matches"))
               | _ => Ok []
               end in
  let* conditional :=
    match dict_get "if" schema with
    | PDict c =>
        let* e := errors_of v (PDict c) location in
        match dict_get (match e with [] => "then" | _ => "else" end) schema with
        | PDict d => errors_of v (PDict d) location
        | _ => Ok []
        end
    | _ => Ok []
    end in
  Ok (all ++ any ++ none ++ conditional).

(** The body of [json_schema_errors] for a schema that is not a reference. *)
Definition assertion_errors (v : pyval) (schema : pydict) (location : string) : res (list string) :=
  match json_schema_type_errors v schema location with
  | e :: type_errors => Ok (e :: type_errors)
  | [] =>
      let* strings := match v with PStr s => json_schema_string_errors s schema location | _ => Ok [] end in
      let* arrays := match v with PList l => json_schema_array_errors l schema location | _ => Ok [] end in
      let* objects := match v with PDict d => json_schema_object_errors d schema location | _ => Ok [] end in
      let* composed := json_schema_composition_errors v schema location in
      Ok (json_schema_common_value_errors v schema location ++ strings
          ++ (if plain_number v then json_schema_number_errors v schema location else [])
          ++ arrays ++ objects ++ composed)
  end.
End Recursion.

(** ** The validator *)

(** A reference that resolves to the schema itself is evaluated in place: the code
    asks for the identity of the object, and an equal object in another place has
    the same reference, which then leads to itself. *)
Fixpoint schema_errors_at (fuel : nat) (root : pydict) (v schema : pyval) (location : string) : res (list string) :=
  match fuel with
  | O => Err OutOfFuel
  | S fuel =>
      match schema with
      | PDict d =>
          match resolved_json_schema_reference d root location with
          | inr e => Ok [e]
          | inl target =>
              if same_val (PDict target) (PDict d)
              then assertion_errors (schema_errors_at fuel root) v d location
              else schema_errors_at fuel root v (PDict target) location
          end
      | _ => Err (AttributeError "object has no attribute 'get'")
      end
  end.

(** [root_schema or schema] *)
Definition json_schema_errors (fuel : nat) (v : pyval) (schema : pydict) (root_schema : option pydict)
    (location : string) : res (list string) :=
  schema_errors_at fuel (match root_schema with Some (e :: r) => e :: r | _ => schema end) v (PDict schema) location.
