(* ===== verification/JsonSchemaSpec.v ===== *)
(** * What a JSON schema means

    An abstract syntax for the supported assertions of JSON Schema, the values
    that satisfy a schema, and the reading of a schema document into the abstract
    syntax with its references expanded. *)

From S2P Require Export JsonSchema.
From Stdlib Require Import QArith.
#[global] Open Scope Z_scope.

(** ** Assertions *)

(** A schema is the conjunction of its assertions.  [KProperties] holds the named
    and the pattern properties and what is demanded of every other one: nothing
    ([Any]), that there is none ([Closed]), or a schema ([Only]). *)
Inductive other (A : Type) := Any | Closed | Only (s : A).
Arguments Any {A}.
Arguments Closed {A}.
Arguments Only {A} s.

#[warnings="-register-all"]
Inductive keyword :=
  | KType (names : list string)
  | KConst (c : pyval)
  | KEnum (l : list pyval)
  | KMinLength (n : Z)
  | KMaxLength (n : Z)
  | KPattern (r : re)
  | KMinimum (q : Q)
  | KMaximum (q : Q)
  | KMinItems (n : Z)
  | KUniqueItems
  | KItems (s : list keyword)
  | KRequired (names : list string)
  | KProperties (named : list (string * list keyword)) (patterns : list (re * list keyword))
      (others : other (list keyword))
  | KAllOf (l : list (list keyword))
  | KAnyOf (l : list (list keyword))
  | KNot (s : list keyword)
  | KIf (condition yes no : list keyword).
Definition schema := list keyword.

(** ** Satisfaction *)

Definition all_of {A} (P : A -> Prop) : list A -> Prop :=
  fix go l := match l with [] => True | x :: r => P x /\ go r end.
Definition some_of {A} (P : A -> Prop) : list A -> Prop :=
  fix go l := match l with [] => False | x :: r => P x \/ go r end.

(** The properties that [named] or [patterns] declare. *)
Definition declares (named : list (string * schema)) (patterns : list (re * schema)) (key : string) : Prop :=
  In key (map fst named) \/ exists r, In r (map fst patterns) /\ re_lang r (S2L key).

(** An assertion on strings, numbers, arrays or objects holds of every value of
    another class. *)
Fixpoint holds (k : keyword) (v : pyval) {struct k} : Prop :=
  match k with
  | KType names => exists n, In n names /\ _json_type_matches v n = true
  | KConst c => py_eq v c = true
  | KEnum l => exists x, In x l /\ py_eq v x = true
  | KMinLength n => forall s, v = PStr s -> n <= str_len s
  | KMaxLength n => forall s, v = PStr s -> str_len s <= n
  | KPattern r => forall s, v = PStr s -> re_lang r (S2L s)
  | KMinimum q => plain_number v = true -> exists x, num_value v = Some x /\ (q <= x)%Q
  | KMaximum q => plain_number v = true -> exists x, num_value v = Some x /\ (x <= q)%Q
  | KMinItems n => forall l, v = PList l -> n <= Z.of_nat (List.length l)
  | KUniqueItems => forall l, v = PList l -> List.NoDup (map (json_dumps ", " ": ") l)
  | KItems s => forall l, v = PList l -> forall x, In x l -> all_of (fun k => holds k x) s
  | KRequired names => forall d, v = PDict d -> forall n, In n names -> exists x, dict_find n d = Some x
  | KProperties named patterns others =>
      forall d, v = PDict d -> forall key x, In (key, x) d ->
        all_of (fun p => fst p = py_str key -> all_of (fun k => holds k x) (snd p)) named /\
        all_of (fun p => re_lang (fst p) (S2L (py_str key)) -> all_of (fun k => holds k x) (snd p)) patterns /\
        (declares named patterns (py_str key) \/
         match others with
         | Any => True
         | Closed => False
         | Only s => all_of (fun k => holds k x) s
         end)
  | KAllOf l => all_of (fun s => all_of (fun k => holds k v) s) l
  | KAnyOf l => some_of (fun s => all_of (fun k => holds k v) s) l
  | KNot s => ~ all_of (fun k => holds k v) s
  | KIf c yes no => (all_of (fun k => holds k v) c -> all_of (fun k => holds k v) yes) /\
                    (~ all_of (fun k => holds k v) c -> all_of (fun k => holds k v) no)
  end.

Definition satisfies (s : schema) (v : pyval) : Prop := all_of (fun k => holds k v) s.

(** ** Reading a schema document *)

Fixpoint option_all {A B} (f : A -> option B) (l : list A) : option (list B) :=
  match l with
  | [] => Some []
  | x :: r => match f x, option_all f r with Some y, Some s => Some (y :: s) | _, _ => None end
  end.

(** An optional keyword; a keyword of another class is outside the subset. *)
Definition reads (key : string) (f : pyval -> option schema) (d : pydict) : option schema :=
  match dict_find key d with Some v => f v | None => Some [] end.

(** Two groups of assertions. *)
Definition both (a b : option schema) : option schema :=
  match a, b with Some s, Some t => Some (s ++ t) | _, _ => None end.

Definition read_strings (v : pyval) : option (list string) :=
  match v with
  | PList l => option_all (fun x => match x with PStr s => Some s | _ => None end) l
  | _ => None
  end.
Definition read_int (k : Z -> keyword) (v : pyval) : option schema :=
  match v with PInt n => Some [k n] | _ => None end.
Definition read_bound (k : Q -> keyword) (v : pyval) : option schema :=
  if plain_number v then option_map (fun q => [k q]) (num_value v) else None.
Definition read_pattern (p : string) : option re :=
  match re_parse p with Some r => if re_ok r then Some r else None | None => None end.

Definition read_type : pydict -> option schema :=
  reads "type" (fun v => match v with
                         | PStr s => Some [KType [s]]
                         | _ => option_map (fun names => [KType names]) (read_strings v)
                         end).
Definition read_common (d : pydict) : option schema :=
  both (reads "const" (fun v => Some [KConst v]) d)
       (reads "enum" (fun v => match v with PList l => Some [KEnum l] | _ => None end) d).
Definition read_string (d : pydict) : option schema :=
  both (reads "minLength" (read_int KMinLength) d)
    (both (reads "maxLength" (read_int KMaxLength) d)
       (reads "pattern" (fun v => match v with
                                  | PStr p => option_map (fun r => [KPattern r]) (read_pattern p)
                                  | _ => None
                                  end) d)).
Definition read_number (d : pydict) : option schema :=
  both (reads "minimum" (read_bound KMinimum) d) (reads "maximum" (read_bound KMaximum) d).

Section Recursion.
Variable read : pyval -> option schema.

Definition read_array (d : pydict) : option schema :=
  both (reads "minItems" (read_int KMinItems) d)
    (both (reads "uniqueItems" (fun v => match v with
                                         | PBool true => Some [KUniqueItems]
                                         | PBool false => Some []
                                         | _ => None
                                         end) d)
       (reads "items" (fun v => option_map (fun s => [KItems s]) (read v)) d)).

Definition read_named (d : pydict) : option (list (string * schema)) :=
  match str_keys d with
  | Some names =>
      if str_nodup names
      then option_all (fun kv => option_map (fun s => (py_str (fst kv), s)) (read (snd kv))) d else None
  | None => None
  end.
Definition read_patterns (d : pydict) : option (list (re * schema)) :=
  option_all (fun kv => match fst kv with
                        | PStr p => match read_pattern p, read (snd kv) with
                                    | Some r, Some s => Some (r, s)
                                    | _, _ => None
                                    end
                        | _ => None
                        end) d.
Definition read_others (v : pyval) : option (other schema) :=
  match v with
  | PBool true => Some Any
  | PBool false => Some Closed
  | _ => option_map Only (read v)
  end.

Definition read_properties (d : pydict) : option schema :=
  match dict_get_or (PDict []) "properties" d, dict_get_or (PDict []) "patternProperties" d with
  | PDict named, PDict patterns =>
      match read_named named, read_patterns patterns, read_others (dict_get_or (PBool true) "additionalProperties" d) with
      | Some n, Some p, Some o => Some [KProperties n p o]
      | _, _, _ => None
      end
  | _, _ => None
  end.
Definition read_object (d : pydict) : option schema :=
  both (reads "required" (fun v => option_map (fun names => [KRequired names]) (read_strings v)) d)
       (read_properties d).

Definition read_list (k : list schema -> keyword) (v : pyval) : option schema :=
  match v with PList l => option_map (fun ss => [k ss]) (option_all read l) | _ => None end.
Definition read_composition (d : pydict) : option schema :=
  both (reads "allOf" (read_list KAllOf) d)
    (both (reads "anyOf" (read_list KAnyOf) d)
       (both (reads "not" (fun v => option_map (fun s => [KNot s]) (read v)) d)
          (reads "if" (fun v => match read v, reads "then" read d, reads "else" read d with
                                | Some c, Some yes, Some no => Some [KIf c yes no]
                                | _, _, _ => None
                                end) d))).

Definition read_assertions (d : pydict) : option schema :=
  both (read_type d) (both (read_common d) (both (read_string d) (both (read_number d)
    (both (read_array d) (both (read_object d) (read_composition d)))))).
End Recursion.

(** The assertions the validator enforces, and keywords without an assertion. *)
Definition ASSERTIONS : list string :=
  ["type"; "const"; "enum"; "minLength"; "maxLength"; "pattern"; "minimum"; "maximum"; "minItems"; "uniqueItems";
   "items"; "required"; "properties"; "patternProperties"; "additionalProperties"; "allOf"; "anyOf"; "not"; "if";
   "then"; "else"].
Definition ANNOTATIONS : list string := ["$schema"; "$id"; "$defs"; "title"; "description"].

(** The abstract syntax of a schema document of the subset: only known keywords, a
    reference alone in its object. *)
Fixpoint read_schema (fuel : nat) (root : pydict) (v : pyval) : option schema :=
  match fuel, v with
  | S fuel, PDict d =>
      if dict_has "$ref" d then
        if keys_within d ("$ref" :: ANNOTATIONS) then
          match dict_get "$ref" d, resolved_json_schema_reference d root "" with
          | PStr _, inl target => if same_val (PDict target) (PDict d) then None
                                  else read_schema fuel root (PDict target)
          | _, _ => None
          end
        else None
      else if keys_within d (ASSERTIONS ++ ANNOTATIONS) then read_assertions (read_schema fuel root) d
      else None
  | _, _ => None
  end.
