(* ===== verification/JsonSchemaTheorems.v ===== *)
(** * The validator implements the meaning of a schema *)

From S2P Require Export JsonSchemaSpec.
From Stdlib Require Import QArith.
#[global] Open Scope Z_scope.

(** A validation that returns, with no error exactly when [P] holds. *)
Definition reports_iff (r : res (list string)) (P : Prop) : Prop := exists e, r = Ok e /\ (e = [] <-> P).

Lemma agrees_nil (P : Prop) : P -> reports_iff (Ok []) P.
Proof. by exists []. Qed.

Lemma agrees_ret e P : (e = [] <-> P) -> reports_iff (Ok e) P.
Proof. by exists e. Qed.

Lemma agrees_iff r P Q : reports_iff r P -> (P <-> Q) -> reports_iff r Q.
Proof. intros (e & Er & He) H. exists e. by rewrite He, H. Qed.

Lemma app_nil_iff {A} (l m : list A) : l ++ m = [] <-> l = [] /\ m = [].
Proof. by rewrite app_nil. Qed.

Lemma concat_nil_iff {A} (ls : list (list A)) : concat ls = [] <-> forall l, In l ls -> l = [].
Proof.
  induction ls as [|l ls IH]; cbn [concat]; [by split|]. rewrite app_nil_iff, IH. split.
  - intros [H1 H2] m [<-|Hm]; [done|by apply H2].
  - intros H. split; [apply H; by left|intros m Hm; apply H; by right].
Qed.

Lemma and_both (A A' B B' : Prop) : (A <-> A') -> (B <-> B') -> A /\ B <-> A' /\ B'.
Proof. tauto. Qed.

Lemma when_nil b m : when b m = [] <-> b = false.
Proof. by destruct b. Qed.

Lemma all_of_app {A} (P : A -> Prop) l m : all_of P (l ++ m) <-> all_of P l /\ all_of P m.
Proof. induction l as [|x l IH]; cbn [all_of app]; [tauto|]. rewrite IH. tauto. Qed.

Lemma all_of_one {A} (P : A -> Prop) x : all_of P [x] <-> P x.
Proof. cbn [all_of]. tauto. Qed.

Lemma all_of_In {A} (P : A -> Prop) l : all_of P l <-> forall x, In x l -> P x.
Proof.
  induction l as [|x l IH]; cbn [all_of]; [split; [by intros|done]|]. rewrite IH. split.
  - intros [H1 H2] y [<-|Hy]; [done|by apply H2].
  - intros H. split; [apply H; by left|intros y Hy; apply H; by right].
Qed.

Lemma satisfies_app s t v : satisfies (s ++ t) v <-> satisfies s v /\ satisfies t v.
Proof. apply all_of_app. Qed.

Lemma satisfies_one k v : satisfies [k] v <-> holds k v.
Proof. exact (all_of_one (fun k => holds k v) k). Qed.

Lemma both_inv a b s : both a b = Some s -> exists x y, a = Some x /\ b = Some y /\ s = x ++ y.
Proof. destruct a as [x|], b as [y|]; try done. intros [= <-]. by exists x, y. Qed.

Lemma option_map_inv {A B} (f : A -> B) o y : option_map f o = Some y -> exists x, o = Some x /\ y = f x.
Proof. destruct o as [x|]; [|done]. intros [= <-]. by exists x. Qed.

Lemma option_all_Forall2 {A B} (f : A -> option B) l m : option_all f l = Some m -> Forall2 (fun x y => f x = Some y) l m.
Proof.
  revert m. induction l as [|x l IH]; intros m; cbn [option_all]; [intros [= <-]; constructor|].
  destruct (f x) as [y|] eqn:E; [|done]. destruct (option_all f l) as [ms|]; [|done]. intros [= <-].
  constructor; [done|by apply IH].
Qed.

Lemma gather_agrees {A} (f : A -> res (list string)) (P : A -> Prop) l :
  (forall x, In x l -> reports_iff (f x) (P x)) -> reports_iff (gather f l) (forall x, In x l -> P x).
Proof.
  unfold gather. induction l as [|x l IH]; intros H; [by apply agrees_nil|].
  destruct (H x ltac:(by left)) as (e & Ex & He). destruct IH as (es & Es & Hes); [intros y Hy; apply H; by right|].
  cbn [mapM]. rewrite Ex. destruct (mapM f l) as [ls|]; [|done]. apply agrees_ret. cbn [concat].
  injection Es as ->. rewrite app_nil_iff, He, Hes. split.
  - intros [H1 H2] y [<-|Hy]; [done|by apply H2].
  - intros G. split; [apply G; by left|intros y Hy; apply G; by right].
Qed.

(** [reads] of an absent keyword demands nothing. *)
Lemma reads_inv key f d s : reads key f d = Some s ->
  dict_find key d = None /\ s = [] \/ exists v, dict_find key d = Some v /\ f v = Some s.
Proof. unfold reads. destruct (dict_find key d) as [v|]; [right; by exists v|]. intros [= <-]. by left. Qed.

Lemma get_find key d v : dict_find key d = Some v -> dict_get key d = v.
Proof. unfold dict_get, dict_get_or. by intros ->. Qed.
Lemma get_absent key d : dict_find key d = None -> dict_get key d = PNone.
Proof. unfold dict_get, dict_get_or. by intros ->. Qed.

(** ** Assertions that do not recurse *)

Lemma read_strings_inv v names : read_strings v = Some names -> v = PList (map PStr names).
Proof.
  destruct v as [| | | | |l|]; try done. cbn [read_strings]. intros H. apply option_all_Forall2 in H. f_equal.
  induction H as [|x n l ns Hx _ IH]; [done|]. cbn [map]. destruct x; try done. injection Hx as ->. by f_equal.
Qed.

Lemma type_part d s v location : read_type d = Some s ->
  json_schema_type_errors v d location = [] <-> satisfies s v.
Proof.
  unfold read_type, json_schema_type_errors, expected_types. intros H.
  apply reads_inv in H as [[E ->]|(t & E & H)]; [by rewrite (get_absent _ _ E)|]. rewrite (get_find _ _ _ E).
  assert (G : forall names, (if existsb (fun item => _json_type_matches v (py_str item)) (map PStr names) then []
      else [location +:+ ": expected type " +:+ py_repr (PList (map PStr names)) +:+ ", got " +:+ type_name v]) = []
      <-> satisfies [KType names] v).
  { intros names. unfold satisfies. rewrite all_of_one. cbn [holds].
    assert (X : existsb (fun item => _json_type_matches v (py_str item)) (map PStr names) = true <->
                exists n, In n names /\ _json_type_matches v n = true); [|rewrite <- X; by destruct (existsb _ _)].
    rewrite existsb_exists. split.
    - intros (x & Hx & Hm). apply in_map_iff in Hx as (n & <- & Hn). by exists n.
    - intros (n & Hn & Hm). exists (PStr n). split; [by apply in_map|done]. }
  destruct t as [| | | |n|l|]; try (by apply option_map_inv in H as (names & H & _)).
  - injection H as <-. apply (G [n]).
  - apply option_map_inv in H as (names & H & ->). apply read_strings_inv in H as [= ->]. apply G.
Qed.

Lemma common_part d s v location : read_common d = Some s ->
  json_schema_common_value_errors v d location = [] <-> satisfies s v.
Proof.
  unfold read_common, json_schema_common_value_errors. intros H. apply both_inv in H as (a & b & Ha & Hb & ->).
  rewrite app_nil_iff, satisfies_app. apply and_both.
  - apply reads_inv in Ha as [[E ->]|(c & E & Ha)]; rewrite E; [done|]. injection Ha as <-.
    unfold satisfies. rewrite when_nil, all_of_one, negb_false_iff. done.
  - apply reads_inv in Hb as [[E ->]|(c & E & Hb)]; [by rewrite (get_absent _ _ E)|]. rewrite (get_find _ _ _ E).
    destruct c as [| | | | |l|]; try done. injection Hb as <-. unfold satisfies.
    rewrite when_nil, all_of_one, negb_false_iff, existsb_exists. done.
Qed.

Lemma bound_part key k d s v bad m : reads key (read_int k) d = Some s ->
  (forall n, bad n = false <-> holds (k n) v) -> length_bound key d bad m = [] <-> satisfies s v.
Proof.
  intros H Hb. unfold length_bound. apply reads_inv in H as [[E ->]|(t & E & H)]; [by rewrite (get_absent _ _ E)|].
  rewrite (get_find _ _ _ E). destruct t as [| |n| | | |]; try done. injection H as <-. cbn [int_value].
  unfold satisfies. by rewrite when_nil, all_of_one.
Qed.

(** Bounds of another class of values hold. *)
Lemma bound_other key k d s v : reads key (read_int k) d = Some s -> (forall n, holds (k n) v) -> satisfies s v.
Proof.
  intros H Hk. apply reads_inv in H as [[_ ->]|(t & _ & H)]; [done|]. destruct t as [| |n| | | |]; try done.
  injection H as <-. by apply all_of_one.
Qed.

Lemma read_pattern_inv p r : read_pattern p = Some r ->
  forall t, exists b, fullmatch_pattern p t = Ok b /\ (b = true <-> re_lang r (S2L t)).
Proof.
  unfold read_pattern, fullmatch_pattern. destruct (re_parse p) as [r'|]; [|done].
  destruct (re_ok r') eqn:Eo; [|done]. intros [= ->] t. exists (fullmatch_str r t). split; [done|].
  by apply fullmatch_correct.
Qed.

Lemma pattern_part d s t location : reads "pattern" (fun v => match v with
      | PStr p => option_map (fun r => [KPattern r]) (read_pattern p) | _ => None end) d = Some s ->
  forall short long, reports_iff (match dict_get "pattern" d with
    | PStr pattern => let* matched := fullmatch_pattern pattern t in
                      Ok (short ++ long ++ when (negb matched) (location +:+ ": string does not match " +:+ repr_str pattern))
    | _ => Ok (short ++ long)
    end) ((short = [] /\ long = []) /\ satisfies s (PStr t)).
Proof.
  intros H short long. apply reads_inv in H as [[E ->]|(p & E & H)].
  - rewrite (get_absent _ _ E). apply agrees_ret. unfold satisfies. cbn [all_of]. rewrite app_nil_iff. tauto.
  - rewrite (get_find _ _ _ E). destruct p as [| | | |p| |]; try done. apply option_map_inv in H as (r & Hr & ->).
    destruct (read_pattern_inv p r Hr t) as (b & -> & Hb). apply agrees_ret. unfold satisfies.
    rewrite !app_nil_iff, when_nil, negb_false_iff, all_of_one, Hb. cbn [holds]. split.
    + intros (-> & -> & Hl). split; [done|]. by intros x [= <-].
    + intros [[-> ->] Hl]. split; [done|]. split; [done|by apply Hl].
Qed.

Lemma string_part d s v location : read_string d = Some s ->
  reports_iff (match v with PStr t => json_schema_string_errors t d location | _ => Ok [] end) (satisfies s v).
Proof.
  unfold read_string. intros H. apply both_inv in H as (a & s' & Ha & H & ->). apply both_inv in H as (b & c & Hb & Hc & ->).
  assert (O : is_str v = false -> satisfies (a ++ b ++ c) v).
  { intros Hv. rewrite !satisfies_app. split; [|split].
    - apply (bound_other _ _ _ _ _ Ha). by intros n t ->.
    - apply (bound_other _ _ _ _ _ Hb). by intros n t ->.
    - apply reads_inv in Hc as [[_ ->]|(p & _ & Hc)]; [done|]. destruct p as [| | | |p| |]; try done.
      apply option_map_inv in Hc as (r & _ & ->). apply all_of_one. by intros t ->. }
  destruct v as [| | | |t| |]; try (apply agrees_nil; by apply O). clear O. unfold json_schema_string_errors. cbv zeta.
  eapply agrees_iff.
  - apply (pattern_part d c t location Hc).
  - rewrite !satisfies_app.
    rewrite (bound_part "minLength" KMinLength d a (PStr t)), (bound_part "maxLength" KMaxLength d b (PStr t)); [tauto|done| |done|].
    + intros n. cbn [holds]. split; [intros G s [= <-]; lia|]. intros G. specialize (G t eq_refl). lia.
    + intros n. cbn [holds]. split; [intros G s [= <-]; lia|]. intros G. specialize (G t eq_refl). lia.
Qed.

Lemma number_bound key k d s v bad m : reads key (read_bound k) d = Some s ->
  (dict_find key d = None -> bad = false) ->
  (forall q t, dict_find key d = Some t -> num_value t = Some q -> bad = false <-> holds (k q) v) ->
  when bad m = [] <-> satisfies s v.
Proof.
  intros H Ha Hb. rewrite when_nil. apply reads_inv in H as [[E ->]|(t & E & H)]; [by rewrite Ha|].
  unfold read_bound in H. destruct (plain_number t); [|done]. apply option_map_inv in H as (q & Hq & ->).
  unfold satisfies. rewrite all_of_one. by apply (Hb q t).
Qed.

Lemma not_le x y : negb (Qle_bool x y) = false <-> (x <= y)%Q.
Proof. by rewrite negb_false_iff, Qle_bool_iff. Qed.

Lemma number_part d s v location : read_number d = Some s ->
  (if plain_number v then json_schema_number_errors v d location else []) = [] <-> satisfies s v.
Proof.
  unfold read_number. intros H. apply both_inv in H as (a & b & Ha & Hb & ->). rewrite satisfies_app.
  destruct (plain_number v) eqn:Ep.
  - unfold json_schema_number_errors. rewrite app_nil_iff.
    assert (Hx : exists x, num_value v = Some x) by (destruct v; try done; by eexists). destruct Hx as [x Hx].
    apply and_both; eapply number_bound; try eassumption.
    + intros E. rewrite (get_absent _ _ E). unfold num_lt. by destruct (num_value v).
    + intros q t E Hq. rewrite (get_find _ _ _ E). unfold num_lt. rewrite Hx, Hq, not_le. cbn [holds]. rewrite Hx. split.
      * intros Hle _. by exists x.
      * intros G. by destruct (G Ep) as (y & [= ->] & Hy).
    + intros E. rewrite (get_absent _ _ E). unfold num_lt. done.
    + intros q t E Hq. rewrite (get_find _ _ _ E). unfold num_lt. rewrite Hx, Hq, not_le. cbn [holds]. rewrite Hx. split.
      * intros Hle _. by exists x.
      * intros G. by destruct (G Ep) as (y & [= ->] & Hy).
  - split; [intros _|done]. unfold read_number in *.
    assert (O : forall key k s, (forall q, holds (k q) v) -> reads key (read_bound k) d = Some s -> satisfies s v).
    { intros key k s Hk H. apply reads_inv in H as [[_ ->]|(t & _ & H)]; [done|].
      unfold read_bound in H. destruct (plain_number t); [|done]. apply option_map_inv in H as (q & _ & ->).
      by apply all_of_one. }
    split; [eapply O; [|exact Ha]|eapply O; [|exact Hb]]; intros q G; congruence.
Qed.

(** ** Assertions that recurse *)

Section Recursion.
Variable errors_of : pyval -> pyval -> string -> res (list string).
Variable read : pyval -> option schema.

(** The recursive calls validate objects that can be read. *)
Hypothesis recursive : forall x sch s location, read sch = Some s -> reports_iff (errors_of x sch location) (satisfies s x).
Hypothesis objects : forall sch s, read sch = Some s -> exists d, sch = PDict d.

Lemma enumerate_In n l m x : In (m, x) (enumerate n l) -> In x l.
Proof.
  revert n. induction l as [|y l IH]; intros n; [done|]. intros [[= _ ->]|H]; [by left|right; by eapply IH].
Qed.

Lemma In_enumerate n l x : In x l -> exists m, In (m, x) (enumerate n l).
Proof.
  revert n. induction l as [|y l IH]; intros n; [done|]. intros [->|H]; [exists n; by left|].
  destruct (IH (n + 1) H) as [m Hm]. exists m. by right.
Qed.

Lemma items_part d s l location : reads "items" (fun v => option_map (fun s => [KItems s]) (read v)) d = Some s ->
  reports_iff (match dict_get "items" d with
          | PDict i => gather (fun '(n, v) => errors_of v (PDict i) (location +:+ "[" +:+ dec n +:+ "]")) (enumerate 0 l)
          | _ => Ok [] end) (satisfies s (PList l)).
Proof.
  intros H. apply reads_inv in H as [[E ->]|(t & E & H)]; [rewrite (get_absent _ _ E); by apply agrees_nil|].
  rewrite (get_find _ _ _ E). apply option_map_inv in H as (i & Hi & ->). destruct (objects _ _ Hi) as [o ->].
  eapply agrees_iff.
  - apply gather_agrees with (P := fun p => satisfies i (snd p)). intros [n x] _. by apply recursive.
  - unfold satisfies. rewrite all_of_one. cbn [holds]. split.
    + intros G l' [= <-] x Hx. destruct (In_enumerate 0 l x Hx) as [m Hm]. exact (G _ Hm).
    + intros G [m x] Hm. apply (G l eq_refl). by eapply enumerate_In.
Qed.

Lemma array_part d s v location : read_array read d = Some s ->
  reports_iff (match v with PList l => json_schema_array_errors errors_of l d location | _ => Ok [] end) (satisfies s v).
Proof.
  unfold read_array. intros H. apply both_inv in H as (a & s' & Ha & H & ->). apply both_inv in H as (b & c & Hb & Hc & ->).
  assert (O : is_list v = false -> satisfies (a ++ b ++ c) v).
  { intros Hv. rewrite !satisfies_app. split; [|split].
    - apply (bound_other _ _ _ _ _ Ha). by intros n t ->.
    - apply reads_inv in Hb as [[_ ->]|(p & _ & Hb)]; [done|]. destruct p as [|[]| | | | |]; try done; injection Hb as <-; [|done].
      apply all_of_one. by intros t ->.
    - apply reads_inv in Hc as [[_ ->]|(p & _ & Hc)]; [done|]. apply option_map_inv in Hc as (r & _ & ->).
      apply all_of_one. by intros t ->. }
  destruct v as [| | | | |l|]; try (apply agrees_nil; by apply O). clear O. unfold json_schema_array_errors. cbv zeta.
  destruct (items_part d c l location Hc) as (e & Ee & He). rewrite Ee. apply agrees_ret.
  rewrite !app_nil_iff, !satisfies_app, He. apply and_both; [|apply and_both; [|done]].
  - apply (bound_part "minItems" KMinItems); [done|]. intros n. cbn [holds].
    split; [intros G t [= <-]; lia|]. intros G. specialize (G l eq_refl). lia.
  - rewrite when_nil. apply reads_inv in Hb as [[E ->]|(p & E & Hb)]; [by rewrite (get_absent _ _ E)|].
    rewrite (get_find _ _ _ E). destruct p as [|[]| | | | |]; try done; injection Hb as <-; [|done].
    unfold satisfies. rewrite all_of_one. cbn [is_true andb holds]. rewrite negb_false_iff.
    rewrite str_nodup_NoDup. split; [by intros G t [= <-]|intros G; by apply G].
Qed.

(** *** Objects *)

Lemma in_dict_str n d : in_dict (PStr n) d = Ok (dict_has n d).
Proof.
  unfold in_dict, dict_has. cbn [hashable]. f_equal. induction d as [|[k v] d IH]; [done|]. cbn [existsb fst dict_find].
  assert (E : py_eq k (PStr n) = eq_str k n) by (by destruct k). rewrite E, IH. by destruct (eq_str k n).
Qed.

Lemma required_part d s o location :
  reads "required" (fun v => option_map (fun names => [KRequired names]) (read_strings v)) d = Some s ->
  reports_iff (match dict_get_or (PList []) "required" d with
          | PList l => gather (fun key => let* present := in_dict key o in
              Ok (when (negb present) (location +:+ ": missing required property " +:+ py_str key))) l
          | _ => Ok [] end) (satisfies s (PDict o)).
Proof.
  intros H. unfold dict_get_or. apply reads_inv in H as [[E ->]|(t & E & H)]; rewrite E; [by apply agrees_nil|].
  apply option_map_inv in H as (names & H & ->). apply read_strings_inv in H as ->.
  eapply agrees_iff.
  - apply gather_agrees with (P := fun key => exists n, key = PStr n /\ exists x, dict_find n o = Some x).
    intros key Hk. apply in_map_iff in Hk as (n & <- & _). rewrite in_dict_str. apply agrees_ret.
    rewrite when_nil, negb_false_iff, dict_has_find. split; [intros Hx; by exists n|].
    by intros (m & [= <-] & Hx).
  - unfold satisfies. rewrite all_of_one. cbn [holds]. split.
    + intros G o' [= <-] n Hn. destruct (G (PStr n) ltac:(by apply in_map)) as (m & [= <-] & Hx). done.
    + intros G key Hk. apply in_map_iff in Hk as (n & <- & Hn). exists n. split; [done|by apply (G o)].
Qed.

(** A named property is found in the list that was read. *)
Lemma named_find ps named : read_named read ps = Some named -> forall key,
  match dict_find key ps with
  | Some t => exists s, read t = Some s /\ forall s', In (key, s') named <-> s' = s
  | None => forall s', ~ In (key, s') named
  end.
Proof.
  unfold read_named. destruct (str_keys ps) as [names|] eqn:En; [|done].
  destruct (str_nodup names) eqn:Ed; [|done]. apply str_nodup_NoDup in Ed. intros H. apply option_all_Forall2 in H.
  revert names En Ed. induction H as [|[k t] [n s] ps named Hr H2 IH]; intros names En Ed key; [intros s' []|].
  cbn [str_keys fst snd] in *. destruct k as [| | | |k| |]; try done.
  destruct (str_keys ps) as [ns|] eqn:Ens; [|done]. injection En as <-. inversion Ed as [|? ? Hni Hnd]; subst.
  apply option_map_inv in Hr as (s0 & Hs0 & [= -> ->]). cbn [py_str]. specialize (IH ns eq_refl Hnd).
  assert (A : ~ In k ns -> forall s', ~ In (k, s') named).
  { intros Hk s' Hin. apply Hk. clear -H2 Hin Ens. revert ns Ens.
    induction H2 as [|[k' t'] [n' s''] ps named Hr _ IH]; intros ns En; [done|]. cbn [str_keys fst snd] in *.
    destruct k' as [| | | |k'| |]; try done. destruct (str_keys ps) as [ns'|]; [|done]. injection En as <-.
    apply option_map_inv in Hr as (? & _ & [= -> _]). cbn [py_str] in Hin.
    destruct Hin as [[= -> _]|Hin]; [by left|right; by eapply IH]. }
  cbn [dict_find]. destruct (eq_str (PStr k) key) eqn:Ek.
  - cbn [eq_str] in Ek. apply String.eqb_eq in Ek as ->. exists s0. split; [done|]. intros s'. split.
    + intros [[= ->]|Hin]; [done|]. by apply A in Hin.
    + intros ->. by left.
  - cbn [eq_str] in Ek. apply String.eqb_neq in Ek. specialize (IH key).
    assert (B : forall s', In (key, s') ((k, s0) :: named) <-> In (key, s') named)
      by (intros s'; split; [intros [[= -> _]|Hin]; done|by right]).
    destruct (dict_find key ps) as [t'|].
    + destruct IH as (s & Es & Hs). exists s. split; [done|]. intros s'. by rewrite B.
    + intros s'. rewrite B. apply IH.
Qed.

Lemma named_part ps named key x location : read_named read ps = Some named ->
  exists m e, (match dict_get key ps with
               | PDict d => let* e := errors_of x (PDict d) (location +:+ "." +:+ key) in Ok (true, e)
               | _ => Ok (false, [])
               end) = Ok (m, e) /\
    (m = true <-> In key (map fst named)) /\
    (e = [] <-> all_of (fun p => fst p = key -> satisfies (snd p) x) named).
Proof.
  intros H. pose proof (named_find ps named H key) as F. setoid_rewrite all_of_In. destruct (dict_find key ps) as [t|] eqn:E.
  - rewrite (get_find _ _ _ E). destruct F as (s & Hs & Hin). destruct (objects _ _ Hs) as [d ->].
    destruct (recursive x (PDict d) s (location +:+ "." +:+ key) Hs) as (e & -> & He). exists true, e.
    split; [done|]. split.
    + split; [intros _|done]. apply in_map_iff. exists (key, s). split; [done|by apply Hin].
    + rewrite He. split.
      * intros Hx [k s'] Hk. cbn [fst snd]. intros ->. apply Hin in Hk as ->. done.
      * intros G. apply (G (key, s)); [by apply Hin|done].
  - rewrite (get_absent _ _ E). exists false, []. split; [done|]. split.
    + split; [done|]. intros Hk. apply in_map_iff in Hk as ([k s] & <- & Hk). by apply F in Hk.
    + split; [|done]. intros _ [k s] Hk. cbn [fst]. intros ->. by apply F in Hk.
Qed.

Lemma patterns_part pats patterns key x location : read_patterns read pats = Some patterns ->
  exists es, mapM (fun '(pattern, nested) =>
      let* matches := fullmatch_pattern (py_str pattern) key in
      match matches, nested with
      | true, PDict d => let* e := errors_of x (PDict d) (location +:+ "." +:+ key) in Ok (true, e)
      | _, _ => Ok (false, [])
      end) pats = Ok es /\
    (existsb fst es = true <-> exists r, In r (map fst patterns) /\ re_lang r (S2L key)) /\
    (concat (map snd es) = [] <-> all_of (fun p => re_lang (fst p) (S2L key) -> satisfies (snd p) x) patterns).
Proof.
  unfold read_patterns. intros H. apply option_all_Forall2 in H.
  induction H as [|[k t] [r s] pats patterns Hr _ IH].
  { exists []. split; [done|]. split; [|done]. split; [done|]. by intros (r & Hr & _). }
  cbn [fst snd] in Hr. destruct k as [| | | |p| |]; try done.
  destruct (read_pattern p) as [r'|] eqn:Ep; [|done]. destruct (read t) as [s'|] eqn:Et; [|done].
  injection Hr as <- <-. destruct (objects _ _ Et) as [d ->]. destruct IH as (es & Es & Hm & He).
  destruct (read_pattern_inv p r' Ep key) as (b & Eb & Hb). cbn [mapM py_str]. rewrite Eb.
  destruct (recursive x (PDict d) s' (location +:+ "." +:+ key) Et) as (e & Ee & Hs). destruct b.
  - rewrite Ee. cbn [mapM] in Es. rewrite Es. exists ((true, e) :: es). split; [done|]. cbn [existsb fst snd map concat orb all_of]. split.
    + split; [intros _|done]. exists r'. split; [by left|by apply Hb].
    + rewrite app_nil_iff, He, Hs. assert (L : re_lang r' (S2L key)) by (by apply Hb). tauto.
  - rewrite Es. exists ((false, []) :: es). split; [done|]. cbn [existsb fst snd map concat orb all_of app].
    assert (L : ~ re_lang r' (S2L key)) by (intros L; by apply Hb in L). split.
    + rewrite Hm. split; [intros (r & Hr & Hl); exists r; split; [by right|done]|].
      intros (r & [<-|Hr] & Hl); [done|by exists r].
    + rewrite He. tauto.
Qed.

(** What an entry of the object must fulfil as a declared property. *)
Definition declared_holds (named : list (string * schema)) (patterns : list (re * schema)) (kv : pyval * pyval) : Prop :=
  all_of (fun p => fst p = py_str (fst kv) -> satisfies (snd p) (snd kv)) named /\
  all_of (fun p => re_lang (fst p) (S2L (py_str (fst kv))) -> satisfies (snd p) (snd kv)) patterns.

Lemma declared_part ps pats named patterns key x location :
  read_named read ps = Some named -> read_patterns read pats = Some patterns ->
  exists m e, declared_property errors_of (py_str key) x ps pats location = Ok (m, e) /\
    (m = true <-> declares named patterns (py_str key)) /\ (e = [] <-> declared_holds named patterns (key, x)).
Proof.
  intros Hn Hp. unfold declared_property.
  destruct (named_part ps named (py_str key) x location Hn) as (m & e & -> & Hm & He).
  destruct (patterns_part pats patterns (py_str key) x location Hp) as (es & -> & Hms & Hes).
  eexists _, _. split; [reflexivity|]. split.
  - rewrite orb_true_iff, Hm, Hms. done.
  - rewrite app_nil_iff, He, Hes. done.
Qed.

Lemma properties_part ps pats named patterns o location :
  read_named read ps = Some named -> read_patterns read pats = Some patterns ->
  exists matched e, json_schema_object_property_errors errors_of o ps pats location = Ok (matched, e) /\
    (forall kv, In kv o -> str_in (py_str (fst kv)) matched = true <-> declares named patterns (py_str (fst kv))) /\
    (e = [] <-> forall kv, In kv o -> declared_holds named patterns kv).
Proof.
  intros Hn Hp. unfold json_schema_object_property_errors.
  assert (G : exists es, mapM (fun '(key, v) =>
      let* (matched, e) := declared_property errors_of (py_str key) v ps pats location in
      Ok (py_str key, matched, e)) o = Ok es /\
      (forall k, In k (map (fun e => fst (fst e)) (List.filter (fun e : string * bool * list string => snd (fst e)) es)) <->
                 (exists kv, In kv o /\ py_str (fst kv) = k) /\ declares named patterns k) /\
      (concat (map snd es) = [] <-> forall kv, In kv o -> declared_holds named patterns kv)).
  { induction o as [|[key x] o (es & Es & Hm & He)].
    { exists []. split; [done|]. split; [|done]. intros k. split; [done|]. by intros [(kv & Hin & _) _]. }
    destruct (declared_part ps pats named patterns key x location Hn Hp) as (m & e & Ed & Hdm & Hde).
    exists ((py_str key, m, e) :: es). cbn [mapM]. rewrite Ed, Es. split; [done|]. cbn [List.filter fst snd map concat]. split.
    - intros k. assert (S : (exists kv, In kv ((key, x) :: o) /\ py_str (fst kv) = k) <->
                            py_str key = k \/ exists kv, In kv o /\ py_str (fst kv) = k).
      { split; [intros (kv & [<-|Hin] & Hk); [by left|right; by exists kv]|].
        intros [Hk|(kv & Hin & Hk)]; [exists (key, x); by split; [left|]|exists kv; by split; [right|]]. }
      rewrite S. destruct m; cbn [map In fst].
      + rewrite Hm. split; [intros [<-|[Hk Hd]]|].
        * split; [by left|by apply Hdm].
        * split; [by right|done].
        * intros [[<-|Hk] Hd]; [by left|by right].
      + rewrite Hm. split; [intros [Hk Hd]; split; [by right|done]|].
        intros [[<-|Hk] Hd]; [by apply Hdm in Hd|done].
    - rewrite app_nil_iff, He, Hde. split.
      + intros [H1 H2] kv [<-|Hin]; [done|by apply H2].
      + intros H. split; [apply H; by left|intros kv Hin; apply H; by right]. }
  destruct G as (es & Es & Hm & He). rewrite Es. eexists _, _. split; [reflexivity|]. split; [|done].
  intros kv Hin. rewrite str_in_In, Hm. split; [by intros [_ Hd]|]. intros Hd. split; [by exists kv|done].
Qed.

Lemma additional_part o matched others addl named patterns location :
  read_others read addl = Some others ->
  (forall kv, In kv o -> str_in (py_str (fst kv)) matched = true <-> declares named patterns (py_str (fst kv))) ->
  reports_iff (json_schema_additional_property_errors errors_of o matched addl location)
    (forall kv, In kv o -> declares named patterns (py_str (fst kv)) \/
       match others with Any => True | Closed => False | Only s => satisfies s (snd kv) end).
Proof.
  intros Ho Hm. apply gather_agrees. intros [key x] Hin. specialize (Hm _ Hin). cbn [fst snd] in *.
  destruct (str_in (py_str key) matched) eqn:Es.
  { apply agrees_nil. left. by apply Hm. }
  assert (N : ~ declares named patterns (py_str key)) by (intros D; by apply Hm in D).
  assert (R : forall s, read addl = Some s -> others = Only s -> reports_iff match addl with
      | PBool false => Ok [location +:+ ": unexpected property " +:+ py_str key]
      | PDict a => errors_of x (PDict a) (location +:+ "." +:+ py_str key)
      | _ => Ok [] end (declares named patterns (py_str key) \/ match others with Any => True | Closed => False | Only s => satisfies s x end)).
  { intros s Hs ->. destruct (objects _ _ Hs) as [d ->]. eapply agrees_iff; [by apply recursive|]. tauto. }
  unfold read_others in Ho. destruct addl as [|[]| | | | |];
    try (apply option_map_inv in Ho as (? & Hs & ->); by apply (R _ Hs)); injection Ho as <-.
  - apply agrees_nil. by right.
  - apply agrees_ret. split; [done|tauto].
Qed.

Lemma object_part d s v location : read_object read d = Some s ->
  reports_iff (match v with PDict o => json_schema_object_errors errors_of o d location | _ => Ok [] end) (satisfies s v).
Proof.
  unfold read_object. intros H. apply both_inv in H as (a & b & Ha & Hb & ->). unfold read_properties in Hb.
  destruct (dict_get_or (PDict []) "properties" d) as [| | | | | |ps] eqn:Eps; try done.
  destruct (dict_get_or (PDict []) "patternProperties" d) as [| | | | | |pats] eqn:Epats; try done.
  destruct (read_named read ps) as [named|] eqn:En; [|done].
  destruct (read_patterns read pats) as [patterns|] eqn:Ep; [|done].
  destruct (read_others read _) as [others|] eqn:Eo; [|done]. injection Hb as <-.
  destruct v as [| | | | | |o]; try (apply agrees_nil; apply satisfies_app; split; [|by apply all_of_one];
    apply reads_inv in Ha as [[_ ->]|(t & _ & Ha)]; [done|]; apply option_map_inv in Ha as (names & _ & ->); by apply all_of_one).
  unfold json_schema_object_errors. rewrite Eps, Epats. cbn [mapping_or_empty].
  destruct (required_part d a o location Ha) as (e1 & -> & He1).
  destruct (properties_part ps pats named patterns o location En Ep) as (matched & e2 & -> & Hm & He2).
  destruct (additional_part o matched others _ named patterns location Eo Hm) as (e3 & -> & He3).
  apply agrees_ret. rewrite !app_nil_iff, satisfies_app, He1, He2, He3. apply and_both; [done|].
  rewrite satisfies_one. cbn [holds]. split.
  - intros [H1 H2] o' [= <-] key x Hin. destruct (H1 _ Hin) as [A B]. exact (conj A (conj B (H2 _ Hin))).
  - intros G. split; intros [key x] Hin; destruct (G o eq_refl key x Hin) as (A & B & C); [exact (conj A B)|exact C].
Qed.

(** *** Composition *)

Lemma branch_part key d s v location : reads key read d = Some s ->
  reports_iff (match dict_get key d with PDict b => errors_of v (PDict b) location | _ => Ok [] end) (satisfies s v).
Proof.
  intros H. apply reads_inv in H as [[E ->]|(t & E & H)]; [rewrite (get_absent _ _ E); by apply agrees_nil|].
  rewrite (get_find _ _ _ E). destruct (objects _ _ H) as [b ->]. by apply recursive.
Qed.

Lemma all_part d s v location : reads "allOf" (read_list read KAllOf) d = Some s ->
  exists l, iterate (dict_get_or (PList []) "allOf" d) = Ok l /\
    reports_iff (gather (fun b => errors_of v b location) l) (satisfies s v).
Proof.
  intros H. unfold dict_get_or. apply reads_inv in H as [[E ->]|(t & E & H)]; rewrite E.
  { exists []. split; [done|by apply agrees_nil]. }
  destruct t as [| | | | |l|]; try done. apply option_map_inv in H as (ss & H & ->). apply option_all_Forall2 in H.
  exists l. split; [done|]. clear E. eapply agrees_iff; [|by rewrite satisfies_one]. cbn [holds].
  induction H as [|b t l ss Hb _ IH]; [by apply agrees_nil|]. cbn [all_of].
  destruct (recursive v b t location Hb) as (e & Ee & He). destruct IH as (es & Es & Hes).
  unfold gather in *. cbn [mapM]. rewrite Ee. destruct (mapM _ l) as [ls|]; [|done]. injection Es as Es.
  apply agrees_ret. cbn [concat]. by rewrite app_nil_iff, He, Es, Hes.
Qed.

Lemma any_part v l ss location : option_all read l = Some ss ->
  exists b, any_branch errors_of v l location = Ok b /\ (b = true <-> some_of (fun s => satisfies s v) ss).
Proof.
  intros H. apply option_all_Forall2 in H. induction H as [|b t l ss Hb _ IH]; [by exists false|].
  cbn [any_branch some_of]. destruct (recursive v b t location Hb) as (e & -> & He). destruct e as [|m e].
  - exists true. split; [done|]. split; [|done]. intros _. left. by apply He.
  - destruct IH as (x & -> & Hx). exists x. split; [done|]. rewrite Hx. split; [by right|].
    intros [Hs|Hs]; [by apply He in Hs|done].
Qed.

Lemma composition_part d s v location : read_composition read d = Some s ->
  reports_iff (json_schema_composition_errors errors_of v d location) (satisfies s v).
Proof.
  unfold read_composition, json_schema_composition_errors. intros H.
  apply both_inv in H as (a & s' & Ha & H & ->). apply both_inv in H as (b & s'' & Hb & H & ->).
  apply both_inv in H as (n & c & Hn & Hc & ->).
  destruct (all_part d a v location Ha) as (l & -> & e1 & -> & H1).
  assert (exists e2, match dict_get "anyOf" d with
      | PList l => let* b := any_branch errors_of v l location in
                   Ok (when (negb b) (location +:+ ": no anyOf branch matches"))
      | _ => Ok [] end = Ok e2 /\ (e2 = [] <-> satisfies b v)) as (e2 & -> & H2).
  { apply reads_inv in Hb as [[E ->]|(t & E & Hb)]; [rewrite (get_absent _ _ E); by exists []|].
    rewrite (get_find _ _ _ E). destruct t as [| | | | |bs|]; try done. apply option_map_inv in Hb as (ss & Hss & ->).
    destruct (any_part v bs ss location Hss) as (x & -> & Hx). eexists. split; [reflexivity|].
    unfold satisfies. rewrite when_nil, negb_false_iff, all_of_one, Hx. done. }
  assert (exists e3, match dict_get "not" d with
      | PDict d => let* e := errors_of v (PDict d) location in
                   Ok (when (match e with [] => true | _ => false end) (location +:+ ": forbidden schema branch matches"))
      | _ => Ok [] end = Ok e3 /\ (e3 = [] <-> satisfies n v)) as (e3 & -> & H3).
  { apply reads_inv in Hn as [[E ->]|(t & E & Hn)]; [rewrite (get_absent _ _ E); by exists []|].
    rewrite (get_find _ _ _ E). apply option_map_inv in Hn as (s & Hs & ->). destruct (objects _ _ Hs) as [o ->].
    destruct (recursive v (PDict o) s location Hs) as (e & -> & He). eexists. split; [reflexivity|].
    rewrite when_nil, satisfies_one. cbn [holds]. change (all_of _ s) with (satisfies s v).
    rewrite <- He. by destruct e. }
  assert (exists e4, match dict_get "if" d with
      | PDict c => let* e := errors_of v (PDict c) location in
                   match dict_get (match e with [] => "then" | _ => "else" end) d with
                   | PDict d => errors_of v (PDict d) location
                   | _ => Ok [] end
      | _ => Ok [] end = Ok e4 /\ (e4 = [] <-> satisfies c v)) as (e4 & -> & H4).
  { apply reads_inv in Hc as [[E ->]|(t & E & Hc)]; [rewrite (get_absent _ _ E); by exists []|].
    rewrite (get_find _ _ _ E). destruct (read t) as [k|] eqn:Ek; [|done].
    destruct (reads "then" read d) as [yes|] eqn:Ey; [|done]. destruct (reads "else" read d) as [no|] eqn:Eno; [|done].
    injection Hc as <-. destruct (objects _ _ Ek) as [o ->].
    destruct (recursive v (PDict o) k location Ek) as (e & -> & He).
    setoid_rewrite satisfies_one. cbn [holds]. destruct e as [|m e].
    - destruct (branch_part "then" d yes v location Ey) as (e4 & -> & H4). exists e4. split; [done|].
      assert (K : satisfies k v) by (by apply He). rewrite H4. unfold satisfies in *. tauto.
    - destruct (branch_part "else" d no v location Eno) as (e4 & -> & H4). exists e4. split; [done|].
      assert (K : ~ satisfies k v) by (intros K; by apply He in K). rewrite H4. unfold satisfies in *. tauto. }
  apply agrees_ret. by rewrite !app_nil_iff, !satisfies_app, H1, H2, H3, H4.
Qed.

Lemma assertions_part d s v location : read_assertions read d = Some s ->
  reports_iff (assertion_errors errors_of v d location) (satisfies s v).
Proof.
  unfold read_assertions, assertion_errors. intros H.
  do 6 (apply both_inv in H as (? & ? & ? & H & ->)).
  match goal with
  | T : read_type d = Some ?a, C : read_common d = Some ?b, S : read_string d = Some ?c, N : read_number d = Some ?n,
    A : read_array _ d = Some ?e, O : read_object _ d = Some ?f |- _ =>
      pose proof (type_part d a v location T) as HT; pose proof (common_part d b v location C) as HC;
      pose proof (number_part d n v location N) as HN;
      destruct (string_part d c v location S) as (es & Es & HS); destruct (array_part d e v location A) as (ea & Ea & HA);
      destruct (object_part d f v location O) as (eo & Eo & HO)
  end.
  destruct (composition_part d _ v location H) as (ec & Ec & HX).
  destruct (json_schema_type_errors v d location) as [|m te].
  - rewrite Es, Ea, Eo, Ec. apply agrees_ret. rewrite !app_nil_iff, !satisfies_app, HC, HS, HN, HA, HO, HX, <- HT. tauto.
  - apply agrees_ret. rewrite satisfies_app, <- HT. split; [discriminate|intros [E _]; discriminate].
Qed.
End Recursion.

(** ** The validator *)

Lemma same_val_refl v : same_val v v = true.
Proof.
  revert v. fix self 1. intros v. destruct v as [|b|z|q r|s|l|d]; cbn [same_val].
  - done.
  - apply Bool.eqb_true_iff. done.
  - apply Z.eqb_refl.
  - by rewrite Z.eqb_refl, Pos.eqb_refl, String.eqb_refl.
  - apply String.eqb_refl.
  - induction l as [|x l IH]; [done|]. by rewrite self, IH.
  - induction d as [|[k x] d IH]; [done|]. by rewrite !self, IH.
Qed.

Lemma read_schema_object fuel root v s : read_schema fuel root v = Some s -> exists d, v = PDict d.
Proof. destruct fuel; [done|]. destruct v; try done. by eexists. Qed.

(** C19: on every schema of the supported subset whose references can be expanded,
    the validator returns, and it reports no error exactly when the value
    satisfies the schema: references, short-circuits, matched properties and
    conditional branches included. *)
Theorem json_schema_meaning fuel v d root s location :
  read_schema fuel root (PDict d) = Some s -> root <> [] ->
  exists errors, json_schema_errors fuel v d (Some root) location = Ok errors /\ (errors = [] <-> satisfies s v).
Proof.
  intros H Hr. unfold json_schema_errors. destruct root as [|e r]; [done|]. remember (e :: r) as root eqn:E. clear e r E Hr.
  assert (G : forall fuel v sch s location, read_schema fuel root sch = Some s ->
                reports_iff (schema_errors_at fuel root v sch location) (satisfies s v)); [|by apply G].
  clear. induction fuel as [|fuel IH]; intros v sch s location H; [done|].
  destruct (read_schema_object _ _ _ _ H) as [d ->]. cbn [read_schema schema_errors_at] in *.
  destruct (dict_has "$ref" d) eqn:Er.
  - destruct (keys_within _ _); [|done]. apply dict_has_find in Er as (t & Er). pose proof (get_find _ _ _ Er) as Eg.
    unfold resolved_json_schema_reference in *. rewrite Eg in *. destruct t as [| | | |reference| |]; try done.
    destruct (starts_with "#/" reference); cbn [negb] in *; [|done].
    destruct (walk_reference _ _) as [[| | | | | |target]|]; try done.
    destruct (same_val (PDict target) (PDict d)); [done|]. by apply IH.
  - destruct (keys_within _ _); [|done]. unfold dict_has in Er. unfold resolved_json_schema_reference.
    rewrite (get_absent "$ref" d) by (by destruct (dict_find "$ref" d)).
    rewrite same_val_refl. apply (assertions_part _ (read_schema fuel root)); [exact IH|apply read_schema_object|done].
Qed.

(** * Witnesses and examples of the JSON Schema validator *)

(** The capability manifest schema, shortened to three capabilities. *)
Definition capability_schema : pydict :=
  [(PStr "type", PStr "object"); (PStr "additionalProperties", PBool true);
   (PStr "required", PList [PStr "state"; PStr "reason"]);
   (PStr "properties", PDict
     [(PStr "state", PDict [(PStr "enum", PList [PStr "verified"; PStr "not_implemented"])]);
      (PStr "reason", PDict [(PStr "type", PStr "string"); (PStr "minLength", PInt 1)])])].
Definition manifest_schema : pydict :=
  [(PStr "$schema", PStr "https://json-schema.org/draft/2020-12/schema");
   (PStr "type", PStr "object"); (PStr "additionalProperties", PBool true);
   (PStr "required", PList [PStr "schema_version"; PStr "capabilities"]);
   (PStr "properties", PDict
     [(PStr "schema_version", PDict [(PStr "const", PInt 1)]);
      (PStr "host_model_constraints", PDict
        [(PStr "type", PStr "array"); (PStr "items", PDict [(PStr "type", PStr "string")])]);
      (PStr "capabilities", PDict
        [(PStr "type", PStr "object"); (PStr "additionalProperties", PBool false);
         (PStr "required", PList [PStr "phase1"; PStr "phase4"]);
         (PStr "patternProperties", PDict
           [(PStr "^[a-z][a-z0-9_]+$", PDict [(PStr "$ref", PStr "#/$defs/capability")])])])]);
   (PStr "$defs", PDict [(PStr "capability", PDict capability_schema)])].

Definition capability_value (state : string) : pyval :=
  PDict [(PStr "state", PStr state); (PStr "reason", PStr "observed")].
Definition manifest_value (extra : pydict) : pyval :=
  PDict [(PStr "schema_version", PInt 1); (PStr "host_model_constraints", PList [PStr "single worker"]);
         (PStr "capabilities", PDict ((PStr "phase1", capability_value "verified") ::
                                      (PStr "phase4", capability_value "not_implemented") :: extra))].

(** The errors of a manifest, with their locations. *)
Example manifest_errors_ex :
  let check extra := json_schema_errors 9 (manifest_value extra) manifest_schema None "$" in
  check [] = Ok [] /\
  check [(PStr "deny", capability_value "maybe")]
  = Ok ["$.capabilities.deny.state: value 'maybe' is outside enum ['verified', 'not_implemented']"] /\
  check [(PStr "Deny", PInt 1)] = Ok ["$.capabilities: unexpected property Deny"] /\
  check [(PStr "deny", PInt 1)] = Ok ["$.capabilities.deny: expected type ['object'], got int"] /\
  json_schema_errors 9 (PDict []) manifest_schema None "$"
  = Ok ["$: missing required property schema_version"; "$: missing required property capabilities"].
Proof. vm_compute. repeat split. Qed.

Definition manifest_read : schema := default [] (read_schema 9 manifest_schema (PDict manifest_schema)).

(** What the theorem says of an accepted and of a rejected manifest. *)
Lemma json_schema_meaning_witness :
  satisfies manifest_read (manifest_value [(PStr "deny", capability_value "verified")]) /\
  ~ satisfies manifest_read (manifest_value [(PStr "deny", capability_value "maybe")]).
Proof.
  assert (R : read_schema 9 manifest_schema (PDict manifest_schema) = Some manifest_read)
    by (vm_compute; reflexivity).
  split.
  - destruct (json_schema_meaning 9 (manifest_value [(PStr "deny", capability_value "verified")]) manifest_schema
      manifest_schema manifest_read "$" R ltac:(discriminate)) as (errors & E & H).
    apply H. vm_compute in E. congruence.
  - destruct (json_schema_meaning 9 (manifest_value [(PStr "deny", capability_value "maybe")]) manifest_schema
      manifest_schema manifest_read "$" R ltac:(discriminate)) as (errors & E & H).
    intros S. apply H in S. subst errors. vm_compute in E. discriminate.
Defined.

(** The upper bounds of arrays and objects that the checked-in contracts state are
    not in the subset: the validator accepts values beyond them. *)
Example size_bounds_ignored :
  let few := [(PStr "type", PStr "array"); (PStr "maxItems", PInt 1)] in
  let some := [(PStr "type", PStr "object"); (PStr "minProperties", PInt 1)] in
  json_schema_errors 9 (PList [PInt 1; PInt 2; PInt 3]) few None "$" = Ok [] /\
  json_schema_errors 9 (PDict []) some None "$" = Ok [] /\
  read_schema 9 few (PDict few) = None /\ read_schema 9 some (PDict some) = None.
Proof. vm_compute. repeat split. Qed.

(** A cyclic reference: no fuel is enough, where Python exhausts its stack. *)
Example cyclic_reference_ex :
  let loop := [(PStr "$defs", PDict [(PStr "a", PDict [(PStr "$ref", PStr "#/$defs/b")]);
                                     (PStr "b", PDict [(PStr "$ref", PStr "#/$defs/a")])]);
               (PStr "$ref", PStr "#/$defs/a")] in
  json_schema_errors 40 (PInt 1) loop None "$" = Err OutOfFuel.
Proof. vm_compute. reflexivity. Qed.
