(* ===== verification/Baseline.v ===== *)
(** * Finalising a no-CRS run: records and verdict (no_crs_baseline.py)

    What [finalize_run] makes of the normalised case records: a record for every
    planned case, the deprecated aliases as views of their replacements, and the
    status of the run with its gates. *)

From S2P Require Export PyValue.
From Stdlib Require Import QArith.
#[global] Open Scope Z_scope.

(** ** Statuses *)

Definition CASE_STATUSES : list string :=
  ["PASS"; "FAIL"; "BLOCKED"; "UNSUPPORTED"; "NOT_APPLICABLE"; "NOT_EXECUTED"].
Definition STATUS_ALIASES (text : string) : option string :=
  if str_in text ["pass"; "passed"; "ok"] then Some "PASS"
  else if str_in text ["fail"; "failed"; "error"] then Some "FAIL"
  else if String.eqb text "blocked" then Some "BLOCKED"
  else if str_in text ["not_executable"; "unsupported"] then Some "UNSUPPORTED"
  else if String.eqb text "not_applicable" then Some "NOT_APPLICABLE"
  else if str_in text ["skipped"; "not_run"; "not_executed"] then Some "NOT_EXECUTED"
  else None.

(** [str(value or "")] *)
Definition text_of (v : pyval) : string := if truthy v then py_str v else "".

Definition normalize_status (v : pyval) : res string :=
  let text := py_strip (text_of v) in
  if str_in text CASE_STATUSES then Ok text
  else match STATUS_ALIASES (py_replace "-" "_" (py_lower text)) with
       | Some s => Ok s
       | None => Err (ContractError ("unsupported case status: " +:+ py_repr v))
       end.

Definition normalize_source_status (v : pyval) : string :=
  match normalize_status v with Ok s => s | Err _ => "FAIL" end.

(** [operation_status] of msconnector_models.py *)
Definition operation_status (result_status : string) : string :=
  if String.eqb result_status "pass" then "ok" else if String.eqb result_status "fail" then "error"
  else if String.eqb result_status "blocked" then "blocked"
  else if str_in result_status ["not_executable"; "skipped"] then "unsupported" else "error".

(** ** Integers *)

(** The digits of [int(text)]: single underscores between digits. *)
Fixpoint int_digits (l : chars) (acc : Z) (after_digit : bool) : option Z :=
  match l with
  | [] => if after_digit then Some acc else None
  | c :: r => if is_digit c then int_digits r (acc * 10 + digit_val c) true
              else if Ascii.eqb c "_" && after_digit then int_digits r acc false else None
  end.

Definition py_int_text (s : string) : option Z :=
  if negb (digits_allowed (S2L s)) then None
  else match S2L (py_strip s) with
  | c :: r => if Ascii.eqb c "-" then option_map Z.opp (int_digits r 0 false)
              else if Ascii.eqb c "+" then int_digits r 0 false else int_digits (c :: r) 0 false
  | [] => None
  end.

Definition optional_int (v : pyval) : res pyval :=
  if is_none v || in_strs v [""; "null"; "none"; "not-run"] then Ok PNone
  else match v with
       | PBool _ => Err (ContractError ("Boolean is not an integer status: " +:+ py_repr v))
       | PInt z => Ok (PInt z)
       | PFloat q _ => Ok (PInt (Z.quot (Qnum q) (Zpos (Qden q))))
       | PStr s => match py_int_text s with
                   | Some z => Ok (PInt z)
                   | None => Err (ContractError ("invalid integer: " +:+ py_repr v))
                   end
       | _ => Err (ContractError ("invalid integer: " +:+ py_repr v))
       end.

(** ** The records of planned cases *)

Definition PHASE4_SEMANTIC_FIELDS : list string :=
  ["http_status"; "requested_action"; "actual_action"; "original_http_status"; "visible_http_status";
   "late_intervention"; "headers_sent"; "response_started"; "body_started"; "body_truncated";
   "response_committed"; "connection_aborted"; "transport_result"; "late_intervention_mode";
   "content_type_scope"; "body_limit_outcome"; "marker_split_across_chunks"; "end_of_stream_evaluation";
   "no_full_response_buffering"; "first_byte_before_response_end"; "upstream_response_finished_at_first_byte";
   "client_first_byte_received"; "first_chunk_size"; "upstream_paused"; "upstream_eos_sent_at_first_byte";
   "transport_protocol"; "requested_protocol"; "downstream_protocol"; "upstream_protocol";
   "negotiated_protocol"; "transport"; "alpn"; "stream_id"; "transport_case_id"; "barrier_id";
   "connection_id"; "transfer_encoding"; "connection_reused"; "quic_connection_id_present"; "quic_version";
   "fallback_used"; "stream_reset"; "stream_reset_code"; "client_aborted"; "upstream_aborted";
   "client_disconnected"; "upstream_disconnected"; "cancelled"; "reset_by"; "reset_code"; "timeout_stage";
   "write_result"; "eos_seen"; "cleanup_reason"].

(** [list(d.get(key, []))] *)
Definition list_field (key : string) (d : pydict) : res pyval :=
  let* l := iterate (dict_get_or (PList []) key d) in Ok (PList l).

(** [str(d.get("case_id") or "")] *)
Definition case_id_of (d : pydict) : string := text_of (dict_get "case_id" d).

Definition selection_record (selection case : pydict) (connector status reason : string) (exit_code : Z)
    : res pydict :=
  let* case_id := dict_item "case_id" selection in
  let* required_capabilities := list_field "required_capabilities" case in
  let* expected_status := optional_int (dict_get "expected_status" case) in
  let* expected_rule_id := optional_int (dict_get "expected_rule_id" case) in
  let* expected_event_fields := list_field "expected_event_fields" case in
  Ok (mkdict (
    [("schema_version", PInt 1); ("connector", PStr connector); ("run_id", PNone); ("integration_mode", PNone);
     ("case_id", case_id); ("group", dict_get_or (PStr "") "group" case); ("phase", dict_get "phase" case);
     ("required_capabilities", required_capabilities); ("status", PStr status);
     ("operation_status", PStr (operation_status (if String.eqb status "BLOCKED" then "blocked" else "skipped")));
     ("live_executed", PBool false); ("expected_result", dict_get "expected_result" case);
     ("observed_result", PNone); ("expected_status", expected_status); ("actual_status", PNone);
     ("expected_rule_id", expected_rule_id); ("observed_rule_ids", PList []); ("transaction_ids", PList []);
     ("expected_event_fields", expected_event_fields); ("observed_event_fields", PList []);
     ("event_metadata_verified", PBool false)]
    ++ map (fun f => (f, PNone)) PHASE4_SEMANTIC_FIELDS
    ++ [("reason", PStr reason); ("exit_code", PInt exit_code); ("artifacts", PDict [])])).

Definition or_text (text dflt : string) : string := if String.eqb text "" then dflt else text.

Definition selection_status_reason (selection : pydict) (stage_rc : Z) (any_live : bool) (stage_reason : string)
    : string * string :=
  let selection_status := text_of (dict_get "selection_status" selection) in
  let selection_reason := text_of (dict_get "selection_reason" selection) in
  if String.eqb selection_status "UNSUPPORTED"
  then ("UNSUPPORTED", or_text selection_reason "unsupported by capability manifest")
  else if String.eqb selection_status "NOT_APPLICABLE"
  then ("NOT_APPLICABLE", or_text selection_reason "not applicable to host model")
  else if String.eqb selection_status "NOT_EXECUTED"
  then ("NOT_EXECUTED", or_text selection_reason "capability is not implemented")
  else if (stage_rc =? 77) && negb any_live then ("BLOCKED", or_text stage_reason "blocked before execution")
  else ("NOT_EXECUTED", or_text stage_reason "selected case produced no runtime evidence").

(** [d[key] = value] for a key of any class. *)
Fixpoint put_key (key value : pyval) (d : pydict) : pydict :=
  match d with
  | [] => [(key, value)]
  | (k, v) :: r => if py_eq k key then (k, value) :: r else (k, v) :: put_key key value r
  end.
Definition put_record (d record : pydict) : res pydict :=
  let* key := dict_item "case_id" record in
  if hashable key then Ok (put_key key (PDict record) d) else Err (TypeError "unhashable type").

(** The last record of every case. *)
Definition deduplicated_case_records (records : list pydict) : res pydict := foldM put_record records [].

(** [case_by_id], in the order of the catalog. *)
Definition case_table := list (string * pydict).
Fixpoint case_of (id : string) (cases : case_table) : option pydict :=
  match cases with
  | [] => None
  | (k, c) :: r => if String.eqb k id then Some c else case_of id r
  end.

(** What the finalisation of a run reads of its context. *)
Record FinalizeContext := {
  manifest : pydict; plan : pydict; artifact_profile : string; connector : string; evidence_stage : string;
  case_by_id : case_table }.

Definition live (record : pydict) : bool := is_true (dict_get "live_executed" record).

(** The records and the deduplicated records, which grow together. *)
Definition append_missing_selected_records (context : FinalizeContext) (records : list pydict)
    (deduplicated : pydict) (stage_rc : Z) (stage_reason : string) : res (list pydict * pydict) :=
  let any_live := existsb live records in
  let* selections := iterate (dict_get_or (PList []) "cases" (plan context)) in
  foldM (fun st item =>
    let '(records, deduplicated) := st in
    match item with
    | PDict selection =>
        let case_id := case_id_of selection in
        match case_of case_id (case_by_id context) with
        | Some case =>
            if dict_has case_id deduplicated then Ok st
            else
              let (status, reason) := selection_status_reason selection stage_rc any_live stage_reason in
              let* record := selection_record selection case (connector context) status reason stage_rc in
              Ok (records ++ [record], dict_set case_id (PDict record) deduplicated)
        | None => Ok st
        end
    | _ => Ok st
    end) selections (records, deduplicated).

(** The case identifiers of a plan; those with status [SELECTED]. *)
Definition planned (plan : pydict) : res (list pydict) :=
  let* items := iterate (dict_get_or (PList []) "cases" plan) in
  Ok (concat (map (fun v => match v with PDict d => [d] | _ => [] end) items)).

Definition selected_finalize_case_ids (plan : pydict) : res (list string) :=
  let* items := planned plan in Ok (dedup String.eqb (map case_id_of items)).

(** The last entry of an identifier counts. *)
Definition selected_plan_cases (plan : pydict) : res (list (string * pydict)) :=
  let* items := planned plan in
  Ok (map (fun id => (id, default [] (last (List.filter (fun d => String.eqb (case_id_of d) id) items))))
        (dedup String.eqb (map case_id_of items))).
Definition selected_case_ids_from_plan (plan : pydict) : res (list string) :=
  let* cases := selected_plan_cases plan in
  Ok (map fst (List.filter (fun p => eq_str (dict_get "selection_status" (snd p)) "SELECTED") cases)).

(** ** Deprecated aliases *)

Fixpoint index_records (i : nat) (records : list pydict) (m : gmap string nat) : gmap string nat :=
  match records with
  | [] => m
  | r :: rest => index_records (S i) rest (<[case_id_of r := i]> m)
  end.

(** The records and the position of the last record of every identifier. *)
Definition alias_state := (list pydict * gmap string nat)%type.

Definition deprecated_alias_record (st : alias_state) (case_id : string) : option pydict :=
  match snd st !! case_id with Some i => fst st !! i | None => None end.

(** [str(case.get("deprecated_alias_for") or "")] *)
Definition alias_target (case : pydict) : string := text_of (dict_get "deprecated_alias_for" case).

Definition deprecated_alias_replacement (target : pydict) (alias_id : string) (case : pydict) (target_id : string)
    : res pydict :=
  let* required_capabilities := list_field "required_capabilities" case in
  let* expected_status := optional_int (dict_get "expected_status" case) in
  let* expected_rule_id := optional_int (dict_get "expected_rule_id" case) in
  let* expected_event_fields := list_field "expected_event_fields" case in
  Ok (dict_update target
    [("case_id", PStr alias_id); ("group", dict_get_or (PStr "") "group" case); ("phase", dict_get "phase" case);
     ("required_capabilities", required_capabilities); ("expected_result", dict_get "expected_result" case);
     ("expected_status", expected_status); ("expected_rule_id", expected_rule_id);
     ("expected_event_fields", expected_event_fields);
     ("reason", PStr ("deprecated alias for " +:+ target_id +:+ "; canonical replacement passed"))]).

Definition replace_deprecated_alias_record (st : alias_state) (alias_id : string) (replacement : pydict)
    : alias_state :=
  let (records, positions) := st in
  match positions !! alias_id with
  | Some i => (<[i := replacement]> records, positions)
  | None => (records ++ [replacement], <[alias_id := List.length records]> positions)
  end.

Definition passed (record : pydict) : bool := eq_str (dict_get "status" record) "PASS".

(** The alias record is changed in place. *)
Definition fail_deprecated_alias (st : alias_state) (alias_id target_id : string) : alias_state :=
  let (records, positions) := st in
  match positions !! alias_id with
  | Some i =>
      match records !! i with
      | Some alias =>
          if passed alias then
            (<[i := dict_update alias
                [("status", PStr "FAIL"); ("operation_status", PStr (operation_status "fail"));
                 ("reason", PStr ("deprecated alias requires " +:+ target_id
                                  +:+ "=PASS; canonical replacement did not pass"))]]> records, positions)
          else st
      | None => st
      end
  | None => st
  end.

(** The target observed a request of its own case. *)
Definition request_bound (record : pydict) : bool := eq_str (dict_get "evidence_identity" record) "request_bound".

Definition resolve_deprecated_alias (selected_case_ids : option (list string)) (st : alias_state)
    (entry : string * pydict) : res alias_state :=
  let (alias_id, case) := entry in
  let target_id := alias_target case in
  if match selected_case_ids with Some ids => negb (str_in alias_id ids) | None => false end then Ok st
  else if String.eqb target_id "" then Ok st
  else
    let target := deprecated_alias_record st target_id in
    let alias := deprecated_alias_record st alias_id in
    if match target with Some t => request_bound t | None => false end then Ok st
    else if match alias with Some a => dict_has "protocol_bundle" a | None => false end then Ok st
    else match target with
         | Some t => if passed t then
                       let* replacement := deprecated_alias_replacement t alias_id case target_id in
                       Ok (replace_deprecated_alias_record st alias_id replacement)
                     else Ok (fail_deprecated_alias st alias_id target_id)
         | None => Ok (fail_deprecated_alias st alias_id target_id)
         end.

Definition resolve_deprecated_aliases (records : list pydict) (cases : case_table)
    (selected_case_ids : option (list string)) : res (list pydict) :=
  let* st := foldM (resolve_deprecated_alias selected_case_ids) cases (records, index_records 0 records ∅) in
  Ok (fst st).

(** [complete_finalize_records], before the protocol provenance is bound. *)
Definition complete_records (context : FinalizeContext) (records : list pydict) (deduplicated : pydict)
    (stage_rc : Z) (stage_reason : string) : res (list pydict) :=
  let* (records, _) := append_missing_selected_records context records deduplicated stage_rc stage_reason in
  let* ids := selected_finalize_case_ids (plan context) in
  resolve_deprecated_aliases records (case_by_id context) (Some ids).

(** ** The status of a run *)

(** [str(record.get("status"))] *)
Definition status_text (record : pydict) : string := py_str (dict_get "status" record).

(** The statuses counted in [selected_statuses]. *)
Definition selected_statuses (records : list pydict) (selected_case_ids : option (list string)) : res (list string) :=
  match selected_case_ids with
  | None => Ok (map status_text records)
  | Some ids =>
      let* own := mapM (fun r => let* b := in_str_set (dict_get "case_id" r) ids in
                                 Ok (if b : bool then [status_text r] else [])) records in
      Ok (concat own
          ++ map (fun _ => "NOT_EXECUTED")
               (List.filter (fun id => negb (str_in id (map case_id_of records))) ids))
  end.

Definition aggregate_status (records : list pydict) (stage_rc : Z) (source_failure : bool)
    (selected_case_ids : option (list string)) : res (string * bool) :=
  let started := existsb live records in
  let statuses := map status_text records in
  let* selected := selected_statuses records selected_case_ids in
  Ok (if stage_rc =? 77 then if started then ("FAIL", false) else ("BLOCKED", true)
      else if negb (stage_rc =? 0) || source_failure || str_in "FAIL" statuses then ("FAIL", false)
      else if str_in "BLOCKED" statuses then ("BLOCKED", negb started)
      else if str_in "NOT_EXECUTED" selected then ("NOT_EXECUTED", false)
      else if match selected_case_ids with None => str_in "PASS" statuses | Some _ => false end then ("PASS", false)
      else if str_in "UNSUPPORTED" selected then ("UNSUPPORTED", false)
      else if str_in "NOT_APPLICABLE" selected then ("NOT_APPLICABLE", false)
      else if str_in "PASS" selected then ("PASS", false)
      else ("NOT_APPLICABLE", false)).

Definition aggregate_case_status (records : list pydict) : string :=
  let statuses := map status_text records in
  if str_in "FAIL" statuses then "FAIL" else if str_in "BLOCKED" statuses then "BLOCKED"
  else if str_in "NOT_EXECUTED" statuses then "NOT_EXECUTED" else if str_in "PASS" statuses then "PASS"
  else if str_in "UNSUPPORTED" statuses then "UNSUPPORTED" else "NOT_APPLICABLE".

(** [re.sub(r"[\s-]+", "_", text)] *)
Fixpoint underscores (in_run : bool) (l : chars) : chars :=
  match l with
  | [] => []
  | c :: r => if is_space c || Ascii.eqb c "-" then (if in_run then [] else ["_"%char]) ++ underscores true r
              else c :: underscores false r
  end.

Definition concrete_version (v : pyval) : bool :=
  let normalized := L2S (underscores false (S2L (py_lower (py_strip (text_of v))))) in
  if String.eqb normalized "" then false
  else negb (str_in normalized ["unknown"; "not_available"; "not_provisioned"; "not_provided"; "unavailable";
                                "none"; "null"; "n/a"; "na"])
       && negb (existsb (fun marker => contains marker normalized)
                  ["not_available"; "not_provisioned"; "not_provided"; "version_unavailable"]).

Definition when_failed (b : bool) (message : string) : list string := if b then [message] else [].

Definition canonical_pass_gate_failures (evidence_stage : string) (pass_ids : list string)
    (event_metadata_verified body_payload_absent_from_events : bool) (host_version libmodsecurity_version : pyval)
    : list string :=
  when_failed (String.eqb evidence_stage "minimal_runtime_smoke"
               && negb (str_subset ["allow_without_marker"; "deny_header_marker_403"] pass_ids
                        && event_metadata_verified && body_payload_absent_from_events))
    "minimal runtime PASS requires the canonical rule-1100001 metadata event and payload absence"
  ++ when_failed (negb (concrete_version host_version)) "PASS requires a concrete host version"
  ++ when_failed (negb (concrete_version libmodsecurity_version)) "PASS requires a concrete libModSecurity version".

(** [str(payload.get(key) or "unknown")] *)
Definition commit_of (key : string) (payload : pydict) : string :=
  let v := dict_get key payload in if truthy v then py_str v else "unknown".

Definition unchanged_commit (start at_finalize name : string) : list string :=
  if String.eqb at_finalize "unknown" then ["PASS requires a resolvable " +:+ name +:+ " commit at finalize"]
  else when_failed (negb (String.eqb at_finalize start))
         ("PASS requires an unchanged " +:+ name +:+ " commit through finalize").

Definition provenance_pass_gate_failures (payload : pydict) : list string :=
  if negb (is_true (dict_get "provenance_required" payload)) then []
  else unchanged_commit (commit_of "connector_commit" payload) (commit_of "connector_commit_at_finalize" payload)
         "connector"
       ++ unchanged_commit (commit_of "framework_commit" payload) (commit_of "framework_commit_at_finalize" payload)
            "framework".

Definition FULL_LIFECYCLE_ARTIFACT_PROFILE : string := "full_lifecycle".

Definition finalize_pass_gate (context : FinalizeContext) (status : string) (blocked_before_execution : bool)
    (pass_ids : list string) (event_metadata_verified body_payload_absent_from_events : bool)
    (host_version libmodsecurity_version : pyval) (first_byte_evidence : option pydict)
    : string * bool * list string :=
  if negb (String.eqb status "PASS") then (status, blocked_before_execution, [])
  else
    let failures :=
      canonical_pass_gate_failures (evidence_stage context) pass_ids event_metadata_verified
        body_payload_absent_from_events host_version libmodsecurity_version
      ++ when_failed (negb (is_true (dict_get "connector_worktree_clean" (manifest context))))
           "PASS requires a clean connector worktree"
      ++ when_failed (negb (is_true (dict_get "framework_worktree_clean" (manifest context))))
           "PASS requires a clean framework worktree"
      ++ provenance_pass_gate_failures (manifest context)
      ++ match first_byte_evidence with
         | Some e => when_failed (String.eqb (artifact_profile context) FULL_LIFECYCLE_ARTIFACT_PROFILE
                                  && negb (eq_str (dict_get "evidence_origin" e) "real_host"))
                       "PASS requires real-host first-byte evidence; synthetic harness output is non-promoting"
         | None => []
         end in
    match failures with
    | [] => (status, blocked_before_execution, [])
    | _ => ("FAIL", false, failures)
    end.

(** The identifiers of the records with status [PASS]. *)
Definition passing_ids (records : list pydict) : res (list string) :=
  let* ids := mapM (fun r => let* status := dict_item "status" r in
                             if negb (eq_str status "PASS") then Ok []
                             else let* id := dict_item "case_id" r in
                                  if hashable id then Ok [py_str id] else Err (TypeError "unhashable type")) records in
  Ok (concat ids).

(** The status of [build_finalize_summary], given what the events show. *)
Definition summary_status (context : FinalizeContext) (records : list pydict) (stage_rc : Z)
    (source_payloads : list pydict) (event_metadata_verified body_payload_absent : bool)
    (host_version libmodsecurity_version : pyval) (first_byte_evidence : option pydict)
    : res (string * bool * list string) :=
  let source_statuses := map (fun p => normalize_source_status (dict_get "status" p)) source_payloads in
  let* selected := selected_case_ids_from_plan (plan context) in
  let* (status, blocked) := aggregate_status records stage_rc (str_in "FAIL" source_statuses) (Some selected) in
  let* pass_ids := passing_ids records in
  Ok (finalize_pass_gate context status blocked pass_ids event_metadata_verified body_payload_absent
        host_version libmodsecurity_version first_byte_evidence).

(** The exit code of [finalize_run], when the written run is valid. *)
Definition finalize_exit_code (status : string) : Z := if String.eqb status "FAIL" then 1 else 0.
