(* ===== verification/BaselineTheorems.v ===== *)
(** * Theorems of the finalisation

    The status of a run and the aliases of its catalog, with their witnesses. *)

From S2P Require Export Baseline.
From Stdlib Require Import QArith.
#[global] Open Scope Z_scope.

(** ** Deprecated aliases *)

(** The record that stands for a case: the last one with its identifier. *)
Definition last_record (id : string) (records : list pydict) : option pydict :=
  last (List.filter (fun r => String.eqb (case_id_of r) id) records).

Lemma filter_other id l : ~ In id (map case_id_of l) -> List.filter (fun r => String.eqb (case_id_of r) id) l = [].
Proof.
  induction l as [|r l IH]; intros H; [done|]. cbn [List.filter map In] in *.
  destruct (String.eqb_spec (case_id_of r) id) as [E|]; [exfalso; apply H; by left|]. apply IH. tauto.
Qed.

Lemma last_record_split id l r m : case_id_of r = id -> ~ In id (map case_id_of m) ->
  last_record id (l ++ r :: m) = Some r.
Proof.
  intros Hr Hm. unfold last_record. rewrite List.filter_app. cbn [List.filter].
  rewrite Hr, String.eqb_refl, (filter_other id m Hm). apply last_snoc.
Qed.

Lemma last_record_none id l : ~ In id (map case_id_of l) -> last_record id l = None.
Proof. intros H. unfold last_record. by rewrite filter_other. Qed.

(** Replacing a record of one identifier does not change the others. *)
Lemma last_record_replace id l r x m : case_id_of r = case_id_of x -> case_id_of x <> id ->
  last_record id (l ++ x :: m) = last_record id (l ++ r :: m).
Proof.
  intros Hr Hx. unfold last_record. rewrite !List.filter_app. cbn [List.filter]. rewrite Hr.
  by destruct (String.eqb_spec (case_id_of x) id).
Qed.

(** The index agrees with the records. *)
Definition indexed (ids : list string) (positions : gmap string nat) : Prop := forall id,
  match positions !! id with
  | Some i => exists l m, ids = l ++ id :: m /\ List.length l = i /\ ~ In id m
  | None => ~ In id ids
  end.

Lemma indexed_snoc ids positions id : indexed ids positions ->
  indexed (ids ++ [id]) (<[id := List.length ids]> positions).
Proof.
  intros H k. destruct (decide (id = k)) as [->|Hne].
  - rewrite lookup_insert_eq. exists ids, []. by split; [|split; [|intros []]].
  - rewrite lookup_insert_ne by done. specialize (H k). destruct (positions !! k) as [i|].
    + destruct H as (l & m & -> & Hl & Hm). exists l, (m ++ [id]). rewrite <- app_assoc. split; [done|]. split; [done|].
      rewrite in_app_iff. by intros [?|[?|[]]].
    + rewrite in_app_iff. by intros [?|[?|[]]].
Qed.

Lemma index_records_indexed records before positions : indexed (map case_id_of before) positions ->
  indexed (map case_id_of (before ++ records)) (index_records (List.length before) records positions).
Proof.
  revert before positions. induction records as [|r records IH]; intros before positions H; cbn [index_records].
  - by rewrite app_nil_r.
  - specialize (IH (before ++ [r]) (<[case_id_of r := List.length before]> positions)).
    rewrite length_app in IH. cbn [List.length] in IH. rewrite Nat.add_1_r, <- app_assoc in IH. apply IH.
    rewrite map_app. rewrite <- (length_map case_id_of before). by apply indexed_snoc.
Qed.

(** The record an index finds. *)
Lemma indexed_record records positions id : indexed (map case_id_of records) positions ->
  match positions !! id with
  | Some i => exists l r m, records = l ++ r :: m /\ List.length l = i /\ case_id_of r = id /\ ~ In id (map case_id_of m)
  | None => last_record id records = None
  end.
Proof.
  intros H. specialize (H id). destruct (positions !! id) as [i|]; [|by apply last_record_none].
  destruct H as (l & m & E & Hl & Hm). apply map_eq_app in E as (l' & m' & -> & <- & E).
  apply map_eq_cons in E as (r & m'' & -> & <- & <-). exists l', r, m''. rewrite length_map in Hl. done.
Qed.

Lemma alias_record_last records positions id : indexed (map case_id_of records) positions ->
  deprecated_alias_record (records, positions) id = last_record id records.
Proof.
  intros H. unfold deprecated_alias_record. cbn [fst snd]. pose proof (indexed_record _ _ id H) as R.
  destruct (positions !! id) as [i|]; [|done]. destruct R as (l & r & m & -> & <- & Hr & Hm).
  rewrite last_record_split by done. by rewrite list_lookup_middle.
Qed.

(** A state whose record of [id] is [x] and whose other records are those of
    [records]. *)
Definition updated (records : list pydict) (id : string) (x : pydict) (st : alias_state) : Prop :=
  indexed (map case_id_of (fst st)) (snd st) /\ last_record id (fst st) = Some x /\
  forall k, k <> id -> last_record k (fst st) = last_record k records.

Lemma update_record records positions id i x : indexed (map case_id_of records) positions ->
  positions !! id = Some i -> case_id_of x = id -> updated records id x (<[i := x]> records, positions).
Proof.
  intros H Hi Hx. pose proof (indexed_record _ _ id H) as R. rewrite Hi in R.
  destruct R as (l & r & m & -> & <- & Hr & Hm). rewrite insert_app_r_alt, Nat.sub_diag by lia.
  change (<[0%nat := x]> (r :: m)) with (x :: m).
  assert (E : map case_id_of (l ++ x :: m) = map case_id_of (l ++ r :: m)) by (rewrite !map_app; cbn [map]; congruence).
  unfold updated. cbn [fst snd]. split; [by rewrite E|]. split; [by apply last_record_split|].
  intros k Hk. apply last_record_replace; congruence.
Qed.

Lemma append_record records positions id x : indexed (map case_id_of records) positions -> case_id_of x = id ->
  updated records id x (records ++ [x], <[id := List.length records]> positions).
Proof.
  intros H Hx. split; [|split].
  - cbn [fst snd]. rewrite map_app. cbn [map]. rewrite Hx, <- (length_map case_id_of records). by apply indexed_snoc.
  - cbn [fst]. apply last_record_split; [done|intros []].
  - intros k Hk. cbn [fst]. unfold last_record. rewrite List.filter_app. cbn [List.filter].
    destruct (String.eqb_spec (case_id_of x) k) as [E|]; [congruence|]. by rewrite app_nil_r.
Qed.

(** *** One alias *)

(** The final record of an alias: when it passes, its replacement passes, unless
    the evidence is of the alias's own request. *)
Definition settled (records : list pydict) (alias_id : string) (case : pydict) : Prop :=
  forall a, last_record alias_id records = Some a -> passed a = true ->
    dict_has "protocol_bundle" a = true \/
    exists t, last_record (alias_target case) records = Some t /\ (request_bound t = true \/ passed t = true).

Lemma case_id_update d items : (forall v, In ("case_id", v) items -> False) ->
  case_id_of (dict_update d items) = case_id_of d.
Proof.
  intros H. unfold case_id_of. f_equal. revert d. induction items as [|[k v] items IH]; intros d; [done|].
  cbn [dict_update fold_left]. change (dict_get "case_id" (dict_update (dict_set k v d) items) = dict_get "case_id" d).
  rewrite IH by (intros w Hw; apply (H w); by right). unfold dict_get, dict_get_or. rewrite dict_find_set.
  destruct (String.eqb_spec k "case_id") as [->|]; [|done]. exfalso. apply (H v). by left.
Qed.

Lemma replacement_facts t alias_id case target_id x : deprecated_alias_replacement t alias_id case target_id = Ok x ->
  case_id_of x = alias_id /\ passed x = passed t.
Proof.
  unfold deprecated_alias_replacement. destruct (list_field "required_capabilities" case) as [a|]; [|done].
  destruct (optional_int _) as [b|]; [|done]. destruct (optional_int (dict_get "expected_rule_id" case)) as [c|]; [|done].
  destruct (list_field "expected_event_fields" case) as [d|]; [|done]. intros G. injection G as <-. split.
  - unfold case_id_of, dict_get, dict_get_or, dict_update. cbn [fold_left].
    rewrite !dict_find_set. cbn. unfold text_of, truthy. by destruct (String.eqb_spec alias_id "") as [->|].
  - unfold passed, dict_get, dict_get_or, dict_update. cbn [fold_left]. by rewrite !dict_find_set.
Qed.

Lemma replace_updated records positions alias_id x : indexed (map case_id_of records) positions ->
  case_id_of x = alias_id -> updated records alias_id x (replace_deprecated_alias_record (records, positions) alias_id x).
Proof.
  intros H Hx. unfold replace_deprecated_alias_record. destruct (positions !! alias_id) as [i|] eqn:Ei.
  - by apply update_record.
  - by apply append_record.
Qed.

(** Failing an alias: either nothing changes and it does not pass, or its record
    fails. *)
Lemma fail_updated records positions alias_id target_id : indexed (map case_id_of records) positions ->
  let st := fail_deprecated_alias (records, positions) alias_id target_id in
  (st = (records, positions) /\ forall a, last_record alias_id records = Some a -> passed a = false) \/
  exists x, updated records alias_id x st /\ passed x = false.
Proof.
  intros H. cbv zeta. unfold fail_deprecated_alias. pose proof (alias_record_last _ _ alias_id H) as L.
  unfold deprecated_alias_record in L. cbn [fst snd] in L.
  destruct (positions !! alias_id) as [i|] eqn:Ei; [|left; split; [done|]; intros a Ha; congruence].
  destruct (records !! i) as [r|] eqn:Er; [|left; split; [done|]; intros a Ha; congruence].
  destruct (passed r) eqn:Ep; [|left; split; [done|]; intros a Ha; congruence].
  right. eexists. split; [apply update_record; [done|done|]|].
  - rewrite case_id_update by (intros v [[=]|[[=]|[[=]|[]]]]).
    pose proof (indexed_record _ _ alias_id H) as R. rewrite Ei in R. destruct R as (l & r' & m & -> & <- & Hr & _).
    rewrite list_lookup_middle in Er by done. congruence.
  - unfold passed, dict_get, dict_get_or, dict_update. cbn [fold_left]. by rewrite !dict_find_set.
Qed.

(** What one step does: its alias is settled, no other record changes, and a case
    that is not an alias changes nothing. *)
Record stepped (ids : option (list string)) (st : alias_state) (alias_id : string) (case : pydict) (st' : alias_state)
    : Prop := {
  st_indexed : indexed (map case_id_of (fst st')) (snd st');
  st_others : forall k, k <> alias_id -> last_record k (fst st') = last_record k (fst st);
  st_plain : alias_target case = "" -> st' = st;
  st_settled : match ids with Some l => In alias_id l | None => True end -> alias_target case <> "" ->
    settled (fst st') alias_id case }.

Section Step.
Variables (ids : option (list string)) (records : list pydict) (positions : gmap string nat) (alias_id : string)
  (case : pydict).
Hypothesis consistent : indexed (map case_id_of records) positions.
Hypothesis alias : alias_target case <> "".
Hypothesis distinct : alias_target case <> alias_id.

Lemma stepped_update x st : updated records alias_id x st -> (passed x = true -> exists t,
    last_record (alias_target case) records = Some t /\ passed t = true) ->
  stepped ids (records, positions) alias_id case st.
Proof.
  intros (U1 & U2 & U3) Hx. constructor; [done|done|done|]. intros _ _ a Ha Hp. right.
  rewrite U2 in Ha. injection Ha as <-. destruct (Hx Hp) as (t & Ht & Hpt). exists t. rewrite U3 by done. by split; [|right].
Qed.

Lemma stepped_same : settled records alias_id case -> stepped ids (records, positions) alias_id case (records, positions).
Proof. by constructor. Qed.

Lemma stepped_fail : (forall t, last_record (alias_target case) records = Some t -> passed t = false) ->
  stepped ids (records, positions) alias_id case
    (fail_deprecated_alias (records, positions) alias_id (alias_target case)).
Proof.
  intros Ht. destruct (fail_updated records positions alias_id (alias_target case) consistent) as [[-> Hf]|(x & Hx & Hf)].
  - apply stepped_same. intros a Ha Hp. by rewrite (Hf a Ha) in Hp.
  - apply (stepped_update x); [done|]. by rewrite Hf.
Qed.
End Step.

Lemma resolve_step ids st alias_id case st' : indexed (map case_id_of (fst st)) (snd st) ->
  resolve_deprecated_alias ids st (alias_id, case) = Ok st' ->
  (alias_target case <> "" -> alias_target case <> alias_id) -> stepped ids st alias_id case st'.
Proof.
  destruct st as [records positions]. cbn [fst snd]. intros H G Hne. unfold resolve_deprecated_alias in G. cbv zeta in G.
  destruct (match ids with Some l => _ | None => _ end) eqn:Es.
  { injection G as <-. constructor; [done|done|done|]. intros Hin. destruct ids as [l|]; [|done].
    apply str_in_In in Hin. by rewrite Hin in Es. }
  clear Es. destruct (String.eqb_spec (alias_target case) "") as [E|E]; [injection G as <-; constructor; [done|done|done|by intros _ Ht; destruct (Ht E)]|].
  specialize (Hne E). rewrite !alias_record_last in G by done.
  assert (F : (forall t, last_record (alias_target case) records = Some t -> passed t = false) ->
      Ok (fail_deprecated_alias (records, positions) alias_id (alias_target case)) = Ok st' ->
      stepped ids (records, positions) alias_id case st').
  { intros Ht G'. assert (st' = fail_deprecated_alias (records, positions) alias_id (alias_target case)) as -> by congruence.
    by apply stepped_fail. }
  destruct (match last_record (alias_target case) records with Some t => request_bound t | None => _ end) eqn:Eb.
  { injection G as <-. apply stepped_same; [done|]. intros a _ _. right.
    destruct (last_record (alias_target case) records) as [t|]; [|done]. exists t. by split; [|left]. }
  destruct (match last_record alias_id records with Some a => _ | None => _ end) eqn:Ea.
  { injection G as <-. apply stepped_same; [done|]. intros a Ha _. left. by rewrite Ha in Ea. }
  destruct (last_record (alias_target case) records) as [t|] eqn:Et; [|by apply F].
  destruct (passed t) eqn:Ep; [|by apply F; [intros ? [= <-]|]].
  destruct (deprecated_alias_replacement t alias_id case (alias_target case)) as [x|] eqn:Ex; [|done].
  assert (st' = replace_deprecated_alias_record (records, positions) alias_id x) as -> by congruence.
  destruct (replacement_facts _ _ _ _ _ Ex) as [Hx Hp].
  apply (stepped_update _ _ _ _ _ E Hne x); [by apply replace_updated|]. intros _. by exists t.
Qed.

(** *** All aliases *)

(** No replacement is an alias itself. *)
Definition flat_aliases (cases : case_table) : Prop := forall id case id' case',
  In (id, case) cases -> In (id', case') cases -> alias_target case <> "" -> id' = alias_target case ->
  alias_target case' = "".

Lemma resolve_fold ids cases : NoDup (map fst cases) -> flat_aliases cases -> forall rest before st st',
  cases = before ++ rest -> indexed (map case_id_of (fst st)) (snd st) ->
  foldM (resolve_deprecated_alias ids) rest st = Ok st' ->
  (forall id case, In (id, case) before -> match ids with Some l => In id l | None => True end ->
    alias_target case <> "" -> settled (fst st) id case) ->
  (forall id case, In (id, case) cases -> match ids with Some l => In id l | None => True end ->
    alias_target case <> "" -> settled (fst st') id case) /\
  (forall id, (forall case, In (id, case) rest -> alias_target case = "") ->
    last_record id (fst st') = last_record id (fst st)).
Proof.
  intros Hnd Hflat. induction rest as [|[id case] rest IH]; intros before st st' Hcases Hi G Hs; cbn [foldM] in G.
  - injection G as <-. rewrite app_nil_r in Hcases. subst. by split.
  - destruct (resolve_deprecated_alias ids st (id, case)) as [st1|] eqn:E1; [|done].
    assert (Hin : In (id, case) cases) by (subst; apply in_or_app; right; by left).
    assert (Hne : alias_target case <> "" -> alias_target case <> id).
    { intros Ht Heq. apply Ht. by apply (Hflat id case id case). }
    destruct (resolve_step ids st id case st1 Hi E1 Hne) as [S1 S2 S3 S4].
    destruct (IH (before ++ [(id, case)]) st1 st') as [T1 T2]; [by rewrite <- app_assoc|done|done| |].
    + intros id0 case0 H0 Hsel Ht. apply in_app_or in H0 as [H0|[[= <- <-]|[]]]; [|by apply S4].
      destruct (decide (alias_target case = "")) as [Ep|Ep]; [rewrite (S3 Ep); by apply (Hs id0)|].
      assert (id0 <> id).
      { intros ->. subst cases. rewrite map_app in Hnd. apply NoDup_app in Hnd as (_ & Hnd & _).
        apply (Hnd id); [|by left]. apply list_elem_of_In, in_map_iff. by exists (id, case0). }
      assert (alias_target case0 <> id).
      { intros Heq. apply Ep. apply (Hflat id0 case0 id case); [subst; apply in_or_app; by left|done|done|done]. }
      intros a Ha Hp. rewrite S2 in Ha by done. destruct (Hs id0 case0 H0 Hsel Ht a Ha Hp) as [Hb|(t & Htt & Hr)]; [by left|].
      right. exists t. by rewrite S2.
    + split; [done|]. intros k Hk. rewrite T2 by (intros c Hc; apply Hk; by right).
      destruct (decide (k = id)) as [->|]; [|by apply S2]. by rewrite S3 by (apply Hk; by left).
Qed.

(** C20: a deprecated alias is a view of its replacement: in a catalog whose
    replacements are not aliases themselves, after the aliases are resolved no
    selected alias passes unless its replacement passes (or its evidence is bound
    to a request or a protocol bundle of its own), whatever was recorded for it,
    and no other case changes. *)
Theorem alias_pass_needs_replacement records cases ids records' :
  resolve_deprecated_aliases records cases ids = Ok records' -> NoDup (map fst cases) -> flat_aliases cases ->
  (forall id case, In (id, case) cases -> match ids with Some l => In id l | None => True end ->
    alias_target case <> "" -> settled records' id case) /\
  (forall id, (forall case, In (id, case) cases -> alias_target case = "") ->
    last_record id records' = last_record id records).
Proof.
  unfold resolve_deprecated_aliases. intros G Hnd Hf. destruct (foldM _ _ _) as [st|] eqn:E; [|done]. injection G as <-.
  apply (resolve_fold ids cases Hnd Hf cases [] (records, index_records 0 records ∅) st); [done| |done|done].
  apply (index_records_indexed records []). intros id. rewrite lookup_empty. intros [].
Qed.

(** * Theorems of the finalisation: planned cases and the status of a run *)

(** ** Planned cases *)

(** A selection and its catalog case from which a record can be made. *)
Record recordable (selection case : pydict) : Prop := {
  rc_id : dict_has "case_id" selection = true;
  rc_capabilities : exists v, list_field "required_capabilities" case = Ok v;
  rc_status : exists v, optional_int (dict_get "expected_status" case) = Ok v;
  rc_rule : exists v, optional_int (dict_get "expected_rule_id" case) = Ok v;
  rc_fields : exists v, list_field "expected_event_fields" case = Ok v }.

Lemma selection_record_facts selection case connector st why code : recordable selection case ->
  exists r, selection_record selection case connector st why code = Ok r /\
    case_id_of r = case_id_of selection /\ status_text r = st /\ live r = false.
Proof.
  intros [Hid (v1 & E1) (v2 & E2) (v3 & E3) (v4 & E4)]. apply dict_has_find in Hid as (v & Hv).
  unfold selection_record. rewrite (proj2 (dict_item_Ok _ _ _) Hv), E1, E2, E3, E4.
  assert (Hs : case_id_of selection = text_of v) by (unfold case_id_of, dict_get, dict_get_or; by rewrite Hv).
  eexists. split; [reflexivity|]. by rewrite Hs.
Qed.

Section Missing.
Variables (context : FinalizeContext) (rc : Z) (reason : string) (any_live : bool).

(** A record made for a planned case. *)
Definition made_for (deduplicated : pydict) (items : list pyval) (r : pydict) : Prop :=
  exists s, In (PDict s) items /\ case_id_of r = case_id_of s /\ dict_has (case_id_of r) deduplicated = false /\
    status_text r = fst (selection_status_reason s rc any_live reason) /\ live r = false.

Lemma missing_fold step :
  step = (fun st item =>
    let '(records, deduplicated) := st in
    match item with
    | PDict selection =>
        let case_id := case_id_of selection in
        match case_of case_id (case_by_id context) with
        | Some case =>
            if dict_has case_id deduplicated then Ok st
            else
              let (status, reason) := selection_status_reason selection rc any_live reason in
              let* record := selection_record selection case (connector context) status reason rc in
              Ok (records ++ [record], dict_set case_id (PDict record) deduplicated)
        | None => Ok st
        end
    | _ => Ok st
    end) -> forall items records deduplicated,
  (forall s, In (PDict s) items -> forall case, case_of (case_id_of s) (case_by_id context) = Some case -> recordable s case) ->
  exists new dedup', foldM step items (records, deduplicated) = Ok (records ++ new, dedup') /\
    (forall s, In (PDict s) items -> is_Some (case_of (case_id_of s) (case_by_id context)) ->
       dict_has (case_id_of s) deduplicated = true \/ In (case_id_of s) (map case_id_of new)) /\
    List.NoDup (map case_id_of new) /\ (forall r, In r new -> made_for deduplicated items r).
Proof.
  intros Hstep. induction items as [|item items IH]; intros records deduplicated Hr; cbn [foldM].
  { exists [], deduplicated. rewrite app_nil_r. split; [done|]. split; [by intros s []|]. split; [constructor|by intros r []]. }
  assert (Hr' : forall s, In (PDict s) items -> forall case, case_of (case_id_of s) (case_by_id context) = Some case ->
    recordable s case) by (intros s Hs; apply Hr; by right).
  assert (W : forall d r, made_for d items r -> made_for d (item :: items) r).
  { intros d r (s & Hs & Hm). exists s. by split; [right|]. }
  assert (Skip : step (records, deduplicated) item = Ok (records, deduplicated) ->
    (forall s, item = PDict s -> is_Some (case_of (case_id_of s) (case_by_id context)) -> dict_has (case_id_of s) deduplicated = true) ->
    exists new dedup', (let* st := step (records, deduplicated) item in foldM step items st) = Ok (records ++ new, dedup') /\
      (forall s, In (PDict s) (item :: items) -> is_Some (case_of (case_id_of s) (case_by_id context)) ->
         dict_has (case_id_of s) deduplicated = true \/ In (case_id_of s) (map case_id_of new)) /\
      List.NoDup (map case_id_of new) /\ (forall r, In r new -> made_for deduplicated (item :: items) r)).
  { intros -> Hs. destruct (IH records deduplicated Hr') as (new & dd & -> & H1 & H2 & H3). exists new, dd.
    split; [done|]. split; [|split; [done|intros r Hin; by apply W, H3]].
    intros s [E|Hin] Hc; [left; by apply Hs|by apply H1]. }
  destruct item as [| | | | | |selection]; try (apply Skip; [by rewrite Hstep|done]).
  destruct (case_of (case_id_of selection) (case_by_id context)) as [case|] eqn:Ec.
  2:{ apply Skip; [rewrite Hstep; cbv beta iota zeta; by rewrite Ec|]. intros s [= <-] [? Hc]. congruence. }
  destruct (dict_has (case_id_of selection) deduplicated) eqn:Ed.
  { apply Skip; [rewrite Hstep; cbv beta iota zeta; by rewrite Ec, Ed|]. by intros s [= <-]. }
  clear Skip. destruct (selection_record_facts selection case (connector context)
    (fst (selection_status_reason selection rc any_live reason)) (snd (selection_status_reason selection rc any_live reason)) rc
    (Hr selection ltac:(by left) case Ec)) as (r & Er & Hid & Hst & Hl).
  assert (E : step (records, deduplicated) (PDict selection)
    = Ok (records ++ [r], dict_set (case_id_of selection) (PDict r) deduplicated)).
  { rewrite Hstep. cbv beta iota zeta. rewrite Ec, Ed. destruct (selection_status_reason selection rc any_live reason). cbn [fst snd] in Er. by rewrite Er. }
  rewrite E. destruct (IH (records ++ [r]) (dict_set (case_id_of selection) (PDict r) deduplicated) Hr')
    as (new & dd & -> & H1 & H2 & H3).
  assert (Dset : forall k, dict_has k (dict_set (case_id_of selection) (PDict r) deduplicated)
                 = String.eqb (case_id_of selection) k || dict_has k deduplicated).
  { intros k. unfold dict_has. rewrite dict_find_set. by destruct (String.eqb _ k). }
  exists (r :: new), dd. split; [by rewrite <- app_assoc|]. cbn [map]. split; [|split].
  - intros s [[= <-]|Hin] Hc; [right; by left|]. destruct (H1 s Hin Hc) as [H|H]; [|by right; right].
    rewrite Dset in H. apply orb_true_iff in H as [H|H]; [|by left]. apply String.eqb_eq in H. right. left. congruence.
  - constructor; [|done]. intros Hin. apply in_map_iff in Hin as (r' & Hid' & Hin). destruct (H3 r' Hin) as (_ & _ & _ & Hd & _).
    rewrite Dset, Hid', Hid, String.eqb_refl in Hd. done.
  - intros r' [<-|Hin].
    + exists selection. split; [by left|]. by rewrite Hid.
    + destruct (H3 r' Hin) as (s & Hs & Hi & Hd & Hm). exists s. split; [by right|]. split; [done|]. split; [|done].
      rewrite Dset in Hd. by apply orb_false_iff in Hd as [_ Hd].
Qed.
End Missing.

(** C21: every planned case gets a record: whatever the collectors delivered, the
    completed records start with theirs and hold a record for every planned case of
    the catalog; the added records are one for each identifier that had none, are
    never live, and have the status their selection, the exit code of the stage and
    the collected records imply. *)
Theorem planned_cases_recorded context records deduplicated rc reason items :
  iterate (dict_get_or (PList []) "cases" (plan context)) = Ok items ->
  (forall id, dict_has id deduplicated = true -> In id (map case_id_of records)) ->
  (forall s, In (PDict s) items -> forall case, case_of (case_id_of s) (case_by_id context) = Some case -> recordable s case) ->
  exists new dedup',
    append_missing_selected_records context records deduplicated rc reason = Ok (records ++ new, dedup') /\
    (forall s, In (PDict s) items -> is_Some (case_of (case_id_of s) (case_by_id context)) ->
       In (case_id_of s) (map case_id_of (records ++ new))) /\
    List.NoDup (map case_id_of new) /\
    (forall r, In r new -> made_for rc reason (existsb live records) deduplicated items r).
Proof.
  intros Hi Hd Hr. unfold append_missing_selected_records. rewrite Hi.
  destruct (missing_fold context rc reason (existsb live records) _ eq_refl items records deduplicated Hr)
    as (new & dd & E & H1 & H2 & H3).
  exists new, dd. split; [exact E|]. split; [|done]. intros s Hs Hc. rewrite map_app. apply in_or_app.
  destruct (H1 s Hs Hc) as [H|H]; [left; by apply Hd|by right].
Qed.

(** ** The status of a run *)

(** A record of a selected case. *)
Definition of_selected (ids : list string) (r : pydict) : bool := in_strs (dict_get "case_id" r) ids.

Lemma selected_statuses_In records ids sel st : selected_statuses records (Some ids) = Ok sel ->
  In st sel <-> (exists r, In r records /\ of_selected ids r = true /\ status_text r = st)
               \/ (st = "NOT_EXECUTED" /\ exists id, In id ids /\ ~ In id (map case_id_of records)).
Proof.
  unfold selected_statuses. intros H. destruct (mapM _ records) as [own|] eqn:E; [|done].
  apply Ok_inj in H as <-. rewrite in_app_iff, (mapM_concat_In _ _ _ _ E). f_equiv.
  - split.
    + intros (r & b & Hr & Hf & Hx). exists r. unfold in_str_set in Hf. destruct (hashable _); [|done].
      cbn in Hf. apply Ok_inj in Hf as <-. unfold of_selected. destruct (in_strs _ _); [|done]. by destruct Hx as [<-|[]].
    + intros (r & Hr & Hs & <-). exists r, [status_text r]. split; [done|]. split; [|by left].
      unfold of_selected in Hs. unfold in_str_set. destruct (dict_get "case_id" r); try done. cbn in *. by rewrite Hs.
  - rewrite in_map_iff. split.
    + intros (id & <- & Hid). apply filter_In in Hid as [Hid Hn]. split; [done|]. exists id. split; [done|].
      intros Hin. apply str_in_In in Hin. by rewrite Hin in Hn.
    + intros (-> & id & Hid & Hn). exists id. split; [done|]. apply filter_In. split; [done|].
      destruct (str_in id _) eqn:Hs; [|done]. by apply str_in_In in Hs.
Qed.

Lemma aggregate_pass records rc failed ids sel b : selected_statuses records (Some ids) = Ok sel ->
  aggregate_status records rc failed (Some ids) = Ok ("PASS", b) <->
  b = false /\ rc = 0 /\ failed = false /\ (forall r, In r records -> ~ In (status_text r) ["FAIL"; "BLOCKED"]) /\
  ~ In "NOT_EXECUTED" sel /\ ~ In "UNSUPPORTED" sel /\ ~ In "NOT_APPLICABLE" sel /\ In "PASS" sel.
Proof.
  intros E. unfold aggregate_status. rewrite E. rewrite <- !str_in_false, <- str_in_In.
  assert (R : (forall r, In r records -> ~ In (status_text r) ["FAIL"; "BLOCKED"]) <->
              str_in "FAIL" (map status_text records) = false /\ str_in "BLOCKED" (map status_text records) = false).
  { rewrite !str_in_false, !in_map_iff. split.
    - intros H. split; intros (r & Hs & Hr); apply (H r Hr); rewrite Hs; cbn; tauto.
    - intros [H1 H2] r Hr [Hs|[Hs|[]]]; [apply H1|apply H2]; by exists r. }
  rewrite R. clear R. destruct (rc =? 77) eqn:Erc.
  { apply Z.eqb_eq in Erc. split; [by destruct (existsb live records)|]. intros (_ & ? & _). lia. }
  destruct (rc =? 0) eqn:E0; [apply Z.eqb_eq in E0|apply Z.eqb_neq in E0]; cbn [negb orb]; [|by split; [|intros (_ & ? & _)]].
  destruct failed; cbn [orb]; [by split; [|intros (_ & _ & ? & _)]|].
  destruct (str_in "FAIL" _), (str_in "BLOCKED" _), (str_in "NOT_EXECUTED" sel), (str_in "UNSUPPORTED" sel),
    (str_in "NOT_APPLICABLE" sel), (str_in "PASS" sel); cbn;
    (split; [intros [= <-]; done|intros (-> & _ & _ & (? & ?) & ? & ? & ? & ?); done]).
Qed.

(** The gates of a passing run. *)
Lemma when_failed_nil b m : when_failed b m = [] <-> b = false.
Proof. by destruct b. Qed.

(** The commits of both repositories are known and have not moved. *)
Definition commits_unchanged (payload : pydict) : Prop :=
  (commit_of "connector_commit_at_finalize" payload <> "unknown" /\
   commit_of "connector_commit_at_finalize" payload = commit_of "connector_commit" payload) /\
  (commit_of "framework_commit_at_finalize" payload <> "unknown" /\
   commit_of "framework_commit_at_finalize" payload = commit_of "framework_commit" payload).

Lemma unchanged_commit_nil start fin name : unchanged_commit start fin name = [] <-> fin <> "unknown" /\ fin = start.
Proof.
  unfold unchanged_commit. destruct (String.eqb_spec fin "unknown") as [E|E]; [by split; [|intros []]|].
  rewrite when_failed_nil, negb_false_iff, String.eqb_eq. tauto.
Qed.

Lemma provenance_gates payload : provenance_pass_gate_failures payload = [] <->
  (dict_get "provenance_required" payload = PBool true -> commits_unchanged payload).
Proof.
  unfold provenance_pass_gate_failures, commits_unchanged.
  assert (I : is_true (dict_get "provenance_required" payload) = true
              <-> dict_get "provenance_required" payload = PBool true).
  { by destruct (dict_get _ payload) as [|[]| | | | |]. }
  destruct (is_true _); cbn [negb].
  - rewrite app_nil, !unchanged_commit_nil. tauto.
  - split; [|done]. intros _ H. apply I in H. done.
Qed.

Lemma mapM_In_Ok {A B} (f : A -> res B) l l' a : mapM f l = Ok l' -> In a l -> exists b, f a = Ok b.
Proof.
  rewrite mapM_Ok_Forall2. induction 1 as [|x y l l' Hxy _ IH]; [intros []|]. intros [<-|H]; [by exists y|by apply IH].
Qed.

(** A recorded [PASS] of a case. *)
Definition passes (records : list pydict) (id : string) : Prop :=
  exists r, In r records /\ passed r = true /\ py_str (dict_get "case_id" r) = id.

Lemma passing_ids_In records ids id : passing_ids records = Ok ids -> In id ids <-> passes records id.
Proof.
  unfold passing_ids. intros H. destruct (mapM _ records) as [own|] eqn:E; [|done]. apply Ok_inj in H as <-.
  rewrite (mapM_concat_In _ _ _ _ E). unfold passes. split.
  - intros (r & b & Hr & Hf & Hx). exists r. split; [done|]. unfold dict_item in Hf. unfold passed, dict_get, dict_get_or.
    destruct (dict_find "status" r); [|done]. destruct (eq_str _ _); cbn in Hf; [|by apply Ok_inj in Hf as <-].
    destruct (dict_find "case_id" r); [|done]. destruct (hashable _); [|done]. apply Ok_inj in Hf as <-.
    by destruct Hx as [<-|[]].
  - intros (r & Hr & Hp & <-). destruct (mapM_In_Ok _ _ _ r E Hr) as [b Hb]. exists r, b. split; [done|]. split; [done|].
    unfold passed, dict_get, dict_get_or in Hp. unfold dict_item in Hb. unfold dict_get, dict_get_or.
    destruct (dict_find "status" r); [|done]. rewrite Hp in Hb. cbn in Hb.
    destruct (dict_find "case_id" r); [|done]. destruct (hashable _); [|done]. apply Ok_inj in Hb as <-. by left.
Qed.

(** What the status [PASS] of a run asserts. *)
Record run_passes (context : FinalizeContext) (records : list pydict) (stage_rc : Z) (source_payloads : list pydict)
    (event_metadata_verified body_payload_absent : bool) (host_version libmodsecurity_version : pyval)
    (first_byte_evidence : option pydict) (selected : list string) : Prop := {
  rp_rc : stage_rc = 0;
  rp_sources : forall p, In p source_payloads -> normalize_source_status (dict_get "status" p) <> "FAIL";
  rp_statuses : forall r, In r records -> ~ In (status_text r) ["FAIL"; "BLOCKED"];
  rp_recorded : forall id, In id selected -> In id (map case_id_of records);
  rp_executed : forall r, In r records -> of_selected selected r = true ->
    ~ In (status_text r) ["NOT_EXECUTED"; "UNSUPPORTED"; "NOT_APPLICABLE"];
  rp_some : exists r, In r records /\ of_selected selected r = true /\ status_text r = "PASS";
  rp_minimal : evidence_stage context = "minimal_runtime_smoke" ->
    (forall id, In id ["allow_without_marker"; "deny_header_marker_403"] -> passes records id) /\
    event_metadata_verified = true /\ body_payload_absent = true;
  rp_host : concrete_version host_version = true;
  rp_library : concrete_version libmodsecurity_version = true;
  rp_connector_clean : is_true (dict_get "connector_worktree_clean" (manifest context)) = true;
  rp_framework_clean : is_true (dict_get "framework_worktree_clean" (manifest context)) = true;
  rp_commits : dict_get "provenance_required" (manifest context) = PBool true -> commits_unchanged (manifest context);
  rp_first_byte : forall e, first_byte_evidence = Some e ->
    artifact_profile context = FULL_LIFECYCLE_ARTIFACT_PROFILE -> eq_str (dict_get "evidence_origin" e) "real_host" = true }.

Definition minimal_gate (context : FinalizeContext) (records : list pydict) (verified absent : bool) : Prop :=
  evidence_stage context = "minimal_runtime_smoke" ->
  (forall id, In id ["allow_without_marker"; "deny_header_marker_403"] -> passes records id) /\
  verified = true /\ absent = true.

Lemma canonical_gates context records ids verified absent host library : passing_ids records = Ok ids ->
  canonical_pass_gate_failures (evidence_stage context) ids verified absent host library = [] <->
  minimal_gate context records verified absent /\ concrete_version host = true /\ concrete_version library = true.
Proof.
  intros E. unfold canonical_pass_gate_failures, minimal_gate. rewrite !app_nil, !when_failed_nil, !negb_false_iff.
  f_equiv. rewrite andb_false_iff, negb_false_iff, !andb_true_iff, str_subset_incl. unfold incl.
  setoid_rewrite (fun id => passing_ids_In records ids id E).
  destruct (String.eqb_spec (evidence_stage context) "minimal_runtime_smoke"); [|by split; [|by left]].
  split; [intros [|[[? ?] ?]]; done|]. intros H. right. specialize (H e). tauto.
Qed.

Lemma first_byte_gate context evidence m :
  match evidence with
  | Some e => when_failed (String.eqb (artifact_profile context) FULL_LIFECYCLE_ARTIFACT_PROFILE
                           && negb (eq_str (dict_get "evidence_origin" e) "real_host")) m
  | None => []
  end = [] <->
  (forall e, evidence = Some e -> artifact_profile context = FULL_LIFECYCLE_ARTIFACT_PROFILE ->
     eq_str (dict_get "evidence_origin" e) "real_host" = true).
Proof.
  destruct evidence as [e|]; [|done]. rewrite when_failed_nil, andb_false_iff, negb_false_iff.
  destruct (String.eqb_spec (artifact_profile context) FULL_LIFECYCLE_ARTIFACT_PROFILE) as [E|E]; split.
  - by intros [|] ? [= <-] _.
  - intros H. right. by apply H.
  - by intros _ ? [= <-] ?.
  - by left.
Qed.

(** The gate keeps [PASS] when no gate fails, and gives [PASS] to no other status. *)
Lemma gate_pass context status blocked records ids verified absent host library evidence b failures :
  passing_ids records = Ok ids ->
  finalize_pass_gate context status blocked ids verified absent host library evidence = ("PASS", b, failures) <->
  status = "PASS" /\ b = blocked /\ failures = [] /\ minimal_gate context records verified absent /\
  concrete_version host = true /\ concrete_version library = true /\
  is_true (dict_get "connector_worktree_clean" (manifest context)) = true /\
  is_true (dict_get "framework_worktree_clean" (manifest context)) = true /\
  (dict_get "provenance_required" (manifest context) = PBool true -> commits_unchanged (manifest context)) /\
  (forall e, evidence = Some e -> artifact_profile context = FULL_LIFECYCLE_ARTIFACT_PROFILE ->
     eq_str (dict_get "evidence_origin" e) "real_host" = true).
Proof.
  intros E. unfold finalize_pass_gate. destruct (String.eqb_spec status "PASS") as [->|Hne]; cbn [negb].
  2:{ split; [congruence|]. by intros (? & _). }
  match goal with |- context [match ?l with [] => _ | _ => _ end] => set (all := l) end.
  assert (N : all = [] <-> minimal_gate context records verified absent /\
    concrete_version host = true /\ concrete_version library = true /\
    is_true (dict_get "connector_worktree_clean" (manifest context)) = true /\
    is_true (dict_get "framework_worktree_clean" (manifest context)) = true /\
    (dict_get "provenance_required" (manifest context) = PBool true -> commits_unchanged (manifest context)) /\
    (forall e, evidence = Some e -> artifact_profile context = FULL_LIFECYCLE_ARTIFACT_PROFILE ->
       eq_str (dict_get "evidence_origin" e) "real_host" = true)).
  { unfold all. rewrite !app_nil, (canonical_gates context records) by done.
    rewrite provenance_gates, first_byte_gate, !when_failed_nil, !negb_false_iff. tauto. }
  rewrite <- N. clearbody all. destruct all; split; intros H; try (injection H as <- <-); try done.
  - by destruct H as (_ & -> & -> & _).
  - destruct H as (_ & _ & _ & H). discriminate.
Qed.

Section Verdict.
Variables (context : FinalizeContext) (records : list pydict) (stage_rc : Z) (source_payloads : list pydict)
  (verified absent : bool) (host library : pyval) (first_byte_evidence : option pydict) (selected : list string).

(** The aggregated status is [PASS] for the first half of [run_passes]. *)
Lemma aggregate_half b : (exists sel, selected_statuses records (Some selected) = Ok sel) ->
  aggregate_status records stage_rc
    (str_in "FAIL" (map (fun p => normalize_source_status (dict_get "status" p)) source_payloads))
    (Some selected) = Ok ("PASS", b) <->
  b = false /\ stage_rc = 0 /\
  (forall p, In p source_payloads -> normalize_source_status (dict_get "status" p) <> "FAIL") /\
  (forall r, In r records -> ~ In (status_text r) ["FAIL"; "BLOCKED"]) /\
  (forall id, In id selected -> In id (map case_id_of records)) /\
  (forall r, In r records -> of_selected selected r = true ->
     ~ In (status_text r) ["NOT_EXECUTED"; "UNSUPPORTED"; "NOT_APPLICABLE"]) /\
  (exists r, In r records /\ of_selected selected r = true /\ status_text r = "PASS").
Proof.
  intros [sel E]. rewrite (aggregate_pass _ _ _ _ _ _ E), str_in_false, !(selected_statuses_In _ _ _ _ E), in_map_iff.
  split.
  - intros (-> & -> & Hf & Hs & H1 & H2 & H3 & H4). split; [done|]. split; [done|]. split; [|split; [done|]].
    { intros p Hp Hn. apply Hf. by exists p. }
    split; [|split].
    + intros id Hid. destruct (in_dec String.string_dec id (map case_id_of records)) as [|Hn]; [done|].
      exfalso. apply H1. right. split; [done|]. by exists id.
    + intros r Hr Hsel [Hst|[Hst|[Hst|[]]]]; [apply H1|apply H2|apply H3]; left; by exists r.
    + destruct H4 as [H4|[H4 _]]; done.
  - intros (-> & -> & Hf & Hs & Hrec & Hex & Hp). split; [done|]. split; [done|]. split; [|split; [done|]].
    { intros (p & Hn & Hin). by apply (Hf p Hin). }
    split; [|split; [|split; [|by left]]].
    + intros [(r & Hr & Hsel & Hst)|(_ & id & Hid & Hn)]; [|by apply Hn, Hrec].
      apply (Hex r Hr Hsel). rewrite Hst. by left.
    + intros [(r & Hr & Hsel & Hst)|(? & _)]; [|done]. apply (Hex r Hr Hsel). rewrite Hst. cbn. tauto.
    + intros [(r & Hr & Hsel & Hst)|(? & _)]; [|done]. apply (Hex r Hr Hsel). rewrite Hst. cbn. tauto.
Qed.

(** C22: the status of a run is [PASS] exactly when the stage returned 0, no source
    failed, no record failed or is blocked, every selected case has a record, none of
    these was left out, one passed, and every gate holds: canonical minimal runtime
    evidence, concrete versions, clean worktrees, unchanged commits when provenance is
    required, real-host first-byte evidence.  Then no gate failure is reported, and
    when the records have case statuses every record of a selected case passed. *)
Theorem run_pass_meaning status blocked failures :
  selected_case_ids_from_plan (plan context) = Ok selected ->
  summary_status context records stage_rc source_payloads verified absent host library first_byte_evidence
    = Ok (status, blocked, failures) ->
  (status = "PASS" <->
   run_passes context records stage_rc source_payloads verified absent host library first_byte_evidence selected) /\
  (status = "PASS" -> blocked = false /\ failures = [] /\
   ((forall r, In r records -> In (status_text r) CASE_STATUSES) ->
    forall r, In r records -> of_selected selected r = true -> status_text r = "PASS")).
Proof.
  intros Hsel. unfold summary_status. rewrite Hsel.
  destruct (aggregate_status _ _ _ _) as [[st b]|] eqn:Ea; [|done].
  assert (Es : exists sel, selected_statuses records (Some selected) = Ok sel).
  { unfold aggregate_status in Ea. destruct (selected_statuses _ _) as [sel|]; [by exists sel|done]. }
  pose proof (fun c => aggregate_half c Es) as A. rewrite Ea in A.
  destruct (passing_ids records) as [ids|] eqn:Ei; [|done]. intros H. apply Ok_inj in H.
  pose proof (fun c f => gate_pass context st b records ids verified absent host library first_byte_evidence c f Ei) as G.
  rewrite H in G. clear H Ea Ei Es.
  split; [split|].
  - intros ->. destruct (proj1 (G blocked failures) eq_refl) as (-> & -> & -> & ? & ? & ? & ? & ? & ? & ?).
    destruct (proj1 (A b) eq_refl) as (-> & ? & ? & ? & ? & ? & ?). by constructor.
  - intros [? ? ? ? ? ? ? ? ? ? ? ? ?]. assert (E : Ok (st, b) = Ok ("PASS", false)) by (apply A; tauto).
    apply Ok_inj in E. injection E as E1 E2. enough ((status, blocked, failures) = ("PASS", false, [])) by congruence.
    apply G. rewrite E2. unfold minimal_gate. tauto.
  - intros ->. destruct (proj1 (G blocked failures) eq_refl) as (-> & -> & -> & _).
    destruct (proj1 (A b) eq_refl) as (-> & _ & _ & Hs & _ & Hx & _). split; [done|]. split; [done|].
    intros Hc r Hr Hsl. specialize (Hs r Hr). specialize (Hx r Hr Hsl). specialize (Hc r Hr).
    cbn in Hs, Hx, Hc. intuition congruence.
Qed.
End Verdict.

(** * Witnesses and examples of the finalisation *)

(** ** A small catalog and a plan *)

Definition case_entry (target : string) : pydict :=
  [(PStr "group", PStr "phase4"); (PStr "phase", PInt 4); (PStr "required_capabilities", PList [PStr "phase4"]);
   (PStr "expected_status", PStr "403"); (PStr "expected_rule_id", PInt 1100001)]
  ++ if String.eqb target "" then [] else [(PStr "deprecated_alias_for", PStr target)].
Definition small_catalog : case_table :=
  [("deny_body", case_entry ""); ("old_deny_body", case_entry "deny_body"); ("allow", case_entry "")].
Definition plan_entry (id status : string) : pydict :=
  [(PStr "case_id", PStr id); (PStr "selection_status", PStr status)].
Definition small_plan : pydict :=
  [(PStr "cases", PList [PDict (plan_entry "deny_body" "SELECTED"); PDict (plan_entry "old_deny_body" "SELECTED");
                         PDict (plan_entry "allow" "NOT_APPLICABLE")])].
Definition clean_manifest : pydict :=
  [(PStr "connector_worktree_clean", PBool true); (PStr "framework_worktree_clean", PBool true)].
Definition small_context (plan : pydict) : FinalizeContext :=
  {| manifest := clean_manifest; plan := plan; artifact_profile := "core"; connector := "nginx";
     evidence_stage := "no_crs_baseline"; case_by_id := small_catalog |}.
Definition result (id status : string) : pydict :=
  [(PStr "case_id", PStr id); (PStr "status", PStr status); (PStr "live_executed", PBool true)].

(** ** Deprecated aliases *)

Definition summary_of (records : res (list pydict)) : list (string * string) :=
  match records with Ok l => map (fun r => (case_id_of r, status_text r)) l | Err _ => [] end.

(** The alias follows its replacement in both directions of a lie. *)
Example alias_ex :
  let resolve records := summary_of (resolve_deprecated_aliases records small_catalog None) in
  resolve [result "deny_body" "PASS"] = [("deny_body", "PASS"); ("old_deny_body", "PASS")] /\
  resolve [result "old_deny_body" "PASS"; result "deny_body" "FAIL"]
  = [("old_deny_body", "FAIL"); ("deny_body", "FAIL")] /\
  resolve [result "old_deny_body" "PASS"] = [("old_deny_body", "FAIL")].
Proof. vm_compute. repeat split. Qed.

Lemma small_catalog_flat : flat_aliases small_catalog.
Proof.
  intros id case id' case' H H' Ht Hid. destruct H as [H|[H|[H|[]]]]; injection H as <- <-; try (by vm_compute in Ht).
  destruct H' as [H'|[H'|[H'|[]]]]; injection H' as <- <-; [reflexivity|discriminate|reflexivity].
Qed.

Lemma alias_pass_needs_replacement_witness :
  exists records', resolve_deprecated_aliases [result "old_deny_body" "PASS"; result "deny_body" "FAIL"] small_catalog None
                   = Ok records' /\ settled records' "old_deny_body" (case_entry "deny_body").
Proof.
  destruct (resolve_deprecated_aliases [result "old_deny_body" "PASS"; result "deny_body" "FAIL"] small_catalog None)
    as [records'|] eqn:E; [|vm_compute in E; discriminate].
  exists records'. split; [reflexivity|].
  apply (proj1 (alias_pass_needs_replacement _ small_catalog None records' E
    ltac:(apply (bool_decide_unpack _); vm_compute; exact I) small_catalog_flat)); [right; by left|exact I|discriminate].
Defined.

(** ** Planned cases *)

(** A stage that is blocked before execution: the selected cases are blocked, the
    case the manifest rules out keeps its declared status. *)
Example blocked_stage_ex :
  match complete_records (small_context small_plan) [] [] 77 "no host" with
  | Ok records => map (fun r => (case_id_of r, status_text r)) records
  | Err _ => []
  end = [("deny_body", "BLOCKED"); ("old_deny_body", "BLOCKED"); ("allow", "NOT_APPLICABLE")].
Proof. vm_compute. reflexivity. Qed.

Definition small_selections : list pyval :=
  [PDict (plan_entry "deny_body" "SELECTED"); PDict (plan_entry "old_deny_body" "SELECTED");
   PDict (plan_entry "allow" "NOT_APPLICABLE")].

Lemma small_recordable s case : In (PDict s) small_selections ->
  case_of (case_id_of s) small_catalog = Some case -> recordable s case.
Proof.
  intros [H|[H|[H|[]]]] Hc; injection H as <-; vm_compute in Hc; injection Hc as <-;
    constructor; try eexists; vm_compute; reflexivity.
Qed.

Lemma planned_cases_recorded_witness :
  exists (new : list pydict) (dedup' : pydict),
    append_missing_selected_records (small_context small_plan) [result "deny_body" "PASS"]
      [(PStr "deny_body", PDict (result "deny_body" "PASS"))] 0 "" = Ok ([result "deny_body" "PASS"] ++ new, dedup') /\
    In "old_deny_body" (map case_id_of ([result "deny_body" "PASS"] ++ new)).
Proof.
  destruct (planned_cases_recorded (small_context small_plan) [result "deny_body" "PASS"]
    [(PStr "deny_body", PDict (result "deny_body" "PASS"))] 0 ""
    small_selections) as (new & dd & E & H & _).
  - reflexivity.
  - intros id H. unfold dict_has in H. cbn [dict_find eq_str] in H. destruct (String.eqb_spec "deny_body" id); [|done]. by left.
  - intros s H case Hc. by apply small_recordable.
  - exists new, dd. split; [exact E|]. apply (H (plan_entry "old_deny_body" "SELECTED")); [right; by left|by eexists].
Defined.

(** ** The status of a run *)

Definition passing_records : list pydict := [result "deny_body" "PASS"; result "old_deny_body" "PASS"].
Definition run_status (context : FinalizeContext) (records : list pydict) (rc : Z) (host : string) :=
  summary_status context records rc [] true true (PStr host) (PStr "3.0.14") None.

Example run_status_ex :
  run_status (small_context small_plan) passing_records 0 "1.26.2" = Ok ("PASS", false, []) /\
  run_status (small_context small_plan) passing_records 0 "not-provisioned"
  = Ok ("FAIL", false, ["PASS requires a concrete host version"]) /\
  run_status (small_context small_plan) [result "deny_body" "PASS"] 0 "1.26.2" = Ok ("NOT_EXECUTED", false, []) /\
  run_status (small_context small_plan) passing_records 77 "1.26.2" = Ok ("FAIL", false, []) /\
  run_status (small_context small_plan) [] 77 "1.26.2" = Ok ("BLOCKED", true, []).
Proof. vm_compute. repeat split. Qed.

Lemma run_pass_meaning_witness :
  run_passes (small_context small_plan) passing_records 0 [] true true (PStr "1.26.2") (PStr "3.0.14") None
    ["deny_body"; "old_deny_body"].
Proof.
  apply (run_pass_meaning (small_context small_plan) passing_records 0 [] true true (PStr "1.26.2") (PStr "3.0.14") None
    ["deny_body"; "old_deny_body"] "PASS" false []); reflexivity.
Defined.
