(* ===== verification/Semantics.v ===== *)
(** * Runtime evidence of a case record (no_crs_baseline.py)

    The closed vocabularies of the semantic fields, their normalisers, and the
    projection of a raw record and its event onto the fields.  The sentinel
    [_MISSING] of the code is [None] of an [option]. *)

From S2P Require Export Baseline Regex.
From Stdlib Require Import QArith.
#[global] Open Scope Z_scope.

(** ** Vocabularies *)

Definition REQUESTED_ACTIONS : list string :=
  ["deny"; "redirect"; "drop"; "log_only"; "abort_connection"; "allow"; "pass"; "error"].
Definition ACTUAL_ACTIONS : list string :=
  ["deny"; "redirect"; "log_only"; "abort_connection"; "stream_reset"; "allow"; "pass"; "error"].
Definition TRANSPORT_RESULTS : list string :=
  ["completed"; "log_only"; "connection_aborted"; "stream_reset"; "client_cancelled"; "client_disconnected";
   "upstream_reset"; "upstream_disconnected"; "timeout"; "short_write"; "write_would_block"; "engine_error";
   "host_error"; "http_status"; "not_observable"].
Definition RESET_BY_VALUES : list string := ["client"; "upstream"; "engine"; "host"; "strict_intervention"; "timeout"].
Definition TIMEOUT_STAGES : list string :=
  ["engine"; "request_body"; "response_body"; "upstream"; "client_idle"; "before_commit"; "after_commit";
   "request_headers"; "response_headers"].
Definition WRITE_RESULTS : list string :=
  ["completed"; "short_write"; "write_would_block"; "engine_error"; "host_error"].
Definition CLEANUP_REASONS : list string :=
  ["normal"; "cancelled"; "client_disconnected"; "upstream_disconnected"; "stream_reset"; "timeout"; "engine_error";
   "host_error"; "strict_abort"; "phase_sequence"; "body_limit"; "event_limit"; "engine_timeout";
   "engine_unavailable"; "invalid_engine_response"; "connector_error"; "protocol_error"; "client_cancel";
   "upstream_disconnect"; "correlation_missing"; "correlation_expired"; "correlation_mismatch";
   "cleanup_incomplete"].
Definition LATE_INTERVENTION_MODES : list string := ["minimal"; "safe"; "strict"].
Definition CONTENT_TYPE_SCOPES : list string := ["in_scope"; "out_of_scope"; "missing"].
Definition BODY_LIMIT_OUTCOMES : list string := ["at_limit"; "over_limit"; "process_partial"; "reject"].
Definition TRANSFER_ENCODINGS : list string := ["content_length"; "chunked"; "none"].
Definition CANONICAL_PROTOCOLS : list string := ["http1"; "h2"; "h2c"; "h3"].
Definition CANONICAL_TRANSPORTS : list string := ["tcp"; "tls_tcp"; "quic_udp"].
Definition MAX_STREAM_ID : Z := 4611686018427387903.

Definition PROTOCOL_PROVENANCE_FIELDS : list string :=
  ["requested_protocol"; "downstream_protocol"; "upstream_protocol"; "negotiated_protocol"; "transport"; "alpn";
   "stream_id"; "transport_case_id"; "connection_id"; "connection_reused"; "quic_connection_id_present";
   "quic_version"; "fallback_used"; "stream_reset"; "stream_reset_code"].
Definition PROTOCOL_CLAIM_FIELDS : list string :=
  List.filter (fun f => negb (String.eqb f "connection_reused")) PROTOCOL_PROVENANCE_FIELDS.
Definition TRANSPORT_CLAIM_FIELDS : list string :=
  PROTOCOL_CLAIM_FIELDS ++
  ["client_disconnected"; "upstream_disconnected"; "cancelled"; "reset_by"; "reset_code"; "timeout_stage";
   "write_result"; "eos_seen"; "cleanup_reason"; "barrier_id"].

(** ** Normalisers *)

(** [value in (None, "", "null", "none", "not-run")] *)
Definition _empty_runtime_value (v : pyval) : bool := is_none v || in_strs v [""; "null"; "none"; "not-run"].

Definition optional_bool (v : pyval) : res pyval :=
  if _empty_runtime_value v then Ok PNone
  else match v with
       | PBool b => Ok (PBool b)
       | _ =>
           let text := py_lower (py_strip (py_str v)) in
           if str_in text ["1"; "true"; "yes"; "on"] then Ok (PBool true)
           else if str_in text ["0"; "false"; "no"; "off"] then Ok (PBool false)
           else Err (ContractError ("invalid Boolean: " +:+ py_repr v))
       end.

(** A member of the vocabulary, or [None]. *)
Definition member (allowed : list string) (text : string) : pyval :=
  if str_in text allowed then PStr text else PNone.

(** [str(value).strip().lower().replace("-", "_")] *)
Definition token_text (v : pyval) : string := py_replace "-" "_" (py_lower (py_strip (py_str v))).

Definition normalize_action (v : pyval) (allowed : list string) : pyval :=
  if _empty_runtime_value v then PNone
  else let action := token_text v in
       member allowed (if String.eqb action "connection_abort" then "abort_connection" else action).

Definition normalize_transport_result (v : pyval) : pyval :=
  if _empty_runtime_value v then PNone
  else let transport := token_text v in
       member TRANSPORT_RESULTS (if String.eqb transport "aborted" then "connection_aborted" else transport).

Definition normalize_transport_enum (v : pyval) (allowed : list string) : pyval :=
  if _empty_runtime_value v then PNone else member allowed (py_replace " " "_" (token_text v)).

(** A spelling and what it stands for. *)
Fixpoint alias_of (text : string) (aliases : list (string * string)) : option string :=
  match aliases with
  | [] => None
  | (k, v) :: r => if String.eqb k text then Some v else alias_of text r
  end.
Definition opt_alias (o : option string) : pyval := match o with Some s => PStr s | None => PNone end.

Definition PROTOCOL_ALIASES : list (string * string) :=
  [("http1", "http1"); ("http/1", "http1"); ("http/1.0", "http1"); ("http/1.1", "http1"); ("http10", "http1");
   ("http11", "http1"); ("h1", "http1"); ("h2", "h2"); ("http2", "h2"); ("http/2", "h2"); ("http/2.0", "h2");
   ("h2c", "h2c"); ("http2c", "h2c"); ("http/2c", "h2c"); ("h3", "h3"); ("http3", "h3"); ("http/3", "h3");
   ("http/3.0", "h3")].
Definition normalize_protocol (v : pyval) : pyval :=
  if _empty_runtime_value v then PNone
  else opt_alias (alias_of (py_replace " " "" (py_replace "_" "" (py_lower (py_strip (py_str v))))) PROTOCOL_ALIASES).

Definition normalize_legacy_transport_protocol (v : pyval) : pyval :=
  match normalize_protocol v with
  | PStr s => opt_alias (alias_of s [("http1", "http1"); ("h2", "http2")])
  | _ => PNone
  end.

Definition normalize_transport (v : pyval) : pyval :=
  if _empty_runtime_value v then PNone
  else opt_alias (alias_of (py_replace "-" "_" (py_replace "/" "_" (py_lower (py_strip (py_str v)))))
         [("tcp", "tcp"); ("tls_tcp", "tls_tcp"); ("tlstcp", "tls_tcp"); ("quic_udp", "quic_udp");
          ("quicudp", "quic_udp")]).

(** [\[A-Za-z0-9:._-\]], with a slash when one is allowed. *)
Definition bounded_char (allow_slash : bool) (c : ascii) : bool :=
  is_alnum c || char_in ":._-" c || (allow_slash && Ascii.eqb c "/").
Definition bounded_text (maximum : Z) (allow_slash : bool) (s : string) : bool :=
  negb (String.eqb s "") && (str_len s <=? maximum) && fullmatch_str (RPlus (RCls (bounded_char allow_slash))) s.

Definition normalize_bounded_token (maximum : Z) (field : string) (allow_slash : bool) (v : pyval) : res pyval :=
  if _empty_runtime_value v then Ok PNone
  else match v with
       | PStr s => let normalized := py_strip s in
                   if bounded_text maximum allow_slash normalized then Ok (PStr normalized)
                   else Err (ContractError ("invalid " +:+ field +:+ ": expected a bounded token"))
       | _ => Err (ContractError ("invalid " +:+ field +:+ ": expected a string"))
       end.

Definition normalize_stream_id (v : pyval) : res pyval :=
  let* normalized := optional_int v in
  match normalized with
  | PInt z => if (z <? 0) || (MAX_STREAM_ID <? z) then Err (ContractError ("invalid stream_id: " +:+ py_repr v))
              else Ok (PInt z)
  | _ => Ok PNone
  end.

Definition normalize_stream_reset_code (v : pyval) : res pyval :=
  if _empty_runtime_value v then Ok PNone
  else match v with
       | PBool _ => Err (ContractError ("invalid stream_reset_code: " +:+ py_repr v))
       | PInt z => if (z <? 0) || (MAX_STREAM_ID <? z)
                   then Err (ContractError ("invalid stream_reset_code: " +:+ py_repr v)) else Ok (PInt z)
       | _ => normalize_bounded_token 64 "stream_reset_code" false v
       end.

(** [re.fullmatch(r"sha256:\[0-9a-f\]{16,64}", value)] *)
Definition is_hashed_connection_id (v : pyval) : bool :=
  match v with
  | PStr s => fullmatch_str (RCat (RLit "sha256:") (RRep (RCls is_hex_lower) 16 (Some 64%nat))) s
  | _ => false
  end.

Definition normalize_enum_semantic_value (v : pyval) (allowed : list string) : pyval :=
  member allowed (py_replace "-" "_" (py_lower (py_strip (text_of v)))).

Definition INTEGER_FIELDS : list string :=
  ["http_status"; "original_http_status"; "visible_http_status"; "first_chunk_size"].
Definition BOOLEAN_FIELDS : list string :=
  ["late_intervention"; "headers_sent"; "response_started"; "body_started"; "body_truncated"; "response_committed";
   "connection_aborted"; "marker_split_across_chunks"; "end_of_stream_evaluation"; "no_full_response_buffering";
   "first_byte_before_response_end"; "upstream_response_finished_at_first_byte"; "client_first_byte_received";
   "upstream_paused"; "upstream_eos_sent_at_first_byte"; "connection_reused"; "quic_connection_id_present";
   "fallback_used"; "stream_reset"; "client_aborted"; "upstream_aborted"; "client_disconnected";
   "upstream_disconnected"; "cancelled"; "eos_seen"].
Definition PROTOCOL_FIELDS : list string :=
  ["requested_protocol"; "downstream_protocol"; "upstream_protocol"; "negotiated_protocol"].
(** The maximum length of the token fields. *)
Definition TOKEN_FIELDS : list (string * Z) :=
  [("alpn", 64); ("transport_case_id", 128); ("barrier_id", 128); ("connection_id", 128); ("quic_version", 64)].
Fixpoint token_bound (field : string) (l : list (string * Z)) : option Z :=
  match l with [] => None | (f, n) :: r => if String.eqb f field then Some n else token_bound field r end.

(** [SEMANTIC_VALUE_NORMALIZERS\[field\](value)] *)
Definition normalize_semantic_value (field : string) (v : pyval) : res pyval :=
  if str_in field INTEGER_FIELDS then optional_int v
  else if String.eqb field "stream_id" then normalize_stream_id v
  else if str_in field BOOLEAN_FIELDS then optional_bool v
  else if str_in field PROTOCOL_FIELDS then Ok (normalize_protocol v)
  else match token_bound field TOKEN_FIELDS with
  | Some maximum => normalize_bounded_token maximum field (String.eqb field "alpn") v
  | None =>
    if str_in field ["stream_reset_code"; "reset_code"] then normalize_stream_reset_code v
    else if String.eqb field "requested_action" then Ok (normalize_action v REQUESTED_ACTIONS)
    else if String.eqb field "actual_action" then Ok (normalize_action v ACTUAL_ACTIONS)
    else if String.eqb field "transport_result" then Ok (normalize_transport_result v)
    else if String.eqb field "late_intervention_mode" then Ok (normalize_enum_semantic_value v LATE_INTERVENTION_MODES)
    else if String.eqb field "content_type_scope" then Ok (normalize_enum_semantic_value v CONTENT_TYPE_SCOPES)
    else if String.eqb field "body_limit_outcome" then Ok (normalize_enum_semantic_value v BODY_LIMIT_OUTCOMES)
    else if String.eqb field "transfer_encoding" then Ok (normalize_enum_semantic_value v TRANSFER_ENCODINGS)
    else if String.eqb field "transport_protocol" then Ok (normalize_legacy_transport_protocol v)
    else if String.eqb field "transport" then Ok (normalize_transport v)
    else if String.eqb field "reset_by" then Ok (normalize_transport_enum v RESET_BY_VALUES)
    else if String.eqb field "timeout_stage" then Ok (normalize_transport_enum v TIMEOUT_STAGES)
    else if String.eqb field "write_result" then Ok (normalize_transport_enum v WRITE_RESULTS)
    else if String.eqb field "cleanup_reason" then Ok (normalize_transport_enum v CLEANUP_REASONS)
    else Err (ContractError ("unsupported semantic field: " +:+ field))
  end.

(** ** The projection of a record and its event *)

(** The names under which a raw record may report a field, its own first. *)
Definition OTHER_NAMES : list (string * list string) :=
  [("http_status", ["waf_status"; "intervention_status"]); ("requested_action", ["wanted_action"]);
   ("original_http_status", ["upstream_status"]); ("visible_http_status", ["client_status"]);
   ("late_intervention", ["intervention"]); ("headers_sent", ["header_sent"]);
   ("body_started", ["response_body_seen"]); ("body_truncated", ["response_body_truncated"]);
   ("connection_aborted", ["strict_abort"]); ("transport_result", ["observed_transport_result"]);
   ("late_intervention_mode", ["phase4_mode"]); ("content_type_scope", ["scope_result"]);
   ("body_limit_outcome", ["limit_outcome"]);
   ("upstream_response_finished_at_first_byte", ["upstream_response_complete_at_first_byte"]);
   ("transport_protocol", ["protocol"]); ("transport_case_id", ["protocol_case_id"]);
   ("connection_reused", ["keep_alive_reused"]); ("stream_reset", ["stream_reset_observed"]);
   ("client_disconnected", ["client_disconnect"]); ("upstream_disconnected", ["upstream_disconnect"]);
   ("cancelled", ["client_cancelled"]); ("eos_seen", ["eos_received"])].
Definition _RAW_SEMANTIC_FIELD_ALIASES (field : string) : list string :=
  field :: match List.find (fun p => String.eqb (fst p) field) OTHER_NAMES with Some (_, l) => l | None => [] end.

Fixpoint first_present (names : list string) (raw : pydict) : option pyval :=
  match names with
  | [] => None
  | name :: r => match dict_find name raw with Some v => Some v | None => first_present r raw end
  end.
Definition raw_semantic_value (raw : pydict) (field : string) : option pyval :=
  first_present (_RAW_SEMANTIC_FIELD_ALIASES field) raw.

Definition normalized_runtime_value (field : string) (value : option pyval) (source : string)
    : res (option pyval * list string) :=
  match value with
  | None => Ok (None, [])
  | Some v => match normalize_semantic_value field v with
              | Ok w => Ok (Some w, [])
              | Err (ContractError _) => Ok (None, [field +:+ ": invalid " +:+ source +:+ " runtime value"])
              | Err e => Err e
              end
  end.

Definition invalid_transport_claim_error (field source : string) (raw_value normalized : option pyval) : list string :=
  if negb (str_in field TRANSPORT_CLAIM_FIELDS) then []
  else match raw_value, normalized with
       | Some v, Some PNone => if _empty_runtime_value v then []
                               else [field +:+ ": invalid " +:+ source +:+ " runtime value"]
       | _, _ => []
       end.

Definition semantic_field_value (raw : pydict) (matching_event : option pydict) (field : string)
    : res (pyval * list string) :=
  let raw_value := raw_semantic_value raw field in
  let event_value := match matching_event with Some e => dict_find field e | None => None end in
  let* (raw_normalized, errors) := normalized_runtime_value field raw_value "raw" in
  let* (event_normalized, event_errors) := normalized_runtime_value field event_value "event" in
  let errors := errors ++ event_errors ++ invalid_transport_claim_error field "raw" raw_value raw_normalized
                ++ invalid_transport_claim_error field "event" event_value event_normalized in
  Ok (match raw_normalized, event_normalized with
      | Some r, Some e => (r, errors ++ if py_eq r e then []
                                        else [field +:+ ": raw and event runtime evidence disagree"])
      | Some r, None => (r, errors)
      | None, Some e => (e, errors)
      | None, None => (PNone, errors)
      end).

(** [values.get("negotiated_protocol") or values.get("downstream_protocol")] *)
Definition effective_downstream (values : pydict) : pyval :=
  let negotiated := dict_get "negotiated_protocol" values in
  if truthy negotiated then negotiated else dict_get "downstream_protocol" values.

Definition reject_raw_quic_connection_id (values : pydict) (errors : list string) : pydict * list string :=
  if negb (eq_str (effective_downstream values) "h3") && negb (eq_str (dict_get "transport" values) "quic_udp")
  then (values, errors)
  else
    let connection_id := dict_get "connection_id" values in
    if negb (is_none connection_id) && negb (is_hashed_connection_id connection_id)
    then (dict_set "connection_id" PNone values,
          errors ++ ["connection_id: raw QUIC connection identifiers are forbidden"])
    else (values, errors).

Definition FIRST_BYTE_BARRIER_FIELDS : list string :=
  ["client_first_byte_received"; "first_byte_before_response_end"; "first_chunk_size"; "upstream_paused";
   "upstream_eos_sent_at_first_byte"; "upstream_response_finished_at_first_byte"; "no_full_response_buffering";
   "response_committed"].

Definition semantic_runtime_fields (raw : pydict) (matching_event first_byte_rule_witness : option pydict)
    : res (pydict * list string) :=
  let* fields := mapM (fun field =>
      let observation := match first_byte_rule_witness with
                         | Some w => if str_in field FIRST_BYTE_BARRIER_FIELDS then matching_event else Some w
                         | None => matching_event
                         end in
      let* (value, errors) := semantic_field_value raw observation field in
      Ok (PStr field, value, errors)) PHASE4_SEMANTIC_FIELDS in
  Ok (reject_raw_quic_connection_id (map fst fields) (concat (map snd fields))).
