(* ===== verification/SemanticsTheorems.v ===== *)
(** * Theorems of the runtime evidence: canonical, agreeing, without raw QUIC identifiers *)

From S2P Require Export Semantics.
From Stdlib Require Import QArith.
#[global] Open Scope Z_scope.

(** ** Canonical values *)

(** A bounded token: characters of the class only. *)
Definition token (maximum : Z) (allow_slash : bool) (s : string) : Prop :=
  1 <= str_len s <= maximum /\ Forall (fun c => bounded_char allow_slash c = true) (S2L s).

(** The vocabulary of a field whose values are names. *)
Definition vocabulary (field : string) : list string :=
  if str_in field PROTOCOL_FIELDS then CANONICAL_PROTOCOLS
  else match List.find (fun p => String.eqb (fst p) field)
    [("requested_action", REQUESTED_ACTIONS); ("actual_action", ACTUAL_ACTIONS);
     ("transport_result", TRANSPORT_RESULTS); ("late_intervention_mode", LATE_INTERVENTION_MODES);
     ("content_type_scope", CONTENT_TYPE_SCOPES); ("body_limit_outcome", BODY_LIMIT_OUTCOMES);
     ("transfer_encoding", TRANSFER_ENCODINGS); ("transport_protocol", ["http1"; "http2"]);
     ("transport", CANONICAL_TRANSPORTS); ("reset_by", RESET_BY_VALUES); ("timeout_stage", TIMEOUT_STAGES);
     ("write_result", WRITE_RESULTS); ("cleanup_reason", CLEANUP_REASONS)] with
  | Some (_, l) => l
  | None => []
  end.

(** The class of a field, and its values besides [None]. *)
Inductive field_class :=
  | AnInteger | AStream | ABoolean | AToken (maximum : Z) (slash : bool) | AResetCode | AName (l : list string).

Definition class_of (field : string) : field_class :=
  if str_in field INTEGER_FIELDS then AnInteger
  else if String.eqb field "stream_id" then AStream
  else if str_in field BOOLEAN_FIELDS then ABoolean
  else match token_bound field TOKEN_FIELDS with
       | Some n => AToken n (String.eqb field "alpn")
       | None => if str_in field ["stream_reset_code"; "reset_code"] then AResetCode else AName (vocabulary field)
       end.

Definition of_class (c : field_class) (v : pyval) : Prop :=
  match c with
  | AnInteger => exists z, v = PInt z
  | AStream => exists z, v = PInt z /\ 0 <= z <= MAX_STREAM_ID
  | ABoolean => exists b, v = PBool b
  | AToken n slash => exists s, v = PStr s /\ token n slash s
  | AResetCode => (exists z, v = PInt z /\ 0 <= z <= MAX_STREAM_ID) \/ exists s, v = PStr s /\ token 64 false s
  | AName l => exists s, v = PStr s /\ In s l
  end.

Definition canonical_value (field : string) (v : pyval) : Prop := v = PNone \/ of_class (class_of field) v.

(** ** The normalisers *)

(** A run gives a value of [P] or a [ContractError]. *)
Definition gives (P : pyval -> Prop) (r : res pyval) : Prop :=
  match r with Ok v => P v | Err (ContractError _) => True | Err _ => False end.

Lemma member_name l text : member l text = PNone \/ of_class (AName l) (member l text).
Proof.
  unfold member. destruct (str_in text l) eqn:E; [|by left]. right. exists text. split; [done|]. by apply str_in_In.
Qed.

Lemma alias_name text aliases l : incl (map snd aliases) l ->
  opt_alias (alias_of text aliases) = PNone \/ of_class (AName l) (opt_alias (alias_of text aliases)).
Proof.
  intros H. induction aliases as [|[k v] aliases IH]; [by left|]. cbn [alias_of].
  destruct (String.eqb k text); [|apply IH; intros x Hx; apply H; by right].
  right. exists v. split; [done|]. apply H. by left.
Qed.

Lemma optional_int_gives v : gives (fun w => w = PNone \/ exists z, w = PInt z) (optional_int v).
Proof.
  unfold optional_int. destruct (_ || _); [by left|]. destruct v; cbn; try done; try (right; by eexists).
  destruct (py_int_text s); cbn; [right; by eexists|done].
Qed.

Lemma token_of_bounded maximum slash s : bounded_text maximum slash s = true -> token maximum slash s.
Proof.
  unfold bounded_text, token. rewrite !andb_true_iff, negb_true_iff, String.eqb_neq, Z.leb_le.
  intros [[Hn Hl] Hm]. split.
  - split; [|done]. unfold str_len. destruct s; [done|]. cbn [String.length]. lia.
  - apply fullmatch_correct in Hm; [|done]. apply lang_chars in Hm. eapply Forall_impl; [exact Hm|].
    intros c Hc. cbn in Hc. done.
Qed.

Lemma bounded_token_gives maximum field slash v :
  gives (fun w => w = PNone \/ of_class (AToken maximum slash) w) (normalize_bounded_token maximum field slash v).
Proof.
  unfold normalize_bounded_token. destruct (_empty_runtime_value v); [by left|]. destruct v; try done.
  destruct (bounded_text maximum slash (py_strip s)) eqn:E; [|done]. right. eexists. split; [done|].
  by apply token_of_bounded.
Qed.

Lemma reset_code_gives v : gives (fun w => w = PNone \/ of_class AResetCode w) (normalize_stream_reset_code v).
Proof.
  unfold normalize_stream_reset_code. destruct (_empty_runtime_value v) eqn:E; [by left|].
  assert (B : gives (fun w => w = PNone \/ of_class AResetCode w) (normalize_bounded_token 64 "stream_reset_code" false v)).
  { pose proof (bounded_token_gives 64 "stream_reset_code" false v) as G. destruct (normalize_bounded_token _ _ _ _); [|done].
    destruct G as [->|G]; [by left|]. right. by right. }
  destruct v; try exact B. destruct ((z <? 0) || (MAX_STREAM_ID <? z)) eqn:Ez; [done|].
  apply orb_false_iff in Ez as [E1 E2]. right. left. exists z. split; [done|]. lia.
Qed.

Lemma stream_id_gives v : gives (fun w => w = PNone \/ of_class AStream w) (normalize_stream_id v).
Proof.
  unfold normalize_stream_id. pose proof (optional_int_gives v) as G. destruct (optional_int v) as [w|e]; [|by destruct e].
  destruct G as [->|[z ->]]; [by left|]. destruct ((z <? 0) || (MAX_STREAM_ID <? z)) eqn:Ez; [done|].
  apply orb_false_iff in Ez as [E1 E2]. right. exists z. split; [done|]. lia.
Qed.

Lemma optional_bool_gives v : gives (fun w => w = PNone \/ of_class ABoolean w) (optional_bool v).
Proof.
  unfold optional_bool. destruct (_empty_runtime_value v); [by left|].
  cbv zeta. destruct v; repeat match goal with |- context [str_in ?a ?b] => destruct (str_in a b) end;
    try exact I; right; by eexists.
Qed.

Lemma action_gives v allowed : normalize_action v allowed = PNone \/ of_class (AName allowed) (normalize_action v allowed).
Proof. unfold normalize_action. destruct (_empty_runtime_value v); [by left|]. apply member_name. Qed.

Lemma enum_gives v allowed :
  normalize_transport_enum v allowed = PNone \/ of_class (AName allowed) (normalize_transport_enum v allowed).
Proof. unfold normalize_transport_enum. destruct (_empty_runtime_value v); [by left|]. apply member_name. Qed.

Lemma protocol_gives v : normalize_protocol v = PNone \/ of_class (AName CANONICAL_PROTOCOLS) (normalize_protocol v).
Proof.
  unfold normalize_protocol. destruct (_empty_runtime_value v); [by left|]. apply alias_name.
  intros x. cbn. tauto.
Qed.

Lemma legacy_protocol_gives v : normalize_legacy_transport_protocol v = PNone \/
  of_class (AName ["http1"; "http2"]) (normalize_legacy_transport_protocol v).
Proof.
  unfold normalize_legacy_transport_protocol. destruct (normalize_protocol v); try by left. apply alias_name.
  intros x. cbn. tauto.
Qed.

Lemma transport_gives v : normalize_transport v = PNone \/ of_class (AName CANONICAL_TRANSPORTS) (normalize_transport v).
Proof.
  unfold normalize_transport. destruct (_empty_runtime_value v); [by left|]. apply alias_name. intros x. cbn. tauto.
Qed.

Lemma transport_result_gives v :
  normalize_transport_result v = PNone \/ of_class (AName TRANSPORT_RESULTS) (normalize_transport_result v).
Proof. unfold normalize_transport_result. destruct (_empty_runtime_value v); [by left|]. apply member_name. Qed.

(** Every normaliser gives a canonical value of its field, or a [ContractError]. *)
Lemma normalize_gives field v : gives (canonical_value field) (normalize_semantic_value field v).
Proof.
  unfold normalize_semantic_value, canonical_value, class_of.
  destruct (str_in field INTEGER_FIELDS); [apply optional_int_gives|].
  destruct (String.eqb field "stream_id"); [apply stream_id_gives|].
  destruct (str_in field BOOLEAN_FIELDS); [apply optional_bool_gives|].
  destruct (str_in field PROTOCOL_FIELDS) eqn:Ep.
  { apply str_in_In in Ep. repeat (destruct Ep as [<-|Ep]; [apply protocol_gives|]). destruct Ep. }
  destruct (token_bound field TOKEN_FIELDS); [apply bounded_token_gives|].
  destruct (str_in field ["stream_reset_code"; "reset_code"]); [apply reset_code_gives|].
  repeat match goal with |- context [String.eqb field ?s] => destruct (String.eqb_spec field s) as [->|] end;
    try exact I; first [apply action_gives|apply enum_gives|apply legacy_protocol_gives|apply transport_gives
                       |apply transport_result_gives|apply member_name].
Qed.

(** ** One field *)

Lemma normalized_runtime_value_Ok field v source :
  exists w e, normalized_runtime_value field v source = Ok (w, e) /\
    match w with Some x => canonical_value field x | None => True end /\
    (e = [] -> match v with
               | Some x => exists y, w = Some y /\ normalize_semantic_value field x = Ok y
               | None => w = None
               end).
Proof.
  unfold normalized_runtime_value. destruct v as [v|]; [|by eexists _, _].
  pose proof (normalize_gives field v) as G. destruct (normalize_semantic_value field v) as [w|[]]; try done.
  - eexists _, _. split; [done|]. split; [done|]. intros _. by exists w.
  - eexists _, _. split; [done|]. by split.
Qed.

(** What a source says of a field: its canonical form, and no unsupported claim. *)
Definition says (field : string) (reported : option pyval) (value : pyval) : Prop :=
  forall x, reported = Some x -> exists w, normalize_semantic_value field x = Ok w /\ py_eq value w = true /\
    (In field TRANSPORT_CLAIM_FIELDS -> w = PNone -> _empty_runtime_value x = true).

Lemma canonical_eq_refl field v : canonical_value field v -> py_eq v v = true.
Proof.
  intros [->|H]; [done|]. destruct (class_of field); cbn [of_class] in H;
    repeat match goal with H : _ \/ _ |- _ => destruct H end;
    repeat match goal with H : exists _, _ |- _ => destruct H end; intuition subst; cbn;
    try apply String.eqb_refl; apply Qeq_bool_iff; reflexivity.
Qed.

Lemma no_claim_error field source x w : invalid_transport_claim_error field source (Some x) (Some w) = [] ->
  In field TRANSPORT_CLAIM_FIELDS -> w = PNone -> _empty_runtime_value x = true.
Proof.
  unfold invalid_transport_claim_error. intros H Hin ->. apply str_in_In in Hin. rewrite Hin in H.
  cbn [negb] in H. by destruct (_empty_runtime_value x).
Qed.

Definition event_value (event : option pydict) (field : string) : option pyval :=
  match event with Some e => dict_find field e | None => None end.

Lemma semantic_field_value_Ok raw event field :
  exists v e, semantic_field_value raw event field = Ok (v, e) /\ canonical_value field v /\
    (e = [] -> says field (raw_semantic_value raw field) v /\ says field (event_value event field) v).
Proof.
  unfold semantic_field_value. fold (event_value event field).
  destruct (normalized_runtime_value_Ok field (raw_semantic_value raw field) "raw") as (r & e1 & -> & C1 & N1).
  destruct (normalized_runtime_value_Ok field (event_value event field) "event") as (o & e2 & -> & C2 & N2).
  assert (S : forall v, (match r with Some x => py_eq v x = true | None => True end) ->
    (match o with Some x => py_eq v x = true | None => True end) ->
    e1 ++ e2 ++ invalid_transport_claim_error field "raw" (raw_semantic_value raw field) r
       ++ invalid_transport_claim_error field "event" (event_value event field) o = [] ->
    says field (raw_semantic_value raw field) v /\ says field (event_value event field) v).
  { intros v V1 V2 H. rewrite !app_nil in H. destruct H as (H1 & H2 & H3 & H4). specialize (N1 H1). specialize (N2 H2).
    split; intros x Hx; rewrite Hx in *; [destruct N1 as (y & -> & Hy)|destruct N2 as (y & -> & Hy)]; exists y;
      (split; [done|]); (split; [done|]); by eapply no_claim_error. }
  destruct r as [r|], o as [o|]; eexists _, _; (split; [reflexivity|]); (split; [first [done|by left]|]); intros H.
  - apply app_nil in H as [H Hd]. apply S; [by apply (canonical_eq_refl field)| |done]. by destruct (py_eq r o).
  - apply S; [by apply (canonical_eq_refl field)|done|done].
  - apply S; [done|by apply (canonical_eq_refl field)|done].
  - by apply S.
Qed.

(** ** All fields *)

Lemma keyed_fields (g : string -> res (pyval * list string)) names :
  (forall f, In f names -> exists v e, g f = Ok (v, e)) ->
  exists out, mapM (fun f => let* (v, e) := g f in Ok (PStr f, v, e)) names = Ok out /\
    map fst (map fst out) = map PStr names /\
    forall f, In f names -> exists v e, g f = Ok (v, e) /\ dict_find f (map fst out) = Some v /\
                                        incl e (concat (map snd out)).
Proof.
  induction names as [|n names IH]; intros H; cbn [mapM]; [by exists []|].
  destruct (H n) as (v & e & E); [by left|]. rewrite E.
  destruct IH as (out & -> & Hk & Hf); [by intros f Hin; apply H; right|].
  eexists. split; [reflexivity|]. split; [cbn [map fst]; by rewrite Hk|].
  intros f Hin. cbn [map fst snd dict_find eq_str concat]. destruct (String.eqb_spec n f) as [->|Hne].
  - exists v, e. split; [done|]. split; [done|]. by apply incl_appl, incl_refl.
  - destruct Hin as [|Hin]; [done|]. destruct (Hf f Hin) as (w & e' & Hg & Hd & Hi). exists w, e'.
    split; [done|]. split; [done|]. by apply incl_appr.
Qed.

(** Where a field is observed: in the witness of a paired case unless it belongs to
    the barrier, in the event otherwise. *)
Definition observed_in (matching_event witness : option pydict) (field : string) : option pydict :=
  match witness with
  | Some w => if str_in field FIRST_BYTE_BARRIER_FIELDS then matching_event else Some w
  | None => matching_event
  end.

(** A QUIC transport of the case. *)
Definition over_quic (values : pydict) : Prop :=
  effective_downstream values = PStr "h3" \/ dict_get "transport" values = PStr "quic_udp".

(** The connection identifier is the digest of one. *)
Definition hashed_identifier (v : pyval) : Prop :=
  exists hex, v = PStr ("sha256:" +:+ hex) /\ (16 <= String.length hex <= 64)%nat /\
              Forall (fun c => is_hex_lower c = true) (S2L hex).

Lemma RLits_lang l m : re_lang (RLits l) m -> m = l.
Proof.
  revert m. induction l as [|c l IH]; intros m H; cbn [RLits] in H; [by inversion H|].
  apply lang_cat_inv in H as (x & y & -> & Hx & Hy). inversion Hx; subst.
  match goal with H : Ascii.eqb _ _ = true |- _ => apply Ascii.eqb_eq in H; subst end. cbn [app]. f_equal. by apply IH.
Qed.

Lemma hashed_spec v : is_hashed_connection_id v = true -> hashed_identifier v.
Proof.
  unfold is_hashed_connection_id. destruct v; try done. unfold fullmatch_str. intros H.
  apply fullmatch_correct in H; [|done]. apply lang_cat_inv in H as (x & y & E & Hx & Hy).
  apply RLits_lang in Hx as ->. apply (rep_cls_lang _ 16 (Some 64%nat)) in Hy as (Hc & Hlo & Hhi); [|lia].
  exists (L2S y). split; [|split; [|by rewrite S2L_L2S]].
  - f_equal. apply S2L_inj. by rewrite S2L_app, S2L_L2S.
  - rewrite <- S2L_length, S2L_L2S. lia.
Qed.

Lemma dict_set_keys k v d : is_Some (dict_find k d) -> map fst (dict_set k v d) = map fst d.
Proof.
  intros [w H]. induction d as [|[k' x] d IH]; [done|]. cbn [dict_set dict_find map fst] in *.
  destruct (eq_str k' k); [done|]. cbn [map fst]. by rewrite IH.
Qed.

Lemma reject_raw_spec values errors values' errors' :
  reject_raw_quic_connection_id values errors = (values', errors') ->
  incl errors errors' /\ (errors' = [] -> values' = values) /\
  (forall f, f <> "connection_id" -> dict_find f values' = dict_find f values) /\
  (dict_find "connection_id" values' = dict_find "connection_id" values \/
   dict_find "connection_id" values' = Some PNone) /\
  (over_quic values' -> dict_get "connection_id" values' = PNone \/ hashed_identifier (dict_get "connection_id" values')).
Proof.
  unfold reject_raw_quic_connection_id, over_quic.
  assert (Q : negb (eq_str (effective_downstream values) "h3") && negb (eq_str (dict_get "transport" values) "quic_udp") = true ->
    ~ (effective_downstream values = PStr "h3" \/ dict_get "transport" values = PStr "quic_udp")).
  { rewrite andb_true_iff, !negb_true_iff. intros [H1 H2] [H|H]; by rewrite H in *. }
  destruct (_ && _) eqn:E1.
  { intros [= <- <-]. split; [apply incl_refl|]. split; [done|]. split; [done|]. split; [by left|].
    intros H. by apply Q in H. }
  destruct (negb (is_none (dict_get "connection_id" values)) && _) eqn:E2; intros [= <- <-].
  - split; [by apply incl_appl, incl_refl|]. split; [by destruct errors|].
    assert (F : forall f, dict_find f (dict_set "connection_id" PNone values)
                          = if String.eqb "connection_id" f then Some PNone else dict_find f values).
    { intros f. by rewrite dict_find_set. }
    split; [|split; [by right; rewrite F|left; unfold dict_get, dict_get_or; by rewrite F]].
    intros f Hf. rewrite F. by destruct (String.eqb_spec "connection_id" f) as [<-|].
  - split; [apply incl_refl|]. split; [done|]. split; [done|]. split; [by left|]. intros _. apply andb_false_iff in E2 as [E2|E2].
    + left. destruct (dict_get "connection_id" values); done.
    + right. apply hashed_spec. by destruct (is_hashed_connection_id _).
Qed.

(** The projection always returns, field by field. *)
Lemma semantic_projection raw matching_event witness :
  exists values errors, semantic_runtime_fields raw matching_event witness = Ok (values, errors) /\
    map fst values = map PStr PHASE4_SEMANTIC_FIELDS /\
    (forall f, In f PHASE4_SEMANTIC_FIELDS -> exists v, dict_find f values = Some v /\ canonical_value f v) /\
    (over_quic values -> dict_get "connection_id" values = PNone \/
                         hashed_identifier (dict_get "connection_id" values)) /\
    (errors = [] -> forall f, In f PHASE4_SEMANTIC_FIELDS ->
       says f (raw_semantic_value raw f) (dict_get f values) /\
       says f (event_value (observed_in matching_event witness f) f) (dict_get f values)).
Proof.
  unfold semantic_runtime_fields.
  destruct (keyed_fields (fun f => semantic_field_value raw (observed_in matching_event witness f) f)
    PHASE4_SEMANTIC_FIELDS) as (out & E & Hk & Hf).
  { intros f _. destruct (semantic_field_value_Ok raw (observed_in matching_event witness f) f) as (v & e & H & _).
    by exists v, e. }
  unfold observed_in in E. rewrite E. clear E.
  destruct (reject_raw_quic_connection_id (map fst out) (concat (map snd out))) as [values errors] eqn:Er.
  destruct (reject_raw_spec _ _ _ _ Er) as (Hi & He & Hother & Hid & Hq). exists values, errors.
  split; [first [reflexivity|by rewrite Er]|]. split; [|split; [|split; [exact Hq|]]].
  - rewrite <- Hk. unfold reject_raw_quic_connection_id in Er. destruct (_ && _); [by injection Er as <- _|].
    destruct (_ && _); [|by injection Er as <- _]. injection Er as <- _. apply dict_set_keys.
    destruct (Hf "connection_id") as (v & e & _ & Hd & _); [apply str_in_In; reflexivity|]. by exists v.
  - intros f Hin. destruct (Hf f Hin) as (v & e & Hg & Hd & _).
    destruct (semantic_field_value_Ok raw (observed_in matching_event witness f) f) as (v' & e' & H & Hc & _).
    assert (v' = v) as -> by congruence.
    destruct (String.eqb_spec f "connection_id") as [->|Hne].
    + destruct Hid as [->| ->]; [by exists v|]. exists PNone. split; [done|]. by left.
    + rewrite Hother by done. by exists v.
  - intros -> f Hin. rewrite He by done. destruct (Hf f Hin) as (v & e & Hg & Hd & Hincl).
    destruct (semantic_field_value_Ok raw (observed_in matching_event witness f) f) as (v' & e' & H & _ & Hs).
    assert (v' = v /\ e' = e) as [-> ->] by (split; congruence).
    unfold dict_get, dict_get_or. rewrite Hd. apply Hs. destruct e as [|x e]; [done|].
    exfalso. apply (Hi x). apply Hincl. by left.
Qed.

(** C27: the runtime evidence of a record is canonical: whatever the raw record and
    the events hold, the projection returns a value for every semantic field, [None]
    or a member of the field's closed class; a case over QUIC keeps no connection
    identifier but a digest; and when no error is reported the record and the event
    observed for each field say the value that was kept. *)
Theorem semantic_fields_canonical raw matching_event witness :
  exists values errors, semantic_runtime_fields raw matching_event witness = Ok (values, errors) /\
    map fst values = map PStr PHASE4_SEMANTIC_FIELDS /\
    (forall f, In f PHASE4_SEMANTIC_FIELDS -> exists v, dict_find f values = Some v /\ canonical_value f v) /\
    (over_quic values -> dict_get "connection_id" values = PNone \/
                         hashed_identifier (dict_get "connection_id" values)) /\
    (errors = [] -> forall f, In f PHASE4_SEMANTIC_FIELDS ->
       says f (raw_semantic_value raw f) (dict_get f values) /\
       says f (event_value (observed_in matching_event witness f) f) (dict_get f values)).
Proof. apply semantic_projection. Qed.
