(* ===== verification/CanonicalEvent.v ===== *)
(** * Canonical events (no_crs_baseline.py)

    The metadata of a host event: rule and transaction identifiers, the phase, and
    the checks an event of the canonical log must pass.  The checked-in event schema
    is a parameter; [fuel] bounds the expansion of its references. *)

From S2P Require Export Semantics JsonSchema.
From Stdlib Require Import QArith.
#[global] Open Scope Z_scope.

(** ** Accumulated errors *)

(** Statements that append to one list of errors, in order; an exception ends them. *)
Definition in_order (l : list (res (list string))) : res (list string) :=
  let* ls := mapM (fun r => r) l in Ok (concat ls).

(** [if b: errors.append(message)] *)
Definition add_error (b : bool) (message : string) : res (list string) := Ok (if b then [message] else []).

(** ** Values of an event *)

(** [int(value)], when it does not raise. *)
Definition py_int (v : pyval) : option Z :=
  match v with
  | PBool b => Some (if b then 1 else 0)
  | PInt z => Some z
  | PFloat q _ => Some (Z.quot (Qnum q) (Zpos (Qden q)))
  | PStr s => py_int_text s
  | _ => None
  end.

(** The names of the fields of a value, with repetitions. *)
Fixpoint event_field_names (v : pyval) (prefix : string) : list string :=
  match v with
  | PDict d =>
      (fix each (d : pydict) : list string :=
         match d with
         | [] => []
         | (key, nested) :: r =>
             let key_text := py_str key in
             let nested_prefix := if String.eqb prefix "" then key_text else prefix +:+ "." +:+ key_text in
             key_text :: py_lower key_text :: nested_prefix :: event_field_names nested nested_prefix ++ each r
         end) d
  | PList l =>
      (fix each (l : list pyval) : list string :=
         match l with [] => [] | item :: r => event_field_names item prefix ++ each r end) l
  | _ => []
  end.
(** A set of names in its sorted order. *)
Definition sorted_names (l : list string) : list string := sort_strs (dedup String.eqb l).

Fixpoint recursive_values (v : pyval) (names : list string) : list pyval :=
  match v with
  | PDict d =>
      (fix each (d : pydict) : list pyval :=
         match d with
         | [] => []
         | (key, nested) :: r =>
             (if str_in (py_lower (py_str key)) names then [nested] else [])
             ++ recursive_values nested names ++ each r
         end) d
  | PList l =>
      (fix each (l : list pyval) : list pyval :=
         match l with [] => [] | item :: r => recursive_values item names ++ each r end) l
  | _ => []
  end.

(** The rule identifiers of the baseline's range, once each. *)
Definition rule_identifier (v : pyval) : list Z :=
  match py_int v with
  | Some z => if (1100001 <=? z) && (z <=? 1100999) then [z] else []
  | None => []
  end.
Definition event_rule_ids (event : pydict) : list Z :=
  dedup Z.eqb
    (concat (map (fun v => concat (map rule_identifier (match v with PList l => l | _ => [v] end)))
       (recursive_values (PDict event) ["rule_id"; "ruleid"; "id"]))).

(** [str(value)] for the values whose text is not blank. *)
Definition nonblank (l : list pyval) : list string :=
  List.filter (fun s => negb (String.eqb (py_strip s) "")) (map py_str l).
Definition event_transaction_ids (event : pydict) : list string :=
  nonblank (recursive_values (PDict event) ["transaction_id"; "transactionid"; "tx_id"; "txid"]).

Definition supplied_transaction_ids (raw : pydict) : list string :=
  sorted_names
    (match dict_get "transaction_ids" raw with PList l => nonblank l | _ => [] end
     ++ concat (map (fun key => let v := dict_get key raw in
                                if String.eqb (py_strip (text_of v)) "" then [] else [py_str v])
                  ["transaction_id"; "tx_id"])).

(** ** Phases *)

Definition COMMON_PHASE_TO_CANONICAL (label : string) : option Z :=
  if String.eqb label "connection" then Some 0
  else if str_in label ["uri"; "request_headers"] then Some 1
  else if String.eqb label "request_body" then Some 2
  else if String.eqb label "response_headers" then Some 3
  else if String.eqb label "response_body" then Some 4
  else if String.eqb label "logging" then Some 5
  else None.
Definition CANONICAL_PHASES : list Z := [0; 1; 2; 3; 4; 5].

Definition normalize_canonical_phase (v : pyval) : option Z :=
  match v with
  | PInt z => if Z_in z CANONICAL_PHASES then Some z else None
  | PStr s =>
      let normalized := py_lower (py_strip s) in
      match COMMON_PHASE_TO_CANONICAL normalized with
      | Some z => Some z
      | None => List.find (fun z => String.eqb (dec z) normalized) CANONICAL_PHASES
      end
  | _ => None
  end.
Definition phase_is_four (v : pyval) : bool :=
  match normalize_canonical_phase v with Some z => z =? 4 | None => false end.

(** ** Forbidden content *)

Definition FORBIDDEN_EVENT_KEYS : list string :=
  ["access_token"; "api_key"; "authorization"; "body"; "body_content"; "proxy_authorization"; "cookie"; "set_cookie";
   "password"; "passwd"; "secret"; "request_body"; "response_body"; "raw_body"; "body_payload"; "body_snippet";
   "blocked_body_marker"; "intervention_log"; "matched_value"; "rule_message"; "request_body_marker";
   "request_content"; "refresh_token"; "response_body_marker"; "response_content"; "payload"].
Definition BODY_METADATA_KEYS : list string :=
  ["body_bytes"; "body_bytes_seen"; "body_bytes_inspected"; "body_hash"; "body_length"; "body_size"; "content_type";
   "request_body_size"; "response_body_size"; "truncated"].
Definition BODY_SENTINELS : list string := ["no-crs-request-body-marker"; "no-crs-response-body-marker"].

Definition forbidden_string_payload_errors (s location : string) : list string :=
  map (fun _ => location +:+ ": body payload sentinel is present")
    (List.filter (fun sentinel => contains sentinel (py_lower s)) BODY_SENTINELS).

Definition forbidden_event_key (key : pyval) : bool :=
  let normalized := token_text key in
  str_in normalized FORBIDDEN_EVENT_KEYS && negb (str_in normalized BODY_METADATA_KEYS).

Fixpoint forbidden_payload_errors (v : pyval) (location : string) : list string :=
  match v with
  | PDict d =>
      (fix each (d : pydict) : list string :=
         match d with
         | [] => []
         | (key, nested) :: r =>
             let child := location +:+ "." +:+ py_str key in
             (if forbidden_event_key key then [child +:+ ": forbidden payload/secret field"] else [])
             ++ forbidden_payload_errors nested child ++ each r
         end) d
  | PList l =>
      (fix each (index : Z) (l : list pyval) : list string :=
         match l with
         | [] => []
         | item :: r => forbidden_payload_errors item (location +:+ "[" +:+ dec index +:+ "]") ++ each (index + 1) r
         end) 0 l
  | PStr s => forbidden_string_payload_errors s location
  | _ => []
  end.

(** ** Protocol provenance of an event *)

Definition EVENT_PROTOCOL_NORMALIZATION_FIELDS : list string :=
  ["transport_protocol"; "requested_protocol"; "downstream_protocol"; "upstream_protocol"; "negotiated_protocol";
   "transport"; "alpn"; "stream_id"; "transport_case_id"; "barrier_id"; "connection_id";
   "quic_connection_id_present"; "quic_version"; "fallback_used"; "stream_reset"; "stream_reset_code";
   "connection_reused"; "client_disconnected"; "upstream_disconnected"; "cancelled"; "reset_by"; "reset_code";
   "timeout_stage"; "write_result"; "eos_seen"; "cleanup_reason"].

(** The value kept for one field, and its errors. *)
Definition event_protocol_value (event : pydict) (location field : string) : res (pydict * list string) :=
  match dict_find field event with
  | None => Ok ([], [])
  | Some v =>
      match normalize_semantic_value field v with
      | Ok w => Ok ([(PStr field, w)],
                    if str_in field TRANSPORT_CLAIM_FIELDS && negb (_empty_runtime_value v) && is_none w
                    then [location +:+ "." +:+ field +:+ ": unsupported transport provenance"] else [])
      | Err (ContractError _) => Ok ([], [location +:+ "." +:+ field +:+ ": invalid transport provenance"])
      | Err e => Err e
      end
  end.
Definition normalized_event_protocol_values (event : pydict) (location : string) : res (pydict * list string) :=
  let* fields := mapM (event_protocol_value event location) EVENT_PROTOCOL_NORMALIZATION_FIELDS in
  Ok (concat (map fst fields), concat (map snd fields)).

Definition MODERN_PROTOCOLS : list string := ["h2"; "h2c"; "h3"].

Definition canonical_event_transport_errors (values : pydict) (location : string) : list string :=
  let effective := effective_downstream values in
  let connection_id := dict_get "connection_id" values in
  (if (eq_str effective "h3" || eq_str (dict_get "transport" values) "quic_udp")
      && negb (is_none connection_id) && negb (is_hashed_connection_id connection_id)
   then [location +:+ ".connection_id: raw QUIC connection identifiers are forbidden"] else [])
  ++ (if is_true (dict_get "stream_reset" values) && negb (in_strs effective MODERN_PROTOCOLS)
      then [location +:+ ".stream_reset: requires h2, h2c, or h3 downstream protocol"] else []).

Definition canonical_event_protocol_errors (event : pydict) (location : string) : res (list string) :=
  let* (values, errors) := normalized_event_protocol_values event location in
  Ok (errors ++ canonical_event_transport_errors values location).

Definition canonical_event_phase_errors (event : pydict) (location : string) : list string :=
  match dict_find "phase" event with
  | Some v => match normalize_canonical_phase v with
              | None => [location +:+ ".phase: unsupported Common/canonical phase"]
              | Some _ => []
              end
  | None => []
  end.

Definition canonical_event_phase4_identity_errors (event : pydict) (location : string) : list string :=
  if negb (phase_is_four (dict_get "phase" event)) then []
  else concat (map (fun field =>
         match dict_get field event with
         | PStr s => if String.eqb (py_strip s) ""
                     then [location +:+ "." +:+ field +:+ ": phase-4 events require a non-empty string"] else []
         | _ => [location +:+ "." +:+ field +:+ ": phase-4 events require a non-empty string"]
         end) ["event"; "message_id"]).

(** [connector] and [integration_mode] are checked unless they are [None] or empty. *)
Definition context_error (event : pydict) (location field label : string) (expected : option string) : list string :=
  match expected with
  | Some s => if negb (String.eqb s "") && negb (eq_str (dict_get field event) s)
              then [location +:+ "." +:+ field +:+ ": " +:+ py_repr (dict_get field event) +:+ label +:+ repr_str s]
              else []
  | None => []
  end.
Definition canonical_event_context_errors (event : pydict) (location : string) (connector integration_mode : option string)
    : list string :=
  context_error event location "connector" " does not match " connector
  ++ context_error event location "integration_mode" " does not match selected " integration_mode.

Section Events.
Variables (event_schema : pyval) (fuel : nat).

Definition canonical_event_errors (event : pyval) (location : string) (connector integration_mode : option string)
    : res (list string) :=
  match event_schema with
  | PDict schema =>
      let* schema_errors := json_schema_errors fuel event schema (Some schema) location in
      let errors := schema_errors ++ forbidden_payload_errors event location in
      match event with
      | PDict e =>
          let* protocol_errors := canonical_event_protocol_errors e location in
          Ok (errors ++ protocol_errors ++ canonical_event_phase_errors e location
              ++ canonical_event_phase4_identity_errors e location
              ++ canonical_event_context_errors e location connector integration_mode)
      | _ => Ok errors
      end
  | _ => Ok [location +:+ ": checked-in event schema must contain an object"]
  end.
End Events.
