(* ===== verification/FirstByte.v ===== *)
(** * Which event a case is judged by (no_crs_baseline.py)

    The event of a case among the events of a run, and the pair of events of a
    first-byte case: the barrier the client saw before the end of the response, and
    the later rule decision.  The catalog is the validated payload of [load_catalog]. *)

From S2P Require Export CanonicalEvent.
From Stdlib Require Import QArith.
#[global] Open Scope Z_scope.

(** [str(value or "")] of a field. *)
Definition field_text (field : string) (d : pydict) : string := text_of (dict_get field d).
(** [str(value or "") or None] *)
Definition some_text (s : string) : option string := if String.eqb s "" then None else Some s.

(** ** Outcomes of phase-4 events *)

(** A non-Boolean integer. *)
Definition whole (v : pyval) : option Z := match v with PInt z => Some z | _ => None end.

Definition has_valid_first_byte_measurements (event : pydict) : bool :=
  match whole (dict_get "first_chunk_size" event), whole (dict_get "body_bytes_seen" event),
        whole (dict_get "body_bytes_inspected" event) with
  | Some chunk, Some seen, Some inspected =>
      negb ((chunk <? 1) || (seen <? 0) || (inspected <? 0)) && (inspected <=? seen)
  | _, _, _ => false
  end.

Definition is_flag (expected : bool) (v : pyval) : bool := if expected then is_true v else is_false v.
Definition has_first_byte_barrier_flags (event : pydict) : bool :=
  forallb (fun p => is_flag (snd p) (dict_get (fst p) event))
    [("client_first_byte_received", true); ("first_byte_before_response_end", true); ("upstream_paused", true);
     ("upstream_eos_sent_at_first_byte", false); ("upstream_response_finished_at_first_byte", false);
     ("response_committed", true)].

Definition phase4_first_byte_barrier_matches (event : pydict) (require_no_full_response_buffering : bool) : bool :=
  has_valid_first_byte_measurements event && has_first_byte_barrier_flags event
  && (negb require_no_full_response_buffering || is_true (dict_get "no_full_response_buffering" event)).

Definition phase4_end_of_stream_matches (event : pydict) : bool :=
  is_true (dict_get "end_of_stream_evaluation" event) && is_true (dict_get "eos_seen" event).

(** [str(value or "").strip().lower().replace("-", "_")] *)
Definition action_text (field : string) (event : pydict) : string :=
  py_replace "-" "_" (py_lower (py_strip (field_text field event))).

Definition phase4_action_outcome_matches (event : pydict) (expected_result : string) : bool :=
  let requested := action_text "requested_action" event in
  let actual := let a := action_text "actual_action" event in
                if String.eqb a "connection_abort" then "abort_connection" else a in
  let deny := String.eqb requested "deny" in
  let mode m := eq_str (dict_get "late_intervention_mode" event) m in
  let denied_before_commit := deny && String.eqb actual "deny" && is_false (dict_get "headers_sent" event) in
  let log_only := deny && String.eqb actual "log_only" && is_true (dict_get "late_intervention" event) in
  let connection_aborted := deny && str_in actual ["abort_connection"; "stream_reset"]
    && (is_true (dict_get "connection_aborted" event) || is_true (dict_get "stream_reset" event)) in
  if str_in expected_result ["deny_before_commit"; "legacy_phase4_deny_before_commit"] then denied_before_commit
  else if String.eqb expected_result "late_intervention_log_only" then log_only
  else if String.eqb expected_result "late_intervention_log_only_minimal" then log_only && mode "minimal"
  else if String.eqb expected_result "late_intervention_log_only_safe" then log_only && mode "safe"
  else if String.eqb expected_result "connection_aborted" then connection_aborted
  else if String.eqb expected_result "connection_aborted_strict" then connection_aborted && mode "strict"
  else if String.eqb expected_result "event_contains_late_intervention_action"
  then deny && str_in actual ["deny"; "log_only"; "abort_connection"]
  else false.

Definition phase4_event_matches_outcome (event : pydict) (expected_result : string) : bool :=
  if negb (phase_is_four (dict_get "phase" event)) then false
  else if String.eqb expected_result "end_of_stream_evaluation" then phase4_end_of_stream_matches event
  else if str_in expected_result
      ["rule_observed"; "event_contains_original_status"; "marker_split_across_chunks"; "content_type_in_scope";
       "content_type_in_scope_with_charset"; "content_type_out_of_scope"; "content_type_missing";
       "response_body_at_limit"; "response_body_over_limit"; "response_body_process_partial"; "response_body_reject"]
  then true
  else if String.eqb expected_result "no_full_response_buffering" then phase4_first_byte_barrier_matches event true
  else if String.eqb expected_result "first_byte_before_response_end" then phase4_first_byte_barrier_matches event false
  else phase4_action_outcome_matches event expected_result.

(** ** The event of a case *)

Definition events_for_rule (events : list pydict) (rule_id : option Z) : list pydict :=
  match rule_id with
  | None => events
  | Some z => List.filter (fun e => Z_in z (event_rule_ids e)) events
  end.

Definition shares (a b : list string) : bool := existsb (fun s => str_in s b) a.

Definition events_for_transactions (candidates : list pydict) (transaction_ids : list string) : list pydict :=
  let supplied := List.filter (fun s => negb (String.eqb (py_strip s) "")) transaction_ids in
  match supplied with
  | [] => candidates
  | _ => List.filter (fun e => shares supplied (event_transaction_ids e)) candidates
  end.

Definition preferred_integration_mode_events (candidates : list pydict) (integration_mode : option string) : list pydict :=
  match integration_mode with
  | Some mode =>
      if String.eqb mode "" then candidates
      else match List.filter (fun e => eq_str (dict_get "integration_mode" e) mode) candidates with
           | [] => candidates
           | matched => matched
           end
  | None => candidates
  end.

Definition PHASE4_EXPECTED_RESULTS : list string :=
  ["rule_observed"; "deny_before_commit"; "late_intervention_log_only"; "connection_aborted";
   "event_contains_original_status"; "event_contains_late_intervention_action"; "legacy_phase4_deny_before_commit";
   "marker_split_across_chunks"; "end_of_stream_evaluation"; "late_intervention_log_only_minimal";
   "late_intervention_log_only_safe"; "connection_aborted_strict"; "content_type_in_scope";
   "content_type_in_scope_with_charset"; "content_type_out_of_scope"; "content_type_missing";
   "no_full_response_buffering"; "first_byte_before_response_end"; "response_body_at_limit";
   "response_body_over_limit"; "response_body_process_partial"; "response_body_reject"].

Definition is_phase4_semantic_case (case : pydict) : bool :=
  String.eqb (field_text "phase" case) "4" && str_in (field_text "expected_result" case) PHASE4_EXPECTED_RESULTS.

Definition phase4_outcome_event (candidates : list pydict) (case : pydict) : option pydict :=
  if negb (is_phase4_semantic_case case) then None
  else List.find (fun e => phase4_event_matches_outcome e (field_text "expected_result" case)) candidates.

(** A field of class [int] or [None], normalised. *)
Definition optional_field (field : string) (d : pydict) : res (option Z) :=
  let* v := optional_int (dict_get field d) in Ok (match v with PInt z => Some z | _ => None end).
Definition opt_Z_eqb (a b : option Z) : bool :=
  match a, b with Some x, Some y => x =? y | None, None => true | _, _ => false end.

Definition confirmed_event_for_case (candidates : list pydict) (case : pydict) : res (option pydict) :=
  let* expected_status := optional_field "expected_status" case in
  let* confirmed := mapM (fun e =>
      if str_in (field_text "transport_result" e) ["http_status"; "log_only"; "connection_aborted"; "stream_reset"]
      then match expected_status with
           | None => Ok [e]
           | Some _ => let* visible := optional_field "visible_http_status" e in
                       Ok (if opt_Z_eqb visible expected_status then [e] else [])
           end
      else Ok []) candidates in
  Ok (last (concat confirmed)).

(** An empty dictionary is false in [confirmed or candidates\[0\]]. *)
Definition event_for_case (events : list pydict) (rule_id : option Z) (case : pydict) (transaction_ids : list string)
    (integration_mode : option string) : res (option pydict) :=
  match events_for_transactions (events_for_rule events rule_id) transaction_ids with
  | [] => Ok None
  | candidates =>
      let candidates := preferred_integration_mode_events candidates integration_mode in
      match phase4_outcome_event candidates case with
      | Some e => Ok (Some e)
      | None => let* confirmed := confirmed_event_for_case candidates case in
                Ok (match confirmed with Some (e :: r) => Some (e :: r) | _ => hd_error candidates end)
      end
  end.

(** ** The catalog *)

Definition dict_merge (d e : pydict) : pydict := fold_left (fun d p => put_key (fst p) (snd p) d) e d.

(** [catalog_cases]: the cases with the defaults. *)
Definition catalog_cases (catalog : pydict) : res (list pydict) :=
  match dict_get "defaults" catalog, dict_get "cases" catalog with
  | PDict defaults, PList cases =>
      Ok (concat (map (fun v => match v with PDict raw => [dict_merge defaults raw] | _ => [] end) cases))
  | _, _ => Err (ContractError "catalog requires defaults mapping and cases list")
  end.

(** [next((item for item in cases if item\["case_id"\] == case_id), None)] *)
Fixpoint catalog_case (case_id : string) (cases : list pydict) : res (option pydict) :=
  match cases with
  | [] => Ok None
  | item :: r => let* id := dict_item "case_id" item in
                 if eq_str id case_id then Ok (Some item) else catalog_case case_id r
  end.

Definition FIRST_BYTE_PAIR_CASES : list (string * string) :=
  [("phase4_first_byte_before_response_end", "first_byte_before_response_end");
   ("phase4_no_full_response_buffering", "no_full_response_buffering")].

(** ** Pairs of events *)

(** [case_event_identity_errors] *)
Definition case_event_identity_errors (case : pydict) (event : option pydict) (expected_run_id : option string)
    : list string :=
  match event with
  | None => []
  | Some e =>
      if negb (truthy (dict_get "expected_event_fields" case) || negb (is_none (dict_get "expected_rule_id" case)))
      then []
      else
        match normalize_canonical_phase (dict_get "phase" case) with
        | Some phase => match normalize_canonical_phase (dict_get "phase" e) with
                        | Some p => if p =? phase then [] else ["canonical event phase does not match case phase"]
                        | None => ["canonical event phase does not match case phase"]
                        end
        | None => []
        end
        ++ match expected_run_id with
           | Some run => if negb (String.eqb run "") && negb (is_none (dict_get "run_id" e))
                            && negb (eq_str (dict_get "run_id" e) run)
                         then ["canonical event run_id does not match case run"] else []
           | None => []
           end
  end.

(** Events with their positions. *)
Definition indexed_event := (nat * pydict)%type.
Fixpoint with_index (i : nat) (events : list pydict) : list indexed_event :=
  match events with [] => [] | e :: r => (i, e) :: with_index (S i) r end.

Definition first_byte_barrier_candidates (events : list pydict) : list indexed_event :=
  List.filter (fun p => eq_str (dict_get "event" (snd p)) "phase4_append"
                        && existsb (fun field => dict_has field (snd p))
                             (List.filter (fun f => negb (String.eqb f "response_committed")) FIRST_BYTE_BARRIER_FIELDS))
    (with_index 0 events).

(** The transaction identifiers of the event are exactly [[transaction]]. *)
Definition of_transaction (transaction : string) (event : pydict) : bool :=
  match event_transaction_ids event with [t] => String.eqb t transaction | _ => false end.

Definition first_byte_rule_candidates (events : list pydict) (transaction : string) (expected_rule : option Z)
    : list indexed_event :=
  List.filter (fun p => eq_str (dict_get "event" (snd p)) "phase4_intervention" && of_transaction transaction (snd p)
                        && match expected_rule with Some z => Z_in z (event_rule_ids (snd p)) | None => false end)
    (with_index 0 events).

Definition first_byte_has_prior_eos (events : list pydict) (transaction : string) (barrier_index : nat) : bool :=
  existsb (fun e => phase_is_four (dict_get "phase" e) && of_transaction transaction e
                    && (is_true (dict_get "eos_seen" e) || is_true (dict_get "end_of_stream_evaluation" e)))
    (take barrier_index events).

Definition first_byte_has_legacy_candidate (events : list pydict) (case : pydict) (transactions : list string)
    (integration_mode : option string) : res bool :=
  let* rule := optional_field "expected_rule_id" case in
  let* legacy := event_for_case events rule case transactions integration_mode in
  Ok (match legacy with
      | Some e => bool_decide (event_transaction_ids e = transactions)
                  && str_in "client_first_byte_received" (event_field_names (PDict e) "")
      | None => false
      end).

Definition first_byte_pair_measurement_errors (raw case barrier witness : pydict) : list string :=
  let require_no_full := eq_str (dict_get "expected_result" case) "no_full_response_buffering" in
  let over := match int_value (dict_get "body_bytes_seen" witness), int_value (dict_get "body_bytes_inspected" witness) with
              | Some seen, Some inspected => seen <? inspected
              | _, _ => false
              end in
  when_failed (negb (phase4_first_byte_barrier_matches barrier require_no_full))
    "paired first-byte barrier lacks complete causal measurements"
  ++ when_failed (negb (is_false (dict_get "eos_seen" barrier)) || negb (is_true (dict_get "eos_seen" witness)))
       "paired first-byte events require pre-EOS barrier and later EOS rule witness"
  ++ concat (map (fun field =>
       match whole (dict_get field barrier), whole (dict_get field witness) with
       | Some start, Some value =>
           when_failed (value <? start) ("paired first-byte rule witness has invalid cumulative " +:+ field)
       | _, _ => ["paired first-byte rule witness has invalid cumulative " +:+ field]
       end
       ++ match dict_find field raw with
          | Some v => when_failed (negb (py_eq v (dict_get field barrier)))
                        ("paired first-byte raw " +:+ field +:+ " does not match barrier")
          | None => []
          end) ["body_bytes_seen"; "body_bytes_inspected"])
  ++ when_failed over "paired first-byte rule witness inspected bytes exceed seen bytes".

(** [a or b] *)
Definition py_or (a b : pyval) : pyval := if truthy a then a else b.
Definition opt_text (o : option string) : pyval := match o with Some s => PStr s | None => PNone end.
Definition as_text (v : pyval) : option string := match v with PStr s => Some s | _ => None end.

Section FirstByte.
Variables (event_schema : pyval) (fuel : nat) (catalog : pydict).

Definition first_byte_record_catalog_contract (record : pydict) : res (option pydict * list string) :=
  let case_id := field_text "case_id" record in
  let pair := alias_of case_id FIRST_BYTE_PAIR_CASES in
  let claims_pair := match pair with Some _ => true | None => false end
                     || in_strs (dict_get "expected_result" record) (map snd FIRST_BYTE_PAIR_CASES)
                     || eq_str (dict_get "group" record) "full-lifecycle-no-buffer" in
  if negb claims_pair then Ok (None, [])
  else
    let* cases := catalog_cases catalog in
    let* case := catalog_case case_id cases in
    match case, pair with
    | Some case, Some _ =>
        Ok (Some case,
            concat (map (fun field => when_failed (negb (py_eq (dict_get field record) (dict_get field case)))
                           ("paired first-byte record " +:+ field +:+ " does not match catalog contract"))
                      ["phase"; "group"; "expected_result"; "expected_rule_id"; "expected_event_fields"]))
    | _, _ => Ok (None, ["paired first-byte record case_id does not match the closed catalog contract"])
    end.

Definition first_byte_pair_identity_errors (raw case barrier witness : pydict) (connector : string)
    (integration_mode : option string) : res (list string) :=
  let mode := py_or (py_or (opt_text integration_mode) (dict_get "integration_mode" raw))
                (dict_get "integration_mode" barrier) in
  let expected_run := some_text (field_text "run_id" raw) in
  let barrier_run := dict_get "run_id" barrier in
  let witness_run := dict_get "run_id" witness in
  in_order
    ([add_error (negb (truthy mode) || negb (py_eq (dict_get "integration_mode" barrier) mode)
            || negb (py_eq (dict_get "integration_mode" witness) mode))
        "paired first-byte events have incompatible integration profile"]
     ++ concat (map (fun p : string * pydict =>
          [canonical_event_errors event_schema fuel (PDict (snd p)) ("first-byte " +:+ fst p) (Some connector) (as_text mode);
           Ok (case_event_identity_errors case (Some (snd p)) expected_run)])
          [("barrier", barrier); ("rule witness", witness)])
     ++ [add_error (negb (is_none barrier_run) && negb (is_none witness_run) && negb (py_eq barrier_run witness_run))
           "paired first-byte events have different run_id"]).

Definition first_byte_case_event_pair (raw case : pydict) (events : list pydict) (connector : string)
    (integration_mode : option string) : res (option pydict * option pydict * list string) :=
  if match alias_of (field_text "case_id" case) FIRST_BYTE_PAIR_CASES with
     | Some r => negb (eq_str (dict_get "expected_result" case) r)
     | None => negb (is_none (dict_get "expected_result" case))
     end then Ok (None, None, [])
  else
    match first_byte_barrier_candidates events with
    | [] => Ok (None, None, [])
    | barriers =>
      let mode := py_or (opt_text integration_mode) (dict_get "integration_mode" raw) in
      if negb (String.eqb connector "nginx") || negb (eq_str mode "native-nginx-http-module")
      then Ok (None, None, ["paired first-byte proof requires the native NGINX integration profile"])
      else
        match supplied_transaction_ids raw with
        | [transaction] =>
          let matching := List.filter (fun p => of_transaction transaction (snd p)) barriers in
          let* legacy := match matching with
                         | [] => first_byte_has_legacy_candidate events case [transaction] integration_mode
                         | _ => Ok false
                         end in
          if legacy : bool then Ok (None, None, [])
          else
            match matching with
            | [(barrier_index, barrier)] =>
              let* expected_rule := optional_field "expected_rule_id" case in
              match first_byte_rule_candidates events transaction expected_rule with
              | [(witness_index, witness)] =>
                let* errors := in_order
                  [first_byte_pair_identity_errors raw case barrier witness connector integration_mode;
                   add_error (match event_rule_ids barrier with [] => false | _ => true end)
                     "paired first-byte append must not claim the later intervention rule";
                   add_error (Nat.leb witness_index barrier_index)
                     "paired first-byte rule witness must follow the barrier";
                   add_error (first_byte_has_prior_eos events transaction barrier_index)
                     "paired first-byte barrier follows a prior same-transaction EOS observation";
                   Ok (first_byte_pair_measurement_errors raw case barrier witness)] in
                Ok (Some barrier, Some witness, errors)
              | _ => Ok (Some barrier, None, ["paired first-byte proof requires one unambiguous expected-rule witness"])
              end
            | _ => Ok (None, None,
                       ["paired first-byte proof requires one unambiguous matching barrier transaction"])
            end
        | _ => Ok (None, None, ["paired first-byte proof requires one supplied invocation transaction"])
        end
    end.

Definition dict_or (a : option pydict) (b : pydict) : pydict :=
  match a with Some (e :: r) => e :: r | _ => b end.

Definition first_byte_pass_event_context (record : pydict) (matching_event : option pydict) (events : list pydict)
    (integration_mode : option string) : res (option pydict * option pydict * list string) :=
  let* (catalog_case, errors) := first_byte_record_catalog_contract record in
  let* (barrier, witness, pair_errors) :=
    first_byte_case_event_pair record (dict_or catalog_case record) events (field_text "connector" record)
      integration_mode in
  let matching_event := match barrier with Some b => Some b | None => matching_event end in
  let* witness_errors :=
    match witness with
    | Some w =>
        let* (_, semantic_errors) := semantic_runtime_fields record matching_event (Some w) in
        let observed := match matching_event with
                        | Some e => event_field_names (PDict e) "" | None => [] end ++ event_field_names (PDict w) "" in
        Ok (semantic_errors
            ++ when_failed (negb (py_eq (dict_get "observed_event_fields" record)
                                    (PList (map PStr (sorted_names observed)))))
                 "paired first-byte observed_event_fields do not match original event union"
            ++ when_failed (negb (py_eq (dict_get "observed_rule_ids" record)
                                    (PList (map PInt (sort_Z (event_rule_ids w))))))
                 "paired first-byte observed_rule_ids do not match original rule witness")
    | None => Ok []
    end in
  Ok (matching_event, witness, errors ++ pair_errors ++ witness_errors).
End FirstByte.
