(* ===== verification/PassProtocol.v ===== *)
(** * Protocol provenance of a PASS (no_crs_baseline.py)

    [protocol_pass_errors]: what a record that claims HTTP/2 or HTTP/3 must share
    with its event.  The list of errors the code appends to is the concatenation of
    what the statements report; the sentinel [_MISSING] is [None]. *)

From S2P Require Export FirstByte.
From Stdlib Require Import QArith.
#[global] Open Scope Z_scope.

(** A claim of the record; a false flag is none. *)
Definition claimed_value (v : pyval) : bool := match v with PBool b => b | _ => negb (none_or_empty v) end.
Definition protocol_claimed (record : pydict) : bool :=
  existsb (fun field => claimed_value (dict_get field record)) PROTOCOL_CLAIM_FIELDS.

Definition case_protocol_profile (case : pydict) : res (option string) :=
  match dict_get "request" case with
  | PDict request =>
      match dict_find "protocol_profile" request with
      | Some v => match normalize_protocol v with
                  | PStr s => Ok (Some s)
                  | _ => Err (ContractError ("invalid case protocol_profile: " +:+ py_repr v))
                  end
      | None => Ok None
      end
  | _ => Ok None
  end.

Definition event_mismatch (field : string) : string := "case result " +:+ field +:+ " does not match canonical event".
Definition unexpected (field : string) (value expected : pyval) : string :=
  "canonical event " +:+ field +:+ "=" +:+ py_repr value +:+ ", expected " +:+ py_repr expected.

(** The comparison of a normalised event value with the record and with what is
    expected. *)
Definition confirm (record : pydict) (field : string) (value : pyval) (expected : option pyval) : list string :=
  when_failed (negb (py_eq (dict_get field record) value)) (event_mismatch field)
  ++ match expected with
     | Some e => when_failed (negb (py_eq value e)) (unexpected field value e)
     | None => []
     end.

Definition require_protocol_event (record event : pydict) (field : string) : res (list string) :=
  match dict_find field event with
  | None => Ok ["canonical event is missing protocol provenance " +:+ field]
  | Some v =>
      match normalize_semantic_value field v with
      | Ok PNone => Ok ["canonical event is missing protocol provenance " +:+ field]
      | Ok value => Ok (confirm record field value None)
      | Err (ContractError _) => Ok ["canonical event has invalid " +:+ field]
      | Err e => Err e
      end
  end.

(** The integers of [record.get("observed_rule_ids", \[\])]: not Booleans, and with a
    text of digits.  [int] raises on a text of digits that is not a numeral. *)
Definition digits_text (s : string) : bool :=
  py_isdigit (L2S (drop_while (fun c => Ascii.eqb c "-") (S2L (py_strip s)))).
Definition observed_integer (v : pyval) : res (list Z) :=
  if negb (is_bool v) && digits_text (py_str v)
  then match py_int v with Some z => Ok [z] | None => Err (ValueError "invalid literal for int()") end
  else Ok [].

Definition append_protocol_causal_errors (record event : pydict) : res (list string) :=
  let* transactions := iterate (dict_get_or (PList []) "transaction_ids" record) in
  let transaction_ids := nonblank transactions in
  let* expected_rule_id := optional_field "expected_rule_id" record in
  let* observed := iterate (dict_get_or (PList []) "observed_rule_ids" record) in
  let* observed_rule_ids := mapM observed_integer observed in
  let observed_rule_ids := concat observed_rule_ids in
  let event_rules := event_rule_ids event in
  Ok (when_failed (negb (py_eq (dict_get "connector" event) (dict_get "connector" record)))
        "protocol event connector does not match case result"
      ++ when_failed (match normalize_canonical_phase (dict_get "phase" record),
                            normalize_canonical_phase (dict_get "phase" event) with
                      | Some p, Some q => negb (p =? q)
                      | _, _ => true
                      end) "protocol event phase does not match case result"
      ++ match transaction_ids with
         | [] => ["protocol PASS requires a transaction_id"]
         | _ => when_failed (negb (shares transaction_ids (event_transaction_ids event)))
                  "protocol event transaction_id does not match case result"
         end
      ++ match expected_rule_id with
         | Some rule => when_failed (negb (Z_in rule event_rules)) "protocol event does not report the expected rule"
         | None => when_failed (match observed_rule_ids with [] => false | _ => true end
                                && negb (existsb (fun z => Z_in z event_rules) observed_rule_ids))
                     "protocol event rule_id does not match case result"
         end).

Definition append_protocol_action_errors (record event : pydict) : list string :=
  concat (map (fun p : string * list string => let (field, allowed) := p in
    when_failed (negb (py_eq (dict_get field record) (normalize_action (dict_get field event) allowed)))
      ("protocol event " +:+ field +:+ " does not match case result"))
    [("requested_action", REQUESTED_ACTIONS); ("actual_action", ACTUAL_ACTIONS)]).

Definition append_protocol_identity_error (event : pydict) (field : string) (value : pyval) : list string :=
  match value with
  | PNone => []
  | PStr s => if String.eqb (py_strip s) "" then ["protocol PASS requires a non-empty " +:+ field]
              else when_failed (negb (eq_str (dict_get field event) s))
                     ("protocol event " +:+ field +:+ " does not match case result")
  | _ => ["protocol PASS requires a non-empty " +:+ field]
  end.

Definition selected_protocol_identity (record : pydict) (supplied_value : option string) (field : string) : pyval :=
  match supplied_value with Some s => PStr s | None => dict_get field record end.

Record protocol_values := {
  requested : pyval; downstream : pyval; negotiated : pyval; transport : pyval; fallback_used : pyval }.
Definition protocol_record_values (record : pydict) : protocol_values :=
  {| requested := dict_get "requested_protocol" record; downstream := dict_get "downstream_protocol" record;
     negotiated := dict_get "negotiated_protocol" record; transport := dict_get "transport" record;
     fallback_used := dict_get "fallback_used" record |}.

(** The downstream protocol the case is judged by, and the errors. *)
Definition append_required_protocol_profile_errors (values : protocol_values) (required_protocol : option string)
    : option string * list string :=
  match required_protocol with
  | None => (as_text (py_or (negotiated values) (downstream values)), [])
  | Some p =>
      (Some p, concat (map (fun q : string * pyval =>
         when_failed (negb (eq_str (snd q) p)) ("case protocol_profile does not match " +:+ fst q +:+ "_protocol"))
         [("requested", requested values); ("downstream", downstream values); ("negotiated", negotiated values)]))
  end.

Definition DECLARED_FIELDS : list string :=
  ["requested_protocol"; "downstream_protocol"; "upstream_protocol"; "negotiated_protocol"; "transport"; "alpn";
   "stream_id"; "transport_case_id"; "connection_id"; "quic_connection_id_present"; "quic_version"; "fallback_used";
   "stream_reset"; "stream_reset_code"].
Definition require_declared_protocol_evidence (record event : pydict) : res (list string) :=
  in_order (map (fun field => if is_none (dict_get field record) then Ok []
                              else require_protocol_event record event field) DECLARED_FIELDS).

Definition append_requested_protocol_errors (values : protocol_values) : res (list string) :=
  let* modern := in_str_set (requested values) MODERN_PROTOCOLS in
  Ok ((if modern : bool then
         (if is_none (negotiated values) then ["protocol PASS requires negotiated_protocol"]
          else when_failed (negb (py_eq (requested values) (negotiated values)))
                 "requested_protocol does not match negotiated_protocol")
         ++ when_failed (negb (is_false (fallback_used values))) "protocol PASS requires fallback_used=false"
       else [])
      ++ when_failed (negb (is_none (downstream values)) && negb (is_none (negotiated values))
                      && negb (py_eq (downstream values) (negotiated values)))
           "downstream_protocol does not match negotiated_protocol").

Definition modern (downstream_protocol : option string) : bool :=
  match downstream_protocol with Some p => str_in p MODERN_PROTOCOLS | None => false end.

Definition append_modern_protocol_errors (record event : pydict) (downstream_protocol : option string)
    (values : protocol_values) : res (list string) :=
  match downstream_protocol with
  | Some p =>
      if negb (str_in p MODERN_PROTOCOLS) then Ok []
      else
        let* required := in_order (map (require_protocol_event record event)
          ["requested_protocol"; "downstream_protocol"; "negotiated_protocol"; "transport"; "fallback_used";
           "stream_id"; "transport_case_id"]) in
        Ok (required
            ++ when_failed (negb (eq_str (requested values) p))
                 "protocol PASS requested_protocol does not match downstream protocol"
            ++ when_failed (negb (eq_str (downstream values) p))
                 "protocol PASS downstream_protocol does not match negotiated_protocol"
            ++ when_failed (negb (is_false (fallback_used values))) "protocol PASS requires fallback_used=false"
            ++ when_failed (match whole (dict_get "stream_id" record) with None => true | Some _ => false end)
                 "H2/H3 protocol PASS requires a stream_id"
            ++ when_failed (match dict_get "transport_case_id" record with PStr s => String.eqb s "" | _ => true end)
                 "H2/H3 protocol PASS requires a transport_case_id")
  | None => Ok []
  end.

Definition append_h3_protocol_errors (record : pydict) : list string :=
  let connection_id := dict_get "connection_id" record in
  when_failed (negb (String.eqb (py_lower (field_text "alpn" record)) "h3")) "h3 protocol PASS requires alpn=h3"
  ++ when_failed (negb (is_true (dict_get "quic_connection_id_present" record)))
       "h3 protocol PASS requires quic_connection_id_present=true"
  ++ when_failed (match dict_get "quic_version" record with PStr s => String.eqb s "" | _ => true end)
       "h3 protocol PASS requires quic_version"
  ++ when_failed (negb (is_none connection_id) && negb (is_hashed_connection_id connection_id))
       "h3 protocol evidence may not persist a raw connection_id".

Definition expected_transport (downstream_protocol : option string) : option string :=
  match downstream_protocol with
  | Some p => alias_of p [("h2", "tls_tcp"); ("h2c", "tcp"); ("h3", "quic_udp")]
  | None => None
  end.
Definition is_protocol (p : string) (downstream_protocol : option string) : bool :=
  match downstream_protocol with Some q => String.eqb q p | None => false end.

Definition append_protocol_transport_errors (record : pydict) (downstream_protocol : option string) (transport : pyval)
    : list string :=
  match expected_transport downstream_protocol, downstream_protocol with
  | Some t, Some p => when_failed (negb (eq_str transport t)) (p +:+ " protocol PASS requires transport=" +:+ t)
  | _, _ => []
  end
  ++ when_failed (is_protocol "h2" downstream_protocol
                  && negb (String.eqb (py_lower (field_text "alpn" record)) "h2")) "h2 protocol PASS requires alpn=h2"
  ++ when_failed (is_protocol "h2c" downstream_protocol && negb (none_or_empty (dict_get "alpn" record)))
       "h2c protocol PASS must not claim TLS ALPN"
  ++ if is_protocol "h3" downstream_protocol then append_h3_protocol_errors record else [].

Definition append_strict_stream_reset_errors (record : pydict) (downstream_protocol : option string) : list string :=
  let stream_reset := dict_get "stream_reset" record in
  when_failed (is_true stream_reset && negb (modern downstream_protocol))
    "stream_reset is valid only for an H2/H3 downstream protocol"
  ++ if negb (String.eqb (field_text "expected_result" record) "connection_aborted_strict")
        || negb (modern downstream_protocol) then []
     else
       concat (map (fun p : string * string => let (field, expected) := p in
         when_failed (negb (eq_str (dict_get field record) expected))
           ("H2/H3 strict PASS requires " +:+ field +:+ "=" +:+ expected))
         [("requested_action", "deny"); ("actual_action", "stream_reset"); ("transport_result", "stream_reset")])
       ++ when_failed (negb (is_true stream_reset)) "H2/H3 strict PASS requires a client-observed stream_reset"
       ++ when_failed (is_none (dict_get "stream_reset_code" record)) "H2/H3 strict PASS requires stream_reset_code"
       ++ when_failed (is_true (dict_get "connection_aborted" record))
            "H2/H3 strict stream reset must not claim connection_aborted".

Definition protocol_pass_errors (record : pydict) (matching_event : option pydict)
    (expected_run_id expected_integration_mode required_protocol : option string) : res (list string) :=
  let judge :=
    if negb (protocol_claimed record) && match required_protocol with None => true | Some _ => false end then Ok []
    else
      match matching_event with
      | None => Ok ["protocol provenance requires a matching canonical event"]
      | Some event =>
          let values := protocol_record_values record in
          let (downstream_protocol, profile_errors) := append_required_protocol_profile_errors values required_protocol in
          in_order
            [append_protocol_causal_errors record event;
             Ok (append_protocol_action_errors record event);
             Ok (append_protocol_identity_error event "run_id"
                   (selected_protocol_identity record expected_run_id "run_id"));
             Ok (append_protocol_identity_error event "integration_mode"
                   (selected_protocol_identity record expected_integration_mode "integration_mode"));
             Ok profile_errors;
             require_declared_protocol_evidence record event;
             append_requested_protocol_errors values;
             append_modern_protocol_errors record event downstream_protocol values;
             Ok (append_protocol_transport_errors record downstream_protocol (transport values));
             Ok (append_strict_stream_reset_errors record downstream_protocol)]
      end in
  match required_protocol with
  | Some p => if str_in p CANONICAL_PROTOCOLS then judge
              else Ok ["unsupported required protocol profile: " +:+ repr_str p]
  | None => judge
  end.
