(* ===== verification/PassPhase4.v ===== *)
(** * Semantic evidence of a PASS (no_crs_baseline.py)

    [phase4_pass_errors] and [full_lifecycle_pass_errors] with the validator of every
    outcome, and the checks of the other cases. *)

From S2P Require Export PassProtocol.
From Stdlib Require Import QArith.
#[global] Open Scope Z_scope.

(** ** Values of the canonical event *)

Definition require_phase4_event_value (record event : pydict) (field : string) (expected : option pyval)
    : res (list string) :=
  match dict_find field event with
  | None => Ok ["canonical event is missing " +:+ field]
  | Some v => match normalize_semantic_value field v with
              | Ok value => Ok (confirm record field value expected)
              | Err (ContractError _) => Ok ["canonical event has invalid " +:+ field]
              | Err e => Err e
              end
  end.

Definition is_modern_value (v : pyval) : res bool := in_str_set v MODERN_PROTOCOLS.
Definition phase4_uses_stream_reset (record : pydict) : res bool := is_modern_value (dict_get "negotiated_protocol" record).
Definition phase4_abort_action (record : pydict) : res string :=
  let* modern := phase4_uses_stream_reset record in Ok (if modern : bool then "stream_reset" else "abort_connection").

Definition append_observable_client_status_errors (record : pydict) : res (list string) :=
  let* hidden := in_str_set (dict_get "transport_result" record) ["connection_aborted"; "not_observable"] in
  let actual_status := dict_get "actual_status" record in
  Ok (if hidden : bool then ["HTTP outcome cannot use a non-observable transport result"]
      else if is_none actual_status then ["HTTP outcome is missing an observed client status"]
      else when_failed (negb (py_eq actual_status (dict_get "visible_http_status" record)))
             "observed client status does not match visible_http_status").

Definition require_phase4_expected_status (record : pydict) : res (list string) :=
  let* expected_status := optional_int (dict_get "expected_status" record) in
  Ok (if is_none expected_status then []
      else when_failed (negb (py_eq (dict_get "actual_status" record) expected_status))
             "observed client status does not match the catalog expected status").

Definition append_abort_client_status_errors (record : pydict) : res (list string) :=
  let transport := dict_get "transport_result" record in
  let* hidden := in_str_set transport ["connection_aborted"; "not_observable"] in
  let actual_status := dict_get "actual_status" record in
  Ok (if hidden : bool then []
      else if is_none actual_status
      then when_failed (in_strs transport ["http_status"; "log_only"])
             "observable abort transport is missing an observed client status"
      else when_failed (negb (py_eq actual_status (dict_get "visible_http_status" record)))
             "observed abort status does not match visible_http_status").

(** ** The outcomes *)

Section Outcomes.
Variables (record event : pydict).
(** A field with a given value, and a field with any value. *)
Definition needs (field : string) (expected : pyval) : res (list string) :=
  require_phase4_event_value record event field (Some expected).
Definition reported (field : string) : res (list string) := require_phase4_event_value record event field None.

Definition require_phase4_status_triplet : res (list string) :=
  in_order [needs "http_status" (PInt 403); reported "original_http_status"; reported "visible_http_status"].

(** The visible status of the record is the original one. *)
Definition status_preserved (message : string) : res (list string) :=
  add_error (negb (py_eq (dict_get "visible_http_status" record) (dict_get "original_http_status" record))) message.

Definition validate_phase4_pre_commit_deny : res (list string) :=
  in_order
    [require_phase4_status_triplet; needs "requested_action" (PStr "deny"); needs "actual_action" (PStr "deny");
     needs "visible_http_status" (PInt 403); needs "headers_sent" (PBool false);
     needs "connection_aborted" (PBool false);
     add_error (is_true (dict_get "late_intervention" event)) "pre-commit deny cannot be marked as a late intervention";
     add_error (is_true (dict_get "response_committed" event)) "pre-commit deny cannot have response_committed=true";
     append_observable_client_status_errors record].

Definition validate_phase4_late_log_only (expected_mode : option string) (preservation_error : string)
    : res (list string) :=
  in_order
    ([require_phase4_status_triplet; needs "requested_action" (PStr "deny"); needs "actual_action" (PStr "log_only");
      needs "late_intervention" (PBool true)]
     ++ match expected_mode with Some m => [needs "late_intervention_mode" (PStr m)] | None => [] end
     ++ [needs "headers_sent" (PBool true); needs "connection_aborted" (PBool false);
         status_preserved preservation_error; append_observable_client_status_errors record]).

Definition validate_phase4_abort (strict : bool) : res (list string) :=
  let* action := phase4_abort_action record in
  let* resets := phase4_uses_stream_reset record in
  in_order
    ([require_phase4_status_triplet; needs "requested_action" (PStr "deny"); needs "actual_action" (PStr action);
      needs "late_intervention" (PBool true)]
     ++ (if strict then [needs "late_intervention_mode" (PStr "strict")] else [])
     ++ [needs "headers_sent" (PBool true)]
     ++ (if resets : bool then
           [needs "stream_reset" (PBool true)]
           ++ (if strict then [reported "stream_reset_code"; needs "connection_aborted" (PBool false);
                               needs "transport_result" (PStr "stream_reset")] else [])
         else [needs "connection_aborted" (PBool true)])
     ++ [status_preserved (if strict then "strict post-commit abort must preserve the already visible HTTP status"
                           else "post-commit abort must preserve the already visible HTTP status");
         append_abort_client_status_errors record]).

Definition validate_phase4_marker_split : res (list string) :=
  in_order [needs "marker_split_across_chunks" (PBool true); needs "end_of_stream_evaluation" (PBool true)].

Definition validate_phase4_end_of_stream : res (list string) :=
  in_order [needs "end_of_stream_evaluation" (PBool true); needs "body_started" (PBool true)].

Definition content_type : string := field_text "content_type" event.
Definition validate_phase4_content_type_in_scope (charset_required : bool) : res (list string) :=
  in_order
    [needs "content_type_scope" (PStr "in_scope");
     add_error (String.eqb content_type "") "in-scope response evidence is missing content_type";
     add_error (charset_required && negb (contains "charset=" (py_lower content_type)))
       "charset content-type case requires a charset parameter"].

Definition validate_phase4_content_type_out_of_scope : res (list string) :=
  in_order
    [needs "content_type_scope" (PStr "out_of_scope");
     add_error (String.eqb content_type "") "out-of-scope response evidence is missing content_type";
     require_phase4_expected_status record; append_observable_client_status_errors record].

Definition validate_phase4_content_type_missing : res (list string) :=
  in_order
    [needs "content_type_scope" (PStr "missing");
     add_error (negb (none_or_empty (dict_get "content_type" event)))
       "missing-content-type evidence must not invent content_type";
     require_phase4_expected_status record; append_observable_client_status_errors record].

Definition append_phase4_first_byte_errors (label : string) : res (list string) :=
  let size := int_value (dict_get "first_chunk_size" event) in
  let seen := int_value (dict_get "body_bytes_seen" event) in
  let inspected := int_value (dict_get "body_bytes_inspected" event) in
  in_order
    [needs "client_first_byte_received" (PBool true); needs "first_byte_before_response_end" (PBool true);
     reported "first_chunk_size";
     add_error (match size with Some n => n <? 1 | None => true end) (label +:+ " evidence requires first_chunk_size > 0");
     needs "upstream_paused" (PBool true); needs "upstream_eos_sent_at_first_byte" (PBool false);
     needs "upstream_response_finished_at_first_byte" (PBool false); needs "response_committed" (PBool true);
     add_error (match seen with None => true | _ => false end) (label +:+ " evidence requires body_bytes_seen");
     add_error (match inspected with None => true | _ => false end) (label +:+ " evidence requires body_bytes_inspected");
     add_error (match seen, inspected with Some s, Some i => s <? i | _, _ => false end)
       (label +:+ " evidence has inspected bytes above seen bytes")].

Definition validate_phase4_no_full_response_buffering : res (list string) :=
  in_order [needs "no_full_response_buffering" (PBool true); append_phase4_first_byte_errors "no-full-buffer"].
Definition validate_phase4_first_byte_before_response_end : res (list string) :=
  append_phase4_first_byte_errors "first-byte".

Definition validate_phase4_body_limit (outcome : string) : res (list string) :=
  in_order
    ([needs "body_limit_outcome" (PStr outcome)]
     ++ map (fun field => add_error (negb (dict_has field event)) ("canonical event is missing " +:+ field))
          ["body_bytes_seen"; "body_bytes_inspected"; "truncated"]
     ++ [add_error (String.eqb outcome "process_partial" && negb (is_true (dict_get "truncated" event)))
           "ProcessPartial evidence must set truncated=true";
         add_error (String.eqb outcome "reject" && negb (is_false (dict_get "truncated" event)))
           "Reject evidence must set truncated=false"]).

Definition validate_phase4_event_contains_original_status : res (list string) :=
  let visible_status := dict_get "visible_http_status" record in
  in_order
    [require_phase4_status_triplet;
     add_error (is_true (dict_get "late_intervention" event)
           && negb (py_eq visible_status (dict_get "original_http_status" record)))
       "late-intervention status metadata must preserve the visible status";
     add_error (is_false (dict_get "headers_sent" event) && negb (py_eq visible_status (dict_get "http_status" record)))
       "uncommitted response metadata must expose the WAF status"].

Definition validate_phase4_event_contains_late_intervention_action : res (list string) :=
  let actual_action := dict_get "actual_action" record in
  let late_intervention := dict_get "late_intervention" record in
  let* first := in_order [needs "requested_action" (PStr "deny"); reported "actual_action"; reported "late_intervention"] in
  let* known := in_str_set actual_action ["deny"; "log_only"; "abort_connection"; "stream_reset"] in
  Ok (first
      ++ when_failed (negb known) "phase-4 deny must resolve to deny, log_only, abort_connection, or stream_reset"
      ++ when_failed (eq_str actual_action "deny" && negb (is_false late_intervention))
           "deny action must not be marked as a late intervention"
      ++ when_failed (in_strs actual_action ["log_only"; "abort_connection"; "stream_reset"]
                      && negb (is_true late_intervention))
           "post-commit action must be marked as a late intervention"
      ++ when_failed (eq_str actual_action "abort_connection" && is_false (dict_get "connection_aborted" event))
           "abort action conflicts with connection_aborted=false"
      ++ when_failed (eq_str actual_action "stream_reset" && is_false (dict_get "stream_reset" event))
           "stream-reset action conflicts with stream_reset=false"
      ++ when_failed (in_strs actual_action ["deny"; "log_only"] && is_true (dict_get "connection_aborted" event))
           "non-abort action conflicts with connection_aborted=true").

(** [PHASE4_PASS_VALIDATORS]; [rule_observed] has none. *)
Definition PHASE4_PASS_VALIDATORS (expected_result : string) : res (list string) :=
  let result := String.eqb expected_result in
  if result "deny_before_commit" || result "legacy_phase4_deny_before_commit" then validate_phase4_pre_commit_deny
  else if result "late_intervention_log_only"
  then validate_phase4_late_log_only None "log-only late intervention must preserve the visible HTTP status"
  else if result "late_intervention_log_only_minimal"
  then validate_phase4_late_log_only (Some "minimal") "late log-only intervention must preserve the visible HTTP status"
  else if result "late_intervention_log_only_safe"
  then validate_phase4_late_log_only (Some "safe") "late log-only intervention must preserve the visible HTTP status"
  else if result "connection_aborted" then validate_phase4_abort false
  else if result "connection_aborted_strict" then validate_phase4_abort true
  else if result "marker_split_across_chunks" then validate_phase4_marker_split
  else if result "end_of_stream_evaluation" then validate_phase4_end_of_stream
  else if result "content_type_in_scope" then validate_phase4_content_type_in_scope false
  else if result "content_type_in_scope_with_charset" then validate_phase4_content_type_in_scope true
  else if result "content_type_out_of_scope" then validate_phase4_content_type_out_of_scope
  else if result "content_type_missing" then validate_phase4_content_type_missing
  else if result "no_full_response_buffering" then validate_phase4_no_full_response_buffering
  else if result "first_byte_before_response_end" then validate_phase4_first_byte_before_response_end
  else if result "response_body_at_limit" then validate_phase4_body_limit "at_limit"
  else if result "response_body_over_limit" then validate_phase4_body_limit "over_limit"
  else if result "response_body_process_partial" then validate_phase4_body_limit "process_partial"
  else if result "response_body_reject" then validate_phase4_body_limit "reject"
  else if result "event_contains_original_status" then validate_phase4_event_contains_original_status
  else if result "event_contains_late_intervention_action" then validate_phase4_event_contains_late_intervention_action
  else Ok [].
End Outcomes.

(** ** The phase-4 checks *)

(** [z in container]: the items of a list, the keys of a dictionary. *)
Definition in_list (z : Z) (v : pyval) : res bool :=
  match v with
  | PList l => Ok (existsb (py_eq (PInt z)) l)
  | PDict d => Ok (existsb (py_eq (PInt z)) (keys d))
  | _ => Err (TypeError "argument is not a container of integers")
  end.

Section Phase4.
Variables (event_schema : pyval) (fuel : nat) (catalog : pydict).

Definition phase4_pass_errors (record : pydict) (matching_event : option pydict) (runtime_evidence_errors : list string)
    (required_protocol integration_mode : option string) (events : list pydict) : res (list string) :=
  let expected_result := field_text "expected_result" record in
  let* (matching_event, rule_witness, pair_errors) :=
    first_byte_pass_event_context event_schema fuel catalog record matching_event events integration_mode in
  let errors := runtime_evidence_errors ++ pair_errors in
  if negb (str_in expected_result PHASE4_EXPECTED_RESULTS) then Ok errors
  else
    let* expected_rule_id := optional_field "expected_rule_id" record in
    let* observed := match expected_rule_id with
                     | Some rule => in_list rule (dict_get_or (PList []) "observed_rule_ids" record)
                     | None => Ok true
                     end in
    let errors := errors ++ when_failed (negb (is_true (dict_get "live_executed" record))) "live_executed must be true"
                  ++ when_failed (negb observed) "expected phase-4 rule was not observed" in
    match matching_event with
    | None => Ok (errors ++ ["canonical phase-4 event is missing"])
    | Some event =>
        let rule_event := match rule_witness with Some w => w | None => event end in
        in_order
          [Ok errors;
           protocol_pass_errors record (Some event) None None required_protocol;
           canonical_event_errors event_schema fuel (PDict event) "event" (some_text (field_text "connector" record))
             integration_mode;
           add_error (negb (phase_is_four (dict_get "phase" event))) "canonical event does not report phase 4";
           add_error (match expected_rule_id with Some rule => negb (Z_in rule (event_rule_ids rule_event)) | None => false end)
             "canonical event does not report the expected rule";
           PHASE4_PASS_VALIDATORS record event expected_result]
    end.
End Phase4.

(** ** The full lifecycle *)

Section Lifecycle.
Variables (record event : pydict).

Definition require_full_lifecycle_event_value (field : string) (expected : option pyval) : res (list string) :=
  match dict_find field event with
  | None => Ok ["canonical event is missing " +:+ field]
  | Some v =>
      let against (value : pyval) :=
        match expected with
        | Some e => when_failed (negb (py_eq value e)) (unexpected field value e)
        | None => []
        end in
      if str_in field PHASE4_SEMANTIC_FIELDS then
        match normalize_semantic_value field v with
        | Ok value => Ok (when_failed (negb (py_eq (dict_get field record) value)) (event_mismatch field) ++ against value)
        | Err (ContractError _) => Ok ["canonical event has invalid " +:+ field]
        | Err e => Err e
        end
      else Ok (against v)
  end.

Definition lifecycle_fields (fields : list (string * option pyval)) : res (list string) :=
  in_order (map (fun p => require_full_lifecycle_event_value (fst p) (snd p)) fields).
Definition require_full_lifecycle_limit (expected : string) : res (list string) :=
  lifecycle_fields [("body_limit_outcome", Some (PStr expected)); ("body_bytes_seen", None);
                    ("body_bytes_inspected", None); ("truncated", None)].
Definition validate_full_lifecycle_request_marker_split : res (list string) :=
  lifecycle_fields [("marker_split_across_chunks", Some (PBool true)); ("body_bytes_seen", None);
                    ("body_bytes_inspected", None)].
Definition validate_full_lifecycle_request_body_process_partial : res (list string) :=
  in_order [require_full_lifecycle_limit "process_partial";
            require_full_lifecycle_event_value "truncated" (Some (PBool true))].
Definition validate_full_lifecycle_phase3_pre_commit (action : string) (visible_status : Z)
    (late_intervention_error : string) : res (list string) :=
  in_order
    [lifecycle_fields [("requested_action", Some (PStr action)); ("actual_action", Some (PStr action));
                       ("headers_sent", Some (PBool false)); ("visible_http_status", Some (PInt visible_status))];
     add_error (is_true (dict_get "late_intervention" event)) late_intervention_error].
Definition validate_full_lifecycle_response_status_metadata : res (list string) :=
  in_order
    [lifecycle_fields [("http_status", None); ("original_http_status", None); ("visible_http_status", None);
                       ("headers_sent", None)];
     add_error (is_false (dict_get "headers_sent" event)
           && negb (py_eq (dict_get "visible_http_status" event) (dict_get "http_status" event)))
       "uncommitted response metadata must expose the WAF status"].
Definition validate_full_lifecycle_http11_transport (transfer_encoding : string) : res (list string) :=
  lifecycle_fields [("transport_protocol", Some (PStr "http1")); ("transfer_encoding", Some (PStr transfer_encoding));
                    ("transport_result", Some (PStr "http_status"))].
Definition validate_full_lifecycle_connection_reuse : res (list string) :=
  lifecycle_fields [("connection_reused", Some (PBool true)); ("transport_protocol", None)].

(** [len] of the transaction identifiers. *)
Definition py_len (v : pyval) : res Z :=
  match v with
  | PStr s => Ok (str_len s)
  | PList l => Ok (Z.of_nat (List.length l))
  | PDict d => Ok (Z.of_nat (List.length d))
  | _ => Err (TypeError "object has no len()")
  end.
Definition validate_full_lifecycle_parallel_transport : res (list string) :=
  let* first := lifecycle_fields [("transport_protocol", None)] in
  let* n := py_len (dict_get_or (PList []) "transaction_ids" record) in
  Ok (first ++ when_failed (n <? 2) "parallel transport evidence requires at least two transaction IDs").
Definition validate_full_lifecycle_http2_transport : res (list string) :=
  lifecycle_fields [("transport_protocol", Some (PStr "http2")); ("transport_result", Some (PStr "http_status"))].
Definition validate_full_lifecycle_client_abort : res (list string) :=
  lifecycle_fields [("client_aborted", Some (PBool true)); ("transport_result", None)].
Definition validate_full_lifecycle_upstream_abort : res (list string) :=
  lifecycle_fields [("upstream_aborted", Some (PBool true)); ("transport_result", None)].
Definition validate_full_lifecycle_bounded_or_truncated : res (list string) :=
  lifecycle_fields [("truncated", None); ("body_bytes_seen", None); ("body_bytes_inspected", None)].

Definition FULL_LIFECYCLE_PASS_VALIDATORS (expected_result : string) : option (res (list string)) :=
  let result := String.eqb expected_result in
  if result "request_marker_split_across_chunks" then Some validate_full_lifecycle_request_marker_split
  else if result "request_body_at_limit" then Some (require_full_lifecycle_limit "at_limit")
  else if result "request_body_over_limit" then Some (require_full_lifecycle_limit "over_limit")
  else if result "request_body_process_partial" then Some validate_full_lifecycle_request_body_process_partial
  else if result "phase3_deny_before_commit"
  then Some (validate_full_lifecycle_phase3_pre_commit "deny" 403 "phase-3 pre-commit deny cannot be a late intervention")
  else if result "phase3_redirect_before_commit"
  then Some (validate_full_lifecycle_phase3_pre_commit "redirect" 302
               "phase-3 pre-commit redirect cannot be a late intervention")
  else if result "response_status_metadata" then Some validate_full_lifecycle_response_status_metadata
  else if result "transport_http11_content_length" then Some (validate_full_lifecycle_http11_transport "content_length")
  else if result "transport_http11_chunked" then Some (validate_full_lifecycle_http11_transport "chunked")
  else if result "transport_keep_alive" || result "transport_sequential_requests"
  then Some validate_full_lifecycle_connection_reuse
  else if result "transport_parallel_requests" then Some validate_full_lifecycle_parallel_transport
  else if result "transport_http2" then Some validate_full_lifecycle_http2_transport
  else if result "transport_client_abort" then Some validate_full_lifecycle_client_abort
  else if result "transport_upstream_abort" then Some validate_full_lifecycle_upstream_abort
  else if result "event_bounded_or_truncated" then Some validate_full_lifecycle_bounded_or_truncated
  else None.
End Lifecycle.

Section Cases.
Variables (event_schema : pyval) (fuel : nat) (catalog : pydict).

Definition full_lifecycle_pass_errors (record : pydict) (matching_event : option pydict) : res (list string) :=
  let expected_result := field_text "expected_result" record in
  match FULL_LIFECYCLE_PASS_VALIDATORS record [] expected_result, matching_event with
  | None, _ => Ok []
  | Some _, None => Ok ["canonical full-lifecycle event is missing"]
  | Some _, Some event =>
      in_order [canonical_event_errors event_schema fuel (PDict event) "event"
                  (some_text (field_text "connector" record)) None;
                match FULL_LIFECYCLE_PASS_VALIDATORS record event expected_result with Some r => r | None => Ok [] end]
  end.

(** ** The verdict on a case *)

(** What the normalisation of a record passes to the checks. *)
Record case_evidence := {
  expected_status : option Z; actual_status : option Z; expected_rule_id : option Z; observed_rule_ids : list Z;
  expected_fields : list string; observed_event_fields : list string; event_errors : list string;
  integration_mode : option string }.

Definition non_phase4_case_pass_errors (record : pydict) (matching_event : option pydict) (e : case_evidence)
    (required_protocol : option string) : res (list string) :=
  in_order
    [add_error (match expected_status e with Some _ => negb (opt_Z_eqb (actual_status e) (expected_status e)) | None => false end)
       "actual status does not match expected status";
     add_error (match expected_rule_id e with Some rule => negb (Z_in rule (observed_rule_ids e)) | None => false end)
       "expected rule was not observed";
     add_error (negb (str_subset (expected_fields e) (observed_event_fields e)))
       "canonical event is missing expected fields";
     Ok (match matching_event with Some (_ :: _) => event_errors e | _ => [] end);
     protocol_pass_errors record matching_event None None required_protocol].

(** A case whose profile is invalid is judged without one, and fails. *)
Definition case_required_protocol_errors (case : pydict) : res (option string * list string) :=
  match case_protocol_profile case with
  | Ok p => Ok (p, [])
  | Err (ContractError m) => Ok (None, [m])
  | Err e => Err e
  end.

Definition normalized_case_pass_errors (record case : pydict) (matching_event : option pydict)
    (runtime_evidence_errors : list string) (e : case_evidence) (events : list pydict) : res (list string) :=
  let* (required_protocol, protocol_errors) := case_required_protocol_errors case in
  in_order
    [Ok protocol_errors;
     (if is_phase4_semantic_case case
      then phase4_pass_errors event_schema fuel catalog record matching_event runtime_evidence_errors required_protocol
             (integration_mode e) events
      else non_phase4_case_pass_errors record matching_event e required_protocol);
     full_lifecycle_pass_errors record matching_event].
End Cases.

(** The record is changed in place; without errors it stays. *)
Definition mark_case_record_invalid (record : pydict) (validation_errors : list string) : res pydict :=
  match validation_errors with
  | [] => Ok record
  | _ =>
      let detail := py_join "; " (dedup String.eqb validation_errors) in
      let* reason := dict_item "reason" record in
      Ok (dict_update record
        [("status", PStr "FAIL"); ("operation_status", PStr (operation_status "fail"));
         ("reason", PStr (py_join "; " (List.filter (fun s => negb (String.eqb s ""))
                                          [py_str reason; "runtime evidence invalid: " +:+ detail])))])
  end.
