(* ===== verification/PassTheorems.v ===== *)
(** * What protocol evidence of a PASS asserts *)

From S2P Require Export PassPhase4 SemanticsTheorems.
From Stdlib Require Import QArith.
#[global] Open Scope Z_scope.

(** ** No errors *)

Lemma in_order_nil l : in_order l = Ok [] <-> Forall (fun r => r = Ok []) l.
Proof.
  unfold in_order. induction l as [|r l IH]; cbn [mapM].
  - split; [constructor|done].
  - rewrite Forall_cons, <- IH. destruct r as [e|e]; [|split; [done|by intros [? _]]].
    destruct (mapM (fun r => r) l) as [ls|]; [|split; [done|by intros [_ ?]]]. cbn [concat]. split.
    + intros H. apply Ok_inj, app_eq_nil in H as [-> ->]. done.
    + intros [H1 H2]. apply Ok_inj in H1 as ->. by apply Ok_inj in H2 as ->.
Qed.

Lemma add_error_nil b m : add_error b m = Ok [] <-> b = false.
Proof. by destruct b. Qed.

Lemma Ok_nil (e : list string) : @Ok (list string) e = Ok [] <-> e = [].
Proof. split; [apply Ok_inj|congruence]. Qed.

Lemma failed_nil b m : when_failed b m = [] <-> b = false.
Proof. by destruct b. Qed.

Lemma reports_none {A B} (f : A -> list B) l : concat (map f l) = [] <-> forall x, In x l -> f x = [].
Proof.
  induction l as [|x l IH]; cbn [map concat]; [by split|]. rewrite app_nil, IH. split.
  - intros [H1 H2] y [<-|Hy]; [done|by apply H2].
  - intros H. split; [apply H; by left|]. intros y Hy. apply H. by right.
Qed.

Lemma py_eq_text v s : py_eq v (PStr s) = true <-> v = PStr s.
Proof. destruct v; cbn; split; try done; [by intros ->%String.eqb_eq|intros [= ->]; apply String.eqb_refl]. Qed.

(** ** A value shown by record and event *)

(** The event reports the field, and the record has its normalised value. *)
Definition shown (record event : pydict) (field : string) (w : pyval) : Prop :=
  exists v, dict_find field event = Some v /\ normalize_semantic_value field v = Ok w /\
            py_eq (dict_get field record) w = true.

Lemma confirm_nil record field w expected : confirm record field w expected = [] <->
  py_eq (dict_get field record) w = true /\ match expected with Some e => py_eq w e = true | None => True end.
Proof.
  unfold confirm. rewrite app_nil, failed_nil, negb_false_iff. f_equiv. destruct expected; [|done].
  by rewrite failed_nil, negb_false_iff.
Qed.

Lemma protocol_event_shown record event field :
  require_protocol_event record event field = Ok [] -> exists w, w <> PNone /\ shown record event field w.
Proof.
  unfold require_protocol_event, shown. destruct (dict_find field event) as [v|]; [|done].
  destruct (normalize_semantic_value field v) as [w|[]] eqn:En; try done. intros H. exists w.
  destruct w; try discriminate H; (split; [done|]); exists v; (split; [done|]); (split; [done|]);
    apply Ok_inj, confirm_nil in H as [H _]; done.
Qed.

Lemma phase4_value_shown record event field expected :
  require_phase4_event_value record event field expected = Ok [] <->
  exists w, shown record event field w /\ match expected with Some e => py_eq w e = true | None => True end.
Proof.
  unfold require_phase4_event_value, shown. split.
  - destruct (dict_find field event) as [v|]; [|done]. destruct (normalize_semantic_value field v) as [w|[]] eqn:En; try done.
    intros H. apply Ok_inj, confirm_nil in H as [H1 H2]. exists w. split; [|done]. by exists v.
  - intros (w & (v & -> & -> & H1) & H2). f_equal. by apply confirm_nil.
Qed.

(** ** Modern protocols *)

(** The whole path of a case over [p]: requested, downstream and negotiated protocol,
    no fallback, the transport of [p], a stream and a case of the transport, all of
    them reported by the event; ALPN and, for HTTP/3, QUIC. *)
Record modern_provenance (record event : pydict) (p : string) : Prop := {
  mp_path : forall f, In f ["requested_protocol"; "downstream_protocol"; "negotiated_protocol"] ->
    dict_get f record = PStr p;
  mp_event : forall f, In f ["requested_protocol"; "downstream_protocol"; "negotiated_protocol"; "transport";
                             "fallback_used"; "stream_id"; "transport_case_id"] ->
    exists w, w <> PNone /\ shown record event f w;
  mp_fallback : dict_get "fallback_used" record = PBool false;
  mp_transport : Some (dict_get "transport" record) = option_map PStr (expected_transport (Some p));
  mp_stream : exists z, dict_get "stream_id" record = PInt z;
  mp_case : exists s, dict_get "transport_case_id" record = PStr s /\ s <> "";
  mp_alpn : if String.eqb p "h2c" then none_or_empty (dict_get "alpn" record) = true
            else py_lower (field_text "alpn" record) = p;
  mp_quic : p = "h3" -> dict_get "quic_connection_id_present" record = PBool true /\
    (exists s, dict_get "quic_version" record = PStr s /\ s <> "") /\
    (dict_get "connection_id" record = PNone \/ hashed_identifier (dict_get "connection_id" record)) }.

(** What every protocol claim shares with its event. *)
Record shared_provenance (record event : pydict) : Prop := {
  sp_connector : py_eq (dict_get "connector" event) (dict_get "connector" record) = true;
  sp_phase : exists n, normalize_canonical_phase (dict_get "phase" record) = Some n /\
                       normalize_canonical_phase (dict_get "phase" event) = Some n;
  sp_transaction : exists l t, iterate (dict_get_or (PList []) "transaction_ids" record) = Ok l /\
                               In t (map py_str l) /\ In t (event_transaction_ids event);
  sp_rule : forall z, optional_field "expected_rule_id" record = Ok (Some z) -> In z (event_rule_ids event);
  sp_declared : forall f, In f DECLARED_FIELDS -> dict_get f record <> PNone ->
    exists w, w <> PNone /\ shown record event f w }.

(** ** The checks *)

Lemma nonblank_In t l : In t (nonblank l) -> In t (map py_str l).
Proof. unfold nonblank. rewrite filter_In. tauto. Qed.

Lemma shares_In a b : shares a b = true -> exists t, In t a /\ In t b.
Proof. unfold shares. rewrite existsb_exists. intros (t & Ha & Hb). exists t. split; [done|]. by apply str_in_In. Qed.

Lemma causal_shared record event : append_protocol_causal_errors record event = Ok [] ->
  py_eq (dict_get "connector" event) (dict_get "connector" record) = true /\
  (exists n, normalize_canonical_phase (dict_get "phase" record) = Some n /\
             normalize_canonical_phase (dict_get "phase" event) = Some n) /\
  (exists l t, iterate (dict_get_or (PList []) "transaction_ids" record) = Ok l /\ In t (map py_str l) /\
               In t (event_transaction_ids event)) /\
  (forall z, optional_field "expected_rule_id" record = Ok (Some z) -> In z (event_rule_ids event)).
Proof.
  unfold append_protocol_causal_errors. intros H.
  destruct (iterate (dict_get_or (PList []) "transaction_ids" record)) as [l|] eqn:El; [|done].
  destruct (optional_field "expected_rule_id" record) as [rule|]; [|done].
  destruct (iterate (dict_get_or (PList []) "observed_rule_ids" record)) as [o|]; [|done].
  destruct (mapM observed_integer o) as [ids|]; [|done]. apply Ok_nil in H.
  rewrite !app_nil, !failed_nil, negb_false_iff in H. destruct H as (Hc & Hp & Ht & Hr).
  split; [done|]. split; [|split].
  - destruct (normalize_canonical_phase (dict_get "phase" record)) as [n|]; [|done].
    destruct (normalize_canonical_phase (dict_get "phase" event)) as [m|]; [|done].
    apply negb_false_iff, Z.eqb_eq in Hp as ->. by exists m.
  - exists l. destruct (nonblank l) as [|t ts] eqn:En; [done|]. rewrite <- En in Ht.
    apply failed_nil, negb_false_iff, shares_In in Ht as (x & Hx & He). exists x. split; [done|]. split; [|done].
    by apply nonblank_In.
  - intros z [= ->]. apply failed_nil, negb_false_iff, Z_in_In in Hr. done.
Qed.

Lemma declared_shown record event : require_declared_protocol_evidence record event = Ok [] ->
  forall f, In f DECLARED_FIELDS -> dict_get f record <> PNone -> exists w, w <> PNone /\ shown record event f w.
Proof.
  unfold require_declared_protocol_evidence. rewrite in_order_nil, Forall_map, Forall_forall. intros H f Hf Hn.
  apply protocol_event_shown. apply list_elem_of_In in Hf. specialize (H f Hf). cbn beta in H.
  by destruct (dict_get f record).
Qed.

Lemma requested_errors values : append_requested_protocol_errors values = Ok [] ->
  (forall p, In p MODERN_PROTOCOLS -> requested values = PStr p ->
     negotiated values = PStr p /\ fallback_used values = PBool false) /\
  (downstream values <> PNone -> negotiated values <> PNone -> py_eq (downstream values) (negotiated values) = true).
Proof.
  unfold append_requested_protocol_errors. destruct (in_str_set (requested values) MODERN_PROTOCOLS) as [m|] eqn:Em; [|done].
  intros H. apply Ok_nil in H. rewrite app_nil, failed_nil in H. destruct H as [H1 H2]. split.
  - intros p Hp Hr. assert (m = true) as ->.
    { rewrite Hr in Em. change (Ok (str_in p MODERN_PROTOCOLS) = Ok m) in Em. apply Ok_inj in Em as <-. by apply str_in_In. }
    apply app_nil in H1 as [H1 H3]. apply failed_nil, negb_false_iff, is_false_eq in H3. split; [|done].
    destruct (is_none (negotiated values)) eqn:En; [done|]. apply failed_nil, negb_false_iff in H1.
    rewrite Hr in H1. destruct (negotiated values); try done. cbn in H1. by apply String.eqb_eq in H1 as ->.
  - intros Hd Hn. destruct (downstream values), (negotiated values); try done;
      cbn [is_none negb andb] in H2; by apply negb_false_iff in H2.
Qed.

Lemma modern_errors record event p values : In p MODERN_PROTOCOLS ->
  append_modern_protocol_errors record event (Some p) values = Ok [] ->
  (forall f, In f ["requested_protocol"; "downstream_protocol"; "negotiated_protocol"; "transport"; "fallback_used";
                   "stream_id"; "transport_case_id"] -> exists w, w <> PNone /\ shown record event f w) /\
  requested values = PStr p /\ downstream values = PStr p /\ fallback_used values = PBool false /\
  (exists z, dict_get "stream_id" record = PInt z) /\
  (exists s, dict_get "transport_case_id" record = PStr s /\ s <> "").
Proof.
  intros Hp. unfold append_modern_protocol_errors. apply str_in_In in Hp. rewrite Hp. cbn [negb].
  destruct (in_order _) as [e|] eqn:Ei; [|done]. intros H. apply Ok_nil in H.
  rewrite !app_nil, !failed_nil, !negb_false_iff in H. destruct H as (-> & Hr & Hd & Hf & Hs & Hc).
  apply in_order_nil in Ei. rewrite Forall_map, Forall_forall in Ei.
  split; [intros f Hin; by apply protocol_event_shown, Ei, list_elem_of_In|].
  apply eq_str_true in Hr, Hd. apply is_false_eq in Hf. split; [done|]. split; [done|]. split; [done|]. split.
  - destruct (dict_get "stream_id" record); try done. by eexists.
  - destruct (dict_get "transport_case_id" record); try done. eexists. split; [done|]. by apply String.eqb_neq.
Qed.

Lemma transport_errors record p transport : In p MODERN_PROTOCOLS ->
  append_protocol_transport_errors record (Some p) transport = [] ->
  Some transport = option_map PStr (expected_transport (Some p)) /\
  (if String.eqb p "h2c" then none_or_empty (dict_get "alpn" record) = true
   else py_lower (field_text "alpn" record) = p) /\
  (p = "h3" -> dict_get "quic_connection_id_present" record = PBool true /\
    (exists s, dict_get "quic_version" record = PStr s /\ s <> "") /\
    (dict_get "connection_id" record = PNone \/ hashed_identifier (dict_get "connection_id" record))).
Proof.
  intros Hp H.
  assert (Q : append_h3_protocol_errors record = [] -> py_lower (field_text "alpn" record) = "h3" /\
    dict_get "quic_connection_id_present" record = PBool true /\
    (exists s, dict_get "quic_version" record = PStr s /\ s <> "") /\
    (dict_get "connection_id" record = PNone \/ hashed_identifier (dict_get "connection_id" record))).
  { unfold append_h3_protocol_errors. rewrite !app_nil, !failed_nil, !negb_false_iff.
    intros (Ha & Hq & Hv & Hc). apply String.eqb_eq in Ha. apply is_true_eq in Hq. split; [done|]. split; [done|]. split.
    - destruct (dict_get "quic_version" record); try done. eexists. split; [done|]. by apply String.eqb_neq.
    - apply andb_false_iff in Hc as [Hc|Hc]; apply negb_false_iff in Hc; [left|right; by apply hashed_spec].
      by destruct (dict_get "connection_id" record). }
  unfold append_protocol_transport_errors in H. rewrite !app_nil in H. destruct H as (Ht & H2 & H2c & H3).
  destruct Hp as [<-|[<-|[<-|[]]]];
    cbv [expected_transport alias_of is_protocol String.eqb Ascii.eqb Bool.eqb andb option_map] in *;
    apply failed_nil, negb_false_iff, eq_str_true in Ht as ->; (split; [done|]).
  - apply failed_nil, negb_false_iff, String.eqb_eq in H2. by split.
  - apply failed_nil, negb_false_iff in H2c. by split.
  - destruct (Q H3) as (Ha & Hq). by split.
Qed.

(** ** A protocol PASS *)

(** The record or the catalog names [p] as a protocol of the client's side. *)
Definition names_protocol (record : pydict) (required : option string) (p : string) : Prop :=
  required = Some p \/
  In (PStr p) [dict_get "requested_protocol" record; dict_get "downstream_protocol" record;
               dict_get "negotiated_protocol" record].

(** A required protocol is the requested, the downstream and the negotiated one. *)
Lemma profile_errors values q : snd (append_required_protocol_profile_errors values (Some q)) = [] ->
  requested values = PStr q /\ downstream values = PStr q /\ negotiated values = PStr q.
Proof.
  cbn [append_required_protocol_profile_errors snd]. rewrite reports_none. intros H.
  assert (G : forall f v, In (f, v) [("requested", requested values); ("downstream", downstream values);
    ("negotiated", negotiated values)] -> v = PStr q).
  { intros f v Hin. apply H, failed_nil, negb_false_iff, eq_str_true in Hin. done. }
  split; [|split]; eapply G; [by left|right; by left|right; right; by left].
Qed.

Lemma judged_protocol record required p : In p MODERN_PROTOCOLS -> names_protocol record required p ->
  snd (append_required_protocol_profile_errors (protocol_record_values record) required) = [] ->
  append_requested_protocol_errors (protocol_record_values record) = Ok [] ->
  fst (append_required_protocol_profile_errors (protocol_record_values record) required) = Some p.
Proof.
  intros Hp Hn Hs Hr. apply requested_errors in Hr as [Hr Hd]. destruct required as [q|].
  - apply profile_errors in Hs as (H1 & H2 & H3). cbn [fst append_required_protocol_profile_errors].
    destruct Hn as [Hn|Hn]; [done|]. cbn in Hn, H1, H2, H3. rewrite H1, H2, H3 in Hn.
    by destruct Hn as [[= ->]|[[= ->]|[[= ->]|[]]]].
  - destruct Hn as [Hn|Hn]; [done|]. cbn [fst append_required_protocol_profile_errors].
    assert (N : dict_get "negotiated_protocol" record = PStr p -> p <> "" ->
      as_text (py_or (negotiated (protocol_record_values record)) (downstream (protocol_record_values record))) = Some p).
    { intros E Hne. cbn. rewrite E. unfold py_or. cbn. by destruct (String.eqb_spec p ""). }
    assert (Hne : p <> "") by (by destruct Hp as [<-|[<-|[<-|[]]]]).
    destruct Hn as [Hn|[Hn|[Hn|[]]]].
    + apply N; [|done]. by apply (Hr p Hp).
    + cbn in Hd |- *. rewrite Hn in *. unfold py_or. destruct (dict_get "negotiated_protocol" record) eqn:E; try done;
        specialize (Hd ltac:(done) ltac:(done)); try done. cbn in Hd. apply String.eqb_eq in Hd as <-. cbn.
      by destruct (String.eqb_spec p "").
    + by apply N.
Qed.

(** The statements of a run without errors. *)
Lemma protocol_parts record event run mode required :
  protocol_pass_errors record (Some event) run mode required = Ok [] ->
  protocol_claimed record = true \/ required <> None ->
  append_protocol_causal_errors record event = Ok [] /\
  snd (append_required_protocol_profile_errors (protocol_record_values record) required) = [] /\
  require_declared_protocol_evidence record event = Ok [] /\
  append_requested_protocol_errors (protocol_record_values record) = Ok [] /\
  append_modern_protocol_errors record event
    (fst (append_required_protocol_profile_errors (protocol_record_values record) required))
    (protocol_record_values record) = Ok [] /\
  append_protocol_transport_errors record
    (fst (append_required_protocol_profile_errors (protocol_record_values record) required))
    (dict_get "transport" record) = [] /\
  append_strict_stream_reset_errors record
    (fst (append_required_protocol_profile_errors (protocol_record_values record) required)) = [].
Proof.
  unfold protocol_pass_errors. intros H Hc.
  destruct (append_required_protocol_profile_errors (protocol_record_values record) required) as [d e] eqn:Ed.
  assert (G : forall l : list (res (list string)),
    (if negb (protocol_claimed record) && match required with None => true | Some _ => false end then Ok []
     else in_order l) = Ok [] -> in_order l = Ok []).
  { intros l. destruct Hc as [->|Hc]; [done|]. destruct required; [|done]. by rewrite andb_false_r. }
  assert (G' : match required with Some p => str_in p CANONICAL_PROTOCOLS = true | None => True end).
  { destruct required as [q|]; [|done]. by destruct (str_in q CANONICAL_PROTOCOLS). }
  destruct required as [q|]; [rewrite G' in H|]; apply G in H; apply in_order_nil in H;
    repeat match goal with H : Forall _ (_ :: _) |- _ => apply Forall_cons in H as [? H] end;
    repeat match goal with H : Ok _ = Ok [] |- _ => apply Ok_inj in H end; cbn [fst snd]; done.
Qed.

Lemma modern_sound record event run mode required p :
  protocol_pass_errors record (Some event) run mode required = Ok [] ->
  protocol_claimed record = true \/ required <> None ->
  In p MODERN_PROTOCOLS -> names_protocol record required p -> modern_provenance record event p.
Proof.
  intros H Hc Hp Hn. destruct (protocol_parts _ _ _ _ _ H Hc) as (_ & Hs & _ & Hr & Hm & Ht & _).
  pose proof (judged_protocol record required p Hp Hn Hs Hr) as Hd. rewrite Hd in Hm, Ht.
  destruct (modern_errors _ _ _ _ Hp Hm) as (He & H1 & H2 & H3 & H4 & H5).
  destruct (transport_errors _ _ _ Hp Ht) as (T1 & T2 & T3).
  apply requested_errors in Hr as [Hr _]. destruct (Hr p Hp H1) as [Hneg _].
  constructor; try done. intros f [<-|[<-|[<-|[]]]]; done.
Qed.

(** A record that names a modern protocol claims one. *)
Lemma claims_text record f p : In f PROTOCOL_CLAIM_FIELDS -> dict_get f record = PStr p -> p <> "" ->
  protocol_claimed record = true.
Proof.
  intros Hf E Hp. unfold protocol_claimed. apply existsb_exists. exists f. split; [done|]. rewrite E.
  unfold claimed_value, none_or_empty. cbn. by destruct (String.eqb_spec p "").
Qed.

Lemma strict_reset_needs_modern record d : append_strict_stream_reset_errors record d = [] ->
  dict_get "stream_reset" record = PBool true -> exists p, d = Some p /\ In p MODERN_PROTOCOLS.
Proof.
  unfold append_strict_stream_reset_errors. intros H E. apply app_nil in H as [H _]. apply failed_nil in H.
  rewrite E in H. cbn [is_true andb] in H. apply negb_false_iff in H. unfold modern in H. destruct d as [p|]; [|done].
  exists p. split; [done|]. by apply str_in_In.
Qed.

(** A judged protocol is named by the record or required. *)
Lemma judged_named record required p :
  fst (append_required_protocol_profile_errors (protocol_record_values record) required) = Some p ->
  names_protocol record required p.
Proof.
  unfold append_required_protocol_profile_errors, names_protocol. destruct required as [q|]; cbn [fst].
  - intros [= ->]. by left.
  - unfold py_or. cbn. intros H. right. destruct (truthy (dict_get "negotiated_protocol" record)).
    + destruct (dict_get "negotiated_protocol" record); try done. injection H as ->. tauto.
    + destruct (dict_get "downstream_protocol" record); try done. injection H as ->. tauto.
Qed.

(** C28: protocol provenance is the event's: a case that passes with a protocol claim
    shares connector, phase, a transaction and the expected rule with its event, and
    every protocol field it has is the value the event reports.  A protocol the
    catalog requires was requested, served and negotiated.  Once HTTP/2, h2c or HTTP/3
    is named anywhere on the client's side, the whole path is that protocol: requested,
    downstream and negotiated, without fallback, on its transport, with the stream,
    ALPN and QUIC evidence it needs and no raw connection identifier; and only such a
    case can have a reset stream. *)
Theorem protocol_pass_sound record event run mode required :
  protocol_pass_errors record (Some event) run mode required = Ok [] ->
  protocol_claimed record = true \/ required <> None ->
  shared_provenance record event /\
  (forall q, required = Some q -> dict_get "requested_protocol" record = PStr q /\
     dict_get "downstream_protocol" record = PStr q /\ dict_get "negotiated_protocol" record = PStr q) /\
  (forall p, In p MODERN_PROTOCOLS -> names_protocol record required p -> modern_provenance record event p) /\
  (dict_get "stream_reset" record = PBool true ->
     exists p, In p MODERN_PROTOCOLS /\ modern_provenance record event p).
Proof.
  intros H Hc. destruct (protocol_parts _ _ _ _ _ H Hc) as (Ha & Hs & Hd & _ & _ & _ & Hx). split; [|split; [|split]].
  - apply causal_shared in Ha as (H1 & H2 & H3 & H4). constructor; try done. by apply declared_shown.
  - intros q ->. by apply (profile_errors (protocol_record_values record)).
  - intros p. by apply (modern_sound record event run mode required p).
  - intros Hr. destruct (strict_reset_needs_modern _ _ Hx Hr) as (p & Hp & Hin). exists p. split; [done|].
    by apply (modern_sound record event run mode required p), judged_named.
Qed.
