(* ===== verification/PassOutcomes.v ===== *)
(** * What a phase-4 PASS asserts *)

From S2P Require Export PassTheorems.
From Stdlib Require Import QArith.
#[global] Open Scope Z_scope.

(** ** Values of the event *)

(** The event reports [w] for the field. *)
Definition event_says (event : pydict) (field : string) (w : pyval) : Prop :=
  exists v, dict_find field event = Some v /\ normalize_semantic_value field v = Ok w.

(** A canonical value that equals a constant of the field's class is that constant. *)
Definition exact_class (c : field_class) (e : pyval) : Prop :=
  match c, e with AnInteger, PInt _ => True | ABoolean, PBool _ => True | _, PStr _ => True | _, _ => False end.

Lemma canonical_exact field w e : canonical_value field w -> py_eq w e = true -> exact_class (class_of field) e -> w = e.
Proof.
  intros Hc He Hx. destruct e; try (by destruct (class_of field)); [| |by apply py_eq_text];
    (destruct Hc as [->|Hc]; [done|]); destruct (class_of field); try done; destruct Hc as [x ->]; f_equal; cbn in He.
  - apply Qeq_bool_iff in He. unfold Qeq, inject_Z in He. cbn in He. by destruct x, b.
  - apply Qeq_bool_iff in He. unfold Qeq, inject_Z in He. cbn in He. lia.
Qed.

Lemma needs_says record event field e : needs record event field e = Ok [] -> exact_class (class_of field) e ->
  event_says event field e /\ py_eq (dict_get field record) e = true.
Proof.
  intros H Hx. apply phase4_value_shown in H as (w & (v & Hf & Hn & Hr) & He).
  pose proof (normalize_gives field v) as G. rewrite Hn in G. assert (w = e) as -> by by apply (canonical_exact field).
  split; [by exists v|done].
Qed.

(** The integer equality of Python. *)
Lemma py_eq_int_trans a b z : py_eq a b = true -> py_eq b (PInt z) = true -> py_eq a (PInt z) = true.
Proof.
  intros H1 H2. assert (exists q, num_value b = Some q /\ (q == inject_Z z)%Q) as (q & Hq & Hz).
  { destruct b; cbn in H2; try done; eexists; (split; [reflexivity|]); by apply Qeq_bool_iff in H2. }
  assert (exists p, num_value a = Some p /\ (p == q)%Q) as (p & Hp & Hpq).
  { destruct a, b; cbn in H1, Hq; try done; injection Hq as <-; eexists; (split; [reflexivity|]);
      by apply Qeq_bool_iff in H1. }
  destruct a; cbn in Hp; try done; injection Hp as <-; cbn; apply Qeq_bool_iff; by rewrite Hpq.
Qed.

(** ** What the outcomes mean *)

(** A response hidden from the client has no HTTP outcome. *)
Definition HIDDEN : list string := ["connection_aborted"; "not_observable"].

(** The client got the 403 itself: nothing had been sent. *)
Record denied_before_commit (record event : pydict) : Prop := {
  dc_client : py_eq (dict_get "actual_status" record) (PInt 403) = true;
  dc_visible : event_says event "visible_http_status" (PInt 403);
  dc_verdict : event_says event "http_status" (PInt 403);
  dc_action : event_says event "requested_action" (PStr "deny") /\ event_says event "actual_action" (PStr "deny");
  dc_uncommitted : event_says event "headers_sent" (PBool false) /\ dict_get "response_committed" event <> PBool true;
  dc_open : event_says event "connection_aborted" (PBool false) /\
            ~ exists t, In t HIDDEN /\ dict_get "transport_result" record = PStr t;
  dc_not_late : dict_get "late_intervention" event <> PBool true }.

(** The intervention came too late: the client kept the original status. *)
Record late (record event : pydict) : Prop := {
  lt_verdict : event_says event "http_status" (PInt 403);
  lt_requested : event_says event "requested_action" (PStr "deny");
  lt_late : event_says event "late_intervention" (PBool true);
  lt_headers : event_says event "headers_sent" (PBool true);
  lt_preserved : py_eq (dict_get "visible_http_status" record) (dict_get "original_http_status" record) = true }.

Record logged_only (record event : pydict) : Prop := {
  lo_late : late record event;
  lo_action : event_says event "actual_action" (PStr "log_only");
  lo_open : event_says event "connection_aborted" (PBool false) /\
            ~ exists t, In t HIDDEN /\ dict_get "transport_result" record = PStr t;
  lo_client : dict_get "actual_status" record <> PNone /\
              py_eq (dict_get "actual_status" record) (dict_get "visible_http_status" record) = true }.

(** Over a modern protocol the stream is reset, otherwise the connection is closed. *)
Record aborted (record event : pydict) (strict : bool) : Prop := {
  ab_late : late record event;
  ab_modern : forall p, In p MODERN_PROTOCOLS -> dict_get "negotiated_protocol" record = PStr p ->
    event_says event "actual_action" (PStr "stream_reset") /\ event_says event "stream_reset" (PBool true) /\
    modern_provenance record event p /\
    (strict = true -> event_says event "connection_aborted" (PBool false) /\
                      event_says event "transport_result" (PStr "stream_reset"));
  ab_legacy : (forall p, In p MODERN_PROTOCOLS -> dict_get "negotiated_protocol" record <> PStr p) ->
    event_says event "actual_action" (PStr "abort_connection") /\ event_says event "connection_aborted" (PBool true);
  ab_strict : strict = true -> event_says event "late_intervention_mode" (PStr "strict");
  ab_client : (forall t, In t HIDDEN -> dict_get "transport_result" record <> PStr t) ->
    dict_get "actual_status" record = PNone \/
    py_eq (dict_get "actual_status" record) (dict_get "visible_http_status" record) = true }.

(** The client had the first byte while the response was still being produced. *)
Record streamed (event : pydict) : Prop := {
  st_flags : forall f b, In (f, b)
    [("client_first_byte_received", true); ("first_byte_before_response_end", true); ("upstream_paused", true);
     ("upstream_eos_sent_at_first_byte", false); ("upstream_response_finished_at_first_byte", false);
     ("response_committed", true)] -> event_says event f (PBool b);
  st_chunk : exists n, int_value (dict_get "first_chunk_size" event) = Some n /\ 1 <= n;
  st_bytes : exists seen inspected, int_value (dict_get "body_bytes_seen" event) = Some seen /\
    int_value (dict_get "body_bytes_inspected" event) = Some inspected /\ inspected <= seen }.

(** The other outcomes: what the event must say. *)
Definition OUTCOME_VALUES : list (string * string * pyval) :=
  [("marker_split_across_chunks", "marker_split_across_chunks", PBool true);
   ("marker_split_across_chunks", "end_of_stream_evaluation", PBool true);
   ("end_of_stream_evaluation", "end_of_stream_evaluation", PBool true);
   ("end_of_stream_evaluation", "body_started", PBool true);
   ("content_type_in_scope", "content_type_scope", PStr "in_scope");
   ("content_type_in_scope_with_charset", "content_type_scope", PStr "in_scope");
   ("content_type_out_of_scope", "content_type_scope", PStr "out_of_scope");
   ("content_type_missing", "content_type_scope", PStr "missing");
   ("no_full_response_buffering", "no_full_response_buffering", PBool true);
   ("response_body_at_limit", "body_limit_outcome", PStr "at_limit");
   ("response_body_over_limit", "body_limit_outcome", PStr "over_limit");
   ("response_body_process_partial", "body_limit_outcome", PStr "process_partial");
   ("response_body_reject", "body_limit_outcome", PStr "reject");
   ("event_contains_original_status", "http_status", PInt 403);
   ("event_contains_late_intervention_action", "requested_action", PStr "deny");
   ("late_intervention_log_only_minimal", "late_intervention_mode", PStr "minimal");
   ("late_intervention_log_only_safe", "late_intervention_mode", PStr "safe")].

(** What a PASS with an outcome asserts of record and event. *)
Record outcome_shown (result : string) (record event : pydict) : Prop := {
  os_denied : In result ["deny_before_commit"; "legacy_phase4_deny_before_commit"] -> denied_before_commit record event;
  os_logged : In result ["late_intervention_log_only"; "late_intervention_log_only_minimal";
                         "late_intervention_log_only_safe"] -> logged_only record event;
  os_aborted : In result ["connection_aborted"; "connection_aborted_strict"] ->
    aborted record event (String.eqb result "connection_aborted_strict");
  os_streamed : In result ["first_byte_before_response_end"; "no_full_response_buffering"] -> streamed event;
  os_values : forall f w, In (result, f, w) OUTCOME_VALUES -> event_says event f w }.

(** ** The validators *)

(** The statements of a validator that reported nothing, one hypothesis each. *)
Ltac open_lists :=
  repeat match goal with
         | H : Forall _ (_ :: _) |- _ => apply Forall_cons in H as [? H]
         | H : Forall _ (_ ++ _) |- _ => apply Forall_app in H as [? H]
         | H : Forall _ [] |- _ => clear H
         end.
Ltac statements H := apply in_order_nil in H; open_lists.

(** The event says what a statement needed. *)
Ltac says H := exact (proj1 (needs_says _ _ _ _ H I)).

Lemma triplet_verdict record event : require_phase4_status_triplet record event = Ok [] ->
  event_says event "http_status" (PInt 403).
Proof. unfold require_phase4_status_triplet. intros H. statements H. match goal with H : needs _ _ "http_status" _ = _ |- _ => says H end. Qed.

Lemma not_true v : is_true v = false -> v <> PBool true.
Proof. by intros H ->. Qed.

Lemma hidden_false v b : in_str_set v HIDDEN = Ok b -> b = in_strs v HIDDEN.
Proof. unfold in_str_set. destruct (hashable v); [|done]. by intros H%Ok_inj. Qed.

Lemma in_strs_false v l : in_strs v l = false -> ~ exists t, In t l /\ v = PStr t.
Proof. intros H (t & Hin & ->). cbn in H. apply str_in_false in H. done. Qed.

Lemma observable_client record : append_observable_client_status_errors record = Ok [] ->
  (~ exists t, In t HIDDEN /\ dict_get "transport_result" record = PStr t) /\
  dict_get "actual_status" record <> PNone /\
  py_eq (dict_get "actual_status" record) (dict_get "visible_http_status" record) = true.
Proof.
  unfold append_observable_client_status_errors. change ["connection_aborted"; "not_observable"] with HIDDEN.
  destruct (in_str_set _ HIDDEN) as [b|] eqn:E; [|done]. intros H. apply Ok_nil in H. apply hidden_false in E.
  destruct b; [done|]. symmetry in E. split; [by apply in_strs_false|].
  destruct (is_none (dict_get "actual_status" record)) eqn:En; [done|]. apply failed_nil, negb_false_iff in H.
  split; [by intros E'; rewrite E' in En|done].
Qed.

Lemma pre_commit_deny_shown record event : validate_phase4_pre_commit_deny record event = Ok [] ->
  denied_before_commit record event.
Proof.
  unfold validate_phase4_pre_commit_deny. intros H. statements H.
  pose proof (proj2 (needs_says record event "visible_http_status" (PInt 403) ltac:(eassumption) I)) as V.
  match goal with H : append_observable_client_status_errors _ = _ |- _ => apply observable_client in H as (O1 & O2 & O3) end.
  repeat match goal with H : add_error _ _ = _ |- _ => apply add_error_nil, not_true in H end.
  constructor; try done; try (by eapply triplet_verdict);
    repeat match goal with |- _ /\ _ => split end; try done;
    try match goal with H : needs _ _ ?f _ = _ |- event_says _ ?f _ => says H end.
  by apply (py_eq_int_trans _ (dict_get "visible_http_status" record)).
Qed.

(** Solves a goal about the event from the statement that needed it. *)
Ltac from_statements :=
  match goal with
  | |- _ /\ _ => split; from_statements
  | H : needs _ _ ?f _ = _ |- event_says _ ?f _ => says H
  | H : require_phase4_status_triplet _ _ = _ |- event_says _ _ _ => by eapply triplet_verdict
  | H : status_preserved _ _ = _ |- py_eq _ _ = true => by apply add_error_nil, negb_false_iff in H
  | |- _ => done
  end.

Lemma log_only_shown record event mode m : validate_phase4_late_log_only record event mode m = Ok [] ->
  logged_only record event /\ forall e, mode = Some e -> event_says event "late_intervention_mode" (PStr e).
Proof.
  unfold validate_phase4_late_log_only. intros H. statements H.
  match goal with H : append_observable_client_status_errors _ = _ |- _ => apply observable_client in H as (O1 & O2 & O3) end.
  split.
  - constructor; try from_statements. constructor; from_statements.
  - intros e ->. open_lists. from_statements.
Qed.

Lemma abort_client record : append_abort_client_status_errors record = Ok [] ->
  (forall t, In t HIDDEN -> dict_get "transport_result" record <> PStr t) ->
  dict_get "actual_status" record = PNone \/
  py_eq (dict_get "actual_status" record) (dict_get "visible_http_status" record) = true.
Proof.
  unfold append_abort_client_status_errors. change ["connection_aborted"; "not_observable"] with HIDDEN. intros H Hn.
  destruct (in_str_set _ HIDDEN) as [b|] eqn:E; [|done]. apply Ok_nil in H. apply hidden_false in E.
  destruct b.
  - symmetry in E. apply in_strs_true in E as (s & E & Hs). by destruct (Hn s Hs).
  - destruct (is_none (dict_get "actual_status" record)) eqn:En; [left; by destruct (dict_get "actual_status" record)|].
    right. by apply failed_nil, negb_false_iff in H.
Qed.

Lemma resets_value record b : phase4_uses_stream_reset record = Ok b ->
  b = true <-> exists p, In p MODERN_PROTOCOLS /\ dict_get "negotiated_protocol" record = PStr p.
Proof.
  unfold phase4_uses_stream_reset, is_modern_value, in_str_set. destruct (hashable _); [|done].
  intros H. apply Ok_inj in H as <-. rewrite in_strs_true. split; intros (p & H1 & H2); by exists p.
Qed.

Lemma abort_shown record event strict :
  (forall p, In p MODERN_PROTOCOLS -> dict_get "negotiated_protocol" record = PStr p -> modern_provenance record event p) ->
  validate_phase4_abort record event strict = Ok [] -> aborted record event strict.
Proof.
  intros Hm. unfold validate_phase4_abort, phase4_abort_action.
  destruct (phase4_uses_stream_reset record) as [resets|] eqn:Er; [|done]. apply resets_value in Er. intros H. statements H.
  assert (Hc : append_abort_client_status_errors record = Ok []) by done.
  constructor; [constructor; from_statements| | | |by apply abort_client].
  - intros p Hp Hn. assert (resets = true) as -> by (apply Er; by exists p).
    open_lists. split; [from_statements|]. split; [from_statements|]. split; [by apply Hm|].
    intros ->. open_lists. from_statements.
  - intros Hn. destruct resets; [destruct (proj1 Er eq_refl) as (p & Hp & E); by destruct (Hn p Hp)|].
    open_lists. from_statements.
  - intros ->. open_lists. from_statements.
Qed.

Lemma first_byte_shown record event label : append_phase4_first_byte_errors record event label = Ok [] -> streamed event.
Proof.
  unfold append_phase4_first_byte_errors. intros H. statements H.
  repeat match goal with H : add_error _ _ = _ |- _ => apply add_error_nil in H end. constructor.
  - intros f b Hin. repeat (destruct Hin as [E|Hin]; [injection E as <- <-; from_statements|]). destruct Hin.
  - destruct (int_value (dict_get "first_chunk_size" event)) as [n|]; [|done]. exists n. split; [done|]. lia.
  - destruct (int_value (dict_get "body_bytes_seen" event)) as [n|]; [|done].
    destruct (int_value (dict_get "body_bytes_inspected" event)) as [m|]; [|done]. exists n, m.
    split; [done|]. split; [done|]. lia.
Qed.

(** ** The verdict *)

Lemma outcome_values record event result : PHASE4_PASS_VALIDATORS record event result = Ok [] ->
  forall f w, In (result, f, w) OUTCOME_VALUES -> event_says event f w.
Proof.
  intros H f w Hin.
  repeat (destruct Hin as [E|Hin];
    [injection E as <- <- <-; cbv [PHASE4_PASS_VALIDATORS String.eqb Ascii.eqb Bool.eqb orb] in H;
     first [apply log_only_shown in H as [_ H]; by apply H
           |unfold validate_phase4_event_contains_late_intervention_action in H;
            destruct (in_order _) as [e|] eqn:Ei; [|done]; destruct (in_str_set _ _); [|done];
            apply Ok_nil, app_nil in H as [-> _]; statements Ei; from_statements
           |unfold validate_phase4_marker_split, validate_phase4_end_of_stream, validate_phase4_content_type_in_scope,
              validate_phase4_content_type_out_of_scope, validate_phase4_content_type_missing, validate_phase4_body_limit,
              validate_phase4_no_full_response_buffering, validate_phase4_event_contains_original_status in H;
            statements H; from_statements]|]).
  destruct Hin.
Qed.

Lemma outcome_sound record event result : PHASE4_PASS_VALIDATORS record event result = Ok [] ->
  (forall p, In p MODERN_PROTOCOLS -> dict_get "negotiated_protocol" record = PStr p -> modern_provenance record event p) ->
  outcome_shown result record event.
Proof.
  intros H Hm. constructor; [| | | |exact (outcome_values record event result H)]; intros Hin;
    repeat (destruct Hin as [<-|Hin]; [cbv [PHASE4_PASS_VALIDATORS String.eqb Ascii.eqb Bool.eqb orb] in H|]);
    try destruct Hin; try (by apply pre_commit_deny_shown); try (by apply log_only_shown in H as [H _]);
    try (by apply abort_shown).
  - by eapply first_byte_shown.
  - unfold validate_phase4_no_full_response_buffering in H. statements H. by eapply first_byte_shown.
Qed.

Section Verdict.
Variables (event_schema : pyval) (fuel : nat) (catalog : pydict).

(** What a phase-4 PASS asserts: a live case with a valid phase-4 event that reports
    the expected rule, the protocol path of the event, and the outcome. *)
Record phase4_verified (record event : pydict) (witness : option pydict) (required mode : option string) : Prop := {
  pv_live : dict_get "live_executed" record = PBool true;
  pv_phase : normalize_canonical_phase (dict_get "phase" event) = Some 4;
  pv_event : canonical_event_errors event_schema fuel (PDict event) "event"
               (some_text (field_text "connector" record)) mode = Ok [];
  pv_rule : forall rule, optional_field "expected_rule_id" record = Ok (Some rule) ->
    In rule (event_rule_ids (default event witness)) /\
    in_list rule (dict_get_or (PList []) "observed_rule_ids" record) = Ok true;
  pv_protocol : forall p, In p MODERN_PROTOCOLS -> names_protocol record required p -> modern_provenance record event p;
  pv_outcome : outcome_shown (field_text "expected_result" record) record event }.

Lemma named_claims record required p : In p MODERN_PROTOCOLS -> names_protocol record required p ->
  protocol_claimed record = true \/ required <> None.
Proof.
  intros Hp [->|Hn]; [by right|]. left. assert (Hne : p <> "") by (by destruct Hp as [<-|[<-|[<-|[]]]]).
  destruct Hn as [E|[E|[E|[]]]]; (eapply claims_text; [|exact E|exact Hne]); apply str_in_In; reflexivity.
Qed.

(** The event of a phase-4 PASS. *)
Lemma phase4_evidence record matching_event runtime_errors required mode events :
  phase4_pass_errors event_schema fuel catalog record matching_event runtime_errors required mode events = Ok [] ->
  In (field_text "expected_result" record) PHASE4_EXPECTED_RESULTS ->
  runtime_errors = [] /\
  exists event witness,
    first_byte_pass_event_context event_schema fuel catalog record matching_event events mode
      = Ok (Some event, witness, []) /\
    phase4_verified record event witness required mode.
Proof.
  unfold phase4_pass_errors. intros H Hr.
  destruct (first_byte_pass_event_context _ _ _ _ _ _ _) as [[[ev witness] pair_errors]|]; [|done].
  apply str_in_In in Hr. rewrite Hr in H. cbn [negb] in H.
  destruct (optional_field "expected_rule_id" record) as [rule|] eqn:Er; [|done].
  destruct (match rule with Some _ => _ | None => _ end) as [observed|] eqn:Eo; [|done].
  destruct ev as [event|]; [|by apply Ok_nil, app_eq_nil in H as [_ ?]].
  apply in_order_nil in H. apply Forall_cons in H as [He H]. apply Forall_cons in H as [Hp H].
  apply Forall_cons in H as [Hv H]. apply Forall_cons in H as [H4 H]. apply Forall_cons in H as [Hrule H].
  apply Forall_cons in H as [Hout _]. apply add_error_nil, negb_false_iff in H4. apply add_error_nil in Hrule.
  apply Ok_nil in He. rewrite !app_nil, !failed_nil, !negb_false_iff in He. destruct He as ([-> ->] & Hl & ->).
  split; [done|]. exists event, witness. split; [done|].
  assert (M : forall p, In p MODERN_PROTOCOLS -> names_protocol record required p -> modern_provenance record event p).
  { intros p Hin Hn. apply (modern_sound record event None None required p); try done. by apply (named_claims record required p). }
  constructor; try done.
  - by apply is_true_eq.
  - unfold phase_is_four in H4. destruct (normalize_canonical_phase _); [|done]. apply Z.eqb_eq in H4 as ->. done.
  - intros z Hz. rewrite Er in Hz. injection Hz as ->. apply negb_false_iff, Z_in_In in Hrule.
    split; [by destruct witness|done].
  - apply outcome_sound; [done|]. intros p Hin Hn. apply M; [done|]. right. cbn. tauto.
Qed.

(** C29: a phase-4 PASS is the event's outcome, not the host's claim: when no error is
    reported for a case with a phase-4 outcome, the evidence collected before was
    without errors and there is an event (the barrier of the pair, for a first-byte
    case) that verifies the record: live, of phase 4, valid under the event schema,
    with the expected rule, over the named protocol.  A deny before the commit was a
    403 the client received on an open connection before any header was sent; a late
    log-only intervention left the client the original status; an abort reset the
    stream over HTTP/2 or HTTP/3 and closed the connection otherwise; a first-byte case
    had bytes at the client while the response was being produced. *)
Theorem phase4_pass_sound record matching_event runtime_errors required mode events :
  phase4_pass_errors event_schema fuel catalog record matching_event runtime_errors required mode events = Ok [] ->
  In (field_text "expected_result" record) PHASE4_EXPECTED_RESULTS ->
  runtime_errors = [] /\
  exists event witness,
    first_byte_pass_event_context event_schema fuel catalog record matching_event events mode
      = Ok (Some event, witness, []) /\
    phase4_verified record event witness required mode.
Proof. apply phase4_evidence. Qed.
End Verdict.

(** * Concrete cases: witnesses of the theorems on a PASS *)

(** A shortened event schema. *)
Definition small_event_schema : pyval :=
  PDict [(PStr "type", PStr "object"); (PStr "required", PList [PStr "connector"]);
         (PStr "properties", PDict [(PStr "connector", PDict [(PStr "enum", PList [PStr "envoy"; PStr "nginx"])])])].

(** What event and record of a late abort over HTTP/3 have in common. *)
Definition h3_path : list (string * pyval) :=
  [("requested_protocol", PStr "h3"); ("downstream_protocol", PStr "h3"); ("negotiated_protocol", PStr "h3");
   ("transport", PStr "quic_udp"); ("fallback_used", PBool false); ("stream_id", PInt 0);
   ("transport_case_id", PStr "case-7"); ("alpn", PStr "h3"); ("quic_version", PStr "1");
   ("quic_connection_id_present", PBool true); ("connection_id", PStr "sha256:0123456789abcdef");
   ("stream_reset", PBool true); ("stream_reset_code", PInt 268); ("requested_action", PStr "deny");
   ("actual_action", PStr "stream_reset"); ("transport_result", PStr "stream_reset");
   ("late_intervention", PBool true); ("late_intervention_mode", PStr "strict"); ("headers_sent", PBool true);
   ("connection_aborted", PBool false); ("http_status", PInt 403); ("original_http_status", PInt 200);
   ("visible_http_status", PInt 200)].
Definition abort_event (extra : list (string * pyval)) : pydict :=
  mkdict ([("connector", PStr "envoy"); ("phase", PStr "response_body"); ("event", PStr "phase4");
           ("message_id", PStr "m1"); ("rule_id", PInt 1100001); ("transaction_id", PStr "t1")] ++ h3_path ++ extra).
Definition abort_record (extra : list (string * pyval)) : pydict :=
  mkdict ([("connector", PStr "envoy"); ("phase", PInt 4); ("expected_result", PStr "connection_aborted_strict");
           ("live_executed", PBool true); ("expected_rule_id", PInt 1100001);
           ("observed_rule_ids", PList [PInt 1100001]); ("transaction_ids", PList [PStr "t1"])] ++ h3_path ++ extra).
Definition judge_abort (record event : pydict) : res (list string) :=
  phase4_pass_errors small_event_schema 9 [] record (Some event) [] (Some "h3") None [event].

(** The projection of a raw record: spellings are normalised, a raw QUIC connection
    identifier is dropped, and a disagreement with the event is reported. *)
Example projection_ex :
  match semantic_runtime_fields
      [(PStr "negotiated_protocol", PStr "HTTP/3"); (PStr "connection_id", PStr "c0ffee"); (PStr "client_status", PStr "200")]
      (Some [(PStr "visible_http_status", PInt 403)]) None with
  | Ok (values, errors) =>
      (dict_get "negotiated_protocol" values, dict_get "connection_id" values, dict_get "visible_http_status" values, errors)
  | Err _ => (PNone, PNone, PNone, [])
  end
  = (PStr "h3", PNone, PInt 200,
     ["visible_http_status: raw and event runtime evidence disagree";
      "connection_id: raw QUIC connection identifiers are forbidden"]).
Proof. vm_compute. reflexivity. Qed.

(** A token that is a placeholder between spaces is kept, although the same
    placeholder without spaces is absent. *)
Example padded_placeholder_ex :
  normalize_semantic_value "connection_id" (PStr "none") = Ok PNone /\
  normalize_semantic_value "connection_id" (PStr " none ") = Ok (PStr "none").
Proof. vm_compute. by split. Qed.

(** The case passes; with a 403 shown by the client, with an event of another
    transaction, or with a fallback it does not. *)
Example abort_ex :
  judge_abort (abort_record []) (abort_event []) = Ok [] /\
  judge_abort (dict_set "visible_http_status" (PInt 403) (abort_record [])) (abort_event [])
  = Ok ["case result visible_http_status does not match canonical event";
        "strict post-commit abort must preserve the already visible HTTP status"] /\
  judge_abort (abort_record []) (dict_set "transaction_id" (PStr "t2") (abort_event []))
  = Ok ["protocol event transaction_id does not match case result"] /\
  judge_abort (dict_set "fallback_used" (PBool true) (abort_record []))
    (dict_set "fallback_used" (PBool true) (abort_event []))
  = Ok ["protocol PASS requires fallback_used=false"; "protocol PASS requires fallback_used=false"].
Proof. vm_compute. repeat split. Qed.

Lemma protocol_pass_sound_witness :
  modern_provenance (abort_record []) (abort_event []) "h3".
Proof.
  apply (protocol_pass_sound (abort_record []) (abort_event []) None None (Some "h3"));
    [vm_compute; reflexivity|by left|right; right; by left|by left].
Defined.

Lemma phase4_pass_sound_witness :
  exists event witness, phase4_verified small_event_schema 9 (abort_record []) event witness (Some "h3") None /\
    aborted (abort_record []) event true.
Proof.
  destruct (phase4_pass_sound small_event_schema 9 [] (abort_record []) (Some (abort_event [])) [] (Some "h3") None
    [abort_event []] ltac:(vm_compute; reflexivity) ltac:(apply str_in_In; vm_compute; reflexivity))
    as (_ & event & witness & _ & H).
  exists event, witness. split; [exact H|]. destruct H as [_ _ _ _ _ [_ _ H _ _]]. apply H. right; by left.
Defined.

(** A rule identifier with two signs passes the test for digits, but [int] raises. *)
Example rule_identifier_ex :
  protocol_pass_errors (dict_set "observed_rule_ids" (PList [PStr "--5"]) (abort_record [])) (Some (abort_event []))
    None None (Some "h3") = Err (ValueError "invalid literal for int()").
Proof. vm_compute. reflexivity. Qed.
