(* ===== verification/ResultIdentity.v ===== *)
(** * Identity of results and client observations (result_identity.py)

    The identity of a result, and the closed receipt of a completed client
    observation, sealed by two digests.  [sha256] maps the UTF-8 bytes of a text to
    its hexadecimal digest. *)

From S2P Require Export PyValue Regex.
#[global] Open Scope Z_scope.

(** [\[A-Za-z0-9:._/-\]{1,256}] *)
Definition token_char (c : ascii) : bool := is_alnum c || char_in ":._/-" c.
Definition _RESULT_IDENTITY_TOKEN_PATTERN : re := RRep (RCls token_char) 1 (Some 256%nat).
(** [\[0-9a-f\]{40}(?:\[0-9a-f\]{24})?] *)
Definition REVISION_PATTERN : re := RCat (RTimes (RCls is_hex_lower) 40) (ROpt (RTimes (RCls is_hex_lower) 24)).
Definition NONCE_PATTERN : re := RCat (RLit "request-") (RTimes (RCls is_hex_lower) 32).
Definition DIGEST_PATTERN : re := RTimes (RCls is_hex_lower) 64.

(** [isinstance(v, str) and re.fullmatch(p, v) is not None] *)
Definition matches (p : re) (v : pyval) : bool := match v with PStr s => fullmatch_str p s | _ => false end.

Definition refuse {A} (m : string) : res A := Err (ValueError m).
Definition demand (b : bool) (m : string) : res unit := guard b (ValueError m).

(** The validated text of a field. *)
Definition identity_field (field : string) (binding : pydict) : res (string * string) :=
  match dict_get field binding with
  | PStr s => if fullmatch_str _RESULT_IDENTITY_TOKEN_PATTERN s then Ok (field, s)
              else refuse ("result identity requires a bounded explicit " +:+ field)
  | _ => refuse ("result identity requires a bounded explicit " +:+ field)
  end.

Definition validate_result_context (binding : pydict) : res (list (string * string)) :=
  let* validated := mapM (fun field => identity_field field binding) ["run_id"; "case_id"; "source_revision"] in
  demand (matches REVISION_PATTERN (dict_get "source_revision" binding))
    "result identity requires an exact source revision" ;;;
  Ok validated.

Definition validate_result_binding (binding : pydict) : res (list (string * string)) :=
  let* validated := validate_result_context binding in
  let* ids := mapM (fun field => identity_field field binding) ["request_id"; "transaction_id"] in
  Ok (validated ++ ids).

(** ** The client observation *)

(** A non-Boolean integer between two bounds. *)
Definition whole_between (lo hi : Z) (v : pyval) : bool :=
  match v with PInt z => (lo <=? z) && (z <=? hi) | _ => false end.

Definition NATIVE_EVIDENCE_FIELDS : list string :=
  ["native_operation_receipt"; "configtest_receipt"; "first_byte_binding_path"; "first_byte_evidence_path"].

Definition _validate_client_observation (binding : pydict) (validated : list (string * string))
    : res (list (string * string)) :=
  match dict_get "request_id" binding with
  | PStr request =>
      demand (fullmatch_str NONCE_PATTERN request) "request observation requires its own bounded request nonce" ;;;
      demand (eq_str (dict_get "evidence_identity" binding) "request_bound"
              && is_none (dict_get "transaction_id" binding)
              && py_eq (dict_get "transaction_ids" binding) (PList [])
              && is_false (dict_get "runtime_verified" binding) && is_false (dict_get "promotion_allowed" binding)
              && is_true (dict_get "live_executed" binding)
              && str_in (py_lower (py_str (dict_get "status" binding))) ["pass"; "fail"]
              && whole_between 100 599 (dict_get "actual_status" binding))
        "request observation must remain client-only and non-promoting" ;;;
      demand (forallb (fun field => is_none (dict_get field binding)) NATIVE_EVIDENCE_FIELDS)
        "client observation cannot claim native host evidence" ;;;
      Ok (validated ++ [("request_id", request)])
  | _ => refuse "request observation requires its own bounded request nonce"
  end.

(** ** The receipt *)

Definition RECEIPT_FIELDS : list string :=
  ["schema_version"; "state"; "run_id"; "case_id"; "request_id"; "source_revision"; "event_log"; "case_sha256";
   "begin_sha256"; "prefix_sha256"; "interval_sha256"; "start_offset"; "end_offset"; "receipt_sha256"].
Definition DIGEST_FIELDS : list string :=
  ["receipt_sha256"; "begin_sha256"; "case_sha256"; "prefix_sha256"; "interval_sha256"].
Definition CONTEXT_FIELDS : list string := ["run_id"; "case_id"; "request_id"; "source_revision"].

Fixpoint validated_text (field : string) (validated : list (string * string)) : option string :=
  match validated with
  | [] => None
  | (f, s) :: r => if String.eqb f field then Some s else validated_text field r
  end.

(** [0 <= start <= end] for two non-Boolean integers. *)
Definition bounded_interval (start end_ : pyval) : bool :=
  match start, end_ with PInt s, PInt e => (0 <=? s) && (s <=? e) | _, _ => false end.

Definition _validated_observation_proof (binding : pydict) (validated : list (string * string)) : res pydict :=
  match dict_get "request_observation" binding with
  | PDict proof =>
      demand (eq_str (dict_get "state" proof) "completed" && eq_int (dict_get "schema_version" proof) 2)
        "request observation requires a completed pinned window receipt" ;;;
      demand (forallb (fun field => match validated_text field validated with
                                    | Some s => eq_str (dict_get field proof) s
                                    | None => false
                                    end) CONTEXT_FIELDS)
        "request observation nonce or context differs from its receipt" ;;;
      demand (forallb (fun field => matches DIGEST_PATTERN (dict_get field proof)) DIGEST_FIELDS)
        "request observation requires complete receipt digests" ;;;
      demand (bounded_interval (dict_get "start_offset" proof) (dict_get "end_offset" proof))
        "request observation requires bounded completed interval offsets" ;;;
      demand (keys_exactly proof RECEIPT_FIELDS) "request observation receipt fields are incomplete" ;;;
      Ok proof
  | _ => refuse "request observation requires a completed pinned window receipt"
  end.

Definition newline : string := L2S [chr 10].
(** [json.dumps(value, sort_keys=True) + newline] *)
Definition canonical_line (d : pydict) : string := json_dumps ", " ": " (PDict d) +:+ newline.

(** The receipt without its own digest, and the receipt the observation began with. *)
Definition sealed_receipt (proof : pydict) : pydict :=
  List.filter (fun p => negb (eq_str (fst p) "receipt_sha256")) proof.
Definition BEGIN_FIELDS : list string :=
  ["schema_version"; "run_id"; "case_id"; "request_id"; "source_revision"; "event_log"; "case_sha256";
   "start_offset"; "prefix_sha256"].
Definition begun_receipt (proof : pydict) : res pydict :=
  let* values := mapM (fun field => let* v := dict_item field proof in Ok (field, v)) BEGIN_FIELDS in
  Ok (mkdict (values ++ [("state", PStr "begun")])).

Section Digests.
Variable sha256 : string -> string.

Definition _verify_observation_hashes (proof : pydict) : res unit :=
  let* receipt_sha256 := dict_item "receipt_sha256" proof in
  demand (eq_str receipt_sha256 (sha256 (canonical_line (sealed_receipt proof))))
    "request observation receipt digest does not bind its nonce and context" ;;;
  let* begin := begun_receipt proof in
  let* begin_sha256 := dict_item "begin_sha256" proof in
  demand (eq_str begin_sha256 (sha256 (canonical_line begin)))
    "request observation begin digest does not bind its nonce and context".

Definition validate_request_observation (binding : pydict) : res (list (string * string)) :=
  let* validated := validate_result_context binding in
  let* validated := _validate_client_observation binding validated in
  let* proof := _validated_observation_proof binding validated in
  _verify_observation_hashes proof ;;;
  Ok validated.
End Digests.

(** [if value in (None, ""): continue] *)
Definition summary_field (field : string) (value : pyval) : res (list (string * string)) :=
  if none_or_empty value then Ok []
  else match value with
  | PStr s =>
      demand (fullmatch_str _RESULT_IDENTITY_TOKEN_PATTERN s)
        ("summary requires a bounded explicit " +:+ field +:+ " identity") ;;;
      demand (negb (String.eqb field "source_revision") || fullmatch_str REVISION_PATTERN s)
        "summary requires an exact source revision identity" ;;;
      Ok [(field, s)]
  | _ => refuse ("summary requires a bounded explicit " +:+ field +:+ " identity")
  end.
Definition validate_summary_identity (run_id source_revision : pyval) : res (list (string * string)) :=
  let* values := mapM (fun p => summary_field (fst p) (snd p))
                   [("run_id", run_id); ("source_revision", source_revision)] in
  Ok (concat values).
