(* ===== verification/IdentityTheorems.v ===== *)
(** * The text of [json.dumps] determines what it was written for

    A value's text is self-delimiting: a scanner that counts brackets outside of
    strings finds its end whatever follows.  Hence the text of an object determines
    its items, which the sealed receipts of result_identity.py rely on. *)

From S2P Require Export PyEquality.
#[global] Open Scope Z_scope.

(** ** Scanning one value *)

Inductive mode := Outside | Inside | Escaped.

Definition quote_char : ascii := Eval vm_compute in chr 34.
Definition escape_char : ascii := Eval vm_compute in chr 92.
Definition opens (c : ascii) : bool := char_in "[{" c.
Definition closes (c : ascii) : bool := char_in "]}" c.

(** What is before the end of the value at depth 0, and the rest. *)
Fixpoint scan (depth : nat) (m : mode) (l : chars) : chars * chars :=
  match l with
  | [] => ([], [])
  | c :: r =>
      let keep depth m := let (p, s) := scan depth m r in (c :: p, s) in
      match m with
      | Escaped => keep depth Inside
      | Inside => if Ascii.eqb c escape_char then keep depth Escaped
                  else if Ascii.eqb c quote_char then keep depth Outside else keep depth Inside
      | Outside =>
          if Ascii.eqb c quote_char then keep depth Inside
          else if opens c then keep (S depth) Outside
          else if closes c then match depth with O => ([], l) | S d => keep d Outside end
          else if Ascii.eqb c "," then match depth with O => ([], l) | S _ => keep depth Outside end
          else keep depth Outside
      end
  end.

(** Scanning passes over the text, in mode [m] before and [m'] after it. *)
Definition passes (depth : nat) (m m' : mode) (t : chars) : Prop :=
  forall l, scan depth m (t ++ l) = let (p, s) := scan depth m' l in (t ++ p, s).
Definition balanced (t : chars) : Prop := forall depth, passes depth Outside Outside t.

Lemma passes_app depth m m' m'' t u : passes depth m m' t -> passes depth m' m'' u -> passes depth m m'' (t ++ u).
Proof. intros H1 H2 l. rewrite <- app_assoc, H1, H2. destruct (scan depth m'' l). by rewrite app_assoc. Qed.

Lemma passes_nil depth m : passes depth m m [].
Proof. intros l. cbn. by destruct (scan depth m l). Qed.

Lemma balanced_app t u : balanced t -> balanced u -> balanced (t ++ u).
Proof. intros H1 H2 d. eapply passes_app; [apply H1|apply H2]. Qed.

(** Characters outside of strings that are no delimiters. *)
Definition plain_char_json (c : ascii) : bool :=
  negb (Ascii.eqb c quote_char) && negb (opens c) && negb (closes c) && negb (Ascii.eqb c ",").

Lemma plain_passes t : forallb plain_char_json t = true -> balanced t.
Proof.
  induction t as [|c t IH]; intros H d; [apply passes_nil|]. cbn [forallb] in H. apply andb_true_iff in H as [Hc Ht].
  intros l. cbn [app scan]. unfold plain_char_json in Hc. repeat (apply andb_true_iff in Hc as [Hc ?]).
  repeat match goal with H : negb _ = true |- _ => apply negb_true_iff in H; rewrite H end.
  rewrite (IH Ht d l). by destruct (scan d Outside l).
Qed.

Lemma comma_passes d : passes (S d) Outside Outside (S2L ", ").
Proof. intros l. cbn. by destruct (scan (S d) Outside l). Qed.

Lemma json_number_plain s : texts_over numeral s -> balanced (S2L s).
Proof.
  intros H. apply plain_passes. eapply forallb_forall. intros c Hc. unfold texts_over in H. rewrite forallb_forall in H.
  specialize (H c Hc). revert H. by destruct c as [[] [] [] [] [] [] [] []].
Qed.

(** ** Strings *)

Definition hex_code (c : ascii) : Z := if is_digit c then ord c - 48 else ord c - 87.

(** The character an encoding stands for. *)
Definition unescape (l : chars) : option (ascii * chars) :=
  match l with
  | [] => None
  | c :: r =>
      if Ascii.eqb c quote_char then None
      else if Ascii.eqb c escape_char then
        match r with
        | [] => None
        | e :: r => if Ascii.eqb e "n" then Some (chr 10, r) else if Ascii.eqb e "r" then Some (chr 13, r)
                    else if Ascii.eqb e "t" then Some (chr 9, r) else if Ascii.eqb e "f" then Some (chr 12, r)
                    else if Ascii.eqb e "b" then Some (chr 8, r)
                    else if Ascii.eqb e "u"
                    then match r with
                         | _ :: _ :: a :: b :: r => Some (chr (hex_code a * 16 + hex_code b), r)
                         | _ => None
                         end
                    else Some (e, r)
        end
      else Some (c, r)
  end.

Lemma unescape_char c l : unescape (json_char c ++ l) = Some (c, l).
Proof. by destruct c as [[] [] [] [] [] [] [] []]. Qed.

Lemma char_passes c d : passes d Inside Inside (json_char c).
Proof.
  intros l. destruct c as [[] [] [] [] [] [] [] []];
    match goal with |- context [json_char ?c] => let t := eval vm_compute in (json_char c) in change (json_char c) with t end;
    cbn; by destruct (scan d Inside l).
Qed.

Lemma body_passes s d : passes d Inside Inside (flat_map json_char s).
Proof. induction s as [|c s IH]; [apply passes_nil|]. eapply passes_app; [apply char_passes|exact IH]. Qed.

Lemma json_str_chars s : S2L (json_str s) = [quote_char] ++ flat_map json_char (S2L s) ++ [quote_char].
Proof. unfold json_str. by rewrite S2L_L2S. Qed.

Lemma json_str_balanced s : balanced (S2L (json_str s)).
Proof.
  intros d. rewrite json_str_chars. eapply passes_app with Inside; [|eapply passes_app; [apply body_passes|]];
    intros l; cbn; by destruct (scan _ _ l).
Qed.

Lemma body_determined s t x y :
  flat_map json_char s ++ quote_char :: x = flat_map json_char t ++ quote_char :: y -> s = t /\ x = y.
Proof.
  revert t. induction s as [|c s IH]; intros [|d t]; cbn [flat_map app]; intros H.
  - split; [done|congruence].
  - apply (f_equal unescape) in H. rewrite <- app_assoc, unescape_char in H. done.
  - apply (f_equal unescape) in H. rewrite <- app_assoc, unescape_char in H. done.
  - rewrite <- !app_assoc in H. apply (f_equal unescape) in H. rewrite !unescape_char in H.
    injection H as -> H. by apply IH in H as [-> ->].
Qed.

(** The text of a string determines it, and where it ends. *)
Lemma json_str_determined s t x y : S2L (json_str s) ++ x = S2L (json_str t) ++ y -> s = t /\ x = y.
Proof.
  rewrite !json_str_chars. cbn [app]. rewrite <- !app_assoc. cbn [app]. intros H. injection H as H.
  apply body_determined in H as [H ->]. by apply S2L_inj in H.
Qed.

Lemma json_str_inj s t : json_str s = json_str t -> s = t.
Proof. intros H. apply (json_str_determined s t [] []). by rewrite H. Qed.

(** ** Values *)

(** The printed form of every float is a numeral. *)
Fixpoint floats_plain (v : pyval) : bool :=
  match v with
  | PFloat _ r => forallb numeral (S2L r)
  | PList l => forallb floats_plain l
  | PDict d => forallb (fun kv => floats_plain (snd kv)) d
  | _ => true
  end.

Lemma concat_chars sep l : S2L (String.concat sep l) = join_chars (S2L sep) (map S2L l).
Proof.
  induction l as [|a [|b l] IH]; [done|done|]. cbn [String.concat map join_chars] in *. by rewrite !S2L_app, IH.
Qed.

Lemma join_passes d l : Forall balanced l -> passes (S d) Outside Outside (join_chars (S2L ", ") l).
Proof.
  induction 1 as [|a [|b l] Ha _ IH]; [apply passes_nil|apply Ha|]. change (join_chars _ (a :: b :: l)) with
    (a ++ S2L ", " ++ join_chars (S2L ", ") (b :: l)).
  eapply passes_app; [apply Ha|]. eapply passes_app; [apply comma_passes|exact IH].
Qed.

Lemma bracket_balanced o c l : opens o = true -> closes c = true -> Forall balanced l ->
  balanced ([o] ++ join_chars (S2L ", ") l ++ [c]).
Proof.
  intros Ho Hc Hl d. assert (o <> quote_char /\ c <> quote_char /\ opens c = false) as (Ho' & Hc' & Hoc).
  { split; [by intros ->|]. split; [by intros ->|]. revert Hc. by destruct c as [[] [] [] [] [] [] [] []]. }
  intros r. rewrite <- !app_assoc. cbn [app scan]. destruct (Ascii.eqb_spec o quote_char) as [->|_]; [done|]. rewrite Ho.
  rewrite (join_passes d l Hl (c :: r)). cbn [scan]. destruct (Ascii.eqb_spec c quote_char) as [->|_]; [done|].
  rewrite Hoc, Hc. destruct (scan d Outside r) as [p s]. by rewrite <- app_assoc.
Qed.

(** The text of an item of a dictionary. *)
Definition item_text (kv : string * string) : string := json_str (fst kv) +:+ ": " +:+ snd kv.
Definition item_texts (d : pydict) : list (string * string) :=
  isort item_leb (map (fun kv => (py_str (fst kv), json_dumps ", " ": " (snd kv))) d).

Lemma dumps_dict d : S2L (json_dumps ", " ": " (PDict d))
  = S2L "{" ++ join_chars (S2L ", ") (map (fun kv => S2L (item_text kv)) (item_texts d)) ++ S2L "}".
Proof. cbn [json_dumps]. rewrite !S2L_app, concat_chars, map_map. done. Qed.

Lemma item_balanced kv : balanced (S2L (snd kv)) -> balanced (S2L (item_text kv)).
Proof.
  intros H. unfold item_text. rewrite !S2L_app. apply balanced_app; [apply json_str_balanced|].
  by apply balanced_app; [apply plain_passes|].
Qed.

Lemma item_texts_In d k t : In (k, t) (item_texts d) <-> exists key v, In (key, v) d /\ k = py_str key /\
  t = json_dumps ", " ": " v.
Proof.
  unfold item_texts. rewrite isort_In, in_map_iff. split.
  - intros ([key v] & E & H). injection E as <- <-. by exists key, v.
  - intros (key & v & H & -> & ->). by exists (key, v).
Qed.

Lemma dumps_balanced v : floats_plain v = true -> balanced (S2L (json_dumps ", " ": " v)).
Proof.
  induction v using pyval_nested; intros Hf.
  - by apply plain_passes.
  - by destruct b; apply plain_passes.
  - apply json_number_plain, dec_numeral.
  - by apply json_number_plain.
  - apply json_str_balanced.
  - cbn [json_dumps]. rewrite !S2L_app, concat_chars, map_map. apply (bracket_balanced "[" "]"); [done|done|].
    apply List.Forall_map, List.Forall_forall. intros x Hx. cbn in Hf. rewrite List.Forall_forall in H.
    rewrite forallb_forall in Hf. auto.
  - rewrite dumps_dict. apply (bracket_balanced "{" "}"); [done|done|].
    apply List.Forall_map, List.Forall_forall. intros [k t] Hkt. apply item_texts_In in Hkt as (key & x & Hin & -> & ->).
    apply item_balanced. cbn in Hf |- *. rewrite List.Forall_forall in H. rewrite forallb_forall in Hf.
    by apply (H (key, x)), (Hf (key, x)).
Qed.

(** ** Objects *)

(** Balanced texts between commas, up to the closing bracket, are determined. *)
Lemma join_determined c a b x y : closes c = true -> Forall balanced a -> Forall balanced b ->
  Forall (fun t => t <> []) a -> Forall (fun t => t <> []) b ->
  join_chars (S2L ", ") a ++ c :: x = join_chars (S2L ", ") b ++ c :: y -> a = b.
Proof.
  intros Hc Ha. revert b.
  assert (Hend : forall r, scan 0 Outside (c :: r) = ([], c :: r)).
  { intros r. cbn [scan]. destruct (Ascii.eqb_spec c quote_char) as [->|_]; [done|]. rewrite Hc.
    revert Hc. by destruct c as [[] [] [] [] [] [] [] []]. }
  (* the first text and what follows *)
  assert (Hfirst : forall t l z, balanced t -> exists rest,
    join_chars (S2L ", ") (t :: l) ++ c :: z = t ++ rest /\ scan 0 Outside (t ++ rest) = (t, rest) /\
    rest = match l with [] => c :: z | _ => S2L ", " ++ join_chars (S2L ", ") l ++ c :: z end).
  { intros t l z Ht. eexists. split; [|split; [|reflexivity]].
    - destruct l; [done|]. cbn [join_chars]. by rewrite <- !app_assoc.
    - rewrite (Ht 0%nat). destruct l; [rewrite Hend; by rewrite app_nil_r|]. cbn. by rewrite app_nil_r. }
  assert (Hne : forall t l z z', balanced t -> t <> [] -> join_chars (S2L ", ") (t :: l) ++ c :: z <> c :: z').
  { intros t l z z' Ht Hn E. destruct (Hfirst t l z Ht) as (r & E1 & E2 & _). rewrite <- E1, E, Hend in E2. congruence. }
  induction Ha as [|s a Hs Ha IH]; intros b Hb Na Nb E.
  - destruct b as [|t b]; [done|]. exfalso. apply Forall_cons in Hb as [Ht _]. apply Forall_cons in Nb as [Nt _].
    symmetry in E. by apply Hne in E.
  - apply Forall_cons in Na as [Ns Na]. destruct b as [|t b].
    { exfalso. by apply Hne in E. }
    apply Forall_cons in Hb as [Ht Hb]. apply Forall_cons in Nb as [Nt Nb].
    destruct (Hfirst s a x Hs) as (r1 & E1 & S1 & R1). destruct (Hfirst t b y Ht) as (r2 & E2 & S2 & R2).
    assert (s = t /\ r1 = r2) as [-> R].
    { rewrite E1, E2 in E. rewrite E, S2 in S1. injection S1 as -> ->. done. }
    f_equal. rewrite R1, R2 in R. clear E E1 E2 S1 S2 R1 R2 r1 r2. destruct a as [|a0 a], b as [|b0 b].
    + done.
    + exfalso. cbn in R. injection R as -> _. done.
    + exfalso. cbn in R. injection R as <- _. done.
    + apply IH; [done|done|done|]. by apply app_inv_head in R.
Qed.

Lemma item_nonempty kv : S2L (item_text kv) <> [].
Proof. unfold item_text. rewrite S2L_app, json_str_chars. done. Qed.

Lemma item_text_inj a b : item_text a = item_text b -> a = b.
Proof.
  intros H. apply (f_equal S2L) in H. unfold item_text in H. rewrite !S2L_app in H.
  apply json_str_determined in H as [Hk H]. apply app_inv_head, S2L_inj in H. destruct a, b. cbn in *. congruence.
Qed.

(** Two objects with the same text have the same items, up to the order and the
    text of their values; whatever follows the text. *)
Lemma dumps_items d e x y : floats_plain (PDict d) = true -> floats_plain (PDict e) = true ->
  S2L (json_dumps ", " ": " (PDict d)) ++ x = S2L (json_dumps ", " ": " (PDict e)) ++ y -> item_texts d = item_texts e.
Proof.
  intros Hd He. rewrite !dumps_dict, <- !app_assoc. intros H. apply app_inv_head in H.
  assert (B : forall f, floats_plain (PDict f) = true -> Forall balanced (map (fun kv => S2L (item_text kv)) (item_texts f))).
  { intros f Hf. apply List.Forall_map, List.Forall_forall. intros [k t] Hin.
    apply item_texts_In in Hin as (key & v & Hin & -> & ->). apply item_balanced, dumps_balanced.
    cbn in Hf. rewrite forallb_forall in Hf. by apply (Hf (key, v)). }
  assert (N : forall f, Forall (fun t => t <> []) (map (fun kv => S2L (item_text kv)) (item_texts f))).
  { intros f. apply List.Forall_map, List.Forall_forall. intros kv _. apply item_nonempty. }
  apply (join_determined "}") in H; [|done|by apply B|by apply B|apply N|apply N].
  apply (list_fmap_eq_inj (fun kv => S2L (item_text kv))); [|exact H]. intros a b Hab. by apply S2L_inj, item_text_inj in Hab.
Qed.

(** With distinct keys the text of every field is determined. *)
Lemma dict_find_NoDup k d v : List.NoDup (keys d) -> In (PStr k, v) d -> dict_find k d = Some v.
Proof.
  induction d as [|[c w] d IH]; [done|]. cbn [keys map fst]. intros Hn [E|Hin]; inversion Hn as [|? ? Hc Hd]; subst.
  - injection E as -> ->. cbn [dict_find]. by rewrite eq_str_refl.
  - cbn [dict_find]. destruct (eq_str c k) eqn:Ek; [|by apply IH].
    apply eq_str_true in Ek as ->. exfalso. apply Hc. change (PStr k) with (fst (PStr k, v)). by apply in_map.
Qed.

Lemma dumps_fields d e x y : floats_plain (PDict d) = true -> floats_plain (PDict e) = true ->
  Forall (fun k => is_str k = true) (keys e) -> List.NoDup (keys e) ->
  S2L (json_dumps ", " ": " (PDict d)) ++ x = S2L (json_dumps ", " ": " (PDict e)) ++ y ->
  forall k v, dict_find k d = Some v ->
  exists w, dict_find k e = Some w /\ json_dumps ", " ": " v = json_dumps ", " ": " w.
Proof.
  intros Hd He Hs Hn H k v Hk. apply dumps_items in H; [|done|done]. apply dict_find_In in Hk.
  assert (Hin : In (k, json_dumps ", " ": " v) (item_texts e)).
  { rewrite <- H. apply item_texts_In. by exists (PStr k), v. }
  apply item_texts_In in Hin as (key & w & Hin & Hkey & Ht). exists w. split; [|done].
  apply dict_find_NoDup; [done|]. rewrite List.Forall_forall in Hs.
  specialize (Hs key (in_map fst _ _ Hin)). destruct key; try done. cbn in Hkey. by subst.
Qed.

(** * Theorems of the client observation: client-only, sealed, bound to its identity *)

From S2P Require Export ResultIdentity.
From Stdlib Require Import QArith.
#[global] Open Scope Z_scope.

Lemma demand_Ok b m : demand b m = Ok tt <-> b = true.
Proof. by destruct b. Qed.

(** The continuation of a test that passed. *)
Lemma demand_then {A} b m (k : res A) r : (demand b m ;;; k) = Ok r -> b = true /\ k = Ok r.
Proof. by destruct b. Qed.

Lemma identity_field_Ok field b p : identity_field field b = Ok p ->
  fst p = field /\ dict_get field b = PStr (snd p) /\ fullmatch_str _RESULT_IDENTITY_TOKEN_PATTERN (snd p) = true.
Proof.
  unfold identity_field. destruct (dict_get field b) as [| | | |s| |]; try done.
  destruct (fullmatch_str _ s) eqn:E; [|done]. intros H. by apply Ok_inj in H as <-.
Qed.

Lemma context_Ok b v : validate_result_context b = Ok v ->
  exists run case revision, v = [("run_id", run); ("case_id", case); ("source_revision", revision)] /\
    dict_get "run_id" b = PStr run /\ dict_get "case_id" b = PStr case /\ dict_get "source_revision" b = PStr revision /\
    Forall (fun s => fullmatch_str _RESULT_IDENTITY_TOKEN_PATTERN s = true) [run; case; revision].
Proof.
  unfold validate_result_context. destruct (mapM _ _) as [l|] eqn:E; [|done]. intros H.
  apply demand_then in H as [_ H]. apply Ok_inj in H as <-.
  apply mapM_Ok_Forall2 in E. repeat match goal with H : Forall2 _ (_ :: _) _ |- _ => inversion H; clear H; subst end.
  match goal with H : Forall2 _ [] _ |- _ => inversion H; subst end.
  repeat match goal with H : identity_field _ _ = Ok ?p |- _ => destruct p; apply identity_field_Ok in H as (? & ? & ?); cbn in *; subst end.
  do 3 eexists. split; [reflexivity|]. by repeat (split; [eassumption|]); repeat constructor.
Qed.

(** What keeps a client observation apart from evidence of the host. *)
Record client_only (b : pydict) : Prop := {
  co_mode : dict_get "evidence_identity" b = PStr "request_bound";
  co_transaction : dict_get "transaction_id" b = PNone;
  co_transactions : dict_get "transaction_ids" b = PList [];
  co_unverified : dict_get "runtime_verified" b = PBool false;
  co_unpromoted : dict_get "promotion_allowed" b = PBool false;
  co_live : dict_get "live_executed" b = PBool true;
  co_verdict : In (py_lower (py_str (dict_get "status" b))) ["pass"; "fail"];
  co_status : exists z, dict_get "actual_status" b = PInt z /\ 100 <= z <= 599;
  co_no_native : forall field, In field NATIVE_EVIDENCE_FIELDS -> dict_get field b = PNone }.

Lemma none_eq v : is_none v = true <-> v = PNone.
Proof. by destruct v. Qed.

Lemma empty_list_eq v : py_eq v (PList []) = true <-> v = PList [].
Proof. destruct v as [| | | | |[|]|]; by split. Qed.

Lemma client_Ok b v w : _validate_client_observation b v = Ok w -> client_only b /\
  exists request, w = v ++ [("request_id", request)] /\ dict_get "request_id" b = PStr request /\
    fullmatch_str NONCE_PATTERN request = true.
Proof.
  unfold _validate_client_observation. destruct (dict_get "request_id" b) as [| | | |s| |]; try done.
  intros H. apply demand_then in H as [Hn H]. apply demand_then in H as [Hc H]. apply demand_then in H as [Hf H].
  apply Ok_inj in H as <-. repeat (apply andb_true_iff in Hc as [Hc ?]).
  split; [|by exists s]. rewrite forallb_forall in Hf. constructor.
  - by apply eq_str_true.
  - by apply none_eq.
  - by apply empty_list_eq.
  - by apply is_false_eq.
  - by apply is_false_eq.
  - by apply is_true_eq.
  - by apply str_in_In.
  - destruct (dict_get "actual_status" b) as [| |z| | | |]; try done. exists z. split; [done|].
    match goal with H : whole_between _ _ _ = true |- _ => cbn in H; lia end.
  - intros field Hin. by apply none_eq, Hf.
Qed.

(** The text of a dictionary's field, for the fields of the identity. *)
Lemma proof_Ok b v p : _validated_observation_proof b v = Ok p -> dict_get "request_observation" b = PDict p /\
  (forall field s, In field CONTEXT_FIELDS -> validated_text field v = Some s -> dict_get field p = PStr s) /\
  keys_exactly p RECEIPT_FIELDS = true /\ bounded_interval (dict_get "start_offset" p) (dict_get "end_offset" p) = true.
Proof.
  unfold _validated_observation_proof. destruct (dict_get "request_observation" b) as [| | | | | |d]; try done.
  intros H. apply demand_then in H as [_ H]. apply demand_then in H as [Hc H]. apply demand_then in H as [_ H].
  apply demand_then in H as [Hi H]. apply demand_then in H as [Hk H]. apply Ok_inj in H as <-.
  split; [done|]. split; [|by split]. intros field s Hin Hs. rewrite forallb_forall in Hc. specialize (Hc field Hin).
  rewrite Hs in Hc. by apply eq_str_true.
Qed.

Section Binding.
Variable sha256 : string -> string.

Lemma hashes_Ok p : _verify_observation_hashes sha256 p = Ok tt ->
  dict_get "receipt_sha256" p = PStr (sha256 (canonical_line (sealed_receipt p))) /\
  exists begin, begun_receipt p = Ok begin /\ dict_get "begin_sha256" p = PStr (sha256 (canonical_line begin)).
Proof.
  unfold _verify_observation_hashes. intros H. unfold dict_get, dict_get_or.
  destruct (dict_item "receipt_sha256" p) as [r|] eqn:Er; [|done]. apply dict_item_Ok in Er as ->.
  apply demand_then in H as [Hr H]. apply eq_str_true in Hr.
  destruct (begun_receipt p) as [begin|]; [|done].
  destruct (dict_item "begin_sha256" p) as [d|] eqn:Ed; [|done]. apply dict_item_Ok in Ed as ->.
  apply demand_Ok, eq_str_true in H. split; [done|]. by exists begin.
Qed.

Record accepted (b : pydict) (v : list (string * string)) (p : pydict) : Prop := {
  ac_client : client_only b;
  ac_proof : dict_get "request_observation" b = PDict p;
  ac_fields : keys_exactly p RECEIPT_FIELDS = true;
  ac_interval : exists s e, dict_get "start_offset" p = PInt s /\ dict_get "end_offset" p = PInt e /\ 0 <= s <= e;
  ac_identity : map fst v = ["run_id"; "case_id"; "source_revision"; "request_id"] /\
                forall f s, In (f, s) v -> dict_get f b = PStr s /\ dict_get f p = PStr s;
  ac_sealed : dict_get "receipt_sha256" p = PStr (sha256 (canonical_line (sealed_receipt p)));
  ac_begun : exists begin, begun_receipt p = Ok begin /\ dict_get "begin_sha256" p = PStr (sha256 (canonical_line begin)) }.

Lemma observation_accepted b v : validate_request_observation sha256 b = Ok v -> exists p, accepted b v p.
Proof.
  unfold validate_request_observation. destruct (validate_result_context b) as [v0|] eqn:E0; [|done].
  destruct (_validate_client_observation b v0) as [v1|] eqn:E1; [|done].
  destruct (_validated_observation_proof b v1) as [p|] eqn:E2; [|done].
  destruct (_verify_observation_hashes sha256 p) as [[]|] eqn:E3; [|done]. intros H. apply Ok_inj in H as <-.
  apply context_Ok in E0 as (run & case & revision & -> & H1 & H2 & H3 & _).
  apply client_Ok in E1 as (Hc & request & -> & H4 & _). apply proof_Ok in E2 as (Hp & Hctx & Hk & Hi).
  apply hashes_Ok in E3 as [Hs Hb]. exists p. constructor; try done.
  - destruct (dict_get "start_offset" p) as [| |s| | | |]; try done.
    destruct (dict_get "end_offset" p) as [| |e| | | |]; try done. exists s, e. cbn in Hi. repeat split; lia.
  - split; [done|]. intros f s Hin. cbn in Hin.
    repeat (destruct Hin as [[= <- <-]|Hin]; [split; [done|]; apply Hctx; [apply str_in_In; reflexivity|done]|]). done.
Qed.

(** Two different texts with one digest. *)
Definition collision (a b : string) : Prop := a <> b /\ sha256 a = sha256 b.

Lemma sealed_find k p : k <> "receipt_sha256" -> dict_find k (sealed_receipt p) = dict_find k p.
Proof.
  intros Hk. induction p as [|[c v] p IH]; [done|]. cbn [sealed_receipt List.filter fst dict_find].
  destruct (eq_str c "receipt_sha256") eqn:E; cbn [negb dict_find].
  - apply eq_str_true in E as ->. cbn [eq_str]. destruct (String.eqb_spec "receipt_sha256" k) as [<-|]; [done|exact IH].
  - destruct (eq_str c k); [done|exact IH].
Qed.

Lemma sealed_sub p : incl (sealed_receipt p) p.
Proof. intros x Hx. by apply filter_In in Hx as [? _]. Qed.

Lemma sealed_keys p : List.NoDup (keys p) -> List.NoDup (keys (sealed_receipt p)).
Proof.
  unfold keys. induction p as [|[c v] p IH]; [done|]. cbn [map fst]. inversion 1; subst.
  cbn [sealed_receipt List.filter]. destruct (negb _); [|by apply IH]. cbn [map fst]. constructor; [|by apply IH].
  intros Hin. apply in_map_iff in Hin as (x & E & Hx). apply sealed_sub in Hx. apply (in_map fst) in Hx. rewrite E in Hx. done.
Qed.

Lemma sealed_floats p : floats_plain (PDict p) = true -> floats_plain (PDict (sealed_receipt p)) = true.
Proof. cbn. rewrite !forallb_forall. intros H x Hx. by apply H, sealed_sub. Qed.

Lemma exact_keys_str p fields : keys_exactly p fields = true -> Forall (fun k => is_str k = true) (keys p).
Proof.
  unfold keys_exactly, keys_within. rewrite andb_true_iff, forallb_forall. intros [H _].
  apply List.Forall_forall. intros k Hk. apply in_map_iff in Hk as (kv & <- & Hin).
  specialize (H kv Hin). apply in_strs_true in H as (s & -> & _). done.
Qed.

Lemma sealed_strs p : keys_exactly p RECEIPT_FIELDS = true -> Forall (fun k => is_str k = true) (keys (sealed_receipt p)).
Proof.
  intros H. apply exact_keys_str in H. rewrite List.Forall_forall in H |- *. intros k Hk.
  apply in_map_iff in Hk as (kv & <- & Hin). by apply H, in_map, sealed_sub.
Qed.

(** Equal texts of sealed receipts: equal fields. *)
Lemma sealed_fields p1 p2 field : keys_exactly p1 RECEIPT_FIELDS = true -> keys_exactly p2 RECEIPT_FIELDS = true ->
  floats_plain (PDict p1) = true -> floats_plain (PDict p2) = true -> List.NoDup (keys p2) ->
  canonical_line (sealed_receipt p1) = canonical_line (sealed_receipt p2) ->
  In field RECEIPT_FIELDS -> field <> "receipt_sha256" ->
  json_dumps ", " ": " (dict_get field p1) = json_dumps ", " ": " (dict_get field p2).
Proof.
  intros K1 K2 F1 F2 N E Hin Hne. apply (f_equal S2L) in E. unfold canonical_line in E. rewrite !S2L_app in E.
  destruct (keys_exactly_has _ _ field K1 Hin) as [v Hv].
  destruct (dumps_fields _ _ _ _ (sealed_floats p1 F1) (sealed_floats p2 F2) (sealed_strs p2 K2) (sealed_keys p2 N) E field v)
    as (w & Hw & Ht); [by rewrite sealed_find|].
  rewrite sealed_find in Hw by done. unfold dict_get, dict_get_or. by rewrite Hv, Hw.
Qed.

(** C38: the digest of a receipt binds the observation: two accepted client observations
    whose receipts carry the same digest agree on the whole identity (run, case, source
    revision and request nonce) and on every field of the receipt, digests and offsets
    included; otherwise the texts that were hashed, the canonical lines of the two sealed
    receipts, are themselves two different texts with the same SHA-256 digest.  The floats of
    the receipts are printed as JSON prints them. *)
Theorem request_observation_binds b1 b2 v1 v2 p1 p2 :
  validate_request_observation sha256 b1 = Ok v1 -> validate_request_observation sha256 b2 = Ok v2 ->
  dict_get "request_observation" b1 = PDict p1 -> dict_get "request_observation" b2 = PDict p2 ->
  floats_plain (PDict p1) = true -> floats_plain (PDict p2) = true -> List.NoDup (keys p2) ->
  dict_get "receipt_sha256" p1 = dict_get "receipt_sha256" p2 ->
  (v1 = v2 /\ forall field, In field RECEIPT_FIELDS ->
     json_dumps ", " ": " (dict_get field p1) = json_dumps ", " ": " (dict_get field p2)) \/
  collision (canonical_line (sealed_receipt p1)) (canonical_line (sealed_receipt p2)).
Proof.
  intros H1 H2 E1 E2 F1 F2 N Hd.
  destruct (observation_accepted _ _ H1) as (p & A1). assert (p = p1) as -> by (destruct A1; congruence).
  destruct (observation_accepted _ _ H2) as (p & A2). assert (p = p2) as -> by (destruct A2; congruence).
  destruct A1 as [_ _ K1 _ [V1 I1] S1 _]. destruct A2 as [_ _ K2 _ [V2 I2] S2 _].
  destruct (String.eqb_spec (canonical_line (sealed_receipt p1)) (canonical_line (sealed_receipt p2))) as [E|E].
  2: { right. split; [exact E|]. congruence. }
  left. assert (G : forall field, In field RECEIPT_FIELDS ->
    json_dumps ", " ": " (dict_get field p1) = json_dumps ", " ": " (dict_get field p2)).
  { intros field Hin. destruct (String.eqb_spec field "receipt_sha256") as [->|Hne]; [by rewrite Hd|].
    by apply sealed_fields. }
  split; [|exact G].
  assert (A : forall f s t, In (f, s) v1 -> In (f, t) v2 -> In f RECEIPT_FIELDS -> s = t).
  { intros f s t Hs Ht Hf. specialize (G f Hf). rewrite (proj2 (I1 f s Hs)), (proj2 (I2 f t Ht)) in G.
    by apply json_str_inj in G. }
  destruct v1 as [|[a1 s1] [|[a2 s2] [|[a3 s3] [|[a4 s4] [|]]]]]; try done.
  destruct v2 as [|[c1 t1] [|[c2 t2] [|[c3 t3] [|[c4 t4] [|]]]]]; try done.
  injection V1 as -> -> -> ->. injection V2 as -> -> -> ->.
  rewrite (A "run_id" s1 t1), (A "case_id" s2 t2), (A "source_revision" s3 t3), (A "request_id" s4 t4); try done;
    first [by apply str_in_In|cbn; tauto].
Qed.
End Binding.
