(* ===== verification/CaseArtifacts.v ===== *)
(** * Receipts of configuration tests (no_crs_baseline.py)

    The closed contracts of the configuration cases (with
    nginx_migration_config_contracts.py), and the checks of the receipt a
    configuration case must carry.  The checked-in receipt schema is a parameter. *)

From S2P Require Export PassPhase4 ResultIdentity.
From Stdlib Require Import QArith.
#[global] Open Scope Z_scope.

(** ** Identity of a case *)

(** The bounded text of a provenance field, or [None]. *)
Definition optional_case_provenance (value : pyval) (maximum : Z) (field : string) : res (option string) :=
  if _empty_runtime_value value then Ok None
  else match value with
  | PStr s =>
      let normalized := py_strip s in
      if String.eqb normalized "" || (maximum <? str_len normalized)
      then Err (ContractError ("invalid " +:+ field +:+ ": expected a bounded non-empty string"))
      else Ok (Some normalized)
  | _ => Err (ContractError ("invalid " +:+ field +:+ ": expected a string"))
  end.

Definition case_identifier (raw : pydict) : string :=
  py_strip (text_of (py_or (py_or (dict_get "case_id" raw) (dict_get "case" raw)) (dict_get "name" raw))).

Definition config_invocation_for_case (case : pydict) (connector : string) : option pydict :=
  match dict_get "config_invocations" case with
  | PDict invocations => match dict_get connector invocations with PDict invocation => Some invocation | _ => None end
  | _ => None
  end.

(** ** The closed contracts *)

Definition in_quotes (s : string) : string := L2S ([chr 34] ++ S2L s ++ [chr 34]).
Definition contract (operation directive value : string) (exit_code : Z) (outcome error_class : string)
    (fragments : list string) : pydict :=
  mkdict [("operation", PStr operation); ("directive", PStr directive); ("value", PStr value);
          ("expected_exit_code", PInt exit_code); ("expected_outcome", PStr outcome); ("error_class", PStr error_class);
          ("diagnostic_fragments", PList (map PStr fragments))].
Definition rejection (directive value error_class : string) (fragments : list string) : pydict :=
  contract "configtest" directive value 1 "config_rejected" error_class fragments.

Definition nginx_migration_config_contracts : list (string * pydict) :=
  [("invalid_status",
    rejection "modsecurity_rules"
      ("SecRule REQUEST_URI " +:+ in_quotes "@unconditionalMatch" +:+ " "
       +:+ in_quotes "id:1100901,phase:1,deny,status:not-a-number") "invalid_status"
      [in_quotes "modsecurity_rules" +:+ " directive Rules error"; "Expecting an action, got:  status:not-a-number"]);
   ("phase4_invalid_scope_file",
    rejection "modsecurity_phase4_content_types_file" "invalid-content-type-scope.txt" "phase4_invalid_scope_file"
      ["unknown directive " +:+ in_quotes "modsecurity_phase4_content_types_file"]);
   ("phase4_wildcard_scope_rejected",
    rejection "modsecurity_phase4_content_types_file" "wildcard-content-type-scope.txt"
      "phase4_wildcard_scope_rejected"
      ["unknown directive " +:+ in_quotes "modsecurity_phase4_content_types_file"])].

Definition NGINX_VALID_RULES_FILE_NAME : string := "no-crs-baseline.conf".
Definition NGINX_MISSING_RULES_FILE_NAME : string := "missing-rules.conf".
Definition NGINX_CONFIGTEST_CONTRACTS : list (string * pydict) :=
  nginx_migration_config_contracts ++
  [("valid_rules_file",
    contract "startup" "modsecurity_rules_file" NGINX_VALID_RULES_FILE_NAME 0 "config_accepted" "none"
      ["syntax is ok"; "test is successful"]);
   ("missing_rules_file",
    rejection "modsecurity_rules_file" NGINX_MISSING_RULES_FILE_NAME "missing_rules_file"
      [in_quotes "modsecurity_rules_file" +:+ " directive"; NGINX_MISSING_RULES_FILE_NAME; "Failed to open the file"]);
   ("invalid_rule_syntax",
    rejection "modsecurity_rules" "SecRule REQUEST_URI" "invalid_rule_syntax"
      [in_quotes "modsecurity_rules" +:+ " directive"; "syntax error"]);
   ("unknown_config_key",
    rejection "modsecurity_unknown_config_key" "on" "unknown_config_key"
      ["unknown directive " +:+ in_quotes "modsecurity_unknown_config_key"]);
   ("unsafe_event_path",
    rejection "modsecurity_phase4_log" "unsafe-event-directory" "unsafe_event_path"
      ["modsecurity_phase4_log " +:+ L2S [chr 34];
       "unsafe-event-directory" +:+ L2S [chr 34] +:+ " is not a secure private event file"]);
   ("invalid_boolean",
    rejection "modsecurity" "maybe" "invalid_boolean"
      [in_quotes "modsecurity" +:+ " directive"; "invalid boolean value"]);
   ("invalid_size",
    rejection "modsecurity_phase4_body_limit" "1048576" "removed_directive"
      ["unknown directive " +:+ in_quotes "modsecurity_phase4_body_limit"])].

(** [NGINX_CONFIGTEST_CONTRACTS.get(key)] *)
Fixpoint contract_of (key : string) (contracts : list (string * pydict)) : option pydict :=
  match contracts with
  | [] => None
  | (k, c) :: r => if String.eqb k key then Some c else contract_of key r
  end.

Definition opt_dict_eq (a : option pydict) (b : pydict) : bool :=
  match a with Some d => py_eq (PDict d) (PDict b) | None => false end.

Definition config_invocation_contract_errors (case : pydict) : list string :=
  match dict_find "config_invocations" case with
  | None => []
  | Some (PDict ((_ :: _) as invocations)) =>
      if negb (keys_exactly invocations ["nginx"]) then ["config_invocations must declare the supported nginx host contract"]
      else
        let invocation := config_invocation_for_case case "nginx" in
        match contract_of (py_str (dict_get "case_id" case)) NGINX_CONFIGTEST_CONTRACTS with
        | None => ["invalid explicit nginx configtest contract"]
        | Some expected =>
            let rule := if eq_str (dict_get "case_id" case) "valid_rules_file" then PInt 1100001 else PNone in
            when_failed
              (negb (eq_int (dict_get "phase" case) 0)
               || negb (py_eq (dict_get "expected_result" case) (dict_get "expected_outcome" expected))
               || negb (py_eq (dict_get "expected_status" case) (dict_get "expected_exit_code" expected))
               || negb (py_eq (dict_get "expected_rule_id" case) rule)
               || truthy (dict_get "expected_event_fields" case)
               || negb (opt_dict_eq invocation expected)
               || match invocation with
                  | Some i => match whole (dict_get "expected_exit_code" i) with Some _ => false | None => true end
                  | None => true
                  end)
              "invalid explicit nginx configtest contract"
        end
  | Some _ => ["config_invocations must declare the supported nginx host contract"]
  end.

(** ** Checks of the receipt *)

Definition configtest_receipt_identity_errors (record case : pydict) (connector : string)
    (integration_mode : option string) (receipt invocation : pydict) : list string :=
  let identities := dict_merge
    (mkdict [("case_id", dict_get "case_id" case); ("connector", PStr connector); ("run_id", dict_get "run_id" record);
             ("integration_mode", dict_get "integration_mode" record)]) invocation in
  concat (map (fun p => when_failed (negb (py_eq (dict_get_key (fst p) receipt) (snd p)))
                          ("configuration receipt " +:+ py_str (fst p) +:+ " does not match case/run contract")) identities)
  ++ when_failed (negb (py_eq (dict_get "integration_mode" record) (opt_text integration_mode)))
       "configuration receipt integration_mode does not match selected host"
  ++ concat (map (fun field => when_failed (negb (py_eq (dict_get field record) (dict_get field case)))
                                 ("configuration record " +:+ field +:+ " does not match catalog"))
       ["phase"; "group"; "required_capabilities"; "expected_result"; "expected_status"; "expected_rule_id"]).

Definition RECEIPT_DIGESTS : list string :=
  ["rules_sha256"; "events_sha256"; "request_sha256"; "roles_sha256"; "cleanup_sha256"].
(** [\[A-Za-z0-9:._-\]{1,128}] *)
Definition PROBE_TRANSACTION_PATTERN : re := RRep (RCls (fun c => is_alnum c || char_in ":._-" c)) 1 (Some 128%nat).

Definition expected_probe (record : pydict) : list (string * pyval) :=
  [("observed_http_status", PInt 403); ("client_exit_code", PInt 0); ("phase", PInt 1); ("rule_id", PInt 1100001);
   ("run_id", dict_get "run_id" record)].
Definition probe_matches (record probe : pydict) : bool :=
  keys_exactly probe (map fst (expected_probe record) ++ ["transaction_id"])
  && forallb (fun p => py_eq (dict_get (fst p) probe) (snd p)) (expected_probe record)
  && forallb (fun field => match whole (dict_get field probe) with Some _ => true | None => false end)
       ["observed_http_status"; "client_exit_code"; "phase"; "rule_id"]
  && matches PROBE_TRANSACTION_PATTERN (dict_get "transaction_id" probe).

Definition some_semantics (record : pydict) : bool :=
  existsb (fun field => negb (is_none (dict_get field record))) PHASE4_SEMANTIC_FIELDS.

Definition valid_rules_receipt_observation_errors (record receipt : pydict) : list string :=
  when_failed (existsb (fun field => negb (is_true (dict_get field receipt)))
                 ["process_started"; "listener_created"; "cleanup_verified"])
    "valid rules startup requires observed process/listener and verified cleanup"
  ++ match dict_get "request_probe" receipt with
     | PDict probe =>
         if negb (probe_matches record probe) then ["valid rules startup requires its exact request/rule probe observation"]
         else when_failed (negb (py_eq (dict_get "observed_rule_ids" record) (PList [PInt 1100001]))
                           || negb (py_eq (dict_get "transaction_ids" record) (PList [dict_get "transaction_id" probe])))
                "valid rules startup must bind its genuine rule and transaction observations"
     | _ => ["valid rules startup requires its exact request/rule probe observation"]
     end
  ++ when_failed (truthy (dict_get "observed_event_fields" record) || truthy (dict_get "event_metadata_verified" record))
       "valid rules startup must retain child phase-1 evidence without claiming a phase-0 native event"
  ++ when_failed (negb (whole_between 1024 65535 (dict_get "listen_port" receipt)))
       "valid rules startup requires a bounded loopback listener"
  ++ concat (map (fun field => when_failed (negb (matches DIGEST_PATTERN (dict_get field receipt)))
                                 ("valid rules startup requires " +:+ field)) RECEIPT_DIGESTS)
  ++ when_failed (some_semantics record) "valid rules startup cannot claim phase-4 semantics".

Definition STARTUP_FIELDS : list string :=
  ["request_probe"; "cleanup_verified"; "listen_port"; "docroot_projection_parent"; "docroot_projection_root";
   "rules_sha256"; "events_sha256"; "request_sha256"; "roles_sha256"; "cleanup_sha256"].

(** A configuration-only receipt claims nothing that ran. *)
Definition configuration_only_errors (record receipt : pydict) : list string :=
  when_failed (negb (is_false (dict_get "process_started" receipt)) || negb (is_false (dict_get "listener_created" receipt)))
    "configuration-only receipt cannot claim a process or listener"
  ++ when_failed (existsb (fun k => in_strs k STARTUP_FIELDS) (keys receipt))
       "configuration-only receipt cannot claim startup/probe artifacts"
  ++ when_failed (truthy (dict_get "observed_rule_ids" record) || truthy (dict_get "transaction_ids" record)
                  || truthy (dict_get "observed_event_fields" record) || truthy (dict_get "event_metadata_verified" record))
       "configuration receipt cannot claim request/rule/event execution"
  ++ when_failed (some_semantics record) "configuration receipt cannot claim HTTP/transport/runtime semantics".

Definition configtest_receipt_observation_errors (record receipt invocation : pydict) : res (list string) :=
  let* expected_exit_code := dict_item "expected_exit_code" invocation in
  let exit_errors := when_failed
    (negb (py_eq (dict_get "observed_exit_code" receipt) expected_exit_code)
     || negb (py_eq (dict_get "actual_status" record) (dict_get "observed_exit_code" receipt)))
    "configuration receipt observed exit does not match expected process exit" in
  let* expected_outcome := dict_item "expected_outcome" invocation in
  Ok (exit_errors
      ++ when_failed
           (negb (py_eq (dict_get "observed_outcome" receipt) expected_outcome)
            || negb (py_eq (dict_get "observed_result" record) (dict_get "observed_outcome" receipt)))
           "configuration receipt outcome does not match expected configuration outcome"
      ++ when_failed (negb (is_true (dict_get "live_executed" record))) "configuration receipt requires live_executed=true"
      ++ if eq_str (dict_get "case_id" record) "valid_rules_file"
         then valid_rules_receipt_observation_errors record receipt
         else configuration_only_errors record receipt).

Section Receipts.
Variables (receipt_schema : pyval) (fuel : nat).

Definition configtest_receipt_errors (record case : pydict) (connector : string) (integration_mode : option string)
    : res (list string) :=
  match config_invocation_for_case case connector with
  | None => Ok (when_failed (negb (is_none (dict_get "configtest_receipt" record)))
                  "configuration receipt has no declared case/host contract")
  | Some invocation =>
      let errors := config_invocation_contract_errors case in
      match dict_get "configtest_receipt" record, receipt_schema with
      | PDict receipt, PDict schema =>
          in_order
            [Ok errors;
             json_schema_errors fuel (PDict receipt) schema None "configuration receipt";
             Ok (forbidden_payload_errors (PDict receipt) "configuration receipt");
             Ok (configtest_receipt_identity_errors record case connector integration_mode receipt invocation);
             configtest_receipt_observation_errors record receipt invocation]
      | PDict _, _ => Ok (errors ++ ["configuration receipt schema is missing"])
      | _, _ => Ok (errors ++ ["configuration receipt is missing or invalid"])
      end
  end.
End Receipts.

(** [configtest_run_identity_errors]: the receipt of a passing case against the run. *)
Definition configtest_run_identity_errors (record result : pydict) (mrts_sha : pyval) : list string :=
  match dict_get "configtest_receipt" record with
  | PDict receipt =>
      if negb (eq_str (dict_get "status" record) "PASS") then []
      else concat (map (fun p : string * pyval => let (field, value) := p in
             when_failed (negb (truthy value) || eq_str value "unknown" || negb (py_eq (dict_get field receipt) value))
               (py_str (dict_get "case_id" record) +:+ ": configuration receipt " +:+ field
                +:+ " does not match canonical run identity"))
             [("parent_sha", dict_get "connector_commit" result); ("framework_sha", dict_get "framework_commit" result);
              ("mrts_sha", mrts_sha); ("run_id", dict_get "run_id" result); ("connector", dict_get "connector" result);
              ("integration_mode", dict_get "integration_mode" result)])
  | _ => []
  end.

(** * Retained artifacts of configuration tests (no_crs_baseline.py)

    The closed bundle a configuration receipt points to: its files, their digests, the
    configuration they must hold byte for byte and what the parser printed.  A captured
    file is the list of its bytes; the texts it is searched for are ASCII, so they are
    found in the bytes exactly when they are found in the decoded text. *)

From S2P Require Export Utf8.
From S2P Require Import ObservationEvidence.

Definition NGINX_CONFIG_FILE_NAME : string := "nginx.conf".
Definition STDOUT_LOG_FILE_NAME : string := "stdout.log".
Definition STDERR_LOG_FILE_NAME : string := "stderr.log".

(** The files of a bundle with the receipt's digest field and the size limit. *)
Definition CONFIGTEST_ARTIFACTS : list (string * (string * Z)) :=
  [("nginx-binary", ("binary_sha256", 64 * 1024 * 1024)); ("nginx-module.so", ("module_sha256", 64 * 1024 * 1024));
   (NGINX_CONFIG_FILE_NAME, ("config_path_identity", 4096)); (STDOUT_LOG_FILE_NAME, ("stdout_sha256", 65536));
   (STDERR_LOG_FILE_NAME, ("stderr_sha256", 65536))].
Definition CONFIGTEST_PATH_FIXTURES : list (string * (string * string)) :=
  [("missing_rules_file", (NGINX_MISSING_RULES_FILE_NAME, "absent"));
   ("unsafe_event_path", ("unsafe-event-directory", "directory"));
   ("phase4_invalid_scope_file", ("invalid-content-type-scope.txt", "regular"));
   ("phase4_wildcard_scope_rejected", ("wildcard-content-type-scope.txt", "regular"))].
Definition VALID_RULES_ARTIFACTS : list (string * (string * Z)) :=
  [(NGINX_VALID_RULES_FILE_NAME, ("rules_sha256", 65536)); ("phase1-events.jsonl", ("events_sha256", 65536));
   ("request-result.json", ("request_sha256", 4096)); ("roles.json", ("roles_sha256", 4096));
   ("cleanup.json", ("cleanup_sha256", 4096))].

Fixpoint entry {A} (key : string) (l : list (string * A)) : option A :=
  match l with [] => None | (k, v) :: r => if String.eqb k key then Some v else entry key r end.

(** [CONFIGTEST_PATH_FIXTURES.get(str(record.get("case_id")))] *)
Definition path_fixture (record : pydict) : option (string * string) :=
  entry (py_str (dict_get "case_id" record)) CONFIGTEST_PATH_FIXTURES.

Definition configtest_artifacts_for_record (record : pydict) : list (string * (string * Z)) :=
  if eq_str (dict_get "case_id" record) "valid_rules_file" then CONFIGTEST_ARTIFACTS ++ VALID_RULES_ARTIFACTS
  else match path_fixture record with
       | Some (leaf, state) => if String.eqb state "regular" then CONFIGTEST_ARTIFACTS ++ [(leaf, ("fixture_sha256", 512))]
                               else CONFIGTEST_ARTIFACTS
       | None => CONFIGTEST_ARTIFACTS
       end.

(** A line of text. *)
Definition conf_line (parts : list string) : string := String.concat "" parts +:+ newline.
Definition valid_rules_config_template (origin port projection_root : string) : string :=
  String.concat ""
    [conf_line ["load_module "; in_quotes (origin +:+ "/nginx-module.so"); ";"];
     conf_line ["user nobody nogroup;"]; conf_line ["worker_processes 1;"]; conf_line ["daemon off;"];
     conf_line ["pid "; in_quotes (origin +:+ "/nginx.pid"); ";"];
     conf_line ["error_log "; in_quotes (origin +:+ "/nginx-error.log"); ";"];
     conf_line ["events {}"]; conf_line ["http {"]; conf_line ["  access_log off;"]; conf_line ["  modsecurity on;"];
     conf_line ["  modsecurity_rules_file "; in_quotes (origin +:+ "/" +:+ NGINX_VALID_RULES_FILE_NAME); ";"];
     conf_line ["  modsecurity_phase4_log "; in_quotes (origin +:+ "/phase1-events.jsonl"); ";"];
     conf_line ["  server {"]; conf_line ["    listen 127.0.0.1:"; port; ";"]; conf_line ["    root "; in_quotes projection_root; ";"];
     conf_line ["    location / { try_files $uri /index.html; }"]; conf_line ["  }"]; conf_line ["}"]].

(** The configuration of the other cases: one directive. *)
Definition expected_config (origin directive value : string) : string :=
  String.concat ""
    [conf_line ["load_module "; in_quotes (origin +:+ "/nginx-module.so"); ";"];
     conf_line ["pid "; in_quotes (origin +:+ "/nginx.pid"); ";"];
     conf_line ["error_log "; in_quotes (origin +:+ "/nginx-error.log"); ";"];
     conf_line ["events {}"]; conf_line ["http {"]; conf_line ["  "; directive; " "; value; ";"]; conf_line ["}"]].

(** The characters before the first one outside of a class. *)
Fixpoint take_while (p : ascii -> bool) (l : chars) : chars :=
  match l with c :: r => if p c then c :: take_while p r else [] | [] => [] end.

Definition contract_failed {A} (m : string) : res A := Err (ContractError m).
Definition ensure (b : bool) (m : string) : res unit := guard b (ContractError m).

(** [captures\[name\]] *)
Definition capture (name : string) (captures : list (string * chars)) : res chars :=
  match entry name captures with Some data => Ok data | None => Err (KeyError name) end.

(** What the code asks the operating system and its libraries: the working directory,
    whether a directory is reached without links, exists and can be opened, the bounded
    read of a file (digest and content), the state of a fixture leaf, the ownership of the
    projection, the digest of the canonical rules, the JSON decoder and the text of an
    exception. *)
Record bundle_system := {
  cwd : path;
  no_symlink : abs_path -> res unit;
  is_dir : abs_path -> bool;
  file_observation : string -> Z -> res (string * chars);
  open_directory : abs_path -> res unit;
  fixture_state : abs_path -> string -> string -> pydict -> res unit;
  projection_owned : string -> res unit;
  canonical_rules : res string;
  digest_of : chars -> string;
  json_loads : chars -> res pyval;
  exn_text : exn -> string }.

Section Bundle.
Variables (event_schema : pyval) (fuel : nat) (sys : bundle_system).

(** ** The files *)

Definition configtest_bundle_path (record : pydict) : res string :=
  let case_id := py_str (dict_get "case_id" record) in
  ensure (match contract_of case_id NGINX_CONFIGTEST_CONTRACTS with Some _ => true | None => false end)
    "configuration artifact has no closed case contract" ;;;
  Ok ("inventory/configtests/" +:+ case_id).

Definition configtest_bundle_directory (record : pydict) (authority : string) (canonical : bool) : res abs_path :=
  match dict_get "artifacts" record with
  | PDict artifacts =>
      ensure (keys_exactly artifacts ["configtest_dir"]) "configuration receipt requires its closed retained artifact bundle" ;;;
      match dict_get "configtest_dir" artifacts with
      | PStr value =>
          ensure (str_len value <=? 4096) "configuration artifact bundle path must be bounded" ;;;
          let* canonical_path := configtest_bundle_path record in
          ensure (negb canonical || String.eqb value canonical_path)
            "configuration artifact bundle must use its fixed canonical path" ;;;
          ensure (canonical || starts_with "/" value) "configuration source bundle must be absolute" ;;;
          let authority := abspath (cwd sys) authority in
          let bundle := abspath (cwd sys) (join_path authority value) in
          match (if Bool.eqb (double authority) (double bundle) then relative_to (parts authority) (parts bundle) else None) with
          | None => contract_failed "configuration bundle escapes its source authority"
          | Some below =>
              no_symlink sys bundle ;;;
              ensure (match below with [] => false | _ => true end && is_dir sys bundle)
                "configuration bundle must be an existing child of its authority" ;;;
              Ok bundle
          end
      | _ => contract_failed "configuration artifact bundle path must be bounded"
      end
  | _ => contract_failed "configuration receipt requires its closed retained artifact bundle"
  end.

Definition configtest_bundle_captures (record : pydict) (bundle : abs_path) : res (list (string * chars)) :=
  match dict_get "configtest_receipt" record with
  | PDict receipt =>
      let* captures := mapM (fun artifact : string * (string * Z) => let '(name, (field, limit)) := artifact in
          let* (digest, data) := file_observation sys (join_path bundle name) limit in
          let expected := (if String.eqb name NGINX_CONFIG_FILE_NAME then "sha256:" else "") +:+ digest in
          ensure (eq_str (dict_get field receipt) expected) ("configuration artifact digest mismatch: " +:+ name) ;;;
          Ok (name, data)) (configtest_artifacts_for_record record) in
      let* out := capture STDOUT_LOG_FILE_NAME captures in
      let* err := capture STDERR_LOG_FILE_NAME captures in
      ensure (Z.of_nat (List.length out) + Z.of_nat (List.length err) <=? 65536)
        "configuration captures exceed combined bound" ;;;
      Ok captures
  | _ => contract_failed "configuration receipt is missing"
  end.

Definition validate_configtest_path_fixture (record : pydict) (bundle : abs_path) : res unit :=
  match dict_get "configtest_receipt" record with
  | PDict receipt =>
      match path_fixture record with
      | None => ensure (negb (existsb (fun field => dict_has field receipt) ["fixture_leaf"; "fixture_state"; "fixture_sha256"]))
                  "configuration receipt has an unrelated path fixture"
      | Some (leaf, state) =>
          ensure (eq_str (dict_get "fixture_leaf" receipt) leaf && eq_str (dict_get "fixture_state" receipt) state)
            "configuration fixture observation does not match the closed case" ;;;
          open_directory sys bundle ;;;
          (if String.eqb state "directory"
           then ensure (negb (dict_has "fixture_sha256" receipt))
                  "absent/directory fixtures must not claim regular-file bytes"
           else Ok tt) ;;;
          fixture_state sys bundle leaf state receipt
      end
  | _ => contract_failed "configuration receipt is missing"
  end.

(** ** The probe of the valid rules *)

Definition valid_rules_json_capture (captures : list (string * chars)) (name : string) : res pydict :=
  let* data := capture name captures in
  let* value := json_loads sys data in
  match value with
  | PDict d => Ok d
  | _ => contract_failed ("valid rules raw artifact must be an object: " +:+ name)
  end.

Definition int_typed (field : string) (d : pydict) : bool :=
  match whole (dict_get field d) with Some _ => true | None => false end.
Definition positive_int (field : string) (d : pydict) : bool :=
  match whole (dict_get field d) with Some z => 0 <? z | None => false end.

Definition valid_rules_probe_event_matches (event record : pydict) : res bool :=
  let* rule := optional_field "rule_id" event in
  let says := forallb (fun p : string * pyval => py_eq (dict_get (fst p) event) (snd p)) in
  Ok (opt_Z_eqb rule (Some 1100001)
      && match normalize_canonical_phase (dict_get "phase" event) with Some z => z =? 1 | None => false end
      && says [("event", PStr "engine_decision"); ("message_id", PStr "MSCONN_EVENT_ENGINE_DECISION");
               ("actual_action", PStr ""); ("visible_http_status", PInt 0); ("transport_result", PStr "not_observable");
               ("method", PStr "GET"); ("uri", PStr "/no-crs/deny"); ("http_status", PInt 403);
               ("status", PStr "blocked"); ("requested_action", PStr "deny");
               ("integration_mode", dict_get "integration_mode" record)]).

(** The non-blank lines. *)
Fixpoint byte_lines (acc l : chars) : list chars :=
  match l with
  | [] => [rev acc]
  | c :: r => if Z_in (ord c) [10; 13] then rev acc :: byte_lines [] r else byte_lines (c :: acc) r
  end.
Definition event_lines (data : chars) : list chars :=
  List.filter (fun l => negb (forallb is_byte_space l)) (byte_lines [] data).

(** The transaction an event contributes. *)
Definition probe_transaction (record : pydict) (event : pyval) : res (list pyval) :=
  let* errors := canonical_event_errors event_schema fuel event "event" (Some "nginx")
                   (as_text (dict_get "integration_mode" record)) in
  ensure (match errors with [] => true | _ => false end) "valid rules retained native event has invalid metadata" ;;;
  match event with
  | PDict e =>
      ensure (py_eq (dict_get_or (dict_get "run_id" record) "run_id" e) (dict_get "run_id" record))
        "valid rules retained native event has a foreign run identity" ;;;
      let* matching := valid_rules_probe_event_matches e record in
      if matching : bool
      then if hashable (dict_get "transaction_id" e) then Ok [dict_get "transaction_id" e]
           else Err (TypeError "unhashable type")
      else Ok []
  | _ => Err (AttributeError "get")
  end.

Definition validate_valid_rules_probe_events (record : pydict) (captures : list (string * chars)) (probe : pydict) : res unit :=
  let* data := capture "phase1-events.jsonl" captures in
  let* events := mapM (json_loads sys) (event_lines data) in
  let* transactions := mapM (probe_transaction record) events in
  let expected := dict_get "transaction_id" probe in
  if hashable expected
  then ensure (match concat transactions with [] => false | l => forallb (fun t => py_eq t expected) l end)
         "valid rules raw native phase-1 probe event is missing, mismatched or ambiguous"
  else Err (TypeError "unhashable type").

Definition validate_valid_rules_probe (record : pydict) (captures : list (string * chars)) : res unit :=
  let* receipt := dict_item "configtest_receipt" record in
  match receipt with
  | PDict r =>
    match dict_get "request_probe" r with
    | PDict probe =>
      let run := dict_get "run_id" record in
      let* rules := canonical_rules sys in
      let* rules_file := capture NGINX_VALID_RULES_FILE_NAME captures in
      ensure (String.eqb (digest_of sys rules_file) rules)
        "valid rules file differs from the exact canonical baseline rules" ;;;
      let* request := valid_rules_json_capture captures "request-result.json" in
      let expected_request := mkdict
        [("case_id", PStr "valid_rules_file"); ("run_id", run); ("operation", PStr "request"); ("method", PStr "GET");
         ("path", PStr "/no-crs/deny"); ("header_name", PStr "X-Modsec-Smoke"); ("header_value", PStr "block");
         ("client_exit_code", PInt 0); ("observed_http_status", PInt 403);
         ("transaction_id", dict_get "transaction_id" probe)] in
      ensure (py_eq (PDict request) (PDict expected_request)
              && forallb (fun f => int_typed f request) ["client_exit_code"; "observed_http_status"])
        "valid rules raw request does not match its exact operation/run/probe" ;;;
      let* roles := valid_rules_json_capture captures "roles.json" in
      ensure (keys_exactly roles ["run_id"; "master_pid"; "worker_pid"; "master_uid"; "worker_uid"]
              && py_eq (dict_get "run_id" roles) run
              && eq_int (dict_get "master_uid" roles) 0 && eq_int (dict_get "worker_uid" roles) 65534
              && forallb (fun f => int_typed f roles) ["master_uid"; "worker_uid"]
              && forallb (fun f => positive_int f roles) ["master_pid"; "worker_pid"]
              && negb (py_eq (dict_get "master_pid" roles) (dict_get "worker_pid" roles)))
        "valid rules raw roles must observe distinct root master/nobody worker" ;;;
      let* cleanup := valid_rules_json_capture captures "cleanup.json" in
      let expected_cleanup := mkdict
        [("run_id", run); ("master_pid", dict_get "master_pid" roles); ("worker_pid", dict_get "worker_pid" roles);
         ("master_running", PBool false); ("worker_running", PBool false); ("listener_open", PBool false);
         ("verified", PBool true)] in
      ensure (py_eq (PDict cleanup) (PDict expected_cleanup)
              && forallb (fun f => is_bool (dict_get f cleanup)) ["master_running"; "worker_running"; "listener_open"; "verified"])
        "valid rules raw cleanup must bind and retire its actual processes/listener" ;;;
      validate_valid_rules_probe_events record captures probe
    | _ => contract_failed "valid rules raw probe requires its receipt binding"
    end
  | _ => Err (AttributeError "get")
  end.

(** ** The configuration *)

(** [str(Path(s))] of an absolute path, and of its parent. *)
Definition pure_path (s : string) : abs_path := {| double := double_slash s; parts := pure_parts s |}.
Definition parent_of (a : abs_path) : abs_path := {| double := double a; parts := removelast (parts a) |}.
Definition path_eqb (a b : abs_path) : bool :=
  Bool.eqb (double a) (double b) && bool_decide (parts a = parts b).

Definition safe_path_char (c : ascii) : bool := is_alnum c || char_in "_./-" c.
Definition SAFE_PATH : re := RCat (RLit "/") (RPlus (RCls safe_path_char)).

Definition validate_valid_rules_projection (receipt : pydict) (origin : abs_path) : res unit :=
  match dict_get "docroot_projection_parent" receipt, dict_get "docroot_projection_root" receipt with
  | PStr p, PStr r =>
      ensure (fullmatch_str SAFE_PATH p && fullmatch_str SAFE_PATH r)
        "valid rules projection paths must be bounded absolute safe paths" ;;;
      let parent_path := pure_path p in
      let projection := pure_path r in
      let within a b := Bool.eqb (double a) (double b)
                        && match relative_to (parts a) (parts b) with Some _ => true | None => false end in
      ensure (path_eqb parent_path (abspath (cwd sys) p) && path_eqb projection (abspath (cwd sys) r)
              && path_eqb (parent_of projection) parent_path && negb (path_eqb projection parent_path)
              && negb (within origin projection) && negb (within projection origin))
        "valid rules projection must be an external direct child" ;;;
      projection_owned sys p ;;; projection_owned sys r
  | _, _ => contract_failed "valid rules projection paths must be bounded absolute safe paths"
  end.

(** The module path of the first line of the configuration. *)
Definition module_path (config : chars) : option string :=
  let before := S2L ("load_module " +:+ L2S [chr 34]) in
  if negb (is_prefix before config) then None
  else
    let text := drop (List.length before) config in
    let path := take_while safe_path_char text in
    if fullmatch (RCat SAFE_PATH (RLit "/nginx-module.so")) path
       && is_prefix ([chr 34] ++ S2L (";" +:+ newline)) (drop (List.length path) text)
    then Some (L2S path) else None.

Definition fragments_in (invocation : pydict) (text : chars) : bool :=
  match dict_get "diagnostic_fragments" invocation with
  | PList l => forallb (fun f => match f with PStr s => contains_sub (S2L s) text | _ => false end) l
  | _ => false
  end.

Definition validate_configtest_parser_diagnostic (captures : list (string * chars)) (invocation : pydict)
    (fixture : option (string * string)) (origin : string) : res unit :=
  let* stderr := capture STDERR_LOG_FILE_NAME captures in
  ensure (fragments_in invocation stderr) "configuration capture lacks the exact parser diagnostic" ;;;
  match fixture with
  | Some (leaf, state) =>
      let marker := if String.eqb state "regular" then " in " +:+ origin +:+ "/nginx.conf:6" else origin +:+ "/" +:+ leaf in
      ensure (contains_sub (S2L marker) stderr)
        "configuration diagnostic does not bind the exact tested fixture/config path"
  | None => Ok tt
  end.

Definition validate_valid_rules_bundle_template (record : pydict) (origin : abs_path) (captures : list (string * chars))
    (config : chars) (invocation : pydict) : res unit :=
  let* receipt := dict_item "configtest_receipt" record in
  match receipt with
  | PDict r =>
      ensure (match valid_rules_receipt_observation_errors record r with [] => true | _ => false end)
        "valid rules retained bundle has an incomplete startup receipt" ;;;
      validate_valid_rules_projection r origin ;;;
      let* port := dict_item "listen_port" r in
      let* root := dict_item "docroot_projection_root" r in
      ensure (bool_decide (config = S2L (valid_rules_config_template (path_text origin) (py_str port) (py_str root))))
        "valid rules configuration differs from its closed startup template" ;;;
      if eq_str (dict_get "status" record) "PASS" then
        let* stderr := capture STDERR_LOG_FILE_NAME captures in
        ensure (fragments_in invocation stderr && contains_sub (S2L (path_text origin +:+ "/nginx.conf")) stderr)
          "valid rules configtest lacks its exact successful native diagnostic" ;;;
        validate_valid_rules_probe record captures
      else Ok tt
  | _ => Err (AttributeError "get")
  end.

(** The value of the directive as the configuration spells it. *)
Definition directive_value (fixture : option (string * string)) (origin directive value : string) : string :=
  match fixture with
  | Some (leaf, _) => in_quotes (origin +:+ "/" +:+ leaf)
  | None => if String.eqb directive "modsecurity_rules" then json_str value else value
  end.

Definition validate_configtest_bundle_template (record : pydict) (bundle : abs_path) (captures : list (string * chars))
    (canonical : bool) : res unit :=
  let* config := capture NGINX_CONFIG_FILE_NAME captures in
  let* _ := decode_utf8 config in
  match module_path config with
  | None => contract_failed "configuration artifact is not the closed nonsecret template"
  | Some module_file =>
      let origin := parent_of (pure_path module_file) in
      ensure (path_eqb origin (abspath (cwd sys) (path_text origin)) && (canonical || path_eqb origin bundle))
        "configuration template does not bind its retained module" ;;;
      let case_id := py_str (dict_get "case_id" record) in
      match contract_of case_id NGINX_CONFIGTEST_CONTRACTS with
      | None => Err (KeyError case_id)
      | Some invocation =>
          if eq_str (dict_get "case_id" record) "valid_rules_file"
          then validate_valid_rules_bundle_template record origin captures config invocation
          else
            let fixture := path_fixture record in
            let directive := py_str (dict_get "directive" invocation) in
            let value := directive_value fixture (path_text origin) directive (py_str (dict_get "value" invocation)) in
            ensure (bool_decide (config = S2L (expected_config (path_text origin) directive value)))
              "configuration artifact is not the closed nonsecret template" ;;;
            if eq_str (dict_get "status" record) "PASS"
            then validate_configtest_parser_diagnostic captures invocation fixture (path_text origin)
            else Ok tt
      end
  end.

Definition validated_configtest_bundle (record : pydict) (authority : string) (canonical : bool) : res abs_path :=
  let* bundle := configtest_bundle_directory record authority canonical in
  let* captures := configtest_bundle_captures record bundle in
  validate_configtest_path_fixture record bundle ;;;
  validate_configtest_bundle_template record bundle captures canonical ;;;
  Ok bundle.

Definition is_OSError (e : exn) : bool := match e with OSError _ | FileNotFoundError _ => true | _ => false end.

Definition configtest_artifact_errors (record : pydict) (authority : option string) : res (list string) :=
  match authority with
  | None => Ok ["configuration receipt requires retained artifacts and an explicit artifact authority"]
  | Some root =>
      match validated_configtest_bundle record root true with
      | Ok _ => Ok []
      | Err e => if is_OSError e || is_ValueError e
                 then Ok ["configuration artifact validation failed: " +:+ exn_text sys e] else Err e
      end
  end.
End Bundle.
