(* ===== verification/CaseRecord.v ===== *)
(** * Normalising the record of a case (no_crs_baseline.py)

    [normalize_case_record]: what a host or client reported about a case becomes the
    canonical record, and a claimed PASS is judged.  A sequence of [errors.extend]
    statements is the concatenation of what they add. *)

From S2P Require Export CaseArtifacts.
From Stdlib Require Import QArith.
#[global] Open Scope Z_scope.

(** ** What the raw record reports *)

(** A provenance field, and the error of an invalid one. *)
Definition provenance_field (raw : pydict) (field : string) (maximum : Z) : res (option string * list string) :=
  match optional_case_provenance (dict_get field raw) maximum field with
  | Ok v => Ok (v, [])
  | Err (ContractError _) => Ok (None, [field +:+ ": invalid raw runtime value"])
  | Err e => Err e
  end.
Definition normalized_case_provenance (raw : pydict) : res (option string * option string * list string) :=
  let* (run_id, run_errors) := provenance_field raw "run_id" 256 in
  let* (integration_mode, mode_errors) := provenance_field raw "integration_mode" 64 in
  Ok (run_id, integration_mode, run_errors ++ mode_errors).

Definition normalized_observed_rule_ids (raw : pydict) : list Z :=
  let listed := match dict_get "observed_rule_ids" raw with PList l => l | _ => [] end in
  let named := concat (map (fun key => let v := dict_get key raw in if none_or_empty v then [] else [v])
                         ["observed_rule_id"; "rule_id"; "modsecurity_rule_id"]) in
  dedup Z.eqb (concat (map (fun v => match py_int v with Some z => [z] | None => [] end) (listed ++ named))).

(** [_MISSING] is [None]. *)
Definition normalized_actual_status_value (raw case semantic_values : pydict) : option pyval :=
  match first_present ["actual_status"; "observed_status"; "visible_http_status"; "client_status"] raw with
  | Some v => Some v
  | None =>
      if is_phase4_semantic_case case then None
      else match dict_get "visible_http_status" semantic_values with
           | PNone => dict_find "intervention_status" raw
           | v => Some v
           end
  end.

(** ** Evidence of events *)

(** [if matching_event:] an empty dictionary is none. *)
Definition some_event (event : option pydict) : option pydict :=
  match event with Some (x :: r) => Some (x :: r) | _ => None end.

Definition bind_case_event_evidence (matching_event : option pydict) (observed_rule_ids : list Z)
    (transaction_ids : list string) : list string * list Z * list string :=
  match some_event matching_event with
  | Some e =>
      (sorted_names (event_field_names (PDict e) ""),
       sort_Z (observed_rule_ids ++ List.filter (fun z => negb (Z_in z observed_rule_ids)) (event_rule_ids e)),
       sorted_names (transaction_ids ++ event_transaction_ids e))
  | None => ([], sort_Z observed_rule_ids, sorted_names transaction_ids)
  end.

Definition _bind_normalized_case_event_evidence (matching_event rule_witness : option pydict)
    (observed_rule_ids : list Z) (transaction_ids : list string) : list string * list Z * list string :=
  let '(fields, rules, transactions) := bind_case_event_evidence matching_event observed_rule_ids transaction_ids in
  match rule_witness with
  | None => (fields, rules, transactions)
  | Some w =>
      let '(witness_fields, rules, transactions) := bind_case_event_evidence (Some w) rules transactions in
      (sorted_names (fields ++ witness_fields), rules, transactions)
  end.

Definition case_event_metadata_verified (raw : pydict) (matching_event : option pydict) (event_errors : list string)
    (expected_fields observed_event_fields : list string) : bool :=
  match some_event matching_event, event_errors with
  | Some _, [] => match expected_fields with
                  | [] => truthy (dict_get "event_metadata_verified" raw)
                  | _ => forallb (fun field => str_in field observed_event_fields) expected_fields
                  end
  | _, _ => false
  end.

(** ** The record *)

Definition normalized_case_operation_status (status : string) : string :=
  operation_status
    (if String.eqb status "PASS" then "pass" else if String.eqb status "FAIL" then "fail"
     else if String.eqb status "BLOCKED" then "blocked"
     else if String.eqb status "UNSUPPORTED" then "not_executable" else "skipped").

(** [NormalizedCaseRecordDetails] *)
Record record_details := {
  run_id : option string; record_mode : option string; observed_result : pyval; details : case_evidence;
  transaction_ids : list string; event_metadata_verified : bool; semantic_values : pydict }.

(** The details as Python values: the sequences of [list(...)] as lists. *)
Record built_details := {
  bd_run_id : pyval; bd_integration_mode : pyval; bd_observed_result : pyval; bd_expected_status : pyval;
  bd_actual_status : pyval; bd_expected_rule_id : pyval; bd_observed_rule_ids : list pyval;
  bd_transaction_ids : list pyval; bd_expected_fields : list pyval; bd_observed_event_fields : list pyval;
  bd_event_metadata_verified : bool; bd_semantic_values : pydict }.

Definition opt_int (o : option Z) : pyval := match o with Some z => PInt z | None => PNone end.

Section Normalize.
Variables (event_schema receipt_schema : pyval) (fuel : nat) (catalog : pydict) (sys : bundle_system).
Variable sha256 : string -> string.
(** The digest of a runner source inside the catalog's directory, if it is a file there. *)
Variable runner_digest : string -> option string.
(** Records of retained protocol and native-operation bundles have normalisers of their own. *)
Variables normalize_protocol_record normalize_native_operation_record : pydict -> pydict -> string -> res pydict.

(** The fields of a record from its details; the keys of the semantic values are apart
    from the others. *)
Definition built_fields (raw case : pydict) (connector case_id status : string) (d : built_details)
    (required_capabilities exit_code : pyval) : pydict :=
  mkdict [("schema_version", PInt 1); ("connector", PStr connector); ("run_id", bd_run_id d);
          ("integration_mode", bd_integration_mode d); ("case_id", PStr case_id);
          ("group", dict_get_or (PStr "") "group" case); ("phase", dict_get "phase" case);
          ("required_capabilities", required_capabilities); ("status", PStr status);
          ("operation_status", PStr (normalized_case_operation_status status));
          ("live_executed", PBool (is_true (dict_get "live_executed" raw)));
          ("expected_result", dict_get "expected_result" case); ("observed_result", bd_observed_result d);
          ("expected_status", bd_expected_status d); ("actual_status", bd_actual_status d);
          ("expected_rule_id", bd_expected_rule_id d); ("observed_rule_ids", PList (bd_observed_rule_ids d));
          ("transaction_ids", PList (bd_transaction_ids d)); ("expected_event_fields", PList (bd_expected_fields d));
          ("observed_event_fields", PList (bd_observed_event_fields d));
          ("event_metadata_verified", PBool (bd_event_metadata_verified d))]
  ++ bd_semantic_values d
  ++ mkdict [("reason", PStr (text_of (py_or (dict_get "reason" raw) (dict_get "skipped_reason" raw))));
             ("exit_code", exit_code);
             ("artifacts", match dict_get "artifacts" raw with PDict a => PDict a | _ => PDict [] end)].

(** The details of a case that a host or a client reported. *)
Definition pyval_details (d : record_details) : built_details :=
  let e := details d in
  {| bd_run_id := opt_text (run_id d); bd_integration_mode := opt_text (record_mode d);
     bd_observed_result := observed_result d; bd_expected_status := opt_int (expected_status e);
     bd_actual_status := opt_int (actual_status e); bd_expected_rule_id := opt_int (expected_rule_id e);
     bd_observed_rule_ids := map PInt (observed_rule_ids e); bd_transaction_ids := map PStr (transaction_ids d);
     bd_expected_fields := map PStr (expected_fields e);
     bd_observed_event_fields := map PStr (observed_event_fields e);
     bd_event_metadata_verified := event_metadata_verified d; bd_semantic_values := semantic_values d |}.
Definition normalized_fields (raw case : pydict) (connector case_id status : string) (d : record_details)
    (required_capabilities exit_code : pyval) : pydict :=
  built_fields raw case connector case_id status (pyval_details d) required_capabilities exit_code.

(** A client observation carries its identity and stays without claims of the host. *)
Definition bind_client_observation (raw record : pydict) : res pydict :=
  if eq_str (dict_get "evidence_identity" raw) "request_bound" then
    let* identity := validate_request_observation sha256 raw in
    let* proof := dict_item "request_observation" raw in
    match proof with
    | PDict p =>
        Ok (dict_update (dict_update record (map (fun q => (fst q, PStr (snd q))) identity))
              [("transaction_id", PNone); ("transaction_ids", PList []); ("evidence_identity", PStr "request_bound");
               ("runtime_verified", PBool false); ("promotion_allowed", PBool false);
               ("request_observation", PDict p)])
    | _ => Err (TypeError "object is not iterable")
    end
  else Ok record.

Definition build_normalized_case_record (raw case : pydict) (connector case_id status : string) (d : built_details)
    : res pydict :=
  let* required_capabilities := list_field "required_capabilities" case in
  let* exit_code := optional_int (dict_get "exit_code" raw) in
  bind_client_observation raw (built_fields raw case connector case_id status d required_capabilities exit_code).

(** ** Client observations *)

(** [next((case for case in cases if case\["case_id"\] == id), {})] *)
Fixpoint case_or_empty (id : pyval) (cases : list pydict) : res pydict :=
  match cases with
  | [] => Ok []
  | item :: r => let* key := dict_item "case_id" item in if py_eq key id then Ok item else case_or_empty id r
  end.

Definition client_case_source_errors (record : pydict) : res (list string) :=
  let* cases := catalog_cases catalog in
  let* case := case_or_empty (dict_get "case_id" record) cases in
  match dict_get "runner_case" case with
  | PStr runner =>
      if String.eqb runner "" then Ok ["client observation requires the pinned catalog runner case"]
      else match runner_digest runner with
           | None => Ok ["client observation runner source is outside the catalog"]
           | Some digest =>
               Ok (when_failed (match dict_get "request_observation" record with
                                | PDict proof => negb (eq_str (dict_get "case_sha256" proof) digest)
                                | _ => true
                                end) "client observation case digest differs from the pinned runner case")
           end
  | _ => Ok ["client observation requires the pinned catalog runner case"]
  end.

Definition _validate_request_bound_case (raw : pydict) (request_bound : bool) : res unit :=
  if request_bound then
    let* _ := validate_request_observation sha256 raw in
    let* source_errors := client_case_source_errors raw in
    match source_errors with [] => Ok tt | _ => Err (ValueError (py_join "; " source_errors)) end
  else Ok tt.

(** ** The normalisation *)

(** The values a client observation may keep: the visible status alone. *)
Definition client_semantics (raw : pydict) : res pydict :=
  let* status := dict_item "actual_status" raw in
  Ok (dict_set "visible_http_status" status (mkdict (map (fun f => (f, PNone)) PHASE4_SEMANTIC_FIELDS))).

Definition _matching_case_event (configuration : option pydict) (request_bound : bool) (events : list pydict)
    (expected_rule_id : option Z) (case : pydict) (transaction_ids : list string) (integration_mode : option string)
    : res (option pydict) :=
  match configuration with
  | Some _ => Ok None
  | None => if request_bound then Ok None
            else event_for_case events expected_rule_id case transaction_ids integration_mode
  end.

(** What a PASS is judged by. *)
Record judged := {
  j_status : string; j_details : record_details; j_event : option pydict; j_errors : list string; j_provenance : list string }.

Definition collect_case_evidence (raw case : pydict) (connector : string) (events : list pydict)
    (integration_mode : option string) : res judged :=
  let request_bound := eq_str (dict_get "evidence_identity" raw) "request_bound" in
  let* status := normalize_status (dict_get "status" raw) in
  let observed := py_or (dict_get "observed_result" raw) (dict_get "outcome" raw) in
  let status := if String.eqb (text_of observed) "rejected_by_host_before_connector" then "NOT_APPLICABLE" else status in
  let* (raw_run_id, raw_integration_mode, provenance_errors) := normalized_case_provenance raw in
  let observed_rule_ids := normalized_observed_rule_ids raw in
  let* expected_rule := optional_field "expected_rule_id" case in
  let transaction_ids := supplied_transaction_ids raw in
  let configuration := config_invocation_for_case case connector in
  let* matching_event :=
    _matching_case_event configuration request_bound events expected_rule case transaction_ids integration_mode in
  let* (barrier, rule_witness, pair_errors) :=
    first_byte_case_event_pair event_schema fuel raw case events connector integration_mode in
  let matching_event := match barrier with Some b => Some b | None => matching_event end in
  let* (values, runtime_errors) := semantic_runtime_fields raw matching_event rule_witness in
  let observed_rule_ids := if request_bound then [] else observed_rule_ids in
  let transaction_ids := if request_bound then [] else transaction_ids in
  let* values := if request_bound then client_semantics raw else Ok values in
  let* actual := match normalized_actual_status_value raw case values with
                 | Some v => optional_int v
                 | None => Ok PNone
                 end in
  let '(fields, rules, transactions) :=
    _bind_normalized_case_event_evidence matching_event rule_witness observed_rule_ids transaction_ids in
  let* expected_items := iterate (dict_get_or (PList []) "expected_event_fields" case) in
  let expected_names := map py_str expected_items in
  let* expected_code := optional_field "expected_status" case in
  let* schema_errors := match some_event matching_event with
                        | Some e => canonical_event_errors event_schema fuel (PDict e) "event" (Some connector) integration_mode
                        | None => Ok []
                        end in
  let all_event_errors := schema_errors ++ case_event_identity_errors case matching_event raw_run_id in
  Ok {| j_status := status; j_event := matching_event; j_errors := runtime_errors ++ pair_errors;
        j_provenance := provenance_errors;
        j_details :=
          {| run_id := raw_run_id; record_mode := raw_integration_mode; observed_result := observed;
             details := {| expected_status := expected_code; actual_status := whole actual;
                           expected_rule_id := expected_rule; observed_rule_ids := rules;
                           expected_fields := expected_names; observed_event_fields := fields;
                           event_errors := all_event_errors; integration_mode := integration_mode |};
             transaction_ids := transactions;
             event_metadata_verified :=
               case_event_metadata_verified raw matching_event all_event_errors expected_names fields;
             semantic_values := values |} |}.

Definition case_pass_validation_errors (record case : pydict) (connector : string) (j : judged) (events : list pydict)
    (integration_mode : option string) (authority : option string) : res (list string) :=
  in_order
    [Ok (j_provenance j);
     normalized_case_pass_errors event_schema fuel catalog record case (j_event j) (j_errors j) (details (j_details j)) events;
     configtest_receipt_errors receipt_schema fuel record case connector integration_mode;
     match config_invocation_for_case case connector with
     | Some _ => configtest_artifact_errors event_schema fuel sys record authority
     | None => Ok []
     end].

Definition normalize_observed_case (raw case : pydict) (connector case_id : string) (events : list pydict)
    (integration_mode : option string) (authority : option string) : res pydict :=
  let* j := collect_case_evidence raw case connector events integration_mode in
  let* record := build_normalized_case_record raw case connector case_id (j_status j) (pyval_details (j_details j)) in
  let record := match dict_find "configtest_receipt" raw with
                | Some receipt => dict_set "configtest_receipt" receipt record
                | None => record
                end in
  if String.eqb (j_status j) "PASS" then
    let* validation_errors := case_pass_validation_errors record case connector j events integration_mode authority in
    mark_case_record_invalid record validation_errors
  else Ok record.

Definition normalize_case_record (raw : pydict) (connector : string) (case_by_id : case_table) (events : list pydict)
    (integration_mode : option string) (authority : option string) : res (option pydict) :=
  let case_id := case_identifier raw in
  match (if String.eqb case_id "" then None else case_of case_id case_by_id) with
  | None => Ok None
  | Some case =>
      let* record :=
        if dict_has "protocol_bundle" raw then normalize_protocol_record raw case connector
        else
          _validate_request_bound_case raw (eq_str (dict_get "evidence_identity" raw) "request_bound") ;;;
          if dict_has "native_operation_receipt" raw then normalize_native_operation_record raw case connector
          else normalize_observed_case raw case connector case_id events integration_mode authority in
      Ok (Some record)
  end.
End Normalize.
