(* ===== verification/CaseBinding.v ===== *)
(** * Binding records to the run, and the checks of a stored PASS (no_crs_baseline.py)

    [bind_case_protocol_provenance] puts the run's identity on every record and
    judges the passing ones again; [pass_case_completeness_errors] judges a stored
    PASS.  A record the code changes in place is returned. *)

From S2P Require Export CaseRecord.
From Stdlib Require Import QArith.
#[global] Open Scope Z_scope.

(** ** Binding to the canonical run *)

Definition case_protocol_context_errors (record : pydict) (run_id integration_mode : string) : list string :=
  let differs field expected := negb (is_none (dict_get field record)) && negb (eq_str (dict_get field record) expected) in
  when_failed (differs "run_id" run_id) "source case run_id does not match canonical run"
  ++ when_failed (differs "integration_mode" integration_mode)
       "source case integration_mode does not match canonical run".

(** [\[str(value) for value in record.get("transaction_ids", \[\])\]] *)
Definition listed_transactions (record : pydict) : res (list string) :=
  let* l := iterate (dict_get_or (PList []) "transaction_ids" record) in Ok (map py_str l).

Definition is_http1 (p : option string) : bool := match p with Some s => String.eqb s "http1" | None => false end.

Definition matching_protocol_event (record : pydict) (case : option pydict) (events : list pydict)
    (event_integration_mode : option string) : res (option pydict) :=
  match case with
  | None => Ok None
  | Some c =>
      let* transaction_ids := listed_transactions record in
      let* native := if is_none (dict_get "native_operation_receipt" record) then Ok false
                     else let* profile := case_protocol_profile c in Ok (is_http1 profile) in
      let events := if native : bool
                    then List.filter (fun e => py_eq (dict_get "transport_case_id" e) (dict_get "case_id" c)) events
                    else events in
      let* rule := optional_field "expected_rule_id" record in
      event_for_case events rule c transaction_ids event_integration_mode
  end.

Definition case_protocol_pass_errors (record : pydict) (matching_event case : option pydict)
    (run_id integration_mode : string) : res (list string) :=
  let* required_protocol := match case with Some c => case_protocol_profile c | None => Ok None end in
  protocol_pass_errors record matching_event (Some run_id) (Some integration_mode) required_protocol.

Definition mark_protocol_provenance_invalid (record : pydict) (errors : list string) : pydict :=
  match errors with
  | [] => record
  | _ =>
      let detail := py_join "; " (dedup String.eqb errors) in
      dict_update record
        [("status", PStr "FAIL"); ("operation_status", PStr (operation_status "fail"));
         ("reason", PStr (py_join "; " (List.filter (fun s => negb (String.eqb s ""))
                                          [field_text "reason" record; "protocol provenance invalid: " +:+ detail])))]
  end.

Section Binding.
Variables (event_schema receipt_schema case_catalog_schema : pyval) (fuel : nat) (catalog : pydict) (sys : bundle_system).
Variables (sha256 : string -> string) (runner_digest : string -> option string).
Variable normalize_protocol_record : pydict -> pydict -> string -> res pydict.
Variable native_operation_record_errors : pydict -> pydict -> res (list string).

Definition protocol_record_errors (record case : pydict) (connector : string) : res (list string) :=
  let* verified := normalize_protocol_record record case connector in
  let* status := dict_item "status" verified in
  if negb (eq_str status "PASS") then
    let* reason := dict_item "reason" verified in
    match reason with
    | PStr s => Ok ["protocol revalidation failed: " +:+ s]
    | _ => Err (TypeError "can only concatenate str")
    end
  else
    let* errors := mapM (fun kv => match fst kv with
      | PStr key => Ok (when_failed (negb (str_in key ["reason"; "artifacts"])
                                     && negb (py_eq (dict_get key record) (snd kv)))
                          ("protocol canonical field differs from reopened evidence: " +:+ key))
      | _ => Err (TypeError "can only concatenate str")
      end) verified in
    Ok (concat errors).

(** The record of one case, bound to the run. *)
Definition bind_record (run_id integration_mode : string) (case_by_id : case_table) (events : list pydict)
    (event_integration_mode : option string) (record : pydict) : res pydict :=
  let context_errors := case_protocol_context_errors record run_id integration_mode in
  let record := dict_set "integration_mode" (PStr integration_mode) (dict_set "run_id" (PStr run_id) record) in
  if negb (eq_str (dict_get "status" record) "PASS") then Ok record
  else
    let case := case_of (field_text "case_id" record) case_by_id in
    if dict_has "protocol_bundle" record then
      let* errors := protocol_record_errors record (dict_or case []) "nginx" in
      Ok (mark_protocol_provenance_invalid record (context_errors ++ errors))
    else
      let* matching_event := matching_protocol_event record case events event_integration_mode in
      let identity_errors := case_event_identity_errors (dict_or case record) matching_event (Some run_id) in
      let* pass_errors := case_protocol_pass_errors record matching_event case run_id integration_mode in
      Ok (mark_protocol_provenance_invalid record (context_errors ++ identity_errors ++ pass_errors)).

Definition bind_case_protocol_provenance (records : list pydict) (manifest : pydict) (case_by_id : case_table)
    (events : list pydict) (event_integration_mode : option string) : res (list pydict) :=
  mapM (bind_record (field_text "run_id" manifest) (field_text "integration_mode" manifest) case_by_id events
          event_integration_mode) records.

(** ** A stored record *)

Definition canonical_case_protocol_errors (record : pydict) (location : string) : res (list string) :=
  let judge :=
    let* negotiated := normalize_semantic_value "negotiated_protocol" (dict_get "negotiated_protocol" record) in
    let* downstream := normalize_semantic_value "downstream_protocol" (dict_get "downstream_protocol" record) in
    let* transport := normalize_semantic_value "transport" (dict_get "transport" record) in
    let connection_id := dict_get "connection_id" record in
    Ok (when_failed ((eq_str negotiated "h3" || eq_str downstream "h3" || eq_str transport "quic_udp")
                     && negb (is_none connection_id) && negb (is_hashed_connection_id connection_id))
          (location +:+ ".connection_id: raw QUIC connection identifiers are forbidden")) in
  match judge with
  | Err (ContractError _) => Ok [location +:+ ": invalid protocol provenance"]
  | r => r
  end.

Definition CLIENT_FIELDS : list string :=
  ["request_observation"; "runtime_verified"; "promotion_allowed"; "request_id"; "transaction_id"; "source_revision";
   "evidence_identity"].

Definition client_observation_errors (record : pydict) (label : string) : res (list string) :=
  match validate_request_observation sha256 record with
  | Ok _ => Ok []
  | Err (ValueError m) => Ok [label +:+ ": " +:+ m]
  | Err e => Err e
  end.

Definition client_case_identity_errors (record : pydict) (label : string) : res (list string) :=
  let said b m := when_failed b (label +:+ ": " +:+ m) in
  if eq_str (dict_get "evidence_identity" record) "request_bound" then
    in_order
      [client_observation_errors record label;
       (let* source := client_case_source_errors catalog runner_digest record in
        Ok (map (fun e => label +:+ ": " +:+ e) source));
       Ok (said (truthy (dict_get "transaction_ids" record) || truthy (dict_get "observed_rule_ids" record)
                 || truthy (dict_get "observed_event_fields" record)
                 || negb (is_false (dict_get "event_metadata_verified" record)))
             "client observation cannot contain host event evidence"
           ++ said (existsb (fun field => negb (String.eqb field "visible_http_status")
                                          && negb (is_none (dict_get field record))) PHASE4_SEMANTIC_FIELDS)
                "client observation cannot enrich host runtime semantics"
           ++ said (negb (py_eq (dict_get "visible_http_status" record) (dict_get "actual_status" record)))
                "client observation visible response differs from its actual response")]
  else Ok (said (existsb (fun field => dict_has field record) CLIENT_FIELDS)
             "client observation fields require the explicit identity mode").

(** The errors, and the identifiers seen so far. *)
Definition case_result_identity_errors (record : pydict) (label connector : string) (seen : list string)
    : res (list string * list string) :=
  let* protocol_errors := canonical_case_protocol_errors record label in
  let case_id := field_text "case_id" record in
  let* client_errors := client_case_identity_errors record label in
  Ok (protocol_errors
      ++ when_failed (negb (in_strs (dict_get "status" record) CASE_STATUSES)) (label +:+ ": invalid status")
      ++ when_failed (negb (eq_str (dict_get "connector" record) connector)) (label +:+ ": connector mismatch")
      ++ when_failed (str_in case_id seen) (label +:+ ": duplicate case_id " +:+ case_id)
      ++ client_errors, case_id :: seen).

(** ** A stored PASS *)

Definition matching_case_event_for_validation (record : pydict) (events : list pydict) (integration_mode : option string)
    : res (option pydict) :=
  if eq_str (dict_get "evidence_identity" record) "request_bound" then Ok None
  else
    let* rule := optional_field "expected_rule_id" record in
    let* transaction_ids := listed_transactions record in
    event_for_case events rule record transaction_ids integration_mode.

(** [value in record.get(field, \[\])] for an integer or another value. *)
Definition listed (v : pyval) (container : pyval) : res bool :=
  match container with
  | PList l => Ok (existsb (py_eq v) l)
  | PDict d => in_dict v d
  | _ => Err (TypeError "argument is not iterable")
  end.

(** The set of the items of a field. *)
Definition item_set (field : string) (record : pydict) : res (list pyval) :=
  let* l := iterate (dict_get_or (PList []) field record) in
  if forallb hashable l then Ok l else Err (TypeError "unhashable type").

Definition tagged (case_id : pyval) (r : res (list string)) : res (list string) :=
  let* errors := r in Ok (map (fun e => py_str case_id +:+ ": " +:+ e) errors).

(** The errors a PASS over events must not have. *)
Definition stored_event_errors (record : pydict) (case_id : pyval) (events : list pydict) (connector : string)
    (integration_mode : option string) : res (list string) :=
  let* matching := matching_case_event_for_validation record events integration_mode in
  let* (matching, _, pair_errors) := first_byte_pass_event_context event_schema fuel catalog record matching events
                                       integration_mode in
  in_order
    [tagged case_id (Ok pair_errors);
     tagged case_id (Ok (case_event_identity_errors record matching (some_text (field_text "run_id" record))));
     (if is_phase4_semantic_case record
      then tagged case_id (phase4_pass_errors event_schema fuel catalog record matching [] None integration_mode events)
      else Ok []);
     tagged case_id (canonical_event_errors event_schema fuel (match matching with Some e => PDict e | None => PNone end)
                       "event" (Some connector) integration_mode);
     tagged case_id (full_lifecycle_pass_errors event_schema fuel record matching)].

Definition generic_pass_case_completeness_errors (record : pydict) (events : list pydict) (connector : string)
    (integration_mode : option string) : res (list string) :=
  let case_id := dict_get "case_id" record in
  let said b m := when_failed b (py_str case_id +:+ ": " +:+ m) in
  if dict_has "protocol_bundle" record then Ok [py_str case_id +:+ ": protocol proof requires artifact revalidation"]
  else
    let expected_status := dict_get "expected_status" record in
    let expected_rule := dict_get "expected_rule_id" record in
    let* observed_rule := if is_none expected_rule then Ok true
                          else listed expected_rule (dict_get_or (PList []) "observed_rule_ids" record) in
    let* expected_fields := item_set "expected_event_fields" record in
    let* observed_fields := item_set "observed_event_fields" record in
    let errors :=
      said (negb (is_none (dict_get "configtest_receipt" record)))
        "configuration receipt has no declared case/host contract"
      ++ said (negb (is_true (dict_get "live_executed" record))) "PASS requires live_executed=true"
      ++ said (negb (is_phase4_semantic_case record) && negb (is_none expected_status)
               && negb (py_eq (dict_get "actual_status" record) expected_status)) "PASS status mismatch"
      ++ said (negb observed_rule) ("PASS missing expected rule ID " +:+ py_str expected_rule)
      ++ said (negb (forallb (fun f => existsb (py_eq f) observed_fields) expected_fields))
           "PASS missing expected event fields" in
    let* rest := if eq_str (dict_get "evidence_identity" record) "request_bound"
                 then client_case_identity_errors record (py_str case_id)
                 else stored_event_errors record case_id events connector integration_mode in
    Ok (errors ++ rest).

(** [schema\["properties"\]\["cases"\]\["items"\]] and such. *)
Fixpoint item_path (path : list string) (v : pyval) : res pyval :=
  match path with
  | [] => Ok v
  | k :: r => match v with
              | PDict d => let* w := dict_item k d in item_path r w
              | _ => Err (TypeError "object is not subscriptable")
              end
  end.

Definition native_invocation_for_case (case : pydict) (connector : string) : res pyval :=
  if negb (String.eqb connector "nginx") || negb (dict_has "native_invocations" case) then Ok PNone
  else match case_catalog_schema with
  | PDict schema =>
      let* case_schema := item_path ["properties"; "cases"; "items"] case_catalog_schema in
      match case_schema with
      | PDict s =>
          let* errors := json_schema_errors fuel (PDict case) s (Some schema) (py_str (dict_get "case_id" case)) in
          match errors with
          | [] => item_path ["native_invocations"; "nginx"] (PDict case)
          | _ => Err (ContractError (py_join "; " errors))
          end
      | _ => Err (AttributeError "get")
      end
  | _ => Err (ContractError "native invocation catalog schema is missing")
  end.

Definition pass_case_completeness_errors (record : pydict) (events : list pydict) (connector : string)
    (integration_mode authority : option string) (require_native_operation_contract : bool) : res (list string) :=
  if negb (eq_str (dict_get "status" record) "PASS") then Ok []
  else
    let case_id := dict_get "case_id" record in
    let* cases := catalog_cases catalog in
    let* case := case_or_empty case_id cases in
    if dict_has "protocol_bundle" record then tagged case_id (protocol_record_errors record case connector)
    else if negb (is_none (dict_get "native_operation_receipt" record)) then
      let* native := native_invocation_for_case case connector in
      if is_none native then Ok [py_str case_id +:+ ": native receipt has no declared case/host contract"]
      else
        tagged case_id (in_order
          [native_operation_record_errors record case;
           (let* profile := case_protocol_profile case in
            if is_http1 profile then
              let* event := matching_protocol_event record (Some case) events integration_mode in
              case_protocol_pass_errors record event (Some case) (field_text "run_id" record)
                (match integration_mode with Some m => m | None => "" end)
            else Ok [])])
    else
      let* native := if require_native_operation_contract then native_invocation_for_case case connector else Ok PNone in
      if negb (is_none native) then Ok [py_str case_id +:+ ": selected native contract requires genuine retained operation evidence"]
    else match config_invocation_for_case case connector with
    | Some _ =>
        tagged case_id (in_order
          [configtest_receipt_errors receipt_schema fuel record case connector integration_mode;
           configtest_artifact_errors event_schema fuel sys record authority])
    | None => generic_pass_case_completeness_errors record events connector integration_mode
    end.
End Binding.
