(* ===== verification/CaseTheorems.v ===== *)
(** * Lemmas of the case record: its fields, and the events it is judged by *)

From S2P Require Export CaseBinding IdentityTheorems PassOutcomes.
From Stdlib Require Import QArith.
#[global] Open Scope Z_scope.

(** ** Fields *)

Lemma dict_find_app k d e : dict_find k (d ++ e) = match dict_find k d with Some v => Some v | None => dict_find k e end.
Proof. induction d as [|[c v] d IH]; [done|]. cbn [app dict_find]. by destruct (eq_str c k). Qed.

Lemma dict_find_update k e d : ~ In k (map fst e) -> dict_find k (dict_update d e) = dict_find k d.
Proof.
  unfold dict_update. revert d. induction e as [|[c v] e IH]; [done|]. cbn [fold_left map fst]. intros d H.
  rewrite IH by (intros Hin; apply H; by right). rewrite dict_find_set.
  destruct (String.eqb_spec c k) as [->|]; [|done]. exfalso. apply H. by left.
Qed.

(** ** Events *)

Lemma last_member {A} (l : list A) x : last l = Some x -> In x l.
Proof. intros H. apply last_Some in H as [m ->]. apply in_or_app. right. by left. Qed.

Lemma concat_mapM_In {A B} (f : A -> res (list B)) l l' x : mapM f l = Ok l' -> In x (concat l') ->
  exists a b, In a l /\ f a = Ok b /\ In x b.
Proof. intros H. by apply (mapM_concat_In f l l' x). Qed.

Lemma candidates_sub events rule ids mode :
  incl (preferred_integration_mode_events (events_for_transactions (events_for_rule events rule) ids) mode) events.
Proof.
  assert (T : incl (events_for_transactions (events_for_rule events rule) ids) events).
  { intros x Hx. assert (In x (events_for_rule events rule)) as Hr.
    { unfold events_for_transactions in Hx. destruct (List.filter _ ids); [done|]. by apply filter_In in Hx as [? _]. }
    unfold events_for_rule in Hr. destruct rule; [|done]. by apply filter_In in Hr as [? _]. }
  unfold preferred_integration_mode_events. destruct mode as [m|]; [|done]. destruct (String.eqb m ""); [done|].
  destruct (List.filter _ _) as [|y l] eqn:E; [done|]. intros x Hx. apply T.
  assert (Hf : In x (List.filter (fun e => eq_str (dict_get "integration_mode" e) m)
    (events_for_transactions (events_for_rule events rule) ids))) by (by rewrite E).
  by apply filter_In in Hf as [? _].
Qed.

Lemma confirmed_In candidates case e : confirmed_event_for_case candidates case = Ok (Some e) -> In e candidates.
Proof.
  unfold confirmed_event_for_case. destruct (optional_field _ case) as [status|]; [|done].
  destruct (mapM _ candidates) as [l|] eqn:E; [|done]. intros H. apply Ok_inj, last_member in H.
  eapply concat_mapM_In in H as (a & b & Ha & Hb & Hx); [|exact E]. cbv beta in Hb.
  destruct (str_in _ _); [|apply Ok_inj in Hb as <-; done]. destruct status as [z|].
  - destruct (optional_field _ a) as [v|]; [|done]. apply Ok_inj in Hb as <-.
    destruct (opt_Z_eqb v (Some z)); [|done]. by destruct Hx as [<-|[]].
  - apply Ok_inj in Hb as <-. by destruct Hx as [<-|[]].
Qed.

(** ** The choice among candidates *)

Definition chosen (candidates : list pydict) (case : pydict) : res (option pydict) :=
  match phase4_outcome_event candidates case with
  | Some e => Ok (Some e)
  | None => let* confirmed := confirmed_event_for_case candidates case in
            Ok (match confirmed with Some (e :: r) => Some (e :: r) | _ => hd_error candidates end)
  end.

Lemma event_for_case_chosen events rule case ids mode e :
  event_for_case events rule case ids mode = Ok (Some e) <->
  chosen (preferred_integration_mode_events (events_for_transactions (events_for_rule events rule) ids) mode) case
    = Ok (Some e).
Proof.
  unfold event_for_case. destruct (events_for_transactions _ ids) as [|c cs] eqn:E; [|done].
  split; [done|]. unfold chosen, phase4_outcome_event, preferred_integration_mode_events, confirmed_event_for_case.
  destruct mode as [m|]; [destruct (String.eqb m "")|]; cbn; destruct (negb _); cbn;
    destruct (optional_field _ case); done.
Qed.

Lemma chosen_In l case e : chosen l case = Ok (Some e) -> In e l.
Proof.
  unfold chosen. destruct (phase4_outcome_event l case) as [x|] eqn:Eo.
  - intros H. apply Ok_inj in H. injection H as ->. unfold phase4_outcome_event in Eo. destruct (negb _); [done|].
    by apply find_some in Eo as [? _].
  - destruct (confirmed_event_for_case l case) as [c|] eqn:Ec; [|done]. intros H. apply Ok_inj in H.
    assert (Hd : hd_error l = Some e -> In e l) by (destruct l; [done|]; intros [= ->]; by left).
    destruct c as [[|p r]|]; [by apply Hd| |by apply Hd]. injection H as <-. by apply confirmed_In in Ec.
Qed.

Lemma event_for_case_In events rule case ids mode e : event_for_case events rule case ids mode = Ok (Some e) -> In e events.
Proof. intros H. apply event_for_case_chosen, chosen_In in H. by apply candidates_sub in H. Qed.

Lemma with_index_In i events n e : In (n, e) (with_index i events) -> In e events.
Proof.
  revert i. induction events as [|x events IH]; [done|]. intros i [H|H]; [left; congruence|right; by eapply IH].
Qed.

Lemma indexed_filter_In {f : indexed_event -> bool} i events n e : In (n, e) (List.filter f (with_index i events)) -> In e events.
Proof. intros H. apply filter_In in H as [H _]. by apply with_index_In in H. Qed.

Section Pair.
Variables (event_schema : pyval) (fuel : nat) (catalog : pydict).

(** Barrier and witness are events of the run; both need a single supplied transaction. *)
Lemma pair_In raw case events connector mode b w errors :
  first_byte_case_event_pair event_schema fuel raw case events connector mode = Ok (b, w, errors) ->
  (forall x, b = Some x -> In x events /\ exists t, supplied_transaction_ids raw = [t]) /\
  (forall x, w = Some x -> In x events /\ exists t, supplied_transaction_ids raw = [t]).
Proof.
  unfold first_byte_case_event_pair.
  destruct (match alias_of _ FIRST_BYTE_PAIR_CASES with Some _ => _ | None => _ end); [by intros [= <- <- <-]|].
  destruct (first_byte_barrier_candidates events) as [|c0 cs] eqn:Eb; [by intros [= <- <- <-]|]. rewrite <- Eb. clear Eb c0 cs.
  destruct (negb _ || negb _); [by intros [= <- <- <-]|].
  destruct (supplied_transaction_ids raw) as [|t [|]] eqn:Et; try by intros [= <- <- <-].
  cbv zeta. match goal with |- context [List.filter ?f (first_byte_barrier_candidates events)] =>
    destruct (List.filter f (first_byte_barrier_candidates events)) as [|[n x] [|]] eqn:Ef end.
  - destruct (first_byte_has_legacy_candidate _ _ _ _) as [[]|]; by intros [= <- <- <-].
  - assert (Hx : In x events).
    { assert (In (n, x) [(n, x)]) as H by by left. rewrite <- Ef in H. apply filter_In in H as [H _].
      unfold first_byte_barrier_candidates in H. by eapply indexed_filter_In. }
    destruct (optional_field _ case) as [rule|]; [|done].
    destruct (first_byte_rule_candidates events t rule) as [|[m y] [|]] eqn:Er.
    + intros [= <- <- <-]. split; [|done]. intros z [= <-]. split; [done|by exists t].
    + assert (Hy : In y events).
      { assert (H : In (m, y) (first_byte_rule_candidates events t rule)) by (rewrite Er; by left). unfold first_byte_rule_candidates in H.
        by eapply indexed_filter_In. }
      destruct (in_order _); [|done]. intros [= <- <- <-].
      split; intros z [= <-]; (split; [done|by exists t]).
    + intros [= <- <- <-]. split; [|done]. intros z [= <-]. split; [done|by exists t].
  - by intros [= <- <- <-].
Qed.

Lemma context_In record matching events mode event witness errors :
  first_byte_pass_event_context event_schema fuel catalog record matching events mode = Ok (Some event, witness, errors) ->
  (matching = Some event \/ In event events) /\ (forall x, witness = Some x -> In x events) /\
  (supplied_transaction_ids record = [] -> matching = Some event).
Proof.
  unfold first_byte_pass_event_context. destruct (first_byte_record_catalog_contract _ record) as [[case ce]|]; [|done].
  destruct (first_byte_case_event_pair _ _ record _ events _ mode) as [[[b w] pe]|] eqn:Ep; [|done].
  destruct (pair_In _ _ _ _ _ _ _ _ Ep) as [Hb Hw].
  destruct (match w with Some _ => _ | None => _ end) as [we|]; [|done]. intros H. injection H as He <- <-.
  split; [|split].
  - destruct b as [x|]; [|by left]. injection He as ->. right. by apply Hb.
  - intros x Hx. by apply Hw.
  - intros E. destruct b as [x|]; [|done]. destruct (Hb x eq_refl) as [_ [t Ht]]. congruence.
Qed.
End Pair.

(** * What a normalised PASS asserts *)

(** A field that the binding of a client observation leaves alone. *)
Definition OWN_FIELDS : list string :=
  ["schema_version"; "connector"; "integration_mode"; "group"; "phase"; "required_capabilities"; "status";
   "operation_status"; "live_executed"; "expected_result"; "observed_result"; "expected_status"; "actual_status";
   "expected_rule_id"; "observed_rule_ids"; "expected_event_fields"; "observed_event_fields";
   "event_metadata_verified"].

Lemma bind_client_find sha256 raw record record' k : bind_client_observation sha256 raw record = Ok record' ->
  In k OWN_FIELDS -> dict_find k record' = dict_find k record.
Proof.
  unfold bind_client_observation. destruct (eq_str _ _); [|by intros [= ->]].
  destruct (validate_request_observation sha256 raw) as [v|] eqn:Ev; [|done].
  destruct (dict_item _ raw) as [p|]; [|done]. destruct p; try done. intros H Hk. apply Ok_inj in H as <-.
  apply observation_accepted in Ev as (p & [_ _ _ _ [Hv _] _ _]).
  assert (Hn : forall l, forallb (fun f => negb (str_in f OWN_FIELDS)) l = true -> ~ In k l).
  { intros l Hl Hin. rewrite forallb_forall in Hl. specialize (Hl k Hin). apply negb_true_iff, str_in_false in Hl. done. }
  rewrite !dict_find_update; [done| |].
  - rewrite map_map. change (~ In k (map fst v)). rewrite Hv. by apply Hn.
  - by apply Hn.
Qed.

Section Cases.
Variables (event_schema receipt_schema : pyval) (fuel : nat) (catalog : pydict) (sys : bundle_system).
Variables (sha256 : string -> string) (runner_digest : string -> option string).
Variables normalize_protocol_record normalize_native_operation_record : pydict -> pydict -> string -> res pydict.

Abbreviation normalize_record := (normalize_case_record event_schema receipt_schema fuel catalog sys sha256 runner_digest
  normalize_protocol_record normalize_native_operation_record).
Abbreviation normalize_observed := (normalize_observed_case event_schema receipt_schema fuel catalog sys sha256).
Abbreviation collect := (collect_case_evidence event_schema fuel).
Abbreviation validation := (case_pass_validation_errors event_schema receipt_schema fuel catalog sys).

(** ** The parts of the normalisation *)

Lemma normalize_inv raw connector cases events mode authority record :
  normalize_record raw connector cases events mode authority = Ok (Some record) ->
  dict_has "protocol_bundle" raw = false -> dict_has "native_operation_receipt" raw = false ->
  exists case, case_of (case_identifier raw) cases = Some case /\
    _validate_request_bound_case catalog sha256 runner_digest raw
      (eq_str (dict_get "evidence_identity" raw) "request_bound") = Ok tt /\
    normalize_observed raw case connector (case_identifier raw) events mode authority = Ok record.
Proof.
  unfold normalize_case_record. cbv zeta. intros H Hp Hn.
  destruct (String.eqb (case_identifier raw) ""); [done|]. destruct (case_of _ cases) as [case|]; [|done].
  rewrite Hp, Hn in H. destruct (_validate_request_bound_case _ _ _ _ _) as [[]|]; [|done].
  destruct (normalize_observed _ _ _ _ _ _ _) as [r|] eqn:E; [|done]. injection H as ->. by exists case.
Qed.

(** The record before it is judged. *)
Definition claimed_record (raw record : pydict) : pydict :=
  match dict_find "configtest_receipt" raw with
  | Some receipt => dict_set "configtest_receipt" receipt record
  | None => record
  end.

Lemma claimed_find raw record k : k <> "configtest_receipt" -> dict_find k (claimed_record raw record) = dict_find k record.
Proof.
  intros H. unfold claimed_record. destruct (dict_find _ raw); [|done]. rewrite dict_find_set.
  by destruct (String.eqb_spec "configtest_receipt" k) as [<-|].
Qed.

(** What was built, with the fields of its own. *)
Record built (raw case : pydict) (connector case_id : string) (j : judged) (record : pydict) : Prop := {
  bu_base : exists capabilities exit_code, bind_client_observation sha256 raw
    (normalized_fields raw case connector case_id (j_status j) (j_details j) capabilities exit_code) = Ok record;
  bu_status : dict_find "status" record = Some (PStr (j_status j));
  bu_connector : dict_find "connector" record = Some (PStr connector);
  bu_result : dict_find "expected_result" record = Some (dict_get "expected_result" case);
  bu_rule : dict_find "expected_rule_id" record = Some (opt_int (expected_rule_id (details (j_details j))));
  bu_actual : dict_find "actual_status" record = Some (opt_int (actual_status (details (j_details j))));
  bu_observed : dict_find "observed_result" record = Some (observed_result (j_details j));
  bu_live : dict_find "live_executed" record = Some (PBool (is_true (dict_get "live_executed" raw)));
  bu_mode : dict_find "integration_mode" record = Some (opt_text (record_mode (j_details j))) }.

Lemma built_record raw case connector case_id j record :
  build_normalized_case_record sha256 raw case connector case_id (j_status j) (pyval_details (j_details j)) = Ok record ->
  built raw case connector case_id j record.
Proof.
  unfold build_normalized_case_record. destruct (list_field _ case) as [caps|]; [|done].
  destruct (optional_int _) as [code|]; [|done]. intros H. constructor; [by exists caps, code|..];
    (erewrite (bind_client_find sha256 raw _ _ _ H) by (apply str_in_In; reflexivity)); reflexivity.
Qed.

Lemma marked_status record errors record' : mark_case_record_invalid record errors = Ok record' ->
  (errors = [] /\ record' = record) \/ (dict_get "status" record' = PStr "FAIL" /\
    exists reason, record' = dict_update record
      [("status", PStr "FAIL"); ("operation_status", PStr (operation_status "fail")); ("reason", PStr reason)]).
Proof.
  unfold mark_case_record_invalid. destruct errors as [|e l]; [left; split; [done|congruence]|].
  destruct (dict_item "reason" record) as [r|]; [|done]. intros H. right. apply Ok_inj in H as <-. split.
  - unfold dict_update. cbn [fold_left]. unfold dict_get, dict_get_or. by autorewrite with pydict.
  - eexists. reflexivity.
Qed.

(** A normalised record that passes was judged without errors. *)
Lemma observed_pass raw case connector case_id events mode authority record :
  normalize_observed raw case connector case_id events mode authority = Ok record ->
  dict_get "status" record = PStr "PASS" ->
  exists j built_as, collect raw case connector events mode = Ok j /\ j_status j = "PASS" /\
    built raw case connector case_id j built_as /\ record = claimed_record raw built_as /\
    validation record case connector j events mode authority = Ok [].
Proof.
  unfold normalize_observed_case. destruct (collect _ _ _ _ _) as [j|] eqn:Ej; [|done].
  destruct (build_normalized_case_record _ _ _ _ _ _ _) as [b|] eqn:Eb; [|done].
  apply built_record in Eb. fold (claimed_record raw b).
  assert (Hs : dict_get "status" (claimed_record raw b) = PStr (j_status j)).
  { unfold dict_get, dict_get_or. by rewrite claimed_find, (bu_status _ _ _ _ _ _ Eb). }
  destruct (String.eqb_spec (j_status j) "PASS") as [E|E].
  - destruct (validation _ _ _ _ _ _ _) as [errors|] eqn:Ev; [|done]. intros H Hp.
    apply marked_status in H as [[-> ->]|[H _]]; [|congruence]. by exists j, b.
  - intros H. apply Ok_inj in H as <-. congruence.
Qed.

Lemma validation_nil record case connector j events mode authority :
  validation record case connector j events mode authority = Ok [] ->
  j_provenance j = [] /\
  normalized_case_pass_errors event_schema fuel catalog record case (j_event j) (j_errors j) (details (j_details j)) events
    = Ok [] /\
  configtest_receipt_errors receipt_schema fuel record case connector mode = Ok [] /\
  (config_invocation_for_case case connector <> None ->
   configtest_artifact_errors event_schema fuel sys record authority = Ok []).
Proof.
  unfold case_pass_validation_errors. intros H. apply in_order_nil in H.
  repeat (apply Forall_cons in H as [? H]). repeat split; try done.
  - by apply Ok_inj.
  - intros Hc. by destruct (config_invocation_for_case case connector).
Qed.

(** What was collected. *)
Definition client_bound (raw : pydict) : bool := eq_str (dict_get "evidence_identity" raw) "request_bound".

Record collected (raw case : pydict) (connector : string) (events : list pydict) (mode : option string) (j : judged) := {
  cl_rule : optional_field "expected_rule_id" case = Ok (expected_rule_id (details (j_details j)));
  cl_mode : integration_mode (details (j_details j)) = mode;
  cl_provenance : normalized_case_provenance raw
    = Ok (run_id (j_details j), record_mode (j_details j), j_provenance j);
  cl_observed : observed_result (j_details j) = py_or (dict_get "observed_result" raw) (dict_get "outcome" raw);
  cl_event : exists m barrier witness errors,
    _matching_case_event (config_invocation_for_case case connector) (client_bound raw) events
      (expected_rule_id (details (j_details j))) case (supplied_transaction_ids raw) mode = Ok m /\
    first_byte_case_event_pair event_schema fuel raw case events connector mode = Ok (barrier, witness, errors) /\
    j_event j = match barrier with Some b => Some b | None => m end /\
    (observed_event_fields (details (j_details j)), observed_rule_ids (details (j_details j)), transaction_ids (j_details j))
    = _bind_normalized_case_event_evidence (j_event j) witness
        (if client_bound raw then [] else normalized_observed_rule_ids raw)
        (if client_bound raw then [] else supplied_transaction_ids raw);
  cl_values : map fst (semantic_values (j_details j)) = map PStr PHASE4_SEMANTIC_FIELDS /\
    (client_bound raw = true -> client_semantics raw = Ok (semantic_values (j_details j)));
  cl_actual : exists actual,
    match normalized_actual_status_value raw case (semantic_values (j_details j)) with
    | Some v => optional_int v | None => Ok PNone end = Ok actual /\ actual_status (details (j_details j)) = whole actual;
  cl_verified : event_metadata_verified (j_details j) = true -> j_event j <> None;
  cl_status : exists status, normalize_status (dict_get "status" raw) = Ok status /\
    j_status j = if String.eqb (text_of (observed_result (j_details j))) "rejected_by_host_before_connector"
                 then "NOT_APPLICABLE" else status }.

Lemma client_semantics_keys raw values : client_semantics raw = Ok values -> map fst values = map PStr PHASE4_SEMANTIC_FIELDS.
Proof. unfold client_semantics. destruct (dict_item _ raw); [|done]. intros H. by apply Ok_inj in H as <-. Qed.

Lemma collect_inv raw case connector events mode j : collect raw case connector events mode = Ok j ->
  collected raw case connector events mode j.
Proof.
  unfold collect_case_evidence. cbv zeta. fold (client_bound raw).
  destruct (normalize_status _) as [status|] eqn:Es; [|done].
  destruct (normalized_case_provenance raw) as [[[run rm] pe]|] eqn:Epr; [|done].
  destruct (optional_field "expected_rule_id" case) as [rule|] eqn:Er; [|done].
  destruct (_matching_case_event _ _ _ _ _ _ _) as [m|] eqn:Em; [|done].
  destruct (first_byte_case_event_pair _ _ _ _ _ _ _) as [[[b w] pair]|] eqn:Ep; [|done].
  set (event := match b with Some b => Some b | None => m end).
  destruct (semantic_projection raw event w) as (values & re & Ev & Hk & _). rewrite Ev. cbn beta iota.
  destruct (if client_bound raw then client_semantics raw else Ok values) as [vs|] eqn:Evs; [|done].
  destruct (match normalized_actual_status_value raw case vs with Some _ => _ | None => _ end) as [actual|] eqn:Ea; [|done].
  destruct (_bind_normalized_case_event_evidence _ _ _ _) as [[fields rules] transactions] eqn:Eb.
  destruct (iterate _) as [items|]; [|done]. destruct (optional_field "expected_status" case) as [code|]; [|done].
  destruct (match some_event _ with Some _ => _ | None => _ end) as [se|]; [|done].
  intros H. apply Ok_inj in H as <-. constructor; cbn; try done.
  - by exists m, b, w, pair.
  - destruct (client_bound raw); [|injection Evs as <-; by split]. split; [by apply client_semantics_keys in Evs|done].
  - by exists actual.
  - intros Hv Hn. unfold case_event_metadata_verified in Hv. fold event in Hv. by rewrite Hn in Hv.
  - by exists status.
Qed.

(** The event a case was judged by is an event of the run. *)
Lemma collected_event raw case connector events mode j : collected raw case connector events mode j ->
  forall e, j_event j = Some e -> In e events.
Proof.
  intros [_ _ _ _ (m & b & w & pair & Em & Ep & -> & _) _ _ _ _] e He.
  destruct b as [x|]; [destruct (pair_In _ _ _ _ _ _ _ _ _ _ Ep) as [Hb _]; by apply Hb|].
  subst m. unfold _matching_case_event in Em. destruct (config_invocation_for_case _ _); [done|].
  destruct (client_bound raw); [done|]. by eapply event_for_case_In.
Qed.
End Cases.

(** * Choosing the event of a case again

    A record carries the transactions of the event it was judged by.  Looking the
    event up again with them finds the same event: the choice is the first event, or
    the last confirmed one, and dropping other candidates changes neither. *)

(** ** Filtered candidates *)

Lemma find_filter {A} (p q : A -> bool) l e : List.find p l = Some e -> q e = true -> List.find p (List.filter q l) = Some e.
Proof.
  induction l as [|x l IH]; [done|]. cbn. destruct (p x) eqn:Ep.
  - intros [= ->] ->. cbn. by rewrite Ep.
  - intros H Hq. destruct (q x); cbn; [rewrite Ep|]; by apply IH.
Qed.

Lemma find_filter_none {A} (p q : A -> bool) l : List.find p l = None -> List.find p (List.filter q l) = None.
Proof.
  induction l as [|x l IH]; [done|]. cbn. destruct (p x) eqn:Ep; [done|]. intros H.
  destruct (q x); cbn; [rewrite Ep|]; by apply IH.
Qed.

Lemma last_filter {A} (q : A -> bool) l e : last l = Some e -> q e = true -> last (List.filter q l) = Some e.
Proof.
  intros H Hq. apply last_Some in H as [m ->]. rewrite List.filter_app. cbn. rewrite Hq. apply last_snoc.
Qed.

Lemma hd_filter {A} (q : A -> bool) l (e : A) : hd_error l = Some e -> q e = true -> hd_error (List.filter q l) = Some e.
Proof. destruct l as [|x l]; [done|]. cbn. by intros [= ->] ->. Qed.

(** One confirmed event per candidate. *)
Definition confirms (case : pydict) (status : option Z) (e : pydict) : res (list pydict) :=
  if str_in (field_text "transport_result" e) ["http_status"; "log_only"; "connection_aborted"; "stream_reset"]
  then match status with
       | None => Ok [e]
       | Some _ => let* visible := optional_field "visible_http_status" e in
                   Ok (if opt_Z_eqb visible status then [e] else [])
       end
  else Ok [].

Lemma confirmed_eq candidates case : confirmed_event_for_case candidates case =
  let* status := optional_field "expected_status" case in
  let* confirmed := mapM (confirms case status) candidates in Ok (last (concat confirmed)).
Proof. done. Qed.

Lemma confirms_self case status e l : confirms case status e = Ok l -> l = [] \/ (l = [e] /\ e <> []).
Proof.
  unfold confirms. destruct (str_in _ _) eqn:E; [|intros [= <-]; by left].
  assert (Hne : e <> []) by (by intros ->). destruct status; [|intros [= <-]; by right].
  destruct (optional_field _ e); [|done]. intros [= <-]. destruct (opt_Z_eqb _ _); [by right|by left].
Qed.

Lemma confirms_filter case status q l ls : mapM (confirms case status) l = Ok ls ->
  exists ms, mapM (confirms case status) (List.filter q l) = Ok ms /\ concat ms = List.filter q (concat ls).
Proof.
  revert ls. induction l as [|x l IH]; cbn [mapM]; [intros ls [= <-]; by exists []|]. intros ls.
  destruct (confirms case status x) as [a|] eqn:Ea; [|done]. destruct (mapM _ l) as [bs|]; [|done].
  intros H. apply Ok_inj in H as <-. destruct (IH bs eq_refl) as (ms & Hm & Hc).
  cbn [List.filter concat]. rewrite List.filter_app, <- Hc.
  destruct (confirms_self _ _ _ _ Ea) as [->|[-> _]].
  - destruct (q x); [|by exists ms]. cbn [mapM]. rewrite Ea, Hm. by exists ([] :: ms).
  - cbn [List.filter]. destruct (q x); [|by exists ms]. cbn [mapM]. rewrite Ea, Hm. by exists ([x] :: ms).
Qed.

Lemma chosen_filter q l case e : chosen l case = Ok (Some e) -> q e = true ->
  chosen (List.filter q l) case = Ok (Some e).
Proof.
  unfold chosen. intros H Hq. destruct (phase4_outcome_event l case) as [x|] eqn:Eo.
  - apply Ok_inj in H. injection H as ->. unfold phase4_outcome_event in *. destruct (negb _); [done|].
    by rewrite (find_filter _ q l e Eo Hq).
  - assert (phase4_outcome_event (List.filter q l) case = None) as ->.
    { unfold phase4_outcome_event in *. destruct (negb _); [done|]. by apply find_filter_none. }
    rewrite !confirmed_eq in *. destruct (optional_field _ case) as [status|]; [|done].
    destruct (mapM _ l) as [ls|] eqn:Em; [|done]. destruct (confirms_filter case status q l ls Em) as (ms & -> & ->).
    apply Ok_inj in H. f_equal. destruct (last (concat ls)) as [[|p r]|] eqn:El.
    + exfalso. apply last_member in El. apply (mapM_concat_In _ _ _ _ Em) in El as (a & b & _ & Hb & Hx).
      destruct (confirms_self _ _ _ _ Hb) as [E|[E Hne]]; rewrite E in Hx; [done|]. by destruct Hx as [Hx|[]].
    + injection H as <-. by rewrite (last_filter q _ _ El Hq).
    + assert (concat ls = []) as -> by (destruct (concat ls); [done|by rewrite last_cons in El; destruct (last _)]).
      cbn. by apply hd_filter.
Qed.

(** ** Fewer candidates *)

Lemma filter_comm {A} (p q : A -> bool) l : List.filter p (List.filter q l) = List.filter q (List.filter p l).
Proof.
  induction l as [|x l IH]; [done|]. cbn. destruct (q x) eqn:Eq, (p x) eqn:Ep; cbn; rewrite ?Eq, ?Ep, IH; done.
Qed.

Lemma preferred_filter q l mode e : In e (preferred_integration_mode_events l mode) -> q e = true ->
  preferred_integration_mode_events (List.filter q l) mode = List.filter q (preferred_integration_mode_events l mode).
Proof.
  unfold preferred_integration_mode_events. destruct mode as [m|]; [|done]. destruct (String.eqb m ""); [done|].
  intros Hin Hq. rewrite filter_comm.
  destruct (List.filter (fun e => eq_str (dict_get "integration_mode" e) m) l) as [|x r] eqn:E; [done|].
  destruct (List.filter q (x :: r)) as [|y s] eqn:F; [|done].
  exfalso. assert (Hf : In e (List.filter q (x :: r))) by (by apply filter_In). by rewrite F in Hf.
Qed.

(** ** Transactions *)

Lemma shares_incl a b l : incl a b -> incl b a -> shares a l = shares b l.
Proof.
  intros H1 H2. apply eq_true_iff_eq. unfold shares. rewrite !existsb_exists.
  split; intros (x & Hx & E); exists x; auto.
Qed.

Definition not_blank (s : string) : bool := negb (String.eqb (py_strip s) "").

Lemma sorted_names_In x l : In x (sorted_names l) <-> In x l.
Proof. unfold sorted_names, sort_strs. rewrite isort_In. apply dedup_In. apply String.eqb_eq. Qed.

Lemma filter_all {A} (p : A -> bool) l : Forall (fun x => p x = true) l -> List.filter p l = l.
Proof. induction 1 as [|x l Hx _ IH]; [done|]. cbn. by rewrite Hx, IH. Qed.

Lemma event_transactions_blank e : Forall (fun s => not_blank s = true) (event_transaction_ids e).
Proof.
  unfold event_transaction_ids, nonblank. apply List.Forall_forall. intros s Hs. by apply filter_In in Hs as [_ ?].
Qed.

Lemma candidates_again C ids e : Forall (fun s => not_blank s = true) ids ->
  ids = [] \/ incl (event_transaction_ids e) ids ->
  In e (events_for_transactions C ids) ->
  exists q, q e = true /\ events_for_transactions C (sorted_names (ids ++ event_transaction_ids e))
                        = List.filter q (events_for_transactions C ids).
Proof.
  intros Hb Hi Hin. set (ids' := sorted_names (ids ++ event_transaction_ids e)).
  assert (Hb' : List.filter (fun s => negb (String.eqb (py_strip s) "")) ids' = ids').
  { apply filter_all, List.Forall_forall. intros s Hs. apply (proj1 (sorted_names_In _ _)), in_app_or in Hs.
    pose proof (event_transactions_blank e) as He. rewrite List.Forall_forall in Hb, He.
    destruct Hs as [Hs|Hs]; [by apply Hb|by apply He]. }
  unfold events_for_transactions at 2. rewrite (filter_all (fun s => negb (String.eqb (py_strip s) "")) ids) by exact Hb.
  unfold events_for_transactions at 1. rewrite Hb'.
  destruct ids as [|i l].
  - destruct ids' as [|j m] eqn:E.
    + exists (fun _ => true). split; [done|]. symmetry. by apply filter_all, List.Forall_forall.
    + exists (fun x => shares (j :: m) (event_transaction_ids x)). split; [|done]. apply existsb_exists. exists j.
      assert (Hj : In j ids') by (rewrite E; by left). apply (proj1 (sorted_names_In _ _)) in Hj.
      split; [by left|by apply str_in_In].
  - assert (Ht : incl (event_transaction_ids e) (i :: l)) by (destruct Hi; [done|assumption]).
    assert (Hne : ids' <> []).
    { intros E. assert (Hc : In i ids') by (apply sorted_names_In; by left). by rewrite E in Hc. }
    exists (fun _ => true). split; [done|].
    rewrite (filter_all (fun _ => true)) by (by apply List.Forall_forall).
    destruct ids' as [|j m] eqn:E; [done|]. rewrite <- E. apply List.filter_ext. intros x. apply shares_incl.
    + intros s Hs. apply (proj1 (sorted_names_In _ _)), in_app_or in Hs as [Hs|Hs]; [done|by apply Ht].
    + intros s Hs. apply sorted_names_In, in_or_app. by left.
Qed.

(** The event of a case, looked up with its own transactions added. *)
Lemma event_for_case_again events rule case ids mode e :
  Forall (fun s => not_blank s = true) ids -> ids = [] \/ incl (event_transaction_ids e) ids ->
  event_for_case events rule case ids mode = Ok (Some e) ->
  event_for_case events rule case (sorted_names (ids ++ event_transaction_ids e)) mode = Ok (Some e).
Proof.
  intros Hb Hi H. apply event_for_case_chosen in H. apply event_for_case_chosen.
  pose proof (chosen_In _ _ _ H) as Hin.
  assert (Hc : In e (events_for_transactions (events_for_rule events rule) ids)).
  { unfold preferred_integration_mode_events in Hin. destruct mode as [m|]; [|done]. destruct (String.eqb m ""); [done|].
    destruct (List.filter _ _) as [|x r] eqn:E; [done|]. rewrite <- E in Hin. by apply filter_In in Hin as [? _]. }
  destruct (candidates_again _ ids e Hb Hi Hc) as (q & Hq & ->).
  rewrite (preferred_filter q _ mode e Hin Hq). by apply chosen_filter.
Qed.
