(* ===== verification/CasePass.v ===== *)
(** * A phase-4 PASS, from the raw record to the bound record *)

From S2P Require Export CaseTheorems.
From Stdlib Require Import QArith.
#[global] Open Scope Z_scope.

(** ** Fields of the normalised record *)

Lemma dict_find_absent k d : ~ In (PStr k) (map fst d) -> dict_find k d = None.
Proof.
  induction d as [|[c v] d IH]; [done|]. cbn [map fst dict_find]. intros H. destruct (eq_str c k) eqn:E.
  - apply eq_str_true in E as ->. exfalso. apply H. by left.
  - apply IH. intros Hin. apply H. by right.
Qed.

(** A field outside of the semantic ones does not depend on the semantic values. *)
Lemma built_find raw case connector case_id status d caps code k :
  map fst (bd_semantic_values d) = map PStr PHASE4_SEMANTIC_FIELDS -> str_in k PHASE4_SEMANTIC_FIELDS = false ->
  dict_find k (built_fields raw case connector case_id status d caps code)
  = dict_find k (built_fields raw case connector case_id status
      {| bd_run_id := bd_run_id d; bd_integration_mode := bd_integration_mode d; bd_observed_result := bd_observed_result d;
         bd_expected_status := bd_expected_status d; bd_actual_status := bd_actual_status d;
         bd_expected_rule_id := bd_expected_rule_id d; bd_observed_rule_ids := bd_observed_rule_ids d;
         bd_transaction_ids := bd_transaction_ids d; bd_expected_fields := bd_expected_fields d;
         bd_observed_event_fields := bd_observed_event_fields d;
         bd_event_metadata_verified := bd_event_metadata_verified d; bd_semantic_values := [] |} caps code).
Proof.
  intros Hv Hk. unfold built_fields. rewrite !dict_find_app.
  rewrite (dict_find_absent k (bd_semantic_values d)); [reflexivity|]. rewrite Hv. intros H.
  apply in_map_iff in H as (s & [= ->] & Hin). by apply str_in_false in Hk.
Qed.

Lemma fields_find raw case connector case_id status d caps code k :
  map fst (semantic_values d) = map PStr PHASE4_SEMANTIC_FIELDS -> str_in k PHASE4_SEMANTIC_FIELDS = false ->
  dict_find k (normalized_fields raw case connector case_id status d caps code)
  = dict_find k (normalized_fields raw case connector case_id status
      {| run_id := run_id d; record_mode := record_mode d; observed_result := observed_result d; details := details d;
         transaction_ids := transaction_ids d; event_metadata_verified := event_metadata_verified d;
         semantic_values := [] |} caps code).
Proof. exact (built_find raw case connector case_id status (pyval_details d) caps code k). Qed.

(** The value of a field that is not a semantic one. *)
Ltac field_of Hv := rewrite fields_find; [reflexivity|exact Hv|reflexivity].

Lemma strs_again l : map py_str (map PStr l) = l.
Proof. induction l as [|s l IH]; [done|]. cbn. by rewrite IH. Qed.

Lemma opt_int_field field d o : dict_find field d = Some (opt_int o) -> optional_field field d = Ok o.
Proof. intros H. unfold optional_field, dict_get, dict_get_or. rewrite H. by destruct o. Qed.

(** ** The client observation *)

Lemma client_transactions sha256 raw base record : client_bound raw = true ->
  bind_client_observation sha256 raw base = Ok record -> dict_find "tx_id" base = None ->
  supplied_transaction_ids record = [].
Proof.
  unfold bind_client_observation, client_bound. intros -> H Ht.
  destruct (validate_request_observation sha256 raw) as [v|] eqn:Ev; [|done].
  destruct (dict_item _ raw) as [p|]; [|done]. destruct p as [| | | | | |p]; try done. apply Ok_inj in H.
  apply observation_accepted in Ev as (q & [_ _ _ _ [Hv _] _ _]).
  assert (Hx : dict_find "tx_id" record = None).
  { rewrite <- H, !dict_find_update; [done| |].
    - rewrite map_map. change (~ In "tx_id" (map fst v)). rewrite Hv. cbn. intuition congruence.
    - cbn. intuition congruence. }
  assert (Hl : dict_find "transaction_ids" record = Some (PList [])).
  { rewrite <- H. unfold dict_update at 1. cbn [fold_left]. by rewrite !dict_find_set. }
  assert (Hi : dict_find "transaction_id" record = Some PNone).
  { rewrite <- H. unfold dict_update at 1. cbn [fold_left]. by rewrite !dict_find_set. }
  unfold supplied_transaction_ids, dict_get, dict_get_or. cbn [map]. by rewrite Hx, Hl, Hi.
Qed.

(** ** Cases without a pair of events *)

Definition unpaired (case_id : string) : Prop := alias_of case_id FIRST_BYTE_PAIR_CASES = None.

Lemma no_pair schema fuel raw case events connector mode : unpaired (field_text "case_id" case) ->
  is_none (dict_get "expected_result" case) = false ->
  first_byte_case_event_pair schema fuel raw case events connector mode = Ok (None, None, []).
Proof. unfold unpaired, first_byte_case_event_pair. by intros -> ->. Qed.

Lemma no_pair_context schema fuel catalog record matching events mode event witness :
  unpaired (field_text "case_id" record) -> is_none (dict_get "expected_result" record) = false ->
  first_byte_pass_event_context schema fuel catalog record matching events mode = Ok (Some event, witness, []) ->
  matching = Some event /\ witness = None.
Proof.
  unfold unpaired at 1. intros Hu Hr. unfold first_byte_pass_event_context, first_byte_record_catalog_contract. cbv zeta. rewrite Hu.
  destruct (negb _).
  - cbn [dict_or]. rewrite no_pair by done. cbn. by intros [= -> <-].
  - destruct (catalog_cases catalog) as [cs|]; [|done]. destruct (catalog_case _ cs) as [[c|]|]; [| |done].
    all: rewrite ?Hu; cbv beta iota; destruct (first_byte_case_event_pair _ _ _ _ _ _ _) as [[[b w] pe]|]; [|done];
      destruct (match w with Some _ => _ | None => _ end) as [we|]; [|done]; by intros [= _ _ H].
Qed.

Lemma phase4_result case : is_phase4_semantic_case case = true ->
  In (field_text "expected_result" case) PHASE4_EXPECTED_RESULTS /\ is_none (dict_get "expected_result" case) = false.
Proof.
  unfold is_phase4_semantic_case. intros H. apply andb_true_iff in H as [_ H]. split; [by apply str_in_In|].
  unfold field_text in H. by destruct (dict_get "expected_result" case).
Qed.

(** ** Binding *)

Section Pass.
Variables (event_schema receipt_schema : pyval) (fuel : nat) (catalog : pydict) (sys : bundle_system).
Variables (sha256 : string -> string) (runner_digest : string -> option string).
Variables normalize_protocol_record normalize_native_operation_record : pydict -> pydict -> string -> res pydict.

Abbreviation normalize_record := (normalize_case_record event_schema receipt_schema fuel catalog sys sha256 runner_digest
  normalize_protocol_record normalize_native_operation_record).
Abbreviation bind := (bind_record normalize_protocol_record).

(** The record with the identity of its run. *)
Definition of_run (run mode : string) (record : pydict) : pydict :=
  dict_set "integration_mode" (PStr mode) (dict_set "run_id" (PStr run) record).

Lemma of_run_find run mode record k : k <> "integration_mode" -> k <> "run_id" ->
  dict_find k (of_run run mode record) = dict_find k record.
Proof.
  intros H1 H2. unfold of_run. rewrite !dict_find_set. destruct (String.eqb_spec "integration_mode" k); [congruence|].
  destruct (String.eqb_spec "run_id" k); congruence.
Qed.

Lemma marked_provenance record errors : dict_get "status" (mark_protocol_provenance_invalid record errors) = PStr "PASS" ->
  errors = [].
Proof.
  unfold mark_protocol_provenance_invalid. destruct errors; [done|]. unfold dict_update. cbn [fold_left].
  unfold dict_get, dict_get_or. by autorewrite with pydict.
Qed.

Lemma bind_pass run imode cases events mode record final :
  bind run imode cases events mode record = Ok final -> dict_get "status" final = PStr "PASS" ->
  dict_has "protocol_bundle" record = false ->
  dict_get "status" record = PStr "PASS" /\ final = of_run run imode record /\
  case_protocol_context_errors record run imode = [] /\
  exists event, matching_protocol_event final (case_of (field_text "case_id" final) cases) events mode = Ok event /\
    case_event_identity_errors (dict_or (case_of (field_text "case_id" final) cases) final) event (Some run) = [] /\
    case_protocol_pass_errors final event (case_of (field_text "case_id" final) cases) run imode = Ok [].
Proof.
  unfold bind_record. cbv zeta. fold (of_run run imode record). intros H Hs Hb.
  assert (E : dict_get "status" (of_run run imode record) = dict_get "status" record).
  { unfold dict_get, dict_get_or. by rewrite of_run_find. }
  assert (Hb' : dict_has "protocol_bundle" (of_run run imode record) = false).
  { unfold dict_has. by rewrite of_run_find. }
  destruct (negb _) eqn:En.
  - apply Ok_inj in H as <-. apply negb_true_iff in En. rewrite Hs in En. done.
  - apply negb_false_iff, eq_str_true in En. rewrite Hb' in H.
    destruct (matching_protocol_event _ _ _ _) as [event|] eqn:Em; [|done].
    destruct (case_protocol_pass_errors _ _ _ _ _) as [errors|] eqn:Ee; [|done]. apply Ok_inj in H as <-.
    pose proof (marked_provenance _ _ Hs) as Hn. rewrite Hn in *. cbn [mark_protocol_provenance_invalid] in *.
    apply app_eq_nil in Hn as [-> Hn]. apply app_eq_nil in Hn as [Hi ->].
    split; [congruence|]. split; [done|]. split; [done|]. by exists event.
Qed.

(** ** The event before and after binding *)

Lemma supplied_not_blank raw : Forall (fun s => not_blank s = true) (supplied_transaction_ids raw).
Proof.
  apply List.Forall_forall. intros s Hs. unfold supplied_transaction_ids in Hs.
  apply (proj1 (sorted_names_In _ _)), in_app_or in Hs as [Hs|Hs].
  - destruct (dict_get "transaction_ids" raw); try done. by apply filter_In in Hs as [_ ?].
  - apply in_concat in Hs as (l & Hl & Hs). apply in_map_iff in Hl as (k & <- & _). cbv zeta in Hs.
    unfold not_blank. destruct (String.eqb (py_strip (text_of (dict_get k raw))) "") eqn:E; [done|].
    destruct Hs as [<-|[]]. unfold text_of in E. destruct (truthy _); [by rewrite E|done].
Qed.

(** The record of a host's case: not a client observation. *)
Lemma host_record raw case connector case_id j b : client_bound raw = false ->
  built sha256 raw case connector case_id j b ->
  exists caps code, b = normalized_fields raw case connector case_id (j_status j) (j_details j) caps code.
Proof.
  unfold client_bound. intros Hc [(caps & code & H) _ _ _ _ _ _ _ _]. unfold bind_client_observation in H. rewrite Hc in H.
  exists caps, code. congruence.
Qed.

(** A phase-4 record that passes has an event in its context that verifies it. *)
Lemma phase4_judged raw case connector case_id events mode j b :
  collected event_schema fuel raw case connector events mode j -> built sha256 raw case connector case_id j b ->
  is_phase4_semantic_case case = true ->
  normalized_case_pass_errors event_schema fuel catalog (claimed_record raw b) case (j_event j) (j_errors j)
    (details (j_details j)) events = Ok [] ->
  exists event witness required, case_protocol_profile case = Ok required /\
    first_byte_pass_event_context event_schema fuel catalog (claimed_record raw b) (j_event j) events mode
      = Ok (Some event, witness, []) /\
    phase4_verified event_schema fuel (claimed_record raw b) event witness required mode.
Proof.
  intros C B H4 H. destruct (phase4_result case H4) as [Hr _].
  unfold normalized_case_pass_errors in H. destruct (case_required_protocol_errors case) as [[required pe]|] eqn:Ep; [|done].
  apply in_order_nil in H. apply Forall_cons in H as [He H]. apply Ok_inj in He as ->. apply Forall_cons in H as [H _].
  rewrite H4, (cl_mode _ _ _ _ _ _ _ _ C) in H.
  assert (Hp : case_protocol_profile case = Ok required).
  { unfold case_required_protocol_errors in Ep. destruct (case_protocol_profile case) as [p|e]; [congruence|]. by destruct e. }
  apply phase4_evidence in H as (_ & event & witness & Hc & V); [by exists event, witness, required|].
  unfold field_text, dict_get, dict_get_or. by rewrite claimed_find, (bu_result _ _ _ _ _ _ _ B).
Qed.

(** The record of a client observation supplies no transaction. *)
Lemma client_supplies_none raw case connector case_id events mode j b :
  collected event_schema fuel raw case connector events mode j -> built sha256 raw case connector case_id j b ->
  client_bound raw = true -> supplied_transaction_ids (claimed_record raw b) = [].
Proof.
  intros C [(caps & code & Hb) _ _ _ _ _ _ _ _] Hc.
  assert (Hs : supplied_transaction_ids b = []).
  { apply (client_transactions _ _ _ _ Hc Hb). field_of (proj1 (cl_values _ _ _ _ _ _ _ _ C)). }
  rewrite <- Hs. unfold supplied_transaction_ids, dict_get, dict_get_or. cbn [map]. by rewrite !claimed_find.
Qed.

(** Without a pair the passing record has the event it was matched with. *)
Lemma judged_event raw case connector case_id events mode j b record :
  collected event_schema fuel raw case connector events mode j -> built sha256 raw case connector case_id j b ->
  record = claimed_record raw b -> is_phase4_semantic_case case = true -> unpaired case_id ->
  field_text "case_id" case = case_id ->
  normalized_case_pass_errors event_schema fuel catalog record case (j_event j) (j_errors j) (details (j_details j)) events = Ok [] ->
  exists event required, j_event j = Some event /\ client_bound raw = false /\
    case_protocol_profile case = Ok required /\
    phase4_verified event_schema fuel record event None required mode.
Proof.
  intros C B -> H4 Hu Hid H. destruct (phase4_result case H4) as [Hr Hn].
  assert (Er : dict_get "expected_result" (claimed_record raw b) = dict_get "expected_result" case).
  { unfold dict_get at 1, dict_get_or. by rewrite claimed_find, (bu_result _ _ _ _ _ _ _ B). }
  destruct (phase4_judged _ _ _ _ _ _ _ _ C B H4 H) as (event & witness & required & Hp & Hc & V). clear H.
  destruct (cl_event _ _ _ _ _ _ _ _ C) as (m & barrier & w & errors & Em & Epair & Ej & _).
  rewrite (no_pair event_schema fuel raw case events connector mode) in Epair; [|by rewrite Hid|done].
  injection Epair as <- <- <-. rewrite Ej in Hc.
  destruct (client_bound raw) eqn:Ec.
  - exfalso. pose proof (client_supplies_none _ _ _ _ _ _ _ _ C B Ec) as Hs.
    apply context_In in Hc as (_ & _ & Hm). specialize (Hm Hs). subst m.
    unfold _matching_case_event in Em. by destruct (config_invocation_for_case _ _).
  - destruct (host_record _ _ _ _ _ _ Ec B) as (caps & code & Hb).
    apply no_pair_context in Hc as [Hm ->]; [| |by rewrite Er].
    + exists event, required. by rewrite Ej.
    + unfold field_text, dict_get, dict_get_or. rewrite claimed_find by done. rewrite Hb.
      replace (dict_find "case_id" _) with (Some (PStr case_id)); [|field_of (proj1 (cl_values _ _ _ _ _ _ _ _ C))].
      unfold text_of. cbn. by destruct (String.eqb_spec case_id "") as [->|].
Qed.
(** The lookup after binding uses the rule and the transactions of the record. *)
Lemma bound_lookup raw case connector events mode run imode j record event :
  collected event_schema fuel raw case connector events mode j -> client_bound raw = false ->
  built sha256 raw case connector (case_identifier raw) j record ->
  is_phase4_semantic_case case = true -> unpaired (case_identifier raw) -> field_text "case_id" case = case_identifier raw ->
  j_event j = Some event -> event <> [] ->
  supplied_transaction_ids raw = [] \/ incl (event_transaction_ids event) (supplied_transaction_ids raw) ->
  matching_protocol_event (of_run run imode (claimed_record raw record)) (Some case) events mode = Ok (Some event).
Proof.
  intros C Hc B H4 Hu Hid Hj Hne Hi. destruct (phase4_result case H4) as [_ Hn].
  destruct (cl_event _ _ _ _ _ _ _ _ C) as (m & barrier & w & errors & Em & Epair & Ej & Eb).
  rewrite (no_pair event_schema fuel raw case events connector mode) in Epair; [|by rewrite Hid|done].
  injection Epair as <- <- <-. assert (m = Some event) as -> by congruence. rewrite Hj, Hc in Eb.
  unfold _matching_case_event in Em. destruct (config_invocation_for_case case connector); [done|]. rewrite Hc in Em.
  destruct event as [|p r]; [done|]. cbn [_bind_normalized_case_event_evidence bind_case_event_evidence some_event] in Eb.
  injection Eb as _ _ Et. destruct (host_record _ _ _ _ _ _ Hc B) as (caps & code & ->).
  pose proof (proj1 (cl_values _ _ _ _ _ _ _ _ C)) as Hv. unfold matching_protocol_event, listed_transactions.
  unfold dict_get at 1, dict_get_or. rewrite of_run_find, claimed_find by done.
  replace (dict_find "transaction_ids" _) with (Some (PList (map PStr (transaction_ids (j_details j))))) by field_of Hv.
  cbn [iterate]. rewrite strs_again.
  unfold dict_get at 1, dict_get_or. rewrite of_run_find, claimed_find by done.
  replace (dict_find "native_operation_receipt" _) with (@None pyval) by field_of Hv. cbn [is_none].
  erewrite (opt_int_field "expected_rule_id"); [|rewrite of_run_find, claimed_find by done; field_of Hv].
  rewrite Et. apply event_for_case_again; [apply supplied_not_blank|exact Hi|exact Em].
Qed.

(** Does the case claim anything of an event? *)
Definition claims_event (case : pydict) : bool :=
  truthy (dict_get "expected_event_fields" case) || negb (is_none (dict_get "expected_rule_id" case)).

Lemma same_run case event run : claims_event case = true -> run <> "" ->
  case_event_identity_errors case (Some event) (Some run) = [] ->
  dict_get "run_id" event = PNone \/ dict_get "run_id" event = PStr run.
Proof.
  unfold claims_event, case_event_identity_errors. intros Hc Hr. rewrite Hc. cbn [negb]. intros H.
  apply app_eq_nil in H as [_ H]. destruct (String.eqb_spec run ""); [done|]. cbn [negb andb] in H.
  destruct (is_none (dict_get "run_id" event)) eqn:En; [left; by apply none_eq|]. cbn [negb andb] in H.
  destruct (eq_str (dict_get "run_id" event) run) eqn:E; [|done]. right. by apply eq_str_true.
Qed.

(** C30: a phase-4 PASS is an event of the run, from the raw record to the bound one: a
    case that a host reports, that is normalised and bound to the run and still passes
    was judged by an event of the run's log that verifies the record (live, phase 4,
    expected rule, protocol path, outcome), under the case's own protocol profile; the
    bound record differs from the normalised one in the identity of the run alone, and
    the source did not name another run.  The two first-byte cases are apart: they are
    judged by a pair of events.  The binding looks the event up again with the transactions
    of the record.  When the source named no transaction, or every transaction of the event,
    the second lookup finds the same event; and then, for a case that claims an event and a
    run with a name, that event does not name another run either.  Otherwise it may find
    another event. *)
Theorem case_pass_of_run raw connector cases events mode authority record run imode final case :
  normalize_record raw connector cases events mode authority = Ok (Some record) ->
  bind run imode cases events mode record = Ok final ->
  dict_get "status" final = PStr "PASS" ->
  dict_has "protocol_bundle" raw = false -> dict_has "native_operation_receipt" raw = false ->
  case_of (case_identifier raw) cases = Some case -> field_text "case_id" case = case_identifier raw ->
  unpaired (case_identifier raw) -> is_phase4_semantic_case case = true ->
  exists event required,
    In event events /\ case_protocol_profile case = Ok required /\
    phase4_verified event_schema fuel record event None required mode /\
    final = of_run run imode record /\
    (dict_get "run_id" record = PNone \/ dict_get "run_id" record = PStr run) /\
    (supplied_transaction_ids raw = [] \/ incl (event_transaction_ids event) (supplied_transaction_ids raw) ->
     matching_protocol_event final (Some case) events mode = Ok (Some event) /\
     (claims_event case = true -> run <> "" ->
      dict_get "run_id" event = PNone \/ dict_get "run_id" event = PStr run)).
Proof.
  intros Hn Hb Hs Hp Ho Hcase Hid Hu H4.
  destruct (normalize_inv _ _ _ _ _ _ _ _ _ _ _ _ _ _ _ _ Hn Hp Ho) as (c & Hc & _ & Hobs).
  assert (c = case) as -> by congruence.
  assert (Hpass : dict_get "status" record = PStr "PASS").
  { destruct (dict_has "protocol_bundle" record) eqn:Eb; [|by eapply bind_pass].
    unfold bind_record in Hb. cbv zeta in Hb. fold (of_run run imode record) in Hb.
    destruct (negb (eq_str (dict_get "status" (of_run run imode record)) "PASS")) eqn:En.
    - apply Ok_inj in Hb as <-. apply negb_true_iff in En. by rewrite Hs in En.
    - apply negb_false_iff, eq_str_true in En. unfold dict_get, dict_get_or in En |- *. by rewrite of_run_find in En. }
  destruct (observed_pass _ _ _ _ _ _ _ _ _ _ _ _ _ _ Hobs Hpass) as (j & b & Ej & Es & B & Er & V).
  apply collect_inv in Ej. apply validation_nil in V as (_ & V & _).
  destruct (judged_event raw case connector (case_identifier raw) events mode j b record Ej B Er H4 Hu Hid V)
    as (event & required & Hj & Hcb & Hreq & Hv).
  destruct (host_record _ _ _ _ _ _ Hcb B) as (caps & code & Hbase).
  pose proof (proj1 (cl_values _ _ _ _ _ _ _ _ Ej)) as Hk.
  assert (Hnp : dict_has "protocol_bundle" record = false).
  { subst record. unfold dict_has. rewrite claimed_find, Hbase by done.
    replace (dict_find "protocol_bundle" _) with (@None pyval) by field_of Hk. done. }
  destruct (bind_pass _ _ _ _ _ _ _ Hb Hs Hnp) as (_ & Hf & Hctx & m & Hm & Hi & _).
  assert (Hcid : field_text "case_id" final = case_identifier raw).
  { subst final record. unfold field_text, dict_get, dict_get_or. rewrite of_run_find, claimed_find, Hbase by done.
    replace (dict_find "case_id" _) with (Some (PStr (case_identifier raw))) by field_of Hk.
    unfold text_of. cbn. by destruct (String.eqb_spec (case_identifier raw) "") as [->|]. }
  rewrite Hcid, Hcase in Hm, Hi. exists event, required.
  split; [by apply (collected_event _ _ _ _ _ _ _ _ Ej)|]. split; [done|]. split; [done|]. split; [done|]. split.
  - unfold case_protocol_context_errors in Hctx. apply app_eq_nil in Hctx as [Hctx _]. apply failed_nil in Hctx.
    destruct (dict_get "run_id" record) eqn:E; try done; [by left|]. right. cbn in Hctx.
    apply negb_false_iff, String.eqb_eq in Hctx. by subst.
  - intros Ht. assert (Hl : matching_protocol_event final (Some case) events mode = Ok (Some event)).
    { subst final record. apply (bound_lookup raw case connector events mode run imode j b event); try done.
      intros ->. by destruct Hv. }
    split; [done|]. intros Hce Hr. rewrite Hl in Hm. apply Ok_inj in Hm as <-.
    apply (same_run case event run Hce Hr). cbn [dict_or] in Hi. by destruct case.
Qed.
End Pass.
