(* ===== verification/CaseConfig.v ===== *)
(** * What a passing configuration case asserts *)

From S2P Require Import ObservationEvidence.
From S2P Require Export CasePass PyEquality.
From Stdlib Require Import QArith.
#[global] Open Scope Z_scope.

Lemma ensure_then {A} b m (k : res A) r : (ensure b m ;;; k) = Ok r -> b = true /\ k = Ok r.
Proof. by destruct b. Qed.

Lemma ensure_Ok b m : ensure b m = Ok tt <-> b = true.
Proof. by destruct b. Qed.

(** ** The contract *)

Lemma contract_nil case connector invocation : config_invocation_contract_errors case = [] ->
  config_invocation_for_case case connector = Some invocation ->
  connector = "nginx" /\ exists contract,
    contract_of (py_str (dict_get "case_id" case)) NGINX_CONFIGTEST_CONTRACTS = Some contract /\
    py_eq (PDict invocation) (PDict contract) = true /\ eq_int (dict_get "phase" case) 0 = true /\
    py_eq (dict_get "expected_result" case) (dict_get "expected_outcome" contract) = true /\
    py_eq (dict_get "expected_status" case) (dict_get "expected_exit_code" contract) = true.
Proof.
  intros H Hi. unfold config_invocation_contract_errors in H. pose proof Hi as Hi'.
  unfold config_invocation_for_case in Hi'. unfold dict_get at 1, dict_get_or in Hi'.
  destruct (dict_find "config_invocations" case) as [v|]; [|done].
  destruct v as [| | | | | |invocations]; try done. destruct invocations as [|p r]; [done|].
  destruct (keys_exactly (p :: r) ["nginx"]) eqn:Ek; [|done]. cbn [negb] in H. cbv zeta in H.
  assert (Hc : connector = "nginx").
  { unfold dict_get, dict_get_or in Hi'. destruct (dict_find connector (p :: r)) as [v|] eqn:Ef; [|done].
    apply dict_find_In in Ef. unfold keys_exactly, keys_within in Ek. apply andb_true_iff in Ek as [Ek _].
    rewrite forallb_forall in Ek. specialize (Ek _ Ef). cbn in Ek. rewrite orb_false_r in Ek. by apply String.eqb_eq. }
  subst connector. split; [done|]. rewrite Hi in H.
  destruct (contract_of _ _) as [contract|]; [|done]. apply failed_nil in H.
  repeat match goal with H : orb _ _ = false |- _ => apply orb_false_iff in H as [H ?] end.
  repeat match goal with H : negb _ = false |- _ => apply negb_false_iff in H end. by exists contract.
Qed.

(** ** The receipt *)

(** What a record of a configuration case could claim to have observed. *)
Definition CLAIM_FIELDS : list string :=
  ["observed_rule_ids"; "transaction_ids"; "observed_event_fields"; "event_metadata_verified"].

(** Nothing ran. *)
Definition idle (record receipt : pydict) : Prop :=
  dict_get "process_started" receipt = PBool false /\ dict_get "listener_created" receipt = PBool false /\
  (forall f, In f CLAIM_FIELDS -> truthy (dict_get f record) = false) /\
  (forall f, In f PHASE4_SEMANTIC_FIELDS -> dict_get f record = PNone).

(** The startup of a valid rules file: process, listener and cleanup were observed on a
    bounded port, and the probe was denied by rule 1100001, whose rule and transaction are
    those of the record, which claims no event and no phase-4 semantics. *)
Record host_started (record receipt : pydict) : Prop := {
  hs_observed : forall f, In f ["process_started"; "listener_created"; "cleanup_verified"] -> dict_get f receipt = PBool true;
  hs_probe : exists probe, dict_get "request_probe" receipt = PDict probe /\
    (forall f v, In (f, v) (expected_probe record) -> py_eq (dict_get f probe) v = true) /\
    py_eq (dict_get "observed_rule_ids" record) (PList [PInt 1100001]) = true /\
    py_eq (dict_get "transaction_ids" record) (PList [dict_get "transaction_id" probe]) = true;
  hs_port : exists port, dict_get "listen_port" receipt = PInt port /\ 1024 <= port <= 65535;
  hs_silent : forall f, In f ["observed_event_fields"; "event_metadata_verified"] -> truthy (dict_get f record) = false;
  hs_semantics : forall f, In f PHASE4_SEMANTIC_FIELDS -> dict_get f record = PNone }.

(** Exit code and outcome of the receipt are those of the contract and of the record. *)
Record receipt_agrees (record receipt invocation : pydict) : Prop := {
  ra_exit : exists code, dict_find "expected_exit_code" invocation = Some code /\
    py_eq (dict_get "observed_exit_code" receipt) code = true /\
    py_eq (dict_get "actual_status" record) (dict_get "observed_exit_code" receipt) = true;
  ra_outcome : exists outcome, dict_find "expected_outcome" invocation = Some outcome /\
    py_eq (dict_get "observed_outcome" receipt) outcome = true /\
    py_eq (dict_get "observed_result" record) (dict_get "observed_outcome" receipt) = true;
  ra_live : dict_get "live_executed" record = PBool true;
  ra_run : py_eq (dict_get_key (PStr "run_id") receipt) (dict_get "run_id" record) = true;
  ra_idle : dict_get "case_id" record <> PStr "valid_rules_file" -> idle record receipt;
  ra_started : dict_get "case_id" record = PStr "valid_rules_file" -> host_started record receipt }.

Lemma semantics_none record : some_semantics record = false -> forall f, In f PHASE4_SEMANTIC_FIELDS -> dict_get f record = PNone.
Proof.
  unfold some_semantics. intros H f Hf. apply none_eq. destruct (is_none (dict_get f record)) eqn:E; [done|].
  assert (Hx : existsb (fun field => negb (is_none (dict_get field record))) PHASE4_SEMANTIC_FIELDS = true).
  { apply existsb_exists. exists f. by rewrite E. } congruence.
Qed.

Lemma idle_nil record receipt : configuration_only_errors record receipt = [] -> idle record receipt.
Proof.
  unfold configuration_only_errors. rewrite !app_nil, !failed_nil, !orb_false_iff, !negb_false_iff.
  intros ([H1 H2] & _ & (((H3 & H4) & H5) & H7) & H6). split; [by apply is_false_eq|]. split; [by apply is_false_eq|].
  split; [|by apply semantics_none]. intros f Hf. by repeat (destruct Hf as [<-|Hf]; [done|]).
Qed.

Lemma started_nil record receipt : valid_rules_receipt_observation_errors record receipt = [] -> host_started record receipt.
Proof.
  unfold valid_rules_receipt_observation_errors. rewrite !app_nil, !failed_nil.
  intros (Ho & Hp & He & Hport & _ & Hs). constructor.
  - intros f Hf. apply is_true_eq. destruct (is_true (dict_get f receipt)) eqn:E; [done|].
    assert (X : existsb (fun field => negb (is_true (dict_get field receipt)))
      ["process_started"; "listener_created"; "cleanup_verified"] = true); [|congruence].
    apply existsb_exists. exists f. by rewrite E.
  - destruct (dict_get "request_probe" receipt) as [| | | | | |probe]; try done. exists probe. split; [done|].
    destruct (probe_matches record probe) eqn:Em; [|done]. cbn [negb] in Hp. apply failed_nil, orb_false_iff in Hp as [H1 H2].
    apply negb_false_iff in H1, H2. split; [|done]. intros f v Hin. unfold probe_matches in Em.
    apply andb_true_iff in Em as [Em _]. apply andb_true_iff in Em as [Em _]. apply andb_true_iff in Em as [_ Em].
    rewrite forallb_forall in Em. by apply (Em (f, v)).
  - apply negb_false_iff in Hport. unfold whole_between in Hport. destruct (dict_get "listen_port" receipt) as [| |z| | | |]; try done.
    exists z. split; [done|lia].
  - apply orb_false_iff in He as [H1 H2]. intros f Hf. by repeat (destruct Hf as [<-|Hf]; [done|]).
  - by apply semantics_none.
Qed.

(** A merged dictionary keeps a field of the first unless the second has it. *)
Lemma put_key_In k v key w d : In (k, v) d -> py_eq k key = false -> In (k, v) (put_key key w d).
Proof.
  induction d as [|[c x] d IH]; [done|]. cbn [put_key]. intros [[= -> ->]|Hin] E.
  - rewrite E. by left.
  - destruct (py_eq c key); right; [done|by apply IH].
Qed.

Lemma merge_keeps k v d e : In (PStr k, v) d -> (forall key w, In (key, w) e -> py_eq (PStr k) key = false) ->
  In (PStr k, v) (dict_merge d e).
Proof.
  unfold dict_merge. revert d. induction e as [|[key w] e IH]; [done|]. cbn [fold_left fst snd]. intros d Hin H.
  apply IH; [|intros key' w' Hk; apply (H key' w'); by right]. apply put_key_In; [done|]. apply (H key w). by left.
Qed.

(** Equal dictionaries: every key of the first is a key of the second. *)
Lemma equal_keys d e k v : py_eq (PDict d) (PDict e) = true -> In (k, v) d -> exists k' v', In (k', v') e /\ py_eq k k' = true.
Proof.
  cbn [py_eq]. intros H. apply andb_true_iff in H as [_ H]. revert H.
  induction d as [|[c x] d IH]; [done|]. intros H. apply andb_true_iff in H as [Hc H]. intros [[= -> ->]|Hin]; [|by apply IH].
  clear IH H. induction e as [|[c' x'] e IHe]; [done|]. destruct (py_eq k c') eqn:E.
  - exists c', x'. split; [by left|done].
  - destruct (IHe Hc) as (k' & v' & Hin & Hk). exists k', v'. split; [by right|done].
Qed.

Lemma contract_of_In id l contract : contract_of id l = Some contract -> exists k, In (k, contract) l.
Proof.
  induction l as [|[k c] l IH]; [done|]. cbn [contract_of]. destruct (String.eqb k id).
  - intros [= ->]. exists k. by left.
  - intros H. destruct (IH H) as [k' Hk]. exists k'. by right.
Qed.

(** A closed contract does not name a run. *)
Lemma contract_no_run id contract v : contract_of id NGINX_CONFIGTEST_CONTRACTS = Some contract -> ~ In (PStr "run_id", v) contract.
Proof.
  intros H Hin. apply contract_of_In in H as [k Hk].
  assert (T : forallb (fun kc => negb (existsb (fun p => eq_str (fst p) "run_id") (snd kc))) NGINX_CONFIGTEST_CONTRACTS = true)
    by (vm_compute; reflexivity).
  rewrite forallb_forall in T. specialize (T _ Hk). apply negb_true_iff in T. cbn [snd] in T.
  assert (E : existsb (fun p : pyval * pyval => eq_str (fst p) "run_id") contract = true).
  { apply existsb_exists. by exists (PStr "run_id", v). } congruence.
Qed.

Lemma receipt_nil schema fuel record case connector mode invocation :
  configtest_receipt_errors schema fuel record case connector mode = Ok [] ->
  config_invocation_for_case case connector = Some invocation ->
  config_invocation_contract_errors case = [] /\
  exists receipt, dict_get "configtest_receipt" record = PDict receipt /\ receipt_agrees record receipt invocation.
Proof.
  unfold configtest_receipt_errors. intros H Hi. rewrite Hi in H.
  destruct (dict_get "configtest_receipt" record) as [| | | | | |receipt]; try (apply Ok_inj, app_eq_nil in H as [_ H]; done).
  destruct schema as [| | | | | |s]; try (apply Ok_inj, app_eq_nil in H as [_ H]; done).
  apply in_order_nil in H. apply Forall_cons in H as [Hc H]. apply Forall_cons in H as [_ H].
  apply Forall_cons in H as [_ H]. apply Forall_cons in H as [Hid H]. apply Forall_cons in H as [Ho _].
  apply Ok_inj in Hc, Hid. split; [done|]. exists receipt. split; [done|].
  unfold configtest_receipt_observation_errors in Ho.
  destruct (dict_item "expected_exit_code" invocation) as [code|] eqn:Ee; [|done]. apply dict_item_Ok in Ee.
  destruct (dict_item "expected_outcome" invocation) as [outcome|] eqn:Eo; [|done]. apply dict_item_Ok in Eo.
  apply Ok_inj in Ho. rewrite !app_nil, !failed_nil, !orb_false_iff, !negb_false_iff in Ho.
  destruct Ho as ([H1 H2] & [H3 H4] & H5 & H6). constructor.
  - by exists code.
  - by exists outcome.
  - by apply is_true_eq.
  - destruct (contract_nil _ _ _ Hc Hi) as (_ & contract & Hct & Heq & _).
    unfold configtest_receipt_identity_errors in Hid. apply app_eq_nil in Hid as [Hid _].
    rewrite reports_none in Hid. specialize (Hid (PStr "run_id", dict_get "run_id" record)).
    cbn [fst snd] in Hid. apply failed_nil, negb_false_iff in Hid; [done|]. apply merge_keeps; [right; right; by left|].
    intros key w Hin. destruct (py_eq (PStr "run_id") key) eqn:E; [|done]. apply text_key in E as ->.
    destruct (equal_keys _ _ _ _ Heq Hin) as (k' & v' & Hin' & E'). apply text_key in E' as ->.
    by destruct (contract_no_run _ _ _ Hct Hin').
  - intros Hne. destruct (eq_str (dict_get "case_id" record) "valid_rules_file") eqn:E; [by apply eq_str_true in E|].
    by apply idle_nil.
  - intros He. rewrite He, eq_str_refl in H6. by apply started_nil.
Qed.

(** ** The bundle *)

Section Bundle.
Variables (event_schema : pyval) (fuel : nat) (sys : bundle_system).

(** Every capture is the bounded read of an artifact whose digest the receipt has. *)
Lemma captures_read receipt bundle arts captures name data :
  mapM (fun artifact : string * (string * Z) => let '(name, (field, limit)) := artifact in
          let* (digest, data) := file_observation sys (join_path bundle name) limit in
          let expected := (if String.eqb name NGINX_CONFIG_FILE_NAME then "sha256:" else "") +:+ digest in
          ensure (eq_str (dict_get field receipt) expected) ("configuration artifact digest mismatch: " +:+ name) ;;;
          Ok (name, data)) arts = Ok captures ->
  entry name captures = Some data ->
  exists field limit digest, entry name arts = Some (field, limit) /\
    file_observation sys (join_path bundle name) limit = Ok (digest, data) /\
    dict_get field receipt = PStr ((if String.eqb name NGINX_CONFIG_FILE_NAME then "sha256:" else "") +:+ digest).
Proof.
  revert captures. induction arts as [|[n [field limit]] arts IH]; intros captures; cbn [mapM]; [by intros [= <-]|].
  destruct (file_observation sys (join_path bundle n) limit) as [[digest d]|] eqn:Ef; [|done]. cbv zeta.
  destruct (eq_str (dict_get field receipt) _) eqn:Ed; [|done]. cbn [ensure guard].
  destruct (mapM _ arts) as [rest|] eqn:Er; [|done]. intros H. apply Ok_inj in H as <-. cbn [entry].
  destruct (String.eqb_spec n name) as [->|Hne]; [|by apply IH].
  intros [= ->]. exists field, limit, digest. split; [done|]. split; [done|]. by apply eq_str_true.
Qed.

(** What the files of a passing configuration test show. *)
Record configuration_proved (receipt : pydict) (fixture : option (string * string)) (bundle : abs_path)
    (contract : pydict) : Prop := {
  cp_config : exists digest origin,
    file_observation sys (join_path bundle NGINX_CONFIG_FILE_NAME) 4096
      = Ok (digest, S2L (expected_config origin (py_str (dict_get "directive" contract))
                           (directive_value fixture origin (py_str (dict_get "directive" contract))
                              (py_str (dict_get "value" contract))))) /\
    dict_get "config_path_identity" receipt = PStr ("sha256:" +:+ digest);
  cp_diagnostic : exists digest stderr,
    file_observation sys (join_path bundle STDERR_LOG_FILE_NAME) 65536 = Ok (digest, stderr) /\
    dict_get "stderr_sha256" receipt = PStr digest /\ fragments_in contract stderr = true }.

(** What the files of a started host show. *)
Record startup_proved (receipt : pydict) (bundle : abs_path) (contract : pydict) : Prop := {
  su_config : exists digest origin,
    file_observation sys (join_path bundle NGINX_CONFIG_FILE_NAME) 4096
      = Ok (digest, S2L (valid_rules_config_template origin (py_str (dict_get "listen_port" receipt))
                           (py_str (dict_get "docroot_projection_root" receipt)))) /\
    dict_get "config_path_identity" receipt = PStr ("sha256:" +:+ digest);
  su_diagnostic : exists digest stderr,
    file_observation sys (join_path bundle STDERR_LOG_FILE_NAME) 65536 = Ok (digest, stderr) /\
    dict_get "stderr_sha256" receipt = PStr digest /\ fragments_in contract stderr = true }.

Lemma artifact_entry record name field limit : entry name CONFIGTEST_ARTIFACTS = Some (field, limit) ->
  entry name (configtest_artifacts_for_record record) = Some (field, limit).
Proof.
  assert (A : forall l, entry name CONFIGTEST_ARTIFACTS = Some (field, limit) ->
    entry name (CONFIGTEST_ARTIFACTS ++ l) = Some (field, limit)).
  { intros l. generalize CONFIGTEST_ARTIFACTS. induction l0 as [|[k x] l0 IH]; [done|]. cbn [entry app].
    destruct (String.eqb k name); [done|]. apply IH. }
  intros H. unfold configtest_artifacts_for_record. destruct (eq_str _ _); [by apply A|].
  destruct (path_fixture record) as [[leaf state]|]; [|done]. destruct (String.eqb state "regular"); [by apply A|done].
Qed.

Lemma bundle_nil record authority : configtest_artifact_errors event_schema fuel sys record authority = Ok [] ->
  exists root bundle receipt captures, authority = Some root /\
    configtest_bundle_directory sys record root true = Ok bundle /\
    dict_get "configtest_receipt" record = PDict receipt /\
    configtest_bundle_captures sys record bundle = Ok captures /\
    validate_configtest_bundle_template event_schema fuel sys record bundle captures true = Ok tt.
Proof.
  unfold configtest_artifact_errors. destruct authority as [root|]; [|done].
  destruct (validated_configtest_bundle _ _ _ _ _ _) as [b|e] eqn:E; [|by destruct (is_OSError e || is_ValueError e)].
  intros _. unfold validated_configtest_bundle in E.
  destruct (configtest_bundle_directory _ _ _ _) as [bundle|] eqn:Ed; [|done].
  destruct (configtest_bundle_captures _ _ _) as [captures|] eqn:Ec; [|done].
  destruct (validate_configtest_path_fixture _ _ _); [|done].
  destruct (validate_configtest_bundle_template _ _ _ _ _ _ _) as [[]|] eqn:Et; [|done].
  unfold configtest_bundle_captures in Ec. destruct (dict_get "configtest_receipt" record) as [| | | | | |receipt] eqn:Er; try done.
  exists root, bundle, receipt, captures. repeat (split; [done|]). split; [|done]. unfold configtest_bundle_captures. by rewrite Er.
Qed.

Lemma template_proved record receipt bundle captures contract :
  dict_get "configtest_receipt" record = PDict receipt ->
  configtest_bundle_captures sys record bundle = Ok captures ->
  validate_configtest_bundle_template event_schema fuel sys record bundle captures true = Ok tt ->
  contract_of (py_str (dict_get "case_id" record)) NGINX_CONFIGTEST_CONTRACTS = Some contract ->
  dict_get "status" record = PStr "PASS" ->
  if eq_str (dict_get "case_id" record) "valid_rules_file" then startup_proved receipt bundle contract
  else configuration_proved receipt (path_fixture record) bundle contract.
Proof.
  intros Hr Hc Ht Hk Hp. unfold configtest_bundle_captures in Hc. rewrite Hr in Hc.
  destruct (mapM _ _) as [cs|] eqn:Em; [|done].
  destruct (capture STDOUT_LOG_FILE_NAME cs); [|done]. destruct (capture STDERR_LOG_FILE_NAME cs); [|done].
  apply ensure_then in Hc as [_ Hc]. apply Ok_inj in Hc as ->.
  assert (R : forall name data field limit, capture name captures = Ok data ->
    entry name CONFIGTEST_ARTIFACTS = Some (field, limit) -> exists digest,
      file_observation sys (join_path bundle name) limit = Ok (digest, data) /\
      dict_get field receipt = PStr ((if String.eqb name NGINX_CONFIG_FILE_NAME then "sha256:" else "") +:+ digest)).
  { intros name data field limit Hcap He. unfold capture in Hcap. destruct (entry name captures) as [d|] eqn:E; [|done].
    apply Ok_inj in Hcap as ->. destruct (captures_read _ _ _ _ _ _ Em E) as (f & l & digest & Hf & H1 & H2).
    rewrite (artifact_entry record _ _ _ He) in Hf. injection Hf as <- <-. by exists digest. }
  unfold validate_configtest_bundle_template in Ht. destruct (capture NGINX_CONFIG_FILE_NAME captures) as [config|] eqn:Ef; [|done].
  destruct (decode_utf8 config); [|done]. destruct (module_path config) as [mp|]; [|done]. cbv zeta in Ht.
  apply ensure_then in Ht as [_ Ht]. rewrite Hk in Ht.
  destruct (eq_str (dict_get "case_id" record) "valid_rules_file").
  { unfold validate_valid_rules_bundle_template in Ht. destruct (dict_item "configtest_receipt" record) as [v|] eqn:Ei; [|done].
    assert (v = PDict receipt) as ->.
    { apply dict_item_Ok in Ei. unfold dict_get, dict_get_or in Hr. by rewrite Ei in Hr. }
    apply ensure_then in Ht as [_ Ht]. destruct (validate_valid_rules_projection _ _ _); [|done].
    destruct (dict_item "listen_port" receipt) as [port|] eqn:Eport; [|done]. apply dict_item_Ok in Eport.
    destruct (dict_item "docroot_projection_root" receipt) as [home|] eqn:Ehome; [|done]. apply dict_item_Ok in Ehome.
    apply ensure_then in Ht as [Hconf Ht]. apply bool_decide_eq_true in Hconf. rewrite Hp, eq_str_refl in Ht.
    destruct (capture STDERR_LOG_FILE_NAME captures) as [stderr|] eqn:Es; [|done]. apply ensure_then in Ht as [Hfrag _].
    apply andb_true_iff in Hfrag as [Hfrag _]. constructor.
    - destruct (R _ _ _ _ Ef eq_refl) as (digest & H1 & H2). rewrite Hconf in H1.
      exists digest, (path_text (parent_of (pure_path mp))). unfold dict_get at 1 2, dict_get_or. by rewrite Eport, Ehome.
    - destruct (R _ _ _ _ Es eq_refl) as (digest & H1 & H2). by exists digest, stderr. }
  apply ensure_then in Ht as [Hconf Ht]. apply bool_decide_eq_true in Hconf. rewrite Hp, eq_str_refl in Ht.
  unfold validate_configtest_parser_diagnostic in Ht.
  destruct (capture STDERR_LOG_FILE_NAME captures) as [stderr|] eqn:Es; [|done]. apply ensure_then in Ht as [Hfrag _].
  constructor.
  - destruct (R _ _ _ _ Ef eq_refl) as (digest & H1 & H2). rewrite Hconf in H1. by exists digest, (path_text (parent_of (pure_path mp))).
  - destruct (R _ _ _ _ Es eq_refl) as (digest & H1 & H2). by exists digest, stderr.
Qed.
End Bundle.

Lemma bundle_below sys record root bundle : configtest_bundle_directory sys record root true = Ok bundle ->
  exists below, relative_to (parts (abspath (cwd sys) root)) (parts bundle) = Some below /\ below <> [].
Proof.
  unfold configtest_bundle_directory. destruct (dict_get "artifacts" record) as [| | | | | |artifacts]; try done.
  intros H. apply ensure_then in H as [_ H]. destruct (dict_get "configtest_dir" artifacts) as [| | | |value| |]; try done.
  apply ensure_then in H as [_ H]. destruct (configtest_bundle_path record) as [p|]; [|done].
  apply ensure_then in H as [_ H]. apply ensure_then in H as [_ H].
  destruct (Bool.eqb _ _); [|done]. destruct (relative_to _ _) as [below|] eqn:E; [|done].
  destruct (no_symlink _ _); [|done]. apply ensure_then in H as [Hb H]. apply Ok_inj in H as <-.
  exists below. split; [done|]. by destruct below.
Qed.

Section Configuration.
Variables (event_schema receipt_schema : pyval) (fuel : nat) (catalog : pydict) (sys : bundle_system).
Variables (sha256 : string -> string) (runner_digest : string -> option string).
Variables normalize_protocol_record normalize_native_operation_record : pydict -> pydict -> string -> res pydict.

Abbreviation normalize_record := (normalize_case_record event_schema receipt_schema fuel catalog sys sha256 runner_digest
  normalize_protocol_record normalize_native_operation_record).

(** A client observation has no configuration receipt. *)
Lemma client_no_receipt raw case connector case_id events mode j b :
  _validate_request_bound_case catalog sha256 runner_digest raw true = Ok tt ->
  collected event_schema fuel raw case connector events mode j ->
  built sha256 raw case connector case_id j b -> client_bound raw = true ->
  dict_get "configtest_receipt" (claimed_record raw b) = PNone.
Proof.
  intros Hval C [(caps & code & Hb) _ _ _ _ _ _ _ _] Hc.
  unfold _validate_request_bound_case in Hval. destruct (validate_request_observation sha256 raw) as [v|] eqn:Ev; [|done].
  pose proof (observation_accepted _ _ _ Ev) as (p & [A _ _ _ [Hv _] _ _]).
  assert (Hraw : dict_get "configtest_receipt" raw = PNone) by (apply (co_no_native _ A); right; by left).
  unfold dict_get, dict_get_or in Hraw. unfold claimed_record.
  destruct (dict_find "configtest_receipt" raw) as [r|].
  { unfold dict_get, dict_get_or. rewrite dict_find_set. by subst. }
  unfold bind_client_observation in Hb. unfold client_bound in Hc. rewrite Hc, Ev in Hb.
  destruct (dict_item _ raw) as [q|]; [|done]. destruct q as [| | | | | |q]; try done. apply Ok_inj in Hb.
  unfold dict_get, dict_get_or. rewrite <- Hb, !dict_find_update.
  - replace (dict_find "configtest_receipt" _) with (@None pyval); [done|]. symmetry.
    field_of (proj1 (cl_values _ _ _ _ _ _ _ _ C)).
  - rewrite map_map. change (~ In "configtest_receipt" (map fst v)). rewrite Hv. cbn. intuition congruence.
  - cbn. intuition congruence.
Qed.

(** C31: a configuration case passes only on its retained bundle: the declared
    invocation is the closed contract of the case, on nginx; the receipt has the exit
    code and the outcome of the contract and of the record; an authority was given and the
    bundle lies strictly below it.  For every case but [valid_rules_file] the receipt claims
    no process or listener and the record no rule, transaction, event or HTTP semantics,
    the configuration file read from the bundle, whose digest the receipt has, is byte for
    byte the template with the contract's directive and value, and the captured parser
    output contains every diagnostic of the contract.  For [valid_rules_file], which starts
    the host, the receipt shows process, listener, verified cleanup and the probe that rule
    1100001 denied, and the configuration file is byte for byte the startup template with
    the port and the document root of the receipt. *)
Theorem configuration_pass_sound raw connector cases events mode authority record case invocation :
  normalize_record raw connector cases events mode authority = Ok (Some record) ->
  dict_has "protocol_bundle" raw = false -> dict_has "native_operation_receipt" raw = false ->
  case_of (case_identifier raw) cases = Some case -> dict_get "case_id" case = PStr (case_identifier raw) ->
  config_invocation_for_case case connector = Some invocation ->
  dict_get "status" record = PStr "PASS" ->
  connector = "nginx" /\ exists contract receipt root bundle below,
    contract_of (case_identifier raw) NGINX_CONFIGTEST_CONTRACTS = Some contract /\
    py_eq (PDict invocation) (PDict contract) = true /\
    dict_get "configtest_receipt" record = PDict receipt /\ receipt_agrees record receipt invocation /\
    authority = Some root /\ configtest_bundle_directory sys record root true = Ok bundle /\
    relative_to (parts (abspath (cwd sys) root)) (parts bundle) = Some below /\ below <> [] /\
    (case_identifier raw <> "valid_rules_file" -> idle record receipt /\
     configuration_proved sys receipt (entry (case_identifier raw) CONFIGTEST_PATH_FIXTURES) bundle contract) /\
    (case_identifier raw = "valid_rules_file" -> host_started record receipt /\ startup_proved sys receipt bundle contract).
Proof.
  intros Hn Hp Ho Hcase Hid Hi Hs.
  destruct (normalize_inv _ _ _ _ _ _ _ _ _ _ _ _ _ _ _ _ Hn Hp Ho) as (c & Hc & Hval & Hobs).
  assert (c = case) as -> by congruence.
  destruct (observed_pass _ _ _ _ _ _ _ _ _ _ _ _ _ _ Hobs Hs) as (j & b & Ej & Es & B & Er & V).
  apply collect_inv in Ej. apply validation_nil in V as (_ & _ & Hr & Ha). specialize (Ha ltac:(congruence)).
  destruct (receipt_nil _ _ _ _ _ _ _ Hr Hi) as (Hcn & receipt & Hrec & Hag).
  destruct (contract_nil _ _ _ Hcn Hi) as (Hx & contract & Hct & Heq & _). rewrite Hid in Hct. split; [done|].
  destruct (client_bound raw) eqn:Hcb.
  { unfold client_bound in Hcb. rewrite Hcb in Hval. pose proof (client_no_receipt _ _ _ _ _ _ _ _ Hval Ej B Hcb) as Hno.
    subst record. congruence. }
  destruct (host_record _ _ _ _ _ _ _ Hcb B) as (caps & code & Hbase).
  assert (Hcid : dict_get "case_id" record = PStr (case_identifier raw)).
  { subst record. unfold dict_get, dict_get_or. rewrite claimed_find, Hbase by done.
    replace (dict_find "case_id" _) with (Some (PStr (case_identifier raw))); [done|]. symmetry.
    field_of (proj1 (cl_values _ _ _ _ _ _ _ _ Ej)). }
  destruct (bundle_nil _ _ _ _ _ Ha) as (root & bundle & receipt' & captures & -> & Hd & Hrec' & Hcap & Ht).
  assert (receipt' = receipt) as -> by congruence. destruct (bundle_below _ _ _ _ Hd) as (below & Hb1 & Hb2).
  exists contract, receipt, root, bundle, below. repeat (split; [done|]).
  assert (Hf : path_fixture record = entry (case_identifier raw) CONFIGTEST_PATH_FIXTURES).
  { unfold path_fixture. by rewrite Hcid. }
  rewrite <- Hf. eapply template_proved in Ht; try done; [|by rewrite Hcid]. rewrite Hcid in Ht. cbn [eq_str] in Ht.
  split; intros Hv.
  - split; [apply (ra_idle _ _ _ Hag); congruence|]. by destruct (String.eqb_spec (case_identifier raw) "valid_rules_file").
  - split; [apply (ra_started _ _ _ Hag); congruence|]. by rewrite Hv in Ht.
Qed.
End Configuration.
