(* ===== verification/CaseClient.v ===== *)
(** * Client observations stay client observations *)

From S2P Require Export CaseConfig.
From Stdlib Require Import QArith.
#[global] Open Scope Z_scope.

(** ** The verdict of a client *)

Lemma lower_inverse c : between 97 122 (lower_char c) = true -> c = lower_char c \/ c = chr (ord (lower_char c) - 32).
Proof. destruct c as [[] [] [] [] [] [] [] []]; vm_compute; auto; discriminate. Qed.

Lemma lower_char_cases c d : lower_char c = d -> between 97 122 d = true -> c = d \/ c = chr (ord d - 32).
Proof. intros <-. apply lower_inverse. Qed.

(** A text that reads as pass or fail in lower case is normalised to the status. *)
Lemma normalized_verdict v status : In (py_lower (py_str v)) ["pass"; "fail"] -> normalize_status v = Ok status ->
  In status ["PASS"; "FAIL"].
Proof.
  intros Hin H. unfold normalize_status in H. cbv zeta in H. unfold text_of in H. destruct (truthy v); [|done].
  remember (py_str v) as s eqn:E. clear E.
  assert (S : exists t, py_lower s = t /\ In t ["pass"; "fail"]) by eauto. clear Hin. destruct S as (t & Ht & Hin).
  unfold py_lower in Ht. apply (f_equal S2L) in Ht. rewrite S2L_L2S in Ht. rewrite <- (L2S_S2L s) in H.
  assert (Hp : forall a b c d, map lower_char (S2L s) = [a; b; c; d] ->
    forallb (between 97 122) [a; b; c; d] = true -> exists a' b' c' d', S2L s = [a'; b'; c'; d'] /\
    (a' = a \/ a' = chr (ord a - 32)) /\ (b' = b \/ b' = chr (ord b - 32)) /\ (c' = c \/ c' = chr (ord c - 32)) /\
    (d' = d \/ d' = chr (ord d - 32))).
  { intros a b c d. destruct (S2L s) as [|x1 [|x2 [|x3 [|x4 [|]]]]]; try done. cbn [map forallb]. intros [= H1 H2 H3 H4] Hf.
    repeat (apply andb_true_iff in Hf as [? Hf]). exists x1, x2, x3, x4. split; [done|].
    repeat split; apply lower_char_cases; done. }
  destruct Hin as [<-|[<-|[]]];
    (destruct (Hp _ _ _ _ Ht ltac:(vm_compute; reflexivity)) as (a & b & c & d & E & A & B & Cc & D));
    rewrite E in H; destruct A as [->| ->], B as [->| ->], Cc as [->| ->], D as [->| ->]; vm_compute in H; injection H as <-; cbn; auto.
Qed.

(** ** Fields of a client record *)

Definition OBSERVED_FIELDS : list string :=
  ["run_id"; "case_id"; "source_revision"; "request_id"; "evidence_identity"; "transaction_id"; "transaction_ids";
   "runtime_verified"; "promotion_allowed"; "live_executed"; "actual_status"; "native_operation_receipt";
   "configtest_receipt"; "first_byte_binding_path"; "first_byte_evidence_path"; "request_observation"].

(** The validation reads these fields and the verdict alone. *)
Lemma validate_same sha256 r raw : (forall f, In f OBSERVED_FIELDS -> dict_get f r = dict_get f raw) ->
  In (py_lower (py_str (dict_get "status" r))) ["pass"; "fail"] ->
  In (py_lower (py_str (dict_get "status" raw))) ["pass"; "fail"] ->
  validate_request_observation sha256 r = validate_request_observation sha256 raw.
Proof.
  intros H Hr Hraw. apply str_in_In in Hr, Hraw.
  unfold validate_request_observation, validate_result_context, _validate_client_observation,
    _validated_observation_proof, identity_field, NATIVE_EVIDENCE_FIELDS. cbn [mapM forallb].
  rewrite Hr, Hraw.
  repeat match goal with |- context [dict_get ?f r] => rewrite (H f) by (apply str_in_In; reflexivity) end. done.
Qed.

Lemma supplied_client raw : client_only raw -> dict_get "tx_id" raw = PNone -> supplied_transaction_ids raw = [].
Proof.
  intros [_ H1 H2 _ _ _ _ _ _] H3. unfold supplied_transaction_ids. cbn [map]. by rewrite H1, H2, H3.
Qed.

Lemma find_none_fields f l : In f l -> dict_find f (mkdict (map (fun f => (f, PNone)) l)) = Some PNone.
Proof.
  induction l as [|g l IH]; [done|]. cbn [map]. rewrite dict_find_mkdict_cons.
  destruct (String.eqb_spec g f) as [->|Hne]; [done|]. intros [->|Hin]; [done|]. by apply IH.
Qed.

Section Client.
Variables (event_schema receipt_schema : pyval) (fuel : nat) (catalog : pydict) (sys : bundle_system).
Variables (sha256 : string -> string) (runner_digest : string -> option string).
Variables normalize_protocol_record normalize_native_operation_record : pydict -> pydict -> string -> res pydict.

Abbreviation normalize_record := (normalize_case_record event_schema receipt_schema fuel catalog sys sha256 runner_digest
  normalize_protocol_record normalize_native_operation_record).

(** What was collected for a client observation: nothing of the host. *)
Record client_collected (raw : pydict) (j : judged) (z : Z) : Prop := {
  cc_event : j_event j = None;
  cc_rules : observed_rule_ids (details (j_details j)) = [];
  cc_fields : observed_event_fields (details (j_details j)) = [];
  cc_verified : event_metadata_verified (j_details j) = false;
  cc_values : semantic_values (j_details j)
    = dict_set "visible_http_status" (PInt z) (mkdict (map (fun f => (f, PNone)) PHASE4_SEMANTIC_FIELDS));
  cc_actual : actual_status (details (j_details j)) = Some z }.

Lemma client_collect raw case connector events mode j z : collected event_schema fuel raw case connector events mode j ->
  client_bound raw = true -> supplied_transaction_ids raw = [] -> dict_get "actual_status" raw = PInt z ->
  client_collected raw j z.
Proof.
  intros C Hc Hs Hz. destruct (cl_event _ _ _ _ _ _ _ _ C) as (m & barrier & w & errors & Em & Ep & Ej & Eb).
  assert (m = None) as ->.
  { unfold _matching_case_event in Em. destruct (config_invocation_for_case _ _); [congruence|]. rewrite Hc in Em. congruence. }
  destruct (pair_In _ _ _ _ _ _ _ _ _ _ Ep) as [Hb Hw]. rewrite Hs in Hb, Hw.
  assert (barrier = None) as -> by (destruct barrier as [x|]; [by destruct (Hb x eq_refl) as (_ & t & ?)|done]).
  assert (w = None) as -> by (destruct w as [x|]; [by destruct (Hw x eq_refl) as (_ & t & ?)|done]).
  rewrite Ej, Hc in Eb. injection Eb as Hfields Hrules _.
  assert (Hf : exists v, dict_find "actual_status" raw = Some v /\ v = PInt z).
  { unfold dict_get, dict_get_or in Hz. destruct (dict_find "actual_status" raw) as [v|]; [by exists v|done]. }
  destruct Hf as (v & Hf & ->). constructor; try done.
  - destruct (event_metadata_verified (j_details j)) eqn:E; [|done]. by destruct (cl_verified _ _ _ _ _ _ _ _ C E).
  - pose proof (proj2 (cl_values _ _ _ _ _ _ _ _ C) Hc) as Hv. unfold client_semantics, dict_item in Hv. rewrite Hf in Hv.
    congruence.
  - destruct (cl_actual _ _ _ _ _ _ _ _ C) as (actual & Ha & ->). unfold normalized_actual_status_value in Ha.
    cbn [first_present] in Ha. rewrite Hf in Ha. by injection Ha as <-.
Qed.

(** ** The fields after binding *)

Definition UPDATED : list string :=
  ["transaction_id"; "transaction_ids"; "evidence_identity"; "runtime_verified"; "promotion_allowed";
   "request_observation"].
Definition IDENTITY : list string := ["run_id"; "case_id"; "source_revision"; "request_id"].

Record client_fields (raw base record : pydict) : Prop := {
  cf_same : forall f, In f (IDENTITY ++ UPDATED) -> dict_get f record = dict_get f raw;
  cf_base : forall f, ~ In f (IDENTITY ++ UPDATED) -> dict_find f record = dict_find f base }.

Lemma client_bound_fields raw base record v p : accepted sha256 raw v p ->
  validate_request_observation sha256 raw = Ok v ->
  bind_client_observation sha256 raw base = Ok record -> client_fields raw base record.
Proof.
  intros [[H1 H2 H3 H4 H5 _ _ _ _] Hp _ _ [Hk Hi] _ _] Hv H. unfold bind_client_observation in H.
  rewrite H1, eq_str_refl, Hv in H. pose proof Hp as Hp'. unfold dict_get, dict_get_or in Hp'. unfold dict_item in H.
  destruct (dict_find "request_observation" raw) as [q|]; [|done]. subst q. apply Ok_inj in H.
  destruct v as [|[k1 s1] [|[k2 s2] [|[k3 s3] [|[k4 s4] [|]]]]]; try done. injection Hk as -> -> -> ->. constructor.
  - intros f Hf. rewrite <- H. unfold dict_update. cbn [map fst snd fold_left]. unfold dict_get at 1, dict_get_or.
    rewrite !dict_find_set.
    repeat (destruct Hf as [<-|Hf]; [cbn; first [by rewrite ?H1, ?H2, ?H3, ?H4, ?H5, ?Hp
                                                |symmetry; apply Hi; cbn; tauto]|]). destruct Hf.
  - intros f Hf. rewrite <- H, !dict_find_update; [done| |].
    + cbn [map fst snd]. intros Hin. apply Hf, in_or_app. left. exact Hin.
    + cbn [map fst snd]. intros Hin. apply Hf, in_or_app. right. exact Hin.
Qed.

(** A normalised record, passing or failed after judgement. *)
Lemma observed_record raw case connector case_id events mode authority record :
  normalize_observed_case event_schema receipt_schema fuel catalog sys sha256 raw case connector case_id events mode authority
    = Ok record ->
  exists j b, collect_case_evidence event_schema fuel raw case connector events mode = Ok j /\
    built sha256 raw case connector case_id j b /\
    (forall f, ~ In f ["status"; "operation_status"; "reason"; "configtest_receipt"] -> dict_find f record = dict_find f b) /\
    (dict_get "configtest_receipt" record = dict_get "configtest_receipt" (claimed_record raw b)) /\
    In (dict_get "status" record) [PStr (j_status j); PStr "FAIL"].
Proof.
  unfold normalize_observed_case. destruct (collect_case_evidence _ _ _ _ _ _ _) as [j|] eqn:Ej; [|done].
  destruct (build_normalized_case_record _ _ _ _ _ _ _) as [b|] eqn:Eb; [|done].
  apply built_record in Eb. fold (claimed_record raw b). intros H. exists j, b. split; [done|]. split; [done|].
  assert (Hs : dict_get "status" (claimed_record raw b) = PStr (j_status j)).
  { unfold dict_get, dict_get_or. by rewrite claimed_find, (bu_status _ _ _ _ _ _ _ Eb). }
  assert (Hc : forall f, ~ In f ["status"; "operation_status"; "reason"; "configtest_receipt"] ->
    dict_find f (claimed_record raw b) = dict_find f b) by (intros f Hf; apply claimed_find; intros ->; apply Hf; cbn; tauto).
  assert (Hm : record = claimed_record raw b \/ (dict_get "status" record = PStr "FAIL" /\ exists reason,
    record = dict_update (claimed_record raw b)
      [("status", PStr "FAIL"); ("operation_status", PStr (operation_status "fail")); ("reason", PStr reason)])).
  { destruct (String.eqb _ _); [|left; by apply Ok_inj in H]. destruct (case_pass_validation_errors _ _ _ _ _ _ _ _ _ _ _ _) as [errors|]; [|done].
    apply marked_status in H as [[_ ->]|H]; [by left|by right]. }
  destruct Hm as [->|(Hf & reason & Er)]; [split; [exact Hc|]; split; [done|]; left; by symmetry|].
  rewrite Hf. split; [|split; [|right; by left]].
  - intros f Hn. rewrite Er, dict_find_update; [by apply Hc|]. cbn [map fst]. intros Hin. apply Hn.
    cbn in Hin |- *. tauto.
  - rewrite Er. unfold dict_get, dict_get_or. rewrite dict_find_update; [done|]. cbn. intuition congruence.
Qed.

(** ** The record of a client observation *)

(** Fields of the record, whatever the judgement. *)
Record client_record (raw record : pydict) (z : Z) : Prop := {
  cr_observed : forall f, In f OBSERVED_FIELDS -> dict_get f record = dict_get f raw;
  cr_rules : dict_get "observed_rule_ids" record = PList [];
  cr_fields : dict_get "observed_event_fields" record = PList [];
  cr_verified : dict_get "event_metadata_verified" record = PBool false;
  cr_visible : dict_get "visible_http_status" record = PInt z;
  cr_actual : dict_get "actual_status" record = PInt z;
  cr_semantics : forall f, In f PHASE4_SEMANTIC_FIELDS -> f <> "visible_http_status" -> dict_get f record = PNone }.

Lemma semantic_find raw case connector case_id status d caps code k v :
  str_in k PHASE4_SEMANTIC_FIELDS = true -> dict_find k (semantic_values d) = Some v ->
  dict_find k (normalized_fields raw case connector case_id status d caps code) = Some v.
Proof.
  intros Hk Hv. unfold normalized_fields, built_fields. rewrite !dict_find_app. cbn [bd_semantic_values pyval_details].
  assert (Hn : forall l, forallb (fun p : string * pyval => negb (str_in (fst p) PHASE4_SEMANTIC_FIELDS)) l = true ->
    dict_find k (mkdict l) = None).
  { intros l. induction l as [|[c x] l IH]; [done|]. cbn [forallb fst]. rewrite dict_find_mkdict_cons.
    intros H. apply andb_true_iff in H as [Hc H]. destruct (String.eqb_spec c k) as [->|]; [|by apply IH]. by rewrite Hk in Hc. }
  rewrite Hn by reflexivity. by rewrite Hv.
Qed.

Lemma client_shape raw case connector case_id events mode j b record v p z :
  collected event_schema fuel raw case connector events mode j -> built sha256 raw case connector case_id j b ->
  client_bound raw = true -> client_collected raw j z ->
  validate_request_observation sha256 raw = Ok v -> accepted sha256 raw v p -> dict_get "actual_status" raw = PInt z ->
  (forall f, ~ In f ["status"; "operation_status"; "reason"; "configtest_receipt"] -> dict_find f record = dict_find f b) ->
  dict_get "configtest_receipt" record = PNone -> client_record raw record z.
Proof.
  intros C B Hc [Ce Cr Cf Cv Cs Ca] Hv A Hz Hk Hr. destruct B as [(caps & code & Hb) _ _ _ _ _ _ _ _].
  pose proof (proj1 (cl_values _ _ _ _ _ _ _ _ C)) as Hvals.
  destruct (client_bound_fields _ _ _ _ _ A Hv Hb) as [Fs Fb]. pose proof (ac_client _ _ _ _ A) as Hco.
  assert (G : forall f w, str_in f ["status"; "operation_status"; "reason"; "configtest_receipt"] = false ->
    str_in f (IDENTITY ++ UPDATED) = false ->
    dict_find f (normalized_fields raw case connector case_id (j_status j) (j_details j) caps code) = w ->
    dict_get f record = match w with Some x => x | None => PNone end).
  { intros f w H1 H2 Hw. unfold dict_get, dict_get_or. rewrite Hk, Fb, Hw; [done| |]; by apply str_in_false. }
  assert (G' : forall f, str_in f ["status"; "operation_status"; "reason"; "configtest_receipt"] = false ->
    In f (IDENTITY ++ UPDATED) -> dict_get f record = dict_get f raw).
  { intros f H1 H2. rewrite <- (Fs f H2). unfold dict_get, dict_get_or. rewrite Hk; [done|]. by apply str_in_false. }
  assert (Hn : forall f, In f NATIVE_EVIDENCE_FIELDS -> dict_get f raw = PNone) by apply Hco.
  constructor.
  - intros f Hf. destruct (str_in f (IDENTITY ++ UPDATED)) eqn:Eu.
    { apply G'; [|by apply str_in_In]. by repeat (destruct Hf as [<-|Hf]; [done|]). }
    destruct (str_in f NATIVE_EVIDENCE_FIELDS) eqn:En.
    + rewrite Hn by (by apply str_in_In). destruct (String.eqb_spec f "configtest_receipt") as [->|Hne]; [done|].
      apply (G f None); [|done|].
      * by repeat (destruct Hf as [<-|Hf]; [done|]).
      * by repeat (destruct Hf as [<-|Hf]; [first [done|field_of Hvals]|]).
    + assert (f = "live_executed" \/ f = "actual_status") as [->| ->]
        by (repeat (destruct Hf as [<-|Hf]; [try discriminate; auto|]); done).
      * rewrite (co_live _ Hco). rewrite (G _ (Some (PBool (is_true (dict_get "live_executed" raw))))); [|done|done|field_of Hvals].
        by rewrite (co_live _ Hco).
      * rewrite Hz. rewrite (G _ (Some (opt_int (actual_status (details (j_details j)))))); [by rewrite Ca|done|done|field_of Hvals].
  - rewrite (G _ (Some (PList (map PInt (observed_rule_ids (details (j_details j))))))); [by rewrite Cr|done|done|field_of Hvals].
  - rewrite (G _ (Some (PList (map PStr (observed_event_fields (details (j_details j)))))));
      [by rewrite Cf|done|done|field_of Hvals].
  - rewrite (G _ (Some (PBool (event_metadata_verified (j_details j))))); [by rewrite Cv|done|done|field_of Hvals].
  - apply (G _ (Some (PInt z))); [done|done|]. apply semantic_find; [done|]. by rewrite Cs, dict_find_set.
  - rewrite (G _ (Some (opt_int (actual_status (details (j_details j)))))); [by rewrite Ca|done|done|field_of Hvals].
  - intros f Hf Hne. assert (Hd : str_in f ["status"; "operation_status"; "reason"; "configtest_receipt"] = false /\
      str_in f (IDENTITY ++ UPDATED) = false).
    { assert (T : forallb (fun f => negb (str_in f ["status"; "operation_status"; "reason"; "configtest_receipt"])
        && negb (str_in f (IDENTITY ++ UPDATED))) PHASE4_SEMANTIC_FIELDS = true) by (vm_compute; reflexivity).
      rewrite forallb_forall in T. specialize (T f Hf). by apply andb_true_iff in T as [T1%negb_true_iff T2%negb_true_iff]. }
    apply (G f (Some PNone)); [apply Hd|apply Hd|]. apply semantic_find; [by apply str_in_In|]. rewrite Cs, dict_find_set.
    destruct (String.eqb_spec "visible_http_status" f); [congruence|]. by apply find_none_fields.
Qed.
(** The validation of the raw observation. *)
Lemma request_bound_Ok raw : _validate_request_bound_case catalog sha256 runner_digest raw true = Ok tt ->
  exists v p, validate_request_observation sha256 raw = Ok v /\ accepted sha256 raw v p /\
    client_case_source_errors catalog runner_digest raw = Ok [].
Proof.
  unfold _validate_request_bound_case. destruct (validate_request_observation sha256 raw) as [v|] eqn:Ev; [|done].
  destruct (client_case_source_errors _ _ raw) as [[|]|]; try done. intros _.
  destruct (observation_accepted _ _ _ Ev) as (p & A). by exists v, p.
Qed.

(** A record of this shape has none of the identity errors of a stored record. *)
Lemma client_record_clean raw record label v z : client_record raw record z -> client_only raw ->
  validate_request_observation sha256 raw = Ok v -> validate_request_observation sha256 record = Ok v ->
  client_case_source_errors catalog runner_digest raw = Ok [] ->
  client_case_identity_errors catalog sha256 runner_digest record label = Ok [].
Proof.
  intros [R1 R2 R3 R4 R5 R6 R7] Hco Hv Hr Hs. unfold client_case_identity_errors.
  rewrite (R1 "evidence_identity"), (co_mode _ Hco) by (apply str_in_In; reflexivity). cbn [eq_str String.eqb Ascii.eqb Bool.eqb].
  apply in_order_nil. repeat constructor.
  - unfold client_observation_errors. by rewrite Hr.
  - assert (E : client_case_source_errors catalog runner_digest record = client_case_source_errors catalog runner_digest raw).
    { unfold client_case_source_errors.
      by rewrite (R1 "case_id"), (R1 "request_observation") by (apply str_in_In; reflexivity). }
    by rewrite E, Hs.
  - rewrite (R1 "transaction_ids"), (co_transactions _ Hco), R2, R3, R4, R5, R6 by (apply str_in_In; reflexivity).
    cbn [truthy orb is_false negb when_failed app].
    assert (existsb (fun field => negb (String.eqb field "visible_http_status") && negb (is_none (dict_get field record)))
      PHASE4_SEMANTIC_FIELDS = false) as ->.
    { apply not_true_iff_false. rewrite existsb_exists. intros (f & Hf & Hx). apply andb_true_iff in Hx as [H1 H2].
      apply negb_true_iff, String.eqb_neq in H1. by rewrite R7 in H2. }
    cbn [when_failed app py_eq num_value]. by rewrite (proj2 (Qeq_bool_iff _ _) (Qeq_refl _)).
Qed.

(** C37: a client observation stays one: the record that normalisation makes of an accepted
    client observation is again an accepted observation of the same identity, it has no
    error against the rules of stored client records (no rule, transaction, event field
    or host semantics, and the visible status is the one the client saw), and no phase-4
    case passes on it.  The observation has no [tx_id] (one that has may take over the
    fields of an event) and does not report the rejection by the host before the connector,
    whose status is not the verdict of the client. *)
Theorem client_record_accepted raw connector cases events mode authority record label :
  normalize_record raw connector cases events mode authority = Ok (Some record) ->
  dict_has "protocol_bundle" raw = false -> dict_has "native_operation_receipt" raw = false ->
  client_bound raw = true -> dict_get "tx_id" raw = PNone ->
  text_of (py_or (dict_get "observed_result" raw) (dict_get "outcome" raw)) <> "rejected_by_host_before_connector" ->
  (exists v, validate_request_observation sha256 raw = Ok v /\ validate_request_observation sha256 record = Ok v) /\
  client_case_identity_errors catalog sha256 runner_digest record label = Ok [] /\
  (forall case, case_of (case_identifier raw) cases = Some case -> is_phase4_semantic_case case = true ->
   dict_get "status" record = PStr "FAIL").
Proof.
  intros Hn Hp Ho Hc Ht Hobs.
  destruct (normalize_inv _ _ _ _ _ _ _ _ _ _ _ _ _ _ _ _ Hn Hp Ho) as (case & Hcase & Hval & Hr).
  unfold client_bound in Hc. rewrite Hc in Hval. fold (client_bound raw) in Hc.
  destruct (request_bound_Ok _ Hval) as (v & p & Hv & A & Hs). pose proof (ac_client _ _ _ _ A) as Hco.
  destruct (co_status _ Hco) as (z & Hz & _).
  destruct (observed_record _ _ _ _ _ _ _ _ Hr) as (j & b & Ej & B & Hk & Hcfg & Hst).
  pose proof (collect_inv _ _ _ _ _ _ _ _ Ej) as C.
  pose proof (client_collect _ _ _ _ _ _ _ C Hc (supplied_client _ Hco Ht) Hz) as CC.
  erewrite (client_no_receipt _ _ _ _ _ normalize_protocol_record normalize_native_operation_record raw case connector _ events mode j b Hval C B Hc) in Hcfg.
  pose proof (client_shape _ _ _ _ _ _ _ _ _ _ _ _ C B Hc CC Hv A Hz Hk Hcfg) as R.
  assert (Hverdict : In (j_status j) ["PASS"; "FAIL"]).
  { destruct (cl_status _ _ _ _ _ _ _ _ C) as (status & Hns & Hj). rewrite (cl_observed _ _ _ _ _ _ _ _ C) in Hj.
    apply String.eqb_neq in Hobs. rewrite Hobs in Hj. rewrite Hj. apply (normalized_verdict _ _ (co_verdict _ Hco) Hns). }
  assert (E : validate_request_observation sha256 record = Ok v).
  { rewrite <- Hv. apply validate_same; [apply R| |apply Hco].
    destruct Hst as [<-|[<-|[]]]; [destruct Hverdict as [<-|[<-|[]]]|]; apply str_in_In; reflexivity. }
  split; [by exists v|]. split; [by apply (client_record_clean raw record label v z)|].
  intros case' Hcase' H4. assert (case' = case) as -> by congruence.
  destruct Hst as [Hst|[Hst|[]]]; [|done]. destruct Hverdict as [Hj|[Hj|[]]]; [|by rewrite <- Hst, <- Hj]. exfalso.
  rewrite <- Hj in Hst. symmetry in Hst.
  destruct (observed_pass _ _ _ _ _ _ _ _ _ _ _ _ _ _ Hr Hst) as (j' & b' & Ej' & _ & B' & Er & V).
  assert (j' = j) as -> by congruence. apply validation_nil in V as (_ & V & _). rewrite Er in V.
  destruct (phase4_judged _ _ _ _ _ _ _ _ _ _ _ _ C B' H4 V) as (event & w & required & _ & Hctx & _).
  apply context_In in Hctx as (_ & _ & Hm). rewrite (cc_event _ _ _ CC) in Hm.
  rewrite (client_supplies_none event_schema fuel sha256 raw case connector (case_identifier raw) events mode j b') in Hm by done.
  by specialize (Hm eq_refl).
Qed.
End Client.
