(* ===== verification/CaseWitnesses.v ===== *)
(** * Concrete cases: witnesses of the theorems on case records *)

From S2P Require Export CaseClient PassOutcomes.
From Stdlib Require Import QArith.
#[global] Open Scope Z_scope.

(** ** The run of a case *)

(** The operating system is not asked by these cases. *)
Definition no_system : bundle_system := {|
  cwd := []; no_symlink := fun _ => Ok tt; is_dir := fun _ => false; file_observation := fun _ _ => Err (OSError "");
  open_directory := fun _ => Ok tt; fixture_state := fun _ _ _ _ => Ok tt; projection_owned := fun _ => Ok tt;
  canonical_rules := Ok ""; digest_of := fun _ => ""; json_loads := fun _ => Err (ValueError ""); exn_text := fun _ => "" |}.

Definition no_normaliser (_ _ : pydict) (_ : string) : res pydict := Err (ValueError "").

Definition abort_case : pydict :=
  mkdict [("case_id", PStr "abort"); ("phase", PInt 4); ("expected_result", PStr "connection_aborted_strict");
          ("expected_rule_id", PInt 1100001); ("request", PDict (mkdict [("protocol_profile", PStr "h3")]))].
Definition abort_raw : pydict :=
  mkdict [("case_id", PStr "abort"); ("status", PStr "passed"); ("live_executed", PBool true); ("actual_status", PInt 200);
          ("transaction_id", PStr "t1")].

Definition normalize_abort (raw : pydict) (events : list pydict) : res (option pydict) :=
  normalize_case_record small_event_schema PNone 9 [] no_system (fun s => s) (fun _ => None) no_normaliser no_normaliser raw
    "envoy" [("abort", abort_case)] events None None.
Definition bind_abort (events : list pydict) (record : pydict) : res pydict :=
  bind_record no_normaliser "r1" "host" [("abort", abort_case)] events None record.
Definition verdict (r : res (option pydict)) : pyval * pyval :=
  match r with Ok (Some record) => (dict_get "status" record, dict_get "reason" record) | Ok None => (PNone, PNone)
  | Err e => (PStr "raised", PStr (match e with ValueError m | ContractError m | TypeError m | KeyError m => m | _ => "" end)) end.

(** A strict abort over HTTP/1. *)
Definition http1_event (run : string) : pydict :=
  mkdict [("connector", PStr "envoy"); ("phase", PStr "response_body"); ("event", PStr "phase4");
          ("message_id", PStr "m1"); ("rule_id", PInt 1100001); ("transaction_id", PStr "t1"); ("run_id", PStr run);
          ("requested_action", PStr "deny"); ("actual_action", PStr "abort_connection");
          ("transport_result", PStr "connection_aborted"); ("late_intervention", PBool true);
          ("late_intervention_mode", PStr "strict"); ("headers_sent", PBool true); ("connection_aborted", PBool true);
          ("http_status", PInt 403); ("original_http_status", PInt 200); ("visible_http_status", PInt 200)].
Definition http1_case : pydict := dict_set "request" (PDict []) abort_case.
Definition normalize_http1 (run : string) : res (option pydict) :=
  normalize_case_record small_event_schema PNone 9 [] no_system (fun s => s) (fun _ => None) no_normaliser no_normaliser
    (dict_set "run_id" (PStr "r1") abort_raw) "envoy" [("abort", http1_case)] [http1_event run] None None.
Definition bind_http1 (run : string) : res (option pydict) :=
  match normalize_http1 run with
  | Ok (Some record) => let* r := bind_record no_normaliser "r1" "host" [("abort", http1_case)] [http1_event run] None record in
                        Ok (Some r)
  | r => r
  end.

(** [phase4_pass_errors] does not see the run of the event: a phase-4 case passes its
    normalisation on an event that names another run, and fails at the binding. *)
Example foreign_run_ex :
  verdict (normalize_http1 "r2") = (PStr "PASS", PStr "") /\
  verdict (bind_http1 "r1") = (PStr "PASS", PStr "") /\
  verdict (bind_http1 "r2")
  = (PStr "FAIL", PStr "protocol provenance invalid: canonical event run_id does not match case run").
Proof. vm_compute. repeat split. Qed.

Definition normalized_record (r : res (option pydict)) : pydict := match r with Ok (Some d) => d | _ => [] end.

Lemma case_pass_of_run_witness :
  exists event required, In event [http1_event "r1"] /\ case_protocol_profile http1_case = Ok required /\
    phase4_verified small_event_schema 9 (normalized_record (normalize_http1 "r1")) event None required None.
Proof.
  destruct (case_pass_of_run small_event_schema PNone 9 [] no_system (fun s => s) (fun _ => None) no_normaliser no_normaliser
    (dict_set "run_id" (PStr "r1") abort_raw) "envoy" [("abort", http1_case)] [http1_event "r1"] None None
    (normalized_record (normalize_http1 "r1")) "r1" "host" (normalized_record (bind_http1 "r1")) http1_case)
    as (event & required & H1 & H2 & H3 & _); try (vm_compute; reflexivity).
  exists event, required. split; [exact H1|]. split; [exact H2|exact H3].
Defined.

(** The record takes over every transaction of its event, so the second lookup may find an
    event the first could not: with an event of both transactions, and one of the second
    transaction alone before it in the log, the case passes its normalisation on one event
    and is bound to the other. *)
Definition both_event : pydict := dict_set "tx_id" (PStr "t2") (http1_event "r1").
Definition second_event : pydict := dict_set "message_id" (PStr "m0") (dict_set "transaction_id" (PStr "t2") (http1_event "r2")).
Definition bind_shared (events : list pydict) : res (option pydict * option pydict) :=
  let cases := [("abort", http1_case)] in
  let* o := normalize_case_record small_event_schema PNone 9 [] no_system (fun s => s) (fun _ => None) no_normaliser
              no_normaliser (dict_set "run_id" (PStr "r1") abort_raw) "envoy" cases events None None in
  match o with
  | Some record =>
      let* event := matching_protocol_event (of_run "r1" "host" record) (Some http1_case) events None in
      let* bound := bind_record no_normaliser "r1" "host" cases events None record in Ok (Some bound, event)
  | None => Ok (None, None)
  end.
Definition bound_to (r : res (option pydict * option pydict)) : pyval * pyval :=
  match r with
  | Ok (Some bound, Some event) => (dict_get "status" bound, dict_get "message_id" event)
  | _ => (PNone, PNone)
  end.
Example second_lookup_ex :
  bound_to (bind_shared [both_event; second_event]) = (PStr "PASS", PStr "m1") /\
  bound_to (bind_shared [second_event; both_event]) = (PStr "FAIL", PStr "m0").
Proof. vm_compute. split; reflexivity. Qed.

(** ** A configuration case *)

Definition wrong_key : pydict :=
  rejection "modsecurity_unknown_config_key" "on" "unknown_config_key"
    ["unknown directive " +:+ in_quotes "modsecurity_unknown_config_key"].
Definition config_case : pydict :=
  mkdict [("case_id", PStr "unknown_config_key"); ("phase", PInt 0); ("group", PStr "config");
          ("required_capabilities", PList []); ("expected_result", PStr "config_rejected"); ("expected_status", PInt 1);
          ("config_invocations", PDict (mkdict [("nginx", PDict wrong_key)]))].

(** The files of the retained bundle, by name. *)
Definition bundle_files (config : string) : list (string * string) :=
  [("nginx-binary", "ELF"); ("nginx-module.so", "ELF"); (NGINX_CONFIG_FILE_NAME, config); (STDOUT_LOG_FILE_NAME, "");
   (STDERR_LOG_FILE_NAME, "nginx: [emerg] unknown directive " +:+ in_quotes "modsecurity_unknown_config_key")].
Definition bundle_directory : string := "/srv/run/inventory/configtests/unknown_config_key".
Definition observe_file (config p : string) : res (string * chars) :=
  match List.find (fun f : string * string => String.eqb p (bundle_directory +:+ "/" +:+ fst f)) (bundle_files config) with
  | Some (name, text) => Ok ("digest of " +:+ name, S2L text)
  | None => Err (OSError "no such file")
  end.
Definition bundle_of (config : string) : bundle_system := {|
  cwd := []; no_symlink := fun _ => Ok tt; is_dir := fun _ => true; file_observation := fun p _ => observe_file config p;
  open_directory := fun _ => Ok tt; fixture_state := fun _ _ _ _ => Ok tt; projection_owned := fun _ => Ok tt;
  canonical_rules := Ok ""; digest_of := fun _ => ""; json_loads := fun _ => Err (ValueError "");
  exn_text := fun e => match e with ContractError m => m | _ => "" end |}.
Definition good_config : string := expected_config "/opt/module" "modsecurity_unknown_config_key" "on".

Definition config_receipt : pydict :=
  dict_merge (mkdict [("case_id", PStr "unknown_config_key"); ("connector", PStr "nginx"); ("run_id", PStr "r1");
    ("integration_mode", PStr "host"); ("observed_exit_code", PInt 1); ("observed_outcome", PStr "config_rejected");
    ("process_started", PBool false); ("listener_created", PBool false); ("binary_sha256", PStr "digest of nginx-binary");
    ("module_sha256", PStr "digest of nginx-module.so"); ("config_path_identity", PStr "sha256:digest of nginx.conf");
    ("stdout_sha256", PStr "digest of stdout.log"); ("stderr_sha256", PStr "digest of stderr.log")]) wrong_key.
Definition config_raw : pydict :=
  mkdict [("case_id", PStr "unknown_config_key"); ("status", PStr "pass"); ("live_executed", PBool true);
          ("actual_status", PInt 1); ("observed_result", PStr "config_rejected"); ("run_id", PStr "r1");
          ("integration_mode", PStr "host"); ("configtest_receipt", PDict config_receipt);
          ("artifacts", PDict (mkdict [("configtest_dir", PStr "inventory/configtests/unknown_config_key")]))].
Definition normalize_config (config : string) (raw : pydict) : res (option pydict) :=
  normalize_case_record small_event_schema (PDict []) 9 [] (bundle_of config) (fun s => s) (fun _ => None) no_normaliser
    no_normaliser raw "nginx" [("unknown_config_key", config_case)] [] (Some "host") (Some "/srv/run").

(** The case passes on its bundle, and not with a blank appended to the configuration
    or with another exit code. *)
Example configuration_ex :
  verdict (normalize_config good_config config_raw) = (PStr "PASS", PStr "") /\
  fst (verdict (normalize_config (good_config +:+ " ") config_raw)) = PStr "FAIL" /\
  fst (verdict (normalize_config good_config (dict_set "actual_status" (PInt 0) config_raw))) = PStr "FAIL".
Proof. vm_compute. repeat split. Qed.

Lemma configuration_pass_sound_witness :
  exists bundle, configuration_proved (bundle_of good_config) config_receipt None bundle wrong_key.
Proof.
  destruct (configuration_pass_sound small_event_schema (PDict []) 9 [] (bundle_of good_config) (fun s => s) (fun _ => None)
    no_normaliser no_normaliser config_raw "nginx" [("unknown_config_key", config_case)] [] (Some "host") (Some "/srv/run")
    (normalized_record (normalize_config good_config config_raw)) config_case wrong_key)
    as (_ & contract & receipt & root & bundle & below & Hc & _ & Hr & _ & _ & _ & _ & _ & H & _); try (vm_compute; reflexivity).
  exists bundle. vm_compute in Hc. injection Hc as <-. vm_compute in Hr. injection Hr as <-.
  refine (proj2 (H _)). vm_compute. discriminate.
Defined.

(** ** A client observation *)

(** A stand-in for SHA-256: a small polynomial of the characters, in 64 hexadecimal digits. *)
Fixpoint hex_of (n : nat) (z : Z) : chars := match n with O => [] | S m => hex_of m (z / 16) ++ [hex_digit (z mod 16)] end.
Definition weak_digest (s : string) : string :=
  L2S (repeat "0"%char 58 ++ hex_of 6 (fold_left (fun h c => (h * 31 + ord c) mod 16777216) (S2L s) 7)).

Definition revision : string := String.concat "" (repeat "ab" 20).
Definition nonce : string := "request-" +:+ String.concat "" (repeat "0f" 16).
(** A receipt without its digests, and with them. *)
Definition open_receipt (end_offset : Z) : pydict :=
  mkdict [("schema_version", PInt 2); ("run_id", PStr "r1"); ("case_id", PStr "client"); ("request_id", PStr nonce);
          ("source_revision", PStr revision); ("event_log", PStr "/srv/events.jsonl");
          ("case_sha256", PStr (weak_digest "case")); ("start_offset", PInt 10); ("prefix_sha256", PStr (weak_digest "prefix"));
          ("interval_sha256", PStr (weak_digest "interval")); ("end_offset", PInt end_offset); ("state", PStr "completed")].
Definition begun (d : pydict) : string :=
  match begun_receipt d with Ok b => weak_digest (canonical_line b) | Err _ => "" end.
Definition receipt (end_offset : Z) : pydict :=
  let d := dict_set "begin_sha256" (PStr (begun (open_receipt end_offset))) (open_receipt end_offset) in
  dict_set "receipt_sha256" (PStr (weak_digest (canonical_line d))) d.
Definition client_raw (end_offset : Z) : pydict :=
  mkdict [("case_id", PStr "client"); ("run_id", PStr "r1"); ("source_revision", PStr revision); ("request_id", PStr nonce);
          ("status", PStr "Pass"); ("actual_status", PInt 403); ("live_executed", PBool true);
          ("evidence_identity", PStr "request_bound"); ("transaction_ids", PList []); ("runtime_verified", PBool false);
          ("promotion_allowed", PBool false); ("request_observation", PDict (receipt end_offset))].
Definition observation_of (raw : pydict) : list (string * string) :=
  match validate_request_observation weak_digest raw with Ok v => v | Err _ => [] end.

(** Another offset than the sealed one is refused. *)
Example observation_ex :
  observation_of (client_raw 20)
  = [("run_id", "r1"); ("case_id", "client"); ("source_revision", revision); ("request_id", nonce)] /\
  validate_request_observation weak_digest
    (dict_set "request_observation" (PDict (dict_set "end_offset" (PInt 21) (receipt 20))) (client_raw 20))
  = Err (ValueError "request observation receipt digest does not bind its nonce and context").
Proof. vm_compute. by split. Qed.

Lemma request_observation_binds_witness :
  let other := dict_set "actual_status" (PInt 200) (client_raw 20) in
  (observation_of (client_raw 20) = observation_of other /\ forall field, In field RECEIPT_FIELDS ->
     json_dumps ", " ": " (dict_get field (receipt 20)) = json_dumps ", " ": " (dict_get field (receipt 20)))
  \/ collision weak_digest (canonical_line (sealed_receipt (receipt 20))) (canonical_line (sealed_receipt (receipt 20))).
Proof.
  intros other. apply (request_observation_binds weak_digest (client_raw 20) other); try (vm_compute; reflexivity).
  vm_compute. repeat (constructor; [intros H; repeat (destruct H as [H|H]; [discriminate|]); exact H|]). constructor.
Defined.

(** ** Its record *)

Definition client_case : pydict :=
  mkdict [("case_id", PStr "client"); ("phase", PInt 4); ("expected_result", PStr "connection_aborted_strict");
          ("runner_case", PStr "cases/client.yaml")].
Definition client_catalog : pydict := mkdict [("defaults", PDict []); ("cases", PList [PDict client_case])].
Definition normalize_client (case raw : pydict) (events : list pydict) : res (option pydict) :=
  normalize_case_record small_event_schema PNone 9 client_catalog no_system weak_digest (fun _ => Some (weak_digest "case"))
    no_normaliser no_normaliser raw "nginx" [("client", case)] events (Some "native-nginx-http-module") None.
Definition client_errors (r : res (option pydict)) : res (list string) :=
  client_case_identity_errors client_catalog weak_digest (fun _ => Some (weak_digest "case")) (normalized_record r) "client".

Lemma client_record_accepted_witness :
  client_errors (normalize_client client_case (client_raw 20) []) = Ok [] /\
  dict_get "status" (normalized_record (normalize_client client_case (client_raw 20) [])) = PStr "FAIL".
Proof.
  destruct (client_record_accepted small_event_schema PNone 9 client_catalog no_system weak_digest
    (fun _ => Some (weak_digest "case")) no_normaliser no_normaliser (client_raw 20) "nginx" [("client", client_case)] []
    (Some "native-nginx-http-module") None (normalized_record (normalize_client client_case (client_raw 20) [])) "client")
    as (_ & H1 & H2); try (vm_compute; reflexivity); [vm_compute; discriminate|].
  split; [exact H1|apply (H2 client_case); vm_compute; reflexivity].
Defined.

(** With a [tx_id] the first-byte pairing, which is not told that the record is a client
    observation, hands it a host event; the stored record is then refused. *)
Definition append_event : pydict :=
  mkdict [("connector", PStr "nginx"); ("event", PStr "phase4_append"); ("phase", PInt 4); ("transaction_id", PStr "t1");
          ("client_first_byte_received", PBool true); ("integration_mode", PStr "native-nginx-http-module")].
Definition plain_case : pydict := mkdict [("case_id", PStr "client"); ("phase", PInt 1)].

Example client_event_ex :
  let normal raw := normalize_client plain_case raw [append_event] in
  client_errors (normal (client_raw 20)) = Ok [] /\
  dict_get "observed_event_fields" (normalized_record (normal (dict_set "tx_id" (PStr "t1") (client_raw 20))))
  = PList (map PStr ["client_first_byte_received"; "connector"; "event"; "integration_mode"; "phase"; "transaction_id"]) /\
  client_errors (normal (dict_set "tx_id" (PStr "t1") (client_raw 20)))
  = Ok ["client: client observation cannot contain host event evidence"].
Proof. vm_compute. repeat split. Qed.
