(* ===== verification/NginxProtocol.v ===== *)
(** * Retained evidence of HTTP/2 and HTTP/3 over nginx (nginx_protocol.py)

    A retained bundle is reopened and its client trace, access records, native events
    and QUIC datagrams are checked against each other.  A pattern that [re.findall]
    searches for is a function that matches at the head of the text; the patterns have
    one way to match, apart from the optional words, which are tried first. *)

From S2P Require Export CaseArtifacts.
From S2P Require Import ObservationEvidence.
From Stdlib Require Import QArith.
#[global] Open Scope Z_scope.

Definition MODE : string := "native-nginx-http-module".
Definition LIMIT : Z := 262144.
Definition RECEIPT_FILE : string := "receipt.json".
Definition ROLES_FILE : string := "roles.json".

(** ** The closed operations *)

Record operation := { op_protocol : string; op_phase : Z; op_status : Z; op_rule : option Z }.
Definition op (protocol : string) (phase status : Z) (rule : option Z) : operation :=
  {| op_protocol := protocol; op_phase := phase; op_status := status; op_rule := rule |}.

Definition CASES : list (string * operation) :=
  [("transport_http2_if_supported", op "h2" 4 200 None)]
  ++ map (fun name => (name, op "h2" 1 403 (Some 1100001)))
       ["protocol_h2_negotiated"; "protocol_h2_no_http1_fallback"; "h2_phase1_deny"]
  ++ map (fun name => (name, op "h3" 1 403 (Some 1100001)))
       ["protocol_h3_negotiated"; "protocol_h3_quic_transport"; "protocol_h3_no_h2_fallback"; "h3_phase1_deny"]
  ++ concat (map (fun protocol =>
       map (fun row : Z * string * Z * Z => let '(phase, suffix, status, rule) := row in
              (protocol +:+ "_phase" +:+ dec phase +:+ "_" +:+ suffix, op protocol phase status (Some rule)))
         [(2, "deny", 403, 1100101); (3, "deny", 403, 1100201); (4, "safe", 200, 1100301)]) ["h2"; "h3"])
  ++ [("protocol_h3_alt_svc_advertised", op "h3" 3 200 None)].

Definition RESULTS (case : string) : string :=
  if String.eqb case "transport_http2_if_supported" then "transport_http2"
  else if ends_with "_phase4_safe" case then "late_intervention_log_only_safe" else case.

Definition LEAVES : list string :=
  ["observation.json"; "native-events.jsonl"; "access.jsonl"; "client.json"; "quic.json"; "cleanup.json"; ROLES_FILE].

(** [v.get], which only mappings have. *)
Definition mapping (v : pyval) : res pydict := match v with PDict d => Ok d | _ => Err (AttributeError "get") end.

(** [CASES.get(case_id)] *)
Definition operation_of (case_id : pyval) : res (option operation) :=
  match case_id with
  | PStr s => Ok (entry s CASES)
  | v => if hashable v then Ok None else Err (TypeError "unhashable type")
  end.

Definition rule_value (rule : option Z) : pyval := match rule with Some z => PInt z | None => PNone end.

Definition invocation (case : pydict) : res (option pydict) :=
  let* o := operation_of (dict_get "case_id" case) in
  match o with
  | None => Ok None
  | Some o =>
      let case_id := py_str (dict_get "case_id" case) in
      let* request := mapping (dict_get_or (PDict []) "request" case) in
      demand (eq_str (dict_get "protocol_profile" request) (op_protocol o)
              && eq_int (dict_get "phase" case) (op_phase o)
              && py_eq (dict_get "expected_rule_id" case) (rule_value (op_rule o))
              && (is_none (dict_get "expected_status" case) || eq_int (dict_get "expected_status" case) (op_status o))
              && eq_str (dict_get "expected_result" case) (RESULTS case_id)) "protocol catalog contract changed" ;;;
      Ok (Some (mkdict [("operation", PStr "native_protocol"); ("source_case_ids", PList [dict_get "case_id" case]);
                        ("mapping", PStr "run-nginx-protocol-cases.py")]))
  end.

(** ** The client trace *)

(** The text after a literal. *)
Definition after_text (t : string) (l : chars) : option chars :=
  if is_prefix (S2L t) l then Some (drop (List.length (S2L t)) l) else None.
Definition spaces (l : chars) : chars := drop_while is_space l.
(** [\s+] *)
Definition some_spaces (l : chars) : option chars :=
  match l with c :: r => if is_space c then Some (spaces r) else None | [] => None end.
(** [\[^\s\]+] *)
Definition word (l : chars) : option (chars * chars) :=
  match take_while (fun c => negb (is_space c)) l with [] => None | w => Some (w, drop (List.length w) l) end.

(** [ALPN\[,:\]\s*server accepted\s+(?:to use\s+)?(\[^\s\]+)] *)
Definition alpn_at (l : chars) : option (chars * chars) :=
  match after_text "ALPN" l with
  | Some (c :: r) =>
      if char_in ",:" c then
        match after_text "server accepted" (spaces r) with
        | Some r => match some_spaces r with
                    | Some r =>
                        match (match after_text "to use" r with
                               | Some r' => match some_spaces r' with Some r' => word r' | None => None end
                               | None => None
                               end) with
                        | Some m => Some m
                        | None => word r
                        end
                    | None => None
                    end
        | None => None
        end
      else None
  | _ => None
  end.

(** [\[HTTP/\[23\]\]\s*\[(\d+)\]\s*(?:OPENED stream|:method:)], with the brackets of the text escaped *)
Definition stream_at (l : chars) : option (chars * chars) :=
  match after_text "[HTTP/" l with
  | Some (c :: r) =>
      if char_in "23" c then
        match after_text "]" r with
        | Some r =>
            match after_text "[" (spaces r) with
            | Some r =>
                match take_while is_digit r with
                | [] => None
                | digits =>
                    match after_text "]" (drop (List.length digits) r) with
                    | Some r => match after_text "OPENED stream" (spaces r), after_text ":method:" (spaces r) with
                                | Some rest, _ | None, Some rest => Some (digits, rest)
                                | None, None => None
                                end
                    | None => None
                    end
                end
            | None => None
            end
        | None => None
        end
      else None
  | _ => None
  end.

(** [re.findall]: the matches from left to right, each after the end of the last.  Every
    step consumes a character, so the length of the text is fuel enough. *)
Fixpoint findall_fuel (fuel : nat) (at_head : chars -> option (chars * chars)) (l : chars) : list chars :=
  match fuel, l with
  | S n, c :: r => match at_head l with
                   | Some (m, rest) => m :: findall_fuel n at_head rest
                   | None => findall_fuel n at_head r
                   end
  | _, _ => []
  end.
Definition findall (at_head : chars -> option (chars * chars)) (s : string) : list string :=
  map L2S (findall_fuel (String.length s) at_head (S2L s)).

Definition same_texts (l : list string) (s : string) : bool := forallb (String.eqb s) l.

Definition client_facts (raw : pydict) (protocol : string) : res pydict :=
  let version := py_str (dict_get_or (PStr "") "http_version" raw) in
  let negotiated := if String.eqb version "2" then Some "h2" else if String.eqb version "3" then Some "h3" else None in
  match dict_get_or (PStr "") "trace" raw with
  | PStr trace =>
      demand (str_len trace <=? LIMIT) "bounded client trace required" ;;;
      let alpn := findall alpn_at trace in
      let streams := findall stream_at trace in
      demand (match negotiated with Some n => String.eqb n protocol | None => false end)
        "forced protocol was not negotiated (fallback rejected)" ;;;
      demand (same_texts alpn protocol) "observed client TLS ALPN is mismatched" ;;;
      demand (match streams with s :: r => same_texts r s | [] => false end)
        "actual single client stream identity missing or ambiguous" ;;;
      demand (eq_int (dict_get "exit_code" raw) 0) "protocol client failed" ;;;
      demand (match streams with s :: _ => digits_allowed (S2L s) | [] => true end)
        "Exceeds the limit (4300 digits) for integer string conversion" ;;;
      Ok (mkdict
        [("requested_protocol", PStr protocol); ("downstream_protocol", PStr protocol);
         ("negotiated_protocol", match negotiated with Some n => PStr n | None => PNone end);
         ("client_alpn_observed", PBool (match alpn with [] => false | _ => true end));
         ("client_alpn", match alpn with a :: _ => PStr a | [] => PNone end);
         ("stream_id", PInt (match streams with s :: _ => int_of_digits 10 (S2L s) | [] => 0 end));
         ("transport", PStr (if String.eqb protocol "h3" then "quic_udp" else "tls_tcp"));
         ("fallback_used", PBool false)])
  | _ => refuse "bounded client trace required"
  end.

(** ** Datagrams *)

Definition big_endian (l : chars) : Z := fold_left (fun a c => a * 256 + ord c) l 0.
(** [l\[i\]] of bytes, [i] within the bounds. *)
Definition byte_at (i : nat) (l : chars) : Z := match drop i l with c :: _ => ord c | [] => 0 end.
Definition slice (i n : nat) (l : chars) : chars := take n (drop i l).
Definition blen (l : chars) : Z := Z.of_nat (List.length l).
Definition loopback : chars := map chr [127; 0; 0; 1].

Fixpoint hex_digits (n : nat) (z : Z) : chars :=
  match n with O => [] | S m => hex_digits m (z / 16) ++ [hex_digit (z mod 16)] end.

Section Datagram.
(** SHA-256 of bytes, in hexadecimal. *)
Variable digest : chars -> string.

Definition quic_report (destination port version : Z) (connection_id : chars) (udp_bytes : Z) : pydict :=
  mkdict [("direction", PStr (if destination =? port then "request" else "response"));
          ("quic_version", PStr ("0x" +:+ L2S (hex_digits 8 version)));
          ("connection_id", PStr ("sha256:" +:+ digest connection_id)); ("udp_bytes", PInt udp_bytes)].

Definition quic_datagram (frame : chars) (port : Z) : option pydict :=
  if (blen frame <? 14 + 20 + 8) || negb (bool_decide (slice 12 2 frame = map chr [8; 0])) then None
  else
    let ip := drop 14 frame in
    let ihl := Z.to_nat (Z.land (byte_at 0 ip) 15 * 4) in
    if negb (Z.shiftr (byte_at 0 ip) 4 =? 4) || Nat.ltb ihl 20 || Nat.ltb (List.length ip) (ihl + 8)
       || negb (byte_at 9 ip =? 17)
       || negb (bool_decide (slice 12 4 ip = loopback)) || negb (bool_decide (slice 16 4 ip = loopback))
       || negb (Z.land (big_endian (slice 6 2 ip)) 16383 =? 0) then None
    else
      let udp := drop ihl ip in
      let source := big_endian (slice 0 2 udp) in
      let destination := big_endian (slice 2 2 udp) in
      if negb ((port =? source) || (port =? destination)) then None
      else
        let data := drop 8 udp in
        if Nat.ltb (List.length data) 7 || negb (Z.land (byte_at 0 data) 192 =? 192) then None
        else
          let version := big_endian (slice 1 4 data) in
          let length := byte_at 5 data in
          if (version =? 0) || negb ((1 <=? length) && (length <=? 20)) || (blen data <? 7 + length) then None
          else Some (quic_report destination port version (slice 6 (Z.to_nat length) data) (blen udp)).
End Datagram.

(** ** The bundle *)

(** What the reader asks the operating system and its libraries: whether a path is a
    symbolic link, the [stat] of a directory, an opened leaf with its [fstat] and
    content, the user, the bytes of the three checked-in sources, the JSON decoder. *)
Record protocol_system := {
  path_is_symlink : abs_path -> bool;
  directory_stat : abs_path -> res stat;
  leaf_open : string -> res (stat * chars);
  euid : Z;
  source_bytes : string -> res chars;
  loads : chars -> res pyval;
  digest : chars -> string }.

Definition leaf_modes_private (s : stat) : bool := Z.land (st_mode s) 63 =? 0.

(** The path and its parents. *)
Fixpoint prefixes (p : path) : list path :=
  match p with [] => [[]] | _ => [] :: match p with c :: r => map (cons c) (prefixes r) | [] => [] end end.

Section Bundle.
Variable sys : protocol_system.

Definition read_leaf (root : abs_path) (leaf : string) : res chars :=
  demand (str_in leaf (RECEIPT_FILE :: LEAVES)) "unknown protocol evidence leaf" ;;;
  demand (negb (str_in ".." (parts root))) "absolute protocol evidence root required" ;;;
  forM (fun p => demand (negb (path_is_symlink sys {| double := double root; parts := p |}))
                   "protocol evidence cannot traverse a symlink") (rev (prefixes (parts root))) ;;;
  let* directory := directory_stat sys root in
  demand ((st_fmt directory =? S_IFDIR) && (st_uid directory =? euid sys) && leaf_modes_private directory)
    "private owned protocol bundle directory required" ;;;
  let* (metadata, content) := leaf_open sys (join_path root leaf) in
  demand ((st_fmt metadata =? S_IFREG) && (st_uid metadata =? euid sys) && (st_nlink metadata =? 1)
          && leaf_modes_private metadata && (st_size metadata <=? LIMIT))
    "protocol evidence must be bounded private single-link regular file" ;;;
  let raw := take (Z.to_nat (LIMIT + 1)) content in
  demand (blen raw <=? LIMIT) "protocol evidence grew beyond bound" ;;;
  Ok raw.

Definition SHA1_PATTERN : re := RTimes (RCls is_hex_lower) 40.

(** The key of the receipt and the checked-in source whose digest it must have. *)
Definition SOURCES : list (string * string) :=
  [("contract_sha256", "tests/runners/nginx_protocol.py");
   ("driver_sha256", "connector_suite/modsecurity_connector_ci/runtime/lifecycle/run-nginx-protocol-cases.py");
   ("rules_sha256", "tests/rules/no-crs-baseline.conf")].

(** [all(...)] whose tests may raise. *)
Fixpoint allM {A} (f : A -> res bool) (l : list A) : res bool :=
  match l with
  | [] => Ok true
  | x :: r => let* b := f x in if b : bool then allM f r else Ok false
  end.

(** [set(value)] as a list of its members. *)
Definition as_set (v : pyval) : res (list pyval) :=
  let* l := iterate v in if forallb hashable l then Ok l else Err (TypeError "unhashable type").
Definition set_eqb (l : list pyval) (names : list string) : bool :=
  forallb (fun v => in_strs v names) l && forallb (fun s => existsb (fun v => eq_str v s) l) names.

(** [receipt["sha256"\]\[leaf\]] *)
Definition leaf_seal (receipt : pydict) (leaf : string) : res pyval :=
  let* seals := dict_item "sha256" receipt in
  match seals with PDict d => dict_item leaf d | _ => Err (TypeError "indices must be integers") end.

Definition revision_check (receipt : pydict) (identities : option pydict) (key : string) : res unit :=
  demand (matches SHA1_PATTERN (dict_get key receipt)) "exact protocol source revisions required" ;;;
  match identities with
  | Some ids => let* expected := dict_item key ids in
                demand (py_eq (dict_get key receipt) expected) "protocol receipt revision differs from authority"
  | None => Ok tt
  end.

Record bundle_bytes := { receipt : pydict; raws : list (string * chars); raw_receipt : chars }.

Definition verified_bundle_bytes (root : abs_path) (case_id run_id : pyval) (identities : option pydict)
    : res bundle_bytes :=
  let* o := operation_of case_id in
  demand (match o with Some _ => true | None => false end)
    "unsupported protocol operation; no reset/multiplex promotion" ;;;
  let* raw_receipt := read_leaf root RECEIPT_FILE in
  let* value := loads sys raw_receipt in
  let* receipt := mapping value in
  demand (py_eq (dict_get "case_id" receipt) case_id && py_eq (dict_get "run_id" receipt) run_id
          && eq_str (dict_get "integration_mode" receipt) MODE) "protocol receipt identity mismatch" ;;;
  forM (revision_check receipt identities) ["parent_sha"; "framework_sha"; "mrts_sha"] ;;;
  let* sources := allM (fun p : string * string => let (key, file) := p in
                    let* bytes := source_bytes sys file in
                    Ok (eq_str (dict_get key receipt) (digest sys bytes))) SOURCES in
  demand sources "protocol executor/contract/rules source differs from exact checked-in authority" ;;;
  demand (forallb (fun key => matches DIGEST_PATTERN (dict_get key receipt)) ["binary_sha256"; "module_sha256"])
    "actual protocol artifact SHA256 required" ;;;
  let* seals := as_set (dict_get_or (PDict []) "sha256" receipt) in
  demand (set_eqb seals LEAVES) "closed protocol evidence inventory required" ;;;
  let* raws := mapM (fun leaf => let* raw := read_leaf root leaf in Ok (leaf, raw)) LEAVES in
  let* sealed := allM (fun p : string * chars => let (leaf, raw) := p in
                   let* seal := leaf_seal receipt leaf in Ok (eq_str seal (digest sys raw))) raws in
  demand sealed "protocol evidence digest mismatch" ;;;
  Ok {| receipt := receipt; raws := raws; raw_receipt := raw_receipt |}.

Definition leaf_bytes (b : bundle_bytes) (leaf : string) : res chars :=
  match entry leaf (raws b) with Some raw => Ok raw | None => Err (KeyError leaf) end.

(** The decoded lines of a leaf. *)
Definition leaf_lines (b : bundle_bytes) (leaf : string) : res (list pyval) :=
  let* raw := leaf_bytes b leaf in mapM (loads sys) (event_lines raw).
(** The decoded leaf. *)
Definition leaf_value (b : bundle_bytes) (leaf : string) : res pyval :=
  let* raw := leaf_bytes b leaf in loads sys raw.

(** ** Access records *)

Definition http_name (protocol : string) : string := if String.eqb protocol "h2" then "HTTP/2.0" else "HTTP/3.0".

(** The transaction of an access record of the run. *)
Definition access_transaction (protocol : string) (run_id : pyval) (path : pyval) (expected : Z) (row : pyval) : res string :=
  let* access := mapping row in
  demand (py_eq (dict_get "uri" access) path && eq_int (dict_get "status" access) expected
          && eq_str (dict_get "protocol" access) (http_name protocol) && eq_str (dict_get "alpn" access) protocol)
    "native access/client protocol or request binding mismatch" ;;;
  match dict_get "transaction_id" access, run_id with
  | PStr t, PStr run => demand (starts_with (run +:+ "-") t) "native transaction/run binding missing" ;;; Ok t
  | PStr _, _ => Err (TypeError "can only concatenate str")
  | _, _ => refuse "native transaction/run binding missing"
  end.

Definition ALLOW_PATH : string := "/no-crs/protocol/allow".

Definition access_transactions (rows : list pyval) (observed : pydict) (protocol : string) (status : Z) (run_id : pyval)
    : res (string * string) :=
  match rows with
  | [allow; contract_row] =>
      let* first := access_transaction protocol run_id (PStr ALLOW_PATH) 200 allow in
      let* second := access_transaction protocol run_id (dict_get "request_path" observed) status contract_row in
      demand (negb (String.eqb first second)) "allow and contract request transaction collision" ;;;
      Ok (first, second)
  | _ => refuse "exact allow plus contract request access records required"
  end.

(** ** Native events *)

Definition none_or (v expected : pyval) : bool := is_none v || py_eq v expected.

(** An event of the transaction, the run and the case. *)
Definition own_event (transaction : string) (run_id case_id : pyval) (row : pydict) : bool :=
  eq_str (dict_get "transaction_id" row) transaction
  && eq_str (dict_get "connector" row) "nginx" && eq_str (dict_get "integration_mode" row) MODE
  && none_or (dict_get "run_id" row) run_id && none_or (dict_get "transport_case_id" row) case_id.

Definition original_allow (native : list pydict) (transaction : string) (path run_id case_id : pyval) : list pydict :=
  List.filter (fun row =>
    own_event transaction run_id case_id row
    && py_eq (dict_get "uri" row) path && eq_str (dict_get "method" row) "GET"
    && eq_str (dict_get "event" row) "request_headers_complete" && eq_str (dict_get "status" row) "ok"
    && eq_str (dict_get "requested_action" row) "allow"
    && (eq_int (dict_get "phase" row) 1 || in_strs (dict_get "phase" row) ["1"; "request_headers"])) native.

Definition says_text (row : pydict) (l : list (string * string)) : bool :=
  forallb (fun p => eq_str (dict_get (fst p) row) (snd p)) l.

Definition intervention_matches (row : pydict) (phase : Z) (request_path : pyval) : res bool :=
  let status field z := eq_int (dict_get field row) z in
  if (phase =? 1) || (phase =? 2) then
    if negb (py_eq (dict_get "uri" row) request_path) then Ok false
    else
      let* event := in_str_set (dict_get "event" row) ["phase" +:+ dec phase +:+ "_intervention"; "engine_decision"] in
      Ok (event && says_text row [("status", "blocked"); ("requested_action", "deny")] && status "http_status" 403
          && in_strs (dict_get "actual_action" row) [""; "deny"])
  else if phase =? 3 then
    Ok (says_text row [("event", "phase3_intervention"); ("status", "blocked"); ("requested_action", "deny");
                       ("actual_action", "deny")]
        && status "http_status" 403 && status "visible_http_status" 403 && is_false (dict_get "response_committed" row))
  else if phase =? 4 then
    Ok (py_eq (dict_get "uri" row) request_path
        && says_text row [("event", "phase4_intervention"); ("status", "blocked"); ("requested_action", "deny");
                          ("actual_action", "log_only")]
        && status "http_status" 403 && status "visible_http_status" 200
        && forallb (fun field => is_true (dict_get field row)) ["response_committed"; "headers_sent"; "late_intervention"]
        && eq_str (dict_get "late_intervention_mode" row) "safe" && is_false (dict_get "connection_aborted" row))
  else Ok false.

Definition phase_name (phase : Z) : string :=
  if phase =? 1 then "request_headers" else if phase =? 2 then "request_body"
  else if phase =? 3 then "response_headers" else "response_body".
Definition of_phase (phase : Z) (v : pyval) : bool := eq_int v phase || in_strs v [dec phase; phase_name phase].

Definition filterM {A} (f : A -> res bool) (l : list A) : res (list A) :=
  let* ls := mapM (fun x => let* b := f x in Ok (if b : bool then [x] else [])) l in Ok (concat ls).

Definition native_semantic_witness (rows : list pyval) (transactions : string * string) (observed : pydict)
    (case_id run_id : pyval) (o : operation) : res (list pydict) :=
  let request_path := dict_get "request_path" observed in
  let* native := mapM mapping rows in
  demand (match original_allow native (fst transactions) (PStr ALLOW_PATH) run_id case_id with [] => false | _ => true end)
    "actual allow request lacks original native P1 completion" ;;;
  let transaction_events := List.filter (own_event (snd transactions) run_id case_id) native in
  demand (existsb (fun row => py_eq (dict_get "uri" row) request_path) transaction_events)
    "original native event for actual contract request/transaction is missing" ;;;
  let* matching :=
    match op_rule o with
    | None => Ok (original_allow native (snd transactions) request_path run_id case_id)
    | Some rule =>
        filterM (fun row => intervention_matches row (op_phase o) request_path)
          (List.filter (fun row => String.eqb (py_str (dict_get "rule_id" row)) (dec rule)
                                   && of_phase (op_phase o) (dict_get "phase" row)) transaction_events)
    end in
  demand (match matching with [] => false | _ => true end)
    "native intervention/allow semantic witness is missing or contradicts wire outcome" ;;;
  Ok matching.

(** ** QUIC facts *)

Definition HASHED_PATTERN : re := RCat (RLit "sha256:") (RTimes (RCls is_hex_lower) 64).

Definition packet_identified (row : pydict) : res bool :=
  match dict_get_or (PStr "") "connection_id" row with
  | PStr s => if fullmatch_str HASHED_PATTERN s
              then in_str_set (dict_get "quic_version" row) ["0x00000001"; "0x6b3343cf"] else Ok false
  | _ => Err (TypeError "expected string or bytes-like object")
  end.

Definition add_quic_facts (facts : pydict) (quic : pyval) (protocol : string) : res pydict :=
  if String.eqb protocol "h3" then
    let* quic := mapping quic in
    let* values := iterate (dict_get_or (PList []) "datagrams" quic) in
    let* packets := mapM mapping values in
    let directions := map (dict_get "direction") packets in
    (if forallb hashable directions then Ok tt else Err (TypeError "unhashable type")) ;;;
    demand (set_eqb directions ["request"; "response"]) "actual bidirectional QUIC/UDP evidence missing" ;;;
    let* identified := allM packet_identified packets in
    demand identified "unsupported QUIC version or unhashed connection ID" ;;;
    match packets with
    | packet :: _ => let* version := dict_item "quic_version" packet in
                     Ok (dict_update facts [("quic_connection_id_present", PBool true); ("quic_version", version)])
    | [] => Err (KeyError "0")
    end
  else Ok facts.

(** ** The verdict *)

(** What [validate_bundle] returns. *)
Record bundle_proof := {
  facts : pydict; transactions : string * string; native_events : list pyval; bundle_result : string;
  matching_events : list pydict; bundle_status : Z; proof_bytes : bundle_bytes }.

Definition validate_bundle (root : abs_path) (case_id run_id : pyval) (identities : option pydict) : res bundle_proof :=
  let* bytes := verified_bundle_bytes root case_id run_id identities in
  let* observation := leaf_value bytes "observation.json" in
  let* client := leaf_value bytes "client.json" in
  let* quic := leaf_value bytes "quic.json" in
  let* cleanup := leaf_value bytes "cleanup.json" in
  let* roles := leaf_value bytes ROLES_FILE in
  let* o := operation_of case_id in
  match o with
  | None => Err (KeyError (py_str case_id))
  | Some o =>
      let protocol := op_protocol o in
      let status := op_status o in
      let* observed := mapping observation in
      demand (py_eq (dict_get "case_id" observed) case_id && py_eq (dict_get "run_id" observed) run_id)
        "protocol observation identity mismatch" ;;;
      demand (is_none (dict_get "driver_error" observed)) "original protocol driver failed" ;;;
      let* client := mapping client in
      let* facts := client_facts client protocol in
      demand (eq_int (dict_get "http_code" client) status && eq_int (dict_get "actual_status" observed) status)
        "actual protocol wire status differs from contract" ;;;
      let* accesses := leaf_lines bytes "access.jsonl" in
      let* transactions := access_transactions accesses observed protocol status run_id in
      let facts := dict_update facts [("alpn", PStr protocol); ("alpn_source", PStr "nginx_access_ssl_alpn_protocol")] in
      let* roles := mapping roles in
      demand (eq_int (dict_get "master_uid" roles) 0 && eq_int (dict_get "worker_uid" roles) 65534)
        "observed isolated native roles required" ;;;
      let* cleanup := mapping cleanup in
      demand (is_true (dict_get "verified" cleanup) && is_false (dict_get "udp_listener_open" cleanup))
        "protocol process/TCP/UDP cleanup not verified" ;;;
      let* native := leaf_lines bytes "native-events.jsonl" in
      let* matching := native_semantic_witness native transactions observed case_id run_id o in
      demand (negb (eq_str case_id "protocol_h3_alt_svc_advertised") || is_true (dict_get "alt_svc_h3" client))
        "actual Alt-Svc response header missing" ;;;
      let* facts := add_quic_facts facts quic protocol in
      Ok {| facts := facts; transactions := transactions; native_events := native;
            bundle_result := RESULTS (py_str case_id); matching_events := matching; bundle_status := status;
            proof_bytes := bytes |}
  end.
End Bundle.
