(* ===== verification/ProtocolRecord.v ===== *)
(** * Records of retained protocol bundles (no_crs_baseline.py)

    [normalize_protocol_record] reopens the bundle a raw record names and makes the
    canonical record of what it proves; [native_authority_expected_tuple] gives the
    revisions of the canonical run. *)

From S2P Require Export NginxProtocol CaseBinding.
From S2P Require Import ObservationEvidence.
From Stdlib Require Import QArith.
#[global] Open Scope Z_scope.

(** What the normaliser asks beyond the reader of the bundle: the digest of a file, the
    manifest of a run directory when there is one, a revision inside the framework's
    repository, and the text of an exception. *)
Record record_system := {
  reader : protocol_system;
  sha256_file : string -> res string;
  run_manifest : abs_path -> res (option pyval);
  git_value : string -> string;
  exception_text : exn -> string }.

(** [except (OSError, ValueError, TypeError, KeyError)] *)
Definition evidence_exception (e : exn) : bool :=
  is_OSError e || is_ValueError e || match e with TypeError _ | KeyError _ => true | _ => false end.

(** [str(v or "")] of a revision field. *)
Definition native_authority_expected_tuple (git : string -> string) (identity : pydict) : pydict :=
  let framework_sha := field_text "framework_commit" identity in
  mkdict [("run_id", PStr (field_text "run_id" identity)); ("parent_sha", PStr (field_text "connector_commit" identity));
          ("framework_sha", PStr framework_sha); ("mrts_sha", PStr (git (framework_sha +:+ ":tools/MRTS")))].

(** The directory a bundle path names below an absolute directory. *)
Definition below_root (root : abs_path) (value : string) : abs_path :=
  if starts_with "/" value then pure_path value
  else {| double := double root; parts := parts root ++ pure_parts value |}.
Definition strictly_below (root p : abs_path) : bool :=
  Bool.eqb (double root) (double p)
  && match relative_to (parts root) (parts p) with Some (_ :: _) => true | _ => false end.

Section ProtocolRecord.
Variables (sys : record_system) (sha256 : string -> string).

Definition verified_protocol_record_proof (raw case : pydict) (connector : string) (artifact_root : option abs_path)
    : res bundle_proof :=
  let unauthorised := refuse "protocol evidence requires declared NGINX operation and artifact authority" in
  if negb (String.eqb connector "nginx") then unauthorised
  else
    let* declared := invocation case in
    match declared, artifact_root with
    | Some _, Some root =>
        demand (eq_str (dict_get "status" raw) "PASS" && is_true (dict_get "live_executed" raw))
          "protocol proof cannot upgrade failed or unexecuted invocation" ;;;
        demand (eq_str (dict_get "integration_mode" raw) MODE)
          "protocol source integration mode differs from native authority" ;;;
        let* value := dict_item "protocol_bundle" raw in
        match value with
        | PStr value =>
            let bundle := below_root root value in
            demand (strictly_below root bundle) "protocol bundle escaped explicit source authority" ;;;
            let* digest := sha256_file sys (join_path bundle RECEIPT_FILE) in
            demand (eq_str (dict_get "protocol_receipt_sha256" raw) digest)
              "protocol receipt differs from sealed source" ;;;
            let* manifest := run_manifest sys root in
            let* identities :=
              match manifest with
              | None => Ok None
              | Some (PDict m) =>
                  let* run := dict_item "run_id" raw in
                  demand (py_eq (dict_get "run_id" m) run) "protocol bundle differs from canonical run identity" ;;;
                  Ok (Some (native_authority_expected_tuple (git_value sys) m))
              | Some _ => refuse "protocol bundle differs from canonical run identity"
              end in
            let* case_id := dict_item "case_id" case in
            let* run := dict_item "run_id" raw in
            validate_bundle (reader sys) bundle case_id run identities
        | _ => Err (TypeError "expected str, bytes or os.PathLike object")
        end
    | _, _ => unauthorised
    end.

Definition empty_semantics : pydict := mkdict (map (fun f => (f, PNone)) PHASE4_SEMANTIC_FIELDS).

(** The names of the fields of a mapping. *)
Definition key_names (d : pydict) : list string := map (fun p => py_str (fst p)) d.

Definition EVIDENCE_SOURCES : string :=
  "unchanged native-events.jsonl; client.json; access.jsonl; quic.json".

(** The record of what the reopened evidence proved, or of why it proved nothing. *)
Definition protocol_record (raw case : pydict) (connector status reason : string) (proof : option bundle_proof)
    : res pydict :=
  let native := match proof with Some p => matching_events p | None => [] end in
  let fields := sorted_names (concat (map key_names native)) in
  let* host := match proof with
               | Some p => let* run := dict_item "run_id" raw in
                           let* case_id := dict_item "case_id" case in
                           Ok (dict_update (facts p) [("run_id", run); ("transport_case_id", case_id);
                                                      ("integration_mode", PStr MODE)])
               | None => Ok []
               end in
  let* semantics := match native with
                    | event :: _ => let* (values, _) := semantic_runtime_fields [] (Some event) None in Ok values
                    | [] => Ok empty_semantics
                    end in
  let* expected := iterate (dict_get_or (PList []) "expected_event_fields" case) in
  let* case_id := dict_item "case_id" case in
  let proved := match proof with Some _ => true | None => false end in
  let d := {| bd_run_id := dict_get "run_id" raw; bd_integration_mode := PStr MODE;
              bd_observed_result := match proof with Some p => PStr (bundle_result p) | None => PNone end;
              bd_expected_status := dict_get "expected_status" case;
              bd_actual_status := match proof with Some p => PInt (bundle_status p) | None => PNone end;
              bd_expected_rule_id := dict_get "expected_rule_id" case;
              bd_observed_rule_ids := if proved && truthy (dict_get "expected_rule_id" case)
                                      then [dict_get "expected_rule_id" case] else [];
              bd_transaction_ids := match proof with
                                    | Some p => [PStr (fst (transactions p)); PStr (snd (transactions p))]
                                    | None => []
                                    end;
              bd_expected_fields := expected; bd_observed_event_fields := map PStr fields;
              bd_event_metadata_verified := proved; bd_semantic_values := semantics |} in
  let* record := build_normalized_case_record sha256 (dict_set "reason" (PStr reason) raw) case connector
                   (py_str case_id) status d in
  let record := dict_merge record host in
  let* bundle := dict_item "protocol_bundle" raw in
  Ok (dict_update record
        [("protocol_bundle", bundle); ("protocol_receipt_sha256", dict_get "protocol_receipt_sha256" raw);
         ("protocol_evidence_mapping", PDict (mkdict
           [("host_fields", PList (map PStr (sorted_names (key_names host))));
            ("native_fields", PList (map PStr fields)); ("source", PStr EVIDENCE_SOURCES)]))]).

Definition VERIFIED_REASON : string :=
  "verified unchanged native witness plus independent client/access/QUIC evidence".

Definition normalize_protocol_record (artifact_root : option abs_path) (raw case : pydict) (connector : string)
    : res pydict :=
  match verified_protocol_record_proof raw case connector artifact_root with
  | Ok proof => protocol_record raw case connector "PASS" VERIFIED_REASON (Some proof)
  | Err e => if evidence_exception e
             then protocol_record raw case connector "FAIL" (exception_text sys e) None else Err e
  end.
End ProtocolRecord.
