(* ===== verification/NginxProtocolTheorems.v ===== *)
(** * What a reopened protocol bundle proves *)

From S2P Require Export NginxProtocol CaseTheorems.
From S2P Require Import ObservationEvidence.
From Stdlib Require Import QArith.
#[global] Open Scope Z_scope.

(** ** Dictionary displays *)

Lemma put_key_text k v d : put_key (PStr k) v d = dict_set k v d.
Proof. induction d as [|[c w] d IH]; [done|]. cbn [put_key dict_set]. rewrite IH. by destruct c. Qed.

Lemma merge_display d l : dict_merge d (mkdict l) = dict_update d l.
Proof.
  unfold dict_merge, dict_update. revert d. induction l as [|[k v] l IH]; [done|]. intros d. cbn [mkdict map fold_left fst snd].
  rewrite put_key_text. apply IH.
Qed.

Lemma set_display k v l : ~ In k (map fst l) -> dict_set k v (mkdict l) = mkdict (l ++ [(k, v)]).
Proof.
  induction l as [|[c w] l IH]; [done|]. cbn [mkdict map fst app dict_set eq_str]. intros H.
  destruct (String.eqb_spec c k) as [->|]; [exfalso; apply H; by left|]. f_equal. apply IH. intros Hin. apply H. by right.
Qed.

Lemma update_display l e : List.NoDup (map fst (l ++ e)) -> dict_update (mkdict l) e = mkdict (l ++ e).
Proof.
  unfold dict_update. revert l. induction e as [|[k v] e IH]; intros l; [by rewrite app_nil_r|]. intros H.
  assert (Hk : ~ In k (map fst l)).
  { rewrite map_app in H. cbn in H. apply List.NoDup_remove_2 in H. intros Hin. apply H, in_or_app. by left. }
  cbn [fold_left]. rewrite set_display by done. rewrite IH; by rewrite <- app_assoc.
Qed.

Lemma find_updated k v l d : List.NoDup (map fst l) -> In (k, v) l -> dict_find k (dict_update d l) = Some v.
Proof.
  revert d. induction l as [|[c w] l IH]; [done|]. intros d. cbn [map fst]. inversion 1; subst. intros [[= -> ->]|Hin].
  - change (dict_find k (dict_update (dict_set k v d) l) = Some v). rewrite dict_find_update by done.
    by rewrite dict_find_set, String.eqb_refl.
  - by apply IH.
Qed.

Lemma display_In k v l : dict_find k (mkdict l) = Some v -> In (k, v) l.
Proof.
  induction l as [|[c w] l IH]; [done|]. rewrite dict_find_mkdict_cons. destruct (String.eqb_spec c k) as [->|].
  - intros [= ->]. by left.
  - intros H. right. by apply IH.
Qed.

Lemma display_find k v l : List.NoDup (map fst l) -> In (k, v) l -> dict_find k (mkdict l) = Some v.
Proof. intros H Hin. change l with ([] ++ l) at 1. rewrite <- (update_display [] l) by done. by apply find_updated. Qed.

(** ** Searching a text *)

(** A function that matches at the head consumes some of the text. *)
Definition consumes (at_head : chars -> option (chars * chars)) : Prop :=
  forall l m rest, at_head l = Some (m, rest) -> (List.length rest < List.length l)%nat.

Lemma findall_enough at_head : consumes at_head -> forall n l, (List.length l <= n)%nat ->
  findall_fuel n at_head l = findall_fuel (List.length l) at_head l.
Proof.
  intros Hc n l. remember (List.length l) as k eqn:Ek. revert n l Ek.
  induction (lt_wf k) as [k _ IH]. intros n l -> Hn. destruct l as [|c r]; [by destruct n|].
  destruct n as [|n]; [cbn in Hn; lia|]. cbn [findall_fuel List.length].
  destruct (at_head (c :: r)) as [[m rest]|] eqn:E.
  - pose proof (Hc _ _ _ E) as Hlt. cbn in Hlt, Hn. f_equal.
    rewrite (IH (List.length rest)), (IH (List.length rest) ltac:(cbn; lia) (List.length r) rest); try done; cbn; lia.
  - cbn in Hn. rewrite (IH (List.length r)); try done; cbn; lia.
Qed.

Lemma after_text_length t l r : after_text t l = Some r -> (List.length r <= List.length l)%nat.
Proof. unfold after_text. destruct (is_prefix _ _); [|done]. intros [= <-]. rewrite length_drop. lia. Qed.
Lemma drop_while_length p l : (List.length (drop_while p l) <= List.length l)%nat.
Proof. induction l as [|c l IH]; [done|]. cbn. destruct (p c); cbn; lia. Qed.
Lemma some_spaces_length l r : some_spaces l = Some r -> (List.length r < List.length l)%nat.
Proof.
  unfold some_spaces. destruct l as [|c l]; [done|]. destruct (is_space c); [|done]. intros [= <-].
  pose proof (drop_while_length is_space l). unfold spaces. cbn. lia.
Qed.
Lemma word_length l w r : word l = Some (w, r) -> (List.length r < List.length l)%nat.
Proof.
  unfold word. destruct l as [|c l]; [done|]. cbn [take_while]. destruct (negb (is_space c)) eqn:E; [|done].
  intros [= <- <-]. cbn. rewrite length_drop. lia.
Qed.

Ltac consumed :=
  repeat match goal with
  | H : after_text _ _ = Some _ |- _ => apply after_text_length in H; cbn [List.length] in H
  | H : some_spaces _ = Some _ |- _ => apply some_spaces_length in H; cbn [List.length] in H
  | H : word _ = Some _ |- _ => apply word_length in H; cbn [List.length] in H
  | H : context [List.length (spaces ?l)] |- _ =>
      lazymatch goal with _ : (List.length (spaces l) <= _)%nat |- _ => fail
      | _ => pose proof (drop_while_length is_space l : (List.length (spaces l) <= List.length l)%nat) end
  end; lia.

Lemma alpn_consumes : consumes alpn_at.
Proof.
  intros l m rest H. unfold alpn_at in H.
  destruct (after_text "ALPN" l) as [[|c r]|] eqn:E1; [done| |done]. destruct (char_in _ c); [|done].
  destruct (after_text "server accepted" _) as [r1|] eqn:E2; [|done]. destruct (some_spaces r1) as [r2|] eqn:E3; [|done].
  destruct (after_text "to use" r2) as [r3|] eqn:E4; [|destruct (word r2) as [[]|] eqn:E5; [injection H as _ <-|done]; consumed].
  destruct (some_spaces r3) as [r4|] eqn:E5; [|destruct (word r2) as [[]|] eqn:E6; [injection H as _ <-|done]; consumed].
  destruct (word r4) as [[w r5]|] eqn:E6; [injection H as _ <-; consumed|].
  destruct (word r2) as [[]|] eqn:E7; [injection H as _ <-|done]; consumed.
Qed.

Lemma stream_consumes : consumes stream_at.
Proof.
  intros l m rest H. unfold stream_at in H.
  destruct (after_text "[HTTP/" l) as [[|c r]|] eqn:E1; [done| |done]. destruct (char_in _ c); [|done].
  destruct (after_text "]" r) as [r1|] eqn:E2; [|done]. destruct (after_text "[" (spaces r1)) as [r2|] eqn:E3; [|done].
  destruct (take_while is_digit r2) as [|d ds] eqn:Ed; [done|].
  destruct (after_text "]" (drop _ r2)) as [r3|] eqn:E4; [|done].
  assert (Hd : (List.length (drop (List.length (d :: ds)) r2) <= List.length r2)%nat) by (rewrite length_drop; lia).
  generalize dependent (drop (List.length (d :: ds)) r2). intros r2' E4 Hd.
  destruct (after_text "OPENED stream" (spaces r3)) as [r4|] eqn:E5; [injection H as _ <-; consumed|].
  destruct (after_text ":method:" (spaces r3)) as [r4|] eqn:E6; [injection H as _ <-|done]; consumed.
Qed.

(** ** Reopened bytes *)

Lemma allM_true {A} (f : A -> res bool) l : allM f l = Ok true -> forall x, In x l -> f x = Ok true.
Proof.
  induction l as [|x l IH]; [done|]. cbn [allM]. destruct (f x) as [[]|] eqn:E; [|done|done].
  intros H y [<-|Hy]; [done|by apply IH].
Qed.

Lemma forM_all {A} (f : A -> res unit) l u : forM f l = Ok u -> forall x, In x l -> f x = Ok tt.
Proof.
  induction l as [|x l IH]; [done|]. cbn [forM]. destruct (f x) as [[]|] eqn:E; [|done].
  intros H y [<-|Hy]; [done|by apply IH].
Qed.

Section Bundle.
Variable sys : protocol_system.

Record reopened (root : abs_path) (case_id run_id : pyval) (identities : option pydict) (b : bundle_bytes) : Prop := {
  ro_receipt : read_leaf sys root RECEIPT_FILE = Ok (raw_receipt b) /\ loads sys (raw_receipt b) = Ok (PDict (receipt b));
  ro_identity : py_eq (dict_get "case_id" (receipt b)) case_id = true /\ py_eq (dict_get "run_id" (receipt b)) run_id = true /\
    dict_get "integration_mode" (receipt b) = PStr MODE;
  ro_revisions : forall key, In key ["parent_sha"; "framework_sha"; "mrts_sha"] ->
    matches SHA1_PATTERN (dict_get key (receipt b)) = true /\
    forall ids, identities = Some ids -> exists v, dict_find key ids = Some v /\ py_eq (dict_get key (receipt b)) v = true;
  ro_sources : forall key file, In (key, file) SOURCES -> exists bytes, source_bytes sys file = Ok bytes /\
    dict_get key (receipt b) = PStr (digest sys bytes);
  ro_leaves : forall leaf, In leaf LEAVES -> exists raw, leaf_bytes b leaf = Ok raw /\ read_leaf sys root leaf = Ok raw /\
    leaf_seal (receipt b) leaf = Ok (PStr (digest sys raw)) }.

Lemma read_entry root raws leaf : mapM (fun leaf => let* raw := read_leaf sys root leaf in Ok (leaf, raw)) LEAVES = Ok raws ->
  In leaf LEAVES -> exists raw, entry leaf raws = Some raw /\ read_leaf sys root leaf = Ok raw /\ In (leaf, raw) raws.
Proof.
  intros H. generalize dependent raws. generalize LEAVES. intros l. induction l as [|x l IH]; [done|]. cbn [mapM]. intros raws.
  destruct (read_leaf sys root x) as [raw|] eqn:E; [|done]. destruct (mapM _ l) as [rest|]; [|done].
  intros H Hin. apply Ok_inj in H as <-. cbn [entry]. destruct (String.eqb_spec x leaf) as [->|Hne].
  - exists raw. split; [done|]. split; [done|by left].
  - destruct Hin as [?|Hin]; [done|]. destruct (IH rest eq_refl Hin) as (r & ? & ? & ?). exists r. by repeat split; [..|right].
Qed.

Lemma bytes_reopened root case_id run_id identities b : verified_bundle_bytes sys root case_id run_id identities = Ok b ->
  (exists s o, case_id = PStr s /\ entry s CASES = Some o) /\ reopened root case_id run_id identities b.
Proof.
  unfold verified_bundle_bytes. destruct (operation_of case_id) as [o|] eqn:Eo; [|done].
  intros H. apply demand_then in H as [Ho H]. destruct o as [o|]; [|done].
  destruct (read_leaf sys root RECEIPT_FILE) as [rr|] eqn:Er; [|done]. destruct (loads sys rr) as [value|] eqn:El; [|done].
  destruct (mapping value) as [d|] eqn:Em; [|done]. assert (value = PDict d) as -> by (destruct value; try done; injection Em as ->; done).
  apply demand_then in H as [Hid H]. apply andb_true_iff in Hid as [Hid Hmode]. apply andb_true_iff in Hid as [Hcase Hrun].
  destruct (forM (revision_check d identities) _) as [u|] eqn:Erev; [|done].
  destruct (allM _ SOURCES) as [sources|] eqn:Es; [|done]. apply demand_then in H as [Hs H]. subst sources.
  apply demand_then in H as [_ H]. destruct (as_set _) as [seals|]; [|done]. apply demand_then in H as [_ H].
  destruct (mapM _ LEAVES) as [raws|] eqn:Eraws; [|done]. destruct (allM _ raws) as [sealed|] eqn:Eseal; [|done].
  apply demand_then in H as [Hsealed H]. subst sealed. apply Ok_inj in H as <-. split.
  { unfold operation_of in Eo. destruct case_id as [| | | |s| |]; try done. apply Ok_inj in Eo. by exists s, o. }
  constructor; cbn [raw_receipt receipt]; try done.
  - split; [done|]. split; [done|]. by apply eq_str_true.
  - intros key Hk. pose proof (forM_all _ _ _ Erev key Hk) as Hr. unfold revision_check in Hr.
    apply demand_then in Hr as [Hm Hr]. split; [done|]. intros ids ->. destruct (dict_item key ids) as [v|] eqn:Ev; [|done].
    apply dict_item_Ok in Ev. apply demand_Ok in Hr. by exists v.
  - intros key file Hin. pose proof (allM_true _ _ Es _ Hin) as Hf. cbn beta iota in Hf.
    destruct (source_bytes sys file) as [bytes|]; [|done]. exists bytes. split; [done|]. by apply Ok_inj, eq_str_true in Hf.
  - intros leaf Hl. destruct (read_entry _ _ _ Eraws Hl) as (raw & He & Hr & Hin). exists raw. unfold leaf_bytes. cbn [NginxProtocol.raws].
    rewrite He. split; [done|]. split; [done|]. pose proof (allM_true _ _ Eseal _ Hin) as Hf. cbn beta iota in Hf.
    destruct (leaf_seal d leaf) as [seal|]; [|done]. apply Ok_inj, eq_str_true in Hf. by subst.
Qed.

(** ** Access records and events *)

Lemma mapping_Ok v d : mapping v = Ok d -> v = PDict d.
Proof. destruct v; try done. cbn. congruence. Qed.

(** An access record of a request of the run. *)
Record accessed (protocol : string) (run_id path : pyval) (expected : Z) (row : pyval) (t : string) : Prop := {
  as_row : exists access, row = PDict access /\ py_eq (dict_get "uri" access) path = true /\
    eq_int (dict_get "status" access) expected = true /\ dict_get "protocol" access = PStr (http_name protocol) /\
    dict_get "alpn" access = PStr protocol /\ dict_get "transaction_id" access = PStr t;
  as_run : exists run, run_id = PStr run /\ starts_with (run +:+ "-") t = true }.

Lemma access_Ok protocol run_id path expected row t : access_transaction protocol run_id path expected row = Ok t ->
  accessed protocol run_id path expected row t.
Proof.
  unfold access_transaction. destruct (mapping row) as [access|] eqn:Em; [|done]. apply mapping_Ok in Em as ->.
  intros H. apply demand_then in H as [Hc H]. repeat (apply andb_true_iff in Hc as [Hc ?]).
  destruct (dict_get "transaction_id" access) as [| | | |s| |] eqn:Et; try done. destruct run_id as [| | | |run| |]; try done.
  apply demand_then in H as [Hr H]. apply Ok_inj in H as <-. constructor; [|by exists run].
  exists access. repeat split; try done; by apply eq_str_true.
Qed.

Lemma transactions_Ok rows observed protocol status run_id a b :
  access_transactions rows observed protocol status run_id = Ok (a, b) -> a <> b /\
  exists allow contract_row, rows = [allow; contract_row] /\ accessed protocol run_id (PStr ALLOW_PATH) 200 allow a /\
    accessed protocol run_id (dict_get "request_path" observed) status contract_row b.
Proof.
  unfold access_transactions. destruct rows as [|x [|y [|]]]; try done.
  destruct (access_transaction _ _ _ _ x) as [first|] eqn:E1; [|done].
  destruct (access_transaction _ _ _ _ y) as [second|] eqn:E2; [|done]. intros H. apply demand_then in H as [Hd H].
  injection H as -> ->. apply negb_true_iff, String.eqb_neq in Hd. split; [done|]. exists x, y. split; [done|].
  split; by apply access_Ok.
Qed.

Lemma filterM_In {A} (f : A -> res bool) l l' x : filterM f l = Ok l' -> In x l' -> In x l /\ f x = Ok true.
Proof.
  unfold filterM. destruct (mapM _ l) as [ls|] eqn:E; [|done]. intros H Hx. apply Ok_inj in H as <-.
  eapply concat_mapM_In in Hx as (a & b & Ha & Hb & Hx); [|exact E]. cbv beta in Hb.
  destruct (f a) as [[]|] eqn:Ef; [| |done]; apply Ok_inj in Hb as <-; [|done]. by destruct Hx as [<-|[]].
Qed.

Lemma mapping_rows rows native row : mapM mapping rows = Ok native -> In row native -> In (PDict row) rows.
Proof.
  intros H Hin. apply mapM_Ok_Forall2 in H. induction H as [|v d rows native Hv _ IH]; [done|].
  destruct Hin as [<-|Hin]; [left; by apply mapping_Ok|right; by apply IH].
Qed.

(** The native event that allowed a request of a transaction. *)
Definition allowed_by (native : list pyval) (transaction : string) (path run_id case_id : pyval) (row : pydict) : Prop :=
  In (PDict row) native /\ own_event transaction run_id case_id row = true /\
  py_eq (dict_get "uri" row) path = true /\ dict_get "requested_action" row = PStr "allow" /\
  dict_get "event" row = PStr "request_headers_complete".

Lemma allow_In rows native transaction path run_id case_id row : mapM mapping rows = Ok native ->
  In row (original_allow native transaction path run_id case_id) -> allowed_by rows transaction path run_id case_id row.
Proof.
  intros Hm H. unfold original_allow in H. apply filter_In in H as [Hin Hc].
  do 6 (apply andb_true_iff in Hc as [Hc ?]). unfold allowed_by.
  repeat split; try done; first [by eapply mapping_rows|by apply eq_str_true].
Qed.

(** A native event that witnesses the outcome of the operation. *)
Definition witnessed_by (native : list pyval) (o : operation) (transaction : string) (path run_id case_id : pyval)
    (row : pydict) : Prop :=
  match op_rule o with
  | None => allowed_by native transaction path run_id case_id row
  | Some rule =>
      In (PDict row) native /\ own_event transaction run_id case_id row = true /\
      py_str (dict_get "rule_id" row) = dec rule /\ of_phase (op_phase o) (dict_get "phase" row) = true /\
      intervention_matches row (op_phase o) path = Ok true
  end.

Lemma witness_Ok rows transactions observed case_id run_id o matching :
  native_semantic_witness rows transactions observed case_id run_id o = Ok matching -> matching <> [] /\
  (exists row, allowed_by rows (fst transactions) (PStr ALLOW_PATH) run_id case_id row) /\
  (exists row, In (PDict row) rows /\ own_event (snd transactions) run_id case_id row = true /\
     py_eq (dict_get "uri" row) (dict_get "request_path" observed) = true) /\
  (forall row, In row matching -> witnessed_by rows o (snd transactions) (dict_get "request_path" observed) run_id case_id row).
Proof.
  unfold native_semantic_witness. destruct (mapM mapping rows) as [native|] eqn:Em; [|done]. intros H.
  apply demand_then in H as [Ha H]. apply demand_then in H as [Hu H].
  destruct (match op_rule o with None => _ | Some _ => _ end) as [m|] eqn:Er; [|done]. apply demand_then in H as [Hn H].
  apply Ok_inj in H as <-. split; [by destruct m|]. split; [|split].
  - destruct (original_allow native (fst transactions) _ _ _) as [|row l] eqn:E; [done|]. exists row.
    eapply allow_In; [exact Em|]. rewrite E. by left.
  - apply existsb_exists in Hu as (row & Hin & Hp). apply filter_In in Hin as [Hin Ho]. exists row.
    split; [by eapply mapping_rows|]. by split.
  - intros row Hin. unfold witnessed_by. destruct (op_rule o) as [rule|].
    + destruct (filterM_In _ _ _ _ Er Hin) as [Hf Hm]. apply filter_In in Hf as [Hf Hc]. apply filter_In in Hf as [Hf Hown].
      apply andb_true_iff in Hc as [Hr Hp]. apply String.eqb_eq in Hr. split; [by eapply mapping_rows|]. by repeat split.
    + apply Ok_inj in Er as <-. by eapply allow_In.
Qed.

(** ** Facts *)

Definition protocol_transport (protocol : string) : string := if String.eqb protocol "h3" then "quic_udp" else "tls_tcp".

(** The facts of a bundle, in order. *)
Definition FACT_FIELDS (protocol : string) : list string :=
  ["requested_protocol"; "downstream_protocol"; "negotiated_protocol"; "client_alpn_observed"; "client_alpn";
   "stream_id"; "transport"; "fallback_used"; "alpn"; "alpn_source"]
  ++ if String.eqb protocol "h3" then ["quic_connection_id_present"; "quic_version"] else [].

Lemma fact_fields_distinct protocol : List.NoDup (FACT_FIELDS protocol).
Proof. apply str_nodup_NoDup. unfold FACT_FIELDS. by destruct (String.eqb protocol "h3"). Qed.

Lemma client_fact_shape raw protocol f : client_facts raw protocol = Ok f ->
  exists l, f = mkdict l /\ map fst l = take 8 (FACT_FIELDS protocol).
Proof.
  unfold client_facts. cbv zeta. destruct (dict_get_or _ "trace" raw); try done. intros H.
  do 6 (apply demand_then in H as [_ H]). apply Ok_inj in H as <-. eexists. split; [reflexivity|]. done.
Qed.

Lemma client_Facts raw protocol f : client_facts raw protocol = Ok f ->
  eq_int (dict_get "exit_code" raw) 0 = true /\ exists trace stream rest,
  dict_get_or (PStr "") "trace" raw = PStr trace /\ findall stream_at trace = stream :: rest /\
  (forall s, In s rest -> s = stream) /\ (forall s, In s (findall alpn_at trace) -> s = protocol) /\
  dict_find "negotiated_protocol" f = Some (PStr protocol) /\ dict_find "requested_protocol" f = Some (PStr protocol) /\
  dict_find "downstream_protocol" f = Some (PStr protocol) /\ dict_find "fallback_used" f = Some (PBool false) /\
  dict_find "transport" f = Some (PStr (protocol_transport protocol)) /\
  dict_find "stream_id" f = Some (PInt (int_of_digits 10 (S2L stream))).
Proof.
  unfold client_facts. cbv zeta. destruct (dict_get_or _ "trace" raw) as [| | | |trace| |]; try done. intros H.
  apply demand_then in H as [_ H]. apply demand_then in H as [Hn H]. apply demand_then in H as [Ha H].
  apply demand_then in H as [Hs H]. apply demand_then in H as [He H]. apply demand_then in H as [_ H]. apply Ok_inj in H as <-. split; [done|].
  destruct (findall stream_at trace) as [|s rest] eqn:Es; [done|]. exists trace, s, rest. unfold same_texts in Ha, Hs.
  rewrite forallb_forall in Ha, Hs. split; [done|]. split; [done|].
  split; [intros x Hx; symmetry; by apply String.eqb_eq, Hs|]. split; [intros x Hx; symmetry; by apply String.eqb_eq, Ha|].
  revert Hn. destruct (String.eqb _ "2"); [|destruct (String.eqb _ "3"); [|done]]; intros <-%String.eqb_eq; done.
Qed.

(** Datagrams of both directions, with hashed identifiers. *)
Definition quic_observed (quic : pyval) : Prop :=
  exists d packets, quic = PDict d /\ iterate (dict_get_or (PList []) "datagrams" d) = Ok (map PDict packets) /\
  (forall direction, In direction ["request"; "response"] -> exists p, In p packets /\ dict_get "direction" p = PStr direction) /\
  (forall p, In p packets -> packet_identified p = Ok true).

Lemma mapping_all values packets : mapM mapping values = Ok packets -> values = map PDict packets.
Proof.
  intros H. apply mapM_Ok_Forall2 in H. induction H as [|v d vs ds Hv _ IH]; [done|]. apply mapping_Ok in Hv as ->.
  cbn. by rewrite IH.
Qed.

Lemma quic_Ok f quic protocol f' : add_quic_facts f quic protocol = Ok f' ->
  (protocol <> "h3" -> f' = f) /\
  (protocol = "h3" -> quic_observed quic /\ exists version,
     f' = dict_update f [("quic_connection_id_present", PBool true); ("quic_version", version)]).
Proof.
  unfold add_quic_facts. destruct (String.eqb_spec protocol "h3") as [->|Hne].
  2: { intros H. apply Ok_inj in H as <-. by split. }
  destruct (mapping quic) as [d|] eqn:Eq; [|done]. apply mapping_Ok in Eq as ->.
  destruct (iterate _) as [values|] eqn:Ei; [|done]. destruct (mapM mapping values) as [packets|] eqn:Em; [|done].
  apply mapping_all in Em as ->. destruct (forallb hashable _); [|done]. intros H. apply demand_then in H as [Hd H].
  destruct (allM packet_identified packets) as [idd|] eqn:Ea; [|done]. apply demand_then in H as [Hi H]. subst idd.
  split; [done|]. intros _. unfold set_eqb in Hd. apply andb_true_iff in Hd as [_ Hd]. rewrite forallb_forall in Hd.
  assert (Hdir : forall direction, In direction ["request"; "response"] ->
    exists p, In p packets /\ dict_get "direction" p = PStr direction).
  { intros s Hs. specialize (Hd s Hs). apply existsb_exists in Hd as (v & Hv & E). apply eq_str_true in E as ->.
    apply in_map_iff in Hv as (p & Hv & Hp). by exists p. }
  destruct packets as [|p packets]; [done|]. destruct (dict_item "quic_version" p) as [version|]; [|done].
  apply Ok_inj in H as <-. split; [|by exists version]. exists d, (p :: packets). split; [done|]. split; [done|]. split; [done|]. by apply allM_true.
Qed.

(** ** The proof of a bundle *)

(** What a reopened bundle proves of one operation of one run. *)
Record proved (root : abs_path) (case_id : string) (run_id : pyval) (identities : option pydict) (o : operation)
    (p : bundle_proof) : Prop := {
  pv_operation : entry case_id CASES = Some o;
  pv_reopened : reopened root (PStr case_id) run_id identities (proof_bytes p);
  pv_result : bundle_status p = op_status o /\ bundle_result p = RESULTS case_id;
  pv_observed : exists observed client, leaf_value sys (proof_bytes p) "observation.json" = Ok (PDict observed) /\
    leaf_value sys (proof_bytes p) "client.json" = Ok (PDict client) /\
    eq_int (dict_get "actual_status" observed) (op_status o) = true /\
    eq_int (dict_get "http_code" client) (op_status o) = true /\ eq_int (dict_get "exit_code" client) 0 = true /\
    (exists allow contract_row, leaf_lines sys (proof_bytes p) "access.jsonl" = Ok [allow; contract_row] /\
       accessed (op_protocol o) run_id (PStr ALLOW_PATH) 200 allow (fst (transactions p)) /\
       accessed (op_protocol o) run_id (dict_get "request_path" observed) (op_status o) contract_row (snd (transactions p))) /\
    matching_events p <> [] /\
    (forall row, In row (matching_events p) -> witnessed_by (native_events p) o (snd (transactions p))
                                                 (dict_get "request_path" observed) run_id (PStr case_id) row);
  pv_distinct : fst (transactions p) <> snd (transactions p);
  pv_native : leaf_lines sys (proof_bytes p) "native-events.jsonl" = Ok (native_events p);
  pv_allowed : exists row, allowed_by (native_events p) (fst (transactions p)) (PStr ALLOW_PATH) run_id (PStr case_id) row;
  pv_cleanup : exists cleanup, leaf_value sys (proof_bytes p) "cleanup.json" = Ok (PDict cleanup) /\
    dict_get "verified" cleanup = PBool true /\ dict_get "udp_listener_open" cleanup = PBool false;
  pv_facts : dict_find "negotiated_protocol" (facts p) = Some (PStr (op_protocol o)) /\
    dict_find "alpn" (facts p) = Some (PStr (op_protocol o)) /\
    dict_find "transport" (facts p) = Some (PStr (protocol_transport (op_protocol o))) /\
    dict_find "fallback_used" (facts p) = Some (PBool false);
  pv_shape : exists l, facts p = mkdict l /\ map fst l = FACT_FIELDS (op_protocol o);
  pv_quic : op_protocol o = "h3" -> exists quic, leaf_value sys (proof_bytes p) "quic.json" = Ok quic /\ quic_observed quic }.

Lemma bundle_proved root case_id run_id identities p : validate_bundle sys root case_id run_id identities = Ok p ->
  exists s o, case_id = PStr s /\ proved root s run_id identities o p.
Proof.
  unfold validate_bundle. destruct (verified_bundle_bytes _ _ _ _ _) as [b|] eqn:Eb; [|done].
  destruct (bytes_reopened _ _ _ _ _ Eb) as ((s & o & -> & Ho) & Hre).
  destruct (leaf_value sys b "observation.json") as [observation|] eqn:E1; [|done].
  destruct (leaf_value sys b "client.json") as [client|] eqn:E2; [|done].
  destruct (leaf_value sys b "quic.json") as [quic|] eqn:E3; [|done].
  destruct (leaf_value sys b "cleanup.json") as [cleanup|] eqn:E4; [|done].
  destruct (leaf_value sys b ROLES_FILE) as [roles|] eqn:E5; [|done]. cbn [operation_of]. rewrite Ho.
  destruct (mapping observation) as [obs|] eqn:M1; [|done]. apply mapping_Ok in M1 as ->. intros H.
  apply demand_then in H as [_ H]. apply demand_then in H as [_ H].
  destruct (mapping client) as [cl|] eqn:M2; [|done]. apply mapping_Ok in M2 as ->.
  destruct (client_facts cl _) as [f|] eqn:Ef; [|done]. apply demand_then in H as [Hw H]. apply andb_true_iff in Hw as [Hw1 Hw2].
  destruct (leaf_lines sys b "access.jsonl") as [rows|] eqn:Er; [|done].
  destruct (access_transactions _ _ _ _ _) as [[t1 t2]|] eqn:Et; [|done].
  destruct (mapping roles); [|done]. apply demand_then in H as [_ H].
  destruct (mapping cleanup) as [cu|] eqn:M4; [|done]. apply mapping_Ok in M4 as ->.
  apply demand_then in H as [Hcu H]. apply andb_true_iff in Hcu as [Hcu1%is_true_eq Hcu2%is_false_eq].
  destruct (leaf_lines sys b "native-events.jsonl") as [native|] eqn:En; [|done].
  destruct (native_semantic_witness _ _ _ _ _ _) as [matching|] eqn:Ew; [|done]. apply demand_then in H as [_ H].
  destruct (add_quic_facts _ quic _) as [f'|] eqn:Eq; [|done]. apply Ok_inj in H as <-. exists s, o. split; [done|].
  destruct (client_Facts _ _ _ Ef) as (Hexit & trace & stream & rest & _ & _ & _ & _ & F1 & _ & _ & F2 & F3 & _).
  destruct (transactions_Ok _ _ _ _ _ _ _ Et) as (Hd & allow & crow & -> & A1 & A2).
  destruct (witness_Ok _ _ _ _ _ _ _ Ew) as (Hm & Ha & _ & Hall). destruct (quic_Ok _ _ _ _ Eq) as [Q1 Q2].
  assert (G : forall k v, In k ["negotiated_protocol"; "alpn"; "transport"; "fallback_used"] ->
    dict_find k (dict_update f [("alpn", PStr (op_protocol o)); ("alpn_source", PStr "nginx_access_ssl_alpn_protocol")]) = Some v ->
    dict_find k f' = Some v).
  { intros k v Hk Hv. destruct (String.eqb_spec (op_protocol o) "h3") as [E|E]; [|by rewrite (Q1 E)].
    destruct (Q2 E) as (_ & version & ->). rewrite dict_find_update; [done|]. cbn in Hk |- *. intuition congruence. }
  constructor; cbn [facts transactions native_events bundle_result matching_events bundle_status proof_bytes fst snd]; try done.
  - exists obs, cl. repeat (split; [done|]). split; [by exists allow, crow|]. by split.
  - by exists cu.
  - repeat split; (apply G; [cbn; tauto|]); unfold dict_update; cbn [fold_left fst snd]; by rewrite !dict_find_set.
  - destruct (client_fact_shape _ _ _ Ef) as (l & -> & Hl).
    set (l2 := [("alpn", PStr (op_protocol o)); ("alpn_source", PStr "nginx_access_ssl_alpn_protocol")]) in *.
    assert (U : dict_update (mkdict l) l2 = mkdict (l ++ l2)).
    { apply update_display. rewrite map_app, Hl. by apply str_nodup_NoDup. }
    destruct (String.eqb_spec (op_protocol o) "h3") as [E|E].
    + destruct (Q2 E) as (_ & version & ->). rewrite U, update_display.
      * eexists. split; [done|]. rewrite !map_app, Hl. unfold FACT_FIELDS. by rewrite E.
      * rewrite !map_app, Hl. by apply str_nodup_NoDup.
    + rewrite (Q1 E), U. exists (l ++ l2). split; [done|]. rewrite map_app, Hl. unfold FACT_FIELDS.
      apply String.eqb_neq in E. by rewrite E.
  - intros E. exists quic. split; [done|]. by apply Q2.
Qed.
End Bundle.

(** * A QUIC datagram is read by its headers alone (nginx_protocol.py)

    [quic_datagram] reports an observed frame.  It reads the Ethernet, IPv4, UDP and QUIC
    long headers; the payload behind them changes nothing. *)

(** Two byte strings with the same length and the same first bytes. *)
Definition agree (n : nat) (l l' : chars) : Prop := take n l = take n l' /\ List.length l = List.length l'.

Lemma agree_drop n k l l' : agree n l l' -> agree (n - k) (drop k l) (drop k l').
Proof.
  intros [Ht Hl]. split; [|by rewrite !length_drop, Hl]. destruct (decide (k <= n)%nat).
  - rewrite !take_drop_commute. replace (k + (n - k))%nat with n by lia. by rewrite Ht.
  - replace (n - k)%nat with 0%nat by lia. done.
Qed.

Lemma agree_slice n i k l l' : agree n l l' -> (i + k <= n)%nat -> slice i k l = slice i k l'.
Proof.
  intros [Ht _] Hn. unfold slice. rewrite !take_drop_commute. f_equal.
  rewrite <- (Nat.min_l (i + k) n), <- !take_take by lia. by rewrite Ht.
Qed.

Lemma agree_byte n i l l' : agree n l l' -> (i < n)%nat -> byte_at i l = byte_at i l'.
Proof.
  intros Ha Hi. pose proof (agree_slice n i 1 l l' Ha ltac:(lia)) as Hs. unfold slice in Hs. unfold byte_at.
  destruct (drop i l), (drop i l'); cbn in Hs; try done. by injection Hs as ->.
Qed.

(** The lengths of the headers of a frame. *)
Definition ip_header (frame : chars) : nat := Z.to_nat (Z.land (byte_at 0 (drop 14 frame)) 15 * 4).
Definition quic_bytes (frame : chars) : chars := drop 8 (drop (ip_header frame) (drop 14 frame)).
Definition connection_id_of (frame : chars) : chars :=
  slice 6 (Z.to_nat (byte_at 5 (quic_bytes frame))) (quic_bytes frame).
Definition headers (frame : chars) : nat :=
  (14 + ip_header frame + 8 + 6 + Z.to_nat (byte_at 5 (quic_bytes frame)))%nat.

(** The report of a frame. *)
Lemma datagram_inv digest frame port report : quic_datagram digest frame port = Some report ->
  (20 <= ip_header frame)%nat /\ (headers frame <= List.length frame)%nat /\
  1 <= byte_at 5 (quic_bytes frame) <= 20 /\
  exists destination, report = quic_report digest destination port (big_endian (slice 1 4 (quic_bytes frame)))
    (connection_id_of frame) (blen (drop (ip_header frame) (drop 14 frame))).
Proof.
  unfold quic_datagram. cbv zeta. fold (ip_header frame). fold (quic_bytes frame).
  destruct (_ || _) eqn:E1; [done|].
  destruct (_ || _) eqn:E2 in |- *; [done|]. destruct (negb _) eqn:E3 in |- *; [done|].
  destruct (_ || _) eqn:E4 in |- *; [done|]. destruct (_ || _) eqn:E5 in |- *; [done|]. intros [= <-].
  repeat match goal with H : _ || _ = false |- _ => apply orb_false_iff in H as [? ?] end.
  repeat match goal with H : Nat.ltb _ _ = false |- _ => apply Nat.ltb_ge in H end.
  match goal with H : negb (_ && _) = false |- _ => apply negb_false_iff, andb_true_iff in H as [Hl1%Z.leb_le Hl2%Z.leb_le] end.
  match goal with H : (blen _ <? 7 + _) = false |- _ => apply Z.ltb_ge in H as Hb end.
  split; [done|]. split; [|split; [done|]].
  - unfold headers. assert (Hq : List.length (quic_bytes frame) = (List.length frame - 14 - ip_header frame - 8)%nat)
      by (unfold quic_bytes; rewrite !length_drop; lia).
    unfold blen in Hb. rewrite Hq in Hb. lia.
  - unfold connection_id_of. eexists. reflexivity.
Qed.

(** A frame is reported by its headers alone: its report names the direction, the
    version, the size and the digest of a connection identifier of one to twenty bytes,
    all within the headers, and any other payload of the same size gives the same report. *)
Theorem quic_payload_unread digest frame port report : quic_datagram digest frame port = Some report ->
  (headers frame <= List.length frame)%nat /\ (1 <= List.length (connection_id_of frame) <= 20)%nat /\
  (exists destination version size, report = quic_report digest destination port version (connection_id_of frame) size) /\
  forall payload, List.length payload = (List.length frame - headers frame)%nat ->
    quic_datagram digest (take (headers frame) frame ++ payload) port = Some report.
Proof.
  intros H. destruct (datagram_inv _ _ _ _ H) as (Hi & Hh & Hc & destination & Hr). split; [done|].
  assert (Hq : List.length (quic_bytes frame) = (List.length frame - 14 - ip_header frame - 8)%nat)
    by (unfold quic_bytes; rewrite !length_drop; lia).
  split. { unfold connection_id_of, slice. rewrite length_take, length_drop, Hq. unfold headers in Hh. lia. }
  split; [rewrite Hr; by eexists _, _, _|]. intros payload Hp.
  set (frame' := take (headers frame) frame ++ payload).
  assert (A : agree (headers frame) frame' frame).
  { unfold frame'. split.
    - rewrite take_app_le by (rewrite length_take; lia). by rewrite take_take, Nat.min_id.
    - rewrite length_app, length_take, Hp. lia. }
  assert (A1 := agree_drop _ 14 _ _ A). assert (A2 := agree_drop _ (ip_header frame) _ _ A1).
  assert (A3 := agree_drop _ 8 _ _ A2). fold (quic_bytes frame) in A3.
  assert (Hn : (headers frame - 14 - ip_header frame - 8 = 6 + Z.to_nat (byte_at 5 (quic_bytes frame)))%nat)
    by (unfold headers; lia).
  assert (B1 : byte_at 0 (drop 14 frame') = byte_at 0 (drop 14 frame)) by (apply (agree_byte _ _ _ _ A1); unfold headers; lia).
  rewrite <- H. unfold quic_datagram. cbv zeta. unfold blen. rewrite B1. fold (ip_header frame). fold (quic_bytes frame).
  rewrite (proj2 A), (proj2 A1), (proj2 A2), (proj2 A3).
  rewrite (agree_slice _ 12 2 _ _ A), (agree_byte _ 9 _ _ A1), (agree_slice _ 12 4 _ _ A1), (agree_slice _ 16 4 _ _ A1),
    (agree_slice _ 6 2 _ _ A1), (agree_slice _ 0 2 _ _ A2), (agree_slice _ 2 2 _ _ A2) by (unfold headers; lia).
  rewrite (agree_byte _ 0 _ _ A3), (agree_byte _ 5 _ _ A3), (agree_slice _ 1 4 _ _ A3),
    (agree_slice _ 6 (Z.to_nat (byte_at 5 (quic_bytes frame))) _ _ A3) by lia. reflexivity.
Qed.

(** A client Initial on the loopback interface, with a payload of four bytes. *)
Definition demo_frame (payload : list Z) : chars := map chr
  ([0; 0; 0; 0; 0; 0; 0; 0; 0; 0; 0; 0; 8; 0]
   ++ [69; 0; 0; 41; 0; 0; 0; 0; 64; 17; 0; 0; 127; 0; 0; 1; 127; 0; 0; 1]
   ++ [195; 80; 32; 251; 0; 21; 0; 0]
   ++ [192; 0; 0; 0; 1; 2; 7; 9] ++ payload).
Definition demo_report : pydict :=
  quic_report (fun c => L2S (concat (map (fun b => hex_digits 2 (ord b)) c))) 8443 8443 1 (map chr [7; 9]) 20.

Lemma quic_payload_unread_witness :
  demo_report = mkdict [("direction", PStr "request"); ("quic_version", PStr "0x00000001");
                        ("connection_id", PStr "sha256:0709"); ("udp_bytes", PInt 20)] /\
  quic_datagram (fun c => L2S (concat (map (fun b => hex_digits 2 (ord b)) c))) (demo_frame [5; 6; 7; 8]) 8443
  = Some demo_report.
Proof.
  split; [vm_compute; reflexivity|].
  destruct (quic_payload_unread (fun c => L2S (concat (map (fun b => hex_digits 2 (ord b)) c))) (demo_frame [1; 2; 3; 4]) 8443
    demo_report ltac:(vm_compute; reflexivity)) as (_ & _ & _ & H).
  exact (H (map chr [5; 6; 7; 8]) ltac:(vm_compute; reflexivity)).
Defined.
