(* ===== verification/ProtocolRecordTheorems.v ===== *)
(** * What the record of a protocol bundle asserts *)

From S2P Require Export ProtocolRecord NginxProtocolTheorems.
From S2P Require Import ObservationEvidence CaseTheorems CasePass.
From Stdlib Require Import QArith.
#[global] Open Scope Z_scope.

(** ** The record *)

Section Record.
Variables (sys : record_system) (sha256 : string -> string).

Abbreviation normalize := (normalize_protocol_record sys sha256).
Abbreviation record_proof := (verified_protocol_record_proof sys).

(** The fields that the reader of the bundle adds last. *)
Definition PROVENANCE : list string := ["protocol_bundle"; "protocol_receipt_sha256"; "protocol_evidence_mapping"].
(** The fields of the identity, after the facts. *)
Definition HOST_IDENTITY : list string := ["run_id"; "transport_case_id"; "integration_mode"].

Lemma host_distinct protocol : List.NoDup (FACT_FIELDS protocol ++ HOST_IDENTITY).
Proof. apply str_nodup_NoDup. unfold FACT_FIELDS. by destruct (String.eqb protocol "h3"). Qed.

Lemma host_apart protocol k : In k (FACT_FIELDS protocol ++ HOST_IDENTITY) -> ~ In k PROVENANCE.
Proof.
  unfold FACT_FIELDS. destruct (String.eqb protocol "h3"); cbn; intuition congruence.
Qed.

(** The record of a proof whose facts are those of a protocol. *)
Record recorded (raw case : pydict) (connector status : string) (p : bundle_proof) (protocol : string)
    (record : pydict) : Prop := {
  rc_run : exists run, dict_find "run_id" raw = Some run /\ dict_find "run_id" record = Some run;
  rc_case : exists id, dict_find "case_id" case = Some id /\ dict_find "transport_case_id" record = Some id;
  rc_mode : dict_find "integration_mode" record = Some (PStr MODE);
  rc_facts : forall k, In k (FACT_FIELDS protocol) -> dict_find k record = dict_find k (facts p);
  rc_bundle : exists b, dict_find "protocol_bundle" raw = Some b /\ dict_find "protocol_bundle" record = Some b;
  rc_receipt : dict_find "protocol_receipt_sha256" record = Some (dict_get "protocol_receipt_sha256" raw);
  rc_status : dict_find "status" record = Some (PStr status);
  rc_live : dict_find "live_executed" record = Some (PBool (is_true (dict_get "live_executed" raw)));
  rc_connector : dict_find "connector" record = Some (PStr connector);
  rc_actual : dict_find "actual_status" record = Some (PInt (bundle_status p));
  rc_result : dict_find "observed_result" record = Some (PStr (bundle_result p)) }.

(** The details of a proof. *)
Definition proof_details (raw case : pydict) (p : bundle_proof) (expected : list pyval) (semantics : pydict) : built_details :=
  {| bd_run_id := dict_get "run_id" raw; bd_integration_mode := PStr MODE; bd_observed_result := PStr (bundle_result p);
     bd_expected_status := dict_get "expected_status" case; bd_actual_status := PInt (bundle_status p);
     bd_expected_rule_id := dict_get "expected_rule_id" case;
     bd_observed_rule_ids := if truthy (dict_get "expected_rule_id" case) then [dict_get "expected_rule_id" case] else [];
     bd_transaction_ids := [PStr (fst (transactions p)); PStr (snd (transactions p))]; bd_expected_fields := expected;
     bd_observed_event_fields := map PStr (sorted_names (concat (map key_names (matching_events p))));
     bd_event_metadata_verified := true; bd_semantic_values := semantics |}.

Lemma semantics_keys (native : list pydict) semantics :
  match native with
  | event :: _ => let* (values, _) := semantic_runtime_fields [] (Some event) None in Ok values
  | [] => Ok empty_semantics
  end = Ok semantics -> map fst semantics = map PStr PHASE4_SEMANTIC_FIELDS.
Proof.
  destruct native as [|event l]; [by intros [= <-]|].
  destruct (semantic_projection [] (Some event) None) as (values & errors & -> & Hk & _). by intros [= <-].
Qed.

Lemma record_inv raw case connector status reason p protocol l record : facts p = mkdict l ->
  map fst l = FACT_FIELDS protocol -> protocol_record sha256 raw case connector status reason (Some p) = Ok record ->
  exists run id bundle expected semantics base mapping,
    dict_find "run_id" raw = Some run /\ dict_find "case_id" case = Some id /\ dict_find "protocol_bundle" raw = Some bundle /\
    map fst semantics = map PStr PHASE4_SEMANTIC_FIELDS /\
    build_normalized_case_record sha256 (dict_set "reason" (PStr reason) raw) case connector (py_str id) status
      (proof_details raw case p expected semantics) = Ok base /\
    record = dict_update (dict_update base (l ++ [("run_id", run); ("transport_case_id", id); ("integration_mode", PStr MODE)]))
      [("protocol_bundle", bundle); ("protocol_receipt_sha256", dict_get "protocol_receipt_sha256" raw);
       ("protocol_evidence_mapping", mapping)].
Proof.
  intros Hf Hl. unfold protocol_record. cbv zeta.
  destruct (dict_item "run_id" raw) as [run|] eqn:Er; [|done]. destruct (dict_item "case_id" case) as [id|] eqn:Ec; [|done].
  destruct (match matching_events p with [] => _ | _ :: _ => _ end) as [semantics|] eqn:Es; [|done].
  destruct (iterate _) as [expected|]; [|done].
  destruct (build_normalized_case_record _ _ _ _ _ _ _) as [base|] eqn:Eb; [|done].
  destruct (dict_item "protocol_bundle" raw) as [bundle|] eqn:Ep; [|done]. intros H. apply Ok_inj in H.
  apply dict_item_Ok in Er, Ec, Ep. apply semantics_keys in Es. rewrite Hf, update_display, merge_display in H.
  - exists run, id, bundle, expected, semantics, base. eexists. repeat (split; [done|]). symmetry. exact H.
  - rewrite map_app, Hl. exact (host_distinct protocol).
Qed.

(** A field that neither the host nor the reader adds. *)
Lemma own_field protocol k : In k ["status"; "live_executed"; "connector"; "actual_status"; "observed_result"] ->
  In k OWN_FIELDS /\ ~ In k (FACT_FIELDS protocol ++ HOST_IDENTITY) /\ ~ In k PROVENANCE.
Proof.
  intros Hk. split; [cbn in Hk |- *; tauto|]. unfold FACT_FIELDS.
  split; destruct (String.eqb protocol "h3"); cbn in Hk |- *; intuition congruence.
Qed.

Lemma recorded_proof raw case connector status reason p protocol l record : facts p = mkdict l ->
  map fst l = FACT_FIELDS protocol -> protocol_record sha256 raw case connector status reason (Some p) = Ok record ->
  recorded raw case connector status p protocol record.
Proof.
  intros Hf Hl H. destruct (record_inv _ _ _ _ _ _ _ _ _ Hf Hl H)
    as (run & id & bundle & expected & semantics & base & mapping & Er & Ec & Ep & _ & Eb & ->). clear H.
  set (l3 := [("run_id", run); ("transport_case_id", id); ("integration_mode", PStr MODE)]) in *.
  unfold build_normalized_case_record in Eb. destruct (list_field _ case) as [caps|]; [|done].
  destruct (optional_int _) as [code|]; [|done].
  assert (Hk3 : map fst (l ++ l3) = FACT_FIELDS protocol ++ HOST_IDENTITY) by (by rewrite map_app, Hl).
  match goal with |- recorded _ _ _ _ _ _ ?r => set (record := r) end.
  assert (Host : forall k v, In (k, v) (l ++ l3) -> dict_find k record = Some v).
  { intros k v Hin. unfold record. rewrite dict_find_update.
    - apply find_updated; [rewrite Hk3; apply host_distinct|done].
    - apply (host_apart protocol). rewrite <- Hk3. by apply (in_map fst) in Hin. }
  assert (Own : forall k, In k ["status"; "live_executed"; "connector"; "actual_status"; "observed_result"] ->
    dict_find k record = dict_find k (built_fields (dict_set "reason" (PStr reason) raw) case connector (py_str id) status
                                        (proof_details raw case p expected semantics) caps code)).
  { intros k Hk. destruct (own_field protocol k Hk) as (Ho & H1 & H2). unfold record. rewrite !dict_find_update;
      [by apply (bind_client_find _ _ _ _ _ Eb)|by rewrite Hk3|done]. }
  assert (Live : dict_get "live_executed" (dict_set "reason" (PStr reason) raw) = dict_get "live_executed" raw).
  { unfold dict_get, dict_get_or. by rewrite dict_find_set. }
  constructor; try (rewrite Own by (cbn; tauto); reflexivity).
  - exists run. split; [done|]. apply Host, in_or_app. right. by left.
  - exists id. split; [done|]. apply Host, in_or_app. right. by right; left.
  - apply Host, in_or_app. right. by right; right; left.
  - intros k Hk. rewrite <- Hl in Hk. apply in_map_iff in Hk as ([c v] & <- & Hin). cbn [fst].
    rewrite (Host c v) by (apply in_or_app; by left). rewrite Hf. symmetry. apply display_find; [|done].
    rewrite Hl. apply fact_fields_distinct.
  - exists bundle. split; [done|]. unfold record, dict_update at 1. cbn [fold_left fst snd]. by rewrite !dict_find_set.
  - unfold record, dict_update at 1. cbn [fold_left fst snd]. by rewrite !dict_find_set.
  - rewrite Own by (cbn; tauto). rewrite <- Live. reflexivity.
Qed.
(** A record without a proof fails. *)
Lemma unproved_status raw case connector reason record :
  protocol_record sha256 raw case connector "FAIL" reason None = Ok record -> dict_find "status" record = Some (PStr "FAIL").
Proof.
  unfold protocol_record. cbn [map concat app andb]. cbv zeta. destruct (iterate _) as [expected|]; [|done].
  destruct (dict_item "case_id" case) as [id|]; [|done].
  destruct (build_normalized_case_record _ _ _ _ _ _ _) as [base|] eqn:Eb; [|done].
  destruct (dict_item "protocol_bundle" raw) as [bundle|]; [|done]. intros H. apply Ok_inj in H as <-.
  unfold build_normalized_case_record in Eb. destruct (list_field _ case) as [caps|]; [|done].
  destruct (optional_int _) as [code|]; [|done]. unfold dict_merge. cbn [fold_left].
  rewrite dict_find_update by (cbn; intuition congruence).
  rewrite (bind_client_find _ _ _ _ _ Eb) by (apply str_in_In; reflexivity). done.
Qed.

(** ** The evidence *)

(** The revisions that the manifest of the run names, when there is a manifest. *)
Definition authorised_run (root : abs_path) (run : pyval) (identities : option pydict) : Prop :=
  match run_manifest sys root with
  | Ok None => identities = None
  | Ok (Some manifest) => exists m, manifest = PDict m /\ py_eq (dict_get "run_id" m) run = true /\
                            identities = Some (native_authority_expected_tuple (git_value sys) m)
  | Err _ => False
  end.

(** What was checked before the bundle was opened. *)
Record authorised (authority : option abs_path) (raw case : pydict) (connector : string) (root : abs_path)
    (bundle : string) (case_id run : pyval) (identities : option pydict) : Prop := {
  au_connector : connector = "nginx";
  au_authority : authority = Some root;
  au_operation : invocation case <> Ok None;
  au_claimed : dict_get "status" raw = PStr "PASS" /\ dict_get "live_executed" raw = PBool true /\
               dict_get "integration_mode" raw = PStr MODE;
  au_bundle : dict_find "protocol_bundle" raw = Some (PStr bundle) /\ strictly_below root (below_root root bundle) = true;
  au_receipt : exists digest, sha256_file sys (join_path (below_root root bundle) RECEIPT_FILE) = Ok digest /\
               dict_get "protocol_receipt_sha256" raw = PStr digest;
  au_run : dict_find "run_id" raw = Some run /\ authorised_run root run identities;
  au_case : dict_find "case_id" case = Some case_id }.

Lemma proof_authorised raw case connector authority p : record_proof raw case connector authority = Ok p ->
  exists root bundle case_id run identities,
    authorised authority raw case connector root bundle case_id run identities /\
    validate_bundle (reader sys) (below_root root bundle) case_id run identities = Ok p.
Proof.
  unfold verified_protocol_record_proof. cbv zeta. destruct (String.eqb_spec connector "nginx") as [->|]; cbn [negb]; [|done].
  destruct (invocation case) as [[declared|]|] eqn:Ei; [|done|done]. destruct authority as [root|]; [|done]. intros H.
  apply demand_then in H as [Hc H]. apply andb_true_iff in Hc as [Hs%eq_str_true Hl%is_true_eq].
  apply demand_then in H as [Hm%eq_str_true H]. destruct (dict_item "protocol_bundle" raw) as [value|] eqn:Eb; [|done].
  apply dict_item_Ok in Eb. destruct value as [| | | |bundle| |]; try done. apply demand_then in H as [Hb H].
  destruct (sha256_file _ _) as [digest|] eqn:Ed; [|done]. apply demand_then in H as [Hr%eq_str_true H].
  destruct (run_manifest sys root) as [manifest|] eqn:Ema; [|done].
  match type of H with match ?i with Ok _ => _ | Err _ => _ end = _ => destruct i as [identities|] eqn:Eid; [|done] end.
  destruct (dict_item "case_id" case) as [case_id|] eqn:Ec; [|done].
  destruct (dict_item "run_id" raw) as [run|] eqn:Er; [|done].
  apply dict_item_Ok in Ec, Er. exists root, bundle, case_id, run, identities. split; [|exact H].
  constructor; try done; [congruence|by exists digest|]. split; [done|]. unfold authorised_run. rewrite Ema.
  destruct manifest as [m|]; [|congruence]. destruct m as [| | | | | |m]; try done.
  apply demand_then in Eid as [Hq Eid]. exists m. repeat split; congruence.
Qed.

(** C32: a record of a protocol bundle passes for its evidence only: the case declares
    an operation on nginx, the authority is given and the bundle lies strictly below
    it with the digest the record names; the reopened bundle, of this case, this run
    and the revisions of its manifest, proves the operation, and the protocol, the
    transport, the status, the result and the run of the record are those of the proof.
    Whatever fails in between gives a record that fails. *)
Theorem protocol_record_sound authority raw case connector record :
  normalize authority raw case connector = Ok record -> dict_get "status" record = PStr "PASS" ->
  exists root bundle case_id run identities o p,
    authorised authority raw case connector root bundle (PStr case_id) run identities /\
    proved (reader sys) (below_root root bundle) case_id run identities o p /\
    recorded raw case connector "PASS" p (op_protocol o) record /\
    dict_find "actual_status" record = Some (PInt (op_status o)) /\
    dict_find "observed_result" record = Some (PStr (RESULTS case_id)) /\
    dict_find "negotiated_protocol" record = Some (PStr (op_protocol o)) /\
    dict_find "transport" record = Some (PStr (protocol_transport (op_protocol o))) /\
    dict_find "fallback_used" record = Some (PBool false).
Proof.
  unfold normalize_protocol_record. destruct (record_proof raw case connector authority) as [p|e] eqn:Ep.
  2: { destruct (evidence_exception e); [|done]. intros H%unproved_status. unfold dict_get, dict_get_or. by rewrite H. }
  destruct (proof_authorised _ _ _ _ _ Ep) as (root & bundle & case_id & run & identities & A & V).
  destruct (bundle_proved _ _ _ _ _ _ V) as (s & o & -> & P). intros H _.
  destruct (pv_shape _ _ _ _ _ _ _ P) as (l & Hf & Hl).
  pose proof (recorded_proof _ _ _ _ _ _ _ _ _ Hf Hl H) as R. exists root, bundle, s, run, identities, o, p.
  destruct (pv_result _ _ _ _ _ _ _ P) as [Hs Hr]. destruct (pv_facts _ _ _ _ _ _ _ P) as (F1 & _ & F3 & F4).
  split; [done|]. split; [done|]. split; [done|]. rewrite <- Hs, <- Hr. split; [apply R|]. split; [apply R|].
  assert (Hin : forall k, In k ["negotiated_protocol"; "transport"; "fallback_used"] -> In k (FACT_FIELDS (op_protocol o))).
  { intros k Hk. unfold FACT_FIELDS. apply in_or_app. left. cbn in Hk |- *. tauto. }
  repeat split; (rewrite (rc_facts _ _ _ _ _ _ _ R) by (apply Hin; cbn; tauto)); done.
Qed.

(** ** Judging the record again *)

(** What the normaliser reads of a raw record that claims to pass. *)
Record same_claim (raw record : pydict) : Prop := {
  sc_status : dict_get "status" record = dict_get "status" raw;
  sc_live : is_true (dict_get "live_executed" record) = is_true (dict_get "live_executed" raw);
  sc_mode : dict_get "integration_mode" record = dict_get "integration_mode" raw;
  sc_run : dict_find "run_id" record = dict_find "run_id" raw;
  sc_bundle : dict_find "protocol_bundle" record = dict_find "protocol_bundle" raw;
  sc_receipt : dict_get "protocol_receipt_sha256" record = dict_get "protocol_receipt_sha256" raw;
  sc_exit : optional_int (dict_get "exit_code" record) = optional_int (dict_get "exit_code" raw);
  sc_artifacts : match dict_get "artifacts" record with PDict a => PDict a | _ => PDict [] end
               = match dict_get "artifacts" raw with PDict a => PDict a | _ => PDict [] end;
  sc_host : client_bound raw = false /\ client_bound record = false }.

Lemma claim_proof raw record case connector authority : same_claim raw record ->
  record_proof record case connector authority = record_proof raw case connector authority.
Proof.
  intros [H1 H2 H3 H4 H5 H6 _ _ _]. unfold verified_protocol_record_proof, dict_item. by rewrite H1, H2, H3, H4, H5, H6.
Qed.

Lemma set_reason_get reason k d : k <> "reason" -> dict_get k (dict_set "reason" (PStr reason) d) = dict_get k d.
Proof. intros Hk. unfold dict_get, dict_get_or. rewrite dict_find_set. by destruct (String.eqb_spec "reason" k) as [<-|]. Qed.

Lemma set_reason_text reason d : reason <> "" ->
  text_of (py_or (dict_get "reason" (dict_set "reason" (PStr reason) d))
             (dict_get "skipped_reason" (dict_set "reason" (PStr reason) d))) = reason.
Proof.
  intros Hne%String.eqb_neq. assert (dict_get "reason" (dict_set "reason" (PStr reason) d) = PStr reason) as ->.
  { unfold dict_get, dict_get_or. by rewrite dict_find_set. }
  unfold py_or, text_of. cbn [truthy]. rewrite Hne. cbn [negb truthy]. by rewrite Hne.
Qed.

Lemma claim_built raw record case connector id status reason d : same_claim raw record -> reason <> "" ->
  build_normalized_case_record sha256 (dict_set "reason" (PStr reason) record) case connector id status d
  = build_normalized_case_record sha256 (dict_set "reason" (PStr reason) raw) case connector id status d.
Proof.
  intros [_ H2 _ _ _ _ H7 H8 [Hr1 Hr2]] Hne. unfold client_bound in *.
  unfold build_normalized_case_record, built_fields, bind_client_observation.
  by rewrite !set_reason_text, !set_reason_get, H2, H7, H8, Hr1, Hr2 by done.
Qed.

Lemma claim_record raw record case connector status reason p : same_claim raw record -> reason <> "" ->
  protocol_record sha256 record case connector status reason p = protocol_record sha256 raw case connector status reason p.
Proof.
  intros H Hne. pose proof (sc_run _ _ H) as H4. pose proof (sc_bundle _ _ H) as H5. pose proof (sc_receipt _ _ H) as H6.
  assert (Hrun : dict_get "run_id" record = dict_get "run_id" raw) by (unfold dict_get, dict_get_or; by rewrite H4).
  unfold protocol_record, dict_item. cbv zeta. rewrite H4, H5, H6, Hrun.
  destruct (match p with Some _ => _ | None => _ end); [|done].
  destruct (match p with Some _ => _ | None => _ end) as [|event l]; cbv iota.
  - destruct (iterate _); [|done]. destruct (match dict_find "case_id" case with Some _ => _ | None => _ end); [|done].
    by rewrite (claim_built raw record) by done.
  - destruct (semantic_runtime_fields _ _ _) as [[values errors]|]; [|done].
    destruct (iterate _); [|done]. destruct (match dict_find "case_id" case with Some _ => _ | None => _ end); [|done].
    by rewrite (claim_built raw record) by done.
Qed.

Lemma optional_int_again v w : optional_int v = Ok w -> optional_int w = Ok w.
Proof.
  unfold optional_int at 1. destruct (is_none v || _); [by intros [= <-]|]. destruct v as [| | | |s| |]; try done;
    try (by intros [= <-]). destruct (py_int_text s); [by intros [= <-]|done].
Qed.

(** A field of the case record: apart from what the host and the reader add. *)
Lemma claim_kept protocol k : In k ["exit_code"; "artifacts"; "evidence_identity"] ->
  str_in k PHASE4_SEMANTIC_FIELDS = false /\ ~ In k (FACT_FIELDS protocol ++ HOST_IDENTITY) /\ ~ In k PROVENANCE.
Proof.
  intros Hk. split; [cbn in Hk; intuition subst; done|]. unfold FACT_FIELDS.
  split; destruct (String.eqb protocol "h3"); cbn in Hk |- *; intuition congruence.
Qed.

(** The record of a proof makes the claim of the raw record. *)
Lemma recorded_claims raw case connector reason p protocol l record : facts p = mkdict l ->
  map fst l = FACT_FIELDS protocol -> client_bound raw = false ->
  dict_get "status" raw = PStr "PASS" -> dict_get "integration_mode" raw = PStr MODE ->
  protocol_record sha256 raw case connector "PASS" reason (Some p) = Ok record -> same_claim raw record.
Proof.
  intros Hf Hl Hc Hs Hm H. pose proof (recorded_proof _ _ _ _ _ _ _ _ _ Hf Hl H) as R.
  destruct (record_inv _ _ _ _ _ _ _ _ _ Hf Hl H)
    as (run & id & bundle & expected & semantics & base & mapping & Er & Ec & Ep & Ek & Eb & E).
  unfold build_normalized_case_record in Eb. destruct (list_field _ case) as [caps|]; [|done].
  rewrite set_reason_get in Eb by done. destruct (optional_int (dict_get "exit_code" raw)) as [code|] eqn:Ex; [|done].
  unfold bind_client_observation in Eb. rewrite set_reason_get in Eb by done. unfold client_bound in Hc. rewrite Hc in Eb.
  apply Ok_inj in Eb.
  assert (Own : forall k, In k ["exit_code"; "artifacts"; "evidence_identity"] ->
    dict_find k record = dict_find k (built_fields (dict_set "reason" (PStr reason) raw) case connector (py_str id) "PASS"
                                        (proof_details raw case p expected []) caps code)).
  { intros k Hk. destruct (claim_kept protocol k Hk) as (H0 & H1 & H2). rewrite E, !dict_find_update; [|by rewrite map_app, Hl|done].
    rewrite <- Eb. by rewrite built_find. }
  assert (Get : forall k d v, dict_find k d = Some v -> dict_get k d = v) by (unfold dict_get, dict_get_or; by intros ?? ? ->).
  destruct (rc_run _ _ _ _ _ _ _ R) as (r & Hr1 & Hr2). destruct (rc_bundle _ _ _ _ _ _ _ R) as (b & Hb1 & Hb2).
  constructor.
  - rewrite Hs. apply Get, R.
  - rewrite (Get _ _ _ (rc_live _ _ _ _ _ _ _ R)). by destruct (is_true (dict_get "live_executed" raw)).
  - rewrite Hm. apply Get, R.
  - congruence.
  - congruence.
  - apply Get, R.
  - rewrite Ex. rewrite (Get "exit_code" record code); [by apply optional_int_again in Ex|]. by rewrite Own by (cbn; tauto).
  - rewrite (Get "artifacts" record (match dict_get "artifacts" raw with PDict a => PDict a | _ => PDict [] end)).
    + by destruct (dict_get "artifacts" raw).
    + rewrite Own by (cbn; tauto). rewrite <- (set_reason_get reason "artifacts" raw) by done. reflexivity.
  - split; [done|]. unfold client_bound, dict_get, dict_get_or. by rewrite Own by (cbn; tauto).
Qed.

(** C39: a passing record of a protocol bundle is judged like the raw record it was
    made from: normalising the canonical record of a host against the same authority
    reopens the same bundle and gives the same record. *)
Theorem protocol_record_stable authority raw case connector record :
  normalize authority raw case connector = Ok record -> dict_get "status" record = PStr "PASS" ->
  client_bound raw = false -> normalize authority record case connector = Ok record.
Proof.
  unfold normalize_protocol_record. destruct (record_proof raw case connector authority) as [p|e] eqn:Ep.
  2: { destruct (evidence_exception e); [|done]. intros H%unproved_status. unfold dict_get, dict_get_or. by rewrite H. }
  intros H _ Hc. destruct (proof_authorised _ _ _ _ _ Ep) as (root & bundle & case_id & run & identities & A & V).
  destruct (bundle_proved _ _ _ _ _ _ V) as (s & o & -> & P). destruct (pv_shape _ _ _ _ _ _ _ P) as (l & Hf & Hl).
  destruct (au_claimed _ _ _ _ _ _ _ _ _ A) as (Hs & _ & Hm).
  pose proof (recorded_claims _ _ _ _ _ _ _ _ Hf Hl Hc Hs Hm H) as C.
  rewrite (claim_proof _ _ _ _ _ C), Ep. by rewrite (claim_record _ _ _ _ _ _ _ C) by done.
Qed.
End Record.
