(* ===== verification/NativeRecord.v ===== *)
(** * Records of native operations (no_crs_baseline.py)

    [normalize_native_operation_record] judges a native invocation by the facts derived
    from its retained bundle.  The reader of the bundle and the contract that derives the
    facts are operations of the section; what the normaliser does with the facts, the
    HTTP/1 projection of the semantic event and the record are defined here. *)

From S2P Require Export ProtocolRecord.
From S2P Require Import ObservationEvidence.
From Stdlib Require Import QArith.
#[global] Open Scope Z_scope.

Definition NATIVE_SOURCE_IDENTITY_FIELDS : list string :=
  ["parent_sha"; "framework_sha"; "mrts_sha"; "parent_framework_gitlink"; "operation"; "driver_exit_code";
   "native_operation_receipt"].

(** The authority a record is judged under. *)
Record native_authority := { na_root : abs_path; na_sources : pyval; na_run_id : pyval }.

(** The facts of the closed contract that the normaliser reads. *)
Record native_facts := {
  nf_overrides : pydict; nf_actual_status : pyval; nf_selected : list pydict; nf_semantic_event : option pydict;
  nf_observed_fields : list pyval; nf_transactions : list pyval; nf_mapped : pydict; nf_origins : pydict;
  nf_event_origins : pyval; nf_semantic_origin : pyval; nf_semantic_origins : pyval; nf_cause : pyval;
  nf_semantics : pydict; nf_evidence_origins : pyval; nf_original : pyval }.

(** The facts, and the HTTP/1 fields and event projected from them. *)
Record native_projection := { np_facts : native_facts; np_fields : pydict; np_event : option pydict }.

(** [v in (None, "", w)] *)
Definition unset_or (v w : pyval) : bool := none_or_empty v || py_eq v w.

(** [set(l)], for what it raises. *)
Definition all_hashable (l : list pyval) : res unit :=
  if forallb hashable l then Ok tt else Err (TypeError "unhashable type").

Definition optional_ints (field : string) (rows : list pydict) : res (list (option Z)) :=
  mapM (optional_field field) rows.

(** [list(d.get(key) or \[\])] *)
Definition listed_or_empty (key : string) (d : pydict) : res (list pyval) :=
  let v := dict_get key d in if truthy v then iterate v else Ok [].

Definition native_effective_case (case : pydict) (facts : native_facts) : pydict := dict_merge case (nf_overrides facts).

Definition native_operation_expectation_errors (case : pydict) (facts : native_facts) : res (list string) :=
  let status := dict_get "expected_status" case in
  let rule := dict_get "expected_rule_id" case in
  let* rules := optional_ints "rule_id" (nf_selected facts) in
  (if is_none rule then Ok tt else all_hashable [rule]) ;;;
  let* fields := listed_or_empty "expected_event_fields" case in
  all_hashable fields ;;;
  Ok (when_failed (negb (is_none status) && negb (py_eq status (nf_actual_status facts)))
        "actual native wire status does not match explicit case contract"
      ++ when_failed (negb (is_none rule) && negb (existsb (fun r => py_eq rule (opt_int r)) rules))
           "explicit native contract rule was not observed"
      ++ when_failed (existsb (fun f => negb (truthy (dict_get_key f (nf_mapped facts))) || negb (truthy (dict_get_key f (nf_origins facts))))
                        fields)
           "native expected fields have no genuine event or explicit verified evidence mapping").

Definition native_evidence_mapping (facts : native_facts) : pydict :=
  mkdict [("schema_version", PInt 1); ("fields", PDict (nf_mapped facts)); ("origins", PDict (nf_origins facts));
          ("event_origins", nf_event_origins facts); ("semantic_event_origin", nf_semantic_origin facts);
          ("semantic_event_origins", nf_semantic_origins facts); ("causes", nf_cause facts);
          ("semantics", PDict (nf_semantics facts)); ("semantic_origins", nf_evidence_origins facts)].

Definition native_operation_failure_status (initial : string) (authority : option native_authority) : string :=
  if str_in initial ["FAIL"; "BLOCKED"] then initial
  else match authority with
       | None => if String.eqb initial "PASS" then "FAIL" else "NOT_EXECUTED"
       | Some _ => "FAIL"
       end.

Definition native_operation_outcome (raw : pydict) (initial : string) (errors : list string) : string * string :=
  if str_in initial ["FAIL"; "BLOCKED"]
  then (initial, py_str (py_or (dict_get "reason" raw) (PStr ("original native invocation " +:+ initial))))
  else match errors with
       | [] => ("PASS", "verified source-bound native operation and original retained bytes")
       | _ => ("FAIL", py_join "; " errors)
       end.

Section NativeRecord.
Variables (event_schema case_catalog_schema : pyval) (fuel : nat) (sha256 : string -> string).
Variable exception_text : exn -> string.
(** The reader of a bundle and the closed contract of its facts; the normaliser itself
    reads the observation of a proof. *)
Variables (proof : Type) (observation : proof -> pyval).
Variable validate_native_operation_bundle : pydict -> abs_path -> pydict -> res proof.
Variable derive_native_operation_contract : pydict -> proof -> res native_facts.

(** ** The projection *)

(** The rows of a list of the observation that satisfy a test. *)
Definition observed_rows (key : string) (observed : pydict) (keep : pydict -> bool) : res (list pydict) :=
  let* rows := iterate (dict_get_or (PList []) key observed) in
  let* rows := mapM mapping rows in Ok (List.filter keep rows).

Definition native_h1_fields (case : pydict) (connection : pyval) : res pydict :=
  let* case_id := dict_item "case_id" case in
  Ok (mkdict [("requested_protocol", PStr "http1"); ("downstream_protocol", PStr "http1");
              ("negotiated_protocol", PStr "http1"); ("transport_case_id", PStr (py_str case_id));
              ("connection_id", PStr (py_str connection))]).

(** The connection of the one request and the one access record of the event. *)
Definition native_h1_connection (observed event : pydict) : res pyval :=
  let* requests := observed_rows "requests" observed (fun row => py_eq (dict_get "path" row) (dict_get "uri" event)) in
  let* accesses := observed_rows "native_access" observed (fun row =>
                     py_eq (dict_get "uri" row) (dict_get "uri" event)
                     && py_eq (dict_get "transaction_id" row) (dict_get "transaction_id" event)) in
  let unbound := refuse "native H1 response lacks its exact request/access/transaction binding" in
  match requests, accesses with
  | [request], [access] =>
      if (match dict_get "http_version" request with PInt z => z =? 11 | _ => false end)
         && truthy (dict_get "transaction_id" event) && truthy (dict_get "connection" access)
      then Ok (dict_get "connection" access) else unbound
  | _, _ => unbound
  end.

Definition native_h1_protocol_projection (raw case : pydict) (p : proof) (semantic_event : option pydict)
    : res (pydict * option pydict) :=
  let* profile := case_protocol_profile case in
  if negb (is_http1 profile) then Ok ([], None)
  else
    let* observed := mapping (py_or (observation p) (PDict [])) in
    let same := py_eq (dict_get "run_id" observed) (dict_get "run_id" raw)
                && py_eq (dict_get "case_id" observed) (dict_get "case_id" case) in
    match semantic_event with
    | Some event =>
        demand same "native H1 observation has no matching run/case/event" ;;;
        demand (unset_or (dict_get "run_id" event) (dict_get "run_id" raw)
                && py_eq (dict_get "integration_mode" event) (dict_get "integration_mode" raw)
                && unset_or (dict_get "transport_case_id" event) (dict_get "case_id" case))
          "native H1 semantic event context mismatch" ;;;
        let mismatch := "native H1 semantic event phase/rule mismatch" in
        demand (opt_Z_eqb (normalize_canonical_phase (dict_get "phase" event))
                  (normalize_canonical_phase (dict_get "phase" case))) mismatch ;;;
        let* event_rule := optional_field "rule_id" event in
        let* case_rule := optional_field "expected_rule_id" case in
        demand (opt_Z_eqb event_rule case_rule) mismatch ;;;
        let* connection := native_h1_connection observed event in
        let* fields := native_h1_fields case connection in
        let* run := dict_item "run_id" raw in
        let* mode := dict_item "integration_mode" raw in
        let event := dict_update (dict_merge event fields)
                       [("run_id", PStr (py_str run)); ("integration_mode", PStr (py_str mode))] in
        let* phase := dict_item "phase" event in
        let event := dict_set "phase" (opt_int (normalize_canonical_phase phase)) event in
        let* errors := canonical_event_errors event_schema fuel (PDict event) "event" (Some "nginx") (Some (py_str mode)) in
        match errors with
        | [] => Ok (fields, Some event)
        | _ => refuse ("native H1 projected event invalid: " +:+ py_join "; " errors)
        end
    | None => refuse "native H1 observation has no matching run/case/event"
    end.

Definition native_operation_projection (raw case : pydict) (authority : option native_authority) : res native_projection :=
  match authority with
  | None => refuse "native operation has no explicit source/artifact authority"
  | Some a =>
      match na_sources a with
      | PDict sources =>
          demand (py_eq (na_run_id a) (dict_get "run_id" raw)) "native operation run differs from explicit authority" ;;;
          demand (match dict_get "parent_framework_gitlink" raw with
                  | PStr link => py_eq (PStr link) (dict_get "framework_sha" sources)
                  | _ => false
                  end) "native operation Parent Gitlink differs from exact Framework authority" ;;;
          let* p := validate_native_operation_bundle raw (na_root a) sources in
          let* facts := derive_native_operation_contract case p in
          let* (fields, event) := native_h1_protocol_projection raw case p (nf_semantic_event facts) in
          Ok {| np_facts := facts; np_fields := fields; np_event := event |}
      | _ => refuse "native operation source/artifact authority is incomplete"
      end
  end.

(** ** The record *)

(** [bool(selected) and set(expected).issubset(fields)] *)
Definition native_fields_verified (selected : list pydict) (expected fields : list pyval) : res bool :=
  match selected with
  | [] => Ok false
  | _ => all_hashable expected ;;; all_hashable fields ;;;
         Ok (forallb (fun e => existsb (py_eq e) fields) expected)
  end.

Definition native_operation_details (raw case : pydict) (facts : option native_facts) : res built_details :=
  let selected := match facts with Some f => nf_selected f | None => [] end in
  let event := match facts with Some f => nf_semantic_event f | None => None end in
  let fields := match facts with Some f => nf_observed_fields f | None => [] end in
  let* (values, _) := semantic_runtime_fields [] event None in
  let* expected_fields := listed_or_empty "expected_event_fields" case in
  let* observed_result := match facts with Some f => dict_item "expected_result" (nf_semantics f) | None => Ok PNone end in
  let* expected_status := optional_int (dict_get "expected_status" case) in
  let* expected_rule_id := optional_int (dict_get "expected_rule_id" case) in
  let* rules := optional_ints "rule_id" selected in
  let* verified := native_fields_verified selected expected_fields fields in
  Ok {| bd_run_id := opt_text (some_text (field_text "run_id" raw));
        bd_integration_mode := opt_text (some_text (field_text "integration_mode" raw));
        bd_observed_result := observed_result; bd_expected_status := expected_status;
        bd_actual_status := match facts with Some f => nf_actual_status f | None => PNone end;
        bd_expected_rule_id := expected_rule_id;
        bd_observed_rule_ids :=
          map PInt (sort_Z (dedup Z.eqb (concat (map (fun r => match r with Some z => [z] | None => [] end) rules))));
        bd_transaction_ids := match facts with Some f => nf_transactions f | None => [] end;
        bd_expected_fields := expected_fields; bd_observed_event_fields := fields;
        bd_event_metadata_verified := verified; bd_semantic_values := values |}.

Definition native_mapping_sha256 (facts : native_facts) : string :=
  sha256 (json_dumps "," ":" (PDict (mkdict [("original_facts", nf_original facts);
                                             ("mapping", PDict (native_evidence_mapping facts))]))).

(** The identity fields that the raw record names. *)
Definition source_identity (raw : pydict) : list (string * pyval) :=
  concat (map (fun name => match dict_find name raw with Some v => [(name, v)] | None => [] end)
            NATIVE_SOURCE_IDENTITY_FIELDS).

Definition native_operation_record_base (raw case : pydict) (connector : string) (p : option native_projection)
    (status reason : string) : res pydict :=
  let facts := option_map np_facts p in
  let* d := native_operation_details raw case facts in
  let actual_exit := match dict_get "driver_exit_code" raw with PInt z => PInt z | _ => PNone end in
  let observed := dict_update raw [("live_executed", PBool (match p with Some _ => true | None => false end));
                                   ("reason", PStr reason); ("exit_code", actual_exit)] in
  let* case_id := dict_item "case_id" case in
  let* record := build_normalized_case_record sha256 observed case connector (py_str case_id) status d in
  let record := dict_set "driver_exit_code" actual_exit (dict_update record (source_identity raw)) in
  Ok (match p with
      | None => record
      | Some p =>
          dict_update (dict_merge record (np_fields p))
            [("native_evidence_mapping", PDict (native_evidence_mapping (np_facts p)));
             ("native_mapping_sha256", PStr (native_mapping_sha256 (np_facts p)))]
      end).

Definition normalize_native_operation_record (raw case : pydict) (connector : string) (authority : option native_authority)
    : res pydict :=
  let* initial := normalize_status (dict_get "status" raw) in
  let judge :=
    let* declared := if String.eqb connector "nginx" then native_invocation_for_case case_catalog_schema fuel case connector
                     else Ok PNone in
    demand (negb (is_none declared)) "native operation has no declared case/host contract" ;;;
    let* p := native_operation_projection raw case authority in
    let effective := native_effective_case case (np_facts p) in
    let* errors := native_operation_expectation_errors effective (np_facts p) in
    let (status, reason) := native_operation_outcome raw initial errors in
    native_operation_record_base raw effective connector (Some p) status reason in
  match judge with
  | Ok record => Ok record
  | Err e => if evidence_exception e
             then native_operation_record_base raw case connector None
                    (native_operation_failure_status initial authority) (exception_text e)
             else Err e
  end.

(** A stored record is judged again, without the protocol fields it leaves unset. *)
Definition without_unset (keys : list string) (record : pydict) : pydict :=
  List.filter (fun kv => negb (match fst kv with PStr k => str_in k keys && is_none (snd kv) | _ => false end)) record.

Definition native_operation_record_errors (record : pydict) (authority : option native_authority) (case : pydict)
    : res (list string) :=
  let original := without_unset ["protocol"; "downstream_protocol"; "requested_protocol"] record in
  let* verified := normalize_native_operation_record original case "nginx" authority in
  let* status := dict_item "status" verified in
  if negb (eq_str status "PASS") then
    let* reason := dict_item "reason" verified in
    match reason with
    | PStr s => Ok ["native operation revalidation failed: " +:+ s]
    | _ => Err (TypeError "can only concatenate str")
    end
  else
    let* errors := mapM (fun kv => match fst kv with
      | PStr key => Ok (when_failed (negb (str_in key ["reason"; "artifacts"])
                                     && negb (py_eq (dict_get key record) (snd kv)))
                          ("native canonical field differs from reopened evidence: " +:+ key))
      | _ => Err (TypeError "can only concatenate str")
      end) verified in
    Ok (concat errors).
End NativeRecord.
