(* ===== verification/Derivation.v ===== *)
(** * Derived case records (no_crs_baseline.py)

    [normalize_finalize_records] adds to the normalised records of a run those that
    other records and events prove: the core cases of a source payload, the fields of an
    event, the narrower claims of a phase-4 outcome, the declared reuses and the targets
    of deprecated aliases.  No derivation gives the normaliser an authority, and none
    changes a record, so the lists and indexes the code extends in place are returned. *)

From S2P Require Export CaseRecord.
From S2P Require Import NativeRecord.
From Stdlib Require Import QArith.
#[global] Open Scope Z_scope.

Definition required_event_integration_mode (payload : pydict) : option string :=
  if negb (eq_str (dict_get "artifact_profile" payload) FULL_LIFECYCLE_ARTIFACT_PROFILE) then None
  else some_text (py_strip (field_text "integration_mode" payload)).

(** The first event of a rule. *)
Definition event_for_rule (events : list pydict) (rule_id : option Z) : option pydict :=
  match rule_id with
  | None => hd_error events
  | Some rule => List.find (fun e => Z_in rule (event_rule_ids e)) events
  end.

Definition source_observed_rule_ids (source : pydict) : list Z :=
  concat (map (fun key =>
    let candidates := match dict_get key source with PList l => l | v => [v] end in
    concat (map (fun v => match py_int v with Some z => [z] | None => [] end) candidates))
    ["observed_rule_ids"; "modsecurity_rule_id"; "rule_id"]).

(** [{str(record.get("case_id") or ""): record for record in records}] *)
Definition by_text (records : list pydict) : pydict :=
  fold_left (fun d record => dict_set (case_id_of record) (PDict record) d) records [].

(** [by_id.get(case_id)], if it is not an empty mapping. *)
Definition record_of_case (case_id : string) (by_id : pydict) : option pydict :=
  match dict_find case_id by_id with Some (PDict (x :: r)) => Some (x :: r) | _ => None end.
Definition passed_record (case_id : string) (by_id : pydict) : option pydict :=
  match record_of_case case_id by_id with
  | Some r => if passed r then Some r else None
  | None => None
  end.

Definition selected_plan_case (selections : list (string * pydict)) (case_id : string) : bool :=
  match entry case_id selections with
  | Some selection => eq_str (dict_get "selection_status" selection) "SELECTED"
  | None => false
  end.

(** ** The closed derivations *)

Definition EVENT_FIELD_CASES : list string :=
  ["event_contains_connector"; "event_contains_transaction_id"; "event_contains_rule_id"; "event_contains_phase";
   "event_contains_status"].
Definition PHASE4_BASES : list string :=
  ["phase4_deny_before_commit"; "phase4_deny_after_commit_log_only"; "phase4_deny_after_commit_log_only_minimal";
   "phase4_deny_after_commit_log_only_safe"; "phase4_deny_after_commit_abort"].
Definition PHASE4_FACTS : list string :=
  ["phase4_rule_observed"; "phase4_event_contains_original_status"; "phase4_event_contains_late_intervention_action"].
Definition EXPLICIT_REUSES : list (string * string * bool) :=
  [("allow", "allow_without_marker", false); ("deny", "deny_header_marker_403", true);
   ("phase3_original_and_visible_status", "phase3_deny_before_commit", true);
   ("event_has_no_response_body_payload", "phase4_rule_observed", true);
   ("phase4_deny_after_commit_abort_strict", "phase4_deny_after_commit_abort", true)].

Section Derivation.
Variables (event_schema : pyval) (fuel : nat).
(** The normaliser of a raw record, without an authority. *)
Variable normalize : pydict -> string -> case_table -> list pydict -> option string -> res (option pydict).
Variables (cases : case_table) (events : list pydict) (mode : option string).

(** [if record:] *)
Definition kept_record (raw : pydict) (connector : string) : res (option pydict) :=
  let* record := normalize raw connector cases events mode in
  Ok (match record with Some (x :: r) => Some (x :: r) | _ => None end).

(** ** The core cases of a source payload *)

Definition append_normalized_record (records : list pydict) (raw : pydict) (connector : string) : res (list pydict) :=
  let* record := kept_record raw connector in
  Ok (match record with Some r => records ++ [r] | None => records end).

Definition append_derived_allow_record (records : list pydict) (source : pydict) (connector : string) : res (list pydict) :=
  let* allowed_status := optional_int (dict_get "allowed_request_status" source) in
  if is_none allowed_status then Ok records
  else
    append_normalized_record records
      (mkdict [("case_id", PStr "allow_without_marker");
               ("status", PStr (if eq_int allowed_status 200 then "PASS" else "FAIL")); ("actual_status", allowed_status);
               ("live_executed", PBool true);
               ("reason", PStr "normalized from explicit source allowed_request_status")]) connector.

Definition append_derived_blocked_record (records : list pydict) (source : pydict) (connector : string) : res (list pydict) :=
  let* blocked_status := optional_int (dict_get "blocked_request_status" source) in
  if is_none blocked_status then Ok records
  else
    let source_rule_ids := source_observed_rule_ids source in
    let denied := eq_int blocked_status 403 && Z_in 1100001 source_rule_ids in
    append_normalized_record records
      (mkdict [("case_id", PStr "deny_header_marker_403"); ("status", PStr (if denied then "PASS" else "FAIL"));
               ("actual_status", blocked_status); ("observed_rule_ids", PList (map PInt source_rule_ids));
               ("live_executed", PBool true);
               ("reason", PStr "normalized from explicit source blocked_request_status and rule ID")]) connector.

Definition derive_core_records (source : pydict) (connector : string) : res (list pydict) :=
  if negb (is_true (dict_get "requests_sent" source)) && negb (is_true (dict_get "runtime_verified" source)) then Ok []
  else
    let* records := append_derived_allow_record [] source connector in
    append_derived_blocked_record records source connector.

(** ** The fields of an event *)

(** The records and the index by case, which grow together. *)
Definition derivation := (list pydict * pydict)%type.
Definition add_record (st : derivation) (case_id : string) (record : pydict) : derivation :=
  (fst st ++ [record], dict_set case_id (PDict record) (snd st)).

Definition append_derived_event_field_record (st : derivation) (case_id : string) (holds : bool) (connector : string)
    : res derivation :=
  let* record := kept_record
    (mkdict [("case_id", PStr case_id); ("status", PStr (if holds then "PASS" else "FAIL")); ("actual_status", PInt 403);
             ("observed_rule_ids", PList [PInt 1100001]); ("live_executed", PBool true);
             ("reason", PStr "derived from the observed rule-1100001 event")]) connector in
  Ok (match record with Some r => add_record st case_id r | None => st end).

Definition append_event_field_derivations (st : derivation) (selections : list (string * pydict)) (plan event : pydict)
    : res derivation :=
  let fields := event_field_names (PDict event) "" in
  foldM (fun st case_id =>
    if dict_has case_id (snd st) || negb (selected_plan_case selections case_id) then Ok st
    else
      match case_of case_id cases with
      | None => Err (KeyError case_id)
      | Some case =>
          let* expected := dict_item "expected_event_fields" case in
          let* expected := iterate expected in
          let* connector := dict_item "connector" plan in
          append_derived_event_field_record st case_id
            (forallb (fun item => str_in item fields) (map py_str expected)) (py_str connector)
      end) EVENT_FIELD_CASES st.

Definition append_body_payload_derivation (st : derivation) (selections : list (string * pydict)) (plan event : pydict)
    : res derivation :=
  let* errors := canonical_event_errors event_schema fuel (PDict event) "event" None mode in
  let case_id := "event_has_no_request_body_payload" in
  match errors, selected_plan_case selections case_id, passed_record "deny_request_body_marker_403" (snd st),
        some_event (event_for_rule events (Some 1100101)) with
  | [], true, Some _, Some _ =>
      let* connector := dict_item "connector" plan in
      let* record := kept_record
        (mkdict [("case_id", PStr case_id); ("status", PStr "PASS"); ("actual_status", PInt 403);
                 ("observed_rule_ids", PList [PInt 1100101]); ("live_executed", PBool true);
                 ("reason", PStr "observed phase-2 event contains no forbidden body payload")]) (py_str connector) in
      Ok (match record with Some r => (fst st ++ [r], snd st) | None => st end)
  | _, _, _, _ => Ok st
  end.

Definition append_derived_event_records (records : list pydict) (plan : pydict) : res (list pydict) :=
  let* by_id := deduplicated_case_records records in
  let* selections := selected_plan_cases plan in
  match passed_record "deny_header_marker_403" by_id, some_event (event_for_rule events (Some 1100001)) with
  | Some _, Some event =>
      let* st := append_event_field_derivations (records, by_id) selections plan event in
      let* st := append_body_payload_derivation st selections plan event in Ok (fst st)
  | _, _ => Ok records
  end.

(** ** Targets of deprecated aliases *)

Definition alias_raw (record : pydict) (target_id : string) : pydict :=
  dict_update record
    [("case_id", PStr target_id);
     ("reason", PStr ("normalized from deprecated alias " +:+ py_str (dict_get "case_id" record)
                      +:+ " with strict pre-commit evidence"))].

(** The derived targets and the identifiers that have a record. *)
Definition derive_target (selections : list (string * pydict)) (plan : pydict) (st : list pydict * list string)
    (record : pydict) : res (list pydict * list string) :=
  let target_id := match case_of (case_id_of record) cases with
                   | Some (x :: r) => field_text "deprecated_alias_for" (x :: r)
                   | _ => ""
                   end in
  if String.eqb target_id "" || str_in target_id (snd st) || negb (passed record)
     || negb (selected_plan_case selections target_id) then Ok st
  else
    let* target := normalize (alias_raw record target_id)
                     (text_of (py_or (dict_get "connector" record) (dict_get "connector" plan))) cases events mode in
    Ok (match target with Some t => (fst st ++ [t], target_id :: snd st) | None => st end).

Definition derive_deprecated_alias_targets (records : list pydict) (plan : pydict) : res (list pydict) :=
  let* selections := selected_plan_cases plan in
  let* st := foldM (derive_target selections plan) records ([], map case_id_of records) in
  Ok (records ++ fst st).

(** ** The narrower claims of a phase-4 outcome *)

(** A target is added only if it passes. *)
Definition add_passing (st : derivation) (case_id : string) (record : option pydict) : derivation :=
  match record with Some r => if passed r then add_record st case_id r else st | None => st end.

Definition append_phase4_derived_record (st : derivation) (base : pydict) (base_case_id case_id connector : string)
    : res derivation :=
  let derived_raw := dict_update base
    [("case_id", PStr case_id); ("status", PStr "PASS");
     ("reason", PStr ("derived from the validated " +:+ base_case_id +:+ " runtime event"))] in
  let* record := normalize derived_raw connector cases events mode in
  Ok (add_passing st case_id record).

Definition append_phase4_derivations_for_base (selections : list (string * pydict)) (plan : pydict) (st : derivation)
    (base_case_id : string) : res derivation :=
  match passed_record base_case_id (snd st) with
  | None => Ok st
  | Some base =>
      foldM (fun st case_id =>
        if dict_has case_id (snd st) || negb (selected_plan_case selections case_id) then Ok st
        else append_phase4_derived_record st base base_case_id case_id
               (text_of (py_or (dict_get "connector" plan) (dict_get "connector" base)))) PHASE4_FACTS st
  end.

Definition append_derived_phase4_records (records : list pydict) (plan : pydict) : res (list pydict) :=
  let* selections := selected_plan_cases plan in
  let* st := foldM (append_phase4_derivations_for_base selections plan) PHASE4_BASES (records, by_text records) in
  Ok (fst st).

(** ** Declared reuses *)

(** [v in {None, w}] *)
Definition in_none_or (v w : pyval) : res bool :=
  if hashable v && hashable w then Ok (none_or v w) else Err (TypeError "unhashable type").

(** Conditions joined by [and]. *)
Fixpoint all_conditions (conditions : list (res bool)) : res bool :=
  match conditions with
  | [] => Ok true
  | c :: r => let* b := c in if b : bool then all_conditions r else Ok false
  end.

(** The one transaction of a record. *)
Definition single_transaction (record : pydict) : option string :=
  match dict_get "transaction_ids" record with
  | PList [PStr t] => if String.eqb (py_strip t) "" then None else Some t
  | _ => None
  end.

Definition same_rule (base target_case : pydict) : res bool :=
  let* a := optional_int (dict_get "expected_rule_id" base) in
  let* b := optional_int (dict_get "expected_rule_id" target_case) in Ok (py_eq a b).

Definition explicit_reuse_base_valid (base : pydict) (base_id : string) (target_case plan : pydict)
    (expected_run_id : string) (expected_integration_mode : option string) : res bool :=
  let run_id := py_or (PStr expected_run_id) (dict_get "run_id" base) in
  let integration_mode := py_or (opt_text expected_integration_mode) (dict_get "integration_mode" base) in
  match dict_get "request" target_case with
  | PDict request =>
      all_conditions
        [Ok (eq_str (dict_get "reuses" request) base_id); Ok (eq_str (dict_get "case_id" base) base_id); Ok (passed base);
         Ok (live base); Ok (py_eq (dict_get "connector" base) (dict_get "connector" plan));
         Ok (py_eq (dict_get "phase" base) (dict_get "phase" target_case)); same_rule base target_case;
         Ok (match single_transaction base with Some _ => true | None => false end);
         Ok (truthy run_id); Ok (truthy integration_mode);
         in_none_or (dict_get "run_id" base) run_id;
         in_none_or (dict_get "integration_mode" base) integration_mode]
  | _ => Ok false
  end.

Definition reuse_event_matches (transaction : string) (rule_id phase : option Z) (connector run_id expected_mode : string)
    (event : pydict) : res bool :=
  all_conditions
    [Ok (bool_decide (event_transaction_ids event = [transaction]));
     Ok (match rule_id, event_rule_ids event with Some rule, [z] => z =? rule | _, _ => false end);
     Ok (opt_Z_eqb (normalize_canonical_phase (dict_get "phase" event)) phase);
     Ok (eq_str (dict_get "connector" event) connector);
     in_none_or (dict_get "run_id" event) (PStr run_id);
     Ok (eq_str (dict_get "integration_mode" event) expected_mode);
     let* errors := canonical_event_errors event_schema fuel (PDict event) "event" (Some connector) (Some expected_mode) in
     Ok (match errors with [] => true | _ => false end)].

Definition exact_reuse_event (base target_case : pydict) (connector run_id : string) (integration_mode : option string)
    : res (option pydict) :=
  match single_transaction base with
  | None => Ok None
  | Some transaction =>
      let* rule_id := optional_field "expected_rule_id" target_case in
      let* phase := optional_field "phase" target_case in
      let expected_mode := match integration_mode with
                           | Some m => if String.eqb m "" then field_text "integration_mode" base else m
                           | None => field_text "integration_mode" base
                           end in
      let* matches := filterM (reuse_event_matches transaction rule_id phase connector run_id expected_mode) events in
      Ok (match matches with [e] => Some e | _ => None end)
  end.

Definition explicit_reuse_candidate_valid (base : option pydict) (base_id : string) (target_case : option pydict)
    (plan : pydict) (bound_run_id : string) (bound_mode : option string) (requires_event : bool) : res bool :=
  match target_case, base with
  | Some ((_ :: _) as target_case), Some base =>
      all_conditions
        [explicit_reuse_base_valid base base_id target_case plan bound_run_id bound_mode;
         if requires_event then
           all_conditions [Ok (is_true (dict_get "event_metadata_verified" base));
                   let* event := exact_reuse_event base target_case (field_text "connector" plan)
                                   (or_text bound_run_id (field_text "run_id" base)) bound_mode in
                   Ok (match event with Some _ => true | None => false end)]
         else Ok true]
  | _, _ => Ok false
  end.

Definition normalized_explicit_reuse_record (base : pydict) (target_id base_id : string) (plan : pydict)
    (bound_run_id : string) (bound_mode : option string) : res (option pydict) :=
  let raw := dict_update base
    [("case_id", PStr target_id); ("status", PStr "PASS");
     ("run_id", py_or (PStr bound_run_id) (dict_get "run_id" base));
     ("integration_mode", py_or (opt_text bound_mode) (dict_get "integration_mode" base));
     ("reason", PStr ("derived from validated " +:+ base_id +:+ " request by explicit catalog reuse"))] in
  normalize raw (field_text "connector" plan) cases events bound_mode.

Definition append_explicit_reuse_records (records : list pydict) (plan : pydict)
    (expected_run_id expected_integration_mode : option string) : res (list pydict) :=
  let* selections := selected_plan_cases plan in
  let bound_run_id := match expected_run_id with
                      | Some r => or_text r (field_text "run_id" plan)
                      | None => field_text "run_id" plan
                      end in
  let bound_mode := match expected_integration_mode with
                    | Some m => if String.eqb m "" then mode else Some m
                    | None => mode
                    end in
  let* st := foldM (fun st (reuse : string * string * bool) =>
    let '(target_id, base_id, requires_event) := reuse in
    if dict_has target_id (snd st) || negb (selected_plan_case selections target_id) then Ok st
    else
      let base := record_of_case base_id (snd st) in
      let* valid := explicit_reuse_candidate_valid base base_id (case_of target_id cases) plan bound_run_id bound_mode
                      requires_event in
      match valid, base with
      | true, Some base =>
          let* record := normalized_explicit_reuse_record base target_id base_id plan bound_run_id bound_mode in
          Ok (add_passing st target_id record)
      | _, _ => Ok st
      end) EXPLICIT_REUSES (records, by_text records) in
  Ok (fst st).

(** ** The records of a run *)

Definition PROTECTED_CASES : list string :=
  ["phase4_first_byte_before_response_end"; "phase4_no_full_response_buffering"].

Definition prevent_synthetic_first_byte_promotion (records : list pydict) (evidence : option pydict)
    : res (list pydict) :=
  match evidence with
  | None => Ok records
  | Some e =>
      if eq_str (dict_get "evidence_origin" e) "real_host" then Ok records
      else mapM (fun record =>
             let* protected_case := in_str_set (dict_get "case_id" record) PROTECTED_CASES in
             Ok (if protected_case && passed record then
                   dict_update record
                     [("status", PStr "FAIL"); ("operation_status", PStr (operation_status "fail"));
                      ("reason", PStr ("synthetic first-byte evidence is retained for diagnostics but cannot "
                                       +:+ "promote a canonical host capability"))]
                 else record)) records
  end.

End Derivation.

Section Run.
Variables (event_schema : pyval) (fuel : nat).
Variable normalize : pydict -> string -> case_table -> list pydict -> option string -> res (option pydict).

(** [normalize_finalize_records] from the normalised records on. *)
Definition derive_finalize_records (context : FinalizeContext) (events : list pydict) (records : list pydict)
    (source_payloads : list pydict) (first_byte_evidence : option pydict) : res (list pydict * pydict) :=
  let cases := case_by_id context in
  let mode := required_event_integration_mode (manifest context) in
  let* core := mapM (fun payload => derive_core_records normalize cases events mode payload (connector context))
                 source_payloads in
  let* records := append_derived_event_records event_schema fuel normalize cases events mode (records ++ concat core)
                    (plan context) in
  let* records := derive_deprecated_alias_targets normalize cases events mode records (plan context) in
  let* records := append_derived_phase4_records normalize cases events mode records (plan context) in
  let* records := append_explicit_reuse_records event_schema fuel normalize cases events mode records (plan context)
                    (Some (field_text "run_id" (manifest context)))
                    (Some (field_text "integration_mode" (manifest context))) in
  let* records := prevent_synthetic_first_byte_promotion records first_byte_evidence in
  let* deduplicated := deduplicated_case_records records in
  Ok (records, deduplicated).
End Run.

(** The normaliser the derivations call: it has no authority to give to anything. *)
Section Unauthorised.
Variables (event_schema receipt_schema case_catalog_schema : pyval) (fuel : nat) (catalog : pydict) (sys : bundle_system).
Variables (records : record_system) (sha256 : string -> string) (runner_digest : string -> option string).
Variables (proof : Type) (observation : proof -> pyval).
Variable validate_native_operation_bundle : pydict -> ObservationEvidence.abs_path -> pydict -> res proof.
Variable derive_native_operation_contract : pydict -> proof -> res native_facts.

Definition unauthorised_normalizer (raw : pydict) (connector : string) (cases : case_table) (events : list pydict)
    (mode : option string) : res (option pydict) :=
  normalize_case_record event_schema receipt_schema fuel catalog sys sha256 runner_digest
    (normalize_protocol_record records sha256 None)
    (fun raw case connector =>
       normalize_native_operation_record event_schema case_catalog_schema fuel sha256 (exception_text records) proof
         observation validate_native_operation_bundle derive_native_operation_contract raw case connector None)
    raw connector cases events mode None.
End Unauthorised.
