(* ===== verification/Http11.v ===== *)
(** * Responses of HTTP/1.1 on the wire (nginx_http11_framing.py)

    The bounded, strict parser of the response bytes that a fixture captured: the header
    block, the chunked coding and the one framing a response may declare.  Offsets into
    the bytes are the rest of the bytes from there. *)

From S2P Require Export PyValue Regex.
#[global] Open Scope Z_scope.

Definition CRLF : chars := [chr 13; chr 10].
Definition wire_error {A} (m : string) : res A := Err (ValueError m).
Definition size_of (l : chars) : Z := Z.of_nat (List.length l).

(** ** Headers *)

Definition STATUS_LINE : re := RCat (RLit "HTTP/1.1 200 ") (RPlus (RCls (between 32 126))).
Definition header_name_char (c : ascii) : bool := is_alnum c || char_in "!#$%&'*+.^_`|~-" c.
Definition HEADER_NAME : re := RPlus (RCls header_name_char).
(** A byte of a header value: a tab or a printable character. *)
Definition header_value_char (c : ascii) : bool := negb ((ord c <? 32) && negb (ord c =? 9) || (126 <? ord c)).
Definition blank (c : ascii) : bool := (ord c =? 32) || (ord c =? 9).

Definition parse_header (line : chars) : res (chars * chars) :=
  match partition_sub (S2L ":") line with
  | (name, colon, value) =>
      if negb colon || negb (fullmatch HEADER_NAME name) then wire_error "raw header syntax is invalid"
      else if negb (forallb header_value_char value) then wire_error "raw header value is invalid"
      else Ok (map lower_byte name, strip_with blank value)
  end.

Definition header_table := list (chars * chars).
Definition chars_eqb (a b : chars) : bool := bool_decide (a = b).
Definition header_named (name : string) (h : chars * chars) : bool := chars_eqb (fst h) (S2L name).
(** [headers.get(name)]: the last line of a name counts. *)
Definition header (name : string) (headers : header_table) : option chars :=
  option_map snd (last (List.filter (header_named name) headers)).
Definition framing_names : list string := ["content-length"; "transfer-encoding"].

(** The header lines so far, in their order. *)
Definition read_header (headers : header_table) (line : chars) : res header_table :=
  let* h := parse_header line in
  if existsb (fun name => header_named name h && existsb (header_named name) headers) framing_names
  then wire_error "duplicate framing header is ambiguous" else Ok (headers ++ [h]).

Definition response_headers (raw : chars) : res (header_table * chars) :=
  if negb ((1 <=? size_of raw) && (size_of raw <=? 32768)) then wire_error "bounded raw response bytes are required"
  else match find_sub (CRLF ++ CRLF) raw with
  | Some split =>
      if negb ((0 <? Z.of_nat split) && (Z.of_nat split <=? 8192))
      then wire_error "bounded complete raw response headers are required"
      else match split_sub CRLF (take split raw) with
      | first :: lines =>
          if (64 <? Z.of_nat (S (List.length lines))) || negb (fullmatch STATUS_LINE first)
          then wire_error "actual successful HTTP/1.1 status line is required"
          else let* headers := foldM read_header lines [] in Ok (headers, drop (split + 4) raw)
      | [] => wire_error "actual successful HTTP/1.1 status line is required"
      end
  | None => wire_error "bounded complete raw response headers are required"
  end.

(** ** Chunks *)

Definition CHUNK_SIZE : re := RRep (RCls is_hex) 1 (Some 6%nat).

Fixpoint decode_chunk (n : nat) (body rest : chars) : res chars :=
  match n with
  | O => wire_error "raw response exceeds the bounded chunk count"
  | S m =>
      let invalid := wire_error "bounded complete raw chunk size is required" in
      match find_sub CRLF rest with
      | None => invalid
      | Some stop =>
          let digits := take stop rest in
          let rest := drop (stop + 2) rest in
          if negb (fullmatch CHUNK_SIZE digits) then invalid
          else
            let size := int_of_digits 16 digits in
            if size =? 0 then
              if chars_eqb rest CRLF then Ok body
              else wire_error "actual terminal chunk must finish the response exactly"
            else if (32768 <? size) || (32768 <? size_of body + size)
                    || negb (chars_eqb (take 2 (drop (Z.to_nat size) rest)) CRLF)
            then wire_error "bounded complete raw chunk data is required"
            else decode_chunk m (body ++ take (Z.to_nat size) rest) (drop (Z.to_nat size + 2) rest)
      end
  end.

Definition decode_chunks (raw : chars) : res chars := decode_chunk 32 [] raw.

(** ** A response *)

Definition CONTENT_LENGTH : re := RRep (RCls is_digit) 1 (Some 5%nat).

Record wire_response := { wr_framing : string; wr_declared : option Z; wr_body : chars }.

Definition parse_http11_response (raw : chars) : res wire_response :=
  let* (headers, encoded) := response_headers raw in
  let length := header "content-length" headers in
  let transfer := header "transfer-encoding" headers in
  match length, transfer with
  | Some _, Some _ => wire_error "Content-Length and Transfer-Encoding cannot prove one unambiguous framing"
  | None, Some coding =>
      if negb (chars_eqb (map lower_byte coding) (S2L "chunked")) then wire_error "only actual chunked transfer coding is supported"
      else let* body := decode_chunks encoded in Ok {| wr_framing := "chunked"; wr_declared := None; wr_body := body |}
  | Some digits, None =>
      if negb (fullmatch CONTENT_LENGTH digits) then wire_error "actual Content-Length or chunked framing is required"
      else
        let declared := int_of_digits 10 digits in
        if negb (declared =? size_of encoded) then wire_error "actual body bytes must match the exact Content-Length"
        else Ok {| wr_framing := "content_length"; wr_declared := Some declared; wr_body := encoded |}
  | None, None => wire_error "actual Content-Length or chunked framing is required"
  end.

(** The fields of the parsed response, with the digest of its body. *)
Definition wire_fields (sha256 : chars -> string) (r : wire_response) : pydict :=
  mkdict [("observed_status", PInt 200); ("http_version", PInt 11); ("framing", PStr (wr_framing r));
          ("declared_length", match wr_declared r with Some z => PInt z | None => PNone end);
          ("bytes_received", PInt (size_of (wr_body r))); ("body_sha256", PStr (sha256 (wr_body r)))].

(** ** One framing of a response

    The chunk decoder accepts exactly the chunked coding of a bounded body and nothing
    behind it, and a response is accepted only under the one framing it declares. *)

(** ** Chunks *)

(** The chunked coding of a list of data. *)
Inductive chunked : list chars -> chars -> Prop :=
  | chunked_last zero :
      fullmatch CHUNK_SIZE zero = true -> int_of_digits 16 zero = 0 -> chunked [] (zero ++ CRLF ++ CRLF)
  | chunked_data digits data chunks rest :
      fullmatch CHUNK_SIZE digits = true -> int_of_digits 16 digits = size_of data -> data <> [] ->
      chunked chunks rest -> chunked (data :: chunks) (digits ++ CRLF ++ data ++ CRLF ++ rest).

Lemma chars_eqb_eq a b : chars_eqb a b = true <-> a = b.
Proof. apply bool_decide_eq_true. Qed.

Lemma size_app a b : size_of (a ++ b) = size_of a + size_of b.
Proof. unfold size_of. rewrite length_app. lia. Qed.

Lemma size_nonneg a : 0 <= size_of a.
Proof. unfold size_of. lia. Qed.

Lemma take_all_drop (n : nat) (l : chars) : (List.length (take n l) < n)%nat -> drop n l = [].
Proof. rewrite length_take. intros H. apply drop_ge. lia. Qed.

(** A size line has no carriage return. *)
Lemma size_line_end digits rest : fullmatch CHUNK_SIZE digits = true ->
  find_sub CRLF (digits ++ CRLF ++ rest) = Some (List.length digits).
Proof.
  intros H. unfold CRLF. apply find_sub_app. intros Hin. by apply (fullmatch_chars CHUNK_SIZE _ (chr 13) eq_refl H) in Hin.
Qed.

Lemma after_line (digits rest : chars) : drop (List.length digits + 2) (digits ++ CRLF ++ rest) = rest.
Proof. rewrite <- drop_drop, drop_app_length. done. Qed.

Lemma decode_last n acc zero : fullmatch CHUNK_SIZE zero = true -> int_of_digits 16 zero = 0 ->
  decode_chunk (S n) acc (zero ++ CRLF ++ CRLF) = Ok acc.
Proof.
  intros Hf Hz. cbn [decode_chunk]. rewrite size_line_end by done. cbv zeta. rewrite take_app_length, after_line, Hf, Hz. done.
Qed.

Lemma decode_data n acc digits data rest : fullmatch CHUNK_SIZE digits = true -> int_of_digits 16 digits = size_of data ->
  data <> [] -> size_of acc + size_of data <= 32768 ->
  decode_chunk (S n) acc (digits ++ CRLF ++ data ++ CRLF ++ rest) = decode_chunk n (acc ++ data) rest.
Proof.
  intros Hf Hs Hd Hb. cbn [decode_chunk]. rewrite size_line_end by done. cbv zeta. rewrite take_app_length, after_line, Hf, Hs. cbn [negb].
  assert (Hpos : 0 < size_of data) by (unfold size_of; destruct data; [done|cbn; lia]). pose proof (size_nonneg acc).
  destruct (Z.eqb_spec (size_of data) 0); [lia|]. destruct (Z.ltb_spec 32768 (size_of data)); [lia|].
  destruct (Z.ltb_spec 32768 (size_of acc + size_of data)); [lia|].
  assert (Z.to_nat (size_of data) = List.length data) as -> by (unfold size_of; lia).
  rewrite drop_app_length, take_app_length, after_line. done.
Qed.

Lemma between_le lo hi c : between lo hi c = true -> lo <= ord c.
Proof. unfold between. rewrite andb_true_iff, !Z.leb_le. lia. Qed.

Lemma digit_val_hex c : is_hex c = true -> 0 <= digit_val c.
Proof.
  unfold is_hex, is_hex_lower, digit_val. intros H.
  destruct (is_digit c) eqn:Ed; [apply between_le in Ed; lia|].
  destruct (between 97 102 c) eqn:El; [apply between_le in El; lia|]. cbn in H. apply between_le in H. lia.
Qed.

Lemma int_of_hex digits : fullmatch CHUNK_SIZE digits = true -> 0 <= int_of_digits 16 digits.
Proof.
  intros H. apply fullmatch_correct in H; [|done]. apply (rep_cls_lang is_hex 1 (Some 6%nat)) in H as [H _]; [|lia].
  unfold int_of_digits, digits_value. enough (G : forall a, 0 <= a -> 0 <= fold_left (fun a d => a * 16 + d) (map digit_val digits) a) by (apply G; lia).
  induction H as [|c l Hc _ IH]; intros a Ha; cbn; [done|]. apply IH. pose proof (digit_val_hex c Hc). lia.
Qed.

(** What the decoder returns is the data of a chunked coding. *)
Lemma decode_chunk_sound n acc raw body : size_of acc <= 32768 -> decode_chunk n acc raw = Ok body ->
  exists chunks, chunked chunks raw /\ body = acc ++ concat chunks /\ (List.length chunks < n)%nat /\ size_of body <= 32768.
Proof.
  revert acc raw. induction n as [|n IH]; intros acc raw Ha; cbn [decode_chunk]; [done|]. cbv zeta.
  destruct (find_sub CRLF raw) as [stop|] eqn:Ef; [|done]. apply find_sub_split in Ef. change (List.length CRLF) with 2%nat in Ef.
  set (digits := take stop raw) in *. set (rest := drop (stop + 2) raw) in *. clearbody digits rest. subst raw.
  destruct (fullmatch CHUNK_SIZE digits) eqn:Hf; [|done]. cbn [negb].
  destruct (Z.eqb_spec (int_of_digits 16 digits) 0) as [Hz|Hz].
  - destruct (chars_eqb rest CRLF) eqn:Er; [|done]. apply chars_eqb_eq in Er as ->. intros Hok. apply Ok_inj in Hok as <-.
    exists []. split; [by constructor|]. split; [by rewrite app_nil_r|]. split; [cbn; lia|done].
  - pose proof (int_of_hex digits Hf) as Hpos. set (size := int_of_digits 16 digits) in *.
    destruct (Z.ltb_spec 32768 size) as [?|_]; [done|]. destruct (Z.ltb_spec 32768 (size_of acc + size)) as [?|Hacc]; [done|]. cbn [orb].
    destruct (chars_eqb (take 2 (drop (Z.to_nat size) rest)) CRLF) eqn:Ec; [|done]. cbn [negb]. apply chars_eqb_eq in Ec. intros Hok.
    set (data := take (Z.to_nat size) rest) in *. set (tail := drop (Z.to_nat size + 2) rest) in *.
    assert (Hrest : rest = data ++ CRLF ++ tail).
    { rewrite <- Ec. unfold data, tail. rewrite <- drop_drop, take_drop, take_drop. done. }
    assert (Hdata : size_of data = size).
    { apply (f_equal (@List.length ascii)) in Ec. rewrite length_take, length_drop in Ec. change (List.length CRLF) with 2%nat in Ec.
      unfold size_of, data. rewrite length_take. lia. }
    clearbody data tail. subst rest. apply IH in Hok as (chunks & Hc & -> & Hn & Hb); [|rewrite size_app; lia].
    exists (data :: chunks). split; [constructor; [done|lia| |done]|].
    + intros ->. unfold size_of in Hdata. cbn in Hdata. lia.
    + split; [cbn; by rewrite app_assoc|]. split; [cbn; lia|done].
Qed.

Lemma decode_chunk_complete chunks raw n acc : chunked chunks raw -> (List.length chunks < n)%nat ->
  size_of (acc ++ concat chunks) <= 32768 -> decode_chunk n acc raw = Ok (acc ++ concat chunks).
Proof.
  intros Hc. revert n acc. induction Hc as [zero Hf Hz|digits data chunks rest Hf Hs Hd _ IH]; intros [|n] acc Hn Hb;
    cbn [List.length] in Hn; try lia.
  - cbn. rewrite app_nil_r. by apply decode_last.
  - cbn [concat] in *. rewrite !size_app in Hb. pose proof (size_nonneg (concat chunks)).
    rewrite decode_data by (done || lia). rewrite IH; [by rewrite <- app_assoc|lia|rewrite !size_app; lia].
Qed.

(** The decoder returns exactly the data of a chunked coding of at most 31 chunks and
    32768 bytes, with nothing behind it. *)
Lemma chunks_exact raw body : decode_chunks raw = Ok body <->
  exists chunks, chunked chunks raw /\ body = concat chunks /\ (List.length chunks <= 31)%nat /\ size_of body <= 32768.
Proof.
  unfold decode_chunks. split.
  - intros H. apply decode_chunk_sound in H as (chunks & Hc & -> & Hn & Hb); [|done]. exists chunks. repeat split; [done|lia|done].
  - intros (chunks & Hc & -> & Hn & Hb). apply (decode_chunk_complete chunks raw 32 []); [done|lia|done].
Qed.

(** ** Framing headers *)

Definition headers_named (name : string) (headers : header_table) : header_table := List.filter (header_named name) headers.

Lemma existsb_none {A} (p : A -> bool) l x : existsb p l = false -> In x l -> p x = false.
Proof. intros H Hin. apply not_true_iff_false. intros E. apply not_true_iff_false in H. apply H, existsb_exists. eauto. Qed.

Lemma filter_none {A} (p : A -> bool) l : existsb p l = false -> List.filter p l = [].
Proof. induction l as [|x l IH]; cbn; [done|]. intros H. apply orb_false_iff in H as [-> H]. auto. Qed.

(** No framing header is read twice. *)
Lemma read_header_once name headers line next : In name framing_names ->
  (List.length (headers_named name headers) <= 1)%nat -> read_header headers line = Ok next ->
  (List.length (headers_named name next) <= 1)%nat.
Proof.
  intros Hname Hh. unfold read_header. destruct (parse_header line) as [h|]; [|done].
  destruct (existsb _ framing_names) eqn:E; [done|]. intros Hok. apply Ok_inj in Hok as <-.
  unfold headers_named in *. rewrite List.filter_app, length_app. cbn [List.filter].
  destruct (header_named name h) eqn:En; [|cbn; lia].
  pose proof (existsb_none _ _ name E Hname) as Hd. cbn beta in Hd. rewrite En in Hd.
  rewrite (filter_none _ _ Hd). cbn. lia.
Qed.

Lemma response_headers_once name raw headers encoded : In name framing_names ->
  response_headers raw = Ok (headers, encoded) -> (List.length (headers_named name headers) <= 1)%nat.
Proof.
  intros Hname. unfold response_headers. destruct (negb _); [done|]. destruct (find_sub _ raw) as [n|]; [|done].
  destruct (negb _); [done|]. destruct (split_sub _ _) as [|first lines]; [done|]. destruct (_ || _); [done|].
  destruct (foldM read_header lines []) as [hs|] eqn:Hf; [|done]. intros Hok. apply Ok_inj in Hok. injection Hok as -> _.
  apply (foldM_inv read_header (fun hs => (List.length (headers_named name hs) <= 1)%nat) lines [] headers); [|cbn; lia|done].
  intros s line s' Hs _. by apply read_header_once.
Qed.

Lemma header_once name headers : (List.length (headers_named name headers) <= 1)%nat -> forall value,
  header name headers = Some value <-> headers_named name headers = [(S2L name, value)].
Proof.
  intros Hl value. unfold header. fold (headers_named name headers).
  assert (Hall : Forall (fun h => fst h = S2L name) (headers_named name headers)).
  { apply List.Forall_forall. intros h Hin. apply List.filter_In in Hin as [_ Hin]. by apply chars_eqb_eq. }
  destruct (headers_named name headers) as [|[k v] [|? ?]]; cbn in *; [|inversion Hall; subst; cbn in *; subst|lia]; naive_solver.
Qed.

Lemma header_none name headers : header name headers = None <-> headers_named name headers = [].
Proof.
  unfold header. fold (headers_named name headers). split; [|by intros ->].
  destruct (headers_named name headers) as [|h l] using rev_ind; [done|]. by rewrite last_snoc.
Qed.

(** ** A response *)

(** The one framing of a response: a declared length that is the size of all bytes after
    the header block, or the chunked coding of a bounded body and nothing else. *)
Inductive framed (headers : header_table) (encoded : chars) : wire_response -> Prop :=
  | framed_length digits :
      headers_named "content-length" headers = [(S2L "content-length", digits)] ->
      headers_named "transfer-encoding" headers = [] ->
      fullmatch CONTENT_LENGTH digits = true -> int_of_digits 10 digits = size_of encoded ->
      framed headers encoded {| wr_framing := "content_length"; wr_declared := Some (size_of encoded); wr_body := encoded |}
  | framed_chunked coding chunks :
      headers_named "transfer-encoding" headers = [(S2L "transfer-encoding", coding)] ->
      headers_named "content-length" headers = [] ->
      map lower_byte coding = S2L "chunked" -> chunked chunks encoded ->
      (List.length chunks <= 31)%nat -> size_of (concat chunks) <= 32768 ->
      framed headers encoded {| wr_framing := "chunked"; wr_declared := None; wr_body := concat chunks |}.

(** C40: a captured response is accepted exactly under the one framing its header block
    declares. *)
Theorem wire_framing_exact raw r :
  parse_http11_response raw = Ok r <->
  exists headers encoded, response_headers raw = Ok (headers, encoded) /\ framed headers encoded r.
Proof.
  unfold parse_http11_response. destruct (response_headers raw) as [[headers encoded]|] eqn:Hh; [|split; [done|by intros (? & ? & ? & _)]].
  cbn [mbind]. assert (Hcl := header_once "content-length" headers (response_headers_once _ _ _ _ (or_introl eq_refl) Hh)).
  assert (Hte := header_once "transfer-encoding" headers (response_headers_once _ _ _ _ (or_intror (or_introl eq_refl)) Hh)).
  pose proof (header_none "content-length" headers) as Ncl. pose proof (header_none "transfer-encoding" headers) as Nte.
  split.
  - destruct (header "content-length" headers) as [digits|]; destruct (header "transfer-encoding" headers) as [coding|]; try done.
    + destruct (fullmatch CONTENT_LENGTH digits) eqn:Ef; [|done]. cbn [negb].
      destruct (Z.eqb_spec (int_of_digits 10 digits) (size_of encoded)) as [Es|]; [|done]. intros Hok. apply Ok_inj in Hok as <-.
      exists headers, encoded. split; [done|]. rewrite Es. apply (framed_length _ _ digits); [by apply Hcl|by apply Nte|done|done].
    + destruct (chars_eqb _ _) eqn:Ec; [|done]. apply chars_eqb_eq in Ec. cbn [negb].
      destruct (decode_chunks encoded) as [body|] eqn:Ed; [|done]. intros Hok. apply Ok_inj in Hok as <-.
      apply chunks_exact in Ed as (chunks & Hc & -> & Hn & Hb). exists headers, encoded. split; [done|].
      apply (framed_chunked _ _ coding); [by apply Hte|by apply Ncl|done..].
  - intros (hs & enc & Hok & Hf). apply Ok_inj in Hok. injection Hok as <- <-. destruct Hf as [digits H1 H2 H3 H4|coding chunks H1 H2 H3 H4 H5 H6].
    + apply Hcl in H1 as ->. apply Nte in H2 as ->. rewrite H3, H4, Z.eqb_refl. done.
    + apply Hte in H1 as ->. apply Ncl in H2 as ->. rewrite H3. change (chars_eqb _ _) with true. cbn [negb].
      assert (decode_chunks encoded = Ok (concat chunks)) as -> by (apply chunks_exact; eauto). done.
Qed.

(** A chunked response of two chunks, and the same bytes with a byte behind them. *)
Definition lines_of (l : list string) : chars := concat (map (fun s => S2L s ++ CRLF) l).
Definition sample_response : chars :=
  lines_of ["HTTP/1.1 200 OK"; "Server: nginx"; "Transfer-Encoding: chunked"; ""; "9"; "transport"; "d"; " fixture body"; "0"; ""].

Example sample_framed :
  parse_http11_response sample_response =
    Ok {| wr_framing := "chunked"; wr_declared := None; wr_body := S2L "transport fixture body" |} /\
  parse_http11_response (sample_response ++ S2L "x") = wire_error "actual terminal chunk must finish the response exactly".
Proof. split; vm_compute; reflexivity. Qed.
