(* ===== verification/NativeContract.v ===== *)
(** * Facts of native operations (nginx_native_operation_projection.py, nginx_native_operation_contract.py)

    The closed cases and routes of native operations and the shape of a native event
    (nginx_native_operation_bundle.py); the projection of a verified proof: its identity,
    the events a case is judged by and what is measured beside them; and the contract that
    maps every field a case expects to values of the proof, each with the place it was
    taken from: a line of a retained event log, an entry of the retained observation, a
    sealed receipt or captured bytes.  A proof is the dictionary the reader of a bundle
    returns; its retained bytes are a field of their own. *)

From S2P Require Export NativeRecord Http11.
From Stdlib Require Import QArith.
#[global] Open Scope Z_scope.

(** ** The closed cases *)

Definition RAW_CASES : list string :=
  ["invalid_content_length"; "conflicting_content_length"; "duplicate_transfer_encoding";
   "content_length_overflow"].
Definition INPUT_CASES : list string :=
  ["body_size_nonzero_with_null_data"; "header_count_nonzero_with_null_headers"].
Definition MIME_CASES : list string :=
  ["phase4_in_scope_content_type"; "phase4_content_type_with_charset"; "phase4_out_of_scope_content_type";
   "phase4_missing_content_type"].
Definition PHASE4_CASES : list string :=
  ["phase4_marker_split_across_chunks"; "phase4_end_of_stream_evaluation";
   "phase4_deny_after_commit_log_only_minimal"; "phase4_body_at_limit"; "phase4_body_over_limit";
   "phase4_body_process_partial"; "phase4_body_reject"; "full_lifecycle_event_metadata_bounded"].
Definition EVENT_CASES : list string :=
  ["event_metadata_truncation"; "event_json_limit"].
Definition SEQUENCE_CASES : list string :=
  ["single_request_cleanup"; "multiple_sequential_requests"; "keep_alive_requests_if_supported";
   "clean_shutdown"; "keepalive_allow_allow"; "keepalive_allow_deny_allow"; "early_mapping_failure_cleanup";
   "transaction_begin_failure_cleanup"; "phase4_strict_http1_client_abort"; "phase4_strict_host_survives";
   "phase4_strict_followup_request_succeeds"; "keepalive_after_strict_new_connection";
   "keepalive_safe_followup"; "response_short_write_resume"; "response_write_would_block_resume";
   "transport_keep_alive"; "transport_sequential_requests"; "finish_failure_propagation";
   "engine_timeout_before_commit"; "engine_timeout_after_commit"; "transport_http11_content_length";
   "transport_http11_chunked"].
Definition CASE_IDS : list string :=
  RAW_CASES ++ INPUT_CASES ++ MIME_CASES ++ PHASE4_CASES ++ EVENT_CASES ++ SEQUENCE_CASES.

Definition ROUTES : list (list string * (string * string)) :=
  [(RAW_CASES, ("native_h1_parser_rejection", "nginx_raw_h1"));
   (INPUT_CASES, ("common_mapper_input_fault", "nginx_common_input_faults"));
   (MIME_CASES, ("native_phase4_request", "nginx_mime_operations"));
   (PHASE4_CASES, ("native_phase4_request", "nginx_phase4_operations"));
   (EVENT_CASES, ("native_event_boundary_request", "nginx_event_boundary_operations"));
   (SEQUENCE_CASES, ("request_sequence", "nginx_lifecycle_sequence"))].

(** Operation and helper of a case. *)
Definition route (case_id : pyval) : res (string * string) :=
  match case_id with
  | PStr s => match find (fun r => str_in s (fst r)) ROUTES with
              | Some (_, r) => Ok r
              | None => refuse "unknown closed native operation case"
              end
  | _ => refuse "bounded native case identity required"
  end.

Definition run_id_char (c : ascii) : bool := is_alnum c || (ord c =? 95) || (ord c =? 45).
Definition RUN_ID : re := RRep (RCls run_id_char) 1 (Some 128%nat).
Definition is_run_id (v : pyval) : bool := match v with PStr s => fullmatch_str RUN_ID s | _ => false end.

(** [type(a) is type(b)] *)
Definition same_class (a b : pyval) : bool :=
  match a, b with
  | PNone, PNone | PBool _, PBool _ | PInt _, PInt _ | PFloat _ _, PFloat _ _ | PStr _, PStr _
  | PList _, PList _ | PDict _, PDict _ => true
  | _, _ => false
  end.
Definition exact_value (v : pyval) (expected : list (string * pyval)) : bool :=
  match v with
  | PDict d => forallb (fun e => same_class (dict_get (fst e) d) (snd e) && py_eq (dict_get (fst e) d) (snd e)) expected
  | _ => false
  end.
Definition exact (v : pyval) (expected : list (string * pyval)) (label : string) : res unit :=
  demand (exact_value v expected) (label +:+ " mismatch").

(** ** Native events *)

Definition EVENT_STRING_FIELDS : list string :=
  ["timestamp"; "level"; "message_id"; "message"; "event"; "connector"; "integration_mode"; "run_id";
   "transport_case_id"; "transaction_id"; "phase"; "status"; "action"; "requested_action"; "actual_action";
   "transport_result"; "http_reason_phrase"; "http_default_message"; "rule_id"; "reason"; "method"; "uri";
   "client_ip"; "content_type"; "body_limit_outcome"; "late_intervention_mode"; "requested_protocol";
   "downstream_protocol"; "upstream_protocol"; "negotiated_protocol"; "transport"; "alpn"; "stream_id";
   "connection_id"; "quic_version"; "stream_reset_code"; "reset_by"; "reset_code"; "timeout_stage";
   "write_result"; "cleanup_reason"].
Definition EVENT_BOOLEAN_FIELDS : list string :=
  ["late_intervention"; "response_started"; "response_committed"; "headers_sent"; "body_started";
   "body_truncated"; "connection_aborted"; "client_disconnected"; "upstream_disconnected"; "cancelled";
   "eos_seen"; "redacted"; "truncated"; "connection_reused"; "quic_connection_id_present"; "fallback_used";
   "stream_reset"].
Definition EVENT_COUNTER_FIELDS : list string :=
  ["body_bytes_seen"; "body_bytes_inspected"; "sequence"; "previous_event_hash"; "event_hash"].
Definition EVENT_HTTP_FIELDS : list string :=
  ["http_status"; "original_http_status"; "visible_http_status"].
Definition EVENT_PHASES : list string :=
  ["connection"; "uri"; "request_headers"; "request_body"; "response_headers"; "response_body"; "logging"].

(** [len(s.encode("utf-8"))] *)
Definition encoded_size (s : string) : Z := fold_right (fun c n => (if ord c <? 128 then 1 else 2) + n) 0 (S2L s).

Definition native_event_field (field : string) (value : pyval) : res unit :=
  if str_in field EVENT_STRING_FIELDS then
    demand (match value with PStr s => negb (char_in s (chr 0)) && (encoded_size s <=? 255) | _ => false end)
      ("bounded actual source string required: " +:+ field)
  else if str_in field EVENT_BOOLEAN_FIELDS then
    demand (is_bool value) ("actual source boolean required: " +:+ field)
  else
    let limit := if str_in field EVENT_HTTP_FIELDS then 999 else 2 ^ 64 - 1 in
    demand (match value with PInt z => (0 <=? z) && (z <=? limit) | _ => false end)
      ("bounded actual source integer required: " +:+ field).

Definition native_event_shape (event : pydict) : res unit :=
  let fields := EVENT_STRING_FIELDS ++ EVENT_BOOLEAN_FIELDS ++ EVENT_COUNTER_FIELDS ++ EVENT_HTTP_FIELDS in
  demand (keys_within event fields) "unknown native source event field" ;;;
  demand (forallb (fun k => dict_has k event)
            ["event"; "message_id"; "connector"; "integration_mode"; "transaction_id"; "phase"; "status"; "rule_id"])
    "actual native event identity/phase/status fields required" ;;;
  forM (fun kv => match fst kv with
                  | PStr field => native_event_field field (snd kv)
                  | _ => Err (TypeError "can only concatenate str")
                  end) event ;;;
  demand (in_strs (dict_get "phase" event) EVENT_PHASES) "actual source phase name required" ;;;
  demand (in_strs (dict_get "status" event) ["ok"; "blocked"; "error"; "unsupported"]) "actual source status name required".

(** [bytes.splitlines] *)
Fixpoint bytes_lines (acc l : chars) : list chars :=
  match l with
  | [] => match acc with [] => [] | _ => [rev acc] end
  | c :: r =>
      if ord c =? 10 then rev acc :: bytes_lines [] r
      else if ord c =? 13 then
        rev acc :: match r with
                   | d :: r' => if ord d =? 10 then bytes_lines [] r' else bytes_lines [] r
                   | [] => []
                   end
      else bytes_lines (c :: acc) r
  end.
Definition bytes_splitlines (raw : chars) : list chars := bytes_lines [] raw.
Definition nonblank_line (line : chars) : bool := negb (forallb is_byte_space line).

Definition FORBIDDEN_NAMES : list string :=
  ["payload"; "password"; "secret"; "authorization"; "cookie"; "request_body"; "response_body"; "raw_query"].
Definition forbidden_name (key : string) : bool :=
  existsb (fun w => contains w (py_lower key)) FORBIDDEN_NAMES || str_in key ["data"; "metadata"; "query"; "query_string"].

(** The retained bytes of an invocation. *)
Definition artifacts := list (string * chars).

(** [json.dumps(v, allow_nan=False)]: the items of a dictionary in their order. *)
Fixpoint json_text (v : pyval) : string :=
  match v with
  | PNone => "null"
  | PBool true => "true"
  | PBool false => "false"
  | PInt z => dec z
  | PFloat _ r => r
  | PStr s => json_str s
  | PList l => "[" +:+ String.concat ", " (map json_text l) +:+ "]"
  | PDict d => "{" +:+ String.concat ", " (map (fun kv => json_str (py_str (fst kv)) +:+ ": " +:+ json_text (snd kv)) d) +:+ "}"
  end.

(** The proof of a retained bundle: its entries, and the retained bytes of each invocation. *)
Record strict_proof := { sp_fields : pydict; sp_raw : list (string * artifacts) }.
Definition sp_get (key : string) (p : strict_proof) : pyval := dict_get key (sp_fields p).
Definition sp_item (key : string) (p : strict_proof) : res pyval := dict_item key (sp_fields p).

(** [except (TypeError, KeyError, AttributeError, ...)]: a proof or case of another shape
    is refused. *)
Definition shape_exception (e : exn) : bool :=
  match e with TypeError _ | KeyError _ | AttributeError _ => true | _ => false end.

(** ** Measurements *)

Definition reason_key_char (c : ascii) : bool := is_lower c || (ord c =? 95).
Definition REASON_PAIR : re :=
  RCat (RPlus (RCls reason_key_char)) (RCat (RLit "=") (RCat (ROpt (RLit "-")) (RPlus (RCls is_digit)))).
Definition REASON : re := RCat REASON_PAIR (RStar (RCat (RLit ";") REASON_PAIR)).

(** [int(s)] for an optional minus and digits. *)
Definition signed_int (s : string) : Z :=
  match S2L s with
  | c :: r => if ord c =? 45 then - int_of_digits 10 r else int_of_digits 10 (S2L s)
  | [] => 0
  end.

(** The measurements a reason text states. *)
Definition reason_fields (reason : pyval) : option (list (string * Z)) :=
  match reason with
  | PStr s =>
      if fullmatch_str REASON s then
        let pairs := map (fun part => match py_split1 "=" part with Some (k, v) => (k, signed_int v) | None => (part, 0) end)
                       (py_split ";" s) in
        if nodupb String.eqb (map fst pairs) then Some pairs else None
      else None
  | _ => None
  end.

Definition reason_measurements (events : list pydict) : res (list pyval) :=
  let* measured := mapM (fun event =>
    match reason_fields (dict_get "reason" event) with
    | None => Ok []
    | Some pairs =>
        let* transaction := dict_item "transaction_id" event in
        let* name := dict_item "event" event in
        Ok [PDict (mkdict [("transaction_id", transaction); ("event", name);
                           ("reason_fields", PDict (mkdict (map (fun p => (fst p, PInt (snd p))) pairs)))])]
    end) events in
  Ok (concat measured).

Definition _RECEIPT_FIELDS : list string :=
  ["observed_http_status"; "response_bytes_received"; "client_exit_code"; "configtest_exit_code"; "observed_exit_code";
   "effective_phase4_mode"; "first_body_byte_before_upstream_eos"; "upstream"; "roles"; "cleanup"; "uri_buffer_bytes";
   "writer_buffer_bytes"; "variant"].
Definition MEASURED_FIELDS : list string :=
  ["protocol"; "roles"; "cleanup"; "native_access"; "fault"; "native_begin"; "native_finish"; "native_budget"; "native_cleanup"].
Definition EVENT_LEAVES : list string := ["phase1-events.jsonl"; "phase4-events.jsonl"; "native-events.jsonl"].
Definition HTTP11_CASES : list string := ["transport_http11_content_length"; "transport_http11_chunked"].

(** [{key: value for key, value in d.items() if key in names}] *)
Definition items_in (names : list string) (d : pydict) : pydict := List.filter (fun kv => in_strs (fst kv) names) d.

Section Facts.
Variables (case_catalog_schema : pyval) (fuel : nat) (digest : chars -> string).
Variable exception_text : exn -> string.
(** The decoder of a JSON object. *)
Variable json_object : chars -> res pydict.

Definition json_lines (raw : chars) : res (list pydict) := mapM json_object (List.filter nonblank_line (bytes_splitlines raw)).

Definition actual_event (event : pydict) : res unit :=
  exact (PDict event) [("connector", PStr "nginx"); ("integration_mode", PStr MODE)] "actual native event producer" ;;;
  demand (forallb (fun k => is_str (dict_get k event)) ["rule_id"; "transaction_id"; "event"; "message_id"])
    "actual native event identity/rule fields required" ;;;
  match str_keys event with
  | None => Err (TypeError "expected string or bytes-like object")
  | Some names =>
      demand (negb (existsb forbidden_name names)) "native event contains forbidden payload/secret metadata" ;;;
      demand (negb (existsb (fun kv => is_mapping (snd kv) || is_list (snd kv)) event))
        "native event must retain flat bounded metadata" ;;;
      native_event_shape event
  end.

Definition actual_events (raw : artifacts) (leaf : string) : res (list pydict) :=
  match entry leaf raw with
  | None => refuse ("missing actual raw artifacts: " +:+ leaf)
  | Some text =>
      demand (forallb (fun line => size_of line + 1 <=? 8192) (List.filter nonblank_line (bytes_splitlines text)))
        "bounded native JSONL records required" ;;;
      let* events := json_lines text in
      forM actual_event events ;;; Ok events
  end.

Definition measured_bytes (label : string) (data : chars) : pyval :=
  PDict (mkdict [(label, PInt (size_of data)); ("sha256", PStr (digest data))]).

Definition invocation_facts (p : strict_proof) (name : string) (receipt : pydict) : res pydict :=
  let raw := match entry name (sp_raw p) with Some raw => raw | None => [] end in
  let facts := mkdict
    [("receipt_fields", PDict (items_in _RECEIPT_FIELDS receipt));
     ("artifact_measurements", PDict (mkdict (map (fun a => (fst a, measured_bytes "bytes" (snd a))) raw)));
     ("native_jsonl_measurements", PDict (mkdict
        (map (fun a => (fst a, PList (map (measured_bytes "line_bytes") (List.filter nonblank_line (bytes_splitlines (snd a))))))
           (List.filter (fun a => str_in (fst a) EVENT_LEAVES) raw))))] in
  let* case_id := sp_item "case_id" p in
  let* http11 := in_str_set case_id HTTP11_CASES in
  if http11 then
    match entry "response-wire.bin" raw with
    | None => Err (KeyError "response-wire.bin")
    | Some wire => let* r := parse_http11_response wire in
                   Ok (dict_set "downstream_wire_measurements" (PDict (wire_fields digest r)) facts)
    end
  else Ok facts.

(** The receipts of a proof, by the names of their invocations. *)
Definition receipts (v : pyval) : res (list (string * pyval)) :=
  let* d := mapping v in
  mapM (fun kv => match fst kv with PStr name => Ok (name, snd kv) | _ => Err (TypeError "invocation name") end) d.

Definition mapping_facts (p : strict_proof) (events : list pydict) : res pydict :=
  let* named := receipts (dict_get_or (PDict []) "invocation_receipts" (sp_fields p)) in
  let* invocations := foldM (fun d r =>
    let* receipt := mapping (snd r) in
    let* facts := invocation_facts p (fst r) receipt in Ok (dict_set (fst r) (PDict facts) d)) named [] in
  let* measured := reason_measurements events in
  let facts := mkdict [("invocations", PDict invocations); ("native_reason_measurements", PList measured)] in
  let* facts :=
    match sp_get "observation" p with
    | PDict observation =>
        let fields := concat (map (fun key => match dict_find key observation with Some v => [(key, v)] | None => [] end)
                                MEASURED_FIELDS) in
        let facts := dict_set "observation_fields" (PDict (mkdict fields)) facts in
        match dict_find "requests" observation with
        | None => Ok facts
        | Some requests =>
            let* rows := iterate requests in
            let* rows := mapM mapping rows in
            Ok (dict_set "actual_request_measurements"
                  (PList (map (fun row => PDict (List.filter (fun kv => negb (eq_str (fst kv) "path")) row)) rows)) facts)
        end
    | _ => Ok facts
    end in
  Ok (match dict_find "actual_statuses" (sp_fields p) with
      | Some v => dict_set "actual_statuses" v facts
      | None => facts
      end).

(** ** The declared operations *)

(** [schema\["properties"\]\["cases"\]\["items"\]\["allOf"\]\[1\]\["then"\]\["anyOf"\]] *)
Definition native_branches : res (list pyval) :=
  let* rules := item_path ["properties"; "cases"; "items"; "allOf"] case_catalog_schema in
  match rules with
  | PList (_ :: rule :: _) => let* branches := item_path ["then"; "anyOf"] rule in iterate branches
  | PList _ => Err (RuntimeError "list index out of range")
  | _ => Err (TypeError "object is not subscriptable")
  end.
Definition branch_case (branch : pyval) : res pyval := item_path ["properties"; "case_id"; "const"] branch.
Definition branch_descriptor (branch : pyval) : res pyval :=
  item_path ["properties"; "native_invocations"; "const"; "nginx"] branch.

Definition descriptors := list (pyval * pydict).

Definition register (known : descriptors) (branch : pyval) : res descriptors :=
  let* case_id := branch_case branch in
  let* value := branch_descriptor branch in
  (if hashable case_id then Ok tt else Err (TypeError "unhashable type")) ;;;
  let* descriptor := mapping value in
  let* declared := if existsb (fun d => py_eq (fst d) case_id) known then Ok false
                   else let* contract := dict_item "contract_case_id" descriptor in Ok (py_eq contract case_id) in
  let* routed := if declared : bool
                 then let* operation := dict_item "operation" descriptor in
                      let* (expected, _) := route case_id in Ok (py_eq operation (PStr expected))
                 else Ok false in
  demand routed "invalid controlled native descriptor" ;;;
  Ok (known ++ [(case_id, descriptor)]).

Definition descriptor_registry : res descriptors :=
  let* branches := native_branches in
  let* known := foldM register branches [] in
  demand (set_eqb (map fst known) CASE_IDS) "controlled CaseSchema must declare exactly42 native cases" ;;;
  Ok known.

Definition _TECHNICAL : list (string * (string * string * string)) :=
  [("body_size_nonzero_with_null_data", ("connector_error", "MSCONN_EVENT_CONNECTOR_ERROR", "request_headers"));
   ("header_count_nonzero_with_null_headers", ("connector_error", "MSCONN_EVENT_CONNECTOR_ERROR", "request_headers"));
   ("early_mapping_failure_cleanup", ("protocol_error", "MSCONN_EVENT_PROTOCOL_ERROR", "request_headers"));
   ("transaction_begin_failure_cleanup", ("connector_error", "MSCONN_EVENT_CONNECTOR_ERROR", "request_headers"));
   ("finish_failure_propagation", ("invalid_engine_response", "MSCONN_EVENT_INVALID_ENGINE_RESPONSE", "logging"));
   ("engine_timeout_before_commit", ("engine_timeout", "MSCONN_EVENT_ENGINE_TIMEOUT", "request_headers"));
   ("engine_timeout_after_commit", ("engine_timeout", "MSCONN_EVENT_ENGINE_TIMEOUT", "response_body"))].
Definition _P4_MESSAGES : list (string * string) :=
  [("phase4_append", "MSCONN_PHASE4_APPEND"); ("phase4_completion", "MSCONN_PHASE4_COMPLETE");
   ("phase4_intervention", "MSCONN_EVENT_PHASE4_LATE_INTERVENTION"); ("body_limit", "MSCONN_EVENT_BODY_LIMIT")].

(** ** The identity of a proof *)

(** [next(descriptor for branch in branches if ...)] *)
Fixpoint declared_descriptor (case_id : pyval) (branches : list pyval) : res pyval :=
  match branches with
  | [] => Err (ValueError "invalid native projection: ")
  | branch :: rest =>
      let* declared := branch_case branch in
      if py_eq declared case_id then branch_descriptor branch else declared_descriptor case_id rest
  end.

Definition canonical_text (v : pyval) : string := json_dumps ", " ": " v.

(** The suffix of the run of an invocation of an event case. *)
Definition variant_of (name : string) : string :=
  if String.eqb name "at" then "at255" else if String.eqb name "over" then "over256" else "long-query".

Definition invocation_names (case_id : string) : list string :=
  if String.eqb case_id "event_json_limit" then ["at"; "over"] else ["main"].

Definition bound_invocation (case_id operation run_id : string) (invocation : string * pyval) : res unit :=
  let* receipt := mapping (snd invocation) in
  let expected := if str_in case_id EVENT_CASES then run_id +:+ "-" +:+ variant_of (fst invocation) else run_id in
  demand (eq_str (dict_get "run_id" receipt) expected && eq_str (dict_get "case_id" receipt) case_id
          && eq_str (dict_get "operation" receipt) operation) "actual invocation identity mismatch".

(** The case, its operation and its run. *)
Definition validate_identity (case : pydict) (p : strict_proof) : res (string * string * string) :=
  let case_value := dict_get "case_id" case in
  let* (operation, _) := route case_value in
  let case_id := py_str case_value in
  let* errors :=
    match case_catalog_schema with
    | PDict root =>
        let* item := item_path ["properties"; "cases"; "items"] case_catalog_schema in
        let* schema := mapping item in
        json_schema_errors fuel (PDict case) schema (Some root) "native case"
    | _ => Err (TypeError "object is not subscriptable")
    end in
  demand (match errors with [] => true | _ => false end) (py_join "; " errors) ;;;
  let* declared := item_path ["native_invocations"; "nginx"] (PDict case) in
  let* branches := native_branches in
  let* descriptor := declared_descriptor case_value branches in
  demand (String.eqb (canonical_text declared) (canonical_text descriptor)) "exact declared native descriptor required" ;;;
  exact (PDict (sp_fields p)) [("layer_verified", PBool true); ("errors", PList []); ("case_id", PStr case_id);
                               ("operation", PStr operation)] "verified operation proof" ;;;
  demand (is_run_id (sp_get "run_id" p)) "bounded verified run required" ;;;
  let run_id := py_str (sp_get "run_id" p) in
  demand (match sp_get "actual_status" p with PInt z => (100 <=? z) && (z <=? 599) | _ => false end)
    "actual visible HTTP status required" ;;;
  exact (sp_get "receipt" p) [("case_id", PStr case_id); ("operation", PStr operation); ("run_id", PStr run_id)]
    "actual main receipt identity" ;;;
  let names := invocation_names case_id in
  match sp_get "invocation_receipts" p with
  | PDict d =>
      demand (set_eqb (keys d) names && set_eqb (map (fun r => PStr (fst r)) (sp_raw p)) names)
        "closed verified invocation proof required" ;;;
      let* named := receipts (PDict d) in
      forM (bound_invocation case_id operation run_id) named ;;;
      Ok (case_id, operation, run_id)
  | _ => refuse "closed verified invocation proof required"
  end.

(** ** The events a case is judged by *)

Definition event_named (names : list string) (event : pydict) : res bool :=
  let* name := dict_item "event" event in in_str_set name names.

Definition exact_event (event : pydict) (expected : list (string * string)) (label : string) : res unit :=
  exact (PDict event) (map (fun e => (fst e, PStr (snd e))) expected) label.

Definition selected_events (case_id : string) (events : list pydict) (transactions : list string) : res (list pydict) :=
  if str_in case_id RAW_CASES then
    demand (match events, transactions with [], [] => true | _, _ => false end)
      "preconnector rejection cannot have admitted native events/TX" ;;; Ok []
  else match entry case_id _TECHNICAL with
  | Some (name, message, phase) =>
      let* selected := filterM (event_named [name]) events in
      match selected with
      | [first] =>
          exact_event first [("phase", phase); ("message_id", message); ("rule_id", ""); ("status", "error")]
            "actual technical phase/Rule" ;;;
          if starts_with "engine_timeout_" case_id then
            let* timing := filterM (event_named ["engine_call_budget_exceeded"]) events in
            match timing with
            | [budget] =>
                let* transaction := dict_item "transaction_id" first in
                exact (PDict budget) [("phase", PStr phase); ("message_id", PStr "MSCONN_ENGINE_CALL_BUDGET");
                                      ("rule_id", PStr ""); ("transaction_id", transaction)]
                  "actual budget timing identity" ;;;
                Ok [first; budget]
            | _ => refuse "actual budget timing/native error pair required"
            end
          else Ok [first]
      | _ => refuse "one actual technical native event required"
      end
  | None =>
      if str_in case_id EVENT_CASES then
        let* selected := filterM (event_named ["rule_match"]) events in
        demand (Nat.eqb (List.length selected) (List.length transactions) && negb (Nat.eqb (List.length selected) 0))
          "actual event-boundary native matches required" ;;;
        forM (fun event => exact_event event [("phase", "request_headers"); ("message_id", "MSCONN_EVENT_RULE_MATCHED");
                                              ("rule_id", "1100402")] "actual event-boundary Rule/phase") selected ;;;
        Ok selected
      else if str_in case_id (PHASE4_CASES ++ MIME_CASES) then
        let* selected := filterM (event_named (map fst _P4_MESSAGES)) events in
        demand (negb (Nat.eqb (List.length selected) 0)) "actual Phase4 observations required" ;;;
        forM (fun event =>
          let* name := dict_item "event" event in
          let rule := if eq_str name "phase4_intervention" then "1100301" else "" in
          let message := match entry (py_str name) _P4_MESSAGES with Some m => m | None => "" end in
          exact_event event [("phase", "response_body"); ("message_id", message); ("rule_id", rule)]
            "actual Phase4 Rule/phase") selected ;;;
        Ok selected
      else
        let* cleanup := mapM (fun event => let* c := event_named ["transaction_cleanup"] event in
                                           Ok (if c : bool then [] else [event])) events in
        Ok (concat cleanup)
  end.

Definition NATIVE_PHASES : list string := ["request_headers"; "request_body"; "response_headers"; "response_body"; "logging"].

(** One event of a proof, after the cleanup of the transactions in [cleaned]. *)
Definition judged_event (case_id : string) (transactions : list string) (cleaned : list string) (event : pydict)
    : res (list string) :=
  let* known := in_str_set (dict_get "phase" event) NATIVE_PHASES in
  demand known "actual serialized native phase required" ;;;
  let allowed := if String.eqb case_id "early_mapping_failure_cleanup" then [""] else transactions in
  let* transaction := dict_item "transaction_id" event in
  let* verified := in_str_set transaction allowed in
  demand verified "native event differs from verified operation TX" ;;;
  demand (negb (in_strs transaction cleaned)) "native events cannot follow actual transaction cleanup" ;;;
  let* name := dict_item "event" event in
  (if eq_str name "transaction_cleanup"
   then exact_event event [("phase", "logging"); ("message_id", "MSCONN_TRANSACTION_CLEANUP"); ("rule_id", "")]
          "actual cleanup phase/Rule"
   else Ok tt) ;;;
  (if eq_str (dict_get "status" event) "blocked" && eq_str (dict_get "phase" event) "request_headers"
   then exact (PDict event)
          [("event", PStr "engine_decision"); ("message_id", PStr "MSCONN_EVENT_ENGINE_DECISION"); ("rule_id", PStr "1100001");
           ("action", PStr "deny"); ("requested_action", PStr "deny"); ("actual_action", PStr ""); ("http_status", PInt 403);
           ("visible_http_status", PInt 0); ("transport_result", PStr "not_observable")]
          "actual request deny Rule/action/status"
   else Ok tt) ;;;
  demand (negb (str_in case_id INPUT_CASES) || in_strs name ["connector_error"; "transaction_cleanup"])
    "pointer terminal proof contains foreign native operation" ;;;
  Ok (if eq_str name "transaction_cleanup" then py_str transaction :: cleaned else cleaned).

(** The events of a proof, those a case is judged by, and the transactions. *)
Definition judged_events (p : strict_proof) (case_id : string) : res (list pydict * list pydict * list string) :=
  let required := "actual native event/TX lists required" in
  match sp_get "events" p, sp_get "transaction_ids" p with
  | PList events, PList transactions =>
      demand (forallb is_run_id transactions && nodupb String.eqb (map py_str transactions)) required ;;;
      let transactions := map py_str transactions in
      actual_events [("events", join_chars [chr 10] (map (fun e => S2L (json_text e)) events))] "events" ;;;
      let* events := mapM mapping events in
      foldM (judged_event case_id transactions) events [] ;;;
      let* selected := selected_events case_id events transactions in
      Ok (events, selected, transactions)
  | _, _ => refuse required
  end.

(** ** The projection *)

Definition status_demanded (p : strict_proof) (cases : list string) (case_id : string) (status : Z) (m : string) : res unit :=
  if str_in case_id cases then let* actual := sp_item "actual_status" p in demand (eq_int actual status) m else Ok tt.

Definition first_event (selected : list pydict) : res pydict :=
  match selected with event :: _ => Ok event | [] => Err (RuntimeError "list index out of range") end.

Definition visible_status (p : strict_proof) (case_id : string) (selected : list pydict) : res unit :=
  status_demanded p RAW_CASES case_id 400 "actual wire rejection status required" ;;;
  status_demanded p INPUT_CASES case_id 500 "actual internal mapper failure status required" ;;;
  status_demanded p ["clean_shutdown"; "finish_failure_propagation"; "engine_timeout_after_commit"] case_id 200
    "actual already-visible response status required" ;;;
  status_demanded p ["engine_timeout_before_commit"] case_id 504 "actual precommit timeout wire status required" ;;;
  let* named := receipts (dict_get_or (PDict []) "invocation_receipts" (sp_fields p)) in
  forM (fun r =>
    let* receipt := mapping (snd r) in
    match dict_find "observed_http_status" receipt with
    | None => Ok tt
    | Some status => let* actual := sp_item "actual_status" p in
                     demand (py_eq status actual) "actual receipt/wire status contradiction"
    end) named ;;;
  (if String.eqb case_id "finish_failure_propagation"
   then let* first := first_event selected in
        exact (PDict first) [("http_status", PInt 0); ("original_http_status", PInt 200); ("visible_http_status", PInt 200)]
          "actual finish native/wire status"
   else Ok tt) ;;;
  (if starts_with "engine_timeout_" case_id
   then let* first := first_event selected in
        exact (PDict first) [("http_status", PInt 504)] "actual native timeout status"
   else Ok tt).

Record projected := {
  pj_case_id : string; pj_run_id : string; pj_operation : string; pj_descriptor : pydict; pj_overrides : pydict;
  pj_actual_status : pyval; pj_transactions : list string; pj_events : list pydict; pj_selected : list pydict;
  pj_cleanup : list pydict; pj_observed_fields : list string; pj_mapping : pydict }.

Definition event_keys (event : pydict) : res (list string) :=
  match str_keys event with Some names => Ok names | None => Err (TypeError "not supported between instances") end.

Definition projection_of (registry : descriptors) (case : pydict) (p : strict_proof) : res projected :=
  let* (case_id, operation, run_id) := validate_identity case p in
  let* (events, selected, transactions) := judged_events p case_id in
  visible_status p case_id selected ;;;
  let* descriptor := match find (fun d => eq_str (fst d) case_id) registry with
                     | Some (_, d) => Ok d
                     | None => Err (KeyError case_id)
                     end in
  let* overrides := mapping (dict_get_or (PDict []) "expected_overrides" descriptor) in
  let* status := sp_item "actual_status" p in
  let* cleanup := filterM (event_named ["transaction_cleanup"]) events in
  let* names := mapM event_keys selected in
  let* facts := mapping_facts p events in
  Ok {| pj_case_id := case_id; pj_run_id := run_id; pj_operation := operation; pj_descriptor := descriptor;
        pj_overrides := overrides; pj_actual_status := status; pj_transactions := transactions; pj_events := events;
        pj_selected := selected; pj_cleanup := cleanup;
        pj_observed_fields := sort_strs (dedup String.eqb (concat names)); pj_mapping := facts |}.

(** The registry is made when the module is loaded, outside the handler. *)
Definition project_native_operation (case : pydict) (p : strict_proof) : res projected :=
  let* registry := descriptor_registry in
  match projection_of registry case p with
  | Err e => Err (if shape_exception e then ValueError ("invalid native projection: " +:+ exception_text e) else e)
  | r => r
  end.
End Facts.

(** ** The closed contract of the facts *)

Definition CASE_RESULTS : list (string * string) :=
  map (fun c => (c, "rejected_by_host_before_connector_or_connector_rejection")) RAW_CASES
  ++ map (fun c => (c, "mapping_error")) INPUT_CASES
  ++ [("event_metadata_truncation", "event_metadata_truncated"); ("event_json_limit", "event_bounded_or_truncated");
      ("single_request_cleanup", "clean_shutdown"); ("clean_shutdown", "clean_shutdown");
      ("multiple_sequential_requests", "sequence_complete");
      ("keep_alive_requests_if_supported", "sequence_complete_or_host_unsupported")]
  ++ map (fun c => (c, "failure_propagated_and_cleaned"))
       ["early_mapping_failure_cleanup"; "transaction_begin_failure_cleanup"; "finish_failure_propagation"]
  ++ [("phase4_marker_split_across_chunks", "marker_split_across_chunks");
      ("phase4_end_of_stream_evaluation", "end_of_stream_evaluation");
      ("phase4_deny_after_commit_log_only_minimal", "late_intervention_log_only_safe");
      ("phase4_in_scope_content_type", "content_type_in_scope");
      ("phase4_content_type_with_charset", "content_type_in_scope_with_charset");
      ("phase4_out_of_scope_content_type", "content_type_out_of_scope");
      ("phase4_missing_content_type", "content_type_missing")]
  ++ map (fun c => (c, c))
       ["transport_http11_content_length"; "transport_http11_chunked"; "transport_keep_alive"; "transport_sequential_requests";
        "keepalive_allow_allow"; "keepalive_allow_deny_allow"; "keepalive_safe_followup"; "engine_timeout_before_commit";
        "engine_timeout_after_commit"; "response_short_write_resume"; "response_write_would_block_resume"]
  ++ map (fun c => (c, "connection_aborted_strict"))
       ["phase4_strict_http1_client_abort"; "phase4_strict_host_survives"; "phase4_strict_followup_request_succeeds";
        "keepalive_after_strict_new_connection"]
  ++ map (fun suffix => ("phase4_body_" +:+ suffix, "response_body_" +:+ suffix)) ["at_limit"; "over_limit"; "process_partial"; "reject"]
  ++ [("full_lifecycle_event_metadata_bounded", "event_bounded_or_truncated")].

Definition PHASES : list (Z * string) :=
  [(1, "request_headers"); (2, "request_body"); (3, "response_headers"); (4, "response_body"); (5, "logging")].
Definition phase_text (v : pyval) : res string :=
  if hashable v then match find (fun p => eq_int v (fst p)) PHASES with
                     | Some (_, name) => Ok name
                     | None => Err (KeyError (py_repr v))
                     end
  else Err (TypeError "unhashable type").

Definition HOST_FIELDS : list string :=
  ["run_id"; "transport_case_id"; "connection_id"; "connection_reused"; "transport_protocol"; "transfer_encoding";
   "timeout_stage"; "write_result"; "cleanup_reason"].
Definition DERIVED_FIELDS : list string :=
  ["marker_split_across_chunks"; "end_of_stream_evaluation"; "body_started"; "content_type_scope"; "body_limit_outcome";
   "truncated"; "eos_seen"; "transport_result"].

Definition MARKER : string := "no-crs-response-body-marker".
Definition SEAL_PATTERN : re := RTimes (RCls is_hex_lower) 64.

Definition TIMEOUT_CASES : list string := ["engine_timeout_before_commit"; "engine_timeout_after_commit"].
Definition WRITE_CASES : list string := ["response_short_write_resume"; "response_write_would_block_resume"].
Definition KEEPALIVE_CASES : list string := ["keepalive_allow_allow"; "keepalive_allow_deny_allow"].

(** ** Writes (nginx_lifecycle_sequence.py) *)

Definition positive_integer (v : pyval) : bool := match v with PInt z => 0 <? z | _ => false end.
Definition is_plain_int (v : pyval) : bool := match v with PInt _ => true | _ => false end.
Definition int_or_zero (v : pyval) : Z := match v with PInt z => z | _ => 0 end.

(** A write that is short, or would block. *)
Definition short_write (row : pydict) : bool :=
  let returned := int_or_zero (dict_get "returned_bytes" row) in
  (0 <? returned) && (returned <? int_or_zero (dict_get "requested_bytes" row)) && eq_int (dict_get "errno" row) 0.
Definition blocked_write (row : pydict) : bool :=
  eq_int (dict_get "returned_bytes" row) (-1) && eq_int (dict_get "errno" row) 11.
Definition requested_fault (case_id : string) (row : pydict) : bool :=
  if String.eqb case_id "response_short_write_resume" then short_write row else blocked_write row.

Definition bound_write (roles access row : pydict) : bool :=
  is_plain_int (dict_get "pid" row) && py_eq (dict_get "pid" row) (dict_get "worker_pid" roles)
  && is_plain_int (dict_get "peer_port" row) && py_eq (dict_get "peer_port" row) (dict_get "remote_port" access)
  && positive_integer (dict_get "requested_bytes" row) && is_plain_int (dict_get "returned_bytes" row)
  && is_plain_int (dict_get "errno" row) && is_bool (dict_get "fault_triggered" row).

Definition triggered_write (roles access : pydict) (row : pyval) : bool :=
  match row with PDict r => bound_write roles access r && truthy (dict_get "fault_triggered" r) | _ => false end.
Definition resumed_write (row : pyval) : bool :=
  match row with
  | PDict r => is_false (dict_get "fault_triggered" r) && positive_integer (dict_get "returned_bytes" r)
               && eq_int (dict_get "errno" r) 0
  | _ => false
  end.

Definition write_row_errors (case_id : string) (roles access : pydict) (row : pyval) : list string :=
  match row with
  | PDict r =>
      if negb (bound_write roles access r) then ["write observation must bind the own native worker and client connection"]
      else when_failed (truthy (dict_get "fault_triggered" r) && negb (requested_fault case_id r))
             "actual native write result does not match the requested fault"
  | _ => ["write observation must bind the own native worker and client connection"]
  end.

(** The rows after the first one with a property. *)
Fixpoint after_first {A} (p : A -> bool) (l : list A) : list A :=
  match l with [] => [] | x :: r => if p x then r else after_first p r end.

Definition write_observation_errors (value : pydict) (case_id : string) : res (list string) :=
  match dict_get "native_writes" value with
  | PList rows =>
      if negb ((2 <=? Z.of_nat (List.length rows)) && (Z.of_nat (List.length rows) <=? 16))
      then Ok ["native injected write and genuine resumed write observations are required"]
      else
        let invalid := Ok ["native writes require valid process/request observations"] in
        let access := dict_get_or (PList []) "native_access" value in
        match dict_get_or (PDict []) "roles" value with
        | PDict roles =>
            if negb (truthy access) then invalid
            else match access with
            | PList (PDict access :: _) =>
                let triggered := List.filter (triggered_write roles access) rows in
                Ok (concat (map (write_row_errors case_id roles access) rows)
                    ++ match triggered with
                       | [_] => when_failed (negb (existsb resumed_write (after_first (triggered_write roles access) rows)))
                                  "a positive actual native write must resume after the fault"
                       | _ => ["exactly one requested native write fault must actually occur"]
                       end)
            | PList _ | PStr _ => invalid
            | PDict _ => Err (KeyError "0")
            | _ => Err (TypeError "object is not subscriptable")
            end
        | _ => invalid
        end
  | _ => Ok ["native injected write and genuine resumed write observations are required"]
  end.

(** ** Origins *)

Section Contract.
Variables (case_catalog_schema : pyval) (fuel : nat) (digest : chars -> string).
Variable exception_text : exn -> string.
Variable json_object : chars -> res pydict.

(** A line of a retained event log. *)
Record located := { lo_name : string; lo_leaf : string; lo_raw : chars; lo_index : Z; lo_line : chars }.

Definition numbered {A} (l : list A) : list (Z * A) := combine (map Z.of_nat (seq 0 (List.length l))) l.

Definition log_lines (name : string) (raw : artifacts) (leaf : string) : list located :=
  match entry leaf raw with
  | Some text => map (fun l => {| lo_name := name; lo_leaf := leaf; lo_raw := text; lo_index := fst l; lo_line := snd l |})
                   (numbered (bytes_splitlines text))
  | None => []
  end.
(** The lines of all logs: invocation by invocation, the logs of one in the order of their names. *)
Definition retained_lines (p : strict_proof) : list located :=
  concat (map (fun r => concat (map (log_lines (fst r) (snd r)) (sort_strs EVENT_LEAVES))) (sp_raw p)).

Fixpoint locate (event : pydict) (lines : list located) : res (option located) :=
  match lines with
  | [] => Ok None
  | l :: rest =>
      if nonblank_line (lo_line l) then
        let* value := json_object (lo_line l) in
        if py_eq (PDict value) (PDict event) then Ok (Some l) else locate event rest
      else locate event rest
  end.

Definition event_origin (p : strict_proof) (event : pydict) (event_index : Z) (field : string) : res pyval :=
  let* found := locate event (retained_lines p) in
  match found with
  | Some l =>
      let* transaction := dict_item "transaction_id" event in
      Ok (PDict (mkdict
        [("kind", PStr "native_event"); ("invocation", PStr (lo_name l)); ("artifact", PStr (lo_leaf l));
         ("artifact_sha256", PStr (digest (lo_raw l))); ("line_sha256", PStr (digest (lo_line l)));
         ("line_index", PInt (lo_index l)); ("event_index", PInt event_index);
         ("source_pointer", PStr ("/events/" +:+ dec event_index +:+ "/" +:+ field)); ("transaction_id", transaction)]))
  | None => refuse ("native fact absent from original retained JSONL: " +:+ field)
  end.

(** [proof["raw_artifacts"\]["main"\]] *)
Definition main_artifacts (p : strict_proof) : res artifacts :=
  match entry "main" (sp_raw p) with Some raw => Ok raw | None => Err (KeyError "main") end.

Definition observation_origin (p : strict_proof) (pointer : string) : res pyval :=
  let leaf := "sequence-observation.json" in
  let message := "host fact differs from original retained observation" in
  let* raw := main_artifacts p in
  match entry leaf raw with
  | None => refuse message
  | Some text =>
      let* value := json_object text in
      demand (py_eq (PDict value) (sp_get "observation" p)) message ;;;
      Ok (PDict (mkdict [("kind", PStr "host_observation"); ("invocation", PStr "main"); ("artifact", PStr leaf);
                         ("artifact_sha256", PStr (digest text)); ("source_pointer", PStr ("/observation/" +:+ pointer))]))
  end.

Definition receipt_leaf (case_id : string) : string :=
  if str_in case_id SEQUENCE_CASES then "sequence-source.json"
  else if str_in case_id INPUT_CASES then "input-fault-source.json" else "source-result.json".

Definition receipt_origin (p : strict_proof) (name field : string) : res pyval :=
  let* case_value := sp_item "case_id" p in
  let case_id := py_str case_value in
  let leaf := receipt_leaf case_id in
  let* files := mapping (dict_get_or (PDict []) "files" (sp_fields p)) in
  let* candidates := filterM (fun key => match key with
    | PStr k => Ok (String.eqb k leaf || ends_with ("/" +:+ leaf) k)
    | _ => Err (AttributeError "endswith")
    end) (keys files) in
  let candidates := if str_in case_id EVENT_CASES
                    then List.filter (fun key => eq_str key (variant_of name +:+ "/" +:+ leaf)) candidates else candidates in
  match candidates with
  | [PStr candidate] =>
      let* file := dict_item candidate files in
      let* entries := mapping file in
      let seal := dict_get "sha256" entries in
      demand (match seal with PStr s => fullmatch_str SEAL_PATTERN s | _ => false end) "actual receipt digest required" ;;;
      Ok (PDict (mkdict [("kind", PStr "operation_receipt"); ("invocation", PStr name); ("artifact", PStr candidate);
                         ("artifact_sha256", seal); ("source_pointer", PStr ("/invocation_receipts/" +:+ name +:+ "/" +:+ field))]))
  | _ => refuse "original receipt seal required for mapped receipt fact"
  end.

Definition capture_origin (kind leaf pointer : string) (data : chars) : pyval :=
  PDict (mkdict [("kind", PStr kind); ("invocation", PStr "main"); ("artifact", PStr leaf);
                 ("artifact_sha256", PStr (digest data)); ("source_pointer", PStr pointer)]).

(** ** Values *)

(** The values of a field and the places they were taken from. *)
Definition mapped := (list pyval * list pyval)%type.

Definition among (selected : list pydict) (event : pydict) : bool :=
  existsb (fun e => py_eq (PDict e) (PDict event)) selected.

Section Mapping.
(** The proof and its events. *)
Variables (p : strict_proof) (events : list pydict).

Definition origin_of (row : Z * pydict) (field : string) : res pyval := event_origin p (snd row) (fst row) field.

(** [proof["events"\].index(event)] *)
Definition index_of (event : pydict) : res Z :=
  match find (fun row => py_eq (PDict (snd row)) (PDict event)) (numbered events) with
  | Some (index, _) => Ok index
  | None => refuse "is not in list"
  end.
Definition indexed_origin (field : string) (event : pydict) : res pyval :=
  let* index := index_of event in event_origin p event index field.

Definition native_values (selected : list pydict) (field : string) : res mapped :=
  let rows := List.filter (fun row => among selected (snd row) && dict_has field (snd row)) (numbered events) in
  demand (negb (Nat.eqb (List.length rows) 0)) ("unproved native event field: " +:+ field) ;;;
  let* values := mapM (fun row => dict_item field (snd row)) rows in
  let* origins := mapM (fun row => origin_of row field) rows in
  Ok (values, origins).

Definition measured_row (key : string) (row : Z * pydict) : res (list (Z * pydict * Z)) :=
  reason_measurements [snd row] ;;;
  Ok (match reason_fields (dict_get "reason" (snd row)) with
      | Some fields => match entry key fields with Some z => [(row, z)] | None => [] end
      | None => []
      end).
Definition actual_reason_values (selected : list pydict) (key : string) : res (list (Z * pydict * Z)) :=
  let* rows := mapM (measured_row key) (List.filter (fun row => among selected (snd row)) (numbered events)) in
  demand (negb (Nat.eqb (List.length (concat rows)) 0)) ("missing actual native reason measurement: " +:+ key) ;;;
  Ok (concat rows).
Definition reason_origins (rows : list (Z * pydict * Z)) : res (list pyval) := mapM (fun row => origin_of (fst row) "reason") rows.

(** The observed requests, all of them completed. *)
Definition completed_requests (requests : pyval) (message : string) : res (list pydict) :=
  demand (truthy requests) message ;;;
  let* rows := iterate requests in
  let* rows := mapM mapping rows in
  demand (forallb (fun row => eq_str (dict_get "transport_result" row) "completed") rows) message ;;; Ok rows.
Definition request_origins (rows : list pydict) : res (list pyval) :=
  mapM (fun r => observation_origin p ("requests/" +:+ dec (fst r) +:+ "/transport_result")) (numbered rows).

Definition receipt_field (field : string) : res mapped :=
  let key := if String.eqb field "run_id" then "run_id" else "case_id" in
  let* value := item_path ["receipt"; key] (PDict (sp_fields p)) in
  let* origin := receipt_origin p "main" key in
  Ok ([value], [origin]).

Definition is_decimal (v : pyval) : bool :=
  match v with PStr s => negb (String.eqb s "") && forallb is_digit (S2L s) | _ => false end.

Definition connection_field (field : string) (observation : pydict) (requests : pyval) : res mapped :=
  let message := "actual access connection counters required" in
  let* accesses := iterate (dict_get_or (PList []) "native_access" observation) in
  let* rows := iterate requests in
  demand (Nat.eqb (List.length accesses) (List.length rows) && negb (Nat.eqb (List.length accesses) 0)) message ;;;
  let* connections := mapM (item_path ["connection"]) accesses in
  let* counters := mapM (item_path ["connection_requests"]) accesses in
  demand (forallb is_decimal connections && forallb positive_integer counters) "invalid actual connection measurements" ;;;
  let reused := Nat.ltb 1 (List.length connections)
                && Nat.eqb (List.length (dedup py_eq connections)) 1
                && forallb (fun c => eq_int (snd c) (fst c + 1)) (numbered counters) in
  let* origins := mapM (fun a => observation_origin p ("native_access/" +:+ dec (fst a))) (numbered accesses) in
  Ok (if String.eqb field "connection_id" then connections else [PBool reused], origins).

Definition transport_protocol_field (observation : pydict) : res mapped :=
  demand (eq_str (dict_get "protocol" observation) "http1") "only actual H1 transport is supported" ;;;
  let* origin := observation_origin p "protocol" in Ok ([PStr "http1"], [origin]).

Definition transfer_encoding_field : res mapped :=
  let* raw := main_artifacts p in
  match entry "response-wire.bin" raw with
  | None => refuse "original downstream H1 wire required"
  | Some wire => let* r := parse_http11_response wire in
                 Ok ([PStr (wr_framing r)], [capture_origin "downstream_wire" "response-wire.bin" "/parsed/framing" wire])
  end.

Definition timeout_stage_field (case_id : string) (selected : list pydict) : res mapped :=
  demand (str_in case_id TIMEOUT_CASES) "foreign timeout mapping" ;;;
  let required := refuse "actual timeout Source phase required" in
  match find (fun row => eq_str (dict_get "event" row) "engine_timeout") selected with
  | None => required
  | Some event =>
      let* phase := dict_item "phase" event in
      if eq_str phase "request_headers" || eq_str phase "response_body" then
        let stage := if eq_str phase "request_headers" then "before_commit" else "after_commit" in
        let* origin := indexed_origin "phase" event in Ok ([PStr stage], [origin])
      else required
  end.

Definition WRITE_KEYS : list string :=
  ["pid"; "fd"; "peer_port"; "requested_bytes"; "returned_bytes"; "errno"; "fault_triggered"].

Definition write_result_field (case_id : string) (observation : pydict) : res mapped :=
  let ledger := "actual native write ledger required" in
  match dict_get "native_writes" observation with
  | PList writes =>
      demand (str_in case_id WRITE_CASES && negb (Nat.eqb (List.length writes) 0)) ledger ;;;
      let* errors := write_observation_errors observation case_id in
      demand (match errors with [] => true | _ => false end) "actual write fault/resume identity mismatch" ;;;
      demand (forallb (fun row => match row with PDict d => keys_exactly d WRITE_KEYS | _ => false end) writes)
        "closed payload-free native write rows required" ;;;
      let* rows := mapM mapping writes in
      demand (forallb (fun row => match dict_get "fd" row with PInt z => (0 <=? z) && (z <=? 2 ^ 31 - 1) | _ => false end) rows)
        "actual native write fd must be a nonnegative signed C-int descriptor" ;;;
      match List.filter (fun row => is_true (dict_get "fault_triggered" row)) rows with
      | [row] =>
          demand (requested_fault case_id row) "actual write fault mismatch" ;;;
          let* origin := observation_origin p "native_writes" in
          Ok ([PStr (if short_write row then "short_write_resumed" else "would_block_resumed")], [origin])
      | _ => refuse "one actual write fault required"
      end
  | _ => refuse ledger
  end.

Definition content_type_scope_field (selected : list pydict) : res mapped :=
  let* (values, origins) := native_values selected "content_type" in
  let* retained := actual_reason_values selected "engine_retained_bytes" in
  all_hashable values ;;;
  match dedup py_eq values with
  | [content] =>
      let* scope :=
        if eq_str content "" then Ok "missing"
        else match content with
        | PStr s => Ok (if String.eqb (hd "" (py_split ";" s)) "text/plain" && existsb (fun row => 0 <? snd row) retained
                        then "in_scope" else "out_of_scope")
        | _ => Err (AttributeError "split")
        end in
      let* more := reason_origins retained in
      Ok ([PStr scope], origins ++ more)
  | _ => refuse "actual MIME type contradiction"
  end.

(** The sums of the sizes before each append but the first. *)
Fixpoint boundaries (supplied : Z) (sizes : list Z) : list Z :=
  match sizes with
  | size :: ((_ :: _) as rest) => (supplied + size) :: boundaries (supplied + size) rest
  | _ => []
  end.

Definition marker_crosses (raw : chars) (sizes : list Z) : bool :=
  match find_sub (S2L MARKER) raw with
  | Some start => existsb (fun b => (Z.of_nat start <? b) && (b <? Z.of_nat start + str_len MARKER)) (boundaries 0 sizes)
  | None => false
  end.

Definition stream_field (field : string) (selected : list pydict) : res mapped :=
  let at_eos name row := eq_str (dict_get "event" row) name && is_true (dict_get "eos_seen" row) in
  let completes := List.filter (at_eos "phase4_completion") selected in
  let interventions := List.filter (fun row => at_eos "phase4_intervention" row && eq_str (dict_get "rule_id" row) "1100301") selected in
  let* appends := actual_reason_values selected "append_size" in
  let sizes := map snd appends in
  demand (negb (Nat.eqb (List.length completes) 0) && negb (Nat.eqb (List.length interventions) 0)
          && (0 <? fold_right Z.add 0 sizes)) "actual append/EOS/Rule evidence required" ;;;
  let* first := reason_origins appends in
  let* more := mapM (indexed_origin "eos_seen") (completes ++ interventions) in
  let origins := first ++ more in
  if String.eqb field "marker_split_across_chunks" then
    let* receipt := item_path ["invocation_receipts"; "main"] (PDict (sp_fields p)) in
    let* receipt := mapping receipt in
    demand ((2 <=? Z.of_nat (List.length appends)) && is_true (dict_get "first_body_byte_before_upstream_eos" receipt))
      "actual split streaming boundary missing" ;;;
    let* raw := main_artifacts p in
    match entry "response.bin" raw with
    | None => refuse "actual split marker body capture required"
    | Some body =>
        demand (marker_crosses body sizes) "actual marker does not cross an observed native append boundary" ;;;
        let* origin := receipt_origin p "main" "first_body_byte_before_upstream_eos" in
        Ok ([PBool true],
            origins ++ [capture_origin "response_capture_boundary" "response.bin" "/parsed/marker_append_boundary" body; origin])
    end
  else Ok ([PBool true], origins).

Definition LIMIT_LINE : re := RCat (RLit "SecResponseBodyLimit ") (RCat (RCls (between 49 57)) (RStar (RCls is_digit))).
Definition ACTION_LINE : re := RCat (RLit "SecResponseBodyLimitAction ") (RPlus (RCls (fun c => is_lower c || is_upper c))).
(** [re.findall(rb"(?m)^prefix (...)$", text)]: what follows the prefix on every matching line. *)
Definition line_values (r : re) (prefix : string) (text : chars) : list chars :=
  map (drop (String.length prefix)) (List.filter (fullmatch r) (split_sub [chr 10] text)).

(** [max(values)] of integers. *)
Definition max_int (values : list pyval) : res Z :=
  let* ints := mapM (fun v => match int_value v with Some z => Ok z | None => Err (TypeError "not supported") end) values in
  match ints with [] => Err (ValueError "max() arg is an empty sequence") | z :: r => Ok (fold_left Z.max r z) end.

Definition LIMIT_CASES : list string := ["phase4_body_at_limit"; "phase4_body_over_limit"; "phase4_body_process_partial"].

(** [at_limit], [over_limit] or [process_partial] *)
Definition limit_outcome (case_id : string) (seen limit : Z) : res string :=
  if String.eqb case_id "phase4_body_at_limit" then
    demand (seen =? limit) "actual at-limit boundary missing" ;;; Ok "at_limit"
  else
    demand (limit <? seen) "actual over-limit boundary missing" ;;;
    Ok (if String.eqb case_id "phase4_body_over_limit" then "over_limit" else "process_partial").

Definition body_limit_outcome_field (case_id : string) (selected : list pydict) : res mapped :=
  if String.eqb case_id "phase4_body_reject" then native_values selected "body_limit_outcome"
  else
    let* retained := actual_reason_values selected "engine_retained_bytes" in
    let* (seen, origins) := native_values selected "body_bytes_seen" in
    let* (inspected, more) := native_values selected "body_bytes_inspected" in
    let contradiction := "actual Common supplied bytes contradiction" in
    demand (py_eq (PList seen) (PList inspected)) contradiction ;;;
    let* most := max_int seen in
    demand (0 <? most) contradiction ;;;
    demand (str_in case_id LIMIT_CASES) "foreign body limit mapping" ;;;
    let* raw := main_artifacts p in
    match entry "rules.conf" raw with
    | None => refuse "actual response limit rules required"
    | Some rules =>
        let required := "actual closed response limit/action required" in
        match line_values LIMIT_LINE "SecResponseBodyLimit " rules,
              map L2S (line_values ACTION_LINE "SecResponseBodyLimitAction " rules) with
        | [digits], [action] =>
            demand (String.eqb action "ProcessPartial") required ;;;
            demand (digits_allowed digits) "Exceeds the limit (4300 digits) for integer string conversion" ;;;
            let limit := int_of_digits 10 digits in
            let* kept := max_int (map (fun row => PInt (snd row)) retained) in
            demand (kept =? Z.min most limit) "actual retained length differs from configured limit" ;;;
            let* outcome := limit_outcome case_id most limit in
            let* reasons := reason_origins retained in
            Ok ([PStr outcome],
                origins ++ [capture_origin "engine_configuration" "rules.conf" "/SecResponseBodyLimit" rules] ++ more ++ reasons)
        | _, _ => refuse required
        end
    end.

Definition carried (field : string) (selected : list pydict) : bool := existsb (dict_has field) selected.

Definition mapped_field (field case_id : string) (selected : list pydict) : res mapped :=
  let* observation := mapping (dict_get_or (PDict []) "observation" (sp_fields p)) in
  let requests := dict_get_or (PList []) "requests" observation in
  if str_in field ["run_id"; "transport_case_id"] then receipt_field field
  else if str_in field ["connection_id"; "connection_reused"] then connection_field field observation requests
  else if String.eqb field "transport_protocol" then transport_protocol_field observation
  else if String.eqb field "transfer_encoding" then transfer_encoding_field
  else if String.eqb field "cleanup_reason" then
    native_values (List.filter (fun row => eq_str (dict_get "event" row) "transaction_cleanup") events) field
  else if String.eqb field "timeout_stage" then timeout_stage_field case_id selected
  else if String.eqb field "write_result" then write_result_field case_id observation
  else if String.eqb field "content_type_scope" then content_type_scope_field selected
  else if str_in field ["end_of_stream_evaluation"; "body_started"; "marker_split_across_chunks"] then stream_field field selected
  else if String.eqb field "body_limit_outcome" then body_limit_outcome_field case_id selected
  else if String.eqb field "truncated" && str_in case_id PHASE4_CASES then native_values selected "body_truncated"
  else if str_in field ["eos_seen"; "transport_result"] && str_in case_id KEEPALIVE_CASES then
    let* rows := completed_requests requests "actual keepalive client completion absent" in
    let* origins := request_origins rows in
    Ok (if String.eqb field "eos_seen" then [PBool true] else map (dict_get "transport_result") rows, origins)
  else if String.eqb field "eos_seen" && negb (carried field selected) then
    let* rows := completed_requests requests "actual client EOS completion absent" in
    let* origins := request_origins rows in Ok ([PBool true], origins)
  else if String.eqb field "transport_result" && str_in case_id MIME_CASES && negb (carried field selected) then
    let* receipt := item_path ["invocation_receipts"; "main"] (PDict (sp_fields p)) in
    let* receipt := mapping receipt in
    demand (eq_int (dict_get "client_exit_code" receipt) 0) "actual completed MIME client required" ;;;
    let* origin := receipt_origin p "main" "client_exit_code" in Ok ([PStr "completed"], [origin])
  else if String.eqb field "transport_result" && str_in case_id HTTP11_CASES then
    completed_requests requests "actual downstream completion absent" ;;;
    let* origin := observation_origin p "requests/0/transport_result" in Ok ([PStr "completed"], [origin])
  else
    demand (negb (str_in field HOST_FIELDS)
            && negb (str_in field DERIVED_FIELDS && negb (str_in field ["truncated"; "eos_seen"; "transport_result"])))
      ("unproved closed operation field: " +:+ field) ;;;
    native_values selected field.

(** ** The semantic event *)

(** Kind, phase and rule of the event that carries the meaning of a case. *)
Definition semantic_kind (case_id : string) (expected : pydict) : res (string * string * string) :=
  let* phase_value := dict_item "phase" expected in
  let* phase := phase_text phase_value in
  let rule := py_str (py_or (dict_get "expected_rule_id" expected) (PStr "")) in
  match entry case_id _TECHNICAL with
  | Some (kind, _, phase) => Ok (kind, phase, "")
  | None =>
      if str_in case_id EVENT_CASES then Ok ("rule_match", "request_headers", "1100402")
      else if eq_int phase_value 5 then Ok ("transaction_cleanup", phase, "")
      else if String.eqb rule "1100001" then Ok ("engine_decision", phase, rule)
      else if String.eqb rule "1100301" then Ok ("phase4_intervention", phase, rule)
      else if String.eqb case_id "phase4_body_reject" then Ok ("body_limit", phase, rule)
      else if eq_int phase_value 4 then Ok ("phase4_completion", phase, rule)
      else Ok ("request_headers_complete", phase, rule)
  end.

Definition MEANING : list string :=
  ["status"; "action"; "requested_action"; "actual_action"; "http_status"; "visible_http_status"].
Definition same_meaning (first row : pydict) : bool := forallb (fun k => py_eq (dict_get k row) (dict_get k first)) MEANING.

Definition semantic_event (case_id : string) (expected : pydict) : res (option pydict * pyval * list pyval) :=
  if str_in case_id RAW_CASES then Ok (None, PNone, [])
  else
    let* (kind, phase, rule) := semantic_kind case_id expected in
    let* candidates := filterM (fun row => let* name := dict_item "event" (snd row) in Ok (eq_str name kind)) (numbered events) in
    match candidates with
    | [] => refuse ("actual semantic native event missing: " +:+ kind)
    | (_, first) :: _ =>
        forM (fun row => exact_event (snd row) [("phase", phase); ("rule_id", rule)] "semantic native phase/Rule") candidates ;;;
        demand (forallb (fun row => same_meaning first (snd row)) candidates) "contradictory same-kind semantic native events" ;;;
        let candidates := if str_in case_id EVENT_CASES
                          then List.filter (fun row => is_true (dict_get "truncated" (snd row))) candidates else candidates in
        match candidates with
        | [] => refuse "actual truncated semantic native event missing"
        | (_, event) :: _ =>
            let* origins := mapM (fun row => origin_of row "event") candidates in
            Ok (Some event, hd PNone origins, origins)
        end
    end.
End Mapping.

(** ** The contract *)

Definition PHASE1_COMPLETION : list (string * pyval) :=
  [("phase", PStr "request_headers"); ("message_id", PStr "MSCONN_PHASE1_COMPLETE"); ("rule_id", PStr ""); ("status", PStr "ok");
   ("action", PStr "allow"); ("requested_action", PStr "allow"); ("actual_action", PStr ""); ("http_status", PInt 0);
   ("visible_http_status", PInt 0); ("transport_result", PStr "not_observable");
   ("reason", PStr "native_return=1;common_completed=1")].

Definition CAUSE_FIELDS : list string :=
  ["event"; "phase"; "transaction_id"; "rule_id"; "http_status"; "visible_http_status"; "actual_action"; "transport_result"].
Definition cause_of (row : pydict) : pyval :=
  PDict (mkdict (concat (map (fun k => match dict_find k row with Some v => [(k, v)] | None => [] end) CAUSE_FIELDS))).

(** The phase an event row states, compared with that of the case. *)
Definition in_phase (phase : pyval) (row : pydict) : res bool :=
  let* stated := dict_item "phase" row in let* name := phase_text phase in Ok (eq_str stated name).

(** Where the phase of the case is proved. *)
Definition phase_scope_of (p : strict_proof) (case_id : string) (phase : pyval) (selected cleanup : list pydict) : res string :=
  if str_in case_id RAW_CASES then Ok "host_preconnector"
  else if eq_int phase 5 then
    (if String.eqb case_id "early_mapping_failure_cleanup" then
       let* observation := mapping (dict_get_or (PDict []) "observation" (sp_fields p)) in
       let* state := mapping (dict_get_or (PDict []) "cleanup" observation) in
       demand (is_true (dict_get "verified" state)) "actual preadmission host cleanup required"
     else demand (negb (Nat.eqb (List.length cleanup) 0)) "actual LOGGING cleanup required") ;;;
    Ok "lifecycle_cleanup"
  else
    let* matching := filterM (in_phase phase) selected in
    demand (negb (Nat.eqb (List.length matching) 0)) "actual required native phase missing" ;;;
    Ok "native_event".

(** The sorted rules of the selected events. *)
Definition selected_rules (selected : list pydict) : res (list string) :=
  let* rules := mapM (dict_item "rule_id") selected in
  let* names := mapM (fun v => match v with PStr s => Ok s | _ => Err (TypeError "not supported between instances") end)
                  (List.filter truthy rules) in
  Ok (sort_strs (dedup String.eqb names)).

(** [expected.get("expected_event_fields") or \[\]]; a list of the frozen overrides is a
    tuple. *)
Definition required_fields (overrides expected : pydict) : res (list string) :=
  let required := "unique expected native fields required" in
  let value := dict_get "expected_event_fields" expected in
  if negb (truthy value) then Ok []
  else match value with
  | PList fields =>
      demand (negb (dict_has "expected_event_fields" overrides)) required ;;;
      all_hashable fields ;;;
      demand (Nat.eqb (List.length (dedup py_eq fields)) (List.length fields)) required ;;;
      mapM (fun f => match f with PStr s => Ok s | _ => refuse "expected field must be a string" end) fields
  | _ => refuse required
  end.

Definition override_observed (overrides : pydict) (key field message : string) (selected : list pydict) : res unit :=
  match dict_find key overrides with
  | None => Ok tt
  | Some wanted => demand (existsb (fun row => py_eq (dict_get field row) wanted) selected) message
  end.

Definition file_seals (p : strict_proof) : res pydict :=
  let* files := mapping (dict_get_or (PDict []) "files" (sp_fields p)) in
  mapM (fun kv => let* seal := mapping (snd kv) in let* digest := dict_item "sha256" seal in Ok (fst kv, digest)) files.

Definition closed_contract (case : pydict) (p : strict_proof) (result : projected) : res native_facts :=
  let case_id := pj_case_id result in
  let overrides := pj_overrides result in
  let expected := dict_merge case overrides in
  let events := pj_events result in
  let* expected_result := match entry case_id CASE_RESULTS with Some r => Ok r | None => Err (KeyError case_id) end in
  demand (eq_str (dict_get "expected_result" expected) expected_result) "closed native result contract mismatch" ;;;
  let status := dict_get "expected_status" expected in
  demand (is_none status || is_plain_int status && py_eq status (pj_actual_status result))
    "explicit native/wire status expectation mismatch" ;;;
  let* phase := dict_item "phase" expected in
  let all := pj_selected result in
  forM (fun event => if eq_str (dict_get "event" event) "request_headers_complete"
                     then exact (PDict event) PHASE1_COMPLETION "actual native P1 completion" else Ok tt) all ;;;
  let* phase_scope := phase_scope_of p case_id phase all (pj_cleanup result) in
  let* selected := filterM (fun row => if eq_int phase 5 then Ok true else in_phase phase row) all in
  let* rule_ids := selected_rules all in
  let rule := dict_get "expected_rule_id" expected in
  demand (is_none rule || str_in (py_str rule) rule_ids) "actual required native Rule callback missing" ;;;
  let* event_origins := mapM (fun row => origin_of p row "event") (List.filter (fun row => among all (snd row)) (numbered events)) in
  let* fields := required_fields overrides expected in
  let* values := mapM (fun field => let* m := mapped_field p events field case_id selected in Ok (field, m)) fields in
  let mapped := mkdict (map (fun v => (fst v, PList (fst (snd v)))) values) in
  let origins := mkdict (map (fun v => (fst v, PList (snd (snd v)))) values) in
  demand (negb (str_in case_id EVENT_CASES)
          || match dict_find "truncated" mapped with Some (PList l) => existsb is_true l | _ => false end)
    "actual bounded/truncated event required" ;;;
  override_observed overrides "expected_native_status" "http_status" "actual native cause status mismatch" selected ;;;
  override_observed overrides "expected_engine_error_class" "event" "actual native error class mismatch" selected ;;;
  let* (semantic, semantic_origin, semantic_origins) := semantic_event p events case_id expected in
  let* seals := file_seals p in
  let* phase_origins :=
    if String.eqb phase_scope "native_event" then Ok event_origins
    else mapM (indexed_origin p events "phase") (pj_cleanup result) in
  let* rule_origins := mapM (indexed_origin p events "rule_id")
                         (List.filter (fun row => truthy (dict_get "rule_id" row)) all) in
  let evidence := mkdict
    [("expected_result", PDict (mkdict [("kind", PStr "closed_verified_operation"); ("case_id", PStr case_id);
                                        ("operation", PStr (pj_operation result)); ("source_pointer", PStr "/case_id");
                                        ("retained_file_sha256", PDict seals)]));
     ("phase", PDict (mkdict [("kind", PStr phase_scope); ("event_origins", PList phase_origins)]));
     ("rule_ids", PList rule_origins)] in
  Ok {| nf_overrides := overrides; nf_actual_status := pj_actual_status result; nf_selected := all;
        nf_semantic_event := semantic; nf_observed_fields := map PStr (pj_observed_fields result);
        nf_transactions := map PStr (pj_transactions result); nf_mapped := mapped; nf_origins := origins;
        nf_event_origins := PList event_origins; nf_semantic_origin := semantic_origin;
        nf_semantic_origins := PList semantic_origins; nf_cause := PList (map cause_of all);
        nf_semantics := mkdict [("phase", phase); ("phase_scope", PStr phase_scope); ("expected_result", PStr expected_result);
                                ("wire_status", pj_actual_status result); ("rule_ids", PList (map PStr rule_ids))];
        nf_evidence_origins := PDict evidence; nf_original := PDict (pj_mapping result) |}.

Definition derive_native_operation_contract (case : pydict) (p : strict_proof) : res native_facts :=
  match (let* result := project_native_operation case_catalog_schema fuel digest exception_text json_object case p in
         closed_contract case p result) with
  | Err e => Err (if shape_exception e then ValueError ("invalid native fact contract: " +:+ exception_text e) else e)
  | r => r
  end.
End Contract.
