(* ===== verification/NativeTheorems.v ===== *)
(** * What a passing record of a native operation asserts

    First whatever derives the facts of the record, then the closed contract that derives
    them: the life of transactions, the origin of every fact, and the two composed. *)

From S2P Require Export NativeRecord CaseTheorems.
From S2P Require Import ObservationEvidence NginxProtocolTheorems BaselineTheorems.
From Stdlib Require Import QArith.
#[global] Open Scope Z_scope.

Lemma mapM_member {A B} (f : A -> res B) l l' b : mapM f l = Ok l' -> In b l' -> exists a, In a l /\ f a = Ok b.
Proof.
  rewrite mapM_Ok_Forall2. induction 1 as [|x y l l' Hxy _ IH]; [done|]. intros [<-|H].
  - exists x. split; [by left|done].
  - destruct (IH H) as (a & Ha & Hb). exists a. split; [by right|done].
Qed.

Section NativeRecord.
Variables (event_schema case_catalog_schema : pyval) (fuel : nat) (sha256 : string -> string).
Variable exception_text : exn -> string.
Variables (proof : Type) (observation : proof -> pyval).
Variable validate : pydict -> abs_path -> pydict -> res proof.
Variable derive : pydict -> proof -> res native_facts.

Abbreviation projection := (native_operation_projection event_schema fuel proof observation validate derive).
Abbreviation h1_projection := (native_h1_protocol_projection event_schema fuel proof observation).
Abbreviation normalize := (normalize_native_operation_record event_schema case_catalog_schema fuel sha256 exception_text
  proof observation validate derive).
Abbreviation base := (native_operation_record_base sha256).

(** ** The HTTP/1 projection *)

Definition H1_FIELDS : list string :=
  ["requested_protocol"; "downstream_protocol"; "negotiated_protocol"; "transport_case_id"; "connection_id"].

(** One request and one access record of the transaction, over the connection. *)
Definition h1_access (observed event : pydict) (connection : pyval) : Prop :=
  exists request access,
    observed_rows "requests" observed (fun row => py_eq (dict_get "path" row) (dict_get "uri" event)) = Ok [request] /\
    observed_rows "native_access" observed (fun row => py_eq (dict_get "uri" row) (dict_get "uri" event)
      && py_eq (dict_get "transaction_id" row) (dict_get "transaction_id" event)) = Ok [access] /\
    dict_get "http_version" request = PInt 11 /\ truthy (dict_get "transaction_id" event) = true /\
    connection = dict_get "connection" access /\ truthy connection = true.

Lemma connection_bound observed event c : native_h1_connection observed event = Ok c -> h1_access observed event c.
Proof.
  unfold native_h1_connection. cbv zeta.
  destruct (observed_rows "requests" _ _) as [requests|] eqn:Er; [|done].
  destruct (observed_rows "native_access" _ _) as [accesses|] eqn:Ea; [|done].
  destruct requests as [|request [|]]; try done. destruct accesses as [|access [|]]; try done.
  destruct (_ && _) eqn:Ec; [|done]. intros H. apply Ok_inj in H as <-.
  apply andb_true_iff in Ec as [Ec Hc]. apply andb_true_iff in Ec as [Hv Ht]. exists request, access.
  repeat (split; [done|]). split; [|by split]. destruct (dict_get "http_version" request); try done. by apply Z.eqb_eq in Hv as ->.
Qed.

(** The projected fields, with the case of the record. *)
Record h1_bound (raw case : pydict) (p : proof) (event fields projected : pydict) : Prop := {
  hb_observed : exists observed connection, mapping (py_or (observation p) (PDict [])) = Ok observed /\
    py_eq (dict_get "run_id" observed) (dict_get "run_id" raw) = true /\
    py_eq (dict_get "case_id" observed) (dict_get "case_id" case) = true /\
    h1_access observed event connection /\ native_h1_fields case connection = Ok fields;
  hb_phase : normalize_canonical_phase (dict_get "phase" event) = normalize_canonical_phase (dict_get "phase" case);
  hb_rule : exists rule, optional_field "rule_id" event = Ok rule /\ optional_field "expected_rule_id" case = Ok rule;
  hb_run : exists run mode, dict_find "run_id" raw = Some run /\ dict_find "integration_mode" raw = Some mode /\
    dict_find "run_id" projected = Some (PStr (py_str run)) /\
    dict_find "integration_mode" projected = Some (PStr (py_str mode)) /\
    canonical_event_errors event_schema fuel (PDict projected) "event" (Some "nginx") (Some (py_str mode)) = Ok [] }.

Lemma opt_Z_eqb_eq a b : opt_Z_eqb a b = true -> a = b.
Proof. destruct a, b; cbn; try done. by intros ->%Z.eqb_eq. Qed.

Lemma projection_bound raw case p event fields projected : h1_projection raw case p event = Ok (fields, projected) ->
  (fields = [] /\ projected = None /\ exists profile, case_protocol_profile case = Ok profile /\ is_http1 profile = false) \/
  exists e ev, event = Some e /\ projected = Some ev /\ h1_bound raw case p e fields ev.
Proof.
  unfold native_h1_protocol_projection. destruct (case_protocol_profile case) as [profile|]; [|done].
  destruct (is_http1 profile) eqn:Eh; cbn [negb]; [|intros [= <- <-]; left; by repeat (split; [done|]); exists profile].
  destruct (mapping _) as [observed|] eqn:Em; [|done]. cbv zeta. destruct event as [e|]; [|done]. intros H. right.
  apply demand_then in H as [Hs H]. apply andb_true_iff in Hs as [Hs1 Hs2]. apply demand_then in H as [_ H].
  apply demand_then in H as [Hp%opt_Z_eqb_eq H]. destruct (optional_field "rule_id" e) as [r1|] eqn:E1; [|done].
  destruct (optional_field "expected_rule_id" case) as [r2|] eqn:E2; [|done]. apply demand_then in H as [->%opt_Z_eqb_eq H].
  destruct (native_h1_connection observed e) as [c|] eqn:Ec; [|done]. apply connection_bound in Ec.
  destruct (native_h1_fields case c) as [f|] eqn:Ef; [|done]. destruct (dict_item "run_id" raw) as [run|] eqn:Er; [|done].
  destruct (dict_item "integration_mode" raw) as [mode|] eqn:Emo; [|done]. apply dict_item_Ok in Er, Emo.
  destruct (dict_item "phase" _) as [ph|]; [|done]. destruct (canonical_event_errors _ _ _ _ _ _) as [errors|] eqn:Ee; [|done].
  destruct errors as [|x l]; [|done]. injection H as <- <-. exists e. eexists. split; [done|]. split; [done|]. constructor.
  - by exists observed, c.
  - done.
  - by exists r2.
  - exists run, mode. split; [done|]. split; [done|]. split; [|split; [|done]];
      (rewrite dict_find_set; cbn [String.eqb]; unfold dict_update; cbn [fold_left fst snd]; by rewrite !dict_find_set).
Qed.

Lemma h1_field_names raw case p event fields projected : h1_projection raw case p event = Ok (fields, projected) ->
  exists l, fields = mkdict l /\ incl (map fst l) H1_FIELDS.
Proof.
  intros H. destruct (projection_bound _ _ _ _ _ _ H) as [(-> & _)|(e & ev & _ & _ & B)].
  { exists []. split; [done|]. intros k []. }
  destruct (hb_observed _ _ _ _ _ _ B) as (observed & c & _ & _ & _ & _ & Hf). unfold native_h1_fields in Hf.
  destruct (dict_item "case_id" case) as [id|]; [|done]. apply Ok_inj in Hf as <-. eexists. split; [reflexivity|]. apply incl_refl.
Qed.

(** ** The record *)

Lemma projection_inv raw case authority p : projection raw case authority = Ok p ->
  exists a sources reopened, authority = Some a /\ na_sources a = PDict sources /\
    py_eq (na_run_id a) (dict_get "run_id" raw) = true /\
    (exists link, dict_get "parent_framework_gitlink" raw = PStr link /\
       py_eq (PStr link) (dict_get "framework_sha" sources) = true) /\
    validate raw (na_root a) sources = Ok reopened /\ derive case reopened = Ok (np_facts p) /\
    h1_projection raw case reopened (nf_semantic_event (np_facts p)) = Ok (np_fields p, np_event p).
Proof.
  unfold native_operation_projection. destruct authority as [a|]; [|done].
  destruct (na_sources a) as [| | | | | |sources] eqn:Es; try done. intros H.
  apply demand_then in H as [Hr H]. apply demand_then in H as [Hl H].
  destruct (validate raw (na_root a) sources) as [reopened|] eqn:Ev; [|done].
  destruct (derive case reopened) as [facts|] eqn:Ed; [|done].
  destruct (h1_projection _ _ _ _) as [[fields event]|] eqn:Eh; [|done]. apply Ok_inj in H as <-.
  exists a, sources, reopened. repeat (split; [done|]). split; [|done].
  destruct (dict_get "parent_framework_gitlink" raw) as [| | | |link| |]; try done. by exists link.
Qed.

(** The values of the identity fields, by name. *)
Lemma source_identity_names raw : incl (map fst (source_identity raw)) NATIVE_SOURCE_IDENTITY_FIELDS.
Proof.
  intros k H. apply in_map_iff in H as ([c v] & <- & Hin). unfold source_identity in Hin.
  apply in_concat in Hin as (l & Hl & Hin). apply in_map_iff in Hl as (name & <- & Hn).
  destruct (dict_find name raw); [|done]. destruct Hin as [E|[]]. injection E as <- _. exact Hn.
Qed.

(** A field of the record that neither the raw identity nor the projection sets. *)
Definition JUDGED : list string := ["status"; "live_executed"; "actual_status"; "observed_result"; "connector"].
Lemma judged_apart k : In k JUDGED -> In k OWN_FIELDS /\ ~ In k NATIVE_SOURCE_IDENTITY_FIELDS /\ ~ In k H1_FIELDS /\
  ~ In k ["native_evidence_mapping"; "native_mapping_sha256"] /\ "driver_exit_code" <> k.
Proof. intros Hk. split; [cbn in Hk |- *; tauto|]. repeat split; cbn in Hk |- *; intuition congruence. Qed.

Lemma base_fields raw case connector p status reason record : base raw case connector p status reason = Ok record ->
  (forall q, p = Some q -> exists l, np_fields q = mkdict l /\ incl (map fst l) H1_FIELDS) ->
  dict_find "status" record = Some (PStr status) /\ dict_find "connector" record = Some (PStr connector) /\
  dict_find "live_executed" record = Some (PBool (match p with Some _ => true | None => false end)) /\
  (forall q, p = Some q -> dict_find "actual_status" record = Some (nf_actual_status (np_facts q)) /\
     exists v, dict_find "expected_result" (nf_semantics (np_facts q)) = Some v /\ dict_find "observed_result" record = Some v).
Proof.
  unfold native_operation_record_base. cbv zeta. intros H Hp.
  destruct (native_operation_details raw case _) as [d|] eqn:Ed; [|done].
  destruct (dict_item "case_id" case) as [id|]; [|done].
  destruct (build_normalized_case_record _ _ _ _ _ _ _) as [b|] eqn:Eb; [|done]. apply Ok_inj in H.
  assert (Own : forall k, In k JUDGED -> dict_find k record = dict_find k b).
  { intros k Hk. destruct (judged_apart k Hk) as (_ & Hn & Hh & Hm & Hd). rewrite <- H.
    assert (R : dict_find k (dict_set "driver_exit_code" (match dict_get "driver_exit_code" raw with PInt z => PInt z | _ => PNone end)
      (dict_update b (source_identity raw))) = dict_find k b).
    { rewrite dict_find_set. destruct (String.eqb_spec "driver_exit_code" k) as [E|]; [by destruct (Hd E)|].
      apply dict_find_update. intros Hin. by apply Hn, (source_identity_names raw). }
    destruct p as [q|]; [|exact R]. destruct (Hp q eq_refl) as (l & -> & Hl).
    rewrite dict_find_update by exact Hm. rewrite merge_display, dict_find_update by (intros Hin; by apply Hh, Hl). exact R. }
  unfold build_normalized_case_record in Eb. destruct (list_field _ case) as [caps|]; [|done].
  destruct (optional_int _) as [code|]; [|done].
  assert (Built : forall k, In k JUDGED -> dict_find k record = dict_find k (built_fields
    (dict_update raw [("live_executed", PBool (match p with Some _ => true | None => false end)); ("reason", PStr reason);
       ("exit_code", match dict_get "driver_exit_code" raw with PInt z => PInt z | _ => PNone end)])
    case connector (py_str id) status d caps code)).
  { intros k Hk. rewrite Own by done. apply (bind_client_find _ _ _ _ _ Eb). by apply judged_apart. }
  split; [by rewrite Built by (cbn; tauto)|]. split; [by rewrite Built by (cbn; tauto)|].
  split.
  - rewrite Built by (cbn; tauto). cbn -[dict_update]. unfold dict_update, dict_get, dict_get_or. cbn [fold_left fst snd].
    rewrite !dict_find_set. by destruct p.
  - intros q ->. rewrite !Built by (cbn; tauto). unfold native_operation_details in Ed. cbn [option_map] in Ed.
    destruct (semantic_runtime_fields [] _ None) as [[values e]|]; [|done].
    destruct (listed_or_empty _ case) as [fields|]; [|done].
    destruct (dict_item "expected_result" (nf_semantics (np_facts q))) as [v|] eqn:Ev; [|done].
    destruct (optional_int (dict_get "expected_status" case)); [|done]. destruct (optional_int (dict_get "expected_rule_id" case)); [|done].
    destruct (optional_ints _ _); [|done]. destruct (native_fields_verified _ _ _); [|done]. apply Ok_inj in Ed as <-.
    apply dict_item_Ok in Ev. split; [done|]. by exists v.
Qed.

(** ** The verdict *)

(** The facts satisfy the case with the overrides of its contract. *)
Record expectations_met (case : pydict) (facts : native_facts) : Prop := {
  em_status : dict_get "expected_status" case <> PNone ->
    py_eq (dict_get "expected_status" case) (nf_actual_status facts) = true;
  em_rule : dict_get "expected_rule_id" case <> PNone -> exists row rule, In row (nf_selected facts) /\
    optional_field "rule_id" row = Ok rule /\ py_eq (dict_get "expected_rule_id" case) (opt_int rule) = true;
  em_fields : exists fields, listed_or_empty "expected_event_fields" case = Ok fields /\ forall f, In f fields ->
    truthy (dict_get_key f (nf_mapped facts)) = true /\ truthy (dict_get_key f (nf_origins facts)) = true }.

Lemma expectations_spec case facts : native_operation_expectation_errors case facts = Ok [] -> expectations_met case facts.
Proof.
  unfold native_operation_expectation_errors. cbv zeta. destruct (optional_ints "rule_id" _) as [rules|] eqn:Er; [|done].
  destruct (if is_none _ then Ok tt else _) as [[]|]; [|done].
  destruct (listed_or_empty _ case) as [fields|] eqn:Ef; [|done]. destruct (all_hashable fields) as [[]|]; [|done].
  intros H. apply Ok_inj, app_nil in H as [Hs H]. apply app_nil in H as [Hr Hf].
  apply when_failed_nil in Hs, Hr, Hf. constructor.
  - intros Hn. apply andb_false_iff in Hs as [Hs|Hs]; apply negb_false_iff in Hs; [revert Hs Hn; by destruct (dict_get "expected_status" case)|done].
  - intros Hn. apply andb_false_iff in Hr as [Hr|Hr]; apply negb_false_iff in Hr; [revert Hr Hn; by destruct (dict_get "expected_rule_id" case)|].
    apply existsb_exists in Hr as (r & Hin & E). destruct (mapM_member _ _ _ _ Er Hin) as (row & Hrow & Hv). exists row, r. exact (conj Hrow (conj Hv E)).
  - exists fields. split; [done|]. intros f Hin.
    assert (G : negb (truthy (dict_get_key f (nf_mapped facts))) || negb (truthy (dict_get_key f (nf_origins facts))) = false).
    { apply not_true_iff_false. intros G. assert (E : existsb (fun f => negb (truthy (dict_get_key f (nf_mapped facts)))
        || negb (truthy (dict_get_key f (nf_origins facts)))) fields = true) by (apply existsb_exists; by exists f). congruence. }
    apply orb_false_iff in G as [G1 G2]. by apply negb_false_iff in G1, G2.
Qed.

Lemma outcome_pass raw initial errors reason : native_operation_outcome raw initial errors = ("PASS", reason) ->
  initial <> "FAIL" /\ initial <> "BLOCKED" /\ errors = [].
Proof.
  unfold native_operation_outcome. destruct (str_in initial _) eqn:E.
  - intros [= -> _]. done.
  - destruct errors; [|done]. intros _. apply str_in_false in E. repeat split; intros ->; apply E; cbn; tauto.
Qed.

(** A passing record was projected from a bundle. *)
Lemma native_pass_inv raw case connector authority record :
  normalize raw case connector authority = Ok record -> dict_get "status" record = PStr "PASS" ->
  exists declared p reason, connector = "nginx" /\
    native_invocation_for_case case_catalog_schema fuel case connector = Ok declared /\ is_none declared = false /\
    projection raw case authority = Ok p /\
    native_operation_expectation_errors (native_effective_case case (np_facts p)) (np_facts p) = Ok [] /\
    base raw (native_effective_case case (np_facts p)) connector (Some p) "PASS" reason = Ok record.
Proof.
  unfold normalize_native_operation_record. destruct (normalize_status _) as [initial|]; [|done]. cbv zeta. intros H Hs.
  assert (Get : forall d k v, dict_find k d = Some v -> dict_get k d = v) by (unfold dict_get, dict_get_or; by intros ??? ->).
  match type of H with match ?j with Ok _ => _ | Err _ => _ end = _ => destruct j as [r|e] eqn:E end.
  2: { destruct (evidence_exception e); [|done]. apply base_fields in H as (Hf & _); [|done].
    apply Get in Hf. rewrite Hs in Hf. injection Hf as Hf. unfold native_operation_failure_status in Hf.
    destruct (str_in initial ["FAIL"; "BLOCKED"]) eqn:Ei; [|destruct authority; [done|by destruct (String.eqb initial "PASS")]].
    by rewrite <- Hf in Ei. }
  apply Ok_inj in H as ->. destruct (String.eqb_spec connector "nginx") as [->|]; [|done].
  destruct (native_invocation_for_case _ _ _ _) as [declared|] eqn:Ed; [|done]. apply demand_then in E as [Hd%negb_true_iff E].
  destruct (projection raw case authority) as [p|] eqn:Ep; [|done].
  destruct (native_operation_expectation_errors _ _) as [errors|] eqn:Ee; [|done].
  destruct (native_operation_outcome raw initial errors) as [status reason] eqn:Eo.
  destruct (projection_inv _ _ _ _ Ep) as (_ & _ & reopened & _ & _ & _ & _ & _ & _ & Hp).
  destruct (base_fields _ _ _ _ _ _ _ E) as (Hst & _).
  { intros q [= <-]. by eapply h1_field_names. }
  apply Get in Hst. rewrite Hs in Hst. injection Hst as <-. apply outcome_pass in Eo as (_ & _ & ->).
  by exists declared, p, reason.
Qed.

(** C33: a record of a native operation passes for its bundle only: the case declares an
    invocation on nginx and the caller gave an authority whose run and framework
    revision the record names; the bundle it reads and the facts of the closed contract
    satisfy the case with the overrides of that contract, status, rule and fields, and an
    HTTP/1 case is bound to the one request and the one access of its event.  The
    status and the result of the record are those of the facts.  Without an authority,
    or after any failure in between, no record passes. *)
Theorem native_record_sound raw case connector authority record :
  normalize raw case connector authority = Ok record -> dict_get "status" record = PStr "PASS" ->
  connector = "nginx" /\
  (exists declared, native_invocation_for_case case_catalog_schema fuel case connector = Ok declared /\ declared <> PNone) /\
  exists a sources reopened p,
    authority = Some a /\ na_sources a = PDict sources /\ py_eq (na_run_id a) (dict_get "run_id" raw) = true /\
    (exists link, dict_get "parent_framework_gitlink" raw = PStr link /\
       py_eq (PStr link) (dict_get "framework_sha" sources) = true) /\
    validate raw (na_root a) sources = Ok reopened /\ derive case reopened = Ok (np_facts p) /\
    expectations_met (native_effective_case case (np_facts p)) (np_facts p) /\
    ((exists profile, case_protocol_profile case = Ok profile /\ is_http1 profile = false) \/
     exists e ev, nf_semantic_event (np_facts p) = Some e /\ h1_bound raw case reopened e (np_fields p) ev) /\
    dict_find "actual_status" record = Some (nf_actual_status (np_facts p)) /\
    dict_find "observed_result" record = dict_find "expected_result" (nf_semantics (np_facts p)) /\
    dict_find "live_executed" record = Some (PBool true).
Proof.
  intros H Hs. destruct (native_pass_inv _ _ _ _ _ H Hs) as (declared & p & reason & -> & Hd & Hn & Ep & Ee & Hb).
  destruct (projection_inv _ _ _ _ Ep) as (a & sources & reopened & Ha & Hso & Hrun & Hl & Hv & Hde & Hp).
  destruct (base_fields _ _ _ _ _ _ _ Hb) as (_ & _ & Hlive & Hfacts).
  { intros q [= <-]. by eapply h1_field_names. }
  destruct (Hfacts p eq_refl) as (Hact & v & Hv1 & Hv2). split; [done|]. split.
  { exists declared. split; [done|]. by intros ->. }
  exists a, sources, reopened, p. repeat (split; [done|]). split; [by apply expectations_spec|]. split.
  { destruct (projection_bound _ _ _ _ _ _ Hp) as [(_ & _ & B)|(e & ev & He & _ & B)]; [by left|right; by exists e, ev]. }
  split; [done|]. split; [congruence|done].
Qed.
End NativeRecord.

(** * Native facts are grounded in retained bytes

    Every field the contract maps is taken from the retained bytes of the proof: a line of
    a native event log that decodes to one of its events, the retained observation, a
    sealed receipt or a capture.  The events of a proof respect the life of their
    transactions. *)

From S2P Require Export NativeContract PyEquality.

(** ** Numbered rows *)

Lemma numbered_In {A} (l : list A) i x : In (i, x) (numbered l) <-> 0 <= i /\ nth_error l (Z.to_nat i) = Some x.
Proof.
  unfold numbered. enough (G : forall k, In (i, x) (combine (map Z.of_nat (seq k (List.length l))) l) <->
    Z.of_nat k <= i /\ nth_error l (Z.to_nat i - k) = Some x).
  { rewrite (G 0%nat), Nat.sub_0_r. done. }
  induction l as [|y l IH]; intros k; cbn [List.length seq map combine].
  - split; [done|]. intros [_ H]. by destruct (Z.to_nat i - k)%nat.
  - cbn [In]. rewrite (IH (S k)). split.
    + intros [[= <- <-]|[Hk H]]; [split; [lia|]; by rewrite Nat2Z.id, Nat.sub_diag|].
      split; [lia|]. replace (Z.to_nat i - k)%nat with (S (Z.to_nat i - S k)) by lia. done.
    + intros [Hk H]. destruct (Z.eq_dec i (Z.of_nat k)) as [->|Hn].
      * rewrite Nat2Z.id, Nat.sub_diag in H. injection H as ->. by left.
      * right. split; [lia|]. replace (Z.to_nat i - k)%nat with (S (Z.to_nat i - S k)) in H by lia. done.
Qed.

Lemma numbered_member {A} (l : list A) row : In row (numbered l) -> In (snd row) l.
Proof. destruct row as [i x]. rewrite numbered_In. intros [_ H]. by eapply nth_error_In. Qed.

Lemma numbered_exists {A} (l : list A) x : In x l -> exists i, In (i, x) (numbered l).
Proof.
  intros H. apply In_nth_error in H as [n H]. exists (Z.of_nat n). apply numbered_In. rewrite Nat2Z.id. split; [lia|done].
Qed.

Lemma numbered_map {A} (l : list A) : map snd (numbered l) = l.
Proof.
  unfold numbered. generalize 0%nat. induction l as [|x l IH]; intros k; cbn; [done|]. f_equal. apply IH.
Qed.

Lemma entry_In {A} key (l : list (string * A)) v : entry key l = Some v -> In (key, v) l.
Proof.
  induction l as [|[k w] l IH]; cbn; [done|]. destruct (String.eqb_spec k key) as [->|]; [|auto]. intros [= ->]. by left.
Qed.

Section Native.
Variables (case_catalog_schema : pyval) (fuel : nat) (digest : chars -> string).
Variable exception_text : exn -> string.
Variable json_object : chars -> res pydict.
Variable p : strict_proof.

(** ** Origins *)

(** The line [l] of a log of the retained bytes. *)
Record retained (l : located) : Prop := {
  re_log : In (lo_leaf l) EVENT_LEAVES;
  re_raw : exists raw, In (lo_name l, raw) (sp_raw p) /\ entry (lo_leaf l) raw = Some (lo_raw l);
  re_line : 0 <= lo_index l /\ nth_error (bytes_splitlines (lo_raw l)) (Z.to_nat (lo_index l)) = Some (lo_line l) }.

(** A retained line decodes to the event. *)
Definition decodes_to (l : located) (event : pydict) : Prop :=
  exists value, json_object (lo_line l) = Ok value /\ py_eq (PDict value) (PDict event) = true.
Definition retained_event (event : pydict) : Prop := exists l, retained l /\ decodes_to l event.

Lemma retained_lines_spec l : In l (retained_lines p) -> retained l.
Proof.
  intros H. apply in_concat in H as (ls & Hls & H). apply in_map_iff in Hls as ([name raw] & <- & Hr).
  apply in_concat in H as (lines & Hlines & H). apply in_map_iff in Hlines as (leaf & <- & Hleaf).
  unfold log_lines in H. cbn [fst snd] in H. destruct (entry leaf raw) as [text|] eqn:E; [|done].
  apply in_map_iff in H as ([i line] & <- & Hi). apply numbered_In in Hi as [Hi Hn]. constructor; cbn.
  - by apply (Permutation_in _ (sort_strs_perm EVENT_LEAVES)).
  - by exists raw.
  - done.
Qed.

Lemma locate_spec event lines l : locate json_object event lines = Ok (Some l) -> In l lines /\ decodes_to l event.
Proof.
  induction lines as [|l' lines IH]; cbn [locate]; [done|]. destruct (nonblank_line _); [|intros H; destruct (IH H); split; [by right|done]].
  destruct (json_object (lo_line l')) as [value|] eqn:E; [|done]. destruct (py_eq (PDict value) (PDict event)) eqn:Ep.
  - intros H. apply Ok_inj in H. injection H as <-. split; [by left|by exists value].
  - intros H. destruct (IH H). split; [by right|done].
Qed.

Section Events.
Variable events : list pydict.

(** What an origin proves: where it points to and whose digest it states. *)
Definition event_evidence (o : pydict) : Prop := exists l event,
  In event events /\ retained l /\ decodes_to l event /\
  dict_get "kind" o = PStr "native_event" /\ dict_get "invocation" o = PStr (lo_name l) /\
  dict_get "artifact" o = PStr (lo_leaf l) /\ dict_get "artifact_sha256" o = PStr (digest (lo_raw l)) /\
  dict_get "line_index" o = PInt (lo_index l) /\ dict_get "line_sha256" o = PStr (digest (lo_line l)).
Definition observation_evidence (o : pydict) : Prop := exists raw text value,
  entry "main" (sp_raw p) = Some raw /\ entry "sequence-observation.json" raw = Some text /\
  json_object text = Ok value /\ py_eq (PDict value) (sp_get "observation" p) = true /\
  dict_get "kind" o = PStr "host_observation" /\ dict_get "artifact_sha256" o = PStr (digest text).
Definition receipt_evidence (o : pydict) : Prop := exists files path file seal,
  dict_get_or (PDict []) "files" (sp_fields p) = PDict files /\ dict_find path files = Some (PDict file) /\
  dict_get "sha256" file = PStr seal /\ fullmatch_str SEAL_PATTERN seal = true /\
  dict_get "kind" o = PStr "operation_receipt" /\ dict_get "artifact" o = PStr path /\ dict_get "artifact_sha256" o = PStr seal.
Definition capture_evidence (o : pydict) : Prop := exists raw leaf data,
  entry "main" (sp_raw p) = Some raw /\ entry leaf raw = Some data /\
  dict_get "artifact" o = PStr leaf /\ dict_get "artifact_sha256" o = PStr (digest data).
Definition origin_proved (o : pyval) : Prop := exists d, o = PDict d /\
  (event_evidence d \/ observation_evidence d \/ receipt_evidence d \/ capture_evidence d).

(** Values with at least one origin, all of them proved. *)
Record grounded (m : mapped) : Prop := { gr_values : fst m <> []; gr_origins : snd m <> []; gr_proved : Forall origin_proved (snd m) }.

Lemma event_origin_proved event index field o : In event events ->
  event_origin digest json_object p event index field = Ok o -> origin_proved o /\ retained_event event.
Proof.
  intros Hin. unfold event_origin. destruct (locate _ _ _) as [[l|]|] eqn:E; try done. apply locate_spec in E as [Hl Hd].
  apply retained_lines_spec in Hl. destruct (dict_item _ event) as [t|]; [|done]. intros H. apply Ok_inj in H as <-.
  split; [|by exists l]. eexists. split; [reflexivity|]. left. exists l, event. done.
Qed.

Lemma observation_origin_proved pointer o : observation_origin digest json_object p pointer = Ok o -> origin_proved o.
Proof.
  unfold observation_origin, main_artifacts. cbv zeta. destruct (entry "main" (sp_raw p)) as [raw|] eqn:Em; [|done].
  destruct (entry _ raw) as [text|] eqn:Et; [|done]. destruct (json_object text) as [value|] eqn:Ej; [|done].
  intros H. apply demand_then in H as [Hv H]. apply Ok_inj in H as <-. eexists. split; [reflexivity|]. right. left.
  by exists raw, text, value.
Qed.

Lemma receipt_origin_proved name field o : receipt_origin p name field = Ok o -> origin_proved o.
Proof.
  unfold receipt_origin. destruct (sp_item "case_id" p) as [c|]; [|done]. cbv zeta.
  destruct (dict_get_or _ "files" _) as [| | | | | |files] eqn:Ef; try done. cbn [mapping].
  destruct (filterM _ _) as [candidates|]; [|done]. destruct (if str_in _ EVENT_CASES then _ else _) as [|[| | | |path| |] [|]]; try done.
  destruct (dict_item path files) as [file|] eqn:Ep; [|done]. apply dict_item_Ok in Ep.
  destruct file as [| | | | | |file]; try done. cbn [mapping]. intros H. apply demand_then in H as [Hs H]. apply Ok_inj in H as <-.
  destruct (dict_get "sha256" file) as [| | | |seal| |] eqn:Es; try done.
  eexists. split; [reflexivity|]. right. right. left. by exists files, path, file, seal.
Qed.

Lemma capture_proved raw kind leaf pointer data : entry "main" (sp_raw p) = Some raw -> entry leaf raw = Some data ->
  origin_proved (capture_origin digest kind leaf pointer data).
Proof. intros H1 H2. eexists. split; [reflexivity|]. right. right. right. by exists raw, leaf, data. Qed.

Lemma origins_proved {A} (f : A -> res pyval) (rows : list A) l : mapM f rows = Ok l -> rows <> [] ->
  (forall row o, In row rows -> f row = Ok o -> origin_proved o) -> l <> [] /\ Forall origin_proved l.
Proof.
  intros H Hn Hf. split.
  - intros ->. apply mapM_length in H. by destruct rows.
  - apply List.Forall_forall. intros o Ho. destruct (mapM_member _ _ _ _ H Ho) as (row & Hr & Hv). by apply (Hf row).
Qed.

Lemma origin_of_proved row field o : In row (numbered events) -> origin_of digest json_object p row field = Ok o -> origin_proved o.
Proof. intros Hr H. apply numbered_member in Hr. by apply (event_origin_proved _ _ _ _ Hr) in H as [? _]. Qed.

Lemma some_rows {A} (l : list A) m (k : res mapped) r : (demand (negb (Nat.eqb (List.length l) 0)) m ;;; k) = Ok r -> l <> [] /\ k = Ok r.
Proof. intros H. apply demand_then in H as [Hl H]. split; [|done]. by intros ->. Qed.

Lemma mapM_some {A B} (f : A -> res B) l l' : mapM f l = Ok l' -> l <> [] -> l' <> [].
Proof. intros H Hn ->. apply mapM_length in H. by destruct l. Qed.

Lemma native_values_grounded selected field m : native_values digest json_object p events selected field = Ok m -> grounded m.
Proof.
  unfold native_values. cbv zeta. intros H. apply some_rows in H as [Hn H]. destruct (mapM _ _) as [values|] eqn:Ev in H; [|done].
  destruct (mapM _ _) as [origins|] eqn:Eo in H; [|done]. apply Ok_inj in H as <-.
  destruct (origins_proved _ _ _ Eo Hn) as [Ho Hp].
  { intros row o Hr. apply origin_of_proved. by apply List.filter_In in Hr as [? _]. }
  constructor; [by eapply mapM_some|done|done].
Qed.

Lemma reason_values_rows selected key rows : actual_reason_values events selected key = Ok rows ->
  rows <> [] /\ forall row, In row rows -> In (fst row) (numbered events).
Proof.
  unfold actual_reason_values. destruct (mapM _ _) as [ls|] eqn:E; [|done]. intros H. apply demand_then in H as [Hl H].
  apply Ok_inj in H as <-. split; [by intros E'; rewrite E' in Hl|]. intros row Hr. apply in_concat in Hr as (l & Hl' & Hr).
  destruct (mapM_member _ _ _ _ E Hl') as (x & Hx & Hm). unfold measured_row in Hm. destruct (reason_measurements _); [|done].
  apply Ok_inj in Hm as <-. destruct (reason_fields _) as [fields|]; [|done]. destruct (entry key fields); [|done].
  destruct Hr as [<-|[]]. cbn. by apply List.filter_In in Hx as [? _].
Qed.

Lemma reason_origins_proved rows l : reason_origins digest json_object p rows = Ok l ->
  (forall row, In row rows -> In (fst row) (numbered events)) -> rows <> [] -> l <> [] /\ Forall origin_proved l.
Proof. intros H Hr Hn. apply (origins_proved _ _ _ H Hn). intros row o Hin. by apply origin_of_proved, Hr. Qed.

Lemma indexed_proved field event o : In event events -> indexed_origin digest json_object p events field event = Ok o -> origin_proved o.
Proof.
  intros Hin. unfold indexed_origin. destruct (index_of events event); [|done]. intros H. by apply (event_origin_proved _ _ _ _ Hin) in H as [? _].
Qed.

Lemma grounded_more values origins more : values <> [] -> origins <> [] -> Forall origin_proved origins -> Forall origin_proved more ->
  grounded (values, origins ++ more).
Proof. intros Hv Ho H1 H2. constructor; cbn; [done|by destruct origins|by apply Forall_app]. Qed.

Lemma single_grounded v o : origin_proved o -> grounded ([v], [o]).
Proof. intros H. constructor; cbn; [done|done|by constructor]. Qed.

Lemma receipt_field_grounded field m : receipt_field p field = Ok m -> grounded m.
Proof.
  unfold receipt_field. cbv zeta. destruct (item_path _ _) as [v|]; [|done]. destruct (receipt_origin p _ _) as [o|] eqn:E; [|done].
  intros H. apply Ok_inj in H as <-. by eapply single_grounded, receipt_origin_proved.
Qed.

Lemma connection_grounded field observation requests m :
  connection_field digest json_object p field observation requests = Ok m -> grounded m.
Proof.
  unfold connection_field. cbv zeta. destruct (iterate _) as [accesses|] eqn:Ea in |- *; [|done]. destruct (iterate requests) as [rows|]; [|done].
  intros H. apply demand_then in H as [Hn H]. apply andb_true_iff in Hn as [_ Hn].
  destruct (mapM _ accesses) as [connections|] eqn:Ec in H; [|done]. destruct (mapM _ accesses) as [counters|] eqn:Ek in H; [|done].
  apply demand_then in H as [_ H]. destruct (mapM _ (numbered accesses)) as [origins|] eqn:Eo in H; [|done]. apply Ok_inj in H as <-.
  assert (Hs : accesses <> []) by (by intros ->). assert (Hm : numbered accesses <> []).
  { intros E. apply Hs. rewrite <- (numbered_map accesses), E. done. }
  destruct (origins_proved _ _ _ Eo Hm) as [Ho Hp]; [intros row o _; apply observation_origin_proved|].
  constructor; cbn; [|done|done]. destruct (String.eqb field _); [by eapply mapM_some|done].
Qed.

Lemma requests_grounded requests m rows origins values : completed_requests requests m = Ok rows ->
  request_origins digest json_object p rows = Ok origins -> (rows <> [] -> values <> []) -> grounded (values, origins).
Proof.
  unfold completed_requests. intros H Ho Hv. apply demand_then in H as [Ht H]. destruct (iterate requests) as [l|] eqn:El; [|done].
  destruct (mapM mapping l) as [rs|] eqn:Er; [|done]. apply demand_then in H as [_ H]. apply Ok_inj in H as <-.
  assert (Hl : l <> []).
  { intros ->. destruct requests as [| | | |s|l|d]; cbn in El; try done; apply Ok_inj in El; cbn in Ht.
    - apply map_eq_nil in El. destruct s; done.
    - by subst.
    - by destruct d. }
  assert (Hn : rs <> []) by (by eapply mapM_some). assert (Hm : numbered rs <> []).
  { intros E. apply Hn. rewrite <- (numbered_map rs), E. done. }
  destruct (origins_proved _ _ _ Ho Hm) as [? ?]; [intros row o _; apply observation_origin_proved|]. constructor; [by apply Hv|done|done].
Qed.

Lemma transport_protocol_grounded observation m : transport_protocol_field digest json_object p observation = Ok m -> grounded m.
Proof.
  unfold transport_protocol_field. intros H. apply demand_then in H as [_ H]. destruct (observation_origin _ _ _ _) as [o|] eqn:E; [|done].
  apply Ok_inj in H as <-. by eapply single_grounded, observation_origin_proved.
Qed.

Lemma main_leaf raw : main_artifacts p = Ok raw -> entry "main" (sp_raw p) = Some raw.
Proof. unfold main_artifacts. destruct (entry _ _); [|done]. congruence. Qed.

Lemma transfer_encoding_grounded m : transfer_encoding_field digest p = Ok m -> grounded m.
Proof.
  unfold transfer_encoding_field. destruct (main_artifacts p) as [raw|] eqn:E; [|done]. apply main_leaf in E.
  destruct (entry _ raw) as [wire|] eqn:Ew; [|done]. destruct (parse_http11_response wire); [|done]. intros H. apply Ok_inj in H as <-.
  by eapply single_grounded, capture_proved.
Qed.

Lemma write_result_grounded case_id observation m : write_result_field digest json_object p case_id observation = Ok m -> grounded m.
Proof.
  unfold write_result_field. cbv zeta. destruct (dict_get _ observation) as [| | | | |writes|]; try done. intros H.
  apply demand_then in H as [_ H]. destruct (write_observation_errors _ _); [|done]. apply demand_then in H as [_ H].
  apply demand_then in H as [_ H]. destruct (mapM mapping writes) as [rows|]; [|done]. apply demand_then in H as [_ H].
  destruct (List.filter _ rows) as [|row [|]]; try done. apply demand_then in H as [_ H].
  destruct (observation_origin _ _ _ _) as [o|] eqn:E; [|done]. apply Ok_inj in H as <-. by eapply single_grounded, observation_origin_proved.
Qed.

Variable selected : list pydict.
Hypothesis selected_events : incl selected events.

Lemma timeout_stage_grounded case_id m : timeout_stage_field digest json_object p events case_id selected = Ok m -> grounded m.
Proof.
  unfold timeout_stage_field. cbv zeta. intros H. apply demand_then in H as [_ H].
  destruct (find _ selected) as [event|] eqn:Ef; [|done]. apply find_some in Ef as [Hin _].
  destruct (dict_item "phase" event) as [phase|]; [|done]. destruct (_ || _); [|done].
  destruct (indexed_origin _ _ _ _ _ _) as [o|] eqn:E; [|done]. apply Ok_inj in H as <-.
  eapply single_grounded, indexed_proved; [by apply selected_events|exact E].
Qed.

Lemma content_type_grounded m : content_type_scope_field digest json_object p events selected = Ok m -> grounded m.
Proof.
  unfold content_type_scope_field. destruct (native_values _ _ _ _ _ _) as [[values origins]|] eqn:En; [|done].
  apply native_values_grounded in En as [Hv Ho Hp]. cbn in Hv, Ho, Hp.
  destruct (actual_reason_values _ _ _) as [rows|] eqn:Er; [|done]. apply reason_values_rows in Er as [Hn Hr].
  destruct (all_hashable values) as [[]|]; [|done]. destruct (dedup py_eq values) as [|c [|]]; try done.
  destruct (if eq_str c "" then _ else _) as [scope|]; [|done].
  destruct (reason_origins _ _ _ _) as [more|] eqn:Em; [|done]. intros H. apply Ok_inj in H as <-.
  apply reason_origins_proved in Em as [_ Hm]; [|done|done]. by apply grounded_more.
Qed.

Lemma stream_grounded field m : stream_field digest json_object p events field selected = Ok m -> grounded m.
Proof.
  unfold stream_field. cbv zeta. set (completes := List.filter _ selected). set (interventions := List.filter _ selected).
  destruct (actual_reason_values _ _ _) as [appends|] eqn:Ea; [|done]. apply reason_values_rows in Ea as [Hn Hr].
  intros H. apply demand_then in H as [_ H]. destruct (reason_origins _ _ _ _) as [first|] eqn:Ef; [|done].
  apply reason_origins_proved in Ef as [Hf Hfp]; [|done|done].
  destruct (mapM _ (completes ++ interventions)) as [more|] eqn:Em in H; [|done].
  assert (Hm : Forall origin_proved more).
  { apply List.Forall_forall. intros o Ho. destruct (mapM_member _ _ _ _ Em Ho) as (row & Hrow & Hv).
    eapply indexed_proved; [|exact Hv]. apply selected_events. apply in_app_iff in Hrow as [Hrow|Hrow]; by apply List.filter_In in Hrow as [? _]. }
  destruct (String.eqb field _).
  - destruct (item_path _ _) as [r|]; [|done]. destruct (mapping r) as [receipt|]; [|done]. apply demand_then in H as [_ H].
    destruct (main_artifacts p) as [raw|] eqn:Er; [|done]. apply main_leaf in Er. destruct (entry _ raw) as [body|] eqn:Eb; [|done].
    apply demand_then in H as [_ H]. destruct (receipt_origin p _ _) as [o|] eqn:Eo; [|done]. apply Ok_inj in H as <-.
    rewrite <- app_assoc. apply grounded_more; [done|done|done|]. apply Forall_app. split; [done|].
    repeat constructor; [by eapply capture_proved|by eapply receipt_origin_proved].
  - apply Ok_inj in H as <-. by apply grounded_more.
Qed.

Lemma body_limit_grounded case_id m : body_limit_outcome_field digest json_object p events case_id selected = Ok m -> grounded m.
Proof.
  unfold body_limit_outcome_field. destruct (String.eqb case_id _); [apply native_values_grounded|]. cbv zeta.
  destruct (actual_reason_values _ _ _) as [retained|] eqn:Er; [|done]. apply reason_values_rows in Er as [Hn Hr].
  destruct (native_values _ _ _ _ _ "body_bytes_seen") as [[seen origins]|] eqn:Es; [|done].
  destruct (native_values _ _ _ _ _ "body_bytes_inspected") as [[inspected more]|] eqn:Ei; [|done].
  apply native_values_grounded in Es as [Hv Ho Hp], Ei as [_ _ Hm]. cbn in Hv, Ho, Hp, Hm. intros H. apply demand_then in H as [_ H].
  destruct (max_int seen) as [most|]; [|done]. apply demand_then in H as [_ H]. apply demand_then in H as [_ H].
  destruct (main_artifacts p) as [raw|] eqn:Em; [|done]. apply main_leaf in Em. destruct (entry _ raw) as [rules|] eqn:Eu; [|done].
  destruct (line_values LIMIT_LINE _ rules) as [|digits [|]]; try done.
  destruct (map L2S _) as [|action [|]]; try done. do 2 (apply demand_then in H as [_ H]).
  destruct (max_int (map _ retained)) as [kept|]; [|done].
  apply demand_then in H as [_ H]. destruct (limit_outcome _ _ _) as [outcome|]; [|done].
  destruct (reason_origins _ _ _ _) as [reasons|] eqn:Eo; [|done]. apply Ok_inj in H as <-.
  apply reason_origins_proved in Eo as [_ Hq]; [|done|done].
  apply grounded_more; [done|done|done|]. repeat (apply Forall_app; split); [|done|done]. constructor; [by eapply capture_proved|done].
Qed.

Lemma mapped_field_grounded field case_id m : mapped_field digest json_object p events field case_id selected = Ok m -> grounded m.
Proof.
  unfold mapped_field. cbv zeta. destruct (mapping _) as [observation|]; [|done].
  destruct (str_in field ["run_id"; _]); [apply receipt_field_grounded|].
  destruct (str_in field ["connection_id"; _]); [apply connection_grounded|].
  destruct (String.eqb field "transport_protocol"); [apply transport_protocol_grounded|].
  destruct (String.eqb field "transfer_encoding"); [apply transfer_encoding_grounded|].
  destruct (String.eqb field "cleanup_reason"); [apply native_values_grounded|].
  destruct (String.eqb field "timeout_stage"); [apply timeout_stage_grounded|].
  destruct (String.eqb field "write_result"); [apply write_result_grounded|].
  destruct (String.eqb field "content_type_scope"); [apply content_type_grounded|].
  destruct (str_in field ["end_of_stream_evaluation"; _; _]); [apply stream_grounded|].
  destruct (String.eqb field "body_limit_outcome"); [apply body_limit_grounded|].
  destruct (String.eqb field "truncated" && _); [apply native_values_grounded|].
  destruct (str_in field ["eos_seen"; _] && _).
  { destruct (completed_requests _ _) as [rows|] eqn:Er; [|done]. destruct (request_origins _ _ _ _) as [origins|] eqn:Eo; [|done].
    intros H. apply Ok_inj in H as <-. eapply requests_grounded; [done|done|]. intros Hn. destruct (String.eqb field _); [done|].
    intros E. by apply map_eq_nil in E. }
  destruct (String.eqb field "eos_seen" && _).
  { destruct (completed_requests _ _) as [rows|] eqn:Er; [|done]. destruct (request_origins _ _ _ _) as [origins|] eqn:Eo; [|done].
    intros H. apply Ok_inj in H as <-. by eapply requests_grounded. }
  destruct (String.eqb field "transport_result" && _ && _).
  { destruct (item_path _ _) as [r|]; [|done]. destruct (mapping r) as [receipt|]; [|done]. intros H. apply demand_then in H as [_ H].
    destruct (receipt_origin p _ _) as [o|] eqn:Eo; [|done]. apply Ok_inj in H as <-. by eapply single_grounded, receipt_origin_proved. }
  destruct (String.eqb field "transport_result" && _).
  { destruct (completed_requests _ _) as [rows|]; [|done]. destruct (observation_origin _ _ _ _) as [o|] eqn:Eo; [|done].
    intros H. apply Ok_inj in H as <-. by eapply single_grounded, observation_origin_proved. }
  intros H. apply demand_then in H as [_ H]. by eapply native_values_grounded.
Qed.
End Events.

(** ** The events of a proof *)

Lemma selected_incl case_id events transactions l : selected_events case_id events transactions = Ok l -> incl l events.
Proof.
  assert (F : forall names l, filterM (event_named names) events = Ok l -> incl l events)
    by (intros names m Hm x Hx; by apply (filterM_In _ _ _ _ Hm) in Hx as [? _]).
  unfold selected_events. destruct (str_in case_id RAW_CASES).
  { intros H. apply demand_then in H as [_ H]. apply Ok_inj in H as <-. by intros x []. }
  destruct (entry case_id _TECHNICAL) as [[[name message] phase]|].
  - destruct (filterM _ _) as [chosen|] eqn:Es; [|done]. destruct chosen as [|first [|]]; try done.
    intros H. apply demand_then in H as [_ H]. destruct (starts_with _ _).
    + destruct (filterM (event_named ["engine_call_budget_exceeded"]) _) as [timing|] eqn:Et; [|done].
      destruct timing as [|budget [|]]; try done. destruct (dict_item _ first) as [t|]; [|done]. apply demand_then in H as [_ H].
      apply Ok_inj in H as <-. apply F in Es, Et. intros x [<-|[<-|[]]]; [apply Es|apply Et]; by left.
    + apply Ok_inj in H as <-. by apply (F _ _ Es).
  - destruct (str_in case_id EVENT_CASES).
    { destruct (filterM _ _) as [chosen|] eqn:Es; [|done]. intros H. apply demand_then in H as [_ H].
      destruct (forM _ chosen) as [[]|]; [|done]. apply Ok_inj in H as <-. by apply (F _ _ Es). }
    destruct (str_in case_id _).
    { destruct (filterM _ _) as [chosen|] eqn:Es; [|done]. intros H. apply demand_then in H as [_ H].
      destruct (forM _ chosen) as [[]|]; [|done]. apply Ok_inj in H as <-. by apply (F _ _ Es). }
    destruct (mapM _ events) as [ls|] eqn:Em; [|done]. intros H. apply Ok_inj in H as <-.
    intros x Hx. apply in_concat in Hx as (m & Hm & Hx). destruct (mapM_member _ _ _ _ Em Hm) as (e & He & Hv).
    destruct (event_named _ e) as [c|]; [|done]. apply Ok_inj in Hv as <-. destruct c; [done|]. by destruct Hx as [<-|[]].
Qed.

(** The transactions the events of a case may belong to: before a transaction is mapped the
    identifier is empty. *)
Definition admitted (case_id : string) (transactions : list string) : list string :=
  if String.eqb case_id "early_mapping_failure_cleanup" then [""] else transactions.
Definition belongs (event : pydict) (t : string) : Prop := dict_get "transaction_id" event = PStr t.
Definition cleans (event : pydict) (t : string) : Prop := belongs event t /\ dict_get "event" event = PStr "transaction_cleanup".
Definition denies (event : pydict) : Prop :=
  dict_get "status" event = PStr "blocked" /\ dict_get "phase" event = PStr "request_headers".

(** Every event belongs to an admitted transaction and none follows the cleanup of its
    own; a denial of request headers is the decision of rule 1100001 before anything was
    sent. *)
Record orderly (case_id : string) (transactions : list string) (events : list pydict) : Prop := {
  od_belongs : forall event, In event events -> exists t, belongs event t /\ In t (admitted case_id transactions);
  od_final : forall before event after t, events = before ++ event :: after -> belongs event t ->
    forall earlier, In earlier before -> ~ cleans earlier t;
  od_denied : forall event, In event events -> denies event ->
    dict_get "event" event = PStr "engine_decision" /\ dict_get "rule_id" event = PStr "1100001" /\
    dict_get "action" event = PStr "deny" /\ dict_get "http_status" event = PInt 403 /\
    dict_get "visible_http_status" event = PInt 0 }.

Lemma item_get k d v : dict_item k d = Ok v -> dict_get k d = v.
Proof. rewrite dict_item_Ok. unfold dict_get, dict_get_or. by intros ->. Qed.

Lemma exact_str k s l d : exact_value (PDict d) l = true -> In (k, PStr s) l -> dict_get k d = PStr s.
Proof.
  cbn [exact_value]. rewrite forallb_forall. intros H Hin. specialize (H _ Hin). cbn in H. apply andb_true_iff in H as [Hc He].
  destruct (dict_get k d); try done. apply String.eqb_eq in He. by subst.
Qed.
Lemma exact_int k z l d : exact_value (PDict d) l = true -> In (k, PInt z) l -> dict_get k d = PInt z.
Proof.
  cbn [exact_value]. rewrite forallb_forall. intros H Hin. specialize (H _ Hin). cbn [fst snd] in H. apply andb_true_iff in H as [Hc He].
  destruct (dict_get k d) as [| |y| | | |]; try done. cbn in He. apply Qeq_bool_iff in He. unfold Qeq in He. cbn in He. f_equal. lia.
Qed.

Lemma judged_event_step case_id transactions cleaned event cleaned' :
  judged_event case_id transactions cleaned event = Ok cleaned' ->
  exists t, belongs event t /\ In t (admitted case_id transactions) /\ ~ In t cleaned /\
    incl cleaned cleaned' /\ (cleans event t -> In t cleaned') /\
    (denies event -> dict_get "event" event = PStr "engine_decision" /\ dict_get "rule_id" event = PStr "1100001" /\
       dict_get "action" event = PStr "deny" /\ dict_get "http_status" event = PInt 403 /\
       dict_get "visible_http_status" event = PInt 0).
Proof.
  unfold judged_event. cbv zeta. destruct (in_str_set _ _) as [known|]; [|done]. intros H. apply demand_then in H as [_ H].
  destruct (dict_item "transaction_id" event) as [tv|] eqn:Et; [|done]. apply item_get in Et.
  destruct (in_str_set tv _) as [verified|] eqn:Ev; [|done]. apply demand_then in H as [Hv H]. subst verified.
  unfold in_str_set in Ev. destruct (hashable tv); [|done]. apply Ok_inj in Ev. apply in_strs_true in Ev as (t & -> & Ht).
  apply demand_then in H as [Hn H]. apply negb_true_iff, str_in_false in Hn.
  destruct (dict_item "event" event) as [name|] eqn:En; [|done]. apply item_get in En.
  destruct (if eq_str name _ then _ else _) as [[]|] in H; [|done].
  destruct (if eq_str (dict_get "status" event) _ && _ then _ else _) as [[]|] eqn:Ed in H; [|done].
  apply demand_then in H as [_ H]. apply Ok_inj in H as <-. exists t. split; [done|]. split; [done|]. split; [done|].
  split; [destruct (eq_str name _); [intros x Hx; by right|apply incl_refl]|]. split.
  - intros [_ Hc]. rewrite En in Hc. rewrite Hc. cbn. by left.
  - intros [Hs Hp]. rewrite Hs, Hp in Ed. cbn [eq_str String.eqb Ascii.eqb Bool.eqb andb] in Ed.
    unfold exact, demand, guard in Ed. destruct (exact_value _ _) eqn:Ex; [|done].
    repeat split; (eapply exact_str || eapply exact_int); (exact Ex || (cbn; tauto)).
Qed.

Lemma events_orderly case_id transactions events cleaned :
  foldM (judged_event case_id transactions) events [] = Ok cleaned -> orderly case_id transactions events.
Proof.
  intros H. enough (G : orderly case_id transactions events /\ forall e t, In e events -> cleans e t -> In t cleaned) by apply G.
  apply (foldM_prefix_inv (judged_event case_id transactions)
    (fun l c => orderly case_id transactions l /\ forall e t, In e l -> cleans e t -> In t c) events [] cleaned);
    [|intros pre event suf s1 s2 _ [[H1 H2 H3] Hc] Hs|done].
  { split; [|by intros ??[]]. constructor; [by intros ?[]| |by intros ?[]]. intros before event after t E. by destruct before. }
  apply judged_event_step in Hs as (t & Hb & Ha & Hn & Hi & Hcl & Hd). split; [constructor|].
  - intros e He. apply in_app_iff in He as [He|[<-|[]]]; [by apply H1|by exists t].
  - intros before e after u E Hu earlier Hin Hcu. destruct after as [|a after _] using rev_ind.
    + apply app_inj_tail in E as [-> ->]. unfold belongs in Hb, Hu. rewrite Hb in Hu. injection Hu as <-. by apply Hn, (Hc earlier).
    + rewrite app_comm_cons, app_assoc in E. apply app_inj_tail in E as [E _]. by apply (H2 _ _ _ u E Hu earlier).
  - intros e He. apply in_app_iff in He as [He|[<-|[]]]; [by apply H3|done].
  - intros e u He Hcu. apply in_app_iff in He as [He|[<-|[]]]; [by apply Hi, (Hc e)|].
    destruct Hcu as [Hu Hk]. assert (u = t) as -> by (unfold belongs in Hb, Hu; congruence). apply Hcl. by split.
Qed.

Lemma run_ids l : forallb is_run_id l = true -> l = map PStr (map py_str l).
Proof.
  induction l as [|v l IH]; cbn; [done|]. rewrite andb_true_iff. intros [Hv H]. rewrite <- IH by done. by destruct v.
Qed.

Lemma judged_inv case_id events selected transactions : judged_events json_object p case_id = Ok (events, selected, transactions) ->
  sp_get "events" p = PList (map PDict events) /\ sp_get "transaction_ids" p = PList (map PStr transactions) /\
  List.NoDup transactions /\ incl selected events /\ orderly case_id transactions events.
Proof.
  unfold judged_events. cbv zeta. destruct (sp_get "events" p) as [| | | | |es|]; try done.
  destruct (sp_get "transaction_ids" p) as [| | | | |ts|]; try done. intros H. apply demand_then in H as [Ht H].
  apply andb_true_iff in Ht as [Hr Hn]. apply (nodupb_NoDup String.eqb String.eqb_eq) in Hn. apply run_ids in Hr.
  destruct (actual_events _ _ _) as [decoded|]; [|done]. destruct (mapM mapping es) as [rows|] eqn:Er; [|done].
  destruct (foldM _ rows []) as [cleaned|] eqn:Ef; [|done]. destruct (selected_events _ _ _) as [chosen|] eqn:Es; [|done].
  apply Ok_inj in H. injection H as <- <- <-. apply mapping_all in Er as ->. split; [done|]. split; [by f_equal|].
  split; [done|]. split; [by eapply selected_incl|by eapply events_orderly].
Qed.

Lemma routed_case row case_id : In row ROUTES -> In case_id (fst row) -> In case_id CASE_IDS.
Proof.
  intros Hr Hc. assert (E : CASE_IDS = concat (map fst ROUTES)) by (vm_compute; reflexivity). rewrite E. apply in_concat.
  exists (fst row). split; [by apply in_map|done].
Qed.

Lemma projection_facts case result :
  project_native_operation case_catalog_schema fuel digest exception_text json_object case p = Ok result ->
  exists transactions, dict_get "case_id" case = PStr (pj_case_id result) /\ In (pj_case_id result) CASE_IDS /\
    sp_get "case_id" p = PStr (pj_case_id result) /\
    judged_events json_object p (pj_case_id result) = Ok (pj_events result, pj_selected result, transactions) /\
    pj_actual_status result = sp_get "actual_status" p.
Proof.
  unfold project_native_operation. destruct (descriptor_registry _) as [registry|]; [|done].
  destruct (projection_of _ _ _ _ _ _ _) as [r|e] eqn:E; [|done]. intros H. apply Ok_inj in H as <-.
  unfold projection_of in E. destruct (validate_identity _ _ _ _) as [[[case_id operation] run_id]|] eqn:Ei; [|done].
  destruct (judged_events _ _ _) as [[[events selected] transactions]|] eqn:Ej; [|done].
  destruct (visible_status _ _ _) as [[]|]; [|done]. destruct (match find _ registry with Some _ => _ | None => _ end) as [d|]; [|done].
  destruct (mapping _) as [overrides|]; [|done]. destruct (sp_item _ p) as [status|] eqn:Est; [|done].
  destruct (filterM _ events); [|done]. destruct (mapM _ selected); [|done]. destruct (mapping_facts _ _ _); [|done].
  apply Ok_inj in E as <-. cbn. exists transactions. apply item_get in Est. split; [|split; [|split; [|split; [done|by symmetry]]]].
  all: unfold validate_identity in Ei; cbv zeta in Ei; unfold route in Ei; destruct (dict_get "case_id" case) as [| | | |s| |]; try done.
  all: destruct (find _ ROUTES) as [[cases [op helper]]|] eqn:Er; [|done].
  all: destruct (match case_catalog_schema with PDict _ => _ | _ => _ end) as [errors|]; [|done].
  all: apply demand_then in Ei as [_ Ei]; destruct (item_path _ _) as [declared|]; [|done].
  all: destruct (native_branches _) as [branches|]; [|done]; destruct (declared_descriptor _ _) as [descriptor|]; [|done].
  all: apply demand_then in Ei as [_ Ei]; apply demand_then in Ei as [Hx Ei].
  all: repeat (apply demand_then in Ei as [_ Ei]); destruct (sp_get "invocation_receipts" p) as [| | | | | |ds]; try done.
  all: apply demand_then in Ei as [_ Ei]; destruct (receipts _) as [named|]; [|done]; destruct (forM _ named) as [[]|]; [|done].
  all: apply Ok_inj in Ei; injection Ei as <- _ _.
  - done.
  - apply find_some in Er as [Hin Hs]. by apply (routed_case _ _ Hin), str_in_In.
  - eapply exact_str; [exact Hx|]. cbn. tauto.
Qed.

(** ** The contract *)

(** What the facts of a case assert of the retained bytes. *)
Record contract_grounded (case : pydict) (facts : native_facts) (case_id : string) (events : list pydict)
    (transactions : list string) : Prop := {
  cg_case : dict_get "case_id" case = PStr case_id /\ In case_id CASE_IDS /\ sp_get "case_id" p = PStr case_id;
  cg_events : sp_get "events" p = PList (map PDict events) /\ orderly case_id transactions events;
  cg_selected : forall event, In event (nf_selected facts) -> In event events /\ retained_event event;
  cg_semantic : forall event, nf_semantic_event facts = Some event -> In event events /\ retained_event event;
  cg_result : exists result, entry case_id CASE_RESULTS = Some result /\
    dict_get "expected_result" (dict_merge case (nf_overrides facts)) = PStr result /\
    dict_find "expected_result" (nf_semantics facts) = Some (PStr result);
  cg_status : nf_actual_status facts = sp_get "actual_status" p;
  cg_fields : forall fields field, dict_get "expected_event_fields" (dict_merge case (nf_overrides facts)) = PList fields ->
    In field fields -> exists name values origins, field = PStr name /\
      dict_find name (nf_mapped facts) = Some (PList values) /\ dict_find name (nf_origins facts) = Some (PList origins) /\
      grounded events (values, origins) }.

Lemma found_display {A} (g h : A -> pyval) name (l : list (string * A)) : In name (map fst l) ->
  exists a, In (name, a) l /\ dict_find name (mkdict (map (fun v => (fst v, g (snd v))) l)) = Some (g a) /\
    dict_find name (mkdict (map (fun v => (fst v, h (snd v))) l)) = Some (h a).
Proof.
  induction l as [|[k a] l IH]; [done|]. cbn [map fst snd]. rewrite !dict_find_mkdict_cons. intros Hin.
  destruct (String.eqb_spec k name) as [->|Hn]; [exists a; split; [by left|done]|].
  destruct Hin as [?|Hin]; [done|]. destruct (IH Hin) as (b & Hb & H1 & H2). exists b. split; [by right|done].
Qed.

Lemma required_fields_spec overrides expected names fields field : required_fields overrides expected = Ok names ->
  dict_get "expected_event_fields" expected = PList fields -> In field fields -> exists name, field = PStr name /\ In name names.
Proof.
  unfold required_fields. cbv zeta. intros H E Hin. rewrite E in H. destruct fields as [|f fields]; [done|]. cbn [truthy negb] in H.
  apply demand_then in H as [_ H]. destruct (all_hashable _) as [[]|]; [|done]. apply demand_then in H as [_ H].
  destruct (BaselineTheorems.mapM_In_Ok _ _ _ _ H Hin) as (name & Hv). exists name.
  assert (field = PStr name) as -> by (destruct field; try done; by apply Ok_inj in Hv as ->). split; [done|].
  apply mapM_Ok_Forall2 in H. clear -H Hin. induction H as [|x y l l' Hxy _ IH]; [done|]. destruct Hin as [->|Hin].
  - apply Ok_inj in Hxy as ->. by left.
  - right. by apply IH.
Qed.

Lemma semantic_in events case_id expected semantic origin origins :
  semantic_event digest json_object p events case_id expected = Ok (Some semantic, origin, origins) ->
  In semantic events /\ retained_event semantic.
Proof.
  unfold semantic_event. destruct (str_in case_id RAW_CASES); [intros [=]|].
  destruct (semantic_kind _ _) as [[[kind phase] rule]|]; [|done]. destruct (filterM _ _) as [candidates|] eqn:Ec; [|done].
  destruct candidates as [|[i first] rest]; [done|]. destruct (forM _ _) as [[]|]; [|done]. intros H. apply demand_then in H as [_ H].
  cbv zeta in H. destruct (if str_in case_id EVENT_CASES then _ else _) as [|[j event] kept] eqn:Ek; [done|].
  assert (Hin : In (j, event) (numbered events)).
  { assert (Hc : In (j, event) ((i, first) :: rest)).
    { destruct (str_in case_id EVENT_CASES); [|rewrite Ek; by left].
      assert (Hf : In (j, event) (List.filter (fun row => is_true (dict_get "truncated" (snd row))) ((i, first) :: rest)))
        by (rewrite Ek; by left). by apply List.filter_In in Hf as [? _]. }
    by apply (filterM_In _ _ _ _ Ec) in Hc as [? _]. }
  destruct (mapM _ _) as [os|] eqn:Eo in H; [|done]. apply Ok_inj in H. injection H as <- _ _.
  apply numbered_member in Hin as Hev. split; [done|].
  destruct (BaselineTheorems.mapM_In_Ok _ _ _ (j, event) Eo (or_introl eq_refl)) as (o & Ho).
  by apply (event_origin_proved _ _ _ _ _ Hev) in Ho as [_ Hr].
Qed.

Lemma event_value events event : json_value (PDict (sp_fields p)) = true -> sp_get "events" p = PList (map PDict events) ->
  In event events -> json_value (PDict event) = true.
Proof.
  intros H He Hin. cbn [json_value] in H. apply andb_true_iff in H as [_ H]. rewrite forallb_forall in H.
  unfold sp_get, dict_get, dict_get_or in He. destruct (dict_find "events" (sp_fields p)) as [v|] eqn:Ef; [|done].
  apply dict_find_In in Ef. specialize (H _ Ef). cbn [snd] in H. subst v. cbn [json_value] in H. rewrite forallb_forall in H.
  apply H. by apply in_map.
Qed.

Lemma origins_retained events l os event : mapM (fun row => origin_of digest json_object p row "event")
    (List.filter (fun row => among l (snd row)) (numbered events)) = Ok os ->
  In event l -> In event events -> json_value (PDict event) = true -> retained_event event.
Proof.
  intros H Hl He Hv. destruct (numbered_exists events event He) as (i & Hi).
  assert (Hf : In (i, event) (List.filter (fun row => among l (snd row)) (numbered events))).
  { apply List.filter_In. split; [done|]. unfold among. apply existsb_exists. exists event. split; [done|]. by apply py_eq_refl. }
  destruct (BaselineTheorems.mapM_In_Ok _ _ _ _ H Hf) as (o & Ho). by apply (event_origin_proved _ _ _ _ _ He) in Ho as [_ Hr].
Qed.

Lemma contract_spec case result facts transactions : json_value (PDict (sp_fields p)) = true ->
  dict_get "case_id" case = PStr (pj_case_id result) -> In (pj_case_id result) CASE_IDS ->
  sp_get "case_id" p = PStr (pj_case_id result) ->
  judged_events json_object p (pj_case_id result) = Ok (pj_events result, pj_selected result, transactions) ->
  pj_actual_status result = sp_get "actual_status" p ->
  closed_contract digest json_object case p result = Ok facts ->
  contract_grounded case facts (pj_case_id result) (pj_events result) transactions.
Proof.
  intros Hj H1 H2 H3 Hev Hst. apply judged_inv in Hev as (He & _ & _ & Hincl & Ho). unfold closed_contract. cbv zeta.
  set (expected := dict_merge case (pj_overrides result)).
  destruct (entry _ CASE_RESULTS) as [r|] eqn:Er; [|done]. intros H. apply demand_then in H as [Hr H]. apply eq_str_true in Hr.
  apply demand_then in H as [_ H]. destruct (dict_item "phase" expected) as [phase|]; [|done].
  destruct (forM _ (pj_selected result)) as [[]|]; [|done]. destruct (phase_scope_of _ _ _ _ _) as [scope|]; [|done].
  destruct (filterM _ (pj_selected result)) as [selected|] eqn:Es; [|done]. destruct (selected_rules _) as [rules|]; [|done].
  apply demand_then in H as [_ H]. destruct (mapM _ (List.filter _ (numbered _))) as [origins|] eqn:Eo in H; [|done].
  destruct (required_fields _ _) as [names|] eqn:En; [|done]. destruct (mapM _ names) as [values|] eqn:Ev in H; [|done].
  apply demand_then in H as [_ H]. destruct (override_observed _ "expected_native_status" _ _ _) as [[]|]; [|done].
  destruct (override_observed _ _ _ _ _) as [[]|]; [|done].
  destruct (semantic_event _ _ _ _ _ _) as [[[semantic origin] more]|] eqn:Esem; [|done].
  destruct (file_seals p) as [seals|]; [|done]. destruct (if String.eqb scope "native_event" then _ else _) as [phases|]; [|done].
  destruct (mapM _ _) as [ruled|] in H; [|done]. apply Ok_inj in H as <-. constructor; cbn [nf_overrides nf_actual_status nf_selected
    nf_semantic_event nf_mapped nf_origins nf_semantics].
  - done.
  - done.
  - intros event Hin. split; [by apply Hincl|]. eapply origins_retained; [exact Eo|done|by apply Hincl|].
    eapply event_value; [done|exact He|by apply Hincl].
  - intros event [= ->]. by eapply semantic_in.
  - by exists r.
  - done.
  - intros fields field Hf Hin. destruct (required_fields_spec _ _ _ _ _ En Hf Hin) as (name & -> & Hn).
    assert (Hnames : In name (map fst values)).
    { apply mapM_Ok_Forall2 in Ev. clear -Ev Hn. induction Ev as [|x y l l' Hxy _ IH]; [done|]. destruct Hn as [->|Hn].
      - destruct (mapped_field _ _ _ _ _ _ _) as [m|]; [|done]. apply Ok_inj in Hxy as <-. by left.
      - right. by apply IH. }
    destruct (found_display (fun m : mapped => PList (fst m)) (fun m : mapped => PList (snd m)) name values Hnames) as ([vs os] & Hm & F1 & F2).
    exists name, vs, os. split; [done|]. split; [exact F1|]. split; [exact F2|].
    destruct (mapM_member _ _ _ _ Ev Hm) as (name' & _ & Hv). destruct (mapped_field _ _ _ _ _ _ _) as [m|] eqn:Emf; [|done].
    apply Ok_inj in Hv. injection Hv as <- <-. eapply mapped_field_grounded; [|exact Emf].
    intros x Hx. apply Hincl. by apply (filterM_In _ _ _ _ Es) in Hx as [? _].
Qed.

Lemma derive_grounded case facts : json_value (PDict (sp_fields p)) = true ->
  derive_native_operation_contract case_catalog_schema fuel digest exception_text json_object case p = Ok facts ->
  exists case_id events transactions, contract_grounded case facts case_id events transactions.
Proof.
  unfold derive_native_operation_contract. intros Hj.
  destruct (project_native_operation _ _ _ _ _ _ _) as [result|] eqn:Ep; [|done].
  destruct (closed_contract _ _ _ _ _) as [f|] eqn:Ec; [|done]. intros H. apply Ok_inj in H as <-.
  destruct (projection_facts _ _ Ep) as (transactions & H1 & H2 & H3 & H4 & H5). do 3 eexists. by eapply contract_spec.
Qed.

(** C36: the events of a proof are judged only when they respect the life of their
    transactions: each belongs to one of the distinct transactions the proof names, but for
    the case [early_mapping_failure_cleanup], whose request fails before it has a transaction
    and whose events all have the empty identifier; none follows the cleanup of its own, and
    a denial of request headers is the decision of the deny rule, before anything was sent.
    The events a case is judged by are among them. *)
Theorem native_events_orderly case_id events selected transactions :
  judged_events json_object p case_id = Ok (events, selected, transactions) ->
  sp_get "events" p = PList (map PDict events) /\ sp_get "transaction_ids" p = PList (map PStr transactions) /\
  List.NoDup transactions /\ incl selected events /\ orderly case_id transactions events /\
  (forall event, In event events -> exists t, belongs event t /\
     if String.eqb case_id "early_mapping_failure_cleanup" then t = "" else In t transactions).
Proof.
  intros H. apply judged_inv in H as (H1 & H2 & H3 & H4 & Ho). do 4 (split; [done|]). split; [done|]. intros event Hin.
  destruct (od_belongs _ _ _ Ho event Hin) as (t & Hb & Ht). exists t. split; [done|]. unfold admitted in Ht.
  destruct (String.eqb _ _); [|done]. by destruct Ht as [<-|[]].
Qed.
End Native.

(** ** Records *)

Section Records.
Variables (event_schema case_catalog_schema : pyval) (fuel : nat) (sha256 : string -> string) (digest : chars -> string).
Variable exception_text : exn -> string.
Variable json_object : chars -> res pydict.
(** The reader of a bundle; the entries of the proof it returns are JSON values. *)
Variable validate : pydict -> abs_path -> pydict -> res strict_proof.
Hypothesis validate_json : forall raw root sources p, validate raw root sources = Ok p -> json_value (PDict (sp_fields p)) = true.

Abbreviation derive := (derive_native_operation_contract case_catalog_schema fuel digest exception_text json_object).

(** A record of a native operation that passes under the closed contract is grounded
    in the retained bytes of its bundle: the events the case is judged by and the event
    that carries its meaning are lines of retained event logs and respect the life of
    their transactions, every field the case expects has values whose origins are all
    proved by retained bytes, and the status and the result of the record are those of the
    proof and of the closed table. *)
Theorem pass_grounded raw case connector authority record :
  normalize_native_operation_record event_schema case_catalog_schema fuel sha256 exception_text
    strict_proof (sp_get "observation") validate derive raw case connector authority = Ok record ->
  dict_get "status" record = PStr "PASS" ->
  exists a sources p facts case_id events transactions,
    authority = Some a /\ na_sources a = PDict sources /\ validate raw (na_root a) sources = Ok p /\ derive case p = Ok facts /\
    contract_grounded digest json_object p case facts case_id events transactions /\
    expectations_met (native_effective_case case facts) facts /\
    dict_find "actual_status" record = Some (sp_get "actual_status" p) /\
    dict_find "observed_result" record = option_map PStr (entry case_id CASE_RESULTS).
Proof.
  intros H Hs. destruct (native_pass_inv _ _ _ _ _ _ _ _ _ _ _ _ _ _ H Hs) as (declared & q & reason & -> & _ & _ & Ep & Ee & Hb).
  destruct (projection_inv _ _ _ _ _ _ _ _ _ _ Ep) as (a & sources & p & Ha & Hso & _ & _ & Hv & Hd & _).
  apply (base_fields sha256 strict_proof validate derive) in Hb as (_ & _ & _ & Hfacts); [|intros r [= <-];
    destruct (projection_inv _ _ _ _ _ _ _ _ _ _ Ep) as (? & ? & ? & _ & _ & _ & _ & _ & _ & Hh); by eapply h1_field_names].
  destruct (Hfacts q eq_refl) as (Hact & v & Hv1 & Hv2).
  destruct (derive_grounded _ _ _ _ _ _ _ _ (validate_json _ _ _ _ Hv) Hd) as (case_id & events & transactions & G).
  exists a, sources, p, (np_facts q), case_id, events, transactions. repeat (split; [done|]). split; [by apply expectations_spec|].
  destruct (cg_result _ _ _ _ _ _ _ _ G) as (r & Hr & _ & Hr'). rewrite (cg_status _ _ _ _ _ _ _ _ G) in Hact. split; [done|].
  rewrite Hv2, Hr. cbn. congruence.
Qed.
End Records.
