(* ===== verification/DerivationTheorems.v ===== *)
(** * No case passes without an observed one

    Every record of a finished run that passes is linked, by the closed derivations and
    the aliases of the catalog, to a case that was observed to pass; then the
    normaliser the code passes as an instance of the interface. *)

From S2P Require Export Derivation CaseBinding.
From S2P Require Import CaseTheorems ContractsResults CaseConfig BaselineTheorems NginxProtocol.
From Stdlib Require Import QArith.
#[global] Open Scope Z_scope.

(** What the derivations need of the normaliser: a record that passes is of the case the
    raw record names, and the raw record claims to pass. *)
Class JudgesClaims (normalize : pydict -> string -> case_table -> list pydict -> option string -> res (option pydict)) := {
  names_case : forall raw connector cases events mode r,
    normalize raw connector cases events mode = Ok (Some r) -> passed r = true -> case_id_of r = case_identifier raw;
  needs_claim : forall raw connector cases events mode r,
    normalize raw connector cases events mode = Ok (Some r) -> passed r = true ->
    normalize_status (dict_get "status" raw) = Ok "PASS" }.

(** A payload that reports requests of the run. *)
Definition reports_requests (source : pydict) : Prop :=
  dict_get "requests_sent" source = PBool true \/ dict_get "runtime_verified" source = PBool true.

Section Grounded.
Variables (event_schema : pyval) (fuel : nat) (plan : pydict) (cases : case_table) (events : list pydict).
Variables (mode : option string) (observed payloads : list pydict).

(** The plan selects the case. *)
Definition selected (id : string) : Prop :=
  exists selections, selected_plan_cases plan = Ok selections /\ selected_plan_case selections id = true.

(** The cases linked to an observed PASS. *)
Inductive grounded : string -> Prop :=
| gr_observed r : In r observed -> passed r = true -> grounded (case_id_of r)
| gr_allow source : In source payloads -> reports_requests source ->
    optional_int (dict_get "allowed_request_status" source) = Ok (PInt 200) -> grounded "allow_without_marker"
| gr_deny source : In source payloads -> reports_requests source ->
    optional_int (dict_get "blocked_request_status" source) = Ok (PInt 403) ->
    In 1100001 (source_observed_rule_ids source) -> grounded "deny_header_marker_403"
| gr_event id event case expected : grounded "deny_header_marker_403" ->
    event_for_rule events (Some 1100001) = Some event -> selected id -> In id EVENT_FIELD_CASES ->
    case_of id cases = Some case -> iterate (dict_get "expected_event_fields" case) = Ok expected ->
    (forall item, In item expected -> In (py_str item) (event_field_names (PDict event) "")) -> grounded id
| gr_body event body : grounded "deny_header_marker_403" -> grounded "deny_request_body_marker_403" ->
    event_for_rule events (Some 1100001) = Some event -> event_for_rule events (Some 1100101) = Some body ->
    canonical_event_errors event_schema fuel (PDict event) "event" None mode = Ok [] ->
    selected "event_has_no_request_body_payload" -> grounded "event_has_no_request_body_payload"
| gr_phase4 base id : grounded base -> In base PHASE4_BASES -> In id PHASE4_FACTS -> selected id -> grounded id
| gr_reuse target base needs_event case request : grounded base -> In (target, base, needs_event) EXPLICIT_REUSES ->
    selected target -> case_of target cases = Some case -> dict_get "request" case = PDict request ->
    dict_get "reuses" request = PStr base ->
    (needs_event = true -> exists event transaction, In event events /\ event_transaction_ids event = [transaction]) ->
    grounded target
| gr_target alias case target : grounded alias -> case_of alias cases = Some case ->
    field_text "deprecated_alias_for" case = target -> selected target -> grounded (py_strip target)
| gr_alias alias case target : grounded target -> In (alias, case) cases -> alias_target case = target -> grounded alias.

(** Every passing record is of a grounded case. *)
Definition all_grounded (records : list pydict) : Prop :=
  forall r, In r records -> passed r = true -> grounded (case_id_of r).
(** The index, too. *)
Definition index_grounded (by_id : pydict) : Prop :=
  forall id r, dict_find id by_id = Some (PDict r) -> passed r = true -> grounded id.
Definition state_grounded (st : derivation) : Prop := all_grounded (fst st) /\ index_grounded (snd st).

Lemma grounded_nil : all_grounded [].
Proof. intros r []. Qed.
Lemma grounded_app l1 l2 : all_grounded l1 -> all_grounded l2 -> all_grounded (l1 ++ l2).
Proof. intros H1 H2 r Hr. apply in_app_or in Hr as [Hr|Hr]; [by apply H1|by apply H2]. Qed.
Lemma grounded_one r : (passed r = true -> grounded (case_id_of r)) -> all_grounded [r].
Proof. intros H x [<-|[]]. exact H. Qed.

Lemma index_set id r by_id : index_grounded by_id -> (passed r = true -> grounded id) ->
  index_grounded (dict_set id (PDict r) by_id).
Proof.
  intros Hi Hr k x. rewrite dict_find_set. destruct (String.eqb_spec id k) as [->|]; [by intros [= <-]|apply Hi].
Qed.

Lemma state_add st id r : state_grounded st -> (passed r = true -> grounded id /\ case_id_of r = id) ->
  state_grounded (add_record st id r).
Proof.
  intros [Hl Hi] Hr. split; cbn [add_record fst snd].
  - apply grounded_app; [done|]. apply grounded_one. intros Hp. destruct (Hr Hp) as [Hg ->]. exact Hg.
  - apply index_set; [done|]. intros Hp. by apply Hr.
Qed.

Lemma passed_record_grounded id by_id r : index_grounded by_id -> passed_record id by_id = Some r -> grounded id.
Proof.
  intros Hi. unfold passed_record, record_of_case. destruct (dict_find id by_id) as [v|] eqn:E; [|done].
  destruct v as [| | | | | |[|x l]]; try done. destruct (passed (x :: l)) eqn:Ep; [|done]. intros _. by apply (Hi id (x :: l)).
Qed.

Lemma text_case s r : dict_find "case_id" r = Some (PStr s) -> case_id_of r = s.
Proof.
  intros H. unfold case_id_of, dict_get, dict_get_or. rewrite H. unfold text_of. cbn [truthy py_str].
  by destruct (String.eqb_spec s "") as [->|].
Qed.

(** The index of the records by their identifiers. *)
Lemma put_key_member s v key w d : In (PStr s, v) (put_key key w d) -> In (PStr s, v) d \/ (v = w /\ key = PStr s).
Proof.
  induction d as [|[c x] d IH]; cbn [put_key]; [intros [[= <- <-]|[]]; by right|].
  destruct (py_eq c key) eqn:E.
  - intros [[= -> ->]|Hin]; [|by left; right]. right. split; [done|]. destruct key; cbn in E; try done.
    apply String.eqb_eq in E. by subst.
  - intros [H|Hin]; [left; by left|]. destruct (IH Hin) as [H|H]; [left; by right|by right].
Qed.

Lemma deduplicated_member records by_id s v : deduplicated_case_records records = Ok by_id -> In (PStr s, v) by_id ->
  exists r, In r records /\ v = PDict r /\ case_id_of r = s.
Proof.
  unfold deduplicated_case_records. intros H. revert s v.
  apply (foldM_inv put_record (fun d => forall s v, In (PStr s, v) d ->
    exists r, In r records /\ v = PDict r /\ case_id_of r = s) records [] by_id); [|intros s v []|exact H].
  intros d r d' Hd Hr Hp s v Hin. unfold put_record in Hp. destruct (dict_item "case_id" r) as [key|] eqn:Ek; [|done].
  destruct (hashable key); [|done]. apply Ok_inj in Hp as <-. apply put_key_member in Hin as [Hin|[-> ->]]; [by apply Hd|].
  exists r. split; [done|]. split; [done|]. apply text_case. by apply dict_item_Ok.
Qed.

Lemma index_deduplicated records by_id : all_grounded records -> deduplicated_case_records records = Ok by_id ->
  index_grounded by_id.
Proof.
  intros Hg Hd id r Hf Hp. apply dict_find_In in Hf. destruct (deduplicated_member _ _ _ _ Hd Hf) as (x & Hx & [= <-] & <-).
  by apply Hg.
Qed.

Lemma index_by_text records : all_grounded records -> index_grounded (by_text records).
Proof.
  unfold by_text. intros Hg. assert (G : forall d, index_grounded d -> incl [] records ->
    index_grounded (fold_left (fun d record => dict_set (case_id_of record) (PDict record) d) records d)).
  { clear -Hg. induction records as [|r records IH]; [done|]. intros d Hd _. cbn [fold_left]. apply IH.
    - intros x Hx. apply Hg. by right.
    - apply index_set; [done|]. apply Hg. by left.
    - intros x []. }
  apply G; [|intros x []]. intros id r. done.
Qed.

(** ** The derivations *)

Section Judged.
Variable normalize : pydict -> string -> case_table -> list pydict -> option string -> res (option pydict).
Context {judges : JudgesClaims normalize}.

Lemma kept_case raw connector r : kept_record normalize cases events mode raw connector = Ok (Some r) -> passed r = true ->
  case_id_of r = case_identifier raw /\ normalize_status (dict_get "status" raw) = Ok "PASS".
Proof.
  unfold kept_record. destruct (normalize _ _ _ _ _) as [[[|x l]|]|] eqn:E; try done. intros Hr Hp.
  assert (x :: l = r) as <- by congruence. split; [by eapply names_case|by eapply needs_claim].
Qed.

(** The identifier and the claim of a derived raw record. *)
Lemma named_case raw s : dict_find "case_id" raw = Some (PStr s) -> s <> "" -> case_identifier raw = py_strip s.
Proof.
  intros Hf Hne%String.eqb_neq. unfold case_identifier, dict_get at 1, dict_get_or. rewrite Hf. unfold py_or, text_of.
  cbn [truthy]. rewrite Hne. cbn [negb truthy]. rewrite Hne. cbn [negb truthy]. by rewrite Hne.
Qed.

Lemma optional_value x v z : optional_int x = Ok v -> eq_int v z = true -> v = PInt z.
Proof.
  unfold optional_int. intros H E. assert (Hv : v = PNone \/ exists n, v = PInt n).
  { destruct (is_none x || _); [left; congruence|]. destruct x as [|b|n|q t|s| |]; try done; [by right; exists n; congruence|..].
    - right. eexists. injection H as <-. reflexivity.
    - destruct (py_int_text s) as [n|]; [|done]. right. exists n. congruence. }
  destruct Hv as [->|(n & ->)]; [done|]. unfold eq_int in E. cbn in E. by apply Qeq_bool_inject in E as ->.
Qed.

Lemma derive_core_grounded source connector l : In source payloads ->
  derive_core_records normalize cases events mode source connector = Ok l -> all_grounded l.
Proof.
  intros Hin. unfold derive_core_records.
  destruct (negb (is_true (dict_get "requests_sent" source)) && _) eqn:Er; [intros [= <-]; exact grounded_nil|].
  assert (R : reports_requests source).
  { apply andb_false_iff in Er as [Er|Er]; apply negb_false_iff, is_true_eq in Er; [by left|by right]. }
  destruct (append_derived_allow_record _ _ _ _ _ _ _) as [l1|] eqn:E1; [|done]. intros E2.
  assert (G1 : all_grounded l1).
  { unfold append_derived_allow_record in E1. destruct (optional_int _) as [v|] eqn:Ev; [|done].
    destruct (is_none v); [apply Ok_inj in E1 as <-; exact grounded_nil|]. unfold append_normalized_record in E1.
    destruct (kept_record _ _ _ _ _ _) as [[r|]|] eqn:En; [| |done]; apply Ok_inj in E1 as <-; [|exact grounded_nil].
    apply grounded_one. intros Hp. destruct (kept_case _ _ _ En Hp) as [-> Hs].
    destruct (eq_int v 200) eqn:E; [|done]. apply (optional_value _ _ _ Ev) in E as ->. by apply (gr_allow source). }
  unfold append_derived_blocked_record in E2. destruct (optional_int _) as [v|] eqn:Ev; [|done].
  destruct (is_none v); [by apply Ok_inj in E2 as <-|]. cbv zeta in E2. unfold append_normalized_record in E2.
  destruct (kept_record _ _ _ _ _ _) as [[r|]|] eqn:En; [| |done]; apply Ok_inj in E2 as <-; [|done].
  apply grounded_app; [done|]. apply grounded_one. intros Hp. destruct (kept_case _ _ _ En Hp) as [-> Hs].
  destruct (eq_int v 403 && _) eqn:E; [|done]. apply andb_true_iff in E as [Ez E]. apply (optional_value _ _ _ Ev) in Ez as ->.
  apply (gr_deny source); [done|done|done|]. unfold Z_in in E. apply existsb_exists in E as (z & Hz & ->%Z.eqb_eq). done.
Qed.

Section Selected.
Variable selections : list (string * pydict).
Hypothesis planned : selected_plan_cases plan = Ok selections.

Lemma selected_case id : selected_plan_case selections id = true -> selected id.
Proof. by exists selections. Qed.

Lemma event_fields_grounded event st st' : event_for_rule events (Some 1100001) = Some event ->
  grounded "deny_header_marker_403" ->
  append_event_field_derivations normalize cases events mode st selections plan event = Ok st' ->
  state_grounded st -> state_grounded st'.
Proof.
  intros He Hb H Hst. unfold append_event_field_derivations in H. cbv zeta in H.
  apply (foldM_inv _ state_grounded _ _ _) in H; [exact H| |exact Hst]. clear dependent st. clear dependent st'.
  intros st id st' Hst Hid H. destruct (dict_has id (snd st) || _) eqn:Ec; [by apply Ok_inj in H as <-|].
  apply orb_false_iff in Ec as [_ Ec%negb_false_iff].
  destruct (case_of id cases) as [case|] eqn:Ecase; [|done].
  destruct (dict_item "expected_event_fields" case) as [v|] eqn:Ev; [|done]. apply dict_item_Ok in Ev.
  destruct (iterate v) as [expected|] eqn:Ei; [|done]. destruct (dict_item "connector" plan) as [c|]; [|done].
  unfold append_derived_event_field_record in H.
  destruct (kept_record _ _ _ _ _ _) as [[r|]|] eqn:En; [| |done]; apply Ok_inj in H as <-; [|done].
  apply state_add; [done|]. intros Hp. destruct (kept_case _ _ _ En Hp) as [Hc Hs].
  assert (Hn : case_id_of r = id).
  { rewrite Hc. clear -Hid. cbn in Hid. intuition subst; reflexivity. }
  split; [|exact Hn]. apply (gr_event id event case expected); try done; [by apply selected_case|unfold dict_get, dict_get_or; by rewrite Ev|].
  destruct (forallb _ (map py_str expected)) eqn:E; [|done]. rewrite forallb_forall in E.
  intros item Hin. apply str_in_In, E, in_map_iff. by exists item.
Qed.

Lemma body_grounded event st st' : event_for_rule events (Some 1100001) = Some event -> grounded "deny_header_marker_403" ->
  append_body_payload_derivation event_schema fuel normalize cases events mode st selections plan event = Ok st' ->
  state_grounded st -> state_grounded st'.
Proof.
  intros He Hb H [Hl Hi]. unfold append_body_payload_derivation in H. cbv zeta in H.
  destruct (canonical_event_errors _ _ _ _ _ _) as [errors|] eqn:Ee; [|done].
  destruct errors; [|by apply Ok_inj in H as <-]. destruct (selected_plan_case _ _) eqn:Es; [|by apply Ok_inj in H as <-].
  destruct (passed_record _ _) as [b|] eqn:Eb; [|by apply Ok_inj in H as <-].
  destruct (some_event _) as [body|] eqn:Eo; [|by apply Ok_inj in H as <-].
  destruct (dict_item "connector" plan) as [c|]; [|done].
  destruct (kept_record _ _ _ _ _ _) as [[r|]|] eqn:En; [| |done]; apply Ok_inj in H as <-; [|done].
  split; [|exact Hi]. cbn [fst]. apply grounded_app; [done|]. apply grounded_one. intros Hp.
  destruct (kept_case _ _ _ En Hp) as [-> _].
  destruct (event_for_rule events (Some 1100101)) as [e|] eqn:Ev; [|done].
  apply (gr_body event e); try done; [by apply (passed_record_grounded _ _ _ Hi Eb)|by apply selected_case].
Qed.
End Selected.

Lemma event_records_grounded records l :
  append_derived_event_records event_schema fuel normalize cases events mode records plan = Ok l ->
  all_grounded records -> all_grounded l.
Proof.
  unfold append_derived_event_records. intros H Hg.
  destruct (deduplicated_case_records records) as [by_id|] eqn:Ed; [|done].
  pose proof (index_deduplicated _ _ Hg Ed) as Hi. destruct (selected_plan_cases plan) as [selections|] eqn:Ep; [|done].
  destruct (passed_record _ by_id) as [base|] eqn:Eb; [|by apply Ok_inj in H as <-].
  destruct (some_event _) as [event|] eqn:Ee; [|by apply Ok_inj in H as <-].
  assert (Hv : event_for_rule events (Some 1100001) = Some event).
  { destruct (event_for_rule events _) as [[|x e]|]; [done| |done]. exact Ee. }
  pose proof (passed_record_grounded _ _ _ Hi Eb) as Hb.
  destruct (append_event_field_derivations _ _ _ _ _ _ _ _) as [st|] eqn:E1; [|done].
  destruct (append_body_payload_derivation _ _ _ _ _ _ _ _ _ _) as [st'|] eqn:E2; [|done]. apply Ok_inj in H as <-.
  apply (event_fields_grounded _ Ep _ _ _ Hv Hb) in E1; [|by split]. apply (body_grounded _ Ep _ _ _ Hv Hb) in E2; [|done].
  apply E2.
Qed.

Lemma targets_grounded records l : derive_deprecated_alias_targets normalize cases events mode records plan = Ok l ->
  all_grounded records -> all_grounded l.
Proof.
  unfold derive_deprecated_alias_targets. intros H Hg. destruct (selected_plan_cases plan) as [selections|] eqn:Ep; [|done].
  destruct (foldM _ records _) as [st|] eqn:Ef; [|done]. apply Ok_inj in H as <-. apply grounded_app; [done|].
  apply (foldM_inv _ (fun st : list pydict * list string => all_grounded (fst st)) _ _ _) in Ef; [exact Ef| |exact grounded_nil].
  clear dependent st. intros st r st' Hst Hr H. unfold derive_target in H. cbv zeta in H.
  destruct (_ || _ || _ || _) eqn:Ec; [by apply Ok_inj in H as <-|]. apply orb_false_iff in Ec as [Ec Es%negb_false_iff].
  apply orb_false_iff in Ec as [Ec Hp%negb_false_iff]. apply orb_false_iff in Ec as [Ht%String.eqb_neq _].
  destruct (case_of (case_id_of r) cases) as [[|x c]|] eqn:Ecase; [done| |done].
  destruct (normalize _ _ _ _ _) as [[t|]|] eqn:En; [| |done]; apply Ok_inj in H as <-; [|done].
  cbn [fst]. apply grounded_app; [done|]. apply grounded_one. intros Hpt. rewrite (names_case _ _ _ _ _ _ En Hpt).
  rewrite (named_case _ (field_text "deprecated_alias_for" (x :: c))).
  - apply (gr_target (case_id_of r) (x :: c)); [by apply Hg|done|done|]. by exists selections.
  - unfold alias_raw, dict_update. cbn [fold_left fst snd]. by rewrite !dict_find_set.
  - done.
Qed.

(** A record that is added only if it passes. *)
Lemma adding_grounded st id record : state_grounded st -> (forall r, record = Some r -> passed r = true ->
  grounded id /\ case_id_of r = id) -> state_grounded (add_passing st id record).
Proof.
  intros Hst Hr. unfold add_passing. destruct record as [r|]; [|done]. destruct (passed r) eqn:E; [|done].
  apply state_add; [done|]. intros Hp. by apply Hr.
Qed.

Lemma phase4_grounded records l : append_derived_phase4_records normalize cases events mode records plan = Ok l ->
  all_grounded records -> all_grounded l.
Proof.
  unfold append_derived_phase4_records. intros H Hg. destruct (selected_plan_cases plan) as [selections|] eqn:Ep; [|done].
  destruct (foldM _ PHASE4_BASES _) as [st|] eqn:Ef; [|done]. apply Ok_inj in H as <-.
  apply (foldM_inv _ state_grounded _ _ _) in Ef; [apply Ef| |split; [done|by apply index_by_text]].
  clear dependent st. intros st base st' Hst Hbase H. unfold append_phase4_derivations_for_base in H.
  destruct (passed_record base (snd st)) as [b|] eqn:Eb; [|by apply Ok_inj in H as <-].
  assert (Hb : grounded base) by (apply (passed_record_grounded _ _ _ (proj2 Hst) Eb)).
  apply (foldM_inv _ state_grounded _ _ _) in H; [exact H| |exact Hst].
  clear dependent st. clear dependent st'. intros st id st' Hst Hid H.
  destruct (_ || negb _) eqn:Ec; [by apply Ok_inj in H as <-|]. apply orb_false_iff in Ec as [_ Ec%negb_false_iff].
  unfold append_phase4_derived_record in H. destruct (normalize _ _ _ _ _) as [record|] eqn:En; [|done].
  apply Ok_inj in H as <-. apply adding_grounded; [done|]. intros r -> Hp. split.
  - apply (gr_phase4 base); [done|done|done|]. by exists selections.
  - rewrite (names_case _ _ _ _ _ _ En Hp), (named_case _ id).
    + clear -Hid. cbn in Hid. intuition subst; reflexivity.
    + unfold dict_update. cbn [fold_left fst snd]. by rewrite !dict_find_set.
    + clear -Hid. cbn in Hid. intuition subst; done.
Qed.

Lemma all_conditions_true conditions c : all_conditions conditions = Ok true -> In c conditions -> c = Ok true.
Proof.
  induction conditions as [|x l IH]; [done|]. cbn [all_conditions]. destruct x as [[]|] eqn:E; [|done|done].
  intros H [<-|Hin]; [done|by apply IH].
Qed.

Lemma filterM_member {A} (f : A -> res bool) l l' x : filterM f l = Ok l' -> In x l' -> In x l /\ f x = Ok true.
Proof.
  unfold filterM. destruct (mapM _ l) as [ls|] eqn:E; [|done]. intros H Hin. apply Ok_inj in H as <-.
  eapply concat_mapM_In in Hin as (a & b & Ha & Hb & Hx); [|exact E]. cbv beta in Hb. destruct (f a) as [[]|] eqn:Ef; [| |done];
    apply Ok_inj in Hb as <-; [|done]. by destruct Hx as [<-|[]].
Qed.

Lemma reuse_event base target_case connector run reuse_mode event :
  exact_reuse_event event_schema fuel events base target_case connector run reuse_mode = Ok (Some event) ->
  In event events /\ exists t, event_transaction_ids event = [t].
Proof.
  unfold exact_reuse_event. destruct (single_transaction base) as [t|]; [|done].
  destruct (optional_field "expected_rule_id" _) as [rule|]; [|done]. destruct (optional_field "phase" _) as [phase|]; [|done].
  cbv zeta. destruct (filterM _ events) as [l|] eqn:Ef; [|done]. destruct l as [|e [|]]; [done| |done].
  assert (Hin : In e [e]) by by left. intros [= <-]. destruct (filterM_member _ _ _ _ Ef Hin) as [He Hm]. split; [done|]. exists t.
  assert (B : Ok (bool_decide (event_transaction_ids e = [t])) = Ok true) by (eapply all_conditions_true; [exact Hm|by left]).
  apply Ok_inj, bool_decide_eq_true in B. exact B.
Qed.

Lemma reuse_valid base base_id target_case run reuse_mode needs_event :
  explicit_reuse_candidate_valid event_schema fuel events base base_id target_case plan run reuse_mode needs_event = Ok true ->
  exists b case request, base = Some b /\ target_case = Some case /\ passed b = true /\
    dict_get "request" case = PDict request /\ dict_get "reuses" request = PStr base_id /\
    (needs_event = true -> exists event t, In event events /\ event_transaction_ids event = [t]).
Proof.
  unfold explicit_reuse_candidate_valid. destruct target_case as [[|x case]|]; [done| |done]. destruct base as [b|]; [|done].
  intros H. assert (Hb := all_conditions_true _ _ H (or_introl eq_refl)). assert (He := all_conditions_true _ _ H (or_intror (or_introl eq_refl))).
  clear H. unfold explicit_reuse_base_valid in Hb. cbv zeta in Hb.
  destruct (dict_get "request" (x :: case)) as [| | | | | |request] eqn:Er; try done.
  assert (Hr := all_conditions_true _ _ Hb (or_introl eq_refl)). apply Ok_inj, eq_str_true in Hr.
  assert (Hp : Ok (passed b) = Ok true) by (eapply all_conditions_true; [exact Hb|right; right; by left]).
  exists b, (x :: case), request. repeat (split; [done|]). split; [by apply Ok_inj in Hp|]. repeat (split; [done|]).
  intros ->. assert (Hx := all_conditions_true _ _ He (or_intror (or_introl eq_refl))). cbv beta in Hx.
  destruct (exact_reuse_event _ _ _ _ _ _ _ _) as [[event|]|] eqn:Ev; [| |done]; [|done].
  apply reuse_event in Ev as [Hin (t & Ht)]. by exists event, t.
Qed.

Lemma reuses_grounded records l run reuse_mode :
  append_explicit_reuse_records event_schema fuel normalize cases events mode records plan run reuse_mode = Ok l ->
  all_grounded records -> all_grounded l.
Proof.
  unfold append_explicit_reuse_records. intros H Hg. destruct (selected_plan_cases plan) as [selections|] eqn:Ep; [|done].
  cbv zeta in H. destruct (foldM _ EXPLICIT_REUSES _) as [st|] eqn:Ef; [|done]. apply Ok_inj in H as <-.
  apply (foldM_inv _ state_grounded _ _ _) in Ef; [apply Ef| |split; [done|by apply index_by_text]].
  clear dependent st. intros st [[target base] needs] st' Hst Hin H.
  destruct (_ || negb _) eqn:Ec; [by apply Ok_inj in H as <-|]. apply orb_false_iff in Ec as [_ Ec%negb_false_iff].
  destruct (explicit_reuse_candidate_valid _ _ _ _ _ _ _ _ _ _) as [valid|] eqn:Ev; [|done].
  destruct valid; [|by apply Ok_inj in H as <-].
  destruct (reuse_valid _ _ _ _ _ _ Ev) as (b & case & request & Eb & Ecase & Hp & Hr & Hu & He). rewrite Eb in H.
  unfold normalized_explicit_reuse_record in H. destruct (normalize _ _ _ _ _) as [record|] eqn:En; [|done].
  apply Ok_inj in H as <-. apply adding_grounded; [done|]. intros r -> Hpr. split.
  - apply (gr_reuse target base needs case request); [|done| |done|done|done|done].
    + apply (passed_record_grounded base (snd st) b (proj2 Hst)). unfold passed_record. by rewrite Eb, Hp.
    + by exists selections.
  - rewrite (names_case _ _ _ _ _ _ En Hpr), (named_case _ target).
    + clear -Hin. cbn in Hin. intuition; match goal with H : (_, _, _) = _ |- _ => injection H as <- _ _; reflexivity end.
    + unfold dict_update. cbn [fold_left fst snd]. by rewrite !dict_find_set.
    + clear -Hin. cbn in Hin. intuition; subst; match goal with H : (_, _, _) = _ |- _ => discriminate H end.
Qed.

(** ** The synthetic first byte *)

Lemma updated_case r l : ~ In "case_id" (map fst l) -> case_id_of (dict_update r l) = case_id_of r.
Proof. intros Hk. unfold case_id_of, dict_get, dict_get_or. by rewrite dict_find_update. Qed.

Lemma mapped_grounded (f : pydict -> res pydict) records l : mapM f records = Ok l ->
  (forall r r', In r records -> f r = Ok r' -> passed r' = true -> passed r = true /\ case_id_of r' = case_id_of r) ->
  all_grounded records -> all_grounded l.
Proof.
  intros H Hf Hg r Hr Hp. revert H Hr. rewrite mapM_Ok_Forall2. intros H Hr.
  revert Hf Hg. induction H as [|x y xs ys Hxy _ IH]; [done|]. intros Hf Hg. destruct Hr as [->|Hr].
  - destruct (Hf x r (or_introl eq_refl) Hxy Hp) as [Hx ->]. apply Hg; [by left|done].
  - apply IH; [done| |intros z Hz; apply Hg; by right]. intros a b Ha. apply Hf. by right.
Qed.

Lemma synthetic_grounded records evidence l : prevent_synthetic_first_byte_promotion records evidence = Ok l ->
  all_grounded records -> all_grounded l.
Proof.
  unfold prevent_synthetic_first_byte_promotion. destruct evidence as [e|]; [|by intros [= <-]].
  destruct (eq_str _ _); [by intros [= <-]|]. intros H. apply (mapped_grounded _ _ _ H). intros r r' _ Hr Hp.
  destruct (in_str_set _ _) as [b|]; [|done]. apply Ok_inj in Hr as <-. destruct (b && passed r) eqn:E; [|done].
  exfalso. revert Hp. unfold passed, dict_get, dict_get_or, dict_update. cbn [fold_left fst snd]. by rewrite !dict_find_set.
Qed.
End Judged.

(** ** Missing cases, aliases and the binding *)

Lemma missing_grounded context records by_id rc reason st : plan = Baseline.plan context ->
  append_missing_selected_records context records by_id rc reason = Ok st -> all_grounded records -> all_grounded (fst st).
Proof.
  unfold append_missing_selected_records. intros Hplan H Hg. destruct (iterate _) as [items|]; [|done].
  apply (foldM_inv _ (fun st : list pydict * pydict => all_grounded (fst st)) _ _ _) in H; [exact H| |exact Hg].
  clear dependent st. intros [l d] item st' Hl _ H. destruct item as [| | | | | |selection]; try (by apply Ok_inj in H as <-).
  cbv zeta in H. destruct (case_of _ _) as [case|]; [|by apply Ok_inj in H as <-].
  destruct (dict_has _ _); [by apply Ok_inj in H as <-|].
  destruct (selection_status_reason _ _ _ _) as [status why] eqn:Es.
  destruct (selection_record _ _ _ _ _ _) as [r|] eqn:Er; [|done]. apply Ok_inj in H as <-. cbn [fst].
  apply grounded_app; [done|]. apply grounded_one. intros Hp. exfalso.
  assert (Hst : dict_find "status" r = Some (PStr status)).
  { unfold selection_record in Er. destruct (dict_item _ _); [|done]. destruct (list_field _ _); [|done].
    destruct (optional_int _); [|done]. destruct (optional_int _); [|done]. destruct (list_field _ _); [|done].
    by apply Ok_inj in Er as <-. }
  unfold passed, dict_get, dict_get_or in Hp. rewrite Hst in Hp. apply eq_str_true in Hp. injection Hp as ->.
  unfold selection_status_reason in Es. cbv zeta in Es.
  destruct (String.eqb _ "UNSUPPORTED"); [done|]. destruct (String.eqb _ "NOT_APPLICABLE"); [done|].
  destruct (String.eqb _ "NOT_EXECUTED"); [done|]. by destruct (_ && _).
Qed.

(** The positions of an alias state are those of records of their identifiers. *)
Definition positions_sound (st : alias_state) : Prop := forall id i, snd st !! id = Some i ->
  exists r, fst st !! i = Some r /\ case_id_of r = id.

Lemma index_sound records : positions_sound (records, index_records 0 records ∅).
Proof.
  assert (G : forall suf pre m, records = pre ++ suf ->
    (forall id i, m !! id = Some i -> exists r, records !! i = Some r /\ case_id_of r = id) ->
    forall id i, index_records (List.length pre) suf m !! id = Some i -> exists r, records !! i = Some r /\ case_id_of r = id).
  { induction suf as [|r suf IH]; [done|]. intros pre m Hr Hm. cbn [index_records].
    assert (E : S (List.length pre) = List.length (pre ++ [r])) by (rewrite length_app; cbn; lia). rewrite E.
    apply IH; [by rewrite <- app_assoc|]. intros id i. rewrite lookup_insert_Some. intros [[<- <-]|[_ Hi]]; [|by apply Hm].
    exists r. split; [|done]. rewrite Hr. by apply list_lookup_middle. }
  intros id i. apply (G records [] ∅); [done|]. intros id' i'. by rewrite lookup_empty.
Qed.

Lemma insert_grounded records i r : all_grounded records -> (passed r = true -> grounded (case_id_of r)) ->
  all_grounded (<[i := r]> records).
Proof.
  intros Hg Hr x Hx Hp. apply list_elem_of_In, list_elem_of_lookup in Hx as (j & Hj).
  apply list_lookup_insert_Some in Hj as [(<- & <- & _)|(_ & Hj)]; [by apply Hr|].
  apply Hg; [|done]. apply list_elem_of_In. by eapply list_elem_of_lookup_2.
Qed.

(** The state of the resolution: sound positions, grounded records. *)
Definition aliases_grounded (st : alias_state) : Prop := positions_sound st /\ all_grounded (fst st).

Lemma put_sound records positions i r x : positions_sound (records, positions) -> records !! i = Some x ->
  case_id_of r = case_id_of x -> positions_sound (<[i := r]> records, positions).
Proof.
  intros Hs Hx Hr k j Hk. cbn [fst snd] in *. destruct (Hs k j Hk) as (y & Hy & Hid). cbn [fst] in Hy.
  destruct (decide (i = j)) as [<-|Hne].
  - exists r. split; [apply list_lookup_insert_eq; by eapply lookup_lt_Some|]. congruence.
  - exists y. by rewrite list_lookup_insert_ne.
Qed.

Lemma replace_grounded st alias_id r : aliases_grounded st -> case_id_of r = alias_id ->
  (passed r = true -> grounded alias_id) -> aliases_grounded (replace_deprecated_alias_record st alias_id r).
Proof.
  intros [Hs Hg] Hid Hr. destruct st as [records positions]. unfold replace_deprecated_alias_record. cbn [fst] in Hg.
  destruct (positions !! alias_id) as [i|] eqn:Ei.
  - destruct (Hs _ _ Ei) as (x & Hx & Hxid). split; [apply (put_sound _ _ _ _ x); [done|done|congruence]|].
    cbn [fst]. apply insert_grounded; [done|]. by rewrite Hid.
  - split.
    + intros k j Hk. cbn [fst snd] in *. apply lookup_insert_Some in Hk as [[<- <-]|[_ Hk]].
      * exists r. split; [by apply list_lookup_middle|done].
      * destruct (Hs k j Hk) as (x & Hx & Hxid). exists x. split; [by apply lookup_app_l_Some|done].
    + cbn [fst]. apply grounded_app; [done|]. apply grounded_one. by rewrite Hid.
Qed.

Lemma fail_grounded st alias_id target_id : aliases_grounded st ->
  aliases_grounded (fail_deprecated_alias st alias_id target_id).
Proof.
  intros [Hs Hg]. destruct st as [records positions]. unfold fail_deprecated_alias. cbn [fst] in Hg.
  destruct (positions !! alias_id) as [i|]; [|done]. destruct (records !! i) as [a|] eqn:Ea; [|done].
  destruct (passed a); [|done]. split.
  - apply (put_sound _ _ _ _ a); [done|done|]. apply updated_case. cbn. intuition congruence.
  - cbn [fst]. apply insert_grounded; [done|]. unfold passed, dict_get, dict_get_or, dict_update. cbn [fold_left fst snd].
    by rewrite !dict_find_set.
Qed.

Lemma resolve_grounded ids st entry st' : In entry cases -> resolve_deprecated_alias ids st entry = Ok st' ->
  aliases_grounded st -> aliases_grounded st'.
Proof.
  destruct entry as [alias_id case]. intros Hin H Hst. unfold resolve_deprecated_alias in H. cbv zeta in H.
  destruct (match ids with Some l => _ | None => _ end); [by apply Ok_inj in H as <-|].
  destruct (String.eqb (alias_target case) ""); [by apply Ok_inj in H as <-|].
  destruct (match deprecated_alias_record st (alias_target case) with Some t => request_bound t | None => _ end);
    [by apply Ok_inj in H as <-|].
  destruct (match deprecated_alias_record st alias_id with Some a => _ | None => _ end); [by apply Ok_inj in H as <-|].
  destruct (deprecated_alias_record st (alias_target case)) as [t|] eqn:Et;
    [|apply Ok_inj in H as <-; by apply fail_grounded].
  destruct (passed t) eqn:Ep; [|apply Ok_inj in H as <-; by apply fail_grounded].
  destruct (deprecated_alias_replacement _ _ _ _) as [x|] eqn:Ex; [|done]. apply Ok_inj in H as <-.
  destruct (replacement_facts _ _ _ _ _ Ex) as [Hx _]. apply replace_grounded; [done|done|]. intros _.
  apply (gr_alias alias_id case (alias_target case)); [|done|done]. unfold deprecated_alias_record in Et.
  destruct (snd st !! alias_target case) as [i|] eqn:Ei; [|done]. destruct (proj1 Hst _ _ Ei) as (y & Hy & <-).
  assert (y = t) as -> by congruence. apply (proj2 Hst); [|done]. apply list_elem_of_In. by eapply list_elem_of_lookup_2.
Qed.

Lemma aliases_resolved_grounded records ids l : resolve_deprecated_aliases records cases ids = Ok l ->
  all_grounded records -> all_grounded l.
Proof.
  unfold resolve_deprecated_aliases. intros H Hg. destruct (foldM _ cases _) as [st|] eqn:E; [|done]. apply Ok_inj in H as <-.
  apply (foldM_inv _ aliases_grounded _ _ _) in E; [apply E| |split; [apply index_sound|done]].
  intros s x s' Hs Hx Hstep. by apply (resolve_grounded _ _ _ _ Hx Hstep).
Qed.

End Grounded.

(** Binding changes neither the case nor a verdict for the better. *)
Lemma bound_case protocol run imode table evs evmode r r' : bind_record protocol run imode table evs evmode r = Ok r' ->
  passed r' = true -> passed r = true /\ case_id_of r' = case_id_of r.
Proof.
  unfold bind_record. cbv zeta. set (bound := dict_set "integration_mode" _ _).
  assert (Hp : passed bound = passed r) by (unfold passed, dict_get, dict_get_or, bound; by rewrite !dict_find_set).
  assert (Hc : case_id_of bound = case_id_of r) by (unfold case_id_of, dict_get, dict_get_or, bound; by rewrite !dict_find_set).
  fold (passed bound). rewrite Hp. destruct (passed r) eqn:Er; cbn [negb].
  2: { intros H. apply Ok_inj in H as <-. congruence. }
  assert (M : forall errors, passed (mark_protocol_provenance_invalid bound errors) = true ->
    case_id_of (mark_protocol_provenance_invalid bound errors) = case_id_of r).
  { intros errors Hm. destruct errors as [|e l]; [exact Hc|]. cbv zeta. unfold mark_protocol_provenance_invalid.
    rewrite updated_case; [exact Hc|]. cbn. intuition congruence. }
  destruct (dict_has "protocol_bundle" bound).
  - destruct (protocol_record_errors _ _ _ _) as [errors|]; [|done]. intros H Hq. apply Ok_inj in H as <-.
    split; [done|]. by apply M.
  - destruct (matching_protocol_event _ _ _ _) as [event|]; [|done].
    destruct (case_protocol_pass_errors _ _ _ _ _) as [errors|]; [|done]. intros H Hq. apply Ok_inj in H as <-.
    split; [done|]. by apply M.
Qed.


(** C26: no case passes without an observed one: in the records of a finished run, derived,
    completed, resolved and bound, every passing record is of a case that the closed
    derivations and the declared aliases link to a record that was observed to pass or
    to a payload that reports the requests of a core case.  No derivation, alias or
    binding starts a chain of its own, with any normaliser that judges claims only. *)
Theorem finished_pass_grounded event_schema fuel normalize {judges : JudgesClaims normalize} context events observed payloads
    first_byte by_id derived rc reason completed protocol final :
  derive_finalize_records event_schema fuel normalize context events observed payloads first_byte = Ok (derived, by_id) ->
  complete_records context derived by_id rc reason = Ok completed ->
  bind_case_protocol_provenance protocol completed (manifest context) (case_by_id context) events
    (required_event_integration_mode (manifest context)) = Ok final ->
  forall r, In r final -> passed r = true ->
  grounded event_schema fuel (plan context) (case_by_id context) events (required_event_integration_mode (manifest context))
    observed payloads (case_id_of r).
Proof.
  set (G := all_grounded event_schema fuel (plan context) (case_by_id context) events
    (required_event_integration_mode (manifest context)) observed payloads).
  unfold derive_finalize_records. cbv zeta. intros H Hc Hb.
  destruct (mapM _ payloads) as [core|] eqn:E0; [|done].
  assert (G0 : G (observed ++ concat core)).
  { apply grounded_app; [intros r Hr Hp; by apply gr_observed|]. intros r Hr.
    apply (mapM_concat_In _ _ _ _ E0) in Hr as (source & l & Hs & Hl & Hr). revert r Hr.
    exact (derive_core_grounded event_schema fuel (plan context) (case_by_id context) events _ observed payloads normalize
      source _ l Hs Hl). }
  destruct (append_derived_event_records _ _ _ _ _ _ _ _) as [l1|] eqn:E1; [|done].
  apply event_records_grounded with (observed := observed) (payloads := payloads) in E1; [|done|exact G0].
  destruct (derive_deprecated_alias_targets _ _ _ _ _ _) as [l2|] eqn:E2; [|done].
  apply (targets_grounded event_schema fuel) with (observed := observed) (payloads := payloads) in E2; [|done|exact E1].
  destruct (append_derived_phase4_records _ _ _ _ _ _) as [l3|] eqn:E3; [|done].
  apply (phase4_grounded event_schema fuel) with (observed := observed) (payloads := payloads) in E3; [|done|exact E2].
  destruct (append_explicit_reuse_records _ _ _ _ _ _ _ _ _ _) as [l4|] eqn:E4; [|done].
  apply reuses_grounded with (observed := observed) (payloads := payloads) in E4; [|done|exact E3].
  destruct (prevent_synthetic_first_byte_promotion _ _) as [l5|] eqn:E5; [|done].
  eapply synthetic_grounded in E5; [|exact E4]. destruct (deduplicated_case_records l5); [|done]. injection H as <- _.
  unfold complete_records in Hc. destruct (append_missing_selected_records _ _ _ _ _) as [[l6 d6]|] eqn:E6; [|done].
  eapply missing_grounded in E6; [|reflexivity|exact E5]. destruct (selected_finalize_case_ids _) as [ids|]; [|done].
  eapply aliases_resolved_grounded in Hc; [|exact E6].
  unfold bind_case_protocol_provenance in Hb. eapply mapped_grounded in Hb; [exact Hb| |exact Hc].
  intros r r' _ Hr Hp. eapply bound_case; [exact Hr|exact Hp].
Qed.

(** * The normaliser of the derivations judges claims

    The normaliser that the derivations call has no authority to give: a record of a
    protocol bundle or of a native operation fails, any other is of the case it names. *)

From S2P Require Import NativeTheorems ProtocolRecordTheorems CaseClient NginxProtocol.

(** ** Tokens are bare *)

Lemma drop_while_none p l : Forall (fun c => p c = false) l -> drop_while p l = l.
Proof. destruct 1 as [|c l Hc _]; [done|]. cbn. by rewrite Hc. Qed.

Lemma strip_none p l : Forall (fun c => p c = false) l -> strip_with p l = l.
Proof.
  intros H. unfold strip_with. rewrite (drop_while_none p l) by done.
  rewrite drop_while_none by (by apply Forall_rev). apply List.rev_involutive.
Qed.

Lemma token_bare s : fullmatch_str _RESULT_IDENTITY_TOKEN_PATTERN s = true -> py_strip s = s /\ s <> "".
Proof.
  unfold fullmatch_str. intros H. split; [|by intros ->]. apply fullmatch_correct in H; [|reflexivity].
  apply lang_chars in H. unfold py_strip. rewrite strip_none; [apply L2S_S2L|].
  eapply Forall_impl; [exact H|]. intros c Hc. cbn [re_chars _RESULT_IDENTITY_TOKEN_PATTERN] in Hc. revert Hc.
  destruct c as [[] [] [] [] [] [] [] []]; vm_compute; congruence.
Qed.

Section Unauthorised.
Variables (event_schema receipt_schema case_catalog_schema : pyval) (fuel : nat) (catalog : pydict) (sys : bundle_system).
Variables (records : record_system) (sha256 : string -> string) (runner_digest : string -> option string).
Variables (proof : Type) (observation : proof -> pyval).
Variable validate : pydict -> ObservationEvidence.abs_path -> pydict -> res proof.
Variable derive : pydict -> proof -> res native_facts.

Abbreviation unauthorised := (unauthorised_normalizer event_schema receipt_schema case_catalog_schema fuel catalog sys records
  sha256 runner_digest proof observation validate derive).

Lemma protocol_unauthorised raw case connector r : normalize_protocol_record records sha256 None raw case connector = Ok r ->
  passed r = false.
Proof.
  unfold normalize_protocol_record. destruct (verified_protocol_record_proof _ _ _ _ _) as [p|e] eqn:Ep.
  - destruct (proof_authorised _ _ _ _ _ _ Ep) as (root & b & c & run & ids & A & _). by destruct A.
  - destruct (evidence_exception e); [|done]. intros H%unproved_status. unfold passed, dict_get, dict_get_or. by rewrite H.
Qed.

Lemma native_unauthorised raw case connector r :
  normalize_native_operation_record event_schema case_catalog_schema fuel sha256 (exception_text records) proof observation
    validate derive raw case connector None = Ok r -> passed r = false.
Proof.
  intros H. destruct (passed r) eqn:Hp; [|done]. unfold passed in Hp. apply eq_str_true in Hp.
  by destruct (native_pass_inv _ _ _ _ _ _ _ _ _ _ _ _ _ _ H Hp) as (d & p & why & _ & _ & _ & Hj & _).
Qed.

(** The case that a client observation names. *)
Lemma client_case_name raw v : validate_request_observation sha256 raw = Ok v ->
  exists s, dict_find "case_id" raw = Some (PStr s) /\ py_strip s = s /\ s <> "".
Proof.
  unfold validate_request_observation. destruct (validate_result_context raw) as [v0|] eqn:E0; [|done]. intros _.
  unfold validate_result_context in E0. destruct (mapM _ _) as [validated|] eqn:Em; [|done].
  cbn [mapM] in Em. destruct (identity_field "run_id" raw); [|done].
  unfold identity_field in Em. destruct (dict_get "case_id" raw) as [| | | |s| |] eqn:Es; try done.
  destruct (fullmatch_str _RESULT_IDENTITY_TOKEN_PATTERN s) eqn:Et; [|done]. destruct (token_bare s Et) as [Hs Hne].
  exists s. split; [|done]. unfold dict_get, dict_get_or in Es. destruct (dict_find "case_id" raw); congruence.
Qed.

(** The record of a host or a client is of the case it names. *)
Lemma observed_case raw case connector j b : built sha256 raw case connector (case_identifier raw) j b ->
  case_id_of b = case_identifier raw.
Proof.
  intros Hb. destruct (bu_base _ _ _ _ _ _ _ Hb) as (caps & code & H). destruct (client_bound raw) eqn:Ec.
  - assert (exists v, validate_request_observation sha256 raw = Ok v) as (v & Ev).
    { unfold bind_client_observation in H. unfold client_bound in Ec. rewrite Ec in H.
      destruct (validate_request_observation sha256 raw) as [v|]; [by exists v|done]. }
    destruct (observation_accepted _ _ _ Ev) as (p & Ha).
    pose proof (cf_same _ _ _ (client_bound_fields catalog sha256 runner_digest (fun _ _ _ => Ok []) (fun _ _ _ => Ok [])
      _ _ _ _ _ Ha Ev H) "case_id") as Hid.
    destruct (client_case_name _ _ Ev) as (s & Hf & Hs & Hne). rewrite (named_case raw s Hf Hne), Hs.
    unfold case_id_of. rewrite Hid by (cbn; tauto). unfold dict_get, dict_get_or. rewrite Hf. unfold text_of. cbn [truthy py_str].
    by destruct (String.eqb_spec s "").
  - unfold bind_client_observation in H. unfold client_bound in Ec. rewrite Ec in H. apply Ok_inj in H as <-.
    apply text_case. reflexivity.
Qed.

Lemma unauthorised_pass raw connector cases events mode r : unauthorised raw connector cases events mode = Ok (Some r) ->
  passed r = true -> case_id_of r = case_identifier raw /\ normalize_status (dict_get "status" raw) = Ok "PASS".
Proof.
  unfold unauthorised_normalizer. intros H Hp.
  destruct (dict_has "protocol_bundle" raw) eqn:E1.
  { unfold normalize_case_record in H. cbv zeta in H. rewrite E1 in H.
    destruct (if String.eqb _ "" then None else _) as [case|]; [|done].
    destruct (normalize_protocol_record _ _ _ _ _ _) as [r'|] eqn:E; [|done]. apply protocol_unauthorised in E. congruence. }
  destruct (dict_has "native_operation_receipt" raw) eqn:E2.
  { unfold normalize_case_record in H. cbv zeta in H. rewrite E1, E2 in H.
    destruct (if String.eqb _ "" then None else _) as [case|]; [|done].
    destruct (_validate_request_bound_case _ _ _ _ _); [|done].
    match type of H with match ?n with Ok _ => _ | Err _ => _ end = _ =>
      destruct n as [r'|] eqn:E end; [|done]. apply native_unauthorised in E. congruence. }
  destruct (normalize_inv _ _ _ _ _ _ _ _ _ _ _ _ _ _ _ _ H E1 E2) as (case & _ & _ & Ho).
  unfold passed in Hp. apply eq_str_true in Hp.
  destruct (observed_pass _ _ _ _ _ _ _ _ _ _ _ _ _ _ Ho Hp) as (j & b & Hj & Hs & Hb & -> & _). split.
  - rewrite <- (observed_case _ _ _ _ _ Hb). unfold case_id_of, dict_get, dict_get_or. by rewrite claimed_find.
  - apply collect_inv in Hj. destruct (cl_status _ _ _ _ _ _ _ _ Hj) as (status & Hn & Hst). rewrite Hs in Hst.
    destruct (String.eqb _ _) in Hst; [done|]. by subst.
Qed.

#[global] Instance unauthorised_judges : JudgesClaims unauthorised.
Proof. split; intros; by eapply unauthorised_pass. Qed.
End Unauthorised.
