(* ===== verification/Catalog.v ===== *)
(** * The catalog of cases and the capability manifest (no_crs_baseline.py)

    [validate_catalog] checks the declared cases against the closed contracts of the
    baseline, [validate_capability_manifest] what a connector says it can do.  The files
    beside the catalog are given by what the operating system answers for a path. *)

From S2P Require Export CaseBinding.
From S2P Require Import ObservationEvidence Shell.
From Stdlib Require Import QArith.
#[global] Open Scope Z_scope.

(** ** Vocabularies *)

Definition CAPABILITIES : list string :=
  ["connection_metadata"; "transport_metadata"; "request_headers"; "request_body_buffered"; "request_body_streaming";
   "request_body_incremental_ingest"; "response_headers"; "response_body_buffered"; "response_body_streaming";
   "response_body_incremental_ingest"; "phase1"; "phase2"; "phase3"; "phase4"; "phase4_rule_evaluation";
   "phase4_end_of_stream_evaluation"; "phase4_pre_commit_deny"; "late_intervention"; "late_intervention_log_only";
   "late_intervention_abort"; "late_intervention_status_metadata"; "content_type_scope"; "header_limits";
   "request_body_limits"; "response_body_limits"; "no_full_response_buffering"; "first_byte_before_response_end";
   "http1_content_length"; "http1_chunked"; "keep_alive"; "parallel_requests"; "http2"; "http2_downstream";
   "http2_upstream"; "http2_tls_alpn"; "http2_cleartext_h2c"; "http2_multiplexing"; "http2_stream_reset";
   "http3_downstream"; "http3_upstream"; "http3_quic"; "http3_alt_svc"; "http3_multiplexing"; "http3_stream_reset";
   "protocol_transaction_isolation"; "protocol_first_byte_before_response_end";
   "protocol_no_full_response_buffering"; "client_abort"; "upstream_abort"; "response_body_decompression"; "deny";
   "redirect"; "drop"; "abort_connection"; "log_only"; "transaction_id"; "event_jsonl"; "config_inline_rules";
   "config_rules_file"; "config_remote_rules"].
Definition CAPABILITY_STATES : list string :=
  ["verified"; "implemented_not_asserted"; "configured_not_exercised"; "unsupported_by_host_model";
   "not_implemented"; "not_applicable"].
Definition EVIDENCE_STAGES : list string :=
  ["source_contract"; "compile"; "link"; "config_load"; "start_smoke"; "minimal_runtime_smoke"; "no_crs_baseline";
   "crs_smoke"; "extended_matrix"].
Definition EVIDENCE_STAGE_STATUSES : list string :=
  ["supported_and_verified"; "supported_not_verified"; "implemented_not_asserted"; "unsupported_by_host_model";
   "not_implemented"; "blocked_before_execution"; "failed"; "not_executed"; "not_applicable"].

Definition FULL_LIFECYCLE_REQUIRED_IDS : list string :=
  ["phase1_allow"; "phase1_deny_403"; "phase1_alternative_status"; "phase1_redirect"; "phase1_transaction_id";
   "phase2_request_body_rule"; "phase2_marker_split_across_chunks"; "phase2_at_limit"; "phase2_over_limit";
   "phase2_truncated"; "phase2_no_payload_event"; "phase3_response_header_rule"; "phase3_deny_before_commit";
   "phase3_redirect_before_commit"; "phase3_original_and_visible_status"; "phase4_marker_split_across_chunks";
   "phase4_end_of_stream_evaluation"; "phase4_deny_before_commit_if_supported";
   "phase4_deny_after_commit_log_only_minimal"; "phase4_deny_after_commit_log_only_safe";
   "phase4_deny_after_commit_abort_strict"; "phase4_status_metadata"; "phase4_action_metadata";
   "phase4_no_payload_event"; "phase4_in_scope_content_type"; "phase4_content_type_with_charset";
   "phase4_out_of_scope_content_type"; "phase4_missing_content_type"; "phase4_invalid_scope_file";
   "phase4_wildcard_scope_rejected"; "phase4_no_full_response_buffering"; "phase4_first_byte_before_response_end";
   "transport_http11_content_length"; "transport_http11_chunked"; "transport_keep_alive";
   "transport_sequential_requests"; "transport_parallel_requests"; "transport_http2_if_supported";
   "transport_client_abort"; "transport_upstream_abort"; "client_disconnect_before_request_body_eos";
   "client_disconnect_during_request_body"; "client_disconnect_after_response_headers";
   "client_disconnect_after_first_response_chunk"; "client_disconnect_before_response_eos";
   "client_cancelled_during_request_body"; "upstream_reset_before_headers"; "upstream_reset_after_headers";
   "upstream_reset_during_body"; "upstream_close_without_eos"; "upstream_content_length_short";
   "phase4_strict_http1_client_abort"; "phase4_strict_http2_stream_reset"; "phase4_strict_host_survives";
   "phase4_strict_followup_request_succeeds"; "keepalive_allow_allow"; "keepalive_allow_deny_allow";
   "keepalive_safe_followup"; "keepalive_after_strict_new_connection"; "parallel_transaction_ids_unique";
   "parallel_events_not_cross_bound"; "parallel_mixed_actions"; "parallel_cleanup_balanced";
   "engine_timeout_before_commit"; "engine_timeout_after_commit"; "upstream_timeout"; "client_idle_timeout";
   "response_short_write_resume"; "response_write_would_block_resume"; "phase4_body_at_limit";
   "phase4_body_over_limit"; "phase4_body_process_partial"; "phase4_body_reject";
   "full_lifecycle_event_metadata_bounded"].

Definition catalog_case_fields : list string :=
  ["case_id"; "title"; "phase"; "required_capabilities"; "request"; "expected_result"; "expected_status";
   "expected_rule_id"; "expected_event_fields"; "forbidden_event_fields"; "connector_applicability";
   "unsupported_behavior"; "evidence_requirement"].
Definition required_ids : list string :=
  ["allow_without_marker"; "deny_header_marker_403"; "deny_with_alternative_status"; "transaction_id_present";
   "transaction_id_generated_or_fallback"; "multiple_headers"; "deny_request_body_marker_403";
   "deny_response_header_marker_403"; "deny_response_body_marker_403"; "phase4_rule_observed";
   "phase4_deny_before_commit"; "phase4_deny_after_commit_log_only"; "phase4_deny_after_commit_abort";
   "phase4_event_contains_original_status"; "phase4_event_contains_late_intervention_action";
   "duplicate_header_names"; "empty_header_value"; "case_insensitive_header_name"; "header_count_at_limit";
   "header_count_over_limit"; "total_header_bytes_at_limit"; "total_header_bytes_over_limit";
   "invalid_content_length"; "conflicting_content_length"; "duplicate_transfer_encoding"; "content_length_overflow";
   "body_size_nonzero_with_null_data"; "header_count_nonzero_with_null_headers"; "event_contains_connector";
   "event_contains_transaction_id"; "event_contains_rule_id"; "event_contains_phase"; "event_contains_status";
   "event_metadata_truncation"; "event_has_no_request_body_payload"; "event_has_no_response_body_payload";
   "event_json_limit"; "valid_rules_file"; "missing_rules_file"; "invalid_rule_syntax"; "unknown_config_key";
   "invalid_boolean"; "invalid_status"; "invalid_size"; "unsafe_event_path"; "single_request_cleanup";
   "multiple_sequential_requests"; "keep_alive_requests_if_supported"; "parallel_requests";
   "early_mapping_failure_cleanup"; "transaction_begin_failure_cleanup"; "finish_failure_propagation";
   "clean_shutdown"; "allow"; "deny"; "log_only"; "redirect_if_supported"; "drop_if_supported"; "abort_if_supported"].

(** What a phase-4 case and a full-lifecycle case must declare. *)
Record phase4_contract := {
  p4_result : string; p4_status : pyval; p4_capabilities : list string; p4_fields : list string }.
Record full_lifecycle_contract := {
  fl_result : string; fl_phase : Z; fl_capabilities : list string; fl_fields : list string }.

Definition phase4_contracts : list (string * phase4_contract) :=
  [("phase4_rule_observed",
    {| p4_result := "rule_observed"; p4_status := PNone;
       p4_capabilities :=
         ["response_body_buffered"; "phase4"; "phase4_rule_evaluation"; "event_jsonl"];
       p4_fields :=
         ["event"; "message_id"; "rule_id"; "phase"] |});
   ("phase4_deny_before_commit",
    {| p4_result := "deny_before_commit"; p4_status := PInt 403;
       p4_capabilities :=
         ["response_body_buffered"; "phase4"; "phase4_rule_evaluation"; "phase4_pre_commit_deny"; "deny";
          "late_intervention_status_metadata"; "event_jsonl"];
       p4_fields :=
         ["event"; "message_id"; "rule_id"; "phase"; "http_status"; "requested_action"; "actual_action";
          "original_http_status"; "visible_http_status"; "headers_sent"; "connection_aborted"] |});
   ("phase4_deny_after_commit_log_only",
    {| p4_result := "late_intervention_log_only"; p4_status := PNone;
       p4_capabilities :=
         ["response_body_buffered"; "phase4"; "phase4_rule_evaluation"; "late_intervention";
          "late_intervention_log_only"; "late_intervention_status_metadata"; "event_jsonl"];
       p4_fields :=
         ["event"; "message_id"; "rule_id"; "phase"; "http_status"; "requested_action"; "actual_action";
          "original_http_status"; "visible_http_status"; "late_intervention"; "headers_sent"; "connection_aborted"] |});
   ("phase4_deny_after_commit_abort",
    {| p4_result := "connection_aborted"; p4_status := PNone;
       p4_capabilities :=
         ["response_body_buffered"; "phase4"; "phase4_rule_evaluation"; "late_intervention";
          "late_intervention_abort"; "late_intervention_status_metadata"; "event_jsonl"];
       p4_fields :=
         ["event"; "message_id"; "rule_id"; "phase"; "http_status"; "requested_action"; "actual_action";
          "original_http_status"; "visible_http_status"; "late_intervention"; "headers_sent"; "connection_aborted"] |});
   ("phase4_event_contains_original_status",
    {| p4_result := "event_contains_original_status"; p4_status := PNone;
       p4_capabilities :=
         ["response_body_buffered"; "phase4"; "phase4_rule_evaluation"; "late_intervention_status_metadata";
          "event_jsonl"];
       p4_fields :=
         ["event"; "message_id"; "rule_id"; "phase"; "http_status"; "original_http_status"; "visible_http_status"] |});
   ("phase4_event_contains_late_intervention_action",
    {| p4_result := "event_contains_late_intervention_action"; p4_status := PNone;
       p4_capabilities :=
         ["response_body_buffered"; "phase4"; "phase4_rule_evaluation"; "late_intervention_status_metadata";
          "event_jsonl"];
       p4_fields :=
         ["event"; "message_id"; "rule_id"; "phase"; "requested_action"; "actual_action"; "late_intervention"] |})].
Definition full_lifecycle_contracts : list (string * full_lifecycle_contract) :=
  [("phase2_marker_split_across_chunks",
    {| fl_result := "request_marker_split_across_chunks"; fl_phase := 2;
       fl_capabilities :=
         ["request_body_incremental_ingest"; "phase2"; "event_jsonl"];
       fl_fields :=
         ["marker_split_across_chunks"; "body_bytes_seen"; "body_bytes_inspected"] |});
   ("phase3_deny_before_commit",
    {| fl_result := "phase3_deny_before_commit"; fl_phase := 3;
       fl_capabilities :=
         ["response_headers"; "phase3"; "deny"; "transport_metadata"; "event_jsonl"];
       fl_fields :=
         ["requested_action"; "actual_action"; "headers_sent"; "visible_http_status"] |});
   ("phase3_redirect_before_commit",
    {| fl_result := "phase3_redirect_before_commit"; fl_phase := 3;
       fl_capabilities :=
         ["response_headers"; "phase3"; "redirect"; "transport_metadata"; "event_jsonl"];
       fl_fields :=
         ["requested_action"; "actual_action"; "headers_sent"; "visible_http_status"] |});
   ("phase4_marker_split_across_chunks",
    {| fl_result := "marker_split_across_chunks"; fl_phase := 4;
       fl_capabilities :=
         ["response_body_incremental_ingest"; "phase4"; "phase4_end_of_stream_evaluation"; "event_jsonl"];
       fl_fields :=
         ["marker_split_across_chunks"; "end_of_stream_evaluation"] |});
   ("phase4_end_of_stream_evaluation",
    {| fl_result := "end_of_stream_evaluation"; fl_phase := 4;
       fl_capabilities :=
         ["response_body_incremental_ingest"; "phase4"; "phase4_end_of_stream_evaluation"; "event_jsonl"];
       fl_fields :=
         ["end_of_stream_evaluation"; "body_started"] |});
   ("phase4_deny_after_commit_log_only_minimal",
    {| fl_result := "late_intervention_log_only_minimal"; fl_phase := 4;
       fl_capabilities :=
         ["late_intervention"; "late_intervention_log_only"; "late_intervention_status_metadata"; "event_jsonl"];
       fl_fields :=
         ["late_intervention"; "late_intervention_mode"; "actual_action"; "connection_aborted"] |});
   ("phase4_deny_after_commit_log_only_safe",
    {| fl_result := "late_intervention_log_only_safe"; fl_phase := 4;
       fl_capabilities :=
         ["late_intervention"; "late_intervention_log_only"; "late_intervention_status_metadata"; "event_jsonl"];
       fl_fields :=
         ["late_intervention"; "late_intervention_mode"; "actual_action"; "connection_aborted"] |});
   ("phase4_deny_after_commit_abort_strict",
    {| fl_result := "connection_aborted_strict"; fl_phase := 4;
       fl_capabilities :=
         ["late_intervention"; "late_intervention_abort"; "late_intervention_status_metadata"; "event_jsonl"];
       fl_fields :=
         ["late_intervention"; "late_intervention_mode"; "actual_action"; "connection_aborted"] |});
   ("phase4_no_full_response_buffering",
    {| fl_result := "no_full_response_buffering"; fl_phase := 4;
       fl_capabilities :=
         ["response_body_incremental_ingest"; "no_full_response_buffering"; "first_byte_before_response_end";
          "event_jsonl"];
       fl_fields :=
         ["no_full_response_buffering"; "client_first_byte_received"; "first_byte_before_response_end";
          "first_chunk_size"; "upstream_paused"; "upstream_eos_sent_at_first_byte";
          "upstream_response_finished_at_first_byte"; "response_committed"; "body_bytes_seen"; "body_bytes_inspected"] |});
   ("phase4_first_byte_before_response_end",
    {| fl_result := "first_byte_before_response_end"; fl_phase := 4;
       fl_capabilities :=
         ["response_body_incremental_ingest"; "first_byte_before_response_end"; "event_jsonl"];
       fl_fields :=
         ["client_first_byte_received"; "first_byte_before_response_end"; "first_chunk_size"; "upstream_paused";
          "upstream_eos_sent_at_first_byte"; "upstream_response_finished_at_first_byte"; "response_committed";
          "body_bytes_seen"; "body_bytes_inspected"] |});
   ("phase4_content_type_with_charset",
    {| fl_result := "content_type_in_scope_with_charset"; fl_phase := 4;
       fl_capabilities :=
         ["response_body_incremental_ingest"; "phase4"; "content_type_scope"; "event_jsonl"];
       fl_fields :=
         ["content_type"; "content_type_scope"] |});
   ("phase4_out_of_scope_content_type",
    {| fl_result := "content_type_out_of_scope"; fl_phase := 4;
       fl_capabilities :=
         ["response_body_incremental_ingest"; "phase4"; "content_type_scope"; "event_jsonl"];
       fl_fields :=
         ["content_type"; "content_type_scope"; "transport_result"] |});
   ("phase4_missing_content_type",
    {| fl_result := "content_type_missing"; fl_phase := 4;
       fl_capabilities :=
         ["response_body_incremental_ingest"; "phase4"; "content_type_scope"; "event_jsonl"];
       fl_fields :=
         ["content_type_scope"; "transport_result"] |})].

(** ** Sets of names *)

(** [sorted(wanted - set(present))] *)
Definition missing_names (wanted present : list string) : list string :=
  sort_strs (List.filter (fun n => negb (str_in n present)) wanted).

(** [{str(item) for item in d.get(key, \[\])}] *)
Definition declared_names (key : string) (d : pydict) : res (list string) :=
  let* items := iterate (dict_get_or (PList []) key d) in Ok (dedup String.eqb (map py_str items)).

(** [if names: errors.append(label + ", ".join(names))] *)
Definition names_error (label : string) (names : list string) : list string :=
  match names with [] => [] | _ => [label +:+ py_join ", " names] end.

(** [name in v] for a name and a value of any class. *)
Definition contains_name (name : string) (v : pyval) : res bool :=
  match v with
  | PList l => Ok (existsb (fun x => eq_str x name) l)
  | PDict d => Ok (dict_has name d)
  | PStr s => Ok (contains name s)
  | _ => Err (TypeError "argument is not iterable")
  end.

(** [d.get(key)] of a table. *)
Fixpoint entry_of {A} (key : string) (table : list (string * A)) : option A :=
  match table with
  | [] => None
  | (k, v) :: r => if String.eqb k key then Some v else entry_of key r
  end.

(** ** Files beside the catalog *)

(** [base / p] *)
Definition pure_join (base : abs_path) (p : string) : abs_path :=
  if starts_with "/" p then {| double := double_slash p; parts := pure_parts p |}
  else {| double := double base; parts := parts base ++ pure_parts p |}.

(** [a.is_relative_to(root)] *)
Definition path_below (root a : abs_path) : bool :=
  Bool.eqb (double root) (double a) && match relative_to (parts root) (parts a) with Some _ => true | None => false end.

(** The root of the framework, and what the operating system answers for a path. *)
Record catalog_files := {
  cf_framework : abs_path;
  cf_resolve : abs_path -> res abs_path;
  cf_is_file : abs_path -> res bool;
  cf_is_symlink : abs_path -> res bool;
  cf_read : abs_path -> res string }.

Section Catalog.
Variable fs : catalog_files.

Definition CATALOG_DIRECTORY : abs_path := pure_join (cf_framework fs) "tests/cases/no-crs-baseline".
Definition RULES_PATH : abs_path := pure_join (pure_join (cf_framework fs) "tests/rules") NGINX_VALID_RULES_FILE_NAME.

(** ** A case of the catalog *)

Definition case_prefix (case : pydict) : string :=
  let case_id := text_of (dict_get "case_id" case) in if String.eqb case_id "" then "<missing-case-id>" else case_id.

Definition _catalog_case_identity (case : pydict) (seen : list string) : list string :=
  let case_id := text_of (dict_get "case_id" case) in
  if String.eqb case_id "" then ["case requires case_id"]
  else when_failed (str_in case_id seen) ("duplicate case_id: " +:+ case_id).

Definition _validate_catalog_case_required_fields (case : pydict) (prefix : string) : list string :=
  concat (map (fun field => when_failed (negb (dict_has field case)) (prefix +:+ ": missing " +:+ field)) catalog_case_fields).

Definition _validate_catalog_case_capabilities (case : pydict) (prefix : string) : list string :=
  match dict_get "required_capabilities" case with
  | PList ((_ :: _) as l) =>
      names_error (prefix +:+ ": unknown capabilities: ") (missing_names (dedup String.eqb (map py_str l)) CAPABILITIES)
  | _ => [prefix +:+ ": required_capabilities must be a non-empty list"]
  end.

Definition _validate_catalog_case_shape (case : pydict) (prefix : string) : list string :=
  when_failed (negb (is_mapping (dict_get "request" case))) (prefix +:+ ": request must be an object")
  ++ when_failed (negb (is_list (dict_get "expected_event_fields" case))) (prefix +:+ ": expected_event_fields must be a list")
  ++ when_failed (negb (is_list (dict_get "forbidden_event_fields" case))) (prefix +:+ ": forbidden_event_fields must be a list").

Definition required_transport_fields : list string :=
  ["run_id"; "integration_mode"; "transaction_id"; "phase"; "event"; "message_id"; "requested_action";
   "actual_action"; "transport_result"; "transport_case_id"].

Definition _validate_catalog_transport_hardening (case : pydict) (prefix : string) : res (list string) :=
  let hardening := dict_get "transport_hardening" case in
  let shape := when_failed (dict_has "transport_hardening" case && negb (is_bool hardening))
                 (prefix +:+ ": transport_hardening must be Boolean") in
  if negb (is_true hardening) then Ok shape
  else
    let* declared := declared_names "expected_event_fields" case in
    Ok (shape
        ++ when_failed (negb (starts_with "full-lifecycle-transport" (text_of (dict_get "group" case))))
             (prefix +:+ ": transport_hardening cases must use the full-lifecycle transport namespace")
        ++ names_error (prefix +:+ ": transport_hardening case is missing causal event fields: ")
             (missing_names required_transport_fields declared)).

Definition _validate_catalog_case_declarations (case : pydict) (prefix : string) : list string :=
  when_failed (negb (eq_str (dict_get "connector_applicability" case) "capability_driven"))
    (prefix +:+ ": connector_applicability must be capability_driven")
  ++ when_failed (negb (eq_str (dict_get "unsupported_behavior" case) "UNSUPPORTED"))
       (prefix +:+ ": unsupported_behavior must be UNSUPPORTED").

Definition _validate_catalog_evidence_requirement (case : pydict) (prefix : string) : list string :=
  match dict_get "evidence_requirement" case with
  | PDict requirement =>
      when_failed (negb (is_true (dict_get "requires_real_host" requirement)))
        (prefix +:+ ": evidence_requirement.requires_real_host must be true")
      ++ when_failed (negb (is_false (dict_get "accepts_synthetic_pass" requirement)))
           (prefix +:+ ": evidence_requirement.accepts_synthetic_pass must be false")
  | _ => [prefix +:+ ": evidence_requirement must be an object"]
  end.

Definition _validate_catalog_fixture_path (raw_path : pyval) (root : abs_path) (label case_id : string)
    (catalog_root : abs_path) : res (list string) :=
  match raw_path with
  | PStr p =>
      if String.eqb (py_strip p) "" then Ok [case_id +:+ ": " +:+ label +:+ " must be a non-empty relative path"]
      else
        let* candidate := cf_resolve fs (pure_join catalog_root p) in
        if negb (path_below root candidate)
        then Ok [case_id +:+ ": " +:+ label +:+ " must remain under " +:+ path_text root]
        else let* found := cf_is_file fs candidate in
             add_error (negb found) (case_id +:+ ": " +:+ label +:+ " is missing: " +:+ path_text candidate)
  | _ => Ok [case_id +:+ ": " +:+ label +:+ " must be a non-empty relative path"]
  end.

Definition _validate_catalog_case_sources (case : pydict) (prefix : string) (catalog_root shared_fixture_root : abs_path)
    : res (list string) :=
  let runner_case := dict_get "runner_case" case in
  in_order
    [(if truthy runner_case then
        let runner_path := pure_join CATALOG_DIRECTORY (py_str runner_case) in
        let* found := cf_is_file fs runner_path in
        add_error (negb found) (prefix +:+ ": runner_case is missing: " +:+ path_text runner_path)
      else Ok []);
     (match dict_get "request" case with
      | PDict request =>
          in_order
            [(if dict_has "fixture" request
              then _validate_catalog_fixture_path (dict_get "fixture" request) catalog_root "request.fixture" prefix catalog_root
              else Ok []);
             (if dict_has "fixture_file" request
              then _validate_catalog_fixture_path (dict_get "fixture_file" request) shared_fixture_root
                     "request.fixture_file" prefix catalog_root
              else Ok [])]
      | _ => Ok []
      end)].

Definition catalog_case_errors (catalog_root shared_fixture_root : abs_path) (seen : list string) (case : pydict)
    : res (list string) :=
  let prefix := case_prefix case in
  in_order
    [Ok (_catalog_case_identity case seen);
     Ok (_validate_catalog_case_required_fields case prefix);
     Ok (_validate_catalog_case_capabilities case prefix);
     Ok (_validate_catalog_case_shape case prefix);
     _validate_catalog_transport_hardening case prefix;
     Ok (_validate_catalog_case_declarations case prefix);
     Ok (_validate_catalog_evidence_requirement case prefix);
     Ok (map (fun error => prefix +:+ ": " +:+ error) (config_invocation_contract_errors case));
     _validate_catalog_case_sources case prefix catalog_root shared_fixture_root].

(** The identifiers seen so far, and the errors. *)
Fixpoint _validate_catalog_cases (catalog_root shared_fixture_root : abs_path) (seen : list string) (cases : list pydict)
    : res (list string * list string) :=
  match cases with
  | [] => Ok (seen, [])
  | case :: r =>
      let* errors := catalog_case_errors catalog_root shared_fixture_root seen case in
      let* (seen, rest) := _validate_catalog_cases catalog_root shared_fixture_root (text_of (dict_get "case_id" case) :: seen) r in
      Ok (seen, errors ++ rest)
  end.

(** ** Contracts of named cases *)

(** [by_id.get(case_id)]: the last case with the identifier. *)
Definition by_id (cases : list pydict) (case_id : string) : option pydict :=
  last (List.filter (fun case => String.eqb (text_of (dict_get "case_id" case)) case_id) cases).

(** [case = by_id.get(case_id)], [if case: check(case)] *)
Definition when_declared (cases : list pydict) (case_id : string) (check : pydict -> res (list string)) : res (list string) :=
  match by_id cases case_id with Some ((_ :: _) as case) => check case | _ => Ok [] end.

Definition _validate_phase4_catalog_case (case_id : string) (contract : phase4_contract) (case : pydict) : res (list string) :=
  in_order
    [add_error (negb (eq_int (dict_get "phase" case) 4)) (case_id +:+ ": phase must be 4");
     add_error (negb (eq_str (dict_get "group" case) "late-intervention")) (case_id +:+ ": group must be late-intervention");
     add_error (negb (eq_str (dict_get "expected_result" case) (p4_result contract)))
       (case_id +:+ ": expected_result must be " +:+ p4_result contract);
     (let* rule := optional_int (dict_get "expected_rule_id" case) in
      add_error (negb (py_eq rule (PInt 1100301))) (case_id +:+ ": expected_rule_id must be 1100301"));
     (let* status := optional_int (dict_get "expected_status" case) in
      add_error (negb (py_eq status (p4_status contract)))
        (case_id +:+ ": expected_status is not canonical for its semantic outcome"));
     (let* declared := declared_names "required_capabilities" case in
      Ok (names_error (case_id +:+ ": missing Phase-4 capabilities: ") (missing_names (p4_capabilities contract) declared)));
     (let* declared := declared_names "expected_event_fields" case in
      Ok (names_error (case_id +:+ ": missing Phase-4 event fields: ") (missing_names (p4_fields contract) declared)))].

Definition _validate_phase4_catalog_contracts (cases : list pydict) : res (list string) :=
  in_order (map (fun p => when_declared cases (fst p) (_validate_phase4_catalog_case (fst p) (snd p))) phase4_contracts).

Definition _validate_full_lifecycle_case_requirement (case_id : string) (case : pydict) : list string :=
  when_failed (negb (starts_with "full-lifecycle-" (text_of (dict_get "group" case))))
    (case_id +:+ ": group must use the full-lifecycle namespace")
  ++ when_failed (negb (match dict_get "evidence_requirement" case with
                        | PDict requirement => is_true (dict_get "requires_real_host" requirement)
                        | _ => false
                        end))
       (case_id +:+ ": must retain the real-host evidence requirement").

Definition _validate_full_lifecycle_case_requirements (cases : list pydict) : res (list string) :=
  in_order (map (fun id => when_declared cases id (fun case => Ok (_validate_full_lifecycle_case_requirement id case)))
              (sort_strs FULL_LIFECYCLE_REQUIRED_IDS)).

Definition _validate_full_lifecycle_catalog_case (case_id : string) (contract : full_lifecycle_contract) (case : pydict)
    : res (list string) :=
  in_order
    [add_error (negb (eq_str (dict_get "expected_result" case) (fl_result contract)))
       (case_id +:+ ": expected_result must be " +:+ fl_result contract);
     add_error (negb (eq_int (dict_get "phase" case) (fl_phase contract)))
       (case_id +:+ ": phase must be " +:+ dec (fl_phase contract));
     (let* declared := declared_names "required_capabilities" case in
      Ok (names_error (case_id +:+ ": missing full-lifecycle capabilities: ") (missing_names (fl_capabilities contract) declared)));
     (let* declared := declared_names "expected_event_fields" case in
      Ok (names_error (case_id +:+ ": missing full-lifecycle event fields: ") (missing_names (fl_fields contract) declared)))].

Definition _validate_full_lifecycle_catalog_contracts (cases : list pydict) : res (list string) :=
  in_order (map (fun p => when_declared cases (fst p) (_validate_full_lifecycle_catalog_case (fst p) (snd p)))
              full_lifecycle_contracts).

Definition _validate_legacy_phase4_alias (legacy : pydict) : res (list string) :=
  in_order
    [add_error (negb (eq_str (dict_get "deprecated_alias_for" legacy) "phase4_deny_before_commit"))
       "deny_response_body_marker_403 must be a deprecated alias for phase4_deny_before_commit";
     add_error (negb (eq_str (dict_get "expected_result" legacy) "legacy_phase4_deny_before_commit"))
       "deny_response_body_marker_403 must retain strict pre-commit alias semantics";
     (let* status := optional_int (dict_get "expected_status" legacy) in
      add_error (negb (py_eq status (PInt 403))) "deny_response_body_marker_403 must retain expected_status=403");
     add_error (truthy (dict_get "runner_case" legacy))
       "deny_response_body_marker_403 is an alias and must not own a runner fixture"].

Definition _validate_catalog_legacy_contracts (cases : list pydict) : res (list string) :=
  in_order
    [when_declared cases "deny_response_body_marker_403" _validate_legacy_phase4_alias;
     when_declared cases "phase4_deny_before_commit" (fun pre_commit =>
       add_error (negb (eq_str (dict_get "runner_case" pre_commit) "deny_response_body_marker_403.yaml"))
         "phase4_deny_before_commit must own the legacy pre-commit runner fixture")].

Definition scenario_prerequisites : list (string * string) :=
  [("parallel_requests", "parallel_requests"); ("abort_if_supported", "drop"); ("case_insensitive_header_name", "deny")].

Definition _validate_catalog_scenario_prerequisites (cases : list pydict) : res (list string) :=
  in_order (map (fun p =>
    match by_id cases (fst p) with
    | Some case =>
        let* declared := contains_name (snd p) (dict_get_or (PList []) "required_capabilities" case) in
        add_error (negb declared) (fst p +:+ ": missing scenario prerequisite " +:+ snd p)
    | None => Ok []
    end) scenario_prerequisites).

(** ** The ruleset *)

Definition required_rule_contracts : list string :=
  ["REQUEST_HEADERS:X-Modsec-Smoke " +:+ in_quotes "@streq block"; "id:1100001,phase:1,deny,status:403";
   "id:1100002,phase:1,deny,status:429"; "id:1100003,phase:1"; "id:1100101,phase:2"; "id:1100201,phase:3";
   "id:1100202,phase:3,redirect"; "id:1100301,phase:4"; "id:1100401,phase:1"; "id:1100402,phase:1"; "id:1100403,phase:1"].

(** [re.search(r"\binclude\b.*\bcrs\b", text)]: a word, and on the same line a later one. *)
Fixpoint search_words (r : re) (rest : chars -> bool) (after_word : bool) (l : chars) : bool :=
  negb after_word && match_then r (fun m => word_end m && rest m) l
  || match l with [] => false | c :: m => search_words r rest (is_word c) m end.
Definition includes_crs (text : string) : bool :=
  search_words (RLit "include")
    (fun m => search_word (RLit "crs") true (take_while (fun c => negb (ord c =? 10)) m)) false (S2L text).

Definition _validate_catalog_ruleset_contracts : res (list string) :=
  let* found := cf_is_file fs RULES_PATH in
  if negb found then Ok ["canonical ruleset missing: " +:+ path_text RULES_PATH]
  else
    let* rules := cf_read fs RULES_PATH in
    let lowered := py_lower rules in
    Ok (concat (map (fun c => when_failed (negb (contains c rules)) ("ruleset missing contract: " +:+ c)) required_rule_contracts)
        ++ when_failed (contains "owasp-crs" lowered || contains "coreruleset" lowered || includes_crs lowered)
             "canonical No-CRS ruleset must not include CRS"
        ++ when_failed (existsb (fun token => contains token lowered)
                          ["%{request_body}"; "%{response_body}"; "%{http:authorization}"])
             "canonical ruleset must not log body or authorization payloads").

(** ** The catalog *)

Definition validate_catalog_header (catalog : pydict) : list string :=
  when_failed (negb (eq_int (dict_get "schema_version" catalog) 1)) "catalog.schema_version must be 1"
  ++ when_failed (negb (eq_str (dict_get "catalog" catalog) "no-crs-baseline")) "catalog.catalog must be no-crs-baseline"
  ++ when_failed (negb (eq_str (dict_get "full_lifecycle_artifact_profile" catalog) FULL_LIFECYCLE_ARTIFACT_PROFILE))
       ("catalog.full_lifecycle_artifact_profile must be " +:+ repr_str FULL_LIFECYCLE_ARTIFACT_PROFILE).

Definition catalog_length (catalog : pydict) : nat :=
  match dict_get "cases" catalog with PList l => List.length l | _ => 0%nat end.

Definition validate_catalog (catalog : pydict) : res (list string) :=
  match catalog_cases catalog with
  | Err (ContractError m) => Ok [m]
  | Err e => Err e
  | Ok cases =>
      let* catalog_root := cf_resolve fs CATALOG_DIRECTORY in
      let* shared_fixture_root := cf_resolve fs (pure_join (cf_framework fs) "tests/fixtures/no-crs-baseline") in
      let* (seen, errors) := _validate_catalog_cases catalog_root shared_fixture_root [] cases in
      in_order
        [Ok (validate_catalog_header catalog);
         add_error (negb (Nat.eqb (List.length cases) (catalog_length catalog))) "every catalog case must be an object";
         Ok errors;
         Ok (names_error "catalog missing required cases: "
               (missing_names (dedup String.eqb (required_ids ++ FULL_LIFECYCLE_REQUIRED_IDS)) seen));
         _validate_phase4_catalog_contracts cases;
         _validate_full_lifecycle_case_requirements cases;
         _validate_full_lifecycle_catalog_contracts cases;
         _validate_catalog_legacy_contracts cases;
         _validate_catalog_scenario_prerequisites cases;
         _validate_catalog_ruleset_contracts]
  end.

(** [load_catalog], after the file is decoded. *)
Definition load_catalog (payload : pyval) : res pydict :=
  match payload with
  | PDict catalog =>
      let* errors := validate_catalog catalog in
      match errors with [] => Ok catalog | _ => Err (ContractError (py_join "; " errors)) end
  | _ => Err (ContractError "catalog root must be an object")
  end.
End Catalog.

(** ** The capability manifest *)

Definition BASELINE_CONNECTORS : list string := ["apache"; "nginx"; "haproxy"; "envoy"; "traefik"; "lighttpd"].

Definition capability_state (v : pyval) : string :=
  text_of (match v with PDict d => dict_get "state" d | _ => v end).

Definition capability_manifest_header_errors (payload : pydict) (connector : option string) : list string :=
  let declared := text_of (dict_get "connector" payload) in
  when_failed (negb (eq_int (dict_get "schema_version" payload) 1)) "capability manifest schema_version must be 1"
  ++ when_failed (negb (str_in declared BASELINE_CONNECTORS)) ("capability manifest connector is invalid: " +:+ repr_str declared)
  ++ match connector with
     | Some c => when_failed (negb (String.eqb c "") && negb (String.eqb declared c))
                   ("capability manifest connector mismatch: " +:+ repr_str declared +:+ " != " +:+ repr_str c)
     | None => []
     end
  ++ concat (map (fun field => when_failed (String.eqb (py_strip (text_of (dict_get field payload))) "")
                                 ("capability manifest missing " +:+ field)) ["host_name"; "integration_mode"]).

(** An object in place of a plain value must give a reason. *)
Definition reason_missing (v : pyval) : bool :=
  match v with PDict d => String.eqb (py_strip (text_of (dict_get "reason" d))) "" | _ => false end.

Definition named_keys (d : pydict) : list string := dedup String.eqb (map (fun kv => py_str (fst kv)) d).

Definition capability_manifest_capability_errors (capabilities : pydict) : list string :=
  names_error "capability manifest missing capabilities: " (missing_names CAPABILITIES (named_keys capabilities))
  ++ names_error "capability manifest has unknown capabilities: " (missing_names (named_keys capabilities) CAPABILITIES)
  ++ concat (map (fun name =>
       let value := dict_get name capabilities in
       let state := capability_state value in
       when_failed (negb (str_in state CAPABILITY_STATES)) ("capability " +:+ name +:+ " has invalid state: " +:+ repr_str state)
       ++ when_failed (reason_missing value) ("capability " +:+ name +:+ " requires a non-empty reason")) CAPABILITIES).

Definition capability_manifest_stage_errors (stages : pydict) : list string :=
  names_error "capability manifest missing evidence stages: " (missing_names EVIDENCE_STAGES (named_keys stages))
  ++ concat (map (fun stage =>
       let value := dict_get stage stages in
       let status := text_of (match value with PDict d => dict_get "status" d | _ => value end) in
       when_failed (negb (str_in status EVIDENCE_STAGE_STATUSES))
         ("evidence stage " +:+ stage +:+ " has invalid status: " +:+ repr_str status)
       ++ when_failed (reason_missing value) ("evidence stage " +:+ stage +:+ " requires a non-empty reason")) EVIDENCE_STAGES).

Definition validate_capability_manifest (payload : pydict) (connector : option string) : list string :=
  let header := capability_manifest_header_errors payload connector in
  match dict_get "capabilities" payload with
  | PDict capabilities =>
      header ++ capability_manifest_capability_errors capabilities
      ++ match dict_get "evidence_stages" payload with
         | PDict stages => capability_manifest_stage_errors stages
         | _ => ["capability manifest evidence_stages must be an object"]
         end
      ++ let constraints := dict_get "host_model_constraints" payload in
         when_failed (negb (is_none constraints) && negb (is_list constraints)) "host_model_constraints must be a list"
  | _ => header ++ ["capability manifest capabilities must be an object"]
  end.

(** [load_capability_manifest], after the file is decoded. *)
Definition load_capability_manifest (path : string) (payload : pyval) (connector : option string) : res pydict :=
  match payload with
  | PDict manifest =>
      match validate_capability_manifest manifest connector with
      | [] => Ok manifest
      | errors => Err (ContractError (py_join "; " errors))
      end
  | _ => Err (ContractError (path +:+ ": capability manifest root must be an object"))
  end.
