(* ===== verification/NativeFiles.v ===== *)
(** * Sources and retained files of native operations

    Where the test sources of a connector are found (connector_context.py), the reader of
    owned files, the closed set of the sources of an operation and the reader of a bundle
    (nginx_native_operation_bundle.py), and the authority of a run
    (nginx_native_operation_authority.py).  The operating system answers as in
    [ObservationEvidence.os]: a directory descriptor is the node it was opened on, and
    what [fstat] says after an open and after the read are separate answers. *)

From S2P Require Export NativeContract.
From S2P Require Import ObservationEvidence Utf8 Catalog.
From Stdlib Require Import QArith.
#[global] Open Scope Z_scope.

(** ** Lines and words of a text *)

(** [str.splitlines]; [acc] holds the line so far in reverse. *)
Definition line_end (c : Z) : bool := Z_in c [10; 11; 12; 13; 28; 29; 30; 133; 8232; 8233].
Fixpoint text_lines (acc l : ustr) : list ustr :=
  match l with
  | [] => match acc with [] => [] | _ => [rev acc] end
  | c :: r =>
      if c =? 13 then
        rev acc :: match r with
                   | d :: r' => if d =? 10 then text_lines [] r' else text_lines [] r
                   | [] => []
                   end
      else if line_end c then rev acc :: text_lines [] r
      else text_lines (c :: acc) r
  end.
Definition text_splitlines (l : ustr) : list ustr := text_lines [] l.

Definition text_space (c : Z) : bool :=
  ((9 <=? c) && (c <=? 13)) || ((28 <=? c) && (c <=? 32)) || ((8192 <=? c) && (c <=? 8202))
  || Z_in c [133; 160; 5760; 8232; 8233; 8239; 8287; 12288].
Fixpoint text_span (p : Z -> bool) (l : ustr) : ustr * ustr :=
  match l with
  | c :: r => if p c then let (a, b) := text_span p r in (c :: a, b) else ([], l)
  | [] => ([], [])
  end.
(** [s.split(None, n)] *)
Fixpoint text_split (n : nat) (l : ustr) : list ustr :=
  match snd (text_span text_space l) with
  | [] => []
  | rest => match n with
            | O => [rest]
            | S n => let (word, rest) := text_span (fun c => negb (text_space c)) rest in word :: text_split n rest
            end
  end.

(** ** The locations of sources (connector_context.py) *)

(** The environment, [Path(s).resolve()] and its strict variant, what the file system
    answers for a path, the output of [git rev-parse] and the JSON text of a file.  The
    module keeps answers in caches; the answers of the model do not change. *)
Record context_system := {
  cx_environ : string -> string;
  cx_resolve : string -> res abs_path;
  cx_resolve_strict : string -> res abs_path;
  cx_is_dir : abs_path -> res bool;
  cx_is_file : abs_path -> res bool;
  cx_exists : abs_path -> res bool;
  cx_git : abs_path -> res ustr;
  cx_json : abs_path -> res pyval }.

Definition is_absolute_text (s : string) : bool := starts_with "/" s.
Definition REVISION : re := RCat (RTimes (RCls is_hex_lower) 40) (ROpt (RTimes (RCls is_hex_lower) 24)).

Definition _relative (v : pyval) : res string :=
  let value := py_str v in
  demand (negb (String.eqb value "" || is_absolute_text value || contains backslash value
                || existsb (fun part => str_in part [""; "."; ".."]) (py_split "/" value)))
    "test source must be a canonical relative path" ;;;
  Ok value.

Definition remove_prefix (p s : string) : string :=
  if starts_with p s then L2S (drop (String.length p) (S2L s)) else s.

Definition MIGRATED : list (string * string) :=
  [("tests", "connector_suite/modsecurity_connector_tests");
   ("ci/checks", "connector_suite/modsecurity_connector_ci/checks");
   ("ci/runtime", "connector_suite/modsecurity_connector_ci/runtime");
   ("ci/evidence", "connector_suite/modsecurity_connector_ci/evidence");
   ("ci/provisioning/cache", "connector_suite/modsecurity_connector_ci/provisioning/cache");
   ("ci/provisioning/components", "connector_suite/modsecurity_connector_ci/provisioning/components");
   ("common/rules", "connector_suite/common/rules");
   ("common/scripts", "connector_suite/common/scripts");
   ("config/testing", "connector_suite/config/testing")].
Definition _migrated_directory_path (name : string) (framework : abs_path) : option abs_path :=
  match find (fun d => String.eqb name (fst d) || starts_with (fst d +:+ "/") name) MIGRATED with
  | Some (old, new) =>
      let rest := L2S (drop_while (fun c => ord c =? 47) (drop (String.length old) (S2L name))) in
      Some (pure_join (pure_join framework new) rest)
  | None => None
  end.

Section Context.
Variable cx : context_system.

Definition _directory (value label : string) : res abs_path :=
  demand (negb (String.eqb value "")) (label +:+ " is required explicitly") ;;;
  demand (is_absolute_text value && negb (str_in ".." (pure_parts value))) (label +:+ " must be an absolute directory") ;;;
  let* resolved := cx_resolve_strict cx value in
  let* found := cx_is_dir cx resolved in
  demand found (label +:+ " must be an existing directory") ;;;
  Ok resolved.

Definition test_root : res abs_path :=
  let* root := _directory (cx_environ cx "TEST_ROOT") "TEST_ROOT" in
  let* found := cx_is_file cx (pure_join root "modsecurity_test_framework/__init__.py") in
  demand found "TEST_ROOT must identify the pinned Framework checkout" ;;;
  Ok root.

Definition _checkout (value expected_revision : string) : res abs_path :=
  let* root := _directory value "CONNECTOR_ROOT" in
  demand (fullmatch_str REVISION expected_revision) "CONNECTOR_REVISION must be an exact source revision" ;;;
  let* completed := cx_git cx root in
  demand (bool_decide (text_splitlines completed = [u (path_text root); u expected_revision]))
    "CONNECTOR_ROOT or CONNECTOR_REVISION does not match the checkout" ;;;
  let* connectors := cx_is_dir cx (pure_join root "connectors") in
  let* headers := if connectors : bool then cx_is_dir cx (pure_join root "common/include") else Ok false in
  demand headers "CONNECTOR_ROOT is not a connector product checkout" ;;;
  Ok root.

Definition connector_root : res abs_path :=
  _checkout (cx_environ cx "CONNECTOR_ROOT") (cx_environ cx "CONNECTOR_REVISION").

(** The old and the new name of every mapped source. *)
Definition _source_map (framework : abs_path) : res (list (string * string)) :=
  let* value := cx_json cx (pure_join framework "connector_suite/source-map.json") in
  let* value := mapping value in
  match eq_int (dict_get "schema_version" value) 1, dict_get "paths" value with
  | true, PDict paths =>
      let* paths := mapM (fun kv =>
        let* old := _relative (fst kv) in
        let* _ := _relative (snd kv) in
        match snd kv with
        | PStr new =>
            demand (existsb (fun p => starts_with p new) ["connector_suite/"; "tests/"; ".github/workflows/"; ".github/actions/"])
              "mapped test source must stay in Framework test-owned directories" ;;;
            Ok (old, new)
        | _ => Err (AttributeError "startswith")
        end) paths in
      demand (nodupb String.eqb (map snd paths)) "mapped test sources must be unique" ;;;
      Ok paths
  | _, _ => refuse "invalid Framework connector source map"
  end.

Definition _connector_relocations (framework : abs_path) : res (list (string * pyval)) :=
  let* value := cx_json cx (pure_join framework "connector_suite/source-map.json") in
  let* value := mapping value in
  match dict_get_or (PDict []) "connector_paths" value with
  | PDict paths => mapM (fun kv => let* old := _relative (fst kv) in let* _ := _relative (snd kv) in Ok (old, snd kv)) paths
  | _ => refuse "invalid product source relocation map"
  end.

Definition FRAMEWORK_MOUNT : string := "modules/ModSecurity-test-Framework".
Definition _mapped_source_path (name : string) (product framework : abs_path) : res abs_path :=
  if String.eqb name FRAMEWORK_MOUNT then Ok framework
  else if starts_with (FRAMEWORK_MOUNT +:+ "/") name
  then Ok (pure_join framework (remove_prefix (FRAMEWORK_MOUNT +:+ "/") name))
  else
    let* relocations := _connector_relocations framework in
    match entry name relocations with
    | Some (PStr relocated) => Ok (pure_join product relocated)
    | Some PNone | None =>
        let* paths := _source_map framework in
        match entry name paths with
        | Some new => Ok (pure_join framework new)
        | None =>
            match _migrated_directory_path name framework with
            | Some directory => Ok directory
            | None =>
                let candidate := pure_join product name in
                if starts_with "connectors/" name && contains "/harness" name then
                  let* retained := cx_exists cx candidate in
                  Ok (if retained : bool then candidate
                      else pure_join (pure_join framework "connector_suite/adapters") (remove_prefix "connectors/" name))
                else Ok candidate
            end
        end
    | Some _ => Err (TypeError "unsupported operand type(s) for /")
    end.

(** [a.resolve() == Path(b).resolve()] *)
Definition resolves_to (a : abs_path) (b : string) : res bool :=
  let* a := cx_resolve cx (path_text a) in let* b := cx_resolve cx b in Ok (path_eqb a b).

Definition source_path (relative : string) (root : option abs_path) : res abs_path :=
  let* name := _relative (PStr relative) in
  let selected := cx_environ cx "CONNECTOR_ROOT" in
  let* own :=
    match root with
    | None => Ok None
    | Some root =>
        let* same := if String.eqb selected "" then Ok false else resolves_to root selected in
        Ok (if same : bool then None else Some root)
    end in
  match own with
  | Some root => Ok (pure_join root name)
  | None =>
      let* product := connector_root in
      let* own :=
        match root with
        | None => Ok None
        | Some root => let* resolved := cx_resolve cx (path_text root) in
                       Ok (if path_eqb resolved product then None else Some root)
        end in
      match own with
      | Some root => Ok (pure_join root name)
      | None => let* framework := test_root in _mapped_source_path name product framework
      end
  end.
End Context.

(** ** Limits and names *)

Definition RAW_LIMIT : Z := 1024 * 1024.
Definition ARTIFACT_LIMIT : Z := 64 * 1024 * 1024.
Definition SHA40 : re := RTimes (RCls is_hex_lower) 40.
Definition is_revision (v : pyval) : bool := match v with PStr s => fullmatch_str SHA40 s | _ => false end.
Definition is_seal (v : pyval) : bool := match v with PStr s => fullmatch_str SEAL_PATTERN s | _ => false end.

Definition relative_parts (v : pyval) : res (list string) :=
  match v with
  | PStr s =>
      demand (negb (String.eqb s "") && negb (starts_with "/" s)
              && forallb (fun part => negb (str_in part [""; "."; ".."])) (py_split "/" s)) "unsafe relative artifact path" ;;;
      demand (negb (char_in s (chr 0)) && negb (char_in s (chr 92))) "unsafe artifact path character" ;;;
      Ok (py_split "/" s)
  | _ => refuse "unsafe relative artifact path"
  end.

(** ** The sources of an operation *)

Definition FAULT_SOURCES : list (string * string) :=
  [("transaction_begin_failure_cleanup", "nginx_transaction_fault.c");
   ("finish_failure_propagation", "nginx_finish_fault.c");
   ("response_short_write_resume", "nginx_write_fault.c");
   ("response_write_would_block_resume", "nginx_write_fault.c");
   ("engine_timeout_before_commit", "nginx_engine_budget_fault.c");
   ("engine_timeout_after_commit", "nginx_engine_budget_fault.c")].
Definition FAULT_LIBRARIES : list (string * string) :=
  [("nginx_transaction_fault.c", "native-transaction-fault.so"); ("nginx_finish_fault.c", "native-finish-fault.so");
   ("nginx_write_fault.c", "native-write-fault.so"); ("nginx_engine_budget_fault.c", "native-budget-fault.so")].
Definition fault_library (case_id : string) : option string :=
  match entry case_id FAULT_SOURCES with Some source => entry source FAULT_LIBRARIES | None => None end.

Definition parent_sources (helper case_id : string) : list string :=
  ["ci/runtime/lifecycle/run-nginx-valid-rules.py"; "ci/runtime/lifecycle/run-nginx-configtest.py";
   "ci/runtime/lifecycle/run-selected-nginx-native-operations.py"; "ci/runtime/lifecycle/nginx-native-operation-source.py";
   "ci/runtime/common/prepare-nginx-docroot-projection.py"; "ci/lib/runtime_path_utils.py";
   "ci/runtime/lifecycle/collect-no-crs-source.py"; "ci/runtime/lifecycle/nginx_native_collection.py";
   "ci/runtime/lifecycle/nginx_native_authority.py"; "ci/runtime/lifecycle/run-no-crs-baseline.sh";
   "ci/runtime/lifecycle/run-nginx-selected-host.sh"; "ci/runtime/lifecycle/run-connector-stage.sh"]
  ++ match entry helper
       [("nginx_raw_h1", "run-nginx-raw-h1.py"); ("nginx_common_input_faults", "run-nginx-common-input-fault.py");
        ("nginx_mime_operations", "run-nginx-mime-cases.py"); ("nginx_phase4_operations", "run-nginx-phase4-cases.py");
        ("nginx_event_boundary_operations", "run-nginx-event-boundary-cases.py");
        ("nginx_lifecycle_sequence", "run-nginx-lifecycle-sequences.py")] with
     | Some driver => ["ci/runtime/lifecycle/" +:+ driver]
     | None => []
     end
  ++ (if str_in case_id (MIME_CASES ++ PHASE4_CASES ++ EVENT_CASES)
      then ["ci/runtime/lifecycle/run-nginx-phase4-cases.py"; "ci/runtime/common/nginx_phase4_upstream.py"] else [])
  ++ (if str_in case_id MIME_CASES
      then ["ci/runtime/common/response-header-test-backend.py"; "ci/runtime/common/response_fixture_omission.py"] else [])
  ++ (if str_in case_id SEQUENCE_CASES
      then ["ci/runtime/lifecycle/nginx_sequence_client.py"; "ci/runtime/lifecycle/nginx_sequence_upstream.py"] else [])
  ++ (if str_in case_id INPUT_CASES
      then ["tests/fixtures/nginx_common_input_fault.c"; "tests/fixtures/nginx_worker_self_maps.c";
            "ci/runtime/lifecycle/nginx-worker-self-maps.py"] else [])
  ++ match entry case_id FAULT_SOURCES with Some source => ["tests/fixtures/" +:+ source] | None => [] end.

Definition framework_sources (helper case_id : string) : list string :=
  ["tests/runners/" +:+ helper +:+ ".py"; "tests/runners/nginx_native_operation_bundle.py";
   "tests/runners/nginx_native_operation_projection.py"; "tests/runners/nginx_native_operation_contract.py";
   "tests/runners/nginx_native_operation_authority.py"; "tests/runners/nginx_http11_framing.py";
   "tests/runners/nginx_lifecycle_sequence.py"; "tests/runners/nginx_phase4_contracts.py";
   "tests/runners/msconnector_models.py"; "ci/checks/catalog/no_crs_baseline.py";
   "tests/cases/no-crs-baseline/catalog.json"]
  ++ map (fun name => "tests/schemas/no-crs-baseline/" +:+ name +:+ ".schema.json")
       ["case-catalog"; "case-result"; "result"; "manifest"; "inventory"; "event"]
  ++ (if str_in case_id (PHASE4_CASES ++ EVENT_CASES) then [] else ["tests/rules/no-crs-baseline.conf"])
  ++ (if str_in case_id PHASE4_CASES then ["tests/runners/nginx_phase4_contracts.py"] else [])
  ++ (if str_in case_id EVENT_CASES
      then ["tests/runners/nginx_mime_operations.py"; "tests/runners/nginx_common_input_faults.py"] else [])
  ++ (if str_in case_id SEQUENCE_CASES then ["tests/runners/nginx_http11_framing.py"] else []).

(** The set of sources, sorted. *)
Definition required_source_paths (case_value : pyval) : res (list string) :=
  let* (_, helper) := route case_value in
  let case_id := py_str case_value in
  Ok (sort_strs (dedup String.eqb (map (fun s => "parent:" +:+ s) (parent_sources helper case_id)
                                   ++ map (fun s => "framework:" +:+ s) (framework_sources helper case_id)))).

(** ** Reading an owned file *)

(** The fields of an opened file that must not change. *)
Definition identity_fields (d : stat) : list Z :=
  [st_dev d; st_ino d; st_fmt d; st_mode d; st_uid d; st_nlink d; st_size d; st_mtime_ns d; st_ctime_ns d].

Section Reader.
Variable sys : os.

(** [os.open(part, O_DIRECTORY | O_NOFOLLOW, dir_fd=descriptor)] for every part. *)
Fixpoint descend (n : node sys) (d : stat) (components : path) : res (node sys * stat) :=
  match components with
  | [] => Ok (n, d)
  | part :: rest => let* (child, metadata) := ObservationEvidence.open_directory sys n part in descend child metadata rest
  end.
Definition open_directory (p : abs_path) : res (node sys * stat) :=
  demand (negb (str_in ".." (parts p))) "absolute artifact authority required" ;;;
  match descend (root_node sys) (root_stat sys) (parts p) with
  | Err e => if is_OSError e then refuse "unsafe artifact directory" else Err e
  | opened => opened
  end.

(** Owned by the current user and writable by nobody else. *)
Definition own_only (d : stat) : bool := (st_uid d =? geteuid sys) && (Z.land (st_mode d) 18 =? 0).
Fixpoint descend_owned (m : string) (n : node sys) (components : path) : res (node sys) :=
  match components with
  | [] => Ok n
  | part :: rest =>
      let* (child, metadata) := ObservationEvidence.open_directory sys n part in
      demand (own_only metadata) m ;;; descend_owned m child rest
  end.

(** At most [n] bytes. *)
Fixpoint at_most (n : Z) (l : chars) : chars :=
  match l with c :: r => if n <=? 0 then [] else c :: at_most (n - 1) r | [] => [] end.

Definition read_opened (f : opened_file) (limit : Z) : res chars :=
  let before := opened f in
  demand ((st_fmt before =? S_IFREG) && (st_nlink before =? 1) && own_only before && (st_size before <=? limit))
    "artifact must be owned bounded single-link non-writable regular file" ;;;
  let data := at_most (limit + 1) (S2L (content f)) in
  demand ((size_of data =? st_size before) && (size_of data <=? limit)
          && bool_decide (identity_fields before = identity_fields (final f))) "artifact changed during bounded read" ;;;
  Ok data.

Definition read_bounded_file (authority : abs_path) (relative : string) (limit : Z) : res chars :=
  let* parts := relative_parts (PStr relative) in
  demand (0 <? limit) "positive artifact bound required" ;;;
  let* (directory, metadata) := open_directory authority in
  demand (own_only metadata) "owned non-writable artifact authority required" ;;;
  match (let* n := descend_owned "owned non-writable retained directory required" directory (removelast parts) in
         let* f := open_file sys n (List.last parts "") in
         read_opened f limit) with
  | Err e => if is_OSError e then refuse ("unsafe or missing retained artifact: " +:+ relative) else Err e
  | data => data
  end.
End Reader.

(** [a.relative_to(root).as_posix()] for a path below the root. *)
Definition relative_text (root a : abs_path) : string :=
  match drop (List.length (parts root)) (parts a) with [] => "." | l => py_join "/" l end.

Definition REVISIONS : list string := ["parent_sha"; "framework_sha"; "mrts_sha"].
Definition BUILDS : list (string * string) := [("binary_sha256", "nginx-binary"); ("module_sha256", "nginx-module.so")].

Section Sources.
Variables (sys : os) (cx : context_system) (digest : chars -> string).
(** The paths of the source authority; its other entries are a dictionary. *)
Variables parent_root framework_root : abs_path.

Definition _read_source_authority (name : string) : res chars :=
  match py_split1 ":" name with
  | Some (owner, relative) =>
      if String.eqb owner "parent" then
        let* (_, metadata) := open_directory sys parent_root in
        demand (own_only sys metadata) "owned non-writable artifact authority required" ;;;
        let selected := cx_environ cx "CONNECTOR_ROOT" in
        let* own := if String.eqb selected "" then Ok false else resolves_to cx parent_root selected in
        (if own : bool
         then let* framework := test_root cx in
              demand (path_eqb framework_root framework) "reviewed source requires the explicit selected Framework root"
         else Ok tt) ;;;
        let* path := source_path cx relative (Some parent_root) in
        demand (forallb (fun root => negb (str_in ".." (parts root))) [parent_root; framework_root])
          "absolute artifact authority required" ;;;
        demand (existsb (fun root => path_below root path) [parent_root; framework_root])
          "reviewed source must stay inside explicit Parent/Framework roots" ;;;
        let authority := if path_below framework_root path then framework_root else parent_root in
        read_bounded_file sys authority (relative_text authority path) RAW_LIMIT
      else if String.eqb owner "framework" then read_bounded_file sys framework_root relative RAW_LIMIT
      else refuse "absolute artifact authority required"
  | None => Err (ValueError "not enough values to unpack")
  end.

Definition same_revisions (container sources : pydict) (m : string) : res unit :=
  forM (fun field =>
    let* expected := dict_item field sources in
    demand (py_eq (dict_get field container) expected) (m +:+ field)) REVISIONS.

(** The bytes of every required source, in the order of their names. *)
Definition verify_source_authority (record envelope sources : pydict) : res (list (string * chars)) :=
  forM (fun field =>
    let expected := dict_get field sources in
    demand (is_revision expected) ("exact source revision required: " +:+ field) ;;;
    demand (py_eq (dict_get field record) expected) ("outer source revision mismatch: " +:+ field)) REVISIONS ;;;
  forM (fun b => demand (is_seal (dict_get (fst b) sources)) ("explicit actual build digest required: " +:+ fst b)) BUILDS ;;;
  let* case_id := dict_item "case_id" record in
  let* required := required_source_paths case_id in
  let mismatch := "closed producer/source path set mismatch" in
  match dict_get "source_sha256" envelope with
  | PDict mapping =>
      demand (set_eqb (keys mapping) required) mismatch ;;;
      let* captured := mapM (fun name =>
        let* raw := _read_source_authority name in
        demand (eq_str (dict_get name mapping) (digest raw)) ("actual producer/source bytes mismatch: " +:+ name) ;;;
        Ok (name, raw)) required in
      forM (fun field =>
        match dict_get field record with
        | PNone => Ok tt
        | PDict container => same_revisions container sources "nested source revision mismatch: "
        | _ => refuse "source provenance/result object required"
        end) ["provenance"; "result"] ;;;
      Ok captured
  | _ => refuse mismatch
  end.
End Sources.

(** ** The reader of a bundle *)

(** [raw\[leaf\] = data] *)
Fixpoint put_artifact (leaf : string) (data : chars) (raw : artifacts) : artifacts :=
  match raw with
  | [] => [(leaf, data)]
  | (l, d) :: r => if String.eqb l leaf then (l, data) :: r else (l, d) :: put_artifact leaf data r
  end.

(** A step of the reader: it keeps the seals of the files read so far. *)
Definition sealing (A : Type) := pydict -> res (A * pydict).
Definition give {A} (a : A) : sealing A := fun files => Ok (a, files).
Definition checked {A} (m : res A) : sealing A := fun files => let* a := m in Ok (a, files).
Definition andthen {A B} (m : sealing A) (k : A -> sealing B) : sealing B :=
  fun files => let* (a, files) := m files in k a files.
Notation "'step*' x ':=' c 'in' k" := (andthen c (fun x => k)) (at level 10, x pattern, c at level 100, k at level 200) : py_scope.

(** A step for every element, with a value passed on. *)
Fixpoint steps {A S} (f : S -> A -> sealing S) (l : list A) (s : S) : sealing S :=
  match l with
  | [] => give s
  | a :: r => step* s := f s a in steps f r s
  end.

Section Bundles.
Variables (sys : os) (digest : chars -> string).

(** [BundleReader(authority, root)]: the root of the bundle. *)
Definition open_bundle (authority : abs_path) (root : pyval) : res abs_path :=
  demand (negb (path_eqb authority {| double := false; parts := [] |})) "bounded artifact authority required" ;;;
  match root with
  | PStr s =>
      demand (negb (String.eqb s "")) "bundle root required" ;;;
      (if is_absolute_text s then Ok tt else let* _ := relative_parts (PStr s) in Ok tt) ;;;
      let candidate := pure_join authority s in
      demand (negb (str_in ".." (parts candidate))) "unsafe bundle root" ;;;
      demand (path_below authority candidate) "bundle root is outside artifact authority" ;;;
      let* (n, metadata) := open_directory sys authority in
      demand (own_only sys metadata) "private owned artifact authority required" ;;;
      let* _ := descend_owned sys "private owned bundle path required" n (drop (List.length (parts authority)) (parts candidate)) in
      Ok candidate
  | _ => refuse "bundle root required"
  end.

Definition file_seal (data : chars) (limit : Z) : pyval :=
  PDict (mkdict [("sha256", PStr (digest data)); ("size", PInt (size_of data)); ("limit", PInt limit)]).

Variable root : abs_path.

Definition read (relative : string) (expected : pyval) (limit : Z) : sealing chars := fun files =>
  let* raw := read_bounded_file sys root relative limit in
  (if is_none expected then Ok tt
   else demand (is_seal expected && eq_str expected (digest raw)) ("retained raw digest mismatch: " +:+ relative)) ;;;
  Ok (raw, dict_set relative (file_seal raw limit) files).

Definition leaf_limit (leaf : string) : Z := if str_in leaf (map snd BUILDS) then ARTIFACT_LIMIT else RAW_LIMIT.

(** [raw.update(read_hash_map(reader, prefix, mapping, allowed))] *)
Definition read_hash_map (prefix : string) (mapping : pyval) (allowed : list string) (raw : artifacts) : sealing artifacts :=
  match mapping with
  | PDict m =>
      step* _ := checked (demand (keys_within m allowed) "closed raw artifact hash mapping required") in
      step* _ := checked (demand (forallb (fun kv => is_seal (snd kv)) m) "exact raw artifact seals required") in
      steps (fun raw kv =>
        let leaf := py_str (fst kv) in
        step* data := read (prefix +:+ leaf) (snd kv) (leaf_limit leaf) in give (put_artifact leaf data raw)) m raw
  | _ => checked (refuse "closed raw artifact hash mapping required")
  end.
End Bundles.

(** ** The authority of a run (nginx_native_operation_authority.py) *)

Definition AUTHORITY_LIMIT : Z := 16384.
Definition EXPECTED_FIELDS : list string := ["run_id"; "parent_sha"; "framework_sha"; "mrts_sha"].
Definition ROOT_FIELDS : list string := ["artifact_root"; "parent_root"; "framework_root"].
Definition AUTHORITY_FIELDS : list string :=
  EXPECTED_FIELDS ++ ROOT_FIELDS ++ ["schema_version"; "connector"; "binary_sha256"; "module_sha256"; "fault_library_sha256"].
Definition FAULT_CASES : list string := INPUT_CASES ++ map fst FAULT_SOURCES.

Definition validate_expected (expected : pydict) : res unit :=
  demand (keys_exactly expected EXPECTED_FIELDS) "explicit exact four-field authority tuple required" ;;;
  demand (is_run_id (dict_get "run_id" expected)) "bounded authority run required" ;;;
  forM (fun field => demand (is_revision (dict_get field expected)) ("exact authority revision required: " +:+ field)) REVISIONS.

Definition path_control (c : ascii) : bool := (ord c <? 32) || (ord c =? 127).
Definition absolute_path (v : pyval) : res abs_path :=
  match v with
  | PStr s =>
      demand ((0 <? str_len s) && (str_len s <=? 4096) && negb (existsb path_control (S2L s)))
        "bounded explicit authority path required" ;;;
      let path := pure_path s in
      demand (is_absolute_text s && negb (starts_with "//" s) && negb (path_eqb path {| double := false; parts := [] |})
              && negb (str_in ".." (parts path)) && String.eqb (path_text path) s)
        "canonical explicit absolute authority path required" ;;;
      Ok path
  | _ => refuse "bounded explicit authority path required"
  end.

(** The roots of a document, by field. *)
Definition validate_document (document expected : pydict) : res (list (string * abs_path)) :=
  validate_expected expected ;;;
  demand (keys_exactly document AUTHORITY_FIELDS) "closed native authority fields required" ;;;
  exact (PDict document)
    ([("schema_version", PInt 1); ("connector", PStr "nginx")] ++ map (fun field => (field, dict_get field expected)) EXPECTED_FIELDS)
    "native authority identity" ;;;
  forM (fun b => demand (is_seal (dict_get (fst b) document)) ("explicit compiled artifact digest required: " +:+ fst b)) BUILDS ;;;
  match dict_get "fault_library_sha256" document with
  | PDict faults =>
      demand (keys_within faults FAULT_CASES && forallb (fun kv => is_seal (snd kv)) faults)
        "closed compiled fault digest map required" ;;;
      mapM (fun field => let* path := absolute_path (dict_get field document) in Ok (field, path)) ROOT_FIELDS
  | _ => refuse "closed compiled fault digest map required"
  end.

(** A loaded authority: the entries of its document, the roots, and the bytes it was read
    from with their digest. *)
Record loaded_authority := {
  la_document : pydict; la_roots : list (string * abs_path); la_sources : pydict; la_path : abs_path;
  la_sha256 : string; la_bytes : chars }.

Definition authority_exception (e : exn) : bool :=
  match e with
  | OSError _ | FileNotFoundError _ | UnicodeDecodeError | UnicodeEncodeError => true
  | _ => shape_exception e
  end.

Definition serialized_exception (e : exn) : bool :=
  match e with UnicodeDecodeError | UnicodeEncodeError => true | _ => shape_exception e end.

Section Authority.
Variables (sys : os) (digest : chars -> string).
Variable exception_text : exn -> string.
Variable json_object : chars -> res pydict.

Definition directory_identity (path : abs_path) : res (Z * Z) :=
  let* (_, metadata) := open_directory sys path in
  demand (own_only sys metadata) "owned non-group/world-writable authority directory required" ;;;
  Ok (st_dev metadata, st_ino metadata).

Definition root_of (field : string) (roots : list (string * abs_path)) : res abs_path :=
  match entry field roots with Some path => Ok path | None => Err (KeyError field) end.

Definition same_identity (a b : Z * Z) : bool := (fst a =? fst b) && (snd a =? snd b).
Definition validate_roots (roots : list (string * abs_path)) : res unit :=
  let* identities := mapM (fun r => directory_identity (snd r)) roots in
  demand (Nat.eqb (List.length (dedup same_identity identities)) 3) "distinct existing artifact and source roots required" ;;;
  let* artifact := root_of "artifact_root" roots in
  forM (fun field =>
    let* source := root_of field roots in
    demand (negb (path_below artifact source) && negb (path_below source artifact))
      "authority artifacts must not overlap source checkouts") ["parent_root"; "framework_root"].

(** The entries of the sources besides the two roots. *)
Definition authority_sources (document : pydict) : pydict :=
  mkdict (map (fun field => (field, dict_get field document)) (REVISIONS ++ map fst BUILDS ++ ["fault_library_sha256"])).

Definition load_native_operation_authority (path : string) (expected : pydict) : res loaded_authority :=
  match (validate_expected expected ;;;
         let* original_path := absolute_path (PStr path) in
         let* raw := read_bounded_file sys (parent_of original_path) (List.last (parts original_path) "") AUTHORITY_LIMIT in
         let* document := json_object raw in
         let* roots := validate_document document expected in
         validate_roots roots ;;;
         Ok {| la_document := document; la_roots := roots; la_sources := authority_sources document; la_path := original_path;
               la_sha256 := digest raw; la_bytes := raw |}) with
  | Err e => Err (if authority_exception e then ValueError ("invalid native operation authority: " +:+ exception_text e) else e)
  | loaded => loaded
  end.

Definition serialized_mapping (loaded : loaded_authority) : res pydict :=
  match (demand ((size_of (la_bytes loaded) <=? AUTHORITY_LIMIT) && String.eqb (digest (la_bytes loaded)) (la_sha256 loaded))
           "original authority byte seal mismatch" ;;;
         let* document := json_object (la_bytes loaded) in
         let* expected := mapM (fun field => let* v := dict_item field (la_document loaded) in Ok (field, v)) EXPECTED_FIELDS in
         let* roots := validate_document document (mkdict expected) in
         forM (fun r => let* path := root_of (fst r) (la_roots loaded) in
                        demand (path_eqb path (snd r)) "loaded authority root differs from original bytes") roots ;;;
         forM (fun field =>
           let* loaded_value := dict_item field (la_document loaded) in
           let* value := dict_item field document in
           demand (py_eq loaded_value value) "loaded authority metadata differs from original bytes")
           (List.filter (fun field => negb (str_in field ROOT_FIELDS)) AUTHORITY_FIELDS) ;;;
         Ok document) with
  | Err e => Err (if serialized_exception e then ValueError ("invalid serialized native authority: " +:+ exception_text e) else e)
  | document => document
  end.
End Authority.
