(* ===== verification/NativeBundle.v ===== *)
(** * Bundles of native operations (nginx_native_operation_bundle.py)

    The reader that makes the proof of a native operation: the envelope of a record, the
    sources it was made from, the original receipts and the retained bytes they seal, the
    configuration of the host, and what each operation demands of them.  The helper of an
    operation is executed from the bytes of its sources; what it answers is an operation
    of the section. *)

From S2P Require Export NativeFiles.
From S2P Require Import ObservationEvidence Utf8 Catalog.
From Stdlib Require Import QArith.
#[global] Open Scope Z_scope.

(** What the helper of a case provides. *)
Record helper_module := {
  hm_request_path : string -> string -> res string;
  hm_request_bytes : string -> string -> bool -> res chars;
  hm_response_status : chars -> res Z;
  hm_validate_host_rejection : string -> string -> chars -> pydict -> chars -> res (list string);
  hm_observation_errors : pydict -> string -> string -> res (list string);
  hm_validate_mime_operation : string -> pydict -> artifacts -> res (list string);
  hm_validate_phase4_operation : string -> pydict -> artifacts -> res (list string);
  hm_validate_event_boundary_operation : string -> pydict -> list (string * (chars * artifacts)) -> res (list string) }.

(** ** Retained leaves *)

Definition COMMON_RAW : list string :=
  ["nginx.conf"; "nginx-binary"; "nginx-module.so"; "no-crs-baseline.conf"; "rules.conf"; "configtest.stdout";
   "configtest.stderr"; "stdout.log"; "stderr.log"; "startup.stdout"; "startup.stderr"; "nginx-error.log";
   "worker-maps.log"; "roles.json"; "cleanup.json"; "client.stdout"; "client.stderr"; "response.bin";
   "response.headers"; "phase4-events.jsonl"; "phase1-events.jsonl"; "native-events.jsonl";
   "native-access.jsonl"; "access.jsonl"; "fault-request.bin"; "fault-response.bin"; "control-request.bin";
   "control-response.bin"; "native-input-fault.jsonl"; "native-input-fault.so"; "response-header-fixture.json"].
Definition SEQUENCE_HASHES : list (string * string) :=
  [("binary_sha256", "nginx-binary"); ("module_sha256", "nginx-module.so");
   ("rules_sha256", "no-crs-baseline.conf"); ("observed_sha256", "sequence-observation.json");
   ("config_sha256", "nginx.conf"); ("native_access_sha256", "native-access.jsonl");
   ("events_sha256", "phase1-events.jsonl"); ("worker_maps_sha256", "worker-maps.log");
   ("native_writes_sha256", "native-write-observations.jsonl");
   ("native_finish_sha256", "native-finish-observations.jsonl");
   ("native_budget_sha256", "native-budget-observations.jsonl"); ("request_wire_sha256", "request-wire.bin");
   ("response_wire_sha256", "response-wire.bin"); ("native_begin_sha256", "native-begin-observations.jsonl");
   ("upstream_request_wire_sha256", "upstream-request-wire.bin");
   ("upstream_response_wire_sha256", "upstream-response-wire.bin")].

Definition has_leaf (raw : artifacts) (leaf : string) : bool := match entry leaf raw with Some _ => true | None => false end.
(** [raw\[leaf\]] *)
Definition leaf_data (leaf : string) (raw : artifacts) : res chars :=
  match entry leaf raw with Some data => Ok data | None => Err (KeyError leaf) end.
Definition require_leaves (raw : artifacts) (leaves : list string) : res unit :=
  let missing := sort_strs (dedup String.eqb (List.filter (fun leaf => negb (has_leaf raw leaf)) leaves)) in
  demand (match missing with [] => true | _ => false end) ("missing actual raw artifacts: " +:+ py_join "," missing).
Definition rows (l : list pydict) : pyval := PList (map PDict l).
Definition no_errors (errors : res (list string)) : res unit :=
  let* errors := errors in demand (match errors with [] => true | _ => false end) (py_join "; " errors).

(** The path of a directory with its slash; of none, the empty text. *)
Definition directory_prefix (components : list string) : string :=
  match components with [] => "" | _ => py_join "/" components +:+ "/" end.

Definition receipt_seal (receipt : pydict) (field : string) : res pyval :=
  let value := dict_get field receipt in
  demand (is_seal value) ("required actual receipt seal absent: " +:+ field) ;;; Ok value.

Definition _invocation_receipt_leaf (case_id : string) : string :=
  if str_in case_id SEQUENCE_CASES then "sequence-source.json"
  else if str_in case_id INPUT_CASES then "input-fault-source.json" else "source-result.json".

(** ** Configurations *)

Definition word_byte (c : ascii) : bool := is_alnum c || (ord c =? 95).
Fixpoint span (p : ascii -> bool) (l : chars) : chars * chars :=
  match l with
  | c :: r => if p c then let (a, b) := span p r in (c :: a, b) else ([], l)
  | [] => ([], [])
  end.

(** The word, white space, a value in quotes that holds no quote and no line break, white
    space and a semicolon at the head of the text: the value and the rest. *)
Definition quoted_directive (word : string) (l : chars) : option (chars * chars) :=
  if is_prefix (S2L word) l then
    match span is_byte_space (drop (String.length word) l) with
    | (_ :: _, q :: r) =>
        if ord q =? 34 then
          match span (fun c => negb (Z_in (ord c) [34; 13; 10])) r with
          | ((_ :: _) as value, q :: r) =>
              if ord q =? 34 then match span is_byte_space r with
                                  | (_, s :: rest) => if ord s =? 59 then Some (value, rest) else None
                                  | _ => None
                                  end
              else None
          | _ => None
          end
        else None
    | _ => None
    end
  else None.

(** The word, white space, a value without a semicolon and the semicolon: of white space
    alone, the last is the value. *)
Definition plain_directive (word : string) (l : chars) : option (chars * chars) :=
  if is_prefix (S2L word) l then
    match span is_byte_space (drop (String.length word) l) with
    | ([], _) => None
    | (spaces, r) =>
        match span (fun c => negb (ord c =? 59)) r with
        | ((_ :: _) as value, _ :: rest) => Some (value, rest)
        | ([], _ :: rest) => match rev spaces with last :: _ :: _ => Some ([last], rest) | _ => None end
        | _ => None
        end
    end
  else None.

(** [re.findall]: [after] tells whether the character before is part of a word; every
    match ends behind a semicolon, and the length of the text is fuel enough. *)
Fixpoint directives_fuel (fuel : nat) (at_head : chars -> option (chars * chars)) (after : bool) (l : chars) : list chars :=
  match fuel, l with
  | S n, c :: r => match (if after then None else at_head l) with
                   | Some (value, rest) => value :: directives_fuel n at_head false rest
                   | None => directives_fuel n at_head (word_byte c) r
                   end
  | _, _ => []
  end.
Definition directives (at_head : chars -> option (chars * chars)) (l : chars) : list chars :=
  directives_fuel (List.length l) at_head false l.
Definition values_are (l : list chars) (values : list chars) : bool := bool_decide (l = values).
Definition load_modules (config : chars) : list chars := directives (quoted_directive "load_module") config.

(** [path.rsplit(b"/", 1)\[0\]] *)
Definition directory_of (l : chars) : chars :=
  match span (fun c => negb (ord c =? 47)) (rev l) with (_, _ :: r) => rev r | (_, []) => l end.

Definition validate_configtest (receipt : pydict) (raw : artifacts) (case_id : string) : res unit :=
  let exit_field := if str_in case_id SEQUENCE_CASES then "observed_exit_code" else "configtest_exit_code" in
  exact (PDict receipt) [(exit_field, PInt 0)] "actual configtest outcome" ;;;
  let leaf := if str_in case_id RAW_CASES then "stderr.log" else "configtest.stderr" in
  require_leaves raw [leaf; if str_in case_id RAW_CASES then "stdout.log" else "configtest.stdout";
                      "startup.stdout"; "startup.stderr"] ;;;
  let* config := leaf_data "nginx.conf" raw in
  match load_modules config with
  | [module] =>
      let* diagnostics := leaf_data leaf raw in
      demand (contains_sub (directory_of module ++ S2L "/nginx.conf") diagnostics
              && contains_sub (S2L "syntax is ok") diagnostics && contains_sub (S2L "test is successful") diagnostics)
        "actual successful configtest diagnostics must bind configuration" ;;;
      match entry "worker-maps.log" raw with
      | Some maps => demand (contains_sub module maps && contains_sub (directory_of module ++ S2L "/nginx-binary") maps)
                       "actual worker mappings do not bind snapshots"
      | None => Ok tt
      end
  | _ => refuse "one actual module load required"
  end.

(** ** Roles and cleanup *)

Definition positive_pid (v : pyval) : bool := match v with PInt z => 0 <? z | _ => false end.
Definition observed_roles (roles cleanup : pyval) (run_id : string) : res unit :=
  exact roles [("run_id", PStr run_id); ("master_uid", PInt 0); ("worker_uid", PInt 65534)] "actual root/nobody roles" ;;;
  let* d := mapping roles in
  let master := dict_get "master_pid" d in
  let worker := dict_get "worker_pid" d in
  demand (positive_pid master && positive_pid worker && negb (py_eq master worker)) "distinct actual master/worker PIDs required" ;;;
  exact cleanup [("run_id", PStr run_id); ("master_pid", master); ("worker_pid", worker); ("verified", PBool true);
                 ("master_running", PBool false); ("worker_running", PBool false); ("listener_open", PBool false)]
    "actual bounded cleanup".

(** [d\[key\]] for a key of any class. *)
Definition item_of (key : pyval) (d : pydict) : res pyval :=
  let* found := in_dict key d in if found : bool then Ok (dict_get_key key d) else Err (KeyError (py_repr key)).

(** [events\[events.index(event) + 1:\]] *)
Fixpoint after_event (event : pydict) (events : list pydict) : list pydict :=
  match events with
  | [] => []
  | e :: r => if py_eq (PDict e) (PDict event) then r else after_event event r
  end.

Definition cleanup_of (transaction : pyval) (event : pydict) : bool :=
  eq_str (dict_get "event" event) "transaction_cleanup" && py_eq (dict_get "transaction_id" event) transaction.

Definition cleanup_reason (native_completed : Z) (error_class : string) : string :=
  "common_return=0;common_complete=1;native_cleanup_completed=" +:+ dec native_completed +:+ ";error_class=" +:+ error_class.

Definition cleanup_events (events : list pydict) (transactions : list pyval) (native_completed : Z) (error_class : string)
    (uris : pydict) : res unit :=
  forM (fun transaction =>
    match List.filter (cleanup_of transaction) events with
    | [event] =>
        demand (negb (existsb (fun later => py_eq (dict_get "transaction_id" later) transaction) (after_event event events)))
          "actual native transaction work must precede cleanup" ;;;
        let* uri := item_of transaction uris in
        demand (py_eq (dict_get "uri" event) uri) "actual cleanup request URI mismatch" ;;;
        exact (PDict event)
          [("connector", PStr "nginx"); ("integration_mode", PStr MODE); ("phase", PStr "logging");
           ("message_id", PStr "MSCONN_TRANSACTION_CLEANUP"); ("rule_id", PStr ""); ("status", PStr "ok");
           ("action", PStr "allow"); ("actual_action", PStr "allow")] "actual cleanup source classification" ;;;
        demand (eq_str (dict_get "reason" event) (cleanup_reason native_completed error_class))
          "actual successful Common/native cleanup facts required" ;;;
        demand (eq_str (dict_get "cleanup_reason" event) (if String.eqb error_class "none" then "normal" else error_class))
          "cleanup taxonomy mismatch"
    | _ => refuse "one actual transaction cleanup source event required"
    end) transactions.

Definition native_error (events : list pydict) (name message_id phase : string) (transaction path : pyval) : res unit :=
  match List.filter (fun event => eq_str (dict_get "event" event) name && py_eq (dict_get "transaction_id" event) transaction)
          events with
  | [event] =>
      exact (PDict event)
        [("connector", PStr "nginx"); ("integration_mode", PStr MODE); ("message_id", PStr message_id); ("phase", PStr phase);
         ("rule_id", PStr ""); ("status", PStr "error"); ("uri", path)] "actual technical error source"
  | _ => refuse ("one actual source technical error required: " +:+ name)
  end.

(** The first event of a name; [native_error] has found one. *)
Definition named_event (events : list pydict) (name : string) : res pydict :=
  match find (fun event => eq_str (dict_get "event" event) name) events with
  | Some event => Ok event
  | None => Err (RuntimeError "StopIteration")
  end.

(** The dictionary from the transactions of some rows to their URIs. *)
Definition uris_of (l : list pydict) : res pydict :=
  foldM (fun d row =>
    let* transaction := dict_item "transaction_id" row in
    let* uri := dict_item "uri" row in
    if hashable transaction then Ok (put_key transaction uri d) else Err (TypeError "unhashable type")) l [].

(** The sorted set of the transactions of some rows; one that is no string is of no event. *)
Definition transactions_of (l : list pydict) : res (list pyval) :=
  let* names := mapM (fun row =>
    let* transaction := dict_item "transaction_id" row in
    match transaction with PStr s => Ok s | _ => Err (TypeError "not supported between instances") end) l in
  Ok (map PStr (sort_strs (dedup String.eqb names))).
Definition mappings (v : pyval) : res (list pydict) := let* l := iterate v in mapM mapping l.

(** ** The envelope of a record *)

Definition H1_NAMES : list string := ["http1"; "http1.1"; "HTTP/1.1"].

(** The case, its run, its operation and the envelope. *)
Definition bundle_envelope (record : pydict) : res (string * string * string * pydict) :=
  let case_value := dict_get "case_id" record in
  let* (operation, _) := route case_value in
  let case_id := py_str case_value in
  demand (is_run_id (dict_get "run_id" record)) "bounded outer run identity required" ;;;
  let run_id := py_str (dict_get "run_id" record) in
  exact (PDict record) [("connector", PStr "nginx"); ("integration_mode", PStr MODE); ("operation", PStr operation);
                        ("driver_exit_code", PInt 0)] "native source invocation" ;;;
  forM (fun field => match dict_find field record with
                     | Some v => demand (in_strs v H1_NAMES) "H2/H3/fallback source cannot satisfy native H1 operations"
                     | None => Ok tt
                     end) ["protocol"; "downstream_protocol"; "requested_protocol"] ;;;
  let envelope := dict_get "native_operation_receipt" record in
  exact envelope [("schema_version", PInt 1); ("case_id", PStr case_id); ("run_id", PStr run_id); ("operation", PStr operation);
                  ("integration_mode", PStr MODE)] "native bundle envelope" ;;;
  let* envelope := mapping envelope in
  demand (keys_within envelope
            (["schema_version"; "case_id"; "run_id"; "operation"; "integration_mode"; "bundle_root"; "invocations"; "source_sha256"]
             ++ (if str_in case_id PHASE4_CASES then ["source_record_id"] else [])
             ++ (if str_in case_id EVENT_CASES then ["parent_receipt_path"; "parent_receipt_sha256"] else [])))
    "unknown native bundle envelope fields" ;;;
  Ok (case_id, run_id, operation, envelope).

(** ** What the sources prove *)

Definition source_of (name : string) (source_bytes : list (string * chars)) : res chars := leaf_data name source_bytes.

(** The modules a case executes, dependencies first. *)
Definition helper_names (case_id : string) : res (list string) :=
  let* (_, main) := route (PStr case_id) in
  Ok ((if str_in case_id PHASE4_CASES then ["nginx_phase4_contracts"] else [])
      ++ (if str_in case_id EVENT_CASES then ["nginx_mime_operations"; "nginx_common_input_faults"] else [])
      ++ (if str_in case_id SEQUENCE_CASES then ["nginx_http11_framing"] else []) ++ [main]).

Definition runner_source (name : string) : string := "framework:tests/runners/" +:+ name +:+ ".py".

Section Bundle.
Variables (sys : os) (cx : context_system) (digest : chars -> string).
Variable exception_text : exn -> string.
(** The decoder of a JSON object. *)
Variable json_object : chars -> res pydict.
(** Executing the named sources in their order: the last is the helper. *)
Variable execute : list (string * chars) -> res helper_module.
Variables parent_root framework_root : abs_path.

Abbreviation json_lines := (json_lines json_object).
Abbreviation actual_events := (actual_events json_object).

Definition load_helpers (case_id : string) (source_bytes : list (string * chars)) : res helper_module :=
  demand (negb (str_in case_id SEQUENCE_CASES) || has_leaf source_bytes (runner_source "nginx_http11_framing"))
    "captured HTTP/1.1 framing source is required" ;;;
  let* names := helper_names case_id in
  let* sources := mapM (fun name => let* code := source_of (runner_source name) source_bytes in Ok (name, code)) names in
  execute sources.

Definition digests (source_bytes : list (string * chars)) (l : list (string * string)) : res (list (string * pyval)) :=
  mapM (fun e => let* bytes := source_of (snd e) source_bytes in Ok (fst e, PStr (digest bytes))) l.

Definition producer_fields (receipt : pydict) (case_id : string) (source_bytes : list (string * chars)) : res unit :=
  if negb (str_in case_id (PHASE4_CASES ++ MIME_CASES ++ EVENT_CASES)) then Ok tt
  else
    let* (_, routed) := route (PStr case_id) in
    let helper := runner_source (if str_in case_id PHASE4_CASES then "nginx_phase4_contracts" else routed) in
    let* expected := digests source_bytes [("driver_sha256", "parent:ci/runtime/lifecycle/run-nginx-phase4-cases.py");
                                           ("closed_inputs_sha256", helper)] in
    exact (PDict receipt) expected "actual runtime/input source bytes" ;;;
    let* upstream :=
      if str_in case_id MIME_CASES then
        let* expected := digests source_bytes
          [("backend_contract_sha256", "parent:ci/runtime/common/response-header-test-backend.py");
           ("backend_omission_contract_sha256", "parent:ci/runtime/common/response_fixture_omission.py")] in
        exact (PDict receipt) expected "actual backend source bytes" ;;;
        Ok "parent:ci/runtime/lifecycle/run-nginx-mime-cases.py"
      else Ok (if str_in case_id EVENT_CASES then "parent:ci/runtime/lifecycle/run-nginx-event-boundary-cases.py"
               else "parent:ci/runtime/common/nginx_phase4_upstream.py") in
    let* expected := digests source_bytes [("upstream_driver_sha256", upstream)] in
    exact (PDict receipt) expected "actual upstream source bytes".

(** The rules added for a timing probe. *)
Definition PROBE_RULES : chars :=
  S2L (newline +:+ "# Technical soft-budget probe has no rule-deny premise." +:+ newline +:+ "SecRuleRemoveById 1100301" +:+ newline).

Definition build_artifacts (raw : artifacts) (case_id : string) (sources : pydict) (source_bytes : list (string * chars)) : res unit :=
  (if str_in case_id (INPUT_CASES ++ SEQUENCE_CASES ++ RAW_CASES) then
     require_leaves raw ["no-crs-baseline.conf"] ;;;
     let* rules := source_of "framework:tests/rules/no-crs-baseline.conf" source_bytes in
     let rules := rules ++ (if str_in case_id TIMEOUT_CASES then PROBE_RULES else []) in
     let* snapshot := leaf_data "no-crs-baseline.conf" raw in
     demand (bool_decide (snapshot = rules)) "effective snapshotted rules differ from authenticated source"
   else Ok tt) ;;;
  match (if str_in case_id INPUT_CASES then Some "native-input-fault.so" else fault_library case_id) with
  | None => Ok tt
  | Some leaf =>
      let* libraries := mapping (dict_get_or (PDict []) "fault_library_sha256" sources) in
      let expected := dict_get case_id libraries in
      demand (is_seal expected && match entry leaf raw with Some data => eq_str expected (digest data) | None => false end)
        "explicit actual compiled fault artifact authority required"
  end.

(** [root] neither is [source] nor lies above or below it. *)
Definition apart (root source : abs_path) : bool := negb (path_below source root) && negb (path_below root source).

Definition projection_name (case_id run_id : string) : string :=
  let token n := L2S (take n (S2L (digest (S2L (run_id +:+ ":" +:+ case_id))))) in
  if str_in case_id SEQUENCE_CASES then "sequence-" +:+ token 24%nat
  else if str_in case_id INPUT_CASES then "common-input-" +:+ token 32%nat
  else "phase4-" +:+ token 24%nat.

Definition projection_and_config (receipt : pydict) (raw : artifacts) (case_id run_id : string) : res unit :=
  let* config := leaf_data "nginx.conf" raw in
  demand (match load_modules config with
          | module :: _ => is_prefix (rev (S2L "/nginx-module.so")) (rev module)
          | [] => false
          end) "actual snapshotted module configuration required" ;;;
  demand (forallb (fun d => values_are (directives (plain_directive (fst d)) config) [S2L (snd d)])
            [("user", "nobody nogroup"); ("worker_processes", "1"); ("daemon", "off"); ("modsecurity", "on")])
    "closed owned native host configuration required" ;;;
  if str_in case_id RAW_CASES then Ok tt
  else
    let docroot := str_in case_id (PHASE4_CASES ++ MIME_CASES ++ EVENT_CASES) in
    match dict_get (if docroot then "docroot_projection_parent" else "projection_parent") receipt,
          dict_get (if docroot then "docroot_projection_root" else "projection_root") receipt with
    | PStr parent_value, PStr root_value =>
        let parent := pure_path parent_value in
        let root := pure_path root_value in
        demand (is_absolute_text parent_value && is_absolute_text root_value
                && negb (str_in ".." (parts parent)) && negb (str_in ".." (parts root))
                && path_eqb (parent_of root) parent && negb (path_eqb root {| double := false; parts := [] |}))
          "projection must be an exact direct child" ;;;
        demand (String.eqb (List.last (parts root) "") (projection_name case_id run_id))
          "projection does not bind the actual driver run/case" ;;;
        forM (fun source => demand (apart root source) "projection overlaps source authority") [parent_root; framework_root] ;;;
        let* text := encode_utf8 (u (path_text root)) in
        demand (values_are (directives (quoted_directive "root") config) [text])
          "configured docroot differs from actual projection"
    | _, _ => refuse "actual projection binding required"
    end.

(** ** Original receipts and the bytes they seal *)

Variable root : abs_path.
Abbreviation read := (read sys digest root).

(** The receipt of an invocation, the prefix of its leaves and its bytes. *)
Definition _read_original_invocation (descriptor : pydict) (case_id operation : string) (sources : pydict)
    : sealing (pydict * string * chars) :=
  let path := dict_get "receipt_path" descriptor in
  step* components := checked (relative_parts path) in
  let leaf := _invocation_receipt_leaf case_id in
  step* _ := checked (demand (String.eqb (List.last components "") leaf) "original producer receipt leaf required") in
  step* _ := checked (demand (str_in case_id EVENT_CASES || bool_decide (components = [leaf]))
                     "main invocation must use the fixed original receipt leaf") in
  step* original := read (py_str path) (dict_get "receipt_sha256" descriptor) RAW_LIMIT in
  checked (
    let* document := json_object original in
    let* (row, receipt) :=
      if str_in case_id (SEQUENCE_CASES ++ INPUT_CASES) then
        match dict_get "cases" document with
        | PList [PDict row] =>
            demand (eq_str (dict_get "case_id" row) case_id && eq_str (dict_get "operation" row) operation
                    && is_true (dict_get "live_executed" row) && py_eq (dict_get "errors" row) (PList []))
              "failed/foreign original producer row" ;;;
            Ok (Some row, dict_get (if str_in case_id SEQUENCE_CASES then "sequence_receipt" else "input_fault_receipt") row)
        | PList [_] => refuse "failed/foreign original producer row"
        | _ => refuse "one original producer source row required"
        end
      else Ok (None, PDict document) in
    match receipt with
    | PDict receipt =>
        demand (eq_str (dict_get "case_id" receipt) case_id && eq_str (dict_get "operation" receipt) operation)
          "original receipt identity mismatch" ;;;
        same_revisions receipt sources "original source revision mismatch: " ;;;
        let run_id := dict_get "run_id" receipt in
        demand (is_run_id run_id) "original bounded run identity required" ;;;
        match row with
        | Some row => demand (py_eq (dict_get "run_id" row) run_id) "source/receipt run identity mismatch"
        | None => Ok tt
        end ;;;
        Ok (receipt, directory_prefix (removelast components), original)
    | _ => refuse "original receipt identity mismatch"
    end).

(** [raw\[leaf\] = reader.read(prefix + leaf, expected, limit)] *)
Definition retain (prefix leaf : string) (expected : pyval) (limit : Z) (raw : artifacts) : sealing artifacts :=
  step* data := read (prefix +:+ leaf) expected limit in give (put_artifact leaf data raw).

Definition SEQUENCE_LEAVES : list string :=
  ["nginx-binary"; "nginx-module.so"; "no-crs-baseline.conf"; "sequence-observation.json"; "nginx.conf"; "native-access.jsonl"].
(** What a sequence retains without a seal of its receipt. *)
Definition SEQUENCE_CAPTURES : list string :=
  ["configtest.stdout"; "configtest.stderr"; "startup.stdout"; "startup.stderr"; "nginx-error.log"; "phase1-events.jsonl"].

Definition _read_sequence_invocation (prefix : string) (receipt : pydict) (case_id : string) : sealing artifacts :=
  step* raw := steps (fun raw h =>
    match dict_get (fst h) receipt with
    | PNone => give raw
    | expected => retain prefix (snd h) expected (leaf_limit (snd h)) raw
    end) SEQUENCE_HASHES [] in
  step* _ := checked (demand (forallb (has_leaf raw) SEQUENCE_LEAVES) "sequence receipt omits required raw seals") in
  step* raw :=
    match fault_library case_id with
    | Some leaf => step* expected := checked (receipt_seal receipt "fault_library_sha256") in
                   retain prefix leaf expected ARTIFACT_LIMIT raw
    | None => give raw
    end in
  steps (fun raw leaf => if has_leaf raw leaf then give raw else retain prefix leaf PNone RAW_LIMIT raw) SEQUENCE_CAPTURES raw.

Definition WORKER_HELPER : string := "worker-self-maps.so".
Definition WORKER_LEDGER : string := "worker-self-maps.raw".
Definition WORKER_HELPER_KEY : string := "worker_self_map_library_sha256".

Definition _validate_worker_self_maps (prefix : string) (raw : artifacts) : res unit :=
  let* ledger := leaf_data WORKER_LEDGER raw in
  let '(header, separator, maps) := partition_sub [chr 10] ledger in
  demand (separator && (size_of header <=? 1024)) "bounded worker self-map framing required" ;;;
  let* identity := json_object header in
  demand (keys_exactly identity ["version"; "pid"; "ppid"; "uid"; "gid"; "starttime"; "bytes"]
          && forallb (fun kv => is_plain_int (snd kv)) identity) "exact numeric worker self-map identity required" ;;;
  let* observation := leaf_data "input-fault-observation.json" raw in
  let* observation := json_object observation in
  let* roles := mapping (dict_get_or (PDict []) "roles" observation) in
  exact (PDict identity) [("version", PInt 1); ("pid", dict_get "worker_pid" roles); ("ppid", dict_get "master_pid" roles);
                          ("uid", PInt 65534); ("gid", PInt 65534); ("bytes", PInt (size_of maps))]
    "actual worker self-map identity" ;;;
  demand (match dict_get "starttime" identity with PInt z => 0 <? z | _ => false end
          && is_prefix [chr 10] (rev maps)
          && match entry "worker-maps.log" raw with Some sealed => bool_decide (maps = sealed) | None => false end)
    "complete original worker maps must match sealed self-map ledger" ;;;
  let* text := decode_utf8 maps in
  let paths := concat (map (fun line => match text_split 5 line with [_; _; _; _; _; path] => [path] | _ => [] end)
                         (text_splitlines text)) in
  demand (forallb (fun leaf => bool_decide (u (path_text (pure_join (pure_join root prefix) leaf)) ∈ paths))
            [WORKER_HELPER; "nginx-module.so"]) "actual worker maps omit fixed helper or module snapshot".

(** The entries of a mapping but one. *)
Definition items_but (key : string) (d : pydict) : pyval := PDict (List.filter (fun kv => negb (eq_str (fst kv) key)) d).

Definition _read_input_invocation (prefix : string) (receipt sources : pydict) : sealing artifacts :=
  match dict_get "artifacts_sha256" receipt, dict_get "raw_artifacts_sha256" receipt with
  | PDict artifacts, PDict captures =>
      let helper_present := dict_has WORKER_HELPER_KEY artifacts in
      step* _ := checked (demand (Bool.eqb helper_present (dict_has WORKER_LEDGER captures))
                         "worker helper and sealed ledger must be paired") in
      let expected_helper := dict_get WORKER_HELPER_KEY sources in
      step* _ := checked (demand (is_none expected_helper || helper_present) "explicit worker helper must be declared") in
      step* raw :=
        if helper_present then
          step* _ := checked (demand (is_seal expected_helper && py_eq (dict_get WORKER_HELPER_KEY artifacts) expected_helper)
                             "explicit actual worker helper digest required") in
          step* raw := retain prefix WORKER_HELPER expected_helper ARTIFACT_LIMIT [] in
          retain prefix WORKER_LEDGER (dict_get WORKER_LEDGER captures) (64 * 1024) raw
        else give [] in
      step* raw := read_hash_map sys digest root prefix (items_but WORKER_HELPER_KEY artifacts) COMMON_RAW raw in
      step* raw := read_hash_map sys digest root prefix (items_but WORKER_LEDGER captures) COMMON_RAW raw in
      step* expected := checked (receipt_seal receipt "observed_sha256") in
      step* raw := retain prefix "input-fault-observation.json" expected RAW_LIMIT raw in
      step* expected := checked (receipt_seal receipt "config_sha256") in
      step* raw := retain prefix "nginx.conf" expected RAW_LIMIT raw in
      step* _ := checked (if helper_present then _validate_worker_self_maps prefix raw else Ok tt) in
      give raw
  | _, _ => checked (refuse "closed input artifact maps required")
  end.

(** The receipt of an invocation, its leaves and its bytes. *)
Definition read_invocation (descriptor : pydict) (case_id operation : string) (sources : pydict)
    : sealing (pydict * artifacts * chars) :=
  step* (receipt, prefix, original) := _read_original_invocation descriptor case_id operation sources in
  step* raw :=
    if str_in case_id SEQUENCE_CASES then _read_sequence_invocation prefix receipt case_id
    else if str_in case_id INPUT_CASES then _read_input_invocation prefix receipt sources
    else
      step* raw := read_hash_map sys digest root prefix (dict_get "raw_sha256" receipt) COMMON_RAW [] in
      steps (fun raw b => match dict_find (fst b) receipt with
                          | Some expected => retain prefix (snd b) expected ARTIFACT_LIMIT raw
                          | None => give raw
                          end) BUILDS raw in
  step* _ := checked (forM (fun b =>
    let* expected := dict_item (fst b) sources in
    demand (match entry (snd b) raw with Some data => eq_str expected (digest data) | None => false end)
      ("actual build snapshot mismatch: " +:+ snd b)) BUILDS) in
  give (receipt, raw, original).

(** ** Invocations *)

Record read_back := { iv_name : string; iv_receipt : pydict; iv_raw : artifacts; iv_original : chars }.

(** The suffix of the run of an invocation. *)
Definition variant (case_id name : string) : option string :=
  if String.eqb name "at" then Some "at255" else if String.eqb name "over" then Some "over256"
  else if str_in case_id EVENT_CASES then Some "long-query" else None.
Definition variant_run (run_id : string) (v : option string) : string :=
  match v with Some suffix => run_id +:+ "-" +:+ suffix | None => run_id end.

Definition invocation_artifact (envelope : pydict) (case_id run_id operation : string) (sources : pydict)
    (source_bytes : list (string * chars)) (value : pyval) (name : string) : sealing read_back :=
  let mismatch := "closed invocation descriptor/seal mismatch" in
  match value with
  | PDict descriptor =>
      step* _ := checked (demand (keys_exactly descriptor ["name"; "receipt_path"; "receipt_sha256"]
                               && eq_str (dict_get "name" descriptor) name && is_seal (dict_get "receipt_sha256" descriptor)) mismatch) in
      step* (receipt, raw, original) := read_invocation descriptor case_id operation sources in
      let suffix := variant case_id name in
      let expected_run := variant_run run_id suffix in
      step* _ := checked (
        demand (eq_str (dict_get "run_id" receipt) expected_run) "original invocation run differs from enclosing run" ;;;
        match suffix with
        | Some v => demand (eq_str (dict_get "receipt_path" descriptor) (v +:+ "/source-result.json"))
                      "actual fixed child receipt path required"
        | None => Ok tt
        end ;;;
        match dict_find "source_record_id" envelope with
        | Some id => demand (py_eq (dict_get "source_record_id" receipt) id) "actual source record alias mismatch"
        | None => Ok tt
        end ;;;
        projection_and_config receipt raw case_id expected_run ;;;
        validate_configtest receipt raw case_id ;;;
        build_artifacts raw case_id sources source_bytes ;;;
        producer_fields receipt case_id source_bytes) in
      give {| iv_name := name; iv_receipt := receipt; iv_raw := raw; iv_original := original |}
  | _ => checked (refuse mismatch)
  end.

Definition invocation_artifacts (envelope : pydict) (case_id run_id operation : string) (sources : pydict)
    (source_bytes : list (string * chars)) : sealing (list read_back) :=
  let names := invocation_names case_id in
  match dict_get "invocations" envelope with
  | PList descriptors =>
      step* _ := checked (demand (Nat.eqb (List.length descriptors) (List.length names)) "closed invocation count mismatch") in
      steps (fun l d => step* i := invocation_artifact envelope case_id run_id operation sources source_bytes (fst d) (snd d) in
                        give (l ++ [i])) (combine descriptors names) []
  | _ => checked (refuse "closed invocation count mismatch")
  end.

(** ** The layers *)

Definition validate_raw_h1 (helper : helper_module) (receipt : pydict) (raw : artifacts) (case_id run_id : string) : res pydict :=
  require_leaves raw ["fault-request.bin"; "fault-response.bin"; "control-request.bin"; "control-response.bin"; "access.jsonl";
                      "nginx-error.log"; "native-events.jsonl"; "roles.json"; "cleanup.json"; "stdout.log"; "stderr.log";
                      "startup.stdout"; "startup.stderr"] ;;;
  exact (PDict receipt) [("schema_version", PInt 1); ("connector", PStr "nginx"); ("integration_mode", PStr MODE);
                         ("configtest_exit_code", PInt 0); ("host_observation_valid", PBool true); ("failure", PNone)]
    "actual raw H1 receipt" ;;;
  let* roles := let* text := leaf_data "roles.json" raw in json_object text in
  let* cleanup := let* text := leaf_data "cleanup.json" raw in json_object text in
  observed_roles (PDict roles) (PDict cleanup) run_id ;;;
  let control_run := L2S (take 119%nat (S2L run_id)) +:+ "-control" in
  let same leaf wire := let* data := leaf_data leaf raw in let* wire := wire in Ok (bool_decide (data = wire)) in
  let* faulty := same "fault-request.bin" (hm_request_bytes helper case_id run_id false) in
  let* wired := if faulty : bool then same "control-request.bin" (hm_request_bytes helper case_id control_run true) else Ok false in
  demand wired "actual closed wire request mismatch" ;;;
  let* accesses := let* text := leaf_data "access.jsonl" raw in json_lines text in
  let of_run run := fun row => let* path := hm_request_path helper case_id run in Ok (py_eq (dict_get "uri" row) (PStr path)) in
  let* fault := filterM (of_run run_id) accesses in
  let* control := filterM (of_run control_run) accesses in
  match fault, control with
  | [fault], [control] =>
      let* response := leaf_data "fault-response.bin" raw in
      let* log := leaf_data "nginx-error.log" raw in
      no_errors (hm_validate_host_rejection helper case_id run_id response fault log) ;;;
      let* response := leaf_data "control-response.bin" raw in
      let* status := hm_response_status helper response in
      demand ((status =? 200) && eq_int (dict_get "status" control) 200) "positive H1 control must remain successful" ;;;
      forM (fun e =>
        let* requests := mapping (dict_get_or (PDict []) "requests" receipt) in
        exact (dict_get (fst e) requests) [("client_exit_code", PInt 0); ("http_status", PInt (snd e))]
          ("actual raw client " +:+ fst e)) [("fault", 400); ("control", 200)] ;;;
      let* events := actual_events raw "native-events.jsonl" in
      let* admitted := filterM (of_run run_id) events in
      demand (match admitted with [] => true | _ => false end) "preconnector rejected request must not admit native events" ;;;
      let* controlled := filterM (of_run control_run) events in
      let* transactions := transactions_of controlled in
      match transactions with
      | [transaction] =>
          demand (is_run_id transaction) "actual native positive control transaction required" ;;;
          let* path := hm_request_path helper case_id control_run in
          cleanup_events events [transaction] 1 "none" [(transaction, PStr path)] ;;;
          Ok (mkdict [("events", PList []); ("all_native_events", rows events); ("transaction_ids", PList []);
                      ("actual_status", PInt 400)])
      | _ => refuse "actual native positive control transaction required"
      end
  | _, _ => refuse "one actual fault and positive control access required"
  end.

(** [v.encode()] *)
Definition encoded (v : pyval) : res chars :=
  match v with PStr s => encode_utf8 (u s) | _ => Err (AttributeError "encode") end.

Definition MAPPER_ERROR : list (string * pyval) :=
  [("phase", PStr "request_headers"); ("event", PStr "connector_error"); ("message_id", PStr "MSCONN_EVENT_CONNECTOR_ERROR");
   ("http_status", PInt 500)].

Definition validate_input (helper : helper_module) (receipt : pydict) (raw : artifacts) (case_id run_id : string) : res pydict :=
  require_leaves raw ["native-access.jsonl"; "native-input-fault.jsonl"; "phase1-events.jsonl"; "worker-maps.log";
                      "nginx-error.log"; "configtest.stdout"; "configtest.stderr"; "client.stdout"; "client.stderr";
                      "startup.stdout"; "startup.stderr"] ;;;
  exact (PDict receipt) [("configtest_exit_code", PInt 0)] "actual input configtest" ;;;
  let* observed := let* text := leaf_data "input-fault-observation.json" raw in json_object text in
  no_errors (hm_observation_errors helper observed case_id run_id) ;;;
  let projects leaf key := let* text := leaf_data leaf raw in let* l := json_lines text in
                           let* v := dict_item key observed in Ok (py_eq (rows l) (PList [v])) in
  let* accessed := projects "native-access.jsonl" "native_access" in
  let* ledgers := if accessed : bool then projects "native-input-fault.jsonl" "native_fault" else Ok false in
  demand ledgers "actual fault/access ledger projection mismatch" ;;;
  let* events := actual_events raw "phase1-events.jsonl" in
  let errors := List.filter (fun event => exact_value (PDict event) MAPPER_ERROR) events in
  let* expected := dict_item "native_events" observed in
  demand (py_eq (rows errors) expected) "actual native connector error projection mismatch" ;;;
  let terminal := "terminal P1 mapper failure permits only its connector error then cleanup source event" in
  match events with
  | [first; second] =>
      let* error := first_event errors in
      demand (py_eq (PDict first) (PDict error) && eq_str (dict_get "event" second) "transaction_cleanup") terminal ;;;
      let* transaction := dict_item "transaction_id" observed in
      exact (PDict first) [("transaction_id", transaction); ("method", PStr ""); ("uri", PStr "")]
        "actual pre-mapping terminal source identity" ;;;
      let* config := leaf_data "nginx.conf" raw in
      let* name := encoded transaction in
      demand (values_are (directives (quoted_directive "modsecurity_transaction_id") config) [name])
        "actual configured mapper transaction differs from native ledger" ;;;
      let* diagnostic := dict_item "native_diagnostic" observed in
      let* diagnostic := encoded diagnostic in
      let* log := leaf_data "nginx-error.log" raw in
      let* output := leaf_data "client.stdout" raw in
      let* complaint := leaf_data "client.stderr" raw in
      demand (contains_sub diagnostic log && bool_decide (output = S2L "500") && bool_decide (complaint = []))
        "actual diagnostic/client bytes mismatch" ;;;
      let* uri := item_path ["native_access"; "uri"] (PDict observed) in
      (if hashable transaction then Ok tt else Err (TypeError "unhashable type")) ;;;
      cleanup_events events [transaction] 1 "connector_error" [(transaction, uri)] ;;;
      let* roles := dict_item "roles" observed in
      let* cleanup := dict_item "cleanup" observed in
      observed_roles roles cleanup run_id ;;;
      Ok (mkdict [("events", rows events); ("transaction_ids", PList [transaction]); ("actual_status", PInt 500);
                  ("observation", PDict observed)])
  | _ => refuse terminal
  end.

(** ** Sequences *)

Definition projected_ledger (observed : pydict) (raw : artifacts) (leaf field : string) : res unit :=
  match dict_find field observed with
  | None => Ok tt
  | Some v =>
      require_leaves raw [leaf] ;;;
      let* text := leaf_data leaf raw in
      let* ledger := json_lines text in
      demand (py_eq (rows ledger) v) "actual sequence fault ledger projection mismatch"
  end.
Definition contract_cleanup (item : pydict) : bool :=
  eq_str (dict_get "native_operation" item) "msconnector_transaction_contract_cleanup".

Definition sequence_fault_ledgers (observed : pydict) (raw : artifacts) : res unit :=
  projected_ledger observed raw "native-write-observations.jsonl" "native_writes" ;;;
  projected_ledger observed raw "native-finish-observations.jsonl" "native_finish" ;;;
  match dict_find "native_budget" observed with
  | None => Ok tt
  | Some budget =>
      require_leaves raw ["native-budget-observations.jsonl"] ;;;
      let* text := leaf_data "native-budget-observations.jsonl" raw in
      let* ledger := json_lines text in
      let timed := py_eq (rows (List.filter (fun item => negb (contract_cleanup item)) ledger)) budget in
      let* cleaned := if timed then let* cleanup := dict_item "native_cleanup" observed in
                                    Ok (py_eq (rows (List.filter contract_cleanup ledger)) cleanup)
                      else Ok false in
      demand cleaned "actual timing/cleanup ledger projection mismatch"
  end.

(** [raw\[leaf\] == bytes.fromhex(wire\[key\])] *)
Definition captured_wire (raw : artifacts) (wire : pyval) (e : string * string) : res bool :=
  let* data := leaf_data (fst e) raw in
  let* text := item_path [snd e] wire in
  let* bytes := match text with PStr s => fromhex (u s) | _ => Err (TypeError "fromhex() argument must be str") end in
  Ok (bool_decide (data = bytes)).

Definition sequence_wire (observed : pydict) (raw : artifacts) : res unit :=
  match dict_find "wire" observed with
  | None => Ok tt
  | Some wire =>
      require_leaves raw ["response-wire.bin"; "request-wire.bin"] ;;;
      let* same := allM (captured_wire raw wire) [("response-wire.bin", "response_hex"); ("request-wire.bin", "request_hex")] in
      demand same "actual downstream wire projection mismatch"
  end ;;;
  match dict_find "upstream_wire" observed with
  | None => Ok tt
  | Some wire =>
      let* same := allM (captured_wire raw wire)
                     [("upstream-request-wire.bin", "request_hex"); ("upstream-response-wire.bin", "response_hex")] in
      demand same "actual upstream wire projection mismatch"
  end.

Definition REQUEST_DENIAL : list (string * pyval) :=
  [("event", PStr "engine_decision"); ("message_id", PStr "MSCONN_EVENT_ENGINE_DECISION"); ("phase", PStr "request_headers");
   ("status", PStr "blocked"); ("action", PStr "deny"); ("requested_action", PStr "deny"); ("actual_action", PStr "");
   ("rule_id", PStr "1100001"); ("http_status", PInt 403); ("visible_http_status", PInt 0);
   ("transport_result", PStr "not_observable"); ("connector", PStr "nginx"); ("integration_mode", PStr MODE)].

(** One request and the access record at its place. *)
Definition sequence_denial (events : list pydict) (row : pydict * pydict) : res unit :=
  let (request, access) := row in
  let* status := dict_item "observed_status" request in
  if negb (eq_int status 403) then Ok tt
  else
    let* deny := filterM (fun event =>
      let* transaction := dict_item "transaction_id" access in
      if negb (py_eq (dict_get "transaction_id" event) transaction) then Ok false
      else let* path := dict_item "path" request in
           Ok (py_eq (dict_get "uri" event) path && eq_str (dict_get "status" event) "blocked")) events in
    match deny with
    | [event] => exact (PDict event) REQUEST_DENIAL "actual native request denial source fields"
    | _ => refuse "actual native request deny must bind rule1100001 and request transaction"
    end.
Definition sequence_denials (observed : pydict) (accesses events : list pydict) : res unit :=
  let* requests := dict_item "requests" observed in
  let* requests := mappings requests in
  forM (sequence_denial events) (combine requests accesses).

Definition first_of {A} (l : list A) : res A :=
  match l with a :: _ => Ok a | [] => Err (RuntimeError "list index out of range") end.

(** The path of the first request. *)
Definition first_request (key : string) (observed : pydict) : res pyval :=
  let* requests := dict_item "requests" observed in
  let* requests := iterate requests in
  let* request := first_of requests in item_path [key] request.

Definition error_class_of (case_id : string) : string :=
  if str_in case_id TIMEOUT_CASES then "engine_timeout"
  else if String.eqb case_id "finish_failure_propagation" then "invalid_engine_response" else "none".

Definition LEDGER_FIELDS : list string :=
  ["native_operation"; "observed_return"; "worker_pid"; "worker_uid"; "master_pid"; "transaction_id"; "injected"].

(** The scoped allocation that failed before a transaction began. *)
Definition allocation_ledger (observed : pydict) (raw : artifacts) (transaction : pyval) : res unit :=
  require_leaves raw ["native-begin-observations.jsonl"] ;;;
  let* text := leaf_data "native-begin-observations.jsonl" raw in
  let* ledger := json_lines text in
  match py_eq (rows ledger) (dict_get "native_begin" observed), ledger with
  | true, [entry] =>
      demand (keys_exactly entry LEDGER_FIELDS) "closed native allocation ledger fields required" ;;;
      let* worker := item_path ["roles"; "worker_pid"] (PDict observed) in
      let* master := item_path ["roles"; "master_pid"] (PDict observed) in
      exact (PDict entry)
        [("native_operation", PStr "msc_new_transaction_with_id"); ("observed_return", PNone); ("worker_pid", worker);
         ("worker_uid", PInt 65534); ("master_pid", master); ("transaction_id", transaction); ("injected", PBool true)]
        "actual native NULL return scope"
  | _, _ => refuse "actual scoped native allocation ledger required"
  end.

(** The transactions of a sequence, each with its cleanup. *)
Definition sequence_cleanup (case_id : string) (observed : pydict) (accesses events : list pydict) (raw : artifacts)
    : res (list pyval) :=
  let* transactions := mapM (dict_item "transaction_id") accesses in
  let* uris := uris_of accesses in
  if String.eqb case_id "early_mapping_failure_cleanup" then
    let* path := first_request "path" observed in
    native_error events "protocol_error" "MSCONN_EVENT_PROTOCOL_ERROR" "request_headers" (PStr "") path ;;;
    let* error := named_event events "protocol_error" in
    exact (PDict error) [("http_status", PInt 500)] "actual pre-admission error status" ;;;
    demand (negb (existsb (fun event => eq_str (dict_get "event" event) "transaction_cleanup") events))
      "pre-admission mapping failure must not invent transaction cleanup" ;;;
    Ok []
  else if String.eqb case_id "transaction_begin_failure_cleanup" then
    let* transaction := first_of transactions in
    let* path := first_request "path" observed in
    native_error events "connector_error" "MSCONN_EVENT_CONNECTOR_ERROR" "request_headers" transaction path ;;;
    let* error := named_event events "connector_error" in
    exact (PDict error) [("http_status", PInt 500)] "actual allocation error status" ;;;
    cleanup_events events transactions 0 "connector_error" uris ;;;
    allocation_ledger observed raw transaction ;;;
    Ok transactions
  else
    cleanup_events events transactions 1 (error_class_of case_id) uris ;;;
    (if String.eqb case_id "finish_failure_propagation" then
       let* transaction := first_of transactions in
       let* path := first_request "path" observed in
       native_error events "invalid_engine_response" "MSCONN_EVENT_INVALID_ENGINE_RESPONSE" "logging" transaction path ;;;
       let* error := named_event events "invalid_engine_response" in
       exact (PDict error) [("http_status", PInt 0); ("original_http_status", PInt 200); ("visible_http_status", PInt 200)]
         "actual post-response finish status"
     else Ok tt) ;;;
    Ok transactions.

Definition validate_sequence (helper : helper_module) (raw : artifacts) (case_id run_id : string) : res pydict :=
  require_leaves raw ["worker-maps.log"] ;;;
  let* observed := let* text := leaf_data "sequence-observation.json" raw in json_object text in
  no_errors (hm_observation_errors helper observed case_id run_id) ;;;
  let* roles := dict_item "roles" observed in
  let* cleanup := dict_item "cleanup" observed in
  observed_roles roles cleanup run_id ;;;
  let* accesses := let* text := leaf_data "native-access.jsonl" raw in json_lines text in
  let* expected := dict_item "native_access" observed in
  demand (py_eq (rows accesses) expected) "actual sequence access projection mismatch" ;;;
  let* events := actual_events raw "phase1-events.jsonl" in
  match dict_find "native_events" observed with
  | Some expected => demand (py_eq (rows events) expected) "actual sequence native event projection mismatch"
  | None => Ok tt
  end ;;;
  sequence_fault_ledgers observed raw ;;;
  sequence_wire observed raw ;;;
  sequence_denials observed accesses events ;;;
  let* transactions := sequence_cleanup case_id observed accesses events raw in
  let* status := first_request "observed_status" observed in
  let* requests := dict_item "requests" observed in
  let* requests := mappings requests in
  let* statuses := mapM (dict_item "observed_status") requests in
  Ok (mkdict [("events", rows events); ("transaction_ids", PList transactions); ("actual_status", status);
              ("actual_statuses", PList statuses); ("observation", PDict observed)]).

(** ** Phase 4 and event boundaries *)

(** The transactions of the native events of a receipt, and the URI of each. *)
Definition receipt_transactions (receipt : pydict) : res (list pyval * pydict) :=
  let* events := dict_item "native_events" receipt in
  let* events := mappings events in
  let* transactions := transactions_of events in
  let* uris := uris_of events in Ok (transactions, uris).

Definition validate_phase4_layer (helper : helper_module) (receipt : pydict) (raw : artifacts) (case_id run_id : string)
    : res pydict :=
  no_errors ((if str_in case_id PHASE4_CASES then hm_validate_phase4_operation helper else hm_validate_mime_operation helper)
               case_id receipt raw) ;;;
  observed_roles (dict_get "roles" receipt) (dict_get "cleanup" receipt) run_id ;;;
  let* headers := leaf_data "response.headers" raw in
  demand (is_prefix (S2L "HTTP/1.1 ") headers) "actual downstream HTTP1.1 required" ;;;
  let* events := actual_events raw "phase4-events.jsonl" in
  let* (transactions, uris) := receipt_transactions receipt in
  cleanup_events events transactions 1 (if String.eqb case_id "phase4_body_reject" then "body_limit" else "none") uris ;;;
  let* status := dict_item "observed_http_status" receipt in
  Ok (mkdict [("events", rows events); ("transaction_ids", PList transactions); ("actual_status", status)]).

(** The events and the transactions of the children so far, and one child more. *)
Definition child_events (found : list pydict * list pyval) (i : read_back) : res (list pydict * list pyval) :=
  let (events, transactions) := found in
  let* more := actual_events (iv_raw i) "phase4-events.jsonl" in
  let* (own, uris) := receipt_transactions (iv_receipt i) in
  cleanup_events more own 1 "none" uris ;;;
  demand (negb (existsb (fun t => existsb (py_eq t) transactions) own)) "E children reused actual transaction" ;;;
  Ok (events ++ more, transactions ++ own).

(** The receipt that encloses the children. *)
Definition parent_receipt (envelope : pydict) (case_id run_id : string) (sources : pydict)
    (source_bytes : list (string * chars)) : sealing pydict :=
  step* _ := checked (demand (eq_str (dict_get "parent_receipt_path" envelope) "source-result.json"
                           && is_seal (dict_get "parent_receipt_sha256" envelope)) "sealed original E parent receipt required") in
  step* text := read "source-result.json" (dict_get "parent_receipt_sha256" envelope) RAW_LIMIT in
  checked (
    let* receipt := json_object text in
    let* revisions := mapM (fun field => let* v := dict_item field sources in Ok (field, v)) REVISIONS in
    exact (PDict receipt) ([("case_id", PStr case_id); ("run_id", PStr run_id)] ++ revisions) "actual E enclosing source" ;;;
    let* producers := digests source_bytes
      [("driver_sha256", "parent:ci/runtime/lifecycle/run-nginx-event-boundary-cases.py");
       ("closed_inputs_sha256", runner_source "nginx_event_boundary_operations")] in
    exact (PDict receipt) producers "actual E enclosing producer" ;;;
    let* dependencies := digests source_bytes
      (map (fun name => (name +:+ ".py", runner_source name)) ["nginx_common_input_faults"; "nginx_mime_operations"]) in
    demand (py_eq (dict_get "closed_input_dependencies_sha256" receipt) (PDict (mkdict dependencies)))
      "actual E dependency source mismatch" ;;;
    Ok receipt).

(** The enclosing receipt and the facts. *)
Definition validate_event_layer (envelope : pydict) (helper : helper_module) (case_id run_id : string) (sources : pydict)
    (source_bytes : list (string * chars)) (invocations : list read_back) : sealing (pydict * pydict) :=
  step* receipt := parent_receipt envelope case_id run_id sources source_bytes in
  checked (
    let variants := if String.eqb case_id "event_json_limit" then ["at255"; "over256"] else ["long-query"] in
    let children := map (fun vi => (fst vi, (iv_original (snd vi), iv_raw (snd vi)))) (combine variants invocations) in
    no_errors (hm_validate_event_boundary_operation helper case_id receipt children) ;;;
    let* (events, transactions) := foldM child_events invocations ([], []) in
    Ok (receipt, mkdict [("events", rows events); ("transaction_ids", PList transactions); ("actual_status", PInt 200)])).

(** The main receipt and the facts of a case. *)
Definition operation_facts (envelope : pydict) (helper : helper_module) (case_id run_id operation : string) (sources : pydict)
    (source_bytes : list (string * chars)) (invocations : list read_back) : sealing (pydict * pydict) :=
  if str_in case_id EVENT_CASES then validate_event_layer envelope helper case_id run_id sources source_bytes invocations
  else checked (
    let* main := first_of invocations in
    let receipt := iv_receipt main in
    let raw := iv_raw main in
    let* facts :=
      if String.eqb operation "native_h1_parser_rejection" then validate_raw_h1 helper receipt raw case_id run_id
      else if String.eqb operation "common_mapper_input_fault" then validate_input helper receipt raw case_id run_id
      else if String.eqb operation "request_sequence" then validate_sequence helper raw case_id run_id
      else if String.eqb operation "native_phase4_request" then validate_phase4_layer helper receipt raw case_id run_id
      else Err (KeyError operation) in
    Ok (receipt, facts)).
End Bundle.

(** ** The public reader *)

(** The proof of a record: its root apart, its entries and the bytes of its invocations. *)
Record native_bundle := { nb_root : abs_path; nb_proof : strict_proof }.

(** [except (OSError, TypeError, KeyError, AttributeError, UnicodeError, ...)] *)
Definition bundle_exception (e : exn) : bool :=
  match e with
  | OSError _ | FileNotFoundError _ | UnicodeDecodeError | UnicodeEncodeError => true
  | _ => shape_exception e
  end.

Section Reader.
Variables (sys : os) (cx : context_system) (digest : chars -> string).
(** What the system answers when the sources are verified again. *)
Variables (sys_after : os) (cx_after : context_system).
Variable exception_text : exn -> string.
Variable json_object : chars -> res pydict.
Variable execute : list (string * chars) -> res helper_module.
Variables parent_root framework_root : abs_path.

Definition read_bundle (root : abs_path) (envelope : pydict) (helper : helper_module) (case_id run_id operation : string)
    (sources : pydict) (source_bytes : list (string * chars)) : sealing (list read_back * pydict * pydict) :=
  step* invocations := invocation_artifacts sys digest json_object parent_root framework_root root envelope case_id run_id
                         operation sources source_bytes in
  step* (receipt, facts) := operation_facts sys digest json_object root envelope helper case_id run_id operation sources
                              source_bytes invocations in
  give (invocations, receipt, facts).

Definition _validate_native_operation_bundle (record : pydict) (authority : abs_path) (sources : pydict) : res native_bundle :=
  let* (case_id, run_id, operation, envelope) := bundle_envelope record in
  let* source_bytes := verify_source_authority sys cx digest parent_root framework_root record envelope sources in
  let* root := open_bundle sys authority (dict_get "bundle_root" envelope) in
  let* helper := load_helpers execute case_id source_bytes in
  let* (invocations, receipt, facts, files) := read_bundle root envelope helper case_id run_id operation sources source_bytes [] in
  let* _ := verify_source_authority sys_after cx_after digest parent_root framework_root record envelope sources in
  let entries := mkdict
    [("case_id", PStr case_id); ("run_id", PStr run_id); ("operation", PStr operation); ("errors", PList []);
     ("layer_verified", PBool true); ("receipt", PDict receipt);
     ("invocation_receipts", PDict (mkdict (map (fun i => (iv_name i, PDict (iv_receipt i))) invocations)));
     ("files", PDict files)] in
  Ok {| nb_root := root;
        nb_proof := {| sp_fields := entries ++ facts; sp_raw := map (fun i => (iv_name i, iv_raw i)) invocations |} |}.

Definition validate_native_operation_bundle (record : pydict) (authority : abs_path) (sources : pydict) : res native_bundle :=
  match _validate_native_operation_bundle record authority sources with
  | Err e => Err (if bundle_exception e then ValueError ("invalid native operation bundle: " +:+ exception_text e) else e)
  | bundle => bundle
  end.
End Reader.

(** A value of white space alone, a word inside another and a value without its semicolon. *)
Example directives_ex :
  map L2S (directives (plain_directive "user") (S2L "#user a; auser d; user b c ;user  ;user ;user x")) = ["a"; "b c "; " "].
Proof. reflexivity. Qed.
