(* ===== verification/NativeBundleTheorems.v ===== *)
(** * Proofs of native operations are sealed

    What the reader of a bundle guarantees of the proof it returns: every retained leaf was
    read below the root of the bundle and its digest is among the files of the proof, the
    sources were verified before and after the helper ran, the snapshots of the host are
    those of the authority, every transaction has one cleanup that ends its work, and the
    entries of the proof are values of JSON texts. *)

From S2P Require Export NativeBundle NativeTheorems.
From S2P Require Import ObservationEvidence Utf8 Catalog IdentityTheorems NginxProtocolTheorems.
From Stdlib Require Import QArith.
#[global] Open Scope Z_scope.

(** ** Steps of the reader *)

Lemma step_inv {A B} (m : sealing A) (k : A -> sealing B) files b files' : andthen m k files = Ok (b, files') ->
  exists a between, m files = Ok (a, between) /\ k a between = Ok (b, files').
Proof. unfold andthen. destruct (m files) as [[a between]|]; [|done]. intros H. by exists a, between. Qed.

Lemma checked_inv {A} (m : res A) files a files' : checked m files = Ok (a, files') -> m = Ok a /\ files' = files.
Proof. unfold checked. destruct m; [|done]. intros H. apply Ok_inj in H. by injection H as <- <-. Qed.

Lemma give_inv {A} (a b : A) files files' : give a files = Ok (b, files') -> a = b /\ files = files'.
Proof. unfold give. intros H. apply Ok_inj in H. by injection H as <- <-. Qed.

Lemma demand_checked {B} b m (k : () -> sealing B) files r : andthen (checked (demand b m)) k files = Ok r ->
  b = true /\ k tt files = Ok r.
Proof. unfold andthen, checked. by destruct b. Qed.

Tactic Notation "next" hyp(H) "as" simple_intropattern(p) := apply step_inv in H as p.

(** ** Reading an owned file *)

Section Files.
Variables (sys : os) (digest : chars -> string) (root : abs_path).

Lemma at_most_all n l : 0 <= n -> size_of (at_most n l) < n -> at_most n l = l.
Proof.
  unfold size_of. revert n. induction l as [|c l IH]; intros n Hn; cbn; [done|]. destruct (Z.leb_spec n 0); cbn [List.length]; [lia|].
  intros H'. f_equal. apply IH; lia.
Qed.

(** The bytes of an opened file do not depend on the bound they were read under. *)
Lemma read_opened_content f limit data : 0 < limit -> read_opened sys f limit = Ok data -> data = S2L (content f).
Proof.
  unfold read_opened. intros Hl H. apply demand_then in H as [Hb H]. apply demand_then in H as [Ha H]. apply Ok_inj in H as <-.
  rewrite !andb_true_iff in Ha. destruct Ha as [[_ Ha] _]. apply Z.leb_le in Ha. apply at_most_all; lia.
Qed.

Lemma owned_content relative l1 l2 d1 d2 : read_bounded_file sys root relative l1 = Ok d1 ->
  read_bounded_file sys root relative l2 = Ok d2 -> d1 = d2.
Proof.
  unfold read_bounded_file. destruct (relative_parts _) as [ps|]; [|done]. intros H1 H2.
  apply demand_then in H1 as [L1 H1]. apply demand_then in H2 as [L2 H2]. apply Z.ltb_lt in L1, L2.
  destruct (NativeFiles.open_directory sys root) as [[n d]|]; [|done]. apply demand_then in H1 as [_ H1]. apply demand_then in H2 as [_ H2].
  destruct (descend_owned _ _ _ _) as [n'|e]; [|by destruct (is_OSError e)].
  destruct (open_file _ _ _) as [f|e]; [|by destruct (is_OSError e)].
  destruct (read_opened sys f l1) as [c1|e] eqn:E1; [|by destruct (is_OSError e)].
  destruct (read_opened sys f l2) as [c2|e] eqn:E2; [|by destruct (is_OSError e)].
  apply Ok_inj in H1 as <-. apply Ok_inj in H2 as <-. apply read_opened_content in E1 as ->; [|done].
  by apply read_opened_content in E2 as ->.
Qed.

(** ** The seals of a bundle *)

(** The files a reader returned: the seals grow, one read at a time. *)
Inductive extends : pydict -> pydict -> Prop :=
  | extends_refl files : extends files files
  | extends_read files files' path data limit : extends files files' -> read_bounded_file sys root path limit = Ok data ->
      extends files (dict_set path (file_seal digest data limit) files').

Lemma reads_trans a b c : extends a b -> extends b c -> extends a c.
Proof. intros Ha. induction 1 as [|b' c path data limit _ IH]; [done|]. by apply extends_read; [apply IH|]. Qed.

(** The bytes of a path and their seal. *)
Definition sealed (files : pydict) (path : string) (data : chars) : Prop := exists limit,
  read_bounded_file sys root path limit = Ok data /\ dict_find path files = Some (file_seal digest data limit).

Lemma sealed_extends files files' path data : extends files files' -> sealed files path data -> sealed files' path data.
Proof.
  induction 1 as [|files files' path' data' limit' _ IH Hr]; [done|]. intros H. apply IH in H as (limit & Hd & Hf).
  destruct (String.eqb_spec path' path) as [->|Hn].
  - assert (data' = data) as -> by (eapply owned_content; eassumption). exists limit'. by rewrite dict_find_set, String.eqb_refl.
  - exists limit. split; [done|]. rewrite dict_find_set. by apply String.eqb_neq in Hn as ->.
Qed.

Lemma read_sealed path expected limit files data files' : read sys digest root path expected limit files = Ok (data, files') ->
  extends files files' /\ sealed files' path data /\ (is_none expected = false -> expected = PStr (digest data)).
Proof.
  unfold read. destruct (read_bounded_file _ _ _ _) as [raw|] eqn:Er; [|done]. destruct (is_none expected) eqn:En.
  - intros H. apply Ok_inj in H. injection H as <- <-. split; [|split; [|done]].
    + apply extends_read; [constructor|done].
    + exists limit. by rewrite dict_find_set, String.eqb_refl.
  - intros H. apply demand_then in H as [Hs H]. apply Ok_inj in H. injection H as <- <-. apply andb_true_iff in Hs as [_ Hs].
    split; [|split].
    + apply extends_read; [constructor|done].
    + exists limit. by rewrite dict_find_set, String.eqb_refl.
    + intros _. by apply eq_str_true.
Qed.

End Files.

(** ** Values of JSON texts *)

Lemma set_keys k v d names : str_keys d = Some names -> List.NoDup names -> exists more,
  str_keys (dict_set k v d) = Some more /\ List.NoDup more /\ (forall x, In x more -> In x names \/ x = k).
Proof.
  revert names. induction d as [|[[| | | |s| |] w] d IH]; intros names; cbn; try done.
  - intros [= <-] _. exists [k]. split; [done|]. split; [apply List.NoDup_cons; [by intros []|apply List.NoDup_nil]|]. intros x [<-|[]]. by right.
  - destruct (str_keys d) as [ns|] eqn:E; [|done]. intros [= <-] Hn. inversion Hn as [|? ? Hs Hns]; subst.
    destruct (String.eqb_spec s k) as [->|Hk]; cbn.
    + rewrite E. exists (k :: ns). split; [done|]. split; [done|]. intros x Hx. by left.
    + destruct (IH ns eq_refl Hns) as (more & -> & Hm & Hin). exists (s :: more). split; [done|]. split.
      * constructor; [|done]. intros H. by destruct (Hin _ H).
      * intros x [<-|Hx]; [left; by left|]. destruct (Hin _ Hx); [left; by right|by right].
Qed.

Lemma json_object_iff d : json_value (PDict d) = true <-> object_keys d /\ Forall (fun kv => json_value (snd kv) = true) d.
Proof.
  cbn [json_value]. rewrite andb_true_iff, forallb_forall, List.Forall_forall. f_equiv. unfold object_keys.
  destruct (str_keys d) as [names|]; [|by split; [|intros (? & ? & _)]]. rewrite str_nodup_NoDup.
  split; [by exists names|]. by intros (? & [= <-] & ?).
Qed.

Lemma json_set k v d : json_value (PDict d) = true -> json_value v = true -> json_value (PDict (dict_set k v d)) = true.
Proof.
  rewrite !json_object_iff. intros [(names & Hk & Hn) Hd] Hv. split.
  - destruct (set_keys k v d names Hk Hn) as (more & ? & ? & _). by exists more.
  - clear Hk Hn. induction Hd as [|[c w] d Hw Hd IH]; cbn; [by repeat constructor|]. destruct (eq_str c k); by constructor.
Qed.

Lemma json_find d k v : json_value (PDict d) = true -> dict_find k d = Some v -> json_value v = true.
Proof. rewrite json_object_iff, List.Forall_forall. intros [_ H] Hf. apply dict_find_In in Hf. exact (H _ Hf). Qed.

Lemma json_get d k : json_value (PDict d) = true -> json_value (dict_get k d) = true.
Proof.
  intros H. unfold dict_get, dict_get_or. destruct (dict_find k d) as [v|] eqn:E; [|done]. by eapply json_find.
Qed.

Lemma json_item d k v : json_value (PDict d) = true -> dict_item k d = Ok v -> json_value v = true.
Proof. rewrite dict_item_Ok. apply json_find. Qed.

Lemma json_rows l : Forall (fun d => json_value (PDict d) = true) l -> json_value (rows l) = true.
Proof.
  intros H. apply forallb_forall. intros v Hv. apply in_map_iff in Hv as (d & <- & Hd). rewrite List.Forall_forall in H. by apply H.
Qed.

Lemma json_display l : str_nodup (map fst l) = true -> Forall (fun kv => json_value (snd kv) = true) l ->
  json_value (PDict (mkdict l)) = true.
Proof.
  intros Hn Hl. apply json_object_iff. split.
  - exists (map fst l). split; [|by apply str_nodup_NoDup]. unfold mkdict. clear. induction l as [|[k v] l IH]; [done|]. cbn [map str_keys fst]. by rewrite IH.
  - unfold mkdict. apply List.Forall_map. revert Hl. apply List.Forall_impl. by intros [k v].
Qed.

(** ** The leaves of an invocation *)

(** The seal a receipt states for a leaf. *)
Inductive declared (case_id : string) (receipt : pydict) (leaf : string) (s : pyval) : Prop :=
  | declared_map field m : In field ["raw_sha256"; "artifacts_sha256"; "raw_artifacts_sha256"] ->
      dict_get field receipt = PDict m -> In (PStr leaf, s) m -> declared case_id receipt leaf s
  | declared_field field :
      In (field, leaf) (SEQUENCE_HASHES ++ [("observed_sha256", "input-fault-observation.json"); ("config_sha256", "nginx.conf")]) ->
      dict_get field receipt = s -> declared case_id receipt leaf s
  | declared_fault : fault_library case_id = Some leaf -> dict_get "fault_library_sha256" receipt = s ->
      declared case_id receipt leaf s
  | declared_helper m : leaf = WORKER_HELPER -> dict_get "artifacts_sha256" receipt = PDict m ->
      dict_get WORKER_HELPER_KEY m = s -> declared case_id receipt leaf s.

(** The leaves that are reopened without a seal of their receipt. *)
Definition unsealed_leaves (case_id : string) : list string :=
  if str_in case_id SEQUENCE_CASES then SEQUENCE_CAPTURES
  else if str_in case_id INPUT_CASES then [WORKER_LEDGER] else map snd BUILDS.

Section Leaves.
Variables (sys : os) (digest : chars -> string) (root : abs_path).
Variables (case_id prefix : string) (receipt : pydict).
Abbreviation extends := (extends sys digest root).
Abbreviation sealed := (sealed sys digest root).

Definition kept (files : pydict) (a : string * chars) : Prop :=
  sealed files (prefix +:+ fst a) (snd a) /\
  (declared case_id receipt (fst a) (PStr (digest (snd a))) \/ In (fst a) (unsealed_leaves case_id)).

Lemma kept_extends files files' raw : extends files files' -> Forall (kept files) raw -> Forall (kept files') raw.
Proof. intros He. apply List.Forall_impl. intros a [Hs Hd]. split; [by eapply sealed_extends|done]. Qed.

Lemma put_kept files leaf data raw : kept files (leaf, data) -> Forall (kept files) raw ->
  Forall (kept files) (put_artifact leaf data raw).
Proof.
  intros Ha. induction 1 as [|[l d] raw Hr Hf IH]; cbn; [by apply List.Forall_cons|].
  destruct (String.eqb_spec l leaf) as [->|]; by constructor.
Qed.

(** A seal that may be read for a leaf. *)
Definition readable (leaf : string) (expected : pyval) : Prop :=
  (is_none expected = false /\ declared case_id receipt leaf expected) \/ In leaf (unsealed_leaves case_id).

Lemma read_kept leaf expected limit files data files' : readable leaf expected ->
  read sys digest root (prefix +:+ leaf) expected limit files = Ok (data, files') ->
  extends files files' /\ kept files' (leaf, data).
Proof.
  intros Hr H. apply read_sealed in H as (He & Hs & Hd). split; [done|]. split; [done|].
  destruct Hr as [[Hn Hr]|Hr]; [left|by right]. cbn [fst snd]. by rewrite <- (Hd Hn).
Qed.

Lemma retain_kept leaf expected limit raw files raw' files' : readable leaf expected ->
  retain sys digest root prefix leaf expected limit raw files = Ok (raw', files') -> Forall (kept files) raw ->
  extends files files' /\ Forall (kept files') raw'.
Proof.
  intros Hr H Hk. unfold retain in H. apply step_inv in H as (data & between & H & Hg). apply give_inv in Hg as [<- <-].
  apply (read_kept _ _ _ _ _ _ Hr) in H as [He Ha]. split; [done|]. apply put_kept; [done|]. by eapply kept_extends.
Qed.

(** Steps that keep the leaves keep them all. *)
Lemma steps_kept {A} (f : artifacts -> A -> sealing artifacts) l raw files raw' files' :
  (forall x raw files raw' files', In x l -> f raw x files = Ok (raw', files') -> Forall (kept files) raw ->
    extends files files' /\ Forall (kept files') raw') ->
  steps f l raw files = Ok (raw', files') -> Forall (kept files) raw -> extends files files' /\ Forall (kept files') raw'.
Proof.
  revert raw files. induction l as [|x l IH]; intros raw files Hf H Hk; cbn [steps] in H.
  - apply give_inv in H as [<- <-]. split; [constructor|done].
  - apply step_inv in H as (mid & between & Hx & H). apply (Hf x) in Hx as [He Hm]; [|by left|done].
    apply IH in H as [He' Hm']; [|by intros; eapply Hf; [right|..]|done]. split; [by eapply reads_trans|done].
Qed.

Lemma hash_map_kept mapping allowed raw files raw' files' :
  (forall m leaf v, mapping = PDict m -> In (PStr leaf, v) m -> declared case_id receipt leaf v) ->
  read_hash_map sys digest root prefix mapping allowed raw files = Ok (raw', files') -> Forall (kept files) raw ->
  extends files files' /\ Forall (kept files') raw'.
Proof.
  intros Hd H Hk. unfold read_hash_map in H. destruct mapping as [| | | | | |m]; try done.
  apply demand_checked in H as [Ha H]. apply demand_checked in H as [Hs H]. unfold keys_within in Ha. rewrite forallb_forall in Ha, Hs.
  eapply steps_kept; [|exact H|done]. cbn. intros [k v] r f r' f' Hin Hx Hr.
  specialize (Ha _ Hin). specialize (Hs _ Hin). destruct k as [| | | |leaf| |]; try done.
  eapply (retain_kept leaf v); [|exact Hx|done]. left. split; [by destruct v|]. by eapply Hd.
Qed.

Lemma sequence_kept files raw files' : str_in case_id SEQUENCE_CASES = true ->
  _read_sequence_invocation sys digest root prefix receipt case_id files = Ok (raw, files') ->
  extends files files' /\ Forall (kept files') raw.
Proof.
  intros Hc H. unfold _read_sequence_invocation in H. apply step_inv in H as (r1 & f1 & H1 & H).
  apply demand_checked in H as [_ H]. apply step_inv in H as (r2 & f2 & H2 & H).
  assert (K1 : extends files f1 /\ Forall (kept f1) r1).
  { eapply steps_kept; [|exact H1|constructor]. intros [field leaf] r f r' f' Hin Hx Hr. cbn [fst snd] in Hx.
    assert (Hd : is_none (dict_get field receipt) = false -> readable leaf (dict_get field receipt)).
    { intros Hn. left. split; [done|]. apply (declared_field _ _ _ _ field); [|done]. apply in_or_app. by left. }
    destruct (dict_get field receipt) eqn:E; try (by eapply retain_kept; [apply Hd|..]).
    apply give_inv in Hx as [<- <-]. split; [constructor|done]. }
  destruct K1 as [E1 K1]. assert (K2 : extends f1 f2 /\ Forall (kept f2) r2).
  { destruct (fault_library case_id) as [leaf|] eqn:Ef.
    - apply step_inv in H2 as (expected & f & Hx & H2). apply checked_inv in Hx as [Hx ->]. unfold receipt_seal in Hx.
      apply demand_then in Hx as [Hs Hx]. apply Ok_inj in Hx as <-. eapply retain_kept; [|exact H2|done].
      left. split; [by destruct (dict_get _ receipt)|]. by apply declared_fault.
    - apply give_inv in H2 as [<- <-]. split; [constructor|done]. }
  destruct K2 as [E2 K2]. eapply steps_kept in H as [E3 K3]; [split; [|done]; by eapply reads_trans, reads_trans| |done].
  intros leaf r f r' f' Hin Hx Hr. destruct (has_leaf r leaf); [apply give_inv in Hx as [<- <-]; split; [constructor|done]|].
  eapply retain_kept; [|exact Hx|done]. right. unfold unsealed_leaves. by rewrite Hc.
Qed.

Lemma but_In key (m : pydict) k v : In (k, v) (List.filter (fun kv => negb (eq_str (fst kv) key)) m) -> In (k, v) m.
Proof. intros H. by apply List.filter_In in H as [? _]. Qed.

Lemma input_kept json_object sources files raw files' : str_in case_id SEQUENCE_CASES = false -> str_in case_id INPUT_CASES = true ->
  _read_input_invocation sys digest json_object root prefix receipt sources files = Ok (raw, files') ->
  extends files files' /\ Forall (kept files') raw.
Proof.
  intros Hn Hc H. unfold _read_input_invocation in H.
  destruct (dict_get "artifacts_sha256" receipt) as [| | | | | |arts] eqn:Ea; try done.
  destruct (dict_get "raw_artifacts_sha256" receipt) as [| | | | | |caps] eqn:Er; try done. cbv zeta in H.
  apply demand_checked in H as [_ H]. apply demand_checked in H as [_ H].
  apply step_inv in H as (r1 & f1 & H1 & H). apply step_inv in H as (r2 & f2 & H2 & H). apply step_inv in H as (r3 & f3 & H3 & H).
  apply step_inv in H as (s4 & f4 & H4 & H). apply checked_inv in H4 as [H4 ->]. apply step_inv in H as (r5 & f5 & H5 & H).
  apply step_inv in H as (s6 & f6 & H6 & H). apply checked_inv in H6 as [H6 ->]. apply step_inv in H as (r7 & f7 & H7 & H).
  apply step_inv in H as (u8 & f8 & H8 & H). apply checked_inv in H8 as [_ ->]. apply give_inv in H as [<- <-].
  assert (K1 : extends files f1 /\ Forall (kept f1) r1).
  { destruct (dict_has WORKER_HELPER_KEY arts); [|apply give_inv in H1 as [<- <-]; split; constructor].
    apply demand_checked in H1 as [Hs H1]. apply step_inv in H1 as (r0 & f0 & H0 & H1). apply andb_true_iff in Hs as [Hs Hp].
    eapply retain_kept in H0 as [E0 K0]; [| |constructor].
    - eapply retain_kept in H1 as [E1 K1]; [split; [by eapply reads_trans|done]| |done]. right. unfold unsealed_leaves.
      rewrite Hn, Hc. by left.
    - left. destruct (dict_get WORKER_HELPER_KEY sources) as [| | | |s| |]; try done. split; [done|].
      apply (declared_helper _ _ _ _ arts); [done|done|]. destruct (dict_get WORKER_HELPER_KEY arts); try done.
      cbn in Hp. apply String.eqb_eq in Hp. by subst. }
  destruct K1 as [E1 K1]. eapply hash_map_kept in H2 as [E2 K2]; [| |exact K1].
  2:{ intros m leaf v [= <-] Hin. apply but_In in Hin. apply (declared_map _ _ _ _ "artifacts_sha256" arts); [right; by left|done|done]. }
  eapply hash_map_kept in H3 as [E3 K3]; [| |exact K2].
  2:{ intros m leaf v [= <-] Hin. apply but_In in Hin. apply (declared_map _ _ _ _ "raw_artifacts_sha256" caps); [do 2 right; by left|done|done]. }
  assert (Hseal : forall field v, receipt_seal receipt field = Ok v -> is_none v = false /\ dict_get field receipt = v).
  { intros field v Hv. apply demand_then in Hv as [Hs Hv]. apply Ok_inj in Hv as <-. split; [|done]. by destruct (dict_get field receipt). }
  destruct (Hseal _ _ H4) as [N4 G4], (Hseal _ _ H6) as [N6 G6].
  eapply retain_kept in H5 as [E5 K5]; [| |exact K3].
  2:{ left. split; [done|]. eapply declared_field; [|exact G4]. apply in_or_app. right. by left. }
  eapply retain_kept in H7 as [E7 K7]; [| |exact K5].
  2:{ left. split; [done|]. eapply declared_field; [|exact G6]. apply in_or_app. right. right. by left. }
  split; [|done]. by repeat (eapply reads_trans; [eassumption|]); constructor.
Qed.

Lemma others_kept files raw files' : str_in case_id SEQUENCE_CASES = false -> str_in case_id INPUT_CASES = false ->
  (step* raw := read_hash_map sys digest root prefix (dict_get "raw_sha256" receipt) COMMON_RAW [] in
   steps (fun raw b => match dict_find (fst b) receipt with
                       | Some expected => retain sys digest root prefix (snd b) expected ARTIFACT_LIMIT raw
                       | None => give raw
                       end) BUILDS raw) files = Ok (raw, files') ->
  extends files files' /\ Forall (kept files') raw.
Proof.
  intros Hs Hi H. apply step_inv in H as (r1 & f1 & H1 & H). eapply hash_map_kept in H1 as [E1 K1]; [| |constructor].
  2:{ intros m leaf v Hm Hin. apply (declared_map _ _ _ _ "raw_sha256" m); [by left|done|done]. }
  eapply steps_kept in H as [E2 K2]; [split; [by eapply reads_trans|done]| |done].
  intros [field leaf] r f r' f' Hin Hx Hr. cbn [fst snd] in Hx.
  destruct (dict_find field receipt); [|apply give_inv in Hx as [<- <-]; split; [constructor|done]].
  eapply retain_kept; [|exact Hx|done]. right. unfold unsealed_leaves. rewrite Hs, Hi. apply in_map_iff. by exists (field, leaf).
Qed.
End Leaves.

(** ** An invocation *)

Section Invocations.
Variables (sys : os) (digest : chars -> string) (json_object : chars -> res pydict) (root : abs_path).
Variables (parent_root framework_root : abs_path).
Abbreviation extends := (extends sys digest root).
Abbreviation sealed := (sealed sys digest root).

(** The receipt an original document holds. *)
Definition holds_receipt (document receipt : pydict) : Prop :=
  receipt = document \/ exists row field, dict_get "cases" document = PList [PDict row] /\ dict_get field row = PDict receipt.

(** What an invocation that was read back has proved: its receipt comes from a file whose
    digest its descriptor states, its leaves lie beside that file and are sealed, and the
    snapshots of the host are those of the authority. *)
Record read_back_proved (files : pydict) (case_id run_id operation : string) (sources descriptor : pydict) (i : read_back) : Prop := {
  rp_original : exists path, dict_get "receipt_path" descriptor = PStr path /\ sealed files path (iv_original i) /\
    dict_get "receipt_sha256" descriptor = PStr (digest (iv_original i));
  rp_receipt : exists document, json_object (iv_original i) = Ok document /\ holds_receipt document (iv_receipt i);
  rp_identity : dict_get "case_id" (iv_receipt i) = PStr case_id /\ dict_get "operation" (iv_receipt i) = PStr operation /\
    dict_get "run_id" (iv_receipt i) = PStr (variant_run run_id (variant case_id (iv_name i)));
  rp_leaves : exists prefix, Forall (kept sys digest root case_id prefix (iv_receipt i) files) (iv_raw i);
  rp_builds : forall field leaf, In (field, leaf) BUILDS -> exists data, entry leaf (iv_raw i) = Some data /\
    dict_find field sources = Some (PStr (digest data)) }.

Lemma original_spec descriptor case_id operation sources files receipt prefix original files' :
  is_seal (dict_get "receipt_sha256" descriptor) = true ->
  _read_original_invocation sys digest json_object root descriptor case_id operation sources files
    = Ok (receipt, prefix, original, files') ->
  extends files files' /\
  (exists path, dict_get "receipt_path" descriptor = PStr path /\ sealed files' path original /\
    dict_get "receipt_sha256" descriptor = PStr (digest original)) /\
  (exists document, json_object original = Ok document /\ holds_receipt document receipt) /\
  dict_get "case_id" receipt = PStr case_id /\ dict_get "operation" receipt = PStr operation.
Proof.
  intros Hseal H. unfold _read_original_invocation in H. apply step_inv in H as (components & f1 & Hp & H).
  apply checked_inv in Hp as [Hp ->]. apply demand_checked in H as [_ H]. apply demand_checked in H as [_ H].
  apply step_inv in H as (text & f2 & Hr & H). apply read_sealed in Hr as (He & Hs & Hd). apply checked_inv in H as [H ->].
  destruct (json_object text) as [document|] eqn:Ej; [|done].
  destruct (dict_get "receipt_path" descriptor) as [| | | |path| |] eqn:Epath; try done.
  assert (Hn : is_none (dict_get "receipt_sha256" descriptor) = false) by (by destruct (dict_get "receipt_sha256" descriptor)).
  destruct (if str_in case_id (SEQUENCE_CASES ++ INPUT_CASES) then _ else _) as [[row value]|] eqn:E in H; [|done].
  destruct value as [| | | | | |r]; try done. apply demand_then in H as [Hid H]. destruct (same_revisions r sources _) as [[]|]; [|done].
  apply demand_then in H as [_ H]. destruct (match row with Some _ => _ | None => _ end) as [[]|]; [|done].
  apply Ok_inj in H. injection H as <- _ <-. apply andb_true_iff in Hid as [H1 H2]. apply eq_str_true in H1, H2.
  split; [done|]. split; [exists path; split; [done|]; split; [done|by apply Hd]|]. split; [|done]. exists document. split; [done|].
  destruct (str_in case_id _); [|apply Ok_inj in E; injection E as _ <-; by left]. right.
  destruct (dict_get "cases" document) as [| | | | |[|[| | | | | |d] [|]]|]; try done.
  destruct (demand _ _) as [[]|]; [|done]. apply Ok_inj in E. injection E as _ E. eexists d, _. split; [done|exact E].
Qed.

Lemma builds_spec raw sources :
  forM (fun b => let* expected := dict_item (fst b) sources in
                 demand (match entry (snd b) raw with Some data => eq_str expected (digest data) | None => false end)
                   ("actual build snapshot mismatch: " +:+ snd b)) BUILDS = Ok tt ->
  forall field leaf, In (field, leaf) BUILDS -> exists data, entry leaf raw = Some data /\
    dict_find field sources = Some (PStr (digest data)).
Proof.
  intros H field leaf Hin. apply (forM_all _ _ _ H) in Hin. cbn [fst snd] in Hin.
  destruct (dict_item field sources) as [v|] eqn:E; [|done]. apply dict_item_Ok in E. apply demand_Ok in Hin.
  destruct (entry leaf raw) as [data|]; [|done]. apply eq_str_true in Hin as ->. by exists data.
Qed.

Lemma read_back_extends files files' case_id run_id operation sources descriptor i : extends files files' ->
  read_back_proved files case_id run_id operation sources descriptor i ->
  read_back_proved files' case_id run_id operation sources descriptor i.
Proof.
  intros He [(path & Hp & Hs & Hd) Hr Hid (prefix & Hl) Hb]. constructor; try done.
  - exists path. split; [done|]. split; [by eapply sealed_extends|done].
  - exists prefix. by eapply kept_extends.
Qed.

(** The leaves of every kind of case. *)
Lemma leaves_kept case_id prefix receipt sources files raw files' :
  (if str_in case_id SEQUENCE_CASES then _read_sequence_invocation sys digest root prefix receipt case_id
   else if str_in case_id INPUT_CASES then _read_input_invocation sys digest json_object root prefix receipt sources
   else step* raw := read_hash_map sys digest root prefix (dict_get "raw_sha256" receipt) COMMON_RAW [] in
        steps (fun raw b => match dict_find (fst b) receipt with
                            | Some expected => retain sys digest root prefix (snd b) expected ARTIFACT_LIMIT raw
                            | None => give raw
                            end) BUILDS raw) files = Ok (raw, files') ->
  extends files files' /\ Forall (kept sys digest root case_id prefix receipt files') raw.
Proof.
  destruct (str_in case_id SEQUENCE_CASES) eqn:Es; [by apply sequence_kept|].
  destruct (str_in case_id INPUT_CASES) eqn:Ei; [by apply input_kept|by apply others_kept].
Qed.

Lemma invocation_artifact_spec envelope case_id run_id operation sources source_bytes value name files i files' :
  invocation_artifact sys digest json_object parent_root framework_root root envelope case_id run_id operation sources
    source_bytes value name files = Ok (i, files') ->
  extends files files' /\ iv_name i = name /\ exists descriptor, value = PDict descriptor /\
    read_back_proved files' case_id run_id operation sources descriptor i.
Proof.
  intros H. unfold invocation_artifact in H. cbv zeta in H. destruct value as [| | | | | |descriptor]; try done.
  apply demand_checked in H as [Hd H]. apply andb_true_iff in Hd as [_ Hseal].
  apply step_inv in H as ([[receipt raw] original] & f1 & H1 & H). apply step_inv in H as (u & f2 & H2 & H).
  apply checked_inv in H2 as [H2 ->]. apply give_inv in H as [<- <-]. unfold read_invocation in H1.
  apply step_inv in H1 as ([[rec prefix] text] & f3 & H3 & H1). apply step_inv in H1 as (leaves & f4 & H4 & H1).
  apply step_inv in H1 as ([] & f5 & H5 & H1). apply checked_inv in H5 as [H5 ->]. apply give_inv in H1 as [E <-].
  injection E as -> -> ->. apply (original_spec _ _ _ _ _ _ _ _ _ Hseal) in H3 as (E3 & Hp & Hdoc & Hc & Ho).
  apply leaves_kept in H4 as [E4 K4]. split; [by eapply reads_trans|]. split; [done|]. exists descriptor. split; [done|].
  apply demand_then in H2 as [Hrun _]. apply eq_str_true in Hrun. constructor; cbn [iv_name iv_receipt iv_raw iv_original].
  - destruct Hp as (path & ? & Hs & ?). exists path. split; [done|]. split; [by eapply sealed_extends|done].
  - done.
  - done.
  - by exists prefix.
  - by apply builds_spec.
Qed.

Lemma invocation_artifacts_spec envelope case_id run_id operation sources source_bytes files l files' :
  invocation_artifacts sys digest json_object parent_root framework_root root envelope case_id run_id operation sources
    source_bytes files = Ok (l, files') ->
  extends files files' /\ map iv_name l = invocation_names case_id /\ Forall (fun i => exists descriptor,
    read_back_proved files' case_id run_id operation sources descriptor i) l.
Proof.
  unfold invocation_artifacts. cbv zeta. destruct (dict_get "invocations" envelope) as [| | | | |descriptors|]; try done.
  intros H. apply demand_checked in H as [Hl H]. apply Nat.eqb_eq in Hl.
  enough (G : forall rows acc files l files',
    steps (fun l d => step* i := invocation_artifact sys digest json_object parent_root framework_root root envelope case_id run_id
                        operation sources source_bytes (fst d) (snd d) in give (l ++ [i])) rows acc files = Ok (l, files') ->
    Forall (fun i => exists descriptor, read_back_proved files case_id run_id operation sources descriptor i) acc ->
    extends files files' /\ map iv_name l = map iv_name acc ++ map snd rows /\
    Forall (fun i => exists descriptor, read_back_proved files' case_id run_id operation sources descriptor i) l).
  { apply G in H as (He & Hn & Hf); [|constructor]. split; [done|]. split; [|done]. rewrite Hn. cbn [map app].
    clear -Hl. revert descriptors Hl. induction (invocation_names case_id) as [|n names IH]; intros [|d ds] Hl; try done.
    cbn [combine map snd]. f_equal. apply IH. by injection Hl. }
  clear. induction rows as [|[value name] rows IH]; intros acc files l files' H Ha; cbn [steps] in H.
  - apply give_inv in H as [<- <-]. split; [constructor|]. cbn. by rewrite app_nil_r.
  - apply step_inv in H as (acc' & f1 & Hi & H). apply step_inv in Hi as (i & f2 & Hi & Hg). apply give_inv in Hg as [<- <-].
    apply invocation_artifact_spec in Hi as (He & Hn & d & _ & Hp). cbn [snd] in Hn.
    apply IH in H as (He' & Hm & Hf).
    + split; [by eapply reads_trans|]. split; [|done]. rewrite Hm, map_app. cbn. by rewrite <- app_assoc, Hn.
    + apply Forall_app. split; [|apply List.Forall_cons; [by exists d|constructor]]. revert Ha. apply List.Forall_impl. intros j (dj & Hj).
      exists dj. by eapply read_back_extends.
Qed.
End Invocations.

(** ** Cleanups *)

(** One step of a computation that succeeded. *)
Ltac peel H :=
  match type of H with
  | match demand ?b ?m with _ => _ end = Ok _ => apply demand_then in H as [? H]
  | match ?m with Ok _ => _ | Err _ => _ end = Ok _ => destruct m eqn:?; [|discriminate H]
  end.

(** The next step takes a pair apart. *)
Ltac destruct_pair H := match type of H with match ?p with pair _ _ => _ end = _ => destruct p end.

(** The list of the next step has one row. *)
Ltac only_row H := match type of H with match ?l with _ => _ end = _ => destruct l as [|? [|]]; try discriminate H end.

Section Cleanups.
Variable json_object : chars -> res pydict.
Hypothesis json_values : forall raw d, json_object raw = Ok d -> json_value (PDict d) = true.

(** The events of the log are values of JSON texts with a text for their transaction. *)
Definition logged (event : pydict) : Prop :=
  json_value (PDict event) = true /\ exists t, dict_get "transaction_id" event = PStr t.

(** One event of the log is the cleanup of the transaction, none after it is of the
    transaction. *)
Definition cleaned (events : list pydict) (t : pyval) : Prop := exists before event after,
  events = before ++ event :: after /\ cleanup_of t event = true /\
  Forall (fun e => cleanup_of t e = false) (before ++ after) /\
  Forall (fun later => py_eq (dict_get "transaction_id" later) t = false) after /\
  dict_get "phase" event = PStr "logging" /\ dict_get "message_id" event = PStr "MSCONN_TRANSACTION_CLEANUP" /\
  dict_get "rule_id" event = PStr "" /\ dict_get "status" event = PStr "ok".

Lemma after_split event events : json_value (PDict event) = true -> In event events -> exists before first,
  events = before ++ first :: after_event event events /\ py_eq (PDict first) (PDict event) = true.
Proof.
  intros Hj. induction events as [|e events IH]; [done|]. intros Hin. cbn [after_event].
  destruct (py_eq (PDict e) (PDict event)) eqn:E; [by exists [], e|]. destruct Hin as [->|Hin].
  - by rewrite (py_eq_refl _ Hj) in E.
  - destruct (IH Hin) as (before & first & He & Hp). exists (e :: before), first. split; [|done]. cbn. by rewrite <- He.
Qed.

Lemma equal_text a b k s : logged a -> json_value (PDict b) = true -> py_eq (PDict a) (PDict b) = true ->
  dict_get k b = PStr s -> dict_get k a = PStr s.
Proof.
  intros [Ha _] Hb He Hs. apply json_object_iff in Ha as [Ha _], Hb as [Hb _]. pose proof (py_eq_dict_find _ _ k Ha Hb He) as H.
  unfold dict_get, dict_get_or in *. destruct (dict_find k a) as [v|], (dict_find k b) as [w|]; try done. subst w.
  destruct v; try done. apply String.eqb_eq in H. by subst.
Qed.

Lemma filter_single {A} (f : A -> bool) x before y after : List.filter f (before ++ y :: after) = [x] -> f y = true ->
  x = y /\ Forall (fun z => f z = false) (before ++ after).
Proof.
  rewrite List.filter_app. cbn. intros H Hy. rewrite Hy in H. destruct (List.filter f before) as [|b l] eqn:Eb.
  - cbn in H. injection H as <- Ea. split; [done|]. apply Forall_app. split; apply List.Forall_forall; intros z Hz.
    + destruct (f z) eqn:E; [|done]. assert (Hin : In z (List.filter f before)) by (by apply List.filter_In). by rewrite Eb in Hin.
    + destruct (f z) eqn:E; [|done]. assert (Hin : In z (List.filter f after)) by (by apply List.filter_In). by rewrite Ea in Hin.
  - cbn in H. injection H as _ H. by destruct l.
Qed.

Lemma cleanup_events_spec events transactions completed class uris : Forall logged events ->
  cleanup_events events transactions completed class uris = Ok tt -> Forall (cleaned events) transactions.
Proof.
  intros Hl H. apply List.Forall_forall. intros t Ht. apply (forM_all _ _ _ H) in Ht. cbv beta in Ht.
  destruct (List.filter (cleanup_of t) events) as [|event [|]] eqn:Ef; try done.
  apply demand_then in Ht as [Hn Ht]. destruct (item_of t uris); [|done]. apply demand_then in Ht as [_ Ht].
  apply demand_then in Ht as [Hx _]. assert (Hin : In event events /\ cleanup_of t event = true).
  { apply List.filter_In. rewrite Ef. by left. }
  destruct Hin as [Hin Hc]. rewrite List.Forall_forall in Hl. destruct (Hl _ Hin) as [Hj (s & Hs)].
  destruct (after_split _ _ Hj Hin) as (before & first & He & Hp). unfold cleanup_of in Hc.
  apply andb_true_iff in Hc as [Hc1 Hc2]. apply eq_str_true in Hc1. rewrite Hs in Hc2. apply text_key in Hc2 as ->.
  assert (Hf : logged first) by (apply Hl; rewrite He; apply in_or_app; right; by left).
  assert (Hcf : cleanup_of (PStr s) first = true).
  { unfold cleanup_of. rewrite (equal_text _ _ _ _ Hf Hj Hp Hc1), (equal_text _ _ _ _ Hf Hj Hp Hs). cbn. apply String.eqb_refl. }
  rewrite He in Ef. destruct (filter_single _ _ _ _ _ Ef Hcf) as [<- Hrest]. exists before, event, (after_event event events).
  split; [done|]. split; [done|]. split; [done|]. split.
  { apply List.Forall_forall. intros later Hlater. destruct (py_eq (dict_get "transaction_id" later) (PStr s)) eqn:E; [|done]. apply negb_true_iff in Hn.
    assert (existsb (fun later => py_eq (dict_get "transaction_id" later) (PStr s)) (after_event event events) = true); [|congruence].
    apply existsb_exists. exists later. split; [exact Hlater|exact E]. }
  assert (Ht' : forall k v, In (k, PStr v) [("phase", PStr "logging"); ("message_id", PStr "MSCONN_TRANSACTION_CLEANUP");
    ("rule_id", PStr ""); ("status", PStr "ok")] -> dict_get k event = PStr v).
  { intros k v Hkv. eapply exact_str; [exact Hx|]. cbn in *. tauto. }
  split; [|split; [|split]]; apply Ht'; cbn; tauto.
Qed.

Lemma json_lines_values raw l : json_lines json_object raw = Ok l -> Forall (fun d => json_value (PDict d) = true) l.
Proof.
  intros H. apply List.Forall_forall. intros d Hd. destruct (mapM_member _ _ _ _ H Hd) as (line & _ & Hline). by eapply json_values.
Qed.

Lemma actual_events_logged raw leaf events : actual_events json_object raw leaf = Ok events -> Forall logged events.
Proof.
  unfold actual_events. destruct (entry leaf raw) as [text|]; [|done]. intros H. apply demand_then in H as [_ H].
  destruct (json_lines json_object text) as [l|] eqn:El; [|done]. destruct (forM actual_event l) as [[]|] eqn:Ef; [|done].
  apply Ok_inj in H as <-. apply json_lines_values in El. rewrite List.Forall_forall in *. intros e He. split; [by apply El|].
  apply (forM_all _ _ _ Ef) in He. unfold actual_event in He. apply demand_then in He as [_ He]. apply demand_then in He as [He _].
  rewrite forallb_forall in He. specialize (He "transaction_id" ltac:(cbn; tauto)). destruct (dict_get "transaction_id" e); try done.
  by eexists.
Qed.

(** ** The facts of a layer *)

(** The logs the events of a proof come from. *)
Definition EVENT_LOGS : list string := ["phase1-events.jsonl"; "phase4-events.jsonl"].
Definition REJECTION : string := "native_h1_parser_rejection".

(** The keys of the facts of each layer. *)
Definition FACT_KEYS : list (list string) :=
  [["events"; "all_native_events"; "transaction_ids"; "actual_status"];
   ["events"; "transaction_ids"; "actual_status"; "observation"];
   ["events"; "transaction_ids"; "actual_status"; "actual_statuses"; "observation"];
   ["events"; "transaction_ids"; "actual_status"]].

(** The whole event log an invocation retained, and its transactions, each cleaned by it. *)
Record log_cleaned (raw : artifacts) (part : list pydict * list pyval) : Prop := {
  lc_log : exists leaf, In leaf EVENT_LOGS /\ actual_events json_object raw leaf = Ok (fst part);
  lc_cleaned : Forall (cleaned (fst part)) (snd part) }.

(** The events of some facts are the whole logs of the invocations one after the other, and
    every transaction has its one cleanup in the log of its own invocation; a request the
    parser rejected has no transaction, but the control beside it has one, cleaned in the
    whole log of the host. *)
Definition logs_cleaned (operation : string) (raws : list artifacts) (events : list pydict) (transactions : list pyval)
    (control_events : pyval) : Prop :=
  (operation <> REJECTION /\ exists parts, Forall2 log_cleaned raws parts /\ events = concat (map fst parts) /\
     transactions = concat (map snd parts)) \/
  (operation = REJECTION /\ events = [] /\ transactions = [] /\ exists raw log t, raws = [raw] /\
     actual_events json_object raw "native-events.jsonl" = Ok log /\ control_events = rows log /\ cleaned log t).

(** The events and the transactions of some facts: the logs of the invocations, their
    cleanups, and the facts are values of JSON texts. *)
Record facts_proved (operation : string) (raws : list artifacts) (events : list pydict) (transactions : list pyval)
    (facts : pydict) : Prop := {
  fp_events : dict_get "events" facts = rows events;
  fp_transactions : dict_get "transaction_ids" facts = PList transactions;
  fp_cleaned : logs_cleaned operation raws events transactions (dict_get "all_native_events" facts);
  fp_json : exists l, facts = mkdict l /\ In (map fst l) FACT_KEYS /\ Forall (fun kv => json_value (snd kv) = true) l }.

Lemma logged_json events : Forall logged events -> json_value (rows events) = true.
Proof. intros H. apply json_rows. revert H. apply List.Forall_impl. by intros e []. Qed.

Lemma cleaned_log operation raw leaf events transactions control : operation <> REJECTION -> In leaf EVENT_LOGS ->
  actual_events json_object raw leaf = Ok events -> Forall (cleaned events) transactions ->
  logs_cleaned operation [raw] events transactions control.
Proof.
  intros Ho Hl He Hc. left. split; [done|]. exists [(events, transactions)]. split.
  - constructor; [|constructor]. constructor; [by exists leaf|done].
  - cbn. by rewrite !app_nil_r.
Qed.

Lemma raw_h1_facts helper receipt raw case_id run_id facts : validate_raw_h1 json_object helper receipt raw case_id run_id = Ok facts ->
  facts_proved REJECTION [raw] [] [] facts.
Proof.
  unfold validate_raw_h1. cbv zeta. intros H. repeat peel H.
  only_row H. only_row H. repeat peel H. only_row H. repeat peel H.
  apply Ok_inj in H as <-.
  match goal with E : actual_events _ _ _ = Ok ?l |- _ => pose proof (actual_events_logged _ _ _ E) as Hlog; rename E into Hev end.
  match goal with E : cleanup_events _ _ _ _ _ = Ok ?u |- _ => destruct u; apply cleanup_events_spec, Forall_cons in E as [Hc _]; [|done] end.
  constructor; [done|done|right; split; [done|]; split; [done|]; split; [done|]; by do 3 eexists|]. eexists. split; [reflexivity|]. split; [by left|].
  repeat (apply List.Forall_cons; [cbn [snd]; try done|]); try constructor. apply logged_json. by eapply actual_events_logged.
Qed.

Lemma found_json raw leaf d : (let* text := leaf_data leaf raw in json_object text) = Ok d -> json_value (PDict d) = true.
Proof. destruct (leaf_data leaf raw); [|done]. apply json_values. Qed.

Lemma input_facts helper receipt raw case_id run_id facts : validate_input json_object helper receipt raw case_id run_id = Ok facts ->
  forall operation, operation <> REJECTION -> exists events transactions, facts_proved operation [raw] events transactions facts.
Proof.
  unfold validate_input. cbv zeta. intros H operation Ho. repeat peel H.
  match type of H with match ?l with _ => _ end = _ => destruct l as [|first [|second [|]]] eqn:Ee in H; try discriminate H end.
  rewrite <- Ee in *. repeat peel H.
  apply Ok_inj in H as <-.
  match goal with E : actual_events _ _ _ = Ok ?l |- _ => pose proof (actual_events_logged _ _ _ E) as Hlog end.
  match goal with E : cleanup_events _ _ _ _ _ = Ok ?u |- _ => destruct u; pose proof (cleanup_events_spec _ _ _ _ _ Hlog E) as Hc end.
  do 2 eexists. constructor; [reflexivity|reflexivity|eapply cleaned_log; [done|by left|eassumption|exact Hc]|]. eexists. split; [reflexivity|]. split; [right; by left|].
  assert (Hj : json_value (PDict _) = true) by (eapply found_json; eassumption).
  repeat (apply List.Forall_cons; [cbn [snd]; try done|]); try constructor; [by apply logged_json|].
  cbn [json_value forallb]. rewrite andb_true_r. by eapply json_item.
Qed.

Lemma iterate_json v l : json_value v = true -> iterate v = Ok l -> Forall (fun w => json_value w = true) l.
Proof.
  intros Hj H. destruct v as [| | | |s|items|d]; try done; apply Ok_inj in H as <-; apply List.Forall_forall; intros w Hw.
  - by apply in_map_iff in Hw as (c & <- & _).
  - cbn in Hj. rewrite forallb_forall in Hj. by apply Hj.
  - apply json_object_iff in Hj as [(names & Hk & _) _]. apply in_map_iff in Hw as ([k v] & <- & Hin). cbn [fst].
    clear -Hk Hin. revert names Hk. induction d as [|[[| | | |s| |] w] d IH]; intros names; cbn; try done.
    destruct (str_keys d) as [ns|]; [|done]. destruct Hin as [[= <- _]|Hin]; [done|]. intros _. by eapply IH.
Qed.

Lemma mappings_json v l : json_value v = true -> mappings v = Ok l -> Forall (fun d => json_value (PDict d) = true) l.
Proof.
  unfold mappings. intros Hj H. destruct (iterate v) as [items|] eqn:E; [|done]. apply iterate_json in E; [|done].
  apply List.Forall_forall. intros d Hd. destruct (mapM_member _ _ _ _ H Hd) as (w & Hw & Hm). rewrite List.Forall_forall in E.
  destruct w; try done. apply Ok_inj in Hm as <-. by apply (E _ Hw).
Qed.

Lemma path_json path v w : json_value v = true -> item_path path v = Ok w -> json_value w = true.
Proof.
  revert v. induction path as [|k path IH]; intros v Hj H; cbn in H; [by apply Ok_inj in H as <-|].
  destruct v as [| | | | | |d]; try done. destruct (dict_item k d) as [x|] eqn:E; [|done]. eapply IH; [|exact H]. by eapply json_item.
Qed.

Lemma first_request_json key observed v : json_value (PDict observed) = true -> first_request key observed = Ok v -> json_value v = true.
Proof.
  unfold first_request. intros Hj H. repeat peel H. eapply path_json; [|exact H].
  match goal with E : iterate ?w = Ok _, D : dict_item _ _ = Ok ?w |- _ =>
    apply (json_item _ _ _ Hj) in D; apply (iterate_json _ _ D) in E; rewrite List.Forall_forall in E; apply E end.
  match goal with F : first_of ?l = Ok _ |- _ => destruct l; [done|]; apply Ok_inj in F as <-; by left end.
Qed.

Lemma items_json key (l : list pydict) vs : Forall (fun d => json_value (PDict d) = true) l -> mapM (dict_item key) l = Ok vs ->
  json_value (PList vs) = true.
Proof.
  intros Hl H. cbn. apply forallb_forall. intros v Hv. destruct (mapM_member _ _ _ _ H Hv) as (d & Hd & Hi).
  rewrite List.Forall_forall in Hl. by eapply json_item; [apply (Hl _ Hd)|].
Qed.

Lemma sequence_cleanup_spec case_id observed accesses events raw transactions : Forall logged events ->
  Forall (fun d => json_value (PDict d) = true) accesses ->
  sequence_cleanup json_object case_id observed accesses events raw = Ok transactions ->
  Forall (cleaned events) transactions /\ json_value (PList transactions) = true.
Proof.
  intros Hl Ha H. unfold sequence_cleanup in H. peel H. peel H.
  match goal with E : mapM _ accesses = Ok _ |- _ => apply (items_json _ _ _ Ha) in E end. revert H.
  destruct (String.eqb case_id "early_mapping_failure_cleanup").
  { intros H. repeat peel H. apply Ok_inj in H as <-. split; [constructor|done]. }
  destruct (String.eqb case_id "transaction_begin_failure_cleanup"); intros H; repeat peel H; apply Ok_inj in H as <-; (split; [|done]);
    match goal with E : cleanup_events _ _ _ _ _ = Ok ?u |- _ => destruct u; by eapply cleanup_events_spec end.
Qed.

Lemma sequence_facts helper raw case_id run_id facts : validate_sequence json_object helper raw case_id run_id = Ok facts ->
  forall operation, operation <> REJECTION -> exists events transactions, facts_proved operation [raw] events transactions facts.
Proof.
  unfold validate_sequence. intros H operation Ho. repeat peel H. apply Ok_inj in H as <-.
  assert (Hj : json_value (PDict _) = true) by (eapply found_json; eassumption).
  match goal with E : actual_events _ _ _ = Ok ?l |- _ => pose proof (actual_events_logged _ _ _ E) as Hlog end.
  match goal with E : sequence_cleanup _ _ _ _ _ _ = Ok _ |- _ => eapply sequence_cleanup_spec in E as [Hc Ht]; [|done|] end.
  2:{ match goal with E : (let* text := _ in json_lines _ text) = Ok _ |- _ =>
        destruct (leaf_data _ _) in E; [|done]; by apply json_lines_values in E end. }
  do 2 eexists. constructor; [reflexivity|reflexivity|eapply cleaned_log; [done|by left|eassumption|exact Hc]|].
  eexists. split; [reflexivity|]. split; [do 2 right; by left|]. repeat (apply List.Forall_cons; [cbn [snd]; try done|]); try constructor.
  - by apply logged_json.
  - by eapply first_request_json.
  - eapply items_json; [|eassumption]. eapply mappings_json; [|eassumption]. by eapply json_item.
Qed.

Lemma receipt_transactions_texts receipt ts uris : receipt_transactions receipt = Ok (ts, uris) -> exists names, ts = map PStr names.
Proof.
  unfold receipt_transactions. intros H. repeat peel H. apply Ok_inj in H. injection H as <- _.
  match goal with E : transactions_of _ = Ok _ |- _ => unfold transactions_of in E; peel E; apply Ok_inj in E as <- end. by eexists.
Qed.

Lemma texts_json names : json_value (PList (map PStr names)) = true.
Proof. cbn. apply forallb_forall. intros v Hv. by apply in_map_iff in Hv as (s & <- & _). Qed.

Lemma phase4_facts helper receipt raw case_id run_id facts : json_value (PDict receipt) = true ->
  validate_phase4_layer json_object helper receipt raw case_id run_id = Ok facts ->
  forall operation, operation <> REJECTION -> exists events transactions, facts_proved operation [raw] events transactions facts.
Proof.
  unfold validate_phase4_layer. intros Hj H operation Ho. repeat peel H. destruct_pair H. repeat peel H. apply Ok_inj in H as <-.
  match goal with E : actual_events _ _ _ = Ok ?l |- _ => pose proof (actual_events_logged _ _ _ E) as Hlog end.
  match goal with E : cleanup_events _ _ _ _ _ = Ok ?u |- _ => destruct u; apply cleanup_events_spec in E as Hc; [|done] end.
  match goal with E : receipt_transactions _ = Ok _ |- _ => apply receipt_transactions_texts in E as (names & ->) end.
  do 2 eexists. constructor; [reflexivity|reflexivity|eapply cleaned_log; [done|right; by left|eassumption|exact Hc]|].
  eexists. split; [reflexivity|]. split; [do 3 right; by left|]. repeat (apply List.Forall_cons; [cbn [snd]; try done|]); try constructor.
  - by apply logged_json.
  - apply texts_json.
  - by eapply json_item.
Qed.

(** The events and transactions of the children so far. *)
Definition children_proved (raws : list artifacts) (found : list pydict * list pyval) : Prop :=
  Forall logged (fst found) /\ (exists names, snd found = map PStr names) /\
  exists parts, Forall2 log_cleaned raws parts /\ fst found = concat (map fst parts) /\ snd found = concat (map snd parts).

Lemma child_events_proved raws found i found' : children_proved raws found -> child_events json_object found i = Ok found' ->
  children_proved (raws ++ [iv_raw i]) found'.
Proof.
  destruct found as [events ts]. intros (Hl & (names & Hn) & parts & Hp & He & Ht) H. cbn [fst snd] in *. unfold child_events in H.
  peel H. peel H. destruct_pair H. repeat peel H. apply Ok_inj in H as <-.
  match goal with E : actual_events _ _ _ = Ok ?l |- _ => pose proof (actual_events_logged _ _ _ E) as Hlog; rename E into Hev end.
  match goal with E : cleanup_events _ _ _ _ _ = Ok ?u |- _ => destruct u; apply cleanup_events_spec in E as Hc; [|done] end.
  match goal with E : receipt_transactions _ = Ok _ |- _ => apply receipt_transactions_texts in E as (more & ->) end.
  split; [by apply Forall_app|]. split; [exists (names ++ more); cbn; by rewrite Hn, map_app|].
  eexists (parts ++ [(_, _)]). split.
  - apply Forall2_app; [done|]. constructor; [|constructor]. constructor; [exists "phase4-events.jsonl"; split; [right; by left|exact Hev]|exact Hc].
  - rewrite !map_app, !concat_app. cbn. by rewrite !app_nil_r, He, Ht.
Qed.

Lemma children_found l raws found found' : children_proved raws found -> foldM (child_events json_object) l found = Ok found' ->
  children_proved (raws ++ map iv_raw l) found'.
Proof.
  revert raws found. induction l as [|i l IH]; intros raws found Hf H; cbn in H; [apply Ok_inj in H as <-; by rewrite app_nil_r|]. peel H.
  cbn [map]. change (iv_raw i :: map iv_raw l) with ([iv_raw i] ++ map iv_raw l). rewrite app_assoc.
  eapply IH; [|exact H]. by eapply child_events_proved.
Qed.
End Cleanups.

(** ** The layer of a case *)

Section Layers.
Variables (sys : os) (digest : chars -> string) (json_object : chars -> res pydict) (root : abs_path).
Hypothesis json_values : forall raw d, json_object raw = Ok d -> json_value (PDict d) = true.

Lemma holds_json document receipt : json_value (PDict document) = true -> holds_receipt document receipt ->
  json_value (PDict receipt) = true.
Proof.
  intros Hj [->|(row & field & Hc & Hf)]; [done|]. pose proof (json_get _ "cases" Hj) as H. rewrite Hc in H. cbn [json_value forallb] in H.
  rewrite andb_true_r in H. pose proof (json_get row field H) as Hr. by rewrite Hf in Hr.
Qed.

Lemma operation_facts_spec envelope helper case_id run_id operation sources source_bytes invocations files receipt facts files' :
  Forall (fun i => json_value (PDict (iv_receipt i)) = true) invocations -> map iv_name invocations = invocation_names case_id ->
  (In case_id EVENT_CASES -> operation <> REJECTION) ->
  operation_facts sys digest json_object root envelope helper case_id run_id operation sources source_bytes invocations files
    = Ok (receipt, facts, files') ->
  extends sys digest root files files' /\ json_value (PDict receipt) = true /\
  exists events transactions, facts_proved json_object operation (map iv_raw invocations) events transactions facts.
Proof.
  intros Hj Hnames Hop H. unfold operation_facts in H. destruct (str_in case_id EVENT_CASES) eqn:Hcase.
  - unfold validate_event_layer in H. apply step_inv in H as (parent & f1 & Hp & H). apply checked_inv in H as [H ->].
    unfold parent_receipt in Hp. apply demand_checked in Hp as [_ Hp]. apply step_inv in Hp as (text & f2 & Hr & Hp).
    apply read_sealed in Hr as (He & _). apply checked_inv in Hp as [Hp ->]. split; [done|].
    cbv zeta in H. repeat peel H. destruct_pair H. apply Ok_inj in H. injection H as <- <-. repeat peel Hp. apply Ok_inj in Hp as <-.
    split; [by eapply json_values|].
    match goal with E : foldM _ _ _ = Ok _ |- _ => apply (children_found _ json_values _ []) in E as (Hl & (names & Hn) & Hc) end.
    2:{ split; [constructor|]. split; [by exists []|]. exists []. split; [constructor|done]. }
    cbn [fst snd app] in *. apply str_in_In in Hcase. do 2 eexists. constructor; [reflexivity|reflexivity|left; split; [by apply Hop|exact Hc]|].
    exists [("events", rows l); ("transaction_ids", PList l0); ("actual_status", PInt 200)]. split; [reflexivity|].
    split; [do 3 right; by left|]. repeat (apply List.Forall_cons; [cbn [snd]; try done|]); try constructor.
    + by apply logged_json.
    + rewrite Hn. apply texts_json.
  - apply checked_inv in H as [H ->]. split; [constructor|]. destruct invocations as [|main invocations]; [done|]. cbn [first_of] in H.
    inversion Hj as [|? ? Hm _]; subst. cbv zeta in H. peel H. apply Ok_inj in H. injection H as <- <-. split; [done|].
    assert (invocations = []) as ->.
    { unfold invocation_names in Hnames. destruct (String.eqb_spec case_id "event_json_limit") as [->|]; [done|].
      by destruct invocations. }
    cbn [map].
    destruct (String.eqb_spec operation "native_h1_parser_rejection") as [->|Hno]; [do 2 eexists; by eapply raw_h1_facts|].
    destruct (String.eqb operation "common_mapper_input_fault"); [by eapply input_facts|].
    destruct (String.eqb operation "request_sequence"); [by eapply sequence_facts|].
    destruct (String.eqb operation "native_phase4_request"); [by eapply phase4_facts|done].
Qed.
End Layers.

(** ** The proof of a bundle *)

Section Bundle.
Variables (sys : os) (cx : context_system) (digest : chars -> string).
Variables (sys_after : os) (cx_after : context_system).
Variable exception_text : exn -> string.
Variable json_object : chars -> res pydict.
Variable execute : list (string * chars) -> res helper_module.
Variables parent_root framework_root : abs_path.

Abbreviation validate := (validate_native_operation_bundle sys cx digest sys_after cx_after exception_text json_object execute
  parent_root framework_root).

(** The sources of a record as one system answers: the record and the authority name the
    same revisions, and the envelope states the digest of every required source. *)
Record sources_verified (sys : os) (cx : context_system) (record envelope sources : pydict) : Prop := {
  sv_revisions : forall field, In field REVISIONS -> exists s, fullmatch_str SHA40 s = true /\
    dict_get field sources = PStr s /\ dict_get field record = PStr s;
  sv_paths : exists required mapping, required_source_paths (dict_get "case_id" record) = Ok required /\
    dict_get "source_sha256" envelope = PDict mapping /\ set_eqb (keys mapping) required = true /\
    forall name, In name required -> exists bytes,
      _read_source_authority sys cx parent_root framework_root name = Ok bytes /\ dict_get name mapping = PStr (digest bytes) }.

Lemma sources_spec sys' cx' record envelope sources source_bytes :
  verify_source_authority sys' cx' digest parent_root framework_root record envelope sources = Ok source_bytes ->
  sources_verified sys' cx' record envelope sources /\
  forall name bytes, In (name, bytes) source_bytes -> _read_source_authority sys' cx' parent_root framework_root name = Ok bytes.
Proof.
  unfold verify_source_authority. cbv zeta. intros H. peel H. peel H. peel H. peel H.
  destruct (dict_get "source_sha256" envelope) as [| | | | | |mapping] eqn:Em; try done. peel H. peel H. peel H. apply Ok_inj in H as <-.
  match goal with E : dict_item "case_id" record = Ok _ |- _ => apply item_get in E as Hcase end.
  match goal with E : mapM _ _ = Ok ?l |- _ => rename E into Em'; rename l into captured end. split; [constructor|].
  - intros field Hf. match goal with E : forM _ REVISIONS = Ok _ |- _ => apply (forM_all _ _ _ E) in Hf; clear E end. cbv beta zeta in Hf.
    apply demand_then in Hf as [Hr Hf]. apply demand_Ok in Hf. destruct (dict_get field sources) as [| | | |s| |]; try done.
    exists s. split; [done|]. split; [done|]. destruct (dict_get field record); try done. cbn in Hf. apply String.eqb_eq in Hf. by subst.
  - do 2 eexists. split; [by rewrite Hcase; eassumption|]. split; [done|]. split; [done|]. intros name Hn.
    destruct (BaselineTheorems.mapM_In_Ok _ _ _ _ Em' Hn) as (v & Hv). cbv beta in Hv. peel Hv. peel Hv. eexists.
    split; [reflexivity|]. by apply eq_str_true.
  - intros name bytes Hin. destruct (mapM_member _ _ _ _ Em' Hin) as (n & _ & Hn). cbv beta in Hn. peel Hn. peel Hn.
    apply Ok_inj in Hn. by injection Hn as <- <-.
Qed.

(** What a returned proof guarantees. *)
Record bundle_sealed (record : pydict) (authority : abs_path) (sources : pydict) (b : native_bundle)
    (case_id run_id operation : string) : Prop := {
  bs_record : dict_get "case_id" record = PStr case_id /\ dict_get "run_id" record = PStr run_id /\
    exists helper, route (PStr case_id) = Ok (operation, helper);
  bs_identity : sp_get "case_id" (nb_proof b) = PStr case_id /\ sp_get "run_id" (nb_proof b) = PStr run_id /\
    sp_get "operation" (nb_proof b) = PStr operation;
  bs_root : path_below authority (nb_root b) = true;
  bs_sources : exists envelope, dict_get "native_operation_receipt" record = PDict envelope /\
    sources_verified sys cx record envelope sources /\ sources_verified sys_after cx_after record envelope sources;
  bs_helper : exists code helper, execute code = Ok helper /\ forall name bytes, In (name, bytes) code ->
    _read_source_authority sys cx parent_root framework_root (runner_source name) = Ok bytes;
  bs_invocations : exists files invocations, sp_get "files" (nb_proof b) = PDict files /\
    sp_raw (nb_proof b) = map (fun i => (iv_name i, iv_raw i)) invocations /\
    map iv_name invocations = invocation_names case_id /\
    Forall (fun i => exists descriptor,
      read_back_proved sys digest json_object (nb_root b) files case_id run_id operation sources descriptor i) invocations;
  bs_events : exists events transactions, sp_get "events" (nb_proof b) = rows events /\
    sp_get "transaction_ids" (nb_proof b) = PList transactions /\
    logs_cleaned json_object operation (map snd (sp_raw (nb_proof b))) events transactions (sp_get "all_native_events" (nb_proof b));
  bs_json : json_value (PDict (sp_fields (nb_proof b))) = true }.

Lemma envelope_spec record case_id run_id operation envelope : bundle_envelope record = Ok (case_id, run_id, operation, envelope) ->
  dict_get "case_id" record = PStr case_id /\ dict_get "run_id" record = PStr run_id /\
  (exists helper, route (PStr case_id) = Ok (operation, helper)) /\ dict_get "native_operation_receipt" record = PDict envelope.
Proof.
  unfold bundle_envelope. cbv zeta. intros H. peel H. destruct_pair H. repeat peel H. apply Ok_inj in H. injection H as <- <- <- <-.
  match goal with E : route ?v = Ok _ |- _ => assert (v = PStr (py_str v)) as Hv by (by destruct v) end.
  match goal with E : is_run_id ?v = true |- _ => assert (v = PStr (py_str v)) as Hr by (by destruct v) end.
  match goal with E : mapping ?v = Ok ?d |- _ => assert (v = PDict d) as He by (destruct v; try done; by apply Ok_inj in E as <-) end.
  split; [done|]. split; [done|]. split; [|done]. eexists. rewrite <- Hv. eassumption.
Qed.

Lemma extends_json root files files' : extends sys digest root files files' -> json_value (PDict files) = true ->
  json_value (PDict files') = true.
Proof. induction 1 as [|files files' path data limit _ IH _]; [done|]. intros H. apply json_set; [by apply IH|done]. Qed.

Lemma open_bundle_below authority v root : open_bundle sys authority v = Ok root -> path_below authority root = true.
Proof.
  unfold open_bundle. intros H. peel H. destruct v as [| | | |s| |]; try done. cbv zeta in H. peel H. peel H. peel H. peel H. peel H.
  destruct_pair H. peel H. peel H. by apply Ok_inj in H as <-.
Qed.

Lemma helper_authenticated case_id source_bytes helper : load_helpers execute case_id source_bytes = Ok helper ->
  exists code, execute code = Ok helper /\ forall name bytes, In (name, bytes) code -> In (runner_source name, bytes) source_bytes.
Proof.
  unfold load_helpers. intros H. peel H. peel H. peel H. eexists. split; [exact H|]. intros name bytes Hin.
  match goal with E : mapM _ _ = Ok _ |- _ => destruct (mapM_member _ _ _ _ E Hin) as (n & _ & Hn) end. cbv beta in Hn. peel Hn.
  apply Ok_inj in Hn. injection Hn as <- <-.
  match goal with E : source_of _ _ = Ok _ |- _ => unfold source_of, leaf_data in E; revert E end.
  destruct (entry _ source_bytes) eqn:E; [|done]. intros Hb. apply Ok_inj in Hb as <-. by apply entry_In.
Qed.

Hypothesis json_values : forall raw d, json_object raw = Ok d -> json_value (PDict d) = true.

Lemma facts_entries entries facts k : ~ In k (map fst entries) -> dict_get k (mkdict entries ++ facts) = dict_get k facts.
Proof.
  unfold dict_get, dict_get_or. induction entries as [|[c v] entries IH]; [done|]. cbn. intros H.
  destruct (String.eqb_spec c k) as [->|Hn]; [exfalso; apply H; by left|]. apply IH. intros Hk. apply H. by right.
Qed.

Lemma native_bundle_proved record authority sources b : validate record authority sources = Ok b ->
  exists case_id run_id operation, bundle_sealed record authority sources b case_id run_id operation.
Proof.
  unfold validate_native_operation_bundle, _validate_native_operation_bundle.
  destruct (bundle_envelope record) as [[[[case_id run_id] operation] envelope]|] eqn:Ee; [|done].
  destruct (verify_source_authority sys _ _ _ _ _ _ _) as [source_bytes|] eqn:Es; [|done].
  destruct (open_bundle _ _ _) as [root|] eqn:Er; [|done]. destruct (load_helpers _ _ _) as [helper|] eqn:Eh; [|done].
  destruct (read_bundle _ _ _ _ _ _ _ _ _ _ _ _ _ _) as [[[[invocations receipt] facts] files]|] eqn:Eb; [|done].
  destruct (verify_source_authority sys_after _ _ _ _ _ _ _) as [again|] eqn:Ea; [|done].
  intros H. apply Ok_inj in H as <-. apply envelope_spec in Ee as (Hc & Hr & Hop & He).
  apply sources_spec in Es as [Hs Hread]. apply sources_spec in Ea as [Hs' _]. apply open_bundle_below in Er.
  apply helper_authenticated in Eh as (code & Hcode & Hauth). unfold read_bundle in Eb.
  apply step_inv in Eb as (l & f1 & Hl & Eb). apply step_inv in Eb as ([rc fs] & f2 & Hf & Eb). apply give_inv in Eb as [Eb <-].
  injection Eb as -> -> ->. apply invocation_artifacts_spec in Hl as (E1 & Hnames & Hinv).
  assert (Hrj : Forall (fun i => json_value (PDict (iv_receipt i)) = true) invocations).
  { revert Hinv. apply List.Forall_impl. intros i (d & Hi). destruct (rp_receipt _ _ _ _ _ _ _ _ _ _ _ Hi) as (document & Hd & Hh).
    eapply holds_json; [|exact Hh]. by eapply json_values. }
  assert (Hrejected : In case_id EVENT_CASES -> operation <> REJECTION).
  { intros Hin ->. destruct Hop as (hname & Hop). revert Hop.
    repeat (destruct Hin as [<-|Hin]; [vm_compute; discriminate|]). done. }
  apply (operation_facts_spec _ _ _ _ json_values _ _ _ _ _ _ _ _ _ _ _ _ Hrj Hnames Hrejected) in Hf as (E2 & Hrec & events & transactions & Hfacts).
  exists case_id, run_id, operation. constructor; cbn [nb_root nb_proof sp_fields sp_raw].
  - done.
  - done.
  - done.
  - by exists envelope.
  - exists code, helper. split; [done|]. intros name bytes Hin. by apply Hread, Hauth.
  - exists f2, invocations. split; [reflexivity|]. split; [done|]. split; [done|]. revert Hinv. apply List.Forall_impl.
    intros i (d & Hi). exists d. by eapply read_back_extends.
  - exists events, transactions. destruct Hfacts as [H1 H2 H3 _]. unfold sp_get. cbn [sp_fields].
    rewrite !facts_entries by (cbn; intuition discriminate). rewrite map_map. done.
  - destruct Hfacts as [_ _ _ (fl & -> & Hk & Hj)]. unfold mkdict. rewrite <- map_app. apply json_display.
    + rewrite map_app. unfold FACT_KEYS in Hk. repeat (destruct Hk as [<-|Hk]; [vm_compute; reflexivity|]). done.
    + apply Forall_app. split; [|done]. repeat (apply List.Forall_cons; [cbn [snd]; try done|]); try constructor.
      * apply json_display.
        -- rewrite map_map. cbn [fst]. change (map _ invocations) with (map iv_name invocations). rewrite Hnames.
           unfold invocation_names. by destruct (String.eqb _ _).
        -- apply List.Forall_map. revert Hrj. by apply List.Forall_impl.
      * eapply extends_json; [exact (reads_trans _ _ _ _ _ _ E1 E2)|done].
Qed.


(** ** Records of sealed bundles *)

Variables (event_schema case_catalog_schema : pyval) (fuel : nat) (sha256 : string -> string).
(** The reader as the normaliser of records calls it. *)
Abbreviation reader := (fun raw root sources => let* b := validate raw root sources in Ok (nb_proof b)).
Abbreviation derive := (derive_native_operation_contract case_catalog_schema fuel digest exception_text json_object).

Lemma reader_json raw authority sources p : reader raw authority sources = Ok p -> json_value (PDict (sp_fields p)) = true.
Proof.
  cbv beta. intros H. destruct (validate raw authority sources) as [b|] eqn:E in H; [|done]. apply Ok_inj in H as <-.
  destruct (native_bundle_proved _ _ _ _ E) as (case_id & run_id & operation & S). exact (bs_json _ _ _ _ _ _ _ S).
Qed.

(** C35: a record of a native operation that passes under its reader and the closed
    contract has a sealed bundle, and the bundle grounds the record: the events the case
    is judged by and the event that carries its meaning are lines of retained event logs
    and respect the life of their transactions, every field the case expects has values
    whose origins are all proved by retained bytes, and the status and the result of the
    record are those of the proof and of the closed table. *)
Theorem native_pass_sealed raw case connector authority record :
  normalize_native_operation_record event_schema case_catalog_schema fuel sha256 exception_text
    strict_proof (sp_get "observation") reader derive raw case connector authority = Ok record ->
  dict_get "status" record = PStr "PASS" ->
  exists a sources b facts case_id run_id operation events transactions,
    authority = Some a /\ na_sources a = PDict sources /\ validate raw (na_root a) sources = Ok b /\
    bundle_sealed raw (na_root a) sources b case_id run_id operation /\ derive case (nb_proof b) = Ok facts /\
    contract_grounded digest json_object (nb_proof b) case facts case_id events transactions /\
    expectations_met (native_effective_case case facts) facts /\
    dict_find "actual_status" record = Some (sp_get "actual_status" (nb_proof b)) /\
    dict_find "observed_result" record = option_map PStr (entry case_id CASE_RESULTS).
Proof.
  intros H Hs. destruct (pass_grounded _ _ _ _ _ _ _ _ reader_json _ _ _ _ _ H Hs)
    as (a & sources & p & facts & case_id & events & transactions & Ha & Hso & Hv & Hd & G & He & Hst & Hr).
  cbv beta in Hv. destruct (validate raw (na_root a) sources) as [b|] eqn:E; [|done]. apply Ok_inj in Hv as <-.
  destruct (native_bundle_proved _ _ _ _ E) as (case_id' & run_id & operation & S). assert (case_id' = case_id) as ->.
  { destruct (cg_case _ _ _ _ _ _ _ _ G) as (_ & _ & H1). destruct (bs_identity _ _ _ _ _ _ _ S) as (H2 & _). congruence. }
  by exists a, sources, b, facts, case_id, run_id, operation, events, transactions.
Qed.
End Bundle.

(** ** The authority of a run *)

Section Authority.
Variables (sys : os) (digest : chars -> string).
Variable exception_text : exn -> string.
Variable json_object : chars -> res pydict.
Hypothesis json_values : forall raw d, json_object raw = Ok d -> json_value (PDict d) = true.

Lemma bounded_size root relative limit data : read_bounded_file sys root relative limit = Ok data -> size_of data <= limit.
Proof.
  unfold read_bounded_file. intros H. repeat peel H. destruct_pair H. peel H.
  match type of H with match ?m with _ => _ end = _ => destruct m as [d|e] eqn:E; [|by destruct (is_OSError e)] end.
  apply Ok_inj in H as <-. peel E. peel E. unfold read_opened in E. peel E. cbv zeta in E. peel E. apply Ok_inj in E as <-.
  match goal with H : _ && _ && bool_decide _ = true |- _ => rewrite !andb_true_iff in H; destruct H as [[_ H] _]; by apply Z.leb_le end.
Qed.

Lemma demand_true b m u : demand b m = Ok u -> b = true.
Proof. by destruct b. Qed.

(** The authority tuple a document carries. *)
Definition tuple_of (document : pydict) : pydict := mkdict (map (fun f => (f, dict_get f document)) EXPECTED_FIELDS).

Lemma tuple_get document field : In field EXPECTED_FIELDS -> dict_get field (tuple_of document) = dict_get field document.
Proof. intros H. cbn in H. repeat (destruct H as [<-|H]; [reflexivity|]). done. Qed.

Lemma validate_tuple document expected roots : validate_document document expected = Ok roots ->
  validate_document document (tuple_of document) = Ok roots /\
  forall field, In field EXPECTED_FIELDS -> dict_get field document = dict_get field expected.
Proof.
  intros H. assert (Htuple : forall field, In field EXPECTED_FIELDS -> dict_get field document = dict_get field expected).
  { unfold validate_document in H. peel H. peel H. peel H. intros field Hf.
    match goal with E : exact _ _ _ = Ok _ |- _ => unfold exact in E; apply demand_true in E as Hx end.
    match goal with E : validate_expected _ = Ok _ |- _ => unfold validate_expected in E; peel E; peel E; rename E into Hrev end.
    assert (Hs : exists s, dict_get field expected = PStr s).
    { destruct Hf as [<-|Hf].
      - match goal with E : is_run_id _ = true |- _ => destruct (dict_get "run_id" expected); try done; by eexists end.
      - assert (Hr : In field REVISIONS) by exact Hf. apply (forM_all _ _ _ Hrev), demand_true in Hr.
        destruct (dict_get field expected); try done. by eexists. }
    destruct Hs as (s & Hs). rewrite Hs. eapply exact_str; [exact Hx|]. apply in_or_app. right. apply in_map_iff.
    exists field. by rewrite Hs. }
  split; [|done]. assert (Hmap : forall {A} (g : string -> pyval -> A), map (fun f => g f (dict_get f (tuple_of document))) EXPECTED_FIELDS
    = map (fun f => g f (dict_get f expected)) EXPECTED_FIELDS).
  { intros A g. apply map_ext_in. intros f Hf. by rewrite (tuple_get _ _ Hf), (Htuple _ Hf). }
  rewrite <- H. unfold validate_document. rewrite (Hmap _ pair).
  destruct (validate_expected expected) as [[]|] eqn:E; [|unfold validate_document in H; by rewrite E in H].
  enough (validate_expected (tuple_of document) = Ok tt) as -> by done. unfold validate_expected in *.
  peel E. peel E. rewrite (tuple_get document "run_id"), (Htuple "run_id") by (by left).
  replace (keys_exactly (tuple_of document) EXPECTED_FIELDS) with true by reflexivity.
  match goal with H : is_run_id _ = true |- _ => rewrite H end. cbn [demand guard]. rewrite <- E.
  assert (Hr : forall f, In f REVISIONS -> dict_get f (tuple_of document) = dict_get f expected).
  { intros f Hf. assert (Hin : In f EXPECTED_FIELDS) by (by right). by rewrite (tuple_get _ _ Hin), (Htuple _ Hin). }
  cbn [forM REVISIONS]. by rewrite !Hr by (cbn; tauto).
Qed.

Lemma fields_listed document : keys_exactly document AUTHORITY_FIELDS = true -> forall field, In field AUTHORITY_FIELDS ->
  dict_item field document = Ok (dict_get field document).
Proof.
  intros Hk field Hf. destruct (keys_exactly_has _ _ _ Hk Hf) as (v & Hv). unfold dict_item, dict_get, dict_get_or. by rewrite Hv.
Qed.

Lemma tuple_items document : keys_exactly document AUTHORITY_FIELDS = true ->
  mapM (fun field => let* v := dict_item field document in Ok (field, v)) EXPECTED_FIELDS
  = Ok (map (fun f => (f, dict_get f document)) EXPECTED_FIELDS).
Proof. intros Hk. cbn [mapM EXPECTED_FIELDS]. by rewrite !(fields_listed _ Hk) by (cbn; tauto). Qed.

Lemma roots_found document expected roots : validate_document document expected = Ok roots ->
  keys_exactly document AUTHORITY_FIELDS = true /\ forall field path, In (field, path) roots -> root_of field roots = Ok path.
Proof.
  unfold validate_document. intros H. peel H. peel H. peel H. peel H.
  destruct (dict_get "fault_library_sha256" document); try done. peel H. split; [done|]. cbn [mapM ROOT_FIELDS] in H. repeat peel H.
  repeat match goal with E : match _ with Ok _ => _ | Err _ => _ end = Ok _ |- _ => peel E end.
  repeat match goal with E : Ok _ = Ok _ |- _ => apply Ok_inj in E as <- end.
  intros field path Hin. repeat (destruct Hin as [Hin|Hin]; [by injection Hin as <- <-|]). done.
Qed.

(** A loaded authority is what its bytes say: writing it out gives the document again,
    which names the expected run and revisions, and its roots are three directories, the
    artifacts apart from the sources. *)
Theorem authority_serialised path expected loaded :
  load_native_operation_authority sys digest exception_text json_object path expected = Ok loaded ->
  serialized_mapping digest exception_text json_object loaded = Ok (la_document loaded) /\
  json_object (la_bytes loaded) = Ok (la_document loaded) /\ la_sha256 loaded = digest (la_bytes loaded) /\
  (forall field, In field EXPECTED_FIELDS -> dict_get field (la_document loaded) = dict_get field expected) /\
  (exists artifact, root_of "artifact_root" (la_roots loaded) = Ok artifact /\
    forall field, In field ["parent_root"; "framework_root"] -> exists source, root_of field (la_roots loaded) = Ok source /\
      path_below artifact source = false /\ path_below source artifact = false).
Proof.
  unfold load_native_operation_authority.
  match goal with |- context [match ?m with Ok _ => _ | Err _ => _ end] => destruct m as [l|] eqn:E end; [|done].
  intros H. apply Ok_inj in H as <-. peel E. peel E. peel E. peel E. peel E. peel E. apply Ok_inj in E as <-. cbn [la_document la_roots la_bytes la_sha256].
  match goal with E : json_object _ = Ok ?d |- _ => rename E into Ej; set (document := d) in * end.
  match goal with E : validate_document _ _ = Ok ?r |- _ => apply validate_tuple in E as Hv; apply roots_found in E as [Hk Hroots]; set (roots := r) in * end.
  destruct Hv as [Hv Htuple]. match goal with E : read_bounded_file _ _ _ _ = Ok _ |- _ => apply bounded_size in E as Hsize end.
  split; [|split; [done|split; [done|split; [done|]]]].
  - unfold serialized_mapping. cbn [la_document la_roots la_bytes la_sha256]. apply Z.leb_le in Hsize. rewrite Hsize, String.eqb_refl, Ej.
    cbn [demand guard andb]. rewrite (tuple_items _ Hk). unfold tuple_of in Hv. rewrite Hv.
    assert (forM (fun r => let* path := root_of (fst r) roots in
      demand (path_eqb path (snd r)) "loaded authority root differs from original bytes") roots = Ok tt) as ->.
    { apply forM_Ok, List.Forall_forall. intros [field p] Hin. cbn [fst snd]. rewrite (Hroots _ _ Hin). unfold path_eqb.
      by rewrite Bool.eqb_reflx, bool_decide_eq_true_2. }
    match goal with |- context [forM ?f ?l] => assert (forM f l = Ok tt) as -> end; [|done].
    apply forM_Ok, List.Forall_forall. intros field Hf. apply List.filter_In in Hf as [Hf _]. rewrite (fields_listed _ Hk _ Hf).
    rewrite py_eq_refl; [done|]. apply json_get. by eapply json_values.
  - match goal with E : validate_roots _ _ = Ok _ |- _ => unfold validate_roots in E; peel E; peel E; peel E; rename E into Hf end.
    eexists. split; [first [eassumption|reflexivity]|]. intros field Hin. apply (forM_all _ _ _ Hf) in Hin. cbv beta in Hin. peel Hin.
    eexists. split; [first [eassumption|reflexivity]|]. apply demand_true, andb_true_iff in Hin as [H1 H2]. by apply negb_true_iff in H1, H2.
Qed.
End Authority.
