(* ===== verification/DerivationWitnesses.v ===== *)
(** * Retained bundles: witnesses of protocol, derived and native records *)

From S2P Require Export ProtocolRecordTheorems NativeTheorems.
From S2P Require Import ObservationEvidence CaseWitnesses.
From Stdlib Require Import QArith.
#[global] Open Scope Z_scope.

(** ** The leaves *)

Definition hashed (s : string) : pyval := PStr ("sha256:" +:+ weak_digest s).
Definition datagram (direction : string) : pyval :=
  PDict (mkdict [("direction", PStr direction); ("quic_version", PStr "0x00000001"); ("connection_id", hashed direction)]).
Definition access_row (uri transaction : string) : pyval :=
  PDict (mkdict [("uri", PStr uri); ("status", PInt 200); ("protocol", PStr "HTTP/3.0"); ("alpn", PStr "h3");
                 ("transaction_id", PStr transaction)]).
Definition native_row (transaction uri : string) (l : list (string * pyval)) : pyval :=
  PDict (mkdict ([("transaction_id", PStr transaction); ("connector", PStr "nginx"); ("integration_mode", PStr MODE);
                  ("uri", PStr uri)] ++ l)).
Definition allow_row : pyval :=
  native_row "r1-1" ALLOW_PATH
    [("method", PStr "GET"); ("event", PStr "request_headers_complete"); ("status", PStr "ok");
     ("requested_action", PStr "allow"); ("phase", PInt 1)].
Definition safe_row : pyval :=
  native_row "r1-2" "/p"
    [("rule_id", PInt 1100301); ("phase", PInt 4); ("event", PStr "phase4_intervention"); ("status", PStr "blocked");
     ("requested_action", PStr "deny"); ("actual_action", PStr "log_only"); ("http_status", PInt 403);
     ("visible_http_status", PInt 200); ("response_committed", PBool true); ("headers_sent", PBool true);
     ("late_intervention", PBool true); ("late_intervention_mode", PStr "safe"); ("connection_aborted", PBool false)].

(** Each text a leaf holds, and what it decodes to. *)
Definition leaf_values (observed_status : Z) : list (string * pyval) :=
  [("observation.json", PDict (mkdict [("case_id", PStr "h3_phase4_safe"); ("run_id", PStr "r1");
                                       ("actual_status", PInt observed_status); ("request_path", PStr "/p")]));
   ("client.json", PDict (mkdict [("http_code", PInt 200); ("exit_code", PInt 0); ("http_version", PStr "3");
                                  ("trace", PStr "* [HTTP/3] [4] OPENED stream for https://127.0.0.1/p")]));
   ("quic.json", PDict (mkdict [("datagrams", PList [datagram "request"; datagram "response"])]));
   ("cleanup.json", PDict (mkdict [("verified", PBool true); ("udp_listener_open", PBool false)]));
   (ROLES_FILE, PDict (mkdict [("master_uid", PInt 0); ("worker_uid", PInt 65534)]));
   ("first access", access_row ALLOW_PATH "r1-1"); ("second access", access_row "/p" "r1-2");
   ("first event", allow_row); ("second event", safe_row)].
Definition leaf_content (leaf : string) : string :=
  let lines a b := a +:+ String "010"%char b in
  if String.eqb leaf "access.jsonl" then lines "first access" "second access"
  else if String.eqb leaf "native-events.jsonl" then lines "first event" "second event" else leaf.

(** ** The bundle *)

Definition file_digest (c : chars) : string := weak_digest (L2S c).
Definition demo_receipt : pydict := mkdict
  [("case_id", PStr "h3_phase4_safe"); ("run_id", PStr "r1"); ("integration_mode", PStr MODE);
   ("parent_sha", PStr revision); ("framework_sha", PStr revision); ("mrts_sha", PStr revision);
   ("contract_sha256", PStr (weak_digest "source")); ("driver_sha256", PStr (weak_digest "source"));
   ("rules_sha256", PStr (weak_digest "source")); ("binary_sha256", PStr (weak_digest "nginx"));
   ("module_sha256", PStr (weak_digest "module"));
   ("sha256", PDict (mkdict (map (fun leaf => (leaf, PStr (weak_digest (leaf_content leaf)))) LEAVES)))].

Definition demo_root : abs_path := {| double := false; parts := ["srv"; "run"] |}.
Definition some_stat (fmt mode : Z) : stat :=
  {| st_dev := 1; st_ino := 1; st_fmt := fmt; st_mode := mode; st_size := 0; st_nlink := 1; st_uid := 1000;
     st_mtime_ns := 0; st_ctime_ns := 0 |}.
Definition demo_reader (observed_status : Z) (receipt_value : pyval) : protocol_system := {|
  path_is_symlink := fun _ => false;
  directory_stat := fun _ => Ok (some_stat S_IFDIR 448);
  leaf_open := fun p =>
    match find (fun leaf => String.eqb p ("/srv/run/bundle/" +:+ leaf)) (RECEIPT_FILE :: LEAVES) with
    | Some leaf => Ok (some_stat S_IFREG 384, S2L (leaf_content leaf))
    | None => Err (OSError "No such file or directory")
    end;
  euid := 1000;
  source_bytes := fun _ => Ok (S2L "source");
  loads := fun c => match entry (L2S c) ((RECEIPT_FILE, receipt_value) :: leaf_values observed_status) with
                    | Some v => Ok v
                    | None => Err (ValueError "Expecting value")
                    end;
  NginxProtocol.digest := file_digest |}.
Definition demo_system (observed_status : Z) (receipt_value : pyval) : record_system := {|
  reader := demo_reader observed_status receipt_value;
  sha256_file := fun p => Ok (weak_digest p);
  run_manifest := fun _ => Ok (Some (PDict (mkdict
    [("run_id", PStr "r1"); ("connector_commit", PStr revision); ("framework_commit", PStr revision)])));
  git_value := fun _ => revision;
  exception_text := fun e => match e with ValueError s => s | _ => "" end |}.

Definition demo_raw (bundle : string) : pydict := mkdict
  [("case_id", PStr "h3_phase4_safe"); ("run_id", PStr "r1"); ("status", PStr "PASS"); ("live_executed", PBool true);
   ("integration_mode", PStr MODE); ("protocol_bundle", PStr bundle);
   ("protocol_receipt_sha256", PStr (weak_digest "/srv/run/bundle/receipt.json")); ("exit_code", PStr "0")].
Definition demo_protocol_case : pydict := mkdict
  [("case_id", PStr "h3_phase4_safe"); ("request", PDict (mkdict [("protocol_profile", PStr "h3")])); ("phase", PInt 4);
   ("expected_rule_id", PInt 1100301); ("expected_status", PInt 200);
   ("expected_result", PStr "late_intervention_log_only_safe"); ("expected_event_fields", PList [PStr "rule_id"])].

Definition demo_normalized (observed_status : Z) (receipt_value : pyval) (raw : pydict) : res pydict :=
  normalize_protocol_record (demo_system observed_status receipt_value) weak_digest (Some demo_root) raw
    demo_protocol_case "nginx".
Definition record_of (r : res pydict) : pydict := match r with Ok d => d | Err _ => [] end.
Definition demo_protocol_record : pydict := record_of (demo_normalized 200 (PDict demo_receipt) (demo_raw "bundle")).

Lemma protocol_record_sound_witness :
  dict_get "status" demo_protocol_record = PStr "PASS" /\
  dict_get "negotiated_protocol" demo_protocol_record = PStr "h3" /\
  exists root bundle case_id run identities o p,
    authorised (demo_system 200 (PDict demo_receipt)) (Some demo_root) (demo_raw "bundle") demo_protocol_case "nginx" root
      bundle (PStr case_id) run identities /\
    proved (demo_reader 200 (PDict demo_receipt)) (below_root root bundle) case_id run identities o p /\
    dict_find "actual_status" demo_protocol_record = Some (PInt (op_status o)).
Proof.
  split; [vm_compute; reflexivity|]. split; [vm_compute; reflexivity|].
  destruct (protocol_record_sound (demo_system 200 (PDict demo_receipt)) weak_digest (Some demo_root) (demo_raw "bundle")
    demo_protocol_case "nginx" demo_protocol_record) as (root & bundle & id & run & ids & o & p & A & P & _ & S & _);
    [vm_compute; reflexivity..|].
  exists root, bundle, id, run, ids, o, p. exact (conj A (conj P S)).
Defined.

Lemma protocol_record_stable_witness :
  demo_normalized 200 (PDict demo_receipt) demo_protocol_record = Ok demo_protocol_record.
Proof.
  apply (protocol_record_stable (demo_system 200 (PDict demo_receipt)) weak_digest (Some demo_root) (demo_raw "bundle")
    demo_protocol_case "nginx" demo_protocol_record); vm_compute; reflexivity.
Defined.

(** Another status of the wire, a path that leaves the authority and a receipt that is
    no mapping: the first two are records that fail, the third is an exception that
    [normalize_protocol_record] does not expect. *)
Example protocol_refused_ex :
  dict_get "reason" (record_of (demo_normalized 403 (PDict demo_receipt) (demo_raw "bundle")))
    = PStr "actual protocol wire status differs from contract" /\
  dict_get "reason" (record_of (demo_normalized 200 (PDict demo_receipt) (demo_raw "/etc/bundle")))
    = PStr "protocol bundle escaped explicit source authority" /\
  demo_normalized 200 (PList []) (demo_raw "bundle") = Err (AttributeError "get").
Proof. vm_compute. repeat split. Qed.

(** * A run that derives its records: witnesses of the derivations *)

From S2P Require Export DerivationTheorems.
From S2P Require Import CaseWitnesses NativeTheorems NativeBundleTheorems Catalog.

(** ** A run of one payload *)

Definition deny_case (id : string) : pydict :=
  mkdict [("case_id", PStr id); ("phase", PInt 1); ("expected_result", PStr "deny"); ("expected_status", PInt 403);
          ("expected_rule_id", PInt 1100001); ("expected_event_fields", PList [PStr "rule_id"])].
Definition derived_cases : case_table :=
  [("deny_header_marker_403", deny_case "deny_header_marker_403"); ("event_contains_rule_id", deny_case "event_contains_rule_id");
   ("old_rule_event", dict_set "deprecated_alias_for" (PStr "event_contains_rule_id") (deny_case "old_rule_event"))].
Definition planned_case (id : string) : pyval :=
  PDict (mkdict [("case_id", PStr id); ("selection_status", PStr "SELECTED")]).
Definition derived_context : FinalizeContext :=
  {| manifest := mkdict [("run_id", PStr "r1"); ("integration_mode", PStr "host")];
     plan := mkdict [("connector", PStr "nginx"); ("run_id", PStr "r1");
                     ("cases", PList (map planned_case ["deny_header_marker_403"; "event_contains_rule_id"; "old_rule_event"]))];
     artifact_profile := "core"; connector := "nginx"; evidence_stage := "no_crs_baseline"; case_by_id := derived_cases |}.
Definition deny_event (rule : Z) : pydict :=
  mkdict [("connector", PStr "nginx"); ("phase", PInt 1); ("event", PStr "phase1_intervention"); ("message_id", PStr "m1");
          ("rule_id", PInt rule); ("transaction_id", PStr "t1"); ("http_status", PInt 403); ("status", PStr "blocked");
          ("requested_action", PStr "deny"); ("actual_action", PStr "deny"); ("visible_http_status", PInt 403)].
Definition payload (status : Z) : pydict :=
  mkdict [("requests_sent", PBool true); ("blocked_request_status", PInt status); ("rule_id", PStr "1100001")].

Abbreviation derived_normalizer := (unauthorised_normalizer small_event_schema PNone PNone 9 [] no_system
  (demo_system 200 (PDict demo_receipt)) weak_digest (fun _ => None) unit (fun _ => PNone)
  (fun _ _ _ => Err (ValueError "")) (fun _ _ => Err (ValueError ""))).

Definition derived_run (status : Z) (events : list pydict) : res (list pydict * pydict) :=
  derive_finalize_records small_event_schema 9 derived_normalizer derived_context events [] [payload status] None.
Definition finished_run (status : Z) (events : list pydict) : res (list pydict * list pydict) :=
  let* (records, by_id) := derived_run status events in
  let* completed := complete_records derived_context records by_id 0 "" in
  let* final := bind_case_protocol_provenance no_normaliser completed (manifest derived_context) (case_by_id derived_context)
                  events (required_event_integration_mode (manifest derived_context)) in
  Ok (completed, final).
Definition outcomes (r : res (list pydict * list pydict)) : list (string * pyval * pyval) :=
  match r with
  | Ok (_, l) => map (fun d => (case_id_of d, dict_get "status" d, dict_get "reason" d)) l
  | Err _ => []
  end.

(** The payload alone makes the core case pass, the core case the field of its event, and
    that field the deprecated alias; without the 403, or without the rule, nothing passes. *)
Example derived_run_ex :
  outcomes (finished_run 403 [deny_event 1100001])
  = [("deny_header_marker_403", PStr "PASS", PStr "normalized from explicit source blocked_request_status and rule ID");
     ("event_contains_rule_id", PStr "PASS", PStr "derived from the observed rule-1100001 event");
     ("old_rule_event", PStr "PASS", PStr "deprecated alias for event_contains_rule_id; canonical replacement passed")] /\
  map (fun o => snd (fst o)) (outcomes (finished_run 200 [deny_event 1100001]))
  = [PStr "FAIL"; PStr "NOT_EXECUTED"; PStr "NOT_EXECUTED"] /\
  map (fun o => snd (fst o)) (outcomes (finished_run 403 [deny_event 1100002]))
  = [PStr "FAIL"; PStr "NOT_EXECUTED"; PStr "NOT_EXECUTED"].
Proof. vm_compute. repeat split. Qed.

Definition derived_records : list pydict * pydict :=
  match derived_run 403 [deny_event 1100001] with Ok r => r | Err _ => ([], []) end.
Definition finished : list pydict * list pydict :=
  match finished_run 403 [deny_event 1100001] with Ok r => r | Err _ => ([], []) end.

Lemma finished_pass_grounded_witness :
  DerivationTheorems.grounded small_event_schema 9 (plan derived_context) derived_cases [deny_event 1100001] None [] [payload 403] "old_rule_event".
Proof.
  assert (Hin : In (default [] (snd finished !! 2%nat)) (snd finished)).
  { vm_compute. right. right. left. reflexivity. }
  pose proof (finished_pass_grounded small_event_schema 9 derived_normalizer derived_context [deny_event 1100001] []
    [payload 403] None (snd derived_records) (fst derived_records) 0 "" (fst finished) no_normaliser (snd finished)
    ltac:(vm_compute; reflexivity) ltac:(vm_compute; reflexivity) ltac:(vm_compute; reflexivity)
    (default [] (snd finished !! 2%nat)) Hin ltac:(vm_compute; reflexivity)) as G.
  replace (case_id_of (default [] (snd finished !! 2%nat))) with "old_rule_event" in G by (vm_compute; reflexivity).
  exact G.
Defined.

(** ** The alias of a client observation *)

Definition client_cases : case_table :=
  [("client", mkdict [("case_id", PStr "client"); ("phase", PInt 1); ("deprecated_alias_for", PStr "successor");
                      ("runner_case", PStr "cases/client.yaml")]);
   ("successor", mkdict [("case_id", PStr "successor"); ("phase", PInt 1)])].
Definition clients : pydict := mkdict [("defaults", PDict []); ("cases", PList (map (fun c => PDict (snd c)) client_cases))].
Abbreviation client_normalizer := (unauthorised_normalizer small_event_schema PNone PNone 9 clients no_system
  (demo_system 200 (PDict demo_receipt)) weak_digest (fun _ => Some (weak_digest "case")) unit (fun _ => PNone)
  (fun _ _ _ => Err (ValueError "")) (fun _ _ => Err (ValueError ""))).

(** A client observation of a deprecated alias passes; the target that is derived from it
    names another case than its receipt, and the derivation raises. *)
Example client_alias_ex :
  let record := normalized_record (client_normalizer (client_raw 20) "nginx" client_cases [] None) in
  dict_get "status" record = PStr "PASS" /\
  derive_deprecated_alias_targets client_normalizer client_cases [] None [record]
    (mkdict [("cases", PList [planned_case "client"; planned_case "successor"])])
  = Err (ValueError "request observation nonce or context differs from its receipt").
Proof. vm_compute. split; reflexivity. Qed.

(** ** A native operation over HTTP/1 *)

Definition native_case : pydict :=
  dict_update (deny_case "native") [("native_invocations", PDict (mkdict [("nginx", PDict (mkdict [("operation", PStr "request")]))]));
                                    ("request", PDict (mkdict [("protocol_profile", PStr "http1")]))].
Definition catalog_schema : pyval :=
  PDict (mkdict [("properties", PDict (mkdict [("cases", PDict (mkdict [("items", PDict [])]))]))]).
Definition native_observation : pyval :=
  PDict (mkdict [("run_id", PStr "r1"); ("case_id", PStr "native");
    ("requests", PList [PDict (mkdict [("path", PStr "/p"); ("http_version", PInt 11)])]);
    ("native_access", PList [PDict (mkdict [("uri", PStr "/p"); ("transaction_id", PStr "t1"); ("connection", PStr "7")])])]).
Definition native_event : pydict :=
  dict_update (deny_event 1100001) [("uri", PStr "/p"); ("integration_mode", PStr "host")].
Definition demo_facts (status : Z) : native_facts := {|
  nf_overrides := []; nf_actual_status := PInt status; nf_selected := [native_event];
  nf_semantic_event := Some native_event; nf_observed_fields := [PStr "rule_id"]; nf_transactions := [PStr "t1"];
  nf_mapped := mkdict [("rule_id", PList [PInt 1100001])]; nf_origins := mkdict [("rule_id", PList [PStr "line 0"])];
  nf_event_origins := PList []; nf_semantic_origin := PNone; nf_semantic_origins := PList []; nf_cause := PList [];
  nf_semantics := mkdict [("expected_result", PStr "deny")]; nf_evidence_origins := PDict []; nf_original := PNone |}.
Definition native_raw : pydict :=
  mkdict [("case_id", PStr "native"); ("status", PStr "PASS"); ("run_id", PStr "r1"); ("integration_mode", PStr "host");
          ("parent_framework_gitlink", PStr revision); ("driver_exit_code", PInt 0); ("native_operation_receipt", PDict [])].
Definition demo_authority : native_authority :=
  {| na_root := demo_root; na_sources := PDict (mkdict [("framework_sha", PStr revision)]); na_run_id := PStr "r1" |}.
Definition normalize_native (status : Z) (authority : option native_authority) : res pydict :=
  normalize_native_operation_record small_event_schema catalog_schema 9 weak_digest (fun e => match e with ValueError s => s | _ => "" end)
    pyval (fun p => p) (fun _ _ _ => Ok native_observation) (fun _ _ => Ok (demo_facts status)) native_raw native_case "nginx"
    authority.
Definition native_record : pydict := record_of (normalize_native 403 (Some demo_authority)).

Lemma native_record_sound_witness :
  dict_find "actual_status" native_record = Some (PInt 403) /\
  exists e fields ev, h1_bound small_event_schema 9 pyval (fun p => p) native_raw native_case native_observation e fields ev.
Proof.
  destruct (native_record_sound small_event_schema catalog_schema 9 weak_digest
    (fun e => match e with ValueError s => s | _ => "" end) pyval (fun p => p) (fun _ _ _ => Ok native_observation)
    (fun _ _ => Ok (demo_facts 403)) native_raw native_case "nginx" (Some demo_authority) native_record
    ltac:(vm_compute; reflexivity) ltac:(vm_compute; reflexivity))
    as (_ & _ & a & sources & reopened & p & _ & _ & _ & _ & Hv & Hd & _ & Hb & Ha & _).
  injection Hv as <-. injection Hd as Hd. rewrite <- Hd in Ha. split; [exact Ha|].
  destruct Hb as [(profile & Hp & Hn)|(e & ev & _ & Hb)]; [|exists e, (np_fields p), ev; exact Hb].
  vm_compute in Hp. injection Hp as <-. vm_compute in Hn. discriminate Hn.
Defined.

(** Another status of the wire, and no authority at all. *)
Example native_refused_ex :
  let verdict r := (dict_get "status" (record_of r), dict_get "reason" (record_of r)) in
  verdict (normalize_native 404 (Some demo_authority))
  = (PStr "FAIL", PStr "actual native wire status does not match explicit case contract") /\
  verdict (normalize_native 403 None)
  = (PStr "FAIL", PStr "native operation has no explicit source/artifact authority").
Proof. vm_compute. split; reflexivity. Qed.

(** ** A native operation under the closed contract *)

(** The schema of cases, as far as it declares native operations. *)
Definition declared_operation (case_id : string) : pyval :=
  PDict (mkdict [("operation", PStr (match route (PStr case_id) with Ok (o, _) => o | Err _ => "" end));
                 ("contract_case_id", PStr case_id)]).
Definition native_branch (case_id : string) : pyval :=
  PDict (mkdict [("properties", PDict (mkdict
    [("case_id", PDict (mkdict [("const", PStr case_id)]));
     ("native_invocations", PDict (mkdict [("const", PDict (mkdict [("nginx", declared_operation case_id)]))]))]))]).
Definition native_schema : pyval :=
  PDict (mkdict [("properties", PDict (mkdict [("cases", PDict (mkdict [("items", PDict (mkdict
    [("allOf", PList [PDict []; PDict (mkdict
       [("if", PDict (mkdict [("required", PList [PStr "native_invocations"])]));
        ("then", PDict (mkdict [("anyOf", PList (map native_branch CASE_IDS))]))])])]))]))]))]).

Definition truncation : string := "event_metadata_truncation".
Definition truncation_case : pydict :=
  dict_update (deny_case truncation)
    [("native_invocations", PDict (mkdict [("nginx", declared_operation truncation)]));
     ("expected_result", PStr "event_metadata_truncated"); ("expected_status", PInt 200); ("expected_rule_id", PInt 1100402);
     ("phase", PInt 1); ("expected_event_fields", PList [PStr "truncated"; PStr "rule_id"; PStr "run_id"])].

Definition source_event (l : list (string * pyval)) : pydict :=
  mkdict ([("connector", PStr "nginx"); ("integration_mode", PStr "native-nginx-http-module"); ("transaction_id", PStr "t1");
           ("status", PStr "ok")] ++ l).
Definition match_event : pydict :=
  source_event [("event", PStr "rule_match"); ("message_id", PStr "MSCONN_EVENT_RULE_MATCHED"); ("phase", PStr "request_headers");
                ("rule_id", PStr "1100402"); ("truncated", PBool true)].
Definition cleanup_event : pydict :=
  source_event [("event", PStr "transaction_cleanup"); ("message_id", PStr "MSCONN_TRANSACTION_CLEANUP"); ("phase", PStr "logging");
                ("rule_id", PStr "")].
Definition log_of (events : list pydict) : chars := concat (map (fun e => S2L (json_text (PDict e)) ++ [chr 10]) events).

(** The decoder of the lines that occur here. *)
Definition demo_decoder (line : chars) : res pydict :=
  match find (fun e => String.eqb (json_text (PDict e)) (L2S line)) [match_event; cleanup_event] with
  | Some e => Ok e
  | None => Err (ValueError "invalid retained JSON")
  end.

Definition demo_proof (events : list pydict) (logged : list pydict) : strict_proof :=
  let operation := PStr "native_event_boundary_request" in
  {| sp_fields := mkdict
       [("layer_verified", PBool true); ("errors", PList []); ("case_id", PStr truncation); ("operation", operation);
        ("run_id", PStr "r1"); ("actual_status", PInt 200);
        ("receipt", PDict (mkdict [("case_id", PStr truncation); ("operation", operation); ("run_id", PStr "r1")]));
        ("invocation_receipts", PDict (mkdict [("main", PDict (mkdict
           [("case_id", PStr truncation); ("operation", operation); ("run_id", PStr "r1-long-query")]))]));
        ("events", PList (map PDict events)); ("transaction_ids", PList [PStr "t1"]);
        ("files", PDict (mkdict [("long-query/source-result.json", PDict (mkdict [("sha256", PStr (weak_digest "receipt"))]))]))];
     sp_raw := [("main", [("phase1-events.jsonl", log_of logged)])] |}.
Definition good_proof : strict_proof := demo_proof [match_event; cleanup_event] [match_event; cleanup_event].

Definition plain_text (e : exn) : string := match e with ValueError s => s | _ => "" end.
Definition chars_digest (l : chars) : string := weak_digest (L2S l).
Definition derived_facts (p : strict_proof) : res native_facts :=
  derive_native_operation_contract native_schema 20 chars_digest plain_text demo_decoder truncation_case p.
Definition truncation_raw : pydict := dict_update native_raw [("case_id", PStr truncation)].
Definition normalize_truncation (p : strict_proof) : res pydict :=
  normalize_native_operation_record small_event_schema native_schema 20 weak_digest plain_text strict_proof (sp_get "observation")
    (fun _ _ _ => Ok p) (derive_native_operation_contract native_schema 20 chars_digest plain_text demo_decoder)
    truncation_raw truncation_case "nginx" (Some demo_authority).

Lemma native_events_orderly_witness :
  orderly truncation ["t1"] [match_event; cleanup_event] /\
  judged_events demo_decoder (demo_proof [cleanup_event; match_event] []) truncation =
    Err (ValueError "native events cannot follow actual transaction cleanup").
Proof.
  split; [|vm_compute; reflexivity].
  apply (native_events_orderly demo_decoder good_proof truncation [match_event; cleanup_event] [match_event] ["t1"]).
  vm_compute. reflexivity.
Defined.

(** An event no log retains, and two events of one transaction beside its cleanup. *)
Example unretained_ex :
  derived_facts (demo_proof [match_event; cleanup_event] [cleanup_event]) =
    Err (ValueError "native fact absent from original retained JSONL: event") /\
  derived_facts (demo_proof [match_event; match_event; cleanup_event] [match_event; cleanup_event]) =
    Err (ValueError "actual event-boundary native matches required").
Proof. vm_compute. split; reflexivity. Qed.

(** ** A sealed bundle *)

(** A file system of owned files: sources below the two roots, and a bundle. *)
Definition connector_home : abs_path := {| double := false; parts := ["srv"; "connector"] |}.
Definition framework_home : abs_path := {| double := false; parts := ["srv"; "framework"] |}.
Definition sized_stat (content : string) : stat :=
  {| st_dev := 1; st_ino := 2; st_fmt := S_IFREG; st_mode := 384; st_size := Z.of_nat (String.length content); st_nlink := 1;
     st_uid := 1000; st_mtime_ns := 0; st_ctime_ns := 0 |}.
Definition bundle_os (files : list (string * string)) : os := {|
  ObservationEvidence.geteuid := 1000; ObservationEvidence.cwd := []; node := list string; root_node := []; root_stat := some_stat S_IFDIR 448;
  stat_at := fun _ _ => Err (OSError "");
  ObservationEvidence.open_directory := fun n c => Ok (n ++ [c], some_stat S_IFDIR 448);
  open_file := fun n leaf =>
    let path := py_join "/" (n ++ [leaf]) in
    let content := if starts_with "srv/connector/" path || starts_with "srv/framework/" path then Some "source"
                   else entry path files in
    match content with
    | Some c => Ok {| opened := sized_stat c; content := c; final := sized_stat c |}
    | None => Err (OSError "No such file or directory")
    end |}.
Definition plain_context : context_system := {|
  cx_environ := fun _ => ""; cx_resolve := fun _ => Err (OSError ""); cx_resolve_strict := fun _ => Err (OSError "");
  cx_is_dir := fun _ => Ok false; cx_is_file := fun _ => Ok false; cx_exists := fun _ => Ok false;
  cx_git := fun _ => Err (OSError ""); cx_json := fun _ => Err (OSError "") |}.

Definition seal_of (s : string) : pyval := PStr (weak_digest s).
Definition home : string := "srv/run/bundle/".
Definition docroot : string := "/srv/docroots/" +:+ projection_name chars_digest truncation "r1-long-query".
Definition in_marks (s : string) : string := L2S ([chr 34] ++ S2L s ++ [chr 34]).
Definition host_configuration : string :=
  "load_module " +:+ in_marks "/x/nginx-module.so" +:+ "; user nobody nogroup; worker_processes 1; daemon off;" +:+
  " modsecurity on; root " +:+ in_marks docroot +:+ ";".
Definition sealed_cleanup : pydict :=
  dict_update cleanup_event
    [("action", PStr "allow"); ("actual_action", PStr "allow"); ("uri", PStr "/q"); ("cleanup_reason", PStr "normal");
     ("reason", PStr (cleanup_reason 1 "none"))].
Definition event_log (events : list pydict) : string := L2S (log_of events).

(** The leaves of the child, the receipt of the child and the receipt that encloses it. *)
Definition child_leaves (events : list pydict) : list (string * string) :=
  [("nginx.conf", host_configuration); ("configtest.stdout", "-");
   ("configtest.stderr", "/x/nginx.conf syntax is ok; test is successful"); ("startup.stdout", "-"); ("startup.stderr", "-");
   ("phase4-events.jsonl", event_log events)].
Definition revisions : list (string * pyval) := map (fun f => (f, PStr revision)) REVISIONS.
Definition child_receipt (events : list pydict) : pydict :=
  mkdict ([("case_id", PStr truncation); ("operation", PStr "native_event_boundary_request"); ("run_id", PStr "r1-long-query");
           ("configtest_exit_code", PInt 0); ("docroot_projection_parent", PStr "/srv/docroots");
           ("docroot_projection_root", PStr docroot); ("driver_sha256", seal_of "source");
           ("closed_inputs_sha256", seal_of "source"); ("upstream_driver_sha256", seal_of "source");
           ("raw_sha256", PDict (mkdict (map (fun l => (fst l, seal_of (snd l))) (child_leaves events))));
           ("binary_sha256", seal_of "binary"); ("module_sha256", seal_of "module");
           ("native_events", PList [PDict (mkdict [("transaction_id", PStr "t1"); ("uri", PStr "/q")])])] ++ revisions).
Definition enclosing_receipt : pydict :=
  mkdict ([("case_id", PStr truncation); ("run_id", PStr "r1"); ("operation", PStr "native_event_boundary_request");
           ("driver_sha256", seal_of "source"); ("closed_inputs_sha256", seal_of "source");
           ("closed_input_dependencies_sha256",
            PDict (mkdict [("nginx_common_input_faults.py", seal_of "source"); ("nginx_mime_operations.py", seal_of "source")]))]
          ++ revisions).

(** The files of the bundle, with the named leaf replaced. *)
Definition bundle_files (events : list pydict) (leaf replacement : string) : list (string * string) :=
  map (fun l => (home +:+ fst l, if String.eqb (fst l) leaf then replacement else snd l))
    ([("source-result.json", "enclosing receipt"); ("long-query/source-result.json", "child receipt");
      ("long-query/nginx-binary", "binary"); ("long-query/nginx-module.so", "module")]
     ++ map (fun l => ("long-query/" +:+ fst l, snd l)) (child_leaves events)).

(** The decoder of the texts that occur here. *)
Definition decoded_texts (events : list pydict) : list (string * pydict) :=
  [("child receipt", child_receipt events); ("enclosing receipt", enclosing_receipt)]
  ++ map (fun e => (json_text (PDict e), e)) [match_event; sealed_cleanup].
Definition bundle_decoder (events : list pydict) (text : chars) : res pydict :=
  match entry (L2S text) (decoded_texts events) with Some d => Ok d | None => Err (ValueError "invalid retained JSON") end.

Definition silent_helper : helper_module := {|
  hm_request_path := fun _ _ => Ok ""; hm_request_bytes := fun _ _ _ => Ok []; hm_response_status := fun _ => Ok 200;
  hm_validate_host_rejection := fun _ _ _ _ _ => Ok []; hm_observation_errors := fun _ _ _ => Ok [];
  hm_validate_mime_operation := fun _ _ _ => Ok []; hm_validate_phase4_operation := fun _ _ _ => Ok [];
  hm_validate_event_boundary_operation := fun _ _ _ => Ok [] |}.

Definition demo_envelope : pydict :=
  mkdict [("schema_version", PInt 1); ("case_id", PStr truncation); ("run_id", PStr "r1");
          ("operation", PStr "native_event_boundary_request"); ("integration_mode", PStr "native-nginx-http-module");
          ("bundle_root", PStr "bundle"); ("parent_receipt_path", PStr "source-result.json");
          ("parent_receipt_sha256", seal_of "enclosing receipt");
          ("invocations", PList [PDict (mkdict [("name", PStr "main"); ("receipt_path", PStr "long-query/source-result.json");
                                                ("receipt_sha256", seal_of "child receipt")])]);
          ("source_sha256", PDict (mkdict (match required_source_paths (PStr truncation) with
                                           | Ok names => map (fun n => (n, seal_of "source")) names
                                           | Err _ => []
                                           end)))].
Definition sealed_raw : pydict :=
  dict_update truncation_raw
    ([("connector", PStr "nginx"); ("integration_mode", PStr "native-nginx-http-module");
      ("operation", PStr "native_event_boundary_request"); ("native_operation_receipt", PDict demo_envelope)] ++ revisions).
Definition sealed_sources : pydict :=
  mkdict (revisions ++ [("binary_sha256", seal_of "binary"); ("module_sha256", seal_of "module")]).
Definition good_log : list pydict := [match_event; sealed_cleanup].
Definition demo_files : list (string * string) := bundle_files good_log "" "".

Abbreviation demo_validate files := (validate_native_operation_bundle (bundle_os files) plain_context chars_digest
  (bundle_os files) plain_context plain_text (bundle_decoder good_log) (fun _ => Ok silent_helper) connector_home framework_home).

Definition sealed_authority : native_authority :=
  {| na_root := demo_root; na_sources := PDict sealed_sources; na_run_id := PStr "r1" |}.
Abbreviation normalize_sealed files :=
  (normalize_native_operation_record small_event_schema native_schema 20 weak_digest plain_text strict_proof (sp_get "observation")
    (fun raw root sources => let* b := demo_validate files raw root sources in Ok (nb_proof b))
    (derive_native_operation_contract native_schema 20 chars_digest plain_text (bundle_decoder good_log))
    sealed_raw truncation_case "nginx" (Some sealed_authority)).
Definition verdict_of (r : res pydict) : pyval * pyval := (dict_get "status" (record_of r), dict_get "reason" (record_of r)).

Lemma decoder_values raw d : bundle_decoder good_log raw = Ok d -> json_value (PDict d) = true.
Proof.
  unfold bundle_decoder. destruct (entry _ _) as [e|] eqn:E; [|done]. intros H. apply Ok_inj in H as <-. apply entry_In in E.
  assert (H : forallb (fun t => json_value (PDict (snd t))) (decoded_texts good_log) = true) by (vm_compute; reflexivity).
  rewrite forallb_forall in H. exact (H _ E).
Qed.


Lemma native_pass_sealed_witness : exists record b facts events transactions,
  normalize_sealed demo_files = Ok record /\ dict_get "status" record = PStr "PASS" /\
  contract_grounded chars_digest (bundle_decoder good_log) (nb_proof b) truncation_case facts truncation events transactions /\
  dict_find "observed_result" record = Some (PStr "event_metadata_truncated").
Proof.
  assert (V : fst (verdict_of (normalize_sealed demo_files)) = PStr "PASS") by (vm_compute; reflexivity).
  destruct (normalize_sealed demo_files) as [record|e] eqn:E; [|discriminate V].
  destruct (native_pass_sealed (bundle_os demo_files) plain_context chars_digest (bundle_os demo_files) plain_context plain_text
    (bundle_decoder good_log) (fun _ => Ok silent_helper) connector_home framework_home decoder_values small_event_schema
    native_schema 20 weak_digest sealed_raw truncation_case "nginx" (Some sealed_authority) record E V)
    as (a & sources & b & facts & case_id & run_id & operation & events & transactions & _ & _ & _ & _ & _ & G & _ & _ & R).
  assert (case_id = truncation) as ->.
  { destruct (cg_case _ _ _ _ _ _ _ _ G) as (Hc & _). vm_compute in Hc. injection Hc as <-. reflexivity. }
  exists record, b, facts, events, transactions. split; [reflexivity|]. split; [exact V|]. split; [exact G|]. rewrite R. reflexivity.
Defined.

(** Another binary of the host, and a log of which a line is gone. *)
Example unsealed_ex :
  verdict_of (normalize_sealed (bundle_files good_log "long-query/nginx-binary" "other")) =
    (PStr "FAIL", PStr "retained raw digest mismatch: long-query/nginx-binary") /\
  verdict_of (normalize_sealed (bundle_files good_log "long-query/phase4-events.jsonl" (event_log [match_event]))) =
    (PStr "FAIL", PStr "retained raw digest mismatch: long-query/phase4-events.jsonl").
Proof. vm_compute. split; reflexivity. Qed.

(** The closed table of results names every case. *)
Example results_closed : sort_strs (map fst CASE_RESULTS) = sort_strs CASE_IDS /\ List.length CASE_IDS = 42%nat.
Proof. vm_compute. split; reflexivity. Qed.
