(* ===== verification/Selection.v ===== *)
(** * Selecting the cases of a run (no_crs_baseline.py)

    [select_cases] classifies every case of a catalog by the capabilities of a host and
    resolves how a selected nginx case is invoked; [validate_plan_against_capabilities]
    compares a stored plan with a fresh selection.  The catalog schema is a parameter,
    [fuel] bounds the expansion of its references. *)

From S2P Require Export Catalog NginxProtocol.
From S2P Require Import ObservationEvidence.
From Stdlib Require Import QArith.
#[global] Open Scope Z_scope.

Definition SELECTION_STATUSES : list string := ["SELECTED"; "UNSUPPORTED"; "NOT_APPLICABLE"; "NOT_EXECUTED"].
Definition DEFAULT_ARTIFACT_PROFILE : string := "generic".
Definition ARTIFACT_PROFILES : list string := [DEFAULT_ARTIFACT_PROFILE; FULL_LIFECYCLE_ARTIFACT_PROFILE].
Definition DOWNSTREAM_PROTOCOLS : list string := ["any"; "http1"; "h2"; "h2c"; "h3"].
Definition MINIMAL_RUNTIME_CASE_IDS : list string := ["allow_without_marker"; "deny_header_marker_403"].

(** ** Profiles *)

Definition normalize_artifact_profile (v : pyval) : res string :=
  let profile := py_strip (if truthy v then py_str v else DEFAULT_ARTIFACT_PROFILE) in
  if str_in profile ARTIFACT_PROFILES then Ok profile
  else Err (ContractError ("unsupported artifact profile: " +:+ repr_str profile)).

(** [isinstance(v, str)] and not blank. *)
Definition nonblank_text (v : pyval) : option string :=
  match v with PStr s => if String.eqb (py_strip s) "" then None else Some s | _ => None end.

Definition canonical_artifact_profile (payload : pydict) (label : string) : res string :=
  match dict_find "artifact_profile" payload with
  | None => Err (ContractError (label +:+ ": missing artifact_profile"))
  | Some v => match nonblank_text v with
              | Some s => normalize_artifact_profile (PStr s)
              | None => Err (ContractError (label +:+ ": artifact_profile must be a non-empty string"))
              end
  end.

Definition normalize_host_profile (v : pyval) (dflt : string) : string := or_text (py_strip (text_of v)) dflt.

Definition canonical_host_profile (payload : pydict) (label : string) : res string :=
  match dict_find "host_profile" payload with
  | None => Err (ContractError (label +:+ ": missing host_profile"))
  | Some v => match nonblank_text v with
              | Some s => Ok (py_strip s)
              | None => Err (ContractError (label +:+ ": host_profile must be a non-empty string"))
              end
  end.

Definition validate_selection_profile (catalog : pydict) (evidence_stage artifact_profile : string) : res unit :=
  if negb (String.eqb artifact_profile FULL_LIFECYCLE_ARTIFACT_PROFILE) then Ok tt
  else
    guard (String.eqb evidence_stage "no_crs_baseline")
      (ContractError "full_lifecycle artifact profile requires the no_crs_baseline evidence stage") ;;;
    guard (eq_str (dict_get "full_lifecycle_artifact_profile" catalog) artifact_profile)
      (ContractError "catalog does not declare the requested full_lifecycle artifact profile").

Definition selected_catalog_cases (catalog : pydict) (evidence_stage : string) : res (list pydict) :=
  let* cases := catalog_cases catalog in
  if String.eqb evidence_stage "minimal_runtime_smoke"
  then filterM (fun case => let* id := dict_item "case_id" case in Ok (in_strs id MINIMAL_RUNTIME_CASE_IDS)) cases
  else Ok cases.

(** ** Capability states *)

Definition states := list (string * string).
Definition some_state (state : string) (s : states) : bool := existsb (fun p => String.eqb (snd p) state) s.

Definition selection_status_for_states (s : states) : string :=
  if some_state "unsupported_by_host_model" s then "UNSUPPORTED"
  else if some_state "not_applicable" s then "NOT_APPLICABLE"
  else if some_state "not_implemented" s then "NOT_EXECUTED"
  else "SELECTED".

(** [capabilities\[name\]] *)
Definition capability (capabilities : pyval) (name : string) : res pyval := item_path [name] capabilities.

Definition selection_reason (s : states) (capabilities : pyval) : res string :=
  let* reasons := mapM (fun p =>
    let* value := capability capabilities (fst p) in
    let reason := match value with PDict d => text_of (dict_get "reason" d) | _ => "" end in
    Ok (fst p +:+ "=" +:+ snd p +:+ (if String.eqb reason "" then "" else " (" +:+ reason +:+ ")"))) s in
  Ok (py_join "; " reasons).

(** ** Closed invocations of nginx *)

Definition NGINX_FIRST_BYTE_FIXTURE_PATH : string := "full-lifecycle/phase4_first_byte_before_response_end.yaml".

Definition reuse (operation : string) (sources : list string) (mapping : string) : pydict :=
  mkdict [("operation", PStr operation); ("source_case_ids", PList (map PStr sources)); ("mapping", PStr mapping)].

Definition NGINX_DERIVED_INVOCATIONS : list (string * pydict) :=
  [("allow", reuse "explicit_contract_reuse"
      ["allow_without_marker"] "append_explicit_reuse_records");
   ("deny", reuse "explicit_contract_reuse"
      ["deny_header_marker_403"] "append_explicit_reuse_records");
   ("deny_response_header_marker_403", reuse "explicit_contract_reuse"
      ["phase3_deny_before_commit"] "native_runner_core_case_alias");
   ("event_contains_connector", reuse "explicit_contract_reuse"
      ["deny_header_marker_403"] "append_derived_event_records");
   ("event_contains_phase", reuse "explicit_contract_reuse"
      ["deny_header_marker_403"] "append_derived_event_records");
   ("event_contains_rule_id", reuse "explicit_contract_reuse"
      ["deny_header_marker_403"] "append_derived_event_records");
   ("event_contains_status", reuse "explicit_contract_reuse"
      ["deny_header_marker_403"] "append_derived_event_records");
   ("event_contains_transaction_id", reuse "explicit_contract_reuse"
      ["deny_header_marker_403"] "append_derived_event_records");
   ("event_has_no_request_body_payload", reuse "explicit_contract_reuse"
      ["deny_header_marker_403"; "deny_request_body_marker_403"] "append_derived_event_records");
   ("event_has_no_response_body_payload", reuse "explicit_contract_reuse"
      ["phase4_rule_observed"] "append_explicit_reuse_records");
   ("phase1_allow", reuse "explicit_contract_reuse"
      ["allow_without_marker"] "resolve_deprecated_aliases");
   ("phase1_alternative_status", reuse "explicit_contract_reuse"
      ["deny_with_alternative_status"] "resolve_deprecated_aliases");
   ("phase1_deny_403", reuse "explicit_contract_reuse"
      ["deny_header_marker_403"] "resolve_deprecated_aliases");
   ("phase1_redirect", reuse "explicit_contract_reuse"
      ["redirect_if_supported"] "resolve_deprecated_aliases");
   ("phase1_transaction_id", reuse "explicit_contract_reuse"
      ["transaction_id_present"] "resolve_deprecated_aliases");
   ("phase2_no_payload_event", reuse "explicit_contract_reuse"
      ["event_has_no_request_body_payload"] "resolve_deprecated_aliases");
   ("phase2_request_body_rule", reuse "explicit_contract_reuse"
      ["deny_request_body_marker_403"] "resolve_deprecated_aliases");
   ("phase3_original_and_visible_status", reuse "explicit_contract_reuse"
      ["phase3_deny_before_commit"] "append_explicit_reuse_records");
   ("phase3_response_header_rule", reuse "explicit_contract_reuse"
      ["deny_response_header_marker_403"] "resolve_deprecated_aliases");
   ("phase4_action_metadata", reuse "explicit_contract_reuse"
      ["phase4_event_contains_late_intervention_action"] "resolve_deprecated_aliases");
   ("phase4_deny_after_commit_abort", reuse "parent_selected_host"
      ["phase4_deny_after_commit_abort"] "append_selected_phase4_fixtures");
   ("phase4_deny_after_commit_abort_strict", reuse "explicit_contract_reuse"
      ["phase4_deny_after_commit_abort"] "append_explicit_reuse_records");
   ("phase4_deny_after_commit_log_only", reuse "parent_selected_host"
      ["phase4_deny_after_commit_log_only"] "append_selected_phase4_fixtures");
   ("phase4_deny_after_commit_log_only_safe", reuse "explicit_contract_reuse"
      ["phase4_deny_after_commit_log_only"] "native_runner_core_case_alias");
   ("phase4_event_contains_late_intervention_action", reuse "explicit_contract_reuse"
      ["phase4_deny_before_commit"; "phase4_deny_after_commit_log_only"; "phase4_deny_after_commit_log_only_minimal";
       "phase4_deny_after_commit_log_only_safe"; "phase4_deny_after_commit_abort"] "append_derived_phase4_records");
   ("phase4_event_contains_original_status", reuse "explicit_contract_reuse"
      ["phase4_deny_before_commit"; "phase4_deny_after_commit_log_only"; "phase4_deny_after_commit_log_only_minimal";
       "phase4_deny_after_commit_log_only_safe"; "phase4_deny_after_commit_abort"] "append_derived_phase4_records");
   ("phase4_first_byte_before_response_end", reuse "native_first_byte"
      ["phase4_first_byte_before_response_end"] "write-first-byte-source-results.py:main");
   ("phase4_no_full_response_buffering", reuse "native_first_byte"
      ["phase4_first_byte_before_response_end"] "write-first-byte-source-results.py:main");
   ("phase4_no_payload_event", reuse "explicit_contract_reuse"
      ["event_has_no_response_body_payload"] "resolve_deprecated_aliases");
   ("phase4_rule_observed", reuse "explicit_contract_reuse"
      ["phase4_deny_before_commit"; "phase4_deny_after_commit_log_only"; "phase4_deny_after_commit_log_only_minimal";
       "phase4_deny_after_commit_log_only_safe"; "phase4_deny_after_commit_abort"] "append_derived_phase4_records");
   ("phase4_status_metadata", reuse "explicit_contract_reuse"
      ["phase4_event_contains_original_status"] "resolve_deprecated_aliases")].

Definition inputs (phase : Z) (result : string) (status rule : pyval) (request : list (string * pyval)) (alias_for : pyval)
    : pydict :=
  mkdict [("phase", PInt phase); ("expected_result", PStr result); ("expected_status", status); ("expected_rule_id", rule);
          ("request", PDict (mkdict request)); ("deprecated_alias_for", alias_for)].

Definition NGINX_DERIVED_CONTRACT_INPUTS : list (string * pydict) :=
  [("allow", inputs 1 "allow" (PInt 200) PNone
      [("reuses", PStr "allow_without_marker")] PNone);
   ("deny", inputs 1 "deny" (PInt 403) (PInt 1100001)
      [("reuses", PStr "deny_header_marker_403")] PNone);
   ("deny_response_header_marker_403", inputs 3 "deny_or_late_intervention" (PInt 403) (PInt 1100201)
      [("method", PStr "GET"); ("path", PStr "/no-crs/response-header");
       ("response_fixture", PStr "X-Modsec-Upstream: block")] PNone);
   ("event_contains_connector", inputs 1 "event_metadata" (PInt 403) (PInt 1100001)
      [("reuses", PStr "deny_header_marker_403")] PNone);
   ("event_contains_phase", inputs 1 "event_metadata" (PInt 403) (PInt 1100001)
      [("reuses", PStr "deny_header_marker_403")] PNone);
   ("event_contains_rule_id", inputs 1 "event_metadata" (PInt 403) (PInt 1100001)
      [("reuses", PStr "deny_header_marker_403")] PNone);
   ("event_contains_status", inputs 1 "event_metadata" (PInt 403) (PInt 1100001)
      [("reuses", PStr "deny_header_marker_403")] PNone);
   ("event_contains_transaction_id", inputs 1 "event_metadata" (PInt 403) (PInt 1100001)
      [("reuses", PStr "deny_header_marker_403")] PNone);
   ("event_has_no_request_body_payload", inputs 2 "payload_absent" (PInt 403) (PInt 1100101)
      [("reuses", PStr "deny_request_body_marker_403")] PNone);
   ("event_has_no_response_body_payload", inputs 4 "payload_absent" PNone (PInt 1100301)
      [("reuses", PStr "phase4_rule_observed")] PNone);
   ("phase1_allow", inputs 1 "allow" (PInt 200) PNone
      [("reuses", PStr "allow_without_marker")] (PStr "allow_without_marker"));
   ("phase1_alternative_status", inputs 1 "deny" (PInt 429) (PInt 1100002)
      [("reuses", PStr "deny_with_alternative_status")] (PStr "deny_with_alternative_status"));
   ("phase1_deny_403", inputs 1 "deny" (PInt 403) (PInt 1100001)
      [("reuses", PStr "deny_header_marker_403")] (PStr "deny_header_marker_403"));
   ("phase1_redirect", inputs 1 "redirect" (PInt 302) (PInt 1100401)
      [("reuses", PStr "redirect_if_supported")] (PStr "redirect_if_supported"));
   ("phase1_transaction_id", inputs 1 "allow_with_event" (PInt 200) (PInt 1100003)
      [("reuses", PStr "transaction_id_present")] (PStr "transaction_id_present"));
   ("phase2_no_payload_event", inputs 2 "payload_absent" (PInt 403) (PInt 1100101)
      [("reuses", PStr "event_has_no_request_body_payload")] (PStr "event_has_no_request_body_payload"));
   ("phase2_request_body_rule", inputs 2 "deny" (PInt 403) (PInt 1100101)
      [("reuses", PStr "deny_request_body_marker_403")] (PStr "deny_request_body_marker_403"));
   ("phase3_original_and_visible_status", inputs 3 "response_status_metadata" (PInt 403) (PInt 1100201)
      [("reuses", PStr "phase3_deny_before_commit")] PNone);
   ("phase3_response_header_rule", inputs 3 "deny_or_late_intervention" (PInt 403) (PInt 1100201)
      [("reuses", PStr "deny_response_header_marker_403")] (PStr "deny_response_header_marker_403"));
   ("phase4_action_metadata", inputs 4 "event_contains_late_intervention_action" PNone (PInt 1100301)
      [("reuses", PStr "phase4_event_contains_late_intervention_action")]
      (PStr "phase4_event_contains_late_intervention_action"));
   ("phase4_deny_after_commit_abort", inputs 4 "connection_aborted" PNone (PInt 1100301)
      [("reuses", PStr "phase4_rule_observed"); ("intervention_mode", PStr "abort_connection")] PNone);
   ("phase4_deny_after_commit_abort_strict", inputs 4 "connection_aborted_strict" PNone (PInt 1100301)
      [("reuses", PStr "phase4_deny_after_commit_abort");
       ("fixture", PStr "full-lifecycle/phase4_late_intervention.yaml");
       ("late_intervention_mode", PStr "strict")] PNone);
   ("phase4_deny_after_commit_log_only", inputs 4 "late_intervention_log_only" PNone (PInt 1100301)
      [("reuses", PStr "phase4_rule_observed"); ("intervention_mode", PStr "log_only")] PNone);
   ("phase4_deny_after_commit_log_only_safe", inputs 4 "late_intervention_log_only_safe" PNone (PInt 1100301)
      [("fixture", PStr "full-lifecycle/phase4_late_intervention.yaml");
       ("late_intervention_mode", PStr "safe")] PNone);
   ("phase4_event_contains_late_intervention_action", inputs 4 "event_contains_late_intervention_action" PNone
      (PInt 1100301)
      [("reuses", PStr "phase4_rule_observed")] PNone);
   ("phase4_event_contains_original_status", inputs 4 "event_contains_original_status" PNone (PInt 1100301)
      [("reuses", PStr "phase4_rule_observed")] PNone);
   ("phase4_first_byte_before_response_end", inputs 4 "first_byte_before_response_end" PNone (PInt 1100301)
      [("fixture", PStr NGINX_FIRST_BYTE_FIXTURE_PATH); ("synchronization", PStr "upstream_barrier")] PNone);
   ("phase4_no_full_response_buffering", inputs 4 "no_full_response_buffering" PNone (PInt 1100301)
      [("fixture", PStr NGINX_FIRST_BYTE_FIXTURE_PATH); ("synchronization", PStr "upstream_barrier")] PNone);
   ("phase4_no_payload_event", inputs 4 "payload_absent" PNone (PInt 1100301)
      [("reuses", PStr "event_has_no_response_body_payload")] (PStr "event_has_no_response_body_payload"));
   ("phase4_rule_observed", inputs 4 "rule_observed" PNone (PInt 1100301)
      [("method", PStr "GET"); ("path", PStr "/no-crs/response-body");
       ("response_body_fixture", PStr "no-crs-response-body-marker")] PNone);
   ("phase4_status_metadata", inputs 4 "event_contains_original_status" PNone (PInt 1100301)
      [("reuses", PStr "phase4_event_contains_original_status")] (PStr "phase4_event_contains_original_status"))].

(** The cases visited to their end, and the errors. *)
Definition visited := (list string * list string)%type.

Section Graph.
Variable invocations : list (string * pydict).

(** [visit]; a source that is not a string names no invocation. *)
Fixpoint visit (fuel : nat) (active : list string) (case_id : string) (st : visited) : res visited :=
  match fuel with
  | O => Err OutOfFuel
  | S n =>
      let (complete, errors) := st in
      if str_in case_id active then Ok (complete, errors ++ [case_id +:+ ": closed derived invocation reuse cycle"])
      else if str_in case_id complete then Ok st
      else match entry_of case_id invocations with
      | None => Ok st
      | Some descriptor =>
          let* st :=
            if eq_str (dict_get "operation" descriptor) "explicit_contract_reuse" then
              let* sources := dict_item "source_case_ids" descriptor in
              let* sources := iterate sources in
              foldM (fun st source =>
                match source with
                | PStr s => visit n (case_id :: active) s st
                | _ => if hashable source then Ok st else Err (TypeError "unhashable type")
                end) sources st
            else Ok st in
          Ok (case_id :: fst st, snd st)
      end
  end.

(** A path of invocations visits each of them once: their number bounds the recursion. *)
Definition nginx_derived_invocation_graph_errors : res (list string) :=
  let* st := foldM (fun st p => visit (S (List.length invocations)) [] (fst p) st) invocations ([], []) in
  Ok (snd st).
End Graph.

Section Selection.
Variables (fs : catalog_files) (case_catalog_schema : pyval) (fuel : nat) (exception_text : exn -> string).

Definition derived_fixture (operation : pyval) (case_id : string) : option abs_path :=
  if eq_str operation "parent_selected_host" then
    Some (pure_join (pure_join (cf_framework fs) "tests/cases/connector-specific/nginx") ("nginx_" +:+ case_id +:+ ".yaml"))
  else if eq_str operation "native_first_byte" then Some (pure_join (CATALOG_DIRECTORY fs) NGINX_FIRST_BYTE_FIXTURE_PATH)
  else None.

(** [path.is_symlink() or not path.is_file()] *)
Definition missing_or_link (path : abs_path) : res bool :=
  let* link := cf_is_symlink fs path in
  if link : bool then Ok true else let* file := cf_is_file fs path in Ok (negb file).

Definition derived_invocation_for_case (case : pydict) (connector : string) : res (option pydict) :=
  if negb (String.eqb connector "nginx") then Ok None
  else
    let* protocol := match invocation case with
                     | Err e => if is_ValueError e then Err (ContractError (exception_text e)) else Err e
                     | r => r
                     end in
    match protocol with
    | Some d =>
        let* found := cf_is_file fs (pure_join (cf_framework fs)
          "connector_suite/modsecurity_connector_ci/runtime/lifecycle/run-nginx-protocol-cases.py") in
        guard found (ContractError "native protocol executor source is missing") ;;;
        Ok (Some d)
    | None =>
        let case_id := text_of (dict_get "case_id" case) in
        match entry_of case_id NGINX_DERIVED_INVOCATIONS with
        | None => Ok None
        | Some descriptor =>
            match entry_of case_id NGINX_DERIVED_CONTRACT_INPUTS with
            | None => Err (KeyError case_id)
            | Some expected =>
                let observed := map (fun kv => (fst kv, dict_get_key (fst kv) case)) expected in
                guard (String.eqb (json_dumps ", " ": " (PDict observed)) (json_dumps ", " ": " (PDict expected)))
                  (ContractError (case_id +:+ ": existing derived invocation contract changed")) ;;;
                let* graph_errors := nginx_derived_invocation_graph_errors NGINX_DERIVED_INVOCATIONS in
                (match graph_errors with [] => Ok tt | _ => Err (ContractError (py_join "; " graph_errors)) end) ;;;
                (match derived_fixture (dict_get "operation" descriptor) case_id with
                 | Some fixture =>
                     let* missing := missing_or_link fixture in
                     guard (negb missing) (ContractError (case_id +:+ ": existing native executor fixture is missing"))
                 | None => Ok tt
                 end) ;;;
                Ok (Some descriptor)
            end
        end
    end.

(** ** The selection of a case *)

(** [dict(v)] *)
Definition dict_of (v : pyval) : res pydict :=
  match v with
  | PDict d => Ok d
  | _ =>
      let* items := iterate v in
      foldM (fun d item =>
        let* kv := iterate item in
        match kv with
        | [k; x] => if hashable k then Ok (put_key k x d) else Err (TypeError "unhashable type")
        | _ => Err (ValueError "dictionary update sequence element has the wrong length")
        end) items []
  end.

Definition protocol_profile_of (case : pydict) : string :=
  match dict_get "request" case with PDict request => text_of (dict_get "protocol_profile" request) | _ => "" end.

Definition invalid_protocol {A} (protocol : string) : res A :=
  Err (ContractError ("invalid downstream protocol: " +:+ repr_str protocol)).

(** [[str(item) for item in case\["required_capabilities"\]]] *)
Definition required_capability_names (case : pydict) : res (list string) :=
  let* v := dict_item "required_capabilities" case in
  let* items := iterate v in Ok (map py_str items).

Definition required_states (names : list string) (capabilities : pyval) : res states :=
  mapM (fun name => let* value := capability capabilities name in Ok (name, capability_state value)) (dedup String.eqb names).

(** The status and its reason. *)
Definition selection_verdict (case : pydict) (s : states) (capabilities : pyval) (downstream_protocol : string)
    : res (string * string) :=
  let required_protocol := protocol_profile_of case in
  if negb (String.eqb required_protocol "") && negb (String.eqb downstream_protocol "any")
     && negb (String.eqb downstream_protocol required_protocol)
  then Ok ("NOT_APPLICABLE", "requires downstream " +:+ required_protocol +:+ "; selected " +:+ downstream_protocol)
  else let* reason := selection_reason s capabilities in Ok (selection_status_for_states s, reason).

(** [if value is not None: selection\[key\] = deepcopy(dict(value))] *)
Definition with_invocation (key : string) (value : option pydict) (selection : pydict) : pydict :=
  match value with Some d => dict_set key (PDict d) selection | None => selection end.

Definition select_catalog_case (case : pydict) (capabilities : pyval) (downstream_protocol connector : string) : res pydict :=
  if negb (str_in downstream_protocol DOWNSTREAM_PROTOCOLS) then invalid_protocol downstream_protocol
  else
    let* required := required_capability_names case in
    let* s := required_states required capabilities in
    let* case_id := dict_item "case_id" case in
    let* phase := dict_item "phase" case in
    let* (status, reason) := selection_verdict case s capabilities downstream_protocol in
    let selection := mkdict
      [("case_id", case_id); ("group", dict_get_or (PStr "") "group" case); ("phase", phase);
       ("required_capabilities", PList (map PStr required));
       ("required_capability_states", PDict (mkdict (map (fun p => (fst p, PStr (snd p))) s)));
       ("selection_status", PStr status); ("selection_reason", PStr reason);
       ("runner_case", dict_get "runner_case" case)] in
    let selection := with_invocation "config_invocation" (config_invocation_for_case case connector) selection in
    let* native := native_invocation_for_case case_catalog_schema fuel case connector in
    let* native := if is_none native then Ok None else let* d := dict_of native in Ok (Some d) in
    let selection := with_invocation "native_invocation" native selection in
    let* derived := derived_invocation_for_case case connector in
    Ok (with_invocation "derived_invocation" derived selection).

(** ** The invocation of a selected case *)

(** [path.suffix] *)
Definition suffix (a : abs_path) : string :=
  let name := S2L (default "" (last (parts a))) in
  let ext := take_while (fun c => negb (Ascii.eqb c ".")) (rev name) in
  match ext with
  | [] => ""
  | _ => if Nat.ltb (S (List.length ext)) (List.length name) then L2S ("."%char :: rev ext) else ""
  end.

Definition selected_runner_path_errors (runner : pyval) (prefix : string) : res (list string) :=
  if negb (truthy runner) then Ok []
  else match runner with
  | PStr text =>
      let missing := [prefix +:+ ": runner_case must be an existing catalog-local YAML file"] in
      let* root := cf_resolve fs (CATALOG_DIRECTORY fs) in
      let path := pure_join (CATALOG_DIRECTORY fs) text in
      if starts_with "/" text then Ok missing
      else
        let* link := cf_is_symlink fs path in
        if link : bool then Ok missing
        else
          let* resolved := cf_resolve fs path in
          if negb (path_below root resolved) || negb (str_in (suffix path) [".yaml"; ".yml"]) then Ok missing
          else let* found := cf_is_file fs path in Ok (if found : bool then [] else missing)
  | _ => Ok [prefix +:+ ": runner_case must be a declared relative YAML path"]
  end.

Definition opt_dict (d : option pydict) : pyval := match d with Some d => PDict d | None => PNone end.

Definition selected_case_invocation_errors (selection case : pydict) (connector : string) : res (list string) :=
  if negb (String.eqb connector "nginx") || negb (eq_str (dict_get "selection_status" selection) "SELECTED") then Ok []
  else
    let prefix := text_of (dict_get "case_id" case) in
    let invocations := let* native := native_invocation_for_case case_catalog_schema fuel case connector in
                       let* derived := derived_invocation_for_case case connector in Ok (native, derived) in
    match invocations with
    | Err (ContractError m) => Ok [m]
    | Err e => Err e
    | Ok (native, derived) =>
        let config := config_invocation_for_case case connector in
        let runner := dict_get "runner_case" selection in
        let* path_errors := selected_runner_path_errors runner prefix in
        Ok (when_failed (negb (py_eq (dict_get "case_id" selection) (dict_get "case_id" case)))
              (prefix +:+ ": selected invocation case identity mismatch")
            ++ when_failed (negb (py_eq (dict_get "native_invocation" selection) native))
                 (prefix +:+ ": selected native invocation differs from its closed case contract")
            ++ when_failed (negb (py_eq (dict_get "derived_invocation" selection) (opt_dict derived)))
                 (prefix +:+ ": selected derived invocation differs from its closed existing contract")
            ++ when_failed (negb (py_eq (dict_get "config_invocation" selection) (opt_dict config)))
                 (prefix +:+ ": selected config invocation differs from its closed case contract")
            ++ match config with
               | Some _ => map (fun error => prefix +:+ ": " +:+ error) (config_invocation_contract_errors case)
               | None => []
               end
            ++ when_failed (negb (py_eq runner (dict_get "runner_case" case)))
                 (prefix +:+ ": selected runner differs from its declared case source")
            ++ path_errors
            ++ when_failed (is_none native && is_none (opt_dict config) && is_none (opt_dict derived) && negb (truthy runner))
                 (prefix +:+ ": selected NGX case has no native_invocation, config_invocation, derived_invocation or runner_case"))
    end.

(** ** The plan *)

Definition of_status (status : string) (selection : pydict) : bool := eq_str (dict_get "selection_status" selection) status.
Definition status_count (selections : list pydict) (status : string) : Z :=
  Z.of_nat (List.length (List.filter (of_status status) selections)).

Definition raise_errors (errors : list string) : res unit :=
  match errors with [] => Ok tt | _ => Err (ContractError (py_join "; " errors)) end.

Definition nginx_catalog_errors (catalog : pydict) : res (list string) :=
  match case_catalog_schema with
  | PDict schema =>
      in_order [validate_catalog fs catalog; json_schema_errors fuel (PDict catalog) schema (Some schema) "catalog"]
  | _ => Err (ContractError "selection catalog schema is missing")
  end.

(** [generated_at] is the text of the clock. *)
Definition select_cases (generated_at connector : string) (manifest catalog : pydict) (evidence_stage : string)
    (profile : pyval) (downstream_protocol : string) : res pydict :=
  if negb (str_in downstream_protocol DOWNSTREAM_PROTOCOLS) then invalid_protocol downstream_protocol
  else
    let* artifact_profile := normalize_artifact_profile profile in
    validate_selection_profile catalog evidence_stage artifact_profile ;;;
    let nginx := String.eqb connector "nginx" in
    let full := String.eqb artifact_profile FULL_LIFECYCLE_ARTIFACT_PROFILE in
    guard (negb (nginx && full && String.eqb downstream_protocol "any"))
      (ContractError "NGINX full_lifecycle selection requires an explicit downstream protocol") ;;;
    let* capabilities := dict_item "capabilities" manifest in
    (if nginx then let* errors := nginx_catalog_errors catalog in raise_errors errors else Ok tt) ;;;
    let* cases := selected_catalog_cases catalog evidence_stage in
    let* selections := mapM (fun case => select_catalog_case case capabilities downstream_protocol connector) cases in
    (if nginx && full && eq_str (dict_get "connector" manifest) "nginx" then
       let* errors := in_order (map (fun p => selected_case_invocation_errors (snd p) (fst p) connector) (combine cases selections)) in
       raise_errors errors
     else Ok tt) ;;;
    Ok (mkdict
      [("schema_version", PInt 1); ("connector", PStr connector); ("catalog", PStr "no-crs-baseline");
       ("ruleset", PStr "no-crs-baseline"); ("evidence_stage", PStr evidence_stage);
       ("artifact_profile", PStr artifact_profile); ("downstream_protocol", PStr downstream_protocol);
       ("capability_manifest", PStr (text_of (dict_get "source_path" manifest))); ("generated_at", PStr generated_at);
       ("counts", PDict (mkdict (map (fun status => (status, PInt (status_count selections status))) SELECTION_STATUSES)));
       ("cases", PList (map PDict selections))]).

(** ** A stored plan *)

Definition text_or (dflt : string) (v : pyval) : string := if truthy v then py_str v else dflt.

Definition plan_semantics (plan : pydict) : list (string * pyval) :=
  map (fun field => (field, dict_get field plan)) ["schema_version"; "connector"; "catalog"; "ruleset"; "evidence_stage"]
  ++ [("artifact_profile", PStr (text_or DEFAULT_ARTIFACT_PROFILE (dict_get "artifact_profile" plan)));
      ("downstream_protocol", PStr (text_or "any" (dict_get "downstream_protocol" plan)))]
  ++ map (fun field => (field, dict_get field plan)) ["counts"; "cases"].

Definition plans_have_matching_semantics (plan expected : pydict) : bool :=
  forallb (fun p => py_eq (snd (fst p)) (snd (snd p))) (combine (plan_semantics plan) (plan_semantics expected)).

Definition validate_plan_against_capabilities (generated_at : string) (plan : pydict) (connector : string)
    (manifest catalog : pydict) (evidence_stage : string) (artifact_profile : pyval) (downstream_protocol : string) : res unit :=
  let* expected := select_cases generated_at connector manifest catalog evidence_stage artifact_profile downstream_protocol in
  guard (plans_have_matching_semantics plan expected)
    (ContractError "plan does not match a fresh capability-driven selection; regenerate it with the select command").

Definition plan_capability_errors (generated_at : string) (plan : pydict) (connector : string)
    (capabilities catalog : pydict) (evidence_stage : string) (artifact_profile : pyval) : res (list string) :=
  match validate_plan_against_capabilities generated_at plan connector capabilities catalog evidence_stage artifact_profile
          (text_or "any" (dict_get "downstream_protocol" plan)) with
  | Ok _ => Ok []
  | Err e =>
      match e with
      | ContractError _ | KeyError _ | TypeError _ =>
          Ok ["plan selection is inconsistent with the catalog and capability inventory: " +:+ exception_text e]
      | _ => Err e
      end
  end.
End Selection.
