(* ===== verification/SelectionTheorems.v ===== *)
(** * Well-formed catalogs, and what a plan selects (no_crs_baseline.py)

    What an empty list of errors of [validate_catalog] and
    [validate_capability_manifest] asserts of the cases and of the capabilities; the reuse
    graph of the derived invocations; the plans that the check of stored plans accepts; and
    a small host on which the theorems are applied. *)

From S2P Require Export Selection PyEquality.
From S2P Require Import ObservationEvidence PassTheorems CaseTheorems Shell BaselineTheorems NginxProtocolTheorems CaseConfig IdentityTheorems.
From Stdlib Require Import QArith.
#[global] Open Scope Z_scope.

(** ** Part 1: catalogs and manifests *)


(** ** Names *)

Lemma names_error_nil label names : names_error label names = [] <-> names = [].
Proof. by destruct names. Qed.

Lemma none_missing wanted present : missing_names wanted present = [] <-> incl wanted present.
Proof.
  unfold missing_names. split.
  - intros H n Hn. destruct (str_in n present) eqn:E; [by apply str_in_In|]. exfalso.
    assert (Hin : In n (List.filter (fun n => negb (str_in n present)) wanted)) by (apply filter_In; by rewrite E).
    apply (Permutation_in _ (Permutation_sym (sort_strs_perm _))) in Hin. by rewrite H in Hin.
  - intros H. replace (List.filter _ wanted) with (@nil string); [done|]. symmetry.
    induction wanted as [|n w IH]; [done|]. cbn [List.filter].
    rewrite (proj2 (str_in_In n present)) by (apply H; by left). cbn. apply IH. intros x Hx. apply H. by right.
Qed.

Lemma names_missing_nil label wanted present : names_error label (missing_names wanted present) = [] <-> incl wanted present.
Proof. by rewrite names_error_nil, none_missing. Qed.

Lemma str_dedup_incl l m : incl (dedup String.eqb l) m <-> incl l m.
Proof.
  split; intros H x Hx; apply H.
  - apply dedup_In; [apply String.eqb_eq|done].
  - apply dedup_In in Hx; [done|apply String.eqb_eq].
Qed.

Create Rewrite HintDb errors.
#[export] Hint Rewrite names_missing_nil str_dedup_incl (@app_nil string) failed_nil negb_false_iff add_error_nil Ok_nil
  in_order_nil (@Forall_cons (res (list string))) : errors.

Section Wf.
Variable fs : catalog_files.

(** ** A case *)

(** A declared path names a file below the root. *)
Definition file_below (catalog_root root : abs_path) (path : pyval) : Prop :=
  exists p candidate, path = PStr p /\ cf_resolve fs (pure_join catalog_root p) = Ok candidate /\
    path_below root candidate = true /\ cf_is_file fs candidate = Ok true.

Record declared_case (catalog_root shared_fixture_root : abs_path) (case : pydict) : Prop := {
  dc_id : case_id_of case <> "";
  dc_fields : forall field, In field catalog_case_fields -> dict_has field case = true;
  dc_capabilities : exists l, dict_get "required_capabilities" case = PList l /\ l <> [] /\ incl (map py_str l) CAPABILITIES;
  dc_request : exists request, dict_get "request" case = PDict request /\
    (dict_has "fixture" request = true -> file_below catalog_root catalog_root (dict_get "fixture" request)) /\
    (dict_has "fixture_file" request = true -> file_below catalog_root shared_fixture_root (dict_get "fixture_file" request));
  dc_event_fields : exists l, dict_get "expected_event_fields" case = PList l;
  dc_real_host : exists requirement, dict_get "evidence_requirement" case = PDict requirement /\
    dict_get "requires_real_host" requirement = PBool true /\ dict_get "accepts_synthetic_pass" requirement = PBool false;
  dc_unsupported : dict_get "unsupported_behavior" case = PStr "UNSUPPORTED";
  dc_configuration : config_invocation_contract_errors case = [] }.

Lemma capabilities_nil case prefix : _validate_catalog_case_capabilities case prefix = [] ->
  exists l, dict_get "required_capabilities" case = PList l /\ l <> [] /\ incl (map py_str l) CAPABILITIES.
Proof.
  unfold _validate_catalog_case_capabilities. destruct (dict_get _ case) as [| | | | |[|x l]|]; try done.
  autorewrite with errors. intros H. by eexists.
Qed.

Lemma evidence_nil case prefix : _validate_catalog_evidence_requirement case prefix = [] ->
  exists requirement, dict_get "evidence_requirement" case = PDict requirement /\
    dict_get "requires_real_host" requirement = PBool true /\ dict_get "accepts_synthetic_pass" requirement = PBool false.
Proof.
  unfold _validate_catalog_evidence_requirement. destruct (dict_get _ case) as [| | | | | |d]; try done.
  autorewrite with errors pybool. intros [H1 H2]. by eexists.
Qed.

Lemma fixture_nil path root label id catalog_root :
  _validate_catalog_fixture_path fs path root label id catalog_root = Ok [] -> file_below catalog_root root path.
Proof.
  unfold _validate_catalog_fixture_path. destruct path as [| | | |p| |]; try done. destruct (String.eqb _ ""); [done|].
  destruct (cf_resolve _ _) as [candidate|] eqn:Er; [|done]. destruct (path_below root candidate) eqn:Eb; [|done].
  destruct (cf_is_file fs candidate) as [[]|] eqn:Ef; try done. intros _. by exists p, candidate.
Qed.

Lemma case_nil catalog_root shared seen case : catalog_case_errors fs catalog_root shared seen case = Ok [] ->
  ~ In (case_id_of case) seen /\ declared_case catalog_root shared case.
Proof.
  unfold catalog_case_errors. autorewrite with errors.
  intros (Hid & Hf & Hc & Hs & _ & Hd & He & Hk & Hsrc & _).
  unfold _catalog_case_identity in Hid. fold (case_id_of case) in Hid.
  destruct (String.eqb_spec (case_id_of case) "") as [|Hne]; [done|]. apply failed_nil in Hid.
  unfold _validate_catalog_case_required_fields in Hf. rewrite reports_none in Hf.
  unfold _validate_catalog_case_shape in Hs. unfold _validate_catalog_case_declarations in Hd.
  autorewrite with errors in Hs, Hd. destruct Hs as (Hr & Hev & _), Hd as (_ & Hu). apply eq_str_true in Hu.
  split; [intros H; apply str_in_In in H; congruence|]. constructor; try done.
  - intros field Hin. specialize (Hf _ Hin). autorewrite with errors in Hf. done.
  - by eapply capabilities_nil.
  - destruct (dict_get "request" case) as [| | | | | |request] eqn:Er; try done. exists request. split; [done|].
    unfold _validate_catalog_case_sources in Hsrc. rewrite Er in Hsrc. autorewrite with errors in Hsrc.
    destruct Hsrc as (_ & (H1 & H2 & _) & _). split; intros E; rewrite E in *; by eapply fixture_nil.
  - destruct (dict_get "expected_event_fields" case); try done. by eexists.
  - by eapply evidence_nil.
  - by apply map_eq_nil in Hk.
Qed.

Lemma cases_nil catalog_root shared cases : forall seen seen',
  _validate_catalog_cases fs catalog_root shared seen cases = Ok (seen', []) ->
  List.NoDup (map case_id_of cases) /\ (forall c, In c cases -> ~ In (case_id_of c) seen) /\
  Forall (declared_case catalog_root shared) cases /\ incl seen' (map case_id_of cases ++ seen).
Proof.
  induction cases as [|case r IH]; intros seen seen'; cbn [_validate_catalog_cases].
  { intros H. apply Ok_inj in H as [= <-]. split; [constructor|]. split; [by intros c []|]. split; [constructor|apply incl_refl]. }
  destruct (catalog_case_errors _ _ _ _ _) as [errors|] eqn:Ec; [|done].
  destruct (_validate_catalog_cases _ _ _ _ r) as [[s rest]|] eqn:Er; [|done]. intros H. apply Ok_inj in H. injection H as <- H.
  apply app_eq_nil in H as [-> ->]. destruct (case_nil _ _ _ _ Ec) as [Hid Hc]. fold (case_id_of case) in Er.
  destruct (IH _ _ Er) as (Hn & Hs & Hf & Hi). split; [|split; [|split]].
  - cbn [map]. constructor; [|done]. intros H. apply in_map_iff in H as (c & E & Hc'). apply (Hs c Hc'). rewrite E. by left.
  - intros c [<-|Hin]; [done|]. intros Hin'. apply (Hs c Hin). by right.
  - by constructor.
  - intros x Hx. apply Hi in Hx. cbn. rewrite in_app_iff in *. cbn in Hx. tauto.
Qed.

(** ** Named cases *)

Lemma by_id_declared cases id : In id (map case_id_of cases) ->
  exists case, by_id cases id = Some case /\ In case cases /\ case_id_of case = id.
Proof.
  intros H. apply in_map_iff in H as (c & E & Hc). unfold by_id.
  set (same := fun case => String.eqb (text_of (dict_get "case_id" case)) id).
  assert (Hin : In c (List.filter same cases)) by (apply filter_In; split; [done|by apply String.eqb_eq]).
  destruct (last (List.filter same cases)) as [x|] eqn:El; [|apply last_None in El; by rewrite El in Hin].
  exists x. apply last_member, filter_In in El as [Hx Hs]. split; [done|]. split; [done|]. by apply String.eqb_eq.
Qed.

Lemma declared_names_list key case l names : dict_get key case = PList l -> declared_names key case = Ok names ->
  names = dedup String.eqb (map py_str l).
Proof.
  unfold declared_names, dict_get, dict_get_or. destruct (dict_find key case) as [v|]; [|done]. intros ->. cbn.
  by intros [= <-].
Qed.

(** The case states what the contract of its name demands. *)
Record phase4_declared (contract : phase4_contract) (case : pydict) : Prop := {
  pd_phase : eq_int (dict_get "phase" case) 4 = true;
  pd_result : dict_get "expected_result" case = PStr (p4_result contract);
  pd_rule : exists v, optional_int (dict_get "expected_rule_id" case) = Ok v /\ py_eq v (PInt 1100301) = true;
  pd_status : exists v, optional_int (dict_get "expected_status" case) = Ok v /\ py_eq v (p4_status contract) = true;
  pd_capabilities : forall l, dict_get "required_capabilities" case = PList l -> incl (p4_capabilities contract) (map py_str l);
  pd_fields : forall l, dict_get "expected_event_fields" case = PList l -> incl (p4_fields contract) (map py_str l) }.

Lemma names_needed key case label needed l :
  (let* declared := declared_names key case in Ok (names_error label (missing_names needed declared))) = Ok [] ->
  dict_get key case = PList l -> incl needed (map py_str l).
Proof.
  destruct (declared_names key case) as [names|] eqn:E; [|done]. intros H Hl. autorewrite with errors in H.
  rewrite (declared_names_list _ _ _ _ Hl E) in H. intros x Hx. apply H in Hx. apply dedup_In in Hx; [done|apply String.eqb_eq].
Qed.

Lemma value_needed v w label :
  (let* x := optional_int v in add_error (negb (py_eq x w)) label) = Ok [] ->
  exists x, optional_int v = Ok x /\ py_eq x w = true.
Proof. destruct (optional_int v) as [x|]; [|done]. autorewrite with errors. intros H. by exists x. Qed.

Lemma phase4_case_nil id contract case : _validate_phase4_catalog_case id contract case = Ok [] -> phase4_declared contract case.
Proof.
  unfold _validate_phase4_catalog_case. autorewrite with errors pybool. intros (H1 & _ & H2 & H3 & H4 & H5 & H6 & _).
  constructor; [done|done|by eapply value_needed|by eapply value_needed|intros l Hl|intros l Hl]; by eapply names_needed.
Qed.

(** The cases of a catalog without errors. *)
Record valid_catalog (catalog : pydict) (cases : list pydict) : Prop := {
  vc_cases : catalog_cases catalog = Ok cases;
  vc_objects : List.length cases = catalog_length catalog;
  vc_declared : exists catalog_root shared, cf_resolve fs (CATALOG_DIRECTORY fs) = Ok catalog_root /\
    Forall (declared_case catalog_root shared) cases;
  vc_distinct : List.NoDup (map case_id_of cases);
  vc_required : incl (required_ids ++ FULL_LIFECYCLE_REQUIRED_IDS) (map case_id_of cases);
  vc_phase4 : forall id contract, In (id, contract) phase4_contracts ->
    exists case, In case cases /\ case_id_of case = id /\ phase4_declared contract case }.

(** A catalog in which validation finds no error is well formed. *)
Lemma valid_catalog_facts catalog : validate_catalog fs catalog = Ok [] -> exists cases, valid_catalog catalog cases.
Proof.
  unfold validate_catalog. intros H. destruct (catalog_cases catalog) as [cases|[]] eqn:Ec; try discriminate H.
  destruct (cf_resolve fs (CATALOG_DIRECTORY fs)) as [root|] eqn:Er; [|discriminate H].
  destruct (cf_resolve fs (pure_join _ _)) as [shared|]; [|discriminate H].
  destruct (_validate_catalog_cases _ _ _ _ _) as [[seen errors]|] eqn:Ev; [|discriminate H].
  autorewrite with errors in H. destruct H as (_ & Hl & He & Hm & H4 & _).
  exists cases. subst errors. destruct (cases_nil _ _ _ _ _ Ev) as (Hn & _ & Hf & Hi).
  rewrite app_nil_r in Hi. assert (Hreq : incl (required_ids ++ FULL_LIFECYCLE_REQUIRED_IDS) (map case_id_of cases))
    by exact (incl_tran Hm Hi).
  constructor; try done; [by apply Nat.eqb_eq|by exists root, shared|].
  intros id contract Hin. unfold _validate_phase4_catalog_contracts in H4. apply in_order_nil in H4.
  rewrite List.Forall_forall in H4.
  pose proof (H4 _ (in_map _ _ _ Hin)) as H. cbn [fst snd] in H.
  destruct (by_id_declared cases id) as (case & Hc & Hin' & Hid).
  { apply Hreq, in_or_app. left. apply (in_map fst) in Hin. revert Hin. apply str_subset_incl. by vm_compute. }
  exists case. split; [done|]. split; [done|]. unfold when_declared in H. rewrite Hc in H.
  destruct case as [|kv d]; [|by eapply phase4_case_nil].
  rewrite List.Forall_forall in Hf. destruct (Hf _ Hin') as [Hne]. done.
Qed.
End Wf.

(** ** The capability manifest *)

Record valid_manifest (manifest capabilities : pydict) : Prop := {
  vm_connector : In (text_of (dict_get "connector" manifest)) BASELINE_CONNECTORS;
  vm_capabilities : dict_get "capabilities" manifest = PDict capabilities;
  vm_named : forall name, In name CAPABILITIES <-> In name (map (fun kv => py_str (fst kv)) capabilities);
  vm_states : forall name, In name CAPABILITIES -> In (capability_state (dict_get name capabilities)) CAPABILITY_STATES }.

Lemma manifest_nil manifest connector : validate_capability_manifest manifest connector = [] ->
  exists capabilities, valid_manifest manifest capabilities.
Proof.
  unfold validate_capability_manifest.
  destruct (dict_get "capabilities" manifest) as [| | | | | |capabilities] eqn:Ec; try (intros H; by apply app_eq_nil in H as [_ H]).
  unfold capability_manifest_header_errors, capability_manifest_capability_errors. autorewrite with errors.
  intros ((_ & Hcon & _) & (Hm & Hu & Hs) & _). exists capabilities. unfold named_keys in *. constructor; try done.
  - by apply str_in_In.
  - intros name. split; [intros H; apply Hm in H; by apply dedup_In in H; [|apply String.eqb_eq]|].
    by apply str_dedup_incl.
  - intros name H. rewrite reports_none in Hs. specialize (Hs _ H). cbn beta in Hs. autorewrite with errors in Hs.
    destruct Hs as [Hs _]. by apply str_in_In.
Qed.

(** ** Part 2: selection *)


(** ** The reuse graph *)

Section Graph.
Variable invocations : list (string * pydict).

(** A case reuses the sources of its invocation. *)
Inductive reuses : string -> string -> Prop :=
  | reuses_source case_id source descriptor sources :
      entry_of case_id invocations = Some descriptor ->
      eq_str (dict_get "operation" descriptor) "explicit_contract_reuse" = true ->
      dict_find "source_case_ids" descriptor = Some (PList sources) -> In (PStr source) sources ->
      reuses case_id source.

(** A reuse names its sources. *)
Definition names_sources : Prop := forall case_id descriptor,
  entry_of case_id invocations = Some descriptor ->
  eq_str (dict_get "operation" descriptor) "explicit_contract_reuse" = true ->
  exists sources, dict_find "source_case_ids" descriptor = Some (PList sources) /\ Forall (fun s => hashable s = true) sources.

(** What [visit] does with one source. *)
Definition follow (n : nat) (active : list string) (st : visited) (source : pyval) : res visited :=
  match source with
  | PStr s => visit invocations n active s st
  | _ => if hashable source then Ok st else Err (TypeError "unhashable type")
  end.

(** The sources an invocation follows. *)
Definition followed (descriptor : pydict) : res (list pyval) :=
  if eq_str (dict_get "operation" descriptor) "explicit_contract_reuse"
  then let* sources := dict_item "source_case_ids" descriptor in iterate sources else Ok [].

Lemma visit_step n active case_id complete errors :
  visit invocations (S n) active case_id (complete, errors) =
  if str_in case_id active then Ok (complete, errors ++ [case_id +:+ ": closed derived invocation reuse cycle"])
  else if str_in case_id complete then Ok (complete, errors)
  else match entry_of case_id invocations with
       | None => Ok (complete, errors)
       | Some descriptor =>
           let* sources := followed descriptor in
           let* st := foldM (follow n (case_id :: active)) sources (complete, errors) in
           Ok (case_id :: fst st, snd st)
       end.
Proof.
  cbn [visit]. destruct (str_in case_id active), (str_in case_id complete), (entry_of case_id invocations) as [d|]; try done.
  unfold followed. destruct (eq_str _ _); [|done]. destruct (dict_item _ d) as [s|]; [|done]. by destruct (iterate s) as [l|].
Qed.

Lemma followed_reuses case_id descriptor sources s :
  names_sources -> entry_of case_id invocations = Some descriptor -> followed descriptor = Ok sources ->
  In (PStr s) sources <-> reuses case_id s.
Proof.
  intros Hw He. unfold followed. destruct (eq_str _ _) eqn:Eo.
  - destruct (Hw _ _ He Eo) as (l & Hl & _). unfold dict_item. rewrite Hl. cbn. intros [= <-]. split.
    + intros H. by eapply reuses_source.
    + intros H. inversion H; subst. congruence.
  - intros [= <-]. split; [done|]. intros H. inversion H; subst. congruence.
Qed.

(** Every completed case has its reuses completed before it. *)
Fixpoint ordered (complete : list string) : Prop :=
  match complete with
  | [] => True
  | c :: r => (forall s, reuses c s -> entry_of s invocations = None \/ In s r) /\ ordered r
  end.

Definition done_or_leaf (complete : list string) (s : string) : Prop := entry_of s invocations = None \/ In s complete.

(** A visit without a new error extends the order to the case. *)
Definition extends (st st' : visited) : Prop := (ordered (fst st) -> ordered (fst st')) /\ incl (fst st) (fst st').

Lemma extends_trans a b c : extends a b -> extends b c -> extends a c.
Proof. intros [H1 H2] [H3 H4]. split; [auto|]. by eapply incl_tran. Qed.

Lemma follow_sources n active sources st st' :
  (forall s st st', visit invocations n active s st = Ok st' -> snd st' = [] ->
     snd st = [] /\ extends st st' /\ done_or_leaf (fst st') s) ->
  foldM (follow n active) sources st = Ok st' -> snd st' = [] ->
  snd st = [] /\ extends st st' /\ forall s, In (PStr s) sources -> done_or_leaf (fst st') s.
Proof.
  intros Hv. revert st. induction sources as [|x r IH]; intros st; cbn [foldM].
  - intros [= <-] E. split; [done|]. split; [split; [auto|apply incl_refl]|done].
  - destruct (follow n active st x) as [st1|] eqn:E1; [|done]. intros H E. destruct (IH st1 H E) as (E2 & X2 & D2).
    assert (Hx : snd st = [] /\ extends st st1 /\ (forall s, x = PStr s -> done_or_leaf (fst st1) s)).
    { unfold follow in E1. destruct x; try (destruct (hashable _); [|done]; injection E1 as <-;
        split; [done|]; split; [split; [auto|apply incl_refl]|done]).
      destruct (Hv s st st1 E1 E2) as (? & ? & ?). split; [done|]. split; [done|]. by intros t [= <-]. }
    destruct Hx as (E0 & X1 & D1). split; [done|]. split; [by eapply extends_trans|].
    intros s [->|Hs]; [|by apply D2]. destruct (D1 s eq_refl) as [|Hin]; [by left|]. right. by apply X2.
Qed.

Lemma visit_extends n : names_sources -> forall active case_id st st',
  visit invocations n active case_id st = Ok st' -> snd st' = [] ->
  snd st = [] /\ extends st st' /\ done_or_leaf (fst st') case_id.
Proof.
  intros Hw. induction n as [|n IH]; [done|]. intros active c [complete errors] st'. rewrite visit_step.
  destruct (str_in c active); [intros [= <-]; cbn; by destruct errors|].
  assert (Hr : extends (complete, errors) (complete, errors)) by (split; [auto|apply incl_refl]).
  destruct (str_in c complete) eqn:Ec.
  { intros [= <-] E. split; [done|]. split; [done|]. right. by apply str_in_In. }
  destruct (entry_of c invocations) as [d|] eqn:Ed; [|intros [= <-] E; split; [done|]; split; [done|]; by left].
  destruct (followed d) as [sources|] eqn:Ef; [|done].
  destruct (foldM _ sources _) as [st1|] eqn:E1; [|done]. intros [= <-] E. cbn [snd] in E.
  destruct (follow_sources _ _ _ _ _ (IH _) E1 E) as (E0 & [Ho Hi] & Hd). split; [done|]. split.
  - split; cbn [fst]; [|intros x Hx; right; by apply Hi]. intros H. split; [|by apply Ho].
    intros s Hs. apply Hd. by apply (followed_reuses _ _ _ s Hw Ed Ef).
  - right. by left.
Qed.

(** Ordered cases are on no infinite path of reuses, so on no cycle. *)
Lemma ordered_acc complete c : ordered complete -> done_or_leaf complete c -> Acc (fun y x => reuses x y) c.
Proof.
  assert (leaf : forall x, entry_of x invocations = None -> Acc (fun y x => reuses x y) x).
  { intros x Hx. constructor. intros y Hy. inversion Hy; congruence. }
  intros Ho [H|H]; [by apply leaf|]. revert c Ho H. induction complete as [|d r IH]; [done|]. intros c [Hd Ho] [->|H]; [|by apply IH].
  constructor. intros y Hy. destruct (Hd y Hy); [by apply leaf|by apply IH].
Qed.

Lemma acc_no_cycle c : Acc (fun y x => reuses x y) c -> ~ tc reuses c c.
Proof.
  induction 1 as [c _ IH]. intros Hc. inversion Hc as [? ? H|? y ? H Hy]; subst.
  - by apply (IH c).
  - apply (IH y H). by eapply tc_r.
Qed.

Lemma entry_of_In {A} c (table : list (string * A)) v : entry_of c table = Some v -> In (c, v) table.
Proof.
  induction table as [|[k w] r IH]; cbn; [done|]. destruct (String.eqb_spec k c) as [->|]; [|right; by apply IH].
  intros [= ->]. by left.
Qed.
Lemma entry_of_key {A} c (table : list (string * A)) v : entry_of c table = Some v -> In c (map fst table).
Proof. intros H. by apply entry_of_In, (in_map fst) in H. Qed.

(** Without cycles, a visit below cases that reach it reports nothing. *)
Lemma visit_clean n active case_id st st' : names_sources -> (forall c, ~ tc reuses c c) ->
  (forall a, In a active -> tc reuses a case_id) ->
  visit invocations n active case_id st = Ok st' -> snd st' = snd st.
Proof.
  intros Hw Hc. revert active case_id st st'. induction n as [|n IH]; [done|].
  intros active c [complete errors] st' Ha. rewrite visit_step.
  destruct (str_in c active) eqn:E; [by destruct (Hc c); apply Ha, str_in_In|].
  destruct (str_in c complete); [by intros [= <-]|]. destruct (entry_of c invocations) as [d|] eqn:Ed; [|by intros [= <-]].
  destruct (followed d) as [sources|] eqn:Ef; [|done]. destruct (foldM _ sources _) as [st1|] eqn:E1; [|done].
  intros [= <-]. cbn [snd].
  assert (Hs : forall s, In (PStr s) sources -> reuses c s) by (intros s; apply (followed_reuses c d sources s Hw Ed Ef)).
  clear Ef. change errors with (snd (complete, errors)). revert E1. generalize (complete, errors) as st. clear complete errors.
  induction sources as [|x r IHr]; intros st; cbn [foldM]; [by intros [= <-]|].
  destruct (follow _ _ st x) as [st2|] eqn:E2; [|done]. intros H.
  rewrite (IHr (fun s Hin => Hs s (or_intror Hin)) _ H). unfold follow in E2.
  destruct x; try (destruct (hashable _); [|done]; by injection E2 as <-).
  eapply IH; [|exact E2]. assert (Hcs : reuses c s) by (apply Hs; by left).
  intros a [<-|Hin]; [by constructor|]. eapply tc_r; [by apply Ha|done].
Qed.

(** A path visits every invocation once. *)
Lemma visit_total n active case_id st : names_sources ->
  List.NoDup active -> incl active (map fst invocations) -> (List.length invocations < n + List.length active)%nat ->
  exists st', visit invocations n active case_id st = Ok st'.
Proof.
  intros Hw. revert active case_id st. induction n as [|n IH]; intros active c [complete errors] Hn Hi Hl.
  - apply NoDup_incl_length in Hi; [|done]. rewrite length_map in Hi. lia.
  - rewrite visit_step. destruct (str_in c active) eqn:Ea; [by eexists|]. destruct (str_in c complete); [by eexists|].
    destruct (entry_of c invocations) as [d|] eqn:Ed; [|by eexists].
    assert (Hf : exists sources, followed d = Ok sources /\ Forall (fun s => hashable s = true) sources).
    { unfold followed. destruct (eq_str _ _) eqn:Eo; [|by exists []]. destruct (Hw _ _ Ed Eo) as (l & Hd & Hh).
      exists l. split; [|done]. unfold dict_item. by rewrite Hd. }
    destruct Hf as (sources & -> & Hh).
    assert (Hfold : forall st, exists st', foldM (follow n (c :: active)) sources st = Ok st').
    { clear complete errors. induction Hh as [|x r Hx _ IHr]; intros st; cbn [foldM]; [by eexists|].
      assert (exists st1, follow n (c :: active) st x = Ok st1) as [st1 ->]; [|apply IHr].
      unfold follow. destruct x; try (rewrite Hx; by eexists). apply IH.
      - constructor; [|done]. intros H. apply str_in_In in H. congruence.
      - intros y [<-|Hy]; [by eapply entry_of_key|by apply Hi].
      - cbn. lia. }
    destruct (Hfold (complete, errors)) as [st1 ->]. by eexists.
Qed.

(** The loop over the table. *)
Definition check (st : visited) (p : string * pydict) : res visited :=
  visit invocations (S (List.length invocations)) [] (fst p) st.

Lemma checks_total l st : names_sources -> exists st', foldM check l st = Ok st'.
Proof.
  intros Hw. revert st. induction l as [|p l IH]; intros st; cbn [foldM]; [by eexists|]. unfold check at 1.
  destruct (visit_total (S (List.length invocations)) [] (fst p) st Hw) as [st1 ->]; [constructor|by intros ?|cbn; lia|apply IH].
Qed.

Lemma checks_extend l st st' : names_sources -> foldM check l st = Ok st' -> snd st' = [] ->
  snd st = [] /\ extends st st' /\ forall c, In c (map fst l) -> done_or_leaf (fst st') c.
Proof.
  intros Hw. revert st. induction l as [|p l IH]; intros st; cbn [foldM].
  - intros [= <-] E. split; [done|]. split; [split; [auto|apply incl_refl]|done].
  - destruct (check st p) as [st1|] eqn:E1; [|done]. intros H E. destruct (IH _ H E) as (E2 & X2 & D2).
    destruct (visit_extends _ Hw _ _ _ _ E1 E2) as (E0 & X1 & D1). split; [done|]. split; [by eapply extends_trans|].
    intros c [<-|Hc]; [|by apply D2]. destruct D1 as [|Hin]; [by left|]. right. by apply X2.
Qed.

Lemma checks_clean l st st' : names_sources -> (forall c, ~ tc reuses c c) -> foldM check l st = Ok st' -> snd st' = snd st.
Proof.
  intros Hw Hc. revert st. induction l as [|p l IH]; intros st; cbn [foldM]; [by intros [= <-]|].
  destruct (check st p) as [st1|] eqn:E1; [|done]. intros H. rewrite (IH _ H).
  by eapply visit_clean; [..|exact E1].
Qed.
End Graph.

(** C25: the check of the derived invocations returns for every table whose reuses name
    their sources, and reports nothing exactly when no case reuses itself, directly or
    through other cases. *)
Theorem derived_graph_exact invocations : names_sources invocations ->
  exists errors, nginx_derived_invocation_graph_errors invocations = Ok errors /\
    (errors = [] <-> forall case_id, ~ tc (reuses invocations) case_id case_id).
Proof.
  intros Hw. unfold nginx_derived_invocation_graph_errors. fold (check invocations).
  destruct (checks_total invocations invocations ([], []) Hw) as [st E]. rewrite E. exists (snd st). split; [done|]. split.
  - intros En c. destruct (checks_extend _ _ _ _ Hw E En) as (_ & [Ho _] & Hd). apply acc_no_cycle.
    destruct (entry_of c invocations) as [d|] eqn:Ec.
    + eapply ordered_acc; [by apply Ho|]. apply Hd. by eapply entry_of_key.
    + eapply (ordered_acc _ []); [done|by left].
  - intros Hc. exact (checks_clean _ _ _ _ Hw Hc E).
Qed.

(** The checked-in reuses name their sources, and have no cycle. *)
Definition sources_named (descriptor : pydict) : bool :=
  match dict_find "source_case_ids" descriptor with Some (PList l) => forallb hashable l | _ => false end.

Lemma table_names_sources table : forallb (fun p => sources_named (snd p)) table = true -> names_sources table.
Proof.
  rewrite forallb_forall. intros H c d Hd _. apply entry_of_In in Hd. specialize (H _ Hd). unfold sources_named in H. cbn in H.
  destruct (dict_find _ d) as [[]|]; try done. eexists. split; [done|]. by apply List.Forall_forall, forallb_forall.
Qed.

Lemma derived_graph_exact_witness :
  nginx_derived_invocation_graph_errors NGINX_DERIVED_INVOCATIONS = Ok [] /\
  forall case_id, ~ tc (reuses NGINX_DERIVED_INVOCATIONS) case_id case_id.
Proof.
  destruct (derived_graph_exact NGINX_DERIVED_INVOCATIONS) as (errors & H & Hc);
    [apply table_names_sources; vm_compute; reflexivity|].
  assert (E : nginx_derived_invocation_graph_errors NGINX_DERIVED_INVOCATIONS = Ok []) by (vm_compute; reflexivity).
  split; [exact E|]. apply Hc. rewrite H in E. by injection E as ->.
Defined.

(** ** The selection of a case *)

Section Selected.
Variables (fs : catalog_files) (case_catalog_schema : pyval) (fuel : nat) (exception_text : exn -> string).

Lemma with_invocation_find key value selection k : key <> k -> dict_find k (with_invocation key value selection) = dict_find k selection.
Proof. intros H. destruct value; cbn; [|done]. rewrite dict_find_set. by destruct (String.eqb_spec key k). Qed.

Lemma with_invocation_keys key value selection names : str_keys selection = Some names -> List.NoDup names -> ~ In key names ->
  exists names', str_keys (with_invocation key value selection) = Some names' /\ List.NoDup names' /\
    forall k, In k names' -> In k names \/ k = key.
Proof.
  intros Hs Hn Hk. destruct value as [d|]; cbn [with_invocation]; [|exists names; auto].
  exists (names ++ [key]). split; [|split].
  - clear Hn. revert names Hs Hk. induction selection as [|[[| | | |s| |] v] r IH]; intros names; cbn; try done; [by intros [= <-]|].
    destruct (str_keys r) as [ns|] eqn:E; [|done]. intros [= <-] Hk. destruct (String.eqb_spec s key) as [->|Hne].
    { destruct Hk. by left. }
    cbn. rewrite (IH ns eq_refl); [done|]. intros H. apply Hk. by right.
  - apply (Permutation_NoDup (Permutation_cons_append names key)). by constructor.
  - intros k H. apply in_app_iff in H as [H|[<-|[]]]; auto.
Qed.

(** What a selection says of its case. *)
Record selects (capabilities : pyval) (protocol : string) (case selection : pydict) : Prop := {
  se_id : dict_find "case_id" selection = dict_find "case_id" case;
  se_has_id : dict_has "case_id" case = true;
  se_keys : object_keys selection;
  se_verdict : exists names s reason status,
    required_capability_names case = Ok names /\ required_states names capabilities = Ok s /\
    selection_verdict case s capabilities protocol = Ok (status, reason) /\
    dict_find "selection_status" selection = Some (PStr status) }.

Lemma select_case_inv case capabilities protocol connector selection :
  select_catalog_case fs case_catalog_schema fuel exception_text case capabilities protocol connector = Ok selection ->
  selects capabilities protocol case selection.
Proof.
  unfold select_catalog_case. destruct (negb (str_in protocol _)); [done|].
  destruct (required_capability_names case) as [names|] eqn:En; [|done].
  destruct (required_states names capabilities) as [s|] eqn:Es; [|done].
  destruct (dict_item "case_id" case) as [id|] eqn:Ei; [|done]. destruct (dict_item "phase" case) as [phase|]; [|done].
  destruct (selection_verdict _ _ _ _) as [[status reason]|] eqn:Ev; [|done]. cbv zeta.
  destruct (native_invocation_for_case _ _ _ _) as [native|]; [|done].
  destruct (if is_none native then _ else _) as [native'|]; [|done].
  destruct (derived_invocation_for_case _ _ _ _) as [derived|]; [|done]. intros H. apply Ok_inj in H as <-.
  apply dict_item_Ok in Ei. constructor.
  - rewrite !with_invocation_find by done. cbn. by rewrite Ei.
  - apply dict_has_find. by exists id.
  - match goal with |- context [with_invocation "config_invocation" ?v ?d] =>
      destruct (with_invocation_keys "config_invocation" v d _ eq_refl) as (n1 & E1 & N1 & I1);
        [apply str_nodup_NoDup; reflexivity|intros Hin; apply str_in_In in Hin; discriminate Hin|] end.
    match type of E1 with str_keys ?d = _ =>
      destruct (with_invocation_keys "native_invocation" native' d n1 E1 N1) as (n2 & E2 & N2 & I2);
        [intros Hin; destruct (I1 _ Hin) as [Hin'|]; [apply str_in_In in Hin'; discriminate Hin'|done]|] end.
    match type of E2 with str_keys ?d = _ =>
      destruct (with_invocation_keys "derived_invocation" derived d n2 E2 N2) as (n3 & E3 & N3 & _);
        [intros Hin; destruct (I2 _ Hin) as [Hin'|]; [destruct (I1 _ Hin') as [Hin''|]; [apply str_in_In in Hin''; discriminate Hin''|done]|done]|] end.
    by exists n3.
  - exists names, s, reason, status. rewrite !with_invocation_find by done. done.
Qed.

(** ** Runnable cases *)

Definition EXECUTABLE_STATES : list string := ["verified"; "implemented_not_asserted"; "configured_not_exercised"].

(** The host speaks the protocol of the case and implements what it requires. *)
Record runnable (capabilities : pydict) (protocol : string) (case : pydict) : Prop := {
  ru_protocol : protocol_profile_of case = "" \/ protocol = "any" \/ protocol = protocol_profile_of case;
  ru_states : forall l name, dict_get "required_capabilities" case = PList l -> In name (map py_str l) ->
    In (capability_state (dict_get name capabilities)) EXECUTABLE_STATES }.

Lemma required_states_eq names capabilities s : required_states names (PDict capabilities) = Ok s ->
  s = map (fun name => (name, capability_state (dict_get name capabilities))) (dedup String.eqb names).
Proof.
  unfold required_states. generalize (dedup String.eqb names) as l. intros l. revert s.
  induction l as [|n l IH]; intros s; cbn [mapM]; [by intros [= <-]|].
  unfold capability at 1. cbn [item_path]. unfold dict_item. destruct (dict_find n capabilities) as [v|] eqn:E; [|done].
  destruct (mapM _ l) as [r|]; [|done]. intros H. apply Ok_inj in H as <-. rewrite (IH r eq_refl). cbn [map].
  unfold dict_get at 2, dict_get_or. by rewrite E.
Qed.

Lemma some_state_false state s : some_state state s = false <-> forall p, In p s -> snd p <> state.
Proof.
  unfold some_state. split.
  - intros H p Hp E. assert (existsb (fun p => String.eqb (snd p) state) s = true);
      [|congruence]. apply existsb_exists. exists p. split; [done|]. by apply String.eqb_eq.
  - intros H. destruct (existsb _ s) eqn:E; [|done]. apply existsb_exists in E as (p & Hp & E). apply String.eqb_eq in E. by destruct (H p Hp).
Qed.

Lemma selected_states s : selection_status_for_states s = "SELECTED" <->
  forall p, In p s -> ~ In (snd p) ["unsupported_by_host_model"; "not_applicable"; "not_implemented"].
Proof.
  unfold selection_status_for_states.
  destruct (some_state "unsupported_by_host_model" s) eqn:E1;
    [|destruct (some_state "not_applicable" s) eqn:E2; [|destruct (some_state "not_implemented" s) eqn:E3]];
    try (match goal with E : some_state _ s = true |- _ => apply existsb_exists in E as (p & Hp & E) end;
         split; [done|]; intros H; match goal with E : String.eqb _ _ = true |- _ => apply String.eqb_eq in E; destruct (H p Hp); rewrite E end;
         cbn; auto).
  split; [|done]. intros _ p Hp. rewrite some_state_false in E1, E2, E3. intros [H|[H|[H|[]]]]; symmetry in H;
    [by apply (E1 p)|by apply (E2 p)|by apply (E3 p)].
Qed.

Lemma selected_runnable manifest capabilities root shared protocol case selection :
  valid_manifest manifest capabilities -> declared_case fs root shared case ->
  selects (PDict capabilities) protocol case selection ->
  eq_str (dict_get "selection_status" selection) "SELECTED" = true <-> runnable capabilities protocol case.
Proof.
  intros Hm Hc [_ _ _ (names & s & reason & status & En & Es & Ev & Est)].
  unfold dict_get, dict_get_or. rewrite Est, eq_str_true.
  destruct (dc_capabilities _ _ _ _ Hc) as (l & Hl & _ & Hk).
  assert (names = map py_str l) as ->.
  { unfold required_capability_names, dict_item in En. unfold dict_get, dict_get_or in Hl.
    destruct (dict_find _ case) as [v|]; [|done]. subst v. cbn in En. by apply Ok_inj in En. }
  apply required_states_eq in Es as ->. clear En.
  assert (Hstates : selection_status_for_states (map (fun name => (name, capability_state (dict_get name capabilities)))
      (dedup String.eqb (map py_str l))) = "SELECTED" <-> forall name, In name (map py_str l) ->
        In (capability_state (dict_get name capabilities)) EXECUTABLE_STATES).
  { rewrite selected_states. split.
    - intros H name Hn. specialize (H (name, capability_state (dict_get name capabilities))).
      pose proof (vm_states _ _ Hm name (Hk _ Hn)) as Hv. cbn in Hv |- *. cbn in H.
      assert (Hin : In (name, capability_state (dict_get name capabilities))
        (map (fun name => (name, capability_state (dict_get name capabilities))) (dedup String.eqb (map py_str l))))
        by (apply in_map_iff; exists name; split; [done|by apply dedup_In; [apply String.eqb_eq|]]).
      specialize (H Hin). intuition congruence.
    - intros H p Hp. apply in_map_iff in Hp as (name & <- & Hn). apply dedup_In in Hn; [|apply String.eqb_eq].
      specialize (H _ Hn). cbn in H |- *. intros Hbad.
      destruct H as [E|[E|[E|[]]]]; rewrite <- E in Hbad; repeat destruct Hbad as [Hbad|Hbad]; done. }
  unfold selection_verdict in Ev.
  destruct (String.eqb_spec (protocol_profile_of case) "") as [E|E];
    [|destruct (String.eqb_spec protocol "any") as [E'|E']; [|destruct (String.eqb_spec protocol (protocol_profile_of case)) as [E''|E'']]];
    cbn in Ev.
  4: { injection Ev as <- _. split; [done|]. intros [[H|[H|H]] _]; done. }
  all: destruct (selection_reason _ _) as [why|]; [|done]; injection Ev as <- _.
  all: split; [intros [= H]; constructor; [auto|]; intros l' name Hl'|intros [_ H]; f_equal; apply Hstates; intros name; by apply H].
  all: assert (l' = l) as -> by congruence; by apply Hstates.
Qed.

(** ** The plan of a selection *)

Lemma select_cases_inv generated_at connector manifest catalog stage profile protocol expected capabilities :
  select_cases fs case_catalog_schema fuel exception_text generated_at connector manifest catalog stage profile protocol = Ok expected ->
  dict_get "capabilities" manifest = PDict capabilities ->
  exists cases selections, selected_catalog_cases catalog stage = Ok cases /\
    Forall2 (selects (PDict capabilities) protocol) cases selections /\
    dict_find "cases" expected = Some (PList (map PDict selections)).
Proof.
  unfold select_cases. intros H Hcap. destruct (negb (str_in protocol _)); [discriminate H|].
  destruct (normalize_artifact_profile profile) as [p|]; [|discriminate H].
  destruct (validate_selection_profile _ _ _) as [[]|]; [|discriminate H]. cbv zeta in H.
  destruct (guard _ _) as [[]|]; [|discriminate H].
  unfold dict_item in H. unfold dict_get, dict_get_or in Hcap. destruct (dict_find "capabilities" manifest) as [v|]; [|discriminate H]. subst v.
  destruct (if String.eqb connector "nginx" then _ else _) as [[]|]; [|discriminate H].
  destruct (selected_catalog_cases catalog stage) as [cases|]; [|discriminate H].
  destruct (mapM _ cases) as [selections|] eqn:Em; [|discriminate H].
  destruct (if _ && _ && _ then _ else _) as [[]|]; [|discriminate H]. apply Ok_inj in H as <-.
  exists cases, selections. split; [done|]. split; [|done].
  apply mapM_Ok_Forall2 in Em. eapply Forall2_impl; [exact Em|]. intros case selection Hs. cbn in Hs. by eapply select_case_inv.
Qed.

(** The entries of a stored plan that equals a fresh one. *)
Lemma plan_cases_equal plan expected selections : plans_have_matching_semantics plan expected = true ->
  dict_find "cases" expected = Some (PList (map PDict selections)) ->
  exists items, dict_get "cases" plan = PList items /\ Forall2 (fun a b => py_eq a b = true) items (map PDict selections).
Proof.
  intros H He. unfold plans_have_matching_semantics, plan_semantics in H. cbn [map app combine forallb fst snd] in H.
  do 8 apply andb_true_iff in H as [_ H]. apply andb_true_iff in H as [H _].
  unfold dict_get at 2, dict_get_or in H. rewrite He in H.
  destruct (dict_get "cases" plan) as [| | | | |items|]; try discriminate H. exists items. split; [done|]. by apply py_eq_list.
Qed.

Definition entry_for (capabilities : pydict) (protocol : string) (case d : pydict) : Prop :=
  case_id_of d = case_id_of case /\
  (eq_str (dict_get "selection_status" d) "SELECTED" = true <-> runnable capabilities protocol case).

Lemma stored_entry manifest capabilities root shared protocol case selection item :
  valid_manifest manifest capabilities -> declared_case fs root shared case -> is_str (dict_get "case_id" case) = true ->
  selects (PDict capabilities) protocol case selection -> py_eq item (PDict selection) = true ->
  (forall d, item = PDict d -> object_keys d) ->
  exists d, item = PDict d /\ entry_for capabilities protocol case d.
Proof.
  intros Hm Hc Hid Hs He Hk. destruct item as [| | | | | |d]; try discriminate He. exists d. split; [done|].
  pose proof (selected_runnable _ _ _ _ _ _ _ Hm Hc Hs) as Hr. destruct Hs as [Ei _ Ek (names & s & reason & status & _ & _ & _ & Est)].
  pose proof (py_eq_dict_find d selection "case_id" (Hk d eq_refl) Ek He) as E1.
  pose proof (py_eq_dict_find d selection "selection_status" (Hk d eq_refl) Ek He) as E2.
  rewrite Ei in E1. rewrite Est in E2. unfold dict_get, dict_get_or in Hr, Hid. rewrite Est in Hr. split.
  - unfold case_id_of, dict_get, dict_get_or. destruct (dict_find "case_id" case) as [v|]; [|done].
    destruct (dict_find "case_id" d) as [w|]; [|done]. destruct v as [| | | |t| |]; try done. by apply py_eq_text in E1 as ->.
  - unfold dict_get, dict_get_or. destruct (dict_find "selection_status" d) as [w|]; [|done]. by apply py_eq_text in E2 as ->.
Qed.

Lemma stored_entries manifest capabilities root shared protocol cases selections items :
  valid_manifest manifest capabilities -> Forall2 (selects (PDict capabilities) protocol) cases selections ->
  (forall case, In case cases -> is_str (dict_get "case_id" case) = true) -> Forall (declared_case fs root shared) cases ->
  Forall2 (fun a b => py_eq a b = true) items (map PDict selections) -> (forall d, In (PDict d) items -> object_keys d) ->
  exists entries, items = map PDict entries /\ Forall2 (entry_for capabilities protocol) cases entries.
Proof.
  intros Hm Hf. revert items. induction Hf as [|case selection cases selections Hs Hf IH]; intros items Hids Hdecl Heq Ho.
  - inversion Heq; subst. by exists [].
  - inversion Heq as [|item ? items' ? Hi Heq']; subst. apply Forall_cons in Hdecl as [Hc Hdecl].
    destruct (stored_entry _ _ _ _ _ _ _ _ Hm Hc (Hids _ (or_introl eq_refl)) Hs Hi) as (d & -> & Hd).
    { intros d ->. apply Ho. by left. }
    destruct (IH _ (fun c H => Hids c (or_intror H)) Hdecl Heq' (fun d H => Ho d (or_intror H))) as (entries & -> & He).
    exists (d :: entries). split; [done|]. by constructor.
Qed.

(** The identifiers of the entries of a plan, and of those that are selected. *)
Lemma plan_entries plan items entries : dict_get "cases" plan = PList items -> items = map PDict entries ->
  List.NoDup (map case_id_of entries) ->
  selected_finalize_case_ids plan = Ok (map case_id_of entries) /\
  exists ids, selected_case_ids_from_plan plan = Ok ids /\ forall d, In d entries ->
    In (case_id_of d) ids <-> eq_str (dict_get "selection_status" d) "SELECTED" = true.
Proof.
  intros Hp -> Hn. assert (Hplan : planned plan = Ok entries).
  { unfold planned. unfold dict_get, dict_get_or in Hp |- *. destruct (dict_find "cases" plan); [|done]. subst. cbn. f_equal.
    clear. induction entries as [|d r IH]; [done|]. cbn. by rewrite IH. }
  assert (Hd : dedup String.eqb (map case_id_of entries) = map case_id_of entries).
  { clear -Hn. revert Hn. generalize (map case_id_of entries) as l. induction l as [|x l IH]; [done|]. intros Hn.
    inversion Hn as [|? ? Hx Hl]; subst. cbn. rewrite (IH Hl). f_equal. apply filter_all, List.Forall_forall. intros y Hy.
    destruct (String.eqb_spec x y) as [->|]; done. }
  split; [unfold selected_finalize_case_ids; by rewrite Hplan, Hd|].
  unfold selected_case_ids_from_plan, selected_plan_cases. rewrite Hplan, Hd. eexists. split; [reflexivity|].
  assert (Hlast : forall d, In d entries -> last (List.filter (fun e => String.eqb (case_id_of e) (case_id_of d)) entries) = Some d).
  { intros d Hin. destruct (last _) as [x|] eqn:E.
    - apply last_member, filter_In in E as [Hx E]. apply String.eqb_eq in E. f_equal.
      clear -Hn Hin Hx E. induction entries as [|e r IH]; [done|]. inversion Hn as [|? ? Hnin Hr]; subst.
      destruct Hin as [<-|Hin], Hx as [<-|Hx]; [done| | |by apply IH]; destruct Hnin; apply in_map_iff; eauto.
    - apply last_None in E. assert (H : In d (List.filter (fun e => String.eqb (case_id_of e) (case_id_of d)) entries))
        by (apply filter_In; by rewrite String.eqb_refl). by rewrite E in H. }
  intros d Hin. rewrite in_map_iff. split.
  - intros ((id & e) & Ei & H). apply filter_In in H as [H Hs]. apply in_map_iff in H as (id' & [= -> <-] & _). cbn in Ei, Hs. subst id.
    by rewrite (Hlast d Hin) in Hs.
  - intros Hs. exists (case_id_of d, d). split; [done|]. apply filter_In. split; [|done].
    apply in_map_iff. exists (case_id_of d). split; [by rewrite (Hlast d Hin)|by apply in_map].
Qed.
End Selected.

(** The cases of a catalog a stage plans: the smoke stage plans only the minimal ones. *)
Definition stage_cases (stage : string) (cases : list pydict) : list pydict :=
  if String.eqb stage "minimal_runtime_smoke"
  then List.filter (fun case => str_in (case_id_of case) MINIMAL_RUNTIME_CASE_IDS) cases else cases.

Lemma stage_cases_incl stage cases : incl (stage_cases stage cases) cases.
Proof. unfold stage_cases. destruct (String.eqb _ _); [|apply incl_refl]. intros c Hc. by apply List.filter_In in Hc as [Hc _]. Qed.

Lemma stage_cases_distinct stage cases : List.NoDup (map case_id_of cases) -> List.NoDup (map case_id_of (stage_cases stage cases)).
Proof.
  unfold stage_cases. destruct (String.eqb _ _); [|done]. generalize (fun case : pydict => str_in (case_id_of case) MINIMAL_RUNTIME_CASE_IDS).
  intros keep. induction cases as [|c cases IH]; [done|]. cbn [map List.filter]. intros H.
  inversion H as [|? ? Hn Hd]; subst. destruct (keep c); [|by apply IH]. cbn [map]. constructor; [|by apply IH].
  intros Hin. apply Hn. apply in_map_iff in Hin as (x & <- & Hx). apply in_map. by apply List.filter_In in Hx as [Hx _].
Qed.

Lemma filterM_pure {A} (f : A -> res bool) (g : A -> bool) l : (forall x, In x l -> f x = Ok (g x)) ->
  filterM f l = Ok (List.filter g l).
Proof.
  unfold filterM. induction l as [|x l IH]; intros H; [done|]. cbn. rewrite (H x (or_introl eq_refl)).
  assert (Hl : forall y, In y l -> f y = Ok (g y)) by (intros y Hy; apply H; by right). apply IH in Hl.
  destruct (mapM _ l) as [ls|]; [|done]. apply Ok_inj in Hl. cbn. rewrite Hl. by destruct (g x).
Qed.

Lemma selected_stage_cases catalog stage cases planned : catalog_cases catalog = Ok cases ->
  (forall case, In case cases -> is_str (dict_get "case_id" case) = true) ->
  selected_catalog_cases catalog stage = Ok planned -> planned = stage_cases stage cases.
Proof.
  unfold selected_catalog_cases, stage_cases. intros -> Hids. destruct (String.eqb _ _); [|intros H; by apply Ok_inj in H].
  intros H. apply Ok_inj. rewrite <- H. apply filterM_pure. intros c Hc. specialize (Hids c Hc). unfold dict_get, dict_get_or in Hids.
  destruct (dict_find "case_id" c) as [v|] eqn:Ev; [|done]. assert (Hv : dict_item "case_id" c = Ok v) by by apply dict_item_Ok.
  rewrite Hv. destruct v as [| | | |id| |]; try done. f_equal.
  unfold case_id_of, dict_get, dict_get_or. rewrite Ev. unfold text_of. cbn. by destruct (String.eqb_spec id "") as [->|].
Qed.

(** C23: a stored plan that passes the check against the capability inventory plans the
    cases of the catalog, in its order, and selects exactly those a host can run: it speaks
    the protocol the case asks for and implements every capability the case requires.  In
    the stage [minimal_runtime_smoke] these are the cases of the minimal list alone, in any
    other stage all of them.  The entries of the plan are objects and the identifiers of the
    catalog texts. *)
Theorem stored_plan_selects fs case_catalog_schema fuel exception_text generated_at plan connector manifest catalog stage
    profile declared cases capabilities :
  plan_capability_errors fs case_catalog_schema fuel exception_text generated_at plan connector manifest catalog stage profile = Ok [] ->
  validate_catalog fs catalog = Ok [] -> catalog_cases catalog = Ok cases ->
  validate_capability_manifest manifest declared = [] -> dict_get "capabilities" manifest = PDict capabilities ->
  (forall case, In case cases -> is_str (dict_get "case_id" case) = true) ->
  (forall items d, dict_get "cases" plan = PList items -> In (PDict d) items -> object_keys d) ->
  selected_finalize_case_ids plan = Ok (map case_id_of (stage_cases stage cases)) /\
  exists ids, selected_case_ids_from_plan plan = Ok ids /\ forall case, In case (stage_cases stage cases) ->
    In (case_id_of case) ids <-> runnable capabilities (text_or "any" (dict_get "downstream_protocol" plan)) case.
Proof.
  intros Hp Hv Hcases Hm Hcap Hids Hobjects.
  destruct (valid_catalog_facts fs catalog Hv) as (cases' & Hw). assert (cases' = cases) as -> by (pose proof (vc_cases _ _ _ Hw); congruence).
  destruct (manifest_nil _ _ Hm) as (capabilities' & Hman).
  assert (capabilities' = capabilities) as -> by (pose proof (vm_capabilities _ _ Hman); congruence).
  destruct (vc_declared _ _ _ Hw) as (root & shared & _ & Hdecl).
  unfold plan_capability_errors in Hp. set (protocol := text_or _ _) in *.
  unfold validate_plan_against_capabilities in Hp.
  destruct (select_cases _ _ _ _ _ _ _ _ _ _ _) as [expected|[]] eqn:Es; try discriminate Hp.
  destruct (plans_have_matching_semantics plan expected) eqn:Ematch; [|discriminate Hp]. clear Hp.
  destruct (select_cases_inv _ _ _ _ _ _ _ _ _ _ _ _ _ Es Hcap) as (cases' & selections & Hsel & Hf & He).
  apply (selected_stage_cases _ _ _ _ Hcases Hids) in Hsel as ->.
  pose proof (stage_cases_incl stage cases) as Hsub. pose proof (stage_cases_distinct stage cases (vc_distinct _ _ _ Hw)) as Hdistinct.
  assert (Hdecl' : Forall (declared_case fs root shared) (stage_cases stage cases)).
  { rewrite List.Forall_forall in *. intros c Hc. by apply Hdecl, Hsub. }
  destruct (plan_cases_equal _ _ _ Ematch He) as (items & Hitems & Heq). specialize (Hobjects items).
  destruct (stored_entries fs _ _ _ _ _ _ _ _ Hman Hf (fun c Hc => Hids c (Hsub c Hc)) Hdecl' Heq (fun d => Hobjects d Hitems)) as (entries & -> & Hent).
  assert (Emap : map case_id_of entries = map case_id_of (stage_cases stage cases)).
  { clear -Hent. induction Hent as [|c d l m [H _] _ IH]; [done|]. cbn. by rewrite H, IH. }
  destruct (plan_entries plan _ entries Hitems eq_refl) as (H1 & ids & H2 & H3); [by rewrite Emap|].
  split; [by rewrite H1, Emap|]. exists ids. split; [done|]. intros case Hin.
  destruct (Forall2_member _ _ _ _ Hent Hin) as (d & Hd & Hid & Hsel'). rewrite <- Hsel', <- Hid. by apply H3.
Qed.

(** ** A plan made again *)

Lemma select_cases_again fs schema fuel text now now' connector manifest catalog stage profile protocol plan :
  select_cases fs schema fuel text now connector manifest catalog stage profile protocol = Ok plan ->
  select_cases fs schema fuel text now' connector manifest catalog stage profile protocol = Ok (dict_set "generated_at" (PStr now') plan) /\
  dict_get "downstream_protocol" plan = PStr protocol /\ str_in protocol DOWNSTREAM_PROTOCOLS = true.
Proof.
  unfold select_cases. destruct (str_in protocol _); [|intros H; discriminate H]. cbn [negb].
  destruct (normalize_artifact_profile profile) as [p|]; [|intros H; discriminate H].
  destruct (validate_selection_profile _ _ _) as [[]|]; [|intros H; discriminate H]. cbv zeta.
  destruct (guard _ _) as [[]|]; [|intros H; discriminate H]. destruct (dict_item _ manifest) as [v|]; [|intros H; discriminate H].
  destruct (if String.eqb connector "nginx" then _ else _) as [[]|]; [|intros H; discriminate H].
  destruct (selected_catalog_cases catalog stage) as [cases|]; [|intros H; discriminate H].
  destruct (mapM _ cases) as [selections|]; [|intros H; discriminate H].
  destruct (if _ && _ && _ then _ else _) as [[]|]; [|intros H; discriminate H]. intros H. apply Ok_inj in H as <-. done.
Qed.

(** C24: selecting again accepts the plan a selection made, whatever the clock says: the
    check of a stored plan reports nothing for the plan it was written from. *)
Theorem fresh_plan_accepted fs case_catalog_schema fuel exception_text now now' connector manifest catalog stage profile
    protocol plan :
  select_cases fs case_catalog_schema fuel exception_text now connector manifest catalog stage profile protocol = Ok plan ->
  json_value (PDict plan) = true ->
  plan_capability_errors fs case_catalog_schema fuel exception_text now' plan connector manifest catalog stage profile = Ok [].
Proof.
  intros Hs Hj. destruct (select_cases_again _ _ _ _ _ now' _ _ _ _ _ _ _ Hs) as (Hagain & Hp & Hin).
  unfold plan_capability_errors, validate_plan_against_capabilities. rewrite Hp.
  assert (text_or "any" (PStr protocol) = protocol) as ->.
  { unfold text_or. cbn. destruct (String.eqb_spec protocol "") as [->|]; [discriminate Hin|done]. }
  rewrite Hagain. enough (plans_have_matching_semantics plan (dict_set "generated_at" (PStr now') plan) = true) as -> by done.
  assert (Hsem : plan_semantics (dict_set "generated_at" (PStr now') plan) = plan_semantics plan).
  { unfold plan_semantics, dict_get, dict_get_or. cbn [map]. by rewrite !dict_find_set. }
  unfold plans_have_matching_semantics. rewrite Hsem. clear Hsem Hagain Hs.
  assert (Hv : forall field, json_value (dict_get field plan) = true).
  { intros field. cbn in Hj. apply andb_true_iff in Hj as [_ Hj]. rewrite forallb_forall in Hj. unfold dict_get, dict_get_or.
    destruct (dict_find field plan) as [v|] eqn:E; [|done]. by apply (Hj (PStr field, v)), dict_find_In. }
  unfold plan_semantics. cbn [map app combine forallb fst snd]. rewrite !py_eq_refl by auto. done.
Qed.

(** ** Part 3: a small host *)


(** ** A catalog *)

(** Every path is a file and resolves to itself. *)
Definition demo_files : catalog_files := {|
  cf_framework := {| double := false; parts := ["fw"] |}; cf_resolve := fun a => Ok a; cf_is_file := fun _ => Ok true;
  cf_is_symlink := fun _ => Ok false; cf_read := fun _ => Ok (py_join " " required_rule_contracts) |}.

Definition texts (l : list string) : pyval := PList (map PStr l).
Definition demo_defaults : pydict :=
  mkdict [("title", PStr ""); ("phase", PInt 1); ("group", PStr "full-lifecycle-all"); ("request", PDict []);
          ("required_capabilities", texts ["http3_quic"]); ("expected_result", PStr "allow"); ("expected_status", PNone);
          ("expected_rule_id", PNone); ("forbidden_event_fields", PList []);
          ("expected_event_fields", PList []);
          ("connector_applicability", PStr "capability_driven"); ("unsupported_behavior", PStr "UNSUPPORTED");
          ("evidence_requirement", PDict (mkdict [("requires_real_host", PBool true); ("accepts_synthetic_pass", PBool false)]))].

(** What a case states beyond the defaults. *)
Definition demo_special (id : string) : list (string * pyval) :=
  match entry_of id phase4_contracts with
  | Some c => [("group", PStr "late-intervention"); ("phase", PInt 4); ("expected_result", PStr (p4_result c));
               ("expected_rule_id", PInt 1100301); ("expected_status", p4_status c);
               ("required_capabilities", texts ("http3_quic" :: p4_capabilities c)); ("expected_event_fields", texts (p4_fields c))]
  | None => []
  end
  ++ match entry_of id full_lifecycle_contracts with
     | Some c => [("phase", PInt (fl_phase c)); ("expected_result", PStr (fl_result c));
                  ("required_capabilities", texts ("http3_quic" :: fl_capabilities c)); ("expected_event_fields", texts (fl_fields c))]
     | None => []
     end
  ++ (if String.eqb id "phase4_deny_before_commit" then [("runner_case", PStr "deny_response_body_marker_403.yaml")] else [])
  ++ (if String.eqb id "deny_response_body_marker_403"
      then [("deprecated_alias_for", PStr "phase4_deny_before_commit");
            ("expected_result", PStr "legacy_phase4_deny_before_commit"); ("expected_status", PInt 403)] else []).
Definition demo_prerequisite (id : string) : list (string * pyval) :=
  match entry_of id scenario_prerequisites with Some p => [("required_capabilities", texts ["http3_quic"; p])] | None => [] end.
Definition demo_entry (id : string) (special : list (string * pyval)) : pyval := PDict (mkdict (("case_id", PStr id) :: special)).
Definition demo_catalog : pydict :=
  mkdict [("schema_version", PInt 1); ("catalog", PStr "no-crs-baseline"); ("full_lifecycle_artifact_profile", PStr "full_lifecycle");
          ("defaults", PDict demo_defaults);
          ("cases", PList (map (fun id => demo_entry id (demo_special id ++ demo_prerequisite id)) (dedup String.eqb (required_ids ++ FULL_LIFECYCLE_REQUIRED_IDS))
             ++ [demo_entry "plain" [("required_capabilities", texts ["phase1"; "deny"])];
                 demo_entry "over_h3" [("required_capabilities", texts ["phase1"]);
                                       ("request", PDict (mkdict [("protocol_profile", PStr "h3")]))]]))].
Definition result_or {A} (x : A) (r : res A) : A := match r with Ok y => y | Err _ => x end.
Definition demo_cases : list pydict := result_or [] (catalog_cases demo_catalog).

(** A host that implements everything but QUIC. *)
Definition demo_capabilities : pydict :=
  mkdict (map (fun name => (name, PStr (if String.eqb name "http3_quic" then "unsupported_by_host_model" else "verified"))) CAPABILITIES).
Definition demo_manifest : pydict :=
  mkdict [("schema_version", PInt 1); ("connector", PStr "envoy"); ("host_name", PStr "envoy"); ("integration_mode", PStr "ext-proc");
          ("capabilities", PDict demo_capabilities);
          ("evidence_stages", PDict (mkdict (map (fun stage => (stage, PStr "not_executed")) EVIDENCE_STAGES)))].

Definition no_text (_ : exn) : string := "".
Definition demo_selection (now : string) : res pydict :=
  select_cases demo_files PNone 9 no_text now "envoy" demo_manifest demo_catalog "no_crs_baseline" PNone "h2".
Definition demo_plan : pydict := result_or [] (demo_selection "monday").

(** The catalog and the manifest are valid; a missing case, a synthetic pass and an escaping
    fixture are reported. *)
Example catalog_ex :
  validate_catalog demo_files demo_catalog = Ok [] /\ validate_capability_manifest demo_manifest (Some "envoy") = [] /\
  catalog_case_errors demo_files {| double := false; parts := ["fw"] |} {| double := false; parts := ["fw"] |} ["plain"]
    (dict_merge demo_defaults (mkdict [("case_id", PStr "plain"); ("request", PDict (mkdict [("fixture", PStr "/etc/passwd")]));
       ("evidence_requirement", PDict (mkdict [("requires_real_host", PBool true); ("accepts_synthetic_pass", PBool true)]))]))
  = Ok ["duplicate case_id: plain"; "plain: evidence_requirement.accepts_synthetic_pass must be false";
        "plain: request.fixture must remain under /fw"].
Proof. vm_compute. repeat split. Qed.

(** The one case without QUIC is selected, the one over HTTP/3 does not apply. *)
Example selection_ex :
  selected_case_ids_from_plan demo_plan = Ok ["plain"] /\
  map (fun id => option_map (fun d => dict_get "selection_status" d)
                   (List.find (fun d => String.eqb (case_id_of d) id)
                      (result_or [] (planned demo_plan)))) ["plain"; "over_h3"; "allow"]
  = [Some (PStr "SELECTED"); Some (PStr "NOT_APPLICABLE"); Some (PStr "UNSUPPORTED")].
Proof. vm_compute. repeat split. Qed.

(** An invocation that reuses itself through another case is reported. *)
Example cycle_ex :
  nginx_derived_invocation_graph_errors [("a", reuse "explicit_contract_reuse" ["b"; "leaf"] ""); ("b", reuse "explicit_contract_reuse" ["a"] "");
                                         ("c", reuse "native_first_byte" ["c"] "")]
  = Ok ["a: closed derived invocation reuse cycle"].
Proof. reflexivity. Qed.

Definition objects (v : pyval) : bool :=
  match v with
  | PList l => forallb (fun v => match v with
                                 | PDict d => match str_keys d with Some names => str_nodup names | None => false end
                                 | _ => true
                                 end) l
  | _ => true
  end.
Lemma objects_keys v items d : objects v = true -> v = PList items -> In (PDict d) items -> object_keys d.
Proof.
  intros H -> Hin. cbn in H. rewrite forallb_forall in H. specialize (H _ Hin). cbn in H.
  destruct (str_keys d) as [names|] eqn:E; [|done]. exists names. split; [done|]. by apply str_nodup_NoDup.
Qed.

Lemma stored_plan_selects_witness :
  exists ids, selected_case_ids_from_plan demo_plan = Ok ids /\
    forall case, In case demo_cases -> In (case_id_of case) ids <-> runnable demo_capabilities "h2" case.
Proof.
  destruct (stored_plan_selects demo_files PNone 9 no_text "tuesday" demo_plan "envoy" demo_manifest demo_catalog "no_crs_baseline"
    PNone (Some "envoy") demo_cases demo_capabilities) as [_ (ids & H1 & H2)];
    [vm_compute; reflexivity|vm_compute; reflexivity|vm_compute; reflexivity|vm_compute; reflexivity|reflexivity| | |].
  - assert (H : forallb (fun case => is_str (dict_get "case_id" case)) demo_cases = true) by (vm_compute; reflexivity).
    rewrite forallb_forall in H. exact H.
  - intros items d. apply objects_keys. vm_compute. reflexivity.
  - assert (E : text_or "any" (dict_get "downstream_protocol" demo_plan) = "h2") by (vm_compute; reflexivity).
    rewrite E in H2. exists ids. exact (conj H1 H2).
Defined.

Lemma fresh_plan_accepted_witness :
  plan_capability_errors demo_files PNone 9 no_text "tuesday" demo_plan "envoy" demo_manifest demo_catalog "no_crs_baseline" PNone = Ok [].
Proof.
  apply (fresh_plan_accepted demo_files PNone 9 no_text "monday" "tuesday" "envoy" demo_manifest demo_catalog "no_crs_baseline" PNone "h2"
    demo_plan); vm_compute; reflexivity.
Defined.
